(* ===== verification/_CoqProject ===== *)
-Q . S2P
Prelude.v
PyValue.v
PyChecks.v
Sha.v
PyRegex.v
ActionModel.v
RiskEngine.v
BlastRadius.v
ActionSimulator.v
PolicyEngine.v
PolicyProps.v
MockActions.v
ActionService.v
ActionServiceProps.v
StateMachine.v
Json.v
P118Contract.v
P118Ledger.v
P118LedgerProps.v
P118Approval.v
P118Cycle.v
P118Worker.v
P118WorkerProps.v
PyFloat.v
PyTime.v
TimeOrder.v
JsonFile.v
P121Authority.v
Components.v
P131State.v
P131Monitor.v
P131MonitorInv.v
P131Config.v
P131MonitorOps.v
Deadman.v
DeadmanModel.v
DeadmanStore.v
DeadmanRetention.v
DeadmanCheck.v
DeadmanSpec.v
DeadmanProps.v
DeadmanResume.v
DeadmanAck.v
DeadmanWitness.v
P131StateProps.v
P131MonitorSteps.v
P131MonitorProps.v
P131Witness.v
P137Checks.v
P137Contracts.v
P137ContractsProps.v
P137ContractsWitness.v
P137Handoff.v
P137Correlation.v
P137CorrelationProps.v
P137Hypotheses.v
P137HypothesesProps.v
P137Requests.v
P137RequestsProps.v
P137Classification.v
P137Ledger.v
P137LedgerProps.v
P137LabelProps.v
P137Durable.v
P137Triage.v
P137Runtime.v
P137Publisher.v
P137DurableProps.v
P137RuntimeProps.v
P137RuntimeLoopProps.v
P137RuntimeLineage.v
P137RuntimeBlocked.v
P137HandoffProps.v
P137PublisherProps.v
P137PublisherPhases.v
P137PublisherHandover.v
P137Witness.v
P137RuntimeWitness.v
P137HandoffWitness.v
P137PublisherWitness.v
