(* ===== verification/Prelude.v ===== *)
(** * OpsCat: a verification development

    OpsCat is a local operations assistant: it watches telemetry, opens
    incidents, proposes actions, asks for approvals and keeps an audit trail.
    This development models the parts of it that decide and the parts that
    remember, function by function, and proves what each promises.

    ** The parts and how they meet

    - Actions.  A proposed action is classified by the risk engine and the
      blast-radius service, dry-run by the simulator, and routed by the policy
      engine (run, wait for an approval, deny, escalate).  The action service
      keeps the approval record and runs the mock executor when the policy
      and the record let it.  Incidents move through a table of statuses.
    - P118 operations.  A local operation is an immutable envelope with a
      contract; a write-ahead ledger, a file of hash-chained entries shared
      by every process, records its status.  A worker takes a lease on it,
      checks its approval receipt and runs the validation cycle, moving the
      status through the ledger; a crashed worker's operation is recovered
      from the ledger.
    - P131 monitor and P133 dead-man outbox.  The monitor tails JSONL files
      in turns and leaves a checkpoint after each.  A watchdog, another
      process, judges the checkpoint; the dead-man outbox turns its verdicts
      into events, reminders and recoveries that operators acknowledge.
    - P137 triage.  Evidence atoms and a configuration satisfy closed
      contracts.  Atoms that are related are grouped into incidents; each
      incident gets hypotheses with integer scores, bounded requests for more
      evidence, and a classification derived from the ranking; an append-only
      investigation ledger carries the hashes of all of them from cycle to
      cycle.  The observer hands bundles of promotions over in one file; a
      run of the agent validates the bundle, converts its records to atoms,
      writes everything it finds to a journal, and commits: the next ledger,
      then the checkpoint that names it.  A run that dies between the two is
      finished by the next one.  A loop repeats runs until it is told to
      stop, fails too often or has made its cycles.

    ** Files, in order, and the code they model (all under src/app)

    - Prelude (this file): errors as [res], the bind notation of
      [py_scope], [bools] and the other shared tactics, list lemmas.
    - PyValue, PyChecks, PyRegex, PyTime, PyFloat: the Python values, the
      checks several services share, regular expressions, UTC date-times and
      sums of doubles; TimeOrder: the order of written times; Json,
      JsonFile: a document written and read back, and a file on disk; Sha:
      SHA-256, SHA-1 and [stable_hash] (services/p110_evaluation.py),
      executable; Components: the components of a relation, grown one
      element at a time.
    - ActionModel (models/action.py), RiskEngine (services/risk_engine.py),
      BlastRadius (services/blast_radius.py), ActionSimulator
      (services/action_simulator.py), PolicyEngine
      (services/policy_engine.py), MockActions (tools/mock_actions.py),
      ActionService (services/action_service.py), StateMachine
      (services/state_machine.py, services/authorization.py); their theorems
      in PolicyProps, ActionServiceProps and StateMachine.
    - P118Contract (services/p118_operation_contract.py), P118Ledger
      (p118_ledger.py), P118Approval (p118_approval.py), P118Cycle
      (p118_validation_cycle.py), P118Worker (p118_worker.py and
      p118_crash_recovery.py); theorems in the same files, in
      P118LedgerProps and in P118WorkerProps.
    - P121Authority: the authority counters of p120_governance.py and the
      exact-zero check of p121_signals.py, which every later service writes.
    - P131State (checkpoint validation, watchdog and readiness of
      p131_always_on_monitor.py), P131Monitor (its polling, cycle, schedule,
      persistence, stop and run loop), P131Config (its configuration);
      P131MonitorInv, P131MonitorOps, P131MonitorSteps carry the invariant
      through each operation; theorems in P131StateProps, P131MonitorOps,
      P131Config and P131MonitorProps, concrete runs in P131Witness.
    - Deadman (p133_deadman_outbox.py); DeadmanModel, DeadmanStore,
      DeadmanRetention, DeadmanCheck and DeadmanSpec relate its files to an
      abstract outbox of records; theorems in DeadmanProps, DeadmanResume and
      DeadmanAck, concrete runs in DeadmanWitness.
    - P137Checks (checks and orders the triage files share), P137Contracts
      (p137_contracts.py), P137Correlation (p137_correlation.py),
      P137Hypotheses (p137_hypotheses.py), P137Requests (p137_requests.py),
      P137Classification (p137_classification.py), P137Ledger
      (p137_ledger.py); theorems in the files ending in Props, of which
      P137LabelProps is about the classification; concrete runs in
      P137ContractsWitness and P137Witness.
    - P137Handoff: the validation of a bundle (p137_p136_handoff.py), from
      its bytes to the atoms of its records; P137Durable (the documents of
      the journal, what makes them hang together, checkpoint and intent),
      P137Triage (one cycle over the atoms of a handoff) and P137Runtime (the
      files, the run with its [except], and the loop) model p137_runtime.py.
      P137DurableProps: which atoms come back from the journal;
      P137RuntimeProps: what every store a run goes through has in common;
      P137RuntimeLoopProps: the loop; P137RuntimeLineage: the chain of
      checkpoint and ledger under any history; P137RuntimeBlocked: recovery,
      and the states an agent does not leave; P137HandoffProps: what the
      validator of the bundles brings; concrete runs in P137RuntimeWitness
      and P137HandoffWitness.
    - P137Publisher: the publishing half of p137_p136_handoff.py, the bundle
      put together and the publication with its intent, state and recovery.
      P137PublisherProps: the documents of a publication;
      P137PublisherPhases: the phases a publication goes through;
      P137PublisherHandover: what the validation half reads of it;
      concrete runs in P137PublisherWitness.

    A function of the source is a definition of the same name; a method takes
    its object's state and returns the next.  A call that can raise returns
    [res], with the exception's class and message; a call that writes files
    returns the files it leaves on every outcome, also when it raises.  The
    clock, the identifiers drawn, the outcome of each write and the free space
    are inputs of the calls that read them.  The P118 ledger is a function of
    the file under the lock and of the calling store's own cached entries, so
    processes interleave at the grain of one append.
    The triage's runtime writes a temporary file and renames it, which is one
    step from a store of files to the next; a process that dies at any moment
    leaves one of the stores between those steps ([possible]), and histories
    continue from any of them.

    ** What the theorems show

    - Policy: the exact condition under which an action runs unattended, with
      and without the night autopilot; production mutations wait for an
      approval, prohibited actions are denied under every alias; what is
      raised, and that every evaluation has one consistent route.
    - Action service: an executed action was authorised by the policy or by
      an approval; an approval-gated action runs at most once, a blocked one
      never; a resolved incident was executed and verified.
    - Ledger: every file its calls leave replays, with legal transitions and
      one operation per idempotency key; of two chains with the same end, the
      last entries that differ are two documents of one hash; transitions are
      compare-and-set and atomic; a terminal status is final.
    - Contract: what the authority boundary keeps out, by what a field's name
      spells and what a text shows, at any depth.
    - Worker: what runs has a receipt that validates for the operation, its
      version and its digest, and takes the path of the validation's final
      status to that status; a granted lease was free; recovery's outcome by
      the status found; the receipt of a decision validates.
    - Outbox: the calls implement an abstract outbox (a refinement), every
      store they leave loads, an interrupted check is resumed without loss or
      repetition, retention removes only what was acknowledged,
      acknowledging twice changes nothing, a bounded run ends; a temporary
      file left behind locks it.
    - Monitor: every checkpoint a run leaves loads and is taken up by the next
      run, whatever the sources, the probe, the disk and the stop requests did;
      the watchdog's verdict on a checkpoint of at most one megabyte is exactly
      the age of the last turn's heartbeat, on a larger one that its state is
      invalid, and each verdict is one the outbox classifies; a poll consumes whole
      lines once; a configuration that loads keeps its paths under its roots.

    - Triage contracts: what is built is accepted when it is validated, also
      after it was written and read back; an accepted configuration keeps its
      paths apart and its authority at zero; the windows the textual order of
      times accepts; the reason code that can never be used.
    - Triage: incidents are exactly the connected components of the relation
      between atoms and keep every atom, whatever the order of the input; a
      score is bounded and a vote follows the atom; the ranking orders every
      hypothesis; a request selects within its limits and is executed once;
      the label refines the ranking; an advance of the ledger appends to
      exactly the ledger that was expected.
    - Triage runtime: whatever the handoffs, signals and crashes, records of
      the journal are never changed, checkpoint and ledger move by one commit
      at a time, and after any history they can be read again, the ledger
      being the one the checkpoint names or its successor; a result that is
      ok is on disk; recovery writes the very checkpoint the dead run was
      about to write; a loop is bounded.  And the states that are left no
      more: an atom without preview hash, a first cycle without incidents,
      two intents for one bundle, a stale readiness, version polling.
    - Publisher: after any history of publications, recoveries and crashes
      the bundle at the fixed path moves along one chain, and a recovery
      publishes the very bundle of the intent that was left; what is published is framed, canonical and has an envelope
      the triage accepts, and the bytes put in come back; a bundle above the
      limit of the reader is the last.

    Nothing assumes the hash injective: the theorem on the ledger's chain
    names the two entries that would have to collide, and those on the outbox
    ask that no event already names the identifier that is about to be made as
    its predecessor ([fresh_identifier]).

    ** Fuel

    The scanners of text ([replace], [sub]) take the length of the text, and
    each step consumes a character.  A year is found from a day number with
    the largest year as fuel, which [civil_range] values do not exceed.
    [read_lines] reads a file's tail with fuel one above the file's length,
    and [poll_reads_whole_lines_once] shows it enough.  The digits of a float
    are searched from one digit to past the seventeen that always suffice.
    [run] of the dead-man outbox and of the monitor recurse on the list of the
    environment's answers, one per check or turn.

    ** Parameters

    - [decode] (P131Monitor): [json.loads] of a line's UTF-8 text, [None] when
      it raises; the theorems hold for every [decode].
    - [resolve] (P131Config): [Path.expanduser] and [Path.resolve], which ask
      the file system; the theorems hold for every [resolve].
    - [json_loads] and [observer] (P137Handoff): [json.loads], and the four
      validators of the P136 observer, each of which raises or not; the
      theorems hold for all of them, those on the publisher for all whose
      release validator accepts a document again that was written and read
      back ([StableObserver]).
    - The evaluator's injector of crashes (P137Publisher) raises or not at
      each phase.
    - [rq_validator] (P137Runtime): the validator a run is given.  The theorem
      on histories asks that its result names a bundle hash and a positive
      sequence number ([HonestValidator]); that of P137Handoff is shown to be an
      instance.
    - The watchdog's verdict in Deadman is an input;
      [watchdog_verdict_is_understood] composes it with P131's.

    ** Not modelled

    - Of the modelled files: file locks and leases on directories (a call is
      one step), symbolic links, permissions, descriptor identity and fsync;
      that a file changes during a poll; the removal of an event and of its
      acknowledgement is one step; a process of the monitor or of the outbox
      that is killed inside a write, where it leaves a temporary file behind
      (their writes fail before the replacement or after it, and the source
      then removes the file); naive date-times and the ISO forms the
      services do not write; the rounding of ages and schedules to doubles
      (they are exact rationals); NaN and infinities; integers of more than
      4,300 digits; characters above U+00FF; [dict()] of pairs; P133's
      configuration file.
    - P118's action pack verifier and evaluator: they rest on the P115
      ontology and on fixture corpora; the approval takes the verifier's
      result as its argument.
    - The HTTP API, the database services and the connectors: framework calls
      and network clients around the services above.
    - Of the triage: the text of the lease files, the handlers that set the
      stop flag, and the command line; the negative zero and the rounding of
      ages.
    - Forecasting, the other programmes after P133, benchmarks and release
      evidence: large services of their own, listed as not modelled. *)

From Stdlib Require Export ZArith QArith Lia Bool Ascii String DecimalString.
From Stdlib Require Export Permutation Sorted.
From stdpp Require Export base list strings.

#[global] Open Scope string_scope.
#[global] Open Scope Z_scope.
#[global] Open Scope list_scope.
#[global] Open Scope bool_scope.

Declare Scope py_scope.
Delimit Scope py_scope with py.
#[global] Open Scope py_scope.

(** ** Exceptions and the error monad *)

(** A raised Python exception: the class and the message it carries. *)
Record exn := Exn { exn_class : string; exn_msg : string }.

#[global] Instance exn_eq_dec : EqDecision exn.
Proof. solve_decision. Defined.

(** The outcome of a call that may raise. *)
Inductive res (A : Type) :=
  | Ok (a : A)
  | Raise (e : exn).
Arguments Ok {A} a.
Arguments Raise {A} e.

Definition bind {A B} (m : res A) (k : A -> res B) : res B :=
  match m with
  | Ok a => k a
  | Raise e => Raise e
  end.

Notation "'let!' x := m 'in' k" := (bind m (fun x => k))
  (at level 10, x pattern, m at level 100, k at level 200) : py_scope.

(** [if not b: raise e] *)
Definition ensure (b : bool) (e : exn) : res unit :=
  if b then Ok tt else Raise e.

Definition is_ok {A} (m : res A) : bool :=
  match m with Ok _ => true | Raise _ => false end.

(** The value of a call known to return. *)
Definition from_ok {A} (d : A) (m : res A) : A :=
  match m with Ok a => a | Raise _ => d end.

Lemma from_ok_eq {A} (d : A) m : is_ok m = true -> m = Ok (from_ok d m).
Proof. by destruct m. Qed.

Fixpoint mapM {A B} (f : A -> res B) (l : list A) : res (list B) :=
  match l with
  | [] => Ok []
  | x :: l => let! y := f x in let! ys := mapM f l in Ok (y :: ys)
  end.

Fixpoint iterM {A} (f : A -> res unit) (l : list A) : res unit :=
  match l with
  | [] => Ok tt
  | x :: l => let! _ := f x in iterM f l
  end.

#[global] Instance Ok_inj A : Inj (=) (=) (@Ok A).
Proof. by intros x y [= ->]. Qed.

Lemma bind_ok {A B} (m : res A) (k : A -> res B) b :
  bind m k = Ok b <-> exists a, m = Ok a /\ k a = Ok b.
Proof. destruct m; simpl; naive_solver. Qed.

Lemma bind_run {A B} (m : res A) (k : A -> res B) a b : m = Ok a -> k a = Ok b -> bind m k = Ok b.
Proof. by intros ->. Qed.

Lemma bind_raise {A B} (m : res A) (k : A -> res B) e :
  bind m k = Raise e <-> m = Raise e \/ exists a, m = Ok a /\ k a = Raise e.
Proof. destruct m; simpl; naive_solver. Qed.

Lemma ensure_ok b e u : ensure b e = Ok u <-> b = true.
Proof. destruct b, u; simpl; naive_solver. Qed.

Lemma ensure_run b e : b = true -> ensure b e = Ok tt.
Proof. by intros ->. Qed.

Lemma ensure_raise b e e' : ensure b e = Raise e' <-> b = false /\ e = e'.
Proof. destruct b; simpl; naive_solver. Qed.

Lemma iterM_ok {A} (f : A -> res unit) l :
  iterM f l = Ok tt <-> Forall (fun x => f x = Ok tt) l.
Proof.
  induction l as [|x l IH]; simpl; [naive_solver|].
  rewrite bind_ok, Forall_cons, <- IH. split.
  - intros ([] & ? & ?); auto.
  - intros [? ?]; eauto.
Qed.

Lemma mapM_ok {A B} (f : A -> res B) l l' :
  mapM f l = Ok l' <-> Forall2 (fun x y => f x = Ok y) l l'.
Proof.
  revert l'. induction l as [|x l IH]; intros l'; simpl.
  - split; [intros [= <-]; constructor | inversion 1; reflexivity].
  - rewrite bind_ok. split.
    + intros (y & Hy & H). apply bind_ok in H as (ys & Hys & [= <-]).
      constructor; [done|]. by apply IH.
    + inversion 1 as [|? y ? ys ? Hf]; subst. exists y. split; [done|].
      apply IH in Hf. by rewrite Hf.
Qed.

(** ** Inversion of monadic equations

    [inv_res] turns every hypothesis about the outcome of a [bind] or a
    [ensure] into hypotheses about its parts. *)
Ltac inv_res_step :=
  match goal with
  | H : Ok _ = Ok _ |- _ => injection H as H; try subst
  | H : Raise _ = Raise _ |- _ => injection H as H; try subst
  | H : Ok _ = Raise _ |- _ => discriminate H
  | H : Raise _ = Ok _ |- _ => discriminate H
  | H : bind _ _ = Ok _ |- _ =>
      let a := fresh "a" in let H1 := fresh H in let H2 := fresh H in
      apply bind_ok in H as (a & H1 & H2)
  | H : ensure _ _ = Ok _ |- _ => apply ensure_ok in H
  | H : ensure _ _ = Raise _ |- _ => apply ensure_raise in H as [H ?]; try subst
  end.
Ltac inv_res := repeat (inv_res_step; simpl in * ).

(** ** Booleans *)

(** [bools] splits conjunctions of boolean hypotheses and turns boolean
    comparisons into propositions. *)
Ltac bools :=
  repeat match goal with
  | H : (_ && _) = true |- _ => apply andb_true_iff in H as [? ?]
  | H : (_ || _) = false |- _ => apply orb_false_iff in H as [? ?]
  | H : negb _ = true |- _ => apply negb_true_iff in H
  | H : negb _ = false |- _ => apply negb_false_iff in H
  | H : (_ =? _)%string = true |- _ => apply String.eqb_eq in H
  | H : (_ =? _)%string = false |- _ => apply String.eqb_neq in H
  | H : (_ =? _)%Z = true |- _ => apply Z.eqb_eq in H
  | H : (_ =? _)%Z = false |- _ => apply Z.eqb_neq in H
  | H : (_ <? _)%Z = true |- _ => apply Z.ltb_lt in H
  | H : (_ <? _)%Z = false |- _ => apply Z.ltb_ge in H
  | H : (_ <=? _)%Z = true |- _ => apply Z.leb_le in H
  | H : (_ <=? _)%Z = false |- _ => apply Z.leb_gt in H
  end.

(** [cases] case-splits every [if] and [match] of the goal, keeping the
    equations; [cases_in H] those of a hypothesis. *)
Ltac cases :=
  repeat (case_match; simpl in *; simplify_eq; try done).

(** ** Strings as sequences of Latin-1 code points *)

Infix "=s" := String.eqb (at level 70, no associativity) : py_scope.

Lemma eqs_spec (a b : string) : reflect (a = b) (a =s b).
Proof. apply String.eqb_spec. Qed.

Lemma eqs_refl (a : string) : (a =s a) = true.
Proof. apply String.eqb_refl. Qed.

(** [x in (…)] over a tuple or set of strings. *)
Definition mem (x : string) (l : list string) : bool := existsb (String.eqb x) l.

Lemma mem_In x l : mem x l = true <-> In x l.
Proof.
  unfold mem. rewrite existsb_exists. split.
  - intros (y & Hy & E). apply String.eqb_eq in E. by subst.
  - intros H. exists x. split; [done|apply String.eqb_refl].
Qed.

Lemma mem_not_In x l : mem x l = false <-> ~ In x l.
Proof. rewrite <- mem_In. destruct (mem x l); naive_solver. Qed.

Definition code (c : ascii) : N := N_of_ascii c.

(** [s.startswith(p)] *)
Definition startswith (p s : string) : bool := String.prefix p s.

(** [p in s] for strings *)
Fixpoint contains (p s : string) : bool :=
  String.prefix p s ||
  match s with
  | EmptyString => false
  | String _ s => contains p s
  end.

Definition contains_any (ps : list string) (s : string) : bool :=
  existsb (fun p => contains p s) ps.

Definition between (lo hi n : N) : bool := (lo <=? n)%N && (n <=? hi)%N.

(** [str.lower] on one Latin-1 code point. *)
Definition lower_ascii (c : ascii) : ascii :=
  let n := code c in
  if between 65 90 n || between 192 214 n || between 216 222 n
  then ascii_of_N (n + 32) else c.

Fixpoint map_string (f : ascii -> ascii) (s : string) : string :=
  match s with
  | EmptyString => EmptyString
  | String c s => String (f c) (map_string f s)
  end.

Definition lower (s : string) : string := map_string lower_ascii s.

(** The Latin-1 code points for which [str.isspace] holds; also what [\s]
    matches. *)
Definition is_space (c : ascii) : bool :=
  let n := code c in
  between 9 13 n || between 28 32 n || (n =? 133)%N || (n =? 160)%N.

Fixpoint lstrip (s : string) : string :=
  match s with
  | EmptyString => EmptyString
  | String c s' => if is_space c then lstrip s' else s
  end.

Fixpoint rstrip (s : string) : string :=
  match s with
  | EmptyString => EmptyString
  | String c s' =>
      match rstrip s' with
      | EmptyString => if is_space c then EmptyString else String c EmptyString
      | r => String c r
      end
  end.

Definition strip (s : string) : string := rstrip (lstrip s).

Definition is_empty (s : string) : bool := s =s "".

(** [sep.join(l)] *)
Fixpoint str_join (sep : string) (l : list string) : string :=
  match l with
  | [] => ""
  | [x] => x
  | x :: l => x +:+ sep +:+ str_join sep l
  end.

(** [s.replace(old, new)] for a non-empty [old]; the fuel is the length of
    the string, and every step consumes at least one character. *)
Fixpoint replace_fuel (fuel : nat) (old new s : string) : string :=
  match fuel, s with
  | S fuel, String c s' =>
      if startswith old s
      then new +:+ replace_fuel fuel old new (String.substring (String.length old) (String.length s) s)
      else String c (replace_fuel fuel old new s')
  | _, _ => s
  end.

Definition replace (old new s : string) : string :=
  replace_fuel (String.length s) old new s.

Definition Z_to_string (z : Z) : string := NilZero.string_of_int (Z.to_int z).

Definition nl : string := String (ascii_of_N 10) EmptyString.

Definition dquote : string := String (ascii_of_N 34) EmptyString.

(** ** Insertion sort: [sorted(l, key=…)] is stable *)

Section Sort.
Context {A : Type} (leb : A -> A -> bool).

Fixpoint insert (x : A) (l : list A) : list A :=
  match l with
  | [] => [x]
  | y :: l' => if leb x y then x :: l else y :: insert x l'
  end.

Fixpoint isort (l : list A) : list A :=
  match l with
  | [] => []
  | x :: l => insert x (isort l)
  end.

Lemma insert_perm x l : Permutation (insert x l) (x :: l).
Proof.
  induction l as [|y l IH]; simpl; [done|].
  destruct (leb x y); [done|]. rewrite IH. apply perm_swap.
Qed.

Lemma isort_perm l : Permutation (isort l) l.
Proof. induction l as [|x l IH]; simpl; [done|]. by rewrite insert_perm, IH. Qed.

Lemma in_isort x l : In x (isort l) <-> In x l.
Proof. split; apply Permutation_in; [|symmetry]; apply isort_perm. Qed.

Lemma insert_sorted x l :
  (forall a b, leb a b = true \/ leb b a = true) -> Sorted (fun a b => leb a b = true) l ->
  Sorted (fun a b => leb a b = true) (insert x l).
Proof.
  intros Ht. induction 1 as [|y l Hl IH Hy]; simpl; [by repeat constructor|].
  destruct (leb x y) eqn:E; [by repeat constructor|]. constructor; [done|].
  assert (Hyx : leb y x = true) by (destruct (Ht x y); congruence).
  destruct l as [|z l]; simpl; [by constructor|]. inversion Hy; subst.
  destruct (leb x z); by constructor.
Qed.

Lemma isort_sorted l :
  (forall a b, leb a b = true \/ leb b a = true) -> Sorted (fun a b => leb a b = true) (isort l).
Proof. intros Ht. induction l as [|x l IH]; simpl; [constructor | by apply insert_sorted]. Qed.

Lemma length_isort l : List.length (isort l) = List.length l.
Proof. apply Permutation_length, isort_perm. Qed.
End Sort.

Definition sorted_strings (l : list string) : list string := isort String.leb l.

Lemma filter_sublist {A} (p : A -> bool) l : List.filter p l `sublist_of` l.
Proof. induction l as [|x l IH]; simpl; [constructor|]. by destruct (p x); constructor. Qed.

(** Entries with the same image, where images are distinct. *)
Lemma NoDup_map_eq {A B} (f : A -> B) (l : list A) x y :
  NoDup (map f l) -> In x l -> In y l -> f x = f y -> x = y.
Proof.
  induction l as [|z l IH]; [done|]. simpl. rewrite NoDup_cons, list_elem_of_In, in_map_iff.
  intros [Hz Hl] [->|Hx] [->|Hy] Hf; [done| | |by apply IH]; exfalso; apply Hz; eauto.
Qed.

Lemma forallb_ext {A} (f g : A -> bool) l : (forall x, f x = g x) -> forallb f l = forallb g l.
Proof. intros H. induction l as [|x l IH]; simpl; [done|]. by rewrite H, IH. Qed.

(** ** Dictionaries

    A Python [dict] with string keys is an association list in insertion
    order; [dget] is [d.get(k)], [dset] is [d[k] = v]. *)
Section Dict.
Context {V : Type}.

Fixpoint dget (d : list (string * V)) (k : string) : option V :=
  match d with
  | [] => None
  | (k', v) :: d => if k =s k' then Some v else dget d k
  end.

Fixpoint dset (d : list (string * V)) (k : string) (v : V) : list (string * V) :=
  match d with
  | [] => [(k, v)]
  | (k', v') :: d' => if k =s k' then (k', v) :: d' else (k', v') :: dset d' k v
  end.

(** [{key: value for key, value in d.items() if key not in ks}] *)
Definition dwithout (ks : list string) (d : list (string * V)) : list (string * V) :=
  List.filter (fun kv => negb (mem kv.1 ks)) d.

Definition dkeys (d : list (string * V)) : list string := map fst d.

Definition dmem (k : string) (d : list (string * V)) : bool := mem k (dkeys d).

(** No key occurs twice, as in every Python dictionary. *)
Definition dict_wf (d : list (string * V)) : Prop := NoDup (dkeys d).

Lemma dget_In d k v : dget d k = Some v -> In (k, v) d.
Proof.
  induction d as [|[k' v'] d IH]; simpl; [done|].
  destruct (eqs_spec k k'); [intros [= ->]; subst; auto | auto].
Qed.

Lemma dget_dmem d k : dmem k d = true <-> exists v, dget d k = Some v.
Proof.
  unfold dmem. induction d as [|[k' v'] d IH]; simpl.
  - split; [done | intros [? ?]; done].
  - destruct (eqs_spec k k'); simpl; [naive_solver | apply IH].
Qed.

Lemma dget_dset d k k' v :
  dget (dset d k v) k' = if k' =s k then Some v else dget d k'.
Proof.
  induction d as [|[k0 v0] d IH]; simpl.
  - by destruct (eqs_spec k' k).
  - destruct (eqs_spec k k0) as [->|]; simpl.
    + by destruct (eqs_spec k' k0).
    + rewrite IH. destruct (eqs_spec k' k0) as [->|]; [|done].
      destruct (eqs_spec k0 k); [congruence|done].
Qed.

Lemma dget_dwithout d ks k :
  dget (dwithout ks d) k = if mem k ks then None else dget d k.
Proof.
  unfold dwithout. induction d as [|[k0 v0] d IH]; simpl.
  - by destruct (mem k ks).
  - destruct (mem k0 ks) eqn:E; simpl.
    + rewrite IH. destruct (eqs_spec k k0) as [->|]; [|done]. by rewrite E.
    + destruct (eqs_spec k k0) as [->|]; [by rewrite E | apply IH].
Qed.

Lemma In_dget d k v : dict_wf d -> In (k, v) d -> dget d k = Some v.
Proof.
  unfold dict_wf. induction d as [|[k' v'] d IH]; simpl; [done|].
  rewrite NoDup_cons. intros [Hn Hd] [[= -> ->]|H].
  - by rewrite eqs_refl.
  - destruct (eqs_spec k k') as [->|]; [|auto].
    exfalso. apply Hn, list_elem_of_In, in_map_iff. by exists (k', v).
Qed.
End Dict.

Create HintDb py discriminated.
Create Rewrite HintDb py.
#[export] Hint Rewrite @dget_dset @dget_dwithout @eqs_refl : py.
#[export] Hint Resolve dget_In eqs_refl : py.
