(* ===== verification/PyValue.v ===== *)
(** * Python values

    The dynamically typed values the source passes around: JSON documents
    (dictionaries with string keys, lists, tuples, strings, integers, floats,
    booleans, [None]), with the built-ins the source applies to them: [bool],
    [==], [str], [repr], [int] and the canonical [json.dumps] that
    [stable_hash] hashes. *)

From S2P Require Import Prelude.
From Stdlib Require Import Qround Qabs.

(** A float is the exact rational it denotes (a finite double); only
    comparisons, truth and printing are modelled. *)
Inductive val :=
  | VNone
  | VBool (b : bool)
  | VInt (z : Z)
  | VFloat (q : Q)
  | VStr (s : string)
  | VList (l : list val)
  | VTuple (l : list val)
  | VDict (d : list (string * val)).

Abbreviation dict := (list (string * val)).

(** Induction with the hypotheses for the elements of containers. *)
Section ValInd.
Context (P : val -> Prop).
Hypothesis Hnone : P VNone.
Hypothesis Hbool : forall b, P (VBool b).
Hypothesis Hint : forall z, P (VInt z).
Hypothesis Hfloat : forall q, P (VFloat q).
Hypothesis Hstr : forall s, P (VStr s).
Hypothesis Hlist : forall l, Forall P l -> P (VList l).
Hypothesis Htuple : forall l, Forall P l -> P (VTuple l).
Hypothesis Hdict : forall d : dict, Forall (fun kv => P kv.2) d -> P (VDict d).

Fixpoint val_deep_ind (v : val) : P v :=
  let fix go (l : list val) : Forall P l :=
    match l with
    | [] => Forall_nil_2 _
    | x :: l => Forall_cons_2 _ _ _ (val_deep_ind x) (go l)
    end in
  let fix god (d : dict) : Forall (fun kv => P kv.2) d :=
    match d with
    | [] => Forall_nil_2 _
    | (k, x) :: d => Forall_cons_2 (fun kv => P kv.2) (k, x) d (val_deep_ind x) (god d)
    end in
  match v with
  | VNone => Hnone
  | VBool b => Hbool b
  | VInt z => Hint z
  | VFloat q => Hfloat q
  | VStr s => Hstr s
  | VList l => Hlist l (go l)
  | VTuple l => Htuple l (go l)
  | VDict d => Hdict d (god d)
  end.
End ValInd.

#[global] Instance Q_eq_dec : EqDecision Q.
Proof. solve_decision. Defined.

#[global] Instance val_eq_dec : EqDecision val.
Proof.
  refine (fix go v1 v2 :=
    let _ : EqDecision _ := @go in
    match v1, v2 with
    | VNone, VNone => left eq_refl
    | VBool a, VBool b => cast_if (decide (a = b))
    | VInt a, VInt b => cast_if (decide (a = b))
    | VFloat a, VFloat b => cast_if (decide (a = b))
    | VStr a, VStr b => cast_if (decide (a = b))
    | VList a, VList b => cast_if (decide (a = b))
    | VTuple a, VTuple b => cast_if (decide (a = b))
    | VDict a, VDict b => cast_if (decide (a = b))
    | _, _ => right _
    end); abstract congruence.
Defined.

(** ** Type tests *)

(** [isinstance(v, int) and not isinstance(v, bool)] *)
Definition as_int (v : val) : option Z :=
  match v with VInt z => Some z | _ => None end.

(** [isinstance(v, int)]: booleans are integers. *)
Definition as_int_or_bool (v : val) : option Z :=
  match v with
  | VInt z => Some z
  | VBool b => Some (if b then 1 else 0)%Z
  | _ => None
  end.

Definition as_str (v : val) : option string :=
  match v with VStr s => Some s | _ => None end.

(** [isinstance(v, Mapping)] *)
Definition as_dict (v : val) : option dict :=
  match v with VDict d => Some d | _ => None end.

(** [isinstance(v, Sequence) and not isinstance(v, (str, bytes, bytearray))] *)
Definition as_seq (v : val) : option (list val) :=
  match v with VList l | VTuple l => Some l | _ => None end.

(** May the value be a set member or a dictionary key? *)
Fixpoint hashable (v : val) : bool :=
  match v with
  | VList _ | VDict _ => false
  | VTuple l => forallb hashable l
  | _ => true
  end.

(** [d.get(k)] with the default [None]. *)
Definition vget (d : dict) (k : string) : val := default VNone (dget d k).

(** [d.get(k, dflt)] *)
Definition vget_or (d : dict) (k : string) (dflt : val) : val := default dflt (dget d k).

(** [d[k]] *)
Definition vindex (d : dict) (k : string) : res val :=
  match dget d k with
  | Some v => Ok v
  | None => Raise (Exn "KeyError" k)
  end.

(** ** Truth and equality *)

Definition truthy (v : val) : bool :=
  match v with
  | VNone => false
  | VBool b => b
  | VInt z => negb (z =? 0)%Z
  | VFloat q => negb (Qeq_bool q 0)
  | VStr s => negb (is_empty s)
  | VList l | VTuple l => match l with [] => false | _ => true end
  | VDict d => match d with [] => false | _ => true end
  end.

(** [v in {"…", …}] *)
Definition in_set (v : val) (l : list string) : res bool :=
  if hashable v
  then Ok (match v with VStr s => mem s l | _ => false end)
  else Raise (Exn "TypeError" "unhashable type").

(** [set(d) == {"…", …}] *)
Definition same_keys {A} (d : list (string * A)) (l : list string) : bool :=
  forallb (fun k => mem k l) (dkeys d) && forallb (fun k => mem k (dkeys d)) l.

Definition as_number (v : val) : option Q :=
  match v with
  | VInt z => Some (inject_Z z)
  | VBool b => Some (if b then 1 else 0)%Q
  | VFloat q => Some q
  | _ => None
  end.

(** [v1 == v2]: numbers compare by value across [int], [bool] and [float],
    dictionaries whatever the order of their keys. *)
Fixpoint py_eq (v1 v2 : val) : bool :=
  match v1, v2 with
  | VNone, VNone => true
  | VStr a, VStr b => a =s b
  | VList a, VList b
  | VTuple a, VTuple b =>
      (fix go l1 l2 :=
         match l1, l2 with
         | [], [] => true
         | x :: l1, y :: l2 => py_eq x y && go l1 l2
         | _, _ => false
         end) a b
  | VDict a, VDict b =>
      (List.length a =? List.length b)%nat &&
      (fix go l :=
         match l with
         | [] => true
         | (k, x) :: l =>
             match dget b k with
             | Some y => py_eq x y && go l
             | None => false
             end
         end) a
  | _, _ =>
      match as_number v1, as_number v2 with
      | Some p, Some q => Qeq_bool p q
      | _, _ => false
      end
  end.

Lemma py_eq_str v s : py_eq v (VStr s) = true <-> v = VStr s.
Proof. destruct v; simpl; try done. rewrite String.eqb_eq. naive_solver. Qed.

Lemma py_eq_str_l v s : py_eq (VStr s) v = true <-> v = VStr s.
Proof. destruct v; simpl; try done. rewrite String.eqb_eq. naive_solver. Qed.

Lemma py_eq_none v : py_eq v VNone = true <-> v = VNone.
Proof. destruct v; simpl; done. Qed.

Lemma py_eq_int_inv v z :
  py_eq v (VInt z) = true -> as_int v <> None -> v = VInt z.
Proof.
  destruct v; simpl; try done. unfold Qeq_bool; simpl. intros H _.
  apply Zeq_bool_eq in H. f_equal. lia.
Qed.

Lemma py_eq_int (a b : Z) : py_eq (VInt a) (VInt b) = (a =? b)%Z.
Proof. simpl. unfold Qeq_bool. simpl. by rewrite !Z.mul_1_r. Qed.

Lemma py_eq_list_refl l : Forall (fun v => py_eq v v = true) l -> py_eq (VList l) (VList l) = true.
Proof. induction 1; simpl in *; [done|]. by rewrite H. Qed.

Lemma py_eq_tuple_refl l : Forall (fun v => py_eq v v = true) l -> py_eq (VTuple l) (VTuple l) = true.
Proof. induction 1; simpl in *; [done|]. by rewrite H. Qed.

(** Every dictionary inside the value has distinct keys. *)
Fixpoint val_wf (v : val) : Prop :=
  match v with
  | VList l | VTuple l => (fix go l := match l with [] => True | x :: l => val_wf x /\ go l end) l
  | VDict d =>
      dict_wf d /\
      (fix go (d : dict) := match d with [] => True | (_, x) :: d => val_wf x /\ go d end) d
  | _ => True
  end.

Lemma val_wf_list l : val_wf (VList l) <-> Forall val_wf l.
Proof. simpl. induction l; rewrite ?Forall_cons, ?Forall_nil; naive_solver. Qed.

Lemma val_wf_tuple l : val_wf (VTuple l) <-> Forall val_wf l.
Proof. exact (val_wf_list l). Qed.

Lemma val_wf_dict d : val_wf (VDict d) <-> dict_wf d /\ Forall (fun kv => val_wf kv.2) d.
Proof.
  simpl. apply and_iff_compat_l. induction d as [|[k x] d IH];
    rewrite ?Forall_cons, ?Forall_nil; naive_solver.
Qed.

Lemma py_eq_refl v : val_wf v -> py_eq v v = true.
Proof.
  induction v using val_deep_ind; intros Hwf; try done.
  - by destruct b.
  - simpl. unfold Qeq_bool. simpl. by apply Zeq_is_eq_bool.
  - simpl. unfold Qeq_bool. by apply Zeq_is_eq_bool.
  - simpl. apply eqs_refl.
  - apply py_eq_list_refl. apply val_wf_list in Hwf. rewrite Forall_forall in *. auto.
  - apply py_eq_tuple_refl. apply val_wf_tuple in Hwf. rewrite Forall_forall in *. auto.
  - apply val_wf_dict in Hwf as [Hd Hwf]. simpl. rewrite Nat.eqb_refl. simpl.
    assert (Hin : forall kv, In kv d -> dget d kv.1 = Some kv.2 /\ py_eq kv.2 kv.2 = true).
    { intros [k x] Hk. split; [by apply In_dget|].
      rewrite Forall_forall in *. apply list_elem_of_In in Hk. eauto. }
    assert (Hgo : forall d0 : dict, incl d0 d ->
      (fix go l := match l with
         | [] => true
         | (k, x) :: l => match dget d k with Some y => py_eq x y && go l | None => false end
         end) d0 = true); [|apply Hgo, incl_refl].
    induction d0 as [|[k x] d0 IH]; intros Hi; [done|].
    destruct (Hin (k, x)) as [Hg Hx]; [apply Hi; simpl; auto|]. simpl in Hg, Hx.
    rewrite Hg, Hx. apply IH. intros kv Hkv. apply Hi. by right.
Qed.

Lemma py_eq_dict a b :
  py_eq (VDict a) (VDict b) = (List.length a =? List.length b)%nat &&
    forallb (fun kv => match dget b kv.1 with Some y => py_eq kv.2 y | None => false end) a.
Proof.
  simpl. f_equal. induction a as [|[k x] a IH]; simpl; [done|]. destruct (dget b k); [by rewrite IH | done].
Qed.

Lemma items_eq_sym (P : val -> val -> bool) (a b : dict) :
  dict_wf a -> dict_wf b -> List.length a = List.length b ->
  (forall k x y, In (k, x) a -> In (k, y) b -> P x y = true -> P y x = true) ->
  forallb (fun kv => match dget b kv.1 with Some y => P kv.2 y | None => false end) a = true ->
  forallb (fun kv => match dget a kv.1 with Some y => P kv.2 y | None => false end) b = true.
Proof.
  intros Ha Hb Hlen HP H. rewrite forallb_forall in H |- *.
  assert (Hi : incl (dkeys a) (dkeys b)).
  { intros k Hk. apply in_map_iff in Hk as ([k' x] & <- & Hk). specialize (H _ Hk). simpl in *.
    destruct (dget b k') as [y|] eqn:E; [|done]. apply dget_In in E. apply in_map_iff. by exists (k', y). }
  apply NoDup_ListNoDup in Ha as Ha'.
  apply (NoDup_length_incl Ha') in Hi; [|unfold dkeys; rewrite !length_map; lia].
  intros [k y] Hy. simpl.
  assert (Hk : In k (dkeys a)) by (apply Hi, in_map_iff; by exists (k, y)).
  apply in_map_iff in Hk as ([k' x] & Hk & Hx). simpl in Hk. subst k'.
  rewrite (In_dget a k x Ha Hx). specialize (H _ Hx). simpl in H. rewrite (In_dget b k y Hb Hy) in H. eauto.
Qed.

(** Equality is symmetric on values whose dictionaries have distinct keys. *)
Lemma py_eq_sym v1 v2 : val_wf v1 -> val_wf v2 -> py_eq v1 v2 = true -> py_eq v2 v1 = true.
Proof.
  revert v2. induction v1 as [|b|z|q|s|l IH|l IH|d IH] using val_deep_ind; intros v2 Hw1 Hw2 H;
    destruct v2 as [|b'|z'|q'|s'|l'|l'|d']; try exact H; try discriminate H;
    try (cbn in H |- *; apply Qeq_bool_iff in H; apply Qeq_bool_iff; by symmetry).
  - cbn in H |- *. by rewrite String.eqb_sym.
  - rewrite val_wf_list in Hw1, Hw2. revert l' Hw2 H. induction IH as [|x l Hx _ IH]; intros [|y l'] Hw2 H; try done.
    cbn in H |- *. apply Forall_cons in Hw1 as [? ?]. apply Forall_cons in Hw2 as [? ?].
    apply andb_true_iff in H as [He Hl]. apply andb_true_iff. split; [by apply Hx | by apply IH].
  - rewrite val_wf_tuple in Hw1, Hw2. revert l' Hw2 H. induction IH as [|x l Hx _ IH]; intros [|y l'] Hw2 H; try done.
    cbn in H |- *. apply Forall_cons in Hw1 as [? ?]. apply Forall_cons in Hw2 as [? ?].
    apply andb_true_iff in H as [He Hl]. apply andb_true_iff. split; [by apply Hx | by apply IH].
  - rewrite val_wf_dict in Hw1, Hw2. destruct Hw1 as [Hd Hv], Hw2 as [Hd' Hv'].
    rewrite py_eq_dict in H |- *. apply andb_true_iff in H as [Hlen H]. apply Nat.eqb_eq in Hlen.
    apply andb_true_iff. split; [by apply Nat.eqb_eq|].
    apply (items_eq_sym py_eq) in H; [exact H | done | done | done |].
    rewrite List.Forall_forall in IH, Hv, Hv'.
    intros k x y Hx Hy. exact (IH _ Hx y (Hv _ Hx) (Hv' _ Hy)).
Qed.

(** ** Printing *)

(** *** Floats: [float.__repr__]

    The shortest decimal that rounds back to the double, the closest one when
    several have that length.  [q] is a finite double; [float_ulp] gives the
    exponent of its last mantissa bit. *)
Module FloatRepr.
Definition qpow2 (e : Z) : Q :=
  if (0 <=? e)%Z then inject_Z (2 ^ e) else Qinv (inject_Z (2 ^ (- e))).

Definition qpow10 (e : Z) : Q :=
  if (0 <=? e)%Z then inject_Z (10 ^ e) else Qinv (inject_Z (10 ^ (- e))).

(** [floor(log2 q)] for a positive [q]. *)
Definition qlog2 (q : Q) : Z :=
  let e := (Z.log2 (Qnum q) - Z.log2 (Zpos (Qden q)))%Z in
  if Qle_bool (qpow2 e) q then e else (e - 1)%Z.

Definition float_ulp (q : Q) : Z := Z.max (qlog2 q - 52) (-1074).

(** The mantissa of a positive double, an integer below [2 ^ 53]. *)
Definition mantissa (q : Q) : Z := Qfloor (q * qpow2 (- float_ulp q)).

(** Does the decimal [c] round to the positive double [q] (to nearest, ties
    to even)? *)
Definition rounds_to (q c : Q) : bool :=
  let u := float_ulp q in
  let m := mantissa q in
  let half := qpow2 (u - 1) in
  let lower_half := if (m =? 2 ^ 52)%Z && (-1074 <? u)%Z then qpow2 (u - 2) else half in
  let lo := (q - lower_half)%Q in
  let hi := (q + half)%Q in
  if Z.even m then Qle_bool lo c && Qle_bool c hi
  else negb (Qle_bool c lo) && negb (Qle_bool hi c).

(** [floor(log10 q)] for a positive [q]. *)
Definition qlog10 (q : Q) : Z :=
  let e := (qlog2 q * 30103 / 100000)%Z in
  if Qle_bool (qpow10 (e + 1)) q then (e + 1)%Z
  else if Qle_bool (qpow10 e) q then e else (e - 1)%Z.

(** The best decimal with [n] digits: its digits and the exponent of the
    last one, when one of the two neighbours rounds back. *)
Definition try_digits (q : Q) (n : Z) : option (Z * Z) :=
  let k := (qlog10 q - n + 1)%Z in
  let scaled := (q * qpow10 (- k))%Q in
  let f := Qfloor scaled in
  let c := (f + 1)%Z in
  let okf := rounds_to q (inject_Z f * qpow10 k) in
  let okc := rounds_to q (inject_Z c * qpow10 k) in
  let df := (scaled - inject_Z f)%Q in
  let floor_first := (negb (Qle_bool (1 # 2) df)) || (Qeq_bool df (1 # 2) && Z.even f) in
  match okf, okc with
  | true, true => Some (if floor_first then f else c, k)
  | true, false => Some (f, k)
  | false, true => Some (c, k)
  | false, false => None
  end.

Fixpoint shortest (fuel : nat) (q : Q) (n : Z) : Z * Z :=
  match try_digits q n with
  | Some r => r
  | None => match fuel with
            | O => (0, 0)%Z
            | S fuel => shortest fuel q (n + 1)
            end
  end.

Fixpoint strip_zeros (fuel : nat) (d k : Z) : Z * Z :=
  match fuel with
  | O => (d, k)
  | S fuel => if (d mod 10 =? 0)%Z && negb (d =? 0)%Z then strip_zeros fuel (d / 10) (k + 1) else (d, k)
  end.

Fixpoint zeros (n : nat) : string :=
  match n with O => "" | S n => "0" +:+ zeros n end.

(** Layout of the digits [d] times [10 ^ k]: exponent notation below
    [1e-4] and from [1e16] on, as [repr] does. *)
Definition layout (d k : Z) : string :=
  let ds := Z_to_string d in
  let len := Z.of_nat (String.length ds) in
  let e := (k + len - 1)%Z in
  if (e <? -4)%Z || (16 <=? e)%Z then
    let hd := String.substring 0 1 ds in
    let tl := String.substring 1 (String.length ds) ds in
    let es := Z_to_string (Z.abs e) in
    hd +:+ (if is_empty tl then "" else "." +:+ tl) +:+ "e" +:+
    (if (e <? 0)%Z then "-" else "+") +:+
    (if (String.length es <? 2)%nat then "0" +:+ es else es)
  else if (0 <=? k)%Z then ds +:+ zeros (Z.to_nat k) +:+ ".0"
  else if (0 <=? e)%Z then
    String.substring 0 (Z.to_nat (e + 1)) ds +:+ "." +:+
    String.substring (Z.to_nat (e + 1)) (String.length ds) ds
  else "0." +:+ zeros (Z.to_nat (- e - 1)) +:+ ds.

Definition float_repr (q : Q) : string :=
  let q := Qred q in
  if Qeq_bool q 0 then "0.0"
  else
    let neg := (Qnum q <? 0)%Z in
    let a := Qabs q in
    let '(d, k) := shortest 17 a 1 in
    let '(d, k) := strip_zeros 400 d k in
    (if neg then "-" else "") +:+ layout d k.
End FloatRepr.

(** *** JSON

    [json.dumps(value, sort_keys=True, separators=(",", ":"),
    ensure_ascii=True)], the text [stable_hash] hashes. *)
Definition hex_digit (n : N) : string :=
  String.substring (N.to_nat n) 1 "0123456789abcdef".

Definition hex2 (n : N) : string := hex_digit (n / 16)%N +:+ hex_digit (n mod 16)%N.

Definition json_char (c : ascii) : string :=
  match code c with
  | 34%N => "\" +:+ dquote
  | 92%N => "\\"
  | 10%N => "\n"
  | 13%N => "\r"
  | 9%N => "\t"
  | 12%N => "\f"
  | 8%N => "\b"
  | n => if between 32 126 n then String c EmptyString else "\u00" +:+ hex2 n
  end.

Fixpoint concat_map_string (f : ascii -> string) (s : string) : string :=
  match s with
  | EmptyString => EmptyString
  | String c s => f c +:+ concat_map_string f s
  end.

Definition json_string (s : string) : string :=
  dquote +:+ concat_map_string json_char s +:+ dquote.

Definition sort_items {A} (d : list (string * A)) : list (string * A) :=
  isort (fun a b => String.leb a.1 b.1) d.

Fixpoint json_dumps (v : val) : string :=
  match v with
  | VNone => "null"
  | VBool b => if b then "true" else "false"
  | VInt z => Z_to_string z
  | VFloat q => FloatRepr.float_repr q
  | VStr s => json_string s
  | VList l | VTuple l => "[" +:+ str_join "," (map json_dumps l) +:+ "]"
  | VDict d =>
      "{" +:+ str_join "," (map (fun kv => json_string kv.1 +:+ ":" +:+ kv.2)
                            (sort_items (map (fun kv => (kv.1, json_dumps kv.2)) d))) +:+ "}"
  end.

(** *** [repr] and [str] *)
Definition printable (c : ascii) : bool :=
  let n := code c in
  between 32 126 n || (between 161 255 n && negb (n =? 173)%N).

Definition repr_char (q : N) (c : ascii) : string :=
  let n := code c in
  if (n =? 92)%N then "\\"
  else if (n =? q)%N then "\" +:+ String c EmptyString
  else if (n =? 10)%N then "\n"
  else if (n =? 13)%N then "\r"
  else if (n =? 9)%N then "\t"
  else if printable c then String c EmptyString
  else "\x" +:+ hex2 n.

Definition squote : string := String (ascii_of_N 39) EmptyString.

(** Single quotes, unless the text has one and no double quote. *)
Definition repr_string (s : string) : string :=
  let q := if contains squote s && negb (contains dquote s) then 34%N else 39%N in
  let qs := String (ascii_of_N q) EmptyString in
  qs +:+ concat_map_string (repr_char q) s +:+ qs.

Fixpoint py_repr (v : val) : string :=
  match v with
  | VNone => "None"
  | VBool b => if b then "True" else "False"
  | VInt z => Z_to_string z
  | VFloat q => FloatRepr.float_repr q
  | VStr s => repr_string s
  | VList l => "[" +:+ str_join ", " (map py_repr l) +:+ "]"
  | VTuple l =>
      match l with
      | [x] => "(" +:+ py_repr x +:+ ",)"
      | _ => "(" +:+ str_join ", " (map py_repr l) +:+ ")"
      end
  | VDict d =>
      "{" +:+ str_join ", " (map (fun kv => repr_string kv.1 +:+ ": " +:+ py_repr kv.2) d) +:+ "}"
  end.

Definition py_str (v : val) : string :=
  match v with VStr s => s | _ => py_repr v end.

(** [int(v)] *)
Definition py_int (v : val) : res Z :=
  match v with
  | VInt z => Ok z
  | VBool b => Ok (if b then 1 else 0)%Z
  | VFloat q => Ok (if Qle_bool 0 q then Qfloor q else Qceiling q)
  | VStr s =>
      match NilZero.int_of_string (strip s) with
      | Some i => Ok (Z.of_int i)
      | None => Raise (Exn "ValueError" "invalid literal for int() with base 10")
      end
  | _ => Raise (Exn "TypeError" "int() argument must be a string or a real number")
  end.

Definition vlist_of_strings (l : list string) : val := VList (map VStr l).

(** ** Lemmas on field access *)

Lemma vget_some d k v : dget d k = Some v -> vget d k = v.
Proof. unfold vget. by intros ->. Qed.

Lemma vget_wf d k : val_wf (VDict d) -> val_wf (vget d k).
Proof.
  rewrite val_wf_dict. intros [_ H]. unfold vget. destruct (dget d k) as [v|] eqn:E; [|done].
  apply dget_In in E. rewrite List.Forall_forall in H. exact (H _ E).
Qed.

Lemma vindex_ok d k v : vindex d k = Ok v <-> dget d k = Some v.
Proof. unfold vindex. destruct (dget d k); naive_solver. Qed.

Lemma vindex_vget d k v : vget d k = v -> v <> VNone -> vindex d k = Ok v.
Proof. unfold vget, vindex. destruct (dget d k); simpl; congruence. Qed.

Lemma as_int_some v z : as_int v = Some z <-> v = VInt z.
Proof. destruct v; simpl; naive_solver. Qed.

Lemma as_str_some v s : as_str v = Some s <-> v = VStr s.
Proof. destruct v; simpl; naive_solver. Qed.

Lemma as_dict_some v d : as_dict v = Some d <-> v = VDict d.
Proof. destruct v; simpl; naive_solver. Qed.

Example json_dumps_sorts_keys :
  json_dumps (VDict [("b", VList [VInt 1; VBool true]); ("a", VStr "x")]) =
  "{" +:+ dquote +:+ "a" +:+ dquote +:+ ":" +:+ dquote +:+ "x" +:+ dquote +:+ "," +:+
  dquote +:+ "b" +:+ dquote +:+ ":[1,true]}".
Proof. vm_compute. reflexivity. Qed.

Example py_repr_tuple : py_repr (VTuple [VStr "it's"; VNone]) =
  "(" +:+ dquote +:+ "it's" +:+ dquote +:+ ", None)".
Proof. vm_compute. reflexivity. Qed.
