(* ===== verification/PyChecks.v ===== *)
(** * Tests on Python values

    The [isinstance] tests and comparisons with constants the validators of
    the P131 and P137 services are made of. *)

From S2P Require Import Prelude PyValue.

Definition is_none (v : val) : bool := match v with VNone => true | _ => false end.
Definition is_string (v : val) : bool := match v with VStr _ => true | _ => false end.
Definition is_bool (v : val) : bool := match v with VBool _ => true | _ => false end.
Definition is_int (p : Z -> bool) (v : val) : bool := match v with VInt z => p z | _ => false end.
Definition is_literal (b : bool) (v : val) : bool := match v with VBool b' => Bool.eqb b b' | _ => false end.

(** [isinstance(v, str) and v] *)
Definition is_text (v : val) : bool := match v with VStr s => negb (is_empty s) | _ => false end.

Definition is_zero : val -> bool := is_int (fun z => z =? 0).
Definition nonneg : val -> bool := is_int (fun z => 0 <=? z).
Definition positive : val -> bool := is_int (fun z => 0 <? z).

Definition dict_or_empty (v : val) : dict := match v with VDict d => d | _ => [] end.
