(* ===== verification/Sha.v ===== *)
(** * SHA-256, SHA-1 and [stable_hash]

    The digests [hashlib] computes, on a string of bytes, with words as
    [Z] in [0, 2^32).  [stable_hash] (app/services/p110_evaluation.py) is the
    digest of the canonical JSON text of a value; every receipt, ledger entry,
    event and cursor of the sources is identified by it.

    The reserved property of a hash, that two different texts have different
    digests, is not provable and is not assumed anywhere: the theorems that
    need it conclude with the pair of texts that collide. *)

From S2P Require Import Prelude PyValue.

Local Open Scope Z_scope.

Module Word.
Definition modulus : Z := 2 ^ 32.
Definition norm (z : Z) : Z := Z.land z 4294967295.
Definition add (a b : Z) : Z := norm (a + b).
Definition rotr (n x : Z) : Z := norm (Z.lor (Z.shiftr x n) (Z.shiftl x (32 - n))).
Definition rotl (n x : Z) : Z := rotr (32 - n) x.
Definition shr (n x : Z) : Z := Z.shiftr x n.
Definition lnot32 (x : Z) : Z := Z.lxor x 4294967295.
End Word.
Import Word.

(** The UTF-8 encoding of a Latin-1 text. *)
Fixpoint utf8 (s : string) : list Z :=
  match s with
  | EmptyString => []
  | String c s =>
      let n := Z.of_N (code c) in
      if n <? 128 then n :: utf8 s
      else (192 + n / 64) :: (128 + n mod 64) :: utf8 s
  end.

(** Big-endian bytes of [z], [k] of them. *)
Fixpoint be_bytes (k : nat) (z : Z) : list Z :=
  match k with
  | O => []
  | S k => Z.shiftr z (8 * Z.of_nat k) mod 256 :: be_bytes k z
  end.

(** The message followed by a one bit, zeros and its length in bits, a
    multiple of 64 bytes. *)
Definition pad (msg : list Z) : list Z :=
  let len := Z.of_nat (List.length msg) in
  let zeros := (55 - len) mod 64 in
  (msg ++ [128] ++ replicate (Z.to_nat zeros) 0 ++ be_bytes 8 (8 * len))%list.

Fixpoint words (bs : list Z) : list Z :=
  match bs with
  | a :: b :: c :: d :: bs => (((a * 256 + b) * 256 + c) * 256 + d) :: words bs
  | _ => []
  end.

(** Blocks of 16 words; the fuel is the number of words. *)
Fixpoint blocks (fuel : nat) (ws : list Z) : list (list Z) :=
  match fuel, ws with
  | S fuel, _ :: _ => take 16 ws :: blocks fuel (drop 16 ws)
  | _, _ => []
  end.

Definition message_blocks (msg : list Z) : list (list Z) :=
  let ws := words (pad msg) in blocks (List.length ws) ws.

Module Sha256.
Definition ks : list Z :=
  [1116352408; 1899447441; 3049323471; 3921009573; 961987163; 1508970993; 2453635748;
   2870763221; 3624381080; 310598401; 607225278; 1426881987; 1925078388; 2162078206;
   2614888103; 3248222580; 3835390401; 4022224774; 264347078; 604807628; 770255983;
   1249150122; 1555081692; 1996064986; 2554220882; 2821834349; 2952996808; 3210313671;
   3336571891; 3584528711; 113926993; 338241895; 666307205; 773529912; 1294757372;
   1396182291; 1695183700; 1986661051; 2177026350; 2456956037; 2730485921; 2820302411;
   3259730800; 3345764771; 3516065817; 3600352804; 4094571909; 275423344; 430227734;
   506948616; 659060556; 883997877; 958139571; 1322822218; 1537002063; 1747873779;
   1955562222; 2024104815; 2227730452; 2361852424; 2428436474; 2756734187; 3204031479;
   3329325298].

Definition init : list Z :=
  [1779033703; 3144134277; 1013904242; 2773480762; 1359893119; 2600822924; 528734635;
   1541459225].

Definition s0 (x : Z) : Z := Z.lxor (rotr 7 x) (Z.lxor (rotr 18 x) (shr 3 x)).
Definition s1 (x : Z) : Z := Z.lxor (rotr 17 x) (Z.lxor (rotr 19 x) (shr 10 x)).
Definition S0 (x : Z) : Z := Z.lxor (rotr 2 x) (Z.lxor (rotr 13 x) (rotr 22 x)).
Definition S1 (x : Z) : Z := Z.lxor (rotr 6 x) (Z.lxor (rotr 11 x) (rotr 25 x)).
Definition ch (x y z : Z) : Z := Z.lxor (Z.land x y) (Z.land (lnot32 x) z).
Definition maj (x y z : Z) : Z :=
  Z.lxor (Z.land x y) (Z.lxor (Z.land x z) (Z.land y z)).

(** The message schedule as the rounds consume it: [w] holds the next 16
    words. *)
Definition next_w (w : list Z) : Z :=
  add (s1 (nth 14 w 0)) (add (nth 9 w 0) (add (s0 (nth 1 w 0)) (nth 0 w 0))).

Fixpoint rounds (ks : list Z) (w : list Z) (st : list Z) : list Z :=
  match ks, st, w with
  | k :: ks, [a; b; c; d; e; f; g; h], wi :: _ =>
      let t1 := add h (add (S1 e) (add (ch e f g) (add k wi))) in
      let t2 := add (S0 a) (maj a b c) in
      rounds ks (tl w ++ [next_w w]) [add t1 t2; a; b; c; add d t1; e; f; g]
  | _, _, _ => st
  end.

Definition compress (st block : list Z) : list Z :=
  zip_with add st (rounds ks block st).

Definition digest (msg : list Z) : list Z := fold_left compress (message_blocks msg) init.
End Sha256.

Module Sha1.
Definition init : list Z := [1732584193; 4023233417; 2562383102; 271733878; 3285377520].

Definition next_w (w : list Z) : Z :=
  rotl 1 (Z.lxor (nth 13 w 0) (Z.lxor (nth 8 w 0) (Z.lxor (nth 2 w 0) (nth 0 w 0)))).

Definition f (t : Z) (b c d : Z) : Z :=
  if t <? 20 then Z.lor (Z.land b c) (Z.land (lnot32 b) d)
  else if t <? 40 then Z.lxor b (Z.lxor c d)
  else if t <? 60 then Z.lor (Z.land b c) (Z.lor (Z.land b d) (Z.land c d))
  else Z.lxor b (Z.lxor c d).

Definition k (t : Z) : Z :=
  if t <? 20 then 1518500249
  else if t <? 40 then 1859775393
  else if t <? 60 then 2400959708 else 3395469782.

Fixpoint rounds (n : nat) (t : Z) (w : list Z) (st : list Z) : list Z :=
  match n, st, w with
  | S n, [a; b; c; d; e], wi :: _ =>
      let tmp := add (rotl 5 a) (add (f t b c d) (add e (add (k t) wi))) in
      rounds n (t + 1) (tl w ++ [next_w w]) [tmp; a; rotl 30 b; c; d]
  | _, _, _ => st
  end.

Definition compress (st block : list Z) : list Z := zip_with add st (rounds 80 0 block st).

Definition digest (msg : list Z) : list Z := fold_left compress (message_blocks msg) init.
End Sha1.

(** [hexdigest()]: eight lower-case hex digits per word. *)
Definition hex_word (w : Z) : string :=
  fold_right (fun b acc => hex2 (Z.to_N b) +:+ acc) "" (be_bytes 4 w).

Definition hexdigest (ws : list Z) : string := fold_right (fun w acc => hex_word w +:+ acc) "" ws.

Definition sha256_hex (s : string) : string := hexdigest (Sha256.digest (utf8 s)).
Definition sha1_hex (s : string) : string := hexdigest (Sha1.digest (utf8 s)).

(** [stable_hash]: the canonical JSON is ASCII, so its UTF-8 bytes are its
    characters. *)
Definition stable_hash (v : val) : string := "sha256:" +:+ sha256_hex (json_dumps v).

(** ** The shape of a digest *)

Definition is_hex (c : ascii) : bool :=
  let n := code c in between 48 57 n || between 97 102 n.

Fixpoint all_chars (p : ascii -> bool) (s : string) : bool :=
  match s with
  | EmptyString => true
  | String c s => p c && all_chars p s
  end.

(** [[0-9a-f]{64}] *)
Definition hex64 (s : string) : bool := (String.length s =? 64)%nat && all_chars is_hex s.

(** [re.fullmatch(r"sha256:[0-9a-f]{64}", s)] *)
Definition sha256_ref (s : string) : bool :=
  startswith "sha256:" s && hex64 (String.substring 7 (String.length s) s).

Lemma all_chars_app p a b : all_chars p (a +:+ b) = all_chars p a && all_chars p b.
Proof. induction a as [|c a IH]; simpl; [done|]. by rewrite IH, andb_assoc. Qed.

Lemma string_app_assoc (a b c : string) : (a +:+ b) +:+ c = a +:+ (b +:+ c).
Proof.
  induction a as [|x a IH]; [done|]. change (String x ((a +:+ b) +:+ c) = String x (a +:+ (b +:+ c))). by rewrite IH.
Qed.

Lemma length_string_app a b : String.length (a +:+ b) = (String.length a + String.length b)%nat.
Proof. induction a as [|c a IH]; simpl; [done|]. by rewrite IH. Qed.

Lemma substring_all s : forall n, (String.length s <= n)%nat -> String.substring 0 n s = s.
Proof.
  induction s as [|c s IH]; intros [|n] H; simpl in *; try done; [lia|].
  rewrite IH by lia. done.
Qed.

(** The sixteen digits, one by one. *)
Lemma hex_digits_ok :
  forallb (fun n => (String.length (hex_digit (N.of_nat n)) =? 1)%nat && all_chars is_hex (hex_digit (N.of_nat n)))
    (seq 0 16) = true.
Proof. vm_compute. reflexivity. Qed.

Lemma hex_digit_ok n : (n < 16)%N ->
  String.length (hex_digit n) = 1%nat /\ all_chars is_hex (hex_digit n) = true.
Proof.
  intros H. pose proof (proj1 (forallb_forall _ _) hex_digits_ok (N.to_nat n)) as Hn.
  cbv beta in Hn. rewrite N2Nat.id in Hn. destruct (andb_prop _ _ (Hn ltac:(apply in_seq; lia))) as [H1 H2].
  by apply Nat.eqb_eq in H1.
Qed.

Lemma hex2_ok n : (n < 256)%N ->
  String.length (hex2 n) = 2%nat /\ all_chars is_hex (hex2 n) = true.
Proof.
  intros H. unfold hex2. rewrite length_string_app, all_chars_app.
  destruct (hex_digit_ok (n / 16)) as [-> ->]; [apply N.Div0.div_lt_upper_bound; lia|].
  destruct (hex_digit_ok (n mod 16)) as [-> ->]; [apply N.mod_lt; lia|]. done.
Qed.

Lemma hex_bytes_ok bs : Forall (fun b => 0 <= b < 256) bs ->
  let t := fold_right (fun b acc => hex2 (Z.to_N b) +:+ acc) "" bs in
  String.length t = (2 * List.length bs)%nat /\ all_chars is_hex t = true.
Proof.
  induction 1 as [|b bs Hb _ [IH1 IH2]]; [done|]. cbn [fold_right List.length].
  destruct (hex2_ok (Z.to_N b)) as [H1 H2]; [lia|].
  rewrite length_string_app, all_chars_app, H1, H2, IH1, IH2. split; [lia | done].
Qed.

Lemma hex_word_ok w : String.length (hex_word w) = 8%nat /\ all_chars is_hex (hex_word w) = true.
Proof.
  apply (hex_bytes_ok (be_bytes 4 w)).
  generalize 4%nat. induction n; simpl; constructor; [apply Z.mod_pos_bound; lia | done].
Qed.

Lemma hexdigest_ok ws :
  String.length (hexdigest ws) = (8 * List.length ws)%nat /\ all_chars is_hex (hexdigest ws) = true.
Proof.
  unfold hexdigest. induction ws as [|w ws [IH1 IH2]]; [done|]. cbn [fold_right List.length].
  destruct (hex_word_ok w) as [H1 H2].
  rewrite length_string_app, all_chars_app, H1, H2, IH1, IH2. split; [lia | done].
Qed.

Lemma sha256_rounds_length ks : forall w st,
  List.length st = 8%nat -> List.length (Sha256.rounds ks w st) = 8%nat.
Proof.
  induction ks as [|k ks IH]; intros w st H; [done|].
  do 9 (destruct st as [|? st]; try done). destruct w; [done|]. by apply IH.
Qed.

Lemma sha256_digest_length msg : List.length (Sha256.digest msg) = 8%nat.
Proof.
  unfold Sha256.digest. generalize (message_blocks msg). intros bs.
  assert (H : List.length Sha256.init = 8%nat) by done. revert H.
  generalize Sha256.init. induction bs as [|b bs IH]; intros st H; [done|].
  apply IH. unfold Sha256.compress. rewrite length_zip_with, sha256_rounds_length; lia.
Qed.

Lemma hex64_sha256_hex s : hex64 (sha256_hex s) = true.
Proof.
  unfold hex64, sha256_hex. destruct (hexdigest_ok (Sha256.digest (utf8 s))) as [H1 H2].
  rewrite H1, H2, sha256_digest_length. done.
Qed.

Lemma substring_drop p n s : String.substring (String.length p) n (p +:+ s) = String.substring 0 n s.
Proof. induction p as [|c p IH]; [done|]. by destruct s. Qed.

Lemma startswith_app p s : startswith p (p +:+ s) = true.
Proof.
  unfold startswith. induction p as [|c p IH]; simpl; [by destruct s|].
  destruct (ascii_dec c c); [done|congruence].
Qed.

Lemma sha256_ref_prefix h : sha256_ref ("sha256:" +:+ h) = hex64 h.
Proof.
  unfold sha256_ref. rewrite startswith_app, (substring_drop "sha256:").
  rewrite substring_all; [done|]. rewrite length_string_app. lia.
Qed.

Lemma sha256_ref_stable_hash v : sha256_ref (stable_hash v) = true.
Proof. unfold stable_hash. rewrite sha256_ref_prefix. apply hex64_sha256_hex. Qed.

#[export] Hint Resolve sha256_ref_stable_hash hex64_sha256_hex : py.

Lemma stable_hash_not_empty v : stable_hash v <> "".
Proof. done. Qed.

Example sha256_abc :
  sha256_hex "abc" = "ba7816bf8f01cfea414140de5dae2223b00361a396177a9cb410ff61f20015ad".
Proof. vm_compute. reflexivity. Qed.

Example sha1_abc : sha1_hex "abc" = "a9993e364706816aba3e25717850c26c9cd0d89d".
Proof. vm_compute. reflexivity. Qed.
