(* ===== verification/PyRegex.v ===== *)
(** * Regular expressions

    The fragment of Python's [re] the sources use, matched by backtracking in
    the order [re] explores: alternatives from left to right, repetitions of
    a character class greedily.  [search] returns the leftmost match.
    [search_iff] relates it to the texts an expression denotes. *)

From S2P Require Import Prelude Sha.

Inductive rx :=
  | Eps                            (* empty *)
  | Chr (p : ascii -> bool)        (* one character of a class *)
  | Seq (a b : rx)
  | Alt (a b : rx)
  | Many (p : ascii -> bool)       (* [class]*, greedy *)
  | WordB                          (* \b *)
  | Cap (a : rx).                  (* ( … ), group 1 *)

(** The Latin-1 code points [\w] matches. *)
Definition is_word (c : ascii) : bool :=
  let n := code c in
  between 48 57 n || between 65 90 n || (n =? 95)%N || between 97 122 n ||
  (n =? 170)%N || between 178 179 n || (n =? 181)%N || between 185 186 n || between 188 190 n ||
  between 192 214 n || between 216 246 n || between 248 255 n.

Definition head (s : string) : option ascii :=
  match s with EmptyString => None | String c _ => Some c end.

Definition at_boundary (prev next : option ascii) : bool :=
  let w o := match o with Some c => is_word c | None => false end in
  xorb (w prev) (w next).

Section Match.
Context {B : Type}.

(** A continuation receives the previous character, the rest of the input
    and the captured group. *)
Definition cont := option ascii -> string -> option string -> option B.

Section ManyLoop.
Context (p : ascii -> bool) (cap : option string) (k : cont).
Fixpoint many (prev : option ascii) (s : string) : option B :=
  match s with
  | String c s' =>
      if p c
      then match many (Some c) s' with
           | Some b => Some b
           | None => k prev s cap
           end
      else k prev s cap
  | EmptyString => k prev s cap
  end.
End ManyLoop.

Fixpoint rmatch (r : rx) (prev : option ascii) (s : string) (cap : option string) (k : cont)
  : option B :=
  match r with
  | Eps => k prev s cap
  | Chr p =>
      match s with
      | String c s' => if p c then k (Some c) s' cap else None
      | EmptyString => None
      end
  | Seq a b => rmatch a prev s cap (fun prev s cap => rmatch b prev s cap k)
  | Alt a b =>
      match rmatch a prev s cap k with
      | Some x => Some x
      | None => rmatch b prev s cap k
      end
  | Many p => many p cap k prev s
  | WordB => if at_boundary prev (head s) then k prev s cap else None
  | Cap a =>
      rmatch a prev s cap (fun prev' s' _ =>
        k prev' s' (Some (String.substring 0 (String.length s - String.length s') s)))
  end.
End Match.

(** [re.match] at the start of [s]: the rest of the input and group 1. *)
Definition match_here (r : rx) (prev : option ascii) (s : string) : option (string * option string) :=
  rmatch r prev s None (fun _ s' cap => Some (s', cap)).

Fixpoint search_from (r : rx) (prev : option ascii) (s : string) : bool :=
  match match_here r prev s with
  | Some _ => true
  | None => match s with
            | EmptyString => false
            | String c s' => search_from r (Some c) s'
            end
  end.

(** [bool(re.search(r, s))] *)
Definition search (r : rx) (s : string) : bool := search_from r None s.

(** [re.fullmatch(r, s)] *)
Definition fullmatch (r : rx) (s : string) : bool :=
  match rmatch r None s None (fun _ s' _ => if is_empty s' then Some tt else None) with
  | Some _ => true
  | None => false
  end.

(** [re.sub(r, repl, s)] for an expression with no empty match; [repl] sees
    group 1.  The fuel is the length of the string. *)
Fixpoint sub_fuel (fuel : nat) (r : rx) (repl : option string -> string) (prev : option ascii) (s : string)
  : string :=
  match fuel, s with
  | S fuel, String c s' =>
      match match_here r prev s with
      | Some (rest, cap) =>
          let used := (String.length s - String.length rest)%nat in
          repl cap +:+ sub_fuel fuel r repl (head (String.substring (used - 1) 1 s)) rest
      | None => String c (sub_fuel fuel r repl (Some c) s')
      end
  | _, _ => s
  end.

Definition sub (r : rx) (repl : option string -> string) (s : string) : string :=
  sub_fuel (String.length s) r repl None s.

(** ** Texts no match starts in *)

(** Can a match be empty, and can it start with [c]? *)
Fixpoint nullable (r : rx) : bool :=
  match r with
  | Eps | Many _ | WordB => true
  | Chr _ => false
  | Seq a b => nullable a && nullable b
  | Alt a b => nullable a || nullable b
  | Cap a => nullable a
  end.

Fixpoint starts (r : rx) (c : ascii) : bool :=
  match r with
  | Eps | WordB => false
  | Chr p | Many p => p c
  | Seq a b => starts a c || nullable a && starts b c
  | Alt a b => starts a c || starts b c
  | Cap a => starts a c
  end.

Definition no_start (r : rx) (s : string) : Prop :=
  match s with EmptyString => True | String c _ => starts r c = false end.

Lemma rmatch_no_start {B} r prev s cap (k : @cont B) x : no_start r s -> rmatch r prev s cap k = Some x ->
  nullable r = true /\ exists prev' cap', k prev' s cap' = Some x.
Proof.
  revert prev cap k. induction r as [|p|a IHa b IHb|a IHa b IHb|p| |a IHa]; intros prev cap k Hn H; cbn in H.
  - eauto.
  - destruct s as [|c s]; [done|]. cbn in Hn. by rewrite Hn in H.
  - apply IHa in H as (Ha & prev' & cap' & H).
    + apply IHb in H as (Hb & H); [cbn; by rewrite Ha, Hb|].
      destruct s as [|c s]; [done|]. cbn in Hn |- *. rewrite Ha in Hn. by apply orb_false_iff in Hn as [_ ?].
    + destruct s as [|c s]; [done|]. cbn in Hn |- *. by apply orb_false_iff in Hn as [? _].
  - assert (no_start a s /\ no_start b s) as [Na Nb].
    { destruct s as [|c s]; [done|]. cbn in Hn |- *. by apply orb_false_iff in Hn. }
    cbn. destruct (rmatch a prev s cap k) as [y|] eqn:E.
    + injection H as ->. apply IHa in E as [-> ?]; done.
    + apply IHb in H as [-> ?]; [|done]. by rewrite orb_true_r.
  - destruct s as [|c s]; cbn in H; [eauto|]. cbn in Hn. rewrite Hn in H. eauto.
  - destruct (at_boundary _ _); [eauto | done].
  - apply IHa in H as (Ha & prev' & cap' & H); [eauto|]. by destruct s.
Qed.

Lemma search_no_start r s : nullable r = false -> all_chars (fun c => negb (starts r c)) s = true -> search r s = false.
Proof.
  intros Hr. unfold search. generalize (@None ascii). induction s as [|c s IH]; intros prev H; cbn.
  - unfold match_here. destruct (rmatch r prev "" None _) as [x|] eqn:E; [|done].
    apply rmatch_no_start in E as [E _]; [congruence | done].
  - cbn in H. apply andb_true_iff in H as [Hc H]. apply negb_true_iff in Hc.
    unfold match_here. destruct (rmatch r prev (String c s) None _) as [x|] eqn:E; [|by apply IH].
    apply rmatch_no_start in E as [E _]; [congruence | done].
Qed.

(** ** The texts an expression matches *)

(** An expression without [\b] and groups. *)
Fixpoint plain (r : rx) : bool :=
  match r with
  | Eps | Chr _ | Many _ => true
  | Seq a b | Alt a b => plain a && plain b
  | WordB | Cap _ => false
  end.

Inductive matches : rx -> string -> Prop :=
  | matches_eps : matches Eps ""
  | matches_chr (p : ascii -> bool) c : p c = true -> matches (Chr p) (String c "")
  | matches_seq a b s t : matches a s -> matches b t -> matches (Seq a b) (s +:+ t)
  | matches_left a b s : matches a s -> matches (Alt a b) s
  | matches_right a b s : matches b s -> matches (Alt a b) s
  | matches_many p s : all_chars p s = true -> matches (Many p) s.

(** The previous character after [m] was consumed. *)
Fixpoint passed_by (prev : option ascii) (m : string) : option ascii :=
  match m with EmptyString => prev | String c m => passed_by (Some c) m end.

Lemma passed_by_app prev a b : passed_by prev (a +:+ b) = passed_by (passed_by prev a) b.
Proof. revert prev. induction a as [|c a IH]; intros prev; [done | apply IH]. Qed.

Lemma many_iff {B} p cap (k : @cont B) prev s :
  (exists x, many p cap k prev s = Some x) <->
  exists m rest, s = m +:+ rest /\ all_chars p m = true /\ exists x, k (passed_by prev m) rest cap = Some x.
Proof.
  revert prev. induction s as [|c s IH]; intros prev; cbn [many].
  - split; [intros H; by exists "", "" |]. intros ([|] & rest & E & _ & H); [apply eq_sym in E; lazy beta match fix delta [String.append] in E; subst; exact H | done].
  - assert (Hstop : (exists x, k prev (String c s) cap = Some x) ->
      exists m rest, String c s = m +:+ rest /\ all_chars p m = true /\ exists x, k (passed_by prev m) rest cap = Some x)
      by (intros H; by exists "", (String c s)).
    destruct (p c) eqn:Ec.
    + destruct (many p cap k (Some c) s) as [y|] eqn:Em.
      * split; [intros _ | eauto]. destruct (proj1 (IH (Some c))) as (m & rest & -> & Hm & H); [eauto|].
        exists (String c m), rest. cbn. by rewrite Ec.
      * split; [exact Hstop|]. intros ([|d m] & rest & E & Hm & H); [apply eq_sym in E; lazy beta match fix delta [String.append] in E; subst; exact H|].
        injection E as <- ->. cbn in Hm. rewrite Ec in Hm. exfalso.
        destruct (proj2 (IH (Some c))) as [x Hx]; [by exists m, rest | congruence].
    + split; [exact Hstop|]. intros ([|d m] & rest & E & Hm & H); [apply eq_sym in E; lazy beta match fix delta [String.append] in E; subst; exact H|].
      injection E as <- _. cbn in Hm. by rewrite Ec in Hm.
Qed.

Lemma rmatch_iff {B} r prev s cap (k : @cont B) : plain r = true ->
  (exists x, rmatch r prev s cap k = Some x) <->
  exists m rest, s = m +:+ rest /\ matches r m /\ exists x, k (passed_by prev m) rest cap = Some x.
Proof.
  revert prev s cap k. induction r as [|p|a IHa b IHb|a IHa b IHb|p| |a IHa]; intros prev s cap k Hr; cbn [rmatch]; try done.
  - split; [intros H; exists "", s; split; [done|]; split; [constructor | exact H]|].
    intros (m & rest & -> & Hm & H). inversion Hm; subst. exact H.
  - split.
    + destruct s as [|c s]; [by intros []|]. destruct (p c) eqn:Ec; [|by intros []]. intros H.
      exists (String c ""), s. split; [done|]. split; [by constructor | exact H].
    + intros (m & rest & -> & Hm & H). inversion Hm as [|? c Hc| | | |]; subst.
      change (String c "" +:+ rest) with (String c rest). cbv iota. rewrite Hc. exact H.
  - apply andb_true_iff in Hr as [Ha Hb]. rewrite IHa by exact Ha. split.
    + intros (m & rest & -> & Hm & H). apply IHb in H as (m' & rest' & -> & Hm' & H); [|exact Hb].
      exists (m +:+ m'), rest'. rewrite passed_by_app, string_app_assoc. split; [done|]. split; [by constructor | exact H].
    + intros (m & rest & -> & Hm & H). inversion Hm as [| |? ? u v Hu Hv| | |]; subst.
      exists u, (v +:+ rest). rewrite string_app_assoc. split; [done|]. split; [exact Hu|].
      apply IHb; [exact Hb|]. exists v, rest. by rewrite <- passed_by_app.
  - apply andb_true_iff in Hr as [Ha Hb].
    assert (E : (exists x, match rmatch a prev s cap k with Some x => Some x | None => rmatch b prev s cap k end = Some x) <->
      (exists x, rmatch a prev s cap k = Some x) \/ exists x, rmatch b prev s cap k = Some x).
    { destruct (rmatch a prev s cap k); split; intros H; [left; eauto | eauto | by right |].
      by destruct H as [[? ?]|H]. }
    rewrite E, IHa, IHb by done. split.
    + intros [(m & rest & Es & Hm & H)|(m & rest & Es & Hm & H)]; exists m, rest;
        (split; [exact Es|]; split; [|exact H]); [by apply matches_left | by apply matches_right].
    + intros (m & rest & Es & Hm & H). inversion Hm; subst; [left | right]; by exists m, rest.
  - rewrite many_iff. split; intros (m & rest & Es & Hm & H); exists m, rest; (split; [exact Es|]; split; [|exact H]).
    + by constructor.
    + by inversion Hm.
Qed.

(** [search] finds a match exactly when a part of the text is one. *)
Lemma search_iff r s : plain r = true ->
  search r s = true <-> exists a m b, s = a +:+ (m +:+ b) /\ matches r m.
Proof.
  intros Hr. unfold search. generalize (@None ascii). induction s as [|c s IH]; intros prev; cbn [search_from].
  - assert (H := rmatch_iff r prev "" None (fun _ s' cap => Some (s', cap)) Hr). unfold match_here.
    destruct (rmatch r prev "" None _) as [x|]; (split; [intros Hs | intros (a & m & b & E & Hm)]); try done.
    + destruct (proj1 H) as (m & rest & E & Hm & _); [eauto|]. exists "", m, rest. by split.
    + destruct a; [|done]. destruct (proj2 H) as [x Hx]; [|done]. exists m, b. split; [exact E|]. eauto.
  - assert (H := rmatch_iff r prev (String c s) None (fun _ s' cap => Some (s', cap)) Hr). unfold match_here.
    destruct (rmatch r prev (String c s) None _) as [x|].
    + split; [intros _|done]. destruct (proj1 H) as (m & rest & E & Hm & _); [eauto|]. exists "", m, rest. by split.
    + rewrite IH. split.
      * intros (a & m & b & -> & Hm). by exists (String c a), m, b.
      * intros ([|d a] & m & b & E & Hm).
        -- exfalso. destruct (proj2 H) as [x Hx]; [|done]. exists m, b. split; [exact E|]. eauto.
        -- injection E as <- ->. by exists a, m, b.
Qed.

(** ** Abbreviations *)

Definition is_chr (x : ascii) (c : ascii) : bool := (code x =? code c)%N.

(** A character under [re.IGNORECASE]. *)
Definition icase (x : ascii) (c : ascii) : bool := (code (lower_ascii x) =? code (lower_ascii c))%N.

Fixpoint lit_of (f : ascii -> ascii -> bool) (s : string) : rx :=
  match s with
  | EmptyString => Eps
  | String c EmptyString => Chr (f c)
  | String c s => Seq (Chr (f c)) (lit_of f s)
  end.

Definition lit := lit_of is_chr.
Definition ilit := lit_of icase.

Fixpoint alts (l : list rx) : rx :=
  match l with
  | [] => Chr (fun _ => false)
  | [r] => r
  | r :: l => Alt r (alts l)
  end.

Definition many1 (p : ascii -> bool) : rx := Seq (Chr p) (Many p).
Definition opt (r : rx) : rx := Alt r Eps.

Definition is_upper (c : ascii) : bool := between 65 90 (code c).
Definition is_lower (c : ascii) : bool := between 97 122 (code c).
Definition is_digit (c : ascii) : bool := between 48 57 (code c).
Definition is_alnum (c : ascii) : bool := is_upper c || is_lower c || is_digit c.

(** One of the characters of [s]. *)
Definition one_of (s : string) (c : ascii) : bool :=
  contains (String c EmptyString) s.

(** A literal matches the texts that agree with it character by character. *)
Inductive agree (f : ascii -> ascii -> bool) : string -> string -> Prop :=
  | agree_nil : agree f "" ""
  | agree_cons x c xs cs : f x c = true -> agree f xs cs -> agree f (String x xs) (String c cs).

Lemma matches_lit_of f s t : matches (lit_of f s) t <-> agree f s t.
Proof.
  revert t. induction s as [|x [|y s] IH]; intros t.
  - split; inversion 1; constructor.
  - cbn. split; [inversion 1; subst; constructor; [done | constructor]|].
    inversion 1 as [|? ? ? ? Hc Hn]; subst. inversion Hn; subst. by constructor.
  - change (lit_of f (String x (String y s))) with (Seq (Chr (f x)) (lit_of f (String y s))). split.
    + inversion 1 as [| |? ? u v Hu Hv| | |]; subst. inversion Hu; subst. cbn. constructor; [done | by apply IH].
    + inversion 1 as [|? c ? cs Hc Hn]; subst. apply (matches_seq _ _ (String c "") cs); [by constructor | by apply IH].
Qed.

Lemma matches_alts l t : matches (alts l) t <-> exists r, In r l /\ matches r t.
Proof.
  induction l as [|r [|r' l] IH].
  - split; [by inversion 1 | by intros (? & [] & _)].
  - split; [intros H; exists r; split; [by left | exact H] | by intros (? & [<-|[]] & H)].
  - change (alts (r :: r' :: l)) with (Alt r (alts (r' :: l))). split.
    + inversion 1 as [| | | | |]; subst; [exists r; split; [by left | done]|].
      destruct (proj1 IH) as (q & Hq & H'); [done|]. exists q. split; [by right | exact H'].
    + intros (q & [<-|Hq] & H); [by apply matches_left|]. apply matches_right, IH. by exists q.
Qed.
