(* ===== verification/ActionModel.v ===== *)
(** * Actions, risks and requests (app/models/action.py)

    The dependency-light dataclasses the risk, policy and action services
    share.  The SQLAlchemy tables of the same file are not modelled here. *)

From S2P Require Import Prelude PyValue.

Inductive RiskLevel := READ_ONLY | LOW | MEDIUM | HIGH | PROHIBITED.

Inductive PolicyDecision := ALLOW | REQUIRE_APPROVAL | DENY | ESCALATE.

Inductive PolicyRoute := AUTO_EXECUTE | APPROVAL_REQUIRED | HUMAN_REQUIRED | BLOCKED.

Inductive ActionStatus :=
  | PROPOSED | APPROVED | REJECTED | EXECUTED | FAILED | DENIED | ESCALATED.

#[export] Instance RiskLevel_eq_dec : EqDecision RiskLevel.
Proof. solve_decision. Defined.
#[export] Instance PolicyDecision_eq_dec : EqDecision PolicyDecision.
Proof. solve_decision. Defined.
#[export] Instance PolicyRoute_eq_dec : EqDecision PolicyRoute.
Proof. solve_decision. Defined.
#[export] Instance ActionStatus_eq_dec : EqDecision ActionStatus.
Proof. solve_decision. Defined.

Definition RiskLevel_value (r : RiskLevel) : string :=
  match r with
  | READ_ONLY => "read_only" | LOW => "low" | MEDIUM => "medium"
  | HIGH => "high" | PROHIBITED => "prohibited"
  end.

(** [RiskLevel(value)] *)
Definition RiskLevel_of_value (s : string) : res RiskLevel :=
  if s =s "read_only" then Ok READ_ONLY
  else if s =s "low" then Ok LOW
  else if s =s "medium" then Ok MEDIUM
  else if s =s "high" then Ok HIGH
  else if s =s "prohibited" then Ok PROHIBITED
  else Raise (Exn "ValueError" (repr_string s +:+ " is not a valid RiskLevel")).

Definition ActionStatus_value (s : ActionStatus) : string :=
  match s with
  | PROPOSED => "proposed" | APPROVED => "approved" | REJECTED => "rejected"
  | EXECUTED => "executed" | FAILED => "failed" | DENIED => "denied" | ESCALATED => "escalated"
  end.

Record ActionMetadata := {
  md_name : string;
  md_description : string;
  md_base_risk : RiskLevel;
  md_is_read_only : bool;
  md_is_mutation : bool;
  md_reversible : bool;
  md_blast_radius : string;
  md_default_requires_approval : bool;
  md_allowed_environments : list string;
  md_required_capabilities : list string;
  md_required_preconditions : list string;
  md_post_checks : list string;
  md_prohibited_reason : option string;
}.

Definition default_allowed_environments : list string := ["dev"; "staging"; "test"; "local"].

Record ActionRequest := {
  action_type : string;
  target : string;
  environment : string;
  tenant_id : string;
  workspace_id : string;
  payload : dict;
  requester : string;
  incident_id : option string;
  approved : bool;
  approval_id : option string;
}.

(** The constructor with its keyword defaults. *)
Definition mk_request (ty tgt env : string) (pl : dict) : ActionRequest := {|
  action_type := ty; target := tgt; environment := env; tenant_id := "demo";
  workspace_id := "demo"; payload := pl; requester := "agent"; incident_id := None;
  approved := false; approval_id := None |}.

(** [if action.prohibited_reason] *)
Definition is_prohibited (a : ActionMetadata) : bool :=
  match md_prohibited_reason a with Some r => negb (is_empty r) | None => false end.

Record ActionExecutionResult := {
  er_action_type : string;
  er_target : string;
  er_status : ActionStatus;
  er_message : string;
  er_output : dict;
  er_verification : dict;
}.

Lemma RiskLevel_value_roundtrip r : RiskLevel_of_value (RiskLevel_value r) = Ok r.
Proof. by destruct r. Qed.
