(* ===== verification/RiskEngine.v ===== *)
(** * The action registry and risk classification (app/services/risk_engine.py) *)

From S2P Require Import Prelude PyValue ActionModel.

Definition PROHIBITED_ACTIONS : list (string * string) :=
  [("production.rollback", "Production rollback is disabled in the MVP.");
   ("production.restart_service",
    "Production service restarts require a future hardened integration and explicit approval flow.");
   ("database.mutate", "Database mutations are prohibited by default.");
   ("shell.execute", "Arbitrary shell execution is prohibited.");
   ("cloud.delete_resource", "Cloud deletion is prohibited by default.");
   ("secret.read", "Secret access is prohibited for agent actions.")].

Definition all_environments : list string := ["dev"; "staging"; "test"; "local"; "production"].

(** The five read-only entries differ in three fields. *)
Definition read_only_action (name description capability : string) : ActionMetadata := {|
  md_name := name; md_description := description; md_base_risk := READ_ONLY;
  md_is_read_only := true; md_is_mutation := false; md_reversible := true;
  md_blast_radius := "none"; md_default_requires_approval := false;
  md_allowed_environments := all_environments; md_required_capabilities := [capability];
  md_required_preconditions := []; md_post_checks := []; md_prohibited_reason := None |}.

Definition report_generate : ActionMetadata := {|
  md_name := "report.generate";
  md_description := "Generate a local incident report artifact.";
  md_base_risk := LOW; md_is_read_only := false; md_is_mutation := false; md_reversible := true;
  md_blast_radius := "local incident record"; md_default_requires_approval := false;
  md_allowed_environments := default_allowed_environments;
  md_required_capabilities := ["report:write"]; md_required_preconditions := [];
  md_post_checks := ["report_contains_evidence"]; md_prohibited_reason := None |}.

Definition timeline_add_note : ActionMetadata := {|
  md_name := "timeline.add_note";
  md_description := "Append an audit timeline note to the local incident.";
  md_base_risk := LOW; md_is_read_only := false; md_is_mutation := false; md_reversible := true;
  md_blast_radius := "local incident record"; md_default_requires_approval := false;
  md_allowed_environments := default_allowed_environments;
  md_required_capabilities := ["timeline:write"]; md_required_preconditions := [];
  md_post_checks := []; md_prohibited_reason := None |}.

Definition create_incident_ticket : ActionMetadata := {|
  md_name := "mock.create_incident_ticket";
  md_description := "Create a mock incident ticket; no external issue tracker is called.";
  md_base_risk := LOW; md_is_read_only := false; md_is_mutation := true; md_reversible := true;
  md_blast_radius := "mock ticket system"; md_default_requires_approval := true;
  md_allowed_environments := all_environments;
  md_required_capabilities := ["mock:tickets:write"];
  md_required_preconditions := ["evidence_cited"; "incident_summary_present"];
  md_post_checks := ["ticket_id_recorded"]; md_prohibited_reason := None |}.

Definition create_rollback_pr : ActionMetadata := {|
  md_name := "mock.create_rollback_pr";
  md_description := "Create a mock rollback PR draft; no GitHub API is called.";
  md_base_risk := MEDIUM; md_is_read_only := false; md_is_mutation := true; md_reversible := true;
  md_blast_radius := "mock repository draft"; md_default_requires_approval := true;
  md_allowed_environments := all_environments;
  md_required_capabilities := ["mock:pull_requests:write"];
  md_required_preconditions := ["bad_deploy_identified"; "rollback_plan_present"];
  md_post_checks := ["pr_url_recorded"; "verify_recovery_after_merge"];
  md_prohibited_reason := None |}.

Definition execute_restart_worker : ActionMetadata := {|
  md_name := "mock.execute_restart_worker";
  md_description := "Simulate restarting a non-production worker.";
  md_base_risk := LOW; md_is_read_only := false; md_is_mutation := true; md_reversible := true;
  md_blast_radius := "single non-production worker"; md_default_requires_approval := true;
  md_allowed_environments := ["dev"; "staging"; "test"; "local"];
  md_required_capabilities := ["mock:workers:restart"];
  md_required_preconditions := ["worker_target_confirmed"];
  md_post_checks := ["mock.verify_recovery"]; md_prohibited_reason := None |}.

Abbreviation registry := (list (string * ActionMetadata)).

Definition DEFAULT_ACTION_REGISTRY : registry :=
  [("mock.get_error_context",
    read_only_action "mock.get_error_context"
      "Read sanitized mock error context for an incident." "mock:context:read");
   ("mock.get_recent_deploys",
    read_only_action "mock.get_recent_deploys"
      "Read mock deployment history for the affected service." "mock:deploys:read");
   ("mock.get_runbook",
    read_only_action "mock.get_runbook" "Read the matching mock runbook." "mock:runbooks:read");
   ("mock.search_prior_incidents",
    read_only_action "mock.search_prior_incidents"
      "Search sanitized prior incident summaries." "mock:incidents:read");
   ("report.generate", report_generate);
   ("timeline.add_note", timeline_add_note);
   ("mock.create_incident_ticket", create_incident_ticket);
   ("mock.create_rollback_pr", create_rollback_pr);
   ("mock.execute_restart_worker", execute_restart_worker);
   ("mock.verify_recovery",
    read_only_action "mock.verify_recovery"
      "Read mock recovery signal after an action." "mock:verification:read")].

(** [RiskEngine(registry)]: an empty or missing registry means the default. *)
Definition RiskEngine_init (r : option registry) : registry :=
  match r with
  | None | Some [] => DEFAULT_ACTION_REGISTRY
  | Some r => r
  end.

Definition prohibited_action (ty reason : string) : ActionMetadata := {|
  md_name := ty; md_description := reason; md_base_risk := PROHIBITED;
  md_is_read_only := false; md_is_mutation := true; md_reversible := false;
  md_blast_radius := "unbounded or production"; md_default_requires_approval := false;
  md_allowed_environments := []; md_required_capabilities := [];
  md_required_preconditions := []; md_post_checks := [];
  md_prohibited_reason := Some reason |}.

Definition get_action (reg : registry) (ty : string) : option ActionMetadata :=
  match dget PROHIBITED_ACTIONS ty with
  | Some reason => Some (prohibited_action ty reason)
  | None => dget reg ty
  end.

Definition classify (reg : registry) (ty : string) : RiskLevel :=
  match get_action reg ty with
  | None => HIGH
  | Some a => if is_prohibited a then PROHIBITED else md_base_risk a
  end.

(** ** Lemmas *)

Lemma prohibited_reason_nonempty ty reason :
  dget PROHIBITED_ACTIONS ty = Some reason -> reason <> "".
Proof.
  intros H%dget_In. simpl in H.
  repeat (destruct H as [H|H]; [injection H as _ <-; done|]). done.
Qed.

Lemma get_action_prohibited reg ty reason :
  dget PROHIBITED_ACTIONS ty = Some reason ->
  get_action reg ty = Some (prohibited_action ty reason).
Proof. unfold get_action. by intros ->. Qed.

Lemma is_prohibited_action ty reason :
  dget PROHIBITED_ACTIONS ty = Some reason -> is_prohibited (prohibited_action ty reason) = true.
Proof.
  intros H. unfold is_prohibited. simpl. unfold is_empty.
  destruct (eqs_spec reason ""); [|done]. by apply prohibited_reason_nonempty in H.
Qed.

#[export] Hint Resolve is_prohibited_action get_action_prohibited : py.
