(* ===== verification/BlastRadius.v ===== *)
(** * Blast-radius classification (app/services/blast_radius.py) *)

From S2P Require Import Prelude PyValue ActionModel RiskEngine.

Inductive BlastRadiusLevel :=
  | BR_LOCAL | BR_SERVICE | BR_WORKSPACE | BR_TENANT | BR_GLOBAL | BR_UNKNOWN | BR_PROHIBITED.

#[export] Instance BlastRadiusLevel_eq_dec : EqDecision BlastRadiusLevel.
Proof. solve_decision. Defined.

Definition BlastRadiusLevel_value (l : BlastRadiusLevel) : string :=
  match l with
  | BR_LOCAL => "local" | BR_SERVICE => "service" | BR_WORKSPACE => "workspace"
  | BR_TENANT => "tenant" | BR_GLOBAL => "global" | BR_UNKNOWN => "unknown"
  | BR_PROHIBITED => "prohibited"
  end.

Record BlastRadiusResult := {
  br_level : BlastRadiusLevel;
  br_reason : string;
  br_rollback_available : bool;
  br_approval_required : bool;
  br_touched_resources : list string;
  br_allowed : bool;
  br_evidence : list string;
}.

Definition br_scope (r : BlastRadiusResult) : string := BlastRadiusLevel_value (br_level r).

Definition br_requires_human_approval (r : BlastRadiusResult) : bool := br_approval_required r.

Definition br_allowed_for_auto (r : BlastRadiusResult) : bool :=
  br_allowed r && negb (br_approval_required r) && br_rollback_available r.

Definition br_reasons (r : BlastRadiusResult) : list string := br_reason r :: br_evidence r.

Definition br_to_dict (r : BlastRadiusResult) : dict :=
  [("level", VStr (BlastRadiusLevel_value (br_level r)));
   ("reason", VStr (br_reason r));
   ("rollback_available", VBool (br_rollback_available r));
   ("approval_required", VBool (br_approval_required r));
   ("touched_resources", vlist_of_strings (br_touched_resources r));
   ("allowed", VBool (br_allowed r));
   ("evidence", vlist_of_strings (br_evidence r));
   ("scope", VStr (BlastRadiusLevel_value (br_level r)));
   ("requires_human_approval", VBool (br_requires_human_approval r));
   ("allowed_for_auto", VBool (br_allowed_for_auto r))].

(** [_level_for]: the first group of tokens that occurs in the lower-cased
    description of the action, the payload's hint and the environment. *)
Definition raw_text (a : ActionMetadata) (r : ActionRequest) : string :=
  str_join " " (map (fun v => replace "non-production" "nonproduction" (lower v))
    [md_blast_radius a; py_str (vget_or (payload r) "blast_radius" (VStr "")); environment r]).

Definition level_for (a : ActionMetadata) (r : ActionRequest) : BlastRadiusLevel :=
  if is_prohibited a then BR_PROHIBITED
  else
    let raw := raw_text a r in
    if contains_any ["prohibited"; "unbounded"; "shell"; "database"; "cloud"; "secret"] raw
    then (if is_prohibited a then BR_PROHIBITED else BR_UNKNOWN)
    else if contains "global" raw then BR_GLOBAL
    else if contains "tenant" raw then BR_TENANT
    else if contains_any ["workspace"; "repository"; "ticket"; "pull request"; "mock ticket"] raw
    then BR_WORKSPACE
    else if contains_any ["service"; "worker"; "single non-production worker"] raw then BR_SERVICE
    else if contains_any ["local"; "incident"; "timeline"; "report"; "none"] raw || md_is_read_only a
    then BR_LOCAL
    else BR_UNKNOWN.

Definition br_reason_for (a : ActionMetadata) (l : BlastRadiusLevel) : string :=
  match md_prohibited_reason a with
  | Some r => if negb (is_empty r) then r
              else "Action metadata blast radius " +:+ repr_string (md_blast_radius a) +:+
                   " maps to " +:+ BlastRadiusLevel_value l +:+ " scope."
  | None => "Action metadata blast radius " +:+ repr_string (md_blast_radius a) +:+
            " maps to " +:+ BlastRadiusLevel_value l +:+ " scope."
  end.

Definition resources (r : ActionRequest) : list string :=
  let add acc key :=
    let v := vget (payload r) key in
    if truthy v && negb (mem (py_str v) acc) then (acc ++ [py_str v])%list else acc in
  List.filter (fun s => negb (is_empty s))
    (fold_left add ["service"; "worker"; "repository"; "ticket"; "incident_id"] [target r]).

Definition is_unbounded (l : BlastRadiusLevel) : bool :=
  bool_decide (l = BR_UNKNOWN) || bool_decide (l = BR_PROHIBITED).

(** [BlastRadiusService.evaluate] on a request. *)
Definition br_evaluate (reg : registry) (r : ActionRequest) : BlastRadiusResult :=
  match get_action reg (action_type r) with
  | None => {|
      br_level := BR_UNKNOWN;
      br_reason := "Unknown action " +:+ repr_string (action_type r) +:+ " has unbounded blast radius.";
      br_rollback_available := false; br_approval_required := true;
      br_touched_resources := resources r; br_allowed := false;
      br_evidence := ["unknown_action"] |}
  | Some a =>
      let level := level_for a r in {|
      br_level := level;
      br_reason := br_reason_for a level;
      br_rollback_available :=
        md_reversible a && negb (is_unbounded level || bool_decide (level = BR_GLOBAL));
      br_approval_required :=
        md_default_requires_approval a ||
        match level with
        | BR_WORKSPACE | BR_TENANT | BR_GLOBAL | BR_UNKNOWN | BR_PROHIBITED => true
        | BR_LOCAL | BR_SERVICE => false
        end;
      br_touched_resources := resources r;
      br_allowed := negb (is_unbounded level);
      br_evidence := ["action_metadata:" +:+ md_name a; "blast_radius:" +:+ md_blast_radius a] |}
  end.

(** [evaluate] on a bare action name. *)
Definition br_evaluate_name (reg : registry) (ty : string) (pl : option dict) : BlastRadiusResult :=
  let pl := default [] pl in
  br_evaluate reg (mk_request ty (py_str (vget_or pl "target" (VStr "unknown"))) "local" pl).

Definition mapping_or_empty (v : val) : dict := default [] (as_dict v).

Definition br_classify (reg : registry) (ctx : dict) : BlastRadiusResult :=
  br_evaluate reg (mk_request
    (py_str (vget_or ctx "action_type" (VStr "unknown")))
    (py_str (vget_or ctx "target" (VStr "unknown")))
    (py_str (vget_or ctx "environment" (VStr "local")))
    (mapping_or_empty (vget_or ctx "payload" (VDict [])))).

(** ** Lemmas *)

Lemma level_for_prohibited a r : is_prohibited a = true -> level_for a r = BR_PROHIBITED.
Proof. unfold level_for. by intros ->. Qed.

Lemma level_for_not_prohibited a r : is_prohibited a = false -> level_for a r <> BR_PROHIBITED.
Proof. unfold level_for. intros ->. repeat case_match; congruence. Qed.

(** An action the service allows is registered, not prohibited and bounded. *)
Lemma br_allowed_inv reg r :
  br_allowed (br_evaluate reg r) = true ->
  exists a, get_action reg (action_type r) = Some a /\ is_prohibited a = false /\
    br_level (br_evaluate reg r) = level_for a r /\
    level_for a r <> BR_UNKNOWN /\ level_for a r <> BR_PROHIBITED.
Proof.
  unfold br_evaluate. destruct (get_action reg (action_type r)) as [a|]; simpl; [|done].
  unfold is_unbounded. intros H. bools. exists a.
  apply bool_decide_eq_false in H, H0. repeat split; auto.
  destruct (is_prohibited a) eqn:E; [|done]. by rewrite level_for_prohibited in H0.
Qed.

Lemma br_unregistered reg r :
  get_action reg (action_type r) = None ->
  br_allowed (br_evaluate reg r) = false /\ br_level (br_evaluate reg r) = BR_UNKNOWN.
Proof. unfold br_evaluate. by intros ->. Qed.
