(* ===== verification/ActionSimulator.v ===== *)
(** * The dry-run simulator (app/services/action_simulator.py) *)

From S2P Require Import Prelude PyValue ActionModel RiskEngine BlastRadius.

Inductive SimulationStatus := SIM_PASS | SIM_BLOCKED | SIM_ESCALATE.

#[export] Instance SimulationStatus_eq_dec : EqDecision SimulationStatus.
Proof. solve_decision. Defined.

Definition SimulationStatus_value (s : SimulationStatus) : string :=
  match s with SIM_PASS => "pass" | SIM_BLOCKED => "blocked" | SIM_ESCALATE => "escalate" end.

Record SimulationResult := {
  sim_status : SimulationStatus;
  sim_action_type : string;
  sim_expected_effect : string;
  sim_touched_resources : list string;
  sim_rollback_path : option string;
  sim_precondition_gaps : list string;
  sim_residual_risks : list string;
  sim_blast_radius : BlastRadiusResult;
  sim_allowed : bool;
}.

Definition sim_ok (r : SimulationResult) : bool :=
  sim_allowed r && bool_decide (sim_status r = SIM_PASS).

(** [success] and [passed] are aliases of [ok]. *)
Definition sim_success (r : SimulationResult) : bool := sim_ok r.

Definition opt_str (o : option string) : val :=
  match o with Some s => VStr s | None => VNone end.

Definition sim_to_dict (r : SimulationResult) : dict :=
  [("status", VStr (SimulationStatus_value (sim_status r)));
   ("action_type", VStr (sim_action_type r));
   ("expected_effect", VStr (sim_expected_effect r));
   ("touched_resources", vlist_of_strings (sim_touched_resources r));
   ("rollback_path", opt_str (sim_rollback_path r));
   ("precondition_gaps", vlist_of_strings (sim_precondition_gaps r));
   ("residual_risks", vlist_of_strings (sim_residual_risks r));
   ("blast_radius", VDict (br_to_dict (sim_blast_radius r)));
   ("allowed", VBool (sim_allowed r));
   ("ok", VBool (sim_ok r));
   ("success", VBool (sim_success r))].

Definition touched_resources (ty : string) (rs : list string) : list string :=
  match rs with
  | r :: _ => if contains "rollback" ty then ("mock repository draft for " +:+ r) :: rs else rs
  | [] => rs
  end.

Definition explicit_precondition_gaps (pl : dict) : list string :=
  match vget_or pl "missing_preconditions" (VTuple []) with
  | VStr s => [s]
  | VList l | VTuple l => map py_str l
  | _ => []
  end.

Definition expected_effect (ty : string) : string :=
  default "Execute only through the registered local/mock action handler; no external mutation."
    (dget
       [("report.generate", "Generate a local report artifact; no external mutation.");
        ("timeline.add_note", "Append a local incident timeline note; no external mutation.");
        ("mock.create_incident_ticket",
         "Create a deterministic mock ticket record; no external mutation.");
        ("mock.create_rollback_pr",
         "Create a deterministic mock rollback PR draft; no external mutation.");
        ("mock.execute_restart_worker",
         "Simulate a single non-production worker restart; no external mutation.");
        ("mock.verify_recovery", "Read local/mock recovery evidence; no external mutation.")] ty).

Definition rollback_path (ty : string) (available : bool) : option string :=
  if negb available then None
  else if contains "rollback" ty
  then Some "Discard the mock rollback PR draft; no provider state changed."
  else if contains "restart" ty
  then Some "Run mock.verify_recovery and keep human escalation available; restart is simulated only."
  else if contains "ticket" ty then Some "Close or annotate the mock ticket artifact."
  else Some "Remove or supersede the local artifact if needed.".

Definition residual_risks (ty : string) : list string :=
  if contains "rollback" ty then ["human must review before real merge"]
  else if contains "restart" ty then ["simulation does not restart real workers"]
  else ["local_mock_evidence_only"].

(** [ActionSimulator.simulate] on a request. *)
Definition simulate (reg : registry) (r : ActionRequest) : SimulationResult :=
  let ty := action_type r in
  let br := br_evaluate reg r in
  let gaps := explicit_precondition_gaps (payload r) in
  let blocked effect rollback gaps risks := {|
    sim_status := SIM_BLOCKED; sim_action_type := ty; sim_expected_effect := effect;
    sim_touched_resources := br_touched_resources br; sim_rollback_path := rollback;
    sim_precondition_gaps := gaps; sim_residual_risks := risks; sim_blast_radius := br;
    sim_allowed := false |} in
  match get_action reg ty with
  | None => {|
      sim_status := if ty =s "unknown.mutate" then SIM_BLOCKED else SIM_ESCALATE;
      sim_action_type := ty;
      sim_expected_effect := "Unknown action cannot be simulated safely.";
      sim_touched_resources := br_touched_resources br; sim_rollback_path := None;
      sim_precondition_gaps := ["registered_action"];
      sim_residual_risks := ["unknown_action"; "manual_review_required"];
      sim_blast_radius := br; sim_allowed := false |}
  | Some _ =>
      if negb (br_allowed br) then
        blocked "Simulation blocked because blast radius is not bounded." None
          (match gaps with [] => ["bounded_blast_radius"] | _ => gaps end) [br_reason br]
      else match gaps with
      | _ :: _ =>
          blocked "Simulation blocked by missing preconditions."
            (rollback_path ty (br_rollback_available br)) gaps ["missing_preconditions"]
      | [] => {|
          sim_status := SIM_PASS; sim_action_type := ty;
          sim_expected_effect := expected_effect ty;
          sim_touched_resources := touched_resources ty (br_touched_resources br);
          sim_rollback_path := rollback_path ty (br_rollback_available br);
          sim_precondition_gaps := []; sim_residual_risks := residual_risks ty;
          sim_blast_radius := br; sim_allowed := true |}
      end
  end.

(** [simulate] on a mapping. *)
Definition simulate_mapping (reg : registry) (m : dict) : SimulationResult :=
  simulate reg (mk_request
    (py_str (vget_or m "action_type" (VStr "unknown")))
    (py_str (vget_or m "target" (VStr "unknown")))
    (py_str (vget_or m "environment" (VStr "local")))
    (mapping_or_empty (vget_or m "payload" (VDict [])))).

(** ** Lemmas *)

(** Being allowed, having status [pass] and having neither an unbounded blast
    radius nor an explicit gap are the same. *)
Lemma simulate_allowed_iff reg r :
  sim_allowed (simulate reg r) = true <->
  br_allowed (br_evaluate reg r) = true /\ explicit_precondition_gaps (payload r) = [].
Proof.
  unfold simulate. destruct (get_action reg (action_type r)) as [a|] eqn:E; simpl.
  - destruct (br_allowed _); simpl; [|naive_solver].
    destruct (explicit_precondition_gaps _); simpl; naive_solver.
  - rewrite (proj1 (br_unregistered reg r E)). naive_solver.
Qed.

Lemma simulate_success_allowed reg r :
  sim_success (simulate reg r) = sim_allowed (simulate reg r).
Proof. unfold sim_success, sim_ok, simulate. repeat case_match; done. Qed.

Lemma simulate_pass_iff reg r :
  sim_status (simulate reg r) = SIM_PASS <-> sim_allowed (simulate reg r) = true.
Proof. unfold simulate. repeat case_match; simpl; done. Qed.
