(* ===== verification/PolicyEngine.v ===== *)
(** * Policy evaluation (app/services/policy_engine.py)

    [evaluate] decides whether a requested action runs now, waits for an
    approval, is denied or is escalated to a human.  The engine is written
    over an arbitrary action registry; [DEFAULT_ACTION_REGISTRY] is the one
    the services instantiate it with. *)

From S2P Require Import Prelude PyValue ActionModel RiskEngine BlastRadius ActionSimulator.

(** The double nearest to a decimal literal of the source. *)
Definition f_0_82 : Q := 7385903388887613 # 9007199254740992.
Definition f_0_85 : Q := 7656119366529843 # 9007199254740992.

Definition Qltb (a b : Q) : bool := negb (Qle_bool b a).

(** A [datetime.time] as hour and minute. *)
Definition clock_time : Type := (Z * Z)%type.

Record NightAutopilotConfig := {
  quiet_hours_start : clock_time;
  quiet_hours_end : clock_time;
  timezone : string;
  cfg_max_automatic_risk : RiskLevel;
  max_attempts_per_incident : Z;
  cfg_allowed_services : list string;
  cfg_allowed_environments : list string;
  allowed_actions : list string;
  wake_up_conditions : list string;
}.

Definition default_autopilot : NightAutopilotConfig := {|
  quiet_hours_start := (22, 0); quiet_hours_end := (7, 0); timezone := "UTC";
  cfg_max_automatic_risk := LOW; max_attempts_per_incident := 1;
  cfg_allowed_services := ["payment-api"; "checkout-worker"; "demo-service"; "worker"];
  cfg_allowed_environments := ["staging"; "local"; "test"];
  allowed_actions := ["report.generate"; "timeline.add_note"; "mock.execute_restart_worker"];
  wake_up_conditions := ["critical severity"; "production environment"; "policy denied action";
                         "verification failed"] |}.

Record PolicyContext := {
  capabilities : list string;
  ctx_service : string;
  ctx_environment : string;
  ctx_tenant_id : string;
  ctx_workspace_id : string;
  severity : string;
  night_autopilot : bool;
  autopilot_attempts : Z;
  autopilot : NightAutopilotConfig;
  mode : string;
  allowed_services : option (list string);
  allowed_environments : option (list string);
  max_automatic_risk : option string;
  confidence : option Q;
  evidence_count : Z;
  conflicting_signals : bool;
  known_ambiguity : bool;
  blast_radius_scope : option string;
  rollback_available : option bool;
  reversible : option bool;
  simulation_passed : option bool;
  simulation_status : option string;
  failed_memory_warning : bool;
  memory_failed_action_warning : bool;
}.

Definition default_context_capabilities : list string :=
  ["mock:context:read"; "mock:deploys:read"; "mock:runbooks:read"; "mock:incidents:read";
   "mock:verification:read"; "mock:tickets:write"; "mock:pull_requests:write";
   "mock:workers:restart"; "timeline:write"; "report:write"].

Definition mk_context (caps : list string) (service env : string) : PolicyContext := {|
  capabilities := caps; ctx_service := service; ctx_environment := env;
  ctx_tenant_id := "demo"; ctx_workspace_id := "demo"; severity := "medium";
  night_autopilot := false; autopilot_attempts := 0; autopilot := default_autopilot;
  mode := "manual"; allowed_services := None; allowed_environments := None;
  max_automatic_risk := None; confidence := None; evidence_count := 0;
  conflicting_signals := false; known_ambiguity := false; blast_radius_scope := None;
  rollback_available := None; reversible := None; simulation_passed := None;
  simulation_status := None; failed_memory_warning := false;
  memory_failed_action_warning := false |}.

(** [PolicyContext()] *)
Definition default_context : PolicyContext :=
  mk_context default_context_capabilities "demo-service" "local".

Definition autopilot_enabled (c : PolicyContext) : bool :=
  night_autopilot c || (mode c =s "night_autopilot").

(** [a or b] for an optional tuple. *)
Definition or_list (o : option (list string)) (d : list string) : list string :=
  match o with None | Some [] => d | Some l => l end.

(** The per-context overrides; a risk name that is not a [RiskLevel] raises. *)
Definition resolved_autopilot (c : PolicyContext) : res NightAutopilotConfig :=
  match allowed_services c, allowed_environments c, max_automatic_risk c with
  | None, None, None => Ok (autopilot c)
  | _, _, _ =>
      let! risk :=
        match max_automatic_risk c with
        | None | Some "" => Ok (cfg_max_automatic_risk (autopilot c))
        | Some s => RiskLevel_of_value s
        end in
      Ok {| quiet_hours_start := quiet_hours_start (autopilot c);
            quiet_hours_end := quiet_hours_end (autopilot c);
            timezone := timezone (autopilot c);
            cfg_max_automatic_risk := risk;
            max_attempts_per_incident := max_attempts_per_incident (autopilot c);
            cfg_allowed_services := or_list (allowed_services c) (cfg_allowed_services (autopilot c));
            cfg_allowed_environments :=
              or_list (allowed_environments c) (cfg_allowed_environments (autopilot c));
            allowed_actions := allowed_actions (autopilot c);
            wake_up_conditions := wake_up_conditions (autopilot c) |}
  end.

Record PolicyEvaluation := {
  decision : PolicyDecision;
  risk_level : RiskLevel;
  requires_approval : bool;
  reason : string;
  pe_action : option ActionMetadata;
  missing_capabilities : list string;
  preconditions : list string;
  post_checks : list string;
  blast_radius : option BlastRadiusResult;
  simulation : option SimulationResult;
}.

Definition route (e : PolicyEvaluation) : PolicyRoute :=
  if bool_decide (decision e = ALLOW) && negb (requires_approval e) then AUTO_EXECUTE
  else if bool_decide (decision e = ESCALATE) then HUMAN_REQUIRED
  else if bool_decide (decision e = DENY) then BLOCKED
  else APPROVAL_REQUIRED.

Definition executable_now (e : PolicyEvaluation) : bool :=
  bool_decide (decision e = ALLOW) && negb (requires_approval e).

Definition reasons (e : PolicyEvaluation) : list string :=
  (reason e :: match missing_capabilities e with
               | [] => []
               | l => ["missing capabilities: " +:+ str_join ", " l]
               end)%list.

Definition risk_order (r : RiskLevel) : Z :=
  match r with READ_ONLY => 0 | LOW => 1 | MEDIUM => 2 | HIGH => 3 | PROHIBITED => 4 end.

Definition default_capabilities (extra : list string) : list string :=
  (["mock:context:read"; "mock:deploys:read"; "mock:runbooks:read"; "mock:incidents:read";
    "mock:verification:read"; "timeline:write"; "report:write"] ++ extra)%list.

Definition DANGEROUS_ACTION_ALIASES : list (string * string) :=
  [("production_rollback", "production.rollback");
   ("production_restart", "production.restart_service");
   ("database_mutation", "database.mutate");
   ("arbitrary_shell", "shell.execute");
   ("prohibited.arbitrary_shell", "shell.execute");
   ("cloud_delete", "cloud.delete_resource");
   ("secret_access", "secret.read")].

Definition write_capabilities : list string :=
  ["mock:tickets:write"; "mock:pull_requests:write"; "mock:workers:restart"].

(** [context.capabilities or default_capabilities(…)]: an empty grant set
    counts as a missing one. *)
Definition effective_capabilities (c : PolicyContext) : list string :=
  match capabilities c with
  | [] => default_capabilities write_capabilities
  | l => l
  end.

(** [tuple(sorted(set(required) - set(effective)))] *)
Definition missing_capabilities_of (a : ActionMetadata) (c : PolicyContext) : list string :=
  sorted_strings (remove_dups
    (List.filter (fun x => negb (mem x (effective_capabilities c))) (md_required_capabilities a))).

(** The night-autopilot gate: the source's chain of early returns. *)
Definition evaluate_night_autopilot (r : ActionRequest) (c : PolicyContext) (risk : RiskLevel)
  : res PolicyDecision :=
  let! cfg := resolved_autopilot c in
  let low_confidence bound :=
    match confidence c with Some q => Qltb q bound | None => false end in
  let rollback_available :=
    match rollback_available c with Some b => Some b | None => reversible c end in
  let scope_in l := match blast_radius_scope c with Some s => mem s l | None => false end in
  Ok (if (severity c =s "critical") || (environment r =s "production") then ESCALATE
      else if max_attempts_per_incident cfg <=? autopilot_attempts c then ESCALATE
      else if negb (mem (ctx_service c) (cfg_allowed_services cfg)) ||
              negb (mem (environment r) (cfg_allowed_environments cfg)) then ESCALATE
      else if low_confidence f_0_82 then ESCALATE
      else if conflicting_signals c || known_ambiguity c then ESCALATE
      else if failed_memory_warning c || memory_failed_action_warning c then ESCALATE
      else if bool_decide (simulation_passed c = Some false) then ESCALATE
      else if bool_decide (rollback_available = Some false) then REQUIRE_APPROVAL
      else if scope_in ["unknown"; "tenant"; "global"; "prohibited"] then ESCALATE
      else if negb (mem (action_type r) (allowed_actions cfg)) then REQUIRE_APPROVAL
      else if risk_order (cfg_max_automatic_risk cfg) <? risk_order risk then REQUIRE_APPROVAL
      else if low_confidence f_0_85 then ESCALATE
      else if bool_decide (blast_radius_scope c <> None) && negb (scope_in ["local"; "service"])
           then ESCALATE
      else if bool_decide (reversible c = Some false) then ESCALATE
      else if match simulation_status c with Some s => negb (s =s "passed") | None => false end
           then ESCALATE
      else if memory_failed_action_warning c then ESCALATE
      else ALLOW).

Section Evaluate.
Context (reg : registry).

(** [PolicyEngine.evaluate] on a request. *)
Definition evaluate (r : ActionRequest) (octx : option PolicyContext) : res PolicyEvaluation :=
  let c := default (mk_context default_context_capabilities "demo-service" (environment r)) octx in
  let br := br_evaluate reg r in
  let sim := simulate reg r in
  match get_action reg (action_type r) with
  | None =>
      Ok {| decision := ESCALATE; risk_level := HIGH; requires_approval := true;
            reason := "Unknown action " +:+ repr_string (action_type r) +:+
                      "; escalate for manual review.";
            pe_action := None; missing_capabilities := []; preconditions := [];
            post_checks := []; blast_radius := Some br; simulation := Some sim |}
  | Some a =>
      let risk := classify reg (action_type r) in
      let answer d rl ra why missing := {|
        decision := d; risk_level := rl; requires_approval := ra; reason := why;
        pe_action := Some a; missing_capabilities := missing;
        preconditions := md_required_preconditions a; post_checks := md_post_checks a;
        blast_radius := Some br; simulation := Some sim |} in
      if bool_decide (risk = PROHIBITED) || is_prohibited a then
        Ok (answer DENY PROHIBITED false
              (if is_prohibited a then default "" (md_prohibited_reason a)
               else "Production or prohibited mutation is denied by default policy.") [])
      else if negb (br_allowed br) || (negb (md_is_read_only a) && negb (sim_allowed sim)) then
        Ok (answer DENY (if BlastRadiusLevel_value (br_level br) =s "prohibited" then PROHIBITED else HIGH)
              false
              ("Action denied because blast radius/simulation is not bounded: " +:+ br_reason br) [])
      else if negb (br_allowed br) || (negb (md_is_read_only a) && negb (sim_allowed sim)) then
        Ok (answer DENY (if BlastRadiusLevel_value (br_level br) =s "prohibited" then PROHIBITED else HIGH)
              false
              ("Action denied because blast radius/simulation is not bounded: " +:+ br_reason br) [])
      else if bool_decide (md_allowed_environments a <> []) &&
              negb (mem (environment r) (md_allowed_environments a)) && negb (md_is_read_only a) then
        Ok (answer DENY PROHIBITED false
              ("Action " +:+ action_type r +:+ " is not allowed in environment " +:+
               environment r +:+ ".") [])
      else
        let missing := missing_capabilities_of a c in
        if negb (bool_decide (missing = [])) then
          Ok (answer ESCALATE risk true "Missing required capability grants." missing)
        else if autopilot_enabled c then
          let! d := evaluate_night_autopilot r c risk in
          Ok (answer d risk (negb (bool_decide (d = ALLOW))) "Night Autopilot policy applied." [])
        else if md_default_requires_approval a || approved r then
          if approved r then
            Ok (answer ALLOW risk false "Human approval is present for approval-gated action." [])
          else
            Ok (answer REQUIRE_APPROVAL risk true
                  "Default MVP policy requires approval for this write/mutation action." [])
        else
          Ok (answer ALLOW risk false
                "Default MVP policy allows read-only, report, and timeline actions." [])
  end.

(** [PolicyEngine.evaluate] on a bare action name. *)
Definition evaluate_name (name : string) (octx : option PolicyContext) : res PolicyEvaluation :=
  let c := default default_context octx in
  evaluate (mk_request (default name (dget DANGEROUS_ACTION_ALIASES name))
              (ctx_service c) (ctx_environment c) []) (Some c).
End Evaluate.

(** [evaluate_policy]: a dict-shaped proposal. *)
Definition evaluate_policy (action : dict) : res PolicyEvaluation :=
  let pl := mapping_or_empty (vget_or action "payload" (VDict [])) in
  let raw := py_str (vget_or action "action_type" (VStr "")) in
  let ty := default raw (dget DANGEROUS_ACTION_ALIASES raw) in
  let env := py_str (vget_or action "environment" (vget_or pl "environment" (VStr "staging"))) in
  let service := py_str (vget_or action "service" (vget_or pl "service" (VStr "payment-api"))) in
  let r := {| action_type := ty; target := py_str (vget_or action "target" (VStr service));
              environment := env; tenant_id := "demo"; workspace_id := "demo"; payload := pl;
              requester := "agent"; incident_id := None;
              approved := truthy (vget_or action "approved" (VBool false)); approval_id := None |} in
  evaluate DEFAULT_ACTION_REGISTRY r
    (Some (mk_context (default_capabilities write_capabilities) service env)).

(** ** Lemmas *)

Create Rewrite HintDb policy.

Lemma missing_capabilities_none a c :
  missing_capabilities_of a c = [] <->
  forall x, In x (md_required_capabilities a) -> In x (effective_capabilities c).
Proof.
  unfold missing_capabilities_of, sorted_strings. split.
  - intros H x Hx. apply mem_In. destruct (mem x _) eqn:E; [done|]. exfalso.
    assert (Hin : In x []); [|done]. rewrite <- H. apply in_isort.
    apply list_elem_of_In, elem_of_remove_dups, list_elem_of_In, filter_In.
    by rewrite E.
  - intros H. destruct (List.filter _ _) as [|x l] eqn:E; [done|]. exfalso.
    assert (Hin : In x (List.filter (fun x => negb (mem x (effective_capabilities c)))
                          (md_required_capabilities a))) by (rewrite E; simpl; auto).
    apply filter_In in Hin as [Hr Hm]. apply negb_true_iff, mem_not_In in Hm. auto.
Qed.

Lemma classify_registered reg ty a :
  get_action reg ty = Some a -> is_prohibited a = false -> classify reg ty = md_base_risk a.
Proof. unfold classify. by intros -> ->. Qed.

(** Does the context-dependent part of the decision allow the action? *)
Definition context_allows (r : ActionRequest) (c : PolicyContext) (a : ActionMetadata) : Prop :=
  if autopilot_enabled c then evaluate_night_autopilot r c (md_base_risk a) = Ok ALLOW
  else approved r = true \/ md_default_requires_approval a = false.

(** The guards before the context is consulted, as one proposition. *)
Definition statically_allowed (reg : registry) (r : ActionRequest) (c : PolicyContext)
    (a : ActionMetadata) : Prop :=
  is_prohibited a = false /\ md_base_risk a <> PROHIBITED /\
  br_allowed (br_evaluate reg r) = true /\
  (md_is_read_only a = true \/
   (sim_allowed (simulate reg r) = true /\
    (md_allowed_environments a = [] \/ In (environment r) (md_allowed_environments a)))) /\
  (forall x, In x (md_required_capabilities a) -> In x (effective_capabilities c)).

Definition refused (e : PolicyEvaluation) : Prop :=
  (decision e = DENY /\ requires_approval e = false) \/
  (decision e = ESCALATE /\ requires_approval e = true).

Lemma refused_not_allow e : refused e -> decision e <> ALLOW.
Proof. intros [[-> _]|[-> _]]; done. Qed.

#[export] Hint Resolve refused_not_allow : py.

(** Past the static guards the engine answers what the context says; a request
    that fails one of them is denied or escalated, whatever the context. *)
Lemma evaluate_registered reg r c a :
  get_action reg (action_type r) = Some a ->
  (statically_allowed reg r c a /\
   exists d why, (evaluate reg r (Some c) =
     if autopilot_enabled c
     then let! d := evaluate_night_autopilot r c (md_base_risk a) in
          Ok {| decision := d; risk_level := md_base_risk a;
                requires_approval := negb (bool_decide (d = ALLOW));
                reason := "Night Autopilot policy applied."; pe_action := Some a;
                missing_capabilities := []; preconditions := md_required_preconditions a;
                post_checks := md_post_checks a; blast_radius := Some (br_evaluate reg r);
                simulation := Some (simulate reg r) |}
     else Ok {| decision := d; risk_level := md_base_risk a;
                requires_approval := negb (bool_decide (d = ALLOW)); reason := why;
                pe_action := Some a; missing_capabilities := [];
                preconditions := md_required_preconditions a;
                post_checks := md_post_checks a; blast_radius := Some (br_evaluate reg r);
                simulation := Some (simulate reg r) |}) /\
     d = (if approved r || negb (md_default_requires_approval a) then ALLOW else REQUIRE_APPROVAL))
  \/ (~ statically_allowed reg r c a /\
      exists e, evaluate reg r (Some c) = Ok e /\ refused e).
Proof.
  intros Ha. unfold evaluate, statically_allowed. cbn [from_option id]. rewrite Ha.
  destruct (is_prohibited a) eqn:Ep.
  { right. rewrite orb_true_r. split; [naive_solver|]. eexists; split; [done|]. by left. }
  rewrite (classify_registered _ _ _ Ha Ep), orb_false_r.
  case_bool_decide as Er; [right; split; [naive_solver|]; eexists; split; [done|]; by left|].
  destruct (br_allowed (br_evaluate reg r)) eqn:Eb; simpl;
    [|right; split; [naive_solver|]; eexists; split; [done|]; by left].
  destruct (negb (md_is_read_only a) && negb (sim_allowed (simulate reg r))) eqn:Es.
  { bools. right. split; [rewrite H, H0; naive_solver|]. eexists; split; [done|]. by left. }
  destruct (bool_decide (md_allowed_environments a <> []) &&
            negb (mem (environment r) (md_allowed_environments a)) && negb (md_is_read_only a)) eqn:Ee.
  { bools. apply bool_decide_eq_true in H. apply mem_not_In in H1. right. split.
    { intros (_ & _ & _ & [?|[_ [?|?]]] & _); [congruence | done | done]. }
    eexists; split; [done|]. by left. }
  destruct (decide (missing_capabilities_of a c = [])) as [Em|Em];
    [rewrite (bool_decide_true _ Em) | rewrite (bool_decide_false _ Em)]; simpl.
  2: { right. split; [intros (_ & _ & _ & _ & ?); by apply Em, missing_capabilities_none|].
       eexists; split; [done|]. by right. }
  left. split.
  - rewrite missing_capabilities_none in Em. repeat split; auto.
    apply andb_false_iff in Es as [Es|Es]; bools; [by left|].
    apply andb_false_iff in Ee as [Ee|Ee]; [|bools; by left]. right. split; [done|].
    apply andb_false_iff in Ee as [Ee|Ee].
    + apply bool_decide_eq_false in Ee. left. destruct (md_allowed_environments a); [done|by destruct Ee].
    + bools. right. by apply mem_In.
  - destruct (autopilot_enabled c); [exists (if approved r || negb (md_default_requires_approval a)
      then ALLOW else REQUIRE_APPROVAL), ""; split; reflexivity|].
    destruct (approved r), (md_default_requires_approval a); simpl; do 2 eexists;
      (split; [|reflexivity]); reflexivity.
Qed.

Ltac destruct_evaluate Ha c :=
  let d := fresh "d" in let why := fresh "why" in let e := fresh "e" in
  destruct (evaluate_registered _ _ c _ Ha)
    as [(?Hstatic & d & why & ?Heval & ?Hd) | (?Hstatic & e & ?Heval & ?Hd)].

Lemma if_allow_iff (b : bool) (x y : PolicyDecision) :
  x <> ALLOW -> ((if b then x else y) = ALLOW <-> b = false /\ y = ALLOW).
Proof. destruct b; naive_solver. Qed.

Lemma Qltb_false a b : Qltb a b = false <-> (b <= a)%Q.
Proof. unfold Qltb. rewrite negb_false_iff. apply Qle_bool_iff. Qed.

Lemma Qltb_true a b : Qltb a b = true <-> (a < b)%Q.
Proof.
  unfold Qltb. rewrite negb_true_iff. destruct (Qle_bool b a) eqn:E.
  - apply Qle_bool_iff in E. split; [done|]. intros H. by apply Qlt_not_le in H.
  - split; [intros _|done]. apply Qnot_le_lt. intros H. apply Qle_bool_iff in H. congruence.
Qed.

(** A float read from an optional field passes a lower bound. *)
Definition at_least (bound : Q) (o : option Q) : Prop :=
  match o with Some q => (bound <= q)%Q | None => True end.

Definition opt_in (l : list string) (o : option string) : Prop :=
  match o with Some s => In s l | None => True end.

Lemma low_confidence_false bound o :
  match o with Some q => Qltb q bound | None => false end = false <-> at_least bound o.
Proof. destruct o; simpl; [apply Qltb_false | done]. Qed.

Lemma opt_in_true l o :
  bool_decide (o <> None) && negb match o with Some s => mem s l | None => false end = false <->
  opt_in l o.
Proof.
  destruct o as [s|]; simpl.
  - rewrite negb_false_iff. apply mem_In.
  - done.
Qed.

Lemma status_passed o :
  match o with Some s => negb (s =s "passed") | None => false end = false <-> opt_in ["passed"] o.
Proof. destruct o as [s|]; simpl; [|done]. rewrite negb_false_iff, String.eqb_eq. naive_solver. Qed.

Lemma scope_excluded o :
  opt_in ["local"; "service"] o ->
  match o with Some s => mem s ["unknown"; "tenant"; "global"; "prohibited"] | None => false end = false.
Proof. destruct o as [s|]; simpl; [|done]. by intros [<-|[<-|[]]]. Qed.

Lemma at_least_weaken b b' o : (b' <= b)%Q -> at_least b o -> at_least b' o.
Proof. destruct o; simpl; [|done]. intros; eapply Qle_trans; eauto. Qed.

#[export] Hint Rewrite if_allow_iff using discriminate : policy.
#[export] Hint Rewrite orb_false_iff String.eqb_neq Z.leb_gt Z.ltb_ge negb_false_iff mem_In
  low_confidence_false @bool_decide_eq_false opt_in_true status_passed : policy.

Lemma night_autopilot_never_denies r c risk d :
  evaluate_night_autopilot r c risk = Ok d -> d <> DENY.
Proof.
  unfold evaluate_night_autopilot. intros H. apply bind_ok in H as (cfg & _ & H).
  injection H as <-. repeat (case_match; try done).
Qed.
