(* ===== verification/PolicyProps.v ===== *)
(** * What the policy engine guarantees *)

From S2P Require Import Prelude PyValue ActionModel RiskEngine BlastRadius ActionSimulator PolicyEngine.

(** C4: for every registry, context and request that the engine answers, the
    answer is ALLOW exactly when the action is registered and neither listed
    nor rated as prohibited, its blast radius is bounded, it is read-only or its
    simulation passes and its environment is permitted, every required capability is
    in the effective grants, and the context allows it: under night autopilot
    the night gate answers ALLOW, otherwise a human approved the request or
    the action needs no approval. *)
Theorem evaluate_allow_iff reg r c e :
  evaluate reg r (Some c) = Ok e ->
  (decision e = ALLOW <->
   exists a, get_action reg (action_type r) = Some a /\
     is_prohibited a = false /\ md_base_risk a <> PROHIBITED /\
     br_allowed (br_evaluate reg r) = true /\
     (md_is_read_only a = true \/
      (sim_allowed (simulate reg r) = true /\
       (md_allowed_environments a = [] \/ In (environment r) (md_allowed_environments a)))) /\
     (forall x, In x (md_required_capabilities a) -> In x (effective_capabilities c)) /\
     context_allows r c a).
Proof.
  intros H. destruct (get_action reg (action_type r)) as [a|] eqn:Ea.
  2: { unfold evaluate in H. rewrite Ea in H. injection H as <-. simpl.
       split; [done | intros (? & ? & _); done]. }
  destruct_evaluate Ea c; rewrite Heval in H.
  2: { injection H as <-. split; [intros ?; by destruct (refused_not_allow e0)|].
       intros (a' & [= <-] & H1 & H2 & H3 & H4 & H5 & _). by destruct Hstatic. }
  assert (Hctx : decision e = ALLOW <-> context_allows r c a).
  { unfold context_allows. destruct (autopilot_enabled c); inv_res; simpl.
    - rewrite H0. split; congruence.
    - destruct (approved r), (md_default_requires_approval a); naive_solver. }
  rewrite Hctx. destruct Hstatic as (H1 & H2 & H3 & H4 & H5). split.
  - intros Hc. exists a. auto 10.
  - by intros (a' & [= <-] & _ & _ & _ & _ & _ & ?).
Qed.

(** The night gate answers ALLOW exactly when the incident is neither
    critical nor in production, an attempt is left, service, environment and
    action are on the allow-lists, the risk does not exceed the configured
    maximum, every quality signal that is present is good (confidence at
    least 0.85, no conflict, ambiguity or failed memory, simulation passed,
    blast radius local or one service) and no field says that the action
    cannot be rolled back or reversed. *)
Theorem night_autopilot_allow_iff r c risk cfg :
  resolved_autopilot c = Ok cfg ->
  (evaluate_night_autopilot r c risk = Ok ALLOW <->
   severity c <> "critical" /\ environment r <> "production" /\
   autopilot_attempts c < max_attempts_per_incident cfg /\
   In (ctx_service c) (cfg_allowed_services cfg) /\
   In (environment r) (cfg_allowed_environments cfg) /\
   In (action_type r) (allowed_actions cfg) /\
   risk_order risk <= risk_order (cfg_max_automatic_risk cfg) /\
   at_least f_0_85 (confidence c) /\
   conflicting_signals c = false /\ known_ambiguity c = false /\
   failed_memory_warning c = false /\ memory_failed_action_warning c = false /\
   simulation_passed c <> Some false /\ opt_in ["passed"] (simulation_status c) /\
   opt_in ["local"; "service"] (blast_radius_scope c) /\
   rollback_available c <> Some false /\ reversible c <> Some false).
Proof.
  intros Hcfg. unfold evaluate_night_autopilot. rewrite Hcfg. cbn [bind].
  rewrite (inj_iff Ok).
  autorewrite with policy. split.
  - intros H. destruct_and! H. split_and?; auto. by destruct (rollback_available c).
  - intros H. destruct_and! H. split_and?; auto using scope_excluded.
    + by apply (at_least_weaken f_0_85); [vm_compute|].
    + by destruct (rollback_available c) as [[]|].
Qed.

Lemma prohibited_always_denied_aux reg r octx why :
  dget PROHIBITED_ACTIONS (action_type r) = Some why ->
  exists e, evaluate reg r octx = Ok e /\ decision e = DENY /\ risk_level e = PROHIBITED /\
    executable_now e = false /\ reason e = why.
Proof.
  intros H. unfold evaluate. rewrite (get_action_prohibited reg _ _ H), (is_prohibited_action _ _ H).
  rewrite orb_true_r. eexists; split; [done|]. done.
Qed.

(** An action on the prohibited list is denied with risk PROHIBITED and
    never executable, whatever the registry says about it, whatever the
    context grants and even when a human approved it. *)
Theorem prohibited_always_denied reg r octx why :
  dget PROHIBITED_ACTIONS (action_type r) = Some why ->
  exists e, evaluate reg r octx = Ok e /\ decision e = DENY /\ risk_level e = PROHIBITED /\
    executable_now e = false /\ reason e = why.
Proof. apply prohibited_always_denied_aux. Qed.

(** Under the default registry a mutation in production is allowed only
    outside night autopilot, with a human approval, and only for the ticket
    and the rollback draft. *)
Theorem production_mutation_needs_approval r c e a :
  evaluate DEFAULT_ACTION_REGISTRY r (Some c) = Ok e ->
  get_action DEFAULT_ACTION_REGISTRY (action_type r) = Some a ->
  md_is_mutation a = true -> environment r = "production" -> decision e = ALLOW ->
  approved r = true /\ autopilot_enabled c = false /\
  In (action_type r) ["mock.create_incident_ticket"; "mock.create_rollback_pr"].
Proof.
  intros H Ea Hm Hprod Hd. destruct_evaluate Ea c; rewrite Heval in H.
  2: { injection H as <-. by destruct (refused_not_allow e0). }
  destruct Hstatic as (Hp & _ & _ & Henv & _). rewrite Hprod in Henv.
  destruct (autopilot_enabled c) eqn:Eau.
  { apply bind_ok in H as (d' & Hg & H). injection H as <-. simpl in Hd. subst d'.
    unfold evaluate_night_autopilot in Hg. rewrite Hprod, eqs_refl, orb_true_r in Hg.
    apply bind_ok in Hg as (? & _ & ?). discriminate. }
  injection H as <-. simpl in Hd. rewrite Hd in Hd0. clear Heval Hd.
  unfold get_action in Ea. destruct (dget PROHIBITED_ACTIONS (action_type r)) eqn:Ew.
  { injection Ea as <-. by rewrite (is_prohibited_action _ _ Ew) in Hp. }
  apply dget_In in Ea. simpl in Ea.
  repeat destruct Ea as [[= Ht <-]|Ea]; try done; rewrite <- Ht; simpl in *;
    try (destruct (approved r); [|done]; naive_solver).
Qed.

(** The same context with other grants. *)
Definition with_capabilities (c : PolicyContext) (caps : list string) : PolicyContext := {|
  capabilities := caps; ctx_service := ctx_service c; ctx_environment := ctx_environment c;
  ctx_tenant_id := ctx_tenant_id c; ctx_workspace_id := ctx_workspace_id c;
  severity := severity c; night_autopilot := night_autopilot c;
  autopilot_attempts := autopilot_attempts c; autopilot := autopilot c; mode := mode c;
  allowed_services := allowed_services c; allowed_environments := allowed_environments c;
  max_automatic_risk := max_automatic_risk c; confidence := confidence c;
  evidence_count := evidence_count c; conflicting_signals := conflicting_signals c;
  known_ambiguity := known_ambiguity c; blast_radius_scope := blast_radius_scope c;
  rollback_available := rollback_available c; reversible := reversible c;
  simulation_passed := simulation_passed c; simulation_status := simulation_status c;
  failed_memory_warning := failed_memory_warning c;
  memory_failed_action_warning := memory_failed_action_warning c |}.

(** Granting nothing grants everything.  A context whose grant set is
    empty is evaluated as one that has all the default capabilities, so no action
    of the default registry ever misses a capability there, while a
    context that grants any single capability misses every other one. *)
Theorem empty_grants_are_default_grants reg r c :
  evaluate reg r (Some (with_capabilities c [])) =
  evaluate reg r (Some (with_capabilities c (default_capabilities write_capabilities))) /\
  (forall ty a, get_action DEFAULT_ACTION_REGISTRY ty = Some a ->
     missing_capabilities_of a (with_capabilities c []) = []) /\
  (forall cap a, ~ In cap (md_required_capabilities a) -> md_required_capabilities a <> [] ->
     missing_capabilities_of a (with_capabilities c [cap]) <> []).
Proof.
  split_and!; [reflexivity| |].
  - intros ty a Ha. apply missing_capabilities_none. intros x Hx.
    unfold get_action in Ha. destruct (dget PROHIBITED_ACTIONS ty); [by injection Ha as <-|].
    apply dget_In in Ha. simpl in Ha.
    repeat destruct Ha as [[= _ <-]|Ha]; try done; simpl in *; tauto.
  - intros cap a Hn Hne Hm. rewrite missing_capabilities_none in Hm.
    destruct (md_required_capabilities a) as [|x l]; [done|].
    destruct (Hm x) as [->|[]]; simpl; auto. apply Hn. simpl; auto.
Qed.

(** The same request with another approval flag. *)
Definition with_approved (r : ActionRequest) (b : bool) : ActionRequest := {|
  action_type := action_type r; target := target r; environment := environment r;
  tenant_id := tenant_id r; workspace_id := workspace_id r; payload := payload r;
  requester := requester r; incident_id := incident_id r; approved := b;
  approval_id := approval_id r |}.

(** Under night autopilot the decision does not depend on the human
    approval: approving the request changes neither the answer nor the
    exception. *)
Theorem autopilot_ignores_approval reg r c b :
  autopilot_enabled c = true ->
  evaluate reg (with_approved r b) (Some c) = evaluate reg r (Some c).
Proof. intros H. unfold evaluate. cbn [from_option id]. rewrite H. reflexivity. Qed.

(** Every evaluation is consistent: it is executable exactly when its
    route is automatic, exactly when its decision is ALLOW; a denied action
    is routed to BLOCKED, an escalated one to a human, and a required approval
    is what REQUIRE_APPROVAL and ESCALATE have in common. *)
Theorem evaluation_routes reg r octx e :
  evaluate reg r octx = Ok e ->
  executable_now e = bool_decide (decision e = ALLOW) /\
  requires_approval e = bool_decide (decision e = REQUIRE_APPROVAL \/ decision e = ESCALATE) /\
  route e = match decision e with
            | ALLOW => AUTO_EXECUTE
            | REQUIRE_APPROVAL => APPROVAL_REQUIRED
            | ESCALATE => HUMAN_REQUIRED
            | DENY => BLOCKED
            end.
Proof.
  intros H. pose (c := default (mk_context default_context_capabilities "demo-service"
    (environment r)) octx). change (evaluate reg r (Some c) = Ok e) in H.
  destruct (get_action reg (action_type r)) as [a|] eqn:Ea.
  2: { unfold evaluate in H. rewrite Ea in H. by injection H as <-. }
  destruct_evaluate Ea c; rewrite Heval in H.
  - destruct (autopilot_enabled c).
    + apply bind_ok in H as (d' & Hg & H). apply night_autopilot_never_denies in Hg.
      injection H as <-. destruct d'; auto; done.
    + injection H as <-. rewrite Hd. destruct (approved r || _); auto.
  - injection H as <-. unfold executable_now, route.
    destruct Hd as [[Hd Hr]|[Hd Hr]]; rewrite Hd, Hr; auto.
Qed.

(** Evaluation raises in one case only: night autopilot is on, the
    static guards pass and the context's risk override is not the name of a
    risk level. *)
Theorem evaluate_raises_iff reg r c x :
  evaluate reg r (Some c) = Raise x <->
  (exists a, get_action reg (action_type r) = Some a /\ statically_allowed reg r c a) /\
  autopilot_enabled c = true /\ resolved_autopilot c = Raise x.
Proof.
  destruct (get_action reg (action_type r)) as [a|] eqn:Ea.
  2: { unfold evaluate. rewrite Ea. split; [done | intros [(? & ? & _) _]; done]. }
  destruct_evaluate Ea c; rewrite Heval.
  2: { split; [done|]. by intros [(a' & [= <-] & ?) _]. }
  destruct (autopilot_enabled c); [|by split; [|intros (_ & ? & _)]].
  rewrite bind_raise. unfold evaluate_night_autopilot. rewrite bind_raise. split.
  - intros [[?|(? & _ & ?)]|(? & _ & ?)]; [|done..]. eauto.
  - intros (_ & _ & ?). auto.
Qed.

(** ** Witnesses *)

Definition restart_request (env : string) (ok : bool) : ActionRequest :=
  with_approved (mk_request "mock.execute_restart_worker" "worker-1" env
    [("service", VStr "worker")]) ok.

Definition night_context : PolicyContext := {|
  capabilities := default_context_capabilities; ctx_service := "worker";
  ctx_environment := "staging"; ctx_tenant_id := "demo"; ctx_workspace_id := "demo";
  severity := "medium"; night_autopilot := true; autopilot_attempts := 0;
  autopilot := default_autopilot; mode := "night_autopilot"; allowed_services := None;
  allowed_environments := None; max_automatic_risk := None;
  confidence := Some (7926335344172073 # 9007199254740992); evidence_count := 3;
  conflicting_signals := false; known_ambiguity := false; blast_radius_scope := Some "service";
  rollback_available := Some true; reversible := None; simulation_passed := Some true;
  simulation_status := Some "passed"; failed_memory_warning := false;
  memory_failed_action_warning := false |}.

Lemma evaluate_allow_iff_witness :
  exists e, evaluate DEFAULT_ACTION_REGISTRY (restart_request "staging" false) (Some night_context) = Ok e /\
    decision e = ALLOW /\
    exists a, get_action DEFAULT_ACTION_REGISTRY "mock.execute_restart_worker" = Some a /\
      is_prohibited a = false.
Proof.
  eexists. split; [vm_compute; reflexivity|]. split; [reflexivity|].
  edestruct (proj1 (evaluate_allow_iff DEFAULT_ACTION_REGISTRY (restart_request "staging" false)
    night_context _ eq_refl)) as (a & Ha & Hp & _); [vm_compute; reflexivity|]. eauto.
Defined.

Lemma night_autopilot_allow_iff_witness :
  resolved_autopilot night_context = Ok default_autopilot /\
  evaluate_night_autopilot (restart_request "staging" false) night_context LOW = Ok ALLOW.
Proof.
  split; [reflexivity|].
  apply (night_autopilot_allow_iff _ _ _ default_autopilot); [reflexivity|].
  vm_compute. repeat split; auto 10; discriminate.
Defined.

Lemma prohibited_always_denied_witness :
  exists e, evaluate DEFAULT_ACTION_REGISTRY
      (with_approved (mk_request "shell.execute" "host" "local" []) true) None = Ok e /\
    decision e = DENY.
Proof.
  destruct (prohibited_always_denied DEFAULT_ACTION_REGISTRY
    (with_approved (mk_request "shell.execute" "host" "local" []) true) None
    "Arbitrary shell execution is prohibited.") as (e & He & Hd & _); [reflexivity|]. eauto.
Defined.

Lemma production_mutation_needs_approval_witness :
  approved (with_approved (mk_request "mock.create_rollback_pr" "payment-api" "production" []) true) = true.
Proof.
  eapply (production_mutation_needs_approval _ default_context);
    [vm_compute; reflexivity | vm_compute; reflexivity | reflexivity | reflexivity | reflexivity].
Defined.

Lemma autopilot_ignores_approval_witness :
  autopilot_enabled night_context = true /\
  evaluate DEFAULT_ACTION_REGISTRY (with_approved (restart_request "dev" false) true) (Some night_context) =
  evaluate DEFAULT_ACTION_REGISTRY (restart_request "dev" false) (Some night_context).
Proof. split; [reflexivity|]. apply autopilot_ignores_approval. reflexivity. Defined.

Lemma evaluation_routes_witness :
  exists e, evaluate DEFAULT_ACTION_REGISTRY (restart_request "staging" false) None = Ok e /\
    route e = APPROVAL_REQUIRED.
Proof.
  eexists. split; [vm_compute; reflexivity|].
  edestruct (evaluation_routes DEFAULT_ACTION_REGISTRY (restart_request "staging" false) None)
    as (_ & _ & H); [vm_compute; reflexivity|]. exact H.
Defined.
