(* ===== verification/MockActions.v ===== *)
(** * The mock action executor (app/tools/mock_actions.py) *)

From S2P Require Import Prelude PyValue Sha PyRegex ActionModel.

Definition upper_ascii_letter (c : ascii) : ascii :=
  if is_lower c then ascii_of_N (code c - 32) else c.

(** [f"{incident_id}|{action_type}|{target}|{payload_items}"] *)
Definition suffix_text (r : ActionRequest) : string :=
  let items := VList (map (fun kv => VTuple [VStr kv.1; kv.2]) (sort_items (payload r))) in
  default "None" (incident_id r) +:+ "|" +:+ action_type r +:+ "|" +:+ target r +:+ "|" +:+
  py_str items.

(** [sha1(raw.encode("utf-8")).hexdigest()[:6].upper()] *)
Definition stable_suffix (r : ActionRequest) : string :=
  map_string upper_ascii_letter (String.substring 0 6 (sha1_hex (suffix_text r))).

(** [int(s, 16)] on upper-case hex digits. *)
Definition hex_value (c : ascii) : Z :=
  let n := Z.of_N (code c) in if is_digit c then n - 48 else n - 55.

Fixpoint int_base16 (acc : Z) (s : string) : Z :=
  match s with
  | EmptyString => acc
  | String c s => int_base16 (16 * acc + hex_value c) s
  end.

Section Handlers.
Context (r : ActionRequest).

Definition executed (message : string) (output verification : dict) : ActionExecutionResult := {|
  er_action_type := action_type r; er_target := target r; er_status := EXECUTED;
  er_message := message; er_output := output; er_verification := verification |}.

Definition create_incident_ticket : ActionExecutionResult :=
  executed "Mock incident ticket created."
    [("ticket_id", VStr ("OPSCAT-" +:+ stable_suffix r));
     ("title", vget_or (payload r) "title" (VStr "OpsCat incident"))]
    [("ticket_id_recorded", VBool true)].

Definition create_rollback_pr : ActionExecutionResult :=
  let pr_number := int_base16 0 (stable_suffix r) mod 9000 + 1000 in
  executed "Mock rollback PR draft created."
    [("pr_url", VStr ("https://mock.local/pr/" +:+ Z_to_string pr_number));
     ("base", vget_or (payload r) "base" (VStr "main"));
     ("rollback_to", vget_or (payload r) "rollback_to" (VStr "previous-good-deploy"))]
    [("pr_url_recorded", VBool true); ("verify_recovery_after_merge", VStr "pending")].

Definition restart_worker : ActionExecutionResult :=
  executed "Mock non-production worker restart simulated."
    [("worker", VStr (target r)); ("environment", VStr (environment r));
     ("restart", VStr "simulated")]
    [("mock.verify_recovery", VStr "required")].

Definition verify_recovery_handler : ActionExecutionResult :=
  executed "Mock recovery verified: error rate below threshold."
    [("recovered", VBool true); ("error_rate_delta", VStr "-92%")]
    [("recovery_signal", VStr "pass")].

Definition generate_report : ActionExecutionResult :=
  let id := match incident_id r with None | Some "" => "unknown" | Some i => i end in
  executed "Mock incident report generated."
    [("report_path", VStr ("reports/incident-" +:+ id +:+ ".md"))]
    [("report_contains_evidence", VBool (truthy (vget (payload r) "evidence_ids")))].

Definition add_timeline_note : ActionExecutionResult :=
  executed "Timeline note recorded in mock incident timeline."
    [("note", vget_or (payload r) "note" (VStr "OpsCat action note"))] [].
End Handlers.

Definition handlers : list (string * (ActionRequest -> ActionExecutionResult)) :=
  [("mock.create_incident_ticket", create_incident_ticket);
   ("mock.create_rollback_pr", create_rollback_pr);
   ("mock.execute_restart_worker", restart_worker);
   ("mock.verify_recovery", verify_recovery_handler);
   ("report.generate", generate_report);
   ("timeline.add_note", add_timeline_note)].

(** [MockActionExecutor.execute] *)
Definition executor_execute (r : ActionRequest) : ActionExecutionResult :=
  match dget handlers (action_type r) with
  | None => {| er_action_type := action_type r; er_target := target r; er_status := FAILED;
               er_message := "No mock executor registered for action."; er_output := [];
               er_verification := [] |}
  | Some handler => handler r
  end.

(** ** Lemmas *)

Lemma executor_status r :
  er_status (executor_execute r) = if dmem (action_type r) handlers then EXECUTED else FAILED.
Proof.
  unfold executor_execute. destruct (dget handlers (action_type r)) as [h|] eqn:E.
  - assert (Hm : dmem (action_type r) handlers = true) by (apply dget_dmem; eauto).
    rewrite Hm. apply dget_In in E. simpl in E.
    repeat destruct E as [[= _ <-]|E]; done.
  - destruct (dmem (action_type r) handlers) eqn:Hm; [|done].
    apply dget_dmem in Hm as [? ?]. congruence.
Qed.

Example ticket_id_of_demo :
  dget (er_output (executor_execute
    (mk_request "mock.create_incident_ticket" "payment-api" "staging" [("title", VStr "t")])))
    "ticket_id" = Some (VStr "OPSCAT-9B383E").
Proof. vm_compute. reflexivity. Qed.
