(* ===== verification/ActionService.v ===== *)
(** * Approval-aware action orchestration (app/services/action_service.py)

    The service keeps the approval records by id.  An operation is a function
    of the state, of the identifier and time the standard library would draw,
    and of its arguments; it returns its result and the next state, or raises
    and leaves the state as it was. *)

From S2P Require Import Prelude PyValue ActionModel RiskEngine BlastRadius ActionSimulator PolicyEngine MockActions.
From stdpp Require Import gmap.

Record ApprovalRecord := {
  action_request : ActionRequest;
  evaluation : PolicyEvaluation;
  ar_id : string;
  status : ActionStatus;
  decided_by : option string;
  decision_reason : option string;
  created_at : Z;
  decided_at : option Z;
}.

Abbreviation approvals := (gmap string ApprovalRecord).

Definition with_status (s : ActionStatus) (a : ApprovalRecord) : ApprovalRecord := {|
  action_request := action_request a; evaluation := evaluation a; ar_id := ar_id a; status := s;
  decided_by := decided_by a; decision_reason := decision_reason a; created_at := created_at a;
  decided_at := decided_at a |}.

(** [ApprovalRecord.approve] and [ApprovalRecord.reject] *)
Definition record_decide (s : ActionStatus) (actor why : string) (now : Z) (a : ApprovalRecord)
  : ApprovalRecord := {|
  action_request := action_request a; evaluation := evaluation a; ar_id := ar_id a; status := s;
  decided_by := Some actor; decision_reason := Some why; created_at := created_at a;
  decided_at := Some now |}.

Section Service.
(** The registries of the policy engine and of the service's own simulator. *)
Context (policy_registry simulator_registry : registry).

Definition get (s : approvals) (id : string) : res ApprovalRecord :=
  match s !! id with
  | Some a => Ok a
  | None => Raise (Exn "KeyError" ("Unknown approval id " +:+ repr_string id +:+ "."))
  end.

Definition propose (s : approvals) (id : string) (now : Z) (r : ActionRequest)
    (octx : option PolicyContext) : res (ApprovalRecord * approvals) :=
  let! ev := evaluate policy_registry r octx in
  let a := {| action_request := r; evaluation := ev; ar_id := id;
              status := if bool_decide (decision ev = DENY) then DENIED else PROPOSED;
              decided_by := None; decision_reason := None; created_at := now;
              decided_at := None |} in
  Ok (a, <[id := a]> s).

Definition not_pending (id : string) (s : ActionStatus) : exn :=
  Exn "ValueError" ("Approval " +:+ id +:+ " is not pending; current status=" +:+
                    ActionStatus_value s +:+ ".").

Definition decide_approval (verdict : ActionStatus) (s : approvals) (id actor why : string) (now : Z)
  : res (ApprovalRecord * approvals) :=
  let! a := get s id in
  let! _ := ensure (bool_decide (status a = PROPOSED)) (not_pending id (status a)) in
  let a' := record_decide verdict actor why now a in
  Ok (a', <[id := a']> s).

Definition approve := decide_approval APPROVED.
Definition reject := decide_approval REJECTED.

Definition failed_result (r : ActionRequest) (msg : string) (out : dict) : ActionExecutionResult := {|
  er_action_type := action_type r; er_target := target r; er_status := FAILED;
  er_message := msg; er_output := out; er_verification := [] |}.

(** The request re-evaluated and executed once a human approved it. *)
Definition approved_request (r : ActionRequest) (id : string) : ActionRequest := {|
  action_type := action_type r; target := target r; environment := environment r;
  tenant_id := tenant_id r; workspace_id := workspace_id r; payload := payload r;
  requester := requester r; incident_id := incident_id r; approved := true;
  approval_id := Some id |}.

(** The approval and policy gate of [execute]: the request to run, or the
    result that refuses it. *)
Definition execute_gate (a : ApprovalRecord) (id : string) (octx : option PolicyContext)
  : res (ActionRequest + ActionExecutionResult) :=
  let r := action_request a in
  if bool_decide (decision (evaluation a) = REQUIRE_APPROVAL) then
    if negb (bool_decide (status a = APPROVED)) then
      Ok (inr (failed_result r "Action requires approval before execution." []))
    else
      let r := approved_request r id in
      let! ev := evaluate policy_registry r octx in
      if negb (executable_now ev)
      then Ok (inr (failed_result r ("Approved action still failed policy: " +:+ reason ev) []))
      else Ok (inl r)
  else if negb (executable_now (evaluation a))
  then Ok (inr (failed_result r ("Action is not executable: " +:+ reason (evaluation a)) []))
  else Ok (inl r).

(** Simulation, execution and the status the outcome leaves on the record. *)
Definition run_request (r : ActionRequest) : ActionExecutionResult :=
  let result := executor_execute r in
  {| er_action_type := er_action_type result; er_target := er_target result;
     er_status := er_status result; er_message := er_message result;
     er_output := dset (er_output result) "simulation"
                    (VDict (sim_to_dict (simulate simulator_registry r)));
     er_verification := er_verification result |}.

Definition execute (s : approvals) (id : string) (octx : option PolicyContext)
  : res (ActionExecutionResult * approvals) :=
  let! a := get s id in
  let! g := execute_gate a id octx in
  match g with
  | inr refusal => Ok (refusal, s)
  | inl r =>
      let sim := simulate simulator_registry r in
      if negb (sim_success sim) then
        Ok (failed_result r
              ("Action simulation failed: " +:+
               str_join "; " (match sim_precondition_gaps sim with
                          | [] => sim_residual_risks sim
                          | gaps => gaps
                          end))
              [("simulation", VDict (sim_to_dict sim))], s)
      else
        let result := run_request r in
        Ok (result,
            match er_status result with
            | EXECUTED => <[id := with_status EXECUTED a]> s
            | FAILED => <[id := with_status FAILED a]> s
            | _ => s
            end)
  end.

(** ** Runs: sequences of calls *)

Inductive op :=
  | Propose (id : string) (now : Z) (r : ActionRequest) (octx : option PolicyContext)
  | Approve (id actor why : string) (now : Z)
  | Reject (id actor why : string) (now : Z)
  | Execute (id : string) (octx : option PolicyContext).

Inductive outcome :=
  | Recorded (a : ApprovalRecord)
  | Ran (id : string) (e : ActionExecutionResult)
  | Raised (e : exn).

Definition step (s : approvals) (o : op) : outcome * approvals :=
  let lift {A} (f : A -> outcome) (m : res (A * approvals)) :=
    match m with Ok (a, s') => (f a, s') | Raise e => (Raised e, s) end in
  match o with
  | Propose id now r octx => lift Recorded (propose s id now r octx)
  | Approve id actor why now => lift Recorded (approve s id actor why now)
  | Reject id actor why now => lift Recorded (reject s id actor why now)
  | Execute id octx => lift (Ran id) (execute s id octx)
  end.

Fixpoint run (s : approvals) (os : list op) : list outcome * approvals :=
  match os with
  | [] => ([], s)
  | o :: os =>
      let '(out, s) := step s o in
      let '(outs, s) := run s os in
      (out :: outs, s)
  end.

(** How often a run executed the action of [id]. *)
Definition is_execution (id : string) (o : outcome) : bool :=
  match o with
  | Ran id' e => (id =s id') && bool_decide (er_status e = EXECUTED)
  | _ => false
  end.

Definition executions (id : string) (outs : list outcome) : nat :=
  List.length (List.filter (is_execution id) outs).

Definition op_id (o : op) : string :=
  match o with
  | Propose id _ _ _ | Approve id _ _ _ | Reject id _ _ _ | Execute id _ => id
  end.

Definition proposes (id : string) (o : op) : bool :=
  match o with Propose id' _ _ _ => id =s id' | _ => false end.

(** ** Lemmas *)

Lemma execute_gate_cases a id octx g :
  execute_gate a id octx = Ok g ->
  match g with
  | inr e => er_status e = FAILED
  | inl r =>
      (r = action_request a /\ executable_now (evaluation a) = true) \/
      (r = approved_request (action_request a) id /\ status a = APPROVED /\
       decision (evaluation a) = REQUIRE_APPROVAL /\
       exists ev, evaluate policy_registry r octx = Ok ev /\ executable_now ev = true)
  end.
Proof.
  unfold execute_gate. case_bool_decide as Hd.
  - case_bool_decide as Hs; simpl; [|by intros [= <-]].
    intros (ev & Hev & H)%bind_ok.
    destruct (executable_now ev) eqn:Ex; injection H as <-; [|done]. right; eauto 10.
  - destruct (executable_now (evaluation a)) eqn:Ex; intros [= <-]; auto.
Qed.

Lemma run_request_status r :
  er_status (run_request r) = if dmem (action_type r) handlers then EXECUTED else FAILED.
Proof. apply executor_status. Qed.

(** What an [execute] that answers does to its record. *)
Lemma execute_cases s id octx e s' :
  execute s id octx = Ok (e, s') ->
  exists a, s !! id = Some a /\
    ((er_status e = FAILED /\ s' = s) \/
     (exists r, execute_gate a id octx = Ok (inl r) /\
        sim_success (simulate simulator_registry r) = true /\ e = run_request r /\
        s' = <[id := with_status (er_status e) a]> s)).
Proof.
  unfold execute, get. intros (a & Ha & H)%bind_ok. exists a.
  destruct (s !! id) as [a0|] eqn:Hs; [|done]. injection Ha as ->. split; [done|].
  apply bind_ok in H as (g & Hg & H). pose proof (execute_gate_cases _ _ _ _ Hg) as Hc.
  destruct g as [r|refusal]; [|by injection H as <- <-; auto].
  destruct (sim_success _) eqn:Hsim; simpl in H; [|by injection H as <- <-; left].
  injection H as <- <-. right. exists r. split_and!; auto.
  cbn [er_status run_request]. rewrite executor_status. by destruct (dmem _ _).
Qed.
End Service.
