(* ===== verification/ActionServiceProps.v ===== *)
(** * What the approval service guarantees *)

From S2P Require Import Prelude PyValue ActionModel RiskEngine BlastRadius ActionSimulator PolicyEngine MockActions ActionService.
From stdpp Require Import gmap.

Section Props.
Context (preg sreg : registry).

(** ** One call *)

Lemma step_other id o s out s' :
  step preg sreg s o = (out, s') ->
  op_id o <> id -> s' !! id = s !! id.
Proof.
  intros H Hne. destruct o as [i now r c|i actor why now|i actor why now|i c]; simpl in H, Hne.
  - destruct (propose _ _ _ _ _ _) as [[a s1]|] eqn:E; injection H as <- <-; [|done].
    unfold propose in E. apply bind_ok in E as (ev & _ & [= _ <-]). by rewrite lookup_insert_ne.
  - destruct (approve _ _ _ _ _) as [[a s1]|] eqn:E; injection H as <- <-; [|done].
    unfold approve, decide_approval in E. apply bind_ok in E as (? & _ & E).
    apply bind_ok in E as (? & _ & [= _ <-]). by rewrite lookup_insert_ne.
  - destruct (reject _ _ _ _ _) as [[a s1]|] eqn:E; injection H as <- <-; [|done].
    unfold reject, decide_approval in E. apply bind_ok in E as (? & _ & E).
    apply bind_ok in E as (? & _ & [= _ <-]). by rewrite lookup_insert_ne.
  - destruct (execute _ _ _ _ _) as [[e s1]|] eqn:E; injection H as <- <-; [|done].
    apply execute_cases in E as (a & _ & [[_ ->]|(r & _ & _ & _ & ->)]); [done|].
    by rewrite lookup_insert_ne.
Qed.

Lemma step_not_execution id o s out s' :
  step preg sreg s o = (out, s') -> is_execution id out = true -> exists c, o = Execute id c.
Proof.
  intros H Hx. destruct o as [i now r c|i actor why now|i actor why now|i c]; simpl in H.
  4: { destruct (execute _ _ _ _ _) as [[e s1]|]; injection H as <- <-; [|done].
       simpl in Hx. bools. subst. eauto. }
  all: match type of H with context [match ?m with _ => _ end] => destruct m as [[? ?]|] end;
    by injection H as <- <-.
Qed.

(** What one call may do to the record [a] of [id], given its outcome. *)
Definition record_moves (id : string) (o : op) (out : outcome) (a a' : ApprovalRecord) : Prop :=
  evaluation a' = evaluation a /\ action_request a' = action_request a /\
  ((is_execution id out = false /\
    (a' = a \/ (status a = PROPOSED /\ (status a' = APPROVED \/ status a' = REJECTED)) \/
     a' = with_status FAILED a)) \/
   (is_execution id out = true /\ status a' = EXECUTED /\
    exists c r, o = Execute id c /\ execute_gate preg a id c = Ok (inl r))).

Lemma decide_moves verdict id actor why now s a out s' :
  verdict = APPROVED \/ verdict = REJECTED -> s !! id = Some a ->
  match decide_approval verdict s id actor why now with
  | Ok (a, s') => (Recorded a, s')
  | Raise e => (Raised e, s)
  end = (out, s') ->
  exists a', s' !! id = Some a' /\ forall o, record_moves id o out a a'.
Proof.
  intros Hv Ha. unfold decide_approval, get. rewrite Ha. simpl.
  case_bool_decide as Hst; intros [= <- <-]; [|by exists a; split; [|unfold record_moves; auto 6]].
  eexists. rewrite lookup_insert_eq. split; [done|]. intros o. unfold record_moves. simpl.
  split_and!; auto. left. split; [done|]. right; left. destruct Hv as [->| ->]; auto.
Qed.

(** The record of [id] after one call that does not propose it anew. *)
Lemma step_record id o s out s' a :
  s !! id = Some a -> proposes id o = false -> step preg sreg s o = (out, s') ->
  exists a', s' !! id = Some a' /\ record_moves id o out a a'.
Proof.
  intros Ha Hp Hs.
  destruct (decide (op_id o = id)) as [Hid|Hne].
  2: { exists a. rewrite (step_other id _ _ _ _ Hs), Ha by done.
       split; [done|]. split_and!; auto. left. split; [|auto].
       destruct (is_execution id out) eqn:E; [|done].
       by destruct (step_not_execution _ _ _ _ _ Hs E) as [? ->]. }
  destruct o as [i now r c|i actor why now|i actor why now|i c]; simpl in Hid, Hp, Hs; subst i.
  - by rewrite eqs_refl in Hp.
  - edestruct decide_moves as (a' & ? & ?); [left; reflexivity|exact Ha|exact Hs|eauto].
  - edestruct decide_moves as (a' & ? & ?); [right; reflexivity|exact Ha|exact Hs|eauto].
  - destruct (execute _ _ _ _ _) as [[e s1]|] eqn:E; injection Hs as <- <-;
      [|by exists a; split; [|unfold record_moves; auto 6]].
    apply execute_cases in E as (a0 & Ha0 & H). rewrite Ha in Ha0. injection Ha0 as <-.
    destruct H as [[Hf ->]|(r & Hg & Hsim & -> & ->)].
    + exists a. unfold record_moves. cbn [is_execution]. rewrite Hf, eqs_refl. simpl.
      split_and!; auto.
    + eexists. rewrite lookup_insert_eq. split; [done|]. unfold record_moves.
      cbn [is_execution]. rewrite eqs_refl.
      assert (Hst : er_status (run_request sreg r) = EXECUTED \/ er_status (run_request sreg r) = FAILED).
      { rewrite run_request_status. destruct (dmem _ _); auto. }
      split; [done|]. split; [done|].
      destruct Hst as [Hst|Hst]; rewrite Hst; [right | left]; (split; [done|]); eauto.
Qed.

(** ** Runs *)

(** How many executions an approval-gated record in a status still has. *)
Definition budget (st : ActionStatus) : nat :=
  match st with PROPOSED | APPROVED => 1 | _ => 0 end.

Lemma executions_cons id out outs :
  executions id (out :: outs) =
  ((if is_execution id out then 1 else 0) + executions id outs)%nat.
Proof. unfold executions. simpl. by destruct (is_execution id out). Qed.

Lemma run_cons s o os :
  run preg sreg s (o :: os) =
  let '(out, s1) := step preg sreg s o in
  let '(outs, s2) := run preg sreg s1 os in (out :: outs, s2).
Proof. reflexivity. Qed.

Lemma gated_executions_bounded id os : forall s a,
  s !! id = Some a -> decision (evaluation a) = REQUIRE_APPROVAL ->
  Forall (fun o => proposes id o = false) os ->
  (executions id (run preg sreg s os).1 <= budget (status a))%nat.
Proof.
  induction os as [|o os IH]; intros s a Ha Hd Hos; [unfold executions; simpl; lia|].
  rewrite run_cons. destruct (step preg sreg s o) as [out s1] eqn:Hs.
  destruct (run preg sreg s1 os) as [outs s2] eqn:Hr. simpl. rewrite executions_cons.
  inversion Hos as [|? ? Hp Hos']; subst.
  destruct (step_record _ _ _ _ _ _ Ha Hp Hs) as (a' & Ha' & Hev & _ & Hm).
  rewrite <- Hev in Hd. pose proof (IH s1 a' Ha' Hd Hos') as Hb. rewrite Hr in Hb. simpl in Hb.
  destruct Hm as [[-> Hst]|(-> & Hst & c & r & -> & Hg)].
  - destruct Hst as [->|[[-> [Hst|Hst]]| ->]]; try rewrite Hst in Hb; simpl in *; lia.
  - rewrite Hst in Hb. simpl in Hb. apply execute_gate_cases in Hg as [[_ Hx]|(_ & -> & _)];
      [|simpl; lia]. unfold executable_now in Hx. rewrite <- Hev, Hd in Hx. done.
Qed.

Lemma blocked_never_executes_aux id os : forall s a,
  s !! id = Some a -> decision (evaluation a) = DENY \/ decision (evaluation a) = ESCALATE ->
  Forall (fun o => proposes id o = false) os ->
  executions id (run preg sreg s os).1 = 0%nat.
Proof.
  induction os as [|o os IH]; intros s a Ha Hd Hos; [done|].
  rewrite run_cons. destruct (step preg sreg s o) as [out s1] eqn:Hs.
  destruct (run preg sreg s1 os) as [outs s2] eqn:Hr. simpl. rewrite executions_cons.
  inversion Hos as [|? ? Hp Hos']; subst.
  destruct (step_record _ _ _ _ _ _ Ha Hp Hs) as (a' & Ha' & Hev & _ & Hm).
  rewrite <- Hev in Hd. pose proof (IH s1 a' Ha' Hd Hos') as Hb. rewrite Hr in Hb. simpl in Hb.
  rewrite Hb. destruct Hm as [[-> _]|(_ & _ & c & r & _ & Hg)]; [done|]. exfalso.
  apply execute_gate_cases in Hg as [[_ Hx]|(_ & _ & Hx & _)].
  - unfold executable_now in Hx. rewrite <- Hev in Hx. by destruct Hd as [Hd|Hd]; rewrite Hd in Hx.
  - rewrite <- Hev in Hx. destruct Hd; congruence.
Qed.
End Props.

(** C9: an [execute] that ran an action found its record either executable
    without approval, or waiting for one and approved, in which case the
    policy was evaluated again, with the approval, and still allowed it; the
    dry run of that very request passed; the record is then marked executed
    and no other record changed. *)
Theorem execute_is_authorized preg sreg s id octx e s' :
  execute preg sreg s id octx = Ok (e, s') -> er_status e = EXECUTED ->
  exists a r, s !! id = Some a /\
    ((r = action_request a /\ executable_now (evaluation a) = true) \/
     (r = approved_request (action_request a) id /\ status a = APPROVED /\
      decision (evaluation a) = REQUIRE_APPROVAL /\
      exists ev, evaluate preg r octx = Ok ev /\ executable_now ev = true)) /\
    sim_success (simulate sreg r) = true /\ e = run_request sreg r /\
    s' = <[id := with_status EXECUTED a]> s.
Proof.
  intros H Hx. apply execute_cases in H as (a & Ha & [[Hf _]|(r & Hg & Hsim & -> & ->)]).
  { congruence. }
  apply execute_gate_cases in Hg. rewrite Hx. eauto 10.
Qed.

(** C25: an action whose evaluation required an approval is executed at most
    once, in any sequence of calls on the service, and not at all when the
    record is already decided against, executed or failed. *)
Theorem approval_gated_runs_at_most_once preg sreg s id a os :
  s !! id = Some a -> decision (evaluation a) = REQUIRE_APPROVAL ->
  Forall (fun o => proposes id o = false) os ->
  (executions id (run preg sreg s os).1 <= budget (status a))%nat.
Proof. intros. by apply gated_executions_bounded. Qed.

(** An action whose evaluation denied or escalated it is never executed,
    whatever approvals and executions are requested. *)
Theorem blocked_never_executes preg sreg s id a os :
  s !! id = Some a -> decision (evaluation a) = DENY \/ decision (evaluation a) = ESCALATE ->
  Forall (fun o => proposes id o = false) os ->
  executions id (run preg sreg s os).1 = 0%nat.
Proof. intros. by eapply blocked_never_executes_aux. Qed.

(** Rejecting a pending record, then executing it [n] times. *)
Definition reject_then_execute (id actor why : string) (now : Z) (octx : option PolicyContext) (n : nat)
  : list op :=
  Reject id actor why now :: replicate n (Execute id octx).

Lemma execute_automatic preg sreg s id a octx :
  s !! id = Some a -> executable_now (evaluation a) = true ->
  sim_success (simulate sreg (action_request a)) = true ->
  dmem (action_type (action_request a)) handlers = true ->
  execute preg sreg s id octx =
  Ok (run_request sreg (action_request a), <[id := with_status EXECUTED a]> s).
Proof.
  intros Ha Hx Hsim Hh. unfold execute, get. rewrite Ha. cbn [bind].
  unfold execute_gate. destruct (bool_decide (decision (evaluation a) = REQUIRE_APPROVAL)) eqn:E.
  { apply bool_decide_eq_true in E. unfold executable_now in Hx. by rewrite E in Hx. }
  rewrite Hx. cbn [negb bind]. rewrite Hsim. cbn [negb]. by rewrite run_request_status, Hh.
Qed.

Lemma automatic_runs_repeatedly preg sreg id octx n : forall s a,
  s !! id = Some a -> executable_now (evaluation a) = true ->
  sim_success (simulate sreg (action_request a)) = true ->
  dmem (action_type (action_request a)) handlers = true ->
  executions id (run preg sreg s (replicate n (Execute id octx))).1 = n.
Proof.
  induction n as [|n IH]; intros s a Ha Hx Hsim Hh; [done|].
  cbn [replicate]. rewrite run_cons. unfold step.
  rewrite (execute_automatic preg sreg s id a octx Ha Hx Hsim Hh).
  specialize (IH (<[id := with_status EXECUTED a]> s) (with_status EXECUTED a)).
  destruct (run preg sreg _ (replicate n _)) as [outs s2]. cbn [fst] in *.
  rewrite executions_cons. unfold is_execution at 1. rewrite eqs_refl, run_request_status, Hh.
  rewrite IH; auto. apply lookup_insert_eq.
Qed.

(** The status of a record gates approvals only.  A pending action that
    policy allows outright is executed by every [execute], also after a human
    rejected it. *)
Theorem rejection_does_not_stop_automatic_action preg sreg s id a actor why now octx n :
  s !! id = Some a -> status a = PROPOSED -> executable_now (evaluation a) = true ->
  sim_success (simulate sreg (action_request a)) = true ->
  dmem (action_type (action_request a)) handlers = true ->
  executions id (run preg sreg s (reject_then_execute id actor why now octx n)).1 = n.
Proof.
  intros Ha Hst Hx Hsim Hh. unfold reject_then_execute. rewrite run_cons. unfold step, reject.
  unfold decide_approval, get. rewrite Ha. cbn [bind]. rewrite bool_decide_true by done.
  cbn [bind ensure]. set (a' := record_decide _ _ _ _ _).
  pose proof (automatic_runs_repeatedly preg sreg id octx n (<[id := a']> s) a') as Hn.
  destruct (run preg sreg (<[id := a']> s) _) as [outs s2]. cbn [fst] in *.
  rewrite executions_cons. cbn [is_execution]. rewrite Hn; auto. apply lookup_insert_eq.
Qed.

(** ** Witnesses *)

Definition reg := DEFAULT_ACTION_REGISTRY.

Definition restart : ActionRequest :=
  mk_request "mock.execute_restart_worker" "worker-1" "staging" [("service", VStr "worker")].

Definition note : ActionRequest := mk_request "timeline.add_note" "incident-1" "local" [].

Definition shell : ActionRequest := mk_request "shell.execute" "host" "local" [].

Definition service_with (r : ActionRequest) (os : list op) : approvals :=
  (run reg reg ∅ (Propose "a1" 0 r None :: os)).2.

Definition record_of (s : approvals) : option ApprovalRecord := s !! "a1".

Lemma execute_is_authorized_witness :
  exists e s', execute reg reg (service_with restart [Approve "a1" "ops" "ok" 1]) "a1" None = Ok (e, s') /\
    er_status e = EXECUTED /\
    exists a, service_with restart [Approve "a1" "ops" "ok" 1] !! "a1" = Some a /\
      decision (evaluation a) = REQUIRE_APPROVAL.
Proof.
  eexists _, _. split; [vm_compute; reflexivity|]. split; [reflexivity|].
  edestruct (execute_is_authorized reg reg (service_with restart [Approve "a1" "ops" "ok" 1]) "a1" None)
    as (a & r & Ha & Hc & _); [vm_compute; reflexivity | reflexivity |].
  exists a. split; [exact Ha|].
  vm_compute in Ha. injection Ha as <-. reflexivity.
Defined.

Lemma approval_gated_runs_at_most_once_witness :
  exists a, service_with restart [] !! "a1" = Some a /\
    executions "a1" (run reg reg (service_with restart [])
      [Approve "a1" "ops" "ok" 1; Execute "a1" None; Execute "a1" None]).1 = 1%nat /\
    (executions "a1" (run reg reg (service_with restart [])
      [Approve "a1" "ops" "ok" 1; Execute "a1" None; Execute "a1" None]).1 <= budget (status a))%nat.
Proof.
  eexists. split; [vm_compute; reflexivity|]. split; [vm_compute; reflexivity|].
  apply approval_gated_runs_at_most_once;
    [vm_compute; reflexivity | reflexivity | repeat constructor].
Defined.

Lemma blocked_never_executes_witness :
  exists a, service_with shell [] !! "a1" = Some a /\ decision (evaluation a) = DENY /\
    executions "a1" (run reg reg (service_with shell [])
      [Approve "a1" "ops" "ok" 1; Execute "a1" None]).1 = 0%nat.
Proof.
  eexists. split; [vm_compute; reflexivity|]. split; [reflexivity|].
  eapply blocked_never_executes;
    [vm_compute; reflexivity | left; reflexivity | repeat constructor].
Defined.

Lemma rejection_does_not_stop_automatic_action_witness :
  exists a, service_with note [] !! "a1" = Some a /\ status a = PROPOSED /\
    executions "a1" (run reg reg (service_with note [])
      (reject_then_execute "a1" "ops" "no" 1 None 2)).1 = 2%nat.
Proof.
  eexists. split; [vm_compute; reflexivity|]. split; [reflexivity|].
  eapply rejection_does_not_stop_automatic_action;
    [vm_compute; reflexivity | reflexivity | reflexivity | vm_compute; reflexivity | reflexivity].
Defined.
