(* ===== verification/StateMachine.v ===== *)
(** * The incident state machine and its guards

    Models app/services/state_machine.py, app/services/authorization.py and
    the roles of app/services/identity_service.py. *)

From S2P Require Import Prelude PyValue.

(** ** Incidents and their transitions *)

(** The fields of an incident the state machine reads or writes. *)
Record Incident := {
  inc_id : string;
  inc_tenant_id : string;
  inc_workspace_id : string;
  inc_status : string;
  inc_updated_at : Z;
}.

Record TimelineEvent := {
  te_incident_id : string;
  te_tenant_id : string;
  te_workspace_id : string;
  te_actor : string;
  te_event_type : string;
  te_content : string;
  te_metadata : dict;
}.

Definition ALLOWED_TRANSITIONS : list (string * list string) :=
  [("new", ["queued"; "investigating"; "failed"]);
   ("queued", ["investigating"; "escalated"; "failed"]);
   ("investigating", ["needs_more_context"; "action_proposed"; "escalated"; "failed"]);
   ("needs_more_context", ["investigating"; "escalated"; "failed"]);
   ("action_proposed", ["waiting_approval"; "executing"; "escalated"; "failed"]);
   ("waiting_approval", ["executing"; "escalated"; "failed"]);
   ("executing", ["verifying"; "escalated"; "failed"]);
   ("verifying", ["resolved"; "degraded"; "needs_human"; "escalated"; "failed"]);
   ("degraded", ["needs_human"; "escalated"; "failed"]);
   ("needs_human", ["escalated"; "failed"]);
   ("resolved", []);
   ("escalated", ["investigating"; "failed"]);
   ("false_positive", []);
   ("failed", [])].

(** May an incident in status [from] be moved to [target]?  Staying is
    always allowed; an unknown status allows nothing else. *)
Definition may_transition (from target : string) : bool :=
  (target =s from) || mem target (default [] (dget ALLOWED_TRANSITIONS from)).

Definition transition_incident (i : Incident) (target actor : string) (reason : option string) (now : Z)
  : res (TimelineEvent * Incident) :=
  let! _ := ensure (may_transition (inc_status i) target)
    (Exn "InvalidStateTransition"
       ("cannot transition incident " +:+ repr_string (inc_status i) +:+ " -> " +:+ repr_string target)) in
  let previous := inc_status i in
  let i' := {| inc_id := inc_id i; inc_tenant_id := inc_tenant_id i;
               inc_workspace_id := inc_workspace_id i; inc_status := target;
               inc_updated_at := now |} in
  Ok ({| te_incident_id := inc_id i'; te_tenant_id := inc_tenant_id i';
         te_workspace_id := inc_workspace_id i'; te_actor := actor;
         te_event_type := "state_transition";
         te_content := "Incident moved from " +:+ previous +:+ " to " +:+ target +:+
           match reason with
           | Some r => if is_empty r then "" else ": " +:+ r
           | None => ""
           end;
         te_metadata := [("from", VStr previous); ("to", VStr target);
                         ("reason", match reason with Some r => VStr r | None => VNone end)] |},
      i').

(** One successful transition, whoever asks and whenever. *)
Inductive moves : Incident -> Incident -> Prop :=
  | moves_intro i target actor reason now ev i' :
      transition_incident i target actor reason now = Ok (ev, i') -> moves i i'.

(** The statuses of a run of successful transitions, the last one first. *)
Inductive history : list string -> Incident -> Prop :=
  | history_new i : inc_status i = "new" -> history ["new"] i
  | history_step h i i' : history h i -> moves i i' -> history (inc_status i' :: h) i'.

Definition terminal_statuses : list string := ["resolved"; "false_positive"; "failed"].

(** ** Scope and role guards *)

Definition APPROVER_ROLES : list string := ["owner"; "admin"; "operator"].
Definition ADMIN_ROLES : list string := ["owner"; "admin"].
Definition VALID_ROLES : list string := ["owner"; "admin"; "operator"; "viewer"].

Record Principal := {
  p_user_id : string;
  p_email : string;
  p_tenant_id : string;
  p_workspace_id : string;
  p_role : string;
  p_auth_mode : string;
}.

Definition can_approve_actions (p : Principal) : bool := mem (p_role p) APPROVER_ROLES.
Definition can_admin_workspace (p : Principal) : bool := mem (p_role p) ADMIN_ROLES.

Definition normalize_role (role : option string) : string :=
  let raw := match role with None | Some "" => "admin" | Some r => r end in
  let value := lower (strip raw) in
  if mem value VALID_ROLES then value else "viewer".

Definition authorization_error (msg : string) : exn := Exn "AuthorizationError" msg.

Definition require_same_scope (p : Principal) (tenant workspace action : string) : res unit :=
  ensure ((p_tenant_id p =s tenant) && (p_workspace_id p =s workspace))
    (authorization_error ("principal is not authorized to " +:+ action +:+ " in this tenant/workspace")).

Definition require_signal_scope (p : Principal) (tenant workspace : string) : res unit :=
  ensure (mem tenant ["demo"; p_tenant_id p] && mem workspace ["demo"; p_workspace_id p])
    (authorization_error "alert payload scope does not match authenticated principal scope").

Definition require_action_approval_authority (p : Principal) : res unit :=
  ensure (can_approve_actions p) (authorization_error "principal cannot approve or reject actions").

(** ** Lemmas *)

Lemma may_transition_spec from target :
  may_transition from target = true <->
  target = from \/ exists l, dget ALLOWED_TRANSITIONS from = Some l /\ In target l.
Proof.
  unfold may_transition. rewrite orb_true_iff, String.eqb_eq, mem_In.
  destruct (dget ALLOWED_TRANSITIONS from); simpl; naive_solver.
Qed.

Lemma transition_incident_ok i target actor reason now ev i' :
  transition_incident i target actor reason now = Ok (ev, i') ->
  may_transition (inc_status i) target = true /\ inc_status i' = target /\
  inc_id i' = inc_id i /\ inc_updated_at i' = now.
Proof.
  unfold transition_incident. intros (u & Hu & H)%bind_ok. apply ensure_ok in Hu.
  injection H as <- <-. auto.
Qed.

Lemma moves_may i i' : moves i i' -> may_transition (inc_status i) (inc_status i') = true.
Proof. intros [? ? ? ? ? ? ? H]. apply transition_incident_ok in H as (H & <- & _). done. Qed.

(** The only status from which a target other than itself leads to it. *)
Lemma edge_into target from :
  may_transition from target = true -> target <> from ->
  exists l, In (from, l) ALLOWED_TRANSITIONS /\ In target l.
Proof.
  intros [->|(l & Hl & Hin)]%may_transition_spec Hne; [done|].
  exists l. split; [by apply dget_In | done].
Qed.

Lemma resolved_from from :
  may_transition from "resolved" = true -> from = "resolved" \/ from = "verifying".
Proof.
  intros H. destruct (decide ("resolved" = from)) as [<-|Hne]; [by left|]. right.
  destruct (edge_into _ _ H Hne) as (l & Hl & Hin). simpl in Hl.
  repeat destruct Hl as [[= <- <-]|Hl]; simpl in Hin; naive_solver.
Qed.

Lemma verifying_from from :
  may_transition from "verifying" = true -> from = "verifying" \/ from = "executing".
Proof.
  intros H. destruct (decide ("verifying" = from)) as [<-|Hne]; [by left|]. right.
  destruct (edge_into _ _ H Hne) as (l & Hl & Hin). simpl in Hl.
  repeat destruct Hl as [[= <- <-]|Hl]; simpl in Hin; naive_solver.
Qed.

Lemma executing_from from :
  may_transition from "executing" = true ->
  from = "executing" \/ from = "action_proposed" \/ from = "waiting_approval".
Proof.
  intros H. destruct (decide ("executing" = from)) as [<-|Hne]; [by left|]. right.
  destruct (edge_into _ _ H Hne) as (l & Hl & Hin). simpl in Hl.
  repeat destruct Hl as [[= <- <-]|Hl]; simpl in Hin; naive_solver.
Qed.

Lemma terminal_stuck from target :
  In from terminal_statuses -> may_transition from target = true -> target = from.
Proof.
  intros Hf [->|(l & Hl & Hin)]%may_transition_spec; [done|].
  simpl in Hf. destruct Hf as [<-|[<-|[<-|[]]]]; simpl in Hl; injection Hl as <-; done.
Qed.

Lemma known_target from target :
  may_transition from target = true -> dmem from ALLOWED_TRANSITIONS = true ->
  dmem target ALLOWED_TRANSITIONS = true.
Proof.
  intros [->|(l & Hl & Hin)]%may_transition_spec Hf; [done|]. clear Hf.
  apply dget_In in Hl. simpl in Hl.
  repeat destruct Hl as [[= <- <-]|Hl]; simpl in Hin; naive_solver.
Qed.

Lemma history_head h i : history h i -> exists t, h = inc_status i :: t.
Proof. destruct 1; [by rewrite H; eauto | eauto]. Qed.

(** [h] holds [x], later [y], in the order of the run ([h] is reversed). *)
Definition before (x y : string) (h : list string) : Prop :=
  exists h1 h2 h3, h = (h1 ++ y :: h2 ++ x :: h3)%list.

Lemma before_cons x y z h : before x y h -> before x y (z :: h).
Proof. intros (h1 & h2 & h3 & ->). by exists (z :: h1), h2, h3. Qed.

Lemma history_executing h i : history h i -> inc_status i = "executing" ->
  exists t, h = "executing" :: t /\ (In "action_proposed" t \/ In "waiting_approval" t).
Proof.
  induction 1 as [i Hi|h i i' Hh IH Hm]; intros Hs; [congruence|].
  apply moves_may in Hm. rewrite Hs in Hm |- *. exists h. split; [done|].
  destruct (history_head _ _ Hh) as [t Ht].
  apply executing_from in Hm as [Hm|[Hm|Hm]].
  - destruct (IH Hm) as (t' & -> & [?|?]); [left | right]; by right.
  - left. rewrite Ht, Hm. by left.
  - right. rewrite Ht, Hm. by left.
Qed.

Lemma history_verifying h i : history h i -> inc_status i = "verifying" ->
  exists t, h = "verifying" :: t /\ In "executing" t.
Proof.
  induction 1 as [i Hi|h i i' Hh IH Hm]; intros Hs; [congruence|].
  apply moves_may in Hm. rewrite Hs in Hm |- *. exists h. split; [done|].
  destruct (history_head _ _ Hh) as [t Ht].
  apply verifying_from in Hm as [Hm|Hm].
  - destruct (IH Hm) as (t' & -> & ?). by right.
  - rewrite Ht, Hm. by left.
Qed.

(** ** Properties *)

(** An incident that is resolved was executed and then verified: every
    run of successful transitions from a new incident to [resolved] passes
    through [executing] and, after it, [verifying]. *)
Theorem resolved_was_executed_and_verified h i :
  history h i -> inc_status i = "resolved" -> before "executing" "verifying" h.
Proof.
  induction 1 as [i Hi|h i i' Hh IH Hm]; intros Hs; [congruence|].
  apply moves_may in Hm. rewrite Hs in Hm. apply before_cons.
  apply resolved_from in Hm as [Hm|Hm]; [by apply IH|].
  destruct (history_verifying _ _ Hh Hm) as (t & -> & Hin).
  apply in_split in Hin as (h2 & h3 & ->). by exists [], h2, h3.
Qed.

(** The life of an incident from [new]: its status is always one of the
    table, never [false_positive], and once it is resolved or failed no
    successful transition changes it. *)
Theorem incident_status_invariant h i :
  history h i ->
  dmem (inc_status i) ALLOWED_TRANSITIONS = true /\ inc_status i <> "false_positive" /\
  (In (inc_status i) terminal_statuses ->
   forall target actor reason now ev i',
     transition_incident i target actor reason now = Ok (ev, i') -> inc_status i' = inc_status i).
Proof.
  intros H. assert (Hinv : dmem (inc_status i) ALLOWED_TRANSITIONS = true /\
    inc_status i <> "false_positive").
  { induction H as [i Hi|h i i' Hh [IH1 IH2] Hm]; [by rewrite Hi|].
    apply moves_may in Hm. split; [by eapply known_target|]. intros Hs. rewrite Hs in Hm.
    destruct (edge_into _ _ Hm) as (l & Hl & Hin); [congruence|]. simpl in Hl.
    repeat destruct Hl as [[= _ <-]|Hl]; simpl in Hin; naive_solver. }
  destruct Hinv as [H1 H2]. split_and!; auto.
  intros Ht target actor reason now ev i' Htr.
  apply transition_incident_ok in Htr as (Hm & <- & _). by apply terminal_stuck.
Qed.

(** The alert guard admits a signal exactly when each of its two scopes
    is the principal's own or the shared [demo] scope; with the same-scope
    guard passed it always passes, so the two guards only differ on [demo]. *)
Theorem signal_scope_iff p tenant workspace :
  (require_signal_scope p tenant workspace = Ok tt <->
   (tenant = "demo" \/ tenant = p_tenant_id p) /\
   (workspace = "demo" \/ workspace = p_workspace_id p)) /\
  (forall action, require_same_scope p tenant workspace action = Ok tt ->
     require_signal_scope p tenant workspace = Ok tt).
Proof.
  assert (Hiff : require_signal_scope p tenant workspace = Ok tt <->
   (tenant = "demo" \/ tenant = p_tenant_id p) /\
   (workspace = "demo" \/ workspace = p_workspace_id p)).
  { unfold require_signal_scope. rewrite ensure_ok, andb_true_iff, !mem_In. simpl. naive_solver. }
  split; [done|]. intros action H. apply Hiff.
  unfold require_same_scope in H. apply ensure_ok in H. bools. subst. auto.
Qed.

(** ** Witnesses *)

Definition demo_incident (s : string) : Incident := {|
  inc_id := "inc-1"; inc_tenant_id := "demo"; inc_workspace_id := "demo"; inc_status := s;
  inc_updated_at := 0 |}.

Lemma history_step' h i i' s : history h i -> moves i i' -> s = inc_status i' -> history (s :: h) i'.
Proof. intros H Hm ->. exact (history_step h i i' H Hm). Defined.

Lemma demo_move s s' : may_transition s s' = true -> moves (demo_incident s) (demo_incident s').
Proof.
  intros H. eapply (moves_intro _ s' "system" None 0). unfold transition_incident. simpl.
  rewrite H. reflexivity.
Defined.

Lemma demo_history :
  history ["resolved"; "verifying"; "executing"; "action_proposed"; "investigating"; "new"]
    (demo_incident "resolved").
Proof.
  apply (history_step' _ (demo_incident "verifying")); [|by apply demo_move|done].
  apply (history_step' _ (demo_incident "executing")); [|by apply demo_move|done].
  apply (history_step' _ (demo_incident "action_proposed")); [|by apply demo_move|done].
  apply (history_step' _ (demo_incident "investigating")); [|by apply demo_move|done].
  apply (history_step' _ (demo_incident "new")); [|by apply demo_move|done].
  by constructor.
Defined.

Lemma resolved_was_executed_and_verified_witness :
  before "executing" "verifying"
    ["resolved"; "verifying"; "executing"; "action_proposed"; "investigating"; "new"].
Proof. exact (resolved_was_executed_and_verified _ _ demo_history eq_refl). Defined.

Lemma incident_status_invariant_witness :
  dmem "resolved" ALLOWED_TRANSITIONS = true.
Proof. exact (proj1 (incident_status_invariant _ _ demo_history)). Defined.
