(* ===== verification/Json.v ===== *)
(** * JSON documents written and read back

    What [json.loads(json.dumps(value, sort_keys=True, …))] returns of a
    value, and why [stable_hash] does not see the difference. *)

From S2P Require Import Prelude PyValue PyChecks Sha.

(** The value read back from the line a value was written to: tuples have
    become lists and the keys of every dictionary are in order. *)
Fixpoint json_image (v : val) : val :=
  match v with
  | VDict d => VDict (sort_items (map (fun kv => (kv.1, json_image kv.2)) d))
  | VList l | VTuple l => VList (map json_image l)
  | _ => v
  end.

Definition dict_image (d : dict) : dict :=
  sort_items (map (fun kv => (kv.1, json_image kv.2)) d).

Lemma json_image_dict d : json_image (VDict d) = VDict (dict_image d).
Proof. done. Qed.

(** ** Sorting by key *)

Section KeyOrder.
Context {A : Type}.
Implicit Types (x y : string * A) (l : list (string * A)).

Definition key_leb (a b : string * A) : bool := String.leb a.1 b.1.

Lemma key_leb_trans x y z : key_leb x y = true -> key_leb y z = true -> key_leb x z = true.
Proof.
  unfold key_leb. intros H1 H2. apply Is_true_true.
  apply (transitivity (R := String.le) (y := y.1)); by apply Is_true_true.
Qed.

Lemma key_leb_false x y : key_leb x y = false -> key_leb y x = true.
Proof. unfold key_leb. destruct (String.leb_total x.1 y.1) as [-> | ->]; done. Qed.

Definition key_sorted : list (string * A) -> Prop := StronglySorted (fun a b => key_leb a b = true).

Lemma insert_key_sorted x l : key_sorted l -> key_sorted (insert key_leb x l).
Proof.
  induction 1 as [|y l Hl IH Hy]; simpl; [by repeat constructor|].
  destruct (key_leb x y) eqn:E.
  - constructor; [by constructor|]. constructor; [done|].
    eapply Forall_impl; [exact Hy|]. intros z. by apply key_leb_trans.
  - constructor; [done|]. apply key_leb_false in E.
    rewrite Forall_forall in Hy |- *. intros z Hz.
    rewrite (insert_perm key_leb x l) in Hz. apply elem_of_cons in Hz as [->|Hz]; auto.
Qed.

Lemma sort_items_sorted l : key_sorted (sort_items l).
Proof. induction l; [constructor | by apply insert_key_sorted]. Qed.

Lemma insert_below x l : Forall (fun y => key_leb x y = true) l -> insert key_leb x l = x :: l.
Proof. destruct 1 as [|y l H]; [done|]. simpl. by rewrite H. Qed.

Lemma sort_items_id l : key_sorted l -> sort_items l = l.
Proof.
  induction 1 as [|x l Hl IH Hx]; [done|]. unfold sort_items in *. simpl.
  rewrite IH. by apply insert_below.
Qed.

Lemma filter_insert p x l : key_sorted l ->
  List.filter p (insert key_leb x l) =
  if p x then insert key_leb x (List.filter p l) else List.filter p l.
Proof.
  induction 1 as [|y l Hl IH Hy]; simpl; [done|].
  destruct (key_leb x y) eqn:E.
  - simpl. destruct (p x); [|done]. symmetry. apply insert_below.
    assert (H : Forall (fun z => key_leb x z = true) (y :: l)).
    { constructor; [done|]. eapply Forall_impl; [exact Hy|]. intros z. by apply key_leb_trans. }
    rewrite Forall_forall in *. intros z Hz. apply H. apply list_elem_of_In.
    apply list_elem_of_In in Hz. change (In z (List.filter p (y :: l))) in Hz.
    apply filter_In in Hz. tauto.
  - simpl. rewrite IH. destruct (p y), (p x); simpl; by rewrite ?E.
Qed.

Lemma dwithout_sort_items ks l : dwithout ks (sort_items l) = sort_items (dwithout ks l).
Proof.
  unfold dwithout. induction l as [|x l IH]; [done|].
  change (sort_items (x :: l)) with (insert key_leb x (sort_items l)).
  rewrite filter_insert, IH by apply sort_items_sorted. simpl.
  by destruct (mem x.1 ks).
Qed.

Lemma dget_insert k0 v0 l k :
  dget (insert key_leb (k0, v0) l) k = (if k =s k0 then Some v0 else dget l k).
Proof.
  induction l as [|[k1 v1] l IH]; [done|]. cbn.
  destruct (key_leb (k0, v0) (k1, v1)) eqn:E; [done|]. simpl. rewrite IH.
  destruct (eqs_spec k k1) as [<-|], (eqs_spec k k0) as [<-|]; try done.
  unfold key_leb in E. simpl in E. destruct (String.leb_total k k); congruence.
Qed.

Lemma dget_sort_items l k : dget (sort_items l) k = dget l k.
Proof.
  induction l as [|[k0 v0] l IH]; [done|]. simpl. rewrite <- IH. apply dget_insert.
Qed.

Lemma dkeys_sort_items l : Permutation (dkeys (sort_items l)) (dkeys l).
Proof. apply Permutation_map, isort_perm. Qed.
End KeyOrder.

Lemma sort_items_map {A B} (f : A -> B) (l : list (string * A)) :
  sort_items (map (fun kv => (kv.1, f kv.2)) l) = map (fun kv => (kv.1, f kv.2)) (sort_items l).
Proof.
  induction l as [|x l IH]; [done|]. simpl.
  change (sort_items (x :: l)) with (insert key_leb x (sort_items l)).
  change (sort_items ((x.1, f x.2) :: map (fun kv => (kv.1, f kv.2)) l))
    with (insert key_leb (x.1, f x.2) (sort_items (map (fun kv => (kv.1, f kv.2)) l))).
  rewrite IH. generalize (sort_items l). intros l'. induction l' as [|y l' IH']; [done|].
  simpl. unfold key_leb. simpl. destruct (String.leb x.1 y.1); [done|]. simpl. by rewrite <- IH'.
Qed.

Lemma sort_items_idem {A} (l : list (string * A)) : sort_items (sort_items l) = sort_items l.
Proof. apply sort_items_id, sort_items_sorted. Qed.

(** ** The text does not change *)

Lemma map_images {B} (f : val -> B) l :
  Forall (fun v => f (json_image v) = f v) l -> map f (map json_image l) = map f l.
Proof.
  intros H. rewrite map_map. apply map_ext_in. intros x Hx. rewrite Forall_forall in H.
  by apply H, list_elem_of_In.
Qed.

Lemma items_images {B} (f : val -> B) (d : dict) :
  Forall (fun kv => f (json_image kv.2) = f kv.2) d ->
  sort_items (map (fun kv => (kv.1, f kv.2)) (dict_image d)) = sort_items (map (fun kv => (kv.1, f kv.2)) d).
Proof.
  intros H. unfold dict_image.
  rewrite (sort_items_map f), sort_items_idem, <- (sort_items_map f), map_map.
  f_equal. apply map_ext_in. intros [k x] Hx. simpl. f_equal. rewrite Forall_forall in H.
  by apply (H (k, x)), list_elem_of_In.
Qed.

Lemma json_dumps_image v : json_dumps (json_image v) = json_dumps v.
Proof.
  induction v using val_deep_ind; try done.
  1, 2: cbn [json_image json_dumps]; by rewrite map_images.
  rewrite json_image_dict. cbn [json_dumps]. by rewrite items_images.
Qed.

Lemma json_image_idem v : json_image (json_image v) = json_image v.
Proof.
  induction v using val_deep_ind; try done.
  1, 2: cbn [json_image]; f_equal; by apply map_images.
  rewrite !json_image_dict. f_equal. unfold dict_image at 1. by apply items_images.
Qed.

Lemma stable_hash_image v : stable_hash (json_image v) = stable_hash v.
Proof. unfold stable_hash. by rewrite json_dumps_image. Qed.

Lemma dget_image d k : dget (dict_image d) k = option_map json_image (dget d k).
Proof.
  unfold dict_image. rewrite dget_sort_items.
  induction d as [|[k' v] d IH]; simpl; [done|]. by destruct (k =s k').
Qed.

Lemma vget_image d k : vget (dict_image d) k = json_image (vget d k).
Proof. unfold vget. rewrite dget_image. by destruct (dget d k). Qed.

Lemma dwithout_map ks (f : val -> val) d :
  dwithout ks (map (fun kv => (kv.1, f kv.2)) d) = map (fun kv => (kv.1, f kv.2)) (dwithout ks d).
Proof.
  unfold dwithout. induction d as [|[k v] d IH]; [done|]. simpl.
  destruct (mem k ks); simpl; by rewrite IH.
Qed.

Lemma dwithout_image ks d : dwithout ks (dict_image d) = dict_image (dwithout ks d).
Proof. unfold dict_image. by rewrite dwithout_sort_items, dwithout_map. Qed.

Lemma stable_hash_without_image ks d :
  stable_hash (VDict (dwithout ks (dict_image d))) = stable_hash (VDict (dwithout ks d)).
Proof. rewrite dwithout_image, <- json_image_dict. apply stable_hash_image. Qed.

Lemma same_keys_image d l : same_keys (dict_image d) l = same_keys d l.
Proof.
  assert (P : Permutation (dkeys (dict_image d)) (dkeys d)).
  { unfold dict_image. rewrite dkeys_sort_items. unfold dkeys. by rewrite map_map. }
  unfold same_keys. apply eq_true_iff_eq. rewrite !andb_true_iff, !forallb_forall.
  setoid_rewrite mem_In. split; intros [H1 H2]; split; intros k Hk.
  1, 3: apply H1; (eapply Permutation_in; [|exact Hk]); by rewrite P.
  all: eapply Permutation_in; [|apply H2, Hk]; by rewrite P.
Qed.

(** ** Checks that do not see the difference *)

Lemma is_int_image p v : is_int p (json_image v) = is_int p v.
Proof. by destruct v. Qed.

Lemma is_literal_image b v : is_literal b (json_image v) = is_literal b v.
Proof. by destruct v. Qed.

Lemma is_text_image v : is_text (json_image v) = is_text v.
Proof. by destruct v. Qed.

Lemma is_none_image v : is_none (json_image v) = is_none v.
Proof. by destruct v. Qed.

Lemma is_string_image v : is_string (json_image v) = is_string v.
Proof. by destruct v. Qed.

#[export] Hint Rewrite is_int_image is_literal_image is_text_image is_none_image is_string_image : image.

(** ** Values a read-back document is equal to *)

(** No tuples, and every dictionary has distinct keys. *)
Fixpoint json_value (v : val) : Prop :=
  match v with
  | VTuple _ => False
  | VList l => (fix go l := match l with [] => True | x :: l => json_value x /\ go l end) l
  | VDict d =>
      dict_wf d /\
      (fix go (d : dict) := match d with [] => True | (_, x) :: d => json_value x /\ go d end) d
  | _ => True
  end.

Lemma json_value_list l : json_value (VList l) <-> Forall json_value l.
Proof. simpl. induction l; rewrite ?Forall_cons, ?Forall_nil; naive_solver. Qed.

Lemma json_value_dict d : json_value (VDict d) <-> dict_wf d /\ Forall (fun kv => json_value kv.2) d.
Proof.
  simpl. apply and_iff_compat_l. induction d as [|[k x] d IH]; rewrite ?Forall_cons, ?Forall_nil; naive_solver.
Qed.

Lemma json_value_wf v : json_value v -> val_wf v.
Proof.
  induction v as [|b|z|q|s|l IH|l IH|d IH] using val_deep_ind; intros H; try done.
  - rewrite json_value_list in H. rewrite val_wf_list. rewrite List.Forall_forall in *. auto.
  - rewrite json_value_dict in H. rewrite val_wf_dict. destruct H as [Hd H]. split; [exact Hd|].
    rewrite List.Forall_forall in *. auto.
Qed.

Lemma strings_image l : json_image (vlist_of_strings l) = vlist_of_strings l.
Proof. unfold vlist_of_strings. cbn [json_image]. f_equal. induction l as [|s l IH]; [done|]. cbn. by rewrite IH. Qed.

Lemma strings_json_value l : json_value (vlist_of_strings l).
Proof. apply json_value_list, List.Forall_map. by induction l; constructor. Qed.

Lemma strings_wf l : val_wf (vlist_of_strings l).
Proof. apply json_value_wf, strings_json_value. Qed.

Lemma py_eq_image v : json_value v -> py_eq (json_image v) v = true.
Proof.
  induction v as [|b|z|q|s|l IH|l IH|d IH] using val_deep_ind; intros H; try (by apply py_eq_refl); try done.
  - rewrite json_value_list in H. cbn [json_image].
    induction IH as [|x l Hx _ IH]; [done|]. apply Forall_cons in H as [H1 H2].
    cbn in IH |- *. by rewrite Hx, IH.
  - rewrite json_image_dict. rewrite json_value_dict in H. destruct H as [Hd H]. rewrite py_eq_dict.
    apply andb_true_iff. split.
    + apply Nat.eqb_eq. unfold dict_image, sort_items. by rewrite length_isort, length_map.
    + apply forallb_forall. intros [k y] Hk. unfold dict_image, sort_items in Hk. apply in_isort, in_map_iff in Hk.
      destruct Hk as ([k' x] & [= <- <-] & Hx). cbn [fst snd]. rewrite (In_dget d k' x Hd Hx).
      rewrite List.Forall_forall in IH, H. exact (IH _ Hx (H _ Hx)).
Qed.

Lemma dkeys_image d : Permutation (dkeys (dict_image d)) (dkeys d).
Proof. unfold dict_image. rewrite dkeys_sort_items. unfold dkeys. by rewrite map_map. Qed.

Lemma json_value_image v : json_value v -> json_value (json_image v).
Proof.
  induction v as [|b|z|q|s|l IH|l IH|d IH] using val_deep_ind; intros H; try done.
  - rewrite json_value_list in H. cbn [json_image]. apply json_value_list, List.Forall_map.
    rewrite List.Forall_forall in *. auto.
  - rewrite json_value_dict in H. destruct H as [Hd H]. rewrite json_image_dict. apply json_value_dict. split.
    + unfold dict_wf. by rewrite dkeys_image.
    + unfold dict_image, sort_items. rewrite isort_perm. apply List.Forall_map. rewrite List.Forall_forall in *.
      intros kv Hkv. cbn. auto.
Qed.

Lemma py_eq_image_r v : json_value v -> py_eq v (json_image v) = true.
Proof.
  intros H. apply py_eq_sym; [by apply json_value_wf, json_value_image | by apply json_value_wf | by apply py_eq_image].
Qed.

#[export] Hint Rewrite same_keys_image stable_hash_image stable_hash_without_image vget_image dget_image : py.
