(* ===== verification/P118Contract.v ===== *)
(** * The P118 operation contract

    Models app/services/p118_operation_contract.py: the immutable envelope of
    a local operation, the checks that admit it, and the authority boundary
    (no authority-bearing field or text at any depth, every authority counter
    exactly zero).  The boundary is compared with a specification that says
    what a field's name spells and what a text shows. *)

From S2P Require Import Prelude PyValue Sha PyRegex.

(** ** Constants *)

Definition P118_OPERATION_SCHEMA_VERSION : string := "p118.operation_envelope.v1".

Definition P118_LIFECYCLE_STATES : list string :=
  ["received"; "verified"; "approved"; "prechecked"; "action_attempted"; "postchecked";
   "succeeded"; "precheck_failed"; "action_failed"; "postcheck_failed"; "rollback_attempted";
   "rollback_postchecked"; "rolled_back"; "rollback_failed"; "validation_failed"; "rejected";
   "expired"; "orphaned_recovered"; "aborted_fail_closed"].

Definition P118_TERMINAL_STATUSES : list string :=
  ["succeeded"; "rolled_back"; "rollback_failed"; "validation_failed"; "rejected"; "expired";
   "orphaned_recovered"; "aborted_fail_closed"].

Definition P118_AUTHORITY_COUNTER_KEYS : list string :=
  ["auth"; "credentials"; "executor"; "shell"; "subprocess"; "kubernetes"; "cloud";
   "database_mutation"; "production_adapter"; "network_mutation"; "online_policy_write";
   "production_mutation"].

Definition REQUIRED_FIELDS : list string :=
  ["operation_id"; "schema_version"; "p117_decision_episode_id"; "p117_selected_action_pack_id";
   "p115_action_pack_digest"; "fixture_target_id"; "action_level"; "precondition_refs";
   "validation_plan_ref"; "rollback_plan_ref"; "approval_receipt"; "lease_receipt";
   "wal_position"; "cas_version"; "idempotency_key"; "authority_counter_snapshot"].

Definition FORBIDDEN_FIELDS : list string :=
  ["auth"; "authcontext"; "authrequired"; "cloudmutation"; "command"; "commandtext";
   "credential"; "credentials"; "database"; "databasemutation"; "executor"; "freeformaction";
   "kubernetes"; "liveconnector"; "network"; "networkmutation"; "onlinepolicywrite"; "password";
   "productionadapter"; "productionmutation"; "secret"; "shell"; "shelltext"; "subprocess";
   "targetselector"].

Definition FORBIDDEN_TEXT_RE : rx :=
  alts [ilit "prod"; ilit "production"; ilit "staging"; ilit "kubectl"; ilit "curl"; ilit "ssh";
        Seq (ilit "aws") (Chr is_space); Seq (ilit "gcloud") (Chr is_space);
        Seq (ilit "terraform") (Seq (many1 is_space) (ilit "apply"));
        ilit "postgres://"; ilit "mysql://"; Seq (ilit "http") (Seq (opt (ilit "s")) (ilit "://"));
        ilit "password"; ilit "secret"; ilit "credential"; ilit "subprocess"; ilit "shell"].

Definition LOCAL_TARGET_PREFIXES : list string :=
  ["local:fixture:"; "mock:fixture:"; "sandbox:fixture:"].

Definition P118ContractError (msg : string) : exn := Exn "P118ContractError" msg.

(** ** Normalisation of field names *)

(** [re.sub(r"(?<=[a-z0-9])(?=[A-Z])", "_", s)] *)
Fixpoint separate_camel (prev : option ascii) (s : string) : string :=
  match s with
  | EmptyString => EmptyString
  | String c s =>
      let low := match prev with Some p => is_lower p || is_digit p | None => false end in
      (if low && is_upper c then "_" else "") +:+ String c (separate_camel (Some c) s)
  end.

(** [str.casefold] on a Latin-1 code point.  The micro sign folds to a Greek
    letter outside Latin-1; it stays here, and is dropped with every other
    character that is not alphanumeric either way. *)
Definition casefold_ascii (c : ascii) : string :=
  if (code c =? 223)%N then "ss" else String (lower_ascii c) EmptyString.

(** [re.sub(r"[^a-z0-9]+", "", s)] *)
Fixpoint keep_alnum (s : string) : string :=
  match s with
  | EmptyString => EmptyString
  | String c s => if is_lower c || is_digit c then String c (keep_alnum s) else keep_alnum s
  end.

Definition normalized_field (key : string) : string :=
  keep_alnum (concat_map_string casefold_ascii (separate_camel None key)).

(** ** The authority boundary *)

(** Is the mapping entry one the boundary check steps over? *)
Definition is_counter_field (allow : bool) (key : string) : bool :=
  allow && mem (normalized_field key) ["authoritycountersnapshot"; "counters"; "policycounters"].

Fixpoint reject_authority_fields (allow : bool) (v : val) : res unit :=
  match v with
  | VDict d =>
      (fix items (d : list (string * val)) : res unit :=
         match d with
         | [] => Ok tt
         | (key, item) :: d =>
             if is_counter_field allow key then items d
             else
               let! _ := ensure (negb (mem (normalized_field key) FORBIDDEN_FIELDS))
                           (P118ContractError ("forbidden_authority_field:" +:+ key)) in
               let! _ := reject_authority_fields allow item in
               items d
         end) d
  | VList l | VTuple l =>
      (fix elems (l : list val) : res unit :=
         match l with
         | [] => Ok tt
         | x :: l => let! _ := reject_authority_fields allow x in elems l
         end) l
  | VStr s => ensure (negb (search FORBIDDEN_TEXT_RE s)) (P118ContractError "forbidden_authority_text")
  | _ => Ok tt
  end.

Definition reject_authority_boundary (v : val) : res unit := reject_authority_fields true v.

Definition exact_zero_authority_counters : dict :=
  map (fun key => (key, VInt 0)) P118_AUTHORITY_COUNTER_KEYS.

Definition check_counter (value : dict) (key : string) : res (string * val) :=
  match as_int (vget value key) with
  | None => Raise (P118ContractError ("missing_authority_counter:" +:+ key))
  | Some counter =>
      let! _ := ensure (counter =? 0)%Z (P118ContractError ("authority_counter_nonzero:" +:+ key)) in
      Ok (key, VInt 0)
  end.

Definition validate_exact_zero_authority_counters (value : val) : res dict :=
  match as_dict value with
  | None => Raise (P118ContractError "missing_authority_counter_snapshot")
  | Some value =>
      let unknown := sorted_strings (List.filter (fun key => negb (mem key P118_AUTHORITY_COUNTER_KEYS))
                                       (dkeys value)) in
      match unknown with
      | u :: _ => Raise (P118ContractError ("unknown_authority_counter:" +:+ u))
      | [] => mapM (check_counter value) P118_AUTHORITY_COUNTER_KEYS
      end
  end.

(** ** Field checks *)

(** [re.fullmatch(r"L[0-9]+", s)] *)
Definition LEVEL_RE : rx := Seq (lit "L") (many1 is_digit).

Definition action_level (value : val) : res string :=
  match as_str value with
  | Some s =>
      let! _ := ensure (fullmatch LEVEL_RE s) (P118ContractError "invalid_action_level") in
      let! n := py_int (VStr (String.substring 1 (String.length s) s)) in
      let! _ := ensure (n <=? 3)%Z (P118ContractError "action_level_above_l3") in
      Ok s
  | None => Raise (P118ContractError "invalid_action_level")
  end.

Definition fixture_target (value : val) : res string :=
  match as_str value with
  | Some s =>
      let! _ := ensure (negb (is_empty s)) (P118ContractError "missing_fixture_target_id") in
      let! _ := ensure (existsb (fun p => startswith p s) LOCAL_TARGET_PREFIXES)
                  (P118ContractError "invalid_fixture_target") in
      let! _ := ensure (negb (search FORBIDDEN_TEXT_RE s)) (P118ContractError "forbidden_authority_text") in
      Ok s
  | None => Raise (P118ContractError "missing_fixture_target_id")
  end.

Definition required_text (data : dict) (key : string) : res string :=
  match as_str (vget data key) with
  | Some s =>
      let! _ := ensure (negb (is_empty (strip s))) (P118ContractError ("missing_" +:+ key)) in
      Ok (strip s)
  | None => Raise (P118ContractError ("missing_" +:+ key))
  end.

Definition required_hash (data : dict) (key error : string) : res string :=
  let! value := required_text data key in
  let! _ := ensure (sha256_ref value) (P118ContractError error) in
  Ok value.

Definition required_mapping (data : dict) (key error : string) : res dict :=
  match as_dict (vget data key) with
  | Some (kv :: d) => Ok (kv :: d)
  | _ => Raise (P118ContractError error)
  end.

(** The non-empty strings of a list of values. *)
Fixpoint nonempty_strings (l : list val) : list string :=
  match l with
  | [] => []
  | VStr s :: l => if is_empty s then nonempty_strings l else s :: nonempty_strings l
  | _ :: l => nonempty_strings l
  end.

(** [len(l) == len(set(l))] *)
Fixpoint distinct (l : list string) : bool :=
  match l with
  | [] => true
  | x :: l => negb (mem x l) && distinct l
  end.

Definition text_list (value : val) (error : string) : res (list string) :=
  match as_seq value with
  | Some (x :: l) =>
      let result := nonempty_strings (x :: l) in
      let! _ := ensure ((List.length result =? List.length (x :: l))%nat && distinct result)
                  (P118ContractError error) in
      Ok (sorted_strings result)
  | _ => Raise (P118ContractError error)
  end.

Definition non_negative_int (value : val) (error : string) : res Z :=
  match as_int value with
  | Some z => let! _ := ensure (0 <=? z)%Z (P118ContractError error) in Ok z
  | None => Raise (P118ContractError error)
  end.

(** Mappings with sorted keys, sequences as lists, at any depth. *)
Fixpoint plain_value (v : val) : val :=
  match v with
  | VDict d => VDict (sort_items (map (fun kv => (kv.1, plain_value kv.2)) d))
  | VList l | VTuple l => VList (map plain_value l)
  | _ => v
  end.

Definition plain_mapping (d : dict) : dict :=
  sort_items (map (fun kv => (kv.1, plain_value kv.2)) d).

(** ** Freezing *)

Fixpoint freeze (v : val) : val :=
  match v with
  | VDict d => VDict (map (fun kv => (kv.1, freeze kv.2)) d)
  | VList l | VTuple l => VTuple (map freeze l)
  | _ => v
  end.

Fixpoint thaw (v : val) : val :=
  match v with
  | VDict d => VDict (map (fun kv => (kv.1, thaw kv.2)) d)
  | VTuple l => VList (map thaw l)
  | _ => v
  end.

(** ** The envelope *)

Record P118OperationEnvelope := {
  operation_id : string;
  schema_version : string;
  payload : val;
}.

(** The constructor call: [__post_init__] freezes the payload. *)
Definition make_envelope (oid version : string) (p : dict) : P118OperationEnvelope :=
  {| operation_id := oid; schema_version := version; payload := freeze (VDict p) |}.

Definition to_dict (e : P118OperationEnvelope) : res dict :=
  match thaw (payload e) with
  | VDict d => Ok d
  | _ => Raise (P118ContractError "invalid_operation_payload")
  end.

(** [self.payload[key]] *)
Definition payload_index (e : P118OperationEnvelope) (key : string) : res val :=
  match payload e with
  | VDict d => vindex d key
  | _ => Raise (Exn "TypeError" "payload is not subscriptable by key")
  end.

Definition idempotency_key (e : P118OperationEnvelope) : res string :=
  let! v := payload_index e "idempotency_key" in Ok (py_str v).

Definition cas_version (e : P118OperationEnvelope) : res Z :=
  let! v := payload_index e "cas_version" in py_int v.

(** The payload the envelope hash is taken of. *)
Definition operation_payload (oid episode pack digest target level : string)
    (preconditions : list string) (validation_ref rollback_ref : string) (approval lease : dict)
    (wal_position cas : Z) (key : string) (counters : dict) : dict :=
  [("operation_id", VStr oid);
    ("schema_version", VStr P118_OPERATION_SCHEMA_VERSION);
    ("p117_decision_episode_id", VStr episode);
    ("p117_selected_action_pack_id", VStr pack);
    ("p115_action_pack_digest", VStr digest);
    ("fixture_target_id", VStr target);
    ("action_level", VStr level);
    ("precondition_refs", vlist_of_strings preconditions);
    ("validation_plan_ref", VStr validation_ref);
    ("rollback_plan_ref", VStr rollback_ref);
    ("approval_receipt", VDict (plain_mapping approval));
    ("lease_receipt", VDict (plain_mapping lease));
    ("wal_position", VInt wal_position);
    ("cas_version", VInt cas);
    ("idempotency_key", VStr key);
    ("authority_counter_snapshot", VDict counters);
    ("lifecycle_states", vlist_of_strings (sorted_strings P118_LIFECYCLE_STATES));
    ("terminal_statuses", vlist_of_strings (sorted_strings P118_TERMINAL_STATUSES))].

Definition build_operation_envelope (data : dict) : res P118OperationEnvelope :=
  let! _ := iterM (fun field => ensure (dmem field data) (P118ContractError ("missing_" +:+ field)))
              REQUIRED_FIELDS in
  let! _ := reject_authority_fields true (VDict data) in
  let! _ := ensure (py_eq (vget data "schema_version") (VStr P118_OPERATION_SCHEMA_VERSION))
    (P118ContractError ("unsupported_schema_version:" +:+ py_str (vget data "schema_version"))) in
  let! oid := required_text data "operation_id" in
  let! level := action_level (vget data "action_level") in
  let! target := fixture_target (vget data "fixture_target_id") in
  let! digest := required_hash data "p115_action_pack_digest" "invalid_p115_action_pack_digest" in
  let! preconditions := text_list (vget data "precondition_refs") "missing_precondition_refs" in
  let! validation_ref := required_text data "validation_plan_ref" in
  let! rollback_ref := required_text data "rollback_plan_ref" in
  let! approval := required_mapping data "approval_receipt" "missing_approval_receipt" in
  let! lease := required_mapping data "lease_receipt" "missing_lease_receipt" in
  let! wal_position := non_negative_int (vget data "wal_position") "missing_wal_position" in
  let! cas := non_negative_int (vget data "cas_version") "missing_cas_version" in
  let! counters := validate_exact_zero_authority_counters (vget data "authority_counter_snapshot") in
  let! episode := required_text data "p117_decision_episode_id" in
  let! pack := required_text data "p117_selected_action_pack_id" in
  let! key := required_text data "idempotency_key" in
  let p := operation_payload oid episode pack digest target level preconditions validation_ref
             rollback_ref approval lease wal_position cas key counters in
  Ok (make_envelope oid P118_OPERATION_SCHEMA_VERSION
        (p ++ [("envelope_hash", VStr (stable_hash (VDict p)))])).

(** ** What the boundary keeps out

    The specification of the boundary, which says what a name spells and what
    a text shows without the code's normaliser and its expression. *)

(** The character [c] is the character [w] of a word, or the capital of it. *)
Definition writes (w c : ascii) : Prop :=
  c = w \/ (97 <= code w <= 122)%N /\ code w = (code c + 32)%N.

Definition word_char (w : ascii) : Prop := (97 <= code w <= 122 \/ 48 <= code w <= 57)%N.

(** Neither a digit, nor a letter from A to Z in either case, nor the sharp s. *)
Definition stands_between (c : ascii) : Prop :=
  ~ (48 <= code c <= 57 \/ 65 <= code c <= 90 \/ 97 <= code c <= 122 \/ code c = 223)%N.

(** The name written [key] spells [word]: its letters and digits, in either
    case and with anything else between them, are those of the word, where a
    sharp s stands for two. *)
Inductive spells : string -> string -> Prop :=
  | spells_end : spells "" ""
  | spells_char w c word key : word_char w -> writes w c -> spells word key -> spells (String w word) (String c key)
  | spells_sharp_s c word key : code c = 223%N -> spells word key -> spells ("ss" +:+ word) (String c key)
  | spells_between c word key : stands_between c -> spells word key -> spells word (String c key).

Definition names_counters (key : string) : Prop :=
  exists word, In word ["authoritycountersnapshot"; "counters"; "policycounters"] /\ spells word key.

Definition forbidden_name (key : string) : Prop := exists word, In word FORBIDDEN_FIELDS /\ spells word key.

(** The texts that read as authority, up to the case of their letters. *)
Inductive authority_words : string -> Prop :=
  | words_listed t :
      In t ["prod"; "staging"; "kubectl"; "curl"; "ssh"; "postgres://"; "mysql://"; "http://"; "https://";
            "password"; "secret"; "credential"; "subprocess"; "shell"] -> authority_words t
  | words_aws c : is_space c = true -> authority_words ("aws" +:+ String c "")
  | words_gcloud c : is_space c = true -> authority_words ("gcloud" +:+ String c "")
  | words_terraform c spaces : is_space c = true -> all_chars is_space spaces = true ->
      authority_words ("terraform" +:+ (String c spaces +:+ "apply")).

Inductive written_as : string -> string -> Prop :=
  | written_end : written_as "" ""
  | written_char w c ws cs : writes w c -> written_as ws cs -> written_as (String w ws) (String c cs).

Definition shows_authority (s : string) : Prop :=
  exists before words shown after, s = before +:+ (shown +:+ after) /\ authority_words words /\ written_as words shown.

(** [v] carries, at some depth outside the counter fields, a name that spells
    a forbidden field or a text that shows authority. *)
Inductive carries_authority : val -> Prop :=
  | carries_text s : shows_authority s -> carries_authority (VStr s)
  | carries_key d key item :
      In (key, item) d -> ~ names_counters key -> forbidden_name key -> carries_authority (VDict d)
  | carries_item d key item :
      In (key, item) d -> ~ names_counters key -> carries_authority item -> carries_authority (VDict d)
  | carries_list l x : In x l -> carries_authority x -> carries_authority (VList l)
  | carries_tuple l x : In x l -> carries_authority x -> carries_authority (VTuple l).

(** A call that returns, or raises a [P118ContractError]. *)
Definition contract_call {A} (m : res A) : Prop :=
  forall e, m = Raise e -> exists msg, e = P118ContractError msg.

Lemma contract_bind {A B} (m : res A) (k : A -> res B) :
  contract_call m -> (forall a, m = Ok a -> contract_call (k a)) -> contract_call (bind m k).
Proof. intros Hm Hk e [He|(a & Ha & He)]%bind_raise; [by apply Hm | by apply (Hk a)]. Qed.

Lemma contract_ensure b msg : contract_call (ensure b (P118ContractError msg)).
Proof. intros e [_ <-]%ensure_raise. eauto. Qed.

Lemma contract_ok {A} (a : A) : contract_call (Ok a).
Proof. done. Qed.

Lemma contract_error {A} msg : contract_call (Raise (A := A) (P118ContractError msg)).
Proof. intros e [= <-]. eauto. Qed.

#[export] Hint Resolve contract_ensure contract_ok contract_error : py.

(** ** Names and what they spell *)

Lemma code_inj a b : code a = code b -> a = b.
Proof. intros H. rewrite <- (ascii_N_embedding a), <- (ascii_N_embedding b). f_equal. exact H. Qed.

Lemma code_bound c : (code c < 256)%N.
Proof. apply N_ascii_bounded. Qed.

Lemma between_iff lo hi n : between lo hi n = true <-> (lo <= n <= hi)%N.
Proof. unfold between. rewrite andb_true_iff, !N.leb_le. done. Qed.

Lemma between_false lo hi n : ~ (lo <= n <= hi)%N -> between lo hi n = false.
Proof. rewrite <- between_iff. apply not_true_is_false. Qed.

(** The code of a character in lower case. *)
Lemma code_lower c : code (lower_ascii c) =
  if between 65 90 (code c) || between 192 214 (code c) || between 216 222 (code c) then (code c + 32)%N else code c.
Proof.
  unfold lower_ascii. destruct (_ || _) eqn:E; [|done]. apply N_ascii_embedding.
  rewrite !orb_true_iff, !between_iff in E. lia.
Qed.

Lemma writes_lower w c : (97 <= code w <= 122 \/ code w < 65)%N -> writes w c <-> code (lower_ascii c) = code w.
Proof.
  intros Hw. rewrite code_lower. unfold writes.
  destruct (_ || _) eqn:E.
  - rewrite !orb_true_iff, !between_iff in E. split; [intros [->|[_ H]]; lia|]. intros H. right. lia.
  - assert (~ (65 <= code c <= 90)%N) by (rewrite !orb_false_iff in E; intros H%between_iff; destruct E as [[? ?] ?]; congruence).
    split; [intros [->|[? ?]]; [done | lia]|]. intros H'. left. by apply code_inj.
Qed.

(** What one character of a name leaves of it. *)
Lemma normalized_cons c key : normalized_field (String c key) = keep_alnum (casefold_ascii c) +:+ normalized_field key.
Proof.
  assert (Ha : forall a b, keep_alnum (a +:+ b) = keep_alnum a +:+ keep_alnum b).
  { intros a b. induction a as [|x a IH]; [done|].
    change (String x a +:+ b) with (String x (a +:+ b)). cbn [keep_alnum]. destruct (_ || _); [|exact IH]. by rewrite IH. }
  assert (Hc : forall a b, concat_map_string casefold_ascii (a +:+ b) =
    concat_map_string casefold_ascii a +:+ concat_map_string casefold_ascii b).
  { intros a b. induction a as [|x a IH]; [done|].
    change (String x a +:+ b) with (String x (a +:+ b)). cbn [concat_map_string]. by rewrite IH, string_app_assoc. }
  assert (Hp : forall s p q, keep_alnum (concat_map_string casefold_ascii (separate_camel p s)) =
    keep_alnum (concat_map_string casefold_ascii (separate_camel q s))).
  { intros [|x s] p q; [done|]. cbn [separate_camel]. rewrite !Hc, !Ha. f_equal.
    by destruct (_ && _), (_ && _). }
  unfold normalized_field. cbn [separate_camel andb]. change ("" +:+ ?s) with s. cbn [concat_map_string].
  rewrite Ha. f_equal. apply Hp.
Qed.
Lemma alnum_iff c : is_lower c || is_digit c = true <-> word_char c.
Proof. unfold is_lower, is_digit, word_char. by rewrite orb_true_iff, !between_iff. Qed.

Lemma kept_one c : code c <> 223%N -> keep_alnum (casefold_ascii c) =
  if is_lower (lower_ascii c) || is_digit (lower_ascii c) then String (lower_ascii c) "" else "".
Proof. intros H. unfold casefold_ascii. apply N.eqb_neq in H. by rewrite H. Qed.

Lemma kept_char w c : word_char w -> writes w c -> keep_alnum (casefold_ascii c) = String w "".
Proof.
  intros Hw Hc. assert (code c <> 223%N) by (destruct Hc as [->|[? ?]]; unfold word_char in Hw; lia).
  rewrite kept_one by done. assert (lower_ascii c = w) as ->.
  { apply code_inj, writes_lower, Hc. unfold word_char in Hw. lia. }
  by rewrite (proj2 (alnum_iff w) Hw).
Qed.

Lemma kept_sharp_s c : code c = 223%N -> keep_alnum (casefold_ascii c) = "ss".
Proof. intros H. unfold casefold_ascii. by rewrite H. Qed.

Lemma kept_between c : stands_between c -> keep_alnum (casefold_ascii c) = "".
Proof.
  unfold stands_between. intros H. rewrite kept_one by lia. destruct (_ || _) eqn:E; [|done].
  apply alnum_iff in E. unfold word_char in E. rewrite code_lower in E. destruct (_ || _) eqn:E' in E; [|lia].
  rewrite !orb_true_iff, !between_iff in E'. lia.
Qed.

Lemma name_char c : (exists w, word_char w /\ writes w c) \/ code c = 223%N \/ stands_between c.
Proof.
  destruct (is_lower (lower_ascii c) || is_digit (lower_ascii c)) eqn:E.
  - left. exists (lower_ascii c). apply alnum_iff in E. split; [exact E|]. apply writes_lower; [|done].
    unfold word_char in E. lia.
  - right. destruct (N.eq_dec (code c) 223%N) as [?|Hn]; [by left | right]. intros H. apply not_true_iff_false in E.
    apply E, alnum_iff. unfold word_char. rewrite code_lower. destruct (_ || _) eqn:E' in |- *.
    + rewrite !orb_true_iff, !between_iff in E'. lia.
    + assert (~ (65 <= code c <= 90)%N) by (rewrite !orb_false_iff in E'; intros H'%between_iff; destruct E' as [[? ?] ?]; congruence).
      lia.
Qed.

(** The normaliser computes the word a name spells. *)
Lemma normalized_spells key word : normalized_field key = word <-> spells word key.
Proof.
  split.
  - intros <-. induction key as [|c key IH]; [constructor|]. rewrite normalized_cons.
    destruct (name_char c) as [(w & Hw & Hc)|[H|H]].
    + rewrite (kept_char w c Hw Hc). by apply (spells_char w c).
    + rewrite (kept_sharp_s c H). by apply spells_sharp_s.
    + rewrite (kept_between c H). by apply spells_between.
  - induction 1 as [|w c word key Hw Hc _ IH|c word key H _ IH|c word key H _ IH]; [done|..]; rewrite normalized_cons, IH.
    + by rewrite (kept_char w c Hw Hc).
    + by rewrite (kept_sharp_s c H).
    + by rewrite (kept_between c H).
Qed.

Lemma normalized_mem key words : mem (normalized_field key) words = true <-> exists word, In word words /\ spells word key.
Proof.
  rewrite mem_In. split; [intros H; eexists; split; [exact H | by apply normalized_spells]|].
  intros (word & H & <-%normalized_spells). exact H.
Qed.

Lemma counter_field_iff key : is_counter_field true key = true <-> names_counters key.
Proof. apply normalized_mem. Qed.

Lemma counter_field_false key : is_counter_field true key = false <-> ~ names_counters key.
Proof. rewrite <- counter_field_iff. symmetry. apply not_true_iff_false. Qed.

Lemma forbidden_field_iff key : mem (normalized_field key) FORBIDDEN_FIELDS = true <-> forbidden_name key.
Proof. apply normalized_mem. Qed.

(** ** Texts and what they show *)

Lemma agree_app f s s' t t' : agree f s t -> agree f s' t' -> agree f (s +:+ s') (t +:+ t').
Proof. induction 1 as [|x c xs cs Hc _ IH]; [done|]. intros H. exact (agree_cons _ _ _ _ _ Hc (IH H)). Qed.

Lemma agree_split f s s' m : agree f (s +:+ s') m -> exists t t', m = t +:+ t' /\ agree f s t /\ agree f s' t'.
Proof.
  revert m. induction s as [|x s IH]; intros m H.
  - exists "", m. split; [done|]. split; [constructor | exact H].
  - change (String x s +:+ s') with (String x (s +:+ s')) in H. inversion H as [|? c ? cs Hc Hr]; subst.
    apply IH in Hr as (t & t' & -> & Ht & Ht'). exists (String c t), t'. split; [done|]. split; [by constructor | exact Ht'].
Qed.

(** The characters of the words the pattern names. *)
Definition pattern_char (c : ascii) : bool := is_lower c || (code c <? 65)%N.

Lemma agree_written s m : all_chars pattern_char s = true -> agree icase s m <-> written_as s m.
Proof.
  intros Hs. assert (Hc : forall x c, pattern_char x = true -> icase x c = true <-> writes x c).
  { intros x c Hx. unfold pattern_char, is_lower in Hx. rewrite orb_true_iff, between_iff, N.ltb_lt in Hx.
    rewrite writes_lower by lia. unfold icase. rewrite N.eqb_eq, (code_lower x).
    rewrite !between_false by lia. cbn. split; congruence. }
  split.
  - induction 1 as [|x c xs cs H _ IH]; [constructor|]. apply andb_true_iff in Hs as [Hx Hs].
    constructor; [by apply Hc | by apply IH].
  - induction 1 as [|x c xs cs H _ IH]; [constructor|]. apply andb_true_iff in Hs as [Hx Hs].
    constructor; [by apply Hc | by apply IH].
Qed.

Lemma matches_ilit s m : all_chars pattern_char s = true -> matches (ilit s) m <-> written_as s m.
Proof. intros H. rewrite <- agree_written by exact H. apply matches_lit_of. Qed.

Lemma written_app s s' t t' : written_as s t -> written_as s' t' -> written_as (s +:+ s') (t +:+ t').
Proof. induction 1 as [|x c xs cs Hc _ IH]; [done|]. intros H. exact (written_char _ _ _ _ Hc (IH H)). Qed.

Lemma written_split s s' m : written_as (s +:+ s') m -> exists t t', m = t +:+ t' /\ written_as s t /\ written_as s' t'.
Proof.
  revert m. induction s as [|x s IH]; intros m H.
  - exists "", m. split; [done|]. split; [constructor | exact H].
  - change (String x s +:+ s') with (String x (s +:+ s')) in H. inversion H as [|? c ? cs Hc Hr]; subst.
    apply IH in Hr as (t & t' & -> & Ht & Ht'). exists (String c t), t'. split; [done|]. split; [by constructor | exact Ht'].
Qed.

(** White space is written as itself. *)
Lemma written_spaces s t : all_chars is_space s = true -> written_as s t <-> t = s.
Proof.
  intros Hs. assert (Hc : forall x c, is_space x = true -> writes x c <-> c = x).
  { intros x c Hx. unfold is_space in Hx. rewrite !orb_true_iff, !between_iff, !N.eqb_eq in Hx.
    unfold writes. split; [intros [->|[? ?]]; [done | lia] | by left]. }
  split.
  - induction 1 as [|x c xs cs H _ IH]; [done|]. apply andb_true_iff in Hs as [Hx Hs].
    apply Hc in H as ->; [|exact Hx]. by rewrite IH.
  - intros ->. induction s as [|x s IH]; [constructor|]. apply andb_true_iff in Hs as [Hx Hs].
    constructor; [by apply Hc | by apply IH].
Qed.

Lemma matches_then_space w m : all_chars pattern_char w = true -> matches (Seq (ilit w) (Chr is_space)) m <->
  exists c, is_space c = true /\ written_as (w +:+ String c "") m.
Proof.
  intros Hw. split.
  - inversion 1 as [| |? ? u v Hu Hv| | |]; subst. inversion Hv as [|? c Hc| | | |]; subst. exists c. split; [exact Hc|].
    apply matches_ilit in Hu; [|exact Hw]. apply written_app; [exact Hu|]. apply written_spaces; [|done]. cbn. by rewrite Hc.
  - intros (c & Hc & (u & v & -> & Hu & Hv)%written_split). apply written_spaces in Hv as ->; [|cbn; by rewrite Hc].
    constructor; [by apply matches_ilit | by constructor].
Qed.

Lemma matches_terraform m : matches (Seq (ilit "terraform") (Seq (many1 is_space) (ilit "apply"))) m <->
  exists c spaces, is_space c = true /\ all_chars is_space spaces = true /\
    written_as ("terraform" +:+ (String c spaces +:+ "apply")) m.
Proof.
  assert (Hl : forall c spaces, is_space c = true -> all_chars is_space spaces = true -> all_chars is_space (String c spaces) = true).
  { intros c spaces H1 H2. cbn. by rewrite H1. }
  split.
  - inversion 1 as [| |? ? u v Hu Hv| | |]; subst. inversion Hv as [| |? ? v1 v2 H1 H2| | |]; subst.
    inversion H1 as [| |? ? w1 w2 H3 H4| | |]; subst. inversion H3 as [|? c Hc| | | |]; subst. inversion H4; subst.
    exists c, w2. split; [exact Hc|]. split; [done|].
    apply matches_ilit in Hu, H2; try done. apply written_app; [exact Hu|]. apply written_app; [|exact H2].
    apply written_spaces; [by apply Hl | done].
  - intros (c & spaces & Hc & Hs & (u & v & -> & Hu & (v1 & v2 & -> & Hv & H2)%written_split)%written_split).
    apply written_spaces in Hv as ->; [|by apply Hl]. constructor; [by apply matches_ilit|]. constructor; [|by apply matches_ilit].
    apply (matches_seq _ _ (String c "") spaces); by constructor.
Qed.

Lemma matches_url m : matches (Seq (ilit "http") (Seq (opt (ilit "s")) (ilit "://"))) m <->
  written_as "http://" m \/ written_as "https://" m.
Proof.
  split.
  - inversion 1 as [| |? ? u v Hu Hv| | |]; subst. inversion Hv as [| |? ? v1 v2 H1 H2| | |]; subst.
    apply matches_ilit in Hu, H2; try done. inversion H1; subst.
    + right. apply (written_app "http" "s://"); [exact Hu|]. apply (written_app "s" "://"); [by apply matches_ilit | exact H2].
    + left. apply (written_app "http" "://"); [exact Hu|]. match goal with H : matches Eps _ |- _ => inversion H end. exact H2.
  - intros [H|H].
    + change "http://" with ("http" +:+ ("" +:+ "://")) in H.
      apply written_split in H as (u & v & -> & Hu & (v1 & v2 & -> & H1 & H2)%written_split).
      inversion H1; subst. constructor; [by apply matches_ilit|]. constructor; [|by apply matches_ilit].
      apply matches_right. constructor.
    + change "https://" with ("http" +:+ ("s" +:+ "://")) in H.
      apply written_split in H as (u & v & -> & Hu & (v1 & v2 & -> & H1 & H2)%written_split).
      constructor; [by apply matches_ilit|]. constructor; [|by apply matches_ilit].
      apply matches_left. by apply matches_ilit.
Qed.

Lemma string_app_nil a : a +:+ "" = a.
Proof. induction a as [|c a IH]; [done|]. change (String c (a +:+ "") = String c a). by rewrite IH. Qed.

(** What matches the pattern shows authority, and the other way round. *)
Lemma pattern_shows m : matches FORBIDDEN_TEXT_RE m -> shows_authority m.
Proof.
  assert (Hw : forall words, authority_words words -> written_as words m -> shows_authority m).
  { intros words Hw Hm. exists "", words, m, "". split; [symmetry; apply string_app_nil|]. by split. }
  intros (r & Hr & H)%matches_alts.
  repeat (destruct Hr as [<-|Hr]; [try (apply matches_ilit in H; [|reflexivity]; refine (Hw _ (words_listed _ _) H); cbn; tauto)|]);
    try destruct Hr.
  - apply matches_ilit in H; [|reflexivity]. change "production" with ("prod" +:+ "uction") in H.
    apply written_split in H as (u & v & -> & Hu & _). exists "", "prod", u, v.
    split; [done|]. split; [|exact Hu]. apply words_listed. by left.
  - apply matches_then_space in H as (c & Hc & H); [|reflexivity]. exact (Hw _ (words_aws c Hc) H).
  - apply matches_then_space in H as (c & Hc & H); [|reflexivity]. exact (Hw _ (words_gcloud c Hc) H).
  - apply matches_terraform in H as (c & spaces & Hc & Hs & H). exact (Hw _ (words_terraform c spaces Hc Hs) H).
  - apply matches_url in H as [H|H]; refine (Hw _ (words_listed _ _) H); cbn; tauto.
Qed.

Lemma shown_matches words m : authority_words words -> written_as words m -> matches FORBIDDEN_TEXT_RE m.
Proof.
  assert (Ha : forall r, In r [ilit "prod"; ilit "staging"; ilit "kubectl"; ilit "curl"; ilit "ssh"; ilit "postgres://"; ilit "mysql://";
      Seq (ilit "http") (Seq (opt (ilit "s")) (ilit "://")); ilit "password"; ilit "secret"; ilit "credential"; ilit "subprocess"; ilit "shell";
      Seq (ilit "aws") (Chr is_space); Seq (ilit "gcloud") (Chr is_space);
      Seq (ilit "terraform") (Seq (many1 is_space) (ilit "apply"))] -> matches r m -> matches FORBIDDEN_TEXT_RE m).
  { intros r Hr Hm. apply matches_alts. exists r. split; [|exact Hm].
    repeat (destruct Hr as [<-|Hr]; [cbn; tauto|]). destruct Hr. }
  intros [t Ht|c Hc|c Hc|c spaces Hc Hs] Hm.
  - repeat (destruct Ht as [<-|Ht]; [first
      [ match type of Hm with written_as ?w _ => apply (Ha (ilit w)); [cbn; tauto | by apply matches_ilit] end
      | apply (Ha _ ltac:(do 7 right; left; reflexivity)), matches_url; by auto]|]). destruct Ht.
  - eapply Ha; [|apply (matches_then_space "aws"); [reflexivity|]; by exists c]. cbn; tauto.
  - eapply Ha; [|apply (matches_then_space "gcloud"); [reflexivity|]; by exists c]. cbn; tauto.
  - eapply Ha; [|apply matches_terraform; by exists c, spaces]. cbn; tauto.
Qed.

Lemma text_search_iff s : search FORBIDDEN_TEXT_RE s = true <-> shows_authority s.
Proof.
  rewrite search_iff by reflexivity. split.
  - intros (a & m & b & -> & (a' & words & shown & b' & -> & Hw & Hm)%pattern_shows).
    exists (a +:+ a'), words, shown, (b' +:+ b). rewrite !string_app_assoc. by split.
  - intros (a & words & shown & b & -> & Hw & Hm). exists a, shown, b. split; [done|]. by eapply shown_matches.
Qed.


Lemma reject_list_spec l :
  Forall (fun v => reject_authority_boundary v = Ok tt <-> ~ carries_authority v) l ->
  reject_authority_boundary (VList l) = Ok tt <-> Forall (fun v => ~ carries_authority v) l.
Proof.
  unfold reject_authority_boundary. simpl. induction 1 as [|x l Hx Hl IH]; [by split|].
  rewrite bind_ok, Forall_cons, <- IH, <- Hx. split; [intros ([] & ? & ?); auto | intros [? ?]; eauto].
Qed.

Lemma reject_dict_cons key item d :
  reject_authority_boundary (VDict ((key, item) :: d)) =
  if is_counter_field true key then reject_authority_boundary (VDict d)
  else
    let! _ := ensure (negb (mem (normalized_field key) FORBIDDEN_FIELDS))
                (P118ContractError ("forbidden_authority_field:" +:+ key)) in
    let! _ := reject_authority_boundary item in
    reject_authority_boundary (VDict d).
Proof. reflexivity. Qed.

Lemma reject_dict_spec d :
  Forall (fun kv => reject_authority_boundary kv.2 = Ok tt <-> ~ carries_authority kv.2) d ->
  reject_authority_boundary (VDict d) = Ok tt <->
  Forall (fun kv => names_counters kv.1 \/ ~ forbidden_name kv.1 /\ ~ carries_authority kv.2) d.
Proof.
  induction 1 as [|[k x] d Hx Hd IH]; [by split|].
  rewrite Forall_cons, <- IH, reject_dict_cons. cbn [fst snd] in *. rewrite <- Hx, <- counter_field_iff, <- forbidden_field_iff.
  destruct (is_counter_field true k); [split; [auto | by intros [_ ?]]|].
  rewrite bind_ok, not_true_iff_false. split.
  - intros ([] & H1 & ([] & H2 & H3)%bind_ok). apply ensure_ok, negb_true_iff in H1. auto.
  - intros [[?|[H1 H2]] H3]; [done|]. exists tt. rewrite H1, H2. auto.
Qed.

Lemma reject_boundary_iff v : reject_authority_boundary v = Ok tt <-> ~ carries_authority v.
Proof.
  induction v using val_deep_ind;
    [split; [intros _ Hc; inversion Hc | intros _; reflexivity] .. | | | |].
  - unfold reject_authority_boundary. simpl. rewrite ensure_ok, negb_true_iff, <- not_true_iff_false, text_search_iff. split.
    + intros H Hc. by inversion Hc.
    + intros H Hc. by apply H; constructor.
  - rewrite reject_list_spec by done. rewrite Forall_forall. split.
    + intros H' Hc. inversion Hc as [| | |? x Hin Hx|]; subst.
      apply (H' x); [by apply list_elem_of_In | done].
    + intros H' x Hx%list_elem_of_In Hc. apply H'. by econstructor.
  - change (reject_authority_boundary (VList l) = Ok tt <-> ~ carries_authority (VTuple l)).
    rewrite reject_list_spec, Forall_forall by done. split.
    + intros H' Hc. inversion Hc as [| | | |? x Hin Hx]; subst.
      apply (H' x); [by apply list_elem_of_In | done].
    + intros H' x Hx%list_elem_of_In Hc. apply H'. by econstructor.
  - rewrite reject_dict_spec by done. rewrite Forall_forall. split.
    + intros H' Hc. inversion Hc as [|? k x Hin Hk Hf|? k x Hin Hk Hx| |]; subst;
        apply list_elem_of_In, H' in Hin; cbn [fst snd] in Hin; tauto.
    + intros H' [k x] Hin%list_elem_of_In. cbn [fst snd].
      destruct (is_counter_field true k) eqn:Ek; [left; by apply counter_field_iff|]. apply counter_field_false in Ek. right. split.
      * intros E. apply H'. by eapply carries_key.
      * intros Hc. apply H'. by eapply carries_item.
Qed.

Lemma reject_boundary_error v : contract_call (reject_authority_fields true v).
Proof.
  induction v using val_deep_ind; [apply contract_ok .. | apply contract_ensure | | |].
  - simpl. induction H; [apply contract_ok|]. by apply contract_bind.
  - simpl. induction H; [apply contract_ok|]. by apply contract_bind.
  - induction H as [|[k x] d Hx Hd IH]; [apply contract_ok|].
    change (contract_call (reject_authority_boundary (VDict ((k, x) :: d)))).
    rewrite reject_dict_cons. destruct (is_counter_field true k); [done|].
    apply contract_bind; [apply contract_ensure|]. intros _ _. by apply contract_bind.
Qed.

Lemma iterM_contract {A} (f : A -> res unit) l :
  (forall x, contract_call (f x)) -> contract_call (iterM f l).
Proof. intros H. induction l; simpl; [apply contract_ok | by apply contract_bind]. Qed.

(** ** Counters *)

Lemma check_counter_ok value key r : check_counter value key = Ok r -> r = (key, VInt 0).
Proof. unfold check_counter. destruct (as_int _); intros; inv_res; done. Qed.

Lemma validate_counters_ok v c :
  validate_exact_zero_authority_counters v = Ok c -> c = exact_zero_authority_counters.
Proof.
  unfold validate_exact_zero_authority_counters. destruct (as_dict v) as [d|]; [|done].
  case_match eqn:Eu; [|done]. clear Eu. rewrite mapM_ok. unfold exact_zero_authority_counters.
  generalize P118_AUTHORITY_COUNTER_KEYS. induction 1 as [|? ? ? ? H' ? IH]; [done|]. apply check_counter_ok in H' as ->.
  simpl. by f_equal.
Qed.

(** The snapshot names each authority counter, nothing else, and each is the
    integer zero. *)
Lemma validate_counters_iff v c :
  validate_exact_zero_authority_counters v = Ok c <->
  c = exact_zero_authority_counters /\
  exists d, v = VDict d /\ (forall k, dmem k d = true -> In k P118_AUTHORITY_COUNTER_KEYS) /\
    Forall (fun k => dget d k = Some (VInt 0)) P118_AUTHORITY_COUNTER_KEYS.
Proof.
  split.
  - intros H. split; [by eapply validate_counters_ok|]. revert H.
    unfold validate_exact_zero_authority_counters. destruct v; try done. cbn [as_dict].
    case_match eqn:Eu; [|done]. intros H%mapM_ok. exists d. split; [done|]. split.
    + intros k Hk. destruct (mem k P118_AUTHORITY_COUNTER_KEYS) eqn:Em; [by apply mem_In|].
      exfalso. assert (Hin : In k []); [|done]. rewrite <- Eu.
      apply in_isort, filter_In. split; [|by rewrite Em].
      by apply mem_In.
    + eapply Forall2_Forall_l; [exact H|]. apply Forall_true. intros [k z] k'.
      unfold check_counter, vget. destruct (dget d k') as [[]|]; simpl; try done.
      destruct (_ =? 0)%Z eqn:E; [|done]. apply Z.eqb_eq in E. by subst.
  - intros (-> & d & -> & Hk & Hz). unfold validate_exact_zero_authority_counters. simpl as_dict. cbv iota.
    assert (Hf : List.filter (fun key => negb (mem key P118_AUTHORITY_COUNTER_KEYS)) (dkeys d) = []).
    { destruct (List.filter _ (dkeys d)) as [|k l] eqn:E; [done|].
      assert (In k (k :: l)) as Hin by (by left). rewrite <- E in Hin.
      apply filter_In in Hin as [Hin Hn]. apply mem_In in Hin.
      apply negb_true_iff, mem_not_In in Hn. exfalso. by apply Hn, Hk. }
    rewrite Hf. apply mapM_ok. unfold exact_zero_authority_counters. clear Hf Hk. revert Hz.
    generalize P118_AUTHORITY_COUNTER_KEYS. induction 1; constructor; [|done]. unfold check_counter, vget. by rewrite H.
Qed.

(** ** Freezing and thawing *)

Fixpoint tuple_free (v : val) : bool :=
  match v with
  | VDict d => forallb (fun kv => tuple_free kv.2) d
  | VList l => forallb tuple_free l
  | VTuple _ => false
  | _ => true
  end.

Lemma thaw_freeze v : tuple_free v = true -> thaw (freeze v) = v.
Proof.
  induction v using val_deep_ind; try done; simpl; rewrite forallb_forall; intros Hf; f_equal.
  - induction H; [done|]. simpl. rewrite H, IHForall; [done | intros; apply Hf; by right |].
    apply Hf. by left.
  - induction H as [|[k x] d Hx Hd IH]; [done|]. simpl in *. rewrite Hx, IH; [done| |].
    + intros; apply Hf; by right.
    + apply (Hf (k, x)). by left.
Qed.

Lemma plain_value_tuple_free v : tuple_free (plain_value v) = true.
Proof.
  induction v using val_deep_ind; try done; simpl; apply forallb_forall.
  - intros x (y & <- & Hy)%in_map_iff. rewrite Forall_forall in H. apply H. by apply list_elem_of_In.
  - intros x (y & <- & Hy)%in_map_iff. rewrite Forall_forall in H. apply H. by apply list_elem_of_In.
  - intros x Hx. apply in_isort in Hx. apply in_map_iff in Hx as (y & <- & Hy).
    rewrite Forall_forall in H. apply H. by apply list_elem_of_In.
Qed.

Lemma plain_mapping_tuple_free d : forallb (fun kv => tuple_free kv.2) (plain_mapping d) = true.
Proof. exact (plain_value_tuple_free (VDict d)). Qed.

Lemma strings_tuple_free l : forallb tuple_free (map VStr l) = true.
Proof. induction l; done. Qed.

Lemma to_dict_make oid version p :
  tuple_free (VDict p) = true -> to_dict (make_envelope oid version p) = Ok p.
Proof. intros H. unfold to_dict, make_envelope. cbn [payload]. by rewrite thaw_freeze. Qed.

(** ** Field checks *)

Lemma required_text_ok data key s :
  required_text data key = Ok s ->
  exists raw, dget data key = Some (VStr raw) /\ s = strip raw /\ s <> "".
Proof.
  unfold required_text, vget. destruct (dget data key) as [[]|]; simpl; try done.
  intros (u & H & [= <-])%bind_ok. apply ensure_ok in H. exists s0. split_and!; auto.
  unfold is_empty in H. by bools.
Qed.

Lemma required_text_error data key : contract_call (required_text data key).
Proof.
  unfold required_text. destruct (as_str _); auto with py. by apply contract_bind; auto with py.
Qed.

(** A level the contract admits: [L] and a decimal number of at most three. *)
Definition level_at_most_3 (s : string) : Prop :=
  fullmatch LEVEL_RE s = true /\
  exists n, py_int (VStr (String.substring 1 (String.length s) s)) = Ok n /\ n <= 3.

Lemma action_level_ok v s : action_level v = Ok s -> v = VStr s /\ level_at_most_3 s.
Proof.
  unfold action_level. destruct (as_str v) as [t|] eqn:E; [|done].
  apply as_str_some in E as ->.
  intros (u & H1 & (n & H2 & (u' & H3 & [= <-])%bind_ok)%bind_ok)%bind_ok.
  apply ensure_ok in H1, H3. bools. split; [done|]. split; eauto.
Qed.

Definition local_fixture (s : string) : Prop :=
  exists p rest, In p LOCAL_TARGET_PREFIXES /\ s = p +:+ rest.

Lemma startswith_spec p s : startswith p s = true <-> exists rest, s = p +:+ rest.
Proof.
  split.
  - revert s. induction p as [|c p IH]; intros s H; [by exists s|].
    destruct s as [|c' s]; [done|]. unfold startswith in *. simpl in H.
    destruct (ascii_dec c c') as [->|]; [|done]. apply IH in H as [rest ->]. by exists rest.
  - intros [rest ->]. apply startswith_app.
Qed.

Lemma fixture_target_ok v s :
  fixture_target v = Ok s ->
  v = VStr s /\ local_fixture s /\ search FORBIDDEN_TEXT_RE s = false.
Proof.
  unfold fixture_target. destruct (as_str v) as [t|] eqn:E; [|done].
  apply as_str_some in E as ->. intros (u & _ & (u1 & H1 & (u2 & H2 & [= <-])%bind_ok)%bind_ok)%bind_ok.
  apply ensure_ok in H1, H2. bools. split_and!; [done| |done].
  apply existsb_exists in H1 as (p & Hp & [rest ->]%startswith_spec). by exists p, rest.
Qed.

Lemma non_negative_int_ok v err z : non_negative_int v err = Ok z -> v = VInt z /\ 0 <= z.
Proof.
  unfold non_negative_int. destruct v; try done. simpl. intros (u & H & [= <-])%bind_ok.
  apply ensure_ok in H. bools. done.
Qed.

Lemma required_hash_ok data key err s :
  required_hash data key err = Ok s -> sha256_ref s = true.
Proof.
  unfold required_hash. intros (v & _ & (u & H & [= <-])%bind_ok)%bind_ok. by apply ensure_ok in H.
Qed.

Lemma operation_payload_tuple_free oid episode pack digest target level pre vref rref approval
    lease wal cas key hash :
  let p := operation_payload oid episode pack digest target level pre vref rref approval lease
             wal cas key exact_zero_authority_counters in
  tuple_free (VDict (p ++ [("envelope_hash", VStr hash)])) = true.
Proof.
  cbn -[plain_mapping sorted_strings].
  by rewrite !plain_mapping_tuple_free, !strings_tuple_free.
Qed.

Lemma build_ok data e :
  build_operation_envelope data = Ok e ->
  ~ carries_authority (VDict data) /\
  exists oid episode pack digest target level pre vref rref approval lease wal cas key,
    (let p := operation_payload oid episode pack digest target level pre vref rref approval lease
                wal cas key exact_zero_authority_counters in
     e = make_envelope oid P118_OPERATION_SCHEMA_VERSION
           (p ++ [("envelope_hash", VStr (stable_hash (VDict p)))])) /\
    oid <> "" /\ level_at_most_3 level /\ (local_fixture target /\ search FORBIDDEN_TEXT_RE target = false) /\
    0 <= wal /\ 0 <= cas.
Proof.
  unfold build_operation_envelope.
  intros (u0 & _ & H)%bind_ok. apply bind_ok in H as ([] & Hrej & H).
  apply reject_boundary_iff in Hrej. split; [done|].
  apply bind_ok in H as (? & _ & H).
  apply bind_ok in H as (oid & Hoid & H). apply bind_ok in H as (level & Hlevel & H).
  apply bind_ok in H as (target & Htarget & H). apply bind_ok in H as (digest & _ & H).
  apply bind_ok in H as (pre & _ & H). apply bind_ok in H as (vref & _ & H).
  apply bind_ok in H as (rref & _ & H). apply bind_ok in H as (approval & _ & H).
  apply bind_ok in H as (lease & _ & H). apply bind_ok in H as (wal & Hwal & H).
  apply bind_ok in H as (cas & Hcas & H). apply bind_ok in H as (counters & Hc & H).
  apply bind_ok in H as (episode & _ & H). apply bind_ok in H as (pack & _ & H).
  apply bind_ok in H as (key & _ & H). injection H as <-.
  apply required_text_ok in Hoid as (_ & _ & _ & Hoid).
  apply action_level_ok in Hlevel as [_ Hlevel].
  apply fixture_target_ok in Htarget as (_ & Hlocal & Htext).
  apply non_negative_int_ok in Hwal as [_ Hwal], Hcas as [_ Hcas].
  apply validate_counters_ok in Hc as ->.
  by exists oid, episode, pack, digest, target, level, pre, vref, rref, approval, lease, wal, cas, key.
Qed.

(** The payload of an admitted envelope as [to_dict] gives it. *)
Lemma build_payload data e :
  build_operation_envelope data = Ok e ->
  exists p, to_dict e = Ok p /\
    dget p "authority_counter_snapshot" = Some (VDict exact_zero_authority_counters).
Proof.
  intros H. apply build_ok in H as (_ & oid & episode & pack & digest & target & level & pre &
    vref & rref & approval & lease & wal & cas & key & -> & _).
  eexists. split; [by apply to_dict_make, operation_payload_tuple_free | done].
Qed.

(** ** Properties *)

(** C40: the authority boundary is exact at every depth.  A value passes iff,
    outside the counter fields, no name in it spells a forbidden field and no
    text in it shows authority.  A name spells the word its letters and digits
    make, in either case and with any other characters between them; a text
    shows authority when a part of it is, up to case, one of the listed words,
    a tool's name before white space, or terraform and apply with white space
    between.  And data that carries one never becomes an envelope. *)
Theorem authority_boundary_at_any_depth v data :
  (reject_authority_boundary v = Ok tt <-> ~ carries_authority v) /\
  (carries_authority (VDict data) ->
   exists msg, build_operation_envelope data = Raise (P118ContractError msg)).
Proof.
  split; [apply reject_boundary_iff|]. intros Hc.
  unfold build_operation_envelope.
  destruct (iterM _ REQUIRED_FIELDS) as [[]|e] eqn:Ei; cbn [bind].
  - destruct (reject_authority_fields true (VDict data)) as [[]|e] eqn:Er.
    + exfalso. by apply (reject_boundary_iff (VDict data)).
    + apply reject_boundary_error in Er as [msg ->]. by exists msg.
  - assert (Hcall : contract_call (iterM (fun field =>
      ensure (dmem field data) (P118ContractError ("missing_" +:+ field))) REQUIRED_FIELDS)).
    { apply iterM_contract. intros x. apply contract_ensure. }
    apply Hcall in Ei as [msg ->]. by exists msg.
Qed.

(** An admitted envelope keeps its contract: its payload is read back as
    it was built, carries the content hash of everything else in it, names a
    local fixture with no authority text, is at most level three, holds
    exactly the zero authority counters, and comes from data free of
    authority at any depth. *)
Theorem envelope_contract data e :
  build_operation_envelope data = Ok e ->
  ~ carries_authority (VDict data) /\
  exists p target level wal cas,
    to_dict e = Ok p /\
    dget p "envelope_hash" = Some (VStr (stable_hash (VDict (dwithout ["envelope_hash"] p)))) /\
    dget p "operation_id" = Some (VStr (operation_id e)) /\ operation_id e <> "" /\
    dget p "fixture_target_id" = Some (VStr target) /\ local_fixture target /\
    search FORBIDDEN_TEXT_RE target = false /\
    dget p "action_level" = Some (VStr level) /\ level_at_most_3 level /\
    dget p "authority_counter_snapshot" = Some (VDict exact_zero_authority_counters) /\
    dget p "wal_position" = Some (VInt wal) /\ 0 <= wal /\
    dget p "cas_version" = Some (VInt cas) /\ 0 <= cas /\ cas_version e = Ok cas.
Proof.
  intros H. apply build_ok in H as (Hrej & oid & episode & pack & digest & target & level & pre &
    vref & rref & approval & lease & wal & cas & key & -> & Hoid & Hlevel & [Hlocal Htext] & Hwal & Hcas).
  split; [done|].
  set (p := operation_payload oid episode pack digest target level pre vref rref approval lease
              wal cas key exact_zero_authority_counters).
  exists (p ++ [("envelope_hash", VStr (stable_hash (VDict p)))]), target, level, wal, cas.
  split; [by apply to_dict_make, operation_payload_tuple_free|].
  split_and!; try done.
Qed.

(** ** A concrete operation *)

Definition demo_digest : string :=
  "sha256:1111111111111111111111111111111111111111111111111111111111111111".

Definition demo_data : dict :=
  [("operation_id", VStr "op-1"); ("schema_version", VStr P118_OPERATION_SCHEMA_VERSION);
   ("p117_decision_episode_id", VStr "episode-1"); ("p117_selected_action_pack_id", VStr "pack-1");
   ("p115_action_pack_digest", VStr demo_digest); ("fixture_target_id", VStr "local:fixture:checkout");
   ("action_level", VStr "L2"); ("precondition_refs", VList [VStr "pre:2"; VStr "pre:1"]);
   ("validation_plan_ref", VStr "validation:mock"); ("rollback_plan_ref", VStr "rollback:mock");
   ("approval_receipt", VDict [("verification_hash", VStr demo_digest)]);
   ("lease_receipt", VDict [("owner_id", VStr "worker-1")]);
   ("wal_position", VInt 0); ("cas_version", VInt 0); ("idempotency_key", VStr "key-1");
   ("authority_counter_snapshot", VDict exact_zero_authority_counters)].

Definition empty_envelope : P118OperationEnvelope :=
  {| operation_id := ""; schema_version := ""; payload := VNone |}.

Definition demo_operation : P118OperationEnvelope :=
  match build_operation_envelope demo_data with Ok e => e | Raise _ => empty_envelope end.

Lemma demo_operation_ok : build_operation_envelope demo_data = Ok demo_operation.
Proof.
  assert (H : is_ok (build_operation_envelope demo_data) = true) by (vm_compute; reflexivity).
  unfold demo_operation. destruct (build_operation_envelope demo_data); done.
Qed.

Lemma envelope_contract_witness : ~ carries_authority (VDict demo_data).
Proof. exact (proj1 (envelope_contract demo_data demo_operation demo_operation_ok)). Defined.

(** The boundary at work: camel case and depth do not hide a field. *)
Example boundary_example :
  reject_authority_boundary (VDict [("a", VList [VDict [("Target-Selector", VInt 1)]])]) =
    Raise (P118ContractError "forbidden_authority_field:Target-Selector") /\
  reject_authority_boundary (VStr "restart the fixture via AWS cli") =
    Raise (P118ContractError "forbidden_authority_text") /\
  reject_authority_boundary (VDict [("policy_counters", VDict [("shell", VInt 0)])]) = Ok tt.
Proof. vm_compute. repeat split. Qed.

(** The name is spelled out of its two words, with a hyphen between. *)
Lemma target_selector_spelled : forbidden_name "Target-Selector".
Proof. exists "targetselector". split; [by apply mem_In | by apply normalized_spells]. Qed.

Lemma authority_boundary_at_any_depth_witness :
  exists msg, build_operation_envelope [("a", VList [VDict [("Target-Selector", VInt 1)]])] = Raise (P118ContractError msg).
Proof.
  apply (proj2 (authority_boundary_at_any_depth VNone [("a", VList [VDict [("Target-Selector", VInt 1)]])])).
  apply (carries_item _ "a" (VList [VDict [("Target-Selector", VInt 1)]])); [by left | by apply counter_field_false |].
  apply (carries_list _ (VDict [("Target-Selector", VInt 1)])); [by left|].
  apply (carries_key _ "Target-Selector" (VInt 1)); [by left | by apply counter_field_false | exact target_selector_spelled].
Defined.
