(* ===== verification/P118Ledger.v ===== *)
(** * The P118 write-ahead ledger

    Models app/services/p118_ledger.py: an append-only file of hash-chained
    entries shared by every process, and a store object per process with its
    own cached copy of the entries.  A store reads its cache outside the file
    lock and the file under it, so an operation is a function of both. *)

From S2P Require Import Prelude PyValue Sha Json P118Contract.

Definition LEGAL_TRANSITIONS : list (string * list string) :=
  [("received", ["verified"; "rejected"; "expired"; "aborted_fail_closed"]);
   ("verified", ["approved"; "rejected"; "aborted_fail_closed"]);
   ("approved", ["prechecked"; "precheck_failed"; "aborted_fail_closed"]);
   ("prechecked", ["action_attempted"; "validation_failed"; "aborted_fail_closed"]);
   ("action_attempted", ["postchecked"; "action_failed"; "postcheck_failed"; "rollback_attempted";
                         "aborted_fail_closed"]);
   ("postchecked", ["succeeded"; "postcheck_failed"; "rollback_attempted"]);
   ("precheck_failed", ["rejected"]);
   ("action_failed", ["rollback_attempted"; "rollback_failed"]);
   ("postcheck_failed", ["rollback_attempted"; "rollback_failed"]);
   ("rollback_attempted", ["rollback_postchecked"; "rollback_failed"]);
   ("rollback_postchecked", ["rolled_back"; "rollback_failed"])].

Definition legal (from target : string) : bool :=
  mem target (default [] (dget LEGAL_TRANSITIONS from)).

Definition P118LedgerError (msg : string) : exn := Exn "P118LedgerError" msg.

Record P118LedgerReceipt := {
  lr_receipt_type : string;
  lr_operation_id : string;
  lr_state : string;
  lr_cas_version : Z;
  lr_wal_position : Z;
  lr_receipt_hash : string;
  lr_previous_hash : string;
  lr_duplicate_action_count : Z;
  lr_lease_owner_id : option string;
}.

Record P118OperationState := {
  os_operation_id : string;
  os_state : string;
  os_cas_version : Z;
  os_idempotency_key : string;
  os_payload_hash : string;
  os_authority_counter_snapshot : dict;
  os_duplicate_action_count : Z;
  os_lease_owner_id : val;
  os_lease_expires_at : option Z;
}.

(** ** The file and a store *)

(** The non-blank lines of the file: the document a line parses to, [None]
    for a line that is not JSON (a torn write). *)
Abbreviation wal := (list (option val)).

Record ledger := { disk : wal; cache : list dict }.

(** What a store operation returns, and the file and cache it leaves. *)
Definition L (A : Type) := ledger -> res A * ledger.

Definition lret {A} (a : A) : L A := fun l => (Ok a, l).
Definition lraise {A} (e : exn) : L A := fun l => (Raise e, l).
Definition lift {A} (m : res A) : L A := fun l => (m, l).
Definition lbind {A B} (m : L A) (k : A -> L B) : L B := fun l =>
  match m l with
  | (Ok a, l') => k a l'
  | (Raise e, l') => (Raise e, l')
  end.

Notation "'let*' x := m 'in' k" := (lbind m (fun x => k))
  (at level 10, x pattern, m at level 100, k at level 200) : py_scope.

Definition lensure (b : bool) (msg : string) : L unit := lift (ensure b (P118LedgerError msg)).

Definition load_line (line : option val) : res dict :=
  match line with
  | None => Raise (Exn "JSONDecodeError" "Expecting value")
  | Some (VDict d) => Ok d
  | Some _ => Raise (P118LedgerError "invalid_wal_entry")
  end.

Definition load_entries (w : wal) : res (list dict) := mapM load_line w.

(** [P118LedgerStore(wal_path)] *)
Definition new_store (w : wal) : res ledger :=
  let! es := load_entries w in Ok {| disk := w; cache := es |}.

(** ** The hash chain *)

Definition entry_hash (entry : dict) : string :=
  stable_hash (VDict (dwithout ["receipt_hash"] entry)).

Fixpoint verify_from (index : Z) (previous : string) (seen : list Z) (es : list dict) : res bool :=
  match es with
  | [] => Ok true
  | entry :: es =>
      let position := vget entry "wal_position" in
      let! _ := ensure (hashable position) (Exn "TypeError" "unhashable type") in
      if existsb (fun z => py_eq position (VInt z)) seen || negb (py_eq position (VInt index))
      then Ok false
      else
        let! z := py_int position in
        if negb (py_eq (vget entry "previous_hash") (VStr previous)) then Ok false
        else
          let receipt_hash := py_str (vget_or entry "receipt_hash" (VStr "")) in
          if negb (receipt_hash =s entry_hash entry) then Ok false
          else verify_from (index + 1) receipt_hash (z :: seen) es
  end.

Definition verify_hash_chain (es : list dict) : res bool := verify_from 0 "" [] es.

(** ** Replay *)

(** [v[key]] *)
Definition subscript (v : val) (key : string) : res val :=
  match v with
  | VDict d => vindex d key
  | _ => Raise (Exn "TypeError" "not subscriptable by a string")
  end.

(** [dict(v)] of a mapping. *)
Definition to_dict_copy (v : val) : res dict :=
  match v with
  | VDict d => Ok d
  | _ => Raise (Exn "TypeError" "cannot convert to a dictionary")
  end.

Definition replay_registered (oid : string) (p : val) : res P118OperationState :=
  let! key := subscript p "idempotency_key" in
  let! hash := subscript p "payload_hash" in
  let! counters := subscript p "authority_counter_snapshot" in
  let! snapshot := to_dict_copy counters in
  let owner := match p with VDict d => vget d "lease_owner_id" | _ => VNone end in
  Ok {| os_operation_id := oid; os_state := "received"; os_cas_version := 0;
        os_idempotency_key := py_str key; os_payload_hash := py_str hash;
        os_authority_counter_snapshot := snapshot; os_duplicate_action_count := 0;
        os_lease_owner_id := if truthy owner then VStr (py_str owner) else VNone;
        os_lease_expires_at := None |}.

Definition replay_transition (s : P118OperationState) (entry : dict) : res P118OperationState :=
  let! st := vindex entry "state" in
  let! c := vindex entry "cas_version" in
  let! cas := py_int c in
  let owner := vget entry "lease_owner_id" in
  Ok {| os_operation_id := os_operation_id s; os_state := py_str st; os_cas_version := cas;
        os_idempotency_key := os_idempotency_key s; os_payload_hash := os_payload_hash s;
        os_authority_counter_snapshot := os_authority_counter_snapshot s;
        os_duplicate_action_count := 0;
        os_lease_owner_id := match owner with VNone => os_lease_owner_id s | _ => owner end;
        os_lease_expires_at := os_lease_expires_at s |}.

Definition replay_lease (s : P118OperationState) (entry : dict) (p : val) : res P118OperationState :=
  let! owner := vindex entry "lease_owner_id" in
  let! e := subscript p "lease_expires_at" in
  let! expires := py_int e in
  Ok {| os_operation_id := os_operation_id s; os_state := os_state s;
        os_cas_version := os_cas_version s;
        os_idempotency_key := os_idempotency_key s; os_payload_hash := os_payload_hash s;
        os_authority_counter_snapshot := os_authority_counter_snapshot s;
        os_duplicate_action_count := 0;
        os_lease_owner_id := VStr (py_str owner);
        os_lease_expires_at := Some expires |}.

(** One round of the loop of [replay]. *)
Definition replay_entry (oid : string) (st : option P118OperationState) (entry : dict)
  : res (option P118OperationState) :=
  let! eo := vindex entry "operation_id" in
  if negb (py_eq eo (VStr oid)) then Ok st
  else
    let! p := vindex entry "payload" in
    let! rt := vindex entry "receipt_type" in
    if py_eq rt (VStr "operation_registered") then
      let! s := replay_registered oid p in Ok (Some s)
    else
      match st with
      | None => Ok None
      | Some s =>
          if py_eq rt (VStr "state_transition") then
            let! s := replay_transition s entry in Ok (Some s)
          else if startswith "lease_" (py_str rt) then
            let! s := replay_lease s entry p in Ok (Some s)
          else Ok (Some s)
      end.

Fixpoint replay_loop (oid : string) (st : option P118OperationState) (es : list dict)
  : res (option P118OperationState) :=
  match es with
  | [] => Ok st
  | entry :: es => let! st := replay_entry oid st entry in replay_loop oid st es
  end.

Definition replay_entries (es : list dict) (oid : string) : res P118OperationState :=
  let! ok := verify_hash_chain es in
  let! _ := ensure ok (P118LedgerError "wal_hash_chain_break") in
  let! st := replay_loop oid None es in
  match st with
  | None => Raise (P118LedgerError "unknown_operation")
  | Some s => Ok s
  end.

(** [store.replay(operation_id)]: reads the cache only. *)
Definition replay (oid : string) : L P118OperationState :=
  fun l => (replay_entries (cache l) oid, l).

(** The operations registered under a key, in the order of the file. *)
Fixpoint registered_ids (key : string) (es : list dict) : res (list string) :=
  match es with
  | [] => Ok []
  | entry :: es =>
      let! rt := vindex entry "receipt_type" in
      if py_eq rt (VStr "operation_registered") then
        let! p := vindex entry "payload" in
        let! k := subscript p "idempotency_key" in
        if py_eq k (VStr key) then
          let! o := vindex entry "operation_id" in
          let! rest := registered_ids key es in
          Ok (py_str o :: rest)
        else registered_ids key es
      else registered_ids key es
  end.

Definition state_by_idempotency_key (es : list dict) (key : string) : res (option P118OperationState) :=
  let! ids := registered_ids key es in
  match last ids with
  | None => Ok None
  | Some oid => let! s := replay_entries es oid in Ok (Some s)
  end.

(** ** Appending under the lock *)

(** The arguments of [_append]. *)
Record append_args := {
  aa_operation_id : string;
  aa_receipt_type : string;
  aa_state : string;
  aa_cas_version : Z;
  aa_lease_owner_id : val;
  aa_payload : dict;
  expected_prior_cas : option Z;
  expected_prior_state : option string;
  expected_owner : val;
  expected_lease_owner : val;
  expected_lease_expires_at : option Z;
  register_idempotency_key : option string;
  register_payload_hash : option string;
}.

Definition is_none (v : val) : bool := match v with VNone => true | _ => false end.

(** The locals a registration under a known key is replaced with. *)
Definition as_replay (a : append_args) (s : P118OperationState) : append_args := {|
  aa_operation_id := os_operation_id s;
  aa_receipt_type := "idempotent_replay";
  aa_state := os_state s;
  aa_cas_version := os_cas_version s;
  aa_lease_owner_id := os_lease_owner_id s;
  aa_payload := [("duplicate_action_count", VInt 0)];
  expected_prior_cas := expected_prior_cas a;
  expected_prior_state := expected_prior_state a;
  expected_owner := expected_owner a;
  expected_lease_owner := expected_lease_owner a;
  expected_lease_expires_at := expected_lease_expires_at a;
  register_idempotency_key := register_idempotency_key a;
  register_payload_hash := register_payload_hash a |}.

Definition check_idempotency (es : list dict) (a : append_args) : res append_args :=
  match register_idempotency_key a with
  | None => Ok a
  | Some key =>
      let! existing := state_by_idempotency_key es key in
      match existing with
      | None => Ok a
      | Some s =>
          let! _ := ensure (bool_decide (Some (os_payload_hash s) = register_payload_hash a))
                      (P118LedgerError "idempotency_key_payload_mismatch") in
          Ok (as_replay a s)
      end
  end.

Definition check_cas (es : list dict) (a : append_args) : res unit :=
  match expected_prior_cas a with
  | None => Ok tt
  | Some cas =>
      let! current := replay_entries es (aa_operation_id a) in
      let! _ := ensure (os_cas_version current =? cas) (P118LedgerError "cas_conflict") in
      let! _ := ensure (match expected_prior_state a with
                        | None => true
                        | Some s => os_state current =s s
                        end) (P118LedgerError "state_changed_during_cas") in
      ensure (is_none (expected_owner a) || py_eq (os_lease_owner_id current) (expected_owner a))
        (P118LedgerError "lease_owner_mismatch")
  end.

Definition check_lease (es : list dict) (a : append_args) : res unit :=
  if is_none (expected_lease_owner a) && bool_decide (expected_lease_expires_at a = None) then Ok tt
  else
    let! current := replay_entries es (aa_operation_id a) in
    ensure (py_eq (os_lease_owner_id current) (expected_lease_owner a) &&
            bool_decide (os_lease_expires_at current = expected_lease_expires_at a))
      (P118LedgerError "lease_changed_during_acquire").

(** The entry without, then with its hash. *)
Definition entry_base (es : list dict) (previous : string) (a : append_args) : dict :=
  [("wal_position", VInt (Z.of_nat (List.length es)));
   ("previous_hash", VStr previous);
   ("operation_id", VStr (aa_operation_id a));
   ("receipt_type", VStr (aa_receipt_type a));
   ("state", VStr (aa_state a));
   ("cas_version", VInt (aa_cas_version a));
   ("lease_owner_id", aa_lease_owner_id a);
   ("authority_counter_snapshot", VDict exact_zero_authority_counters);
   ("payload", VDict (aa_payload a))].

Definition make_entry (es : list dict) (previous : string) (a : append_args) : dict :=
  let base := entry_base es previous a in
  base ++ [("receipt_hash", VStr (stable_hash (VDict base)))].

Definition previous_hash_of (es : list dict) : res string :=
  match last es with
  | None => Ok ""
  | Some e => let! h := vindex e "receipt_hash" in Ok (py_str h)
  end.

(** The entry [_append] writes after the entries [es] of the file. *)
Definition prepare (es : list dict) (a : append_args) : res dict :=
  let! ok := verify_hash_chain es in
  let! _ := ensure ok (P118LedgerError "wal_hash_chain_break") in
  let! a := check_idempotency es a in
  let! _ := check_cas es a in
  let! _ := check_lease es a in
  let! previous := previous_hash_of es in
  Ok (make_entry es previous a).

(** The whole locked section: reload, check, write, cache. *)
Definition append (a : append_args) : L dict := fun l =>
  match load_entries (disk l) with
  | Raise e => (Raise e, l)
  | Ok es =>
      match prepare es a with
      | Raise e => (Raise e, {| disk := disk l; cache := es |})
      | Ok entry =>
          (Ok entry, {| disk := disk l ++ [Some (VDict (dict_image entry))]; cache := es ++ [entry] |})
      end
  end.

Definition payload_value (entry : dict) (key : string) (dflt : val) : val :=
  match vget entry "payload" with
  | VDict p => vget_or p key dflt
  | _ => dflt
  end.

Definition receipt_from_entry (entry : dict) : res P118LedgerReceipt :=
  let! rt := vindex entry "receipt_type" in
  let! oid := vindex entry "operation_id" in
  let! st := vindex entry "state" in
  let! c := vindex entry "cas_version" in
  let! cas := py_int c in
  let! w := vindex entry "wal_position" in
  let! position := py_int w in
  let! h := vindex entry "receipt_hash" in
  let! ph := vindex entry "previous_hash" in
  let! dup := py_int (payload_value entry "duplicate_action_count" (VInt 0)) in
  Ok {| lr_receipt_type := py_str rt; lr_operation_id := py_str oid; lr_state := py_str st;
        lr_cas_version := cas; lr_wal_position := position; lr_receipt_hash := py_str h;
        lr_previous_hash := py_str ph; lr_duplicate_action_count := dup;
        lr_lease_owner_id :=
          match vget entry "lease_owner_id" with VNone => None | v => Some (py_str v) end |}.

(** ** The store's operations *)

Definition idempotency_payload (p : dict) : res dict :=
  let! oid := vindex p "operation_id" in
  let! pack := vindex p "p117_selected_action_pack_id" in
  let! digest := vindex p "p115_action_pack_digest" in
  let! target := vindex p "fixture_target_id" in
  let! pre := vindex p "precondition_refs" in
  let! envelope := vindex p "envelope_hash" in
  Ok [("operation_id", oid); ("p117_selected_action_pack_id", pack);
      ("p115_action_pack_digest", digest); ("fixture_target_id", target);
      ("precondition_hash", VStr (stable_hash pre)); ("payload_hash", envelope)].

(** [_mapping(v)] *)
Definition mapping (v : val) : dict := match v with VDict d => d | _ => [] end.

Definition registration_owner (p : dict) : val :=
  let owner := py_str (vget_or (mapping (vget p "lease_receipt")) "owner_id" (VStr "")) in
  if is_empty owner then VNone else VStr owner.

Definition register_args (operation : P118OperationEnvelope) : res append_args :=
  let! p := to_dict operation in
  let! ip := idempotency_payload p in
  let payload_hash := stable_hash (VDict ip) in
  let! key := idempotency_key operation in
  let! counters := vindex p "authority_counter_snapshot" in
  Ok {| aa_operation_id := operation_id operation;
        aa_receipt_type := "operation_registered";
        aa_state := "received";
        aa_cas_version := 0;
        aa_lease_owner_id := VNone;
        aa_payload :=
          [("operation", VDict p);
           ("idempotency_key", VStr key);
           ("payload_hash", VStr payload_hash);
           ("authority_counter_snapshot", counters);
           ("duplicate_action_count", VInt 0);
           ("lease_owner_id", registration_owner p)];
        expected_prior_cas := None; expected_prior_state := None; expected_owner := VNone;
        expected_lease_owner := VNone; expected_lease_expires_at := None;
        register_idempotency_key := Some key;
        register_payload_hash := Some payload_hash |}.

Definition append_receipt (a : append_args) : L P118LedgerReceipt :=
  let* entry := append a in lift (receipt_from_entry entry).

Definition register_operation (operation : P118OperationEnvelope) : L P118LedgerReceipt :=
  let* a := lift (register_args operation) in
  append_receipt a.

Definition transition_args (oid next_state : string) (s : P118OperationState) (expected_cas : Z)
    (owner : val) (evidence : dict) : append_args := {|
  aa_operation_id := oid;
  aa_receipt_type := "state_transition";
  aa_state := next_state;
  aa_cas_version := os_cas_version s + 1;
  aa_lease_owner_id := owner;
  aa_payload :=
    [("from_state", VStr (os_state s)); ("to_state", VStr next_state);
     ("duplicate_action_count", VInt 0); ("evidence_receipt", VDict evidence)];
  expected_prior_cas := Some expected_cas;
  expected_prior_state := Some (os_state s);
  expected_owner := owner;
  expected_lease_owner := VNone; expected_lease_expires_at := None;
  register_idempotency_key := None; register_payload_hash := None |}.

(** [str | None] *)
Definition optional_str (o : option string) : val :=
  match o with Some s => VStr s | None => VNone end.

Definition transition (oid next_state : string) (expected_cas : Z) (lease_owner_id : option string)
    (evidence : dict) : L P118LedgerReceipt :=
  let owner := optional_str lease_owner_id in
  let* s := replay oid in
  let* _ := lensure (negb (mem (os_state s) P118_TERMINAL_STATUSES)) "terminal_state_reopened" in
  let* _ := lensure (expected_cas =? os_cas_version s) "cas_conflict" in
  let* _ := lensure (truthy owner && py_eq (os_lease_owner_id s) owner) "lease_owner_mismatch" in
  let* _ := lensure (legal (os_state s) next_state) "illegal_state_transition" in
  append_receipt (transition_args oid next_state s expected_cas owner evidence).

Definition lease_args (oid : string) (s : P118OperationState) (owner : string) (expires_at : Z)
    (receipt_type : string) (exp_owner : val) (exp_expires : option Z) : append_args := {|
  aa_operation_id := oid;
  aa_receipt_type := receipt_type;
  aa_state := os_state s;
  aa_cas_version := os_cas_version s;
  aa_lease_owner_id := VStr owner;
  aa_payload := [("lease_expires_at", VInt expires_at); ("duplicate_action_count", VInt 0)];
  expected_prior_cas := None; expected_prior_state := None; expected_owner := VNone;
  expected_lease_owner := exp_owner; expected_lease_expires_at := exp_expires;
  register_idempotency_key := None; register_payload_hash := None |}.

Definition record_lease (oid owner : string) (expires_at : Z) (receipt_type : string)
    (exp_owner : val) (exp_expires : option Z) : L P118LedgerReceipt :=
  let* s := replay oid in
  append_receipt (lease_args oid s owner expires_at receipt_type exp_owner exp_expires).
