(* ===== verification/P118LedgerProps.v ===== *)
(** * The P118 ledger: hash chain, replay and append

    The lemmas on the locked append that the theorems of the ledger, the
    worker and the crash recovery are proved with, and the ledger's own
    theorems. *)

From stdpp Require Import relations.
From S2P Require Import Prelude PyValue Sha Json P118Contract P118Ledger.
From Stdlib Require Import Qround.

#[local] Open Scope Z_scope.
#[local] Open Scope list_scope.
#[local] Open Scope py_scope.

(** ** Field access *)

Lemma vindex_image d k :
  vindex (dict_image d) k = let! v := vindex d k in Ok (json_image v).
Proof. unfold vindex. rewrite dget_image. by destruct (dget d k). Qed.

Lemma py_int_eq v z : py_eq v (VInt z) = true -> py_int v = Ok z.
Proof.
  destruct v; simpl; try done; unfold Qeq_bool; simpl.
  - intros H%Zeq_bool_eq. f_equal. destruct b; simpl in H; lia.
  - intros H%Zeq_bool_eq. f_equal. lia.
  - intros H%Zeq_bool_eq.
    assert (Hq : (q == inject_Z z)%Q) by (unfold Qeq; simpl; lia).
    destruct (Qle_bool 0 q).
    + f_equal. rewrite Hq. apply Qfloor_Z.
    + f_equal. rewrite Hq. apply Qceiling_Z.
Qed.

Lemma py_eq_int_fun v z z' : py_eq v (VInt z) = true -> py_eq v (VInt z') = (z =? z').
Proof.
  intros H. assert (E : forall z0, py_eq v (VInt z0) = true -> z = z0).
  { intros z0 H0. apply py_int_eq in H, H0. congruence. }
  destruct (py_eq v (VInt z')) eqn:E'; symmetry.
  - apply Z.eqb_eq. auto.
  - apply Z.eqb_neq. intros <-. congruence.
Qed.

(** ** The hash chain as a relation *)

(** Entry number [index] of a chain whose last hash was [previous]. *)
Definition links (index : Z) (previous : string) (entry : dict) : Prop :=
  hashable (vget entry "wal_position") = true /\
  py_eq (vget entry "wal_position") (VInt index) = true /\
  vget entry "previous_hash" = VStr previous /\
  py_str (vget_or entry "receipt_hash" (VStr "")) = entry_hash entry.

Inductive linked : Z -> string -> list dict -> Prop :=
  | linked_nil i p : linked i p []
  | linked_cons i p e es : links i p e -> linked (i + 1) (entry_hash e) es -> linked i p (e :: es).

Definition chain (es : list dict) : Prop := linked 0 "" es.

Lemma verify_from_iff i p seen es :
  Forall (fun z => z < i) seen -> verify_from i p seen es = Ok true <-> linked i p es.
Proof.
  revert i p seen. induction es as [|e es IH]; intros i p seen Hs.
  { split; [constructor | done]. }
  cbn [verify_from]. split.
  - intros (u & Hh%ensure_ok & H)%bind_ok. destruct (_ || _) eqn:Eo; [done|]. bools.
    apply bind_ok in H as (z & Hz & H).
    destruct (py_eq _ (VStr p)) eqn:Ep; [|done]. simpl in H.
    destruct (py_str _ =s _) eqn:Er; [|done]. simpl in H. bools.
    apply py_eq_str in Ep. pose proof (py_int_eq _ _ H1). assert (z = i) as -> by congruence.
    constructor; [by repeat split|]. rewrite <- Er. apply IH in H; [done|].
    constructor; [lia|]. eapply Forall_impl; [exact Hs|]. simpl. lia.
  - inversion 1 as [|? ? ? ? (Hh & Hp & Hv & Hr) Hl]; subst. rewrite Hh. cbn [ensure bind].
    assert (E : existsb (fun z => py_eq (vget e "wal_position") (VInt z)) seen = false).
    { apply not_true_iff_false. intros (z & Hz & Ez)%existsb_exists.
      rewrite (py_eq_int_fun _ _ _ Hp) in Ez. bools. subst.
      rewrite Forall_forall in Hs. apply list_elem_of_In, Hs in Hz. lia. }
    rewrite E, Hp. cbn [orb negb]. rewrite (py_int_eq _ _ Hp). cbn [bind].
    rewrite Hv. cbn [py_eq]. rewrite eqs_refl. cbn [negb]. rewrite Hr, eqs_refl. cbn [negb].
    apply IH; [|done]. constructor; [lia|]. eapply Forall_impl; [exact Hs|]. simpl. lia.
Qed.

Lemma chain_iff es : verify_hash_chain es = Ok true <-> chain es.
Proof. apply verify_from_iff. constructor. Qed.

(** The hash the next entry must point back to. *)
Definition last_hash (p : string) (es : list dict) : string :=
  match last es with None => p | Some e => entry_hash e end.

Lemma last_hash_cons p e es : last_hash p (e :: es) = last_hash (entry_hash e) es.
Proof. unfold last_hash. rewrite last_cons. by destruct (last es). Qed.

Lemma linked_app i p es e :
  linked i p (es ++ [e]) <->
  linked i p es /\ links (i + Z.of_nat (List.length es)) (last_hash p es) e.
Proof.
  revert i p. induction es as [|e0 es IH]; intros i p; simpl.
  - change (Z.of_nat 0) with 0. rewrite Z.add_0_r. split.
    + inversion 1; subst. split; [constructor | done].
    + intros [_ H]. constructor; [done | constructor].
  - rewrite last_hash_cons. replace (i + Z.of_nat (S (List.length es))) with
      (i + 1 + Z.of_nat (List.length es)) by lia. split.
    + inversion 1 as [|? ? ? ? H1 H2]; subst. apply IH in H2 as [H2 H3]. split; [by constructor | done].
    + intros [H1 H2]. inversion H1; subst. constructor; [done|]. by apply IH.
Qed.

Lemma chain_app es e :
  chain (es ++ [e]) <-> chain es /\ links (Z.of_nat (List.length es)) (last_hash "" es) e.
Proof. apply (linked_app 0). Qed.

Lemma chain_previous es : chain es -> previous_hash_of es = Ok (last_hash "" es).
Proof.
  intros H. unfold previous_hash_of, last_hash. destruct (last es) as [e|] eqn:El; [|done].
  apply last_Some in El as [es' ->]. apply chain_app in H as [_ (_ & _ & _ & H)].
  unfold vget_or in H. unfold vindex. destruct (dget e "receipt_hash"); simpl in *.
  - by rewrite H.
  - exfalso. by apply (stable_hash_not_empty (VDict (dwithout ["receipt_hash"] e))).
Qed.

(** ** Entries as [_append] makes them *)

Definition written (es : list dict) (a : append_args) : dict := make_entry es (last_hash "" es) a.

Lemma written_hash es a :
  entry_hash (written es a) = stable_hash (VDict (entry_base es (last_hash "" es) a)).
Proof. done. Qed.

Lemma entry_hash_image e : entry_hash (dict_image e) = entry_hash e.
Proof. apply stable_hash_without_image. Qed.

Lemma written_links es a : links (Z.of_nat (List.length es)) (last_hash "" es) (written es a).
Proof.
  split_and!; [done | | done | done].
  simpl. unfold Qeq_bool. simpl. apply Zeq_is_eq_bool. lia.
Qed.

Lemma written_links_image es a :
  links (Z.of_nat (List.length es)) (last_hash "" es) (dict_image (written es a)).
Proof.
  destruct (written_links es a) as (_ & H2 & _ & H4).
  unfold links, vget_or. rewrite !vget_image, entry_hash_image, dget_image. by split_and!.
Qed.

Lemma last_hash_app p es e : last_hash p (es ++ [e]) = entry_hash e.
Proof. unfold last_hash. by rewrite last_snoc. Qed.

(** ** The locked append *)

Lemma load_entries_app w es d :
  load_entries w = Ok es -> load_entries (w ++ [Some (VDict d)]) = Ok (es ++ [d]).
Proof.
  unfold load_entries. rewrite !mapM_ok. intros H. apply Forall2_app; [done|]. by repeat constructor.
Qed.

(** What the locked section did when it returned an entry: it found an intact
    chain in the file, its checks passed on the file's entries (not on the
    cache), and it added one entry at the end, whose image continues the
    chain. *)
Inductive appended (a : append_args) (l l' : ledger) : dict -> Prop :=
  | appended_intro es a' :
      load_entries (disk l) = Ok es -> chain es ->
      check_idempotency es a = Ok a' -> check_cas es a' = Ok tt -> check_lease es a' = Ok tt ->
      disk l' = disk l ++ [Some (VDict (dict_image (written es a')))] ->
      cache l' = es ++ [written es a'] ->
      load_entries (disk l') = Ok (es ++ [dict_image (written es a')]) ->
      chain (es ++ [dict_image (written es a')]) ->
      appended a l l' (written es a').

Lemma prepare_ok es a entry :
  prepare es a = Ok entry <->
  chain es /\ exists a', check_idempotency es a = Ok a' /\ check_cas es a' = Ok tt /\
    check_lease es a' = Ok tt /\ entry = written es a'.
Proof.
  unfold prepare. split.
  - intros (ok & Hc & ([] & ->%ensure_ok & (a' & Ha & ([] & Hcas & ([] & Hl & H)%bind_ok)%bind_ok)%bind_ok)%bind_ok)%bind_ok.
    apply chain_iff in Hc. rewrite (chain_previous _ Hc) in H. injection H as <-. eauto 10.
  - intros (Hc & a' & Ha & Hcas & Hl & ->). apply chain_iff in Hc as Hv. rewrite Hv. cbn [bind ensure].
    rewrite Ha. cbn [bind]. rewrite Hcas. cbn [bind]. rewrite Hl. cbn [bind].
    by rewrite (chain_previous _ Hc).
Qed.

Lemma append_ok a l entry l' : append a l = (Ok entry, l') -> appended a l l' entry.
Proof.
  unfold append. destruct (load_entries (disk l)) as [es|e] eqn:El; [|done].
  destruct (prepare es a) as [entry'|e] eqn:Ep; [|done]. intros [= -> <-].
  assert (Hp := Ep). apply prepare_ok in Hp as (Hc & a' & Ha & Hcas & Hl & ->).
  apply appended_intro; try done; simpl.
  - by apply load_entries_app.
  - apply chain_app. split; [done|]. apply written_links_image.
Qed.

Lemma append_raise a l e l' : append a l = (Raise e, l') -> disk l' = disk l.
Proof.
  unfold append. destruct (load_entries (disk l)); [|by intros [= _ <-]].
  destruct (prepare a0 a); [done|]. by intros [= _ <-].
Qed.

(** A store call leaves the file as it was, or one entry longer. *)
Lemma append_disk a l r l' : append a l = (r, l') ->
  (exists entry, r = Ok entry /\ appended a l l' entry) \/
  (exists e, r = Raise e /\ disk l' = disk l).
Proof.
  destruct r as [entry|e]; intros H.
  - left. exists entry. split; [done|]. by apply append_ok.
  - right. exists e. split; [done|]. by eapply append_raise.
Qed.

(** ** Replay of a longer file *)

(** What the file's entries say of an operation. *)
Definition view (es : list dict) (oid : string) : res (option P118OperationState) :=
  replay_loop oid None es.

Definition known (st : option P118OperationState) : res P118OperationState :=
  match st with
  | None => Raise (P118LedgerError "unknown_operation")
  | Some s => Ok s
  end.

(** What a fresh store on the file replays. *)
Definition disk_state (w : wal) (oid : string) : res P118OperationState :=
  let! es := load_entries w in replay_entries es oid.

Lemma replay_chain es oid : chain es -> replay_entries es oid = let! st := view es oid in known st.
Proof. intros H. apply chain_iff in H. unfold replay_entries. rewrite H. done. Qed.

Lemma replay_ok_chain es oid s : replay_entries es oid = Ok s -> chain es.
Proof.
  unfold replay_entries. intros (ok & Hc & ([] & ->%ensure_ok & _)%bind_ok)%bind_ok.
  by apply chain_iff.
Qed.

Lemma replay_view es oid s : replay_entries es oid = Ok s <-> chain es /\ view es oid = Ok (Some s).
Proof.
  split.
  - intros H. pose proof (replay_ok_chain _ _ _ H) as Hc. split; [done|].
    rewrite (replay_chain _ _ Hc) in H. apply bind_ok in H as (st & Hv & Hk).
    destruct st; [|done]. injection Hk as <-. done.
  - intros [Hc Hv]. by rewrite (replay_chain _ _ Hc), Hv.
Qed.

Lemma replay_loop_app oid es1 es2 st :
  replay_loop oid st (es1 ++ es2) = let! st := replay_loop oid st es1 in replay_loop oid st es2.
Proof.
  revert st. induction es1 as [|e es1 IH]; intros st; [done|]. simpl.
  destruct (replay_entry oid st e); [apply IH | done].
Qed.

Lemma view_app es e oid : view (es ++ [e]) oid = let! st := view es oid in replay_entry oid st e.
Proof.
  unfold view. rewrite replay_loop_app. destruct (replay_loop oid None es) as [st|]; [|done].
  simpl. by destruct (replay_entry oid st e).
Qed.

(** *** The effect of one written entry *)

Lemma replay_written oid st es a :
  replay_entry oid st (dict_image (written es a)) =
  if negb (aa_operation_id a =s oid) then Ok st
  else if aa_receipt_type a =s "operation_registered" then
    let! s := replay_registered oid (VDict (dict_image (aa_payload a))) in Ok (Some s)
  else match st with
       | None => Ok None
       | Some s =>
           if aa_receipt_type a =s "state_transition" then
             let! s := replay_transition s (dict_image (written es a)) in Ok (Some s)
           else if startswith "lease_" (aa_receipt_type a) then
             let! s := replay_lease s (dict_image (written es a)) (VDict (dict_image (aa_payload a))) in
             Ok (Some s)
           else Ok (Some s)
       end.
Proof. unfold replay_entry. rewrite !vindex_image. reflexivity. Qed.

(** The state after a transition and after a lease. *)
Definition moved (s : P118OperationState) (next : string) (cas : Z) (owner : string) : P118OperationState :=
  {| os_operation_id := os_operation_id s; os_state := next; os_cas_version := cas;
     os_idempotency_key := os_idempotency_key s; os_payload_hash := os_payload_hash s;
     os_authority_counter_snapshot := os_authority_counter_snapshot s;
     os_duplicate_action_count := 0; os_lease_owner_id := VStr owner;
     os_lease_expires_at := os_lease_expires_at s |}.

Definition leased (s : P118OperationState) (owner : string) (expires : Z) : P118OperationState :=
  {| os_operation_id := os_operation_id s; os_state := os_state s;
     os_cas_version := os_cas_version s;
     os_idempotency_key := os_idempotency_key s; os_payload_hash := os_payload_hash s;
     os_authority_counter_snapshot := os_authority_counter_snapshot s;
     os_duplicate_action_count := 0; os_lease_owner_id := VStr owner;
     os_lease_expires_at := Some expires |}.

Lemma replay_transition_written s es oid next s0 cas owner ev :
  replay_transition s (dict_image (written es (transition_args oid next s0 cas (VStr owner) ev))) =
  Ok (moved s next (os_cas_version s0 + 1) owner).
Proof. unfold replay_transition. rewrite !vindex_image, vget_image. reflexivity. Qed.

Lemma replay_lease_written s es oid s0 owner expires rt eo ee :
  let a := lease_args oid s0 owner expires rt eo ee in
  replay_lease s (dict_image (written es a)) (VDict (dict_image (aa_payload a))) =
  Ok (leased s owner expires).
Proof. intros a. unfold replay_lease, subscript. rewrite !vindex_image. reflexivity. Qed.

Lemma disk_state_load w es oid : load_entries w = Ok es -> disk_state w oid = replay_entries es oid.
Proof. intros H. unfold disk_state. by rewrite H. Qed.

(** The file after an append, seen by a fresh store. *)
Lemma disk_state_appended w w' es a oid :
  load_entries w = Ok es -> chain es -> load_entries w' = Ok (es ++ [dict_image (written es a)]) ->
  chain (es ++ [dict_image (written es a)]) ->
  disk_state w oid = (let! st := view es oid in known st) /\
  disk_state w' oid =
    let! st := view es oid in
    let! st := replay_entry oid st (dict_image (written es a)) in known st.
Proof.
  intros Hl Hc Hl' Hc'. rewrite (disk_state_load _ _ _ Hl), (disk_state_load _ _ _ Hl').
  rewrite !replay_chain, view_app by done. split; [done|]. by destruct (view es oid).
Qed.

(** ** Operations of a store *)

Lemma lbind_ok {A B} (m : L A) (k : A -> L B) l b l'' :
  lbind m k l = (Ok b, l'') <-> exists a l', m l = (Ok a, l') /\ k a l' = (Ok b, l'').
Proof.
  unfold lbind. destruct (m l) as [[a|e] l1]; split.
  - by eauto.
  - by intros (? & ? & [= <- <-] & ?).
  - done.
  - by intros (? & ? & ? & ?).
Qed.

Lemma lensure_ok b msg l u l' : lensure b msg l = (Ok u, l') <-> b = true /\ l' = l.
Proof.
  unfold lensure, lift. destruct b, u; simpl; split.
  - by intros [= <-].
  - by intros [_ ->].
  - done.
  - by intros [? _].
Qed.

Lemma lift_ok {A} (m : res A) l a l' : lift m l = (Ok a, l') <-> m = Ok a /\ l' = l.
Proof. unfold lift. split; [by intros [= -> <-] | by intros [-> ->]]. Qed.

Lemma replay_ok oid l s l' : replay oid l = (Ok s, l') <-> replay_entries (cache l) oid = Ok s /\ l' = l.
Proof. unfold replay. split; [by intros [= -> <-] | by intros [-> ->]]. Qed.

(** A call that raises leaves the file alone. *)
Definition raise_keeps_disk {A} (m : L A) : Prop :=
  forall l e l', m l = (Raise e, l') -> disk l' = disk l.

(** A call that never touches the file. *)
Definition keeps_disk {A} (m : L A) : Prop := forall l r l', m l = (r, l') -> disk l' = disk l.

Lemma raise_keeps_bind {A B} (m : L A) (k : A -> L B) :
  keeps_disk m -> (forall a, raise_keeps_disk (k a)) -> raise_keeps_disk (lbind m k).
Proof.
  intros Hm Hk l e l'. unfold lbind. destruct (m l) as [[a|e'] l1] eqn:E.
  - intros H. rewrite <- (Hm _ _ _ E). by apply (Hk a _ e).
  - intros [= _ <-]. by apply (Hm _ _ _ E).
Qed.

Lemma keeps_lift {A} (m : res A) : keeps_disk (lift m).
Proof. by intros l r l' [= _ <-]. Qed.

Lemma keeps_replay oid : keeps_disk (replay oid).
Proof. by intros l r l' [= _ <-]. Qed.

Lemma keeps_lensure b msg : keeps_disk (lensure b msg).
Proof. apply keeps_lift. Qed.

#[export] Hint Resolve keeps_lift keeps_replay keeps_lensure : py.

(** The receipt of a written entry. *)
Definition receipt_of (es : list dict) (a : append_args) (dup : Z) : P118LedgerReceipt := {|
  lr_receipt_type := aa_receipt_type a; lr_operation_id := aa_operation_id a;
  lr_state := aa_state a; lr_cas_version := aa_cas_version a;
  lr_wal_position := Z.of_nat (List.length es); lr_receipt_hash := entry_hash (written es a);
  lr_previous_hash := last_hash "" es; lr_duplicate_action_count := dup;
  lr_lease_owner_id := match aa_lease_owner_id a with VNone => None | v => Some (py_str v) end |}.

Lemma receipt_written es a :
  dget (aa_payload a) "duplicate_action_count" = Some (VInt 0) ->
  receipt_from_entry (written es a) = Ok (receipt_of es a 0).
Proof.
  intros H. unfold receipt_from_entry, payload_value. cbn -[written py_int].
  change (vget (written es a) "payload") with (VDict (aa_payload a)). cbv iota.
  unfold vget_or. rewrite H. reflexivity.
Qed.

(** An append whose payload reports no duplicate action never raises after
    it has written. *)
Lemma append_receipt_ok a l r l' :
  dget (aa_payload a) "duplicate_action_count" = Some (VInt 0) ->
  append_receipt a l = (Ok r, l') ->
  exists entry, append a l = (Ok entry, l') /\ appended a l l' entry /\ receipt_from_entry entry = Ok r.
Proof.
  intros Hd (entry & l1 & Ha & [Hr ->]%lift_ok)%lbind_ok. exists entry.
  split_and!; [done | by apply append_ok | done].
Qed.

Lemma check_idempotency_payload es a a' :
  dget (aa_payload a) "duplicate_action_count" = Some (VInt 0) ->
  check_idempotency es a = Ok a' -> dget (aa_payload a') "duplicate_action_count" = Some (VInt 0).
Proof.
  intros Hd. unfold check_idempotency. destruct (register_idempotency_key a); [|by intros [= <-]].
  intros (o & _ & H)%bind_ok. destruct o; [|by injection H as <-].
  apply bind_ok in H as (u & _ & [= <-]). done.
Qed.

Lemma append_receipt_raise a : 
  dget (aa_payload a) "duplicate_action_count" = Some (VInt 0) -> raise_keeps_disk (append_receipt a).
Proof.
  intros Hd l e l'. unfold append_receipt, lbind. destruct (append a l) as [[entry|e'] l1] eqn:E.
  - apply append_ok in E as [es a' ? ? Hi]. unfold lift.
    rewrite receipt_written by by eapply check_idempotency_payload. done.
  - intros [= _ <-]. by eapply append_raise.
Qed.

Lemma transition_raise oid next cas owner ev : raise_keeps_disk (transition oid next cas owner ev).
Proof.
  unfold transition. do 5 (apply raise_keeps_bind; [auto with py|]; intros ?).
  by apply append_receipt_raise.
Qed.

Lemma record_lease_raise oid owner expires rt eo ee :
  raise_keeps_disk (record_lease oid owner expires rt eo ee).
Proof.
  unfold record_lease. apply raise_keeps_bind; [auto with py|]. intros s.
  by apply append_receipt_raise.
Qed.

Lemma register_args_payload e a :
  register_args e = Ok a -> dget (aa_payload a) "duplicate_action_count" = Some (VInt 0).
Proof.
  unfold register_args. intros (p & _ & (ip & _ & (key & _ & (c & _ & [= <-])%bind_ok)%bind_ok)%bind_ok)%bind_ok.
  done.
Qed.

Lemma register_raise e : raise_keeps_disk (register_operation e).
Proof.
  intros l ex l'. unfold register_operation. unfold lbind at 1. unfold lift at 1.
  destruct (register_args e) as [a|] eqn:E; [|by intros [= _ <-]].
  apply register_args_payload in E. by apply append_receipt_raise.
Qed.

(** ** The state an accepted operation leaves *)

(** The store and the file agree on an operation. *)
Definition synced (l : ledger) (oid : string) (s : P118OperationState) : Prop :=
  exists es, load_entries (disk l) = Ok es /\ replay_entries es oid = Ok s /\
    replay_entries (cache l) oid = Ok s.

Lemma synced_fresh w l oid s : new_store w = Ok l -> disk_state w oid = Ok s -> synced l oid s.
Proof.
  unfold new_store, disk_state. intros (es & He & [= <-])%bind_ok (es' & He' & Hr)%bind_ok.
  exists es. simpl. split_and!; congruence.
Qed.

Lemma synced_disk l oid s : synced l oid s -> disk_state (disk l) oid = Ok s.
Proof. intros (es & H & Hr & _). by rewrite (disk_state_load _ _ _ H). Qed.

Lemma written_chain es a : chain es -> chain (es ++ [written es a]).
Proof. intros H. apply chain_app. split; [done | apply written_links]. Qed.

Lemma written_image_chain es a : chain es -> chain (es ++ [dict_image (written es a)]).
Proof. intros H. apply chain_app. split; [done | apply written_links_image]. Qed.

Definition transition_written (s : P118OperationState) (oid next owner : string) (ev : dict)
    : append_args := transition_args oid next s (os_cas_version s) (VStr owner) ev.

(** *** Transitions *)

Lemma view_transition es oid oid' next s0 cas owner ev :
  let a := transition_args oid next s0 cas (VStr owner) ev in
  view (es ++ [dict_image (written es a)]) oid' =
  let! st := view es oid' in
  Ok (if oid =s oid' then option_map (fun s => moved s next (os_cas_version s0 + 1) owner) st else st).
Proof.
  intros a. rewrite view_app. destruct (view es oid') as [st|]; [|done]. cbn [bind].
  rewrite replay_written. cbn [aa_operation_id aa_receipt_type transition_args a].
  destruct (oid =s oid'); [|done]. cbn [negb].
  change ("state_transition" =s "operation_registered") with false.
  change ("state_transition" =s "state_transition") with true. cbv iota.
  destruct st as [s|]; [|done]. unfold a. by rewrite replay_transition_written.
Qed.

(** The same for the entry as the store caches it. *)
Lemma view_transition_cached es oid next s0 cas owner ev st :
  let a := transition_args oid next s0 cas (VStr owner) ev in
  view es oid = Ok (Some st) ->
  view (es ++ [written es a]) oid = Ok (Some (moved st next (os_cas_version s0 + 1) owner)).
Proof.
  intros a H. rewrite view_app, H. cbn [bind]. unfold replay_entry.
  change (vindex (written es a) "operation_id") with (Ok (VStr oid)). cbn [bind py_eq].
  rewrite eqs_refl. reflexivity.
Qed.

Lemma transition_ok oid next cas owner ev l r l' :
  transition oid next cas owner ev l = (Ok r, l') ->
  exists w es s a,
    owner = Some w /\ w <> "" /\ load_entries (disk l) = Ok es /\ replay_entries es oid = Ok s /\
    ~ In (os_state s) P118_TERMINAL_STATUSES /\ os_cas_version s = cas /\
    os_lease_owner_id s = VStr w /\ legal (os_state s) next = true /\
    a = transition_written s oid next w ev /\ r = receipt_of es a 0 /\
    disk l' = disk l ++ [Some (VDict (dict_image (written es a)))] /\
    synced l' oid (moved s next (cas + 1) w).
Proof.
  unfold transition. intros (s0 & l1 & [H0 ->]%replay_ok & H)%lbind_ok.
  apply lbind_ok in H as (? & ? & [Hterm ->]%lensure_ok & H).
  apply lbind_ok in H as (? & ? & [Hcas ->]%lensure_ok & H).
  apply lbind_ok in H as (? & ? & [Hown ->]%lensure_ok & H).
  apply lbind_ok in H as (? & ? & [Hlegal ->]%lensure_ok & H). bools.
  apply append_receipt_ok in H as (entry & _ & Happ & Hr); [|done].
  destruct owner as [w|]; [|done]. cbn [optional_str] in *.
  destruct Happ as [es a' Hl Hc Hi Hck _ Hd Hcache Hl' Hc'].
  injection Hi as <-. unfold check_cas in Hck. cbn [expected_prior_cas transition_args] in Hck.
  apply bind_ok in Hck as (s & Hs & Hck). cbn [aa_operation_id transition_args] in Hs.
  apply bind_ok in Hck as (? & Hc1%ensure_ok & Hck).
  apply bind_ok in Hck as (? & Hc2%ensure_ok & Hck%ensure_ok).
  simpl in Hc1, Hc2, Hck.
  apply py_eq_str in Hck. bools.
  rewrite receipt_written in Hr by done. injection Hr as <-.
  assert (Ea : transition_args oid next s0 cas (VStr w) ev = transition_written s oid next w ev).
  { unfold transition_written, transition_args. by f_equal; congruence. }
  exists w, es, s, (transition_written s oid next w ev).
  rewrite <- Ea. apply mem_not_In in Hterm. split_and!; try done; try congruence.
  - intros ->. done.
  - exists (es ++ [dict_image (written es (transition_args oid next s0 cas (VStr w) ev))]).
    apply replay_view in Hs as [_ Hv]. split_and!; [done| |].
    + apply replay_view. split; [done|]. rewrite view_transition, Hv. cbn [bind].
      rewrite eqs_refl. cbn [option_map]. do 3 f_equal. congruence.
    + rewrite Hcache. apply replay_view. split; [by apply written_chain|].
      erewrite view_transition_cached by done. do 3 f_equal. congruence.
Qed.

(** Completeness: on a store in step with the file a legal transition by the
    lease owner goes through. *)
Lemma append_runs a l es a' :
  load_entries (disk l) = Ok es -> chain es -> check_idempotency es a = Ok a' ->
  check_cas es a' = Ok tt -> check_lease es a' = Ok tt ->
  dget (aa_payload a') "duplicate_action_count" = Some (VInt 0) ->
  append_receipt a l =
    (Ok (receipt_of es a' 0),
     {| disk := disk l ++ [Some (VDict (dict_image (written es a')))];
        cache := es ++ [written es a'] |}).
Proof.
  intros Hl Hc Hi Hck Hle Hd. unfold append_receipt, lbind, append. rewrite Hl.
  assert (Hp : prepare es a = Ok (written es a')) by (apply prepare_ok; eauto 10).
  rewrite Hp. unfold lift. by rewrite receipt_written.
Qed.

Lemma check_cas_transition es oid s next w ev :
  replay_entries es oid = Ok s -> os_lease_owner_id s = VStr w ->
  check_cas es (transition_written s oid next w ev) = Ok tt.
Proof.
  intros Hr Ho. unfold check_cas. cbn [expected_prior_cas transition_written transition_args aa_operation_id].
  rewrite Hr. cbn [bind]. simpl. rewrite Z.eqb_refl. cbn [ensure bind]. rewrite eqs_refl, Ho. simpl.
  by rewrite eqs_refl.
Qed.

Lemma transition_runs l oid s next w ev :
  synced l oid s -> ~ In (os_state s) P118_TERMINAL_STATUSES -> os_lease_owner_id s = VStr w ->
  w <> "" -> legal (os_state s) next = true ->
  exists r l', transition oid next (os_cas_version s) (Some w) ev l = (Ok r, l') /\
    lr_state r = next /\ synced l' oid (moved s next (os_cas_version s + 1) w) /\
    exists es, load_entries (disk l) = Ok es /\
      load_entries (disk l') = Ok (es ++ [dict_image (written es (transition_written s oid next w ev))]).
Proof.
  intros (es & Hl & Hr & Hr0) Ht Ho Hw Hleg.
  assert (Hrun : exists r l', transition oid next (os_cas_version s) (Some w) ev l = (Ok r, l')).
  { unfold transition, lbind at 1, replay. rewrite Hr0. unfold lbind at 1, lensure at 1, lift at 1.
    apply mem_not_In in Ht. rewrite Ht. cbn [negb ensure].
    unfold lbind at 1, lensure at 1, lift at 1. rewrite Z.eqb_refl. cbn [ensure].
    unfold lbind at 1, lensure at 1, lift at 1. cbn [optional_str]. rewrite Ho. cbn [py_eq].
    rewrite eqs_refl. simpl truthy. unfold is_empty. destruct (eqs_spec w ""); [done|]. cbn [negb andb ensure].
    unfold lbind at 1, lensure at 1, lift at 1. rewrite Hleg. cbn [ensure].
    erewrite append_runs; [eauto| exact Hl | by eapply replay_ok_chain | done | | done | done].
    by apply check_cas_transition. }
  destruct Hrun as (r & l' & Hrun). exists r, l'. split; [done|].
  apply transition_ok in Hrun as (w' & es' & s' & a & Hw' & _ & Hl' & Hr' & _ & _ & _ & _ & Ha & Hrec & Hd & Hs).
  assert (es' = es) as -> by congruence.
  assert (s' = s) as -> by congruence. injection Hw' as <-. subst a r. do 2 (split; [done|]).
  exists es. split; [done|]. rewrite Hd. by apply load_entries_app.
Qed.

(** *** Leases *)

(** Receipt types of lease entries; the store itself writes only these. *)
Definition lease_type (rt : string) : Prop := In rt ["lease_acquired"; "lease_takeover"; "lease_renewed"].

Lemma view_lease es oid oid' s0 owner expires rt eo ee :
  lease_type rt ->
  view (es ++ [dict_image (written es (lease_args oid s0 owner expires rt eo ee))]) oid' =
  let! st := view es oid' in
  Ok (if oid =s oid' then option_map (fun s => leased s owner expires) st else st).
Proof.
  intros Hrt. rewrite view_app. destruct (view es oid') as [st|]; [|done]. cbn [bind].
  rewrite replay_written. cbn [aa_operation_id aa_receipt_type lease_args].
  destruct (oid =s oid'); [|done]. cbn [negb].
  assert (E : (rt =s "operation_registered") = false /\ (rt =s "state_transition") = false /\
    startswith "lease_" rt = true).
  { by repeat destruct Hrt as [<-|Hrt]. }
  destruct E as (-> & -> & ->). destruct st as [s|]; [|done].
  by rewrite replay_lease_written.
Qed.

Lemma view_lease_cached es oid s0 owner expires rt eo ee st :
  lease_type rt -> view es oid = Ok (Some st) ->
  view (es ++ [written es (lease_args oid s0 owner expires rt eo ee)]) oid =
  Ok (Some (leased st owner expires)).
Proof.
  intros Hrt H. rewrite view_app, H. cbn [bind]. unfold replay_entry.
  set (a := lease_args oid s0 owner expires rt eo ee).
  change (vindex (written es a) "operation_id") with (Ok (VStr oid)). cbn [bind py_eq].
  rewrite eqs_refl. by repeat destruct Hrt as [<-|Hrt].
Qed.

(** What a granted lease was checked against: the cached expectation only
    when there is one. *)
Lemma record_lease_ok oid owner expires rt eo ee l r l' :
  lease_type rt -> record_lease oid owner expires rt eo ee l = (Ok r, l') ->
  exists es s0 a,
    load_entries (disk l) = Ok es /\ chain es /\ replay_entries (cache l) oid = Ok s0 /\
    a = lease_args oid s0 owner expires rt eo ee /\ check_lease es a = Ok tt /\
    r = receipt_of es a 0 /\ cache l' = es ++ [written es a] /\
    disk l' = disk l ++ [Some (VDict (dict_image (written es a)))] /\
    load_entries (disk l') = Ok (es ++ [dict_image (written es a)]) /\
    chain (es ++ [dict_image (written es a)]).
Proof.
  intros Hrt. unfold record_lease. intros (s0 & l1 & [H0 ->]%replay_ok & H)%lbind_ok.
  apply append_receipt_ok in H as (entry & _ & Happ & Hr); [|done].
  destruct Happ as [es a' Hl Hc Hi _ Hle Hd Hcache Hl' Hc']. injection Hi as <-.
  rewrite receipt_written in Hr by done. injection Hr as <-.
  exists es, s0, (lease_args oid s0 owner expires rt eo ee). by split_and!.
Qed.

Lemma record_lease_synced oid owner expires rt eo ee l r l' es s :
  lease_type rt -> record_lease oid owner expires rt eo ee l = (Ok r, l') ->
  load_entries (disk l) = Ok es -> replay_entries es oid = Ok s ->
  synced l' oid (leased s owner expires).
Proof.
  intros Hrt H Hl Hr.
  apply record_lease_ok in H as (es' & s0 & a & Hl0 & Hc & _ & -> & _ & _ & Hcache & _ & Hl' & Hc'); [|done].
  assert (es' = es) as -> by congruence. apply replay_view in Hr as [_ Hv].
  eexists. split_and!; [exact Hl'| |].
  - apply replay_view. split; [done|]. rewrite view_lease, Hv by done. cbn [bind].
    by rewrite eqs_refl.
  - rewrite Hcache. apply replay_view. split; [by apply written_chain|]. by apply view_lease_cached.
Qed.

Definition plain_owner (v : val) : Prop := v = VNone \/ exists w, v = VStr w.

Lemma plain_owner_eq v : plain_owner v -> py_eq v v = true.
Proof. intros [-> | [w ->]]; [done | apply eqs_refl]. Qed.

Lemma record_lease_runs l oid s owner expires rt :
  lease_type rt -> synced l oid s -> plain_owner (os_lease_owner_id s) ->
  exists r l', record_lease oid owner expires rt (os_lease_owner_id s) (os_lease_expires_at s) l = (Ok r, l') /\
    lr_receipt_type r = rt /\ lr_cas_version r = os_cas_version s /\
    synced l' oid (leased s owner expires).
Proof.
  intros Hrt Hs Ho. assert (Hs' := Hs). destruct Hs as (es & Hl & Hr & Hr0).
  set (a := lease_args oid s owner expires rt (os_lease_owner_id s) (os_lease_expires_at s)).
  assert (Hrun : append_receipt a l = (Ok (receipt_of es a 0),
     {| disk := disk l ++ [Some (VDict (dict_image (written es a)))]; cache := es ++ [written es a] |})).
  { apply append_runs; try done; [by eapply replay_ok_chain|]. unfold check_lease.
    destruct (_ && _); [done|]. cbn [aa_operation_id a lease_args]. rewrite Hr. cbn [bind].
    cbn [expected_lease_owner expected_lease_expires_at a lease_args].
    by rewrite plain_owner_eq, bool_decide_true. }
  assert (Hrec : record_lease oid owner expires rt (os_lease_owner_id s) (os_lease_expires_at s) l =
    append_receipt a l).
  { unfold record_lease, lbind at 1, replay. by rewrite Hr0. }
  rewrite Hrun in Hrec. eexists _, _. split; [exact Hrec|]. split_and!; [done | done|].
  by eapply record_lease_synced.
Qed.

(** *** Registrations *)

Definition registration_args (oid : string) (p : dict) (key hash : string) (counters : val) : append_args := {|
  aa_operation_id := oid; aa_receipt_type := "operation_registered"; aa_state := "received";
  aa_cas_version := 0; aa_lease_owner_id := VNone;
  aa_payload :=
    [("operation", VDict p); ("idempotency_key", VStr key); ("payload_hash", VStr hash);
     ("authority_counter_snapshot", counters); ("duplicate_action_count", VInt 0);
     ("lease_owner_id", registration_owner p)];
  expected_prior_cas := None; expected_prior_state := None; expected_owner := VNone;
  expected_lease_owner := VNone; expected_lease_expires_at := None;
  register_idempotency_key := Some key; register_payload_hash := Some hash |}.

Lemma register_args_ok e a :
  register_args e = Ok a ->
  exists p ip key counters, to_dict e = Ok p /\ idempotency_payload p = Ok ip /\
    idempotency_key e = Ok key /\ dget p "authority_counter_snapshot" = Some counters /\
    a = registration_args (operation_id e) p key (stable_hash (VDict ip)) counters.
Proof.
  unfold register_args.
  intros (p & Hp & (ip & Hip & (key & Hk & (c & Hc%vindex_ok & [= <-])%bind_ok)%bind_ok)%bind_ok)%bind_ok.
  by exists p, ip, key, c.
Qed.

Definition registered (oid : string) (p : dict) (key hash : string) (d : dict) : P118OperationState := {|
  os_operation_id := oid; os_state := "received"; os_cas_version := 0;
  os_idempotency_key := key; os_payload_hash := hash;
  os_authority_counter_snapshot := dict_image d; os_duplicate_action_count := 0;
  os_lease_owner_id := registration_owner p; os_lease_expires_at := None |}.

Lemma registration_owner_plain p : plain_owner (registration_owner p).
Proof. unfold registration_owner, plain_owner. destruct (is_empty _); eauto. Qed.

Lemma replay_registered_written oid p key hash d :
  replay_registered oid (VDict (dict_image (aa_payload (registration_args oid p key hash (VDict d))))) =
  Ok (registered oid p key hash d).
Proof.
  unfold replay_registered, subscript. rewrite !vindex_image, vget_image.
  set (a := registration_args oid p key hash (VDict d)).
  change (vindex (aa_payload a) "idempotency_key") with (Ok (VStr key)).
  change (vindex (aa_payload a) "payload_hash") with (Ok (VStr hash)).
  change (vindex (aa_payload a) "authority_counter_snapshot") with (Ok (VDict d)).
  change (vget (aa_payload a) "lease_owner_id") with (registration_owner p).
  cbn [bind json_image py_str to_dict_copy]. unfold registered. do 2 f_equal.
  unfold registration_owner. destruct (is_empty _) eqn:E; [done|]. simpl. by rewrite E.
Qed.

Lemma view_registration es oid' oid p key hash d :
  view (es ++ [dict_image (written es (registration_args oid p key hash (VDict d)))]) oid' =
  let! st := view es oid' in
  Ok (if oid =s oid' then Some (registered oid p key hash d) else st).
Proof.
  rewrite view_app. destruct (view es oid') as [st|]; [|done]. cbn [bind].
  rewrite replay_written. cbn [aa_operation_id aa_receipt_type registration_args].
  destruct (eqs_spec oid oid') as [->|]; [|done]. cbn [negb]. rewrite eqs_refl.
  by rewrite replay_registered_written.
Qed.

Lemma view_idempotent_replay es oid' a s :
  view (es ++ [dict_image (written es (as_replay a s))]) oid' = view es oid'.
Proof.
  rewrite view_app. destruct (view es oid') as [st|]; [|done]. cbn [bind].
  rewrite replay_written. cbn [aa_receipt_type as_replay aa_operation_id].
  destruct (os_operation_id s =s oid'); [|done]. by destruct st.
Qed.

(** A registration that went through: either its key was free, or the key's
    operation has the same payload and nothing but a replay mark is written. *)
Lemma register_ok e l r l' :
  register_operation e l = (Ok r, l') ->
  exists es p ip key counters,
    load_entries (disk l) = Ok es /\ chain es /\ to_dict e = Ok p /\ idempotency_payload p = Ok ip /\
    idempotency_key e = Ok key /\ dget p "authority_counter_snapshot" = Some counters /\
    let a := registration_args (operation_id e) p key (stable_hash (VDict ip)) counters in
    exists a', cache l' = es ++ [written es a'] /\ r = receipt_of es a' 0 /\
      load_entries (disk l') = Ok (es ++ [dict_image (written es a')]) /\
      chain (es ++ [dict_image (written es a')]) /\
      ((registered_ids key es = Ok [] /\ a' = a) \/
       (exists s oids oid, registered_ids key es = Ok (oids ++ [oid]) /\ replay_entries es oid = Ok s /\
          os_payload_hash s = stable_hash (VDict ip) /\ a' = as_replay a s)).
Proof.
  unfold register_operation. intros (a & l1 & [Ha ->]%lift_ok & H)%lbind_ok.
  assert (Hd := register_args_payload _ _ Ha).
  apply register_args_ok in Ha as (p & ip & key & c & Hp & Hip & Hk & Hc & ->).
  apply append_receipt_ok in H as (entry & _ & Happ & Hr); [|done].
  destruct Happ as [es a' Hl Hch Hi _ _ _ Hcache Hl' Hc'].
  rewrite receipt_written in Hr by by eapply check_idempotency_payload. injection Hr as <-.
  exists es, p, ip, key, c. do 6 (split; [done|]). exists a'. do 4 (split; [done|]).
  unfold check_idempotency in Hi. cbn [register_idempotency_key registration_args] in Hi.
  apply bind_ok in Hi as (o & Ho & Hi). unfold state_by_idempotency_key in Ho.
  apply bind_ok in Ho as (ids & Hids & Ho). destruct (last ids) as [oid|] eqn:El.
  - right. apply bind_ok in Ho as (s & Hs & [= <-]). apply bind_ok in Hi as (? & Hh%ensure_ok & [= <-]).
    apply bool_decide_eq_true in Hh. injection Hh as Hh. apply last_Some in El as [oids ->]. eauto 10.
  - left. injection Ho as <-. injection Hi as <-. apply last_None in El as ->. done.
Qed.

(** ** Every store on one file *)

(** One call on the file by some store, whatever its cache and whether or not
    the call succeeds. *)
Inductive ledger_step : wal -> wal -> Prop :=
  | step_register l l' data e r :
      build_operation_envelope data = Ok e -> register_operation e l = (r, l') ->
      ledger_step (disk l) (disk l')
  | step_transition l l' oid next cas owner ev r :
      transition oid next cas owner ev l = (r, l') -> ledger_step (disk l) (disk l')
  | step_lease l l' oid owner expires rt eo ee r :
      lease_type rt -> record_lease oid owner expires rt eo ee l = (r, l') ->
      ledger_step (disk l) (disk l').

Definition reachable (w : wal) : Prop := rtc ledger_step [] w.

(** [n] legal transitions lead from [received] to [st], none of them out of a
    terminal status. *)
Inductive legal_run : string -> Z -> Prop :=
  | run_received : legal_run "received" 0
  | run_step st n next :
      legal_run st n -> ~ In st P118_TERMINAL_STATUSES -> legal st next = true -> legal_run next (n + 1).

Definition state_inv (s : P118OperationState) : Prop :=
  legal_run (os_state s) (os_cas_version s) /\ plain_owner (os_lease_owner_id s).

Definition file_inv (w : wal) : Prop :=
  exists es, load_entries w = Ok es /\ chain es /\
    forall oid, exists st, view es oid = Ok st /\ forall s, st = Some s -> state_inv s.

Lemma file_inv_app w' es e (f : string -> option P118OperationState -> option P118OperationState) :
  (forall oid, exists st, view es oid = Ok st /\ forall s, st = Some s -> state_inv s) ->
  load_entries w' = Ok (es ++ [e]) -> chain (es ++ [e]) ->
  (forall oid, view (es ++ [e]) oid = let! st := view es oid in Ok (f oid st)) ->
  (forall oid st s, view es oid = Ok st -> (forall s, st = Some s -> state_inv s) ->
     f oid st = Some s -> state_inv s) ->
  file_inv w'.
Proof.
  intros Hinv Hl Hc Hv Hf. exists (es ++ [e]). split_and!; [done | done|]. intros oid.
  destruct (Hinv oid) as (st & Hst & Hs). exists (f oid st). rewrite Hv, Hst. split; [done|].
  intros s. by apply Hf.
Qed.

Lemma step_register_inv w w' data e l l' r :
  build_operation_envelope data = Ok e -> register_operation e l = (r, l') ->
  w = disk l -> w' = disk l' -> file_inv w -> file_inv w'.
Proof.
  intros Hb Hreg -> -> (es & Hl & Hc & Hinv). destruct r as [r|ex].
  2:{ apply register_raise in Hreg. rewrite Hreg. by exists es. }
  apply register_ok in Hreg as (es' & p & ip & key & c & Hl0 & _ & Hp & _ & _ & Hcnt & a' & _ & _ & Hl' & Hc' & Hcase).
  assert (es' = es) as -> by congruence.
  apply build_payload in Hb as (p' & Hp' & Hz). assert (p' = p) as -> by congruence.
  rewrite Hz in Hcnt. injection Hcnt as <-.
  destruct Hcase as [[_ ->]|(s & oids & oid & _ & Hs & _ & ->)].
  - eapply (file_inv_app _ es _ (fun oid' st =>
      if operation_id e =s oid' then Some (registered (operation_id e) p key (stable_hash (VDict ip))
        exact_zero_authority_counters) else st) Hinv Hl' Hc').
    + intros oid'. apply view_registration.
    + intros oid' st s Hv Hst. destruct (operation_id e =s oid'); [|auto].
      intros [= <-]. split; [constructor | apply registration_owner_plain].
  - eapply (file_inv_app _ es _ (fun _ st => st) Hinv Hl' Hc').
    + intros oid'. rewrite view_idempotent_replay. by destruct (view es oid').
    + auto.
Qed.

Lemma step_transition_inv l l' oid next cas owner ev r :
  transition oid next cas owner ev l = (r, l') -> file_inv (disk l) -> file_inv (disk l').
Proof.
  intros H (es & Hl & Hc & Hinv). destruct r as [r|ex].
  2:{ apply transition_raise in H. rewrite H. by exists es. }
  apply transition_ok in H as (w & es' & s & a & -> & Hw & Hl0 & Hs & Hterm & Hcas & _ & Hleg & -> & _ & Hd & _).
  assert (es' = es) as -> by congruence.
  apply replay_view in Hs as [_ Hv].
  eapply (file_inv_app _ es _ (fun oid' st => if oid =s oid' then
      option_map (fun s0 => moved s0 next (os_cas_version s + 1) w) st else st) Hinv).
  - rewrite Hd. by apply load_entries_app.
  - by apply written_image_chain.
  - intros oid'. apply view_transition.
  - intros oid' st s' Hst Hs. destruct (eqs_spec oid oid') as [<-|]; [|auto].
    assert (st = Some s) as -> by congruence. intros [= <-].
    destruct (Hs s) as [Hrun _]; [done|]. split; [by eapply run_step | right; by exists w].
Qed.

Lemma step_lease_inv l l' oid owner expires rt eo ee r :
  lease_type rt -> record_lease oid owner expires rt eo ee l = (r, l') ->
  file_inv (disk l) -> file_inv (disk l').
Proof.
  intros Hrt H (es & Hl & Hc & Hinv). destruct r as [r|ex].
  2:{ apply record_lease_raise in H. rewrite H. by exists es. }
  apply record_lease_ok in H as (es' & s0 & a & Hl0 & _ & _ & -> & _ & _ & _ & _ & Hl' & Hc'); [|done].
  assert (es' = es) as -> by congruence.
  eapply (file_inv_app _ es _ (fun oid' st => if oid =s oid' then
      option_map (fun s0 => leased s0 owner expires) st else st) Hinv Hl' Hc').
  - intros oid'. by apply view_lease.
  - intros oid' st s' Hst Hs. destruct (oid =s oid'); [|auto].
    destruct st as [s|]; [|done]. intros [= <-]. destruct (Hs s) as [Hrun _]; [done|].
    split; [done | right; by exists owner].
Qed.

Lemma reachable_inv w : reachable w -> file_inv w.
Proof.
  intros H. assert (Hgen : forall w0 w1, rtc ledger_step w0 w1 -> file_inv w0 -> file_inv w1).
  { induction 1 as [|? ? ? Hstep _ IH]; [done|]. intros Hi. apply IH.
    destruct Hstep; [by eapply step_register_inv | by eapply step_transition_inv | by eapply step_lease_inv]. }
  apply (Hgen _ _ H). exists []. split_and!; [done | constructor|]. intros oid. by exists None.
Qed.

(** *** Legal runs are short and stay in the lifecycle *)

(** How many transitions are left at most. *)
Definition rank (st : string) : Z :=
  default 0 (dget [("received", 9); ("verified", 8); ("approved", 7); ("prechecked", 6);
                   ("action_attempted", 5); ("postchecked", 4); ("postcheck_failed", 3);
                   ("action_failed", 3); ("rollback_attempted", 2); ("rollback_postchecked", 1);
                   ("precheck_failed", 1)] st).

Lemma legal_edge from target :
  legal from target = true -> exists l, In (from, l) LEGAL_TRANSITIONS /\ In target l.
Proof.
  unfold legal. rewrite mem_In. destruct (dget LEGAL_TRANSITIONS from) as [l|] eqn:E; [|done].
  apply dget_In in E. eauto.
Qed.

Lemma legal_facts from target :
  legal from target = true -> rank target < rank from /\ In target P118_LIFECYCLE_STATES.
Proof.
  intros (l & Hl & Hin)%legal_edge. split.
  - repeat destruct Hl as [[= <- <-]|Hl]; repeat destruct Hin as [<-|Hin]; done.
  - apply mem_In. repeat destruct Hl as [[= <- <-]|Hl]; repeat destruct Hin as [<-|Hin]; done.
Qed.

Lemma legal_run_facts st n :
  legal_run st n -> 0 <= n /\ n + rank st <= 9 /\ In st P118_LIFECYCLE_STATES.
Proof.
  induction 1 as [|st n next _ (H1 & H2 & _) _ (H3 & H4)%legal_facts].
  - split_and!; [lia | done | by left].
  - split_and!; [lia | lia | done].
Qed.

Lemma rank_nonneg st : 0 <= rank st.
Proof. unfold rank. simpl. repeat (destruct (_ =s _); [simpl; lia|]). simpl. lia. Qed.

(** ** Properties *)

(** C5: the life of the file.  Whatever stores do to it, with caches however
    stale, the file always loads and its hash chain is intact; replaying any
    operation from it never fails but for an unknown operation; and the
    replayed state is a lifecycle state reached from [received] by exactly
    [cas_version] legal transitions, nine at most. *)
Theorem ledger_file_invariant w :
  reachable w ->
  (exists es, load_entries w = Ok es /\ verify_hash_chain es = Ok true) /\
  (forall oid e, disk_state w oid = Raise e -> e = P118LedgerError "unknown_operation") /\
  (forall oid s, disk_state w oid = Ok s ->
     In (os_state s) P118_LIFECYCLE_STATES /\ legal_run (os_state s) (os_cas_version s) /\
     0 <= os_cas_version s <= 9).
Proof.
  intros (es & Hl & Hc & Hinv)%reachable_inv. split_and!.
  - exists es. split; [done|]. by apply chain_iff.
  - intros oid e. rewrite (disk_state_load _ _ _ Hl), replay_chain by done.
    destruct (Hinv oid) as (st & -> & _). destruct st; [done|]. by intros [= <-].
  - intros oid s. rewrite (disk_state_load _ _ _ Hl). intros [_ Hv]%replay_view.
    destruct (Hinv oid) as (st & Hst & Hs). destruct (Hs s) as [Hrun _]; [congruence|].
    destruct (legal_run_facts _ _ Hrun) as (H1 & H2 & H3). pose proof (rank_nonneg (os_state s)).
    split_and!; [done | done | done | lia].
Qed.

(** C18: a transition is atomic against the file.  If a store, whatever it has
    cached, gets a transition accepted, then on the file just before the
    operation was not terminal, its version was the expected one, its lease
    belonged to the caller and the move was legal; just after, it is in the
    new state at the next version, and every other operation is as it was.
    A refused transition writes nothing. *)
Theorem transition_is_atomic oid next cas owner ev l :
  (forall r l', transition oid next cas owner ev l = (Ok r, l') ->
     exists w s, owner = Some w /\ w <> "" /\
       disk_state (disk l) oid = Ok s /\ ~ In (os_state s) P118_TERMINAL_STATUSES /\
       os_cas_version s = cas /\ os_lease_owner_id s = VStr w /\ legal (os_state s) next = true /\
       disk_state (disk l') oid = Ok (moved s next (cas + 1) w) /\
       lr_state r = next /\ lr_cas_version r = cas + 1 /\
       (forall oid', oid' <> oid -> disk_state (disk l') oid' = disk_state (disk l) oid') /\
       exists line, disk l' = disk l ++ [line]) /\
  (forall e l', transition oid next cas owner ev l = (Raise e, l') -> disk l' = disk l).
Proof.
  split; [|apply transition_raise]. intros r l' H.
  apply transition_ok in H as (w & es & s & a & -> & Hw & Hl & Hr & Hterm & Hcas & Hown & Hleg & -> & -> & Hd & Hs).
  exists w, s. rewrite (disk_state_load _ _ _ Hl). apply synced_disk in Hs.
  split_and!; try done; try (simpl; by rewrite Hcas); [|by eexists].
  intros oid' Hne. apply replay_ok_chain in Hr as Hc.
  destruct (disk_state_appended (disk l) (disk l') es (transition_written s oid next w ev) oid')
    as [-> ->]; [done | done | | by apply written_image_chain |].
  - rewrite Hd. by apply load_entries_app.
  - destruct (view es oid') as [st|]; [|done]. cbn [bind]. rewrite replay_written.
    cbn [transition_written transition_args aa_operation_id].
    by destruct (eqs_spec oid oid') as [->|].
Qed.

(** *** Registrations and terminal states *)

Lemma view_disk_state w es oid : load_entries w = Ok es -> chain es ->
  disk_state w oid = let! st := view es oid in known st.
Proof. intros H Hc. by rewrite (disk_state_load _ _ _ H), replay_chain. Qed.

(** A call by which the file starts an operation over. *)
Definition registers_anew (oid : string) (w w' : wal) : Prop :=
  exists l l' e r, w = disk l /\ w' = disk l' /\ register_operation e l = (Ok r, l') /\
    operation_id e = oid /\ lr_receipt_type r = "operation_registered".

Lemma register_keeps_others l l' data e r oid :
  build_operation_envelope data = Ok e -> register_operation e l = (r, l') ->
  registers_anew oid (disk l) (disk l') \/ disk_state (disk l') oid = disk_state (disk l) oid.
Proof.
  intros Hb Hreg. destruct r as [r|ex].
  2:{ apply register_raise in Hreg. rewrite Hreg. by right. }
  assert (Hreg' := Hreg).
  apply register_ok in Hreg as (es & p & ip & key & c & Hl & Hc & Hp & _ & _ & Hcnt & a' & _ & Hr & Hl' & Hc' & Hcase).
  apply build_payload in Hb as (p' & Hp' & Hz). assert (p' = p) as -> by congruence.
  rewrite Hz in Hcnt. injection Hcnt as <-.
  rewrite (view_disk_state _ _ _ Hl' Hc'), (view_disk_state _ _ _ Hl Hc).
  destruct Hcase as [[_ ->]|(s & oids & oid0 & _ & _ & _ & ->)].
  - rewrite view_registration. destruct (eqs_spec (operation_id e) oid) as [E|].
    + left. exists l, l', e, r. by subst.
    + right. by destruct (view es oid).
  - right. by rewrite view_idempotent_replay.
Qed.

Lemma lease_keeps_states l l' oid oid' owner expires rt eo ee r s :
  lease_type rt -> record_lease oid owner expires rt eo ee l = (r, l') ->
  disk_state (disk l) oid' = Ok s ->
  exists s', disk_state (disk l') oid' = Ok s' /\ os_state s' = os_state s /\
    os_cas_version s' = os_cas_version s.
Proof.
  intros Hrt H Hs. destruct r as [r|ex].
  2:{ apply record_lease_raise in H. rewrite H. eauto. }
  apply record_lease_ok in H as (es & s0 & a & Hl & Hc & _ & -> & _ & _ & _ & _ & Hl' & Hc'); [|done].
  rewrite (view_disk_state _ _ _ Hl Hc) in Hs. rewrite (view_disk_state _ _ _ Hl' Hc'), view_lease by done.
  destruct (view es oid') as [[st|]|]; try done. injection Hs as <-. cbn [bind].
  destruct (oid =s oid'); eexists; by split_and!.
Qed.

Lemma transition_keeps_terminal l l' oid oid' next cas owner ev r s :
  transition oid next cas owner ev l = (r, l') ->
  disk_state (disk l) oid' = Ok s -> In (os_state s) P118_TERMINAL_STATUSES ->
  disk_state (disk l') oid' = Ok s.
Proof.
  intros H Hs Ht. destruct r as [r|ex].
  2:{ apply transition_raise in H. by rewrite H. }
  apply transition_ok in H as (w & es & s1 & a & -> & Hw & Hl & Hr & Hterm & _ & _ & _ & -> & _ & Hd & _).
  apply replay_ok_chain in Hr as Hc.
  rewrite (view_disk_state _ _ _ Hl Hc) in Hs.
  rewrite (view_disk_state _ (es ++ [dict_image (written es (transition_written s1 oid next w ev))])).
  - unfold transition_written. rewrite view_transition. destruct (eqs_spec oid oid') as [<-|].
    + exfalso. apply replay_view in Hr as [_ Hv]. rewrite Hv in Hs. injection Hs as ->. done.
    + destruct (view es oid') as [[st|]|]; done.
  - rewrite Hd. by apply load_entries_app.
  - by apply written_image_chain.
Qed.

(** A terminal operation is final but for one way back.  Whatever call a
    store makes on the file, an operation in a terminal status stays in it at
    the same version, unless the call registers the same operation anew
    (under a key the file does not know). *)
Theorem terminal_is_final w w' oid s :
  ledger_step w w' -> disk_state w oid = Ok s -> In (os_state s) P118_TERMINAL_STATUSES ->
  registers_anew oid w w' \/
  exists s', disk_state w' oid = Ok s' /\ os_state s' = os_state s /\ os_cas_version s' = os_cas_version s.
Proof.
  intros Hstep Hs Ht. destruct Hstep as [l l' data e r Hb H|l l' oid' next cas owner ev r H|l l' oid' owner expires rt eo ee r Hrt H].
  - destruct (register_keeps_others _ _ _ _ _ oid Hb H) as [?|E]; [by left|].
    right. exists s. by rewrite E.
  - right. exists s. split_and!; try done. by eapply transition_keeps_terminal.
  - right. by eapply lease_keeps_states.
Qed.

(** A registration under a free key goes through. *)
Lemma register_runs l data e p ip key es :
  build_operation_envelope data = Ok e -> to_dict e = Ok p -> idempotency_payload p = Ok ip ->
  idempotency_key e = Ok key -> load_entries (disk l) = Ok es -> chain es ->
  registered_ids key es = Ok [] ->
  let a := registration_args (operation_id e) p key (stable_hash (VDict ip))
             (VDict exact_zero_authority_counters) in
  register_operation e l =
    (Ok (receipt_of es a 0), {| disk := disk l ++ [Some (VDict (dict_image (written es a)))];
                                cache := es ++ [written es a] |}).
Proof.
  intros Hb Hp Hip Hk Hl Hc Hfree a.
  apply build_payload in Hb as (p' & Hp' & Hz). assert (p' = p) as -> by congruence.
  assert (Ha : register_args e = Ok a).
  { unfold register_args. rewrite Hp. cbn [bind]. rewrite Hip. cbn [bind]. rewrite Hk. cbn [bind].
    assert (vindex p "authority_counter_snapshot" = Ok (VDict exact_zero_authority_counters)) as ->
      by by apply vindex_ok. done. }
  unfold register_operation, lbind at 1, lift at 1. rewrite Ha. apply append_runs; try done.
  unfold check_idempotency. cbn [register_idempotency_key a registration_args].
  unfold state_by_idempotency_key. rewrite Hfree. done.
Qed.

(** The way back is open.  An operation that is terminal on the file is
    registered again under another idempotency key: the call succeeds and the
    operation is [received] at version zero, ready to be driven once more. *)
Theorem reregistration_reopens_terminal l data e p ip key es s :
  build_operation_envelope data = Ok e -> to_dict e = Ok p -> idempotency_payload p = Ok ip ->
  idempotency_key e = Ok key -> load_entries (disk l) = Ok es -> registered_ids key es = Ok [] ->
  disk_state (disk l) (operation_id e) = Ok s -> In (os_state s) P118_TERMINAL_STATUSES ->
  exists r l' s', register_operation e l = (Ok r, l') /\
    disk_state (disk l') (operation_id e) = Ok s' /\ os_state s' = "received" /\ os_cas_version s' = 0.
Proof.
  intros Hb Hp Hip Hk Hl Hfree Hs _. rewrite (disk_state_load _ _ _ Hl) in Hs.
  apply replay_ok_chain in Hs as Hc.
  pose proof (register_runs l data e p ip key es Hb Hp Hip Hk Hl Hc Hfree) as Hrun.
  eexists _, _, (registered (operation_id e) p key (stable_hash (VDict ip)) exact_zero_authority_counters).
  split; [exact Hrun|]. split_and!; try done.
  cbn [disk]. rewrite (view_disk_state _ _ _ (load_entries_app _ _ _ Hl) (written_image_chain _ _ Hc)).
  rewrite view_registration. apply replay_view in Hs as [_ Hv]. rewrite Hv. cbn [bind].
  by rewrite eqs_refl.
Qed.

(** Registration is idempotent per key.  Registering under a key the
    file knows, the same payload gives an [idempotent_replay] receipt of the
    current state and changes no operation; another payload is refused and
    nothing is written. *)
Theorem registration_is_idempotent l e p ip key counters es oids oid s :
  to_dict e = Ok p -> idempotency_payload p = Ok ip -> idempotency_key e = Ok key ->
  dget p "authority_counter_snapshot" = Some counters ->
  load_entries (disk l) = Ok es -> registered_ids key es = Ok (oids ++ [oid]) ->
  replay_entries es oid = Ok s ->
  (os_payload_hash s = stable_hash (VDict ip) ->
   exists r l', register_operation e l = (Ok r, l') /\ lr_receipt_type r = "idempotent_replay" /\
     lr_state r = os_state s /\ lr_cas_version r = os_cas_version s /\
     forall oid', disk_state (disk l') oid' = disk_state (disk l) oid') /\
  (os_payload_hash s <> stable_hash (VDict ip) ->
   exists l', register_operation e l =
     (Raise (P118LedgerError "idempotency_key_payload_mismatch"), l') /\ disk l' = disk l).
Proof.
  intros Hp Hip Hk Hcnt Hl Hids Hs. apply replay_ok_chain in Hs as Hc.
  set (a := registration_args (operation_id e) p key (stable_hash (VDict ip)) counters).
  assert (Ha : register_args e = Ok a).
  { unfold register_args. rewrite Hp. cbn [bind]. rewrite Hip. cbn [bind]. rewrite Hk. cbn [bind].
    apply vindex_ok in Hcnt. by rewrite Hcnt. }
  assert (Hst : state_by_idempotency_key es key = Ok (Some s)).
  { unfold state_by_idempotency_key. rewrite Hids. cbn [bind]. rewrite last_snoc, Hs. done. }
  split; intros Hh.
  - exists (receipt_of es (as_replay a s) 0),
      {| disk := disk l ++ [Some (VDict (dict_image (written es (as_replay a s))))];
         cache := es ++ [written es (as_replay a s)] |}.
    split_and!; try done.
    + unfold register_operation, lbind at 1, lift at 1. rewrite Ha. apply append_runs; try done.
      unfold check_idempotency. cbn [register_idempotency_key a registration_args].
      rewrite Hst. cbn [bind]. rewrite bool_decide_true by by rewrite Hh. done.
    + intros oid'. rewrite (view_disk_state _ _ _ Hl Hc).
      rewrite (view_disk_state _ (es ++ [dict_image (written es (as_replay a s))])).
      * by rewrite view_idempotent_replay.
      * by apply load_entries_app.
      * by apply written_image_chain.
  - exists {| disk := disk l; cache := es |}. split; [|done].
    unfold register_operation, lbind at 1, lift at 1. rewrite Ha.
    unfold append_receipt, lbind, append. rewrite Hl. unfold prepare.
    apply chain_iff in Hc. rewrite Hc. cbn [bind ensure].
    unfold check_idempotency. cbn [register_idempotency_key a registration_args].
    rewrite Hst. cbn [bind]. rewrite bool_decide_false; [done|]. by intros [= ?].
Qed.

(** What an entry says, without its own hash, as it is read from the file. *)
Definition content (e : dict) : dict := dict_image (dwithout ["receipt_hash"] e).

(** The last place where the two chains differ holds two entries that say
    different things and have the same hash. *)
Definition colliding (es es' : list dict) : Prop :=
  exists before e after before' e' after',
    es = before ++ e :: after /\ es' = before' ++ e' :: after' /\
    map content after = map content after' /\ content e <> content e' /\ entry_hash e = entry_hash e'.

Lemma content_previous e : vget (content e) "previous_hash" = json_image (vget e "previous_hash").
Proof. unfold content. rewrite vget_image. unfold vget. by rewrite dget_dwithout. Qed.

(** Entries that say the same follow entries of the same hash. *)
Lemma links_content i i' p p' e e' : links i p e -> links i' p' e' -> content e = content e' -> p = p'.
Proof.
  intros (_ & _ & Hp & _) (_ & _ & Hp' & _) E.
  pose proof (content_previous e) as H. rewrite E, content_previous, Hp, Hp' in H. by injection H.
Qed.

Lemma colliding_snoc es es' e e' : content e = content e' -> colliding es es' -> colliding (es ++ [e]) (es' ++ [e']).
Proof.
  intros E (before & x & after & before' & x' & after' & -> & -> & Ha & Hx & Hh).
  exists before, x, (after ++ [e]), before', x', (after' ++ [e']). rewrite <- !app_assoc. split_and!; try done.
  rewrite !map_app, Ha. cbn. by rewrite E.
Qed.

(** C32: the chain is tamper evident.  Two files whose chains verify and end
    in the same hash, of whatever lengths, say the same in every entry; or,
    going back from their ends, the first two entries that say different
    things have the same hash, while all entries after them agree. *)
Theorem chain_is_tamper_evident es es' :
  verify_hash_chain es = Ok true -> verify_hash_chain es' = Ok true -> last_hash "" es = last_hash "" es' ->
  map content es = map content es' \/ colliding es es'.
Proof.
  rewrite !chain_iff. revert es'. induction es as [|e es IH] using rev_ind; intros es' Hc Hc' Hlast;
    (destruct es' as [|e' es' _] using rev_ind); rewrite ?last_hash_app in Hlast.
  - by left.
  - exfalso. by apply (stable_hash_not_empty (VDict (dwithout ["receipt_hash"] e'))).
  - exfalso. by apply (stable_hash_not_empty (VDict (dwithout ["receipt_hash"] e))).
  - apply chain_app in Hc as [Hc Hk], Hc' as [Hc' Hk'].
    destruct (decide (content e = content e')) as [E|Hne].
    + pose proof (links_content _ _ _ _ _ _ Hk Hk' E) as Hp.
      destruct (IH es' Hc Hc' Hp) as [Hm|Hm]; [left | right; by apply colliding_snoc].
      rewrite !map_app, Hm. cbn. by rewrite E.
    + right. exists es, e, [], es', e', []. by split_and!.
Qed.

(** ** Witnesses

    The concrete operation of P118Contract, registered by one store and
    rejected by its lease owner through another. *)

Definition demo_payload (e : P118OperationEnvelope) : dict := from_ok [] (to_dict e).
Definition demo_idempotency (e : P118OperationEnvelope) : dict :=
  from_ok [] (idempotency_payload (demo_payload e)).
Definition demo_registration : append_args :=
  registration_args "op-1" (demo_payload demo_operation) "key-1"
    (stable_hash (VDict (demo_idempotency demo_operation))) (VDict exact_zero_authority_counters).
Definition demo_entries : list dict := [dict_image (written [] demo_registration)].

(** A fresh store on the file with the registration. *)
Definition demo_store : ledger := {| disk := [Some (VDict (dict_image (written [] demo_registration)))];
                                     cache := demo_entries |}.

Definition demo_registered : P118OperationState :=
  registered "op-1" (demo_payload demo_operation) "key-1"
    (stable_hash (VDict (demo_idempotency demo_operation))) exact_zero_authority_counters.

Lemma demo_facts :
  to_dict demo_operation = Ok (demo_payload demo_operation) /\
  idempotency_payload (demo_payload demo_operation) = Ok (demo_idempotency demo_operation) /\
  idempotency_key demo_operation = Ok "key-1" /\ operation_id demo_operation = "op-1" /\
  registration_owner (demo_payload demo_operation) = VStr "worker-1" /\
  dget (demo_payload demo_operation) "authority_counter_snapshot" = Some (VDict exact_zero_authority_counters).
Proof.
  split_and!; [apply from_ok_eq | apply from_ok_eq | | | |]; vm_compute; reflexivity.
Qed.

(** The same operation under a second key. *)
Definition demo_data2 : dict := dset demo_data "idempotency_key" (VStr "key-2").
Definition demo_operation2 : P118OperationEnvelope :=
  from_ok empty_envelope (build_operation_envelope demo_data2).

Lemma demo_facts2 :
  build_operation_envelope demo_data2 = Ok demo_operation2 /\
  to_dict demo_operation2 = Ok (demo_payload demo_operation2) /\
  idempotency_payload (demo_payload demo_operation2) = Ok (demo_idempotency demo_operation2) /\
  idempotency_key demo_operation2 = Ok "key-2" /\ operation_id demo_operation2 = "op-1".
Proof.
  split_and!; [apply from_ok_eq | apply from_ok_eq | apply from_ok_eq | |]; vm_compute; reflexivity.
Qed.

#[local] Opaque demo_operation demo_operation2 demo_payload demo_idempotency stable_hash build_operation_envelope.

Lemma demo_store_load : load_entries (disk demo_store) = Ok demo_entries.
Proof. done. Qed.

Lemma demo_store_reachable : reachable (disk demo_store).
Proof.
  destruct demo_facts as (Hp & Hip & Hk & Ho & _).
  pose proof (register_runs {| disk := []; cache := [] |} demo_data demo_operation _ _ _ []
    demo_operation_ok Hp Hip Hk eq_refl (linked_nil 0 "") eq_refl) as H.
  rewrite Ho in H. apply rtc_once. exact (step_register _ _ _ _ _ demo_operation_ok H).
Qed.

Lemma demo_store_synced : synced demo_store "op-1" demo_registered.
Proof.
  assert (H : replay_entries demo_entries "op-1" = Ok demo_registered).
  { apply replay_view. split; [apply (written_image_chain []); constructor|].
    exact (view_registration [] "op-1" "op-1" _ _ _ _). }
  exists demo_entries. split; [exact demo_store_load | split; exact H].
Qed.

(** The rejected operation: the file, and what is registered in it. *)
Lemma demo_rejected :
  exists r l es, transition "op-1" "rejected" 0 (Some "worker-1") [] demo_store = (Ok r, l) /\
    reachable (disk l) /\ synced l "op-1" (moved demo_registered "rejected" 1 "worker-1") /\
    load_entries (disk l) = Ok es /\ registered_ids "key-1" es = Ok ["op-1"] /\
    registered_ids "key-2" es = Ok [].
Proof.
  destruct demo_facts as (_ & _ & _ & _ & Hown & _).
  destruct (transition_runs demo_store "op-1" demo_registered "rejected" "worker-1" []) as
    (r & l & H & _ & Hs & es & Hl & Hl'); [exact demo_store_synced | | exact Hown | done | done |].
  { rewrite <- mem_In. done. }
  rewrite demo_store_load in Hl. injection Hl as <-. eexists r, l, _. split; [exact H|].
  split_and!; [| exact Hs | exact Hl' | done | done].
  eapply rtc_r; [exact demo_store_reachable|]. by eapply step_transition.
Qed.

Lemma ledger_file_invariant_witness :
  exists es, load_entries (disk demo_store) = Ok es /\ verify_hash_chain es = Ok true.
Proof. exact (proj1 (ledger_file_invariant _ demo_store_reachable)). Defined.

Lemma transition_is_atomic_witness :
  exists r l', transition "op-1" "rejected" 0 (Some "worker-1") [] demo_store = (Ok r, l') /\
    lr_state r = "rejected".
Proof.
  destruct demo_rejected as (r & l & es & H & _). exists r, l. split; [exact H|].
  destruct (proj1 (transition_is_atomic _ _ _ _ _ _) r l H)
    as (w & s & _ & _ & _ & _ & _ & _ & _ & _ & Hr & _). exact Hr.
Defined.

Lemma terminal_is_final_witness :
  exists l r l', record_lease "op-1" "worker-2" 60 "lease_acquired" VNone None l = (Ok r, l') /\
    (registers_anew "op-1" (disk l) (disk l') \/
     exists s', disk_state (disk l') "op-1" = Ok s' /\ os_state s' = "rejected" /\ os_cas_version s' = 1).
Proof.
  destruct demo_rejected as (r0 & l & es & _ & _ & Hs & _).
  assert (Hrun : exists r l', record_lease "op-1" "worker-2" 60 "lease_acquired" VNone None l = (Ok r, l')).
  { destruct Hs as (es' & Hl & Hr & Hr0). unfold record_lease, lbind at 1, replay. rewrite Hr0.
    erewrite append_runs; [eauto | exact Hl | by eapply replay_ok_chain | done ..]. }
  destruct Hrun as (r & l' & Hrun). exists l, r, l'. split; [exact Hrun|].
  apply (terminal_is_final (disk l) (disk l') "op-1" (moved demo_registered "rejected" 1 "worker-1")).
  - eapply step_lease; [by left | exact Hrun].
  - by apply synced_disk.
  - rewrite <- mem_In. done.
Defined.

Lemma reregistration_reopens_terminal_witness :
  exists l r l' s', register_operation demo_operation2 l = (Ok r, l') /\
    disk_state (disk l') (operation_id demo_operation2) = Ok s' /\
    os_state s' = "received" /\ os_cas_version s' = 0.
Proof.
  destruct demo_facts2 as (Hb & Hp & Hip & Hk & Ho).
  destruct demo_rejected as (_ & l & es & _ & _ & Hs & Hl & _ & Hfree). exists l.
  apply (reregistration_reopens_terminal l demo_data2 demo_operation2
    (demo_payload demo_operation2) (demo_idempotency demo_operation2) "key-2" es
    (moved demo_registered "rejected" 1 "worker-1") Hb Hp Hip Hk Hl Hfree).
  - rewrite Ho. by apply synced_disk.
  - rewrite <- mem_In. done.
Defined.

Lemma registration_is_idempotent_witness :
  exists r l', register_operation demo_operation demo_store = (Ok r, l') /\
    lr_receipt_type r = "idempotent_replay" /\
    lr_state r = "received" /\ lr_cas_version r = 0 /\
    forall oid', disk_state (disk l') oid' = disk_state (disk demo_store) oid'.
Proof.
  destruct demo_facts as (Hp & Hip & Hk & _ & _ & Hc).
  apply (registration_is_idempotent demo_store demo_operation (demo_payload demo_operation)
    (demo_idempotency demo_operation) "key-1" (VDict exact_zero_authority_counters)
    demo_entries [] "op-1" demo_registered Hp Hip Hk Hc eq_refl eq_refl).
  - destruct demo_store_synced as (es & Hl & Hr & _). rewrite demo_store_load in Hl.
    injection Hl as <-. exact Hr.
  - reflexivity.
Defined.

Lemma chain_is_tamper_evident_witness :
  map content demo_entries = map content [written [] demo_registration] \/
  colliding demo_entries [written [] demo_registration].
Proof.
  apply (chain_is_tamper_evident demo_entries [written [] demo_registration]).
  - apply chain_iff, (written_image_chain []). constructor.
  - apply chain_iff, (written_chain []). constructor.
  - unfold demo_entries. change [dict_image (written [] demo_registration)] with
      ([] ++ [dict_image (written [] demo_registration)]).
    change [written [] demo_registration] with ([] ++ [written [] demo_registration]).
    rewrite !last_hash_app. apply entry_hash_image.
Defined.
