(* ===== verification/P118Approval.v ===== *)
(** * P118 approval decisions

    Models app/services/p118_approval.py: the fail-closed decision on an
    operation and the validation of the receipt it is carried in; and the
    result record of app/services/p118_action_pack_verifier.py it reads. *)

From S2P Require Import Prelude PyValue Sha Json P118Contract P118Ledger P118LedgerProps.

Definition P118_APPROVAL_DECISION_SCHEMA_VERSION : string := "p118.approval_decision.v1".

Definition POLICY_COUNTER_KEYS : list string :=
  P118_AUTHORITY_COUNTER_KEYS ++
  ["approvals"; "rejections"; "rollback_attempts"; "duplicate_action_attempts"; "fail_closed_decisions"].

(** ** The verification result *)

Record P118ActionPackVerificationResult := {
  vr_accepted : bool;
  vr_action_pack_id : string;
  vr_pack_digest : string;
  vr_signer_id : string;
  vr_signer_key_id : string;
  vr_p117_decision_episode_id : string;
  vr_p117_output_hash : string;
  vr_revocation_manifest_hash : string;
  vr_expiration_checked_at : Z;
  vr_expires_at : Z;
  vr_authority_counter_snapshot : dict;
  vr_verification_hash : string;
}.

Definition verification_to_dict (r : P118ActionPackVerificationResult) : dict :=
  [("accepted", VBool (vr_accepted r));
   ("action_pack_id", VStr (vr_action_pack_id r));
   ("pack_digest", VStr (vr_pack_digest r));
   ("signer_id", VStr (vr_signer_id r));
   ("signer_key_id", VStr (vr_signer_key_id r));
   ("p117_decision_episode_id", VStr (vr_p117_decision_episode_id r));
   ("p117_output_hash", VStr (vr_p117_output_hash r));
   ("revocation_manifest_hash", VStr (vr_revocation_manifest_hash r));
   ("expiration_checked_at", VInt (vr_expiration_checked_at r));
   ("expires_at", VInt (vr_expires_at r));
   ("authority_counter_snapshot", VDict (vr_authority_counter_snapshot r));
   ("verification_hash", VStr (vr_verification_hash r))].

(** ** Decisions *)

Record P118ApprovalDecision := {
  ad_approved : bool;
  ad_reason : string;
  ad_policy_hash : string;
  ad_operation_id : string;
  ad_verification_hash : string;
  ad_verification_expires_at : Z;
  ad_lease_expires_at : Z;
  ad_lease_receipt_hash : string;
  ad_wal_receipt_hash : string;
  ad_wal_position : Z;
  ad_cas_version : Z;
  ad_decided_at : Z;
  ad_operation_context_hash : string;
  ad_approval_context_hash : string;
  ad_counters : dict;
  ad_policy_counters : dict;
  ad_authority_counter_snapshot : dict;
  ad_nonlocal_authority_zero : bool;
  ad_decision_hash : string;
}.

Definition decision_to_dict (d : P118ApprovalDecision) : dict :=
  [("schema_version", VStr P118_APPROVAL_DECISION_SCHEMA_VERSION);
   ("approved", VBool (ad_approved d));
   ("reason", VStr (ad_reason d));
   ("policy_hash", VStr (ad_policy_hash d));
   ("operation_id", VStr (ad_operation_id d));
   ("verification_hash", VStr (ad_verification_hash d));
   ("verification_expires_at", VInt (ad_verification_expires_at d));
   ("lease_expires_at", VInt (ad_lease_expires_at d));
   ("lease_receipt_hash", VStr (ad_lease_receipt_hash d));
   ("wal_receipt_hash", VStr (ad_wal_receipt_hash d));
   ("wal_position", VInt (ad_wal_position d));
   ("cas_version", VInt (ad_cas_version d));
   ("decided_at", VInt (ad_decided_at d));
   ("operation_context_hash", VStr (ad_operation_context_hash d));
   ("approval_context_hash", VStr (ad_approval_context_hash d));
   ("counters", VDict (ad_counters d));
   ("policy_counters", VDict (ad_policy_counters d));
   ("authority_counter_snapshot", VDict (ad_authority_counter_snapshot d));
   ("nonlocal_authority_zero", VBool (ad_nonlocal_authority_zero d));
   ("decision_hash", VStr (ad_decision_hash d))].

Definition empty_p118_policy_counters : dict := map (fun key => (key, VInt 0)) POLICY_COUNTER_KEYS.

Definition validate_p118_receipt_self_hash (receipt : dict) (field : string) : bool :=
  match vget receipt field with
  | VStr claimed => claimed =s stable_hash (VDict (dwithout [field] receipt))
  | _ => false
  end.

Definition p118_operation_context_hash (operation : dict) : string :=
  stable_hash (VDict (dwithout ["approval_receipt"; "envelope_hash"] operation)).

(** [a and a: return reason] *)
Definition first_reason (l : list (res (option string))) : res (option string) :=
  (fix go l := match l with
               | [] => Ok None
               | r :: l => let! o := r in match o with Some s => Ok (Some s) | None => go l end
               end) l.

Definition reject_if (b : bool) (reason : string) : res (option string) :=
  Ok (if b then Some reason else None).

(** The keys of [a] that are not in [b], in order. *)
Definition key_difference (a b : list string) : list string :=
  sorted_strings (List.filter (fun k => negb (mem k b)) a).

Definition authority_counter_reason (counters : dict) (key : string) : option string :=
  match as_int (vget counters key) with
  | None => Some ("missing_authority_counter:" +:+ key)
  | Some value => if (value =? 0)%Z then None else Some ("authority_counter_nonzero:" +:+ key)
  end.

Fixpoint first_some {A B} (f : A -> option B) (l : list A) : option B :=
  match l with
  | [] => None
  | x :: l => match f x with Some y => Some y | None => first_some f l end
  end.

Definition rejection_reason (operation : dict) (verification : P118ActionPackVerificationResult)
    (policy_hash : string) (lease wal : dict) (cas_version : Z) (counters : dict) (now : Z)
  : res (option string) :=
  let expected_owner := py_str (vget_or (mapping (vget operation "lease_receipt")) "owner_id" (VStr "")) in
  first_reason
    [reject_if (negb (sha256_ref policy_hash)) "missing_policy_hash";
     Ok (match key_difference (dkeys counters) POLICY_COUNTER_KEYS with
         | u :: _ => Some ("unknown_policy_counter:" +:+ u) | [] => None end);
     Ok (match key_difference POLICY_COUNTER_KEYS (dkeys counters) with
         | m :: _ => Some ("missing_policy_counter:" +:+ m) | [] => None end);
     Ok (first_some (authority_counter_reason counters) P118_AUTHORITY_COUNTER_KEYS);
     reject_if (negb (vr_accepted verification)) "pack_not_verified";
     reject_if (negb (vr_verification_hash verification =s
       stable_hash (VDict (dwithout ["verification_hash"] (verification_to_dict verification)))))
       "invalid_verification_self_hash";
     reject_if (vr_expires_at verification <=? now)%Z "stale_pack_verification";
     reject_if (negb (py_eq (VStr (vr_p117_decision_episode_id verification))
                        (vget operation "p117_decision_episode_id"))) "p117_decision_episode_mismatch";
     reject_if (negb (py_eq (VStr (vr_action_pack_id verification))
                        (vget operation "p117_selected_action_pack_id"))) "verified_pack_id_mismatch";
     reject_if (negb (py_eq (VStr (vr_pack_digest verification))
                        (vget operation "p115_action_pack_digest"))) "verified_pack_digest_mismatch";
     reject_if (is_empty expected_owner || negb (py_eq (vget lease "owner_id") (VStr expected_owner)))
       "lease_owner_mismatch";
     reject_if (negb (py_eq (vget lease "operation_id") (vget operation "operation_id")))
       "lease_operation_mismatch";
     reject_if (match as_int_or_bool (vget lease "expires_at") with
                | None => true | Some e => (e <=? now)%Z end) "stale_lease_receipt";
     reject_if (negb (py_eq (vget lease "cas_version") (VInt cas_version))) "lease_cas_mismatch";
     reject_if (negb (validate_p118_receipt_self_hash lease "receipt_hash")) "invalid_lease_receipt";
     reject_if (negb (validate_p118_receipt_self_hash wal "receipt_hash")) "invalid_wal_receipt";
     reject_if (negb (py_eq (vget wal "operation_id") (vget operation "operation_id")))
       "wal_operation_mismatch";
     reject_if (negb (py_eq (vget wal "cas_version") (VInt cas_version))) "wal_cas_mismatch";
     (let! a := py_int (vget_or wal "wal_position" (VInt (-1))) in
      let! b := py_int (vget_or operation "wal_position" (VInt 0)) in
      reject_if (a <? b)%Z "stale_wal_receipt");
     (let! c := py_int (vget_or operation "cas_version" (VInt (-1))) in
      reject_if (negb (cas_version =? c)%Z) "stale_cas_version");
     reject_if (negb (truthy (vget operation "validation_plan_ref"))) "missing_validation_plan";
     reject_if (negb (truthy (vget operation "rollback_plan_ref"))) "missing_rollback_plan"].

(** [policy_counters] after the decision. *)
Definition decision_counters (observed : dict) (approved : bool) : res dict :=
  let! updates := mapM (fun key => let! n := py_int (vget_or observed key (VInt 0)) in Ok (key, VInt n))
                    P118_AUTHORITY_COUNTER_KEYS in
  let c := fold_left (fun c kv => dset c kv.1 kv.2) updates empty_p118_policy_counters in
  let c := dset c (if approved then "approvals" else "rejections") (VInt 1) in
  Ok (dset c "fail_closed_decisions" (VInt (if approved then 0 else 1))).

Definition context_dict (operation_context_hash : val) (verification_hash verification_expires_at
    policy_hash lease_expires_at lease_receipt_hash wal_receipt_hash wal_position cas_version
    decided_at : val) (counters policy_counters : dict) : dict :=
  [("operation_context_hash", operation_context_hash);
   ("verification_hash", verification_hash);
   ("verification_expires_at", verification_expires_at);
   ("policy_hash", policy_hash);
   ("lease_expires_at", lease_expires_at);
   ("lease_receipt_hash", lease_receipt_hash);
   ("wal_receipt_hash", wal_receipt_hash);
   ("wal_position", wal_position);
   ("cas_version", cas_version);
   ("decided_at", decided_at);
   ("counters", VDict counters);
   ("policy_counters", VDict policy_counters)].

Definition decide_p118_approval (operation : P118OperationEnvelope)
    (verification : P118ActionPackVerificationResult) (policy_hash : string) (now : Z)
    (lease_receipt wal_receipt : dict) (cas_version : Z) (observed_counters : option dict)
  : res P118ApprovalDecision :=
  let! p := to_dict operation in
  let observed := default empty_p118_policy_counters observed_counters in
  let! reason := rejection_reason p verification policy_hash lease_receipt wal_receipt cas_version
                   observed now in
  let approved := match reason with None => true | Some _ => false end in
  let! policy_counters := decision_counters observed approved in
  let nonlocal_zero := forallb (fun key => py_eq (vget policy_counters key) (VInt 0))
                         P118_AUTHORITY_COUNTER_KEYS in
  let decision_reason := match reason with None => "approved" | Some r => r end in
  let authority_snapshot := map (fun key => (key, vget policy_counters key)) P118_AUTHORITY_COUNTER_KEYS in
  let operation_context_hash := p118_operation_context_hash p in
  let context := context_dict (VStr operation_context_hash)
    (VStr (vr_verification_hash verification)) (VInt (vr_expires_at verification)) (VStr policy_hash)
    (vget lease_receipt "expires_at") (vget lease_receipt "receipt_hash")
    (vget wal_receipt "receipt_hash") (vget wal_receipt "wal_position") (VInt cas_version) (VInt now)
    authority_snapshot policy_counters in
  let approval_context_hash := stable_hash (VDict context) in
  let base : dict :=
    [("schema_version", VStr P118_APPROVAL_DECISION_SCHEMA_VERSION);
     ("approved", VBool approved);
     ("reason", VStr decision_reason);
     ("policy_hash", VStr policy_hash);
     ("operation_id", VStr (operation_id operation));
     ("verification_hash", VStr (vr_verification_hash verification));
     ("verification_expires_at", VInt (vr_expires_at verification));
     ("lease_expires_at", vget lease_receipt "expires_at");
     ("lease_receipt_hash", vget lease_receipt "receipt_hash");
     ("wal_receipt_hash", vget wal_receipt "receipt_hash");
     ("wal_position", vget wal_receipt "wal_position");
     ("cas_version", VInt cas_version);
     ("decided_at", VInt now);
     ("operation_context_hash", VStr operation_context_hash);
     ("approval_context_hash", VStr approval_context_hash);
     ("counters", VDict authority_snapshot);
     ("policy_counters", VDict policy_counters);
     ("authority_counter_snapshot", VDict authority_snapshot);
     ("nonlocal_authority_zero", VBool nonlocal_zero)] in
  let! lease_expires_at := py_int (vget_or lease_receipt "expires_at" (VInt (-1))) in
  let! wal_position := py_int (vget_or wal_receipt "wal_position" (VInt (-1))) in
  Ok {| ad_approved := approved; ad_reason := decision_reason; ad_policy_hash := policy_hash;
        ad_operation_id := operation_id operation;
        ad_verification_hash := vr_verification_hash verification;
        ad_verification_expires_at := vr_expires_at verification;
        ad_lease_expires_at := lease_expires_at;
        ad_lease_receipt_hash := py_str (vget_or lease_receipt "receipt_hash" (VStr ""));
        ad_wal_receipt_hash := py_str (vget_or wal_receipt "receipt_hash" (VStr ""));
        ad_wal_position := wal_position;
        ad_cas_version := cas_version; ad_decided_at := now;
        ad_operation_context_hash := operation_context_hash;
        ad_approval_context_hash := approval_context_hash;
        ad_counters := authority_snapshot; ad_policy_counters := policy_counters;
        ad_authority_counter_snapshot := authority_snapshot;
        ad_nonlocal_authority_zero := nonlocal_zero;
        ad_decision_hash := stable_hash (VDict base) |}.

(** ** Validation of a decision receipt *)

Definition hash_field (receipt : dict) (field : string) : bool :=
  match vget receipt field with VStr s => sha256_ref s | _ => false end.

Definition int_field (receipt : dict) (field : string) : bool :=
  match vget receipt field with VInt _ => true | _ => false end.

Definition subset (a b : list string) : bool := forallb (fun k => mem k b) a.

(** The policy counters of a receipt: exactly the known keys, integers, the
    authority ones zero. *)
Definition policy_counters_ok (v : val) : bool :=
  match v with
  | VDict c =>
      subset (dkeys c) POLICY_COUNTER_KEYS && subset POLICY_COUNTER_KEYS (dkeys c) &&
      forallb (int_field c) POLICY_COUNTER_KEYS &&
      forallb (fun key => py_eq (vget c key) (VInt 0)) P118_AUTHORITY_COUNTER_KEYS
  | _ => false
  end.

(** [x is None or f(x)] *)
Definition if_given {A} (o : option A) (f : A -> bool) : bool :=
  match o with None => true | Some x => f x end.

Definition int_of (v : val) : Z := match v with VInt z => z | _ => 0 end.

Definition validate_p118_approval_decision_receipt (receipt : dict) (operation : option dict)
    (verification_hash : option string) (lease_receipt wal_receipt : option dict)
    (cas_version now : option Z) : bool :=
  if negb (py_eq (vget receipt "schema_version") (VStr P118_APPROVAL_DECISION_SCHEMA_VERSION)) ||
     negb (validate_p118_receipt_self_hash receipt "decision_hash") then false
  else if negb (forallb (hash_field receipt)
       ["policy_hash"; "verification_hash"; "lease_receipt_hash"; "wal_receipt_hash";
        "operation_context_hash"; "approval_context_hash"]) then false
  else if negb (forallb (int_field receipt)
       ["verification_expires_at"; "lease_expires_at"; "wal_position"; "cas_version"; "decided_at"]) then false
  else
    match validate_exact_zero_authority_counters (vget receipt "counters"),
          validate_exact_zero_authority_counters (vget receipt "authority_counter_snapshot"),
          vget receipt "policy_counters" with
    | Ok counters, Ok snapshot, VDict policy_counters =>
        if negb (py_eq (VDict counters) (VDict snapshot)) then false
        else if negb (policy_counters_ok (VDict policy_counters)) then false
        else
          let context := context_dict (vget receipt "operation_context_hash")
            (vget receipt "verification_hash") (vget receipt "verification_expires_at")
            (vget receipt "policy_hash") (vget receipt "lease_expires_at")
            (vget receipt "lease_receipt_hash") (vget receipt "wal_receipt_hash")
            (vget receipt "wal_position") (vget receipt "cas_version") (vget receipt "decided_at")
            counters policy_counters in
          py_eq (vget receipt "approval_context_hash") (VStr (stable_hash (VDict context))) &&
          if_given operation (fun op =>
            py_eq (vget receipt "operation_id") (vget op "operation_id") &&
            py_eq (vget receipt "operation_context_hash") (VStr (p118_operation_context_hash op))) &&
          if_given verification_hash (fun h => py_eq (vget receipt "verification_hash") (VStr h)) &&
          if_given lease_receipt (fun l =>
            validate_p118_receipt_self_hash l "receipt_hash" &&
            py_eq (vget receipt "lease_receipt_hash") (vget l "receipt_hash") &&
            py_eq (vget receipt "lease_expires_at") (vget l "expires_at")) &&
          if_given wal_receipt (fun w =>
            validate_p118_receipt_self_hash w "receipt_hash" &&
            py_eq (vget receipt "wal_receipt_hash") (vget w "receipt_hash") &&
            py_eq (vget receipt "wal_position") (vget w "wal_position")) &&
          if_given cas_version (fun c => py_eq (vget receipt "cas_version") (VInt c)) &&
          if_given now (fun t =>
            (t <? int_of (vget receipt "verification_expires_at"))%Z &&
            (t <? int_of (vget receipt "lease_expires_at"))%Z &&
            (int_of (vget receipt "decided_at") <=? t)%Z)
    | _, _, _ => false
    end.

(** ** Lemmas on the decision *)

Lemma first_reason_none l :
  first_reason l = Ok None <-> Forall (fun r => r = Ok None) l.
Proof.
  induction l as [|r l IH]; simpl; [by split|]. rewrite Forall_cons, <- IH. split.
  - intros ([s|] & Hr & H)%bind_ok; [done|]. auto.
  - intros [-> H]. exact H.
Qed.

Lemma reject_if_none b s : reject_if b s = Ok None <-> b = false.
Proof. unfold reject_if. destruct b; naive_solver. Qed.

Lemma self_hash_value r field :
  validate_p118_receipt_self_hash r field = true ->
  vget r field = VStr (stable_hash (VDict (dwithout [field] r))).
Proof.
  unfold validate_p118_receipt_self_hash. destruct (vget r field); try done. intros. bools. by subst.
Qed.

Lemma vget_dget d k v : vget d k = v -> v <> VNone -> dget d k = Some v.
Proof. unfold vget. destruct (dget d k); simpl; congruence. Qed.

Lemma vget_or_present d k v dflt : vget d k = v -> v <> VNone -> vget_or d k dflt = v.
Proof. intros H Hv. unfold vget_or. by rewrite (vget_dget d k v). Qed.

(** Counters all of whose authority keys are zero leave a decision with the
    zero authority counters. *)
Definition zero_observed (observed : dict) : Prop :=
  Forall (fun key => vget observed key = VInt 0) P118_AUTHORITY_COUNTER_KEYS.

Definition decided_counters (approved : bool) : dict :=
  exact_zero_authority_counters ++
  [("approvals", VInt (if approved then 1 else 0)); ("rejections", VInt (if approved then 0 else 1));
   ("rollback_attempts", VInt 0); ("duplicate_action_attempts", VInt 0);
   ("fail_closed_decisions", VInt (if approved then 0 else 1))].

Lemma decision_counters_zero observed approved :
  zero_observed observed -> decision_counters observed approved = Ok (decided_counters approved).
Proof.
  intros H. unfold decision_counters.
  assert (Hm : mapM (fun key => let! n := py_int (vget_or observed key (VInt 0)) in Ok (key, VInt n))
     P118_AUTHORITY_COUNTER_KEYS = Ok exact_zero_authority_counters).
  { apply mapM_ok. unfold exact_zero_authority_counters.
    revert H. unfold zero_observed. generalize P118_AUTHORITY_COUNTER_KEYS. induction 1; constructor; [|done].
    rewrite (vget_or_present _ _ (VInt 0)); [done | exact H | done]. }
  rewrite Hm. by destruct approved.
Qed.

Lemma rejection_reason_counters op v ph lease wal cas observed now :
  rejection_reason op v ph lease wal cas observed now = Ok None -> zero_observed observed.
Proof.
  unfold rejection_reason. intros H%first_reason_none.
  do 3 apply Forall_inv_tail in H. apply Forall_inv in H. apply (inj Ok) in H. unfold zero_observed. revert H.
  generalize P118_AUTHORITY_COUNTER_KEYS. intros l. induction l as [|k l IH]; [done|].
  cbn [first_some]. destruct (authority_counter_reason observed k) eqn:E; [done|].
  unfold authority_counter_reason in E. destruct (as_int _) as [z|] eqn:Ei; [|done].
  destruct (z =? 0) eqn:Ez; [|done]. apply as_int_some in Ei. bools. subst.
  intros H. constructor; [done | by apply IH].
Qed.

Lemma decided_counters_ok b : policy_counters_ok (VDict (decided_counters b)) = true.
Proof. by destruct b. Qed.

Lemma exact_zero_ok :
  validate_exact_zero_authority_counters (VDict exact_zero_authority_counters) =
  Ok exact_zero_authority_counters.
Proof. reflexivity. Qed.

(** The decision once its reason is known and the counters it observed are
    zero. *)
Lemma decide_zero op v ph now lease wal cas obs d p :
  decide_p118_approval op v ph now lease wal cas obs = Ok d -> to_dict op = Ok p ->
  zero_observed (default empty_p118_policy_counters obs) ->
  exists reason,
    rejection_reason p v ph lease wal cas (default empty_p118_policy_counters obs) now = Ok reason /\
    ad_approved d = (match reason with None => true | Some _ => false end) /\
    ad_reason d = default "approved" reason /\
    ad_counters d = exact_zero_authority_counters /\
    ad_authority_counter_snapshot d = exact_zero_authority_counters /\
    ad_policy_counters d = decided_counters (ad_approved d) /\ ad_nonlocal_authority_zero d = true.
Proof.
  unfold decide_p118_approval. intros H Hp Hz. rewrite Hp in H. cbn [bind] in H.
  apply bind_ok in H as (reason & Hr & H). rewrite decision_counters_zero in H by done.
  cbn [bind] in H. apply bind_ok in H as (le & _ & H). apply bind_ok in H as (wp & _ & [= <-]).
  exists reason. split; [done|]. destruct reason; split_and!; reflexivity.
Qed.

Lemma context_hash_ref p : sha256_ref (p118_operation_context_hash p) = true.
Proof. apply sha256_ref_stable_hash. Qed.

#[local] Opaque stable_hash p118_operation_context_hash.

Lemma decision_fields op v ph now lease wal cas obs d p le wp lh wh :
  decide_p118_approval op v ph now lease wal cas obs = Ok d -> to_dict op = Ok p ->
  zero_observed (default empty_p118_policy_counters obs) ->
  vget lease "receipt_hash" = VStr lh -> vget wal "receipt_hash" = VStr wh ->
  vget lease "expires_at" = VInt le -> vget wal "wal_position" = VInt wp ->
  ad_policy_hash d = ph /\ ad_operation_id d = operation_id op /\
  ad_verification_hash d = vr_verification_hash v /\ ad_verification_expires_at d = vr_expires_at v /\
  ad_lease_expires_at d = le /\ ad_lease_receipt_hash d = lh /\ ad_wal_receipt_hash d = wh /\
  ad_wal_position d = wp /\ ad_cas_version d = cas /\ ad_decided_at d = now /\
  ad_operation_context_hash d = p118_operation_context_hash p /\
  ad_counters d = exact_zero_authority_counters /\
  ad_authority_counter_snapshot d = exact_zero_authority_counters /\
  ad_policy_counters d = decided_counters (ad_approved d) /\
  ad_approval_context_hash d = stable_hash (VDict (context_dict
    (VStr (p118_operation_context_hash p))
    (VStr (vr_verification_hash v)) (VInt (vr_expires_at v)) (VStr ph) (VInt le) (VStr lh) (VStr wh)
    (VInt wp) (VInt cas) (VInt now) exact_zero_authority_counters (decided_counters (ad_approved d)))) /\
  ad_decision_hash d = stable_hash (VDict (dwithout ["decision_hash"] (decision_to_dict d))).
Proof.
  unfold decide_p118_approval. intros H Hp Hz Hlh Hwh Hle Hwp. rewrite Hp in H. cbn [bind] in H.
  apply bind_ok in H as (reason & Hr & H). rewrite decision_counters_zero in H by done.
  cbn [bind] in H. rewrite !(vget_or_present lease _ _ _ Hle), !(vget_or_present wal _ _ _ Hwp) in H by done.
  rewrite !(vget_or_present lease _ _ _ Hlh), !(vget_or_present wal _ _ _ Hwh) in H by done.
  rewrite Hlh, Hwh, Hle, Hwp in H.
  assert (Hs : map (fun key => (key, vget (decided_counters
      (match reason with None => true | Some _ => false end)) key)) P118_AUTHORITY_COUNTER_KEYS =
    exact_zero_authority_counters) by (by destruct reason).
  rewrite Hs in H. injection H as <-. split_and!; reflexivity.
Qed.

Lemma receipt_validates op v ph now lease wal cas obs d p le wp :
  decide_p118_approval op v ph now lease wal cas obs = Ok d -> to_dict op = Ok p ->
  vget p "operation_id" = VStr (operation_id op) ->
  zero_observed (default empty_p118_policy_counters obs) ->
  sha256_ref ph = true -> sha256_ref (vr_verification_hash v) = true ->
  validate_p118_receipt_self_hash lease "receipt_hash" = true ->
  validate_p118_receipt_self_hash wal "receipt_hash" = true ->
  vget lease "expires_at" = VInt le -> vget wal "wal_position" = VInt wp ->
  now < vr_expires_at v -> now < le ->
  validate_p118_approval_decision_receipt (decision_to_dict d) (Some p) (Some (vr_verification_hash v))
    (Some lease) (Some wal) (Some cas) (Some now) = true.
Proof.
  intros Hd Hp Hid Hz Hph Hvh Hl Hw Hle Hwp Hv1 Hv2.
  apply self_hash_value in Hl as Hlh. apply self_hash_value in Hw as Hwh.
  destruct (decision_fields _ _ _ _ _ _ _ _ _ _ _ _ _ _ Hd Hp Hz Hlh Hwh Hle Hwp)
    as (E1 & E2 & E3 & E4 & E5 & E6 & E7 & E8 & E9 & E10 & E11 & E12 & E13 & E14 & E15 & E16).
  set (r := decision_to_dict d) in *.
  assert (Hself : validate_p118_receipt_self_hash r "decision_hash" = true).
  { unfold validate_p118_receipt_self_hash.
    change (vget r "decision_hash") with (VStr (ad_decision_hash d)). rewrite E16. apply eqs_refl. }
  assert (Hhashes : forallb (hash_field r)
       ["policy_hash"; "verification_hash"; "lease_receipt_hash"; "wal_receipt_hash";
        "operation_context_hash"; "approval_context_hash"] = true).
  { change (sha256_ref (ad_policy_hash d) && (sha256_ref (ad_verification_hash d) &&
      (sha256_ref (ad_lease_receipt_hash d) && (sha256_ref (ad_wal_receipt_hash d) &&
      (sha256_ref (ad_operation_context_hash d) && (sha256_ref (ad_approval_context_hash d) && true)))))
      = true).
    rewrite E1, E3, E6, E7, E11, E15, Hph, Hvh. rewrite !sha256_ref_stable_hash.
    by rewrite context_hash_ref. }
  unfold validate_p118_approval_decision_receipt. rewrite Hself, Hhashes.
  change (py_eq (vget r "schema_version") (VStr P118_APPROVAL_DECISION_SCHEMA_VERSION)) with true.
  change (forallb (int_field r) _) with true. cbn [negb orb].
  change (vget r "counters") with (VDict (ad_counters d)).
  change (vget r "authority_counter_snapshot") with (VDict (ad_authority_counter_snapshot d)).
  change (vget r "policy_counters") with (VDict (ad_policy_counters d)).
  rewrite E12, E13, E14, exact_zero_ok, decided_counters_ok.
  change (py_eq (VDict exact_zero_authority_counters) (VDict exact_zero_authority_counters)) with true.
  cbn [negb if_given].
  change (vget r "operation_context_hash") with (VStr (ad_operation_context_hash d)).
  change (vget r "verification_hash") with (VStr (ad_verification_hash d)).
  change (vget r "verification_expires_at") with (VInt (ad_verification_expires_at d)).
  change (vget r "policy_hash") with (VStr (ad_policy_hash d)).
  change (vget r "lease_expires_at") with (VInt (ad_lease_expires_at d)).
  change (vget r "lease_receipt_hash") with (VStr (ad_lease_receipt_hash d)).
  change (vget r "wal_receipt_hash") with (VStr (ad_wal_receipt_hash d)).
  change (vget r "wal_position") with (VInt (ad_wal_position d)).
  change (vget r "cas_version") with (VInt (ad_cas_version d)).
  change (vget r "decided_at") with (VInt (ad_decided_at d)).
  change (vget r "approval_context_hash") with (VStr (ad_approval_context_hash d)).
  change (vget r "operation_id") with (VStr (ad_operation_id d)).
  rewrite E1, E2, E3, E4, E5, E6, E7, E8, E9, E10, E11, E15, Hl, Hw, Hlh, Hwh, Hle, Hwp, Hid.
  rewrite !py_eq_refl by done. cbn [int_of andb].
  rewrite (proj2 (Z.ltb_lt _ _) Hv1), (proj2 (Z.ltb_lt _ _) Hv2), Z.leb_refl. done.
Qed.

(** ** Properties *)

(** An approval is bound to what was verified.  When an operation is
    approved, the pack verification was accepted, hashes to itself, is fresh
    and names the operation's own episode, pack and digest; the lease is
    unexpired, hashes to itself and belongs to the owner and the operation at
    this version; so does the write-ahead receipt, at this position or later;
    and every authority counter is zero. *)
Theorem approval_is_bound op v ph now lease wal cas obs d p :
  decide_p118_approval op v ph now lease wal cas obs = Ok d -> to_dict op = Ok p ->
  ad_approved d = true ->
  vr_accepted v = true /\
  vr_verification_hash v = stable_hash (VDict (dwithout ["verification_hash"] (verification_to_dict v))) /\
  now < vr_expires_at v /\
  vget p "p117_decision_episode_id" = VStr (vr_p117_decision_episode_id v) /\
  vget p "p117_selected_action_pack_id" = VStr (vr_action_pack_id v) /\
  vget p "p115_action_pack_digest" = VStr (vr_pack_digest v) /\
  (exists owner, owner <> "" /\ vget lease "owner_id" = VStr owner /\
     owner = py_str (vget_or (mapping (vget p "lease_receipt")) "owner_id" (VStr ""))) /\
  py_eq (vget lease "operation_id") (vget p "operation_id") = true /\
  (exists expires, as_int_or_bool (vget lease "expires_at") = Some expires /\ now < expires) /\
  py_eq (vget lease "cas_version") (VInt cas) = true /\
  validate_p118_receipt_self_hash lease "receipt_hash" = true /\
  validate_p118_receipt_self_hash wal "receipt_hash" = true /\
  py_eq (vget wal "operation_id") (vget p "operation_id") = true /\
  py_eq (vget wal "cas_version") (VInt cas) = true /\
  (exists at_ from, py_int (vget_or wal "wal_position" (VInt (-1))) = Ok at_ /\
     py_int (vget_or p "wal_position" (VInt 0)) = Ok from /\ from <= at_) /\
  ad_authority_counter_snapshot d = exact_zero_authority_counters /\ ad_nonlocal_authority_zero d = true.
Proof.
  intros Hd Hp Happ. assert (Hd' := Hd). unfold decide_p118_approval in Hd. rewrite Hp in Hd.
  cbn [bind] in Hd. apply bind_ok in Hd as (reason & Hr & Hd).
  apply bind_ok in Hd as (pc & _ & Hd). apply bind_ok in Hd as (? & _ & Hd).
  apply bind_ok in Hd as (? & _ & [= <-]). cbn [ad_approved] in Happ.
  destruct reason; [done|]. pose proof (rejection_reason_counters _ _ _ _ _ _ _ _ Hr) as Hz.
  destruct (decide_zero _ _ _ _ _ _ _ _ _ _ Hd' Hp Hz) as (_ & _ & _ & _ & _ & Hs & _ & Hn).
  unfold rejection_reason in Hr. apply first_reason_none in Hr. do 4 apply Forall_inv_tail in Hr.
  do 15 (let h := fresh "R" in pose proof (Forall_inv Hr) as h; apply Forall_inv_tail in Hr).
  clear Hr. rewrite reject_if_none in R, R0, R1, R2, R3, R4, R5, R6, R7, R8, R9, R10, R11, R12.
  rename R13 into Hpos, R5 into Hown, R7 into Hlexp.
  apply orb_false_iff in Hown as [Ho1 Ho2]. apply negb_false_iff in Ho2. apply py_eq_str in Ho2.
  apply bind_ok in Hpos as (a & Ha & (b & Hb & Hab%reject_if_none)%bind_ok).
  bools. apply py_eq_str_l in R2, R3, R4. unfold is_empty in Ho1. bools.
  split_and!; try done.
  - by eexists.
  - destruct (as_int_or_bool _) as [ex|]; [|done]. bools. by exists ex.
  - by exists a, b.
Qed.

(** A decision's receipt validates against everything it was taken on:
    the operation, the verification, the lease, the write-ahead receipt, the
    version and the time.  This holds for a rejection as for an approval: the
    validation does not look at the verdict. *)
Theorem decision_receipt_validates op v ph now lease wal cas obs d p le wp :
  decide_p118_approval op v ph now lease wal cas obs = Ok d -> to_dict op = Ok p ->
  vget p "operation_id" = VStr (operation_id op) ->
  zero_observed (default empty_p118_policy_counters obs) ->
  sha256_ref ph = true -> sha256_ref (vr_verification_hash v) = true ->
  validate_p118_receipt_self_hash lease "receipt_hash" = true ->
  validate_p118_receipt_self_hash wal "receipt_hash" = true ->
  vget lease "expires_at" = VInt le -> vget wal "wal_position" = VInt wp ->
  now < vr_expires_at v -> now < le ->
  validate_p118_approval_decision_receipt (decision_to_dict d) (Some p) (Some (vr_verification_hash v))
    (Some lease) (Some wal) (Some cas) (Some now) = true.
Proof. apply receipt_validates. Qed.

(** ** Witnesses *)

(** A receipt that hashes to itself. *)
Definition sealed (field : string) (d : dict) : dict := d ++ [(field, VStr (stable_hash (VDict d)))].

Lemma sealed_ok field d :
  dwithout [field] d = d -> dget d field = None ->
  validate_p118_receipt_self_hash (sealed field d) field = true.
Proof.
  intros Hw Hg. unfold validate_p118_receipt_self_hash, sealed.
  assert (E : vget (d ++ [(field, VStr (stable_hash (VDict d)))]) field = VStr (stable_hash (VDict d))).
  { unfold vget. clear Hw. revert Hg. generalize (stable_hash (VDict d)). intros h.
    induction d as [|[k v] d IH]; simpl; [by rewrite eqs_refl|]. destruct (field =s k); [done | exact IH]. }
  rewrite E. unfold dwithout in *. rewrite List.filter_app, Hw. simpl.
  rewrite eqs_refl. simpl. rewrite app_nil_r. apply eqs_refl.
Qed.

Definition demo_lease : dict :=
  sealed "receipt_hash"
    [("operation_id", VStr "op-1"); ("owner_id", VStr "worker-1"); ("expires_at", VInt 100);
     ("cas_version", VInt 0)].

Definition demo_wal : dict :=
  sealed "receipt_hash" [("operation_id", VStr "op-1"); ("wal_position", VInt 0); ("cas_version", VInt 0)].

Lemma demo_lease_ok : validate_p118_receipt_self_hash demo_lease "receipt_hash" = true.
Proof. by apply sealed_ok. Qed.

Lemma demo_wal_ok : validate_p118_receipt_self_hash demo_wal "receipt_hash" = true.
Proof. by apply sealed_ok. Qed.

Definition unsealed_verification (accepted : bool) (hash : string) : P118ActionPackVerificationResult := {|
  vr_accepted := accepted; vr_action_pack_id := "pack-1"; vr_pack_digest := demo_digest;
  vr_signer_id := "signer"; vr_signer_key_id := "signer"; vr_p117_decision_episode_id := "episode-1";
  vr_p117_output_hash := demo_digest; vr_revocation_manifest_hash := demo_digest;
  vr_expiration_checked_at := 0; vr_expires_at := 100;
  vr_authority_counter_snapshot := exact_zero_authority_counters; vr_verification_hash := hash |}.

(** A verification that hashes to itself, accepted or not. *)
Definition demo_verification (accepted : bool) : P118ActionPackVerificationResult :=
  unsealed_verification accepted
    (stable_hash (VDict (dwithout ["verification_hash"]
       (verification_to_dict (unsealed_verification accepted ""))))).

(** A payload the demonstration verification, lease and receipt are about. *)
Definition demo_like (p : dict) : Prop :=
  vget p "operation_id" = VStr "op-1" /\ vget p "p117_decision_episode_id" = VStr "episode-1" /\
  vget p "p117_selected_action_pack_id" = VStr "pack-1" /\
  vget p "p115_action_pack_digest" = VStr demo_digest /\
  py_str (vget_or (mapping (vget p "lease_receipt")) "owner_id" (VStr "")) = "worker-1" /\
  vget_or p "wal_position" (VInt 0) = VInt 0 /\ vget_or p "cas_version" (VInt (-1)) = VInt 0 /\
  truthy (vget p "validation_plan_ref") = true /\ truthy (vget p "rollback_plan_ref") = true.

Lemma demo_payload_like : demo_like (demo_payload demo_operation).
Proof. unfold demo_like. split_and!; vm_compute; reflexivity. Qed.

#[local] Opaque demo_operation demo_payload.

Lemma demo_reason p accepted :
  demo_like p ->
  rejection_reason p (demo_verification accepted) demo_digest demo_lease
    demo_wal 0 empty_p118_policy_counters 10 =
  Ok (if accepted then None else Some "pack_not_verified").
Proof.
  destruct accepted; [|reflexivity].
  intros (Hid & Hep & Hpk & Hdg & Hown & Hpos & Hcas & Hv & Hr).
  unfold rejection_reason. rewrite Hid, Hep, Hpk, Hdg, Hown, Hpos, Hcas, Hv, Hr.
  apply first_reason_none.
  repeat (apply Forall_cons_2;
    [match goal with
     | |- context [validate_p118_receipt_self_hash] =>
         apply reject_if_none; rewrite negb_false_iff; by apply sealed_ok
     | |- context [verification_to_dict] =>
         apply reject_if_none; rewrite negb_false_iff; apply eqs_refl
     | _ => reflexivity
     end|]).
  apply Forall_nil_2.
Qed.

Lemma demo_decision op p accepted :
  to_dict op = Ok p -> demo_like p ->
  exists d, decide_p118_approval op (demo_verification accepted) demo_digest 10 demo_lease
    demo_wal 0 None = Ok d /\ ad_approved d = accepted.
Proof.
  intros Hp Hl. unfold decide_p118_approval. rewrite Hp. cbn [bind default].
  rewrite demo_reason by done. cbn [bind]. rewrite decision_counters_zero by (by repeat constructor).
  cbn [bind].
  change (py_int (vget_or demo_lease "expires_at" (VInt (-1)))) with (Ok 100).
  change (py_int (vget_or demo_wal "wal_position" (VInt (-1)))) with (Ok 0). cbn [bind].
  eexists. split; [reflexivity|]. cbn [ad_approved]. by destruct accepted.
Qed.

Lemma approval_is_bound_witness :
  exists d, decide_p118_approval demo_operation (demo_verification true) demo_digest 10 demo_lease
    demo_wal 0 None = Ok d /\ ad_authority_counter_snapshot d = exact_zero_authority_counters.
Proof.
  destruct demo_facts as (Hp & _). destruct (demo_decision _ _ true Hp demo_payload_like) as (d & Hd & Ha). exists d.
  split; [exact Hd|].
  destruct (approval_is_bound _ _ _ _ _ _ _ _ _ _ Hd Hp Ha)
    as (_ & _ & _ & _ & _ & _ & _ & _ & _ & _ & _ & _ & _ & _ & _ & H & _). exact H.
Defined.

(** A rejection whose receipt validates. *)
Lemma decision_receipt_validates_witness :
  exists d, ad_approved d = false /\
    validate_p118_approval_decision_receipt (decision_to_dict d) (Some (demo_payload demo_operation))
      (Some (vr_verification_hash (demo_verification false))) (Some demo_lease) (Some demo_wal)
      (Some 0) (Some 10) = true.
Proof.
  destruct demo_facts as (Hp & _ & _ & Ho & _). destruct demo_payload_like as (Hid & _).
  destruct (demo_decision _ _ false Hp demo_payload_like) as (d & Hd & Ha). exists d. split; [exact Ha|].
  apply (decision_receipt_validates demo_operation (demo_verification false) demo_digest 10 demo_lease
    demo_wal 0 None d (demo_payload demo_operation) 100 0 Hd Hp).
  - by rewrite Ho.
  - by repeat constructor.
  - reflexivity.
  - apply sha256_ref_stable_hash.
  - by apply sealed_ok.
  - by apply sealed_ok.
  - reflexivity.
  - reflexivity.
  - reflexivity.
  - reflexivity.
Defined.
