(* ===== verification/P118Cycle.v ===== *)
(** * The P118 validation cycle

    Models app/services/p118_validation_cycle.py: the checks an operation
    passes before a fixture is judged, and the judgement of its observations. *)

From S2P Require Import Prelude PyValue Sha Json P118Contract P118Ledger P118Approval.

Record FixtureActionAdapter := {
  fa_before : dict;
  fa_after : dict;
  fa_rollback_after : dict;
  fa_validation_plan_ref : string;
  fa_rollback_plan_ref : string;
}.

Record P118ValidationCycleResult := {
  vc_final_status : string;
  vc_optimistic_success_count : Z;
  vc_missing_postcheck_success_count : Z;
  vc_rollback_without_evidence_count : Z;
  vc_precheck_evidence_hash : option string;
  vc_postcheck_evidence_hash : option string;
  vc_rollback_evidence_hash : option string;
  vc_rollback_attempt_count : Z;
  vc_rollback_failure_visible : bool;
  vc_authority_counter_snapshot : dict;
}.

Definition cycle_to_dict (r : P118ValidationCycleResult) : dict :=
  let h o := match o with Some s => VStr s | None => VNone end in
  [("final_status", VStr (vc_final_status r));
   ("optimistic_success_count", VInt (vc_optimistic_success_count r));
   ("missing_postcheck_success_count", VInt (vc_missing_postcheck_success_count r));
   ("rollback_without_evidence_count", VInt (vc_rollback_without_evidence_count r));
   ("precheck_evidence_hash", h (vc_precheck_evidence_hash r));
   ("postcheck_evidence_hash", h (vc_postcheck_evidence_hash r));
   ("rollback_evidence_hash", h (vc_rollback_evidence_hash r));
   ("rollback_attempt_count", VInt (vc_rollback_attempt_count r));
   ("rollback_failure_visible", VBool (vc_rollback_failure_visible r));
   ("authority_counter_snapshot", VDict (vc_authority_counter_snapshot r))].

Definition cycle_result (status : string) (counters : dict) (pre_hash post_hash rollback_hash : option string)
    (rollback_attempts : Z) (rollback_failure : bool) : P118ValidationCycleResult := {|
  vc_final_status := status;
  vc_optimistic_success_count := 0;
  vc_missing_postcheck_success_count := 0;
  vc_rollback_without_evidence_count := 0;
  vc_precheck_evidence_hash := pre_hash;
  vc_postcheck_evidence_hash := post_hash;
  vc_rollback_evidence_hash := rollback_hash;
  vc_rollback_attempt_count := rollback_attempts;
  vc_rollback_failure_visible := rollback_failure;
  vc_authority_counter_snapshot := counters |}.

(** [v.get(key)] *)
Definition attr_get (v : val) (key : string) : res val :=
  match v with
  | VDict d => Ok (vget d key)
  | _ => Raise (Exn "AttributeError" "object has no attribute 'get'")
  end.

Definition contract_ensure (b : bool) (msg : string) : res unit := ensure b (P118ContractError msg).

(** The body of the [try] statement. *)
Definition cycle_checks (operation : P118OperationEnvelope) (adapter : FixtureActionAdapter)
    (approval_receipt : dict) (lease_owner_id : string) (wal_receipt : dict) (cas now : Z) : res unit :=
  let! p := to_dict operation in
  let! _ := reject_authority_boundary (VDict (fa_before adapter)) in
  let! _ := reject_authority_boundary (VDict (fa_after adapter)) in
  let! _ := reject_authority_boundary (VDict (fa_rollback_after adapter)) in
  let! _ := contract_ensure (match vget approval_receipt "approved" with VBool true => true | _ => false end)
              "operation_not_approved" in
  let! _ := contract_ensure
    (validate_p118_approval_decision_receipt approval_receipt (Some p)
       (Some (py_str (vget_or (mapping (vget p "approval_receipt")) "verification_hash" (VStr ""))))
       (Some (mapping (vget p "lease_receipt"))) (Some wal_receipt) (Some cas) (Some now))
    "invalid_approval_receipt" in
  let! _ := contract_ensure (py_eq (vget approval_receipt "operation_id") (vget p "operation_id"))
              "approval_operation_mismatch" in
  let receipt := vget_or p "approval_receipt" (VDict []) in
  let! vh := attr_get receipt "verification_hash" in
  let! _ := contract_ensure (py_eq (vget approval_receipt "verification_hash") vh)
              "approval_verification_mismatch" in
  let! ph := attr_get receipt "policy_hash" in
  let! _ := contract_ensure (py_eq (vget approval_receipt "policy_hash") ph) "approval_policy_mismatch" in
  let lease := vget_or p "lease_receipt" (VDict []) in
  let! owner := attr_get lease "owner_id" in
  let! _ := contract_ensure (py_eq owner (VStr lease_owner_id)) "lease_owner_mismatch" in
  let! lop := attr_get lease "operation_id" in
  let! _ := contract_ensure (py_eq lop (vget p "operation_id")) "lease_operation_mismatch" in
  let! lcas := attr_get lease "cas_version" in
  let! _ := contract_ensure (py_eq lcas (VInt cas)) "lease_cas_mismatch" in
  let! _ := contract_ensure (validate_p118_receipt_self_hash (mapping lease) "receipt_hash")
              "invalid_lease_receipt" in
  let! _ := contract_ensure (validate_p118_receipt_self_hash wal_receipt "receipt_hash")
              "invalid_wal_receipt" in
  let! _ := contract_ensure (py_eq (vget wal_receipt "operation_id") (vget p "operation_id"))
              "wal_operation_mismatch" in
  let! _ := contract_ensure (py_eq (vget wal_receipt "cas_version") (VInt cas)) "wal_cas_mismatch" in
  let! _ := contract_ensure (py_eq (vget wal_receipt "wal_position") (vget p "wal_position"))
              "wal_position_mismatch" in
  let! c := vindex p "cas_version" in
  let! c := py_int c in
  let! _ := contract_ensure (cas =? c)%Z "cas_conflict" in
  let! _ := contract_ensure (py_eq (VStr (fa_validation_plan_ref adapter)) (vget p "validation_plan_ref"))
              "validation_plan_mismatch" in
  contract_ensure (py_eq (VStr (fa_rollback_plan_ref adapter)) (vget p "rollback_plan_ref"))
    "rollback_plan_mismatch".

Definition evidence_hash (oid phase : string) (observation : dict) : string :=
  stable_hash (VDict [("operation_id", VStr oid); ("phase", VStr phase); ("observation", VDict observation)]).

(** [d.get("healthy") is b] *)
Definition healthy_is (d : dict) (b : bool) : bool :=
  match vget d "healthy" with VBool b' => eqb b' b | _ => false end.

(** The judgement once the checks have passed. *)
Definition judge (oid : string) (adapter : FixtureActionAdapter) : P118ValidationCycleResult :=
  let counters := exact_zero_authority_counters in
  let before := fa_before adapter in
  let after := fa_after adapter in
  let pre_hash := Some (evidence_hash oid "precheck" before) in
  let post_hash := Some (evidence_hash oid "postcheck" after) in
  if healthy_is before false && healthy_is after true
  then cycle_result "succeeded" counters pre_hash post_hash None 0 false
  else
    let rollback := fa_rollback_after adapter in
    let rollback_hash := Some (evidence_hash oid "rollback_postcheck" rollback) in
    let status := if healthy_is before false && healthy_is rollback false
                  then "rolled_back" else "rollback_failed" in
    cycle_result status counters pre_hash post_hash rollback_hash 1 (status =s "rollback_failed").

Definition run_p118_validation_cycle (operation : P118OperationEnvelope) (adapter : FixtureActionAdapter)
    (approval_receipt : dict) (lease_owner_id : string) (wal_receipt : dict) (cas now : Z)
  : res P118ValidationCycleResult :=
  match cycle_checks operation adapter approval_receipt lease_owner_id wal_receipt cas now with
  | Ok _ => Ok (judge (operation_id operation) adapter)
  | Raise e =>
      if mem (exn_class e) ["P118ContractError"; "AttributeError"; "TypeError"]
      then Ok (cycle_result "aborted_fail_closed" exact_zero_authority_counters None None None 0 false)
      else Raise e
  end.

(** ** Properties *)

Lemma healthy_is_spec d b : healthy_is d b = true <-> vget d "healthy" = VBool b.
Proof.
  unfold healthy_is. destruct (vget d "healthy"); try (split; intros; congruence).
  rewrite eqb_true_iff. split; congruence.
Qed.

Lemma judge_status oid adapter :
  let st := vc_final_status (judge oid adapter) in
  st <> "aborted_fail_closed" /\
  (st = "succeeded" <-> vget (fa_before adapter) "healthy" = VBool false /\
                        vget (fa_after adapter) "healthy" = VBool true) /\
  (st = "rolled_back" <-> vget (fa_before adapter) "healthy" = VBool false /\
                          vget (fa_after adapter) "healthy" <> VBool true /\
                          vget (fa_rollback_after adapter) "healthy" = VBool false).
Proof.
  unfold judge. rewrite <- !healthy_is_spec.
  destruct (healthy_is (fa_before adapter) false), (healthy_is (fa_after adapter) true),
    (healthy_is (fa_rollback_after adapter) false); simpl; naive_solver.
Qed.

Lemma judge_evidence oid adapter :
  let r := judge oid adapter in
  (vc_final_status r = "succeeded" ->
     vc_precheck_evidence_hash r = Some (evidence_hash oid "precheck" (fa_before adapter)) /\
     vc_postcheck_evidence_hash r = Some (evidence_hash oid "postcheck" (fa_after adapter)) /\
     vc_rollback_attempt_count r = 0) /\
  (vc_final_status r = "rolled_back" ->
     vc_rollback_evidence_hash r =
       Some (evidence_hash oid "rollback_postcheck" (fa_rollback_after adapter)) /\
     vc_rollback_attempt_count r = 1).
Proof.
  unfold judge. destruct (_ && healthy_is (fa_after adapter) true); [split; [done | by intros]|].
  destruct (_ && _); split; done.
Qed.

Lemma cycle_checks_ok op adapter receipt owner wal cas now :
  cycle_checks op adapter receipt owner wal cas now = Ok tt ->
  vget receipt "approved" = VBool true /\
  exists p, to_dict op = Ok p /\
    validate_p118_approval_decision_receipt receipt (Some p)
      (Some (py_str (vget_or (mapping (vget p "approval_receipt")) "verification_hash" (VStr ""))))
      (Some (mapping (vget p "lease_receipt"))) (Some wal) (Some cas) (Some now) = true.
Proof.
  unfold cycle_checks. intros (p & Hp & H)%bind_ok.
  apply bind_ok in H as (? & _ & H). apply bind_ok in H as (? & _ & H). apply bind_ok in H as (? & _ & H).
  apply bind_ok in H as (? & Hap%ensure_ok & H). apply bind_ok in H as (? & Hv%ensure_ok & _).
  split; [|by exists p]. by destruct (vget receipt "approved") as [|[]| | | | | |].
Qed.

(** The verdict of a cycle is measured.  A cycle that returns [succeeded]
    passed every check, among them an approval that says [True] and whose
    receipt validates against the operation, its own lease, the write-ahead
    receipt, the version and the time; its fixture was observed unhealthy
    before and healthy after, and the evidence hashes are those of the two
    observations.  [rolled_back] needs the same checks and a restored
    unhealthy baseline with its evidence; when a check fails the verdict is
    [aborted_fail_closed] without any evidence. *)
Theorem cycle_verdict_is_measured op adapter receipt owner wal cas now r :
  run_p118_validation_cycle op adapter receipt owner wal cas now = Ok r ->
  let oid := operation_id op in
  (vc_final_status r = "aborted_fail_closed" <->
     cycle_checks op adapter receipt owner wal cas now <> Ok tt) /\
  (vc_final_status r = "aborted_fail_closed" ->
     vc_precheck_evidence_hash r = None /\ vc_postcheck_evidence_hash r = None /\
     vc_rollback_evidence_hash r = None) /\
  (vc_final_status r = "succeeded" <->
     cycle_checks op adapter receipt owner wal cas now = Ok tt /\
     vget (fa_before adapter) "healthy" = VBool false /\ vget (fa_after adapter) "healthy" = VBool true) /\
  (vc_final_status r = "succeeded" ->
     vget receipt "approved" = VBool true /\
     vc_precheck_evidence_hash r = Some (evidence_hash oid "precheck" (fa_before adapter)) /\
     vc_postcheck_evidence_hash r = Some (evidence_hash oid "postcheck" (fa_after adapter)) /\
     vc_rollback_attempt_count r = 0 /\
     exists p, to_dict op = Ok p /\
       validate_p118_approval_decision_receipt receipt (Some p)
         (Some (py_str (vget_or (mapping (vget p "approval_receipt")) "verification_hash" (VStr ""))))
         (Some (mapping (vget p "lease_receipt"))) (Some wal) (Some cas) (Some now) = true) /\
  (vc_final_status r = "rolled_back" ->
     vget (fa_before adapter) "healthy" = VBool false /\
     vget (fa_rollback_after adapter) "healthy" = VBool false /\
     vc_rollback_evidence_hash r =
       Some (evidence_hash oid "rollback_postcheck" (fa_rollback_after adapter)) /\
     vc_rollback_attempt_count r = 1).
Proof.
  unfold run_p118_validation_cycle. intros H. cbv zeta.
  destruct (cycle_checks op adapter receipt owner wal cas now) as [[]|e] eqn:Ec.
  - injection H as <-. pose proof (cycle_checks_ok _ _ _ _ _ _ _ Ec) as [Hap Hv].
    pose proof (judge_status (operation_id op) adapter) as (Hna & Hsucc & Hrb). cbv zeta in *.
    pose proof (judge_evidence (operation_id op) adapter) as (He1 & He2). cbv zeta in *.
    split; [split; [by intros ? | by intros []]|]. split; [by intros ?%Hna|].
    split; [rewrite Hsucc; split; [by intros [? ?] | by intros (_ & ? & ?)]|].
    split; [intros Hs; destruct (He1 Hs) as (? & ? & ?); split_and!; assumption|].
    intros Hs. destruct (He2 Hs) as [? ?]. apply Hrb in Hs as (? & _ & ?). split_and!; assumption.
  - destruct (mem _ _); [|done]. injection H as <-. cbn [vc_final_status cycle_result].
    split; [done|]. split; [done|]. split; [split; [done | by intros [? _]]|]. by split.
Qed.

(** ** Witness: an approved operation whose fixture recovers *)

Definition cycle_payload : dict :=
  [("operation_id", VStr "op-1"); ("p117_decision_episode_id", VStr "episode-1");
   ("p117_selected_action_pack_id", VStr "pack-1"); ("p115_action_pack_digest", VStr demo_digest);
   ("validation_plan_ref", VStr "validation:mock"); ("rollback_plan_ref", VStr "rollback:mock");
   ("approval_receipt", VDict [("verification_hash", VStr (vr_verification_hash (demo_verification true)));
                               ("policy_hash", VStr demo_digest)]);
   ("lease_receipt", VDict demo_lease); ("wal_position", VInt 0); ("cas_version", VInt 0)].

Definition cycle_operation : P118OperationEnvelope :=
  make_envelope "op-1" P118_OPERATION_SCHEMA_VERSION cycle_payload.

Definition healing_adapter : FixtureActionAdapter := {|
  fa_before := [("healthy", VBool false)]; fa_after := [("healthy", VBool true)];
  fa_rollback_after := [("healthy", VBool false)];
  fa_validation_plan_ref := "validation:mock"; fa_rollback_plan_ref := "rollback:mock" |}.

Lemma cycle_payload_like : demo_like cycle_payload.
Proof. unfold demo_like. split_and!; reflexivity. Qed.

Lemma cycle_operation_dict : to_dict cycle_operation = Ok cycle_payload.
Proof. by apply to_dict_make. Qed.

(** The checks pass on an operation that carries its receipts. *)
Lemma cycle_checks_intro op adapter receipt owner wal cas now p ar lr vh ph :
  to_dict op = Ok p ->
  reject_authority_boundary (VDict (fa_before adapter)) = Ok tt ->
  reject_authority_boundary (VDict (fa_after adapter)) = Ok tt ->
  reject_authority_boundary (VDict (fa_rollback_after adapter)) = Ok tt ->
  vget receipt "approved" = VBool true ->
  dget p "approval_receipt" = Some (VDict ar) -> dget p "lease_receipt" = Some (VDict lr) ->
  vget ar "verification_hash" = VStr vh -> vget ar "policy_hash" = VStr ph ->
  validate_p118_approval_decision_receipt receipt (Some p) (Some vh) (Some lr) (Some wal) (Some cas)
    (Some now) = true ->
  vget receipt "operation_id" = vget p "operation_id" -> val_wf (vget p "operation_id") ->
  vget receipt "verification_hash" = VStr vh -> vget receipt "policy_hash" = VStr ph ->
  vget lr "owner_id" = VStr owner -> vget lr "operation_id" = vget p "operation_id" ->
  vget lr "cas_version" = VInt cas ->
  validate_p118_receipt_self_hash lr "receipt_hash" = true ->
  validate_p118_receipt_self_hash wal "receipt_hash" = true ->
  vget wal "operation_id" = vget p "operation_id" -> vget wal "cas_version" = VInt cas ->
  vget wal "wal_position" = vget p "wal_position" -> val_wf (vget p "wal_position") ->
  dget p "cas_version" = Some (VInt cas) ->
  vget p "validation_plan_ref" = VStr (fa_validation_plan_ref adapter) ->
  vget p "rollback_plan_ref" = VStr (fa_rollback_plan_ref adapter) ->
  cycle_checks op adapter receipt owner wal cas now = Ok tt.
Proof.
  intros Hp H1 H2 H3 Hap Har Hlr Hvh Hph Hv Hid Hwf Hrv Hrp Hlo Hlop Hlc Hls Hws Hwo Hwc Hwp Hwf' Hc Hv1 Hv2.
  assert (Hvh' : vget_or ar "verification_hash" (VStr "") = VStr vh) by by apply vget_or_present.
  assert (Har' : vget_or p "approval_receipt" (VDict []) = VDict ar) by (unfold vget_or; by rewrite Har).
  assert (Hlr' : vget_or p "lease_receipt" (VDict []) = VDict lr) by (unfold vget_or; by rewrite Hlr).
  unfold cycle_checks, contract_ensure, vindex. rewrite Hp. cbn [bind].
  rewrite H1, H2, H3, Hap, Har', Hlr', Hc. cbn [bind ensure mapping attr_get].
  rewrite (vget_some p _ _ Har), (vget_some p _ _ Hlr). cbn [mapping]. rewrite Hvh'. cbn [py_str].
  rewrite Hv, Hid, Hvh, Hph, Hrv, Hrp, Hlo, Hlop, Hlc, Hls, Hws, Hwo, Hwc, Hwp, Hv1, Hv2.
  rewrite !py_eq_refl by done. cbn. by rewrite Z.eqb_refl.
Qed.

Lemma demo_cycle_checks d :
  decide_p118_approval cycle_operation (demo_verification true) demo_digest 10 demo_lease demo_wal 0 None
    = Ok d -> ad_approved d = true ->
  cycle_checks cycle_operation healing_adapter (decision_to_dict d) "worker-1" demo_wal 0 10 = Ok tt.
Proof.
  intros Hd Ha.
  assert (Hz : zero_observed (default empty_p118_policy_counters None)) by by repeat constructor.
  pose proof (receipt_validates cycle_operation (demo_verification true) demo_digest 10 demo_lease demo_wal
    0 None d cycle_payload 100 0 Hd cycle_operation_dict eq_refl Hz eq_refl
    (sha256_ref_stable_hash _) demo_lease_ok demo_wal_ok eq_refl eq_refl eq_refl eq_refl) as Hv.
  destruct (decision_fields _ _ _ _ _ _ _ _ _ _ 100 0 _ _ Hd cycle_operation_dict Hz
    (self_hash_value _ _ demo_lease_ok) (self_hash_value _ _ demo_wal_ok) eq_refl eq_refl)
    as (E1 & E2 & E3 & _).
  assert (G1 : vget (decision_to_dict d) "approved" = VBool true) by exact (f_equal VBool Ha).
  assert (G2 : vget (decision_to_dict d) "operation_id" = VStr "op-1") by exact (f_equal VStr E2).
  assert (G3 : vget (decision_to_dict d) "verification_hash" =
    VStr (vr_verification_hash (demo_verification true))) by exact (f_equal VStr E3).
  assert (G4 : vget (decision_to_dict d) "policy_hash" = VStr demo_digest) by exact (f_equal VStr E1).
  exact (cycle_checks_intro cycle_operation healing_adapter (decision_to_dict d) "worker-1" demo_wal 0 10
    cycle_payload _ demo_lease _ _ cycle_operation_dict eq_refl eq_refl eq_refl G1 eq_refl eq_refl
    eq_refl eq_refl Hv G2 I G3 G4 eq_refl eq_refl eq_refl demo_lease_ok demo_wal_ok eq_refl eq_refl
    eq_refl I eq_refl eq_refl eq_refl).
Qed.

Lemma cycle_verdict_is_measured_witness :
  exists d r, run_p118_validation_cycle cycle_operation healing_adapter (decision_to_dict d) "worker-1"
      demo_wal 0 10 = Ok r /\
    vc_final_status r = "succeeded" /\ vget (decision_to_dict d) "approved" = VBool true.
Proof.
  destruct (demo_decision _ _ true cycle_operation_dict cycle_payload_like) as (d & Hd & Ha).
  pose proof (demo_cycle_checks d Hd Ha) as Hc.
  assert (Hrun : run_p118_validation_cycle cycle_operation healing_adapter (decision_to_dict d) "worker-1"
      demo_wal 0 10 = Ok (judge "op-1" healing_adapter)).
  { unfold run_p118_validation_cycle. rewrite Hc. reflexivity. }
  exists d, (judge "op-1" healing_adapter). split; [exact Hrun|]. split; [reflexivity|].
  destruct (cycle_verdict_is_measured _ _ _ _ _ _ _ _ Hrun) as (_ & _ & _ & H & _).
  exact (proj1 (H eq_refl)).
Defined.
