(* ===== verification/P118Worker.v ===== *)
(** * The P118 worker and crash recovery

    Models app/services/p118_worker.py (leases, one run of an operation, the
    retry receipt) and app/services/p118_crash_recovery.py (orphan inventory,
    recovery after a crash, read-only replay). *)

From S2P Require Import Prelude PyValue Sha Json P118Contract P118Ledger P118LedgerProps.
From S2P Require Import P118Approval P118Cycle.

Definition P118WorkerError (msg : string) : exn := Exn "P118WorkerError" msg.

Record P118LeaseReceipt := {
  le_receipt_type : string;
  le_operation_id : string;
  le_owner_id : string;
  le_expires_at : Z;
  le_cas_version : Z;
}.

Record P118WorkerResult := {
  wr_operation_id : string;
  wr_final_state : string;
  wr_transitions : list string;
  wr_retry_count : Z;
  wr_authority_counter_snapshot : list (string * Z);
}.

(** The worker object; its ledger store is the state of the [L] monad. *)
Record P118Worker := {
  w_owner_id : string;
  w_lease_ttl_seconds : Z;
  w_max_retries : Z;
}.

Definition make_worker (owner_id : string) (lease_ttl_seconds max_retries : Z) : res P118Worker :=
  let! _ := ensure (negb (lease_ttl_seconds <=? 0)%Z) (P118WorkerError "invalid_lease_ttl") in
  let! _ := ensure (negb (max_retries <? 0)%Z) (P118WorkerError "invalid_retry_limit") in
  Ok {| w_owner_id := owner_id; w_lease_ttl_seconds := lease_ttl_seconds; w_max_retries := max_retries |}.

Definition wensure (b : bool) (msg : string) : L unit := lift (ensure b (P118WorkerError msg)).

(** [v is not None and v != owner] *)
Definition owned_by_other (v : val) (owner : string) : bool :=
  negb (is_none v) && negb (py_eq v (VStr owner)).

Definition acquire_lease (w : P118Worker) (oid : string) (now : Z) : L P118LeaseReceipt :=
  let* s := replay oid in
  let other := owned_by_other (os_lease_owner_id s) (w_owner_id w) in
  let* _ := wensure (negb (other && match os_lease_expires_at s with
                                    | None => true
                                    | Some expires => (now <=? expires)%Z
                                    end)) "lease_takeover_before_expiry" in
  let receipt_type := if other then "lease_takeover" else "lease_acquired" in
  let* receipt := record_lease oid (w_owner_id w) (now + w_lease_ttl_seconds w) receipt_type
                    (os_lease_owner_id s) (os_lease_expires_at s) in
  lret {| le_receipt_type := lr_receipt_type receipt; le_operation_id := oid;
          le_owner_id := w_owner_id w; le_expires_at := now + w_lease_ttl_seconds w;
          le_cas_version := lr_cas_version receipt |}.

Definition renew_lease (w : P118Worker) (oid : string) (now : Z) : L P118LeaseReceipt :=
  let* s := replay oid in
  let* _ := wensure (py_eq (os_lease_owner_id s) (VStr (w_owner_id w))) "stale_lease_renewal" in
  let* receipt := record_lease oid (w_owner_id w) (now + w_lease_ttl_seconds w) "lease_renewed"
                    (os_lease_owner_id s) (os_lease_expires_at s) in
  lret {| le_receipt_type := lr_receipt_type receipt; le_operation_id := oid;
          le_owner_id := w_owner_id w; le_expires_at := now + w_lease_ttl_seconds w;
          le_cas_version := lr_cas_version receipt |}.

(** The path a measured validation allows. *)
Definition success_path : list string :=
  ["verified"; "approved"; "prechecked"; "action_attempted"; "postchecked"; "succeeded"].

Definition rollback_path : list string :=
  ["verified"; "approved"; "prechecked"; "action_attempted"; "rollback_attempted";
   "rollback_postchecked"; "rolled_back"].

Definition worker_path (v : P118ValidationCycleResult) : res (list string) :=
  if vc_final_status v =s "succeeded" then
    let! _ := ensure (match vc_precheck_evidence_hash v, vc_postcheck_evidence_hash v with
                      | Some _, Some _ => true | _, _ => false end)
                (P118WorkerError "measured_validation_required") in
    Ok success_path
  else if vc_final_status v =s "rolled_back" then
    let! _ := ensure (match vc_rollback_evidence_hash v with Some _ => true | None => false end)
                (P118WorkerError "rollback_evidence_required") in
    Ok rollback_path
  else Raise (P118WorkerError "qualified_terminal_validation_required").

Definition evidence_by_state (v : P118ValidationCycleResult) (verification_hash decision_hash : string)
  : list (string * dict) :=
  let pre := [("precheck_evidence_hash", optional_str (vc_precheck_evidence_hash v))] in
  let post := [("postcheck_evidence_hash", optional_str (vc_postcheck_evidence_hash v))] in
  let rollback := [("rollback_evidence_hash", optional_str (vc_rollback_evidence_hash v))] in
  [("verified", [("verification_hash", VStr verification_hash)]);
   ("approved", [("approval_decision_hash", VStr decision_hash)]);
   ("prechecked", pre);
   ("action_attempted", [("validation_cycle_bound", VBool true)]);
   ("postchecked", post);
   ("succeeded", post);
   ("rollback_attempted", rollback);
   ("rollback_postchecked", rollback);
   ("rolled_back", rollback)].

(** [evidence_by_state[state]] *)
Definition evidence_for (m : list (string * dict)) (state : string) : res dict :=
  match dget m state with
  | Some d => Ok d
  | None => Raise (Exn "KeyError" state)
  end.

(** The loop over the path. *)
Fixpoint drive (w : P118Worker) (oid : string) (evidence : list (string * dict)) (path : list string)
  : L (list string) :=
  match path with
  | [] => lret []
  | next :: path =>
      let* current := replay oid in
      let* ev := lift (evidence_for evidence next) in
      let* receipt := transition oid next (os_cas_version current) (Some (w_owner_id w)) ev in
      let* rest := drive w oid evidence path in
      lret (lr_state receipt :: rest)
  end.

Definition snapshot_counters (snapshot : dict) : res (list (string * Z)) :=
  mapM (fun key => let! n := py_int (vget_or snapshot key (VInt 0)) in Ok (key, n))
    P118_AUTHORITY_COUNTER_KEYS.

Definition run_once (w : P118Worker) (oid : string) (now : Z) (validation : P118ValidationCycleResult)
    (operation : P118OperationEnvelope) (verification_hash : string)
    (approval_receipt lease_receipt wal_receipt : dict) (cas : Z) : L P118WorkerResult :=
  let* s := replay oid in
  let* _ := wensure (py_eq (os_lease_owner_id s) (VStr (w_owner_id w)) &&
                     match os_lease_expires_at s with
                     | None => false
                     | Some expires => negb (expires <? now)%Z
                     end) "worker_without_owner_receipt" in
  let* _ := wensure (startswith "sha256:" verification_hash) "missing_verification_or_approval_binding" in
  let* p := lift (to_dict operation) in
  let* _ := wensure (validate_p118_approval_decision_receipt approval_receipt (Some p)
                       (Some verification_hash) (Some lease_receipt) (Some wal_receipt) (Some cas)
                       (Some now)) "missing_verification_or_approval_binding" in
  let* _ := wensure (py_eq (vget approval_receipt "operation_id") (VStr oid) &&
                     py_eq (vget approval_receipt "verification_hash") (VStr verification_hash))
              "unbound_approval_receipt" in
  let* h := lift (vindex approval_receipt "decision_hash") in
  let* path := lift (worker_path validation) in
  let* transitions := drive w oid (evidence_by_state validation verification_hash (py_str h)) path in
  let* final := replay oid in
  let* counters := lift (snapshot_counters (os_authority_counter_snapshot final)) in
  let* _ := wensure (forallb (fun kv => (kv.2 =? 0)%Z) counters) "authority_counter_drift" in
  lret {| wr_operation_id := oid; wr_final_state := os_state final; wr_transitions := transitions;
          wr_retry_count := 0; wr_authority_counter_snapshot := counters |}.

Definition retry_receipt (w : P118Worker) (oid reason : string) (attempt : Z) : L dict :=
  let* _ := wensure (negb (w_max_retries w <? attempt)%Z) "retry_limit_exceeded" in
  let* s := replay oid in
  let* _ := wensure (py_eq (os_lease_owner_id s) (VStr (w_owner_id w))) "worker_without_owner_receipt" in
  lret [("operation_id", VStr oid); ("owner_id", VStr (w_owner_id w)); ("reason", VStr reason);
        ("attempt", VInt attempt); ("max_retries", VInt (w_max_retries w))].

(** ** Crash recovery *)

Record P118CrashRecoveryResult := {
  cr_operation_id : string;
  cr_final_state : string;
  cr_duplicate_action_count : Z;
  cr_rollback_attempts : Z;
  cr_orphan_recoveries : Z;
  cr_rollback_evidence_hash : option string;
}.

Definition pre_effect_states : list string := ["received"; "verified"; "approved"; "prechecked"].
Definition effect_states : list string :=
  ["action_attempted"; "postchecked"; "action_failed"; "postcheck_failed"].
Definition pending_rollback_states : list string :=
  effect_states ++ ["rollback_attempted"; "rollback_postchecked"].

(** [_operation_ids]: the registered operations, without repetition. *)
Fixpoint operation_ids (w : wal) : res (list string) :=
  match w with
  | [] => Ok []
  | line :: w =>
      match line with
      | None => Raise (Exn "JSONDecodeError" "Expecting value")
      | Some (VDict entry) =>
          if py_eq (vget entry "receipt_type") (VStr "operation_registered") then
            let! o := vindex entry "operation_id" in
            let! ids := operation_ids w in
            Ok (if mem (py_str o) ids then ids else py_str o :: ids)
          else operation_ids w
      | Some _ => Raise (Exn "AttributeError" "object has no attribute 'get'")
      end
  end.

(** The orphans among the operations: expired leases, and those of them that
    wait for a rollback. *)
Fixpoint inventory_loop (es : list dict) (now : Z) (ids : list string)
  : res (list string * list string) :=
  match ids with
  | [] => Ok ([], [])
  | oid :: ids =>
      let! s := replay_entries es oid in
      let! rest := inventory_loop es now ids in
      let '(expired, pending) := rest in
      Ok (if mem (os_state s) P118_TERMINAL_STATUSES then (expired, pending)
          else if match os_lease_expires_at s with Some e => (e <=? now)%Z | None => false end
          then (oid :: expired,
                if mem (os_state s) pending_rollback_states then oid :: pending else pending)
          else (expired, pending))
  end.

Definition inventory_p118_orphans (w : wal) (now : Z) : res (list string * list string) :=
  let! es := load_entries w in
  let! ids := operation_ids w in
  let! r := inventory_loop es now ids in
  let '(expired, pending) := r in
  Ok (sorted_strings expired, sorted_strings pending).

Definition recovery_evidence (oid owner : string) (now : Z) : string :=
  stable_hash (VDict [("operation_id", VStr oid); ("recovery_owner", VStr owner);
                      ("recovery_time", VInt now); ("phase", VStr "rollback_postcheck")]).

(** [if state.state in states: transition; state = replay] *)
Definition step_if (oid owner : string) (states : list string) (next : string) (s : P118OperationState)
  : L P118OperationState :=
  if mem (os_state s) states then
    let* _ := transition oid next (os_cas_version s) (Some owner) [] in
    replay oid
  else lret s.

(** What recovery does once it holds the lease: a branch per state. *)
Definition recover_leased (oid owner : string) (now : Z) (s : P118OperationState) : L P118CrashRecoveryResult :=
  if mem (os_state s) pre_effect_states then
    let* _ := transition oid "aborted_fail_closed" (os_cas_version s) (Some owner) [] in
    let* s := replay oid in
    lret {| cr_operation_id := oid; cr_final_state := os_state s; cr_duplicate_action_count := 0;
            cr_rollback_attempts := 0; cr_orphan_recoveries := 1; cr_rollback_evidence_hash := None |}
  else
    let attempted := mem (os_state s) effect_states in
    let* s := step_if oid owner effect_states "rollback_attempted" s in
    let* s := step_if oid owner ["rollback_attempted"] "rollback_postchecked" s in
    let* s := step_if oid owner ["rollback_postchecked"] "rolled_back" s in
    let* _ := lensure (os_state s =s "rolled_back") "orphan_not_recoverable_without_effect_replay" in
    lret {| cr_operation_id := oid; cr_final_state := os_state s; cr_duplicate_action_count := 0;
            cr_rollback_attempts := if attempted then 1 else 0; cr_orphan_recoveries := 1;
            cr_rollback_evidence_hash :=
              if attempted then Some (recovery_evidence oid owner now) else None |}.

(** The calls on the fresh store of [recover_p118_crash]. *)
Definition recover_on (oid owner : string) (now : Z) : L P118CrashRecoveryResult :=
  let* s := replay oid in
  if mem (os_state s) P118_TERMINAL_STATUSES then
    lret {| cr_operation_id := oid; cr_final_state := os_state s; cr_duplicate_action_count := 0;
            cr_rollback_attempts := 0; cr_orphan_recoveries := 0; cr_rollback_evidence_hash := None |}
  else
    let* _ := lensure (match os_lease_expires_at s with
                       | None => false
                       | Some e => negb (now <? e)%Z
                       end) "lease_not_expired" in
    let* _ := record_lease oid owner (now + 60) "lease_takeover" (os_lease_owner_id s)
                (os_lease_expires_at s) in
    let* s := replay oid in
    recover_leased oid owner now s.

(** [recover_p118_crash(wal_path, …)]: the result and the file afterwards. *)
Definition recover_p118_crash (w : wal) (oid owner : string) (now : Z)
  : res P118CrashRecoveryResult * wal :=
  match new_store w with
  | Raise e => (Raise e, w)
  | Ok l => let '(r, l') := recover_on oid owner now l in (r, disk l')
  end.

Definition replay_p118_terminal_read_only (w : wal) (oid : string) : res dict :=
  let! es := load_entries w in
  let! s := replay_entries es oid in
  let! _ := ensure (mem (os_state s) P118_TERMINAL_STATUSES)
              (P118LedgerError "nonterminal_read_only_replay") in
  Ok [("operation_id", VStr (os_operation_id s)); ("state", VStr (os_state s));
      ("cas_version", VInt (os_cas_version s)); ("idempotency_key", VStr (os_idempotency_key s));
      ("payload_hash", VStr (os_payload_hash s));
      ("authority_counter_snapshot", VDict (os_authority_counter_snapshot s));
      ("duplicate_action_count", VInt 0);
      ("lease_owner_id", os_lease_owner_id s);
      ("lease_expires_at", match os_lease_expires_at s with Some z => VInt z | None => VNone end);
      ("replay_drift", VInt 0)].
