(* ===== verification/P118WorkerProps.v ===== *)
(** * P118 worker and crash recovery: theorems *)

From S2P Require Import Prelude PyValue Sha Json P118Contract P118Ledger P118LedgerProps.
From S2P Require Import P118Approval P118Cycle P118Worker.

(** ** Driving an operation along a path *)

Definition after (owner : string) (s : P118OperationState) (path : list string) : P118OperationState :=
  fold_left (fun s next => moved s next (os_cas_version s + 1) owner) path s.

Fixpoint legal_path (st : string) (path : list string) : bool :=
  match path with
  | [] => true
  | next :: path => negb (mem st P118_TERMINAL_STATUSES) && legal st next && legal_path next path
  end.

Lemma success_path_legal : legal_path "received" success_path = true.
Proof. reflexivity. Qed.

Lemma rollback_path_legal : legal_path "received" rollback_path = true.
Proof. reflexivity. Qed.

Lemma lbind_run {A B} (m : L A) (k : A -> L B) l a l' : m l = (Ok a, l') -> lbind m k l = k a l'.
Proof. intros H. unfold lbind. by rewrite H. Qed.

Lemma replay_synced oid s l : synced l oid s -> replay oid l = (Ok s, l).
Proof. intros (es & _ & _ & H). unfold replay. by rewrite H. Qed.

Lemma drive_runs w oid evidence path l s :
  synced l oid s -> os_lease_owner_id s = VStr (w_owner_id w) -> w_owner_id w <> "" ->
  legal_path (os_state s) path = true -> (forall next, In next path -> dmem next evidence = true) ->
  exists l', drive w oid evidence path l = (Ok path, l') /\ synced l' oid (after (w_owner_id w) s path).
Proof.
  intros Hs Ho Hw. revert l s Hs Ho. induction path as [|next path IH]; intros l s Hs Ho Hp He.
  { by exists l. }
  cbn [legal_path] in Hp. apply andb_true_iff in Hp as [Hp Hp2]. apply andb_true_iff in Hp as [Ht Hl].
  apply negb_true_iff, mem_not_In in Ht.
  destruct (proj1 (dget_dmem evidence next)) as [ev Hev]; [apply He; by left|].
  destruct (transition_runs l oid s next (w_owner_id w) ev Hs Ht Ho Hw Hl) as (r & l1 & Hrun & Hst & Hs1 & _).
  destruct (IH l1 (moved s next (os_cas_version s + 1) (w_owner_id w)) Hs1) as (l2 & Hd & Hs2);
    [done | done | intros n Hn; apply He; by right|].
  exists l2. split; [|exact Hs2]. cbn [drive].
  rewrite (lbind_run _ _ _ _ _ (replay_synced _ _ _ Hs)).
  assert (Hlift : lift (evidence_for evidence next) l = (Ok ev, l)).
  { unfold lift, evidence_for. by rewrite Hev. }
  rewrite (lbind_run _ _ _ _ _ Hlift), (lbind_run _ _ _ _ _ Hrun), (lbind_run _ _ _ _ _ Hd).
  unfold lret. by rewrite Hst.
Qed.

Lemma after_facts owner s path :
  os_cas_version (after owner s path) = os_cas_version s + Z.of_nat (List.length path) /\
  os_state (after owner s path) = List.last path (os_state s) /\
  os_authority_counter_snapshot (after owner s path) = os_authority_counter_snapshot s.
Proof.
  revert s. induction path as [|next path IH]; intros s.
  { unfold after. simpl. split_and!; [lia | done | done]. }
  destruct (IH (moved s next (os_cas_version s + 1) owner)) as (H1 & H2 & H3).
  change (after owner s (next :: path)) with
    (after owner (moved s next (os_cas_version s + 1) owner) path).
  rewrite H1, H2, H3. cbn [os_cas_version os_state os_authority_counter_snapshot moved List.length].
  split; [lia|]. split; [|reflexivity].
  destruct path as [|x path]; [done|]. clear. revert x.
  induction path as [|y path IH]; intros x; [done|]. exact (IH y).
Qed.

(** The first transition of a run that went through. *)
Lemma drive_first w oid evidence next path l r l' :
  drive w oid evidence (next :: path) l = (Ok r, l') ->
  exists s, disk_state (disk l) oid = Ok s /\ os_lease_owner_id s = VStr (w_owner_id w) /\
    legal (os_state s) next = true.
Proof.
  cbn [drive]. intros (s0 & l1 & [_ ->]%replay_ok & H)%lbind_ok.
  apply lbind_ok in H as (ev & l2 & [_ ->]%lift_ok & H).
  apply lbind_ok in H as (rc & l3 & H & _).
  apply transition_ok in H as (o & es & s & a & [= <-] & _ & Hl & Hr & _ & _ & Ho & Hleg & _).
  exists s. by rewrite (disk_state_load _ _ _ Hl).
Qed.

Lemma drive_synced w oid evidence path l r l' :
  path <> [] -> drive w oid evidence path l = (Ok r, l') ->
  r = path /\ exists s, synced l' oid s /\ os_state s = List.last path "".
Proof.
  revert l r. induction path as [|next path IH]; intros l r Hne; [done|].
  cbn [drive]. intros (s0 & l1 & [_ ->]%replay_ok & H)%lbind_ok.
  apply lbind_ok in H as (ev & l2 & [_ ->]%lift_ok & H).
  apply lbind_ok in H as (rc & l3 & Ht & H).
  apply transition_ok in Ht as (o & es & s & a & _ & _ & _ & _ & _ & _ & _ & _ & -> & -> & _ & Hs).
  apply lbind_ok in H as (rest & l4 & Hd & [= <- <-]). cbn [lr_state receipt_of].
  destruct path as [|n2 path].
  - injection Hd as <- <-. split; [done|]. eexists. by split; [exact Hs|].
  - destruct (IH _ _ ltac:(done) Hd) as (-> & s' & Hs' & Hst). split; [done|]. exists s'. by split.
Qed.

Lemma legal_verified st : legal st "verified" = true -> st = "received".
Proof.
  intros (l & Hl & Hin)%legal_edge.
  repeat destruct Hl as [[= <- <-]|Hl]; repeat destruct Hin as [Hin|Hin]; done.
Qed.

(** ** One run *)

Lemma worker_path_evidence v path :
  worker_path v = Ok path ->
  (vc_final_status v = "succeeded" /\ is_Some (vc_precheck_evidence_hash v) /\ is_Some (vc_postcheck_evidence_hash v) /\
   path = success_path) \/
  (vc_final_status v = "rolled_back" /\ is_Some (vc_rollback_evidence_hash v) /\ path = rollback_path).
Proof.
  unfold worker_path. destruct (eqs_spec (vc_final_status v) "succeeded") as [->|].
  - intros (? & He%ensure_ok & [= <-])%bind_ok. left.
    by destruct (vc_precheck_evidence_hash v), (vc_postcheck_evidence_hash v).
  - destruct (eqs_spec (vc_final_status v) "rolled_back") as [->|]; [|done].
    intros (? & He%ensure_ok & [= <-])%bind_ok. right. by destruct (vc_rollback_evidence_hash v).
Qed.

Lemma worker_path_cases v path :
  worker_path v = Ok path ->
  (path = success_path /\ vc_final_status v = "succeeded") \/
  (path = rollback_path /\ vc_final_status v = "rolled_back").
Proof. intros [(? & _ & _ & ?)|(? & _ & ?)]%worker_path_evidence; auto. Qed.

Lemma wensure_ok b msg l u l' : wensure b msg l = (Ok u, l') <-> b = true /\ l' = l.
Proof.
  unfold wensure, lift. destruct b, u; simpl; split.
  - by intros [= <-].
  - by intros [_ ->].
  - done.
  - by intros [? _].
Qed.

Lemma wensure_run msg l : wensure true msg l = (Ok tt, l).
Proof. done. Qed.

Lemma lift_run {A} (a : A) m l : m = Ok a -> lift m l = (Ok a, l).
Proof. by intros ->. Qed.

(** An operation a worker may run: received, leased to it and unexpired, its
    counters zero. *)
Record runnable (w : P118Worker) (now : Z) (s : P118OperationState) := {
  rn_received : os_state s = "received";
  rn_owner : os_lease_owner_id s = VStr (w_owner_id w);
  rn_named : w_owner_id w <> "";
  rn_expiry : exists e, os_lease_expires_at s = Some e /\ now <= e;
  rn_counters : snapshot_counters (os_authority_counter_snapshot s) =
    Ok (map (fun key => (key, 0)) P118_AUTHORITY_COUNTER_KEYS);
}.

Lemma run_once_runs w oid now v op vh receipt lease wal cas p path l s :
  synced l oid s -> runnable w now s -> to_dict op = Ok p ->
  startswith "sha256:" vh = true -> vget receipt "operation_id" = VStr oid ->
  vget receipt "verification_hash" = VStr vh -> dmem "decision_hash" receipt = true ->
  validate_p118_approval_decision_receipt receipt (Some p) (Some vh) (Some lease) (Some wal)
    (Some cas) (Some now) = true ->
  worker_path v = Ok path ->
  exists r l', run_once w oid now v op vh receipt lease wal cas l = (Ok r, l') /\
    wr_final_state r = vc_final_status v /\ wr_transitions r = path /\
    synced l' oid (after (w_owner_id w) s path) /\ os_state (after (w_owner_id w) s path) = vc_final_status v.
Proof.
  intros Hs [Hrec Hown Hname (e & He & Hnow) Hcnt] Hp Hsha Hid Hvh Hdh Hval Hpath.
  apply dget_dmem in Hdh as [h Hh].
  assert (Hlegal : legal_path (os_state s) path = true /\
    (forall next, In next path -> dmem next (evidence_by_state v vh (py_str h)) = true) /\
    List.last path (os_state s) = vc_final_status v).
  { rewrite Hrec. destruct (worker_path_cases _ _ Hpath) as [[-> ->]|[-> ->]].
    - split_and!; [done | | done]. intros n Hn. by repeat destruct Hn as [<-|Hn].
    - split_and!; [done | | done]. intros n Hn. by repeat destruct Hn as [<-|Hn]. }
  destruct Hlegal as (Hlegal & Hev & Hlast).
  destruct (drive_runs w oid _ path l s Hs Hown Hname Hlegal Hev) as (l' & Hd & Hs').
  destruct (after_facts (w_owner_id w) s path) as (_ & Hst & Hsn).
  assert (Hst' : os_state (after (w_owner_id w) s path) = vc_final_status v) by congruence.
  eexists _, l'. split; [|split_and!; [| |exact Hs' | exact Hst']].
  - unfold run_once. rewrite (lbind_run _ _ _ _ _ (replay_synced _ _ _ Hs)).
    rewrite Hown, He. cbn [py_eq]. rewrite eqs_refl. rewrite (proj2 (Z.ltb_ge _ _) Hnow). cbn [negb andb].
    rewrite (lbind_run _ _ _ _ _ (wensure_run _ _)). rewrite Hsha.
    rewrite (lbind_run _ _ _ _ _ (wensure_run _ _)), (lbind_run _ _ _ _ _ (lift_run _ _ _ Hp)).
    rewrite Hval, (lbind_run _ _ _ _ _ (wensure_run _ _)). rewrite Hid, Hvh. cbn [py_eq].
    rewrite !eqs_refl. cbn [andb]. rewrite (lbind_run _ _ _ _ _ (wensure_run _ _)).
    rewrite (lbind_run _ _ _ _ _ (lift_run _ _ _ (proj2 (vindex_ok _ _ _) Hh))).
    rewrite (lbind_run _ _ _ _ _ (lift_run _ _ _ Hpath)), (lbind_run _ _ _ _ _ Hd).
    rewrite (lbind_run _ _ _ _ _ (replay_synced _ _ _ Hs')). rewrite Hsn.
    rewrite (lbind_run _ _ _ _ _ (lift_run _ _ _ Hcnt)).
    change (forallb (fun kv : string * Z => kv.2 =? 0)
      (map (fun key => (key, 0)) P118_AUTHORITY_COUNTER_KEYS)) with true.
    rewrite (lbind_run _ _ _ _ _ (wensure_run _ _)). reflexivity.
  - exact Hst'.
  - reflexivity.
Qed.

Lemma run_once_ok w oid now v op vh receipt lease wal cas l r l' :
  run_once w oid now v op vh receipt lease wal cas l = (Ok r, l') ->
  (exists s0 e, replay_entries (cache l) oid = Ok s0 /\ os_lease_owner_id s0 = VStr (w_owner_id w) /\
     os_lease_expires_at s0 = Some e /\ now <= e) /\
  (exists p, to_dict op = Ok p /\
     validate_p118_approval_decision_receipt receipt (Some p) (Some vh) (Some lease) (Some wal)
       (Some cas) (Some now) = true) /\
  vget receipt "operation_id" = VStr oid /\ vget receipt "verification_hash" = VStr vh /\
  (exists path, worker_path v = Ok path /\ wr_transitions r = path) /\
  (exists s, disk_state (disk l) oid = Ok s /\ os_state s = "received" /\
     os_lease_owner_id s = VStr (w_owner_id w)) /\
  exists s', synced l' oid s' /\ os_state s' = vc_final_status v /\ wr_final_state r = vc_final_status v.
Proof.
  unfold run_once. intros (s0 & l1 & [H0 ->]%replay_ok & H)%lbind_ok.
  apply lbind_ok in H as (? & ? & [Hown ->]%wensure_ok & H).
  apply lbind_ok in H as (? & ? & [_ ->]%wensure_ok & H).
  apply lbind_ok in H as (p & ? & [Hp ->]%lift_ok & H).
  apply lbind_ok in H as (? & ? & [Hval ->]%wensure_ok & H).
  apply lbind_ok in H as (? & ? & [Hb ->]%wensure_ok & H).
  apply lbind_ok in H as (h & ? & [_ ->]%lift_ok & H).
  apply lbind_ok in H as (path & ? & [Hpath ->]%lift_ok & H).
  apply lbind_ok in H as (tr & l2 & Hd & H).
  apply lbind_ok in H as (s2 & ? & [Hs2 ->]%replay_ok & H).
  apply lbind_ok in H as (c & ? & [_ ->]%lift_ok & H).
  apply lbind_ok in H as (? & ? & [_ ->]%wensure_ok & [= <- <-]).
  apply andb_true_iff in Hown as [Hown He]. apply py_eq_str in Hown.
  apply andb_true_iff in Hb as [Hb1 Hb2]. apply py_eq_str in Hb1, Hb2.
  assert (Hfirst : exists path', path = "verified" :: path' /\ List.last path "" = vc_final_status v).
  { destruct (worker_path_cases _ _ Hpath) as [[-> ->]|[-> ->]]; eexists; by split. }
  destruct Hfirst as (path' & E & Hlast).
  assert (Hne : path <> []) by by rewrite E.
  destruct (drive_synced _ _ _ _ _ _ _ Hne Hd) as (-> & s' & Hs' & Hst').
  split_and!; try done.
  - destruct (os_lease_expires_at s0) as [e|] eqn:Ee; [|done]. exists s0, e. bools. by split_and!.
  - by exists p.
  - by exists path.
  - rewrite E in Hd. apply drive_first in Hd as (s & Hs & Ho & Hleg). exists s. split_and!; try done.
    by apply legal_verified.
  - exists s'. split; [done|]. rewrite Hst', Hlast. split; [done|].
    destruct Hs' as (es & _ & _ & Hc). assert (s2 = s') as -> by congruence. cbn. congruence.
Qed.

(** ** Leases *)

Lemma acquire_inv w oid now l r l' :
  acquire_lease w oid now l = (Ok r, l') ->
  exists s0 rt rc, replay_entries (cache l) oid = Ok s0 /\ lease_type rt /\
    (owned_by_other (os_lease_owner_id s0) (w_owner_id w) = true ->
       exists e, os_lease_expires_at s0 = Some e /\ e < now) /\
    record_lease oid (w_owner_id w) (now + w_lease_ttl_seconds w) rt (os_lease_owner_id s0)
      (os_lease_expires_at s0) l = (Ok rc, l').
Proof.
  unfold acquire_lease. intros (s0 & l1 & [H0 ->]%replay_ok & H)%lbind_ok.
  apply lbind_ok in H as (? & ? & [Hc ->]%wensure_ok & H).
  apply lbind_ok in H as (rc & l2 & Hr & [= <- <-]).
  eexists s0, _, rc. split_and!; [done | | | exact Hr].
  - destruct (owned_by_other _ _); [right; by left | by left].
  - intros Ho. rewrite Ho in Hc. destruct (os_lease_expires_at s0) as [e|]; [|done].
    apply negb_true_iff in Hc. simpl in Hc. bools. eauto.
Qed.

Lemma acquire_runs w oid now l s :
  synced l oid s -> plain_owner (os_lease_owner_id s) ->
  (owned_by_other (os_lease_owner_id s) (w_owner_id w) = true ->
     exists e, os_lease_expires_at s = Some e /\ e < now) ->
  exists r l', acquire_lease w oid now l = (Ok r, l') /\
    le_expires_at r = now + w_lease_ttl_seconds w /\
    synced l' oid (leased s (w_owner_id w) (now + w_lease_ttl_seconds w)).
Proof.
  intros Hs Ho Hexp.
  set (rt := if owned_by_other (os_lease_owner_id s) (w_owner_id w) then "lease_takeover" else "lease_acquired").
  destruct (record_lease_runs l oid s (w_owner_id w) (now + w_lease_ttl_seconds w) rt)
    as (rc & l' & Hr & _ & _ & Hs'); [|done | done |].
  { unfold rt. destruct (owned_by_other _ _); [right; by left | by left]. }
  eexists _, l'. split; [|split; [|exact Hs']].
  - unfold acquire_lease. rewrite (lbind_run _ _ _ _ _ (replay_synced _ _ _ Hs)).
    assert (Hc : negb (owned_by_other (os_lease_owner_id s) (w_owner_id w) &&
      match os_lease_expires_at s with None => true | Some e => (now <=? e)%Z end) = true).
    { apply negb_true_iff. destruct (owned_by_other _ _); [|done].
      destruct Hexp as (e & -> & He); [done|]. simpl. lia. }
    rewrite Hc, (lbind_run _ _ _ _ _ (wensure_run _ _)), (lbind_run _ _ _ _ _ Hr). reflexivity.
  - reflexivity.
Qed.

(** ** Properties of the worker *)

(** C17: what a finished run proves.  When [run_once] returns, the worker's
    cached lease was its own and unexpired, the approval receipt validated
    against the operation, the receipts, the version and the time and named
    this operation and verification; on the file the operation was [received]
    and leased to this worker before.  The validation's final status decides
    the rest: on [succeeded], with a precheck and a postcheck measured, the
    transitions taken are the whole path to success; on [rolled_back], with a
    rollback measured, the whole path of the rollback; no other status
    returns.  The final state reported, and the state on the file (so no
    second run starts from it), are the validation's final status. *)
Theorem run_once_is_authorized w oid now v op vh receipt lease wal cas l r l' :
  run_once w oid now v op vh receipt lease wal cas l = (Ok r, l') ->
  (exists s0 e, replay_entries (cache l) oid = Ok s0 /\ os_lease_owner_id s0 = VStr (w_owner_id w) /\
     os_lease_expires_at s0 = Some e /\ now <= e) /\
  (exists p, to_dict op = Ok p /\
     validate_p118_approval_decision_receipt receipt (Some p) (Some vh) (Some lease) (Some wal)
       (Some cas) (Some now) = true) /\
  vget receipt "operation_id" = VStr oid /\ vget receipt "verification_hash" = VStr vh /\
  ((vc_final_status v = "succeeded" /\ is_Some (vc_precheck_evidence_hash v) /\ is_Some (vc_postcheck_evidence_hash v) /\
    wr_transitions r = ["verified"; "approved"; "prechecked"; "action_attempted"; "postchecked"; "succeeded"]) \/
   (vc_final_status v = "rolled_back" /\ is_Some (vc_rollback_evidence_hash v) /\
    wr_transitions r = ["verified"; "approved"; "prechecked"; "action_attempted"; "rollback_attempted";
                        "rollback_postchecked"; "rolled_back"])) /\
  wr_final_state r = vc_final_status v /\
  (exists s, disk_state (disk l) oid = Ok s /\ os_state s = "received" /\
     os_lease_owner_id s = VStr (w_owner_id w)) /\
  (exists s', disk_state (disk l') oid = Ok s' /\ os_state s' = vc_final_status v).
Proof.
  intros (H1 & H2 & H3 & H4 & (path & Hpath & Htr) & H6 & s' & Hs' & Hst & Hf)%run_once_ok.
  split_and!; try done.
  - rewrite Htr. destruct (worker_path_evidence _ _ Hpath) as [(? & ? & ? & ->)|(? & ? & ->)]; [left | right]; by split_and!.
  - exists s'. split; [by apply synced_disk | exact Hst].
Qed.

(** The worker does not read the verdict.  The receipt of a decision that
    rejected the operation, taken on valid receipts and zero counters, drives
    a received operation to [succeeded] like an approval does. *)
Theorem worker_runs_rejected_operation w oid now v op ver ph lease wal cas obs d p le wp l s :
  synced l oid s -> runnable w now s -> to_dict op = Ok p -> operation_id op = oid ->
  vget p "operation_id" = VStr oid ->
  decide_p118_approval op ver ph now lease wal cas obs = Ok d -> ad_approved d = false ->
  zero_observed (default empty_p118_policy_counters obs) ->
  sha256_ref ph = true -> sha256_ref (vr_verification_hash ver) = true ->
  validate_p118_receipt_self_hash lease "receipt_hash" = true ->
  validate_p118_receipt_self_hash wal "receipt_hash" = true ->
  vget lease "expires_at" = VInt le -> vget wal "wal_position" = VInt wp ->
  now < vr_expires_at ver -> now < le ->
  vc_final_status v = "succeeded" -> worker_path v = Ok success_path ->
  exists r l', run_once w oid now v op (vr_verification_hash ver) (decision_to_dict d) lease wal cas l
      = (Ok r, l') /\ wr_final_state r = "succeeded" /\
    exists s', disk_state (disk l') oid = Ok s' /\ os_state s' = "succeeded".
Proof.
  intros Hs Hrun Hp Hoid Hid Hd _ Hz Hph Hvh Hl Hw Hle Hwp H1 H2 Hv Hpath.
  assert (Hval := receipt_validates op ver ph now lease wal cas obs d p le wp Hd Hp
    ltac:(by rewrite Hid, Hoid) Hz Hph Hvh Hl Hw Hle Hwp H1 H2).
  apply self_hash_value in Hl as Hlh. apply self_hash_value in Hw as Hwh.
  destruct (decision_fields _ _ _ _ _ _ _ _ _ _ _ _ _ _ Hd Hp Hz Hlh Hwh Hle Hwp)
    as (_ & E2 & E3 & _).
  destruct (run_once_runs w oid now v op (vr_verification_hash ver) (decision_to_dict d) lease wal cas
    p success_path l s Hs Hrun Hp) as (r & l' & Hr & Hf & _ & Hs' & Hst); try done.
  - unfold sha256_ref in Hvh. by apply andb_true_iff in Hvh as [? _].
  - rewrite <- Hoid. exact (f_equal VStr E2).
  - exact (f_equal VStr E3).
  - exists r, l'. split; [done|]. split; [congruence|]. eexists. split; [by apply synced_disk | congruence].
Qed.

(** Leases exclude each other while the caller's view has one.  A granted
    lease is on the file as granted; and unless the caller's cache knew
    neither an owner nor an expiry, the operation's lease on the file was the
    one in the cache, and was free, the caller's own, or already expired. *)
Theorem granted_lease_was_free w oid now l r l' :
  acquire_lease w oid now l = (Ok r, l') ->
  (forall s, disk_state (disk l) oid = Ok s ->
     disk_state (disk l') oid = Ok (leased s (w_owner_id w) (now + w_lease_ttl_seconds w))) /\
  exists s0, replay_entries (cache l) oid = Ok s0 /\
    ((os_lease_owner_id s0 = VNone /\ os_lease_expires_at s0 = None) \/
     exists s, disk_state (disk l) oid = Ok s /\
       py_eq (os_lease_owner_id s) (os_lease_owner_id s0) = true /\
       os_lease_expires_at s = os_lease_expires_at s0 /\
       (os_lease_owner_id s0 = VNone \/ os_lease_owner_id s0 = VStr (w_owner_id w) \/
        exists e, os_lease_expires_at s = Some e /\ e < now)).
Proof.
  intros (s0 & rt & rc & H0 & Hrt & Hother & Hr)%acquire_inv. split.
  - intros s. intros Hs. assert (Hr' := Hr).
    apply record_lease_ok in Hr as (es & s1 & a & Hl & _ & _ & _ & _ & _ & _ & _ & _ & _); [|done].
    rewrite (disk_state_load _ _ _ Hl) in Hs.
    apply synced_disk. by eapply record_lease_synced.
  - exists s0. split; [done|].
    apply record_lease_ok in Hr as (es & s1 & a & Hl & _ & _ & -> & Hck & _); [|done].
    unfold check_lease in Hck. cbn [expected_lease_owner expected_lease_expires_at lease_args] in Hck.
    destruct (is_none (os_lease_owner_id s0) && _) eqn:En.
    + left. apply andb_true_iff in En as [En1 En2%bool_decide_eq_true]. by destruct (os_lease_owner_id s0).
    + right. apply bind_ok in Hck as (s & Hs & Hck%ensure_ok). cbn [aa_operation_id] in Hs.
      apply andb_true_iff in Hck as [Hc1 Hc2%bool_decide_eq_true].
      exists s. rewrite (disk_state_load _ _ _ Hl). split_and!; try done.
      unfold owned_by_other in Hother. destruct (is_none (os_lease_owner_id s0)) eqn:Ei.
      { left. by destruct (os_lease_owner_id s0). }
      destruct (py_eq (os_lease_owner_id s0) (VStr (w_owner_id w))) eqn:Eo.
      { right. left. by apply py_eq_str in Eo. }
      right. right. destruct Hother as (e & He & Hlt); [done|]. exists e. split; [congruence | done].
Qed.

(** The unchecked case can be lost.  Two stores both know an operation
    that has neither an owner nor an expiry; the first worker is granted the
    lease; the second one, whose store has not reloaded, is granted it too, at
    the same time, although the first lease is unexpired. *)
Theorem unowned_lease_is_granted_twice w1 w2 oid now l s :
  synced l oid s -> os_lease_owner_id s = VNone -> os_lease_expires_at s = None ->
  exists r1 l1 r2 l2,
    acquire_lease w1 oid now l = (Ok r1, l1) /\
    acquire_lease w2 oid now {| disk := disk l1; cache := cache l |} = (Ok r2, l2) /\
    disk_state (disk l1) oid = Ok (leased s (w_owner_id w1) (now + w_lease_ttl_seconds w1)) /\
    (exists s2, disk_state (disk l2) oid = Ok s2 /\ os_lease_owner_id s2 = VStr (w_owner_id w2)).
Proof.
  intros Hs Ho He.
  destruct (acquire_runs w1 oid now l s Hs) as (r1 & l1 & H1 & _ & Hs1); [by left | by rewrite Ho |].
  assert (Hs1' := Hs1). destruct Hs1' as (es1 & Hl1 & Hr1 & _). destruct Hs as (es & _ & _ & Hc).
  set (l1' := {| disk := disk l1; cache := cache l |}).
  set (a := lease_args oid s (w_owner_id w2) (now + w_lease_ttl_seconds w2) "lease_acquired" VNone None).
  assert (Hrec : record_lease oid (w_owner_id w2) (now + w_lease_ttl_seconds w2) "lease_acquired" VNone
    None l1' = append_receipt a l1').
  { unfold record_lease. rewrite (lbind_run _ _ _ s l1'); [done|]. unfold replay. cbn [cache l1']. by rewrite Hc. }
  rewrite (append_runs a l1' es1 a) in Hrec; try done; [|by eapply replay_ok_chain].
  eexists r1, l1, _, _. split; [exact H1|]. split.
  { unfold acquire_lease. rewrite (lbind_run _ _ _ s l1') by (unfold replay; cbn [cache l1']; by rewrite Hc).
    rewrite Ho, He. cbn [owned_by_other is_none negb andb].
    rewrite (lbind_run _ _ _ _ _ (wensure_run _ _)), (lbind_run _ _ _ _ _ Hrec). reflexivity. }
  split; [by apply synced_disk|].
  exists (leased (leased s (w_owner_id w1) (now + w_lease_ttl_seconds w1)) (w_owner_id w2)
            (now + w_lease_ttl_seconds w2)).
  split; [|done]. apply synced_disk. eapply record_lease_synced; [by left | exact Hrec | exact Hl1 | exact Hr1].
Qed.

(** ** Crash recovery *)

(** What recovery makes of a state: the transitions it appends. *)
Definition recovery_path (st : string) : list string :=
  if mem st pre_effect_states then ["aborted_fail_closed"]
  else if mem st effect_states then ["rollback_attempted"; "rollback_postchecked"; "rolled_back"]
  else if st =s "rollback_attempted" then ["rollback_postchecked"; "rolled_back"]
  else if st =s "rollback_postchecked" then ["rolled_back"]
  else [].

(** A lease holder's operation, in step with the file. *)
Definition held (l : ledger) (oid owner : string) (s : P118OperationState) : Prop :=
  synced l oid s /\ os_lease_owner_id s = VStr owner /\ owner <> "".

Lemma held_transition l oid owner s next :
  held l oid owner s -> mem (os_state s) P118_TERMINAL_STATUSES = false -> legal (os_state s) next = true ->
  exists r l', transition oid next (os_cas_version s) (Some owner) [] l = (Ok r, l') /\
    held l' oid owner (after owner s [next]).
Proof.
  intros (Hs & Ho & Hne) Ht%mem_not_In Hl.
  destruct (transition_runs l oid s next owner [] Hs Ht Ho Hne Hl) as (r & l1 & Hr & _ & Hs1 & _).
  exists r, l1. split; [done|]. by split_and!.
Qed.

Lemma step_if_taken oid owner states next l s :
  held l oid owner s -> mem (os_state s) states = true ->
  mem (os_state s) P118_TERMINAL_STATUSES = false -> legal (os_state s) next = true ->
  exists l', step_if oid owner states next s l = (Ok (after owner s [next]), l') /\
    held l' oid owner (after owner s [next]).
Proof.
  intros Hh Hm Ht Hl. destruct (held_transition l oid owner s next Hh Ht Hl) as (r & l1 & Hr & Hh1).
  exists l1. split; [|done]. unfold step_if. rewrite Hm, (lbind_run _ _ _ _ _ Hr).
  apply replay_synced, Hh1.
Qed.

Lemma step_if_skipped oid owner states next l s :
  mem (os_state s) states = false -> step_if oid owner states next s l = (Ok s, l).
Proof. intros Hm. unfold step_if. by rewrite Hm. Qed.

(** The last two steps, and the last one, of a rollback. *)
Lemma finish_postchecked {B} oid owner l s (k : P118OperationState -> L B) :
  held l oid owner s -> os_state s = "rollback_postchecked" ->
  exists l', lbind (step_if oid owner ["rollback_postchecked"] "rolled_back" s) k l =
      k (after owner s ["rolled_back"]) l' /\ held l' oid owner (after owner s ["rolled_back"]).
Proof.
  intros Hh Hst.
  destruct (step_if_taken oid owner ["rollback_postchecked"] "rolled_back" l s Hh) as (l1 & H1 & Hh1);
    [by rewrite Hst ..|].
  exists l1. split; [by rewrite (lbind_run _ _ _ _ _ H1) | done].
Qed.

Lemma finish_attempted {B} oid owner l s (k : P118OperationState -> L B) :
  held l oid owner s -> os_state s = "rollback_attempted" ->
  exists l', (let* s := step_if oid owner ["rollback_attempted"] "rollback_postchecked" s in
              let* s := step_if oid owner ["rollback_postchecked"] "rolled_back" s in k s) l =
      k (after owner s ["rollback_postchecked"; "rolled_back"]) l' /\
    held l' oid owner (after owner s ["rollback_postchecked"; "rolled_back"]).
Proof.
  intros Hh Hst.
  destruct (step_if_taken oid owner ["rollback_attempted"] "rollback_postchecked" l s Hh)
    as (l1 & H1 & Hh1); [by rewrite Hst ..|].
  destruct (finish_postchecked oid owner l1 _ k Hh1) as (l2 & H2 & Hh2); [done|].
  exists l2. split; [|exact Hh2]. by rewrite (lbind_run _ _ _ _ _ H1).
Qed.

Definition recovery_result (oid owner : string) (now : Z) (st : string) : P118CrashRecoveryResult := {|
  cr_operation_id := oid;
  cr_final_state := List.last (recovery_path st) st;
  cr_duplicate_action_count := 0;
  cr_rollback_attempts := if mem st effect_states then 1 else 0;
  cr_orphan_recoveries := 1;
  cr_rollback_evidence_hash :=
    if mem st effect_states then Some (recovery_evidence oid owner now) else None |}.

(** The states an operation can be orphaned in. *)
Definition orphan_states : list string :=
  pre_effect_states ++ pending_rollback_states ++ ["precheck_failed"].

Lemma lifecycle_orphan st :
  In st P118_LIFECYCLE_STATES -> ~ In st P118_TERMINAL_STATUSES -> In st orphan_states.
Proof.
  intros H Ht. apply mem_In. apply mem_not_In in Ht.
  repeat destruct H as [<-|H]; try done; discriminate Ht.
Qed.

Lemma orphan_not_terminal st : In st orphan_states -> mem st P118_TERMINAL_STATUSES = false.
Proof. intros H. by repeat destruct H as [<-|H]. Qed.

(** Recovery of a held operation, by the state it was orphaned in. *)
Lemma recover_pre oid owner now l s :
  held l oid owner s -> In (os_state s) pre_effect_states ->
  exists l', recover_leased oid owner now s l = (Ok (recovery_result oid owner now (os_state s)), l') /\
    held l' oid owner (after owner s (recovery_path (os_state s))).
Proof.
  intros Hh Hin.
  assert (Hf : mem (os_state s) pre_effect_states = true /\
    mem (os_state s) P118_TERMINAL_STATUSES = false /\ mem (os_state s) effect_states = false /\
    legal (os_state s) "aborted_fail_closed" = true) by by repeat destruct Hin as [<-|Hin].
  destruct Hf as (Hp & Ht & He & Hl).
  destruct (held_transition l oid owner s "aborted_fail_closed" Hh Ht Hl) as (r & l1 & Hr & Hh1).
  exists l1. unfold recover_leased, recovery_result, recovery_path. rewrite Hp, He.
  rewrite (lbind_run _ _ _ _ _ Hr), (lbind_run _ _ _ _ _ (replay_synced _ _ _ (proj1 Hh1))).
  split; [reflexivity | exact Hh1].
Qed.

Lemma lensure_run msg l : lensure true msg l = (Ok tt, l).
Proof. done. Qed.

Lemma recover_effect oid owner now l s :
  held l oid owner s -> In (os_state s) effect_states ->
  exists l', recover_leased oid owner now s l = (Ok (recovery_result oid owner now (os_state s)), l') /\
    held l' oid owner (after owner s (recovery_path (os_state s))).
Proof.
  intros Hh Hin.
  assert (Hf : mem (os_state s) pre_effect_states = false /\
    mem (os_state s) P118_TERMINAL_STATUSES = false /\ mem (os_state s) effect_states = true /\
    legal (os_state s) "rollback_attempted" = true) by by repeat destruct Hin as [<-|Hin].
  destruct Hf as (Hp & Ht & He & Hl).
  destruct (step_if_taken oid owner effect_states "rollback_attempted" l s Hh He Ht Hl) as (l1 & H1 & Hh1).
  unfold recover_leased, recovery_result, recovery_path. rewrite Hp, He.
  rewrite (lbind_run _ _ _ _ _ H1).
  destruct (finish_attempted oid owner l1 _ (fun s =>
    let* _ := lensure (os_state s =s "rolled_back") "orphan_not_recoverable_without_effect_replay" in
    lret {| cr_operation_id := oid; cr_final_state := os_state s; cr_duplicate_action_count := 0;
            cr_rollback_attempts := 1; cr_orphan_recoveries := 1;
            cr_rollback_evidence_hash := Some (recovery_evidence oid owner now) |}) Hh1)
    as (l2 & H2 & Hh2); [reflexivity|].
  exists l2. rewrite H2. split; [reflexivity | exact Hh2].
Qed.

Lemma recover_rolling oid owner now l s :
  held l oid owner s -> os_state s = "rollback_attempted" \/ os_state s = "rollback_postchecked" ->
  exists l', recover_leased oid owner now s l = (Ok (recovery_result oid owner now (os_state s)), l') /\
    held l' oid owner (after owner s (recovery_path (os_state s))).
Proof.
  set (k := fun s => let* _ := lensure (os_state s =s "rolled_back")
      "orphan_not_recoverable_without_effect_replay" in
    lret {| cr_operation_id := oid; cr_final_state := os_state s; cr_duplicate_action_count := 0;
            cr_rollback_attempts := 0; cr_orphan_recoveries := 1; cr_rollback_evidence_hash := None |}).
  intros Hh [E|E]; unfold recover_leased, recovery_result, recovery_path; rewrite E; cbv zeta;
    change (mem _ pre_effect_states) with false; change (mem _ effect_states) with false; cbv iota;
    rewrite (lbind_run _ _ _ _ _ (step_if_skipped oid owner effect_states "rollback_attempted" l s
      ltac:(by rewrite E))).
  - destruct (finish_attempted oid owner l s k Hh E) as (l2 & H2 & Hh2). exists l2.
    split; [|exact Hh2]. etransitivity; [exact H2 | reflexivity].
  - rewrite (lbind_run _ _ _ _ _ (step_if_skipped oid owner ["rollback_attempted"] "rollback_postchecked" l s
      ltac:(by rewrite E))).
    destruct (finish_postchecked oid owner l s k Hh E) as (l2 & H2 & Hh2). exists l2.
    split; [|exact Hh2]. etransitivity; [exact H2 | reflexivity].
Qed.

Lemma recover_precheck_failed oid owner now l s :
  os_state s = "precheck_failed" ->
  recover_leased oid owner now s l =
    (Raise (P118LedgerError "orphan_not_recoverable_without_effect_replay"), l).
Proof.
  intros E. unfold recover_leased. rewrite E. cbv zeta.
  change (mem "precheck_failed" pre_effect_states) with false. cbv iota.
  rewrite (lbind_run _ _ _ s l) by (apply step_if_skipped; by rewrite E).
  rewrite (lbind_run _ _ _ s l) by (apply step_if_skipped; by rewrite E).
  rewrite (lbind_run _ _ _ s l) by (apply step_if_skipped; by rewrite E). by rewrite E.
Qed.

Lemma recover_held oid owner now l s :
  held l oid owner s -> In (os_state s) orphan_states -> os_state s <> "precheck_failed" ->
  exists l', recover_leased oid owner now s l = (Ok (recovery_result oid owner now (os_state s)), l') /\
    held l' oid owner (after owner s (recovery_path (os_state s))).
Proof.
  intros Hh Hin Hne. unfold orphan_states in Hin. apply in_app_or in Hin as [Hin|Hin].
  { by apply recover_pre. }
  apply in_app_or in Hin as [Hin|[E|[]]]; [|done].
  apply in_app_or in Hin as [Hin|Hin]; [by apply recover_effect|].
  apply recover_rolling; [done|]. destruct Hin as [E|[E|[]]]; auto.
Qed.

(** *** The whole recovery *)

Lemma fresh_synced w oid s : disk_state w oid = Ok s ->
  exists l, new_store w = Ok l /\ disk l = w /\ synced l oid s.
Proof.
  intros Hs. assert (Hs' := Hs). unfold disk_state in Hs'. apply bind_ok in Hs' as (es & Hl & _).
  exists {| disk := w; cache := es |}. assert (Hn : new_store w = Ok {| disk := w; cache := es |})
    by (unfold new_store; by rewrite Hl).
  split_and!; [done | done | by eapply synced_fresh].
Qed.

Lemma recover_on_expired oid owner now l s e :
  synced l oid s -> plain_owner (os_lease_owner_id s) -> owner <> "" ->
  mem (os_state s) P118_TERMINAL_STATUSES = false -> os_lease_expires_at s = Some e -> e <= now ->
  exists l1, recover_on oid owner now l = recover_leased oid owner now (leased s owner (now + 60)) l1 /\
    held l1 oid owner (leased s owner (now + 60)).
Proof.
  intros Hs Ho Hne Ht He Hle.
  destruct (record_lease_runs l oid s owner (now + 60) "lease_takeover") as (r & l1 & Hr & _ & _ & Hs1);
    [right; by left | done | done |].
  exists l1. split; [|by split_and!]. unfold recover_on.
  rewrite (lbind_run _ _ _ _ _ (replay_synced _ _ _ Hs)), Ht. cbv iota.
  rewrite He, (proj2 (Z.ltb_ge _ _) Hle). cbn [negb].
  rewrite (lbind_run _ _ _ _ _ (lensure_run _ _)), <- He, (lbind_run _ _ _ _ _ Hr).
  by rewrite (lbind_run _ _ _ _ _ (replay_synced _ _ _ Hs1)).
Qed.

Lemma recovery_path_facts st :
  In st orphan_states -> st <> "precheck_failed" ->
  ~ In "action_attempted" (recovery_path st) /\
  (List.last (recovery_path st) st = "aborted_fail_closed" \/
   List.last (recovery_path st) st = "rolled_back").
Proof.
  intros H Hne. rewrite <- mem_In.
  repeat destruct H as [<-|H]; try done; (split; [done|]); ((by left) || (by right)).
Qed.

Definition terminal_result (oid st : string) : P118CrashRecoveryResult := {|
  cr_operation_id := oid; cr_final_state := st; cr_duplicate_action_count := 0;
  cr_rollback_attempts := 0; cr_orphan_recoveries := 0; cr_rollback_evidence_hash := None |}.

(** Crash recovery never replays an effect.  On a file that knows the
    operation: a terminal one is reported as it is and nothing is written; a
    lease that is missing or unexpired is refused and nothing is written; an
    expired one is taken over and the operation ends [aborted_fail_closed]
    when no action had been attempted and [rolled_back] otherwise, by the
    transitions of [recovery_path] and no others ([action_attempted] is not
    among them) — all but [precheck_failed], whose lease is taken and whose
    recovery is then refused, whenever it is tried. *)
Theorem crash_recovery_outcome w oid owner now s r w' :
  disk_state w oid = Ok s -> plain_owner (os_lease_owner_id s) -> In (os_state s) P118_LIFECYCLE_STATES ->
  owner <> "" -> recover_p118_crash w oid owner now = (r, w') ->
  (In (os_state s) P118_TERMINAL_STATUSES -> r = Ok (terminal_result oid (os_state s)) /\ w' = w) /\
  (~ In (os_state s) P118_TERMINAL_STATUSES ->
     (forall e, os_lease_expires_at s = Some e -> now < e) ->
     r = Raise (P118LedgerError "lease_not_expired") /\ w' = w) /\
  (~ In (os_state s) P118_TERMINAL_STATUSES ->
     forall e, os_lease_expires_at s = Some e -> e <= now ->
     (os_state s <> "precheck_failed" ->
        r = Ok (recovery_result oid owner now (os_state s)) /\
        ~ In "action_attempted" (recovery_path (os_state s)) /\
        exists s', disk_state w' oid = Ok s' /\
          os_state s' = List.last (recovery_path (os_state s)) (os_state s) /\
          (os_state s' = "aborted_fail_closed" \/ os_state s' = "rolled_back") /\
          os_cas_version s' = os_cas_version s + Z.of_nat (List.length (recovery_path (os_state s)))) /\
     (os_state s = "precheck_failed" ->
        r = Raise (P118LedgerError "orphan_not_recoverable_without_effect_replay") /\
        disk_state w' oid = Ok (leased s owner (now + 60)))).
Proof.
  intros Hs Ho Hlife Hne Hrec. destruct (fresh_synced _ _ _ Hs) as (l & Hn & Hd & Hsy).
  unfold recover_p118_crash in Hrec. rewrite Hn in Hrec.
  split_and!.
  - intros Ht%mem_In. revert Hrec. unfold recover_on.
    rewrite (lbind_run _ _ _ _ _ (replay_synced _ _ _ Hsy)), Ht. by intros [= <- <-].
  - intros Ht%mem_not_In He. revert Hrec. unfold recover_on.
    rewrite (lbind_run _ _ _ _ _ (replay_synced _ _ _ Hsy)), Ht. cbv iota.
    destruct (os_lease_expires_at s) as [e|].
    + rewrite (proj2 (Z.ltb_lt _ _) (He e eq_refl)). by intros [= <- <-].
    + by intros [= <- <-].
  - intros Ht e He Hle. pose proof (lifecycle_orphan _ Hlife Ht) as Horph. apply mem_not_In in Ht.
    destruct (recover_on_expired oid owner now l s e Hsy Ho Hne Ht He Hle) as (l1 & Hrun & Hh).
    rewrite Hrun in Hrec. split; intros Hp.
    + destruct (recover_held oid owner now l1 _ Hh Horph Hp) as (l2 & H2 & Hh2).
      rewrite H2 in Hrec. injection Hrec as <- <-. split; [done|].
      destruct (after_facts owner (leased s owner (now + 60)) (recovery_path (os_state s))) as (Hc & Hst & _).
      destruct (recovery_path_facts _ Horph Hp) as [Hna Hlast].
      split; [done|]. eexists. split; [apply synced_disk, Hh2|]. cbn [os_state leased] in *.
      rewrite Hc, Hst. by split_and!.
    + rewrite (recover_precheck_failed oid owner now l1) in Hrec by done. injection Hrec as <- <-.
      split; [done | apply synced_disk, Hh].
Qed.

(** ** Witnesses *)

Definition demo_worker : P118Worker :=
  {| w_owner_id := "worker-1"; w_lease_ttl_seconds := 60; w_max_retries := 1 |}.
Definition demo_worker2 : P118Worker :=
  {| w_owner_id := "worker-2"; w_lease_ttl_seconds := 60; w_max_retries := 1 |}.

Definition demo_leased : P118OperationState := leased demo_registered "worker-1" 70.

Lemma demo_registered_owner : os_lease_owner_id demo_registered = VStr "worker-1".
Proof. exact (proj1 (proj2 (proj2 (proj2 (proj2 demo_facts))))). Qed.

Lemma demo_acquired :
  exists r l, acquire_lease demo_worker "op-1" 10 demo_store = (Ok r, l) /\ synced l "op-1" demo_leased.
Proof.
  destruct (acquire_runs demo_worker "op-1" 10 demo_store demo_registered demo_store_synced)
    as (r & l & H & _ & Hs).
  - rewrite demo_registered_owner. right. by exists "worker-1".
  - rewrite demo_registered_owner. done.
  - exists r, l. split; [exact H | exact Hs].
Qed.

Lemma demo_runnable : runnable demo_worker 10 demo_leased.
Proof. split; [done | done | done | by exists 70 | reflexivity]. Qed.

Definition measured_success : P118ValidationCycleResult :=
  cycle_result "succeeded" exact_zero_authority_counters (Some "sha256:pre") (Some "sha256:post") None 0 false.

Lemma worker_runs_rejected_operation_witness :
  exists l d r l', ad_approved d = false /\
    run_once demo_worker "op-1" 10 measured_success demo_operation
      (vr_verification_hash (demo_verification false)) (decision_to_dict d) demo_lease demo_wal 0 l
      = (Ok r, l') /\ wr_final_state r = "succeeded" /\
    exists s', disk_state (disk l') "op-1" = Ok s' /\ os_state s' = "succeeded".
Proof.
  destruct demo_facts as (Hp & _ & _ & Ho & _). destruct demo_payload_like as (Hid & _).
  destruct (demo_decision _ _ false Hp demo_payload_like) as (d & Hd & Ha).
  destruct demo_acquired as (_ & l & _ & Hs).
  destruct (worker_runs_rejected_operation demo_worker "op-1" 10 measured_success demo_operation
    (demo_verification false) demo_digest demo_lease demo_wal 0 None d
    (demo_payload demo_operation) 100 0 l demo_leased Hs demo_runnable Hp Ho Hid Hd Ha
    ltac:(by repeat constructor) eq_refl (sha256_ref_stable_hash _) demo_lease_ok demo_wal_ok
    eq_refl eq_refl eq_refl eq_refl eq_refl eq_refl) as (r & l' & H).
  exists l, d, r, l'. split; [exact Ha | exact H].
Defined.

Lemma run_once_is_authorized_witness :
  exists l r l' d, run_once demo_worker "op-1" 10 measured_success demo_operation
      (vr_verification_hash (demo_verification true)) (decision_to_dict d) demo_lease demo_wal 0 l
      = (Ok r, l') /\ vget (decision_to_dict d) "operation_id" = VStr "op-1" /\ wr_final_state r = "succeeded".
Proof.
  destruct demo_facts as (Hp & _ & _ & Ho & _). destruct demo_payload_like as (Hid & _).
  destruct (demo_decision _ _ true Hp demo_payload_like) as (d & Hd & Ha).
  destruct demo_acquired as (_ & l & _ & Hs).
  assert (Hz : zero_observed (default empty_p118_policy_counters None)) by by repeat constructor.
  assert (Hid' : vget (demo_payload demo_operation) "operation_id" = VStr (operation_id demo_operation))
    by (rewrite Ho; exact Hid).
  pose proof (receipt_validates demo_operation (demo_verification true) demo_digest 10 demo_lease demo_wal
    0 None d _ 100 0 Hd Hp Hid' Hz eq_refl (sha256_ref_stable_hash _) demo_lease_ok demo_wal_ok
    eq_refl eq_refl eq_refl eq_refl) as Hval.
  destruct (decision_fields _ _ _ _ _ _ _ _ _ _ 100 0 _ _ Hd Hp Hz
    (self_hash_value _ _ demo_lease_ok) (self_hash_value _ _ demo_wal_ok) eq_refl eq_refl)
    as (_ & E2 & E3 & _).
  assert (G : vget (decision_to_dict d) "operation_id" = VStr "op-1").
  { rewrite <- Ho. exact (f_equal VStr E2). }
  destruct (run_once_runs demo_worker "op-1" 10 measured_success demo_operation
    (vr_verification_hash (demo_verification true)) (decision_to_dict d) demo_lease demo_wal 0 _
    success_path l demo_leased Hs demo_runnable Hp eq_refl G (f_equal VStr E3) eq_refl Hval eq_refl)
    as (r & l' & Hr & _).
  exists l, r, l', d. split; [exact Hr|].
  destruct (run_once_is_authorized _ _ _ _ _ _ _ _ _ _ _ _ _ Hr) as (_ & _ & Hg & _ & _ & Hf & _).
  split; [exact Hg | exact Hf].
Defined.

Lemma granted_lease_was_free_witness :
  exists r l, acquire_lease demo_worker "op-1" 10 demo_store = (Ok r, l) /\
    exists s0, replay_entries (cache demo_store) "op-1" = Ok s0.
Proof.
  destruct demo_acquired as (r & l & H & _). exists r, l. split; [exact H|].
  destruct (granted_lease_was_free _ _ _ _ _ _ H) as (_ & s0 & H0 & _). exists s0. exact H0.
Defined.

(** An operation registered without a lease owner. *)
Definition unowned_args : append_args :=
  registration_args "op-2" [] "key-2" "hash" (VDict exact_zero_authority_counters).
Definition unowned_store : ledger := {|
  disk := [Some (VDict (dict_image (written [] unowned_args)))];
  cache := [dict_image (written [] unowned_args)] |}.

Lemma unowned_synced :
  synced unowned_store "op-2" (registered "op-2" [] "key-2" "hash" exact_zero_authority_counters).
Proof.
  assert (H : replay_entries [dict_image (written [] unowned_args)] "op-2" =
    Ok (registered "op-2" [] "key-2" "hash" exact_zero_authority_counters)).
  { apply replay_view. split; [apply (written_image_chain []); constructor|].
    exact (view_registration [] "op-2" "op-2" _ _ _ _). }
  eexists. split; [reflexivity | split; exact H].
Qed.

Lemma unowned_lease_is_granted_twice_witness :
  exists r1 l1 r2 l2,
    acquire_lease demo_worker "op-2" 10 unowned_store = (Ok r1, l1) /\
    acquire_lease demo_worker2 "op-2" 10 {| disk := disk l1; cache := cache unowned_store |} = (Ok r2, l2).
Proof.
  destruct (unowned_lease_is_granted_twice demo_worker demo_worker2 "op-2" 10 unowned_store _
    unowned_synced eq_refl eq_refl) as (r1 & l1 & r2 & l2 & H1 & H2 & _).
  exists r1, l1, r2, l2. split; [exact H1 | exact H2].
Defined.

Lemma crash_recovery_outcome_witness :
  exists w r w', recover_p118_crash w "op-1" "worker-2" 100 = (r, w') /\
    r = Ok (recovery_result "op-1" "worker-2" 100 "received").
Proof.
  destruct demo_acquired as (_ & l & _ & Hs).
  destruct (recover_p118_crash (disk l) "op-1" "worker-2" 100) as [r w'] eqn:Hrec.
  exists (disk l), r, w'. split; [exact Hrec|].
  assert (Hlife : In "received" P118_LIFECYCLE_STATES) by by left.
  assert (Hterm : ~ In "received" P118_TERMINAL_STATUSES) by by rewrite <- mem_In.
  destruct (crash_recovery_outcome (disk l) "op-1" "worker-2" 100 demo_leased r w'
    (synced_disk _ _ _ Hs) (or_intror (ex_intro _ "worker-1" eq_refl)) Hlife ltac:(done) Hrec)
    as (_ & _ & H).
  exact (proj1 (proj1 (H Hterm 70 eq_refl ltac:(lia)) ltac:(done))).
Defined.
