(* ===== verification/PyFloat.v ===== *)
(** * Arithmetic on doubles

    A double is the exact rational it denotes, reduced; a result that the
    format cannot hold is rounded to the nearest double, ties to even.
    Infinities, NaN and negative zero are not modelled. *)

From Stdlib Require Import Qround Qabs.
From S2P Require Import Prelude PyValue.

(** The nearest integer, a tie going to the even one. *)
Definition round_half_even (q : Q) : Z :=
  let n := Qfloor q in
  match Qcompare (q - inject_Z n) (1 # 2) with
  | Lt => n
  | Gt => n + 1
  | Eq => if Z.even n then n else n + 1
  end.

(** [FloatRepr.float_ulp] is the exponent of the last bit of the mantissa. *)
Definition round_double (q : Q) : Q :=
  if Qeq_bool q 0 then 0%Q else
  let e := FloatRepr.float_ulp (Qabs q) in
  Qred (inject_Z (round_half_even (q * FloatRepr.qpow2 (- e))) * FloatRepr.qpow2 e).

Definition fadd (a b : Q) : Q := round_double (a + b).
Definition fsub (a b : Q) : Q := round_double (a - b).
Definition fdiv (a b : Q) : Q := round_double (a / b).

(** [sum] of floats since Python 3.12: the running sum [s], and the
    compensation [c] that is added at the end (Neumaier). *)
Fixpoint compensated_sum (s c : Q) (l : list Q) : Q :=
  match l with
  | [] => if Qeq_bool c 0 then s else fadd s c
  | x :: l =>
      let t := fadd s x in
      let lost := if Qle_bool (Qabs x) (Qabs s) then fadd (fsub s t) x else fadd (fsub x t) s in
      compensated_sum t (fadd c lost) l
  end.

Definition float_sum (l : list Q) : Q :=
  match l with
  | [] => 0%Q
  | x :: l => compensated_sum x 0 l
  end.

(** [min] and [max] of a list that is not empty. *)
Definition float_min (x : Q) (l : list Q) : Q := fold_left (fun m y => if Qle_bool m y then m else y) l x.
Definition float_max_of (x : Q) (l : list Q) : Q := fold_left (fun m y => if Qle_bool y m then m else y) l x.

(** [float(v)] of a number that is not a boolean; [None] when [_finite_number]
    is false. *)
Definition finite_number (v : val) : res (option Q) :=
  match v with
  | VInt z =>
      let q := round_double (inject_Z z) in
      if Qle_bool q (-(2 ^ 1024))%Q || Qle_bool (2 ^ 1024)%Q q
      then Raise (Exn "OverflowError" "int too large to convert to float") else Ok (Some q)
  | VFloat q => Ok (Some q)
  | _ => Ok None
  end.

Example tenths : Qeq_bool (fadd (round_double (1 # 10)) (round_double (2 # 10))) (round_double (3 # 10)) = false.
Proof. reflexivity. Qed.

(** Three tenths: with the compensation the sum is the nearest double. *)
Example compensated : Qeq_bool (float_sum (repeat (round_double (1 # 10)) 10)) 1 = true.
Proof. reflexivity. Qed.
