(* ===== verification/PyTime.v ===== *)
(** * UTC date-times

    [datetime] values in UTC as microseconds since 0001-01-01T00:00:00, their
    ISO form as the sources write it (to the second, or with the microseconds
    when there are some), and its parser.  Of the forms
    [datetime.fromisoformat] accepts only the extended calendar form with
    seconds is read, with a fraction and an offset [+HH:MM] or [-HH:MM] where
    they are given: it includes every form the sources write. *)

From S2P Require Import Prelude PyValue.

(** ** The calendar *)

Definition is_leap (y : Z) : bool :=
  (y mod 4 =? 0) && (negb (y mod 100 =? 0) || (y mod 400 =? 0)).

Definition year_len (y : Z) : Z := if is_leap y then 366 else 365.

Definition month_lens (y : Z) : list Z :=
  [31; if is_leap y then 29 else 28; 31; 30; 31; 30; 31; 31; 30; 31; 30; 31].

(** The year of day [n] counted from the start of year [y], and the day
    within it. *)
Fixpoint year_of (fuel : nat) (y n : Z) : Z * Z :=
  match fuel with
  | O => (y, n)
  | S fuel => if n <? year_len y then (y, n) else year_of fuel (y + 1) (n - year_len y)
  end.

Fixpoint month_of (lens : list Z) (m n : Z) : Z * Z :=
  match lens with
  | [] => (m, n)
  | len :: lens => if n <? len then (m, n) else month_of lens (m + 1) (n - len)
  end.

Definition MAXYEAR : Z := 9999.

(** Year, month and day of the month of day [n] since 0001-01-01. *)
Definition date_of_days (n : Z) : Z * Z * Z :=
  let '(y, doy) := year_of (Z.to_nat MAXYEAR) 1 n in
  let '(m, d) := month_of (month_lens y) 1 doy in
  (y, m, d + 1).

Definition days_before_year (y : Z) : Z :=
  let p := y - 1 in p * 365 + p / 4 - p / 100 + p / 400.

Fixpoint sum_lens (lens : list Z) (k : nat) : Z :=
  match lens, k with
  | len :: lens, S k => len + sum_lens lens k
  | _, _ => 0
  end.

Definition days_before_month (y m : Z) : Z := sum_lens (month_lens y) (Z.to_nat (m - 1)).

Definition days_in_month (y m : Z) : Z := nth (Z.to_nat (m - 1)) (month_lens y) 0.

Definition days_of_date (y m d : Z) : Z := days_before_year y + days_before_month y m + (d - 1).

(** ** Digits *)

Definition digit (n : Z) : string := String (ascii_of_N (Z.to_N (48 + n))) EmptyString.

Definition show2 (n : Z) : string := digit (n / 10) +:+ digit (n mod 10).
Definition show4 (n : Z) : string := show2 (n / 100) +:+ show2 (n mod 100).

Definition read_digit (c : ascii) : option Z :=
  let n := Z.of_N (code c) in
  if (48 <=? n) && (n <=? 57) then Some (n - 48) else None.

Definition read2 (a b : ascii) : option Z :=
  match read_digit a, read_digit b with
  | Some x, Some y => Some (10 * x + y)
  | _, _ => None
  end.

(** ** The ISO form *)

Definition second : Z := 1000000.
Definition day_seconds : Z := 86400.

(** [value.replace(microsecond=0).isoformat()] without the offset *)
Definition isoformat (us : Z) : string :=
  let secs := us / second in
  let '(y, m, d) := date_of_days (secs / day_seconds) in
  let s := secs mod day_seconds in
  show4 y +:+ "-" +:+ show2 m +:+ "-" +:+ show2 d +:+ "T" +:+
  show2 (s / 3600) +:+ ":" +:+ show2 (s / 60 mod 60) +:+ ":" +:+ show2 (s mod 60).

Definition datetime_of (y m d hh mm ss : Z) : option Z :=
  if (1 <=? y) && (y <=? MAXYEAR) && (1 <=? m) && (m <=? 12) && (1 <=? d) && (d <=? days_in_month y m) &&
     (hh <=? 23) && (mm <=? 59) && (ss <=? 59)
  then Some ((days_of_date y m d * day_seconds + hh * 3600 + mm * 60 + ss) * second)
  else None.

Definition chars (s : string) : list ascii := list_ascii_of_string s.

(** The date, the time to the second and what follows them. *)
Definition read_clock (cs : list ascii) : option (Z * list ascii) :=
  match cs with
  | y1 :: y2 :: y3 :: y4 :: h1 :: m1 :: m2 :: h2 :: d1 :: d2 :: _ ::
    a1 :: a2 :: c1 :: b1 :: b2 :: c2 :: e1 :: e2 :: rest =>
      if (code h1 =? 45)%N && (code h2 =? 45)%N && (code c1 =? 58)%N && (code c2 =? 58)%N then
        match read2 y1 y2, read2 y3 y4, read2 m1 m2, read2 d1 d2, read2 a1 a2, read2 b1 b2, read2 e1 e2 with
        | Some yh, Some yl, Some m, Some d, Some hh, Some mm, Some ss =>
            match datetime_of (100 * yh + yl) m d hh mm ss with
            | Some us => Some (us, rest)
            | None => None
            end
        | _, _, _, _, _, _, _ => None
        end
      else None
  | _ => None
  end.

Definition is_digit_char (c : ascii) : bool := match read_digit c with Some _ => true | None => false end.

(** The first [n] digits of [l], as if zeros followed. *)
Fixpoint read_digits (n : nat) (l : list ascii) (acc : Z) : option Z :=
  match n, l with
  | O, _ => Some acc
  | S n, [] => read_digits n [] (10 * acc)
  | S n, c :: l => match read_digit c with Some d => read_digits n l (10 * acc + d) | None => None end
  end.

(** The microseconds of a fraction: digits beyond the sixth are dropped. *)
Definition read_fraction (l : list ascii) : option Z :=
  match l with
  | [] => Some 0
  | c :: ds =>
      if ((code c =? 46)%N || (code c =? 44)%N) && negb (List.length ds =? 0)%nat && forallb is_digit_char ds
      then read_digits 6 ds 0 else None
  end.

(** [+HH:MM] or [-HH:MM], in microseconds *)
Definition read_offset (l : list ascii) : option Z :=
  match l with
  | [sign; a1; a2; c; b1; b2] =>
      match read2 a1 a2, read2 b1 b2 with
      | Some hh, Some mm =>
          if (code c =? 58)%N && (hh <=? 23) && (mm <=? 59) then
            let off := (hh * 3600 + mm * 60) * second in
            Some (if (code sign =? 45)%N then - off else off)
          else None
      | _, _ => None
      end
  | _ => None
  end.

Definition is_sign (c : ascii) : bool := (code c =? 43)%N || (code c =? 45)%N.

(** What comes before the first sign, and the rest from it. *)
Fixpoint split_sign (l : list ascii) : list ascii * list ascii :=
  match l with
  | [] => ([], [])
  | c :: l' => if is_sign c then ([], l) else let '(a, b) := split_sign l' in (c :: a, b)
  end.

(** A time without offset. *)
Definition fromisoformat (s : string) : option Z :=
  match read_clock (chars s) with
  | Some (us, rest) =>
      match read_fraction rest with Some f => Some (us + f) | None => None end
  | None => None
  end.

(** The local time, and the offset when there is one. *)
Definition fromisoformat_offset (s : string) : option (Z * option Z) :=
  match read_clock (chars s) with
  | Some (us, rest) =>
      let '(fraction, offset) := split_sign rest in
      match read_fraction fraction with
      | None => None
      | Some f =>
          match offset with
          | [] => Some (us + f, None)
          | _ => match read_offset offset with Some off => Some (us + f, Some off) | None => None end
          end
      end
  | None => None
  end.

(** ** The calendar round trip *)

Lemma year_len_pos y : 365 <= year_len y <= 366.
Proof. unfold year_len. destruct (is_leap y); lia. Qed.

Lemma days_before_year_succ y : days_before_year (y + 1) = days_before_year y + year_len y.
Proof.
  unfold days_before_year, year_len, is_leap. cbv zeta. replace (y + 1 - 1) with y by lia.
  destruct (Z.eqb_spec (y mod 4) 0), (Z.eqb_spec (y mod 100) 0), (Z.eqb_spec (y mod 400) 0); simpl;
    Z.div_mod_to_equations; lia.
Qed.

Lemma year_of_spec fuel y n y' doy :
  0 <= n -> year_of fuel y n = (y', doy) -> n < days_before_year (y + Z.of_nat fuel) - days_before_year y ->
  y <= y' < y + Z.of_nat fuel /\ 0 <= doy < year_len y' /\
  days_before_year y' + doy = days_before_year y + n.
Proof.
  revert y n. induction fuel as [|fuel IH]; intros y n Hn; cbn [year_of].
  { intros _. replace (y + Z.of_nat 0) with y by lia. lia. }
  destruct (Z.ltb_spec n (year_len y)) as [Hlt|Hge].
  - intros [= <- <-] _. split_and!; lia.
  - intros H Hb. replace (y + Z.of_nat (S fuel)) with (y + 1 + Z.of_nat fuel) in Hb by lia.
    pose proof (days_before_year_succ y).
    destruct (IH (y + 1) (n - year_len y)) as (H1 & H2 & H3); [lia | done | lia |].
    split_and!; lia.
Qed.

Lemma month_of_spec lens m n m' d :
  Forall (fun len => 28 <= len <= 31) lens -> 0 <= n < sum_lens lens (List.length lens) ->
  month_of lens m n = (m', d) ->
  m <= m' < m + Z.of_nat (List.length lens) /\ 0 <= d < nth (Z.to_nat (m' - m)) lens 0 /\
  sum_lens lens (Z.to_nat (m' - m)) + d = n.
Proof.
  intros Hl. revert m n. induction Hl as [|len lens Hlen Hl IH]; intros m n Hn; cbn [month_of].
  { simpl in Hn. lia. }
  simpl in Hn. destruct (Z.ltb_spec n len) as [Hlt|Hge].
  - intros [= <- <-]. replace (Z.to_nat (m - m)) with 0%nat by lia. simpl. split_and!; lia.
  - intros H. destruct (IH (m + 1) (n - len)) as (H1 & H2 & H3); [lia | done |].
    replace (Z.to_nat (m' - m)) with (S (Z.to_nat (m' - (m + 1)))) by lia.
    simpl. split_and!; lia.
Qed.

Lemma month_lens_ok y :
  Forall (fun len => 28 <= len <= 31) (month_lens y) /\ List.length (month_lens y) = 12%nat /\
  sum_lens (month_lens y) 12 = year_len y.
Proof.
  unfold month_lens, year_len. destruct (is_leap y); (split; [repeat constructor; lia | done]).
Qed.

(** The days a [datetime] can fall on. *)
Definition max_days : Z := days_before_year (MAXYEAR + 1).

Lemma date_of_days_ok n :
  0 <= n < max_days ->
  let '(y, m, d) := date_of_days n in
  1 <= y <= MAXYEAR /\ 1 <= m <= 12 /\ 1 <= d <= days_in_month y m /\ d <= 31 /\ days_of_date y m d = n.
Proof.
  intros Hn. unfold date_of_days. destruct (year_of _ 1 n) as [y doy] eqn:Ey.
  destruct (month_of (month_lens y) 1 doy) as [m d] eqn:Em.
  apply year_of_spec in Ey as (H1 & H2 & H3); [| lia |].
  2:{ change (1 + Z.of_nat (Z.to_nat MAXYEAR)) with (MAXYEAR + 1). unfold max_days in Hn.
      change (days_before_year 1) with 0. lia. }
  destruct (month_lens_ok y) as (Hl & Hlen & Hsum).
  apply month_of_spec in Em as (G1 & G2 & G3); [| done | by rewrite Hlen, Hsum].
  rewrite Hlen in G1. change (days_before_year 1) with 0 in H3.
  assert (Hd31 : nth (Z.to_nat (m - 1)) (month_lens y) 0 <= 31).
  { destruct (nth_in_or_default (Z.to_nat (m - 1)) (month_lens y) 0) as [Hin| ->]; [|lia].
    rewrite Forall_forall in Hl. apply list_elem_of_In, Hl in Hin. lia. }
  change (1 + Z.of_nat (Z.to_nat MAXYEAR)) with (MAXYEAR + 1) in H1.
  unfold days_in_month, days_of_date, days_before_month. split_and!; lia.
Qed.

Lemma read2_show2 n : 0 <= n < 100 -> exists a b, show2 n = String a (String b "") /\ read2 a b = Some n.
Proof.
  intros Hn. eexists _, _. split; [reflexivity|]. unfold read2, read_digit, code.
  assert (0 <= n / 10 < 10 /\ 0 <= n mod 10 < 10) as [H1 H2] by (Z.div_mod_to_equations; lia).
  rewrite !N_ascii_embedding by lia.
  rewrite !Z2N.id by lia.
  assert (E : forall k, 0 <= k < 10 -> (48 <=? 48 + k) && (48 + k <=? 57) = true).
  { intros k Hk. apply andb_true_iff. split; apply Z.leb_le; lia. }
  rewrite !E by done. f_equal. pose proof (Z.div_mod n 10). lia.
Qed.

(** The fields [isoformat] writes. *)
Lemma isoformat_fields us :
  0 <= us -> us / second / day_seconds < max_days ->
  exists y m d hh mm ss,
    isoformat us = show4 y +:+ "-" +:+ show2 m +:+ "-" +:+ show2 d +:+ "T" +:+
                   show2 hh +:+ ":" +:+ show2 mm +:+ ":" +:+ show2 ss /\
    (1 <= y <= 9999 /\ 1 <= m <= 12 /\ 1 <= d <= days_in_month y m /\ d <= 31 /\
     0 <= hh < 24 /\ 0 <= mm < 60 /\ 0 <= ss < 60) /\
    days_of_date y m d * day_seconds + hh * 3600 + mm * 60 + ss = us / second.
Proof.
  intros H0 Hmax. unfold isoformat. set (secs := us / second) in *.
  assert (Hsecs : 0 <= secs) by (apply Z.div_pos; [done | unfold second; lia]).
  assert (Hd : 0 <= secs / day_seconds) by (apply Z.div_pos; [done | unfold day_seconds; lia]).
  pose proof (date_of_days_ok (secs / day_seconds) ltac:(lia)) as Hdate.
  destruct (date_of_days (secs / day_seconds)) as [[y m] d].
  destruct Hdate as (Hy & Hm & Hdd & Hd31 & Hdays). unfold MAXYEAR in Hy.
  set (s := secs mod day_seconds).
  assert (Hs : 0 <= s < 86400) by (apply Z.mod_pos_bound; unfold day_seconds; lia).
  exists y, m, d, (s / 3600), (s / 60 mod 60), (s mod 60). split; [reflexivity|].
  assert (0 <= s / 3600 < 24) by (Z.div_mod_to_equations; lia).
  assert (0 <= s / 60 mod 60 < 60) by (apply Z.mod_pos_bound; lia).
  assert (0 <= s mod 60 < 60) by (apply Z.mod_pos_bound; lia).
  split; [split_and!; lia|]. rewrite Hdays.
  assert (s = s / 3600 * 3600 + s / 60 mod 60 * 60 + s mod 60) by (Z.div_mod_to_equations; lia).
  pose proof (Z.div_mod secs day_seconds ltac:(done)). unfold s in *. lia.
Qed.

Lemma read_clock_isoformat us rest :
  0 <= us -> us / second / day_seconds < max_days ->
  read_clock (chars (isoformat us) ++ rest) = Some (us / second * second, rest).
Proof.
  intros H0 Hmax. destruct (isoformat_fields us H0 Hmax) as (y & m & d & hh & mm & ss & -> & Hb & <-).
  destruct Hb as (Hy & Hm & Hd & Hd31 & Hh & Hmm & Hss). unfold show4.
  assert (Hy1 : 0 <= y / 100 < 100 /\ 0 <= y mod 100 < 100) by (Z.div_mod_to_equations; lia).
  destruct (read2_show2 (y / 100)) as (? & ? & -> & R1); [lia|].
  destruct (read2_show2 (y mod 100)) as (? & ? & -> & R2); [lia|].
  destruct (read2_show2 m) as (? & ? & -> & R3); [lia|].
  destruct (read2_show2 d) as (? & ? & -> & R4); [lia|].
  destruct (read2_show2 hh) as (? & ? & -> & R5); [lia|].
  destruct (read2_show2 mm) as (? & ? & -> & R6); [lia|].
  destruct (read2_show2 ss) as (? & ? & -> & R7); [lia|].
  unfold read_clock, chars.
  cbv beta iota delta [String.append list_ascii_of_string app].
  change (code "-" =? 45)%N with true. change (code ":" =? 58)%N with true. cbn [andb].
  rewrite R1, R2, R3, R4, R5, R6, R7.
  replace (100 * (y / 100) + y mod 100) with y by (pose proof (Z.div_mod y 100); lia).
  unfold datetime_of, MAXYEAR. rewrite !(proj2 (Z.leb_le _ _)) by lia. reflexivity.
Qed.

Lemma chars_app s t : chars (s +:+ t) = chars s ++ chars t.
Proof. unfold chars. induction s; simpl; [done|]. by rewrite IHs. Qed.

(** Reading back what was written gives the time to the second. *)
Lemma fromisoformat_isoformat us :
  0 <= us -> us / second / day_seconds < max_days ->
  fromisoformat (isoformat us) = Some (us / second * second).
Proof.
  intros H0 Hmax. unfold fromisoformat. rewrite <- (app_nil_r (chars (isoformat us))).
  rewrite read_clock_isoformat by done. simpl. f_equal. lia.
Qed.

(** ** The form with microseconds *)

Definition show6 (n : Z) : string := show2 (n / 10000) +:+ show2 (n / 100 mod 100) +:+ show2 (n mod 100).

(** [value.isoformat()] without the offset *)
Definition isoformat_us (us : Z) : string :=
  isoformat us +:+ (if us mod second =? 0 then "" else "." +:+ show6 (us mod second)).

(** [value.astimezone(UTC).isoformat().replace("+00:00", "Z")] *)
Definition utc_timestamp (us : Z) : string := isoformat_us us +:+ "Z".

(** Is the time one a [datetime] holds? *)
Definition datetime_range (us : Z) : bool := (0 <=? us) && (us / second / day_seconds <? max_days).

(** [datetime.fromisoformat(value.replace("Z", "+00:00"))] as an instant and
    whether it is aware; [None] is a [ValueError]. *)
Definition read_utc (value : string) : option (Z * option Z) :=
  fromisoformat_offset (replace "Z" "+00:00" value).

Lemma replace_one c new s : c <> "Z"%char -> forall k, replace_fuel (S k) "Z" new (String c s) = String c (replace_fuel k "Z" new s).
Proof.
  intros Hc k. cbn [replace_fuel].
  assert (E : startswith "Z" (String c s) = false); [|by rewrite E].
  unfold startswith. cbn [String.prefix]. destruct (ascii_dec _ c); [congruence | reflexivity].
Qed.

Definition no_z (s : string) : Prop := Forall (fun c => c <> "Z"%char) (chars s).

Ltac no_z_literal := repeat (constructor; [discriminate|]); constructor.

Lemma no_z_app s t : no_z s -> no_z t -> no_z (s +:+ t).
Proof. unfold no_z. rewrite chars_app. apply Forall_app_2. Qed.

Lemma replace_z s : no_z s -> replace "Z" "+00:00" (s +:+ "Z") = s +:+ "+00:00".
Proof.
  unfold replace. intros Hs.
  induction s as [|c s IH]; [reflexivity|].
  inversion Hs as [|? ? Hc Hs']; subst.
  change (String c s +:+ "Z") with (String c (s +:+ "Z")).
  change (String.length (String c (s +:+ "Z"))) with (S (String.length (s +:+ "Z"))).
  rewrite (replace_one c) by exact Hc. by rewrite IH.
Qed.

Lemma read_digit_no_z c n : read_digit c = Some n -> c <> "Z"%char.
Proof. intros H ->. discriminate H. Qed.

Lemma read2_some a b n : read2 a b = Some n -> exists x y, read_digit a = Some x /\ read_digit b = Some y /\ n = 10 * x + y.
Proof. unfold read2. destruct (read_digit a), (read_digit b); naive_solver. Qed.

Lemma no_z_show2 n : 0 <= n < 100 -> no_z (show2 n).
Proof.
  intros Hn. destruct (read2_show2 n Hn) as (a & b & -> & H).
  apply read2_some in H as (x & y & H1 & H2 & _).
  constructor; [by eapply read_digit_no_z|]. constructor; [by eapply read_digit_no_z | constructor].
Qed.

Lemma no_z_isoformat us : 0 <= us -> us / second / day_seconds < max_days -> no_z (isoformat us).
Proof.
  intros H0 Hmax. destruct (isoformat_fields us H0 Hmax) as (y & m & d & hh & mm & ss & -> & Hb & _).
  assert (0 <= y / 100 < 100 /\ 0 <= y mod 100 < 100) by (Z.div_mod_to_equations; lia).
  unfold show4. repeat first [apply no_z_show2; lia | apply no_z_app | no_z_literal].
Qed.

Lemma show6_parts n : 0 <= n < 1000000 ->
  0 <= n / 10000 < 100 /\ 0 <= n / 100 mod 100 < 100 /\ 0 <= n mod 100 < 100 /\
  n = 10000 * (n / 10000) + 100 * (n / 100 mod 100) + n mod 100.
Proof. intros. Z.div_mod_to_equations. lia. Qed.

Lemma read_show6 n : 0 <= n < 1000000 -> read_fraction (chars ("." +:+ show6 n)) = Some n.
Proof.
  intros Hn. destruct (show6_parts n Hn) as (H1 & H2 & H3 & H4). unfold show6.
  destruct (read2_show2 (n / 10000) H1) as (? & ? & -> & R1).
  destruct (read2_show2 (n / 100 mod 100) H2) as (? & ? & -> & R2).
  destruct (read2_show2 (n mod 100) H3) as (? & ? & -> & R3).
  apply read2_some in R1 as (? & ? & A1 & A2 & E1), R2 as (? & ? & A3 & A4 & E2), R3 as (? & ? & A5 & A6 & E3).
  unfold chars. cbv beta iota delta [String.append list_ascii_of_string].
  cbn [read_fraction forallb List.length read_digits].
  unfold is_digit_char. rewrite A1, A2, A3, A4, A5, A6. cbn. f_equal. lia.
Qed.

Lemma no_z_show6 n : 0 <= n < 1000000 -> no_z (show6 n).
Proof. intros Hn. destruct (show6_parts n Hn) as (H1 & H2 & H3 & _). unfold show6. repeat first [by apply no_z_show2 | apply no_z_app]. Qed.

Lemma split_sign_none l rest : Forall (fun c => is_sign c = false) l -> split_sign (l ++ rest) = (let '(a, b) := split_sign rest in (l ++ a, b)).
Proof. induction 1 as [|c l Hc Hl IH]; simpl; [by destruct (split_sign rest)|]. rewrite Hc, IH. by destruct (split_sign rest). Qed.

Lemma digit_no_sign c : is_digit_char c = true -> is_sign c = false.
Proof.
  unfold is_digit_char, read_digit, is_sign. destruct (_ && _) eqn:E; [|done]. intros _. bools.
  apply orb_false_iff. split; apply N.eqb_neq; intros Hc; rewrite Hc in *; lia.
Qed.

Lemma fraction_no_sign l f : read_fraction l = Some f -> Forall (fun c => is_sign c = false) l.
Proof.
  destruct l as [|c ds]; [constructor|]. cbn [read_fraction].
  destruct (_ && _) eqn:E; [|done]. intros _. bools. constructor.
  - unfold is_sign. apply orb_true_iff in H as [H|H]; apply N.eqb_eq in H; by rewrite H.
  - rewrite forallb_forall in H0. rewrite Forall_forall. intros x Hx. apply digit_no_sign, H0. by apply list_elem_of_In.
Qed.

(** Reading a written time gives it back, to the microsecond. *)
Lemma no_z_isoformat_us us : datetime_range us = true -> no_z (isoformat_us us).
Proof.
  unfold datetime_range. intros H. bools. assert (Hf := Z.mod_pos_bound us second ltac:(done)). unfold second at 2 in Hf.
  apply no_z_app; [by apply no_z_isoformat|].
  destruct (us mod second =? 0); [constructor|]. apply no_z_app; [no_z_literal | by apply no_z_show6].
Qed.

Lemma read_isoformat_us us : datetime_range us = true -> fromisoformat_offset (isoformat_us us +:+ "+00:00") = Some (us, Some 0).
Proof.
  unfold datetime_range. intros H. bools.
  assert (Hf : 0 <= us mod second < 1000000) by (apply Z.mod_pos_bound; done).
  set (frac := if us mod second =? 0 then "" else "." +:+ show6 (us mod second)).
  assert (Hr : read_fraction (chars frac) = Some (us mod second)).
  { unfold frac. destruct (Z.eqb_spec (us mod second) 0) as [E|]; [by rewrite E | by apply read_show6]. }
  unfold isoformat_us. fold frac.
  unfold fromisoformat_offset. rewrite !chars_app, <- app_assoc, read_clock_isoformat by done.
  rewrite split_sign_none by (eapply fraction_no_sign; exact Hr).
  change (split_sign (chars "+00:00")) with (@nil ascii, chars "+00:00"). cbv beta iota zeta.
  change (read_offset (chars "+00:00")) with (Some 0).
  rewrite app_nil_r, Hr. f_equal. f_equal. pose proof (Z.div_mod us second ltac:(done)). lia.
Qed.

Lemma read_utc_timestamp us : datetime_range us = true -> read_utc (utc_timestamp us) = Some (us, Some 0).
Proof.
  intros H. unfold read_utc, utc_timestamp. rewrite replace_z by (by apply no_z_isoformat_us).
  by apply read_isoformat_us.
Qed.
