(* ===== verification/TimeOrder.v ===== *)
(** * The order of written times

    Times written with [isoformat] have a fixed width up to their seconds, so
    comparing their texts compares them; what follows the seconds decides
    between texts of the same second. *)

From S2P Require Import Prelude PyValue PyTime.

(** ** Comparing digits *)

Lemma append_assoc (a b c : string) : (a +:+ b) +:+ c = a +:+ (b +:+ c).
Proof. induction a as [|x a IH]; [done|]. exact (f_equal (String x) IH). Qed.

(** The first of two comparisons that is not [Eq]. *)
Definition first_of (c d : comparison) : comparison := match c with Eq => d | _ => c end.

Lemma compare_cons c d s t : String.compare (String c s) (String d t) = first_of (Ascii.compare c d) (String.compare s t).
Proof. cbn [String.compare]. by destruct (Ascii.compare c d). Qed.

Lemma compare_digit n m s t : 0 <= n < 10 -> 0 <= m < 10 ->
  String.compare (digit n +:+ s) (digit m +:+ t) = first_of (n ?= m) (String.compare s t).
Proof.
  intros Hn Hm. change (digit n +:+ s) with (String (ascii_of_N (Z.to_N (48 + n))) s).
  change (digit m +:+ t) with (String (ascii_of_N (Z.to_N (48 + m))) t). rewrite compare_cons. unfold Ascii.compare.
  rewrite !N_ascii_embedding by lia. rewrite Z2N.inj_compare by lia. f_equal.
  apply Z.add_compare_mono_l.
Qed.

Lemma compare_div k n m : 0 < k -> (n ?= m) = first_of (n / k ?= m / k) (n mod k ?= m mod k).
Proof.
  intros Hk. pose proof (Z.div_mod n k ltac:(lia)) as Hn. pose proof (Z.div_mod m k ltac:(lia)) as Hm.
  pose proof (Z.mod_pos_bound n k Hk). pose proof (Z.mod_pos_bound m k Hk).
  unfold first_of. destruct (Z.compare_spec (n / k) (m / k)) as [E|E|E].
  - rewrite E in Hn. destruct (Z.compare_spec (n mod k) (m mod k)); [apply Z.compare_eq_iff | apply Z.compare_lt_iff | apply Z.compare_gt_iff]; lia.
  - apply Z.compare_lt_iff. nia.
  - apply Z.compare_gt_iff. nia.
Qed.

Lemma first_of_assoc a b c : first_of (first_of a b) c = first_of a (first_of b c).
Proof. by destruct a. Qed.

Lemma compare_show2 n m s t : 0 <= n < 100 -> 0 <= m < 100 ->
  String.compare (show2 n +:+ s) (show2 m +:+ t) = first_of (n ?= m) (String.compare s t).
Proof.
  intros Hn Hm. unfold show2. rewrite !append_assoc.
  rewrite compare_digit, compare_digit by (Z.div_mod_to_equations; lia).
  rewrite (compare_div 10 n m) by lia. by rewrite first_of_assoc.
Qed.

Lemma compare_show4 n m s t : 0 <= n < 10000 -> 0 <= m < 10000 ->
  String.compare (show4 n +:+ s) (show4 m +:+ t) = first_of (n ?= m) (String.compare s t).
Proof.
  intros Hn Hm. unfold show4. rewrite !append_assoc.
  rewrite compare_show2, compare_show2 by (Z.div_mod_to_equations; lia).
  rewrite (compare_div 100 n m) by lia. by rewrite first_of_assoc.
Qed.

Lemma compare_show6 n m s t : 0 <= n < 1000000 -> 0 <= m < 1000000 ->
  String.compare (show6 n +:+ s) (show6 m +:+ t) = first_of (n ?= m) (String.compare s t).
Proof.
  intros Hn Hm. unfold show6. rewrite !append_assoc.
  rewrite !compare_show2 by (Z.div_mod_to_equations; lia).
  rewrite (compare_div 10000 n m), (compare_div 100 (n mod 10000) (m mod 10000)) by lia.
  rewrite !first_of_assoc.
  assert (E : forall k, 0 <= k < 1000000 -> k mod 10000 / 100 = k / 100 mod 100 /\ k mod 10000 mod 100 = k mod 100).
  { intros k Hk. Z.div_mod_to_equations. lia. }
  by destruct (E n Hn) as [-> ->], (E m Hm) as [-> ->].
Qed.

Lemma compare_prefix p s t : String.compare (p +:+ s) (p +:+ t) = String.compare s t.
Proof.
  induction p as [|c p IH]; [done|]. change (String c p +:+ s) with (String c (p +:+ s)).
  change (String c p +:+ t) with (String c (p +:+ t)). rewrite compare_cons. unfold Ascii.compare. by rewrite N.compare_refl.
Qed.

(** ** Dates *)

Lemma sum_lens_step y m : 1 <= m <= 12 ->
  days_before_month y m + days_in_month y m = days_before_month y (m + 1) /\ 0 <= days_before_month y m /\
  days_before_month y (m + 1) <= year_len y.
Proof.
  intros Hm. unfold days_before_month, days_in_month, month_lens, year_len.
  assert (E : m = 1 \/ m = 2 \/ m = 3 \/ m = 4 \/ m = 5 \/ m = 6 \/ m = 7 \/ m = 8 \/ m = 9 \/ m = 10 \/ m = 11 \/ m = 12) by lia.
  destruct (is_leap y); repeat (destruct E as [->|E]; [split_and!; vm_compute; (reflexivity || discriminate)|]); subst m;
    split_and!; vm_compute; (reflexivity || discriminate).
Qed.

Lemma months_mono y m m' : 1 <= m -> m <= m' -> m' <= 12 -> days_before_month y m <= days_before_month y m'.
Proof.
  intros H1 H2 H3. assert (E : exists k : nat, m' = m + Z.of_nat k) by (exists (Z.to_nat (m' - m)); lia).
  destruct E as (k & ->). clear H2. induction k as [|k IH]; [by rewrite Z.add_0_r|].
  assert (Hs := sum_lens_step y (m + Z.of_nat k) ltac:(lia)). replace (m + Z.of_nat (S k)) with (m + Z.of_nat k + 1) by lia.
  etrans; [apply IH; lia|]. destruct Hs as (<- & _).
  unfold days_in_month. destruct (nth_in_or_default (Z.to_nat (m + Z.of_nat k - 1)) (month_lens y) 0) as [Hin| ->]; [|lia].
  destruct (month_lens_ok y) as (Hl & _). rewrite List.Forall_forall in Hl. apply Hl in Hin. lia.
Qed.

Lemma years_mono y y' : y <= y' -> days_before_year y <= days_before_year y'.
Proof.
  intros H. assert (E : exists k : nat, y' = y + Z.of_nat k) by (exists (Z.to_nat (y' - y)); lia).
  destruct E as (k & ->). clear H. induction k as [|k IH]; [by rewrite Z.add_0_r|].
  replace (y + Z.of_nat (S k)) with (y + Z.of_nat k + 1) by lia. rewrite days_before_year_succ.
  pose proof (year_len_pos (y + Z.of_nat k)). lia.
Qed.

Definition date_ok (y m d : Z) : Prop := 1 <= m <= 12 /\ 1 <= d <= days_in_month y m.

Lemma date_lt y m d y' m' d' : date_ok y m d -> date_ok y' m' d' ->
  first_of (y ?= y') (first_of (m ?= m') (d ?= d')) = Lt -> days_of_date y m d < days_of_date y' m' d'.
Proof.
  intros [Hm Hd] [Hm' Hd']. unfold days_of_date.
  destruct (sum_lens_step y m Hm) as (S1 & S2 & S3). destruct (sum_lens_step y' m' Hm') as (S1' & S2' & S3').
  destruct (Z.compare_spec y y') as [->|Hy|Hy]; cbn [first_of]; [| |done].
  - destruct (Z.compare_spec m m') as [->|Hlt|Hlt]; cbn [first_of]; [| |done].
    + rewrite Z.compare_lt_iff. lia.
    + intros _. pose proof (months_mono y' (m + 1) m' ltac:(lia) ltac:(lia) ltac:(lia)). lia.
  - intros _. pose proof (years_mono (y + 1) y' ltac:(lia)) as H. rewrite days_before_year_succ in H. lia.
Qed.

Lemma clock_compare hh mm ss hh' mm' ss' : 0 <= mm < 60 -> 0 <= ss < 60 -> 0 <= mm' < 60 -> 0 <= ss' < 60 ->
  first_of (hh ?= hh') (first_of (mm ?= mm') (ss ?= ss')) = (hh * 3600 + mm * 60 + ss ?= hh' * 3600 + mm' * 60 + ss').
Proof.
  intros. symmetry. destruct (Z.compare_spec hh hh'), (Z.compare_spec mm mm'), (Z.compare_spec ss ss'); cbn [first_of];
    first [apply Z.compare_eq_iff; lia | apply Z.compare_lt_iff; lia | apply Z.compare_gt_iff; lia].
Qed.

Lemma compare_flip n m : (n ?= m) = CompOpp (m ?= n).
Proof. apply Z.compare_antisym. Qed.

(** ** Times *)

(** What is compared first, what the seconds leave open. *)
Lemma compare_isoformat a b s t : datetime_range a = true -> datetime_range b = true ->
  String.compare (isoformat a +:+ s) (isoformat b +:+ t) = first_of (a / second ?= b / second) (String.compare s t).
Proof.
  unfold datetime_range. intros Ha Hb. bools.
  destruct (isoformat_fields a) as (y & m & d & hh & mm & ss & -> & (Hy & Hm & Hd & Hd31 & Hh & Hmm & Hss) & <-); [lia..|].
  destruct (isoformat_fields b) as (y' & m' & d' & hh' & mm' & ss' & -> & (Hy' & Hm' & Hd' & Hd31' & Hh' & Hmm' & Hss') & <-); [lia..|].
  rewrite !append_assoc. rewrite compare_show4, compare_prefix, compare_show2, compare_prefix, compare_show2, compare_prefix,
    compare_show2, compare_prefix, compare_show2, compare_prefix, compare_show2 by lia.
  pose proof (date_lt y m d y' m' d' ltac:(done) ltac:(done)) as L1.
  pose proof (date_lt y' m' d' y m d ltac:(done) ltac:(done)) as L2.
  rewrite (compare_flip y' y), (compare_flip m' m), (compare_flip d' d) in L2.
  transitivity (first_of (first_of (y ?= y') (first_of (m ?= m') (d ?= d')))
    (first_of (first_of (hh ?= hh') (first_of (mm ?= mm') (ss ?= ss'))) (String.compare s t))).
  { by rewrite !first_of_assoc. }
  rewrite (clock_compare hh mm ss) by lia. unfold day_seconds.
  assert (E : first_of (y ?= y') (first_of (m ?= m') (d ?= d')) = Eq -> days_of_date y m d = days_of_date y' m' d').
  { destruct (Z.compare_spec y y') as [->| |], (Z.compare_spec m m') as [->| |], (Z.compare_spec d d') as [->| |]; done. }
  destruct (first_of (y ?= y') _) eqn:Ec; cbn [first_of].
  - rewrite (E eq_refl). f_equal. symmetry. rewrite <- !Z.add_assoc. apply Z.add_compare_mono_l.
  - specialize (L1 eq_refl). symmetry. replace (_ ?= _) with Lt; [done|]. symmetry. apply Z.compare_lt_iff. lia.
  - assert (Hg : days_of_date y' m' d' < days_of_date y m d).
    { apply L2. revert Ec. by destruct (y ?= y'), (m ?= m'), (d ?= d'). }
    symmetry. replace (_ ?= _) with Gt; [done|]. symmetry. apply Z.compare_gt_iff. lia.
Qed.

(** ** Whole timestamps *)

(** Is one UTC timestamp written before another, or the same?  Within one
    second a time without a fraction comes after every time with one. *)
Lemma utc_timestamp_leb a b : datetime_range a = true -> datetime_range b = true ->
  String.leb (utc_timestamp a) (utc_timestamp b) = true <->
  a / second < b / second \/
  a / second = b / second /\ (b mod second = 0 \/ a mod second <> 0 /\ a mod second <= b mod second).
Proof.
  intros Ha Hb. unfold utc_timestamp, isoformat_us, String.leb. rewrite !append_assoc, compare_isoformat by done.
  assert (Fa := Z.mod_pos_bound a second ltac:(done)). assert (Fb := Z.mod_pos_bound b second ltac:(done)).
  destruct (Z.compare_spec (a / second) (b / second)) as [E|E|E]; cbn [first_of]; [| split; [auto | done] | split; [done | lia]].
  destruct (Z.eqb_spec (a mod second) 0) as [Za|Za], (Z.eqb_spec (b mod second) 0) as [Zb|Zb].
  - split; [auto | done].
  - split; [done | lia].
  - split; [auto | done].
  - rewrite !append_assoc, compare_prefix, compare_show6 by (unfold second in *; lia).
    destruct (Z.compare_spec (a mod second) (b mod second)); cbn; split; try done; lia.
Qed.
