(* ===== verification/JsonFile.v ===== *)
(** * JSON files

    A file on disk as the services see it, and the file an atomic write of a
    JSON document leaves: [json.dumps(value, indent=2, sort_keys=True)] and a
    newline. *)

From S2P Require Import Prelude PyValue Json.

Inductive file_kind := Regular | MultiLink | Irregular.

(** A file: what it parses to ([None] when it is not JSON), its size and its
    kind. *)
Record file := { f_value : option val; f_size : Z; f_kind : file_kind }.

Abbreviation dir := (list (string * file)).

Fixpoint spaces (n : nat) : string :=
  match n with O => "" | S n => " " +:+ spaces n end.

(** [json.dumps(value, indent=2, sort_keys=True)] *)
Fixpoint json_pretty (ind : nat) (v : val) : string :=
  let inner := nl +:+ spaces (ind + 2) in
  let outer := nl +:+ spaces ind in
  match v with
  | VList l | VTuple l =>
      match l with
      | [] => "[]"
      | _ => "[" +:+ inner +:+ str_join ("," +:+ inner) (map (json_pretty (ind + 2)) l) +:+ outer +:+ "]"
      end
  | VDict d =>
      match d with
      | [] => "{}"
      | _ =>
          "{" +:+ inner +:+
          str_join ("," +:+ inner)
            (map (fun kv => json_string kv.1 +:+ ": " +:+ kv.2)
               (sort_items (map (fun kv => (kv.1, json_pretty (ind + 2) kv.2)) d))) +:+
          outer +:+ "}"
      end
  | _ => json_dumps v
  end.

Definition json_bytes (v : val) : string := json_pretty 0 v +:+ nl.
Definition json_size (v : val) : Z := Z.of_nat (String.length (json_bytes v)).

(** The file [_atomic_write_json] leaves. *)
Definition written_file (v : val) : file :=
  {| f_value := Some (json_image v); f_size := json_size v; f_kind := Regular |}.

(** How a write ends: [os.replace] happens or not; after it the directory
    sync may still fail. *)
Inductive write_outcome :=
  | Written
  | NotWritten (e : exn)
  | Uncertain.

(** ** Writing does not see what reading changes *)

(** The items of a container between its brackets. *)
Definition bracket (opening closing : string) (ind : nat) (items : list string) : string :=
  match items with
  | [] => opening +:+ closing
  | _ => opening +:+ (nl +:+ spaces (ind + 2)) +:+ str_join ("," +:+ (nl +:+ spaces (ind + 2))) items +:+
         (nl +:+ spaces ind) +:+ closing
  end.

Definition pretty_items (ind : nat) (d : dict) : list string :=
  map (fun kv => json_string kv.1 +:+ ": " +:+ kv.2)
    (sort_items (map (fun kv => (kv.1, json_pretty (ind + 2) kv.2)) d)).

Lemma pretty_list ind l :
  json_pretty ind (VList l) = bracket "[" "]" ind (map (json_pretty (ind + 2)) l).
Proof. by destruct l. Qed.

Lemma pretty_tuple ind l : json_pretty ind (VTuple l) = json_pretty ind (VList l).
Proof. done. Qed.

Lemma sort_items_nil {A} (l : list (string * A)) : sort_items l = [] -> l = [].
Proof.
  intros H. apply (f_equal (@List.length _)) in H. unfold sort_items in H.
  rewrite length_isort in H. by destruct l.
Qed.

Lemma pretty_dict ind d : json_pretty ind (VDict d) = bracket "{" "}" ind (pretty_items ind d).
Proof.
  destruct d as [|kv d]; [done|]. unfold pretty_items.
  destruct (sort_items (map (fun kv0 => (kv0.1, json_pretty (ind + 2) kv0.2)) (kv :: d))) as [|a l] eqn:E;
    [by apply sort_items_nil in E|].
  change (json_pretty ind (VDict (kv :: d))) with
    ("{" +:+ (nl +:+ spaces (ind + 2)) +:+ str_join ("," +:+ (nl +:+ spaces (ind + 2)))
       (map (fun kv => json_string kv.1 +:+ ": " +:+ kv.2)
          (sort_items (map (fun kv => (kv.1, json_pretty (ind + 2) kv.2)) (kv :: d)))) +:+
     (nl +:+ spaces ind) +:+ "}").
  by rewrite E.
Qed.

Lemma json_pretty_image v : forall ind, json_pretty ind (json_image v) = json_pretty ind v.
Proof.
  induction v using val_deep_ind; intros ind; try done.
  1, 2: rewrite ?pretty_tuple; cbn [json_image]; rewrite !pretty_list, map_images;
    [done | eapply Forall_impl; [exact H|]; auto].
  rewrite json_image_dict, !pretty_dict. unfold pretty_items. rewrite items_images; [done|].
  eapply Forall_impl; [exact H|]. auto.
Qed.

Lemma json_size_image d : json_size (VDict (dict_image d)) = json_size (VDict d).
Proof. unfold json_size, json_bytes. by rewrite <- json_image_dict, json_pretty_image. Qed.

Lemma written_file_image v v' : json_image v = json_image v' -> written_file v = written_file v'.
Proof.
  intros H. unfold written_file, json_size, json_bytes.
  by rewrite <- (json_pretty_image v), <- (json_pretty_image v'), H.
Qed.

#[export] Hint Rewrite json_size_image : py.
