(* ===== verification/P121Authority.v ===== *)
(** * The authority counters

    Models the counter keys of app/services/p120_governance.py and the
    exact-zero authority of app/services/p121_signals.py: the snapshot every
    read-only service writes with its state and the check that it is zero. *)

From S2P Require Import Prelude PyValue.

Definition AUTHORITY_COUNTER_KEYS : list string :=
  ["auth_context_count"; "credential_scope_count"; "secret_material_count"; "live_connector_call_count";
   "connector_write_call_count"; "shell_execution_count"; "subprocess_execution_count";
   "kubernetes_mutation_count"; "cloud_mutation_count"; "database_mutation_count";
   "network_mutation_count"; "filesystem_mutation_outside_artifact_count";
   "online_policy_write_count"; "staging_mutation_count"; "production_mutation_count";
   "l4_plus_action_count"; "freeform_action_execution_count"; "llm_command_execution_count";
   "authority_escape_count"].

Definition P121_AUTHORITY_COUNTER_KEYS : list string :=
  AUTHORITY_COUNTER_KEYS ++
  ["unapproved_intervention_count"; "evidence_bypass_count"; "rollback_missing_execution_count"].

Definition zero_authority_counters : dict := map (fun key => (key, VInt 0)) P121_AUTHORITY_COUNTER_KEYS.

Definition P121SignalError (msg : string) : exn := Exn "P121SignalError" msg.

Definition validate_exact_zero_authority (counters : val) : res unit :=
  match counters with
  | VDict counters =>
      iterM (fun key =>
        match dget counters key with
        | None => Raise (P121SignalError ("missing_authority_counter:" +:+ key))
        | Some (VInt 0) => Ok tt
        | Some _ => Raise (P121SignalError (key +:+ "_nonzero"))
        end) P121_AUTHORITY_COUNTER_KEYS
  | _ => Raise (P121SignalError "missing_authority_counters")
  end.
