(* ===== verification/Components.v ===== *)
(** * Grouping by a relation, one element at a time

    The step by which a list of groups takes a new element: the groups it is
    related to are merged into the first of them, with the element, and
    without any the element is a group of its own.  Started from no groups
    it computes the connected components of the relation. *)

From S2P Require Import Prelude.
From stdpp Require Import relations.

Section Place.
Context {A : Type}.

(** [flags] tells which of [groups] the element [a] is related to:
    [groups[first].append(a)], then the other ones are popped into it, from
    the last to the second. *)
Fixpoint flagged (b : bool) (flags : list bool) (groups : list (list A)) : list (list A) :=
  match flags, groups with
  | f :: flags, g :: groups => if Bool.eqb f b then g :: flagged b flags groups else flagged b flags groups
  | _, _ => []
  end.

Fixpoint place (a : A) (flags : list bool) (groups : list (list A)) : list (list A) :=
  match flags, groups with
  | true :: flags, g :: groups => (g ++ a :: concat (rev (flagged true flags groups))) :: flagged false flags groups
  | false :: flags, g :: groups => g :: place a flags groups
  | _, _ => [[a]]
  end.

Lemma place_perm a flags groups : List.length flags = List.length groups ->
  exists merged, Permutation (place a flags groups) (merged :: flagged false flags groups) /\
    Permutation merged (a :: concat (flagged true flags groups)).
Proof.
  revert groups. induction flags as [|[] flags IH]; intros [|g groups] Hlen; try discriminate; cbn [place flagged Bool.eqb].
  - exists [a]. split; reflexivity.
  - eexists. split; [reflexivity|]. cbn [concat]. rewrite <- (Permutation_rev (flagged true flags groups)).
    symmetry. apply Permutation_middle.
  - destruct (IH groups) as (m & Hp & Hm); [by injection Hlen|]. exists m. split; [|exact Hm].
    rewrite Hp. apply perm_swap.
Qed.

Lemma flagged_spec (P Q : list A -> Prop) flags groups :
  Forall2 (fun (f : bool) g => if f then P g else Q g) flags groups ->
  Forall P (flagged true flags groups) /\ Forall Q (flagged false flags groups).
Proof.
  induction 1 as [|f g flags groups Hf _ [IH1 IH2]]; [done|].
  destruct f; cbn [flagged Bool.eqb]; auto.
Qed.

Lemma flagged_perm flags groups : List.length flags = List.length groups ->
  Permutation groups (flagged true flags groups ++ flagged false flags groups).
Proof.
  revert groups. induction flags as [|[] flags IH]; intros [|g groups] Hlen; try discriminate; cbn [flagged Bool.eqb app];
    [done | |]; rewrite (IH groups) at 1 by (by injection Hlen); [done | apply Permutation_middle].
Qed.

(** ** Components *)

Context (R : relation A).

Definition apart (g h : list A) : Prop := forall x y, In x g -> In y h -> ~ R x y /\ ~ R y x.

Definition linked (l : list A) : relation A := rtsc (fun x y => In x l /\ In y l /\ R x y).

(** Groups of [l] that are connected, and apart from each other. *)
Definition components (l : list A) (groups : list (list A)) : Prop :=
  Permutation (concat groups) l /\
  Forall (fun g => g <> [] /\ forall x y, In x g -> In y g -> linked l x y) groups /\
  ForallOrdPairs apart groups.

Lemma apart_sym g h : apart g h -> apart h g.
Proof. intros H x y Hx Hy. destruct (H y x Hy Hx). done. Qed.

Lemma FOP_app {B} (P : relation B) (l l' : list B) : ForallOrdPairs P (l ++ l') ->
  ForallOrdPairs P l' /\ forall x y, In x l -> In y l' -> P x y.
Proof.
  induction l as [|x l IH]; cbn [app]; intros H; [split; [done | by intros ? ? []]|].
  inversion H as [|? ? Hx Hl]; subst. destruct (IH Hl) as [IH1 IH2]. split; [done|].
  intros y z [<-|Hy] Hz; [|auto]. rewrite List.Forall_forall in Hx. apply Hx, in_app_iff. by right.
Qed.

Lemma apart_perm (l l' : list (list A)) : Permutation l l' -> ForallOrdPairs apart l -> ForallOrdPairs apart l'.
Proof.
  induction 1 as [|g l l' Hp IH|g h l|l l' l'' _ IH1 _ IH2]; intros H; auto.
  - inversion H; subst. constructor; [|auto]. by rewrite <- Hp.
  - inversion H as [|? ? Hg Hl]; subst. inversion Hl; subst. apply Forall_cons in Hg as [? ?].
    constructor; [constructor; [by apply apart_sym | done]|]. constructor; done.
Qed.

Lemma linked_incl l l' x y : incl l l' -> linked l x y -> linked l' x y.
Proof. intros Hi. apply (rtsc_congruence id). intros a b (? & ? & ?). auto. Qed.

Lemma linked_sym l x y : linked l x y -> linked l y x.
Proof. intros H. by symmetry. Qed.

(** Two members of a list are linked when both are linked to a third. *)
Lemma linked_through l a x y : linked l x a -> linked l y a -> linked l x y.
Proof. intros Hx Hy. transitivity a; [done | by apply linked_sym]. Qed.

Lemma in_concat_group (g : list A) groups x : In g groups -> In x g -> In x (concat groups).
Proof. intros. apply in_concat. eauto. Qed.

(** A member of a group the new element is related to is linked with it. *)
Lemma merged_linked l a groups x :
  In a l -> incl (concat groups) l -> Forall (fun g => forall x y, In x g -> In y g -> linked l x y) groups ->
  Forall (fun g => exists y, In y g /\ R a y) groups -> In x (a :: concat groups) -> linked l x a.
Proof.
  intros Ha Hi Hg Hrel [->|Hx]; [reflexivity|]. apply in_concat in Hx as (g & Hgs & Hx).
  rewrite List.Forall_forall in Hg, Hrel. destruct (Hrel g Hgs) as (y & Hy & Hay).
  transitivity y; [by apply (Hg g)|]. apply rtsc_rl. split_and!; auto. apply Hi. by apply (in_concat_group g).
Qed.

Lemma place_components l a flags groups :
  components l groups ->
  Forall2 (fun (f : bool) g => if f then exists y, In y g /\ R a y else apart [a] g) flags groups ->
  components (l ++ [a]) (place a flags groups).
Proof.
  intros (Hp & Hg & Hs) Hf. pose proof (Forall2_length _ _ _ Hf) as Hlen.
  apply flagged_spec in Hf as [Hin Hout]. destruct (place_perm a flags groups Hlen) as (m & Hpl & Hm).
  pose proof (flagged_perm flags groups Hlen) as Hsplit.
  assert (Hil : incl l (l ++ [a])) by apply incl_appl, incl_refl.
  assert (Hlift : Forall (fun g => g <> [] /\ forall x y, In x g -> In y g -> linked (l ++ [a]) x y) groups).
  { eapply Forall_impl; [exact Hg|]. intros g [? H]. split; [done|]. intros. eapply linked_incl; eauto. }
  rewrite Hsplit in Hlift. apply Forall_app in Hlift as [Ht Hk].
  assert (Hconc : Permutation (concat (flagged true flags groups) ++ concat (flagged false flags groups)) l)
    by (rewrite <- concat_app, <- Hsplit; exact Hp).
  split; [|split].
  - rewrite Hpl. cbn [concat]. rewrite Hm. cbn [app]. rewrite Hconc. apply Permutation_cons_append.
  - rewrite Hpl. constructor; [|exact Hk]. split.
    { intros ->. by apply Permutation_nil in Hm. }
    assert (Hma : forall x, In x m -> linked (l ++ [a]) x a).
    { intros x Hx. rewrite Hm in Hx. revert Hx. apply merged_linked; [rewrite in_app_iff; by right; left | | | exact Hin].
      - intros y Hy. apply Hil. rewrite <- Hconc. apply in_app_iff. by left.
      - eapply Forall_impl; [exact Ht|]. by intros ? []. }
    intros x y Hx Hy. by apply (linked_through _ a); apply Hma.
  - apply (apart_perm (m :: flagged false flags groups)); [by symmetry|].
    apply (apart_perm _ _ Hsplit) in Hs. apply FOP_app in Hs as [Hs Hts].
    constructor; [|exact Hs]. rewrite List.Forall_forall in Hout |- *. intros h Hh x y Hx Hy.
    rewrite Hm in Hx. destruct Hx as [<-|Hx].
    + apply (Hout h Hh a y); [by left | exact Hy].
    + apply in_concat in Hx as (g & Hg' & Hx). apply (Hts g h Hg' Hh); done.
Qed.

Lemma components_of_perm l l' groups : Permutation l l' -> components l groups -> components l' groups.
Proof.
  intros Hl (Hp & Hg & Hs). split; [by rewrite Hp|]. split; [|done]. eapply Forall_impl; [exact Hg|].
  intros g [? H]. split; [done|]. intros x y Hx Hy. apply (linked_incl l); [|auto].
  intros z. by apply Permutation_in.
Qed.

Lemma components_map (f : list A -> list A) l groups : (forall g, Permutation (f g) g) ->
  components l groups -> components l (map f groups).
Proof.
  intros Hf (Hp & Hg & Hs). split; [|split].
  - rewrite <- Hp. clear -Hf. induction groups as [|g groups IH]; [done|]. cbn. by rewrite Hf, IH.
  - clear -Hf Hg. induction Hg as [|g groups [Hne H] _ IH]; constructor; [|done]. split.
    + intros E. apply Hne. specialize (Hf g). rewrite E in Hf. by apply Permutation_nil in Hf.
    + intros x y Hx Hy. apply H; [by rewrite <- (Hf g) | by rewrite <- (Hf g)].
  - clear -Hf Hs. induction Hs as [|g groups Hg _ IH]; constructor; [|done]. apply List.Forall_map.
    eapply Forall_impl; [exact Hg|]. intros h H x y Hx Hy. apply H; [by rewrite <- (Hf g) | by rewrite <- (Hf h)].
Qed.

(** Two members are in one group exactly when they are linked. *)
Lemma components_iff l groups x y : components l groups -> In x l ->
  (exists g, In g groups /\ In x g /\ In y g) <-> linked l x y.
Proof.
  intros (Hp & Hg & Hs) Hx. split.
  - intros (g & Hgs & Hxg & Hyg). rewrite List.Forall_forall in Hg. by apply (Hg g).
  - rewrite <- Hp in Hx. apply in_concat in Hx as (g & Hgs & Hxg). intros Hl. exists g. split_and!; try done.
    revert Hxg. induction Hl as [x|x z y Hz _ IH]; [done|]. intros Hxg. apply IH.
    assert (Hzl : In z (concat groups)) by (rewrite Hp; destruct Hz as [(?&?&?)|(?&?&?)]; done).
    apply in_concat in Hzl as (h & Hh & Hzh).
    destruct (ForallOrdPairs_In Hs g h Hgs Hh) as [->|[Ha|Ha]]; [done| |]; exfalso.
    + destruct (Ha x z Hxg Hzh) as [H1 H2]. destruct Hz as [(?&?&?)|(?&?&?)]; auto.
    + destruct (Ha z x Hzh Hxg) as [H1 H2]. destruct Hz as [(?&?&?)|(?&?&?)]; auto.
Qed.
End Place.
