(* ===== verification/P131State.v ===== *)
(** * The monitor's checkpoint and its watchdog

    Models the reading side of app/services/p131_always_on_monitor.py: the
    validation of a persisted checkpoint, the watchdog that judges its
    heartbeat and the liveness and readiness snapshot.  The state file is a
    [file] ([None]: it does not exist); [now] is an instant in microseconds.
    An age is the exact quotient, not its nearest double. *)

From S2P Require Import Prelude PyValue PyChecks Sha Json JsonFile PyTime P121Authority.

Definition STATE_SCHEMA_VERSION : string := "p131.monitor_state.v1".
Definition MAX_RECENT_OBSERVATION_HASHES : Z := 2000.
Definition MAX_STATE_BYTES : Z := 1048576.
Definition MAX_FUTURE_CLOCK_SKEW_SECONDS : Q := 5.

Definition P131StateError (msg : string) : exn := Exn "P131StateError" msg.

Definition is_state_error (e : exn) : bool := exn_class e =s "P131StateError".

(** [if not b: raise P131StateError(msg)] *)
Definition st_ensure (b : bool) (msg : string) : res unit := ensure b (P131StateError msg).

(** ** Values *)

(** [float(z)] overflows from the first integer that rounds to [2 ** 1024]. *)
Definition float_max : Z := 2 ^ 1024 - 2 ^ 970.

Definition py_float (v : val) : res Q :=
  match v with
  | VInt z =>
      if Z.abs z <? float_max then Ok (inject_Z z)
      else Raise (Exn "OverflowError" "int too large to convert to float")
  | VBool b => Ok (if b then 1 else 0)%Q
  | VFloat q => Ok q
  | _ => Raise (Exn "TypeError" "float() argument must be a string or a real number")
  end.

(** [_parse_timestamp] *)
Definition _parse_timestamp (v : val) : res Z :=
  match v with
  | VStr s =>
      match read_utc s with
      | Some (local, Some offset) =>
          if datetime_range (local - offset) then Ok (local - offset)
          else Raise (Exn "OverflowError" "date value out of range")
      | _ => Raise (P131StateError "invalid_timestamp")
      end
  | _ => Raise (P131StateError "invalid_timestamp")
  end.

Definition parse_optional_timestamp (v : val) : res unit :=
  match v with
  | VNone => Ok tt
  | _ => let! _ := _parse_timestamp v in Ok tt
  end.

(** [(now - _parse_timestamp(v)).total_seconds()] *)
Definition total_seconds (us : Z) : Q := Qmake us 1000000.

(** ** Validation *)

Definition authority_zero (authority : val) : bool :=
  match authority with
  | VDict authority =>
      match vget authority "counters" with
      | VDict counters =>
          is_literal true (vget authority "exact_zero") && same_keys counters P121_AUTHORITY_COUNTER_KEYS &&
          forallb (fun key => is_zero (vget counters key)) P121_AUTHORITY_COUNTER_KEYS
      | _ => false
      end
  | _ => false
  end.

Definition executions_zero (totals canary : val) : bool :=
  match totals, canary with
  | VDict totals, VDict canary =>
      is_zero (vget totals "action_execution_count") && is_zero (vget totals "network_call_count") &&
      is_zero (vget canary "action_execution_count")
  | _, _ => false
  end.

Definition _validate_runtime_boundary (state : dict) : res unit :=
  let! _ := st_ensure (authority_zero (vget state "authority")) "authority_not_exact_zero" in
  st_ensure (executions_zero (vget state "totals") (vget state "canary")) "runtime_execution_boundary_violated".

Definition lifecycle_fields : list string :=
  ["phase"; "last_stop_reason"; "last_stop_requested_at"; "last_stopped_at"; "graceful_stop_count"].

(** [_validate_lifecycle_state] of a state with this status and lifecycle. *)
Definition validate_lifecycle (status lifecycle : val) : res unit :=
  let status_stopped := py_eq status (VStr "stopped") in
  match lifecycle with
  | VNone => st_ensure (negb status_stopped) "invalid_lifecycle_state"
  | VDict lifecycle =>
      let! _ := st_ensure (same_keys lifecycle lifecycle_fields) "invalid_lifecycle_state" in
      let phase := vget lifecycle "phase" in
      let reason := vget lifecycle "last_stop_reason" in
      let requested_at := vget lifecycle "last_stop_requested_at" in
      let stopped_at := vget lifecycle "last_stopped_at" in
      let count := vget lifecycle "graceful_stop_count" in
      let! known := in_set phase ["starting"; "running"; "stopped"] in
      let! _ := st_ensure (known && nonneg count) "invalid_lifecycle_state" in
      let phase_stopped := py_eq phase (VStr "stopped") in
      let! _ := st_ensure (Bool.eqb status_stopped phase_stopped) "invalid_lifecycle_state" in
      if is_zero count then
        st_ensure (is_none reason && is_none requested_at && is_none stopped_at && negb phase_stopped)
          "invalid_lifecycle_state"
      else
        let! known := in_set reason ["sigterm"; "sigint"] in
        st_ensure (known && is_string requested_at && is_string stopped_at) "invalid_lifecycle_state"
  | _ => Raise (P131StateError "invalid_lifecycle_state")
  end.

Definition _validate_lifecycle_state (state : dict) : res unit :=
  validate_lifecycle (vget state "status") (vget state "lifecycle").

Definition stage_keys : list string :=
  ["serialization_round_trip_passed"; "signal_detection_passed"; "policy_no_action_passed"].

(** The canary part of [_validate_checkpoint_shape]. *)
Definition validate_canary (canary : val) : res unit :=
  match canary with
  | VDict canary =>
      let result := vget canary "last_result" in
      let! known := in_set result ["not_run"; "passed"; "failed"] in
      let! _ := st_ensure known "invalid_canary_state" in
      let! _ := iterM (fun key => st_ensure (nonneg (vget canary key)) "invalid_canary_state")
                  ["success_count"; "failure_count"] in
      match vget canary "last_stages" with
      | VDict stages =>
          let! _ := st_ensure (same_keys stages stage_keys && forallb (fun key => is_bool (vget stages key)) stage_keys)
                      "invalid_canary_state" in
          let run := vget canary "last_run_at" in
          let says r := py_eq result (VStr r) in
          let! _ := st_ensure (negb (says "passed") ||
                       (is_string run && positive (vget canary "success_count") &&
                        forallb (fun key => is_literal true (vget stages key)) stage_keys)) "invalid_canary_state" in
          let! _ := st_ensure (negb (says "failed") ||
                       (is_string run && positive (vget canary "failure_count"))) "invalid_canary_state" in
          st_ensure (negb (says "not_run") ||
            (is_none run && is_zero (vget canary "success_count") && is_zero (vget canary "failure_count") &&
             forallb (fun key => is_literal false (vget stages key)) stage_keys)) "invalid_canary_state"
      | _ => Raise (P131StateError "invalid_canary_state")
      end
  | _ => Raise (P131StateError "invalid_canary_state")
  end.

(** The scheduler part of [_validate_checkpoint_shape]. *)
Definition validate_scheduler (scheduler : val) : res unit :=
  match scheduler with
  | VDict scheduler =>
      let! _ := st_ensure (nonneg (vget scheduler "missed_tick_count")) "state_invalid" in
      match vget scheduler "next_delay_seconds" with
      | VNone => Ok tt
      | VInt _ | VFloat _ =>
          let! delay := py_float (vget scheduler "next_delay_seconds") in
          st_ensure (Qle_bool 0 delay) "state_invalid"
      | _ => Raise (P131StateError "state_invalid")
      end
  | _ => Raise (P131StateError "state_invalid")
  end.

Definition _validate_checkpoint_shape (state : dict) : res unit :=
  let! _ := st_ensure (is_text (vget state "runtime_id") && is_text (vget state "config_hash")) "state_invalid" in
  let! known := in_set (vget state "status") ["starting"; "ready"; "degraded"; "stopped"] in
  let! _ := st_ensure known "state_invalid" in
  let! _ := _validate_lifecycle_state state in
  let! _ := iterM (fun key => st_ensure (nonneg (vget state key)) "state_invalid") ["cycle_count"; "resume_count"] in
  let! _ := st_ensure (match vget state "process_health" with
                       | VDict health => is_bool (vget health "heartbeat_current")
                       | _ => false
                       end) "state_invalid" in
  let! _ := validate_scheduler (vget state "scheduler") in
  let! _ := match vget state "totals" with
            | VDict totals =>
                iterM (fun key => st_ensure (nonneg (vget totals key)) "state_invalid")
                  ["accepted_observation_count"; "duplicate_observation_count"; "source_failure_count"]
            | _ => Raise (P131StateError "state_invalid")
            end in
  let! _ := st_ensure (match vget state "recent_observation_hashes" with
                       | VList recent =>
                           (Z.of_nat (List.length recent) <=? MAX_RECENT_OBSERVATION_HASHES) && forallb is_text recent
                       | _ => false
                       end) "state_invalid" in
  validate_canary (vget state "canary").

(** One source of [_validate_source_state_shape]. *)
Definition source_state_ok (source_id : string) (source : val) : bool :=
  match source with
  | VDict source =>
      negb (is_empty source_id) &&
      py_eq (vget source "kind") (VStr "local_jsonl") &&
      is_text (vget source "path_hash") &&
      is_bool (vget source "enabled") &&
      forallb (fun field => nonneg (vget source field))
        ["cursor_bytes"; "prefix_length"; "consecutive_failures"; "rotation_count"] &&
      positive (vget source "failure_limit") &&
      (is_none (vget source "file_identity") || is_text (vget source "file_identity")) &&
      (is_none (vget source "prefix_hash") || is_text (vget source "prefix_hash")) &&
      (is_none (vget source "last_error") || is_string (vget source "last_error")) &&
      (if is_none (vget source "file_identity")
       then is_zero (vget source "prefix_length") && is_none (vget source "prefix_hash")
       else negb (is_none (vget source "prefix_hash")))
  | _ => false
  end.

Definition source_enabled (source : val) : bool := is_literal true (vget (dict_or_empty source) "enabled").

Definition _validate_source_state_shape (state : dict) : res unit :=
  match vget state "source_health" with
  | VDict source_health =>
      let! _ := st_ensure (match source_health with [] => false | _ => true end) "invalid_source_state" in
      let! _ := st_ensure (forallb (fun kv => source_state_ok kv.1 kv.2) source_health) "invalid_source_state" in
      st_ensure (existsb (fun kv => source_enabled kv.2) source_health) "invalid_source_state"
  | _ => Raise (P131StateError "invalid_source_state")
  end.

Definition parse_fields (v : val) (keys : list string) : res unit :=
  match v with
  | VDict d => iterM (fun key => parse_optional_timestamp (vget d key)) keys
  | _ => Ok tt
  end.

Definition _validate_state_timestamps (state : dict) : res unit :=
  let! _ := parse_fields (VDict state) ["started_at"; "last_heartbeat_at"; "last_cycle_at"; "last_report_at"] in
  let! _ := parse_fields (vget state "canary") ["last_run_at"] in
  let! _ := parse_fields (vget state "scheduler") ["last_progress_at"] in
  let! _ := parse_fields (vget state "lifecycle") ["last_stop_requested_at"; "last_stopped_at"] in
  match vget state "source_health" with
  | VDict source_health =>
      iterM (fun kv : string * val =>
        match kv.2 with
        | VDict _ => parse_fields kv.2 ["last_data_at"; "last_success_at"]
        | _ => Raise (P131StateError "invalid_source_state")
        end) source_health
  | _ => Ok tt
  end.

(** ** Loading *)

(** [_read_bounded_text] and [json.loads] of it. *)
Definition read_state_file (f : file) : res val :=
  match f_kind f, f_value f with
  | Irregular, _ | _, None => Raise (P131StateError "state_invalid")
  | _, Some v => if MAX_STATE_BYTES <? f_size f then Raise (P131StateError "state_invalid") else Ok v
  end.

Definition unsigned_state (payload : dict) : dict := dwithout ["state_hash"] payload.

Definition validate_monitor_state (payload : dict) : res unit :=
  let! _ := _validate_runtime_boundary payload in
  let! _ := _validate_checkpoint_shape payload in
  let! _ := _validate_source_state_shape payload in
  _validate_state_timestamps payload.

Definition load_monitor_state (path : option file) : res dict :=
  match path with
  | None => Raise (P131StateError "state_invalid")
  | Some f =>
      let! v := read_state_file f in
      match v with
      | VDict payload =>
          let! _ := st_ensure (py_eq (vget payload "schema_version") (VStr STATE_SCHEMA_VERSION)) "state_invalid" in
          let! _ := st_ensure (py_eq (vget payload "state_hash") (VStr (stable_hash (VDict (unsigned_state payload)))))
                      "state_hash_invalid" in
          let! _ := validate_monitor_state payload in
          Ok payload
      | _ => Raise (P131StateError "state_invalid")
      end
  end.

(** ** The watchdog *)

Definition unhealthy (reason : string) : dict :=
  [("schema_version", VStr "p131.watchdog.v1"); ("healthy", VBool false); ("reason", VStr reason)].

(** [phase == "stopped"] of the lifecycle, when there is one. *)
Definition lifecycle_stopped (state : dict) : bool :=
  match vget state "lifecycle" with
  | VDict lifecycle => py_eq (vget lifecycle "phase") (VStr "stopped")
  | _ => false
  end.

Definition heartbeat_verdict (state : dict) (healthy : bool) (reason : string) (age : Q) : dict :=
  [("schema_version", VStr "p131.watchdog.v1"); ("healthy", VBool healthy); ("reason", VStr reason);
   ("heartbeat_age_seconds", VFloat age); ("runtime_id", vget state "runtime_id");
   ("state_hash", vget state "state_hash")].

Definition evaluate_watchdog (path : option file) (now heartbeat_timeout_seconds : Z) : res dict :=
  match path with
  | None => Ok (unhealthy "state_missing")
  | Some _ =>
      match load_monitor_state path with
      | Raise e => if is_state_error e then Ok (unhealthy (exn_msg e)) else Raise e
      | Ok state =>
          if lifecycle_stopped state then
            Ok (unhealthy "runtime_stopped" ++
                [("runtime_id", vget state "runtime_id"); ("state_hash", vget state "state_hash")])
          else
            let heartbeat := vget state "last_heartbeat_at" in
            if negb (is_string heartbeat) then Ok (unhealthy "heartbeat_missing")
            else
              let! at_ := _parse_timestamp heartbeat in
              let age := total_seconds (now - at_) in
              if negb (Qle_bool (- MAX_FUTURE_CLOCK_SKEW_SECONDS) age) then
                Ok (heartbeat_verdict state false "heartbeat_in_future" age)
              else
                let healthy := Qle_bool age (inject_Z heartbeat_timeout_seconds) in
                Ok (heartbeat_verdict state healthy (if healthy then "heartbeat_current" else "heartbeat_stale") age)
      end
  end.

(** ** Liveness and readiness *)

(** [list(dict.fromkeys(l))] *)
Fixpoint unique (l : list string) : list string :=
  match l with
  | [] => []
  | x :: l => x :: List.filter (fun y => negb (x =s y)) (unique l)
  end.

(** The reasons one enabled source adds. *)
Definition source_reasons (now data_stale_after_seconds : Z) (source : dict) : res (list string) :=
  let! failures := py_int (vget_or source "consecutive_failures" (VInt 0)) in
  let! limit := py_int (vget_or source "failure_limit" (VInt 1)) in
  let failing := if limit <=? failures then ["source_failure_limit_exceeded"] else [] in
  let last_data := vget source "last_data_at" in
  if negb (is_string last_data) then Ok (failing ++ ["source_data_missing"])
  else
    let! at_ := _parse_timestamp last_data in
    let age := total_seconds (now - at_) in
    Ok (failing ++
        if negb (Qle_bool (- MAX_FUTURE_CLOCK_SKEW_SECONDS) age) then ["source_data_in_future"]
        else if negb (Qle_bool age (inject_Z data_stale_after_seconds)) then ["source_data_stale"] else []).

Definition enabled_sources (state : dict) : list dict :=
  match vget state "source_health" with
  | VDict source_health =>
      omap (fun kv : string * val =>
        match kv.2 with
        | VDict source => if is_literal true (vget source "enabled") then Some source else None
        | _ => None
        end) source_health
  | _ => []
  end.

Definition heartbeat_age (now : Z) (heartbeat : val) : res (option Q) :=
  match heartbeat with
  | VStr _ => let! at_ := _parse_timestamp heartbeat in Ok (Some (total_seconds (now - at_)))
  | _ => Ok None
  end.

(** Is the heartbeat current, and the reason it adds when it is not. *)
Definition heartbeat_live (heartbeat : val) (age : option Q) (heartbeat_timeout_seconds : Z) : bool * list string :=
  let future := match age with Some a => negb (Qle_bool (- MAX_FUTURE_CLOCK_SKEW_SECONDS) a) | None => false end in
  let live := match age with
              | Some a => negb future && Qle_bool a (inject_Z heartbeat_timeout_seconds)
              | None => false
              end in
  (live, if is_none heartbeat then ["heartbeat_missing"]
         else if future then ["heartbeat_in_future"]
         else if live then [] else ["heartbeat_stale"]).

Definition canary_reasons (canary : val) : list string :=
  match canary with
  | VDict canary => if py_eq (vget canary "last_result") (VStr "passed") then [] else ["canary_failed"]
  | _ => ["canary_failed"]
  end.

Definition not_live (state : dict) : dict :=
  [("schema_version", VStr "p131.monitor_status.v1"); ("runtime_id", vget state "runtime_id");
   ("live", VBool false); ("ready", VBool false); ("reasons", VList [VStr "runtime_stopped"]);
   ("last_heartbeat_at", vget state "last_heartbeat_at"); ("state_hash", vget state "state_hash")].

Definition _status_from_state (state : dict) (now heartbeat_timeout_seconds data_stale_after_seconds : Z) : res dict :=
  if lifecycle_stopped state then Ok (not_live state)
  else
    let heartbeat := vget state "last_heartbeat_at" in
    let! age := heartbeat_age now heartbeat in
    let '(live, heartbeat_reasons) := heartbeat_live heartbeat age heartbeat_timeout_seconds in
    let! source_reasons := mapM (source_reasons now data_stale_after_seconds) (enabled_sources state) in
    let reasons := heartbeat_reasons ++ canary_reasons (vget state "canary") ++ List.concat source_reasons in
    let ready := live && match reasons with [] => true | _ => false end in
    Ok [("schema_version", VStr "p131.monitor_status.v1"); ("runtime_id", vget state "runtime_id");
        ("live", VBool live); ("ready", VBool ready); ("reasons", VList (map VStr (unique reasons)));
        ("last_heartbeat_at", heartbeat); ("state_hash", vget state "state_hash")].

Definition status_unavailable (reason : string) : dict :=
  [("schema_version", VStr "p131.monitor_status.v1"); ("live", VBool false); ("ready", VBool false);
   ("reasons", VList [VStr reason])].

Definition monitor_status_snapshot (path : option file) (now heartbeat_timeout_seconds data_stale_after_seconds : Z)
  : res dict :=
  match path with
  | None => Ok (status_unavailable "state_missing")
  | Some _ =>
      match load_monitor_state path with
      | Raise e => if is_state_error e then Ok (status_unavailable (exn_msg e)) else Raise e
      | Ok state => _status_from_state state now heartbeat_timeout_seconds data_stale_after_seconds
      end
  end.
