(* ===== verification/P131Monitor.v ===== *)
(** * The always-on monitor

    Models [AlwaysOnMonitor] of app/services/p131_always_on_monitor.py: a
    cycle tails the configured JSONL files from their cursors, runs the
    canary, updates the checkpoint, schedules the next tick and persists the
    checkpoint with its hash; a stop request writes a stopped checkpoint and a
    receipt.  The clock, the files read, the probe's answer, the free space
    and the outcome of each write are inputs.  A file read keeps its content
    for the length of a poll; [decode] stands for
    [json.loads(line.decode("utf-8"))], [None] where it raises.  Schedules are
    computed in exact rationals. *)

From S2P Require Import Prelude PyValue Sha Json JsonFile PyTime P121Authority PyChecks P131State.
From Stdlib Require Import Qround.

Definition REPORT_SCHEMA_VERSION : string := "p131.health_report.v1".
Definition TERMINATION_RECEIPT_SCHEMA_VERSION : string := "p132.termination_receipt.v1".

Record LocalJsonlSource := { src_id : string; src_path : string; src_enabled : bool }.

Record MonitorConfig := {
  mc_config_hash : string;
  mc_runtime_id : string;
  mc_interval_seconds : Z;
  mc_heartbeat_timeout_seconds : Z;
  mc_data_stale_after_seconds : Z;
  mc_daily_report_interval_seconds : Z;
  mc_canary_every_cycles : Z;
  mc_max_consecutive_failures : Z;
  mc_max_bytes_per_cycle : Z;
  mc_max_records_per_cycle : Z;
  mc_max_line_bytes : Z;
  mc_max_report_files : Z;
  mc_max_report_dir_bytes : Z;
  mc_min_artifact_free_bytes : Z;
  mc_sources : list LocalJsonlSource;
}.

Definition path_hash (source : LocalJsonlSource) : val := VStr (stable_hash (VStr (src_path source))).

(** [_authority_snapshot] *)
Definition _authority_snapshot : val :=
  VDict [("exact_zero", VBool true); ("counters", VDict zero_authority_counters)].

(** ** The checkpoint at the start *)

Definition new_lifecycle (phase : string) : val :=
  VDict [("phase", VStr phase); ("last_stop_reason", VNone); ("last_stop_requested_at", VNone);
         ("last_stopped_at", VNone); ("graceful_stop_count", VInt 0)].

Definition new_source_health (cfg : MonitorConfig) (source : LocalJsonlSource) : val :=
  VDict [("kind", VStr "local_jsonl"); ("path_hash", path_hash source); ("enabled", VBool (src_enabled source));
         ("cursor_bytes", VInt 0); ("file_identity", VNone); ("prefix_length", VInt 0); ("prefix_hash", VNone);
         ("last_data_at", VNone); ("last_success_at", VNone); ("last_error", VNone);
         ("consecutive_failures", VInt 0); ("failure_limit", VInt (mc_max_consecutive_failures cfg));
         ("rotation_count", VInt 0)].

Definition stages_of (a b c : bool) : val :=
  VDict [("serialization_round_trip_passed", VBool a); ("signal_detection_passed", VBool b);
         ("policy_no_action_passed", VBool c)].

Definition new_canary : val :=
  VDict [("last_result", VStr "not_run"); ("last_run_at", VNone); ("success_count", VInt 0);
         ("failure_count", VInt 0); ("last_stages", stages_of false false false);
         ("action_execution_count", VInt 0)].

Definition new_totals : val :=
  VDict [("accepted_observation_count", VInt 0); ("duplicate_observation_count", VInt 0);
         ("source_failure_count", VInt 0); ("action_execution_count", VInt 0); ("network_call_count", VInt 0)].

(** The dictionary [_load_or_initialize_state] starts with; the identifiers
    of a configuration are distinct. *)
Definition initial_state (cfg : MonitorConfig) (now : Z) : dict :=
  [("schema_version", VStr STATE_SCHEMA_VERSION); ("runtime_id", VStr (mc_runtime_id cfg));
   ("config_hash", VStr (mc_config_hash cfg)); ("started_at", VStr (utc_timestamp now));
   ("last_heartbeat_at", VNone); ("last_cycle_at", VNone); ("last_report_at", VNone);
   ("last_report_bucket", VNone); ("cycle_count", VInt 0); ("resume_count", VInt 0);
   ("status", VStr "starting"); ("lifecycle", new_lifecycle "starting");
   ("process_health", VDict [("heartbeat_current", VBool false)]);
   ("scheduler", VDict [("last_progress_at", VNone); ("missed_tick_count", VInt 0); ("next_delay_seconds", VNone)]);
   ("source_health", VDict (map (fun source => (src_id source, new_source_health cfg source)) (mc_sources cfg)));
   ("canary", new_canary); ("totals", new_totals); ("recent_observation_hashes", VList []);
   ("authority", _authority_snapshot)].

Definition configured_source_ok (source_health : dict) (source : LocalJsonlSource) : bool :=
  match vget source_health (src_id source) with
  | VDict value =>
      py_eq (vget value "enabled") (VBool (src_enabled source)) &&
      py_eq (vget value "kind") (VStr "local_jsonl") &&
      py_eq (vget value "path_hash") (path_hash source)
  | _ => false
  end.

Definition _validate_configured_sources (state : dict) (sources : list LocalJsonlSource) : res unit :=
  match vget state "source_health" with
  | VDict source_health =>
      let! _ := st_ensure (same_keys source_health (map src_id sources)) "source_manifest_mismatch" in
      st_ensure (forallb (configured_source_ok source_health) sources) "source_manifest_mismatch"
  | _ => Raise (P131StateError "source_manifest_mismatch")
  end.

Definition _load_or_initialize_state (cfg : MonitorConfig) (path : option file) (now : Z) : res dict :=
  match path with
  | Some _ =>
      let! state := load_monitor_state path in
      let! _ := st_ensure (py_eq (vget state "runtime_id") (VStr (mc_runtime_id cfg))) "runtime_id_mismatch" in
      let! _ := st_ensure (py_eq (vget state "config_hash") (VStr (mc_config_hash cfg))) "config_hash_mismatch" in
      let! _ := _validate_configured_sources state (mc_sources cfg) in
      Ok (if dmem "lifecycle" state then state else dset state "lifecycle" (new_lifecycle "running"))
  | None => Ok (initial_state cfg now)
  end.

(** ** Tailing a source *)

(** An opened source: its device and inode, and its bytes. *)
Record source_file := { sf_identity : string; sf_bytes : string }.

Definition slen (s : string) : Z := Z.of_nat (String.length s).

(** [handle.read(n)] from the start, and what is left from [n] on. *)
Definition str_take (n : Z) (s : string) : string := String.substring 0 (Z.to_nat n) s.
Definition str_drop (n : Z) (s : string) : string :=
  String.substring (Z.to_nat n) (String.length s - Z.to_nat n) s.

(** [bytes.hex()] *)
Definition bytes_hex (s : string) : string := concat_map_string (fun c => hex2 (code c)) s.

Definition is_newline (c : ascii) : bool := (code c =? 10)%N.

(** [handle.readline(limit)]: up to and with the next newline, at most
    [limit] bytes; and the rest. *)
Fixpoint readline (limit : Z) (s : string) : string * string :=
  match s with
  | EmptyString => (EmptyString, EmptyString)
  | String c s' =>
      if limit <=? 0 then (EmptyString, s)
      else if is_newline c then (String c EmptyString, s')
      else let '(line, rest) := readline (limit - 1) s' in (String c line, rest)
  end.

(** [line.endswith(b"\n")] *)
Fixpoint ends_line (s : string) : bool :=
  match s with
  | EmptyString => false
  | String c EmptyString => is_newline c
  | String _ s => ends_line s
  end.

(** The text of a non-blank string field. *)
Definition text_field (v : dict) (field : string) : option string :=
  match vget v field with
  | VStr s => if is_empty (strip s) then None else Some (strip s)
  | _ => None
  end.

Definition _observation_identity (source_id : string) (value : dict) (file_identity : string) (offset : Z) : string :=
  match text_field value "event_id", text_field value "id", text_field value "timestamp" with
  | Some event_id, _, _ | None, Some event_id, _ =>
      stable_hash (VDict [("source_id", VStr source_id); ("event_id", VStr event_id)])
  | None, None, Some timestamp =>
      stable_hash (VDict [("source_id", VStr source_id); ("timestamp", VStr timestamp); ("observation", VDict value)])
  | None, None, None =>
      stable_hash (VDict [("source_id", VStr source_id); ("file_identity", VStr file_identity);
                          ("offset", VInt offset); ("observation", VDict value)])
  end.

Definition _source_prefix (content : string) : Z * string :=
  let prefix := str_take 4096 content in (slen prefix, stable_hash (VStr (bytes_hex prefix))).

Definition _source_prefix_changed (content : string) (source_health : dict) (identity : string) : bool :=
  match vget source_health "file_identity", as_int_or_bool (vget_or source_health "prefix_length" (VInt 0)),
        vget source_health "prefix_hash" with
  | VStr previous_identity, Some previous_length, VStr previous_hash =>
      if negb (previous_identity =s identity) || (previous_length <=? 0) then false
      else
        let current := str_take previous_length content in
        negb (slen current =? previous_length) || negb (stable_hash (VStr (bytes_hex current)) =s previous_hash)
  | _, _, _ => false
  end.

(** What the loop of [_poll_local_jsonl] keeps. *)
Record tail := {
  t_cursor : Z;
  t_rest : string;
  t_bytes : Z;
  t_records : Z;
  t_recent : list val;
  t_accepted : Z;
  t_duplicates : Z;
  t_failures : Z;
}.

Record poll_counts := { p_accepted : Z; p_duplicates : Z; p_failures : Z }.

Section Poll.
Context (cfg : MonitorConfig) (decode : string -> option val).

(** One complete line, consumed. *)
Definition take_line (source_id identity line rest : string) (t : tail) : tail :=
  let next recent accepted duplicates failures :=
    {| t_cursor := t_cursor t + slen line; t_rest := rest; t_bytes := t_bytes t + slen line;
       t_records := t_records t + 1; t_recent := recent; t_accepted := t_accepted t + accepted;
       t_duplicates := t_duplicates t + duplicates; t_failures := t_failures t + failures |} in
  match decode line with
  | Some (VDict value) =>
      let observation_hash := _observation_identity source_id value identity (t_cursor t) in
      if mem observation_hash (map py_str (t_recent t)) then next (t_recent t) 0 1 0
      else next (t_recent t ++ [VStr observation_hash]) 1 0 0
  | _ => next (t_recent t) 0 0 1
  end.

Definition fail_line (t : tail) : tail :=
  {| t_cursor := t_cursor t; t_rest := t_rest t; t_bytes := t_bytes t; t_records := t_records t;
     t_recent := t_recent t; t_accepted := t_accepted t; t_duplicates := t_duplicates t;
     t_failures := t_failures t + 1 |}.

(** The [while True] loop; [None] when the fuel runs out. *)
Fixpoint read_lines (fuel : nat) (source_id identity : string) (t : tail) : option tail :=
  match fuel with
  | O => None
  | S fuel =>
      let '(line, rest) := readline (mc_max_line_bytes cfg + 1) (t_rest t) in
      if is_empty line then Some t
      else if mc_max_line_bytes cfg <? slen line then Some (fail_line t)
      else if (mc_max_bytes_per_cycle cfg <? t_bytes t + slen line) || (mc_max_records_per_cycle cfg <=? t_records t)
      then Some t
      else if negb (ends_line line) then Some t
      else read_lines fuel source_id identity (take_line source_id identity line rest t)
  end.

(** Where tailing resumes, and whether the file was rotated. *)
Definition resume_cursor (source_health : dict) (f : source_file) : res (Z * bool) :=
  let! cursor := py_int (vget_or source_health "cursor_bytes" (VInt 0)) in
  let identity := vget source_health "file_identity" in
  if negb (is_none identity || py_eq identity (VStr (sf_identity f))) ||
     (slen (sf_bytes f) <? cursor) || _source_prefix_changed (sf_bytes f) source_health (sf_identity f)
  then Ok (0, true) else Ok (cursor, false).

Definition start_tail (f : source_file) (cursor : Z) (recent : list val) : tail :=
  {| t_cursor := cursor; t_rest := str_drop cursor (sf_bytes f); t_bytes := 0; t_records := 0;
     t_recent := recent; t_accepted := 0; t_duplicates := 0; t_failures := 0 |}.

(** [recent[-n:]] for a positive [n] *)
Definition last_n {A} (n : Z) (l : list A) : list A := skipn (List.length l - Z.to_nat n) l.

Definition dupdate (d updates : dict) : dict := fold_left (fun d kv => dset d kv.1 kv.2) updates d.

(** The source's health after a poll that opened it. *)
Definition polled_health (health : dict) (f : source_file) (observed_at : Z) (t : tail) (failures : Z) : dict :=
  let '(prefix_length, prefix_hash) := _source_prefix (sf_bytes f) in
  let health := dupdate health
    [("cursor_bytes", VInt (t_cursor t)); ("file_identity", VStr (sf_identity f));
     ("prefix_length", VInt prefix_length); ("prefix_hash", VStr prefix_hash);
     ("last_success_at", VStr (utc_timestamp observed_at)); ("last_error", VNone);
     ("consecutive_failures", VInt failures)] in
  let health := if t_accepted t =? 0 then health else dset health "last_data_at" (VStr (utc_timestamp observed_at)) in
  if t_failures t =? 0 then health else dset health "last_error" (VStr "invalid_jsonl_observation").

Definition recent_of (state : dict) : list val :=
  default [] (as_seq (vget_or state "recent_observation_hashes" (VList []))).

(** The poll of an opened source: its health, the recent hashes and the
    counts. *)
Definition poll_opened (source : LocalJsonlSource) (health : dict) (state : dict) (observed_at : Z) (f : source_file)
  : res (dict * list val * poll_counts) :=
  let! c := resume_cursor health f in
  let '(cursor, rotated) := c in
  let! health :=
    if rotated then
      let! n := py_int (vget_or health "rotation_count" (VInt 0)) in Ok (dset health "rotation_count" (VInt (n + 1)))
    else Ok health in
  match read_lines (S (String.length (sf_bytes f))) (src_id source) (sf_identity f)
          (start_tail f cursor (recent_of state)) with
  | None => Raise (Exn "RuntimeError" "out of fuel")
  | Some t =>
      let! failures :=
        if t_failures t =? 0 then Ok 0
        else let! n := py_int (vget_or health "consecutive_failures" (VInt 0)) in Ok (n + 1) in
      Ok (polled_health health f observed_at t failures, last_n MAX_RECENT_OBSERVATION_HASHES (t_recent t),
          {| p_accepted := t_accepted t; p_duplicates := t_duplicates t; p_failures := t_failures t |})
  end.

(** The source's health when it cannot be opened. *)
Definition unavailable_health (health : dict) : res dict :=
  let! n := py_int (vget_or health "consecutive_failures" (VInt 0)) in
  Ok (dset (dset health "last_error" (VStr "source_unavailable")) "consecutive_failures" (VInt (n + 1))).

Definition _poll_local_jsonl (source : LocalJsonlSource) (state : dict) (observed_at : Z) (f : option source_file)
  : res (dict * poll_counts) :=
  let! source_map := vindex state "source_health" in
  let! health := vindex (dict_or_empty source_map) (src_id source) in
  let health := dict_or_empty health in
  let put state health :=
    dset state "source_health" (VDict (dset (dict_or_empty (vget state "source_health")) (src_id source) (VDict health))) in
  match f with
  | Some f =>
      let! r := poll_opened source health state observed_at f in
      let '(health, recent, counts) := r in
      Ok (put (dset state "recent_observation_hashes" (VList recent)) health, counts)
  | None =>
      let! health := unavailable_health health in
      Ok (put state health, {| p_accepted := 0; p_duplicates := 0; p_failures := 1 |})
  end.

Definition add_counts (a b : poll_counts) : poll_counts :=
  {| p_accepted := p_accepted a + p_accepted b; p_duplicates := p_duplicates a + p_duplicates b;
     p_failures := p_failures a + p_failures b |}.

(** The polls of one cycle, in the order of the configuration. *)
Fixpoint poll_sources (sources : list LocalJsonlSource) (observed_at : Z) (reads : string -> option source_file)
    (state : dict) (counts : poll_counts) : res (dict * poll_counts) :=
  match sources with
  | [] => Ok (state, counts)
  | source :: sources =>
      if negb (src_enabled source) then poll_sources sources observed_at reads state counts
      else
        let! r := _poll_local_jsonl source state observed_at (reads (src_id source)) in
        let '(state, c) := r in
        poll_sources sources observed_at reads state (add_counts counts c)
  end.
End Poll.

(** ** The canary *)

(** [_default_canary_probe]: the dictionary it makes survives
    [json.loads(json.dumps(…))]. *)
Definition canary_observation : val :=
  VDict [("kind", VStr "synthetic_read_only"); ("signal", VStr "p131-canary"); ("value", VInt 1)].

Definition _default_canary_probe : val :=
  match json_image canary_observation with
  | VDict observation =>
      let round_trip := py_eq (vget observation "kind") (VStr "synthetic_read_only") in
      let detected := round_trip && py_eq (vget observation "signal") (VStr "p131-canary") &&
                      py_eq (vget observation "value") (VInt 1) in
      let no_action := detected && is_literal true (vget (dict_or_empty _authority_snapshot) "exact_zero") in
      VDict [("serialization_round_trip_passed", VBool round_trip); ("signal_detection_passed", VBool detected);
             ("policy_no_action_passed", VBool no_action); ("action_execution_count", VInt 0)]
  | _ => VDict [("serialization_round_trip_passed", VBool false); ("signal_detection_passed", VBool false);
                ("policy_no_action_passed", VBool false); ("action_execution_count", VInt 0)]
  end.

(** Whether the probe passed, and its stages; [None]: the probe raised. *)
Definition probe_result (probe : option val) : bool * val :=
  match probe with
  | Some (VDict result) =>
      let stage key := is_literal true (vget result key) in
      let a := stage "serialization_round_trip_passed" in
      let b := stage "signal_detection_passed" in
      let c := stage "policy_no_action_passed" in
      (a && b && c && py_eq (vget result "action_execution_count") (VInt 0), stages_of a b c)
  | Some v => let passed := is_literal true v in (passed, stages_of passed passed passed)
  | None => (false, stages_of false false false)
  end.

(** [d[key] = int(d[key]) + n] *)
Definition bump (d : dict) (key : string) (n : Z) : res dict :=
  let! v := vindex d key in
  let! z := py_int v in
  Ok (dset d key (VInt (z + n))).

Definition _run_canary (state : dict) (observed_at : Z) (probe : option val) : res dict :=
  let! canary := vindex state "canary" in
  let '(passed, stages) := probe_result probe in
  let canary := dupdate (dict_or_empty canary)
    [("last_result", VStr (if passed then "passed" else "failed"));
     ("last_run_at", VStr (utc_timestamp observed_at)); ("last_stages", stages)] in
  let! canary := bump canary (if passed then "success_count" else "failure_count") 1 in
  Ok (dset state "canary" (VDict (dset canary "action_execution_count" (VInt 0)))).

(** ** One cycle *)

(** [d[key] = v] in the dictionary [state[part]] *)
Definition set_in (state : dict) (part key : string) (v : val) : dict :=
  dset state part (VDict (dset (dict_or_empty (vget state part)) key v)).

Definition count_totals (state : dict) (c : poll_counts) : res dict :=
  let! totals := vindex state "totals" in
  let! totals := bump (dict_or_empty totals) "accepted_observation_count" (p_accepted c) in
  let! totals := bump totals "duplicate_observation_count" (p_duplicates c) in
  let! totals := bump totals "source_failure_count" (p_failures c) in
  Ok (dset state "totals" (VDict totals)).

Definition mark_progress (state : dict) (observed_at : Z) : dict :=
  let now := VStr (utc_timestamp observed_at) in
  let state := dset (dset state "last_cycle_at" now) "last_heartbeat_at" now in
  let state := set_in state "lifecycle" "phase" (VStr "running") in
  let state := dset state "process_health" (VDict [("heartbeat_current", VBool true)]) in
  set_in state "scheduler" "last_progress_at" now.

Definition canary_due (cfg : MonitorConfig) (state : dict) : res bool :=
  let! canary :=
    match vget_or state "canary" (VDict []) with
    | VDict canary => Ok canary
    | _ => Raise (Exn "AttributeError" "object has no attribute 'get'")
    end in
  if is_none (vget canary "last_run_at") then Ok true
  else
    let! v := vindex state "cycle_count" in
    let! cycle := py_int v in
    Ok (cycle mod mc_canary_every_cycles cfg =? 0).

Definition set_status (cfg : MonitorConfig) (state : dict) (observed_at : Z) : res dict :=
  let! status := _status_from_state state observed_at (mc_heartbeat_timeout_seconds cfg)
                   (mc_data_stale_after_seconds cfg) in
  Ok (dset state "status" (VStr (if truthy (vget status "ready") then "ready" else "degraded"))).

Definition no_counts : poll_counts := {| p_accepted := 0; p_duplicates := 0; p_failures := 0 |}.

Definition _run_cycle (cfg : MonitorConfig) (decode : string -> option val) (observed_at : Z)
    (reads : string -> option source_file) (probe : option val) (state : dict) : res (dict * poll_counts) :=
  let! r := poll_sources cfg decode (mc_sources cfg) observed_at reads state no_counts in
  let '(state, counts) := r in
  let! state := bump state "cycle_count" 1 in
  let state := mark_progress state observed_at in
  let! state := count_totals state counts in
  let! due := canary_due cfg state in
  let! state := if due then _run_canary state observed_at probe else Ok state in
  let! state := set_status cfg state observed_at in
  Ok (state, counts).

(** ** Scheduling *)

(** The delay and the next tick, and the ticks missed. *)
Definition next_tick (interval anchor current : Q) (tick_index : Z) : Q * Z * Z :=
  let deadline := (anchor + inject_Z tick_index * interval)%Q in
  if negb (Qle_bool current deadline) then
    let missed := Qfloor ((current - deadline) / interval) + 1 in
    let tick_index := tick_index + missed in
    let delay := (anchor + inject_Z tick_index * interval - current)%Q in
    (if Qle_bool 0 delay then delay else 0%Q, tick_index + 1, missed)
  else
    let delay := (deadline - current)%Q in
    (if Qle_bool 0 delay then delay else 0%Q, tick_index + 1, 0).

Definition _schedule_next (cfg : MonitorConfig) (anchor current : Q) (tick_index : Z) (state : dict) : res (dict * Q * Z) :=
  let '(delay, tick_index, missed) := next_tick (inject_Z (mc_interval_seconds cfg)) anchor current tick_index in
  let scheduler := dict_or_empty (vget state "scheduler") in
  let! n := py_int (vget_or scheduler "missed_tick_count" (VInt 0)) in
  let scheduler := dset scheduler "missed_tick_count" (VInt (n + missed)) in
  Ok (dset state "scheduler" (VDict (dset scheduler "next_delay_seconds" (VFloat delay))), delay, tick_index).

(** ** Persistence *)

Record world := { w_state : option file; w_receipt : option file; w_reports : dir }.

(** The free space found before a write and how the write ends. *)
Record write_env := { we_free : Z; we_outcome : write_outcome }.

Definition signed_state (state : dict) : dict :=
  let payload := unsigned_state state in
  payload ++ [("state_hash", VStr (stable_hash (VDict payload)))].

Definition _ensure_artifact_space (cfg : MonitorConfig) (free write_bytes : Z) : res unit :=
  ensure (negb (free <? mc_min_artifact_free_bytes cfg + write_bytes))
    (Exn "OSError" "artifact_free_space_below_floor").

Definition P131DurabilityUncertain : exn :=
  Exn "P131DurabilityUncertainError" "directory_fsync_failed_after_replace".

(** [_atomic_write_json] of [v], as the outcome and whether the file is in
    place. *)
Definition write_json (cfg : MonitorConfig) (we : write_env) (v : val) : res unit * bool :=
  match _ensure_artifact_space cfg (we_free we) (json_size v) with
  | Raise e => (Raise e, false)
  | Ok _ =>
      match we_outcome we with
      | Written => (Ok tt, true)
      | NotWritten e => (Raise e, false)
      | Uncertain => (Raise P131DurabilityUncertain, true)
      end
  end.

(** The new state in memory, when the write returned. *)
Definition _persist_state (cfg : MonitorConfig) (we : write_env) (state : dict) (w : world) : res dict * world :=
  match _validate_runtime_boundary state with
  | Raise e => (Raise e, w)
  | Ok _ =>
      let state := signed_state state in
      let '(r, placed) := write_json cfg we (VDict state) in
      (let! _ := r in Ok state,
       if placed then {| w_state := Some (written_file (VDict state)); w_receipt := w_receipt w; w_reports := w_reports w |}
       else w)
  end.

(** ** Stopping *)

Definition stop_lifecycle (lifecycle : dict) (reason : string) (requested_at stopped_at count : Z) : dict :=
  dupdate lifecycle
    [("phase", VStr "stopped"); ("last_stop_reason", VStr reason);
     ("last_stop_requested_at", VStr (utc_timestamp requested_at));
     ("last_stopped_at", VStr (utc_timestamp stopped_at)); ("graceful_stop_count", VInt (count + 1))].

(** The stopped checkpoint before it is persisted. *)
Definition stopped_state (state : dict) (reason : string) (requested_at stopped_at : Z) : res dict :=
  let lifecycle := dict_or_empty (vget state "lifecycle") in
  let! count := py_int (vget_or lifecycle "graceful_stop_count" (VInt 0)) in
  let state := dset state "lifecycle" (VDict (stop_lifecycle lifecycle reason requested_at stopped_at count)) in
  let state := dset state "status" (VStr "stopped") in
  let state := dset state "process_health" (VDict [("heartbeat_current", VBool false)]) in
  Ok (set_in state "scheduler" "next_delay_seconds" VNone).

Definition termination_receipt (cfg : MonitorConfig) (state : dict) (reason : string) (requested_at stopped_at : Z) : dict :=
  let base : dict :=
    [("schema_version", VStr TERMINATION_RECEIPT_SCHEMA_VERSION); ("runtime_id", VStr (mc_runtime_id cfg));
     ("config_hash", VStr (mc_config_hash cfg)); ("reason", VStr reason);
     ("stop_requested_at", VStr (utc_timestamp requested_at)); ("stopped_at", VStr (utc_timestamp stopped_at));
     ("final_cycle_count", vget state "cycle_count"); ("final_state_hash", vget state "state_hash")] in
  base ++ [("receipt_hash", VStr (stable_hash (VDict base)))].

(** The inputs of a stop: the two clock readings and the two writes. *)
Record stop_env := { se_requested_at : Z; se_stopped_at : Z; se_state_write : write_env; se_receipt_write : write_env }.

Definition _graceful_stop (cfg : MonitorConfig) (se : stop_env) (reason : string) (state : dict) (w : world)
  : res dict * world :=
  if negb (mem reason ["sigterm"; "sigint"]) then (Raise (Exn "ValueError" "unsupported_stop_reason"), w)
  else
    match stopped_state state reason (se_requested_at se) (se_stopped_at se) with
    | Raise e => (Raise e, w)
    | Ok state =>
        match _persist_state cfg (se_state_write se) state w with
        | (Raise e, w) => (Raise e, w)
        | (Ok state, w) =>
            let receipt := termination_receipt cfg state reason (se_requested_at se) (se_stopped_at se) in
            let '(r, placed) := write_json cfg (se_receipt_write se) (VDict receipt) in
            (let! _ := r in Ok state,
             if placed then {| w_state := w_state w; w_receipt := Some (written_file (VDict receipt)); w_reports := w_reports w |}
             else w)
        end
    end.

(** ** Health reports *)

Definition epoch_us : Z := days_before_year 1970 * day_seconds * second.

(** [int(now.timestamp()) // interval] *)
Definition report_bucket (cfg : MonitorConfig) (now : Z) : Z :=
  Z.quot (now - epoch_us) second / mc_daily_report_interval_seconds cfg.

(** [strftime("%Y%m%dT%H%M%SZ")]: the ISO form without its separators. *)
Fixpoint drop_separators (s : string) : string :=
  match s with
  | EmptyString => EmptyString
  | String c s => if (code c =? 45)%N || (code c =? 58)%N then drop_separators s else String c (drop_separators s)
  end.

Definition report_name (us : Z) : string := "p131-health-" +:+ drop_separators (isoformat us) +:+ "Z.json".

(** [_REPORT_FILENAME.fullmatch(name)] *)
Definition is_report_name (name : string) : bool :=
  let p := chars name in
  (List.length p =? 33)%nat &&
  (String.substring 0 12 name =s "p131-health-") && forallb is_digit_char (firstn 8 (skipn 12 p)) &&
  (String.substring 20 1 name =s "T") && forallb is_digit_char (firstn 6 (skipn 21 p)) &&
  (String.substring 27 6 name =s "Z.json").

Definition candidate_invalid : exn := P131StateError "report_retention_candidate_invalid".

(** [_validated_report_candidate]: the size. *)
Definition _validated_report_candidate (cfg : MonitorConfig) (reports : dir) (name : string) : res Z :=
  match dget reports name with
  | None => Raise candidate_invalid
  | Some f =>
      match f_kind f, f_value f with
      | Irregular, _ | _, None => Raise candidate_invalid
      | _, Some v =>
          let! _ := ensure (f_size f <=? MAX_STATE_BYTES) candidate_invalid in
          match v with
          | VDict payload =>
              let! _ := ensure (py_eq (vget payload "schema_version") (VStr REPORT_SCHEMA_VERSION) &&
                                py_eq (vget payload "runtime_id") (VStr (mc_runtime_id cfg)) &&
                                py_eq (vget payload "config_hash") (VStr (mc_config_hash cfg)) &&
                                py_eq (vget payload "report_hash")
                                  (VStr (stable_hash (VDict (dwithout ["report_hash"] payload))))) candidate_invalid in
              Ok (f_size f)
          | _ => Raise candidate_invalid
          end
      end
  end.

Definition report_over_budget (cfg : MonitorConfig) (count bytes : Z) : bool :=
  (mc_max_report_files cfg <? count) || (mc_max_report_dir_bytes cfg <? bytes).

(** The oldest reports go while the budget is exceeded. *)
Fixpoint evict_reports (cfg : MonitorConfig) (retained : list (string * Z)) (count bytes : Z) (reports : dir)
  : res (Z * Z) * dir :=
  match retained with
  | [] => (Ok (count, bytes), reports)
  | (name, size) :: retained =>
      if negb (report_over_budget cfg count bytes) then (Ok (count, bytes), reports)
      else
        match _validated_report_candidate cfg reports name with
        | Raise e => (Raise e, reports)
        | Ok current =>
            if negb (current =? size) then (Raise (P131StateError "report_retention_candidate_changed"), reports)
            else evict_reports cfg retained (count - 1) (bytes - size) (dwithout [name] reports)
        end
  end.

Definition report_candidates (cfg : MonitorConfig) (reports : dir) : res (list (string * Z)) :=
  mapM (fun name => let! size := _validated_report_candidate cfg reports name in Ok (name, size))
    (sorted_strings (List.filter is_report_name (dkeys reports))).

Definition _prepare_report_capacity (cfg : MonitorConfig) (prospective_bytes : Z) (prospective_name : option string)
    (reports : dir) : res unit * dir :=
  if mc_max_report_dir_bytes cfg <? prospective_bytes
  then (Raise (Exn "OSError" "report_exceeds_directory_budget"), reports)
  else
    match report_candidates cfg reports with
    | Raise e => (Raise e, reports)
    | Ok candidates =>
        let retained := List.filter (fun c : string * Z =>
          match prospective_name with Some name => negb (c.1 =s name) | None => true end) candidates in
        let bytes := fold_right (fun c acc => c.2 + acc) 0 retained + prospective_bytes in
        let count := Z.of_nat (List.length retained) + (match prospective_name with Some _ => 1 | None => 0 end) in
        let '(r, reports) := evict_reports cfg retained count bytes reports in
        (let! kept := r in
         ensure (negb (report_over_budget cfg kept.1 kept.2)) (Exn "OSError" "report_retention_budget_exhausted"),
         reports)
    end.

Definition make_report (cfg : MonitorConfig) (state status : dict) (now : Z) : dict :=
  let base : dict :=
    [("schema_version", VStr REPORT_SCHEMA_VERSION); ("runtime_id", VStr (mc_runtime_id cfg));
     ("config_hash", VStr (mc_config_hash cfg)); ("generated_at", VStr (utc_timestamp now));
     ("status", VDict status); ("cycle_count", vget state "cycle_count");
     ("resume_count", vget state "resume_count"); ("totals", vget state "totals");
     ("source_health", vget state "source_health"); ("canary", vget state "canary");
     ("authority", _authority_snapshot); ("state_hash", vget state "state_hash")] in
  base ++ [("report_hash", VStr (stable_hash (VDict base)))].

(** The inputs of a report: the clock and the two writes. *)
Record report_env := { re_now : Z; re_report_write : write_env; re_state_write : write_env }.

Definition set_reports (w : world) (d : dir) : world :=
  {| w_state := w_state w; w_receipt := w_receipt w; w_reports := d |}.

Definition _write_report_if_due (cfg : MonitorConfig) (re : report_env) (state : dict) (w : world) : res dict * world :=
  let bucket := report_bucket cfg (re_now re) in
  if py_eq (vget state "last_report_bucket") (VInt bucket) then
    let '(r, reports) := _prepare_report_capacity cfg 0 None (w_reports w) in
    (let! _ := r in Ok state, set_reports w reports)
  else
    match _status_from_state state (re_now re) (mc_heartbeat_timeout_seconds cfg) (mc_data_stale_after_seconds cfg) with
    | Raise e => (Raise e, w)
    | Ok status =>
        let report := VDict (make_report cfg state status (re_now re)) in
        let name := report_name (epoch_us + bucket * mc_daily_report_interval_seconds cfg * second) in
        let '(r, reports) := _prepare_report_capacity cfg (json_size report) (Some name) (w_reports w) in
        let w := set_reports w reports in
        match r with
        | Raise e => (Raise e, w)
        | Ok _ =>
            let '(r, placed) := write_json cfg (re_report_write re) report in
            let w := if placed then set_reports w (dset reports name (written_file report)) else w in
            match r with
            | Raise e => (Raise e, w)
            | Ok _ =>
                let state := dset state "last_report_at" (VStr (utc_timestamp (re_now re))) in
                let state := dset state "last_report_bucket" (VInt bucket) in
                _persist_state cfg (re_state_write re) state w
            end
        end
    end.

(** ** The run *)

(** The inputs of one turn of the loop.  [te_stop] and [te_stop_waiting] are
    what [stop_reason] answers at the head of the loop and after an
    interrupted wait. *)
Record turn_env := {
  te_stop : option string;
  te_observed_at : Z;
  te_reads : string -> option source_file;
  te_probe : option val;
  te_monotonic : Q;
  te_state_write : write_env;
  te_report : report_env;
  te_wait : bool;
  te_stop_waiting : option string;
  te_stop_env : stop_env;
}.

Record loop := { l_state : dict; l_tick : Z; l_cycles : Z; l_counts : poll_counts }.

Inductive turn_result :=
  | Continue (l : loop)
  | Finished (l : loop) (reason : option string).

Section Run.
Context (cfg : MonitorConfig) (decode : string -> option val) (max_cycles : option Z) (sleep_enabled : bool) (anchor : Q).

Definition is_final (cycles : Z) : bool := match max_cycles with Some n => n <=? cycles | None => false end.

Definition schedule (te : turn_env) (final : bool) (l : loop) : res loop :=
  if negb final && sleep_enabled then
    let! r := _schedule_next cfg anchor (te_monotonic te) (l_tick l) (l_state l) in
    let '(state, _, tick) := r in
    Ok {| l_state := state; l_tick := tick; l_cycles := l_cycles l; l_counts := l_counts l |}
  else if final then
    Ok {| l_state := set_in (l_state l) "scheduler" "next_delay_seconds" VNone; l_tick := l_tick l;
          l_cycles := l_cycles l; l_counts := l_counts l |}
  else Ok l.

Definition with_state (l : loop) (state : dict) : loop :=
  {| l_state := state; l_tick := l_tick l; l_cycles := l_cycles l; l_counts := l_counts l |}.

Definition stop_now (te : turn_env) (reason : string) (l : loop) (w : world) : res turn_result * world :=
  let '(r, w) := _graceful_stop cfg (te_stop_env te) reason (l_state l) w in
  (let! state := r in Ok (Finished (with_state l state) (Some reason)), w).

(** What follows a cycle that was not the last. *)
Definition after_cycle (te : turn_env) (l : loop) (w : world) : res turn_result * world :=
  if sleep_enabled && te_wait te then
    match te_stop_waiting te with
    | None => (Raise (Exn "ValueError" "stop_wait_triggered_without_reason"), w)
    | Some reason => stop_now te reason l w
    end
  else (Ok (Continue l), w).

(** The cycle of one turn, scheduled. *)
Definition turn_cycle (te : turn_env) (l : loop) : res loop :=
  let! r := _run_cycle cfg decode (te_observed_at te) (te_reads te) (te_probe te) (l_state l) in
  let '(state, counts) := r in
  let l := {| l_state := state; l_tick := l_tick l; l_cycles := l_cycles l + 1;
              l_counts := add_counts (l_counts l) counts |} in
  schedule te (is_final (l_cycles l)) l.

(** One turn of the [while] loop. *)
Definition turn (te : turn_env) (l : loop) (w : world) : res turn_result * world :=
  match te_stop te with
  | Some reason => stop_now te reason l w
  | None =>
      match turn_cycle te l with
      | Raise e => (Raise e, w)
      | Ok l =>
          match _persist_state cfg (te_state_write te) (l_state l) w with
          | (Raise e, w) => (Raise e, w)
          | (Ok state, w) =>
              match _write_report_if_due cfg (te_report te) state w with
              | (Raise e, w) => (Raise e, w)
              | (Ok state, w) =>
                  if is_final (l_cycles l) then (Ok (Finished (with_state l state) None), w)
                  else after_cycle te (with_state l state) w
              end
          end
      end
  end.

(** The loop over the turns the environment gives. *)
Fixpoint turns (tes : list turn_env) (l : loop) (w : world) : res turn_result * world :=
  match tes with
  | [] => (Ok (Continue l), w)
  | te :: tes =>
      match turn te l w with
      | (Ok (Continue l), w) => turns tes l w
      | r => r
      end
  end.

(** The loop entered by [run] at [now]: a checkpoint found counts a resume. *)
Definition enter (now : Z) (w : world) : res loop :=
  let! state := _load_or_initialize_state cfg (w_state w) now in
  let! state := match w_state w with Some _ => bump state "resume_count" 1 | None => Ok state end in
  Ok {| l_state := state; l_tick := 1; l_cycles := 0; l_counts := no_counts |}.

(** The refusals at the head of [run]. *)
Definition run_arguments (wait_given : bool) : res unit :=
  let! _ :=
    match max_cycles with
    | Some n => ensure (0 <? n) (Exn "ValueError" "max_cycles_must_be_positive")
    | None => ensure sleep_enabled (Exn "ValueError" "unbounded_run_requires_sleep")
    end in
  ensure (negb wait_given || sleep_enabled) (Exn "ValueError" "stop_wait_requires_sleep").

(** [wait_given]: was [wait_for_stop] passed? *)
Definition run (wait_given : bool) (now : Z) (tes : list turn_env) (w : world) : res turn_result * world :=
  match (let! _ := run_arguments wait_given in enter now w) with
  | Raise e => (Raise e, w)
  | Ok l => turns tes l w
  end.

(** What [run] returns of a finished loop; its [state_path] is left out. *)
Definition run_summary (now : Z) (l : loop) (reason : option string) : res dict :=
  let! status := _status_from_state (l_state l) now (mc_heartbeat_timeout_seconds cfg)
                   (mc_data_stale_after_seconds cfg) in
  Ok [("schema_version", VStr "p131.monitor_run.v1"); ("runtime_id", VStr (mc_runtime_id cfg));
      ("summary", VDict
         [("cycle_count", VInt (l_cycles l)); ("accepted_observation_count", VInt (p_accepted (l_counts l)));
          ("duplicate_observation_count", VInt (p_duplicates (l_counts l)));
          ("source_failure_count", VInt (p_failures (l_counts l)));
          ("live", vget status "live"); ("ready", vget status "ready"); ("reasons", vget status "reasons");
          ("graceful_stop", VBool (match reason with Some _ => true | None => false end));
          ("stop_reason", match reason with Some r => VStr r | None => VNone end)]);
      ("authority", _authority_snapshot)].
End Run.
