(* ===== verification/P131MonitorInv.v ===== *)
(** * What a checkpoint of the monitor keeps

    The invariant of the state dictionary, part by part: each part says which
    values the monitor leaves in it, does not change when the value is
    written and read back, and makes the matching validation succeed. *)

From S2P Require Import Prelude PyValue Sha Json JsonFile PyTime P121Authority PyChecks P131State P131Monitor.

#[local] Opaque stable_hash utc_timestamp read_utc.

(** ** Fields *)

Lemma vget_dset d k k' v : vget (dset d k v) k' = if k' =s k then v else vget d k'.
Proof. unfold vget. rewrite dget_dset. by destruct (k' =s k). Qed.

(** Reads after writes at literal keys. *)
Ltac fields := repeat (rewrite vget_dset; cbn [String.eqb Ascii.eqb Bool.eqb]).

(** Values that reading back does not change. *)
Definition scalar (v : val) : bool := match v with VList _ | VTuple _ | VDict _ => false | _ => true end.

Lemma scalar_image v : scalar v = true -> json_image v = v.
Proof. by destruct v. Qed.

Lemma is_int_some p v : is_int p v = true -> exists z, v = VInt z /\ p z = true.
Proof. destruct v; try discriminate. eauto. Qed.

Lemma nonneg_some v : nonneg v = true -> exists z, v = VInt z /\ 0 <= z.
Proof. intros (z & -> & H)%is_int_some. exists z. split; [reflexivity | by apply Z.leb_le]. Qed.

Lemma nonneg_int z : 0 <= z -> nonneg (VInt z) = true.
Proof. intros H. by apply Z.leb_le. Qed.

(** ** Times *)

(** [None] or the text of a time. *)
Definition stamp (v : val) : Prop := v = VNone \/ exists us, datetime_range us = true /\ v = VStr (utc_timestamp us).

Lemma stamp_none : stamp VNone.
Proof. by left. Qed.

Lemma stamp_at us : datetime_range us = true -> stamp (VStr (utc_timestamp us)).
Proof. right. eauto. Qed.

Lemma stamp_image v : stamp v -> json_image v = v.
Proof. by intros [->|(us & _ & ->)]. Qed.

Lemma parse_utc_timestamp us : datetime_range us = true -> _parse_timestamp (VStr (utc_timestamp us)) = Ok us.
Proof. intros H. unfold _parse_timestamp. rewrite read_utc_timestamp by exact H. by rewrite Z.sub_0_r, H. Qed.

Lemma stamp_parses v : stamp v -> parse_optional_timestamp v = Ok tt.
Proof. intros [->|(us & H & ->)]; [reflexivity|]. cbn [parse_optional_timestamp]. by rewrite parse_utc_timestamp. Qed.

Lemma stamps_parse d keys : Forall (fun key => stamp (vget d key)) keys -> parse_fields (VDict d) keys = Ok tt.
Proof. intros H. apply iterM_ok. eapply Forall_impl; [exact H|]. intros key. apply stamp_parses. Qed.

Create HintDb inv.
#[export] Hint Resolve stamp_none stamp_at : inv.

(** ** The scheduler *)

Record scheduler_ok (d : dict) : Prop := {
  sc_missed : nonneg (vget d "missed_tick_count") = true;
  sc_progress : stamp (vget d "last_progress_at");
  sc_delay : vget d "next_delay_seconds" = VNone \/
             exists q, vget d "next_delay_seconds" = VFloat q /\ Qle_bool 0 q = true;
}.

Lemma scheduler_image d : scheduler_ok d -> scheduler_ok (dict_image d).
Proof.
  intros [H1 H2 H3]. constructor; rewrite vget_image.
  - unfold nonneg. by rewrite is_int_image.
  - by rewrite stamp_image.
  - destruct H3 as [->|(q & -> & H)]; [by left | right; eauto].
Qed.

Lemma scheduler_validates d :
  scheduler_ok d -> validate_scheduler (VDict d) = Ok tt /\ parse_fields (VDict d) ["last_progress_at"] = Ok tt.
Proof.
  intros [H1 H2 H3]. split; [|apply stamps_parse; constructor; [exact H2 | constructor]].
  unfold validate_scheduler. rewrite H1. cbn [st_ensure ensure bind].
  destruct H3 as [->|(q & -> & H)]; [reflexivity|]. cbn [py_float bind]. by rewrite H.
Qed.

(** ** Totals *)

Definition total_keys : list string :=
  ["accepted_observation_count"; "duplicate_observation_count"; "source_failure_count"].

Record totals_ok (d : dict) : Prop := {
  to_counts : Forall (fun key => nonneg (vget d key) = true) total_keys;
  to_actions : vget d "action_execution_count" = VInt 0;
  to_network : vget d "network_call_count" = VInt 0;
}.

Lemma totals_image d : totals_ok d -> totals_ok (dict_image d).
Proof.
  intros [H1 H2 H3]. constructor; rewrite ?vget_image, ?H2, ?H3; try reflexivity.
  eapply Forall_impl; [exact H1|]. intros key H. rewrite vget_image. unfold nonneg. by rewrite is_int_image.
Qed.

(** ** The canary *)

Record canary_ok (d : dict) : Prop := {
  ca_stages : exists stages, vget d "last_stages" = VDict stages /\ same_keys stages stage_keys = true /\
    forallb (fun key => is_bool (vget stages key)) stage_keys = true /\
    (vget d "last_result" = VStr "not_run" -> forallb (fun key => is_literal false (vget stages key)) stage_keys = true) /\
    (vget d "last_result" = VStr "passed" -> forallb (fun key => is_literal true (vget stages key)) stage_keys = true);
  ca_run : stamp (vget d "last_run_at");
  ca_success : nonneg (vget d "success_count") = true;
  ca_failure : nonneg (vget d "failure_count") = true;
  ca_actions : vget d "action_execution_count" = VInt 0;
  ca_result :
    (vget d "last_result" = VStr "not_run" /\ vget d "last_run_at" = VNone /\
     vget d "success_count" = VInt 0 /\ vget d "failure_count" = VInt 0) \/
    (vget d "last_result" = VStr "passed" /\ is_string (vget d "last_run_at") = true /\
     positive (vget d "success_count") = true) \/
    (vget d "last_result" = VStr "failed" /\ is_string (vget d "last_run_at") = true /\
     positive (vget d "failure_count") = true);
}.

Lemma canary_image d : canary_ok d -> canary_ok (dict_image d).
Proof.
  intros [(st & Hs & Hk & Hb & Hf & Ht) H2 H3 H4 H5 H6].
  assert (Er : json_image (vget d "last_result") = vget d "last_result").
  { by destruct H6 as [(-> & _)|[(-> & _)|(-> & _)]]. }
  constructor; rewrite ?vget_image, ?Er.
  - exists (dict_image st). rewrite Hs, same_keys_image. split_and!; [reflexivity | exact Hk | | |].
    + etransitivity; [|exact Hb]. apply forallb_ext. intros key. rewrite vget_image. by destruct (vget st key).
    + intros E. etransitivity; [|exact (Hf E)]. apply forallb_ext. intros key. by rewrite vget_image, is_literal_image.
    + intros E. etransitivity; [|exact (Ht E)]. apply forallb_ext. intros key. by rewrite vget_image, is_literal_image.
  - by rewrite stamp_image.
  - unfold nonneg. by rewrite is_int_image.
  - unfold nonneg. by rewrite is_int_image.
  - by rewrite H5.
  - unfold positive in *. rewrite !is_string_image, !is_int_image.
    destruct H6 as [(? & -> & -> & ->)|[?|?]]; [left; by split_and! | by right; left | by right; right].
Qed.

Lemma canary_validates d :
  canary_ok d -> validate_canary (VDict d) = Ok tt /\ parse_fields (VDict d) ["last_run_at"] = Ok tt.
Proof.
  intros [(st & Hs & Hk & Hb & Hf & Ht) H2 H3 H4 H5 H6]. split; [|apply stamps_parse; constructor; [exact H2 | constructor]].
  unfold validate_canary. cbv zeta. cbn [iterM]. rewrite Hs, H3, H4, Hk, Hb. cbn [st_ensure ensure bind andb].
  destruct H6 as [(Hr & E1 & E2 & E3)|[(Hr & E1 & E2)|(Hr & E1 & E2)]]; rewrite Hr in *; cbn [in_set hashable bind].
  - rewrite (Hf eq_refl), E1, E2, E3. reflexivity.
  - rewrite (Ht eq_refl), E1, E2. reflexivity.
  - rewrite E1, E2. reflexivity.
Qed.

(** ** The lifecycle *)

(** Everything of a lifecycle but its agreement with the status. *)
Record lifecycle_ok (d : dict) : Prop := {
  li_fields : same_keys d lifecycle_fields = true;
  li_phase : exists phase, vget d "phase" = VStr phase /\ mem phase ["starting"; "running"; "stopped"] = true;
  li_requested : stamp (vget d "last_stop_requested_at");
  li_stopped : stamp (vget d "last_stopped_at");
  li_count :
    (vget d "graceful_stop_count" = VInt 0 /\ vget d "last_stop_reason" = VNone /\
     vget d "last_stop_requested_at" = VNone /\ vget d "last_stopped_at" = VNone /\ vget d "phase" <> VStr "stopped") \/
    (exists n reason, vget d "graceful_stop_count" = VInt n /\ 0 < n /\
     vget d "last_stop_reason" = VStr reason /\ mem reason ["sigterm"; "sigint"] = true /\
     is_string (vget d "last_stop_requested_at") = true /\ is_string (vget d "last_stopped_at") = true);
}.

Lemma lifecycle_image d : lifecycle_ok d -> lifecycle_ok (dict_image d).
Proof.
  intros [H1 (p & Hp & Hm) H3 H4 H5]. constructor; rewrite ?vget_image, ?Hp, ?(stamp_image _ H3), ?(stamp_image _ H4).
  - by rewrite same_keys_image.
  - exists p. auto.
  - exact H3.
  - exact H4.
  - rewrite Hp in H5. destruct H5 as [(-> & -> & ? & ? & ?)|(n & r & -> & ? & -> & ? & ? & ?)]; [by left|].
    right. exists n, r. by split_and!.
Qed.

(** The status agrees with the lifecycle: both stopped or neither. *)
Definition status_ok (status : val) (lifecycle : dict) : Prop :=
  exists s, status = VStr s /\ mem s ["starting"; "ready"; "degraded"; "stopped"] = true /\
    (s = "stopped" <-> vget lifecycle "phase" = VStr "stopped").

Lemma status_image status d : lifecycle_ok d -> status_ok status d -> status_ok (json_image status) (dict_image d).
Proof.
  intros [_ (p & Hp & _) _ _ _] (s & -> & Hm & Hs). exists s. rewrite vget_image, Hp in *. auto.
Qed.

Lemma lifecycle_validates status d :
  lifecycle_ok d -> status_ok status d ->
  validate_lifecycle status (VDict d) = Ok tt /\
  parse_fields (VDict d) ["last_stop_requested_at"; "last_stopped_at"] = Ok tt.
Proof.
  intros [H1 (p & Hp & Hm) H3 H4 H5] (s & -> & Hs & Hi).
  split; [|by apply stamps_parse; constructor; [|constructor; [|constructor]]].
  unfold validate_lifecycle. cbv zeta. rewrite H1, Hp. cbn [st_ensure ensure bind in_set hashable]. rewrite Hm.
  assert (E : py_eq (VStr s) (VStr "stopped") = py_eq (VStr p) (VStr "stopped")).
  { apply eq_true_iff_eq. rewrite !py_eq_str, <- Hp, <- Hi. split; congruence. }
  destruct H5 as [(-> & -> & -> & -> & Hn)|(n & r & -> & Hn & -> & Hr & H7 & H8)].
  - cbn [nonneg is_int andb ensure bind]. change (0 <=? 0) with true. rewrite E. cbn [ensure bind].
    rewrite eqb_reflx. change (is_zero (VInt 0)) with true. cbn [is_none andb].
    assert (Hs' : py_eq (VStr p) (VStr "stopped") = false) by (apply not_true_iff_false; rewrite py_eq_str; congruence).
    by rewrite Hs'.
  - rewrite nonneg_int by lia. rewrite E, eqb_reflx. cbn [andb ensure bind].
    assert (Hz : is_zero (VInt n) = false) by (apply Z.eqb_neq; lia).
    rewrite Hz. cbn [in_set hashable bind]. by rewrite Hr, H7, H8.
Qed.

(** ** A source *)

Record source_ok (cfg : MonitorConfig) (source : LocalJsonlSource) (d : dict) : Prop := {
  so_kind : vget d "kind" = VStr "local_jsonl";
  so_path : vget d "path_hash" = path_hash source;
  so_enabled : vget d "enabled" = VBool (src_enabled source);
  so_cursor : nonneg (vget d "cursor_bytes") = true;
  so_prefix : nonneg (vget d "prefix_length") = true;
  so_failures : nonneg (vget d "consecutive_failures") = true;
  so_rotations : nonneg (vget d "rotation_count") = true;
  so_limit : vget d "failure_limit" = VInt (mc_max_consecutive_failures cfg);
  so_identity :
    (vget d "file_identity" = VNone /\ vget d "prefix_length" = VInt 0 /\ vget d "prefix_hash" = VNone) \/
    (is_text (vget d "file_identity") = true /\ is_text (vget d "prefix_hash") = true);
  so_error : is_none (vget d "last_error") || is_string (vget d "last_error") = true;
  so_data : stamp (vget d "last_data_at");
  so_success : stamp (vget d "last_success_at");
}.

Lemma source_image cfg source d : source_ok cfg source d -> source_ok cfg source (dict_image d).
Proof.
  intros [H1 H2 H3 H4 H5 H6 H7 H8 H9 H10 H11 H12]. unfold nonneg in *.
  constructor; unfold nonneg; rewrite ?vget_image, ?is_none_image, ?is_string_image, ?is_text_image, ?is_int_image;
    rewrite ?stamp_image by assumption; try assumption.
  - by rewrite H1.
  - by rewrite H2.
  - by rewrite H3.
  - by rewrite H8.
  - destruct H9 as [(-> & -> & ->)|?]; [left; by split_and! | by right].
Qed.

Lemma source_validates cfg source d :
  src_id source <> "" -> 0 < mc_max_consecutive_failures cfg -> source_ok cfg source d ->
  source_state_ok (src_id source) (VDict d) = true /\
  parse_fields (VDict d) ["last_data_at"; "last_success_at"] = Ok tt.
Proof.
  intros Hid Hlim [H1 H2 H3 H4 H5 H6 H7 H8 H9 H10 H11 H12].
  split; [|by apply stamps_parse; constructor; [|constructor; [|constructor]]].
  unfold source_state_ok. cbn [forallb]. rewrite H1, H2, H3, H4, H5, H6, H7, H8, H10.
  assert (E1 : is_empty (src_id source) = false) by (apply not_true_iff_false; unfold is_empty; by rewrite String.eqb_eq).
  assert (E2 : is_text (path_hash source) = true).
  { unfold path_hash, is_text. apply negb_true_iff, not_true_iff_false. unfold is_empty. rewrite String.eqb_eq. apply stable_hash_not_empty. }
  assert (E3 : positive (VInt (mc_max_consecutive_failures cfg)) = true) by by apply Z.ltb_lt.
  rewrite E1, E2, E3. cbn [negb andb is_bool]. change (py_eq (VStr "local_jsonl") (VStr "local_jsonl")) with true.
  destruct H9 as [(-> & -> & ->)|[Ht Hp]]; [reflexivity|].
  rewrite Ht, Hp, !orb_true_r.
  by destruct (vget d "file_identity"), (vget d "prefix_hash").
Qed.

(** ** The whole state *)

Section State.
Context (cfg : MonitorConfig).

(** What [load_monitor_config] leaves of a configuration. *)
Record config_ok : Prop := {
  cg_runtime : mc_runtime_id cfg <> "";
  cg_hash : mc_config_hash cfg <> "";
  cg_limit : 0 < mc_max_consecutive_failures cfg;
  cg_interval : 0 < mc_interval_seconds cfg;
  cg_canary : 0 < mc_canary_every_cycles cfg;
  cg_ids : Forall (fun source => src_id source <> "") (mc_sources cfg);
  cg_distinct : NoDup (map src_id (mc_sources cfg));
  cg_enabled : existsb src_enabled (mc_sources cfg) = true;
}.

Record sources_ok (h : dict) : Prop := {
  ss_keys : same_keys h (map src_id (mc_sources cfg)) = true;
  ss_wf : dict_wf h;
  ss_sources : Forall (fun source => exists d, vget h (src_id source) = VDict d /\ source_ok cfg source d)
                 (mc_sources cfg);
}.

Definition recent_ok (l : list val) : Prop :=
  Z.of_nat (List.length l) <= MAX_RECENT_OBSERVATION_HASHES /\ forallb is_text l = true.

(** Everything but the agreement of the status with the lifecycle, which a
    cycle suspends. *)
Record core_ok (s : dict) : Prop := {
  k_schema : vget s "schema_version" = VStr STATE_SCHEMA_VERSION;
  k_runtime : vget s "runtime_id" = VStr (mc_runtime_id cfg);
  k_config : vget s "config_hash" = VStr (mc_config_hash cfg);
  k_authority : vget s "authority" = _authority_snapshot \/ vget s "authority" = json_image _authority_snapshot;
  k_started : stamp (vget s "started_at");
  k_heartbeat : stamp (vget s "last_heartbeat_at");
  k_cycle : stamp (vget s "last_cycle_at");
  k_report : stamp (vget s "last_report_at");
  k_cycles : nonneg (vget s "cycle_count") = true;
  k_resumes : nonneg (vget s "resume_count") = true;
  k_process : exists d, vget s "process_health" = VDict d /\ is_bool (vget d "heartbeat_current") = true;
  k_lifecycle : exists d, vget s "lifecycle" = VDict d /\ lifecycle_ok d;
  k_scheduler : exists d, vget s "scheduler" = VDict d /\ scheduler_ok d;
  k_totals : exists d, vget s "totals" = VDict d /\ totals_ok d;
  k_canary : exists d, vget s "canary" = VDict d /\ canary_ok d;
  k_recent : exists l, vget s "recent_observation_hashes" = VList l /\ recent_ok l;
  k_sources : exists h, vget s "source_health" = VDict h /\ sources_ok h;
}.

Definition state_ok (s : dict) : Prop :=
  core_ok s /\ exists d, vget s "lifecycle" = VDict d /\ status_ok (vget s "status") d.

(** *** Reading back *)

Lemma sources_image h : sources_ok h -> sources_ok (dict_image h).
Proof.
  intros [H1 H2 H3]. constructor.
  - by rewrite same_keys_image.
  - unfold dict_wf in *. by rewrite dkeys_image.
  - eapply Forall_impl; [exact H3|]. intros source (d & Hd & Hs). exists (dict_image d).
    rewrite vget_image, Hd. split; [reflexivity | by apply source_image].
Qed.

Lemma image_part (P : dict -> Prop) s key :
  (forall d, P d -> P (dict_image d)) ->
  (exists d, vget s key = VDict d /\ P d) -> exists d, vget (dict_image s) key = VDict d /\ P d.
Proof.
  intros HP (d & Hd & H). exists (dict_image d). rewrite vget_image, Hd. split; [reflexivity | by apply HP].
Qed.

Lemma core_image s : core_ok s -> core_ok (dict_image s).
Proof.
  intros [H1 H2 H3 H4 H5 H6 H7 H8 H9 H10 H11 H12 H13 H14 H15 H16 H17]. unfold nonneg in *.
  constructor; rewrite ?vget_image; unfold nonneg; rewrite ?is_int_image, ?stamp_image by assumption; try assumption;
    rewrite <- ?vget_image.
  - by rewrite vget_image, H1.
  - by rewrite vget_image, H2.
  - by rewrite vget_image, H3.
  - right. rewrite vget_image. destruct H4 as [-> | ->]; [reflexivity | apply json_image_idem].
  - revert H11. apply image_part. intros d H. rewrite vget_image. by destruct (vget d _).
  - revert H12. apply image_part, lifecycle_image.
  - revert H13. apply image_part, scheduler_image.
  - revert H14. apply image_part, totals_image.
  - revert H15. apply image_part, canary_image.
  - destruct H16 as (l & Hl & Hn & Ht). exists (map json_image l). rewrite vget_image, Hl. split; [reflexivity|].
    unfold recent_ok. rewrite length_map. split; [exact Hn|]. rewrite <- Ht. clear.
    induction l as [|x l IH]; simpl; [done|]. by rewrite is_text_image, IH.
  - revert H17. apply image_part, sources_image.
Qed.

Lemma state_image s : state_ok s -> state_ok (dict_image s).
Proof.
  intros [Hc (d & Hd & Hs)]. split; [by apply core_image|]. exists (dict_image d).
  rewrite !vget_image, Hd. split; [reflexivity|]. apply status_image; [|exact Hs].
  destruct (k_lifecycle _ Hc) as (d' & Hd' & H). by assert (d' = d) as -> by congruence.
Qed.

(** *** Validation *)

Lemma sources_entries h : dict_wf h -> sources_ok h ->
  forall kv, In kv h -> exists source d, In source (mc_sources cfg) /\ kv = (src_id source, VDict d) /\ source_ok cfg source d.
Proof.
  intros Hwf [Hk _ Hs] [k v] Hin. unfold same_keys in Hk. bools. rewrite forallb_forall in H.
  assert (Hid : In k (map src_id (mc_sources cfg))).
  { apply mem_In, H. unfold dkeys. by apply (in_map fst) in Hin. }
  apply in_map_iff in Hid as (source & <- & Hsrc). rewrite Forall_forall in Hs.
  destruct (Hs source (proj2 (list_elem_of_In _ _) Hsrc)) as (d & Hd & Hok). exists source, d. split_and!; [exact Hsrc | | exact Hok].
  rewrite (vget_some _ _ _ (In_dget _ _ _ Hwf Hin)) in Hd. by rewrite Hd.
Qed.

Lemma sources_validate s h :
  config_ok -> vget s "source_health" = VDict h -> sources_ok h ->
  _validate_source_state_shape s = Ok tt /\
  iterM (fun kv : string * val =>
    match kv.2 with
    | VDict _ => parse_fields kv.2 ["last_data_at"; "last_success_at"]
    | _ => Raise (P131StateError "invalid_source_state")
    end) h = Ok tt.
Proof.
  intros Hcfg Hh Hok. pose proof (sources_entries h (ss_wf _ Hok) Hok) as Hall.
  assert (Hsrc : forall source, In source (mc_sources cfg) -> src_id source <> "").
  { intros source Hin. pose proof (cg_ids Hcfg) as H. rewrite Forall_forall in H. by apply H, list_elem_of_In. }
  split.
  - unfold _validate_source_state_shape. rewrite Hh.
    assert (Hen : existsb (fun kv => source_enabled kv.2) h = true).
    { pose proof (cg_enabled Hcfg) as He. apply existsb_exists in He as (source & Hin & He).
      pose proof (ss_sources _ Hok) as Hs. rewrite Forall_forall in Hs.
      destruct (Hs source (proj2 (list_elem_of_In _ _) Hin)) as (d & Hd & Hso). apply existsb_exists.
      unfold vget in Hd. destruct (dget h (src_id source)) as [v|] eqn:Eg; [|discriminate Hd]. simpl in Hd. subst v.
      exists (src_id source, VDict d). split; [by apply dget_In|]. unfold source_enabled. cbn [snd dict_or_empty].
      rewrite (so_enabled _ _ _ Hso), He. reflexivity. }
    assert (Hshape : forallb (fun kv => source_state_ok kv.1 kv.2) h = true).
    { apply forallb_forall. intros kv Hin. destruct (Hall kv Hin) as (source & d & Hi & -> & Hso).
      by apply (source_validates cfg); [apply Hsrc | apply Hcfg |]. }
    rewrite Hen, Hshape. by destruct h.
  - apply iterM_ok, Forall_forall. intros kv Hin. apply list_elem_of_In in Hin.
    destruct (Hall kv Hin) as (source & d & Hi & -> & Hso).
    by apply (source_validates cfg _ d (Hsrc _ Hi) (cg_limit Hcfg)).
Qed.

Lemma authority_ok s :
  vget s "authority" = _authority_snapshot \/ vget s "authority" = json_image _authority_snapshot ->
  authority_zero (vget s "authority") = true.
Proof. intros [-> | ->]; vm_compute; reflexivity. Qed.

Lemma boundary_ok s : core_ok s -> _validate_runtime_boundary s = Ok tt.
Proof.
  intros Hc. unfold _validate_runtime_boundary. rewrite authority_ok by apply Hc.
  destruct (k_totals _ Hc) as (t & -> & [_ H1 H2]), (k_canary _ Hc) as (c & -> & Hca).
  cbn [executions_zero]. by rewrite H1, H2, (ca_actions _ Hca).
Qed.

Lemma text_ok s : s <> "" -> is_text (VStr s) = true.
Proof. intros H. apply negb_true_iff, not_true_iff_false. unfold is_empty. by rewrite String.eqb_eq. Qed.

Lemma shape_ok s : config_ok -> state_ok s -> _validate_checkpoint_shape s = Ok tt.
Proof.
  intros Hcfg [Hc (d & Hd & st & Hst & Hm & Hi)]. unfold _validate_checkpoint_shape.
  rewrite (k_runtime _ Hc), (k_config _ Hc), !text_ok by apply Hcfg.
  rewrite Hst. cbn [andb st_ensure ensure bind in_set hashable]. rewrite Hm. cbn [ensure bind].
  destruct (k_lifecycle _ Hc) as (d' & Hd' & Hl). assert (d' = d) as -> by congruence.
  unfold _validate_lifecycle_state. rewrite Hst, Hd.
  rewrite (proj1 (lifecycle_validates (VStr st) d Hl (ex_intro _ st (conj eq_refl (conj Hm Hi))))). cbn [bind iterM].
  rewrite (k_cycles _ Hc), (k_resumes _ Hc). cbn [st_ensure ensure bind].
  destruct (k_process _ Hc) as (p & -> & ->). cbn [ensure bind].
  destruct (k_scheduler _ Hc) as (sc & -> & Hsc). rewrite (proj1 (scheduler_validates sc Hsc)). cbn [bind].
  destruct (k_totals _ Hc) as (t & -> & Ht). pose proof (to_counts _ Ht) as Hcounts. unfold total_keys in Hcounts.
  rewrite !Forall_cons in Hcounts. destruct Hcounts as (E1 & E2 & E3 & _). rewrite E1, E2, E3. cbn [ensure bind].
  destruct (k_recent _ Hc) as (l & -> & Hn & Htxt). rewrite (proj2 (Z.leb_le _ _) Hn), Htxt. cbn [andb ensure bind].
  destruct (k_canary _ Hc) as (ca & -> & Hca). by apply canary_validates.
Qed.

Lemma timestamps_ok s : config_ok -> core_ok s -> _validate_state_timestamps s = Ok tt.
Proof.
  intros Hcfg Hc. unfold _validate_state_timestamps.
  rewrite stamps_parse by (repeat (constructor; [apply Hc|]); constructor). cbn [bind].
  destruct (k_canary _ Hc) as (ca & -> & Hca). rewrite (proj2 (canary_validates ca Hca)). cbn [bind].
  destruct (k_scheduler _ Hc) as (sc & -> & Hsc). rewrite (proj2 (scheduler_validates sc Hsc)). cbn [bind].
  destruct (k_lifecycle _ Hc) as (d & -> & [_ _ H3 H4 _]).
  rewrite stamps_parse by (constructor; [exact H3|]; constructor; [exact H4|]; constructor). cbn [bind].
  destruct (k_sources _ Hc) as (h & Hh & Hs). rewrite Hh. by apply (sources_validate s).
Qed.

Lemma state_validates s : config_ok -> state_ok s -> validate_monitor_state s = Ok tt.
Proof.
  intros Hcfg Hs. unfold validate_monitor_state. rewrite (boundary_ok s (proj1 Hs)). cbn [bind].
  rewrite (shape_ok s Hcfg Hs). cbn [bind]. destruct (k_sources _ (proj1 Hs)) as (h & Hh & Hok).
  rewrite (proj1 (sources_validate s h Hcfg Hh Hok)). cbn [bind]. by apply timestamps_ok; [|apply Hs].
Qed.

Lemma configured_ok s : core_ok s -> _validate_configured_sources s (mc_sources cfg) = Ok tt.
Proof.
  intros Hc. unfold _validate_configured_sources. destruct (k_sources _ Hc) as (h & -> & Hs).
  rewrite (ss_keys _ Hs). cbn [st_ensure ensure bind].
  apply ensure_run, forallb_forall. intros source Hin. pose proof (ss_sources _ Hs) as H. rewrite Forall_forall in H.
  destruct (H source (proj2 (list_elem_of_In _ _) Hin)) as (d & Hd & Hso). unfold configured_source_ok.
  rewrite Hd, (so_enabled _ _ _ Hso), (so_kind _ _ _ Hso), (so_path _ _ _ Hso). unfold path_hash.
  rewrite !(proj2 (py_eq_str _ _) eq_refl). by destruct (src_enabled source).
Qed.
End State.
