(* ===== verification/P131Config.v ===== *)
(** * The monitor's configuration

    Models [load_monitor_config] of app/services/p131_always_on_monitor.py:
    the document it reads ([None]: not readable, not JSON), the refusals in
    their order and the configuration it makes.  A resolved path is the list
    of its components below the root; [resolve] stands for the path a text
    names relative to the configuration's directory after
    [Path.expanduser] and [Path.resolve], which ask the file system, and
    [base] is that directory. *)

From S2P Require Import Prelude PyValue Sha Json JsonFile PyTime P121Authority PyChecks P131State P131Monitor P131MonitorInv.

Definition CONFIG_SCHEMA_VERSION : string := "p131.monitor_config.v1".
Definition MAX_REPORT_FILES : Z := 10000.
Definition MAX_REPORT_DIR_BYTES : Z := 1073741824.
Definition MAX_MIN_ARTIFACT_FREE_BYTES : Z := 1099511627776.

Definition FORBIDDEN_FIELD_TOKENS : list string :=
  ["auth"; "credential"; "header"; "password"; "secret"; "token"; "command"; "subprocess"; "mutation"].

Definition CONFIG_FIELDS : list string :=
  ["schema_version"; "runtime_id"; "interval_seconds"; "heartbeat_timeout_seconds"; "data_stale_after_seconds";
   "daily_report_interval_seconds"; "canary_every_cycles"; "max_consecutive_failures"; "max_bytes_per_cycle";
   "max_records_per_cycle"; "max_line_bytes"; "max_report_files"; "max_report_dir_bytes";
   "min_artifact_free_bytes"; "state_path"; "report_dir"; "lease_path"; "termination_receipt_path";
   "allowed_data_roots"; "allowed_artifact_roots"; "sources"].

Definition SOURCE_FIELDS : list string := ["source_id"; "kind"; "path"; "enabled"].

Definition P131ConfigError (msg : string) : exn := Exn "P131ConfigError" msg.
Definition cf_ensure (b : bool) (msg : string) : res unit := ensure b (P131ConfigError msg).

(** [_reject_forbidden_fields]: does it raise? *)
Fixpoint has_forbidden_field (v : val) : bool :=
  match v with
  | VDict d => existsb (fun kv => contains_any FORBIDDEN_FIELD_TOKENS (lower kv.1) || has_forbidden_field kv.2) d
  | VList l | VTuple l => existsb has_forbidden_field l
  | _ => false
  end.

Definition _required_text (d : dict) (key : string) : res string :=
  match vget d key with
  | VStr s => if is_empty (strip s) then Raise (P131ConfigError ("missing_" +:+ key)) else Ok (strip s)
  | _ => Raise (P131ConfigError ("missing_" +:+ key))
  end.

Definition positive_or (v : val) (error : string) : res Z :=
  match v with
  | VInt z => if 0 <? z then Ok z else Raise (P131ConfigError error)
  | _ => Raise (P131ConfigError error)
  end.

Definition _positive_int (d : dict) (key error : string) : res Z := positive_or (vget d key) error.

Definition _optional_positive_int (d : dict) (key : string) (dflt : Z) : res Z :=
  positive_or (vget_or d key (VInt dflt)) (key +:+ "_must_be_positive").

Definition _optional_bounded_positive_int (d : dict) (key : string) (dflt maximum : Z) : res Z :=
  let! result := _optional_positive_int d key dflt in
  let! _ := cf_ensure (result <=? maximum) (key +:+ "_exceeds_maximum") in
  Ok result.

(** ** Paths *)

Abbreviation path := (list string).

Definition path_str (p : path) : string := "/" +:+ str_join "/" p.

(** [path.relative_to(root)] *)
Fixpoint relative_to (p root : path) {struct root} : option path :=
  match root, p with
  | [], _ => Some p
  | r :: root, c :: p => if r =s c then relative_to p root else None
  | _ :: _, [] => None
  end.

Definition _is_relative_to (p root : path) : bool :=
  match relative_to p root with Some _ => true | None => false end.

(** [max(roots, key=lambda root: len(root.parts))] of a non-empty list: the
    first of the longest. *)
Fixpoint longest (best : path) (roots : list path) : path :=
  match roots with
  | [] => best
  | root :: roots =>
      longest (if (List.length best <? List.length root)%nat then root else best) roots
  end.

(** [path.with_name(name)] *)
Definition with_name (p : path) (name : string) : res path :=
  match p with
  | [] => Raise (Exn "ValueError" "PosixPath('/') has an empty name")
  | _ => Ok (removelast p ++ [name])
  end.

Section Load.
Context (resolve : string -> path) (base : path).

Definition _resolve_path (v : val) : res path :=
  match v with
  | VStr s => if is_empty (strip s) then Raise (P131ConfigError "invalid_path") else Ok (resolve s)
  | _ => Raise (P131ConfigError "invalid_path")
  end.

(** A non-empty sequence of paths. *)
Definition resolve_roots (v : val) (error : string) : res (list path) :=
  match as_seq v with
  | Some (x :: l) => mapM _resolve_path (x :: l)
  | _ => Raise (P131ConfigError error)
  end.

(** ** Sources *)

(** A loaded source: what the monitor keeps of it, its path, the root it is
    allowed under and its path below that root. *)
Record loaded_source := {
  ld_source : LocalJsonlSource;
  ld_path : path;
  ld_allowed_root : path;
  ld_relative_path : path;
}.

Definition load_source (roots : list path) (seen_ids : list string) (item : val) : res loaded_source :=
  match item with
  | VDict item =>
      let! _ := cf_ensure (forallb (fun k => mem k SOURCE_FIELDS) (dkeys item)) "unknown_source_configuration_field" in
      let! _ := cf_ensure (py_eq (vget item "kind") (VStr "local_jsonl")) "unsupported_source_kind" in
      let! source_id := _required_text item "source_id" in
      let! _ := cf_ensure (negb (mem source_id seen_ids)) "duplicate_source_id" in
      let! source_path := _resolve_path (vget item "path") in
      let matching_roots := List.filter (_is_relative_to source_path) roots in
      match matching_roots with
      | [] => Raise (P131ConfigError "source_outside_allowed_data_roots")
      | root :: matching_roots =>
          match vget_or item "enabled" (VBool true) with
          | VBool enabled =>
              let allowed_root := longest root matching_roots in
              Ok {| ld_source := {| src_id := source_id; src_path := path_str source_path; src_enabled := enabled |};
                    ld_path := source_path; ld_allowed_root := allowed_root;
                    ld_relative_path := default [] (relative_to source_path allowed_root) |}
          | _ => Raise (P131ConfigError "invalid_source_enabled_flag")
          end
      end
  | _ => Raise (P131ConfigError "invalid_source_configuration")
  end.

(** [seen_ids] are the identifiers of the sources loaded so far. *)
Fixpoint load_sources (roots : list path) (items : list val) (loaded : list loaded_source) : res (list loaded_source) :=
  match items with
  | [] => Ok loaded
  | item :: items =>
      let! source := load_source roots (map (fun s => src_id (ld_source s)) loaded) item in
      load_sources roots items (loaded ++ [source])
  end.

(** The first loop over the sources: only their kind. *)
Definition source_kinds_ok (raw_sources : val) : bool :=
  match as_seq raw_sources with
  | Some l => forallb (fun v => match v with
                                | VDict source => py_eq (vget source "kind") (VStr "local_jsonl")
                                | _ => true
                                end) l
  | None => true
  end.

(** ** The configuration *)

Record loaded_config := {
  lc_config : MonitorConfig;
  lc_sources : list loaded_source;
  lc_state_path : path;
  lc_report_dir : path;
  lc_lease_path : path;
  lc_receipt_path : path;
  lc_data_roots : list path;
  lc_artifact_roots : list path;
}.

(** The numbers and the runtime identifier, in the order they are checked. *)
Definition load_numbers (raw : dict) : res (list LocalJsonlSource -> MonitorConfig) :=
  let! interval := _positive_int raw "interval_seconds" "interval_must_be_positive" in
  let! heartbeat_timeout := _positive_int raw "heartbeat_timeout_seconds" "heartbeat_timeout_must_be_positive" in
  let! _ := cf_ensure (interval <=? heartbeat_timeout) "heartbeat_timeout_shorter_than_interval" in
  let! stale_after := _positive_int raw "data_stale_after_seconds" "data_stale_after_must_be_positive" in
  let! report_interval :=
    _positive_int raw "daily_report_interval_seconds" "daily_report_interval_must_be_positive" in
  let! _ := cf_ensure (interval <=? stale_after) "data_stale_after_shorter_than_interval" in
  let! _ := cf_ensure (interval <=? report_interval) "report_interval_shorter_than_interval" in
  let! canary_every := _positive_int raw "canary_every_cycles" "canary_interval_must_be_positive" in
  let! max_failures := _positive_int raw "max_consecutive_failures" "max_consecutive_failures_must_be_positive" in
  let! max_bytes := _optional_positive_int raw "max_bytes_per_cycle" 1048576 in
  let! max_records := _optional_positive_int raw "max_records_per_cycle" 10000 in
  let! max_line_bytes := _optional_positive_int raw "max_line_bytes" 65536 in
  let! max_report_files := _optional_bounded_positive_int raw "max_report_files" 32 MAX_REPORT_FILES in
  let! max_report_dir_bytes :=
    _optional_bounded_positive_int raw "max_report_dir_bytes" 10485760 MAX_REPORT_DIR_BYTES in
  let! min_artifact_free_bytes :=
    _optional_bounded_positive_int raw "min_artifact_free_bytes" 1048576 MAX_MIN_ARTIFACT_FREE_BYTES in
  let! _ := cf_ensure (max_line_bytes <=? max_bytes) "max_line_bytes_exceeds_cycle_budget" in
  let! runtime_id := _required_text raw "runtime_id" in
  Ok (fun sources => {|
    mc_config_hash := stable_hash (VDict raw); mc_runtime_id := runtime_id; mc_interval_seconds := interval;
    mc_heartbeat_timeout_seconds := heartbeat_timeout; mc_data_stale_after_seconds := stale_after;
    mc_daily_report_interval_seconds := report_interval; mc_canary_every_cycles := canary_every;
    mc_max_consecutive_failures := max_failures; mc_max_bytes_per_cycle := max_bytes;
    mc_max_records_per_cycle := max_records; mc_max_line_bytes := max_line_bytes;
    mc_max_report_files := max_report_files; mc_max_report_dir_bytes := max_report_dir_bytes;
    mc_min_artifact_free_bytes := min_artifact_free_bytes; mc_sources := sources |}).

Definition load_monitor_config (raw : option val) : res loaded_config :=
  match raw with
  | None => Raise (P131ConfigError "invalid_configuration_file")
  | Some (VDict raw) =>
      let! _ := cf_ensure (py_eq (vget raw "schema_version") (VStr CONFIG_SCHEMA_VERSION))
                  "invalid_configuration_schema" in
      let! _ := cf_ensure (source_kinds_ok (vget raw "sources")) "unsupported_source_kind" in
      let! _ := cf_ensure (negb (has_forbidden_field (VDict raw))) "forbidden_configuration_field" in
      let! _ := cf_ensure (forallb (fun k => mem k CONFIG_FIELDS) (dkeys raw)) "unknown_configuration_field" in
      let! make := load_numbers raw in
      let! roots := resolve_roots (vget raw "allowed_data_roots") "allowed_data_roots_required" in
      let! items := match as_seq (vget raw "sources") with
                    | Some (x :: l) => Ok (x :: l)
                    | _ => Raise (P131ConfigError "sources_required")
                    end in
      let! sources := load_sources roots items [] in
      let! _ := cf_ensure (existsb (fun s => src_enabled (ld_source s)) sources) "enabled_source_required" in
      let! artifact_roots :=
        resolve_roots (vget_or raw "allowed_artifact_roots" (VList [VStr (path_str base)]))
          "allowed_artifact_roots_required" in
      let! state_path := _resolve_path (vget raw "state_path") in
      let! report_dir := _resolve_path (vget raw "report_dir") in
      let! lease_path := _resolve_path (vget raw "lease_path") in
      let! receipt_path :=
        match vget raw "termination_receipt_path" with
        | VNone => with_name state_path "termination-receipt.json"
        | v => _resolve_path v
        end in
      let! _ := cf_ensure (forallb (fun p => existsb (_is_relative_to p) artifact_roots)
                             [state_path; report_dir; lease_path; receipt_path]) "artifact_path_outside_allowed_roots" in
      Ok {| lc_config := make (map ld_source sources); lc_sources := sources; lc_state_path := state_path;
            lc_report_dir := report_dir; lc_lease_path := lease_path; lc_receipt_path := receipt_path;
            lc_data_roots := roots; lc_artifact_roots := artifact_roots |}
  | Some _ => Raise (P131ConfigError "invalid_configuration_shape")
  end.
End Load.

(** ** Paths below roots *)

Lemma relative_to_app p root rest : relative_to p root = Some rest <-> p = root ++ rest.
Proof.
  revert p. induction root as [|r root IH]; intros p; cbn [relative_to app].
  { split; [by intros [= ->] | by intros ->]. }
  destruct p as [|c p]; [split; discriminate|]. destruct (eqs_spec r c) as [->|Hn].
  - rewrite IH. split; [by intros -> | by intros [= ->]].
  - split; [discriminate | intros [= ? _]; congruence].
Qed.

Lemma longest_spec best roots :
  In (longest best roots) (best :: roots) /\
  Forall (fun root => (List.length root <= List.length (longest best roots))%nat) (best :: roots).
Proof.
  revert best. induction roots as [|root roots IH]; intros best; cbn [longest].
  { split; [by left | by constructor]. }
  assert (Hcase : forall b, In b [best; root] -> (List.length best <= List.length b)%nat -> (List.length root <= List.length b)%nat ->
    In (longest b roots) (best :: root :: roots) /\
    Forall (fun r => (List.length r <= List.length (longest b roots))%nat) (best :: root :: roots)).
  { intros b Hb H1 H2. destruct (IH b) as [Hin Hall]. apply Forall_cons in Hall as [Hle Hall]. split.
    - destruct Hin as [<-|Hin]; [destruct Hb as [<-|[<-|[]]]; simpl; auto | simpl; auto].
    - repeat (constructor; [lia|]). exact Hall. }
  destruct (Nat.ltb_spec (List.length best) (List.length root)); apply Hcase; simpl; auto; lia.
Qed.

(** What a loaded source is confined to. *)
Record source_confined (roots : list path) (s : loaded_source) : Prop := {
  sf_root : In (ld_allowed_root s) roots;
  sf_path : ld_path s = ld_allowed_root s ++ ld_relative_path s;
  sf_longest : forall root, In root roots -> _is_relative_to (ld_path s) root = true ->
    (List.length root <= List.length (ld_allowed_root s))%nat;
  sf_text : src_path (ld_source s) = path_str (ld_path s);
  sf_id : src_id (ld_source s) <> "";
}.

Lemma config_text_ok d key s : _required_text d key = Ok s -> s <> "".
Proof.
  unfold _required_text. destruct (vget d key) as [| | | |t| | |]; try discriminate.
  destruct (is_empty (strip t)) eqn:E; [discriminate|]. intros [= <-] H. by rewrite H in E.
Qed.

Lemma load_source_ok resolve roots seen item s :
  load_source resolve roots seen item = Ok s -> source_confined roots s /\ ~ In (src_id (ld_source s)) seen.
Proof.
  unfold load_source. destruct item as [| | | | | | |d]; try discriminate. intros H.
  apply bind_ok in H as (? & _ & H). apply bind_ok in H as (? & _ & H). apply bind_ok in H as (id & Hid & H).
  apply bind_ok in H as (? & Hseen & H). apply bind_ok in H as (p & _ & H).
  apply ensure_ok, negb_true_iff, mem_not_In in Hseen. cbv zeta in H.
  destruct (List.filter (_is_relative_to p) roots) as [|root matching] eqn:Ef; [discriminate H|].
  destruct (vget_or d "enabled" (VBool true)) as [|b| | | | | |]; try discriminate H. injection H as <-.
  destruct (longest_spec root matching) as [Hin Hall]. rewrite <- Ef in Hin, Hall.
  pose proof Hin as Hin'. apply filter_In in Hin' as [Hroot Hrel]. split; [|exact Hseen].
  constructor; cbn [ld_source ld_path ld_allowed_root ld_relative_path src_path src_id]; [exact Hroot | | | reflexivity | by eapply config_text_ok].
  - unfold _is_relative_to in Hrel. destruct (relative_to p (longest root matching)) as [rest|] eqn:Er; [|discriminate Hrel].
    by apply relative_to_app.
  - intros r Hr Hrel'. rewrite Forall_forall in Hall. apply Hall, list_elem_of_In, filter_In. auto.
Qed.

Lemma load_sources_ok resolve roots items loaded sources :
  load_sources resolve roots items loaded = Ok sources ->
  Forall (source_confined roots) loaded -> NoDup (map (fun s => src_id (ld_source s)) loaded) ->
  Forall (source_confined roots) sources /\ NoDup (map (fun s => src_id (ld_source s)) sources).
Proof.
  revert loaded. induction items as [|item items IH]; intros loaded H Hall Hnd; cbn [load_sources] in H.
  { injection H as <-. auto. }
  apply bind_ok in H as (s & Hs & H). apply load_source_ok in Hs as [Hs Hnew]. apply (IH _ H).
  - apply Forall_app. split; [exact Hall | by constructor].
  - rewrite map_app. apply NoDup_app. split_and!; [exact Hnd | | apply NoDup_singleton].
    intros id Hid Hid'. apply list_elem_of_singleton in Hid' as ->. by apply Hnew, list_elem_of_In.
Qed.

(** ** What loading promises *)

Lemma positive_or_ok v error z : positive_or v error = Ok z -> 0 < z.
Proof. unfold positive_or. destruct v; try discriminate. destruct (Z.ltb_spec 0 z0); [by intros [= <-] | discriminate]. Qed.

Lemma bounded_ok d key dflt maximum z : _optional_bounded_positive_int d key dflt maximum = Ok z -> 0 < z <= maximum.
Proof.
  unfold _optional_bounded_positive_int. intros H. apply bind_ok in H as (r & Hr & H).
  apply bind_ok in H as (? & Hm & H). injection H as <-. apply ensure_ok, Z.leb_le in Hm.
  split; [by eapply positive_or_ok | exact Hm].
Qed.

(** The relations between the numbers of a configuration. *)
Record numbers_ok (cfg : MonitorConfig) : Prop := {
  nb_interval : 0 < mc_interval_seconds cfg;
  nb_heartbeat : mc_interval_seconds cfg <= mc_heartbeat_timeout_seconds cfg;
  nb_stale : mc_interval_seconds cfg <= mc_data_stale_after_seconds cfg;
  nb_report : mc_interval_seconds cfg <= mc_daily_report_interval_seconds cfg;
  nb_canary : 0 < mc_canary_every_cycles cfg;
  nb_failures : 0 < mc_max_consecutive_failures cfg;
  nb_records : 0 < mc_max_records_per_cycle cfg;
  nb_line : 0 < mc_max_line_bytes cfg <= mc_max_bytes_per_cycle cfg;
  nb_files : 0 < mc_max_report_files cfg <= MAX_REPORT_FILES;
  nb_dir : 0 < mc_max_report_dir_bytes cfg <= MAX_REPORT_DIR_BYTES;
  nb_free : 0 < mc_min_artifact_free_bytes cfg <= MAX_MIN_ARTIFACT_FREE_BYTES;
}.

Lemma load_numbers_ok raw make sources :
  load_numbers raw = Ok make ->
  numbers_ok (make sources) /\ mc_runtime_id (make sources) <> "" /\
  mc_config_hash (make sources) = stable_hash (VDict raw) /\ mc_sources (make sources) = sources.
Proof.
  intros H. unfold load_numbers in H.
  repeat match type of H with bind ?m _ = Ok _ => let x := fresh "x" in let E := fresh "E" in apply bind_ok in H as (x & E & H) end.
  injection H as <-.
  repeat match goal with
  | E : _positive_int _ _ _ = Ok _ |- _ => apply positive_or_ok in E
  | E : _optional_positive_int _ _ _ = Ok _ |- _ => apply positive_or_ok in E
  | E : _optional_bounded_positive_int _ _ _ _ = Ok _ |- _ => apply bounded_ok in E
  | E : cf_ensure _ _ = Ok _ |- _ => apply ensure_ok, Z.leb_le in E
  | E : _required_text _ _ = Ok _ |- _ => apply config_text_ok in E
  end.
  split; [constructor; simpl; lia|]. auto.
Qed.

(** A configuration that loads is one the monitor can run on.  It meets
    everything the checkpoint invariant needs, its numbers are positive and
    ordered, no field name at any depth contains a forbidden token, every
    source lies below an allowed data root, the longest of those it matches,
    and every artifact the monitor writes lies below an allowed artifact
    root. *)
Theorem loaded_config_is_confined resolve base raw lc :
  load_monitor_config resolve base raw = Ok lc ->
  config_ok (lc_config lc) /\ numbers_ok (lc_config lc) /\
  (exists v, raw = Some v /\ has_forbidden_field v = false) /\
  mc_sources (lc_config lc) = map ld_source (lc_sources lc) /\
  Forall (source_confined (lc_data_roots lc)) (lc_sources lc) /\
  Forall (fun p => exists root rest, In root (lc_artifact_roots lc) /\ p = root ++ rest)
    [lc_state_path lc; lc_report_dir lc; lc_lease_path lc; lc_receipt_path lc].
Proof.
  destruct raw as [v|]; [|discriminate]. destruct v as [| | | | | | |raw]; try discriminate. intros H.
  cbn [load_monitor_config] in H.
  apply bind_ok in H as (? & _ & H). apply bind_ok in H as (? & _ & H). apply bind_ok in H as (? & Hforbidden & H).
  apply bind_ok in H as (? & _ & H). apply bind_ok in H as (make & Hmake & H). apply bind_ok in H as (roots & _ & H).
  apply bind_ok in H as (items & _ & H). apply bind_ok in H as (sources & Hsources & H).
  apply bind_ok in H as (? & Henabled & H). apply bind_ok in H as (artifacts & _ & H).
  apply bind_ok in H as (state & _ & H). apply bind_ok in H as (report & _ & H). apply bind_ok in H as (lease & _ & H).
  apply bind_ok in H as (receipt & _ & H). apply bind_ok in H as (? & Hartifacts & H). injection H as <-.
  cbn [lc_config lc_sources lc_state_path lc_report_dir lc_lease_path lc_receipt_path lc_data_roots lc_artifact_roots].
  apply ensure_ok in Hforbidden, Henabled, Hartifacts. apply negb_true_iff in Hforbidden.
  destruct (load_numbers_ok raw make (map ld_source sources) Hmake) as (Hn & Hid & Hhash & Hsrc).
  apply load_sources_ok in Hsources as [Hall Hnd]; [|constructor | constructor].
  split_and!; try assumption; [| eauto |].
  - destruct Hn. constructor; try assumption.
    + rewrite Hhash. apply stable_hash_not_empty.
    + rewrite Hsrc, Forall_map. eapply Forall_impl; [exact Hall|]. intros s Hs. apply Hs.
    + by rewrite Hsrc, map_map.
    + rewrite Hsrc. rewrite existsb_exists in *. destruct Henabled as (s & Hin & Hs). exists (ld_source s).
      split; [by apply in_map | exact Hs].
  - apply Forall_forall. intros p Hp. rewrite forallb_forall in Hartifacts. apply list_elem_of_In in Hp.
    specialize (Hartifacts p Hp). apply existsb_exists in Hartifacts as (root & Hroot & Hrel).
    unfold _is_relative_to in Hrel. destruct (relative_to p root) as [rest|] eqn:E; [|discriminate Hrel].
    exists root, rest. split; [exact Hroot | by apply relative_to_app].
Qed.
