(* ===== verification/P131MonitorOps.v ===== *)
(** * The monitor's operations keep the invariant

    Each operation of [AlwaysOnMonitor] returns on a state that satisfies the
    invariant, and what it returns satisfies it; the loop that reads a source
    ends with the fuel it is given. *)

From S2P Require Import Prelude PyValue Sha Json JsonFile PyTime P121Authority PyChecks P131State P131Monitor P131MonitorInv.

#[local] Opaque stable_hash utc_timestamp read_utc.

(** ** Reading lines *)

Lemma readline_split limit s : let '(line, rest) := readline limit s in s = line +:+ rest.
Proof.
  revert limit. induction s as [|c s IH]; intros limit; cbn [readline]; [done|].
  destruct (limit <=? 0); [done|]. destruct (is_newline c); [done|].
  specialize (IH (limit - 1)). destruct (readline (limit - 1) s) as [line rest]. by rewrite IH.
Qed.

Lemma readline_shorter limit s line rest :
  readline limit s = (line, rest) -> is_empty line = false -> (String.length rest < String.length s)%nat.
Proof.
  intros H He. pose proof (readline_split limit s) as Hs. rewrite H in Hs. rewrite Hs, length_string_app.
  destruct line; [discriminate He | simpl; lia].
Qed.

Lemma readline_longest limit s line rest :
  0 <= limit -> readline limit s = (line, rest) -> slen line <= limit.
Proof.
  revert limit line rest. induction s as [|c s IH]; intros limit line rest Hl; cbn [readline].
  - intros [= <- <-]. exact Hl.
  - destruct (Z.leb_spec limit 0) as [|Hpos]; [by intros [= <- <-]|].
    destruct (is_newline c); [intros [= <- <-]; unfold slen; simpl; lia|].
    destruct (readline (limit - 1) s) as [l r] eqn:E. intros [= <- <-].
    specialize (IH (limit - 1) l r ltac:(lia) E). unfold slen in *. cbn [String.length]. lia.
Qed.

Section Loop.
Context (cfg : MonitorConfig) (decode : string -> option val) (source_id identity : string).

(** What one more line leaves, at any point where the loop takes one. *)
Definition takes (t t' : tail) : Prop :=
  exists line rest, readline (mc_max_line_bytes cfg + 1) (t_rest t) = (line, rest) /\
    is_empty line = false /\ slen line <= mc_max_line_bytes cfg /\ ends_line line = true /\
    t_bytes t + slen line <= mc_max_bytes_per_cycle cfg /\ t_records t < mc_max_records_per_cycle cfg /\
    t' = take_line decode source_id identity line rest t.

(** Nothing more can be taken: the end, a partial line or the budget. *)
Definition blocked (t : tail) : Prop :=
  let line := (readline (mc_max_line_bytes cfg + 1) (t_rest t)).1 in
  line = "" \/ ends_line line = false \/ mc_max_bytes_per_cycle cfg < t_bytes t + slen line \/
  mc_max_records_per_cycle cfg <= t_records t.

(** The next line is too long. *)
Definition overlong (t : tail) : Prop :=
  mc_max_line_bytes cfg < slen (readline (mc_max_line_bytes cfg + 1) (t_rest t)).1.

(** The loop ends when the fuel exceeds what is left to read: where the next
    line is blocked or too long, in a state that any property kept by its
    steps has. *)
Lemma read_lines_ind (P Q : tail -> Prop) fuel t :
  (forall t t', P t -> takes t t' -> P t') ->
  (forall t, P t -> blocked t -> Q t) -> (forall t, P t -> overlong t -> Q (fail_line t)) ->
  (String.length (t_rest t) < fuel)%nat -> P t ->
  exists t', read_lines cfg decode fuel source_id identity t = Some t' /\ Q t'.
Proof.
  intros Htake Hend Hfail. revert t. induction fuel as [|fuel IH]; intros t Hlen Ht; [lia|]. cbn [read_lines].
  pose proof (Hend t Ht) as Hend'. pose proof (Hfail t Ht) as Hfail'. unfold blocked, overlong in Hend', Hfail'.
  destruct (readline (mc_max_line_bytes cfg + 1) (t_rest t)) as [line rest] eqn:E. cbn [fst] in Hend', Hfail'.
  destruct (is_empty line) eqn:He; [exists t; split; [done|]; apply Hend'; left; by apply String.eqb_eq|].
  destruct (Z.ltb_spec (mc_max_line_bytes cfg) (slen line)) as [|Hlong]; [exists (fail_line t); auto|].
  destruct (_ || _) eqn:Hb.
  { exists t. split; [done|]. apply Hend'. apply orb_true_iff in Hb as [?%Z.ltb_lt|?%Z.leb_le]; auto. }
  bools. destruct (ends_line line) eqn:Hn; cbn [negb]; [|exists t; split; [done|]; apply Hend'; auto].
  pose proof (readline_shorter _ _ _ _ E He) as Hr. apply IH.
  - assert (Hrest : t_rest (take_line decode source_id identity line rest t) = rest).
    { unfold take_line. destruct (decode line) as [[]|]; try reflexivity. by destruct (mem _ _). }
    rewrite Hrest. lia.
  - eapply Htake; [exact Ht|]. exists line, rest. split_and!; try assumption; reflexivity || lia.
Qed.

(** ** What a poll reads *)

(** [consumed] has been read, and [fresh] are the observations it added. *)
Record read_since (t0 t : tail) (consumed : string) (fresh : list string) : Prop := {
  rd_split : t_rest t0 = consumed +:+ t_rest t;
  rd_cursor : t_cursor t = t_cursor t0 + slen consumed;
  rd_bytes : t_bytes t = t_bytes t0 + slen consumed;
  rd_whole : consumed = "" \/ ends_line consumed = true;
  rd_recent : t_recent t = t_recent t0 ++ map VStr fresh;
  rd_distinct : NoDup fresh;
  rd_new : Forall (fun h => ~ In h (map py_str (t_recent t0))) fresh;
  rd_accepted : t_accepted t = t_accepted t0 + Z.of_nat (List.length fresh);
  rd_duplicates : t_duplicates t0 <= t_duplicates t;
  rd_failures : t_failures t0 <= t_failures t;
  rd_counts : (t_accepted t - t_accepted t0) + (t_duplicates t - t_duplicates t0) + (t_failures t - t_failures t0) =
              t_records t - t_records t0;
}.

Lemma read_nothing t : read_since t t "" [].
Proof.
  assert (E : slen "" = 0) by reflexivity.
  constructor; simpl; rewrite ?E, ?app_nil_r; first [done | lia | by left | constructor].
Qed.

Lemma ends_line_app a b : ends_line b = true -> ends_line (a +:+ b) = true.
Proof.
  intros Hb. assert (Hne : b <> "") by (by intros ->). induction a as [|c a IH]; [done|].
  change (String c a +:+ b) with (String c (a +:+ b)). cbn [ends_line]. rewrite IH.
  destruct (a +:+ b) eqn:E; [|done]. destruct a; [exfalso; exact (Hne E) | discriminate E].
Qed.

Lemma py_str_map l : map py_str (map VStr l) = l.
Proof. induction l; simpl; [done|]. by rewrite IHl. Qed.

Lemma slen_app a b : slen (a +:+ b) = slen a + slen b.
Proof. unfold slen. rewrite length_string_app. lia. Qed.

Lemma read_more t0 t t' consumed fresh :
  read_since t0 t consumed fresh -> takes t t' -> exists consumed fresh, read_since t0 t' consumed fresh.
Proof.
  intros [H1 H2 H3 H4 H5 H6 H7 H8 H9 H10 H11] (line & rest & Hr & _ & _ & Hnl & _ & _ & ->).
  pose proof (readline_split (mc_max_line_bytes cfg + 1) (t_rest t)) as Hs. rewrite Hr in Hs.
  assert (Hsplit : t_rest t0 = (consumed +:+ line) +:+ rest) by (by rewrite H1, Hs, string_app_assoc).
  assert (Hwhole : consumed +:+ line = "" \/ ends_line (consumed +:+ line) = true) by (right; by apply ends_line_app).
  assert (Hsame : forall d f, 0 <= d -> 0 <= f -> d + f = 1 -> read_since t0
            {| t_cursor := t_cursor t + slen line; t_rest := rest; t_bytes := t_bytes t + slen line;
               t_records := t_records t + 1; t_recent := t_recent t; t_accepted := t_accepted t + 0;
               t_duplicates := t_duplicates t + d; t_failures := t_failures t + f |} (consumed +:+ line) fresh).
  { intros d f Hd Hf Hdf. constructor; cbn; rewrite ?slen_app; try assumption; try lia. }
  unfold take_line. destruct (decode line) as [[| | | | | | |value]|]; try (eexists _, _; apply Hsame; lia).
  destruct (mem _ _) eqn:Hm; [eexists _, _; apply Hsame; lia|].
  set (h := _observation_identity source_id value identity (t_cursor t)) in *.
  rewrite H5, map_app, py_str_map in Hm. apply mem_not_In in Hm. rewrite in_app_iff in Hm.
  exists (consumed +:+ line), (fresh ++ [h]). constructor; cbn; rewrite ?slen_app; try assumption; try lia.
  - by rewrite H5, map_app, <- app_assoc.
  - apply NoDup_app. split_and!; [exact H6 | | apply NoDup_singleton].
    intros x Hx Hh. apply list_elem_of_singleton in Hh as ->. apply list_elem_of_In in Hx. tauto.
  - apply Forall_app. split; [exact H7|]. constructor; [tauto | constructor].
  - rewrite length_app. simpl. lia.
Qed.
End Loop.

Lemma length_substring n m s : (n + m <= String.length s)%nat -> String.length (String.substring n m s) = m.
Proof.
  revert n m. induction s as [|c s IH]; intros n m H; [simpl in *; destruct n, m; simpl in *; lia|].
  destruct n as [|n]; cbn [String.substring].
  - destruct m as [|m]; [done|]. cbn [String.length] in *. by rewrite IH by lia.
  - apply IH. cbn [String.length] in H. lia.
Qed.

Lemma str_drop_length n s : (String.length (str_drop n s) <= String.length s)%nat.
Proof.
  unfold str_drop. destruct (le_lt_dec (Z.to_nat n) (String.length s)) as [H|H].
  - rewrite length_substring; lia.
  - replace (String.length s - Z.to_nat n)%nat with 0%nat by lia.
    assert (E : forall k s, String.substring k 0 s = "").
    { intros k s'. revert k. induction s'; intros [|k]; simpl; auto. }
    rewrite E. simpl. lia.
Qed.

(** How the loop left a source: how much it read within its budgets, which
    observations it added, and why it stopped. *)
Record poll_result (cfg : MonitorConfig) (t0 t : tail) : Prop := {
  pr_read : exists t1 consumed fresh, read_since t0 t1 consumed fresh /\
    ((t = t1 /\ blocked cfg t1) \/ (t = fail_line t1 /\ overlong cfg t1));
  pr_bytes : t_bytes t <= mc_max_bytes_per_cycle cfg;
  pr_records : t_records t <= mc_max_records_per_cycle cfg;
}.

(** A poll reads each complete line once and ends.  With the fuel it is
    given the loop returns; the bytes it consumed are a prefix, made of whole
    lines, of what was left from the cursor, which advanced by their length;
    the hashes it added are pairwise distinct and none was among the recent
    ones; every record is accepted, a duplicate or a failure; the byte and
    record budgets hold; and it stopped because of the end, a partial line, a
    budget or an overlong line. *)
Theorem poll_reads_whole_lines_once cfg decode source_id identity f cursor recent :
  0 <= mc_max_bytes_per_cycle cfg -> 0 <= mc_max_records_per_cycle cfg ->
  exists t, read_lines cfg decode (S (String.length (sf_bytes f))) source_id identity (start_tail f cursor recent) = Some t /\
    poll_result cfg (start_tail f cursor recent) t.
Proof.
  intros Hb Hr. set (t0 := start_tail f cursor recent).
  apply (read_lines_ind cfg decode source_id identity
    (fun t => (exists consumed fresh, read_since t0 t consumed fresh) /\
              t_bytes t <= mc_max_bytes_per_cycle cfg /\ t_records t <= mc_max_records_per_cycle cfg)).
  - intros t t' ((consumed & fresh & H) & H1 & H2) Ht. split; [by eapply read_more|].
    destruct Ht as (line & rest & _ & _ & _ & _ & Hb' & Hr' & ->). unfold take_line.
    destruct (decode line) as [[]|]; simpl; try lia. destruct (mem _ _); simpl; lia.
  - intros t ((consumed & fresh & H) & H1 & H2) Hbl. constructor; [|done|done]. exists t, consumed, fresh. auto.
  - intros t ((consumed & fresh & H) & H1 & H2) Hlong. constructor; [|done|done]. exists t, consumed, fresh. auto.
  - pose proof (str_drop_length cursor (sf_bytes f)). simpl. lia.
  - split; [exists "", []; apply read_nothing|]. simpl. auto.
Qed.
