(* ===== verification/Deadman.v ===== *)
(** * The dead-man outbox

    Models app/services/p133_deadman_outbox.py: watchdog verdicts become
    events in an outbox directory, a cursor remembers the active incident and
    the next sequence number, acknowledgements make events prunable.  The
    directories are maps from file names to files; the calls run under the
    process-wide lease, so each is one function of the store; the clock, the
    evaluator, the free space and the outcome of each write are inputs.  A
    write that fails removes its temporary file; a process killed inside a
    write, which would leave it behind, is not modelled. *)

From S2P Require Import Prelude PyValue Sha Json JsonFile PyRegex PyTime P121Authority.

(** ** Constants *)

Definition EVENT_SCHEMA_VERSION : string := "p133.deadman_event.v1".
Definition CURSOR_SCHEMA_VERSION : string := "p133.deadman_cursor.v1".
Definition ACK_SCHEMA_VERSION : string := "p133.deadman_ack.v1".
Definition MAX_CLOCK_ROLLBACK_SECONDS : Z := 5.
Definition MAX_CONFIG_INTEGER : Z := 1099511627776.

Definition NORMALIZED_REASONS : list string :=
  ["heartbeat_current"; "runtime_stopped"; "heartbeat_stale"; "state_missing"; "heartbeat_invalid";
   "state_invalid"; "watchdog_contract_invalid"].

Definition STATE_INVALID_REASONS : list string :=
  ["state_invalid"; "state_hash_invalid"; "authority_not_exact_zero";
   "runtime_execution_boundary_violated"; "invalid_source_state"; "invalid_canary_state";
   "invalid_lifecycle_state"; "source_manifest_mismatch"; "invalid_timestamp"].

Definition HEARTBEAT_INVALID_REASONS : list string := ["heartbeat_missing"; "heartbeat_in_future"].

Definition TRANSITIONS : list string := ["opened"; "updated"; "reminder"; "recovered"].

Definition EVENT_FIELDS : list string :=
  ["schema_version"; "event_id"; "incident_id"; "sequence"; "transition_kind"; "occurred_at";
   "previous_event_id"; "config_hash"; "snapshot"; "authority_counters"; "event_hash"].

Definition SNAPSHOT_FIELDS : list string :=
  ["reason"; "healthy"; "state_hash"; "heartbeat_age_seconds"; "runtime_ref_hash"; "snapshot_fingerprint"].

Definition CURSOR_FIELDS : list string :=
  ["schema_version"; "config_hash"; "next_sequence"; "last_checked_at"; "active_incident";
   "authority_counters"; "cursor_hash"].

Definition ACTIVE_INCIDENT_FIELDS : list string :=
  ["incident_id"; "opened_at"; "last_reason"; "last_snapshot_fingerprint"; "last_event_id";
   "last_emitted_at"].

Definition ACK_FIELDS : list string :=
  ["schema_version"; "event_id"; "event_hash"; "config_hash"; "acknowledged_at"; "authority_counters";
   "ack_hash"].

Definition P133DeadmanError (msg : string) : exn := Exn "P133DeadmanError" msg.

Definition dm_ensure (b : bool) (msg : string) : res unit := ensure b (P133DeadmanError msg).

(** [_SHA256_RE.fullmatch(s)]: the prefix is optional. *)
Definition sha_re (s : string) : bool := hex64 s || sha256_ref s.

(** ** Configuration and store *)

(** The values of a loaded configuration; its paths name the parts of
    [store]. *)
Record DeadmanConfig := {
  config_hash : string;
  runtime_ref_hash : string;
  runtime_ref : string;
  check_interval_seconds : Z;
  heartbeat_timeout_seconds : Z;
  reminder_interval_seconds : Z;
  max_event_files : Z;
  max_outbox_bytes : Z;
  max_event_bytes : Z;
  min_artifact_free_bytes : Z;
}.

Record store := { outbox : dir; acks : dir; cursor_file : option file }.

(** ** JSON files *)

Definition regular_file_stat (f : option file) (artifact : string) : res file :=
  match f with
  | None => Raise (P133DeadmanError (artifact +:+ "_missing"))
  | Some f =>
      match f_kind f with
      | Regular => Ok f
      | Irregular => Raise (P133DeadmanError (artifact +:+ "_not_regular"))
      | MultiLink => Raise (P133DeadmanError (artifact +:+ "_has_multiple_links"))
      end
  end.

Definition read_json_path (f : file) : res val :=
  match f_value f with
  | Some v => Ok v
  | None => Raise (P133DeadmanError "invalid_json_file")
  end.

Definition read_json_regular (f : option file) : res dict :=
  let! f := regular_file_stat f "cursor" in
  let! v := read_json_path f in
  match v with
  | VDict d => Ok d
  | _ => Raise (P133DeadmanError "invalid_json_shape")
  end.

(** [name.removesuffix(".json")] of a name that ends in it. *)
Definition json_stem (name : string) : option string :=
  let n := (String.length name - 5)%nat in
  if String.substring n 5 name =s ".json" then Some (String.substring 0 n name) else None.

Definition json_name (stem : string) : string := stem +:+ ".json".

(** ** Values *)

(** An aware time in microseconds; [None] is a naive [datetime]. *)
Definition require_utc (t : option Z) : res Z :=
  match t with
  | Some us => Ok us
  | None => Raise (P133DeadmanError "timestamp_must_be_utc")
  end.

Definition timestamp (us : Z) : string := isoformat us +:+ "Z".

(** [value.removesuffix("Z")] of a text that ends in it. *)
Definition strip_z (s : string) : option string :=
  let n := (String.length s - 1)%nat in
  if String.substring n 1 s =s "Z" then Some (String.substring 0 n s) else None.

Definition parse_timestamp (v : val) : res Z :=
  match v with
  | VStr s =>
      match strip_z s with
      | Some body =>
          match fromisoformat body with
          | Some us => Ok us
          | None => Raise (P133DeadmanError "invalid_timestamp")
          end
      | None => Raise (P133DeadmanError "invalid_timestamp")
      end
  | _ => Raise (P133DeadmanError "invalid_timestamp")
  end.

Definition bounded_number (v : val) : val :=
  match v with
  | VInt z => if (z <? 0) || (MAX_CONFIG_INTEGER <? z) then VNone else v
  | VFloat q => if negb (Qle_bool 0 q) || negb (Qle_bool q (inject_Z MAX_CONFIG_INTEGER)) then VNone else v
  | _ => VNone
  end.

Definition validate_zero_authority (counters : val) : res unit :=
  match counters with
  | VDict c =>
      let! _ := dm_ensure (same_keys c P121_AUTHORITY_COUNTER_KEYS) "invalid_authority_counters" in
      iterM (fun key => dm_ensure (match vget c key with VInt z => z =? 0 | _ => false end)
                          "invalid_authority_counters") P121_AUTHORITY_COUNTER_KEYS
  | _ => Raise (P133DeadmanError "invalid_authority_counters")
  end.

Definition snapshot_fingerprint (snapshot : dict) : string :=
  stable_hash (VDict
    [("reason", vget snapshot "reason"); ("healthy", vget snapshot "healthy");
     ("state_hash", vget snapshot "state_hash"); ("runtime_ref_hash", vget snapshot "runtime_ref_hash")]).

Definition event_id_of (config_hash : string) (sequence : Z) (incident_id transition_kind fingerprint : string)
    (previous_event_id : val) : string :=
  stable_hash (VDict
    [("config_hash", VStr config_hash); ("sequence", VInt sequence); ("incident_id", VStr incident_id);
     ("transition_kind", VStr transition_kind); ("snapshot_fingerprint", VStr fingerprint);
     ("previous_event_id", previous_event_id)]).

(** ** Normalisation of the watchdog's verdict *)

Definition is_true (v : val) : bool := match v with VBool b => b | _ => false end.
Definition is_false (v : val) : bool := match v with VBool b => negb b | _ => false end.

Definition sha256_state (v : val) : val :=
  match v with
  | VStr s => if startswith "sha256:" s && sha_re s then v else VNone
  | _ => VNone
  end.

Definition normalized_reason (reason healthy : val) : res (string * bool) :=
  let says s := py_eq reason (VStr s) in
  if says "heartbeat_current" && is_true healthy then Ok ("heartbeat_current", true)
  else if says "runtime_stopped" && is_false healthy then Ok ("runtime_stopped", false)
  else if says "heartbeat_stale" && is_false healthy then Ok ("heartbeat_stale", false)
  else if says "state_missing" && is_false healthy then Ok ("state_missing", false)
  else
    let! heartbeat := in_set reason HEARTBEAT_INVALID_REASONS in
    if heartbeat && is_false healthy then Ok ("heartbeat_invalid", false)
    else
      let! state := in_set reason STATE_INVALID_REASONS in
      if state && is_false healthy then Ok ("state_invalid", false)
      else Ok ("watchdog_contract_invalid", false).

Definition make_snapshot (cfg : DeadmanConfig) (reason : string) (healthy : bool) (state_hash age : val) : dict :=
  let base : dict :=
    [("reason", VStr reason); ("healthy", VBool healthy); ("state_hash", state_hash);
     ("heartbeat_age_seconds", age); ("runtime_ref_hash", VStr (runtime_ref_hash cfg))] in
  base ++ [("snapshot_fingerprint", VStr (snapshot_fingerprint base))].

Definition normalize_watchdog_result (cfg : DeadmanConfig) (result : val) : res dict :=
  match result with
  | VDict d =>
      let! r := normalized_reason (vget d "reason") (vget d "healthy") in
      let '(reason, healthy) := r in
      Ok (make_snapshot cfg reason healthy (sha256_state (vget d "state_hash"))
            (bounded_number (vget d "heartbeat_age_seconds")))
  | _ => Raise (Exn "AttributeError" "object has no attribute 'get'")
  end.

(** ** Loading events *)

Definition require_sha (v : val) (msg : string) : res unit := dm_ensure (sha_re (py_str v)) msg.

Definition validate_snapshot_shape (snapshot : dict) : res unit :=
  let! _ := dm_ensure (same_keys snapshot SNAPSHOT_FIELDS) "invalid_snapshot_fields" in
  let! known := in_set (vget snapshot "reason") NORMALIZED_REASONS in
  let! _ := dm_ensure known "invalid_snapshot_reason" in
  let healthy := vget snapshot "healthy" in
  let! _ := dm_ensure (match healthy with VBool _ => true | _ => false end) "invalid_snapshot_health" in
  let current := py_eq (vget snapshot "reason") (VStr "heartbeat_current") in
  let! _ := dm_ensure (negb current || is_true healthy) "invalid_snapshot_health" in
  let! _ := dm_ensure (current || is_false healthy) "invalid_snapshot_health" in
  let! _ := dm_ensure (match vget snapshot "state_hash" with
                       | VNone => true
                       | VStr s => startswith "sha256:" s && sha_re s
                       | _ => false
                       end) "invalid_snapshot_state_hash" in
  let age := vget snapshot "heartbeat_age_seconds" in
  let! _ := dm_ensure (match age with VNone => true | _ => py_eq (bounded_number age) age end)
              "invalid_snapshot_heartbeat_age" in
  let! _ := require_sha (vget_or snapshot "runtime_ref_hash" (VStr "")) "invalid_snapshot_runtime_ref_hash" in
  dm_ensure (py_eq (vget snapshot "snapshot_fingerprint") (VStr (snapshot_fingerprint snapshot)))
    "snapshot_fingerprint_invalid".

Definition validate_event_shape (event : dict) : res unit :=
  let! _ := require_sha (vget_or event "event_id" (VStr "")) "invalid_event_id" in
  let! _ := require_sha (vget_or event "incident_id" (VStr "")) "invalid_incident_id" in
  let! _ := dm_ensure (match vget event "sequence" with VInt z => 0 <? z | _ => false end)
              "invalid_event_sequence" in
  let! known := in_set (vget event "transition_kind") TRANSITIONS in
  let! _ := dm_ensure known "invalid_transition_kind" in
  let! _ := parse_timestamp (vget event "occurred_at") in
  let previous := vget event "previous_event_id" in
  let none := match previous with VNone => true | _ => false end in
  let! _ := dm_ensure (none || sha_re (py_str previous)) "invalid_previous_event_id" in
  let opened := py_eq (vget event "transition_kind") (VStr "opened") in
  let! _ := dm_ensure (negb opened || none) "opened_event_has_previous_link" in
  let! _ := dm_ensure (opened || negb none) "linked_event_missing_previous_link" in
  match vget event "snapshot" with
  | VDict snapshot =>
      let! _ := validate_snapshot_shape snapshot in
      validate_zero_authority (vget event "authority_counters")
  | _ => Raise (P133DeadmanError "invalid_snapshot")
  end.

Definition event_snapshot (event : dict) : dict :=
  match vget event "snapshot" with VDict s => s | _ => [] end.

(** [_load_event_file] of the file called [name]. *)
Definition load_event_file (cfg : DeadmanConfig) (d : dir) (name : string) : res dict :=
  match json_stem name with
  | None => Raise (P133DeadmanError "invalid_event_filename")
  | Some event_id =>
      let! _ := dm_ensure (sha_re event_id) "invalid_event_filename" in
      let! f := regular_file_stat (dget d name) "event" in
      let! v := read_json_path f in
      match v with
      | VDict value =>
          let! _ := dm_ensure (same_keys value EVENT_FIELDS) "invalid_event_fields" in
          let! _ := dm_ensure (py_eq (vget value "event_id") (VStr event_id)) "event_filename_mismatch" in
          let! _ := dm_ensure (py_eq (vget value "schema_version") (VStr EVENT_SCHEMA_VERSION))
                      "invalid_event_schema" in
          let! _ := dm_ensure (py_eq (vget value "config_hash") (VStr (config_hash cfg)))
                      "event_config_mismatch" in
          let! _ := dm_ensure (py_eq (vget value "event_hash")
                                 (VStr (stable_hash (VDict (dwithout ["event_hash"] value)))))
                      "event_hash_invalid" in
          let! _ := dm_ensure (json_size v =? f_size f) "event_size_changed" in
          let! _ := validate_event_shape value in
          let snapshot := event_snapshot value in
          let! _ := dm_ensure (py_eq (vget snapshot "runtime_ref_hash") (VStr (runtime_ref_hash cfg)))
                      "snapshot_runtime_ref_mismatch" in
          let! sequence := py_int (vget value "sequence") in
          let! _ := dm_ensure (py_eq (vget value "event_id")
                      (VStr (event_id_of (config_hash cfg) sequence (py_str (vget value "incident_id"))
                               (py_str (vget value "transition_kind"))
                               (py_str (vget snapshot "snapshot_fingerprint"))
                               (vget value "previous_event_id")))) "event_id_derivation_mismatch" in
          Ok value
      | _ => Raise (P133DeadmanError "invalid_event_shape")
      end
  end.

Definition sequence_of (event : dict) : Z := match vget event "sequence" with VInt z => z | _ => 0 end.

(** The events of the files called [names], by identifier. *)
Fixpoint load_events (cfg : DeadmanConfig) (d : dir) (names : list string) (events : list (string * dict))
  : res (list (string * dict)) :=
  match names with
  | [] => Ok events
  | name :: names =>
      let! event := load_event_file cfg d name in
      let event_id := py_str (vget event "event_id") in
      let! _ := dm_ensure (negb (dmem event_id events)) "duplicate_event_id" in
      let! _ := dm_ensure (negb (existsb (fun e => sequence_of e.2 =? sequence_of event) events))
                  "duplicate_event_sequence" in
      load_events cfg d names (events ++ [(event_id, event)])
  end.

(** The links of one event to an event of the outbox. *)
Definition check_link (events : list (string * dict)) (e : string * dict) : res unit :=
  let '(event_id, event) := e in
  match vget event "previous_event_id" with
  | VStr p =>
      match dget events p with
      | None => Ok tt
      | Some previous =>
          let! _ := dm_ensure (sequence_of previous <? sequence_of event) "event_link_sequence_invalid" in
          let! _ := dm_ensure (py_eq (vget previous "incident_id") (vget event "incident_id"))
                      "event_link_incident_mismatch" in
          dm_ensure (negb (py_eq (vget previous "event_id") (VStr event_id))) "event_self_link"
      end
  | _ => Ok tt
  end.

Definition file_names (d : dir) : list string := sorted_strings (dkeys d).

Definition validated_events (cfg : DeadmanConfig) (st : store) : res (list (string * dict)) :=
  let! events := load_events cfg (outbox st) (file_names (outbox st)) [] in
  let! _ := iterM (check_link events) events in
  Ok events.

Definition event_id_for_sequence (events : list (string * dict)) (sequence : Z) : option string :=
  match List.find (fun e => py_eq (vget e.2 "sequence") (VInt sequence)) events with
  | Some e => Some e.1
  | None => None
  end.

(** ** The cursor *)

Definition fresh_cursor (cfg : DeadmanConfig) : dict :=
  [("schema_version", VStr CURSOR_SCHEMA_VERSION); ("config_hash", VStr (config_hash cfg));
   ("next_sequence", VInt 1); ("last_checked_at", VNone); ("active_incident", VNone);
   ("authority_counters", VDict zero_authority_counters)].

Definition validate_active_incident (v : val) : res unit :=
  match v with
  | VDict active =>
      let! _ := dm_ensure (same_keys active ACTIVE_INCIDENT_FIELDS) "invalid_active_incident" in
      let! _ := require_sha (vget active "incident_id") "invalid_active_incident" in
      let! _ := require_sha (vget active "last_event_id") "invalid_active_incident" in
      let! _ := require_sha (vget active "last_snapshot_fingerprint") "invalid_active_incident" in
      let! known := in_set (vget active "last_reason") NORMALIZED_REASONS in
      let! _ := dm_ensure (known && negb (py_eq (vget active "last_reason") (VStr "heartbeat_current")))
                  "invalid_active_incident" in
      let! _ := parse_timestamp (vget active "opened_at") in
      let! _ := parse_timestamp (vget active "last_emitted_at") in
      Ok tt
  | _ => Raise (P133DeadmanError "invalid_active_incident")
  end.

Definition load_cursor (cfg : DeadmanConfig) (st : store) : res dict :=
  match cursor_file st with
  | None => Ok (fresh_cursor cfg)
  | Some f =>
      let! cursor := read_json_regular (Some f) in
      let! _ := dm_ensure (same_keys cursor CURSOR_FIELDS) "invalid_cursor_fields" in
      let! _ := dm_ensure (match vget cursor "cursor_hash" with
                           | VStr h => stable_hash (VDict (dwithout ["cursor_hash"] cursor)) =s h
                           | _ => false
                           end) "cursor_hash_invalid" in
      let! _ := dm_ensure (py_eq (vget cursor "schema_version") (VStr CURSOR_SCHEMA_VERSION))
                  "invalid_cursor_schema" in
      let! _ := dm_ensure (py_eq (vget cursor "config_hash") (VStr (config_hash cfg)))
                  "cursor_config_mismatch" in
      let! _ := validate_zero_authority (vget cursor "authority_counters") in
      let! _ := dm_ensure (match vget cursor "next_sequence" with VInt z => 0 <? z | _ => false end)
                  "invalid_cursor_sequence" in
      let! _ := match vget cursor "last_checked_at" with
                | VNone => Ok 0
                | v => parse_timestamp v
                end in
      let! _ := match vget cursor "active_incident" with
                | VNone => Ok tt
                | v => validate_active_incident v
                end in
      Ok cursor
  end.

Definition hashed_cursor (cursor : dict) : dict :=
  let payload := dwithout ["cursor_hash"] cursor in
  dset payload "cursor_hash" (VStr (stable_hash (VDict payload))).

Definition next_sequence (cursor : dict) : Z :=
  match vget cursor "next_sequence" with VInt z => z | _ => 0 end.

Definition validate_clock (cursor : dict) (now : Z) : res unit :=
  match vget cursor "last_checked_at" with
  | VNone => Ok tt
  | last =>
      let! previous := parse_timestamp last in
      dm_ensure (negb (MAX_CLOCK_ROLLBACK_SECONDS * second <? previous - now))
        "clock_rollback_exceeds_tolerance"
  end.

Definition highest_sequence (events : list (string * dict)) : Z :=
  fold_left (fun m e => Z.max m (sequence_of e.2)) events 0.

Definition replay_is_compatible (active : val) (event : dict) : bool :=
  match active with
  | VNone =>
      py_eq (vget event "transition_kind") (VStr "opened") && py_eq (vget event "previous_event_id") VNone
  | VDict a =>
      existsb (fun k => py_eq (vget event "transition_kind") (VStr k)) ["updated"; "reminder"; "recovered"] &&
      py_eq (vget event "incident_id") (vget a "incident_id") &&
      py_eq (vget event "previous_event_id") (vget a "last_event_id")
  | _ => false
  end.

Definition validate_sequence_against_events (cfg : DeadmanConfig) (st : store) (cursor : dict) : res unit :=
  let! events := validated_events cfg st in
  let highest := highest_sequence events in
  let next := next_sequence cursor in
  if highest <? next then Ok tt
  else if next <? highest then Raise (P133DeadmanError "cursor_sequence_regression")
  else
    match event_id_for_sequence events next with
    | None => Raise (P133DeadmanError "cursor_sequence_regression")
    | Some event_id =>
        match dget events event_id with
        | Some pending =>
            dm_ensure (replay_is_compatible (vget cursor "active_incident") pending)
              "cursor_sequence_regression"
        | None => Raise (Exn "KeyError" event_id)
        end
    end.

Definition pending_replay_event_id (cfg : DeadmanConfig) (st : store) (cursor : dict) : res (option string) :=
  let! events := validated_events cfg st in
  Ok (event_id_for_sequence events (next_sequence cursor)).

(** ** The pending transition *)

Record pending := {
  pd_transition_kind : string;
  pd_incident_id : string;
  pd_previous_event_id : option string;
}.

Definition opt_val (o : option string) : val := match o with Some s => VStr s | None => VNone end.

Definition incident_id_of (cfg : DeadmanConfig) (cursor snapshot : dict) : string :=
  stable_hash (VDict
    [("config_hash", VStr (config_hash cfg)); ("sequence", vget cursor "next_sequence");
     ("snapshot_fingerprint", vget snapshot "snapshot_fingerprint")]).

(** A transition of the active incident. *)
Definition follow_up (kind : string) (active : dict) : res pending :=
  let! incident := vindex active "incident_id" in
  let! last := vindex active "last_event_id" in
  Ok {| pd_transition_kind := kind; pd_incident_id := py_str incident;
        pd_previous_event_id := Some (py_str last) |}.

Definition pending_transition (cfg : DeadmanConfig) (cursor snapshot : dict) (now : Z)
  : res (option pending) :=
  let active := vget cursor "active_incident" in
  if truthy (vget snapshot "healthy") then
    match active with
    | VNone => Ok None
    | VDict a => let! p := follow_up "recovered" a in Ok (Some p)
    | _ => Raise (P133DeadmanError "invalid_active_incident")
    end
  else
    match active with
    | VNone => Ok (Some {| pd_transition_kind := "opened"; pd_incident_id := incident_id_of cfg cursor snapshot;
                           pd_previous_event_id := None |})
    | VDict a =>
        if negb (py_eq (vget a "last_reason") (vget snapshot "reason")) ||
           negb (py_eq (vget a "last_snapshot_fingerprint") (vget snapshot "snapshot_fingerprint"))
        then let! p := follow_up "updated" a in Ok (Some p)
        else
          let! last_emitted := parse_timestamp (vget a "last_emitted_at") in
          if reminder_interval_seconds cfg * second <=? now - last_emitted
          then let! p := follow_up "reminder" a in Ok (Some p)
          else Ok None
    | _ => Raise (P133DeadmanError "invalid_active_incident")
    end.

(** ** Events *)

Definition build_event (cfg : DeadmanConfig) (cursor : dict) (p : pending) (snapshot : dict)
    (occurred_at : val) (event_id : string) : dict :=
  let base : dict :=
    [("schema_version", VStr EVENT_SCHEMA_VERSION); ("event_id", VStr event_id);
     ("incident_id", VStr (pd_incident_id p)); ("sequence", VInt (next_sequence cursor));
     ("transition_kind", VStr (pd_transition_kind p)); ("occurred_at", occurred_at);
     ("previous_event_id", opt_val (pd_previous_event_id p)); ("config_hash", VStr (config_hash cfg));
     ("snapshot", VDict snapshot); ("authority_counters", VDict zero_authority_counters)] in
  base ++ [("event_hash", VStr (stable_hash (VDict base)))].

(** [_EVENT_FIELDS - {"snapshot", "event_hash"}] *)
Definition STABLE_EVENT_FIELDS : list string :=
  List.filter (fun k => negb (mem k ["snapshot"; "event_hash"])) EVENT_FIELDS.

Definition pending_event_id (cfg : DeadmanConfig) (cursor : dict) (p : pending) (snapshot : dict) : string :=
  event_id_of (config_hash cfg) (next_sequence cursor) (pd_incident_id p) (pd_transition_kind p)
    (py_str (vget snapshot "snapshot_fingerprint")) (opt_val (pd_previous_event_id p)).

(** The event of a transition: the one already written, or a new one. *)
Definition event_for_pending (cfg : DeadmanConfig) (st : store) (cursor : dict) (p : pending) (snapshot : dict)
    (now : Z) : res (dict * bool) :=
  let event_id := pending_event_id cfg cursor p snapshot in
  let! events := validated_events cfg st in
  let! _ := dm_ensure (match event_id_for_sequence events (next_sequence cursor) with
                       | Some e => e =s event_id
                       | None => true
                       end) "conflicting_existing_event" in
  if dmem (json_name event_id) (outbox st) then
    let! existing := load_event_file cfg (outbox st) (json_name event_id) in
    let expected := build_event cfg cursor p snapshot (vget existing "occurred_at") event_id in
    let! _ := dm_ensure
      (forallb (fun key => py_eq (vget existing key) (vget expected key)) STABLE_EVENT_FIELDS &&
       py_eq (vget (event_snapshot existing) "snapshot_fingerprint") (vget snapshot "snapshot_fingerprint"))
      "conflicting_existing_event" in
    Ok (existing, true)
  else Ok (build_event cfg cursor p snapshot (VStr (timestamp now)) event_id, false).

Definition advanced_cursor (cfg : DeadmanConfig) (cursor : dict) (p : pending) (snapshot event : dict) (now : Z)
  : dict :=
  let active :=
    if pd_transition_kind p =s "recovered" then VNone
    else
      let opened_at := match vget cursor "active_incident" with
                       | VDict a => VStr (py_str (vget a "opened_at"))
                       | _ => vget event "occurred_at"
                       end in
      VDict [("incident_id", vget event "incident_id"); ("opened_at", opened_at);
             ("last_reason", vget snapshot "reason");
             ("last_snapshot_fingerprint", vget snapshot "snapshot_fingerprint");
             ("last_event_id", vget event "event_id"); ("last_emitted_at", vget event "occurred_at")] in
  [("schema_version", VStr CURSOR_SCHEMA_VERSION); ("config_hash", VStr (config_hash cfg));
   ("next_sequence", VInt (next_sequence cursor + 1)); ("last_checked_at", VStr (timestamp now));
   ("active_incident", active); ("authority_counters", VDict zero_authority_counters)].

(** ** Acknowledgements *)

Definition load_ack_file (cfg : DeadmanConfig) (st : store) (name : string) : res dict :=
  match json_stem name with
  | None => Raise (P133DeadmanError "invalid_ack_filename")
  | Some event_id =>
      let! _ := dm_ensure (sha_re event_id) "invalid_ack_filename" in
      let! f := regular_file_stat (dget (acks st) name) "ack" in
      let! v := read_json_path f in
      match v with
      | VDict value =>
          let! _ := dm_ensure (same_keys value ACK_FIELDS) "invalid_ack_fields" in
          let! _ := dm_ensure (py_eq (vget value "event_id") (VStr event_id)) "ack_filename_mismatch" in
          let! _ := dm_ensure (py_eq (vget value "schema_version") (VStr ACK_SCHEMA_VERSION))
                      "invalid_ack_schema" in
          let! _ := dm_ensure (py_eq (vget value "config_hash") (VStr (config_hash cfg)))
                      "ack_config_mismatch" in
          let! _ := require_sha (vget_or value "event_hash" (VStr "")) "invalid_ack_event_hash" in
          let! _ := dm_ensure (py_eq (vget value "ack_hash")
                                 (VStr (stable_hash (VDict (dwithout ["ack_hash"] value)))))
                      "ack_hash_invalid" in
          let! _ := parse_timestamp (vget value "acknowledged_at") in
          let! _ := validate_zero_authority (vget value "authority_counters") in
          Ok value
      | _ => Raise (P133DeadmanError "invalid_ack_shape")
      end
  end.

Definition ack_matches (ack event : dict) : bool :=
  py_eq (vget ack "event_id") (vget event "event_id") &&
  py_eq (vget ack "event_hash") (vget event "event_hash").

Definition validate_ack_for_event (cfg : DeadmanConfig) (st : store) (name : string) (event : dict) : res unit :=
  let! ack := load_ack_file cfg st name in
  dm_ensure (ack_matches ack event) "ack_event_mismatch".

(** [_validated_acks(config, allow_orphans=True)]: the acknowledged events. *)
Definition validated_acks (cfg : DeadmanConfig) (st : store) : res (list string) :=
  mapM (fun name => let! ack := load_ack_file cfg st name in Ok (py_str (vget ack "event_id")))
    (file_names (acks st)).

Definition make_ack (cfg : DeadmanConfig) (event_id : string) (event : dict) (now : Z) : dict :=
  let base : dict :=
    [("schema_version", VStr ACK_SCHEMA_VERSION); ("event_id", VStr event_id);
     ("event_hash", vget event "event_hash"); ("config_hash", VStr (config_hash cfg));
     ("acknowledged_at", VStr (timestamp now)); ("authority_counters", VDict zero_authority_counters)] in
  base ++ [("ack_hash", VStr (stable_hash (VDict base)))].

(** ** Writes *)

Definition DurabilityUncertain : exn :=
  Exn "P133DurabilityUncertainError" "directory_fsync_failed_after_replace".

Definition set_outbox (st : store) (d : dir) : store :=
  {| outbox := d; acks := acks st; cursor_file := cursor_file st |}.
Definition set_acks (st : store) (d : dir) : store :=
  {| outbox := outbox st; acks := d; cursor_file := cursor_file st |}.
Definition set_cursor (st : store) (f : file) : store :=
  {| outbox := outbox st; acks := acks st; cursor_file := Some f |}.

Definition replaceable (f : option file) : bool :=
  match f with Some f => match f_kind f with Regular => true | _ => false end | None => true end.

(** [_atomic_write_json]: [target] is what the name holds, [put] the store
    with the new file in place. *)
Definition atomic_write (target : option file) (w : write_outcome) (st put : store) : res unit * store :=
  if replaceable target then
    match w with
    | Written => (Ok tt, put)
    | NotWritten e => (Raise e, st)
    | Uncertain => (Raise DurabilityUncertain, put)
    end
  else (Raise (P133DeadmanError "write_target_not_regular"), st).

Definition write_cursor (cursor : dict) (w : write_outcome) (st : store) : res unit * store :=
  atomic_write (cursor_file st) w st (set_cursor st (written_file (VDict (hashed_cursor cursor)))).

Definition write_event (event_id : string) (event : dict) (w : write_outcome) (st : store) : res unit * store :=
  let name := json_name event_id in
  atomic_write (dget (outbox st) name) w st
    (set_outbox st (dset (outbox st) name (written_file (VDict event)))).

Definition ensure_artifact_space (cfg : DeadmanConfig) (free write_bytes : Z) : res unit :=
  ensure (negb (free <? min_artifact_free_bytes cfg + write_bytes))
    (Exn "OSError" "artifact_free_space_below_floor").

(** ** Retention *)

(** Remove the acknowledgements of events that are gone. *)
Fixpoint drop_orphans (cfg : DeadmanConfig) (events : list (string * dict)) (ids : list string)
    (removed : Z) (st : store) : res Z * store :=
  match ids with
  | [] => (Ok removed, st)
  | event_id :: ids =>
      if dmem event_id events then drop_orphans cfg events ids removed st
      else
        match load_ack_file cfg st (json_name event_id) with
        | Raise e => (Raise e, st)
        | Ok _ => drop_orphans cfg events ids (removed + 1)
                    (set_acks st (dwithout [json_name event_id] (acks st)))
        end
  end.

Definition total_bytes (events : list (string * dict)) : Z :=
  fold_right (fun e acc => json_size (VDict e.2) + acc) 0 events.

Definition over_budget (cfg : DeadmanConfig) (count bytes : Z) : bool :=
  (max_event_files cfg <? count) || (max_outbox_bytes cfg <? bytes).

(** Prune acknowledged events, oldest first, while over budget: the counts
    left and the removals. *)
Fixpoint prune (cfg : DeadmanConfig) (candidates : list (string * dict)) (count bytes removed : Z) (st : store)
  : res (Z * Z * Z) * store :=
  match candidates with
  | [] => (Ok (count, bytes, removed), st)
  | (event_id, event) :: candidates =>
      if negb (over_budget cfg count bytes) then (Ok (count, bytes, removed), st)
      else
        let name := json_name event_id in
        let check :=
          let! _ := validate_ack_for_event cfg st name event in
          let! current := load_event_file cfg (outbox st) name in
          let! _ := dm_ensure (py_eq (VDict current) (VDict event)) "retention_candidate_changed" in
          validate_ack_for_event cfg st name event in
        match check with
        | Raise e => (Raise e, st)
        | Ok _ =>
            let st := set_outbox st (dwithout [name] (outbox st)) in
            let st := set_acks st (dwithout [name] (acks st)) in
            prune cfg candidates (count - 1) (bytes - json_size (VDict event)) (removed + 1) st
        end
  end.

Definition by_sequence (a b : string * dict) : bool :=
  (sequence_of a.2 <? sequence_of b.2) || ((sequence_of a.2 =? sequence_of b.2) && String.leb a.1 b.1).

(** Removed events and removed acknowledgements. *)
Definition enforce_retention (cfg : DeadmanConfig) (new_count new_bytes : Z) (st : store)
  : res (Z * Z) * store :=
  let before :=
    let! events := validated_events cfg st in
    let! ids := validated_acks cfg st in
    Ok (events, sorted_strings ids) in
  match before with
  | Raise e => (Raise e, st)
  | Ok (events, ids) =>
      match drop_orphans cfg events ids 0 st with
      | (Raise e, st) => (Raise e, st)
      | (Ok dropped, st) =>
          match validated_events cfg st with
          | Raise e => (Raise e, st)
          | Ok events =>
              let bytes := total_bytes events + new_bytes in
              let count := Z.of_nat (List.length events) + new_count in
              if negb (over_budget cfg count bytes) then (Ok (0, dropped), st)
              else
                match validated_acks cfg st with
                | Raise e => (Raise e, st)
                | Ok ids =>
                    let candidates := isort by_sequence (List.filter (fun e => mem e.1 ids) events) in
                    match prune cfg candidates count bytes 0 st with
                    | (Raise e, st) => (Raise e, st)
                    | (Ok (count, bytes, removed), st) =>
                        if over_budget cfg count bytes
                        then (Raise (P133DeadmanError "outbox_budget_exhausted"), st)
                        else (Ok (removed, dropped + removed), st)
                    end
                end
          end
      end
  end.

(** ** One check

    What the outside world answers during [check_once]: the clock, the
    watchdog, the free space at its two readings, and the fate of the two
    writes. *)
Record check_env := {
  e_now : option Z;
  e_watchdog : res val;
  e_free : Z;
  e_free_write : Z;
  e_event_write : write_outcome;
  e_cursor_write : write_outcome;
}.

Definition deduplicated_report (snapshot : dict) : dict :=
  [("transition_kind", VStr "deduplicated"); ("healthy", vget snapshot "healthy");
   ("reason", vget snapshot "reason"); ("emitted", VBool false);
   ("authority_counters", VDict zero_authority_counters)].

Definition emitted_report (p : pending) (snapshot event : dict) : dict :=
  [("transition_kind", VStr (pd_transition_kind p)); ("healthy", vget snapshot "healthy");
   ("reason", vget snapshot "reason"); ("emitted", VBool true); ("event_id", vget event "event_id");
   ("incident_id", vget event "incident_id"); ("sequence", vget event "sequence");
   ("occurred_at", vget event "occurred_at"); ("authority_counters", VDict zero_authority_counters)].

(** What [_check_once_locked] has read when it decides: the time, the cursor,
    the snapshot and the pending transition. *)
Definition observe (cfg : DeadmanConfig) (env : check_env) (st : store)
  : res (Z * dict * dict * option pending) :=
  let! now := require_utc (e_now env) in
  let! _ := ensure_artifact_space cfg (e_free env) 0 in
  let! cursor := load_cursor cfg st in
  let! _ := validate_clock cursor now in
  let! _ := validate_sequence_against_events cfg st cursor in
  let! raw := e_watchdog env in
  let! snapshot := normalize_watchdog_result cfg raw in
  let! pending := pending_transition cfg cursor snapshot now in
  Ok (now, cursor, snapshot, pending).

(** The branch without a transition: only the cursor is refreshed. *)
Definition deduplicate (cfg : DeadmanConfig) (env : check_env) (now : Z) (cursor snapshot : dict) (st : store)
  : res dict * store :=
  match pending_replay_event_id cfg st cursor with
  | Raise e => (Raise e, st)
  | Ok (Some _) => (Raise (P133DeadmanError "pending_event_requires_matching_replay"), st)
  | Ok None =>
      match write_cursor (dset cursor "last_checked_at" (VStr (timestamp now))) (e_cursor_write env) st with
      | (Raise e, st) => (Raise e, st)
      | (Ok _, st) => (Ok (deduplicated_report snapshot), st)
      end
  end.

(** The branch of a transition, up to the event in the outbox. *)
Definition publish (cfg : DeadmanConfig) (env : check_env) (now : Z) (cursor snapshot : dict) (p : pending)
    (st : store) : res dict * store :=
  let planned :=
    let! ev := event_for_pending cfg st cursor p snapshot now in
    let size := json_size (VDict ev.1) in
    let! _ := dm_ensure (negb (max_event_bytes cfg <? size)) "event_exceeds_max_event_bytes" in
    let! _ := ensure_artifact_space cfg (e_free_write env) size in
    Ok ev in
  match planned with
  | Raise e => (Raise e, st)
  | Ok (event, existing) =>
      match enforce_retention cfg (if existing then 0 else 1)
              (if existing then 0 else json_size (VDict event)) st with
      | (Raise e, st) => (Raise e, st)
      | (Ok _, st) =>
          if existing then (Ok event, st)
          else
            match write_event (py_str (vget event "event_id")) event (e_event_write env) st with
            | (Raise e, st) => (Raise e, st)
            | (Ok _, st) => (Ok event, st)
            end
      end
  end.

Definition emit (cfg : DeadmanConfig) (env : check_env) (now : Z) (cursor snapshot : dict) (p : pending)
    (st : store) : res dict * store :=
  match publish cfg env now cursor snapshot p st with
  | (Raise e, st) => (Raise e, st)
  | (Ok event, st) =>
      match write_cursor (advanced_cursor cfg cursor p snapshot event now) (e_cursor_write env) st with
      | (Raise e, st) => (Raise e, st)
      | (Ok _, st) => (Ok (emitted_report p snapshot event), st)
      end
  end.

Definition check_once (cfg : DeadmanConfig) (env : check_env) (st : store) : res dict * store :=
  match observe cfg env st with
  | Raise e => (Raise e, st)
  | Ok (now, cursor, snapshot, None) => deduplicate cfg env now cursor snapshot st
  | Ok (now, cursor, snapshot, Some p) => emit cfg env now cursor snapshot p st
  end.

(** ** The loop *)

(** What one turn of [run] meets: [stop_reason()], the check, and what
    [wait_for_stop] and then [stop_reason()] answer; [None] for a callback that
    was not given. *)
Record cycle_env := {
  c_stop : option string;
  c_check : check_env;
  c_wait : option bool;
  c_stop_after : option string;
}.

Record run_report := { cycles : Z; emitted_events : Z; stop_reason : option string }.

Definition graceful_stop (r : run_report) : bool :=
  match stop_reason r with Some _ => true | None => false end.

(** The [while] loop; [None] when it asks for more turns than [turns] has. *)
Fixpoint run_loop (cfg : DeadmanConfig) (max_cycles : option Z) (turns : list cycle_env) (n emitted : Z)
    (st : store) : option (res run_report * store) :=
  let more n := match max_cycles with None => true | Some m => n <? m end in
  let report n emitted reason := Ok {| cycles := n; emitted_events := emitted; stop_reason := reason |} in
  if more n then
    match turns with
    | [] => None
    | turn :: turns =>
        match c_stop turn with
        | Some reason => Some (report n emitted (Some reason), st)
        | None =>
            match check_once cfg (c_check turn) st with
            | (Raise e, st) => Some (Raise e, st)
            | (Ok result, st) =>
                let n := n + 1 in
                let emitted := if is_true (vget result "emitted") then emitted + 1 else emitted in
                if more n then
                  match c_wait turn with
                  | Some true =>
                      match c_stop_after turn with
                      | None => Some (Raise (P133DeadmanError "stop_wait_triggered_without_reason"), st)
                      | Some reason => Some (report n emitted (Some reason), st)
                      end
                  | _ => run_loop cfg max_cycles turns n emitted st
                  end
                else run_loop cfg max_cycles turns n emitted st
            end
        end
    end
  else Some (report n emitted None, st).

Definition run (cfg : DeadmanConfig) (max_cycles : val) (forever : bool) (turns : list cycle_env) (st : store)
  : option (res run_report * store) :=
  let given := match max_cycles with VNone => false | _ => true end in
  if Bool.eqb forever given then Some (Raise (P133DeadmanError "run_requires_forever_or_max_cycles"), st)
  else if given then
    match max_cycles with
    | VInt m =>
        if m <=? 0 then Some (Raise (P133DeadmanError "max_cycles_must_be_positive"), st)
        else run_loop cfg (Some m) turns 0 0 st
    | _ => Some (Raise (P133DeadmanError "max_cycles_must_be_positive"), st)
    end
  else run_loop cfg None turns 0 0 st.

(** ** Reading and acknowledging *)

Definition list_outbox (cfg : DeadmanConfig) (st : store) : res (list dict) :=
  let! events := validated_events cfg st in
  Ok (map snd (isort by_sequence events)).

(** [now] is the clock, [free] the space, [w] the fate of the write. *)
Definition acknowledge_event (cfg : DeadmanConfig) (event_id : string) (now : option Z) (free : Z)
    (w : write_outcome) (st : store) : res dict * store :=
  let name := json_name event_id in
  let loaded :=
    let! _ := dm_ensure (sha_re event_id) "event_id_must_be_sha256" in
    load_event_file cfg (outbox st) name in
  match loaded with
  | Raise e => (Raise e, st)
  | Ok event =>
      if dmem name (acks st) then
        (let! existing := load_ack_file cfg st name in
         let! _ := validate_ack_for_event cfg st name event in
         Ok existing, st)
      else
        let made :=
          let! now := require_utc now in
          let ack := make_ack cfg event_id event now in
          let! _ := ensure_artifact_space cfg free (json_size (VDict ack)) in
          Ok ack in
        match made with
        | Raise e => (Raise e, st)
        | Ok ack =>
            match atomic_write None w st (set_acks st (dset (acks st) name (written_file (VDict ack)))) with
            | (Raise e, st) => (Raise e, st)
            | (Ok _, st) => (Ok ack, st)
            end
        end
  end.
