(* ===== verification/DeadmanModel.v ===== *)
(** * What the dead-man outbox stores

    The events, cursors and acknowledgements Deadman.v writes, as records
    without hashes and formatting, and the proofs that each loads back from
    the file it was written to. *)

From S2P Require Import Prelude PyValue Sha Json JsonFile PyRegex PyTime P121Authority Deadman.

#[local] Opaque stable_hash isoformat fromisoformat.

(** ** File names, times and sizes *)

Lemma substring_prefix s : forall n t, n = String.length s -> String.substring 0 n (s +:+ t) = s.
Proof.
  induction s as [|c s IH]; intros n t ->; simpl; [by destruct t|]. f_equal. by apply IH.
Qed.

(** A suffix splits off again. *)
Lemma split_suffix s t :
  String.substring 0 (String.length (s +:+ t) - String.length t) (s +:+ t) = s /\
  String.substring (String.length (s +:+ t) - String.length t) (String.length t) (s +:+ t) = t.
Proof.
  rewrite length_string_app.
  replace (String.length s + String.length t - String.length t)%nat with (String.length s) by lia.
  split; [by apply substring_prefix|]. rewrite substring_drop. by apply substring_all.
Qed.

Lemma json_stem_name s : json_stem (json_name s) = Some s.
Proof.
  unfold json_stem, json_name. destruct (split_suffix s ".json") as [H1 H2].
  change (String.length ".json") with 5%nat in H1, H2. by rewrite H1, H2.
Qed.

Lemma json_name_inj a b : json_name a = json_name b -> a = b.
Proof. intros H. pose proof (json_stem_name a) as E. rewrite H, json_stem_name in E. congruence. Qed.

#[global] Instance json_name_Inj : Inj (=) (=) json_name.
Proof. intros a b. apply json_name_inj. Qed.

Lemma json_name_eqs a b : (json_name a =s json_name b) = (a =s b).
Proof.
  destruct (eqs_spec a b) as [->|Hn]; [apply eqs_refl|].
  apply String.eqb_neq. intros H. by apply Hn, json_name_inj.
Qed.

(** A time [datetime] can hold. *)
Definition in_calendar (us : Z) : Prop := 0 <= us /\ us / second / day_seconds < max_days.

Lemma parse_timestamp_ok us :
  in_calendar us -> parse_timestamp (VStr (timestamp us)) = Ok (us / second * second).
Proof.
  intros [H1 H2]. unfold parse_timestamp, timestamp, strip_z.
  destruct (split_suffix (isoformat us) "Z") as [E1 E2].
  change (String.length "Z") with 1%nat in E1, E2. rewrite E1, E2. cbn.
  by rewrite fromisoformat_isoformat.
Qed.

Lemma sha_re_stable_hash v : sha_re (stable_hash v) = true.
Proof. unfold sha_re. rewrite sha256_ref_stable_hash. apply orb_true_r. Qed.

#[export] Hint Resolve sha_re_stable_hash : py.

#[export] Hint Rewrite json_stem_name json_name_eqs : py.

(** ** Snapshots *)

(** The fields [normalize_watchdog_result] chooses. *)
Record snap := { sn_reason : string; sn_healthy : bool; sn_state_hash : val; sn_age : val }.

Definition snap_dict (cfg : DeadmanConfig) (s : snap) : dict :=
  make_snapshot cfg (sn_reason s) (sn_healthy s) (sn_state_hash s) (sn_age s).

Definition snap_fp (cfg : DeadmanConfig) (s : snap) : string := snapshot_fingerprint (snap_dict cfg s).

Definition state_hash_ok (v : val) : Prop :=
  v = VNone \/ exists h, v = VStr h /\ startswith "sha256:" h = true /\ sha_re h = true.

Definition age_ok (v : val) : Prop :=
  v = VNone \/
  (exists z, v = VInt z /\ 0 <= z <= MAX_CONFIG_INTEGER) \/
  (exists q, v = VFloat q /\ (0 <= q <= inject_Z MAX_CONFIG_INTEGER)%Q).

Record snap_ok (s : snap) : Prop := {
  so_reason : In (sn_reason s) NORMALIZED_REASONS;
  so_healthy : sn_healthy s = (sn_reason s =s "heartbeat_current");
  so_state_hash : state_hash_ok (sn_state_hash s);
  so_age : age_ok (sn_age s);
}.

Lemma bounded_number_ok v : age_ok (bounded_number v).
Proof.
  destruct v as [| |z|q| | | |]; try (by left); cbn.
  - destruct (_ || _) eqn:E; [by left|]. bools. right; left. eexists; split; [done|]. lia.
  - destruct (_ || _) eqn:E; [by left|]. bools. right; right. eexists; split; [done|].
    by rewrite <- !Qle_bool_iff.
Qed.

Lemma bounded_number_id v : age_ok v -> bounded_number v = v.
Proof.
  intros [->|[(z & -> & Hz)|(q & -> & H1 & H2)]]; cbn; [done| |].
  - destruct (_ || _) eqn:E; [|done]. apply orb_true_iff in E as [E|E]; bools; lia.
  - apply Qle_bool_iff in H1, H2. by rewrite H1, H2.
Qed.

Lemma sha256_state_ok v : state_hash_ok (sha256_state v).
Proof.
  destruct v; try (by left). cbn. destruct (_ && _) eqn:E; [|by left]. bools. right. eauto.
Qed.

Lemma state_hash_image v : state_hash_ok v -> json_image v = v.
Proof. by intros [->|(h & -> & _)]. Qed.

Lemma age_image v : age_ok v -> json_image v = v.
Proof. by intros [->|[(z & -> & _)|(q & -> & _)]]. Qed.

Lemma normalized_reason_ok reason healthy r h :
  normalized_reason reason healthy = Ok (r, h) -> In r NORMALIZED_REASONS /\ h = (r =s "heartbeat_current").
Proof.
  unfold normalized_reason. cbv zeta. intros H.
  repeat match type of H with
  | Ok _ = _ => injection H as <- <-; split; [by apply mem_In|done]
  | (if ?b then _ else _) = _ => destruct b
  | bind _ _ = _ => apply bind_ok in H as (? & _ & H)
  end.
Qed.

(** Every normalised verdict is a well-formed snapshot. *)
Lemma normalize_ok cfg result d :
  normalize_watchdog_result cfg result = Ok d -> exists s, d = snap_dict cfg s /\ snap_ok s.
Proof.
  unfold normalize_watchdog_result. destruct result; try done. intros H. inv_res.
  destruct a as [r h]. inv_res. apply normalized_reason_ok in H0 as [H1 H2].
  exists {| sn_reason := r; sn_healthy := h; sn_state_hash := sha256_state (vget d0 "state_hash");
            sn_age := bounded_number (vget d0 "heartbeat_age_seconds") |}.
  split; [done|]. constructor; simpl; auto using sha256_state_ok, bounded_number_ok.
Qed.

Section Snapshot.
Context (cfg : DeadmanConfig) (s : snap) (Hs : snap_ok s).

Lemma snap_fields d : d = snap_dict cfg s \/ d = dict_image (snap_dict cfg s) ->
  vget d "reason" = VStr (sn_reason s) /\ vget d "healthy" = VBool (sn_healthy s) /\
  vget d "state_hash" = sn_state_hash s /\ vget d "heartbeat_age_seconds" = sn_age s /\
  dget d "runtime_ref_hash" = Some (VStr (runtime_ref_hash cfg)) /\
  vget d "snapshot_fingerprint" = VStr (snap_fp cfg s).
Proof.
  pose proof (state_hash_image _ (so_state_hash _ Hs)) as H1.
  pose proof (age_image _ (so_age _ Hs)) as H2.
  intros [->| ->]; [done|]. rewrite !vget_image, dget_image.
  change (vget (snap_dict cfg s) "state_hash") with (sn_state_hash s).
  change (vget (snap_dict cfg s) "heartbeat_age_seconds") with (sn_age s).
  by rewrite H1, H2.
Qed.

Lemma snap_fp_image : snapshot_fingerprint (dict_image (snap_dict cfg s)) = snap_fp cfg s.
Proof.
  destruct (snap_fields _ (or_intror eq_refl)) as (E1 & E2 & E3 & _ & E5 & _).
  unfold snapshot_fingerprint. rewrite E1, E2, E3. unfold vget at 1. rewrite E5. done.
Qed.

Lemma snapshot_loads :
  sha_re (runtime_ref_hash cfg) = true ->
  validate_snapshot_shape (dict_image (snap_dict cfg s)) = Ok tt.
Proof.
  intros Hr. destruct (snap_fields _ (or_intror eq_refl)) as (E1 & E2 & E3 & E4 & E5 & E6).
  unfold validate_snapshot_shape. rewrite E1, E2, E3, E4, E6, same_keys_image.
  eapply bind_run; [by apply ensure_run|].
  eapply bind_run; [unfold in_set; cbn [hashable]; by rewrite (proj2 (mem_In _ _) (so_reason _ Hs))|].
  eapply bind_run; [by apply ensure_run|].
  eapply bind_run; [by apply ensure_run|].
  assert (Ec : py_eq (VStr (sn_reason s)) (VStr "heartbeat_current") = sn_healthy s).
  { rewrite (so_healthy _ Hs). done. }
  rewrite Ec. cbv zeta.
  eapply bind_run; [apply ensure_run; by destruct (sn_healthy s)|].
  eapply bind_run; [apply ensure_run; by destruct (sn_healthy s)|].
  eapply bind_run.
  { apply ensure_run. destruct (so_state_hash _ Hs) as [->|(h & -> & H1 & H2)]; [done|]. by rewrite H1, H2. }
  eapply bind_run.
  { apply ensure_run. rewrite (bounded_number_id _ (so_age _ Hs)).
    destruct (so_age _ Hs) as [->|[(z & -> & _)|(q & -> & _)]]; [done|..]; by apply py_eq_refl. }
  eapply bind_run.
  { unfold vget_or. rewrite E5. by apply ensure_run. }
  rewrite snap_fp_image. apply ensure_run, eqs_refl.
Qed.
End Snapshot.

(** ** Events *)

Record event := {
  ev_sequence : Z;
  ev_incident : string;
  ev_kind : string;
  ev_occurred : Z;
  ev_previous : option string;
  ev_snapshot : snap;
}.

Definition ev_id (cfg : DeadmanConfig) (e : event) : string :=
  event_id_of (config_hash cfg) (ev_sequence e) (ev_incident e) (ev_kind e) (snap_fp cfg (ev_snapshot e))
    (opt_val (ev_previous e)).

Definition ev_base (cfg : DeadmanConfig) (e : event) : dict :=
  [("schema_version", VStr EVENT_SCHEMA_VERSION); ("event_id", VStr (ev_id cfg e));
   ("incident_id", VStr (ev_incident e)); ("sequence", VInt (ev_sequence e));
   ("transition_kind", VStr (ev_kind e)); ("occurred_at", VStr (timestamp (ev_occurred e)));
   ("previous_event_id", opt_val (ev_previous e)); ("config_hash", VStr (config_hash cfg));
   ("snapshot", VDict (snap_dict cfg (ev_snapshot e)));
   ("authority_counters", VDict zero_authority_counters)].

Definition ev_hash (cfg : DeadmanConfig) (e : event) : string := stable_hash (VDict (ev_base cfg e)).

Definition ev_dict (cfg : DeadmanConfig) (e : event) : dict :=
  ev_base cfg e ++ [("event_hash", VStr (ev_hash cfg e))].

Definition ev_file (cfg : DeadmanConfig) (e : event) : string * file :=
  (json_name (ev_id cfg e), written_file (VDict (ev_dict cfg e))).

(** The event as it is read back. *)
Definition ev_loaded (cfg : DeadmanConfig) (e : event) : dict := dict_image (ev_dict cfg e).

Definition is_opened (kind : string) : bool := kind =s "opened".

Record event_ok (e : event) : Prop := {
  eo_sequence : 0 < ev_sequence e;
  eo_incident : sha_re (ev_incident e) = true;
  eo_kind : In (ev_kind e) TRANSITIONS;
  eo_occurred : in_calendar (ev_occurred e);
  eo_previous : match ev_previous e with
                | None => is_opened (ev_kind e) = true
                | Some p => is_opened (ev_kind e) = false /\ sha_re p = true
                end;
  eo_snapshot : snap_ok (ev_snapshot e);
}.

Section Event.
Context (cfg : DeadmanConfig) (e : event).

Lemma opt_val_image o : json_image (opt_val o) = opt_val o.
Proof. by destruct o. Qed.

Lemma ev_fields d : d = ev_dict cfg e \/ d = ev_loaded cfg e ->
  dget d "event_id" = Some (VStr (ev_id cfg e)) /\
  dget d "incident_id" = Some (VStr (ev_incident e)) /\
  dget d "sequence" = Some (VInt (ev_sequence e)) /\
  dget d "transition_kind" = Some (VStr (ev_kind e)) /\
  dget d "occurred_at" = Some (VStr (timestamp (ev_occurred e))) /\
  dget d "previous_event_id" = Some (opt_val (ev_previous e)) /\
  dget d "config_hash" = Some (VStr (config_hash cfg)) /\
  dget d "event_hash" = Some (VStr (ev_hash cfg e)).
Proof.
  intros [->| ->]; [done|]. unfold ev_loaded. rewrite !dget_image.
  split_and!; try done. cbn. by rewrite opt_val_image.
Qed.

Lemma ev_vget d k v : dget d k = Some v -> vget d k = v.
Proof. apply vget_some. Qed.

Lemma sequence_of_ev d : d = ev_dict cfg e \/ d = ev_loaded cfg e -> sequence_of d = ev_sequence e.
Proof. intros H. unfold sequence_of. by rewrite (ev_vget _ _ _ (proj1 (proj2 (proj2 (ev_fields _ H))))). Qed.

Lemma zero_authority_loads :
  validate_zero_authority (json_image (VDict zero_authority_counters)) = Ok tt.
Proof. vm_compute. reflexivity. Qed.

Lemma event_shape_loads :
  event_ok e -> sha_re (runtime_ref_hash cfg) = true -> validate_event_shape (ev_loaded cfg e) = Ok tt.
Proof.
  intros He Hr. destruct (ev_fields _ (or_intror eq_refl)) as (E1 & E2 & E3 & E4 & E5 & E6 & E7 & E8).
  unfold validate_event_shape, vget_or. rewrite E1, E2.
  rewrite (ev_vget _ _ _ E3), (ev_vget _ _ _ E4), (ev_vget _ _ _ E5), (ev_vget _ _ _ E6).
  eapply bind_run; [apply ensure_run, sha_re_stable_hash|].
  eapply bind_run; [apply ensure_run, He|].
  eapply bind_run; [apply ensure_run, Z.ltb_lt, He|].
  eapply bind_run; [unfold in_set; cbn [hashable]; by rewrite (proj2 (mem_In _ _) (eo_kind _ He))|].
  eapply bind_run; [by apply ensure_run|].
  eapply bind_run; [by apply parse_timestamp_ok, He|].
  pose proof (eo_previous _ He) as Hp. unfold is_opened in Hp. cbv zeta.
  change (py_eq (VStr (ev_kind e)) (VStr "opened")) with (ev_kind e =s "opened").
  eapply bind_run.
  { apply ensure_run. by destruct (ev_previous e) as [p|]; [destruct Hp as [_ Hp]; rewrite <- Hp|]. }
  eapply bind_run; [apply ensure_run; destruct (ev_previous e) as [p|]; [destruct Hp as [-> _]|]; auto using orb_true_r|].
  eapply bind_run; [apply ensure_run; destruct (ev_previous e) as [p|]; [|rewrite Hp]; auto using orb_true_r|].
  unfold ev_loaded. rewrite vget_image. change (vget (ev_dict cfg e) "snapshot") with (VDict (snap_dict cfg (ev_snapshot e))).
  rewrite json_image_dict. rewrite snapshot_loads; [|apply He|done].
  rewrite vget_image. apply zero_authority_loads.
Qed.

(** An event loads back from its file. *)
Lemma event_loads d :
  event_ok e -> sha_re (runtime_ref_hash cfg) = true ->
  dget d (json_name (ev_id cfg e)) = Some (written_file (VDict (ev_dict cfg e))) ->
  load_event_file cfg d (json_name (ev_id cfg e)) = Ok (ev_loaded cfg e).
Proof.
  intros He Hr Hd. destruct (ev_fields _ (or_intror eq_refl)) as (E1 & E2 & E3 & E4 & E5 & E6 & E7 & E8).
  destruct (snap_fields cfg _ (eo_snapshot _ He) _ (or_intror eq_refl)) as (_ & _ & _ & _ & S5 & S6).
  unfold load_event_file. rewrite json_stem_name, Hd.
  eapply bind_run; [apply ensure_run, sha_re_stable_hash|].
  eapply bind_run; [reflexivity|]. eapply bind_run; [reflexivity|].
  change (f_size (written_file (VDict (ev_dict cfg e)))) with (json_size (VDict (ev_dict cfg e))).
  rewrite json_image_dict. fold (ev_loaded cfg e).
  eapply bind_run; [apply ensure_run; unfold ev_loaded; by rewrite same_keys_image|].
  rewrite (ev_vget _ _ _ E1), (ev_vget _ _ _ E7), (ev_vget _ _ _ E8), (ev_vget _ _ _ E2),
    (ev_vget _ _ _ E3), (ev_vget _ _ _ E4), (ev_vget _ _ _ E6).
  eapply bind_run; [apply ensure_run, eqs_refl|].
  eapply bind_run; [apply ensure_run; unfold ev_loaded; by rewrite vget_image|].
  eapply bind_run; [apply ensure_run, eqs_refl|].
  eapply bind_run; [apply ensure_run; unfold ev_loaded; rewrite stable_hash_without_image; apply eqs_refl|].
  eapply bind_run; [apply ensure_run; unfold ev_loaded; rewrite json_size_image; apply Z.eqb_refl|].
  eapply bind_run; [by apply event_shape_loads|].
  assert (Es : event_snapshot (ev_loaded cfg e) = dict_image (snap_dict cfg (ev_snapshot e))).
  { unfold event_snapshot, ev_loaded. by rewrite vget_image. }
  rewrite Es, (ev_vget _ _ _ S5), S6.
  eapply bind_run; [apply ensure_run, eqs_refl|]. eapply bind_run; [reflexivity|].
  eapply bind_run; [apply ensure_run, eqs_refl|]. reflexivity.
Qed.
End Event.

(** ** Cursors *)

Record incident := {
  in_id : string;
  in_opened : Z;
  in_reason : string;
  in_fingerprint : string;
  in_last_event : string;
  in_emitted : Z;
}.

Record cursor := { cu_next : Z; cu_checked : option Z; cu_active : option incident }.

Definition start_cursor : cursor := {| cu_next := 1; cu_checked := None; cu_active := None |}.

Definition incident_dict (i : incident) : dict :=
  [("incident_id", VStr (in_id i)); ("opened_at", VStr (timestamp (in_opened i)));
   ("last_reason", VStr (in_reason i)); ("last_snapshot_fingerprint", VStr (in_fingerprint i));
   ("last_event_id", VStr (in_last_event i)); ("last_emitted_at", VStr (timestamp (in_emitted i)))].

Definition active_val (o : option incident) : val :=
  match o with Some i => VDict (incident_dict i) | None => VNone end.

Definition checked_val (o : option Z) : val :=
  match o with Some t => VStr (timestamp t) | None => VNone end.

Definition cursor_dict (cfg : DeadmanConfig) (c : cursor) : dict :=
  [("schema_version", VStr CURSOR_SCHEMA_VERSION); ("config_hash", VStr (config_hash cfg));
   ("next_sequence", VInt (cu_next c)); ("last_checked_at", checked_val (cu_checked c));
   ("active_incident", active_val (cu_active c)); ("authority_counters", VDict zero_authority_counters)].

Definition cursor_written (cfg : DeadmanConfig) (c : cursor) : file :=
  written_file (VDict (hashed_cursor (cursor_dict cfg c))).

Definition cursor_loaded (cfg : DeadmanConfig) (c : cursor) : dict :=
  dict_image (hashed_cursor (cursor_dict cfg c)).

(** The dictionary [load_cursor] returns of a saved or missing cursor. *)
Definition cursor_read (cfg : DeadmanConfig) (saved : option cursor) : dict :=
  match saved with Some c => cursor_loaded cfg c | None => fresh_cursor cfg end.

Record incident_ok (i : incident) : Prop := {
  io_id : sha_re (in_id i) = true;
  io_opened : in_calendar (in_opened i);
  io_reason : In (in_reason i) NORMALIZED_REASONS /\ in_reason i <> "heartbeat_current";
  io_fingerprint : sha_re (in_fingerprint i) = true;
  io_last_event : sha_re (in_last_event i) = true;
  io_emitted : in_calendar (in_emitted i);
}.

Record cursor_ok (c : cursor) : Prop := {
  co_next : 0 < cu_next c;
  co_checked : forall t, cu_checked c = Some t -> in_calendar t;
  co_active : forall i, cu_active c = Some i -> incident_ok i;
}.

(** The active incident as a cursor that was read holds it. *)
Definition incident_read (d : dict) (i : incident) : Prop :=
  d = incident_dict i \/ d = dict_image (incident_dict i).

Definition active_read (v : val) (o : option incident) : Prop :=
  match o with
  | None => v = VNone
  | Some i => exists d, v = VDict d /\ incident_read d i
  end.

Lemma incident_fields d i : incident_read d i ->
  same_keys d ACTIVE_INCIDENT_FIELDS = true /\
  dget d "incident_id" = Some (VStr (in_id i)) /\
  dget d "opened_at" = Some (VStr (timestamp (in_opened i))) /\
  dget d "last_reason" = Some (VStr (in_reason i)) /\
  dget d "last_snapshot_fingerprint" = Some (VStr (in_fingerprint i)) /\
  dget d "last_event_id" = Some (VStr (in_last_event i)) /\
  dget d "last_emitted_at" = Some (VStr (timestamp (in_emitted i))).
Proof. intros [->| ->]; [done|]. by rewrite same_keys_image, !dget_image. Qed.

Lemma incident_loads i : incident_ok i -> validate_active_incident (json_image (VDict (incident_dict i))) = Ok tt.
Proof.
  intros Hi. destruct (incident_fields _ i (or_intror eq_refl)) as (E0 & E1 & E2 & E3 & E4 & E5 & E6).
  rewrite json_image_dict. unfold validate_active_incident. rewrite E0.
  rewrite (vget_some _ _ _ E1), (vget_some _ _ _ E2), (vget_some _ _ _ E3), (vget_some _ _ _ E4),
    (vget_some _ _ _ E5), (vget_some _ _ _ E6).
  destruct (io_reason _ Hi) as [H1 H2].
  eapply bind_run; [by apply ensure_run|].
  eapply bind_run; [apply ensure_run, Hi|]. eapply bind_run; [apply ensure_run, Hi|].
  eapply bind_run; [apply ensure_run, Hi|].
  eapply bind_run; [unfold in_set; cbn [hashable]; by rewrite (proj2 (mem_In _ _) H1)|].
  eapply bind_run.
  { apply ensure_run. cbn [andb]. apply negb_true_iff.
    change (py_eq (VStr (in_reason i)) (VStr "heartbeat_current")) with (in_reason i =s "heartbeat_current").
    by apply String.eqb_neq. }
  eapply bind_run; [by apply parse_timestamp_ok, Hi|].
  eapply bind_run; [by apply parse_timestamp_ok, Hi|]. done.
Qed.

Section Cursor.
Context (cfg : DeadmanConfig).

Lemma hashed_cursor_eq c :
  hashed_cursor (cursor_dict cfg c) =
  cursor_dict cfg c ++ [("cursor_hash", VStr (stable_hash (VDict (cursor_dict cfg c))))].
Proof. done. Qed.

Lemma cursor_fields saved : let c := default start_cursor saved in let d := cursor_read cfg saved in
  dget d "next_sequence" = Some (VInt (cu_next c)) /\
  vget d "last_checked_at" = checked_val (cu_checked c) /\
  active_read (vget d "active_incident") (cu_active c).
Proof.
  destruct saved as [c|]; [|done]. cbv zeta. change (default start_cursor (Some c)) with c; cbn [cursor_read]. unfold cursor_loaded.
  rewrite dget_image, !vget_image, hashed_cursor_eq.
  change (vget (cursor_dict cfg c ++ _) "last_checked_at") with (checked_val (cu_checked c)).
  change (vget (cursor_dict cfg c ++ _) "active_incident") with (active_val (cu_active c)).
  split_and!; [done| by destruct (cu_checked c) |].
  destruct (cu_active c) as [i|]; [|done]. eexists; split; [apply json_image_dict|]. by right.
Qed.

Lemma next_sequence_read saved : next_sequence (cursor_read cfg saved) = cu_next (default start_cursor saved).
Proof.
  unfold next_sequence. destruct (cursor_fields saved) as [H _]. by rewrite (vget_some _ _ _ H).
Qed.

(** A cursor loads back from its file. *)
Lemma cursor_loads st saved :
  (forall c, saved = Some c -> cursor_ok c) -> cursor_file st = option_map (cursor_written cfg) saved ->
  load_cursor cfg st = Ok (cursor_read cfg saved).
Proof.
  intros Hok Hst. unfold load_cursor. rewrite Hst. destruct saved as [c|]; [|done].
  specialize (Hok c eq_refl). cbn [option_map cursor_read].
  apply (bind_run _ _ (cursor_loaded cfg c)); [reflexivity|].
  destruct (cursor_fields (Some c)) as (E1 & E2 & E3). cbn [cursor_read] in E1, E2, E3; change (default start_cursor (Some c)) with c in E1, E2, E3.
  rewrite (vget_some _ _ _ E1), E2.
  eapply bind_run; [apply ensure_run; unfold cursor_loaded; by rewrite same_keys_image|].
  eapply bind_run.
  { apply ensure_run. unfold cursor_loaded. rewrite vget_image, stable_hash_without_image, hashed_cursor_eq.
    apply eqs_refl. }
  unfold cursor_loaded. rewrite !vget_image, hashed_cursor_eq.
  eapply bind_run; [by apply ensure_run|]. eapply bind_run; [apply ensure_run, eqs_refl|].
  eapply bind_run; [apply zero_authority_loads|].
  eapply bind_run; [apply ensure_run, Z.ltb_lt, Hok|].
  assert (exists z, match checked_val (cu_checked c) with VNone => Ok 0 | v => parse_timestamp v end = Ok z)
    as [z Hz].
  { destruct (cu_checked c) as [t|] eqn:Et; cbn [checked_val]; [|by eexists].
    eexists. apply parse_timestamp_ok. by apply (co_checked _ Hok). }
  eapply bind_run; [exact Hz|].
  change (vget (cursor_dict cfg c ++ _) "active_incident") with (active_val (cu_active c)).
  eapply bind_run; [|reflexivity].
  destruct (cu_active c) as [i|] eqn:Ei; [|done]. cbn [active_val]. rewrite json_image_dict.
  rewrite <- json_image_dict. by apply incident_loads, (co_active _ Hok).
Qed.

(** Refreshing the time of a cursor that was read. *)
Lemma cursor_refreshed saved now :
  written_file (VDict (hashed_cursor (dset (cursor_read cfg saved) "last_checked_at" (VStr (timestamp now))))) =
  cursor_written cfg
    {| cu_next := cu_next (default start_cursor saved); cu_checked := Some now;
       cu_active := cu_active (default start_cursor saved) |}.
Proof.
  destruct saved as [c|]; [|done]. cbv zeta. change (default start_cursor (Some c)) with c; cbn [cursor_read].
  apply written_file_image. rewrite hashed_cursor_eq.
  assert (E : forall d d', json_image (VDict d) = json_image (VDict d') ->
              stable_hash (VDict d) = stable_hash (VDict d')).
  { intros d d' H. by rewrite <- stable_hash_image, H, stable_hash_image. }
  unfold hashed_cursor.
  match goal with |- context [stable_hash (VDict (dwithout ?k ?d))] =>
    rewrite (E (dwithout k d) (cursor_dict cfg {| cu_next := cu_next c; cu_checked := Some now; cu_active := cu_active c |})) end.
  all: destruct c as [n t [i|]], t as [t|]; reflexivity.
Qed.
End Cursor.

(** ** Acknowledgements *)

Record ack := { ak_event : string; ak_event_hash : string; ak_at : Z }.

Definition ack_base (cfg : DeadmanConfig) (a : ack) : dict :=
  [("schema_version", VStr ACK_SCHEMA_VERSION); ("event_id", VStr (ak_event a));
   ("event_hash", VStr (ak_event_hash a)); ("config_hash", VStr (config_hash cfg));
   ("acknowledged_at", VStr (timestamp (ak_at a))); ("authority_counters", VDict zero_authority_counters)].

Definition ack_dict (cfg : DeadmanConfig) (a : ack) : dict :=
  ack_base cfg a ++ [("ack_hash", VStr (stable_hash (VDict (ack_base cfg a))))].

Definition ack_file (cfg : DeadmanConfig) (a : ack) : string * file :=
  (json_name (ak_event a), written_file (VDict (ack_dict cfg a))).

Definition ack_loaded (cfg : DeadmanConfig) (a : ack) : dict := dict_image (ack_dict cfg a).

Record ack_ok (a : ack) : Prop := {
  ao_event : sha_re (ak_event a) = true;
  ao_event_hash : sha_re (ak_event_hash a) = true;
  ao_at : in_calendar (ak_at a);
}.

Section Ack.
Context (cfg : DeadmanConfig) (a : ack).

Lemma ack_fields d : d = ack_dict cfg a \/ d = ack_loaded cfg a ->
  dget d "event_id" = Some (VStr (ak_event a)) /\
  dget d "event_hash" = Some (VStr (ak_event_hash a)) /\
  dget d "acknowledged_at" = Some (VStr (timestamp (ak_at a))).
Proof. intros [->| ->]; [done|]. unfold ack_loaded. by rewrite !dget_image. Qed.

(** An acknowledgement loads back from its file. *)
Lemma ack_loads st :
  ack_ok a -> dget (acks st) (json_name (ak_event a)) = Some (written_file (VDict (ack_dict cfg a))) ->
  load_ack_file cfg st (json_name (ak_event a)) = Ok (ack_loaded cfg a).
Proof.
  intros Ha Hd. destruct (ack_fields _ (or_intror eq_refl)) as (E1 & E2 & E3).
  unfold load_ack_file. rewrite json_stem_name, Hd.
  eapply bind_run; [apply ensure_run, Ha|]. eapply bind_run; [reflexivity|].
  eapply bind_run; [reflexivity|]. rewrite json_image_dict. fold (ack_loaded cfg a).
  unfold vget_or. rewrite E2, (vget_some _ _ _ E1), (vget_some _ _ _ E3).
  eapply bind_run; [apply ensure_run; unfold ack_loaded; by rewrite same_keys_image|].
  eapply bind_run; [apply ensure_run, eqs_refl|].
  unfold ack_loaded. rewrite !vget_image, stable_hash_without_image.
  eapply bind_run; [by apply ensure_run|]. eapply bind_run; [apply ensure_run, eqs_refl|].
  eapply bind_run; [apply ensure_run, Ha|]. eapply bind_run; [apply ensure_run, eqs_refl|].
  eapply bind_run; [by apply parse_timestamp_ok, Ha|].
  eapply bind_run; [apply zero_authority_loads|]. done.
Qed.
End Ack.

(** ** Stores *)

Record model := { m_events : list event; m_acks : list ack; m_cursor : option cursor }.

Definition the_cursor (m : model) : cursor := default start_cursor (m_cursor m).

Definition model_store (cfg : DeadmanConfig) (m : model) : store := {|
  outbox := map (ev_file cfg) (m_events m);
  acks := map (ack_file cfg) (m_acks m);
  cursor_file := option_map (cursor_written cfg) (m_cursor m) |}.

(** An event that is one step ahead of the cursor continues what the cursor
    says. *)
Definition continues (o : option incident) (e : event) : Prop :=
  match o with
  | None => ev_kind e = "opened" /\ ev_previous e = None
  | Some i => In (ev_kind e) ["updated"; "reminder"; "recovered"] /\ ev_incident e = in_id i /\
              ev_previous e = Some (in_last_event i)
  end.

(** [e'] is the predecessor [e] names. *)
Definition links_to (cfg : DeadmanConfig) (e e' : event) : Prop := ev_previous e = Some (ev_id cfg e').

Record coherent (cfg : DeadmanConfig) (m : model) : Prop := {
  ch_events : Forall event_ok (m_events m);
  ch_ids : NoDup (map (ev_id cfg) (m_events m));
  ch_sequences : NoDup (map ev_sequence (m_events m));
  ch_links : forall e e', In e (m_events m) -> In e' (m_events m) -> links_to cfg e e' ->
      ev_sequence e' < ev_sequence e /\ ev_incident e' = ev_incident e;
  ch_acks : Forall ack_ok (m_acks m);
  ch_ack_ids : NoDup (map ak_event (m_acks m));
  ch_cursor : forall c, m_cursor m = Some c -> cursor_ok c;
  ch_ahead : forall e, In e (m_events m) ->
      ev_sequence e < cu_next (the_cursor m) \/
      (ev_sequence e = cu_next (the_cursor m) /\ continues (cu_active (the_cursor m)) e);
  ch_active : forall e i, In e (m_events m) -> cu_active (the_cursor m) = Some i ->
      in_last_event i = ev_id cfg e -> ev_incident e = in_id i;
}.
