(* ===== verification/DeadmanStore.v ===== *)
(** * Reading a coherent dead-man outbox

    The store of a coherent model passes every check of Deadman.v that reads
    it: the events load in file order, their links hold, the cursor and the
    acknowledgements load. *)

From S2P Require Import Prelude PyValue Sha Json JsonFile PyRegex PyTime P121Authority Deadman DeadmanModel.

#[local] Opaque stable_hash isoformat fromisoformat ev_id json_name written_file.

Definition ev_entry (cfg : DeadmanConfig) (e : event) : string * dict := (ev_id cfg e, ev_loaded cfg e).

Lemma ev_ids_entries cfg es : map fst (map (ev_entry cfg) es) = map (ev_id cfg) es.
Proof. by rewrite map_map. Qed.

Lemma dget_entries cfg es e :
  NoDup (map (ev_id cfg) es) -> In e es -> dget (map (ev_entry cfg) es) (ev_id cfg e) = Some (ev_loaded cfg e).
Proof.
  intros Hn He. apply In_dget; [unfold dict_wf, dkeys; by rewrite ev_ids_entries|].
  apply in_map_iff. exists e. exact (conj eq_refl He).
Qed.

Lemma dget_entries_some cfg es p d :
  dget (map (ev_entry cfg) es) p = Some d -> exists e, In e es /\ p = ev_id cfg e /\ d = ev_loaded cfg e.
Proof. intros H%dget_In. apply in_map_iff in H as (e & [= <- <-] & He). eauto. Qed.

Lemma dmem_entries cfg es p : dmem p (map (ev_entry cfg) es) = true <-> In p (map (ev_id cfg) es).
Proof. unfold dmem, dkeys. rewrite ev_ids_entries. apply mem_In. Qed.

Lemma dget_outbox cfg es e :
  NoDup (map (ev_id cfg) es) -> In e es ->
  dget (map (ev_file cfg) es) (json_name (ev_id cfg e)) = Some (written_file (VDict (ev_dict cfg e))).
Proof.
  intros Hn He. induction es as [|e0 es IH]; [done|]. simpl in *. rewrite json_name_eqs.
  apply NoDup_cons in Hn as [Hn0 Hn]. destruct He as [->|He]; [by rewrite eqs_refl|].
  destruct (eqs_spec (ev_id cfg e) (ev_id cfg e0)) as [Heq|]; [|auto].
  exfalso. apply Hn0. rewrite <- Heq. apply list_elem_of_In, in_map_iff. exists e. exact (conj eq_refl He).
Qed.

Lemma dmem_outbox cfg es id :
  dmem (json_name id) (map (ev_file cfg) es) = true <-> In id (map (ev_id cfg) es).
Proof.
  unfold dmem, dkeys. rewrite mem_In, !map_map, !in_map_iff. split; intros (e & H & He); exists e.
  - split; [by apply json_name_inj | done].
  - split; [subst; reflexivity | done].
Qed.

Section Store.
Context (cfg : DeadmanConfig) (Hcfg : sha_re (runtime_ref_hash cfg) = true).

(** *** Events *)

Lemma load_events_ok d es acc :
  Forall event_ok es ->
  (forall e, In e es -> dget d (json_name (ev_id cfg e)) = Some (written_file (VDict (ev_dict cfg e)))) ->
  NoDup (map (ev_id cfg) (acc ++ es)) -> NoDup (map ev_sequence (acc ++ es)) ->
  load_events cfg d (map (fun e => json_name (ev_id cfg e)) es) (map (ev_entry cfg) acc) =
  Ok (map (ev_entry cfg) (acc ++ es)).
Proof.
  intros He. revert acc. induction He as [|e es He Hes IH]; intros acc Hd Hi Hs; simpl.
  { by rewrite app_nil_r. }
  eapply bind_run; [apply event_loads; [done..|]; apply Hd; by left|].
  destruct (ev_fields cfg e _ (or_intror eq_refl)) as (E1 & _).
  rewrite (vget_some _ _ _ E1). cbn [py_str].
  replace (acc ++ e :: es) with ((acc ++ [e]) ++ es) in * by (by rewrite <- app_assoc).
  eapply bind_run.
  { apply ensure_run, negb_true_iff, not_true_iff_false. rewrite dmem_entries. intros Hin.
    rewrite !map_app in Hi. apply NoDup_app in Hi as (Hi & _ & _). simpl in Hi.
    apply NoDup_app in Hi as (_ & Hi & _). apply (Hi (ev_id cfg e)); [by apply list_elem_of_In|].
    apply list_elem_of_In. by left. }
  eapply bind_run.
  { apply ensure_run, negb_true_iff, not_true_iff_false. intros Hex.
    apply existsb_exists in Hex as ((i & d') & Hin & Heq). apply in_map_iff in Hin as (e' & [= <- <-] & He').
    change (sequence_of (ev_loaded cfg e') =? sequence_of (ev_loaded cfg e) = true) in Heq.
    rewrite (sequence_of_ev cfg e' _ (or_intror eq_refl)), (sequence_of_ev cfg e _ (or_intror eq_refl)) in Heq.
    bools.
    rewrite !map_app in Hs. apply NoDup_app in Hs as (Hs & _ & _). simpl in Hs.
    apply NoDup_app in Hs as (_ & Hs & _). apply (Hs (ev_sequence e)).
    - apply list_elem_of_In, in_map_iff. by exists e'.
    - apply list_elem_of_In. by left. }
  replace (map (ev_entry cfg) acc ++ [(ev_id cfg e, ev_loaded cfg e)]) with (map (ev_entry cfg) (acc ++ [e]))
    by (by rewrite map_app).
  apply IH; [|done..]. intros e' He'. apply Hd. by right.
Qed.

Lemma check_link_ok m es e :
  coherent cfg m -> Permutation es (m_events m) -> In e es ->
  check_link (map (ev_entry cfg) es) (ev_entry cfg e) = Ok tt.
Proof.
  intros Hm Hp He. cbn [ev_entry check_link].
  destruct (ev_fields cfg e _ (or_intror eq_refl)) as (_ & E2 & _ & _ & _ & E6 & _).
  rewrite (vget_some _ _ _ E6), (vget_some _ _ _ E2).
  destruct (ev_previous e) as [p|] eqn:Ep; [|done]. cbn [opt_val].
  destruct (dget _ p) as [d|] eqn:Ed; [|done].
  apply dget_entries_some in Ed as (e' & He' & -> & ->).
  destruct (ev_fields cfg e' _ (or_intror eq_refl)) as (F1 & F2 & _).
  rewrite (vget_some _ _ _ F1), (vget_some _ _ _ F2),
    (sequence_of_ev cfg e _ (or_intror eq_refl)), (sequence_of_ev cfg e' _ (or_intror eq_refl)).
  destruct (ch_links _ _ Hm e e') as [Hlt Heq];
    [exact (Permutation_in _ Hp He) | exact (Permutation_in _ Hp He') | exact Ep |].
  eapply bind_run; [apply ensure_run, Z.ltb_lt, Hlt|].
  eapply bind_run; [apply ensure_run; rewrite Heq; apply eqs_refl|].
  apply ensure_run, negb_true_iff, String.eqb_neq. intros Hid.
  assert (Hee : e' = e); [|rewrite Hee in Hlt; lia].
  pose proof (ch_ids _ _ Hm) as Hn. rewrite <- Hp in Hn. by apply (NoDup_map_eq (ev_id cfg) es).
Qed.

(** The events in the order their files are listed. *)
Definition listed (m : model) (es : list event) : Prop :=
  Permutation es (m_events m) /\
  file_names (map (ev_file cfg) (m_events m)) = map (fun e => json_name (ev_id cfg e)) es.

Lemma listed_exists m : exists es, listed m es.
Proof.
  unfold listed, file_names, sorted_strings, dkeys. rewrite map_map.
  destruct (Permutation_map_inv (fun e => json_name (ev_id cfg e)) (m_events m)
              (l1 := isort String.leb (map (fun e => (ev_file cfg e).1) (m_events m)))) as (es & H1 & H2).
  { apply isort_perm. }
  exists es. split; [by symmetry|]. exact H1.
Qed.

Lemma validated_events_ok m es :
  coherent cfg m -> listed m es ->
  validated_events cfg (model_store cfg m) = Ok (map (ev_entry cfg) es).
Proof.
  intros Hm [Hp Hn]. unfold validated_events. cbn [model_store outbox]. rewrite Hn.
  assert (Hids : NoDup (map (ev_id cfg) es)) by (rewrite Hp; apply Hm).
  apply (bind_run _ _ (map (ev_entry cfg) es)).
  - apply (load_events_ok _ es []); [rewrite Hp; apply Hm| | exact Hids | cbn [app]; rewrite Hp; apply Hm].
    intros e He. apply dget_outbox; [apply Hm|]. exact (Permutation_in _ Hp He).
  - eapply bind_run; [|reflexivity]. apply iterM_ok, Forall_forall. intros x Hx%list_elem_of_In.
    apply in_map_iff in Hx as (e & <- & He). exact (check_link_ok m es e Hm Hp He).
Qed.

Lemma find_sequence es n :
  match event_id_for_sequence (map (ev_entry cfg) es) n with
  | Some id => exists e, In e es /\ id = ev_id cfg e /\ ev_sequence e = n
  | None => forall e, In e es -> ev_sequence e <> n
  end.
Proof.
  unfold event_id_for_sequence. induction es as [|e es IH]; [by intros ? []|].
  cbn [map List.find ev_entry snd].
  destruct (ev_fields cfg e _ (or_intror eq_refl)) as (_ & _ & E3 & _).
  rewrite (vget_some _ _ _ E3), py_eq_int.
  destruct (Z.eqb_spec (ev_sequence e) n) as [Heq|Hne].
  - exists e. split; [by left|]. split; [reflexivity | exact Heq].
  - destruct (List.find _ (map _ es)) as [[id d]|].
    + destruct IH as (e' & H1 & H2 & H3). exists e'. split; [by right|]. split; [exact H2 | exact H3].
    + intros e' [<-|He']; [exact Hne | exact (IH e' He')].
Qed.

Lemma highest_acc es : forall h, fold_left (fun m e => Z.max m (sequence_of e.2)) (map (ev_entry cfg) es) h =
  fold_right (fun e m => Z.max (ev_sequence e) m) h es.
Proof.
  assert (Hc : forall es h x, fold_right (fun e m => Z.max (ev_sequence e) m) (Z.max h x) es =
                           Z.max (fold_right (fun e m => Z.max (ev_sequence e) m) h es) x).
  { intros l h x. induction l as [|e l IH]; simpl; [lia|]. rewrite IH. lia. }
  induction es as [|e es IH]; intros h; [done|]. cbn [map fold_left ev_entry snd fold_right].
  rewrite (sequence_of_ev cfg e _ (or_intror eq_refl)), IH, Hc. lia.
Qed.

Lemma highest_spec es : Forall event_ok es ->
  let h := highest_sequence (map (ev_entry cfg) es) in
  (forall e, In e es -> ev_sequence e <= h) /\ (h = 0 \/ exists e, In e es /\ ev_sequence e = h).
Proof.
  intros _. cbv zeta. unfold highest_sequence. rewrite highest_acc.
  induction es as [|e es [IH1 IH2]]; simpl; [by split; [intros ? []|left]|]. split.
  - intros e' [<-|He']; [lia|]. specialize (IH1 e' He'). lia.
  - destruct (Z.max_spec (ev_sequence e) (fold_right (fun e m => Z.max (ev_sequence e) m) 0 es))
      as [[_ ->]|[_ ->]]; [|right; by eauto].
    destruct IH2 as [?|(e' & ? & ?)]; [by left|right; by eauto].
Qed.

(** A coherent store passes the sequence check. *)
Lemma sequence_check_ok m :
  coherent cfg m ->
  validate_sequence_against_events cfg (model_store cfg m) (cursor_read cfg (m_cursor m)) = Ok tt.
Proof.
  intros Hm. destruct (listed_exists m) as (es & Hl). pose proof Hl as [Hp _].
  unfold validate_sequence_against_events. rewrite (validated_events_ok m es Hm Hl). cbn [bind].
  rewrite next_sequence_read. fold (the_cursor m).
  destruct (highest_spec es) as [H1 H2]; [rewrite Hp; apply Hm|].
  destruct (Z.ltb_spec (highest_sequence (map (ev_entry cfg) es)) (cu_next (the_cursor m))) as [|Hge]; [done|].
  assert (Hpos : 0 < cu_next (the_cursor m)).
  { unfold the_cursor. destruct (m_cursor m) as [c|] eqn:Ec; [|done]. apply (co_next c), (ch_cursor _ _ Hm), Ec. }
  destruct H2 as [H2|(e & He & H2)]; [lia|].
  destruct (ch_ahead _ _ Hm e (Permutation_in _ Hp He)) as [|[Hseq Hc]]; [lia|].
  rewrite (proj2 (Z.ltb_ge _ _)) by lia.
  pose proof (find_sequence es (cu_next (the_cursor m))) as Hf.
  destruct (event_id_for_sequence _ _) as [id|]; [|by apply Hf in He].
  destruct Hf as (e' & He' & -> & Hseq').
  rewrite (dget_entries cfg es e'); [|rewrite Hp; apply Hm | exact He'].
  assert (Hee : e' = e).
  { apply (NoDup_map_eq ev_sequence es); [rewrite Hp; apply Hm| exact He' | exact He | lia]. }
  rewrite Hee. apply ensure_run.
  destruct (cursor_fields cfg (m_cursor m)) as (_ & _ & Ha). fold (the_cursor m) in Ha.
  destruct (ev_fields cfg e _ (or_intror eq_refl)) as (_ & E2 & _ & E4 & _ & E6 & _).
  unfold continues in Hc. destruct (cu_active (the_cursor m)) as [i|].
  - destruct Ha as (d & -> & Hi). destruct Hc as (Hk & Hin & Hprev).
    destruct (incident_fields d i Hi) as (_ & F1 & _ & _ & _ & F5 & _).
    cbn [replay_is_compatible].
    rewrite (vget_some _ _ _ E2), (vget_some _ _ _ E4), (vget_some _ _ _ E6),
      (vget_some _ _ _ F1), (vget_some _ _ _ F5), Hin, Hprev. cbn [opt_val].
    change (py_eq (VStr (in_id i)) (VStr (in_id i))) with (in_id i =s in_id i).
    change (py_eq (VStr (in_last_event i)) (VStr (in_last_event i))) with (in_last_event i =s in_last_event i).
    rewrite !eqs_refl, !andb_true_r. apply existsb_exists. exists (ev_kind e). split; [exact Hk | apply eqs_refl].
  - rewrite Ha. destruct Hc as [Hk Hprev]. cbn [replay_is_compatible].
    rewrite (vget_some _ _ _ E4), (vget_some _ _ _ E6), Hk, Hprev. done.
Qed.

(** *** Acknowledgements *)

Lemma dget_acks (l : list ack) a :
  NoDup (map ak_event l) -> In a l ->
  dget (map (ack_file cfg) l) (json_name (ak_event a)) = Some (written_file (VDict (ack_dict cfg a))).
Proof.
  intros Hn Ha. apply (In_dget (map (ack_file cfg) l)); [|apply in_map_iff; by exists a].
  unfold dict_wf, dkeys. rewrite map_map. apply (NoDup_fmap_2 json_name) in Hn.
  change (NoDup (map json_name (map ak_event l))) in Hn. rewrite map_map in Hn. exact Hn.
Qed.

Lemma dmem_acks (l : list ack) id :
  dmem (json_name id) (map (ack_file cfg) l) = true <-> In id (map ak_event l).
Proof.
  unfold dmem, dkeys. rewrite mem_In, !map_map, !in_map_iff. split; intros (a & H & Ha); exists a.
  - split; [by apply json_name_inj | done].
  - split; [by subst | done].
Qed.

Lemma ack_loads_in m a st :
  coherent cfg m -> acks st = map (ack_file cfg) (m_acks m) -> In a (m_acks m) ->
  load_ack_file cfg st (json_name (ak_event a)) = Ok (ack_loaded cfg a).
Proof.
  intros Hm Hst Ha. apply ack_loads.
  - pose proof (ch_acks _ _ Hm) as Hf. rewrite Forall_forall in Hf. by apply Hf, list_elem_of_In.
  - rewrite Hst. apply dget_acks; [apply Hm | done].
Qed.

Lemma validated_acks_ok m :
  coherent cfg m ->
  exists ids, validated_acks cfg (model_store cfg m) = Ok ids /\ Permutation ids (map ak_event (m_acks m)).
Proof.
  intros Hm. unfold validated_acks, file_names, sorted_strings, dkeys. cbn [model_store acks]. rewrite map_map.
  destruct (Permutation_map_inv (fun a => json_name (ak_event a)) (m_acks m)
              (l1 := isort String.leb (map (fun a => (ack_file cfg a).1) (m_acks m)))) as (l & H1 & H2).
  { apply isort_perm. }
  exists (map ak_event l). split; [|by rewrite H2].
  apply mapM_ok. cbn [fst ack_file] in H1. unfold ack_file in H1 |- *. cbn [fst] in H1 |- *. rewrite H1.
  assert (Hin : forall a, In a l -> In a (m_acks m)) by (intros a; apply Permutation_in; by symmetry).
  clear H1 H2. induction l as [|a l IH]; [constructor|]. constructor; [|apply IH; intros; apply Hin; by right].
  eapply bind_run; [apply (ack_loads_in m); [done| done | apply Hin; by left]|].
  destruct (ack_fields cfg a _ (or_intror eq_refl)) as (E1 & _). by rewrite (vget_some _ _ _ E1).
Qed.

(** *** Smaller stores *)

(** [m'] is [m] with some events and acknowledgements gone. *)
Record sub_model (m' m : model) : Prop := {
  sm_events : m_events m' `sublist_of` m_events m;
  sm_acks : m_acks m' `sublist_of` m_acks m;
  sm_cursor : m_cursor m' = m_cursor m;
}.

Lemma sub_model_refl m : sub_model m m.
Proof. by constructor. Qed.

Lemma sub_model_trans m1 m2 m3 : sub_model m1 m2 -> sub_model m2 m3 -> sub_model m1 m3.
Proof. intros [H1 H2 H3] [G1 G2 G3]. constructor; [by etrans..|congruence]. Qed.

Lemma sub_events m' m e : sub_model m' m -> In e (m_events m') -> In e (m_events m).
Proof. intros [H _ _] He. apply list_elem_of_In. eapply elem_of_sublist; [|exact H]. by apply list_elem_of_In. Qed.

Lemma sub_acks m' m a : sub_model m' m -> In a (m_acks m') -> In a (m_acks m).
Proof. intros [_ H _] He. apply list_elem_of_In. eapply elem_of_sublist; [|exact H]. by apply list_elem_of_In. Qed.

Lemma sublist_NoDup_map {A B} (f : A -> B) l l' : l' `sublist_of` l -> NoDup (map f l) -> NoDup (map f l').
Proof. intros Hs Hn. eapply sublist_NoDup; [exact Hn|]. by apply (fmap_sublist f). Qed.

Lemma coherent_sub m' m : coherent cfg m -> sub_model m' m -> coherent cfg m'.
Proof.
  intros Hm Hs. destruct Hm as [C1 C2 C3 C4 C5 C6 C7 C8 C9].
  assert (He : forall e, In e (m_events m') -> In e (m_events m)) by (intros e; by apply sub_events).
  assert (Ha : forall a, In a (m_acks m') -> In a (m_acks m)) by (intros a; by apply sub_acks).
  assert (Hc : the_cursor m' = the_cursor m) by (unfold the_cursor; by rewrite (sm_cursor _ _ Hs)).
  constructor.
  - rewrite Forall_forall in *. intros e. rewrite list_elem_of_In. intros H. by apply C1, list_elem_of_In, He.
  - eapply sublist_NoDup_map; [apply Hs | exact C2].
  - eapply sublist_NoDup_map; [apply Hs | exact C3].
  - intros e e' H1 H2. apply C4; by apply He.
  - rewrite Forall_forall in *. intros a. rewrite list_elem_of_In. intros H. by apply C5, list_elem_of_In, Ha.
  - eapply sublist_NoDup_map; [apply Hs | exact C6].
  - by rewrite (sm_cursor _ _ Hs).
  - rewrite Hc. intros e H. by apply C8, He.
  - rewrite Hc. intros e i H. apply C9. by apply He.
Qed.
End Store.
