(* ===== verification/DeadmanRetention.v ===== *)
(** * Retention in the dead-man outbox

    What [enforce_retention] removes from a coherent store, whatever it then
    answers: only acknowledgements of missing events, and events that are
    acknowledged. *)

From S2P Require Import Prelude PyValue Sha Json JsonFile PyRegex PyTime P121Authority Deadman DeadmanModel DeadmanStore.

#[local] Opaque stable_hash isoformat fromisoformat ev_id json_name written_file.

(** The model without the event and the acknowledgement of [id]. *)
Definition without_ack (m : model) (id : string) : model := {|
  m_events := m_events m;
  m_acks := List.filter (fun a => negb (ak_event a =s id)) (m_acks m);
  m_cursor := m_cursor m |}.

Definition without_event (cfg : DeadmanConfig) (m : model) (id : string) : model := {|
  m_events := List.filter (fun e => negb (ev_id cfg e =s id)) (m_events m);
  m_acks := List.filter (fun a => negb (ak_event a =s id)) (m_acks m);
  m_cursor := m_cursor m |}.

Lemma dwithout_named {A} (f : A -> string * file) (key : A -> string) id l :
  (forall x, (f x).1 = json_name (key x)) ->
  dwithout [json_name id] (map f l) = map f (List.filter (fun x => negb (key x =s id)) l).
Proof.
  intros Hf. unfold dwithout. induction l as [|x l IH]; [done|].
  assert (E : negb (mem (f x).1 [json_name id]) = negb (key x =s id)).
  { rewrite Hf. cbn [mem existsb]. by rewrite orb_false_r, json_name_eqs. }
  cbn [map List.filter]. rewrite E, IH. by destruct (negb (key x =s id)).
Qed.

Lemma without_ack_store cfg m id :
  set_acks (model_store cfg m) (dwithout [json_name id] (acks (model_store cfg m))) =
  model_store cfg (without_ack m id).
Proof.
  unfold set_acks, model_store, without_ack. cbn [outbox acks cursor_file m_events m_acks m_cursor].
  by rewrite (dwithout_named (ack_file cfg) ak_event).
Qed.

Lemma without_event_store cfg m id :
  (let st := set_outbox (model_store cfg m) (dwithout [json_name id] (outbox (model_store cfg m))) in
   set_acks st (dwithout [json_name id] (acks st))) =
  model_store cfg (without_event cfg m id).
Proof.
  unfold set_outbox, set_acks, model_store, without_event. cbn [outbox acks cursor_file m_events m_acks m_cursor].
  by rewrite (dwithout_named (ack_file cfg) ak_event), (dwithout_named (ev_file cfg) (ev_id cfg)).
Qed.

Lemma without_ack_sub m id : sub_model (without_ack m id) m.
Proof. constructor; [done | apply filter_sublist | done]. Qed.

Lemma without_event_sub cfg m id : sub_model (without_event cfg m id) m.
Proof. constructor; [apply filter_sublist | apply filter_sublist | done]. Qed.

Definition acked (m : model) (id : string) : Prop := In id (map ak_event (m_acks m)).

(** The size [json_size] counts for the events of a model. *)
Definition events_bytes (cfg : DeadmanConfig) (es : list event) : Z :=
  fold_right (fun e acc => json_size (VDict (ev_dict cfg e)) + acc) 0 es.

Lemma total_bytes_entries cfg es : total_bytes (map (ev_entry cfg) es) = events_bytes cfg es.
Proof.
  induction es as [|e es IH]; [done|]. cbn [map total_bytes fold_right events_bytes ev_entry snd].
  unfold ev_loaded at 1. rewrite json_size_image. unfold total_bytes, events_bytes in IH. by rewrite IH.
Qed.

Lemma events_bytes_perm cfg es es' : Permutation es es' -> events_bytes cfg es = events_bytes cfg es'.
Proof. unfold events_bytes. induction 1; simpl; lia. Qed.

Lemma events_bytes_without cfg es e :
  NoDup (map (ev_id cfg) es) -> In e es ->
  events_bytes cfg (List.filter (fun x => negb (ev_id cfg x =s ev_id cfg e)) es) =
    events_bytes cfg es - json_size (VDict (ev_dict cfg e)) /\
  Z.of_nat (List.length (List.filter (fun x => negb (ev_id cfg x =s ev_id cfg e)) es)) =
    Z.of_nat (List.length es) - 1.
Proof.
  induction es as [|x es IH]; [done|]. cbn [map]. rewrite NoDup_cons. intros [Hx Hn] He.
  cbn [List.filter]. destruct (eqs_spec (ev_id cfg x) (ev_id cfg e)) as [Heq|Hne]; cbn [negb].
  - assert (Hxe : x = e).
    { destruct He as [He|He]; [exact He|]. exfalso. apply Hx. rewrite Heq.
      apply list_elem_of_In, in_map_iff. exists e. exact (conj eq_refl He). }
    assert (Hid : List.filter (fun y => negb (ev_id cfg y =s ev_id cfg e)) es = es).
    { rewrite <- Heq. clear - Hx. induction es as [|y es IH]; [done|]. cbn [List.filter].
      cbn [map] in Hx. rewrite not_elem_of_cons in Hx. destruct Hx as [H1 H2].
      rewrite (proj2 (String.eqb_neq _ _) (not_eq_sym H1)). cbn [negb]. by rewrite IH. }
    rewrite Hid. cbn [events_bytes fold_right List.length]. rewrite Hxe. unfold events_bytes. lia.
  - destruct He as [He|He]; [by rewrite He in Hne|]. destruct (IH Hn He) as [H1 H2].
    cbn [events_bytes fold_right List.length]. unfold events_bytes in *. lia.
Qed.

(** The acknowledgement of [id] was dropped. *)
Lemma acked_without m id id' : acked (without_ack m id) id' <-> acked m id' /\ id' <> id.
Proof.
  unfold acked, without_ack. cbn [m_acks]. rewrite !in_map_iff. split.
  - intros (a & <- & Ha). apply filter_In in Ha as [Ha Hn]. apply negb_true_iff, String.eqb_neq in Hn. eauto.
  - intros [(a & <- & Ha) Hn]. exists a. split; [reflexivity|]. apply filter_In. split; [exact Ha|].
    by apply negb_true_iff, String.eqb_neq.
Qed.

Section Retention.
Context (cfg : DeadmanConfig) (Hcfg : sha_re (runtime_ref_hash cfg) = true).

(** [m'] is [m] without acknowledgements of events that [m] does not hold. *)
Definition orphans_dropped (es : list event) (m m' : model) : Prop :=
  sub_model m' m /\ m_events m' = m_events m /\
  forall id, acked m id -> In id (map (ev_id cfg) es) -> acked m' id.

Lemma drop_orphans_ok es ids : forall m n,
  coherent cfg m -> NoDup ids -> (forall id, In id ids -> acked m id) ->
  exists m' n', drop_orphans cfg (map (ev_entry cfg) es) ids n (model_store cfg m) = (Ok n', model_store cfg m') /\
    orphans_dropped es m m' /\
    (forall id, acked m' id -> acked m id /\ (In id ids -> In id (map (ev_id cfg) es))).
Proof.
  induction ids as [|id ids IH]; intros m n Hm Hn Hin.
  { exists m, n. split; [done|]. split; [split_and!; auto using sub_model_refl|]. intros id' H. by split. }
  apply NoDup_cons in Hn as [Hid Hn]. cbn [drop_orphans].
  destruct (dmem id (map (ev_entry cfg) es)) eqn:Ed.
  - apply dmem_entries in Ed. destruct (IH m n Hm Hn) as (m' & n' & H1 & H2 & H3); [intros; apply Hin; by right|].
    exists m', n'. split; [exact H1|]. split; [exact H2|]. intros id' Ha. destruct (H3 id' Ha) as [G1 G2].
    split; [exact G1|]. intros [<-|H]; [exact Ed | exact (G2 H)].
  - assert (Hne : ~ In id (map (ev_id cfg) es)) by (rewrite <- dmem_entries, Ed; discriminate).
    destruct (in_map_iff ak_event (m_acks m) id) as [Hex _].
    destruct (Hex (Hin id (or_introl eq_refl))) as (a & Ha & Hain). clear Hex.
    pose proof (ack_loads_in cfg m a (model_store cfg m) Hm eq_refl Hain) as Hl. rewrite Ha in Hl. rewrite Hl.
    rewrite without_ack_store.
    assert (Hm' : coherent cfg (without_ack m id)) by (eapply coherent_sub; [exact Hm | apply without_ack_sub]).
    destruct (IH (without_ack m id) (n + 1) Hm' Hn) as (m' & n' & H1 & (S1 & S2 & S3) & H3).
    { intros id' H. apply acked_without. split; [apply Hin; by right|]. intros ->. by apply Hid, list_elem_of_In. }
    exists m', n'. split; [exact H1|]. split; [split_and!|].
    + eapply sub_model_trans; [exact S1 | apply without_ack_sub].
    + exact S2.
    + intros id' G1 G2. apply S3; [|exact G2]. apply acked_without. split; [exact G1|]. intros ->. by apply Hne.
    + intros id' G. destruct (H3 id' G) as [G1 G2]. apply acked_without in G1 as [G1 G3].
      split; [exact G1|]. intros [G4|G4]; [by rewrite G4 in G3 | exact (G2 G4)].
Qed.

(** [m'] is [m] without some of its acknowledged events. *)
Definition pruned (m m' : model) : Prop :=
  sub_model m' m /\
  (forall e, In e (m_events m) -> In e (m_events m') \/ acked m (ev_id cfg e)) /\
  (forall id, acked m id -> acked m' id \/ In id (map (ev_id cfg) (m_events m))).

Lemma pruned_refl m : pruned m m.
Proof. split_and!; auto using sub_model_refl. Qed.

Lemma pruned_trans m1 m2 m3 : pruned m1 m2 -> pruned m2 m3 -> pruned m1 m3.
Proof.
  intros (S1 & E1 & A1) (S2 & E2 & A2). split_and!; [by eapply sub_model_trans| |].
  - intros e He. destruct (E1 e He) as [H|H]; [|by right]. destruct (E2 e H) as [G|G]; [by left|right].
    unfold acked in *. apply in_map_iff in G as (a & <- & Ha). apply in_map_iff. exists a.
    split; [reflexivity | by eapply sub_acks].
  - intros id H. destruct (A1 id H) as [G|G]; [|by right]. destruct (A2 id G) as [K|K]; [by left|right].
    apply in_map_iff in K as (e & <- & He). apply in_map_iff. exists e. split; [reflexivity | by eapply sub_events].
Qed.

Lemma without_event_pruned m e :
  In e (m_events m) -> NoDup (map (ev_id cfg) (m_events m)) -> acked m (ev_id cfg e) ->
  pruned m (without_event cfg m (ev_id cfg e)).
Proof.
  intros He Hn Ha. split_and!; [apply without_event_sub| |].
  - intros x Hx. destruct (eqs_spec (ev_id cfg x) (ev_id cfg e)) as [Heq|Hne].
    + right. rewrite Heq. exact Ha.
    + left. cbn [m_events without_event]. apply filter_In. split; [exact Hx|].
      by apply negb_true_iff, String.eqb_neq.
  - intros id Hid. destruct (eqs_spec id (ev_id cfg e)) as [Heq|Hne].
    + right. rewrite Heq. apply in_map_iff. exists e. exact (conj eq_refl He).
    + left. unfold acked in *. apply in_map_iff in Hid as (a & Hae & Hin). apply in_map_iff. exists a.
      split; [exact Hae|]. cbn [m_acks without_event]. apply filter_In. split; [exact Hin|].
      apply negb_true_iff, String.eqb_neq. by rewrite Hae.
Qed.

Lemma prune_ok cs : forall m count bytes removed r st',
  coherent cfg m -> NoDup (map (ev_id cfg) cs) ->
  (forall e, In e cs -> In e (m_events m) /\ acked m (ev_id cfg e)) ->
  prune cfg (map (ev_entry cfg) cs) count bytes removed (model_store cfg m) = (r, st') ->
  exists m', st' = model_store cfg m' /\ pruned m m' /\
    (forall c b n, r = Ok (c, b, n) ->
       c = count - Z.of_nat (List.length (m_events m)) + Z.of_nat (List.length (m_events m')) /\
       b = bytes - events_bytes cfg (m_events m) + events_bytes cfg (m_events m')).
Proof.
  induction cs as [|e cs IH]; intros m count bytes removed r st' Hm Hn Hin; cbn [map prune ev_entry].
  { intros [= <- <-]. exists m. split; [done|]. split; [apply pruned_refl|]. intros c b n [= <- <- <-]. lia. }
  destruct (negb (over_budget cfg count bytes)).
  { intros [= <- <-]. exists m. split; [done|]. split; [apply pruned_refl|]. intros c b n [= <- <- <-]. lia. }
  destruct (let! _ := validate_ack_for_event _ _ _ _ in _) as [u|x].
  2:{ intros [= <- <-]. exists m. split; [done|]. split; [apply pruned_refl|]. discriminate. }
  rewrite without_event_store. intros Hpr. cbn [map] in Hn. apply NoDup_cons in Hn as [He Hn].
  destruct (Hin e (or_introl eq_refl)) as [Hem Hea].
  assert (Hm' : coherent cfg (without_event cfg m (ev_id cfg e)))
    by (eapply coherent_sub; [exact Hm | apply without_event_sub]).
  apply IH in Hpr as (m' & -> & Hp & Hc); [| exact Hm' | exact Hn |].
  - exists m'. split; [done|]. split.
    + eapply pruned_trans; [|exact Hp]. apply without_event_pruned; [exact Hem | apply Hm | exact Hea].
    + intros c b n Hr. destruct (Hc c b n Hr) as [-> ->].
      destruct (events_bytes_without cfg (m_events m) e (ch_ids _ _ Hm) Hem) as [Hb Hl].
      cbn [without_event m_events]. rewrite Hb, Hl. unfold ev_loaded. rewrite json_size_image. lia.
  - intros x Hx. destruct (Hin x (or_intror Hx)) as [H1 H2].
    assert (Hne : ev_id cfg x <> ev_id cfg e).
    { intros Heq. apply He. rewrite <- Heq. apply list_elem_of_In, in_map_iff. exists x. exact (conj eq_refl Hx). }
    split.
    + cbn [without_event m_events]. apply filter_In. split; [exact H1|]. by apply negb_true_iff, String.eqb_neq.
    + unfold acked in *. apply in_map_iff in H2 as (a & Hae & Ha). apply in_map_iff. exists a.
      split; [exact Hae|]. cbn [m_acks without_event]. apply filter_In. split; [exact Ha|].
      apply negb_true_iff, String.eqb_neq. by rewrite Hae.
Qed.

Definition event_count (m : model) : Z := Z.of_nat (List.length (m_events m)).
Definition event_bytes (m : model) : Z := events_bytes cfg (m_events m).

(** The first phase of [enforce_retention]: the events and the orphans. *)
Lemma retention_start m :
  coherent cfg m ->
  exists es ids m1 n,
    listed cfg m es /\ validated_events cfg (model_store cfg m) = Ok (map (ev_entry cfg) es) /\
    validated_acks cfg (model_store cfg m) = Ok ids /\
    drop_orphans cfg (map (ev_entry cfg) es) (sorted_strings ids) 0 (model_store cfg m) = (Ok n, model_store cfg m1) /\
    sub_model m1 m /\ m_events m1 = m_events m /\
    (forall id, acked m id -> In id (map (ev_id cfg) (m_events m)) -> acked m1 id) /\
    (forall id, acked m1 id -> In id (map (ev_id cfg) (m_events m))).
Proof.
  intros Hm. destruct (listed_exists cfg m) as (es & Hl). pose proof Hl as [Hp _].
  destruct (validated_acks_ok cfg m Hm) as (ids & Hids & Hperm).
  assert (Hs : Permutation (sorted_strings ids) (map ak_event (m_acks m))).
  { etransitivity; [apply isort_perm | exact Hperm]. }
  destruct (drop_orphans_ok es (sorted_strings ids) m 0 Hm) as (m1 & n & H1 & (S1 & S2 & S3) & H3).
  { rewrite Hs. apply Hm. }
  { intros id Hid. unfold acked. exact (Permutation_in _ Hs Hid). }
  exists es, ids, m1, n. split_and!; [exact Hl | by apply validated_events_ok | exact Hids | exact H1 | exact S1 | exact S2 | |].
  - intros id Ha Hid. apply S3; [exact Ha|]. by rewrite Hp.
  - intros id Ha. destruct (H3 id Ha) as [G1 G2].
    assert (G3 : In id (map (ev_id cfg) es)); [|by rewrite Hp in G3].
    apply G2. apply (Permutation_in _ (Permutation_sym Hs)). exact G1.
Qed.

(** Without pressure only orphaned acknowledgements go. *)
Lemma enforce_no_pressure m c b :
  coherent cfg m -> over_budget cfg (event_count m + c) (event_bytes m + b) = false ->
  exists m1 r, enforce_retention cfg c b (model_store cfg m) = (Ok r, model_store cfg m1) /\
    coherent cfg m1 /\ sub_model m1 m /\ m_events m1 = m_events m.
Proof.
  intros Hm Hb. destruct (retention_start m Hm) as (es & ids & m1 & n & Hl & H1 & H2 & H3 & S1 & S2 & _).
  assert (Hm1 : coherent cfg m1) by (eapply coherent_sub; [exact Hm | exact S1]).
  unfold enforce_retention. rewrite H1. cbn [bind]. rewrite H2. cbn [bind]. rewrite H3.
  destruct (listed_exists cfg m1) as (es1 & Hl1). rewrite (validated_events_ok cfg Hcfg m1 es1 Hm1 Hl1).
  rewrite total_bytes_entries, length_map. destruct Hl1 as [Hp1 _].
  rewrite (events_bytes_perm cfg es1 _ Hp1), (Permutation_length Hp1), S2.
  fold (event_count m) (event_bytes m). rewrite Hb. cbn [negb]. eauto 10.
Qed.

(** Some of the events, sorted. *)
Lemma sorted_entries leb (p : string -> bool) es :
  exists cs, isort leb (List.filter (fun e => p e.1) (map (ev_entry cfg) es)) = map (ev_entry cfg) cs /\
    Permutation cs (List.filter (fun e => p (ev_id cfg e)) es).
Proof.
  destruct (Permutation_map_inv (ev_entry cfg) (List.filter (fun e => p (ev_id cfg e)) es)
    (l1 := isort leb (List.filter (fun e => p e.1) (map (ev_entry cfg) es))))
    as (cs & G1 & G2); [|exists cs; split; [exact G1 | by symmetry]].
  rewrite isort_perm. induction es as [|e l IH]; [done|]. cbn [map List.filter ev_entry fst].
  destruct (p (ev_id cfg e)); cbn [map]; [by rewrite IH | exact IH].
Qed.

Lemma enforce_ok m c b r st' :
  coherent cfg m -> enforce_retention cfg c b (model_store cfg m) = (r, st') ->
  exists m', st' = model_store cfg m' /\ coherent cfg m' /\ sub_model m' m /\
    (forall e, In e (m_events m) -> In e (m_events m') \/ acked m (ev_id cfg e)) /\
    (forall id, acked m' id -> In id (map (ev_id cfg) (m_events m))) /\
    (forall x, r = Ok x -> over_budget cfg (event_count m' + c) (event_bytes m' + b) = false).
Proof.
  intros Hm. destruct (retention_start m Hm) as (es & ids & m1 & n & Hl & H1 & H2 & H3 & S1 & S2 & S3 & S4).
  assert (Hm1 : coherent cfg m1) by (eapply coherent_sub; [exact Hm | exact S1]).
  unfold enforce_retention. rewrite H1. cbn [bind]. rewrite H2. cbn [bind]. rewrite H3.
  destruct (listed_exists cfg m1) as (es1 & Hl1). rewrite (validated_events_ok cfg Hcfg m1 es1 Hm1 Hl1).
  rewrite total_bytes_entries, length_map. destruct Hl1 as [Hp1 _].
  rewrite (events_bytes_perm cfg es1 _ Hp1), (Permutation_length Hp1).
  fold (event_count m1) (event_bytes m1).
  destruct (over_budget cfg (event_count m1 + c) (event_bytes m1 + b)) eqn:Hover; cbn [negb].
  2:{ intros [= <- <-]. exists m1. split_and!; [done | exact Hm1 | exact S1 | | exact S4 | intros _ _; exact Hover].
      intros e He. left. by rewrite S2. }
  destruct (validated_acks_ok cfg m1 Hm1) as (ids1 & Hids1 & Hperm1). rewrite Hids1.
  destruct (sorted_entries by_sequence (fun id => mem id ids1) es1) as (cs & Hc & Hcs). rewrite Hc.
  destruct (prune cfg _ _ _ _ _) as [rp stp] eqn:Hpr.
  apply prune_ok in Hpr as (m' & -> & (P1 & P2 & P3) & P4); [| exact Hm1 | |].
  - intros Hr. exists m'. assert (Hst : st' = model_store cfg m').
    { destruct rp as [[[c' b'] n']|?]; [destruct (over_budget cfg c' b')|];
        exact (eq_sym (f_equal snd Hr)). }
    split_and!; [exact Hst | eapply coherent_sub; [exact Hm1 | exact P1] | eapply sub_model_trans; [exact P1 | exact S1] | | |].
    + rewrite <- S2. intros e He. destruct (P2 e He) as [G|G]; [by left|right].
      unfold acked in *. apply in_map_iff in G as (a & Ha & Hin). apply in_map_iff. exists a.
      split; [exact Ha | by eapply sub_acks].
    + intros id Hid. apply S4. unfold acked in *. apply in_map_iff in Hid as (a & Ha & Hin). apply in_map_iff. exists a.
      split; [exact Ha | by eapply sub_acks].
    + intros x Hx. destruct rp as [[[c' b'] n']|?]; [|rewrite Hx in Hr; discriminate Hr].
      destruct (P4 _ _ _ eq_refl) as [Ec Eb].
      destruct (over_budget cfg c' b') eqn:Ho; [rewrite Hx in Hr; discriminate Hr|].
      rewrite <- Ho. f_equal; unfold event_count, event_bytes in *; lia.
  - rewrite Hcs. apply (sublist_NoDup_map (ev_id cfg) es1); [apply filter_sublist|]. rewrite Hp1. apply Hm1.
  - intros e He. apply (Permutation_in _ Hcs), filter_In in He as [He Hmem]. apply mem_In in Hmem.
    split; [exact (Permutation_in _ Hp1 He)|]. exact (Permutation_in _ Hperm1 Hmem).
Qed.
End Retention.
