(* ===== verification/DeadmanCheck.v ===== *)
(** * One check of the dead-man outbox, abstractly

    The transition a verdict causes, the event it writes and the cursor that
    follows, on the records of DeadmanModel.v, and the proofs that
    [check_once] computes them on a coherent store and leaves one. *)

From S2P Require Import Prelude PyValue Sha Json JsonFile PyRegex PyTime P121Authority Deadman DeadmanModel DeadmanStore DeadmanRetention.

#[local] Opaque stable_hash isoformat fromisoformat json_name written_file.

(** ** The automaton *)

Definition opening_id (cfg : DeadmanConfig) (c : cursor) (s : snap) : string :=
  stable_hash (VDict
    [("config_hash", VStr (config_hash cfg)); ("sequence", VInt (cu_next c));
     ("snapshot_fingerprint", VStr (snap_fp cfg s))]).

Definition follow (kind : string) (i : incident) : pending :=
  {| pd_transition_kind := kind; pd_incident_id := in_id i; pd_previous_event_id := Some (in_last_event i) |}.

(** The whole seconds of a time that was written down. *)
Definition to_second (us : Z) : Z := us / second * second.

Definition transition_spec (cfg : DeadmanConfig) (c : cursor) (s : snap) (now : Z) : option pending :=
  match sn_healthy s, cu_active c with
  | true, None => None
  | true, Some i => Some (follow "recovered" i)
  | false, None => Some {| pd_transition_kind := "opened"; pd_incident_id := opening_id cfg c s;
                           pd_previous_event_id := None |}
  | false, Some i =>
      if negb (in_reason i =s sn_reason s) || negb (in_fingerprint i =s snap_fp cfg s)
      then Some (follow "updated" i)
      else if reminder_interval_seconds cfg * second <=? now - to_second (in_emitted i)
      then Some (follow "reminder" i)
      else None
  end.

(** The event of a transition, and the cursor after it. *)
Definition event_of (c : cursor) (p : pending) (s : snap) (occurred : Z) : event := {|
  ev_sequence := cu_next c; ev_incident := pd_incident_id p; ev_kind := pd_transition_kind p;
  ev_occurred := occurred; ev_previous := pd_previous_event_id p; ev_snapshot := s |}.

Definition advance (cfg : DeadmanConfig) (c : cursor) (p : pending) (s : snap) (e : event) (now : Z) : cursor := {|
  cu_next := cu_next c + 1;
  cu_checked := Some now;
  cu_active :=
    if pd_transition_kind p =s "recovered" then None
    else Some {| in_id := ev_incident e;
                 in_opened := match cu_active c with Some i => in_opened i | None => ev_occurred e end;
                 in_reason := sn_reason s; in_fingerprint := snap_fp cfg s; in_last_event := ev_id cfg e;
                 in_emitted := ev_occurred e |} |}.

Definition refresh (c : cursor) (now : Z) : cursor :=
  {| cu_next := cu_next c; cu_checked := Some now; cu_active := cu_active c |}.

Definition with_cursor (m : model) (c : cursor) : model :=
  {| m_events := m_events m; m_acks := m_acks m; m_cursor := Some c |}.

Definition with_event (m : model) (e : event) : model :=
  {| m_events := m_events m ++ [e]; m_acks := m_acks m; m_cursor := m_cursor m |}.

Section Check.
Context (cfg : DeadmanConfig) (Hcfg : sha_re (runtime_ref_hash cfg) = true).

Lemma follow_up_ok kind d i : incident_read d i -> follow_up kind d = Ok (follow kind i).
Proof.
  intros Hi. destruct (incident_fields d i Hi) as (_ & E1 & _ & _ & _ & E5 & _).
  unfold follow_up, vindex. rewrite E1, E5. reflexivity.
Qed.

Lemma pending_transition_ok saved s now :
  (forall c, saved = Some c -> cursor_ok c) -> snap_ok s ->
  pending_transition cfg (cursor_read cfg saved) (snap_dict cfg s) now =
  Ok (transition_spec cfg (default start_cursor saved) s now).
Proof.
  intros Hok Hs. destruct (cursor_fields cfg saved) as (E1 & _ & Ea).
  destruct (snap_fields cfg s Hs _ (or_introl eq_refl)) as (S1 & S2 & _ & _ & _ & S6).
  unfold pending_transition, transition_spec. rewrite S1, S2, S6. cbn [truthy].
  destruct (sn_healthy s), (cu_active (default start_cursor saved)) as [i|] eqn:Ei; cbn [active_read] in Ea.
  - destruct Ea as (d & -> & Hi). by rewrite (follow_up_ok _ d i Hi).
  - by rewrite Ea.
  - destruct Ea as (d & -> & Hi). destruct (incident_fields d i Hi) as (_ & _ & _ & F3 & F4 & _ & F6).
    rewrite (vget_some _ _ _ F3), (vget_some _ _ _ F4), (vget_some _ _ _ F6), !(follow_up_ok _ d i Hi).
    change (py_eq (VStr (in_reason i)) (VStr (sn_reason s))) with (in_reason i =s sn_reason s).
    change (py_eq (VStr (in_fingerprint i)) (VStr (snap_fp cfg s))) with (in_fingerprint i =s snap_fp cfg s).
    destruct (_ || _); [reflexivity|].
    assert (Hio : incident_ok i).
    { destruct saved as [c|]; [apply (co_active c (Hok c eq_refl)), Ei | discriminate Ei]. }
    rewrite (parse_timestamp_ok _ (io_emitted _ Hio)). cbn [bind]. unfold to_second.
    by destruct (_ <=? _).
  - rewrite Ea. unfold incident_id_of, opening_id. rewrite (vget_some _ _ _ E1), S6. reflexivity.
Qed.

(** ** The event *)

Lemma pending_event_id_ok saved p s occurred :
  snap_ok s ->
  pending_event_id cfg (cursor_read cfg saved) p (snap_dict cfg s) =
  ev_id cfg (event_of (default start_cursor saved) p s occurred).
Proof.
  intros Hs. destruct (snap_fields cfg s Hs _ (or_introl eq_refl)) as (_ & _ & _ & _ & _ & S6).
  unfold pending_event_id, ev_id. rewrite next_sequence_read, S6. reflexivity.
Qed.

Lemma build_event_ok saved p s occurred :
  snap_ok s ->
  build_event cfg (cursor_read cfg saved) p (snap_dict cfg s) (VStr (timestamp occurred))
    (ev_id cfg (event_of (default start_cursor saved) p s occurred)) =
  ev_dict cfg (event_of (default start_cursor saved) p s occurred).
Proof. intros Hs. unfold build_event. rewrite next_sequence_read. reflexivity. Qed.

(** [e] is the event of the transition, whenever it was written. *)
Definition event_for (c : cursor) (p : pending) (s : snap) (e : event) : Prop :=
  ev_sequence e = cu_next c /\ ev_incident e = pd_incident_id p /\ ev_kind e = pd_transition_kind p /\
  ev_previous e = pd_previous_event_id p /\ snap_fp cfg (ev_snapshot e) = snap_fp cfg s.

Lemma event_for_id c p s e occurred : event_for c p s e -> ev_id cfg e = ev_id cfg (event_of c p s occurred).
Proof. intros (H1 & H2 & H3 & H4 & H5). unfold ev_id. rewrite H1, H2, H3, H4, H5. reflexivity. Qed.

Lemma event_snapshot_loaded e : event_snapshot (ev_loaded cfg e) = dict_image (snap_dict cfg (ev_snapshot e)).
Proof. unfold event_snapshot, ev_loaded. rewrite vget_image. reflexivity. Qed.

Lemma opt_val_eq a b : py_eq (opt_val a) (opt_val b) = true <-> a = b.
Proof.
  destruct a as [x|], b as [y|]; cbn [opt_val]; try (split; discriminate); [|by split].
  rewrite py_eq_str. split; [by intros [= ->] | by intros [= ->]].
Qed.

(** The fields that must agree for an event on disk to be taken over. *)
Lemma stable_fields_iff saved p s e :
  snap_ok s -> snap_ok (ev_snapshot e) ->
  ev_id cfg e = ev_id cfg (event_of (default start_cursor saved) p s (ev_occurred e)) ->
  let expected := build_event cfg (cursor_read cfg saved) p (snap_dict cfg s) (vget (ev_loaded cfg e) "occurred_at")
                    (ev_id cfg (event_of (default start_cursor saved) p s (ev_occurred e))) in
  forallb (fun key => py_eq (vget (ev_loaded cfg e) key) (vget expected key)) STABLE_EVENT_FIELDS &&
  py_eq (vget (event_snapshot (ev_loaded cfg e)) "snapshot_fingerprint") (vget (snap_dict cfg s) "snapshot_fingerprint")
    = true <-> event_for (default start_cursor saved) p s e.
Proof.
  intros Hs He Hid. cbv zeta.
  destruct (ev_fields cfg e _ (or_intror eq_refl)) as (E1 & E2 & E3 & E4 & E5 & E6 & E7 & E8).
  rewrite (vget_some _ _ _ E5), (build_event_ok saved p s (ev_occurred e) Hs), event_snapshot_loaded.
  set (e' := event_of (default start_cursor saved) p s (ev_occurred e)).
  destruct (ev_fields cfg e' _ (or_introl eq_refl)) as (F1 & F2 & F3 & F4 & F5 & F6 & F7 & F8).
  destruct (snap_fields cfg s Hs _ (or_introl eq_refl)) as (_ & _ & _ & _ & _ & S6).
  destruct (snap_fields cfg _ He _ (or_intror eq_refl)) as (_ & _ & _ & _ & _ & T6). rewrite S6, T6.
  change STABLE_EVENT_FIELDS with
    ["schema_version"; "event_id"; "incident_id"; "sequence"; "transition_kind"; "occurred_at";
     "previous_event_id"; "config_hash"; "authority_counters"].
  cbn [forallb]. rewrite (vget_some _ _ _ E1), (vget_some _ _ _ E2), (vget_some _ _ _ E3), (vget_some _ _ _ E4),
    (vget_some _ _ _ E5), (vget_some _ _ _ E6), (vget_some _ _ _ E7), (vget_some _ _ _ F1), (vget_some _ _ _ F2),
    (vget_some _ _ _ F3), (vget_some _ _ _ F4), (vget_some _ _ _ F5), (vget_some _ _ _ F6), (vget_some _ _ _ F7).
  assert (Hv : vget (ev_loaded cfg e) "schema_version" = VStr EVENT_SCHEMA_VERSION)
    by (unfold ev_loaded; rewrite vget_image; reflexivity).
  assert (Ha : vget (ev_loaded cfg e) "authority_counters" = json_image (VDict zero_authority_counters))
    by (unfold ev_loaded; rewrite vget_image; reflexivity).
  rewrite Hv, Ha, py_eq_int, Hid.
  change (vget (ev_dict cfg e') "schema_version") with (VStr EVENT_SCHEMA_VERSION).
  change (vget (ev_dict cfg e') "authority_counters") with (VDict zero_authority_counters).
  change (py_eq (VStr EVENT_SCHEMA_VERSION) (VStr EVENT_SCHEMA_VERSION)) with true.
  assert (Hz : py_eq (json_image (VDict zero_authority_counters)) (VDict zero_authority_counters) = true)
    by (vm_compute; reflexivity).
  rewrite Hz. cbn [andb].
  assert (Hstr : forall a b, py_eq (VStr a) (VStr b) = (a =s b)) by reflexivity. rewrite !Hstr, !eqs_refl.
  cbn [andb]. rewrite !andb_true_r, !andb_true_iff, !String.eqb_eq, Z.eqb_eq.
  rewrite opt_val_eq. unfold event_for, e'. cbn [event_of ev_sequence ev_incident ev_kind ev_previous]. tauto.
Qed.

(** The event of a transition: taken over from the outbox, or new. *)
Lemma event_for_pending_cases m p s now r :
  coherent cfg m -> snap_ok s ->
  let c := the_cursor m in let e0 := event_of c p s now in
  event_for_pending cfg (model_store cfg m) (cursor_read cfg (m_cursor m)) p (snap_dict cfg s) now = Ok r ->
  (exists e, r = (ev_loaded cfg e, true) /\ In e (m_events m) /\ event_for c p s e) \/
  (r = (ev_dict cfg e0, false) /\ ~ In (ev_id cfg e0) (map (ev_id cfg) (m_events m)) /\
   forall e, In e (m_events m) -> ev_sequence e <> cu_next c).
Proof.
  intros Hm Hs c e0. destruct (listed_exists cfg m) as (es & Hl). pose proof Hl as [Hp _].
  unfold event_for_pending. rewrite (validated_events_ok cfg Hcfg m es Hm Hl), next_sequence_read. cbn [bind].
  fold (the_cursor m). fold c. rewrite (pending_event_id_ok (m_cursor m) p s now Hs). fold (the_cursor m). fold c. fold e0.
  pose proof (find_sequence cfg es (cu_next c)) as Hf.
  intros (u & Hc & H)%bind_ok. apply ensure_ok in Hc.
  destruct (dmem _ _) eqn:Ed.
  - cbn [model_store outbox] in Ed. apply dmem_outbox, in_map_iff in Ed as (e & Hide & He). left.
    assert (Hev : event_ok e) by (pose proof (ch_events _ _ Hm) as Hall; rewrite Forall_forall in Hall; by apply Hall, list_elem_of_In).
    rewrite <- Hide in H. rewrite (event_loads cfg e (outbox (model_store cfg m)) Hev Hcfg) in H;
      [|apply dget_outbox; [apply Hm | exact He]]. cbn [bind] in H.
    apply bind_ok in H as (u' & Hst & [= <-]). apply ensure_ok in Hst.
    exists e. split; [reflexivity|]. split; [exact He|].
    assert (Hide' : ev_id cfg e = ev_id cfg (event_of (default start_cursor (m_cursor m)) p s (ev_occurred e))) by exact Hide.
    apply (stable_fields_iff (m_cursor m)); [exact Hs | apply Hev | exact Hide' |].
    rewrite <- Hide'. exact Hst.
  - right. injection H as <-. split_and!.
    + unfold e0, c, the_cursor. rewrite <- (build_event_ok (m_cursor m) p s now Hs). reflexivity.
    + cbn [model_store outbox] in Ed. rewrite <- (dmem_outbox cfg), Ed. discriminate.
    + destruct (event_id_for_sequence _ _) as [id|].
      * destruct Hf as (e & He & Hide & _). apply String.eqb_eq in Hc. exfalso.
        cbn [model_store outbox] in Ed. apply not_true_iff_false in Ed. apply Ed, dmem_outbox.
        rewrite <- Hc, Hide. apply in_map_iff. exists e. split; [reflexivity | exact (Permutation_in _ Hp He)].
      * intros e He. apply Hf. exact (Permutation_in _ (Permutation_sym Hp) He).
Qed.

(** An event on disk is taken over by the transition that wrote it. *)
Lemma event_for_pending_replay m p s now e :
  coherent cfg m -> snap_ok s -> In e (m_events m) -> event_for (the_cursor m) p s e ->
  event_for_pending cfg (model_store cfg m) (cursor_read cfg (m_cursor m)) p (snap_dict cfg s) now =
  Ok (ev_loaded cfg e, true).
Proof.
  intros Hm Hs He Hfor. destruct (listed_exists cfg m) as (es & Hl). pose proof Hl as [Hp _].
  assert (Hev : event_ok e) by (pose proof (ch_events _ _ Hm) as Hall; rewrite Forall_forall in Hall; by apply Hall, list_elem_of_In).
  pose proof (event_for_id _ _ _ _ (ev_occurred e) Hfor) as Hide.
  unfold event_for_pending. rewrite (validated_events_ok cfg Hcfg m es Hm Hl), next_sequence_read. cbn [bind].
  fold (the_cursor m). rewrite (pending_event_id_ok (m_cursor m) p s (ev_occurred e) Hs). fold (the_cursor m).
  rewrite <- Hide.
  eapply bind_run.
  { apply ensure_run. pose proof (find_sequence cfg es (cu_next (the_cursor m))) as Hf.
    destruct (event_id_for_sequence _ _) as [id|]; [|reflexivity]. destruct Hf as (e' & He' & -> & Hseq).
    assert (Hee : e' = e).
    { apply (NoDup_map_eq ev_sequence (m_events m)); [apply Hm | exact (Permutation_in _ Hp He') | exact He |].
      destruct Hfor as [H1 _]. congruence. }
    rewrite Hee. apply eqs_refl. }
  assert (Hd : dmem (json_name (ev_id cfg e)) (outbox (model_store cfg m)) = true).
  { apply dmem_outbox, in_map_iff. exists e. exact (conj eq_refl He). }
  rewrite Hd. rewrite (event_loads cfg e (outbox (model_store cfg m)) Hev Hcfg);
    [|apply dget_outbox; [apply Hm | exact He]]. cbn [bind].
  eapply bind_run; [|reflexivity]. apply ensure_run. rewrite Hide.
  apply (stable_fields_iff (m_cursor m) p s e Hs (eo_snapshot _ Hev) Hide). exact Hfor.
Qed.

(** ** The cursor afterwards *)

Lemma advanced_cursor_ok saved p s e d now :
  snap_ok s -> d = ev_dict cfg e \/ d = ev_loaded cfg e ->
  advanced_cursor cfg (cursor_read cfg saved) p (snap_dict cfg s) d now =
  cursor_dict cfg (advance cfg (default start_cursor saved) p s e now).
Proof.
  intros Hs Hd. destruct (ev_fields cfg e _ Hd) as (E1 & E2 & _ & _ & E5 & _).
  destruct (snap_fields cfg s Hs _ (or_introl eq_refl)) as (S1 & _ & _ & _ & _ & S6).
  destruct (cursor_fields cfg saved) as (_ & _ & Ha).
  unfold advanced_cursor, cursor_dict. rewrite next_sequence_read.
  rewrite (vget_some _ _ _ E1), (vget_some _ _ _ E2), (vget_some _ _ _ E5), S1, S6.
  cbn [advance cu_next cu_checked cu_active checked_val].
  destruct (pd_transition_kind p =s "recovered"); [reflexivity|]. cbn [active_val].
  destruct (cu_active (default start_cursor saved)) as [i|]; cbn [active_read] in Ha.
  - destruct Ha as (a & -> & Hi). destruct (incident_fields a i Hi) as (_ & _ & F2 & _).
    rewrite (vget_some _ _ _ F2). reflexivity.
  - rewrite Ha. reflexivity.
Qed.

Lemma coherent_event m e :
  coherent cfg m -> event_ok e -> ev_sequence e = cu_next (the_cursor m) ->
  ~ In (ev_id cfg e) (map (ev_id cfg) (m_events m)) ->
  (forall e', In e' (m_events m) -> ev_sequence e' <> cu_next (the_cursor m)) ->
  continues (cu_active (the_cursor m)) e ->
  ~ links_to cfg e e -> (forall e', In e' (m_events m) -> ~ links_to cfg e' e) ->
  coherent cfg (with_event m e).
Proof.
  intros Hm He Hseq Hid Hfree Hc Hself Hback. destruct Hm as [C1 C2 C3 C4 C5 C6 C7 C8 C9].
  assert (Hlt : forall e', In e' (m_events m) -> ev_sequence e' < ev_sequence e).
  { intros e' H. destruct (C8 e' H) as [G|[G _]]; [lia|]. exfalso. exact (Hfree e' H G). }
  assert (Hprev : forall e', In e' (m_events m) -> links_to cfg e e' -> ev_incident e' = ev_incident e).
  { intros e' H G. unfold links_to in G. unfold continues in Hc.
    destruct (cu_active (the_cursor m)) as [i|] eqn:Ei; [|destruct Hc as [_ Hc]; rewrite Hc in G; discriminate G].
    destruct Hc as (_ & Hi & Hp). rewrite Hi. rewrite Hp in G. injection G as G. exact (C9 e' i H eq_refl G). }
  constructor; cbn [with_event m_events m_acks m_cursor]; change (the_cursor (with_event m e)) with (the_cursor m).
  - apply Forall_app. split; [exact C1|]. by constructor.
  - rewrite map_app. apply NoDup_app. split_and!; [exact C2 | | apply NoDup_singleton].
    intros x Hx Hin%list_elem_of_singleton. rewrite Hin in Hx. by apply Hid, list_elem_of_In.
  - rewrite map_app. apply NoDup_app. split_and!; [exact C3 | | apply NoDup_singleton].
    intros x Hx Hin%list_elem_of_singleton. rewrite Hin in Hx. apply list_elem_of_In, in_map_iff in Hx as (e' & Heq & He').
    apply (Hfree e' He'). by rewrite Heq.
  - intros e1 e2 H1 H2 Hl. apply in_app_iff in H1 as [H1|[<-|[]]]; apply in_app_iff in H2 as [H2|[<-|[]]].
    + exact (C4 e1 e2 H1 H2 Hl).
    + exfalso. exact (Hback e1 H1 Hl).
    + split; [exact (Hlt e2 H2) | exact (Hprev e2 H2 Hl)].
    + exfalso. exact (Hself Hl).
  - exact C5.
  - exact C6.
  - exact C7.
  - intros e' H. apply in_app_iff in H as [H|[<-|[]]]; [exact (C8 e' H) | right; split; [exact Hseq | exact Hc]].
  - intros e' i H Hi Hlast. apply in_app_iff in H as [H|[<-|[]]]; [exact (C9 e' i H Hi Hlast)|].
    unfold continues in Hc. rewrite Hi in Hc. destruct Hc as (_ & _ & Hp). exfalso. apply Hself.
    unfold links_to. rewrite Hp, Hlast. reflexivity.
Qed.

(** A cursor may move past every event of the outbox. *)
Lemma coherent_cursor m c :
  coherent cfg m -> cursor_ok c ->
  (forall e, In e (m_events m) -> ev_sequence e < cu_next c \/ (ev_sequence e = cu_next c /\ continues (cu_active c) e)) ->
  (forall e i, In e (m_events m) -> cu_active c = Some i -> in_last_event i = ev_id cfg e -> ev_incident e = in_id i) ->
  coherent cfg (with_cursor m c).
Proof.
  intros [C1 C2 C3 C4 C5 C6 C7 C8 C9] Hc H8 H9.
  constructor; cbn [with_cursor m_events m_acks m_cursor]; try assumption.
  intros c' [= <-]. exact Hc.
Qed.

Lemma cursor_ok_the m : coherent cfg m -> cursor_ok (the_cursor m).
Proof.
  intros Hm. unfold the_cursor. destruct (m_cursor m) as [c|] eqn:Ec; [exact (ch_cursor _ _ Hm c Ec)|].
  constructor; [done | discriminate | discriminate].
Qed.

Lemma refresh_ok m now :
  coherent cfg m -> in_calendar now -> coherent cfg (with_cursor m (refresh (the_cursor m) now)).
Proof.
  intros Hm Hnow. pose proof (cursor_ok_the m Hm) as [K1 K2 K3]. apply coherent_cursor; [exact Hm | | |].
  - constructor; cbn [refresh cu_next cu_checked cu_active]; [exact K1 | intros t [= <-]; exact Hnow | exact K3].
  - exact (ch_ahead _ _ Hm).
  - exact (ch_active _ _ Hm).
Qed.

(** ** What the automaton asks for *)

Lemma transition_kind_ok c s now p :
  transition_spec cfg c s now = Some p ->
  In (pd_transition_kind p) TRANSITIONS /\
  match cu_active c with
  | None => pd_transition_kind p = "opened" /\ pd_previous_event_id p = None
  | Some i => In (pd_transition_kind p) ["updated"; "reminder"; "recovered"] /\ pd_incident_id p = in_id i /\
              pd_previous_event_id p = Some (in_last_event i)
  end /\ (pd_transition_kind p = "recovered" <-> sn_healthy s = true).
Proof.
  unfold transition_spec. intros H.
  destruct (sn_healthy s), (cu_active c) as [i|]; try discriminate H.
  3:{ injection H as <-. cbn. intuition discriminate. }
  1:{ injection H as <-. cbn. intuition. }
  destruct (_ || _); [injection H as <-; cbn; intuition discriminate|].
  destruct (_ <=? _); [injection H as <-; cbn; intuition discriminate | discriminate H].
Qed.

Lemma event_of_ok c s now p :
  cursor_ok c -> snap_ok s -> in_calendar now -> transition_spec cfg c s now = Some p ->
  event_ok (event_of c p s now) /\ continues (cu_active c) (event_of c p s now).
Proof.
  intros Hc Hs Hnow Hp. destruct (transition_kind_ok c s now p Hp) as (K1 & K2 & _).
  split; [|exact K2]. constructor; cbn [event_of ev_sequence ev_incident ev_kind ev_occurred ev_previous ev_snapshot];
    [apply Hc | | exact K1 | exact Hnow | | exact Hs].
  - unfold transition_spec in Hp. destruct (cu_active c) as [i|] eqn:Ei.
    + destruct K2 as (_ & -> & _). apply (co_active c Hc i Ei).
    + destruct (sn_healthy s); [discriminate Hp|]. injection Hp as <-. apply sha_re_stable_hash.
  - destruct (cu_active c) as [i|] eqn:Ei.
    + destruct K2 as (K2 & _ & ->). split; [|apply (co_active c Hc i Ei)].
      destruct K2 as [<-|[<-|[<-|[]]]]; reflexivity.
    + destruct K2 as [-> ->]. reflexivity.
Qed.

Lemma advance_ok c s now p e :
  cursor_ok c -> snap_ok s -> in_calendar now -> event_ok e -> event_for c p s e ->
  transition_spec cfg c s now = Some p -> cursor_ok (advance cfg c p s e now).
Proof.
  intros Hc Hs Hnow He Hfor Hp. destruct (transition_kind_ok c s now p Hp) as (K1 & K2 & K3).
  constructor; cbn [advance cu_next cu_checked cu_active].
  - pose proof (co_next c Hc). lia.
  - intros t [= <-]. exact Hnow.
  - intros i Hi. destruct (eqs_spec (pd_transition_kind p) "recovered") as [Hr|Hr]; [discriminate Hi|].
    injection Hi as <-. constructor; cbn.
    + apply He.
    + destruct (cu_active c) as [j|] eqn:Ej; [apply (co_active c Hc j Ej) | apply He].
    + split; [apply Hs|]. intros Hcur. apply Hr, K3. rewrite (so_healthy _ Hs), Hcur. reflexivity.
    + apply sha_re_stable_hash.
    + apply sha_re_stable_hash.
    + apply He.
Qed.
End Check.
