(* ===== verification/DeadmanSpec.v ===== *)
(** * What one check of the dead-man outbox does

    The abstract transition of a check, and the proof that [check_once] takes
    it on every coherent store, whichever of its writes fail. *)

From S2P Require Import Prelude PyValue Sha Json JsonFile PyRegex PyTime P121Authority Deadman DeadmanModel DeadmanStore DeadmanRetention.
From S2P Require Import DeadmanCheck.

#[local] Opaque stable_hash isoformat fromisoformat json_name written_file.

(** No event of the outbox, nor the one this check would write, names the new
    identifier as its predecessor. *)
Definition fresh_identifier (cfg : DeadmanConfig) (env : check_env) (st : store) : Prop :=
  forall now cursor snapshot p event events,
    observe cfg env st = Ok (now, cursor, snapshot, Some p) ->
    event_for_pending cfg st cursor p snapshot now = Ok (event, false) ->
    validated_events cfg st = Ok events ->
    forall e, In e (event :: map snd events) -> vget e "previous_event_id" <> vget event "event_id".

(** The clock answers with a time that [datetime] can hold. *)
Definition timely (env : check_env) : Prop := forall now, e_now env = Some now -> in_calendar now.

(** [m'] is [m] after retention made room for [count] events of [bytes]. *)
Record retained (cfg : DeadmanConfig) (count bytes : Z) (m m' : model) : Prop := {
  rt_sub : sub_model m' m;
  rt_kept : forall e, In e (m_events m) -> In e (m_events m') \/ acked m (ev_id cfg e);
  rt_budget : over_budget cfg (event_count m' + count) (event_bytes cfg m' + bytes) = false;
}.

(** A successful check of a verdict [s] at [now]: nothing to say, an event
    that an earlier check wrote, or a new one. *)
Inductive checked (cfg : DeadmanConfig) (m : model) (s : snap) (now : Z) : dict -> model -> Prop :=
  | checked_quiet :
      transition_spec cfg (the_cursor m) s now = None ->
      (forall e, In e (m_events m) -> ev_sequence e < cu_next (the_cursor m)) ->
      checked cfg m s now (deduplicated_report (snap_dict cfg s)) (with_cursor m (refresh (the_cursor m) now))
  | checked_replayed p e m1 :
      transition_spec cfg (the_cursor m) s now = Some p ->
      In e (m_events m) -> event_for cfg (the_cursor m) p s e -> retained cfg 0 0 m m1 ->
      checked cfg m s now (emitted_report p (snap_dict cfg s) (ev_loaded cfg e))
        (with_cursor m1 (advance cfg (the_cursor m) p s e now))
  | checked_new p e m1 :
      transition_spec cfg (the_cursor m) s now = Some p -> e = event_of (the_cursor m) p s now ->
      (forall e', In e' (m_events m) -> ev_sequence e' < cu_next (the_cursor m)) ->
      retained cfg 1 (json_size (VDict (ev_dict cfg e))) m m1 ->
      checked cfg m s now (emitted_report p (snap_dict cfg s) (ev_dict cfg e))
        (with_cursor (with_event m1 e) (advance cfg (the_cursor m) p s e now)).

Lemma dset_new {V} (d : list (string * V)) k v : dget d k = None -> dset d k v = d ++ [(k, v)].
Proof.
  induction d as [|[k' v'] d IH]; [done|]. simpl. destruct (k =s k'); [discriminate|]. intros H. by rewrite IH.
Qed.

Section Spec.
Context (cfg : DeadmanConfig) (Hcfg : sha_re (runtime_ref_hash cfg) = true).

Lemma observe_ok m env now cur d op :
  coherent cfg m -> observe cfg env (model_store cfg m) = Ok (now, cur, d, op) ->
  e_now env = Some now /\ cur = cursor_read cfg (m_cursor m) /\
  exists s raw, e_watchdog env = Ok raw /\ normalize_watchdog_result cfg raw = Ok d /\ d = snap_dict cfg s /\
    snap_ok s /\ op = transition_spec cfg (the_cursor m) s now.
Proof.
  intros Hm H. unfold observe in H.
  apply bind_ok in H as (n & Hn & H). apply bind_ok in H as (? & _ & H).
  rewrite (cursor_loads cfg (model_store cfg m) (m_cursor m) (ch_cursor _ _ Hm) eq_refl) in H. cbn [bind] in H.
  apply bind_ok in H as (? & _ & H). apply bind_ok in H as (? & _ & H).
  apply bind_ok in H as (raw & Hraw & H). apply bind_ok in H as (d' & Hd & H).
  destruct (normalize_ok cfg raw d' Hd) as (s & Hs & Hok). rewrite Hs in H.
  rewrite (pending_transition_ok cfg _ s n (ch_cursor _ _ Hm) Hok) in H. cbn [bind] in H.
  injection H as <- <- <- <-.
  split_and!; [|reflexivity|].
  - unfold require_utc in Hn. destruct (e_now env); [by injection Hn as ->|discriminate Hn].
  - exists s, raw. split_and!; [exact Hraw | rewrite <- Hs; exact Hd | reflexivity | exact Hok | reflexivity].
Qed.

(** The store after a write of the cursor. *)
Lemma write_cursor_ok m c w r st' d :
  written_file (VDict (hashed_cursor d)) = cursor_written cfg c ->
  write_cursor d w (model_store cfg m) = (r, st') ->
  (st' = model_store cfg m /\ exists x, r = Raise x /\ w = NotWritten x) \/
  (st' = model_store cfg (with_cursor m c) /\
   ((w = Written /\ r = Ok tt) \/ (w = Uncertain /\ r = Raise DurabilityUncertain))).
Proof.
  intros Hw. unfold write_cursor, atomic_write.
  assert (Hr : replaceable (cursor_file (model_store cfg m)) = true).
  { cbn [model_store cursor_file]. by destruct (m_cursor m). }
  rewrite Hr, Hw. change (set_cursor (model_store cfg m) (cursor_written cfg c)) with (model_store cfg (with_cursor m c)).
  destruct w as [|x|]; intros [= <- <-]; [right; auto | left; eauto | right; auto].
Qed.

(** The store after a write of a new event. *)
Lemma write_event_ok m e w r st' :
  ~ In (ev_id cfg e) (map (ev_id cfg) (m_events m)) ->
  write_event (ev_id cfg e) (ev_dict cfg e) w (model_store cfg m) = (r, st') ->
  (st' = model_store cfg m /\ exists x, r = Raise x /\ w = NotWritten x) \/
  (st' = model_store cfg (with_event m e) /\
   ((w = Written /\ r = Ok tt) \/ (w = Uncertain /\ r = Raise DurabilityUncertain))).
Proof.
  intros Hid. unfold write_event, atomic_write.
  assert (Hd : dget (outbox (model_store cfg m)) (json_name (ev_id cfg e)) = None).
  { cbn [model_store outbox]. destruct (dget _ _) eqn:Ed; [|reflexivity]. exfalso. apply Hid.
    apply (dmem_outbox cfg), dget_dmem. eauto. }
  rewrite Hd. cbn [replaceable]. rewrite (dset_new _ _ _ Hd).
  assert (Hput : set_outbox (model_store cfg m) (outbox (model_store cfg m) ++ [(json_name (ev_id cfg e), written_file (VDict (ev_dict cfg e)))]) =
                 model_store cfg (with_event m e)).
  { unfold set_outbox, model_store, with_event. cbn [outbox acks cursor_file m_events m_acks m_cursor]. rewrite map_app. reflexivity. }
  rewrite Hput.
  destruct w as [|x|]; intros Heq; [right | left | right]; injection Heq as <- <-; eauto.
Qed.

(** No event of [m] is lost but by retention. *)
Definition keeps (m m' : model) : Prop :=
  forall e, In e (m_events m) -> In e (m_events m') \/ acked m (ev_id cfg e).

Lemma the_cursor_eq m m' : m_cursor m' = m_cursor m -> the_cursor m' = the_cursor m.
Proof. unfold the_cursor. by intros ->. Qed.

(** The new event does not close a cycle of links. *)
Definition unlinked (m : model) (e : event) : Prop :=
  ~ links_to cfg e e /\ forall e', In e' (m_events m) -> ~ links_to cfg e' e.

Lemma enforce_retained m count bytes r st' :
  coherent cfg m -> enforce_retention cfg count bytes (model_store cfg m) = (r, st') ->
  exists m1, st' = model_store cfg m1 /\ coherent cfg m1 /\ sub_model m1 m /\ keeps m m1 /\
    forall x, r = Ok x -> retained cfg count bytes m m1.
Proof.
  intros Hm H. destruct (enforce_ok cfg Hcfg m count bytes r st' Hm H) as (m1 & H1 & H2 & H3 & H4 & _ & H6).
  exists m1. split_and!; [exact H1 | exact H2 | exact H3 | exact H4 |]. intros x Hx.
  constructor; [exact H3 | exact H4 | exact (H6 x Hx)].
Qed.

(** The new event is coherent with what retention left. *)
Lemma new_event_ok m m1 s p now (e := event_of (the_cursor m) p s now) :
  coherent cfg m -> coherent cfg m1 -> sub_model m1 m -> snap_ok s -> in_calendar now ->
  transition_spec cfg (the_cursor m) s now = Some p ->
  ~ In (ev_id cfg e) (map (ev_id cfg) (m_events m)) ->
  (forall e', In e' (m_events m) -> ev_sequence e' <> cu_next (the_cursor m)) -> unlinked m e ->
  ~ In (ev_id cfg e) (map (ev_id cfg) (m_events m1)) /\ coherent cfg (with_event m1 e).
Proof.
  intros Hm Hm1 Hsub Hs Hnow Hp Hid Hseq [Hself Hback].
  destruct (event_of_ok cfg _ s now p (cursor_ok_the cfg m Hm) Hs Hnow Hp) as [He Hc].
  assert (Hid1 : ~ In (ev_id cfg e) (map (ev_id cfg) (m_events m1))).
  { intros Hin. apply Hid. apply in_map_iff in Hin as (x & Hx & Hin). apply in_map_iff. exists x.
    split; [exact Hx | exact (sub_events m1 m x Hsub Hin)]. }
  assert (Hcur : the_cursor m1 = the_cursor m) by apply the_cursor_eq, Hsub.
  split; [exact Hid1|]. apply coherent_event; [exact Hm1 | exact He | | exact Hid1 | | | exact Hself |]; rewrite ?Hcur.
  - reflexivity.
  - intros e' He'. exact (Hseq e' (sub_events m1 m e' Hsub He')).
  - exact Hc.
  - intros e' He'. exact (Hback e' (sub_events m1 m e' Hsub He')).
Qed.

Lemma publish_ok m env now s p r st' (e := event_of (the_cursor m) p s now) :
  coherent cfg m -> snap_ok s -> in_calendar now -> transition_spec cfg (the_cursor m) s now = Some p ->
  (event_for_pending cfg (model_store cfg m) (cursor_read cfg (m_cursor m)) p (snap_dict cfg s) now = Ok (ev_dict cfg e, false) ->
   unlinked m e) ->
  publish cfg env now (cursor_read cfg (m_cursor m)) (snap_dict cfg s) p (model_store cfg m) = (r, st') ->
  (exists m1 x, r = Raise x /\ st' = model_store cfg m1 /\ coherent cfg m1 /\ m_cursor m1 = m_cursor m /\ keeps m m1) \/
  (exists e' m1, r = Ok (ev_loaded cfg e') /\ st' = model_store cfg m1 /\ coherent cfg m1 /\
     In e' (m_events m) /\ event_for cfg (the_cursor m) p s e' /\ retained cfg 0 0 m m1) \/
  (exists m1, r = Ok (ev_dict cfg e) /\ st' = model_store cfg (with_event m1 e) /\ coherent cfg (with_event m1 e) /\
     (forall x, In x (m_events m) -> ev_sequence x <> cu_next (the_cursor m)) /\
     ~ In (ev_id cfg e) (map (ev_id cfg) (m_events m)) /\
     retained cfg 1 (json_size (VDict (ev_dict cfg e))) m m1).
Proof.
  intros Hm Hs Hnow Hp Hfresh. unfold publish.
  destruct (event_for_pending _ _ _ _ _ _) as [ev|x] eqn:Hev; cbn [bind].
  2:{ intros [= <- <-]. left. exists m, x. split_and!; auto. by left. }
  destruct (let! _ := dm_ensure _ _ in _) as [ev'|x] eqn:Hplan.
  2:{ intros [= <- <-]. left. exists m, x. split_and!; auto. by left. }
  apply bind_ok in Hplan as (? & _ & Hplan). apply bind_ok in Hplan as (? & _ & [= <-]).
  destruct (event_for_pending_cases cfg Hcfg m p s now ev Hm Hs Hev) as [(e' & -> & He' & Hfor)|(-> & Hid & Hseq)].
  - destruct (enforce_retention _ _ _ _) as [[y|y] st1] eqn:Hret;
      destruct (enforce_retained m _ _ _ _ Hm Hret) as (m1 & -> & Hm1 & Hsub & Hkeep & Hr); intros [= <- <-].
    + right. left. exists e', m1. split_and!; auto. exact (Hr y eq_refl).
    + left. exists m1, y. split_and!; auto. apply Hsub.
  - cbv iota. fold e. fold e in Hid.
    destruct (enforce_retention _ _ _ _) as [[y|y] st1] eqn:Hret;
      destruct (enforce_retained m _ _ _ _ Hm Hret) as (m1 & -> & Hm1 & Hsub & Hkeep & Hr);
      [|intros [= <- <-]; left; exists m1, y; split_and!; auto; apply Hsub].
    destruct (new_event_ok m m1 s p now Hm Hm1 Hsub Hs Hnow Hp Hid Hseq (Hfresh eq_refl)) as [Hid1 Hm1e]. fold e in Hid1, Hm1e.
    destruct (ev_fields cfg e _ (or_introl eq_refl)) as (E1 & _). rewrite (vget_some _ _ _ E1). cbn [py_str].
    destruct (write_event _ _ _ _) as [rw stw] eqn:Hw. apply write_event_ok in Hw; [|exact Hid1].
    destruct Hw as [(-> & x' & -> & _)|(-> & [(_ & ->)|(_ & ->)])]; intros [= <- <-].
    + left. exists m1, x'. split_and!; auto. apply Hsub.
    + right. right. exists m1. split_and!; auto. exact (Hr y eq_refl).
    + left. exists (with_event m1 e), DurabilityUncertain. split_and!; auto; [apply Hsub|].
      intros e' He'. destruct (Hkeep e' He') as [H|H]; [left; apply in_app_iff; by left | by right].
Qed.

(** The cursor moves past the event it names. *)
Lemma advanced_coherent m s now p e :
  coherent cfg m -> snap_ok s -> in_calendar now -> event_ok e -> event_for cfg (the_cursor m) p s e ->
  transition_spec cfg (the_cursor m) s now = Some p ->
  (forall x, In x (m_events m) -> ev_sequence x <= cu_next (the_cursor m)) ->
  (forall x, In x (m_events m) -> ev_id cfg x = ev_id cfg e -> x = e) ->
  coherent cfg (with_cursor m (advance cfg (the_cursor m) p s e now)).
Proof.
  intros Hm Hs Hnow He Hfor Hp Hle Huniq.
  apply coherent_cursor;
    [exact Hm | exact (advance_ok cfg _ s now p e (cursor_ok_the cfg m Hm) Hs Hnow He Hfor Hp) | |].
  - intros x Hx. left. cbn [advance cu_next]. specialize (Hle x Hx). lia.
  - intros x i Hx Hi Hlast. cbn [advance cu_active] in Hi.
    destruct (pd_transition_kind p =s "recovered"); [discriminate Hi|]. injection Hi as <-.
    cbn [in_last_event in_id] in *. by rewrite (Huniq x Hx (eq_sym Hlast)).
Qed.

Lemma ahead_le m x : coherent cfg m -> In x (m_events m) -> ev_sequence x <= cu_next (the_cursor m).
Proof. intros Hm Hx. destruct (ch_ahead _ _ Hm x Hx) as [H|[H _]]; lia. Qed.

Lemma event_of_for c p s now : event_for cfg c p s (event_of c p s now).
Proof. repeat split. Qed.

(** [fresh_identifier] in terms of the model. *)
Lemma fresh_unlinked m env now s p (e := event_of (the_cursor m) p s now) :
  coherent cfg m -> snap_ok s ->
  fresh_identifier cfg env (model_store cfg m) ->
  observe cfg env (model_store cfg m) = Ok (now, cursor_read cfg (m_cursor m), snap_dict cfg s, Some p) ->
  event_for_pending cfg (model_store cfg m) (cursor_read cfg (m_cursor m)) p (snap_dict cfg s) now = Ok (ev_dict cfg e, false) ->
  unlinked m e.
Proof.
  intros Hm Hs Hfresh Hobs Hev. destruct (listed_exists cfg m) as (es & Hl).
  pose proof (Hfresh _ _ _ _ _ _ Hobs Hev (validated_events_ok cfg Hcfg m es Hm Hl)) as H.
  destruct (ev_fields cfg e _ (or_introl eq_refl)) as (E1 & _ & _ & _ & _ & E6 & _).
  split.
  - intros Hself. apply (H (ev_dict cfg e)); [by left|].
    rewrite (vget_some _ _ _ E1), (vget_some _ _ _ E6), Hself. reflexivity.
  - intros e' He' Hl'. apply (H (ev_loaded cfg e')).
    + right. rewrite map_map. apply in_map_iff. exists e'. split; [reflexivity|].
      exact (Permutation_in _ (Permutation_sym (proj1 Hl)) He').
    + destruct (ev_fields cfg e' _ (or_intror eq_refl)) as (_ & _ & _ & _ & _ & F6 & _).
      rewrite (vget_some _ _ _ E1), (vget_some _ _ _ F6), Hl'. reflexivity.
Qed.

(** What a check leaves, and what it did when it reports. *)
Definition check_leaves (m : model) (env : check_env) (r : res dict) (m' : model) : Prop :=
  coherent cfg m' /\ keeps m m' /\
  forall report, r = Ok report ->
    exists s raw now, e_now env = Some now /\ e_watchdog env = Ok raw /\
      normalize_watchdog_result cfg raw = Ok (snap_dict cfg s) /\ snap_ok s /\ checked cfg m s now report m'.

Lemma leaves_raise m env x m' :
  coherent cfg m' -> keeps m m' -> check_leaves m env (Raise x) m'.
Proof. intros H1 H2. split_and!; [exact H1 | exact H2 | discriminate]. Qed.

Lemma keeps_refl m : keeps m m.
Proof. by left. Qed.

Lemma deduplicate_ok m env now s r st' :
  coherent cfg m -> snap_ok s -> in_calendar now -> transition_spec cfg (the_cursor m) s now = None ->
  deduplicate cfg env now (cursor_read cfg (m_cursor m)) (snap_dict cfg s) (model_store cfg m) = (r, st') ->
  exists m', st' = model_store cfg m' /\ coherent cfg m' /\ keeps m m' /\
    forall report, r = Ok report -> checked cfg m s now report m'.
Proof.
  intros Hm Hs Hnow Hp. unfold deduplicate, pending_replay_event_id.
  destruct (listed_exists cfg m) as (es & Hl). rewrite (validated_events_ok cfg Hcfg m es Hm Hl), next_sequence_read.
  cbn [bind]. fold (the_cursor m). pose proof (find_sequence cfg es (cu_next (the_cursor m))) as Hf.
  destruct (event_id_for_sequence _ _) as [id|].
  { intros [= <- <-]. exists m. split_and!; [done | done | apply keeps_refl | discriminate]. }
  destruct (write_cursor _ _ _) as [rw stw] eqn:Hw.
  apply (write_cursor_ok m (refresh (the_cursor m) now)) in Hw; [|apply cursor_refreshed].
  pose proof (refresh_ok cfg m now Hm Hnow) as Hm'.
  destruct Hw as [(-> & x & -> & _)|(-> & [(_ & ->)|(_ & ->)])]; intros [= <- <-].
  - exists m. split_and!; [done | done | apply keeps_refl | discriminate].
  - eexists. split_and!; [done | exact Hm' | by left |]. intros report [= <-]. apply checked_quiet; [exact Hp|].
    intros e He. pose proof (ahead_le m e Hm He).
    specialize (Hf e (Permutation_in _ (Permutation_sym (proj1 Hl)) He)). lia.
  - eexists. split_and!; [done | exact Hm' | by left | discriminate].
Qed.

Lemma emit_ok m env now s p r st' (e := event_of (the_cursor m) p s now) :
  coherent cfg m -> snap_ok s -> in_calendar now -> transition_spec cfg (the_cursor m) s now = Some p ->
  (event_for_pending cfg (model_store cfg m) (cursor_read cfg (m_cursor m)) p (snap_dict cfg s) now = Ok (ev_dict cfg e, false) ->
   unlinked m e) ->
  emit cfg env now (cursor_read cfg (m_cursor m)) (snap_dict cfg s) p (model_store cfg m) = (r, st') ->
  exists m', st' = model_store cfg m' /\ coherent cfg m' /\ keeps m m' /\
    forall report, r = Ok report -> checked cfg m s now report m'.
Proof.
  intros Hm Hs Hnow Hp Hfresh. unfold emit.
  destruct (publish _ _ _ _ _ _ _) as [rp stp] eqn:Hpub.
  destruct (publish_ok m env now s p rp stp Hm Hs Hnow Hp Hfresh Hpub)
    as [(m1 & x & -> & -> & H1 & _ & H3)|[(e' & m1 & -> & -> & Hm1 & He' & Hfor & Hret)|
        (m1 & -> & -> & Hm1 & Hseq & Hid & Hret)]].
  - intros [= <- <-]. exists m1. split_and!; [reflexivity | exact H1 | exact H3 | discriminate].
  - pose proof (the_cursor_eq m m1 (sm_cursor _ _ (rt_sub _ _ _ _ _ Hret))) as Hcur.
    assert (Hev : event_ok e').
    { pose proof (ch_events _ _ Hm) as Hall. rewrite Forall_forall in Hall. by apply Hall, list_elem_of_In. }
    assert (Hadv : coherent cfg (with_cursor m1 (advance cfg (the_cursor m) p s e' now))).
    { rewrite <- Hcur. apply advanced_coherent; rewrite ?Hcur; try assumption.
      - intros x Hx. rewrite <- Hcur. exact (ahead_le m1 x Hm1 Hx).
      - intros x Hx Hid. apply (NoDup_map_eq (ev_id cfg) (m_events m)); [apply Hm | | exact He' | exact Hid].
        exact (sub_events m1 m x (rt_sub _ _ _ _ _ Hret) Hx). }
    destruct (write_cursor _ _ _) as [rw stw] eqn:Hw.
    apply (write_cursor_ok m1 (advance cfg (the_cursor m) p s e' now)) in Hw;
      [|unfold cursor_written; by rewrite (advanced_cursor_ok cfg _ p s e' _ now Hs (or_intror eq_refl))].
    destruct Hw as [(-> & x & -> & _)|(-> & [(_ & ->)|(_ & ->)])]; intros [= <- <-].
    + exists m1. split_and!; [reflexivity | exact Hm1 | exact (rt_kept _ _ _ _ _ Hret) | discriminate].
    + eexists. split_and!; [reflexivity | exact Hadv | exact (rt_kept _ _ _ _ _ Hret) |].
      intros report [= <-]. exact (checked_replayed cfg m s now p e' m1 Hp He' Hfor Hret).
    + eexists. split_and!; [reflexivity | exact Hadv | exact (rt_kept _ _ _ _ _ Hret) | discriminate].
  - assert (Hcur : the_cursor (with_event m1 e) = the_cursor m).
    { apply the_cursor_eq. cbn [with_event m_cursor]. apply Hret. }
    destruct (event_of_ok cfg _ s now p (cursor_ok_the cfg m Hm) Hs Hnow Hp) as [Hev _].
    assert (Hkeep : keeps m (with_event m1 e)).
    { intros x Hx. destruct (rt_kept _ _ _ _ _ Hret x Hx) as [H|H]; [left; apply in_app_iff; by left | by right]. }
    assert (Hadv : coherent cfg (with_cursor (with_event m1 e) (advance cfg (the_cursor m) p s e now))).
    { rewrite <- Hcur. apply advanced_coherent; rewrite ?Hcur; try assumption; [apply event_of_for | |].
      - intros x Hx. rewrite <- Hcur. exact (ahead_le _ x Hm1 Hx).
      - intros x Hx Hide. apply (NoDup_map_eq (ev_id cfg) (m_events (with_event m1 e)));
          [apply Hm1 | exact Hx | apply in_app_iff; right; by left | exact Hide]. }
    destruct (write_cursor _ _ _) as [rw stw] eqn:Hw.
    apply (write_cursor_ok (with_event m1 e) (advance cfg (the_cursor m) p s e now)) in Hw;
      [|unfold cursor_written; by rewrite (advanced_cursor_ok cfg _ p s e _ now Hs (or_introl eq_refl))].
    destruct Hw as [(-> & x & -> & _)|(-> & [(_ & ->)|(_ & ->)])]; intros [= <- <-].
    + eexists. split_and!; [reflexivity | exact Hm1 | exact Hkeep | discriminate].
    + eexists. split_and!; [reflexivity | exact Hadv | exact Hkeep |].
      intros report [= <-]. apply checked_new; [exact Hp | reflexivity | | exact Hret].
      intros x Hx. specialize (Hseq x Hx). pose proof (ahead_le m x Hm Hx). lia.
    + eexists. split_and!; [reflexivity | exact Hadv | exact Hkeep | discriminate].
Qed.

Lemma check_once_ok m env r st' :
  coherent cfg m -> timely env -> fresh_identifier cfg env (model_store cfg m) ->
  check_once cfg env (model_store cfg m) = (r, st') ->
  exists m', st' = model_store cfg m' /\ check_leaves m env r m'.
Proof.
  intros Hm Htime Hfresh. unfold check_once.
  destruct (observe cfg env (model_store cfg m)) as [[[[now cur] d] op]|x] eqn:Hobs.
  2:{ intros [= <- <-]. exists m. split; [reflexivity | apply leaves_raise; [exact Hm | apply keeps_refl]]. }
  destruct (observe_ok m env now cur d op Hm Hobs) as (Hn & -> & s & raw & Hraw & Hnorm & -> & Hs & ->).
  pose proof (Htime now Hn) as Hnow. intros Hstep.
  assert (Hout : exists m', st' = model_store cfg m' /\ coherent cfg m' /\ keeps m m' /\
    forall report, r = Ok report -> checked cfg m s now report m').
  { destruct (transition_spec cfg (the_cursor m) s now) as [p|] eqn:Hp.
    - apply (emit_ok m env now s p); try assumption. by apply (fresh_unlinked m env now s p).
    - by apply (deduplicate_ok m env now s). }
  destruct Hout as (m' & H1 & H2 & H3 & H4). exists m'. split; [exact H1|]. split_and!; [exact H2 | exact H3 |].
  intros report Hr. exists s, raw, now. split_and!; [exact Hn | exact Hraw | exact Hnorm | exact Hs | exact (H4 report Hr)].
Qed.
End Spec.
