(* ===== verification/DeadmanProps.v ===== *)
(** * What holds of the dead-man outbox

    The theorems about app/services/p133_deadman_outbox.py, on the stores its
    own calls leave, whatever the clock, the watchdog and the disk answered. *)

From S2P Require Import Prelude PyValue Sha Json JsonFile PyRegex PyTime P121Authority Deadman DeadmanModel DeadmanStore DeadmanRetention.
From S2P Require Import DeadmanCheck DeadmanSpec.

#[local] Opaque stable_hash isoformat fromisoformat json_name written_file.

Definition empty_store : store := {| outbox := []; acks := []; cursor_file := None |}.

(** The stores that calls on an empty one leave: a check, an acknowledgement
    or a retention run, whether it returned or raised. *)
Inductive outbox_reachable (cfg : DeadmanConfig) : store -> Prop :=
  | reach_empty : outbox_reachable cfg empty_store
  | reach_check env st r st' :
      outbox_reachable cfg st -> timely env -> fresh_identifier cfg env st ->
      check_once cfg env st = (r, st') -> outbox_reachable cfg st'
  | reach_ack id now free w st r st' :
      outbox_reachable cfg st -> (forall us, now = Some us -> in_calendar us) ->
      acknowledge_event cfg id now free w st = (r, st') -> outbox_reachable cfg st'
  | reach_retention st r st' :
      outbox_reachable cfg st -> enforce_retention cfg 0 0 st = (r, st') -> outbox_reachable cfg st'.

Definition with_ack (m : model) (a : ack) : model :=
  {| m_events := m_events m; m_acks := m_acks m ++ [a]; m_cursor := m_cursor m |}.

Section Acknowledge.
Context (cfg : DeadmanConfig) (Hcfg : sha_re (runtime_ref_hash cfg) = true).

Lemma load_event_inv m id d :
  coherent cfg m -> load_event_file cfg (outbox (model_store cfg m)) (json_name id) = Ok d ->
  exists e, In e (m_events m) /\ id = ev_id cfg e /\ d = ev_loaded cfg e.
Proof.
  intros Hm Hd. destruct (dmem (json_name id) (outbox (model_store cfg m))) eqn:E.
  - cbn [model_store outbox] in E. apply dmem_outbox, in_map_iff in E as (e & Hid & He).
    exists e. split; [exact He|]. split; [symmetry; exact Hid|].
    assert (Hev : event_ok e) by (pose proof (ch_events _ _ Hm) as Hall; rewrite Forall_forall in Hall; by apply Hall, list_elem_of_In).
    rewrite <- Hid in Hd. rewrite (event_loads cfg e _ Hev Hcfg) in Hd; [by injection Hd|].
    apply dget_outbox; [apply Hm | exact He].
  - exfalso. unfold load_event_file in Hd. rewrite json_stem_name in Hd. apply bind_ok in Hd as (? & _ & Hd).
    destruct (dget _ _) as [f|] eqn:Ef; [|discriminate Hd].
    apply not_true_iff_false in E. apply E, dget_dmem. eauto.
Qed.

Lemma with_ack_store m a :
  ~ acked m (ak_event a) ->
  set_acks (model_store cfg m)
    (dset (acks (model_store cfg m)) (json_name (ak_event a)) (written_file (VDict (ack_dict cfg a)))) =
  model_store cfg (with_ack m a).
Proof.
  intros Hn. rewrite dset_new.
  - unfold set_acks, model_store, with_ack. cbn [outbox acks cursor_file m_events m_acks m_cursor].
    rewrite map_app. reflexivity.
  - destruct (dget _ _) eqn:E; [|reflexivity]. exfalso. apply Hn. apply (dmem_acks cfg), dget_dmem. eauto.
Qed.

Lemma with_ack_coherent m a :
  coherent cfg m -> ack_ok a -> ~ acked m (ak_event a) -> coherent cfg (with_ack m a).
Proof.
  intros [C1 C2 C3 C4 C5 C6 C7 C8 C9] Ha Hn.
  constructor; cbn [with_ack m_events m_acks m_cursor]; try assumption.
  - apply Forall_app. split; [exact C5 | by constructor].
  - rewrite map_app. apply NoDup_app. split_and!; [exact C6 | | apply NoDup_singleton].
    intros x Hx Hin%list_elem_of_singleton. rewrite Hin in Hx. by apply Hn, list_elem_of_In.
Qed.

Lemma make_ack_ok e now :
  make_ack cfg (ev_id cfg e) (ev_loaded cfg e) now =
  ack_dict cfg {| ak_event := ev_id cfg e; ak_event_hash := ev_hash cfg e; ak_at := now |}.
Proof.
  destruct (ev_fields cfg e _ (or_intror eq_refl)) as (_ & _ & _ & _ & _ & _ & _ & E8).
  unfold make_ack. rewrite (vget_some _ _ _ E8). reflexivity.
Qed.

Lemma new_ack_ok e now :
  in_calendar now -> ack_ok {| ak_event := ev_id cfg e; ak_event_hash := ev_hash cfg e; ak_at := now |}.
Proof. intros Hn. constructor; [apply sha_re_stable_hash | apply sha_re_stable_hash | exact Hn]. Qed.

(** An acknowledgement leaves the store as it is or with one more file. *)
Lemma acknowledge_ok m id now free w r st' :
  coherent cfg m -> (forall us, now = Some us -> in_calendar us) ->
  acknowledge_event cfg id now free w (model_store cfg m) = (r, st') ->
  (st' = model_store cfg m /\ forall d, r = Ok d -> acked m id) \/
  exists e us, In e (m_events m) /\ id = ev_id cfg e /\ now = Some us /\ ~ acked m id /\
    let a := {| ak_event := id; ak_event_hash := ev_hash cfg e; ak_at := us |} in
    ack_ok a /\ st' = model_store cfg (with_ack m a) /\ (forall d, r = Ok d -> d = ack_dict cfg a).
Proof.
  intros Hm Hnow. unfold acknowledge_event.
  destruct (let! _ := dm_ensure _ _ in _) as [d|x] eqn:Hl; [|intros [= <- <-]; left; by split].
  apply bind_ok in Hl as (? & _ & Hl). apply (load_event_inv m id d Hm) in Hl as (e & He & Hid & ->).
  destruct (dmem _ _) eqn:Ed.
  { cbn [model_store acks] in Ed. apply (dmem_acks cfg) in Ed. intros [= <- <-]. left.
    split; [reflexivity|]. intros d _. exact Ed. }
  assert (Hn : ~ acked m id).
  { intros Ha. apply not_true_iff_false in Ed. apply Ed. cbn [model_store acks]. by apply (dmem_acks cfg). }
  destruct (let! _ := require_utc now in _) as [a|y] eqn:Hmade; [|intros [= <- <-]; left; by split].
  apply bind_ok in Hmade as (us & Hus & Hmade). apply bind_ok in Hmade as (? & _ & [= <-]).
  assert (Hsome : now = Some us).
  { unfold require_utc in Hus. destruct now; [by injection Hus as ->|discriminate Hus]. }
  assert (Hmk : make_ack cfg id (ev_loaded cfg e) us =
    ack_dict cfg {| ak_event := id; ak_event_hash := ev_hash cfg e; ak_at := us |}) by (rewrite Hid; apply make_ack_ok).
  rewrite Hmk. pose proof (with_ack_store m {| ak_event := id; ak_event_hash := ev_hash cfg e; ak_at := us |} Hn) as Hput.
  cbn [ak_event] in Hput. rewrite Hput. unfold atomic_write. cbn [replaceable].
  assert (Hok : ack_ok {| ak_event := id; ak_event_hash := ev_hash cfg e; ak_at := us |}).
  { rewrite Hid. apply new_ack_ok, Hnow, Hsome. }
  destruct w as [|z|]; intros Heq; injection Heq as <- <-.
  - right. exists e, us. repeat (split; [assumption|]). split; [reflexivity|].
    intros d Hd. exact (eq_sym (f_equal (fun r => from_ok [] r) Hd)).
  - left. split; [reflexivity | discriminate].
  - right. exists e, us. repeat (split; [assumption|]). split; [reflexivity | discriminate].
Qed.

(** Every reachable store is the image of a coherent model. *)
Lemma reachable_coherent st :
  outbox_reachable cfg st -> exists m, st = model_store cfg m /\ coherent cfg m.
Proof.
  induction 1 as [|env st r st' _ (m & -> & Hm) Htime Hfresh Hstep|id now free w st r st' _ (m & -> & Hm) Hnow Hstep|
    st r st' _ (m & -> & Hm) Hstep].
  - exists {| m_events := []; m_acks := []; m_cursor := None |}. split; [reflexivity|].
    constructor; simpl; try done; constructor.
  - destruct (check_once_ok cfg Hcfg m env r st' Hm Htime Hfresh Hstep) as (m' & -> & Hm' & _). eauto.
  - destruct (acknowledge_ok m id now free w r st' Hm Hnow Hstep)
      as [[-> _]|(e & us & _ & _ & _ & Hn & Ha & -> & _)]; [by eauto|].
    eexists. split; [reflexivity|]. by apply with_ack_coherent.
  - destruct (enforce_ok cfg Hcfg m 0 0 r st' Hm Hstep) as (m' & -> & Hm' & _). eauto.
Qed.
End Acknowledge.

(** ** The store never locks itself out *)

Lemma by_sequence_total a b : by_sequence a b = true \/ by_sequence b a = true.
Proof.
  unfold by_sequence. destruct (Z.lt_total (sequence_of a.2) (sequence_of b.2)) as [H|[H|H]].
  - left. by rewrite (proj2 (Z.ltb_lt _ _) H).
  - rewrite H, Z.eqb_refl, Z.ltb_irrefl. simpl. apply String.leb_total.
  - right. by rewrite (proj2 (Z.ltb_lt _ _) H).
Qed.

Lemma strictly_increasing l :
  Sorted (fun a b => by_sequence a b = true) l -> NoDup (map (fun e => sequence_of e.2) l) ->
  StronglySorted Z.lt (map (fun e => sequence_of e.2) l).
Proof.
  intros Hs Hn. apply Sorted_StronglySorted; [intros x y z; apply Z.lt_trans|].
  induction Hs as [|a l Hl IH Ha]; [constructor|]. cbn [map] in Hn |- *. apply NoDup_cons in Hn as [Hna Hn].
  constructor; [by apply IH|]. destruct l as [|b l]; [constructor|]. cbn [map]. constructor.
  inversion Ha as [|? ? Hab]; subst. unfold by_sequence in Hab. apply orb_true_iff in Hab as [Hab|Hab]; bools; [done|].
  exfalso. apply Hna. cbn [map]. rewrite H. by left.
Qed.

Section Listing.
Context (cfg : DeadmanConfig) (Hcfg : sha_re (runtime_ref_hash cfg) = true).

(** The listing of a coherent store. *)
Lemma list_outbox_ok m :
  coherent cfg m ->
  exists es, list_outbox cfg (model_store cfg m) = Ok (map (ev_loaded cfg) es) /\
    Permutation es (m_events m) /\ StronglySorted Z.lt (map ev_sequence es).
Proof.
  intros Hm. destruct (listed_exists cfg m) as (es & Hl).
  unfold list_outbox. rewrite (validated_events_ok cfg Hcfg m es Hm Hl). cbn [bind].
  destruct (Permutation_map_inv (ev_entry cfg) es (l1 := isort by_sequence (map (ev_entry cfg) es))) as (es' & H1 & H2);
    [apply isort_perm|].
  assert (Hs : map (fun e => sequence_of e.2) (map (ev_entry cfg) es') = map ev_sequence es').
  { rewrite map_map. apply map_ext. intros e. exact (sequence_of_ev cfg e _ (or_intror eq_refl)). }
  exists es'. rewrite H1, map_map. split_and!; [reflexivity | rewrite <- H2; apply Hl |].
  rewrite <- Hs. apply strictly_increasing.
  - rewrite <- H1. apply isort_sorted, by_sequence_total.
  - rewrite Hs, <- H2, (proj1 Hl). apply Hm.
Qed.
End Listing.

(** C20: the dead-man outbox never locks itself out.  Whatever checks,
    acknowledgements and retention runs did to it, with any clock, any verdict
    and any of their writes failing before or after the replacement, the
    directory still loads: the cursor and every acknowledgement validate, the
    sequence check passes, and [list_outbox] returns the events in strictly
    increasing sequence order, none of them ahead of the cursor.  A process
    killed inside a write is not among these runs (see below), and no event is
    taken to name the new identifier as its predecessor, which takes a cycle of
    hashes. *)
Theorem outbox_always_loads cfg st :
  sha_re (runtime_ref_hash cfg) = true -> outbox_reachable cfg st ->
  exists cursor ids l,
    load_cursor cfg st = Ok cursor /\ validated_acks cfg st = Ok ids /\
    validate_sequence_against_events cfg st cursor = Ok tt /\
    list_outbox cfg st = Ok l /\ StronglySorted Z.lt (map sequence_of l) /\
    Forall (fun e => 0 < sequence_of e <= next_sequence cursor) l.
Proof.
  intros Hcfg Hst. destruct (reachable_coherent cfg Hcfg st Hst) as (m & -> & Hm).
  destruct (validated_acks_ok cfg m Hm) as (ids & Hids & _).
  destruct (list_outbox_ok cfg Hcfg m Hm) as (es & Hl & Hp & Hsort).
  assert (Hseq : map sequence_of (map (ev_loaded cfg) es) = map ev_sequence es).
  { rewrite map_map. apply map_ext. intros e. exact (sequence_of_ev cfg e _ (or_intror eq_refl)). }
  exists (cursor_read cfg (m_cursor m)), ids, (map (ev_loaded cfg) es). split_and!.
  - exact (cursor_loads cfg (model_store cfg m) (m_cursor m) (ch_cursor _ _ Hm) eq_refl).
  - exact Hids.
  - by apply sequence_check_ok.
  - exact Hl.
  - by rewrite Hseq.
  - apply Forall_forall. intros d Hd%list_elem_of_In. apply in_map_iff in Hd as (e & <- & He).
    rewrite (sequence_of_ev cfg e _ (or_intror eq_refl)), next_sequence_read.
    apply (Permutation_in _ Hp) in He. split; [|exact (ahead_le cfg m e Hm He)].
    pose proof (ch_events _ _ Hm) as Hall. rewrite Forall_forall in Hall. by apply Hall, list_elem_of_In.
Qed.

(** C10: a check refines the abstract transition.  On a coherent store, a check
    that returns has moved the model by one of the three steps of [checked]:
    nothing to report and only the time of the cursor refreshed; the event an
    interrupted check left is taken over; or one new event of the transition
    the automaton asks for, under the configured budget.  Whatever it returns
    or raises, the store it leaves is coherent and has lost no event that was
    not acknowledged.  The events there are taken not to name the new
    identifier as their predecessor, and the process not to be killed inside a
    write. *)
Theorem check_once_refines cfg m env r st' :
  sha_re (runtime_ref_hash cfg) = true -> coherent cfg m -> timely env ->
  fresh_identifier cfg env (model_store cfg m) ->
  check_once cfg env (model_store cfg m) = (r, st') ->
  exists m', st' = model_store cfg m' /\ coherent cfg m' /\
    (forall e, In e (m_events m) -> In e (m_events m') \/ acked m (ev_id cfg e)) /\
    (forall report, r = Ok report ->
       exists s raw now, e_now env = Some now /\ e_watchdog env = Ok raw /\
         normalize_watchdog_result cfg raw = Ok (snap_dict cfg s) /\ checked cfg m s now report m').
Proof.
  intros Hcfg Hm Htime Hfresh Hstep.
  destruct (check_once_ok cfg Hcfg m env r st' Hm Htime Hfresh Hstep) as (m' & -> & H1 & H2 & H3).
  exists m'. split_and!; [reflexivity | exact H1 | exact H2 |]. intros report Hr.
  destruct (H3 report Hr) as (s & raw & now & G1 & G2 & G3 & _ & G4). eauto 10.
Qed.

Lemma outbox_name cfg m name :
  dmem name (outbox (model_store cfg m)) = true <-> exists e, In e (m_events m) /\ name = json_name (ev_id cfg e).
Proof.
  unfold dmem, dkeys. cbn [model_store outbox]. rewrite mem_In, map_map, in_map_iff.
  split; intros (e & H1 & H2); exists e; (split; [exact H2 | symmetry; exact H1]) || (split; [symmetry; exact H2 | exact H1]).
Qed.

Lemma acks_name cfg m name :
  dmem name (acks (model_store cfg m)) = true <-> exists id, acked m id /\ name = json_name id.
Proof.
  unfold dmem, dkeys, acked. cbn [model_store acks]. rewrite mem_In, map_map, in_map_iff. split.
  - intros (a & H1 & H2). exists (ak_event a). split; [apply in_map_iff; by exists a | symmetry; exact H1].
  - intros (id & (a & <- & Ha)%in_map_iff & ->). by exists a.
Qed.

(** Retention loses nothing that was not acknowledged.  On a reachable
    store, whatever [enforce_retention] answers, the cursor and the files that
    remain are unchanged, an event file that is gone had an acknowledgement of
    its name, and acknowledgements of missing events are gone.  When it
    returns, the events that remain fit the configured budget. *)
Theorem retention_removes_only_acknowledged cfg count bytes st r st' :
  sha_re (runtime_ref_hash cfg) = true -> outbox_reachable cfg st ->
  enforce_retention cfg count bytes st = (r, st') ->
  cursor_file st' = cursor_file st /\
  (forall name, dmem name (outbox st) = true ->
     (dmem name (outbox st') = true /\ dget (outbox st') name = dget (outbox st) name) \/ dmem name (acks st) = true) /\
  (forall name, dmem name (outbox st') = true -> dmem name (outbox st) = true) /\
  (forall name, dmem name (acks st') = true -> dmem name (outbox st) = true) /\
  (forall x l, r = Ok x -> list_outbox cfg st' = Ok l ->
     Z.of_nat (List.length l) + count <= max_event_files cfg /\
     fold_right (fun e acc => json_size (VDict e) + acc) 0 l + bytes <= max_outbox_bytes cfg).
Proof.
  intros Hcfg Hst Hret. destruct (reachable_coherent cfg Hcfg st Hst) as (m & -> & Hm).
  destruct (enforce_ok cfg Hcfg m count bytes r st' Hm Hret) as (m' & -> & Hm' & Hsub & Hkept & Hacks & Hbudget).
  split_and!.
  - cbn [model_store cursor_file]. by rewrite (sm_cursor _ _ Hsub).
  - intros name (e & He & ->)%outbox_name. destruct (Hkept e He) as [He'|Ha].
    + left. split; [apply outbox_name; eauto|]. cbn [model_store outbox].
      rewrite !dget_outbox; [reflexivity | apply Hm | exact He | apply Hm' | exact He'].
    + right. apply acks_name. eauto.
  - intros name (e & He & ->)%outbox_name. apply outbox_name. exists e.
    split; [exact (sub_events m' m e Hsub He) | reflexivity].
  - intros name (id & Hid & ->)%acks_name. apply outbox_name. apply Hacks, in_map_iff in Hid as (e & <- & He). eauto.
  - intros x l Hx Hl. destruct (list_outbox_ok cfg Hcfg m' Hm') as (es & Hl' & Hp & _).
    rewrite Hl' in Hl. injection Hl as <-. pose proof (Hbudget x Hx) as Hb. unfold over_budget in Hb. bools.
    rewrite length_map, (Permutation_length Hp). unfold event_count, event_bytes in *.
    assert (Hbytes : fold_right (fun e acc => json_size (VDict e) + acc) 0 (map (ev_loaded cfg) es) = events_bytes cfg (m_events m')).
    { rewrite <- (events_bytes_perm cfg es _ Hp), <- (total_bytes_entries cfg es). unfold total_bytes.
      clear. induction es as [|e es IH]; [done|]. cbn [map fold_right ev_entry snd]. by rewrite IH. }
    rewrite Hbytes. lia.
Qed.

(** ** What a kill inside a write would leave

    A failing write removes its temporary file.  A process that is killed
    between creating it and the replacement cannot, and the outbox is read
    with every file in it. *)

Lemma load_events_loads cfg d names acc events name :
  load_events cfg d names acc = Ok events -> In name names -> is_ok (load_event_file cfg d name) = true.
Proof.
  revert acc. induction names as [|n names IH]; intros acc H Hin; [destruct Hin|].
  apply bind_ok in H as (event & He & H). apply bind_ok in H as (? & _ & H). apply bind_ok in H as (? & _ & H).
  destruct Hin as [<-|Hin]; [by rewrite He | by eapply IH].
Qed.

Lemma leftover_is_refused cfg st name : dmem name (outbox st) = true -> json_stem name = None ->
  exists e, validated_events cfg st = Raise e.
Proof.
  intros Hin Hname. destruct (validated_events cfg st) as [events|e] eqn:E; [exfalso | eauto].
  apply bind_ok in E as (? & E & _). apply (load_events_loads _ _ _ _ _ name) in E.
  - unfold load_event_file in E. by rewrite Hname in E.
  - unfold file_names, sorted_strings. by apply in_isort, mem_In.
Qed.

(** A leftover locks the outbox.  While a file whose name does not end in
    [.json], such as a temporary file, is in the outbox, every check and every
    listing raises and no file changes. *)
Theorem leftover_locks_the_outbox cfg env st name : dmem name (outbox st) = true -> json_stem name = None ->
  (exists e, check_once cfg env st = (Raise e, st)) /\ exists e, list_outbox cfg st = Raise e.
Proof.
  intros Hin Hname. destruct (leftover_is_refused cfg st name Hin Hname) as [e He]. split.
  - unfold check_once. destruct (observe cfg env st) as [x|e'] eqn:E; [exfalso | eauto]. unfold observe in E.
    do 4 (apply bind_ok in E as (? & _ & E)). apply bind_ok in E as (? & E & _). unfold validate_sequence_against_events in E.
    by rewrite He in E.
  - unfold list_outbox. rewrite He. eauto.
Qed.

Example temporary_name : json_stem ".sha256:00.json.17.99.tmp" = None.
Proof. reflexivity. Qed.
