(* ===== verification/DeadmanResume.v ===== *)
(** * Interrupted checks of the dead-man outbox

    An event that was written before its check could move the cursor is taken
    over by the next check of the same verdict: nothing is lost and nothing is
    written twice. *)

From S2P Require Import Prelude PyValue Sha Json JsonFile PyRegex PyTime P121Authority Deadman DeadmanModel DeadmanStore DeadmanRetention.
From S2P Require Import DeadmanCheck DeadmanSpec DeadmanProps.

#[local] Opaque stable_hash isoformat fromisoformat json_name written_file.

(** The verdicts that have the same fingerprint fields. *)
Definition same_verdict (a b : dict) : Prop :=
  Forall (fun k => vget a k = vget b k) ["reason"; "healthy"; "state_hash"].

Section Resume.
Context (cfg : DeadmanConfig) (Hcfg : sha_re (runtime_ref_hash cfg) = true).

Lemma same_verdict_fields s s2 :
  snap_ok s -> snap_ok s2 -> same_verdict (snap_dict cfg s2) (snap_dict cfg s) ->
  sn_reason s2 = sn_reason s /\ sn_healthy s2 = sn_healthy s /\ snap_fp cfg s2 = snap_fp cfg s.
Proof.
  intros Hs Hs2 H. unfold same_verdict in H. rewrite Forall_forall in H.
  destruct (snap_fields cfg s Hs _ (or_introl eq_refl)) as (S1 & S2 & S3 & _).
  destruct (snap_fields cfg s2 Hs2 _ (or_introl eq_refl)) as (T1 & T2 & T3 & _).
  pose proof (H "reason" ltac:(by left)) as H1. pose proof (H "healthy" ltac:(right; by left)) as H2.
  pose proof (H "state_hash" ltac:(do 2 right; by left)) as H3. rewrite S1, T1 in H1. rewrite S2, T2 in H2.
  rewrite S3, T3 in H3. injection H1 as H1. injection H2 as H2. split_and!; [exact H1 | exact H2 |].
  unfold snap_fp, snap_dict, make_snapshot, snapshot_fingerprint. cbn. by rewrite H1, H2, H3.
Qed.

Lemma transition_spec_retry c s s2 now now2 p :
  sn_reason s2 = sn_reason s -> sn_healthy s2 = sn_healthy s -> snap_fp cfg s2 = snap_fp cfg s -> now <= now2 ->
  transition_spec cfg c s now = Some p -> transition_spec cfg c s2 now2 = Some p.
Proof.
  intros H1 H2 H3 Hle. unfold transition_spec, opening_id. rewrite H1, H2, H3.
  destruct (sn_healthy s), (cu_active c) as [i|]; try done.
  destruct (_ || _); [done|]. destruct (Z.leb_spec (reminder_interval_seconds cfg * second) (now - to_second (in_emitted i))); [|done].
  by rewrite (proj2 (Z.leb_le _ _)) by lia.
Qed.

Lemma validate_clock_later cursor now now2 u :
  now <= now2 -> validate_clock cursor now = Ok u -> validate_clock cursor now2 = Ok tt.
Proof.
  intros Hle. unfold validate_clock.
  destruct (vget cursor "last_checked_at"); try done; intros (t & Ht & H)%bind_ok; rewrite Ht; cbn [bind];
    apply ensure_ok in H; bools; apply ensure_run, negb_true_iff, Z.ltb_ge; lia.
Qed.

Lemma publish_fits env now cur d p st event st' :
  publish cfg env now cur d p st = (Ok event, st') -> json_size (VDict event) <= max_event_bytes cfg.
Proof.
  unfold publish. destruct (let! ev := _ in _) as [[ev ex]|x] eqn:H; [|discriminate].
  apply bind_ok in H as (ev' & _ & H). apply bind_ok in H as (? & Hsz & H). apply bind_ok in H as (? & _ & [= ->]).
  apply ensure_ok in Hsz. bools. cbn [fst] in *.
  destruct (enforce_retention _ _ _ _) as [[?|?] ?]; [|discriminate].
  destruct ex; [by intros [= <- _]|]. destruct (write_event _ _ _ _) as [[?|?] ?]; [|discriminate].
  by intros [= <- _].
Qed.

Lemma json_size_nonneg v : 0 <= json_size v.
Proof. unfold json_size. lia. Qed.

(** What the world must answer for a check to go through. *)
Record favourable (env : check_env) (now2 : Z) (raw2 : val) (size : Z) : Prop := {
  fv_now : e_now env = Some now2;
  fv_watchdog : e_watchdog env = Ok raw2;
  fv_free : min_artifact_free_bytes cfg <= e_free env;
  fv_free_write : min_artifact_free_bytes cfg + size <= e_free_write env;
  fv_write : e_cursor_write env = Written;
}.

(** The event of the transition is on disk already: the check takes it over. *)
Lemma taken_over m env now2 raw2 s2 p e u :
  coherent cfg m -> In e (m_events m) -> snap_ok s2 ->
  normalize_watchdog_result cfg raw2 = Ok (snap_dict cfg s2) ->
  transition_spec cfg (the_cursor m) s2 now2 = Some p -> event_for cfg (the_cursor m) p s2 e ->
  over_budget cfg (event_count m) (event_bytes cfg m) = false ->
  json_size (VDict (ev_dict cfg e)) <= max_event_bytes cfg ->
  validate_clock (cursor_read cfg (m_cursor m)) now2 = Ok u ->
  favourable env now2 raw2 (json_size (VDict (ev_dict cfg e))) ->
  exists m1, m_events m1 = m_events m /\
    check_once cfg env (model_store cfg m) =
      (Ok (emitted_report p (snap_dict cfg s2) (ev_loaded cfg e)),
       model_store cfg (with_cursor m1 (advance cfg (the_cursor m) p s2 e now2))).
Proof.
  intros Hm He Hs2 Hnorm Hp Hfor Hbudget Hsize Hclock [F1 F2 F3 F4 F5].
  destruct (enforce_no_pressure cfg Hcfg m 0 0 Hm) as (m1 & r & Hret & Hm1 & Hsub & Hev); [by rewrite !Z.add_0_r|].
  exists m1. split; [exact Hev|].
  assert (Hobs : observe cfg env (model_store cfg m) = Ok (now2, cursor_read cfg (m_cursor m), snap_dict cfg s2, Some p)).
  { unfold observe. rewrite F1. cbn [require_utc bind].
    eapply bind_run; [apply ensure_run, negb_true_iff, Z.ltb_ge; lia|].
    rewrite (cursor_loads cfg (model_store cfg m) (m_cursor m) (ch_cursor _ _ Hm) eq_refl). cbn [bind].
    rewrite Hclock. cbn [bind]. rewrite (sequence_check_ok cfg Hcfg m Hm). cbn [bind].
    rewrite F2. cbn [bind]. rewrite Hnorm. cbn [bind].
    rewrite (pending_transition_ok cfg _ s2 now2 (ch_cursor _ _ Hm) Hs2). fold (the_cursor m). by rewrite Hp. }
  unfold check_once. rewrite Hobs. unfold emit, publish.
  rewrite (event_for_pending_replay cfg Hcfg m p s2 now2 e Hm Hs2 He Hfor). cbn [bind fst snd].
  assert (Hsz : json_size (VDict (ev_loaded cfg e)) = json_size (VDict (ev_dict cfg e))) by apply json_size_image.
  rewrite Hsz, (proj2 (Z.ltb_ge _ _) Hsize). cbn [negb dm_ensure ensure bind].
  unfold ensure_artifact_space. rewrite (proj2 (Z.ltb_ge _ _) F4). cbn [negb ensure bind].
  rewrite Hret. rewrite (advanced_cursor_ok cfg _ p s2 e _ now2 Hs2 (or_intror eq_refl)). fold (the_cursor m).
  destruct (write_cursor _ _ _) as [rw stw] eqn:Hw.
  apply (write_cursor_ok cfg m1 (advance cfg (the_cursor m) p s2 e now2)) in Hw; [|reflexivity].
  rewrite F5 in Hw. by destruct Hw as [(_ & x & _ & [=])|(-> & [(_ & ->)|([=] & _)])].
Qed.
End Resume.

(** The model after [publish], with its event in the outbox. *)
Lemma publish_model cfg m env now s p event st1 :
  sha_re (runtime_ref_hash cfg) = true ->
  coherent cfg m -> snap_ok s -> in_calendar now -> transition_spec cfg (the_cursor m) s now = Some p ->
  fresh_identifier cfg env (model_store cfg m) ->
  observe cfg env (model_store cfg m) = Ok (now, cursor_read cfg (m_cursor m), snap_dict cfg s, Some p) ->
  publish cfg env now (cursor_read cfg (m_cursor m)) (snap_dict cfg s) p (model_store cfg m) = (Ok event, st1) ->
  dmem (json_name (py_str (vget event "event_id"))) (outbox st1) = true ->
  exists m1 e, st1 = model_store cfg m1 /\ coherent cfg m1 /\ m_cursor m1 = m_cursor m /\ In e (m_events m1) /\
    event_for cfg (the_cursor m) p s e /\ (event = ev_dict cfg e \/ event = ev_loaded cfg e) /\
    over_budget cfg (event_count m1) (event_bytes cfg m1) = false.
Proof.
  intros Hcfg Hm Hs Hnow Hp Hfresh Hobs Hpub Hin.
  destruct (publish_ok cfg Hcfg m env now s p (Ok event) st1 Hm Hs Hnow Hp
              (fresh_unlinked cfg Hcfg m env now s p Hm Hs Hfresh Hobs) Hpub)
    as [(? & ? & [=] & _)|[(e & m1 & Heq & -> & Hm1 & He & Hfor & Hret)|(m1 & Heq & -> & Hm1 & _ & _ & Hret)]].
  - injection Heq as ->. destruct (ev_fields cfg e _ (or_intror eq_refl)) as (E1 & _).
    rewrite (vget_some _ _ _ E1) in Hin. cbn [py_str model_store outbox] in Hin.
    apply dmem_outbox, in_map_iff in Hin as (x & Hx & Hin).
    assert (Hxe : x = e).
    { apply (NoDup_map_eq (ev_id cfg) (m_events m)); [apply Hm | | exact He | exact Hx].
      exact (sub_events m1 m x (rt_sub _ _ _ _ _ Hret) Hin). }
    exists m1, e. rewrite <- Hxe at 1. split_and!; [reflexivity | exact Hm1 | apply Hret | exact Hin | exact Hfor | by right |].
    pose proof (rt_budget _ _ _ _ _ Hret) as Hb. by rewrite !Z.add_0_r in Hb.
  - injection Heq as ->. exists (with_event m1 (event_of (the_cursor m) p s now)), (event_of (the_cursor m) p s now).
    split_and!; [reflexivity | exact Hm1 | apply Hret | apply in_app_iff; right; by left | apply event_of_for | by left |].
    rewrite <- (rt_budget _ _ _ _ _ Hret). unfold event_count, event_bytes. cbn [with_event m_events].
    rewrite length_app. f_equal; [simpl; lia|].
    unfold events_bytes. rewrite fold_right_app. cbn [fold_right]. rewrite Z.add_0_r. clear.
    induction (m_events m1) as [|x l IH]; cbn [fold_right]; lia.
Qed.

(** C33: an interrupted check resumes.  A check of a reachable store put its
    event in the outbox and then failed to write the cursor: it raises, and
    the next check, once the world lets it through and the watchdog still says
    the same, reports that very event, with the identifier and hash it has on
    disk, adds no other to the outbox, and moves the cursor by one.  So a crash
    between the two writes neither loses nor duplicates a notification.  (A
    kill inside a write is not modelled; no event there names the new
    identifier as its predecessor.) *)
Theorem interrupted_check_resumes cfg env env2 st st1 x now now2 cursor snapshot snapshot2 p event raw2 :
  sha_re (runtime_ref_hash cfg) = true ->
  outbox_reachable cfg st -> timely env -> fresh_identifier cfg env st ->
  observe cfg env st = Ok (now, cursor, snapshot, Some p) ->
  publish cfg env now cursor snapshot p st = (Ok event, st1) ->
  dmem (json_name (py_str (vget event "event_id"))) (outbox st1) = true ->
  e_cursor_write env = NotWritten x ->
  timely env2 -> now <= now2 -> favourable cfg env2 now2 raw2 (json_size (VDict event)) ->
  normalize_watchdog_result cfg raw2 = Ok snapshot2 -> same_verdict snapshot2 snapshot ->
  check_once cfg env st = (Raise x, st1) /\
  exists event2 st2 cursor2,
    check_once cfg env2 st1 = (Ok (emitted_report p snapshot2 event2), st2) /\
    vget event2 "event_id" = vget event "event_id" /\ vget event2 "event_hash" = vget event "event_hash" /\
    outbox st2 = outbox st1 /\ load_cursor cfg st2 = Ok cursor2 /\
    next_sequence cursor2 = next_sequence cursor + 1.
Proof.
  intros Hcfg Hst Htime Hfresh Hobs Hpub Hin Hx Htime2 Hle Hfav Hnorm Hsame.
  destruct (reachable_coherent cfg Hcfg st Hst) as (m & -> & Hm).
  destruct (observe_ok cfg m env now cursor snapshot (Some p) Hm Hobs) as (Hn & -> & s & raw & _ & _ & -> & Hs & Hp).
  symmetry in Hp. destruct (normalize_ok cfg raw2 snapshot2 Hnorm) as (s2 & -> & Hs2).
  destruct (same_verdict_fields cfg s s2 Hs Hs2 Hsame) as (V1 & V2 & V3).
  destruct (publish_model cfg m env now s p event st1 Hcfg Hm Hs (Htime now Hn) Hp Hfresh Hobs Hpub Hin)
    as (m1 & e & -> & Hm1 & Hcur & He & Hfor & Hform & Hbudget).
  pose proof (the_cursor_eq m m1 Hcur) as Hthe.
  assert (Hev : event_ok e).
  { pose proof (ch_events _ _ Hm1) as Hall. rewrite Forall_forall in Hall. by apply Hall, list_elem_of_In. }
  assert (Hsize : json_size (VDict event) = json_size (VDict (ev_dict cfg e))).
  { destruct Hform as [->| ->]; [reflexivity | apply json_size_image]. }
  split.
  { unfold check_once. rewrite Hobs. unfold emit. rewrite Hpub.
    rewrite (advanced_cursor_ok cfg _ p s e event now Hs Hform). unfold write_cursor, atomic_write.
    rewrite Hx. cbn [model_store cursor_file]. by destruct (m_cursor m1). }
  assert (Hclock : validate_clock (cursor_read cfg (m_cursor m1)) now2 = Ok tt).
  { rewrite Hcur. unfold observe in Hobs. apply bind_ok in Hobs as (now' & Hnow' & H).
    apply bind_ok in H as (? & _ & H). apply bind_ok in H as (cur & Hc & H). apply bind_ok in H as (? & Hclk & H).
    rewrite (cursor_loads cfg (model_store cfg m) (m_cursor m) (ch_cursor _ _ Hm) eq_refl) in Hc. injection Hc as <-.
    assert (now' = now) as -> by (rewrite Hn in Hnow'; by injection Hnow').
    exact (validate_clock_later _ _ _ _ Hle Hclk). }
  pose proof (transition_spec_retry cfg _ s s2 now now2 p V1 V2 V3 Hle Hp) as Hp2.
  assert (Hfor2 : event_for cfg (the_cursor m) p s2 e).
  { destruct Hfor as (G1 & G2 & G3 & G4 & G5). repeat split; congruence. }
  destruct (taken_over cfg Hcfg m1 env2 now2 raw2 s2 p e tt) as (m2 & Hev2 & Hcheck); rewrite ?Hthe; try assumption.
  - rewrite <- Hsize. exact (publish_fits cfg _ _ _ _ _ _ _ _ Hpub).
  - rewrite <- Hsize. exact Hfav.
  - exists (ev_loaded cfg e). eexists. exists (cursor_loaded cfg (advance cfg (the_cursor m1) p s2 e now2)).
    destruct (ev_fields cfg e _ (or_intror eq_refl)) as (E1 & _ & _ & _ & _ & _ & _ & E8).
    destruct (ev_fields cfg e event Hform) as (F1 & _ & _ & _ & _ & _ & _ & F8).
    split; [exact Hcheck|].
    rewrite (vget_some _ _ _ E1), (vget_some _ _ _ E8), (vget_some _ _ _ F1), (vget_some _ _ _ F8).
    split; [reflexivity|]. split; [reflexivity|].
    split; [cbn [model_store with_cursor outbox m_events]; by rewrite Hev2|].
    split.
    + apply (cursor_loads cfg _ (Some (advance cfg (the_cursor m1) p s2 e now2))); [|reflexivity].
      intros c [= <-]. rewrite Hthe.
      exact (advance_ok cfg _ s2 now2 p e (cursor_ok_the cfg m Hm) Hs2 (Htime2 now2 (fv_now _ _ _ _ _ Hfav)) Hev Hfor2 Hp2).
    + change (cursor_loaded cfg ?c) with (cursor_read cfg (Some c)). rewrite !next_sequence_read. rewrite Hthe. reflexivity.
Qed.
