(* ===== verification/DeadmanAck.v ===== *)
(** * Verdicts, acknowledgements and bounded runs of the dead-man outbox

    The classification of watchdog verdicts, the idempotence of
    acknowledgements and the termination of [run]. *)

From S2P Require Import Prelude PyValue Sha Json JsonFile PyRegex PyTime P121Authority Deadman DeadmanModel DeadmanStore DeadmanRetention.
From S2P Require Import DeadmanCheck DeadmanSpec DeadmanProps.

#[local] Opaque stable_hash isoformat fromisoformat json_name written_file.

(** ** Verdicts *)

Lemma normalized_healthy reason healthy r h :
  normalized_reason reason healthy = Ok (r, h) ->
  (h = true <-> reason = VStr "heartbeat_current" /\ healthy = VBool true).
Proof.
  unfold normalized_reason. cbv zeta. intros H.
  assert (Hc : py_eq reason (VStr "heartbeat_current") && is_true healthy = true <->
               reason = VStr "heartbeat_current" /\ healthy = VBool true).
  { rewrite andb_true_iff, py_eq_str. destruct healthy as [|[]| | | | | |]; simpl; intuition discriminate. }
  rewrite <- Hc. clear Hc.
  destruct (py_eq reason (VStr "heartbeat_current") && is_true healthy); [by injection H as <- <-|].
  repeat match type of H with
  | Ok _ = _ => injection H as <- <-; split; discriminate
  | (if ?b then _ else _) = _ => destruct b
  | bind _ _ = _ => apply bind_ok in H as (? & _ & H)
  end.
Qed.

Lemma normalized_unknown r0 healthy r h :
  ~ In r0 (NORMALIZED_REASONS ++ STATE_INVALID_REASONS ++ HEARTBEAT_INVALID_REASONS) ->
  normalized_reason (VStr r0) healthy = Ok (r, h) -> r = "watchdog_contract_invalid".
Proof.
  intros Hn. rewrite !in_app_iff in Hn. unfold normalized_reason. cbv zeta.
  assert (Hd : forall k, In k NORMALIZED_REASONS -> py_eq (VStr r0) (VStr k) = false).
  { intros k Hk. apply not_true_iff_false. rewrite py_eq_str. intros [= ->]. tauto. }
  rewrite !Hd by (by apply mem_In). cbn [andb]. unfold in_set. cbn [hashable bind].
  assert (H1 : mem r0 HEARTBEAT_INVALID_REASONS = false) by (apply mem_not_In; tauto).
  assert (H2 : mem r0 STATE_INVALID_REASONS = false) by (apply mem_not_In; tauto).
  rewrite H1, H2. cbn [andb]. by intros [= <- _].
Qed.

Lemma normalized_raises reason healthy x :
  normalized_reason reason healthy = Raise x -> hashable reason = false.
Proof.
  unfold normalized_reason, in_set. cbv zeta. intros H.
  destruct (hashable reason); [|reflexivity]. cbn [bind] in H.
  repeat match type of H with
  | Ok _ = _ => discriminate H
  | (if ?b then _ else _) = _ => destruct b
  end.
Qed.

(** Every verdict is classified, and healthy means one thing.  When
    [normalize_watchdog_result] returns, what it was given is a dictionary and
    the snapshot, read back from an event file, validates; it is healthy
    exactly when the watchdog said [heartbeat_current] and a health that is
    the boolean true; a reason outside the known ones is
    [watchdog_contract_invalid].  It raises only on a value that is no
    dictionary or a reason that cannot be hashed. *)
Theorem verdict_is_classified cfg result :
  sha_re (runtime_ref_hash cfg) = true ->
  match normalize_watchdog_result cfg result with
  | Ok snapshot =>
      exists d, result = VDict d /\
        validate_snapshot_shape (dict_image snapshot) = Ok tt /\
        (vget snapshot "healthy" = VBool true <->
         vget d "reason" = VStr "heartbeat_current" /\ vget d "healthy" = VBool true) /\
        (forall r, vget d "reason" = VStr r ->
           ~ In r (NORMALIZED_REASONS ++ STATE_INVALID_REASONS ++ HEARTBEAT_INVALID_REASONS) ->
           vget snapshot "reason" = VStr "watchdog_contract_invalid")
  | Raise _ => forall d, result = VDict d -> hashable (vget d "reason") = false
  end.
Proof.
  intros Hcfg. destruct (normalize_watchdog_result cfg result) as [snapshot|x] eqn:Hn.
  - destruct (normalize_ok cfg result snapshot Hn) as (s & Hsnap & Hs).
    destruct result as [| | | | | | |d]; try discriminate Hn. exists d. split; [reflexivity|].
    split; [rewrite Hsnap; by apply snapshot_loads|]. clear Hsnap. cbn [normalize_watchdog_result] in Hn.
    apply bind_ok in Hn as ([r h] & Hr & Hn).
    assert (E1 : vget snapshot "reason" = VStr r) by exact (f_equal (fun y => vget (from_ok [] y) "reason") (eq_sym Hn)).
    assert (E2 : vget snapshot "healthy" = VBool h) by exact (f_equal (fun y => vget (from_ok [] y) "healthy") (eq_sym Hn)).
    clear Hn. rewrite E1, E2. split.
    + rewrite <- (normalized_healthy _ _ r h Hr). split; [by intros [= ->] | by intros ->].
    + intros r0 H0 Hnot. rewrite H0 in Hr. by rewrite (normalized_unknown _ _ _ _ Hnot Hr).
  - intros d ->. cbn [normalize_watchdog_result] in Hn.
    destruct (normalized_reason (vget d "reason") (vget d "healthy")) as [[r h]|y] eqn:Hr; [discriminate Hn|].
    exact (normalized_raises _ _ _ Hr).
Qed.

(** ** Acknowledgements *)

Section Repeat.
Context (cfg : DeadmanConfig) (Hcfg : sha_re (runtime_ref_hash cfg) = true).

(** An acknowledged event answers with what is on disk, whatever the clock,
    the space and the disk do. *)
Lemma acknowledge_again m a e now free w :
  coherent cfg m -> In a (m_acks m) -> In e (m_events m) -> ak_event a = ev_id cfg e ->
  ak_event_hash a = ev_hash cfg e ->
  acknowledge_event cfg (ak_event a) now free w (model_store cfg m) = (Ok (ack_loaded cfg a), model_store cfg m).
Proof.
  intros Hm Ha He Hid Hhash.
  assert (Hev : event_ok e) by (pose proof (ch_events _ _ Hm) as Hall; rewrite Forall_forall in Hall; by apply Hall, list_elem_of_In).
  assert (Hao : ack_ok a) by (pose proof (ch_acks _ _ Hm) as Hall; rewrite Forall_forall in Hall; by apply Hall, list_elem_of_In).
  unfold acknowledge_event. rewrite (ao_event _ Hao). cbn [dm_ensure ensure bind].
  assert (Hl : load_event_file cfg (outbox (model_store cfg m)) (json_name (ak_event a)) = Ok (ev_loaded cfg e)).
  { rewrite Hid. apply event_loads; [exact Hev | exact Hcfg |]. apply dget_outbox; [apply Hm | exact He]. }
  rewrite Hl.
  assert (Hd : dmem (json_name (ak_event a)) (acks (model_store cfg m)) = true).
  { apply (dmem_acks cfg), in_map_iff. exists a. exact (conj eq_refl Ha). }
  rewrite Hd. unfold validate_ack_for_event. rewrite (ack_loads_in cfg m a (model_store cfg m) Hm eq_refl Ha). cbn [bind].
  destruct (ack_fields cfg a _ (or_intror eq_refl)) as (A1 & A2 & _).
  destruct (ev_fields cfg e _ (or_intror eq_refl)) as (E1 & _ & _ & _ & _ & _ & _ & E8).
  unfold ack_matches. rewrite (vget_some _ _ _ A1), (vget_some _ _ _ A2), (vget_some _ _ _ E1), (vget_some _ _ _ E8), Hid, Hhash.
  assert (Hq : forall x, py_eq (VStr x) (VStr x) = true) by (intros x; apply eqs_refl).
  by rewrite !Hq.
Qed.

(** An acknowledgement that was found on disk names the event's hash. *)
Lemma acknowledged_matches m id now free w d st' :
  coherent cfg m -> acked m id ->
  acknowledge_event cfg id now free w (model_store cfg m) = (Ok d, st') ->
  exists a e, In a (m_acks m) /\ In e (m_events m) /\ id = ak_event a /\ id = ev_id cfg e /\
    ak_event_hash a = ev_hash cfg e /\ d = ack_loaded cfg a /\ st' = model_store cfg m.
Proof.
  intros Hm Hid. unfold acknowledge_event.
  destruct (let! _ := dm_ensure _ _ in _) as [ev|x] eqn:Hl; [|discriminate].
  apply bind_ok in Hl as (? & _ & Hl). apply (load_event_inv cfg Hcfg m id ev Hm) in Hl as (e & He & Hide & ->).
  pose proof (proj2 (dmem_acks cfg (m_acks m) id) Hid) as Hd. change (map (ack_file cfg) (m_acks m)) with (acks (model_store cfg m)) in Hd.
  rewrite Hd. intros Heq. pose proof (f_equal snd Heq) as Hst. pose proof (f_equal fst Heq) as Hok. cbn [fst snd] in Hst, Hok.
  unfold acked in Hid. apply in_map_iff in Hid as (a & Ha & Hain).
  pose proof (ack_loads_in cfg m a (model_store cfg m) Hm eq_refl Hain) as Hload. rewrite Ha in Hload.
  unfold validate_ack_for_event in Hok. rewrite Hload in Hok. cbn [bind] in Hok.
  apply bind_ok in Hok as (? & Hmatch & Hok). apply ensure_ok in Hmatch. unfold ack_matches in Hmatch. bools.
  destruct (ack_fields cfg a _ (or_intror eq_refl)) as (A1 & A2 & _).
  destruct (ev_fields cfg e _ (or_intror eq_refl)) as (E1 & _ & _ & _ & _ & _ & _ & E8).
  rewrite (vget_some _ _ _ A2), (vget_some _ _ _ E8) in H0.
  exists a, e. split; [exact Hain|]. split; [exact He|]. split; [symmetry; exact Ha|]. split; [exact Hide|].
  split; [exact (proj1 (String.eqb_eq _ _) H0)|].
  split; [exact (eq_sym (f_equal (fun r => from_ok [] r) Hok)) | symmetry; exact Hst].
Qed.
End Repeat.

(** Acknowledging is idempotent and bound to the event.  On a reachable
    store, an [acknowledge_event] that returned has read an event of that name
    whose hash the acknowledgement carries, and changed nothing else.  Every
    later call for the same event, at any time, with any free space and disk,
    returns the same acknowledgement, as JSON reads it, and changes nothing. *)
Theorem acknowledgement_is_idempotent cfg st id now free w ack st1 :
  sha_re (runtime_ref_hash cfg) = true -> outbox_reachable cfg st ->
  (forall us, now = Some us -> in_calendar us) ->
  acknowledge_event cfg id now free w st = (Ok ack, st1) ->
  outbox st1 = outbox st /\ cursor_file st1 = cursor_file st /\
  (exists event, load_event_file cfg (outbox st) (json_name id) = Ok event /\
     vget ack "event_id" = VStr id /\ vget ack "event_hash" = vget event "event_hash") /\
  (forall now2 free2 w2, exists ack2,
     acknowledge_event cfg id now2 free2 w2 st1 = (Ok ack2, st1) /\ VDict ack2 = json_image (VDict ack)).
Proof.
  intros Hcfg Hst Hnow Hack. destruct (reachable_coherent cfg Hcfg st Hst) as (m & -> & Hm).
  assert (Hload : forall e, In e (m_events m) -> load_event_file cfg (outbox (model_store cfg m)) (json_name (ev_id cfg e)) = Ok (ev_loaded cfg e)).
  { intros e He. apply event_loads; [|exact Hcfg|apply dget_outbox; [apply Hm | exact He]].
    pose proof (ch_events _ _ Hm) as Hall. rewrite Forall_forall in Hall. by apply Hall, list_elem_of_In. }
  destruct (acknowledge_ok cfg Hcfg m id now free w (Ok ack) st1 Hm Hnow Hack)
    as [[-> Hacked]|(e & us & He & Hid & _ & Hn & Ha & -> & Hd)].
  - destruct (acknowledged_matches cfg Hcfg m id now free w ack _ Hm (Hacked ack eq_refl) Hack)
      as (a & e & Hain & He & Hida & Hide & Hhash & -> & _).
    destruct (ack_fields cfg a _ (or_intror eq_refl)) as (A1 & A2 & _).
    destruct (ev_fields cfg e _ (or_intror eq_refl)) as (_ & _ & _ & _ & _ & _ & _ & E8).
    split; [reflexivity|]. split; [reflexivity|]. split.
    + exists (ev_loaded cfg e). rewrite Hide at 1. split; [exact (Hload e He)|].
      rewrite (vget_some _ _ _ A1), (vget_some _ _ _ A2), (vget_some _ _ _ E8), <- Hida, Hhash. split; reflexivity.
    + intros now2 free2 w2. exists (ack_loaded cfg a). split.
      * rewrite Hida. rewrite Hida in Hide. exact (acknowledge_again cfg Hcfg m a e now2 free2 w2 Hm Hain He Hide Hhash).
      * unfold ack_loaded. rewrite <- (json_image_dict (ack_dict cfg a)). symmetry. apply json_image_idem.
  - set (a := {| ak_event := id; ak_event_hash := ev_hash cfg e; ak_at := us |}) in *.
    rewrite (Hd ack eq_refl). pose proof (with_ack_coherent cfg m a Hm Ha Hn) as Hm1.
    destruct (ack_fields cfg a _ (or_introl eq_refl)) as (A1 & A2 & _).
    destruct (ev_fields cfg e _ (or_intror eq_refl)) as (_ & _ & _ & _ & _ & _ & _ & E8).
    split; [reflexivity|]. split; [reflexivity|]. split.
    + exists (ev_loaded cfg e). rewrite Hid at 1. split; [exact (Hload e He)|].
      rewrite (vget_some _ _ _ A1), (vget_some _ _ _ A2), (vget_some _ _ _ E8). split; reflexivity.
    + intros now2 free2 w2. exists (ack_loaded cfg a). split; [|reflexivity].
      apply (acknowledge_again cfg Hcfg (with_ack m a) a e now2 free2 w2 Hm1); [|exact He | exact Hid | reflexivity].
      apply in_app_iff. right. by left.
Qed.

(** ** The loop *)

Lemma run_loop_bounds cfg turns : forall mx n emitted st rep st',
  run_loop cfg (Some mx) turns n emitted st = Some (Ok rep, st') -> n <= mx -> 0 <= emitted <= n ->
  n <= cycles rep <= mx /\ 0 <= emitted_events rep <= cycles rep /\ (stop_reason rep = None -> cycles rep = mx).
Proof.
  induction turns as [|turn turns IH]; intros mx n emitted st rep st' H Hn He; cbn [run_loop] in H;
    destruct (Z.ltb_spec n mx) as [Hlt|Hge]; try discriminate H.
  1, 3: injection H as <- _; simpl; lia.
  destruct (c_stop turn) as [reason|]; [injection H as <- _; simpl; split_and!; try lia; discriminate|].
  destruct (check_once cfg (c_check turn) st) as [[result|x] st1]; [|discriminate H].
  assert (He' : 0 <= (if is_true (vget result "emitted") then emitted + 1 else emitted) <= n + 1)
    by (destruct (is_true _); lia).
  destruct (n + 1 <? mx); [destruct (c_wait turn) as [[]|]|].
  1:{ destruct (c_stop_after turn) as [reason|]; [|discriminate H]. injection H as <- _. simpl. split_and!; try lia. discriminate. }
  all: apply IH in H; [|lia|exact He']; lia || (destruct H as (H1 & H2 & H3); split_and!; [lia | lia | lia | lia | exact H3]).
Qed.

Lemma run_loop_answers cfg turns : forall mx n emitted st,
  mx - n <= Z.of_nat (List.length turns) -> run_loop cfg (Some mx) turns n emitted st <> None.
Proof.
  induction turns as [|turn turns IH]; intros mx n emitted st Hlen; cbn [run_loop List.length] in *;
    destruct (Z.ltb_spec n mx); try discriminate; [lia|].
  destruct (c_stop turn); [discriminate|]. destruct (check_once cfg (c_check turn) st) as [[result|x] st1]; [|discriminate].
  destruct (n + 1 <? mx); [destruct (c_wait turn) as [[]|]|]; try (apply IH; lia).
  destruct (c_stop_after turn); discriminate.
Qed.

(** A bounded run terminates within its bound.  [run] with a positive
    [max_cycles] and [forever] off answers as soon as the world answers for
    that many turns; when it returns, it made at most that many checks,
    exactly that many unless it was asked to stop, and emitted at most one
    event per check.  Any other combination of the two arguments that is not
    [forever] alone is refused before the first check. *)
Theorem bounded_run_terminates cfg max_cycles turns st :
  match max_cycles with
  | VInt m =>
      if m <=? 0 then run cfg max_cycles false turns st = Some (Raise (P133DeadmanError "max_cycles_must_be_positive"), st)
      else
        (m <= Z.of_nat (List.length turns) -> run cfg max_cycles false turns st <> None) /\
        (forall rep st', run cfg max_cycles false turns st = Some (Ok rep, st') ->
           0 <= emitted_events rep <= cycles rep /\ cycles rep <= m /\ (stop_reason rep = None -> cycles rep = m))
  | VNone => run cfg max_cycles false turns st = Some (Raise (P133DeadmanError "run_requires_forever_or_max_cycles"), st)
  | _ => run cfg max_cycles false turns st = Some (Raise (P133DeadmanError "max_cycles_must_be_positive"), st)
  end /\
  (max_cycles <> VNone ->
   run cfg max_cycles true turns st = Some (Raise (P133DeadmanError "run_requires_forever_or_max_cycles"), st)).
Proof.
  split.
  - destruct max_cycles as [| |m| | | | |]; try reflexivity. destruct (m <=? 0) eqn:Em; unfold run; cbn [Bool.eqb]; rewrite Em.
    + reflexivity.
    + bools. split.
      * intros Hlen. apply run_loop_answers. lia.
      * intros rep st' H. apply run_loop_bounds in H as (H1 & H2 & H3); [|lia..]. split; [lia|]. split; [lia | exact H3].
  - intros Hne. by destruct max_cycles.
Qed.
