(* ===== verification/DeadmanWitness.v ===== *)
(** * Concrete runs of the dead-man outbox

    A first check of a stale heartbeat on an empty outbox, and the theorems of
    DeadmanProps.v, DeadmanResume.v and DeadmanAck.v applied to it.  Hashes
    stay symbolic: nothing here evaluates SHA-256. *)

From S2P Require Import Prelude PyValue Sha Json JsonFile PyRegex PyTime P121Authority Deadman DeadmanModel DeadmanStore DeadmanRetention.
From S2P Require Import DeadmanCheck DeadmanSpec DeadmanProps DeadmanResume DeadmanAck.

#[local] Opaque stable_hash isoformat fromisoformat json_name written_file.

Definition empty_model : model := {| m_events := []; m_acks := []; m_cursor := None |}.

Lemma empty_coherent cfg : coherent cfg empty_model.
Proof. constructor; simpl; try done; constructor. Qed.

Lemma fresh_on_empty cfg env :
  sha_re (runtime_ref_hash cfg) = true -> fresh_identifier cfg env empty_store.
Proof.
  intros Hcfg now cursor snapshot p event events Hobs Hev Hevents.
  destruct (observe_ok cfg empty_model env now cursor snapshot (Some p) (empty_coherent cfg) Hobs)
    as (_ & -> & s & raw & _ & _ & -> & Hs & Hp).
  destruct (event_for_pending_cases cfg Hcfg empty_model p s now _ (empty_coherent cfg) Hs Hev) as [(e & _ & [] & _)|(Heq & _)].
  assert (Hl : events = []).
  { change (validated_events cfg empty_store) with (Ok (A := list (string * dict)) []) in Hevents. by injection Hevents. }
  rewrite Hl. intros d [<-|[]].
  assert (Hd : event = ev_dict cfg (event_of (the_cursor empty_model) p s now)) by exact (f_equal (fun r => (from_ok (event, false) (Ok r)).1) Heq).
  rewrite Hd. destruct (ev_fields cfg (event_of (the_cursor empty_model) p s now) _ (or_introl eq_refl)) as (E1 & _ & _ & _ & _ & E6 & _).
  rewrite (vget_some _ _ _ E1), (vget_some _ _ _ E6). symmetry in Hp.
  destruct (transition_kind_ok cfg _ s now p Hp) as (_ & (_ & Hprev) & _). cbn [event_of ev_previous]. rewrite Hprev.
  discriminate.
Qed.

(** ** A first check *)

Definition demo_ref : string := "sha256:0123456789abcdef0123456789abcdef0123456789abcdef0123456789abcdef".

Definition demo_config (bytes : Z) : DeadmanConfig := {|
  config_hash := demo_ref; runtime_ref_hash := demo_ref; runtime_ref := "runtime-a";
  check_interval_seconds := 60; heartbeat_timeout_seconds := 120; reminder_interval_seconds := 900;
  max_event_files := 10; max_outbox_bytes := bytes; max_event_bytes := bytes; min_artifact_free_bytes := 0 |}.

Definition stale : val :=
  VDict [("reason", VStr "heartbeat_stale"); ("healthy", VBool false); ("heartbeat_age_seconds", VInt 300)].

Definition demo_snap : snap :=
  {| sn_reason := "heartbeat_stale"; sn_healthy := false; sn_state_hash := VNone; sn_age := VInt 300 |}.

Definition opened (cfg : DeadmanConfig) : pending :=
  {| pd_transition_kind := "opened"; pd_incident_id := opening_id cfg start_cursor demo_snap; pd_previous_event_id := None |}.

Definition demo_event (cfg : DeadmanConfig) : event := event_of start_cursor (opened cfg) demo_snap 0.

(** As many bytes as the event takes. *)
Definition demo_bytes : Z := json_size (VDict (ev_dict (demo_config 0) (demo_event (demo_config 0)))).

Definition demo_cfg : DeadmanConfig := demo_config demo_bytes.

Definition demo_env (w : write_outcome) : check_env := {|
  e_now := Some 0; e_watchdog := Ok stale; e_free := demo_bytes; e_free_write := demo_bytes;
  e_event_write := Written; e_cursor_write := w |}.

Lemma demo_ref_ok : sha_re (runtime_ref_hash demo_cfg) = true.
Proof. reflexivity. Qed.

Lemma calendar_0 : in_calendar 0.
Proof. split; [lia | reflexivity]. Qed.

Lemma demo_timely w : timely (demo_env w).
Proof. intros now [= <-]. apply calendar_0. Qed.

Lemma demo_snap_ok : snap_ok demo_snap.
Proof.
  constructor; simpl; [right; right; by left | reflexivity | by left |].
  right. left. exists 300. split; [reflexivity|]. unfold MAX_CONFIG_INTEGER. lia.
Qed.

Lemma demo_bytes_ok : json_size (VDict (ev_dict demo_cfg (demo_event demo_cfg))) = demo_bytes.
Proof. reflexivity. Qed.

Lemma demo_normalized : normalize_watchdog_result demo_cfg stale = Ok (snap_dict demo_cfg demo_snap).
Proof. reflexivity. Qed.

Lemma demo_bytes_nonneg : 0 <= demo_bytes.
Proof. apply json_size_nonneg. Qed.

Lemma demo_transition : transition_spec demo_cfg (the_cursor empty_model) demo_snap 0 = Some (opened demo_cfg).
Proof. reflexivity. Qed.

Lemma demo_observe w :
  observe demo_cfg (demo_env w) empty_store =
  Ok (0, cursor_read demo_cfg (m_cursor empty_model), snap_dict demo_cfg demo_snap, Some (opened demo_cfg)).
Proof.
  unfold observe. cbn [demo_env e_now require_utc bind].
  eapply bind_run; [apply ensure_run, negb_true_iff, Z.ltb_ge; exact demo_bytes_nonneg|].
  change empty_store with (model_store demo_cfg empty_model).
  rewrite (cursor_loads demo_cfg (model_store demo_cfg empty_model) None (fun c H => match eq_sym H with end) eq_refl).
  cbn [bind]. eapply bind_run; [reflexivity|]. apply (bind_run _ _ stale); [reflexivity|]. apply (bind_run _ _ _ _ demo_normalized).
  rewrite (pending_transition_ok demo_cfg None demo_snap 0 (fun c H => match eq_sym H with end) demo_snap_ok).
  change (default start_cursor None) with (the_cursor empty_model). by rewrite demo_transition.
Qed.

Lemma demo_new_event :
  event_for_pending demo_cfg empty_store (cursor_read demo_cfg None) (opened demo_cfg) (snap_dict demo_cfg demo_snap) 0 =
  Ok (ev_dict demo_cfg (demo_event demo_cfg), false).
Proof.
  unfold event_for_pending. change (validated_events demo_cfg empty_store) with (Ok (A := list (string * dict)) []).
  cbn [bind event_id_for_sequence List.find dm_ensure ensure].
  change (dmem _ (outbox empty_store)) with false. cbv iota.
  rewrite (pending_event_id_ok demo_cfg None (opened demo_cfg) demo_snap 0 demo_snap_ok).
  rewrite (build_event_ok demo_cfg None (opened demo_cfg) demo_snap 0 demo_snap_ok). reflexivity.
Qed.

Lemma demo_publish w :
  publish demo_cfg (demo_env w) 0 (cursor_read demo_cfg None) (snap_dict demo_cfg demo_snap) (opened demo_cfg) empty_store =
  (Ok (ev_dict demo_cfg (demo_event demo_cfg)), model_store demo_cfg (with_event empty_model (demo_event demo_cfg))).
Proof.
  unfold publish. rewrite demo_new_event. cbn [bind fst snd]. rewrite demo_bytes_ok.
  cbn [max_event_bytes demo_cfg demo_config]. rewrite Z.ltb_irrefl. cbn [negb dm_ensure ensure bind].
  unfold ensure_artifact_space. cbn [min_artifact_free_bytes e_free_write demo_env]. rewrite Z.add_0_l, Z.ltb_irrefl.
  cbn [negb ensure bind].
  destruct (enforce_no_pressure demo_cfg demo_ref_ok empty_model 1 demo_bytes (empty_coherent demo_cfg))
    as (m1 & r & Hret & _ & Hsub & Hev).
  { unfold over_budget, event_count, event_bytes. cbn [empty_model m_events events_bytes fold_right List.length max_event_files
      max_outbox_bytes demo_cfg demo_config]. apply orb_false_iff. split; apply Z.ltb_ge; lia. }
  change empty_store with (model_store demo_cfg empty_model).
  cbv beta iota zeta. rewrite ?demo_bytes_ok, Hret.
  assert (Hm1 : m1 = empty_model).
  { destruct m1 as [es ak c]. destruct Hsub as [_ H2 H3]. cbn in *. apply sublist_nil_r in H2. by subst. }
  rewrite Hm1. destruct (ev_fields demo_cfg (demo_event demo_cfg) _ (or_introl eq_refl)) as (E1 & _).
  rewrite (vget_some _ _ _ E1). cbn [py_str]. destruct (write_event _ _ _ _) as [rw stw] eqn:Hw.
  apply write_event_ok in Hw; [|intros []].
  destruct Hw as [(_ & x & _ & [=])|(-> & [(_ & ->)|([=] & _)])]. reflexivity.
Qed.

(** The check itself, with the cursor written or not. *)
Lemma demo_check_fails x :
  check_once demo_cfg (demo_env (NotWritten x)) empty_store =
  (Raise x, model_store demo_cfg (with_event empty_model (demo_event demo_cfg))).
Proof. unfold check_once. rewrite demo_observe. unfold emit. by rewrite demo_publish. Qed.

Lemma demo_published_reachable :
  outbox_reachable demo_cfg (model_store demo_cfg (with_event empty_model (demo_event demo_cfg))).
Proof.
  eapply (reach_check demo_cfg (demo_env (NotWritten DurabilityUncertain))); [apply reach_empty | apply demo_timely | |].
  - apply fresh_on_empty, demo_ref_ok.
  - apply demo_check_fails.
Qed.

Lemma demo_event_name :
  json_name (py_str (vget (ev_dict demo_cfg (demo_event demo_cfg)) "event_id")) =
  json_name (ev_id demo_cfg (demo_event demo_cfg)).
Proof. reflexivity. Qed.

Lemma demo_in_outbox :
  dmem (json_name (ev_id demo_cfg (demo_event demo_cfg)))
    (outbox (model_store demo_cfg (with_event empty_model (demo_event demo_cfg)))) = true.
Proof. apply dmem_outbox. by left. Qed.

(** ** The theorems there *)

Lemma outbox_always_loads_witness :
  exists cursor ids l,
    let st := model_store demo_cfg (with_event empty_model (demo_event demo_cfg)) in
    load_cursor demo_cfg st = Ok cursor /\ validated_acks demo_cfg st = Ok ids /\
    validate_sequence_against_events demo_cfg st cursor = Ok tt /\
    list_outbox demo_cfg st = Ok l /\ StronglySorted Z.lt (map sequence_of l) /\
    Forall (fun e => 0 < sequence_of e <= next_sequence cursor) l.
Proof. exact (outbox_always_loads demo_cfg _ demo_ref_ok demo_published_reachable). Defined.

Lemma check_once_refines_witness :
  exists m', model_store demo_cfg (with_event empty_model (demo_event demo_cfg)) = model_store demo_cfg m' /\
    coherent demo_cfg m'.
Proof.
  destruct (check_once_refines demo_cfg empty_model (demo_env (NotWritten DurabilityUncertain)) _ _
    demo_ref_ok (empty_coherent demo_cfg) (demo_timely _) (fresh_on_empty demo_cfg _ demo_ref_ok)
    (demo_check_fails DurabilityUncertain)) as (m' & H1 & H2 & _).
  exists m'. exact (conj H1 H2).
Defined.

Lemma demo_retention_state :
  exists r st', enforce_retention demo_cfg 0 0 (model_store demo_cfg (with_event empty_model (demo_event demo_cfg))) = (r, st').
Proof. eexists _, _. apply surjective_pairing. Qed.

Lemma retention_removes_only_acknowledged_witness :
  exists r st', enforce_retention demo_cfg 0 0 (model_store demo_cfg (with_event empty_model (demo_event demo_cfg))) = (r, st') /\
    (dmem (json_name (ev_id demo_cfg (demo_event demo_cfg))) (outbox st') = true \/
     dmem (json_name (ev_id demo_cfg (demo_event demo_cfg))) (acks (model_store demo_cfg (with_event empty_model (demo_event demo_cfg)))) = true).
Proof.
  destruct demo_retention_state as (r & st' & H). exists r, st'. split; [exact H|].
  destruct (retention_removes_only_acknowledged demo_cfg 0 0 _ r st' demo_ref_ok demo_published_reachable H)
    as (_ & Hkept & _).
  destruct (Hkept _ demo_in_outbox) as [[H1 _]|H1]; [left; exact H1 | right; exact H1].
Defined.

Lemma demo_favourable : favourable demo_cfg (demo_env Written) 0 stale (json_size (VDict (ev_dict demo_cfg (demo_event demo_cfg)))).
Proof.
  constructor; [reflexivity | reflexivity | exact demo_bytes_nonneg | | reflexivity].
  rewrite demo_bytes_ok. cbn [min_artifact_free_bytes demo_cfg demo_config e_free_write demo_env]. lia.
Qed.

Lemma interrupted_check_resumes_witness :
  exists event2 st2 cursor2,
    check_once demo_cfg (demo_env Written) (model_store demo_cfg (with_event empty_model (demo_event demo_cfg))) =
      (Ok (emitted_report (opened demo_cfg) (snap_dict demo_cfg demo_snap) event2), st2) /\
    vget event2 "event_hash" = vget (ev_dict demo_cfg (demo_event demo_cfg)) "event_hash" /\
    load_cursor demo_cfg st2 = Ok cursor2 /\ next_sequence cursor2 = next_sequence (cursor_read demo_cfg None) + 1.
Proof.
  destruct (interrupted_check_resumes demo_cfg (demo_env (NotWritten DurabilityUncertain)) (demo_env Written)
    empty_store (model_store demo_cfg (with_event empty_model (demo_event demo_cfg))) DurabilityUncertain 0 0
    (cursor_read demo_cfg None) (snap_dict demo_cfg demo_snap) (snap_dict demo_cfg demo_snap) (opened demo_cfg)
    (ev_dict demo_cfg (demo_event demo_cfg)) stale demo_ref_ok (reach_empty demo_cfg) (demo_timely _)
    (fresh_on_empty demo_cfg _ demo_ref_ok) (demo_observe _) (demo_publish _) demo_in_outbox eq_refl (demo_timely _)
    (Z.le_refl 0) demo_favourable demo_normalized (Forall_true _ _ (fun k => eq_refl)))
    as (_ & event2 & st2 & cursor2 & H1 & _ & H3 & _ & H5 & H6).
  exists event2, st2, cursor2. exact (conj H1 (conj H3 (conj H5 H6))).
Defined.

Lemma verdict_is_classified_witness :
  match normalize_watchdog_result demo_cfg stale with
  | Ok snapshot => validate_snapshot_shape (dict_image snapshot) = Ok tt
  | Raise _ => False
  end.
Proof.
  pose proof (verdict_is_classified demo_cfg stale demo_ref_ok) as H.
  rewrite demo_normalized in *. destruct H as (d & _ & H & _). exact H.
Defined.

(** Acknowledging the event of the first check. *)
Lemma demo_acknowledge :
  exists ack, acknowledge_event demo_cfg (ev_id demo_cfg (demo_event demo_cfg)) (Some 0) (json_size (VDict ack)) Written
    (model_store demo_cfg (with_event empty_model (demo_event demo_cfg))) =
    (Ok ack, model_store demo_cfg (with_ack (with_event empty_model (demo_event demo_cfg))
       {| ak_event := ev_id demo_cfg (demo_event demo_cfg); ak_event_hash := ev_hash demo_cfg (demo_event demo_cfg); ak_at := 0 |})).
Proof.
  set (e := demo_event demo_cfg). set (m := with_event empty_model e).
  set (a := {| ak_event := ev_id demo_cfg e; ak_event_hash := ev_hash demo_cfg e; ak_at := 0 |}).
  exists (ack_dict demo_cfg a).
  assert (Hev : event_ok e).
  { apply (event_of_ok demo_cfg start_cursor demo_snap 0 (opened demo_cfg)); [by apply (cursor_ok_the demo_cfg empty_model (empty_coherent _)) |
      apply demo_snap_ok | apply calendar_0 | apply demo_transition]. }
  unfold acknowledge_event. rewrite (sha_re_stable_hash _ : sha_re (ev_id demo_cfg e) = true). cbn [dm_ensure ensure bind].
  rewrite (event_loads demo_cfg e (outbox (model_store demo_cfg m)) Hev demo_ref_ok);
    [|apply dget_outbox; [apply NoDup_singleton | by left]].
  change (dmem (json_name (ev_id demo_cfg e)) (acks (model_store demo_cfg m))) with false. cbv iota.
  cbn [require_utc bind]. rewrite make_ack_ok. fold a. unfold ensure_artifact_space.
  cbn [min_artifact_free_bytes demo_cfg demo_config]. rewrite Z.add_0_l, Z.ltb_irrefl. cbn [negb ensure bind].
  unfold atomic_write. cbn [replaceable].
  change (json_name (ev_id demo_cfg e)) with (json_name (ak_event a)).
  by rewrite (with_ack_store demo_cfg m a) by (intros []).
Qed.

Lemma acknowledgement_is_idempotent_witness :
  exists ack ack2 st, acknowledge_event demo_cfg (ev_id demo_cfg (demo_event demo_cfg)) None 0 Uncertain st = (Ok ack2, st) /\
    VDict ack2 = json_image (VDict ack).
Proof.
  destruct demo_acknowledge as (ack & H).
  destruct (acknowledgement_is_idempotent demo_cfg _ _ (Some 0) _ Written ack _ demo_ref_ok demo_published_reachable
    (fun us Hus => match Hus in _ = o return match o with Some u => in_calendar u | None => True end with eq_refl => calendar_0 end) H)
    as (_ & _ & _ & Hagain).
  destruct (Hagain None 0 Uncertain) as (ack2 & H1 & H2). exists ack, ack2. eexists. exact (conj H1 H2).
Defined.
