(* ===== verification/P131StateProps.v ===== *)
(** * What the watchdog promises

    The watchdog's verdicts: when it says healthy, that the dead-man outbox
    understands every one of them, and what readiness means. *)

From S2P Require Import Prelude PyValue Sha Json JsonFile PyRegex PyTime P121Authority PyChecks P131State Deadman DeadmanModel.

Lemma sha256_state_hash v : sha256_state (VStr (stable_hash v)) = VStr (stable_hash v).
Proof.
  cbn [sha256_state]. rewrite sha_re_stable_hash, andb_true_r. unfold stable_hash. by rewrite startswith_app.
Qed.

#[local] Opaque stable_hash.

(** ** Errors of the checkpoint's validation *)

(** The call either returns or raises a [P131StateError] with one of the
    messages, or an exception of another class. *)
Definition raises_known {A} (msgs : list string) (m : res A) : Prop :=
  forall e, m = Raise e -> is_state_error e = true -> mem (exn_msg e) msgs = true.

Lemma raises_known_ok {A} msgs (a : A) : raises_known msgs (Ok a).
Proof. discriminate. Qed.

Lemma raises_known_state {A} msgs msg : mem msg msgs = true -> raises_known (A := A) msgs (Raise (P131StateError msg)).
Proof. by intros H e [= <-] _. Qed.

Lemma raises_known_other {A} msgs e : is_state_error e = false -> raises_known (A := A) msgs (Raise e).
Proof. intros H e' [= <-]. congruence. Qed.

Lemma raises_known_ensure msgs b msg : mem msg msgs = true -> raises_known msgs (st_ensure b msg).
Proof. intros H. destruct b; [apply raises_known_ok | by apply raises_known_state]. Qed.

Lemma raises_known_bind {A B} msgs (m : res A) (k : A -> res B) :
  raises_known msgs m -> (forall a, raises_known msgs (k a)) -> raises_known msgs (bind m k).
Proof. intros Hm Hk e He. apply bind_raise in He as [He|(a & _ & He)]; [by apply Hm | by eapply Hk]. Qed.

Lemma raises_known_iter {A} msgs (f : A -> res unit) l : (forall x, raises_known msgs (f x)) -> raises_known msgs (iterM f l).
Proof. intros Hf. induction l as [|x l IH]; [apply raises_known_ok | by apply raises_known_bind]. Qed.

Lemma raises_known_in_set msgs v l : raises_known msgs (in_set v l).
Proof. unfold in_set. destruct (hashable v); [apply raises_known_ok | by apply raises_known_other]. Qed.

Create HintDb known.
#[export] Hint Resolve raises_known_ok raises_known_in_set : known.

(** Walks the body of a validation; what it calls is in the database. *)
Ltac known_step :=
  match goal with
  | |- raises_known _ (Raise (P131StateError _)) => apply raises_known_state; reflexivity
  | |- raises_known _ (Raise (Exn _ _)) => apply raises_known_other; reflexivity
  | |- raises_known _ (st_ensure _ _) => apply raises_known_ensure; reflexivity
  | |- raises_known _ _ => solve [auto 2 with known]
  | |- raises_known _ (bind _ _) => apply raises_known_bind; [|intros ?]
  | |- raises_known _ (iterM _ _) => apply raises_known_iter; intros ?
  | |- raises_known _ (match ?v with _ => _ end) => destruct v
  end.
Ltac known := repeat known_step.

Lemma parse_timestamp_known v : raises_known STATE_INVALID_REASONS (_parse_timestamp v).
Proof. unfold _parse_timestamp. known. Qed.
#[export] Hint Resolve parse_timestamp_known : known.

Lemma parse_optional_known v : raises_known STATE_INVALID_REASONS (parse_optional_timestamp v).
Proof. unfold parse_optional_timestamp. known. Qed.
#[export] Hint Resolve parse_optional_known : known.

Lemma parse_fields_known v keys : raises_known STATE_INVALID_REASONS (parse_fields v keys).
Proof. unfold parse_fields. known. Qed.
#[export] Hint Resolve parse_fields_known : known.

Lemma lifecycle_known state : raises_known STATE_INVALID_REASONS (_validate_lifecycle_state state).
Proof. unfold _validate_lifecycle_state, validate_lifecycle. cbv zeta. known. Qed.

Lemma scheduler_known v : raises_known STATE_INVALID_REASONS (validate_scheduler v).
Proof. unfold validate_scheduler, py_float. known. Qed.

Lemma canary_known v : raises_known STATE_INVALID_REASONS (validate_canary v).
Proof. unfold validate_canary. cbv zeta. known. Qed.
#[export] Hint Resolve lifecycle_known scheduler_known canary_known : known.

Lemma validate_known state : raises_known STATE_INVALID_REASONS (validate_monitor_state state).
Proof.
  unfold validate_monitor_state, _validate_runtime_boundary, _validate_checkpoint_shape, _validate_source_state_shape,
    _validate_state_timestamps. cbv zeta. known.
Qed.
#[export] Hint Resolve validate_known : known.

Lemma load_known path : raises_known STATE_INVALID_REASONS (load_monitor_state path).
Proof. unfold load_monitor_state, read_state_file. known. Qed.

(** ** Loaded checkpoints *)

Lemma load_ok path state :
  load_monitor_state path = Ok state ->
  validate_monitor_state state = Ok tt /\ vget state "state_hash" = VStr (stable_hash (VDict (unsigned_state state))).
Proof.
  unfold load_monitor_state. destruct path as [f|]; [|discriminate]. intros H.
  apply bind_ok in H as (v & _ & H). destruct v as [| | | | | | |payload]; try discriminate H.
  apply bind_ok in H as (? & _ & H). apply bind_ok in H as (? & Hh & H). apply bind_ok in H as ([] & Hv & H).
  assert (E : payload = state) by exact (f_equal (from_ok []) H). subst payload. split; [exact Hv|].
  apply ensure_ok in Hh. exact (proj1 (py_eq_str _ _) Hh).
Qed.

Lemma parse_fields_ok d keys key :
  parse_fields (VDict d) keys = Ok tt -> In key keys -> parse_optional_timestamp (vget d key) = Ok tt.
Proof. cbn [parse_fields]. rewrite iterM_ok, Forall_forall. intros H Hk. apply H. by apply list_elem_of_In. Qed.

Lemma optional_string_parses v : parse_optional_timestamp v = Ok tt -> is_string v = true -> exists us, _parse_timestamp v = Ok us.
Proof.
  intros H Hs. destruct v; try discriminate Hs. cbn [parse_optional_timestamp] in H.
  apply bind_ok in H as (us & H & _). eauto.
Qed.

Lemma validated_heartbeat state :
  validate_monitor_state state = Ok tt -> is_string (vget state "last_heartbeat_at") = true ->
  exists us, _parse_timestamp (vget state "last_heartbeat_at") = Ok us.
Proof.
  intros H. unfold validate_monitor_state, _validate_state_timestamps in H.
  apply bind_ok in H as (? & _ & H). apply bind_ok in H as (? & _ & H). apply bind_ok in H as (? & _ & H).
  apply bind_ok in H as ([] & H & _). apply optional_string_parses.
  eapply parse_fields_ok; [exact H | simpl; auto].
Qed.

(** ** Ages *)

Lemma total_seconds_le us n : Qle_bool (total_seconds us) (inject_Z n) = (us <=? n * 1000000).
Proof. unfold Qle_bool, total_seconds, inject_Z. simpl. by rewrite Z.mul_1_r. Qed.

Lemma total_seconds_skew us : Qle_bool (- MAX_FUTURE_CLOCK_SKEW_SECONDS) (total_seconds us) = (-5000000 <=? us).
Proof. unfold Qle_bool, total_seconds. simpl. by rewrite Z.mul_1_r. Qed.

(** Is a time at most five seconds ahead of [now] and at most [limit] seconds
    behind it? *)
Definition within (now at_ limit : Z) : bool := (-5000000 <=? now - at_) && (now - at_ <=? limit * 1000000).

(** ** The verdicts *)

(** The shape of every verdict the watchdog returns. *)
Lemma watchdog_cases path now timeout d :
  evaluate_watchdog path now timeout = Ok d ->
  (exists reason, d = unhealthy reason /\ mem reason ("state_missing" :: STATE_INVALID_REASONS) = true /\
     (path = None \/ exists e, load_monitor_state path = Raise e)) \/
  (exists state, load_monitor_state path = Ok state /\
     ((lifecycle_stopped state = true /\
       d = unhealthy "runtime_stopped" ++
           [("runtime_id", vget state "runtime_id"); ("state_hash", vget state "state_hash")]) \/
      (is_string (vget state "last_heartbeat_at") = false /\ d = unhealthy "heartbeat_missing") \/
      (exists at_, lifecycle_stopped state = false /\ _parse_timestamp (vget state "last_heartbeat_at") = Ok at_ /\
         exists healthy reason, d = heartbeat_verdict state healthy reason (total_seconds (now - at_)) /\
           healthy = within now at_ timeout /\
           ((healthy = true /\ reason = "heartbeat_current") \/
            (healthy = false /\ (reason = "heartbeat_stale" \/ reason = "heartbeat_in_future")))))).
Proof.
  unfold evaluate_watchdog. destruct path as [f|].
  2:{ intros [= <-]. left. exists "state_missing". auto. }
  destruct (load_monitor_state (Some f)) as [state|e] eqn:Hl.
  - intros H. right. exists state. split; [reflexivity|].
    destruct (lifecycle_stopped state); [left; split; [reflexivity|]; exact (eq_sym (f_equal (from_ok []) H))|].
    destruct (is_string (vget state "last_heartbeat_at")) eqn:Hs; cbn [negb] in H.
    2:{ right. left. split; [reflexivity|]. exact (eq_sym (f_equal (from_ok []) H)). }
    right. right. apply bind_ok in H as (at_ & Hat & H). exists at_. split; [reflexivity|]. split; [exact Hat|].
    rewrite total_seconds_skew, total_seconds_le in H. unfold within.
    destruct (-5000000 <=? now - at_); cbn [negb] in H.
    + exists (now - at_ <=? timeout * 1000000), (if now - at_ <=? timeout * 1000000 then "heartbeat_current" else "heartbeat_stale").
      split; [exact (eq_sym (f_equal (from_ok []) H))|]. destruct (now - at_ <=? timeout * 1000000); auto.
    + exists false, "heartbeat_in_future". split; [exact (eq_sym (f_equal (from_ok []) H)) | auto].
  - intros H. left. pose proof (load_known (Some f) e Hl) as Hk.
    destruct (is_state_error e); [|discriminate H]. exists (exn_msg e).
    split; [exact (eq_sym (f_equal (from_ok []) H))|]. split; [|eauto]. specialize (Hk eq_refl).
    apply mem_In in Hk. apply mem_In. by right.
Qed.

Lemma watchdog_raises path now timeout e :
  evaluate_watchdog path now timeout = Raise e -> load_monitor_state path = Raise e /\ is_state_error e = false.
Proof.
  unfold evaluate_watchdog. destruct path as [f|]; [|discriminate].
  destruct (load_monitor_state (Some f)) as [state|e'] eqn:Hl.
  - destruct (lifecycle_stopped state); [discriminate|].
    destruct (is_string (vget state "last_heartbeat_at")) eqn:Hs; cbn [negb]; [|discriminate].
    destruct (validated_heartbeat state (proj1 (load_ok _ _ Hl)) Hs) as (at_ & Hat).
    rewrite Hat. cbn [bind]. destruct (negb _); discriminate.
  - destruct (is_state_error e') eqn:He; [discriminate|]. intros [= <-]. auto.
Qed.

(** The watchdog calls a monitor healthy exactly when its checkpoint
    loads, its lifecycle is not stopped and its last heartbeat is at most the
    timeout old and at most five seconds in the future; it raises only what
    reading the checkpoint raises and is not a [P131StateError]. *)
Theorem watchdog_healthy_iff path now timeout :
  match evaluate_watchdog path now timeout with
  | Ok d =>
      vget d "healthy" = VBool true <->
      exists state at_, load_monitor_state path = Ok state /\ lifecycle_stopped state = false /\
        _parse_timestamp (vget state "last_heartbeat_at") = Ok at_ /\ within now at_ timeout = true
  | Raise e => load_monitor_state path = Raise e /\ is_state_error e = false
  end.
Proof.
  destruct (evaluate_watchdog path now timeout) as [d|e] eqn:Hw; [|exact (watchdog_raises _ _ _ _ Hw)].
  destruct (watchdog_cases _ _ _ _ Hw) as [(r & -> & _ & Hl)|(state & Hl & [(Hs & ->)|[(Hs & ->)|(at_ & Hs & Hat & h & r & -> & -> & _)]])].
  - split; [discriminate|]. intros (state & at_ & Hok & _). destruct Hl as [->|(e & Hl)]; [discriminate Hok | congruence].
  - split; [discriminate|]. intros (state' & at_ & Hok & Hs' & _).
    assert (state' = state) as -> by congruence. congruence.
  - split; [discriminate|]. intros (state' & at_ & Hok & _ & Hat & _).
    assert (state' = state) as -> by congruence.
    destruct (vget state "last_heartbeat_at"); try discriminate Hs; discriminate Hat.
  - change (vget (heartbeat_verdict state (within now at_ timeout) r (total_seconds (now - at_))) "healthy")
      with (VBool (within now at_ timeout)). split.
    + intros [= Hh]. exists state, at_. auto.
    + intros (state' & at' & Hok & _ & Hat' & Hh). assert (state' = state) as -> by congruence.
      assert (at' = at_) as -> by congruence. by rewrite Hh.
Qed.

(** *** What the dead-man outbox makes of them *)

(** The reason the dead-man outbox gives a reason of the watchdog. *)
Definition p133_reason (reason : string) : string :=
  if mem reason STATE_INVALID_REASONS then "state_invalid"
  else if mem reason HEARTBEAT_INVALID_REASONS then "heartbeat_invalid" else reason.

Definition watchdog_reasons : list string :=
  "state_missing" :: STATE_INVALID_REASONS ++
  ["runtime_stopped"; "heartbeat_missing"; "heartbeat_in_future"; "heartbeat_stale"].

Lemma reason_understood r :
  mem r watchdog_reasons = true -> normalized_reason (VStr r) (VBool false) = Ok (p133_reason r, false).
Proof.
  intros H. apply mem_In in H. unfold watchdog_reasons, STATE_INVALID_REASONS in H. simpl in H.
  repeat (destruct H as [<-|H]; [vm_compute; reflexivity|]). destruct H.
Qed.

Lemma normalize_verdict cfg d r h :
  normalized_reason (vget d "reason") (vget d "healthy") = Ok (r, h) ->
  exists snapshot, normalize_watchdog_result cfg (VDict d) = Ok snapshot /\
    vget snapshot "reason" = VStr r /\ vget snapshot "healthy" = VBool h /\
    vget snapshot "state_hash" = sha256_state (vget d "state_hash").
Proof.
  intros H. unfold normalize_watchdog_result. rewrite H. cbn [bind]. eexists. split; [reflexivity|].
  split_and!; reflexivity.
Qed.

(** C28: the dead-man outbox understands every verdict of the watchdog: its
    normalisation returns, the reason is one of the outbox's and never
    [watchdog_contract_invalid], it is healthy exactly when the watchdog said
    so, and a verdict on a loaded checkpoint with a heartbeat carries the
    checkpoint's hash into the event. *)
Theorem watchdog_verdict_is_understood cfg path now timeout d :
  evaluate_watchdog path now timeout = Ok d ->
  exists snapshot reason, normalize_watchdog_result cfg (VDict d) = Ok snapshot /\
    vget snapshot "reason" = VStr reason /\ In reason NORMALIZED_REASONS /\ reason <> "watchdog_contract_invalid" /\
    vget snapshot "healthy" = vget d "healthy" /\
    (forall state, load_monitor_state path = Ok state -> vget d "reason" <> VStr "heartbeat_missing" ->
       vget snapshot "state_hash" = vget state "state_hash").
Proof.
  intros Hw.
  assert (Hr : exists r h, vget d "reason" = VStr r /\ vget d "healthy" = VBool h /\
            ((h = true /\ r = "heartbeat_current") \/ (h = false /\ mem r watchdog_reasons = true)) /\
            (forall state, load_monitor_state path = Ok state -> VStr r <> VStr "heartbeat_missing" ->
               vget d "state_hash" = vget state "state_hash")).
  { destruct (watchdog_cases _ _ _ _ Hw) as [(r & -> & Hr & Hl)|(state & Hl & [(Hs & ->)|[(Hs & ->)|(at_ & Hs & Hat & h & r & -> & _ & Hr)]])].
    - exists r, false. split_and!; [reflexivity.. | |].
      + right. split; [reflexivity|]. apply mem_In. apply mem_In in Hr. unfold watchdog_reasons.
        destruct Hr as [<-|Hr]; [by left|]. right. apply in_or_app. by left.
      + intros state Hok. destruct Hl as [->|(e & Hl)]; [discriminate Hok | congruence].
    - exists "runtime_stopped", false. split_and!; [reflexivity.. | by right |].
      intros state' Hok _. assert (state' = state) as -> by congruence. reflexivity.
    - exists "heartbeat_missing", false. split_and!; [reflexivity.. | by right | congruence].
    - exists r, h. split_and!; [reflexivity.. | |].
      + destruct Hr as [[-> ->]|[-> [-> | ->]]]; [by left | right; split; reflexivity..].
      + intros state' Hok _. assert (state' = state) as -> by congruence. reflexivity. }
  destruct Hr as (r & h & E1 & E2 & Hr & Hhash).
  assert (Hn : exists r', normalized_reason (vget d "reason") (vget d "healthy") = Ok (r', h) /\
            In r' NORMALIZED_REASONS /\ r' <> "watchdog_contract_invalid").
  { rewrite E1, E2. destruct Hr as [[-> ->]|[-> Hr]].
    - exists "heartbeat_current". split_and!; [reflexivity | by left | discriminate].
    - exists (p133_reason r). split; [by apply reason_understood|]. apply mem_In in Hr.
      unfold watchdog_reasons, STATE_INVALID_REASONS in Hr. simpl in Hr.
      repeat (destruct Hr as [<-|Hr]; [vm_compute; split; [tauto | discriminate]|]). destruct Hr. }
  destruct Hn as (r' & Hn & Hin & Hne). destruct (normalize_verdict cfg d r' h Hn) as (snapshot & Hok & S1 & S2 & S3).
  exists snapshot, r'. rewrite S2, S3, E2. split_and!; try assumption; [reflexivity|].
  intros state Hl Hnm. rewrite E1 in Hnm. rewrite (Hhash state Hl Hnm), (proj2 (load_ok _ _ Hl)).
  apply sha256_state_hash.
Qed.

(** ** Readiness *)

Section Readiness.
Context (now stale : Z).

Definition source_fresh (source : dict) : Prop :=
  exists failures limit at_, vget source "consecutive_failures" = VInt failures /\
    vget source "failure_limit" = VInt limit /\ failures < limit /\
    _parse_timestamp (vget source "last_data_at") = Ok at_ /\ within now at_ stale = true.

(** What validation leaves of a source. *)
Definition source_counts (source : dict) : Prop :=
  exists failures limit, vget source "consecutive_failures" = VInt failures /\
    vget source "failure_limit" = VInt limit /\
    parse_optional_timestamp (vget source "last_data_at") = Ok tt.

Lemma vget_or_int d k dflt z : vget d k = VInt z -> vget_or d k dflt = VInt z.
Proof. unfold vget, vget_or. by destruct (dget d k). Qed.

Lemma source_reasons_run source : source_counts source ->
  exists reasons, source_reasons now stale source = Ok reasons /\ (reasons = [] <-> source_fresh source).
Proof.
  intros (f & l & Hf & Hl & Ht). unfold source_reasons.
  rewrite (vget_or_int _ _ _ _ Hf), (vget_or_int _ _ _ _ Hl). cbn [py_int bind].
  destruct (is_string (vget source "last_data_at")) eqn:Hs; cbn [negb].
  - destruct (optional_string_parses _ Ht Hs) as (at_ & Hat). rewrite Hat. cbn [bind].
    eexists. split; [reflexivity|]. rewrite total_seconds_skew, total_seconds_le.
    transitivity (f < l /\ within now at_ stale = true).
    + unfold within. destruct (Z.leb_spec l f), (-5000000 <=? now - at_), (now - at_ <=? stale * 1000000); simpl;
        split; (discriminate || (intros [? ?]; (discriminate || lia)) || (intros _; split; [lia | reflexivity]) || reflexivity).
    + split; [intros [? ?]; exists f, l, at_; auto | intros (f' & l' & at' & ? & ? & ? & ? & ?)].
      assert (f' = f /\ l' = l /\ at' = at_) as (-> & -> & ->) by (split_and!; congruence). auto.
  - eexists. split; [reflexivity|]. split; [by destruct (l <=? f)|].
    intros (? & ? & at_ & _ & _ & _ & Hat & _). destruct (vget source "last_data_at"); discriminate.
Qed.

Lemma sources_reasons_run sources : Forall source_counts sources ->
  exists reasons, mapM (source_reasons now stale) sources = Ok reasons /\
    (List.concat reasons = [] <-> Forall source_fresh sources).
Proof.
  induction 1 as [|s l Hs Hl (rs & Hrs & IH)]; [by exists []|]. cbn [mapM].
  destruct (source_reasons_run s Hs) as (r & -> & Hr). rewrite Hrs. cbn [bind].
  exists (r :: rs). split; [reflexivity|]. rewrite Forall_cons, <- Hr, <- IH. cbn [List.concat].
  split; [apply app_eq_nil | by intros [-> ->]].
Qed.

Lemma validated_sources state : validate_monitor_state state = Ok tt -> Forall source_counts (enabled_sources state).
Proof.
  unfold validate_monitor_state. intros H.
  apply bind_ok in H as (? & _ & H). apply bind_ok in H as (? & _ & H). apply bind_ok in H as (? & Hshape & Hts).
  unfold _validate_source_state_shape in Hshape. unfold _validate_state_timestamps in Hts.
  repeat (apply bind_ok in Hts as (? & _ & Hts)). unfold enabled_sources.
  destruct (vget state "source_health") as [| | | | | | |health]; try constructor.
  apply bind_ok in Hshape as (? & _ & Hshape). apply bind_ok in Hshape as (? & Hshape & _). apply ensure_ok in Hshape.
  rewrite forallb_forall in Hshape. rewrite iterM_ok, Forall_forall in Hts.
  apply Forall_forall. intros source Hin. apply list_elem_of_omap in Hin as ([k v] & Hin & Hv). simpl in Hv.
  destruct v as [| | | | | | |source']; try discriminate Hv. destruct (is_literal _ _); [|discriminate Hv]. injection Hv as ->.
  specialize (Hts _ Hin). apply list_elem_of_In in Hin. specialize (Hshape _ Hin). simpl in Hts. cbn [fst snd source_state_ok] in Hshape.
  apply bind_ok in Hts as ([] & Hts & _). bools. cbn [forallb] in *. bools.
  destruct (vget source "consecutive_failures") as [| |f| | | | |] eqn:Ef; try discriminate.
  destruct (vget source "failure_limit") as [| |l| | | | |] eqn:El; try discriminate.
  exists f, l. auto.
Qed.
End Readiness.

(** Ready means every part is.  The snapshot says ready exactly when the
    checkpoint loads, the lifecycle is not stopped, the heartbeat is within
    its timeout, the canary passed and every enabled source is below its
    failure limit with data within the staleness bound; it raises only what
    reading the checkpoint raises and is not a [P131StateError]. *)
Theorem monitor_ready_iff path now timeout stale :
  match monitor_status_snapshot path now timeout stale with
  | Ok d =>
      vget d "ready" = VBool true <->
      exists state at_, load_monitor_state path = Ok state /\ lifecycle_stopped state = false /\
        _parse_timestamp (vget state "last_heartbeat_at") = Ok at_ /\ within now at_ timeout = true /\
        canary_reasons (vget state "canary") = [] /\ Forall (source_fresh now stale) (enabled_sources state)
  | Raise e => load_monitor_state path = Raise e /\ is_state_error e = false
  end.
Proof.
  unfold monitor_status_snapshot. destruct path as [f|]; [|split; [discriminate | by intros (? & ? & ? & _)]].
  destruct (load_monitor_state (Some f)) as [state|e] eqn:Hl.
  2:{ destruct (is_state_error e) eqn:He; [|auto]. split; [discriminate | intros (? & ? & [=] & _)]. }
  pose proof (proj1 (load_ok _ _ Hl)) as Hv. unfold _status_from_state.
  destruct (lifecycle_stopped state) eqn:Hs.
  { split; [discriminate|]. intros (s & at_ & Hok & Hs' & _). assert (s = state) as -> by congruence. congruence. }
  destruct (sources_reasons_run now stale _ (validated_sources state Hv)) as (reasons & -> & Hr).
  destruct (is_string (vget state "last_heartbeat_at")) eqn:Hstr.
  - destruct (validated_heartbeat state Hv Hstr) as (at_ & Hat).
    assert (Ha : heartbeat_age now (vget state "last_heartbeat_at") = Ok (Some (total_seconds (now - at_)))).
    { unfold heartbeat_age. destruct (vget state "last_heartbeat_at"); try discriminate Hstr. by rewrite Hat. }
    rewrite Ha. cbn [bind heartbeat_live]. rewrite total_seconds_skew, total_seconds_le.
    assert (Hn : is_none (vget state "last_heartbeat_at") = false) by (by destruct (vget state "last_heartbeat_at")).
    rewrite Hn. transitivity (within now at_ timeout = true /\ canary_reasons (vget state "canary") = [] /\ List.concat reasons = []).
    + unfold within. match goal with |- vget ?d "ready" = _ <-> _ => change (vget d "ready") with (default VNone (dget d "ready")) end.
      cbn -[canary_reasons List.concat Z.leb Z.mul Z.sub].
      destruct (-5000000 <=? now - at_), (now - at_ <=? timeout * 1000000); simpl;
        destruct (canary_reasons (vget state "canary")), (List.concat reasons); simpl; naive_solver.
    + rewrite Hr. split; [intros (? & ? & ?); exists state, at_; by split_and!|].
      intros (s & at' & Hok & _ & Hat' & ? & ? & ?). assert (s = state) as -> by congruence.
      assert (at' = at_) as -> by congruence. auto.
  - assert (Ha : heartbeat_age now (vget state "last_heartbeat_at") = Ok None).
    { unfold heartbeat_age. by destruct (vget state "last_heartbeat_at"). }
    rewrite Ha. cbn [bind heartbeat_live]. split; [discriminate|].
    intros (s & at_ & Hok & _ & Hat & _). assert (s = state) as -> by congruence.
    destruct (vget state "last_heartbeat_at"); try discriminate Hstr; discriminate Hat.
Qed.
