(* ===== verification/P131MonitorSteps.v ===== *)
(** * A turn of the monitor keeps the invariant

    On a state that satisfies the invariant every operation of a turn
    returns, and what it returns satisfies it. *)

From S2P Require Import Prelude PyValue Sha Json JsonFile PyTime P121Authority PyChecks P131State P131Monitor P131MonitorInv.
From S2P Require Import P131MonitorOps P131StateProps.
From Stdlib Require Import Qround.

#[local] Opaque stable_hash utc_timestamp read_utc.

(** ** Dictionaries *)

Lemma dkeys_dset_in {V} (d : list (string * V)) k v : In k (dkeys d) -> dkeys (dset d k v) = dkeys d.
Proof.
  induction d as [|[k' v'] d IH]; simpl; [done|]. destruct (eqs_spec k k') as [->|]; [done|].
  intros [?|?]; [congruence|]. simpl. by rewrite IH.
Qed.

Lemma vget_in d k : vget d k <> VNone -> In k (dkeys d).
Proof.
  intros H. apply mem_In. change (dmem k d = true). apply dget_dmem. unfold vget in H.
  destruct (dget d k) as [v|]; [eauto | done].
Qed.

Lemma vget_or_vget d k dflt v : vget d k = v -> v <> VNone -> vget_or d k dflt = v.
Proof. unfold vget, vget_or. destruct (dget d k); simpl; congruence. Qed.

(** A counter read with [int(d.get(k, 0))] or [int(d[k])]. *)
Lemma read_counter d k : nonneg (vget d k) = true ->
  exists n, 0 <= n /\ vget d k = VInt n /\ py_int (vget_or d k (VInt 0)) = Ok n.
Proof.
  intros (n & Hn & Hp)%nonneg_some. exists n. split_and!; [done | done |].
  by rewrite (vget_or_vget _ _ _ _ Hn).
Qed.

Lemma bump_ok d k n : nonneg (vget d k) = true -> exists m, 0 <= m /\ bump d k n = Ok (dset d k (VInt (m + n))).
Proof.
  intros (m & Hm & Hp)%nonneg_some. exists m. split; [done|]. unfold bump. by rewrite (vindex_vget _ _ _ Hm).
Qed.

Lemma dget_snoc (d : dict) k v : dget d k = None -> dget (d ++ [(k, v)]) k = Some v.
Proof.
  induction d as [|[k' v'] d IH]; cbn [app dget]; [by rewrite eqs_refl|].
  destruct (k =s k'); [discriminate | exact IH].
Qed.

Section Steps.
Context (cfg : MonitorConfig) (decode : string -> option val) (Hcfg : config_ok cfg).

(** ** Sources *)

Definition counts_ok (c : poll_counts) : Prop := 0 <= p_accepted c /\ 0 <= p_duplicates c /\ 0 <= p_failures c.

Lemma add_counts_ok a b : counts_ok a -> counts_ok b -> counts_ok (add_counts a b).
Proof. unfold counts_ok. simpl. lia. Qed.

(** What a poll needs of its loop. *)
Definition tail_ok (t : tail) : Prop :=
  0 <= t_cursor t /\ forallb is_text (t_recent t) = true /\
  0 <= t_accepted t /\ 0 <= t_duplicates t /\ 0 <= t_failures t.

Lemma slen_nonneg s : 0 <= slen s.
Proof. unfold slen. lia. Qed.

Lemma take_line_ok id identity line rest t : tail_ok t -> tail_ok (take_line decode id identity line rest t).
Proof.
  intros (H1 & H2 & H3 & H4 & H5). pose proof (slen_nonneg line). unfold take_line, tail_ok.
  destruct (decode line) as [[]|]; simpl; try (split_and!; (done || lia)).
  destruct (mem _ _); simpl; split_and!; try (done || lia).
  rewrite forallb_app, H2. cbn [forallb andb]. rewrite andb_true_r. apply text_ok. unfold _observation_identity.
  repeat match goal with |- context [text_field ?v ?k] => destruct (text_field v k) end; apply stable_hash_not_empty.
Qed.

Lemma read_lines_ok id identity f cursor recent :
  0 <= cursor -> forallb is_text recent = true ->
  exists t, read_lines cfg decode (S (String.length (sf_bytes f))) id identity (start_tail f cursor recent) = Some t /\ tail_ok t.
Proof.
  intros Hc Hr. apply (read_lines_ind cfg decode id identity tail_ok).
  - intros t t' Ht (line & rest & _ & _ & _ & _ & _ & _ & ->). by apply take_line_ok.
  - auto.
  - unfold tail_ok. simpl. intros t ? _. intuition lia.
  - pose proof (str_drop_length cursor (sf_bytes f)). simpl. lia.
  - unfold tail_ok. simpl. auto with lia.
Qed.

Lemma dupdate_cons d k v us : dupdate d ((k, v) :: us) = dupdate (dset d k v) us.
Proof. done. Qed.

Lemma last_n_ok l : forallb is_text l = true -> recent_ok (last_n MAX_RECENT_OBSERVATION_HASHES l).
Proof.
  intros H. unfold recent_ok, last_n. split.
  - rewrite length_skipn. unfold MAX_RECENT_OBSERVATION_HASHES. lia.
  - rewrite forallb_forall in *. intros x Hx. apply H.
    rewrite <- (firstn_skipn (List.length l - Z.to_nat MAX_RECENT_OBSERVATION_HASHES) l). apply in_or_app. by right.
Qed.

Lemma rotated_ok source health n : 0 <= n -> source_ok cfg source health ->
  source_ok cfg source (dset health "rotation_count" (VInt n)).
Proof. intros Hn []. constructor; fields; try assumption. by apply nonneg_int. Qed.

Lemma polled_health_ok source health f at_ t failures :
  source_ok cfg source health -> tail_ok t -> 0 <= failures -> datetime_range at_ = true -> sf_identity f <> "" ->
  source_ok cfg source (polled_health health f at_ t failures).
Proof.
  intros Hs (Hc & _) Hf Hat Hid. unfold polled_health. unfold _source_prefix. cbv zeta. cbn [fst snd].
  rewrite !dupdate_cons. cbn [dupdate fold_left].
  set (h := dset _ "consecutive_failures" _).
  assert (Hh : source_ok cfg source h).
  { destruct Hs. unfold h. constructor; fields; try assumption; auto using nonneg_int, slen_nonneg with inv.
    right. split; apply text_ok; [exact Hid | apply stable_hash_not_empty]. }
  assert (Hd : source_ok cfg source (if t_accepted t =? 0 then h else dset h "last_data_at" (VStr (utc_timestamp at_)))).
  { destruct (t_accepted t =? 0); [exact Hh|]. destruct Hh. constructor; fields; auto with inv. }
  revert Hd. generalize (if t_accepted t =? 0 then h else dset h "last_data_at" (VStr (utc_timestamp at_))).
  intros h' []. destruct (t_failures t =? 0); constructor; fields; auto.
Qed.

Lemma resume_cursor_ok source health f : source_ok cfg source health ->
  exists cursor rotated, resume_cursor health f = Ok (cursor, rotated) /\ 0 <= cursor.
Proof.
  intros Hs. destruct (read_counter _ _ (so_cursor _ _ _ Hs)) as (n & Hn & _ & E).
  unfold resume_cursor. rewrite E. cbn [bind]. destruct (_ || _); eauto with lia.
Qed.

Lemma poll_opened_ok source health state at_ f :
  source_ok cfg source health -> forallb is_text (recent_of state) = true ->
  datetime_range at_ = true -> sf_identity f <> "" ->
  exists health' recent counts, poll_opened cfg decode source health state at_ f = Ok (health', recent, counts) /\
    source_ok cfg source health' /\ recent_ok recent /\ counts_ok counts.
Proof.
  intros Hs Hr Hat Hid. unfold poll_opened. destruct (resume_cursor_ok source health f Hs) as (cursor & rotated & -> & Hc).
  cbn [bind].
  assert (Hrot : exists health', (if rotated then
      let! n := py_int (vget_or health "rotation_count" (VInt 0)) in Ok (dset health "rotation_count" (VInt (n + 1)))
    else Ok health) = Ok health' /\ source_ok cfg source health').
  { destruct rotated; [|eauto]. destruct (read_counter _ _ (so_rotations _ _ _ Hs)) as (n & Hn & _ & ->). cbn [bind].
    eexists. split; [reflexivity|]. apply rotated_ok; [lia | done]. }
  destruct Hrot as (health' & -> & Hs'). cbn [bind].
  destruct (read_lines_ok (src_id source) (sf_identity f) f cursor (recent_of state) Hc Hr) as (t & -> & Ht).
  destruct (read_counter _ _ (so_failures _ _ _ Hs')) as (n & Hn & _ & E). rewrite E.
  assert (Hf : exists k, (if t_failures t =? 0 then Ok 0 else let! n := Ok n in Ok (n + 1)) = Ok k /\ 0 <= k).
  { destruct (t_failures t =? 0); cbn [bind]; eauto with lia. }
  destruct Hf as (k & -> & Hk). cbn [bind]. eexists _, _, _. split; [reflexivity|].
  split; [by apply polled_health_ok|]. destruct Ht as (? & ? & ? & ? & ?). split; [by apply last_n_ok | by split_and!].
Qed.

Lemma unavailable_ok source health : source_ok cfg source health ->
  exists health', unavailable_health health = Ok health' /\ source_ok cfg source health'.
Proof.
  intros Hs. unfold unavailable_health. destruct (read_counter _ _ (so_failures _ _ _ Hs)) as (n & Hn & _ & ->).
  cbn [bind]. eexists. split; [reflexivity|]. destruct Hs. constructor; fields; try assumption; [apply nonneg_int; lia | reflexivity].
Qed.

(** Replacing the health of a configured source. *)
Lemma replace_source h source d :
  In source (mc_sources cfg) -> sources_ok cfg h -> source_ok cfg source d ->
  sources_ok cfg (dset h (src_id source) (VDict d)).
Proof.
  intros Hin [H1 H2 H3] Hd. rewrite Forall_forall in H3.
  destruct (H3 source (proj2 (list_elem_of_In _ _) Hin)) as (d0 & Hd0 & _).
  assert (Hk : dkeys (dset h (src_id source) (VDict d)) = dkeys h).
  { apply dkeys_dset_in, vget_in. by rewrite Hd0. }
  constructor.
  - unfold same_keys in *. by rewrite Hk.
  - unfold dict_wf in *. by rewrite Hk.
  - apply Forall_forall. intros source' Hin'. rewrite vget_dset.
    destruct (eqs_spec (src_id source') (src_id source)) as [E|]; [|by apply H3].
    exists d. split; [reflexivity|]. apply list_elem_of_In in Hin'.
    assert (source' = source) as ->; [|done]. eapply NoDup_map_eq; [apply (cg_distinct _ Hcfg)|..]; eassumption.
Qed.

(** ** Polling *)

Lemma core_recent_of s : core_ok cfg s -> forallb is_text (recent_of s) = true.
Proof.
  intros Hc. destruct (k_recent _ _ Hc) as (l & Hl & _ & Ht). unfold recent_of.
  by rewrite (vget_or_vget _ _ _ _ Hl).
Qed.

Lemma set_recent_ok s l : core_ok cfg s -> recent_ok l -> core_ok cfg (dset s "recent_observation_hashes" (VList l)).
Proof. intros [] Hl. constructor; fields; try assumption. eauto. Qed.

Lemma set_sources_ok s h : core_ok cfg s -> sources_ok cfg h -> core_ok cfg (dset s "source_health" (VDict h)).
Proof. intros [] Hh. constructor; fields; try assumption. eauto. Qed.

Definition reads_ok (reads : string -> option source_file) : Prop :=
  forall id f, reads id = Some f -> sf_identity f <> "".

Lemma poll_ok source s at_ f :
  In source (mc_sources cfg) -> core_ok cfg s -> datetime_range at_ = true ->
  (forall f', f = Some f' -> sf_identity f' <> "") ->
  exists s' counts, _poll_local_jsonl cfg decode source s at_ f = Ok (s', counts) /\ core_ok cfg s' /\ counts_ok counts.
Proof.
  intros Hin Hc Hat Hf. unfold _poll_local_jsonl.
  destruct (k_sources _ _ Hc) as (h & Hh & Hs). pose proof (ss_sources _ _ Hs) as Hall. rewrite Forall_forall in Hall.
  destruct (Hall source (proj2 (list_elem_of_In _ _) Hin)) as (d & Hd & Hso).
  rewrite (vindex_vget _ _ _ Hh) by discriminate. cbn [bind dict_or_empty].
  rewrite (vindex_vget _ _ _ Hd) by discriminate. cbn [bind dict_or_empty]. destruct f as [f|].
  - destruct (poll_opened_ok source d s at_ f Hso (core_recent_of s Hc) Hat (Hf f eq_refl)) as (d' & recent & counts & -> & Hd' & Hr & Hn).
    cbn [bind]. eexists _, _. split; [reflexivity|]. split; [|exact Hn]. fields. rewrite Hh. cbn [dict_or_empty].
    apply set_sources_ok; [by apply set_recent_ok | by apply replace_source].
  - destruct (unavailable_ok source d Hso) as (d' & -> & Hd'). cbn [bind]. eexists _, _. split; [reflexivity|].
    split; [|unfold counts_ok; simpl; lia]. rewrite Hh. cbn [dict_or_empty].
    apply set_sources_ok; [done | by apply replace_source].
Qed.

Lemma poll_sources_ok sources s at_ reads counts :
  incl sources (mc_sources cfg) -> core_ok cfg s -> datetime_range at_ = true -> reads_ok reads -> counts_ok counts ->
  exists s' counts', poll_sources cfg decode sources at_ reads s counts = Ok (s', counts') /\ core_ok cfg s' /\ counts_ok counts'.
Proof.
  revert s counts. induction sources as [|source sources IH]; intros s counts Hi Hc Hat Hr Hn; [by exists s, counts|].
  apply incl_cons_inv in Hi as [Hin Hi]. cbn [poll_sources]. destruct (negb (src_enabled source)); [by apply IH|].
  destruct (poll_ok source s at_ (reads (src_id source)) Hin Hc Hat (Hr _)) as (s' & c & -> & Hc' & Hn'). cbn [bind].
  apply IH; try assumption. by apply add_counts_ok.
Qed.

(** ** The parts of a cycle *)

Lemma core_bump s key n :
  In key ["cycle_count"; "resume_count"] -> core_ok cfg s -> 0 <= n -> exists s', bump s key n = Ok s' /\ core_ok cfg s'.
Proof.
  intros Hk Hc Hn. assert (Hkey : nonneg (vget s key) = true) by (destruct Hk as [<-|[<-|[]]]; apply Hc).
  destruct (bump_ok s key n Hkey) as (m & Hm & ->). eexists. split; [reflexivity|].
  assert (Hp : nonneg (VInt (m + n)) = true) by (apply nonneg_int; lia).
  destruct Hc. destruct Hk as [<-|[<-|[]]]; constructor; fields; assumption.
Qed.

Lemma running_ok d : lifecycle_ok d -> lifecycle_ok (dset d "phase" (VStr "running")).
Proof.
  intros [H1 H2 H3 H4 H5]. constructor; fields; try assumption.
  - unfold same_keys in *. rewrite dkeys_dset_in; [exact H1|]. bools. rewrite forallb_forall in H0.
    apply mem_In, H0. by left.
  - exists "running". done.
  - destruct H5 as [(? & ? & ? & ? & ?)|H5]; [left; by split_and! | by right].
Qed.

Lemma mark_progress_ok s at_ : core_ok cfg s -> datetime_range at_ = true -> core_ok cfg (mark_progress s at_).
Proof.
  intros Hc Hat. destruct (k_lifecycle _ _ Hc) as (d & Hd & Hl), (k_scheduler _ _ Hc) as (sc & Hsc & Hs).
  unfold mark_progress, set_in. cbv zeta. fields. rewrite Hd, Hsc. cbn [dict_or_empty].
  destruct Hc. constructor; fields; auto with inv.
  - eexists. split; [reflexivity|]. reflexivity.
  - eexists. split; [reflexivity|]. by apply running_ok.
  - eexists. split; [reflexivity|]. destruct Hs. constructor; fields; auto with inv.
Qed.

Lemma totals_bump d key n : In key total_keys -> totals_ok d -> 0 <= n -> exists d', bump d key n = Ok d' /\ totals_ok d'.
Proof.
  intros Hk [H1 H2 H3] Hn. pose proof H1 as Hall. rewrite Forall_forall in Hall.
  destruct (bump_ok d key n (Hall key (proj2 (list_elem_of_In _ _) Hk))) as (m & Hm & ->). eexists. split; [reflexivity|].
  assert (Hp : nonneg (VInt (m + n)) = true) by (apply nonneg_int; lia). constructor.
  - apply Forall_forall. intros k Hin. rewrite vget_dset. destruct (k =s key); [exact Hp | by apply Hall].
  - destruct Hk as [<-|[<-|[<-|[]]]]; by fields.
  - destruct Hk as [<-|[<-|[<-|[]]]]; by fields.
Qed.

Lemma count_totals_ok s c : core_ok cfg s -> counts_ok c -> exists s', count_totals s c = Ok s' /\ core_ok cfg s'.
Proof.
  intros Hc (H1 & H2 & H3). unfold count_totals. destruct (k_totals _ _ Hc) as (d & Hd & Ht).
  rewrite (vindex_vget _ _ _ Hd) by discriminate. cbn [bind dict_or_empty].
  destruct (totals_bump d "accepted_observation_count" _ ltac:(by left) Ht H1) as (d1 & -> & Ht1). cbn [bind].
  destruct (totals_bump d1 "duplicate_observation_count" _ ltac:(by right; left) Ht1 H2) as (d2 & -> & Ht2). cbn [bind].
  destruct (totals_bump d2 "source_failure_count" _ ltac:(by right; right; left) Ht2 H3) as (d3 & -> & Ht3). cbn [bind].
  eexists. split; [reflexivity|]. destruct Hc. constructor; fields; try assumption. eauto.
Qed.

(** *** The canary *)

Lemma stages_fields a b c key :
  vget (dict_or_empty (stages_of a b c)) key =
  if key =s "serialization_round_trip_passed" then VBool a
  else if key =s "signal_detection_passed" then VBool b
  else if key =s "policy_no_action_passed" then VBool c else VNone.
Proof. unfold vget. cbn [dict_or_empty stages_of dget]. repeat (destruct (key =s _); [reflexivity|]). reflexivity. Qed.

Lemma probe_result_ok probe : exists a b c,
  (probe_result probe).2 = stages_of a b c /\ ((probe_result probe).1 = true -> a && b && c = true).
Proof.
  unfold probe_result. destruct probe as [v|]; [|by exists false, false, false].
  destruct v as [|bo| | | | | |d]; cbn [fst snd]; try (eexists _, _, _; split; [reflexivity | discriminate]).
  - exists bo, bo, bo. destruct bo; done.
  - eexists _, _, _. split; [reflexivity|]. intros H. by apply andb_true_iff in H as [H _].
Qed.

Lemma run_canary_ok s at_ probe : core_ok cfg s -> datetime_range at_ = true ->
  exists s', _run_canary s at_ probe = Ok s' /\ core_ok cfg s'.
Proof.
  intros Hc Hat. unfold _run_canary. destruct (k_canary _ _ Hc) as (d & Hd & Hca).
  rewrite (vindex_vget _ _ _ Hd) by discriminate. cbn [bind dict_or_empty].
  destruct (probe_result_ok probe) as (a & b & c & Hst & Hp). destruct (probe_result probe) as [passed stages].
  cbn [fst snd] in Hst, Hp. subst stages. rewrite !dupdate_cons. cbn [dupdate fold_left].
  set (d1 := dset (dset (dset d _ _) _ _) _ _).
  assert (Hcount : nonneg (vget d1 (if passed then "success_count" else "failure_count")) = true).
  { unfold d1. destruct passed; fields; apply Hca. }
  destruct (bump_ok d1 _ 1 Hcount) as (m & Hm & ->). cbn [bind]. eexists. split; [reflexivity|].
  assert (Hpos : positive (VInt (m + 1)) = true) by (apply Z.ltb_lt; lia).
  assert (Hnn : nonneg (VInt (m + 1)) = true) by (apply nonneg_int; lia).
  assert (Hok : canary_ok (dset (dset d1 (if passed then "success_count" else "failure_count") (VInt (m + 1)))
                             "action_execution_count" (VInt 0))).
  { destruct Hca. unfold d1. destruct passed; constructor; fields; auto with inv.
    all: try (right; left; by split_and!); try (right; right; by split_and!).
    all: exists (dict_or_empty (stages_of a b c)); split_and!; try reflexivity; try discriminate.
    intros _. specialize (Hp eq_refl). destruct a, b, c; try discriminate Hp. reflexivity. }
  destruct Hc. constructor; fields; try assumption. eauto.
Qed.

Lemma canary_due_ok s : core_ok cfg s -> exists due, canary_due cfg s = Ok due.
Proof.
  intros Hc. unfold canary_due. destruct (k_canary _ _ Hc) as (d & Hd & _).
  rewrite (vget_or_vget _ _ _ _ Hd) by discriminate. cbn [bind]. destruct (is_none _); [eauto|].
  destruct (nonneg_some _ (k_cycles _ _ Hc)) as (n & Hn & _). rewrite (vindex_vget _ _ _ Hn) by discriminate.
  cbn [bind py_int]. eauto.
Qed.

(** *** The status *)

Lemma core_source_counts s : core_ok cfg s -> Forall source_counts (enabled_sources s).
Proof.
  intros Hc. unfold enabled_sources. destruct (k_sources _ _ Hc) as (h & -> & Hs).
  apply Forall_forall. intros source Hin. apply list_elem_of_omap in Hin as ([k v] & Hin & Hv). simpl in Hv.
  apply list_elem_of_In in Hin.
  destruct (sources_entries cfg h (ss_wf _ _ Hs) Hs _ Hin) as (src & d & _ & [= -> ->] & Hso).
  simpl in Hv. destruct (is_literal _ _); [|discriminate Hv]. injection Hv as ->.
  destruct (nonneg_some _ (so_failures _ _ _ Hso)) as (n & Hn & _).
  exists n, (mc_max_consecutive_failures cfg). split_and!; [exact Hn | apply Hso | apply stamp_parses, Hso].
Qed.

Lemma status_returns s now timeout stale : core_ok cfg s -> exists d, _status_from_state s now timeout stale = Ok d.
Proof.
  intros Hc. unfold _status_from_state. destruct (lifecycle_stopped s); [eauto|].
  destruct (sources_reasons_run now stale _ (core_source_counts s Hc)) as (reasons & -> & _).
  assert (Ha : exists age, heartbeat_age now (vget s "last_heartbeat_at") = Ok age).
  { destruct (k_heartbeat _ _ Hc) as [->|(us & Hus & ->)]; [by exists None|]. unfold heartbeat_age.
    rewrite parse_utc_timestamp by exact Hus. cbn [bind]. eauto. }
  destruct Ha as (age & ->). cbn [bind]. destruct (heartbeat_live _ _ _). eauto.
Qed.

Lemma set_status_ok s at_ d : core_ok cfg s -> vget s "lifecycle" = VDict d -> vget d "phase" = VStr "running" ->
  exists status, set_status cfg s at_ = Ok (dset s "status" status) /\ state_ok cfg (dset s "status" status).
Proof.
  intros Hc Hd Hp. unfold set_status.
  destruct (status_returns s at_ (mc_heartbeat_timeout_seconds cfg) (mc_data_stale_after_seconds cfg) Hc) as (st & ->).
  cbn [bind]. eexists. split; [reflexivity|]. split.
  - destruct Hc. constructor; fields; assumption.
  - exists d. fields. split; [exact Hd|]. eexists. split; [reflexivity|].
    destruct (truthy _); (split; [reflexivity|]); rewrite Hp; split; discriminate.
Qed.

(** *** The cycle *)

Lemma bump_vget d key n d' k : bump d key n = Ok d' -> k <> key -> vget d' k = vget d k.
Proof.
  unfold bump. intros H Hk. apply bind_ok in H as (v & _ & H). apply bind_ok in H as (z & _ & H).
  assert (E : dset d key (VInt (z + n)) = d') by exact (f_equal (from_ok []) H). rewrite <- E, vget_dset.
  destruct (eqs_spec k key); [done | reflexivity].
Qed.

Lemma count_totals_vget s c s' k : count_totals s c = Ok s' -> k <> "totals" -> vget s' k = vget s k.
Proof.
  unfold count_totals. intros H Hk. repeat (apply bind_ok in H as (? & _ & H)).
  assert (E : dset s "totals" (VDict x2) = s') by exact (f_equal (from_ok []) H). rewrite <- E, vget_dset.
  destruct (eqs_spec k "totals"); [done | reflexivity].
Qed.

Lemma run_canary_vget s at_ probe s' k : _run_canary s at_ probe = Ok s' -> k <> "canary" -> vget s' k = vget s k.
Proof.
  unfold _run_canary. intros H Hk. apply bind_ok in H as (c & _ & H). destruct (probe_result probe) as [passed stages].
  apply bind_ok in H as (c' & _ & H).
  assert (E : dset s "canary" (VDict (dset c' "action_execution_count" (VInt 0))) = s') by exact (f_equal (from_ok []) H).
  rewrite <- E, vget_dset. destruct (eqs_spec k "canary"); [done | reflexivity].
Qed.

(** The heartbeat was written at [at_] and the lifecycle is running. *)
Definition beats (s : dict) (at_ : Z) : Prop :=
  vget s "last_heartbeat_at" = VStr (utc_timestamp at_) /\
  exists d, vget s "lifecycle" = VDict d /\ vget d "phase" = VStr "running".

Lemma beats_same s s' at_ : (forall k, In k ["last_heartbeat_at"; "lifecycle"] -> vget s' k = vget s k) -> beats s at_ -> beats s' at_.
Proof. intros Hk [H (d & Hd & Hp)]. unfold beats. rewrite !Hk by (simpl; auto). eauto. Qed.

Lemma mark_progress_beats s at_ : beats (mark_progress s at_) at_.
Proof.
  unfold mark_progress, set_in, beats. cbv zeta. fields. split; [reflexivity|].
  eexists. split; [reflexivity|]. by fields.
Qed.

Lemma run_cycle_ok s at_ reads probe :
  core_ok cfg s -> datetime_range at_ = true -> reads_ok reads ->
  exists s' counts, _run_cycle cfg decode at_ reads probe s = Ok (s', counts) /\ state_ok cfg s' /\ beats s' at_ /\ counts_ok counts.
Proof.
  intros Hc Hat Hr. unfold _run_cycle.
  destruct (poll_sources_ok (mc_sources cfg) s at_ reads no_counts (incl_refl _) Hc Hat Hr) as (s1 & counts & -> & Hc1 & Hn).
  { unfold counts_ok. simpl. lia. }
  cbn [bind]. destruct (core_bump s1 "cycle_count" 1 ltac:(by left) Hc1 ltac:(lia)) as (s2 & -> & Hc2). cbn [bind]. cbv zeta.
  pose proof (mark_progress_ok s2 at_ Hc2 Hat) as Hc3. pose proof (mark_progress_beats s2 at_) as Hb3.
  destruct (count_totals_ok (mark_progress s2 at_) counts Hc3 Hn) as (s4 & E4 & Hc4). rewrite E4. cbn [bind].
  assert (Hb4 : beats s4 at_).
  { eapply beats_same; [|exact Hb3]. intros k [<-|[<-|[]]]; by apply (count_totals_vget _ _ _ _ E4). }
  destruct (canary_due_ok s4 Hc4) as (due & ->). cbn [bind].
  assert (H5 : exists s5, (if due then _run_canary s4 at_ probe else Ok s4) = Ok s5 /\ core_ok cfg s5 /\ beats s5 at_).
  { destruct due; [|eauto]. destruct (run_canary_ok s4 at_ probe Hc4 Hat) as (s5 & E5 & Hc5). exists s5.
    split_and!; [exact E5 | exact Hc5 |]. eapply beats_same; [|exact Hb4].
    intros k [<-|[<-|[]]]; by apply (run_canary_vget _ _ _ _ _ E5). }
  destruct H5 as (s5 & -> & Hc5 & Hb5). cbn [bind]. destruct Hb5 as [Hh (d & Hd & Hp)].
  destruct (set_status_ok s5 at_ d Hc5 Hd Hp) as (status & -> & Hs6). cbn [bind].
  eexists _, _. split; [reflexivity|]. split_and!; [exact Hs6 | | exact Hn].
  unfold beats. fields. split; [exact Hh | eauto].
Qed.

(** ** Scheduling and stopping *)

Lemma schedule_next_ok s anchor current tick : state_ok cfg s ->
  exists s' delay tick', _schedule_next cfg anchor current tick s = Ok (s', delay, tick') /\ state_ok cfg s' /\
    forall at_, beats s at_ -> beats s' at_.
Proof.
  intros [Hc Hst]. unfold _schedule_next. destruct (k_scheduler _ _ Hc) as (sc & Hsc & Hs).
  rewrite Hsc. cbn [dict_or_empty].
  assert (Hq : exists delay tick' missed, next_tick (inject_Z (mc_interval_seconds cfg)) anchor current tick = (delay, tick', missed) /\
            0 <= missed /\ Qle_bool 0 delay = true).
  { unfold next_tick. pose proof (cg_interval _ Hcfg) as Hi. set (i := inject_Z (mc_interval_seconds cfg)).
    set (deadline := (anchor + inject_Z tick * i)%Q). destruct (Qle_bool current deadline) eqn:El; cbn [negb].
    - eexists _, _, _. split; [reflexivity|]. split; [lia|]. destruct (Qle_bool 0 (deadline - current)) eqn:E; [exact E | reflexivity].
    - eexists _, _, _. split; [reflexivity|]. split.
      + assert (Hlt : (deadline < current)%Q).
        { apply Qnot_le_lt. intros H. apply Qle_bool_iff in H. congruence. }
        assert (H0 : (0 <= (current - deadline) / i)%Q).
        { apply Qle_shift_div_l; [unfold i, Qlt; simpl; lia|]. rewrite Qmult_0_l.
          apply Qlt_le_weak. by apply -> Qlt_minus_iff. }
        pose proof (Qfloor_resp_le _ _ H0) as Hf. change (Qfloor 0) with 0 in Hf. lia.
      + match goal with |- context [if Qle_bool 0 ?x then _ else _] => destruct (Qle_bool 0 x) eqn:E; [exact E | reflexivity] end. }
  destruct Hq as (delay & tick' & missed & -> & Hm & Hd).
  destruct (read_counter _ _ (sc_missed _ Hs)) as (n & Hn & _ & ->). cbn [bind].
  eexists _, _, _. split; [reflexivity|].
  assert (Hok : scheduler_ok (dset (dset sc "missed_tick_count" (VInt (n + missed))) "next_delay_seconds" (VFloat delay))).
  { destruct Hs. constructor; fields; [apply nonneg_int; lia | assumption | eauto]. }
  split; [split|].
  - destruct Hc. constructor; fields; try assumption. eauto.
  - fields. exact Hst.
  - intros at_. apply beats_same. intros k [<-|[<-|[]]]; by fields.
Qed.

Lemma no_delay_ok s : state_ok cfg s -> state_ok cfg (set_in s "scheduler" "next_delay_seconds" VNone) /\
  forall at_, beats s at_ -> beats (set_in s "scheduler" "next_delay_seconds" VNone) at_.
Proof.
  intros [Hc Hst]. unfold set_in. destruct (k_scheduler _ _ Hc) as (sc & Hsc & Hs). rewrite Hsc. cbn [dict_or_empty].
  split; [split|].
  - destruct Hc. constructor; fields; try assumption. eexists. split; [reflexivity|].
    destruct Hs. constructor; fields; auto.
  - fields. exact Hst.
  - intros at_. apply beats_same. intros k [<-|[<-|[]]]; by fields.
Qed.

Lemma same_keys_dset (d : dict) keys k v : same_keys d keys = true -> In k keys -> same_keys (dset d k v) keys = true.
Proof.
  intros H Hk. unfold same_keys in *. rewrite dkeys_dset_in; [exact H|]. bools.
  rewrite forallb_forall in H0. by apply mem_In, H0.
Qed.

Lemma stopped_ok s reason requested stopped :
  core_ok cfg s -> mem reason ["sigterm"; "sigint"] = true ->
  datetime_range requested = true -> datetime_range stopped = true ->
  exists s', stopped_state s reason requested stopped = Ok s' /\ state_ok cfg s' /\ lifecycle_stopped s' = true.
Proof.
  intros Hc Hr H1 H2. unfold stopped_state. destruct (k_lifecycle _ _ Hc) as (d & Hd & Hl). rewrite Hd.
  cbn [dict_or_empty].
  assert (Hcount : nonneg (vget d "graceful_stop_count") = true).
  { destruct (li_count _ Hl) as [(-> & _)|(n & _ & -> & Hn & _)]; apply nonneg_int; lia. }
  destruct (read_counter _ _ Hcount) as (n & Hn & _ & ->). cbn [bind].
  eexists. split; [reflexivity|]. unfold set_in, stop_lifecycle. fields.
  destruct (k_scheduler _ _ Hc) as (sc & Hsc & Hs). rewrite Hsc, !dupdate_cons. cbn [dupdate fold_left dict_or_empty].
  set (d' := dset (dset (dset (dset (dset d _ _) _ _) _ _) _ _) _ _).
  assert (Hphase : vget d' "phase" = VStr "stopped") by (unfold d'; by fields).
  assert (Hl' : lifecycle_ok d').
  { destruct Hl. unfold d'. constructor; fields; auto with inv.
    - repeat apply same_keys_dset; try assumption; simpl; tauto.
    - exists "stopped". done.
    - right. exists (n + 1), reason. fields. split_and!; done || lia. }
  split; [split|].
  - destruct Hc. constructor; fields; try assumption; eauto.
    eexists. split; [reflexivity|]. destruct Hs. constructor; fields; auto.
  - exists d'. fields. split; [reflexivity|]. exists "stopped". rewrite Hphase. done.
  - unfold lifecycle_stopped. fields. by rewrite Hphase.
Qed.

(** ** Writing and reading back *)

Lemma vget_signed s k : k <> "state_hash" -> vget (signed_state s) k = vget s k.
Proof.
  intros Hk. unfold signed_state, unsigned_state, vget.
  assert (E : forall (d : dict) v, dget (d ++ [("state_hash", v)]) k = dget d k).
  { intros d v. induction d as [|[k' v'] d IH]; simpl; [by destruct (eqs_spec k "state_hash")|]. by rewrite IH. }
  rewrite E, dget_dwithout. cbn [mem existsb]. destruct (eqs_spec k "state_hash"); [done | reflexivity].
Qed.

Lemma signed_ok s : state_ok cfg s -> state_ok cfg (signed_state s).
Proof.
  intros [Hc (d & Hd & Hs)]. split.
  - destruct Hc. constructor; rewrite ?vget_signed by discriminate; assumption.
  - exists d. rewrite !vget_signed by discriminate. auto.
Qed.

Lemma dwithout_idem ks (d : dict) : dwithout ks (dwithout ks d) = dwithout ks d.
Proof.
  unfold dwithout. induction d as [|kv d IH]; simpl; [done|].
  destruct (negb (mem kv.1 ks)) eqn:E; [|exact IH]. simpl. by rewrite E, IH.
Qed.

Lemma unsigned_signed s : unsigned_state (signed_state s) = unsigned_state s.
Proof.
  unfold signed_state, unsigned_state. rewrite <- (dwithout_idem ["state_hash"] s) at 3.
  generalize (dwithout ["state_hash"] s). intros d. unfold dwithout. rewrite List.filter_app.
  cbn [List.filter fst mem existsb negb]. change ("state_hash" =s "state_hash") with true. apply app_nil_r.
Qed.

Lemma signed_signed s : signed_state (signed_state s) = signed_state s.
Proof. unfold signed_state at 1. by rewrite unsigned_signed. Qed.

(** The file a state is persisted to. *)
Definition state_file (s : dict) : file := written_file (VDict (signed_state s)).

(** What reading a persisted state comes to: its schema and its hash hold. *)
Lemma state_file_loads s :
  vget s "schema_version" = VStr STATE_SCHEMA_VERSION -> f_size (state_file s) <= MAX_STATE_BYTES ->
  load_monitor_state (Some (state_file s)) =
  (let! _ := validate_monitor_state (dict_image (signed_state s)) in Ok (dict_image (signed_state s))).
Proof.
  intros Hschema Hsize.
  unfold load_monitor_state, read_state_file, state_file, written_file. cbn [f_kind f_value]. unfold state_file, written_file in Hsize.
  rewrite (proj2 (Z.ltb_ge _ _) Hsize). cbn [bind]. rewrite json_image_dict.
  rewrite (vget_image (signed_state s) "schema_version"), vget_signed, Hschema by discriminate.
  change (py_eq (json_image (VStr STATE_SCHEMA_VERSION)) (VStr STATE_SCHEMA_VERSION)) with true.
  cbn [st_ensure ensure bind].
  assert (Hh : vget (dict_image (signed_state s)) "state_hash" = VStr (stable_hash (VDict (unsigned_state s)))).
  { rewrite vget_image. unfold signed_state, vget.
    assert (E : dget (unsigned_state s ++ [("state_hash", VStr (stable_hash (VDict (unsigned_state s))))]) "state_hash" =
                Some (VStr (stable_hash (VDict (unsigned_state s))))); [|by rewrite E].
    apply dget_snoc. unfold unsigned_state. by rewrite dget_dwithout. }
  rewrite Hh. unfold unsigned_state at 2. rewrite stable_hash_without_image.
  change (dwithout ["state_hash"] (signed_state s)) with (unsigned_state (signed_state s)). rewrite unsigned_signed.
  rewrite (proj2 (py_eq_str _ _) eq_refl). reflexivity.
Qed.

(** A persisted checkpoint of at most the readable size loads back. *)
Lemma state_loads s :
  state_ok cfg s -> f_size (state_file s) <= MAX_STATE_BYTES ->
  load_monitor_state (Some (state_file s)) = Ok (dict_image (signed_state s)) /\ state_ok cfg (dict_image (signed_state s)).
Proof.
  intros Hs Hsize. pose proof (state_image cfg _ (signed_ok s Hs)) as Hi. split; [|exact Hi].
  rewrite state_file_loads; [|apply Hs | exact Hsize]. by rewrite (state_validates cfg _ Hcfg Hi).
Qed.

(** ** Two checkpoints the code does not survive *)

(** A status that cannot be hashed raises a [TypeError] out of the watchdog,
    whose handler knows only [P131StateError]. *)
Lemma unhashable_status_raises s l now timeout :
  state_ok cfg s -> f_size (state_file (dset s "status" (VList l))) <= MAX_STATE_BYTES ->
  evaluate_watchdog (Some (state_file (dset s "status" (VList l)))) now timeout = Raise (Exn "TypeError" "unhashable type").
Proof.
  intros Hs Hsize. unfold evaluate_watchdog.
  assert (Hc : core_ok cfg (dset s "status" (VList l))) by (destruct Hs as [[] _]; constructor; fields; assumption).
  assert (Hi : core_ok cfg (dict_image (signed_state (dset s "status" (VList l))))).
  { apply core_image. destruct Hc. constructor; rewrite ?vget_signed by discriminate; assumption. }
  rewrite state_file_loads; [|apply Hc | exact Hsize]. unfold validate_monitor_state.
  rewrite (boundary_ok cfg _ Hi). cbn [bind]. unfold _validate_checkpoint_shape.
  rewrite (k_runtime _ _ Hi), (k_config _ _ Hi), !text_ok by apply Hcfg.
  rewrite vget_image, vget_signed by discriminate. fields. reflexivity.
Qed.

(** A null lifecycle is kept by loading and turned by a cycle into one that
    no longer validates. *)
Lemma null_lifecycle_is_spoiled s at_ status :
  vget s "lifecycle" = VNone -> py_eq status (VStr "stopped") = false ->
  validate_lifecycle status (vget s "lifecycle") = Ok tt /\
  validate_lifecycle status (vget (mark_progress s at_) "lifecycle") = Raise (P131StateError "invalid_lifecycle_state").
Proof.
  intros Hn Hs. rewrite Hn. split; [cbn [validate_lifecycle]; by rewrite Hs|].
  unfold mark_progress, set_in. cbv zeta. fields. rewrite Hn. reflexivity.
Qed.
End Steps.
