(* ===== verification/P131MonitorProps.v ===== *)
(** * The monitor's checkpoint always loads

    Every checkpoint a run of the monitor leaves on disk loads, is accepted
    by the next run, and is judged healthy by the watchdog until its
    heartbeat is older than the timeout, whatever the sources, the probe, the
    disk and the stop requests do. *)

From S2P Require Import Prelude PyValue Sha Json JsonFile PyTime P121Authority PyChecks P131State P131Monitor P131MonitorInv.
From S2P Require Import P131MonitorOps P131StateProps P131MonitorSteps.

#[local] Opaque stable_hash utc_timestamp read_utc.

Section Run.
Context (cfg : MonitorConfig) (decode : string -> option val) (Hcfg : config_ok cfg).

(** ** Writing *)

(** The state file is absent or a persisted checkpoint. *)
Definition world_ok (w : world) : Prop :=
  w_state w = None \/ exists s, w_state w = Some (state_file s) /\ state_ok cfg s.

(** [s] is the state in memory and what is on disk. *)
Definition saved (s : dict) (w : world) : Prop := w_state w = Some (state_file s) /\ state_ok cfg s.

Lemma saved_ok s w : saved s w -> world_ok w.
Proof. right. eauto. Qed.

Lemma saved_same s w w' : w_state w' = w_state w -> saved s w -> saved s w'.
Proof. intros E [H1 H2]. split; [by rewrite E | done]. Qed.

Lemma world_same w w' : w_state w' = w_state w -> world_ok w -> world_ok w'.
Proof. unfold world_ok. by intros ->. Qed.

Lemma signed_saved s w : w_state w = Some (state_file s) -> state_ok cfg s -> saved (signed_state s) w.
Proof. intros H Hs. split; [|by apply signed_ok]. unfold state_file. by rewrite signed_signed. Qed.

Lemma signed_beats s at_ : beats s at_ -> beats (signed_state s) at_.
Proof. apply beats_same. intros k [<-|[<-|[]]]; by apply vget_signed. Qed.

Lemma persist_ok we s w r w' :
  state_ok cfg s -> world_ok w -> _persist_state cfg we s w = (r, w') ->
  world_ok w' /\ forall s', r = Ok s' -> s' = signed_state s /\ saved s' w'.
Proof.
  intros Hs Hw. unfold _persist_state. rewrite (boundary_ok cfg s (proj1 Hs)).
  assert (Hput : forall w', w_state w' = Some (state_file s) -> world_ok w' /\ saved (signed_state s) w').
  { intros w1 H. split; [right; eauto | by apply signed_saved]. }
  unfold write_json. destruct (_ensure_artifact_space _ _ _) as [[]|e]; cbn [bind].
  2:{ intros [= <- <-]. split; [exact Hw | discriminate]. }
  destruct (we_outcome we) as [|e|]; cbn [bind]; intros [= <- <-].
  - match goal with |- world_ok ?x /\ _ => destruct (Hput x eq_refl) as [H1 H2] end. split; [exact H1|].
    intros s' H. assert (E : s' = signed_state s) by exact (f_equal (from_ok []) (eq_sym H)). rewrite E. auto.
  - split; [exact Hw | discriminate].
  - match goal with |- world_ok ?x /\ _ => destruct (Hput x eq_refl) as [H1 _] end. split; [exact H1 | discriminate].
Qed.

(** ** Reports *)

Lemma set_report_ok s at_ bucket : state_ok cfg s -> datetime_range at_ = true ->
  let s' := dset (dset s "last_report_at" (VStr (utc_timestamp at_))) "last_report_bucket" (VInt bucket) in
  state_ok cfg s' /\ forall t, beats s t -> beats s' t.
Proof.
  intros [Hc Hst] Hat s'. unfold s'. split; [split|].
  - destruct Hc. constructor; fields; auto with inv.
  - fields. exact Hst.
  - intros t. apply beats_same. intros k [<-|[<-|[]]]; by fields.
Qed.

(** A report leaves the state saved, the report written or not. *)
Lemma report_ok re s w r w' :
  saved s w -> datetime_range (re_now re) = true -> _write_report_if_due cfg re s w = (r, w') ->
  world_ok w' /\ forall s', r = Ok s' -> saved s' w' /\ forall t, beats s t -> beats s' t.
Proof.
  intros Hs Hre. unfold _write_report_if_due. destruct (py_eq _ _).
  { destruct (_prepare_report_capacity _ _ _ _) as [r0 reports]. destruct r0 as [[]|e]; cbn [bind]; intros [= <- <-];
      (split; [by eapply world_same; [|eapply saved_ok; exact Hs]|]); [|discriminate].
    intros s' H. assert (s' = s) as -> by exact (f_equal (from_ok []) (eq_sym H)).
    split; [by eapply saved_same; [|exact Hs] | auto]. }
  destruct (_status_from_state _ _ _ _) as [status|e].
  2:{ intros [= <- <-]. split; [by eapply saved_ok | discriminate]. }
  destruct (_prepare_report_capacity _ _ _ _) as [[[]|e] reports].
  2:{ intros [= <- <-]. split; [by eapply world_same; [|eapply saved_ok; exact Hs] | discriminate]. }
  destruct (write_json _ _ _) as [r0 placed].
  match goal with |- context [match r0 with Ok _ => _persist_state cfg _ _ ?x | Raise e => _ end] => set (w1 := x) end.
  assert (Hw1 : w_state w1 = w_state w) by (unfold w1; by destruct placed).
  destruct r0 as [[]|e].
  2:{ intros [= <- <-]. split; [by eapply world_same; [exact Hw1|]; eapply saved_ok; exact Hs | discriminate]. }
  intros Hp. destruct (set_report_ok s (re_now re) (report_bucket cfg (re_now re)) (proj2 Hs) Hre) as [Hs' Hb].
  destruct (persist_ok _ _ _ _ _ Hs' (world_same _ _ Hw1 (saved_ok _ _ Hs)) Hp) as [Hw' Hr]. split; [exact Hw'|].
  intros s' ->. destruct (Hr s' eq_refl) as [-> Hsaved]. split; [exact Hsaved|].
  intros t Ht. by apply signed_beats, Hb.
Qed.

(** ** Turns *)

Record turn_timely (te : turn_env) : Prop := {
  ti_observed : datetime_range (te_observed_at te) = true;
  ti_report : datetime_range (re_now (te_report te)) = true;
  ti_requested : datetime_range (se_requested_at (te_stop_env te)) = true;
  ti_stopped : datetime_range (se_stopped_at (te_stop_env te)) = true;
  ti_reads : reads_ok (te_reads te);
}.

(** The state in memory at the end of a turn. *)
Definition result_state (r : turn_result) : dict := match r with Continue l | Finished l _ => l_state l end.

(** Did the turn end in a stop request? *)
Definition was_stopped (r : turn_result) : bool := match r with Finished _ (Some _) => true | _ => false end.

Lemma stop_now_ok te reason l w r w' :
  turn_timely te -> state_ok cfg (l_state l) -> world_ok w -> stop_now cfg te reason l w = (r, w') ->
  world_ok w' /\ forall t, r = Ok t -> was_stopped t = true /\ saved (result_state t) w' /\ lifecycle_stopped (result_state t) = true.
Proof.
  intros Hte Hs Hw. unfold stop_now, _graceful_stop. destruct (mem reason _) eqn:Hr; cbn [negb].
  2:{ cbn [bind]. intros [= <- <-]. split; [exact Hw | discriminate]. }
  destruct (stopped_ok cfg decode (l_state l) reason _ _ (proj1 Hs) Hr (ti_requested _ Hte) (ti_stopped _ Hte)) as (s1 & -> & Hs1 & Hstop).
  destruct (_persist_state cfg (se_state_write (te_stop_env te)) s1 w) as [r1 w1] eqn:Hp.
  destruct (persist_ok _ _ _ _ _ Hs1 Hw Hp) as [Hw1 H1]. destruct r1 as [s2|e]; cbn [bind].
  2:{ intros [= <- <-]. split; [exact Hw1 | discriminate]. }
  destruct (H1 s2 eq_refl) as [-> Hsaved]. destruct (write_json _ _ _) as [r2 placed].
  match goal with |- context [(_, if placed then ?x else w1)] => set (w2 := if placed then x else w1) end.
  assert (E2 : w_state w2 = w_state w1) by (unfold w2; by destruct placed).
  assert (Hw2 : saved (signed_state s1) w2) by (by eapply saved_same; [exact E2|]).
  destruct r2 as [[]|e]; cbn [bind]; intros [= <- <-].
  - split; [by eapply saved_ok|]. intros t H. injection H as <-. cbn [was_stopped result_state with_state l_state].
    split_and!; [reflexivity | exact Hw2 |]. unfold lifecycle_stopped in *. rewrite vget_signed by discriminate. exact Hstop.
  - split; [by eapply saved_ok | discriminate].
Qed.

Context (max_cycles : option Z) (sleep_enabled : bool) (anchor : Q).

(** The cycle of a turn always returns. *)
Lemma turn_cycle_ok te l :
  turn_timely te -> state_ok cfg (l_state l) ->
  exists l', turn_cycle cfg decode max_cycles sleep_enabled anchor te l = Ok l' /\
    state_ok cfg (l_state l') /\ beats (l_state l') (te_observed_at te).
Proof.
  intros Hte Hs. unfold turn_cycle.
  destruct (run_cycle_ok cfg decode Hcfg (l_state l) (te_observed_at te) (te_reads te) (te_probe te)
              (proj1 Hs) (ti_observed _ Hte) (ti_reads _ Hte)) as (s1 & counts & -> & Hs1 & Hb & _).
  cbn [bind]. unfold schedule. cbn [l_cycles l_state l_tick l_counts].
  destruct (negb _ && sleep_enabled).
  - destruct (schedule_next_ok cfg Hcfg s1 anchor (te_monotonic te) (l_tick l) Hs1) as (s2 & delay & tick & -> & Hs2 & Hb2).
    cbn [bind]. eexists. split; [reflexivity|]. cbn [l_state]. auto.
  - destruct (is_final _ _); [|eauto]. destruct (no_delay_ok cfg s1 Hs1) as [Hs2 Hb2]. eexists. split; [reflexivity|].
    cbn [l_state]. auto.
Qed.

Lemma turn_ok te l w r w' :
  turn_timely te -> state_ok cfg (l_state l) -> world_ok w ->
  turn cfg decode max_cycles sleep_enabled anchor te l w = (r, w') ->
  world_ok w' /\
  forall t, r = Ok t -> saved (result_state t) w' /\
    if was_stopped t then lifecycle_stopped (result_state t) = true
    else beats (result_state t) (te_observed_at te).
Proof.
  intros Hte Hs Hw. unfold turn.
  assert (Hstop : forall reason l w r w', state_ok cfg (l_state l) -> world_ok w -> stop_now cfg te reason l w = (r, w') ->
    world_ok w' /\ forall t, r = Ok t -> saved (result_state t) w' /\
      if was_stopped t then lifecycle_stopped (result_state t) = true
      else beats (result_state t) (te_observed_at te)).
  { intros reason l0 w0 r0 w0' Hl0 Hw0 H. destruct (stop_now_ok te reason l0 w0 r0 w0' Hte Hl0 Hw0 H) as [H1 H2].
    split; [exact H1|]. intros t Ht. destruct (H2 t Ht) as (-> & ? & ?). auto. }
  destruct (te_stop te) as [reason|]; [by apply Hstop|].
  destruct (turn_cycle_ok te l Hte Hs) as (l1 & -> & Hs1 & Hb1).
  destruct (_persist_state cfg (te_state_write te) (l_state l1) w) as [r2 w2] eqn:E2.
  destruct (persist_ok _ _ _ _ _ Hs1 Hw E2) as [Hw2 H2].
  destruct r2 as [s2|e]; [|intros [= <- <-]; split; [exact Hw2 | discriminate]].
  destruct (H2 s2 eq_refl) as [-> Hsaved2].
  destruct (_write_report_if_due cfg (te_report te) (signed_state (l_state l1)) w2) as [r3 w3] eqn:E3.
  destruct (report_ok _ _ _ _ _ Hsaved2 (ti_report _ Hte) E3) as [Hw3 H3].
  destruct r3 as [s3|e]; [|intros [= <- <-]; split; [exact Hw3 | discriminate]].
  destruct (H3 s3 eq_refl) as [Hsaved3 Hb3]. specialize (Hb3 _ (signed_beats _ _ Hb1)).
  assert (Hok : forall t, result_state t = s3 -> was_stopped t = false ->
    (Ok t, w3) = (r, w') -> world_ok w' /\ forall t', r = Ok t' -> saved (result_state t') w' /\
      if was_stopped t' then lifecycle_stopped (result_state t') = true else beats (result_state t') (te_observed_at te)).
  { intros t Et Hst [= <- <-]. split; [exact Hw3|]. intros t' [= <-]. by rewrite Hst, Et. }
  destruct (is_final _ _); [by apply Hok|]. unfold after_cycle. destruct (sleep_enabled && te_wait te); [|by apply Hok].
  destruct (te_stop_waiting te) as [reason|]; [by apply Hstop; [apply Hsaved3|]|].
  intros [= <- <-]. split; [exact Hw3 | discriminate].
Qed.

Lemma turns_ok tes l w r w' :
  Forall turn_timely tes -> state_ok cfg (l_state l) -> world_ok w ->
  turns cfg decode max_cycles sleep_enabled anchor tes l w = (r, w') -> world_ok w'.
Proof.
  intros Htes. revert l w. induction Htes as [|te tes Hte _ IH]; intros l w Hs Hw; cbn [turns].
  { by intros [= <- <-]. }
  destruct (turn cfg decode max_cycles sleep_enabled anchor te l w) as [r1 w1] eqn:E.
  destruct (turn_ok te l w r1 w1 Hte Hs Hw E) as [Hw1 H1].
  destruct r1 as [[l1|l1 reason]|e]; [|by intros [= <- <-]..].
  apply IH; [|exact Hw1]. apply (proj2 (proj1 (H1 _ eq_refl))).
Qed.

(** ** Entering *)

Lemma initial_source_ok source : source_ok cfg source (dict_or_empty (new_source_health cfg source)).
Proof. constructor; auto with inv. Qed.

Lemma initial_sources_ok : sources_ok cfg (map (fun source => (src_id source, new_source_health cfg source)) (mc_sources cfg)).
Proof.
  assert (Hk : dkeys (map (fun source => (src_id source, new_source_health cfg source)) (mc_sources cfg)) = map src_id (mc_sources cfg)).
  { unfold dkeys. by rewrite map_map. }
  assert (Hwf : dict_wf (map (fun source => (src_id source, new_source_health cfg source)) (mc_sources cfg))).
  { unfold dict_wf. rewrite Hk. apply Hcfg. }
  constructor; [| exact Hwf |].
  - unfold same_keys. rewrite Hk. apply andb_true_iff. split; apply forallb_forall; intros k Hin; by apply mem_In.
  - apply Forall_forall. intros source Hin. apply list_elem_of_In in Hin.
    exists (dict_or_empty (new_source_health cfg source)). split; [|apply initial_source_ok].
    apply vget_some, In_dget; [exact Hwf|]. apply in_map_iff. by exists source.
Qed.

Lemma initial_ok now : datetime_range now = true -> state_ok cfg (initial_state cfg now).
Proof.
  intros Hnow. split.
  - constructor; try reflexivity; try (apply stamp_none || by apply stamp_at); try (eexists; split; [reflexivity|]).
    + by left.
    + reflexivity.
    + constructor; [reflexivity | by exists "starting" | apply stamp_none.. | left; by split_and!].
    + constructor; [reflexivity | apply stamp_none | by left].
    + constructor; try reflexivity. repeat (constructor; [reflexivity|]). constructor.
    + constructor; [| apply stamp_none | reflexivity.. | left; by split_and!].
      eexists. split; [reflexivity|]. split_and!; reflexivity || discriminate.
    + split; [done | reflexivity].
    + apply initial_sources_ok.
  - eexists. split; [reflexivity|]. exists "starting". split_and!; try reflexivity. split; discriminate.
Qed.

(** A run enters on any world the monitor leaves, unless its checkpoint has
    outgrown the readable size. *)
Lemma enter_ok now w : datetime_range now = true -> world_ok w ->
  (forall f, w_state w = Some f -> f_size f <= MAX_STATE_BYTES) ->
  exists l, enter cfg now w = Ok l /\ state_ok cfg (l_state l).
Proof.
  intros Hnow [Hw|(s & Hw & Hs)] Hsize; unfold enter; rewrite Hw; cbn [_load_or_initialize_state bind].
  - eexists. split; [reflexivity|]. by apply initial_ok.
  - destruct (state_loads cfg Hcfg s Hs (Hsize _ Hw)) as [Hl Hi]. rewrite Hl. cbn [bind].
    rewrite (k_runtime _ _ (proj1 Hi)), (k_config _ _ (proj1 Hi)), !(proj2 (py_eq_str _ _) eq_refl).
    cbn [st_ensure ensure bind]. rewrite (configured_ok cfg _ (proj1 Hi)). cbn [bind].
    assert (Hm : dmem "lifecycle" (dict_image (signed_state s)) = true).
    { destruct (k_lifecycle _ _ (proj1 Hi)) as (d & Hd & _). apply mem_In, vget_in. by rewrite Hd. }
    rewrite Hm. destruct Hi as [Hc Hst].
    destruct (core_bump cfg (dict_image (signed_state s)) "resume_count" 1 ltac:(by right; left) Hc ltac:(lia)) as (s' & Eb & Hc').
    rewrite Eb. cbn [bind]. eexists. split; [reflexivity|]. split; [exact Hc'|]. cbn [l_state].
    by rewrite !(bump_vget _ _ _ _ _ Eb) by discriminate.
Qed.

(** Entering fails or gives a state that satisfies the invariant. *)
Lemma enter_cases now w l : datetime_range now = true -> world_ok w -> enter cfg now w = Ok l -> state_ok cfg (l_state l).
Proof.
  intros Hnow Hw He.
  assert (Hsize : forall f, w_state w = Some f -> f_size f <= MAX_STATE_BYTES).
  { intros f Hf. unfold enter in He. rewrite Hf in He. cbn [_load_or_initialize_state] in He.
    apply bind_ok in He as (s & He & _). apply bind_ok in He as (s' & He & _). unfold load_monitor_state, read_state_file in He.
    destruct (f_kind f), (f_value f); try discriminate He; destruct (Z.ltb_spec MAX_STATE_BYTES (f_size f)); (discriminate He || done). }
  destruct (enter_ok now w Hnow Hw Hsize) as (l' & Hl & Hs). rewrite Hl in He. by injection He as <-.
Qed.

Lemma run_ok wait_given now tes w r w' :
  datetime_range now = true -> Forall turn_timely tes -> world_ok w ->
  run cfg decode max_cycles sleep_enabled anchor wait_given now tes w = (r, w') -> world_ok w'.
Proof.
  intros Hnow Htes Hw. unfold run. destruct (let! _ := _ in _) as [l|e] eqn:E; [|by intros [= <- <-]].
  apply bind_ok in E as (? & _ & E). apply turns_ok; [done | by eapply enter_cases | done].
Qed.
End Run.

(** ** What a run leaves *)

(** The worlds the runs of a configuration can leave, from any world without
    a checkpoint. *)
Inductive reachable (cfg : MonitorConfig) (decode : string -> option val) : world -> Prop :=
  | reach_start w : w_state w = None -> reachable cfg decode w
  | reach_run max_cycles sleep_enabled anchor wait_given now tes w r w' :
      reachable cfg decode w -> datetime_range now = true -> Forall turn_timely tes ->
      run cfg decode max_cycles sleep_enabled anchor wait_given now tes w = (r, w') -> reachable cfg decode w'.

Lemma reachable_ok cfg decode w : config_ok cfg -> reachable cfg decode w -> world_ok cfg w.
Proof.
  intros Hcfg. induction 1 as [w Hw|max_cycles sleep_enabled anchor wait_given now tes w r w' _ IH Hnow Htes Hrun]; [by left|].
  by eapply run_ok.
Qed.

(** C8: every checkpoint the monitor leaves on disk loads, and the next run
    starts from it.  After any runs, interrupted by any write errors or stop
    requests, whatever the sources and the probe gave, the state file is
    absent or a checkpoint of this configuration that passes every check of
    [load_monitor_state], as long as it is not larger than the size that is
    read back; and the next run enters its loop. *)
Theorem monitor_checkpoint_always_loads cfg decode w :
  config_ok cfg -> reachable cfg decode w ->
  w_state w = None \/
  exists f, w_state w = Some f /\
    (f_size f <= MAX_STATE_BYTES ->
     exists state, load_monitor_state (Some f) = Ok state /\
       vget state "runtime_id" = VStr (mc_runtime_id cfg) /\ vget state "config_hash" = VStr (mc_config_hash cfg) /\
       forall now, datetime_range now = true -> exists l, enter cfg now w = Ok l).
Proof.
  intros Hcfg Hw. destruct (reachable_ok cfg decode w Hcfg Hw) as [Hn|(s & Hf & Hs)]; [by left|]. right.
  exists (state_file s). split; [exact Hf|]. intros Hsize. destruct (state_loads cfg Hcfg s Hs Hsize) as [Hl Hi].
  exists (dict_image (signed_state s)). split; [exact Hl|]. split; [apply Hi|]. split; [apply Hi|]. intros now Hnow.
  destruct (enter_ok cfg Hcfg now w Hnow) as (l & Hl' & _); [right; eauto | | eauto].
  intros f Hf'. rewrite Hf in Hf'. by injection Hf' as <-.
Qed.

Lemma beats_read s at_ : datetime_range at_ = true -> beats s at_ ->
  _parse_timestamp (vget (dict_image (signed_state s)) "last_heartbeat_at") = Ok at_ /\
  lifecycle_stopped (dict_image (signed_state s)) = false.
Proof.
  intros Hat [Hb (d & Hd & Hp)]. unfold lifecycle_stopped. rewrite !vget_image, !vget_signed by discriminate.
  rewrite Hb, Hd. split; [by apply parse_utc_timestamp|]. rewrite json_image_dict, vget_image, Hp. reflexivity.
Qed.

Lemma watchdog_too_large f now timeout : MAX_STATE_BYTES < f_size f ->
  exists d, evaluate_watchdog (Some f) now timeout = Ok d /\ vget d "healthy" = VBool false /\ vget d "reason" = VStr "state_invalid".
Proof.
  intros H. unfold evaluate_watchdog, load_monitor_state, read_state_file.
  apply Z.ltb_lt in H. destruct (f_kind f), (f_value f); rewrite ?H; eexists; by split_and!.
Qed.

(** C37: the watchdog tells the monitor's life from its checkpoint.  Let a turn
    return, for an accepted configuration and times that can be written, from
    a state and a state file that satisfy the invariants every run keeps.  It
    leaves a state file.  When the file is at most one megabyte, a watchdog at
    any later or earlier time says healthy exactly when the turn's observation
    time is at most the timeout old and at most five seconds ahead, and after
    a turn that ended in a stop request it says [runtime_stopped].  When the
    file is larger, which the monitor does not prevent, the watchdog says
    [state_invalid] at any time. *)
Theorem watchdog_follows_the_turns cfg decode max_cycles sleep_enabled anchor te l w t w' :
  config_ok cfg -> turn_timely te -> state_ok cfg (l_state l) -> world_ok cfg w ->
  turn cfg decode max_cycles sleep_enabled anchor te l w = (Ok t, w') ->
  exists f, w_state w' = Some f /\
    (f_size f <= MAX_STATE_BYTES -> forall now timeout, exists d, evaluate_watchdog (w_state w') now timeout = Ok d /\
       if was_stopped t then vget d "reason" = VStr "runtime_stopped"
       else vget d "healthy" = VBool (within now (te_observed_at te) timeout)) /\
    (MAX_STATE_BYTES < f_size f -> forall now timeout, exists d, evaluate_watchdog (w_state w') now timeout = Ok d /\
       vget d "healthy" = VBool false /\ vget d "reason" = VStr "state_invalid").
Proof.
  intros Hcfg Hte Hs Hw Hturn.
  destruct (turn_ok cfg decode Hcfg max_cycles sleep_enabled anchor te l w _ w' Hte Hs Hw Hturn) as [_ Ht].
  destruct (Ht t eq_refl) as [[Hf Hst] Hlife]. set (s := result_state t) in *.
  exists (state_file s). split; [exact Hf|]. split; intros Hsize now timeout; [|by rewrite Hf; apply watchdog_too_large].
  destruct (state_loads cfg Hcfg s Hst Hsize) as [Hload _].
  unfold evaluate_watchdog. rewrite Hf, Hload. destruct (was_stopped t).
  - assert (E : lifecycle_stopped (dict_image (signed_state s)) = true).
    { unfold lifecycle_stopped in *. rewrite vget_image, vget_signed by discriminate.
      destruct (vget s "lifecycle"); try discriminate Hlife. rewrite json_image_dict, vget_image.
      apply py_eq_str in Hlife. by rewrite Hlife. }
    rewrite E. eexists. split; reflexivity.
  - destruct (beats_read s _ (ti_observed _ Hte) Hlife) as [Hp Hl]. rewrite Hl.
    assert (Hstr : is_string (vget (dict_image (signed_state s)) "last_heartbeat_at") = true).
    { destruct (vget _ _); try discriminate Hp. reflexivity. }
    rewrite Hstr, Hp. cbn [negb bind]. rewrite total_seconds_skew, total_seconds_le. unfold within.
    destruct (-5000000 <=? _); cbn [negb andb]; eexists; (split; [reflexivity|]); reflexivity.
Qed.
