(* ===== verification/P131Witness.v ===== *)
(** * Concrete runs of the monitor

    A monitor with one enabled source that has two lines, one of them an
    observation, run for one turn; the theorems on the monitor and its
    watchdog applied to it. *)

From S2P Require Import Prelude PyValue Sha Json JsonFile PyTime P121Authority Deadman PyChecks P131State P131Monitor P131MonitorInv.
From S2P Require Import P131MonitorOps P131StateProps P131MonitorSteps P131MonitorProps P131Config.

Definition demo_source : LocalJsonlSource := {| src_id := "api"; src_path := "/var/log/api.jsonl"; src_enabled := true |}.

Definition demo_monitor : MonitorConfig := {|
  mc_config_hash := "sha256:c0"; mc_runtime_id := "runtime-a"; mc_interval_seconds := 60;
  mc_heartbeat_timeout_seconds := 180; mc_data_stale_after_seconds := 300;
  mc_daily_report_interval_seconds := 86400; mc_canary_every_cycles := 5; mc_max_consecutive_failures := 3;
  mc_max_bytes_per_cycle := 1048576; mc_max_records_per_cycle := 10000; mc_max_line_bytes := 65536;
  mc_max_report_files := 32; mc_max_report_dir_bytes := 10485760; mc_min_artifact_free_bytes := 0;
  mc_sources := [demo_source] |}.

Definition demo_line : string := "{}" +:+ nl.

Definition demo_decode (line : string) : option val :=
  if line =s demo_line then Some (VDict [("event_id", VStr "e-1")]) else None.

Definition demo_file : source_file := {| sf_identity := "1:2"; sf_bytes := demo_line +:+ "oops" +:+ nl +:+ "part" |}.

(** 2024-01-01T00:00:00 *)
Definition demo_now : Z := days_before_year 2024 * day_seconds * second.

Definition demo_write : write_env := {| we_free := 1000000000; we_outcome := Written |}.

Definition demo_turn : turn_env := {|
  te_stop := None; te_observed_at := demo_now; te_reads := fun _ => Some demo_file;
  te_probe := Some _default_canary_probe; te_monotonic := 100; te_state_write := demo_write;
  te_report := {| re_now := demo_now; re_report_write := demo_write; re_state_write := demo_write |};
  te_wait := false; te_stop_waiting := None;
  te_stop_env := {| se_requested_at := demo_now; se_stopped_at := demo_now;
                    se_state_write := demo_write; se_receipt_write := demo_write |} |}.

Definition empty_world : world := {| w_state := None; w_receipt := None; w_reports := [] |}.

Lemma demo_config_ok : config_ok demo_monitor.
Proof.
  constructor; try discriminate; try reflexivity.
  - constructor; [discriminate | constructor].
  - apply NoDup_singleton.
Qed.

Lemma demo_turn_timely : turn_timely demo_turn.
Proof. constructor; try (vm_compute; reflexivity). intros id f [= <-]. discriminate. Qed.

Definition demo_loop : loop := from_ok {| l_state := []; l_tick := 0; l_cycles := 0; l_counts := no_counts |}
  (enter demo_monitor demo_now empty_world).

Definition demo_result : res turn_result * world :=
  turn demo_monitor demo_decode (Some 1) true 100 demo_turn demo_loop empty_world.

(** The turn returns, was not stopped, and left a checkpoint that can be
    read. *)
Definition running (r : res turn_result * world) : bool :=
  let '(t, w) := r in
  match t with
  | Ok t => negb (was_stopped t) && match w_state w with Some f => f_size f <=? MAX_STATE_BYTES | None => false end
  | Raise _ => false
  end.

Lemma demo_runs : running demo_result = true.
Proof. vm_compute. reflexivity. Qed.

Definition demo_end : turn_result := from_ok (Continue demo_loop) demo_result.1.
Definition demo_world : world := demo_result.2.

Lemma running_split d r : running r = true ->
  r = (Ok (from_ok d r.1), r.2) /\ was_stopped (from_ok d r.1) = false /\
  forall f, w_state r.2 = Some f -> f_size f <= MAX_STATE_BYTES.
Proof.
  destruct r as [[t|e] w]; [|discriminate]. cbn [running fst snd from_ok]. intros H. bools.
  split; [reflexivity|]. split; [assumption|]. intros f Hf. rewrite Hf in *. by apply Z.leb_le.
Qed.

Lemma demo_turn_returns :
  turn demo_monitor demo_decode (Some 1) true 100 demo_turn demo_loop empty_world = (Ok demo_end, demo_world).
Proof.
  destruct (running_split (Continue demo_loop) demo_result demo_runs) as (H & _ & _).
  unfold demo_end, demo_world. rewrite <- H. unfold demo_result. reflexivity.
Qed.

Lemma demo_readable f : w_state demo_world = Some f -> f_size f <= MAX_STATE_BYTES.
Proof. exact (proj2 (proj2 (running_split (Continue demo_loop) demo_result demo_runs)) f). Qed.

Lemma demo_loop_ok : state_ok demo_monitor (l_state demo_loop).
Proof. exact (initial_ok demo_monitor demo_config_ok demo_now eq_refl). Qed.

(** What the turn left, as its lemmas tell. *)
Lemma turn_saves cfg decode max_cycles sleep_enabled anchor te l w t w' :
  config_ok cfg -> turn_timely te -> state_ok cfg (l_state l) -> world_ok cfg w ->
  turn cfg decode max_cycles sleep_enabled anchor te l w = (Ok t, w') -> saved cfg (result_state t) w'.
Proof.
  intros Hcfg Hte Hs Hw H.
  destruct (turn_ok cfg decode Hcfg max_cycles sleep_enabled anchor te l w (Ok t) w' Hte Hs Hw H) as [_ Ht].
  destruct (Ht t eq_refl). assumption.
Qed.

#[local] Opaque turn evaluate_watchdog load_monitor_state demo_end demo_world.

Lemma demo_saved : saved demo_monitor (result_state demo_end) demo_world.
Proof.
  exact (turn_saves demo_monitor demo_decode (Some 1) true 100 demo_turn demo_loop empty_world demo_end demo_world
    demo_config_ok demo_turn_timely demo_loop_ok (or_introl eq_refl) demo_turn_returns).
Qed.

(** One accepted observation, one failed line, and a partial line left. *)
Example demo_poll :
  option_map (fun t => (t_accepted t, t_failures t, t_rest t))
    (read_lines demo_monitor demo_decode 20 "api" "1:2" (start_tail demo_file 0 [])) = Some (1, 1, "part").
Proof. vm_compute. reflexivity. Qed.

Lemma poll_reads_whole_lines_once_witness :
  exists t, read_lines demo_monitor demo_decode (S (String.length (sf_bytes demo_file))) "api" "1:2" (start_tail demo_file 0 []) = Some t /\
    poll_result demo_monitor (start_tail demo_file 0 []) t.
Proof. apply (poll_reads_whole_lines_once demo_monitor demo_decode "api" "1:2" demo_file 0 []); discriminate. Defined.

Lemma run_one_turn cfg decode started te w l t w' :
  run_arguments (Some 1) true false = Ok tt -> enter cfg started w = Ok l ->
  turn cfg decode (Some 1) true 100 te l w = (Ok t, w') ->
  exists r, run cfg decode (Some 1) true 100 false started [te] w = (r, w').
Proof.
  intros Ha He Ht. unfold run. rewrite Ha. unfold bind. rewrite He. cbn [turns]. rewrite Ht.
  destruct t; eexists; reflexivity.
Qed.

Lemma demo_entered : enter demo_monitor demo_now empty_world = Ok demo_loop.
Proof. unfold demo_loop. apply from_ok_eq. reflexivity. Qed.

Lemma demo_run :
  exists r, run demo_monitor demo_decode (Some 1) true 100 false demo_now [demo_turn] empty_world = (r, demo_world).
Proof.
  exact (run_one_turn demo_monitor demo_decode demo_now demo_turn empty_world demo_loop demo_end demo_world
    eq_refl demo_entered demo_turn_returns).
Qed.

Lemma demo_reachable : reachable demo_monitor demo_decode demo_world.
Proof.
  destruct demo_run as (r & Hr).
  refine (reach_run demo_monitor demo_decode (Some 1) true 100 false demo_now [demo_turn] empty_world r demo_world _ _ _ Hr).
  - apply reach_start. reflexivity.
  - reflexivity.
  - constructor; [exact demo_turn_timely | constructor].
Qed.

Lemma monitor_checkpoint_always_loads_witness :
  w_state demo_world <> None /\
  (w_state demo_world = None \/
   exists f, w_state demo_world = Some f /\
     (f_size f <= MAX_STATE_BYTES ->
      exists state, load_monitor_state (Some f) = Ok state /\
        vget state "runtime_id" = VStr "runtime-a" /\ vget state "config_hash" = VStr "sha256:c0" /\
        forall now, datetime_range now = true -> exists l, enter demo_monitor now demo_world = Ok l)).
Proof.
  split; [rewrite (proj1 demo_saved); discriminate|].
  exact (monitor_checkpoint_always_loads demo_monitor demo_decode demo_world demo_config_ok demo_reachable).
Defined.

Lemma watchdog_follows_the_turns_witness :
  exists d, evaluate_watchdog (w_state demo_world) (demo_now + 60 * second) 180 = Ok d /\ vget d "healthy" = VBool true.
Proof.
  destruct (watchdog_follows_the_turns demo_monitor demo_decode (Some 1) true 100 demo_turn demo_loop empty_world demo_end demo_world
              demo_config_ok demo_turn_timely demo_loop_ok (or_introl eq_refl) demo_turn_returns) as (f & Hf & Hsmall & _).
  destruct (Hsmall (demo_readable f Hf) (demo_now + 60 * second) 180) as (d & Hd & Hh).
  exists d. split; [exact Hd|].
  rewrite (proj1 (proj2 (running_split (Continue demo_loop) demo_result demo_runs)) : was_stopped demo_end = false) in Hh.
  rewrite Hh. vm_compute. reflexivity.
Defined.

Definition demo_deadman : DeadmanConfig := {|
  config_hash := "c"; runtime_ref_hash := "r"; runtime_ref := "runtime-a"; check_interval_seconds := 60;
  heartbeat_timeout_seconds := 180; reminder_interval_seconds := 900; max_event_files := 10;
  max_outbox_bytes := 100000; max_event_bytes := 10000; min_artifact_free_bytes := 0 |}.

(** The watchdog answers on the checkpoint of the turn. *)
Lemma demo_verdict now timeout : exists d, evaluate_watchdog (w_state demo_world) now timeout = Ok d.
Proof.
  destruct (evaluate_watchdog (w_state demo_world) now timeout) as [d|e] eqn:E; [eauto|].
  apply watchdog_raises in E as [E _]. exfalso. destruct demo_saved as [Hw Hs]. rewrite Hw in E.
  destruct (state_loads demo_monitor demo_config_ok _ Hs (demo_readable _ Hw)) as [Hl _]. congruence.
Qed.

Lemma watchdog_verdict_is_understood_witness :
  exists d, evaluate_watchdog (w_state demo_world) (demo_now + 3600 * second) 180 = Ok d /\
  exists snapshot reason, normalize_watchdog_result demo_deadman (VDict d) = Ok snapshot /\
    vget snapshot "reason" = VStr reason /\ In reason NORMALIZED_REASONS /\ reason <> "watchdog_contract_invalid" /\
    vget snapshot "healthy" = vget d "healthy" /\
    (forall state, load_monitor_state (w_state demo_world) = Ok state -> vget d "reason" <> VStr "heartbeat_missing" ->
       vget snapshot "state_hash" = vget state "state_hash").
Proof.
  destruct (demo_verdict (demo_now + 3600 * second) 180) as (d & Hd). exists d. split; [exact Hd|].
  exact (watchdog_verdict_is_understood demo_deadman (w_state demo_world) (demo_now + 3600 * second) 180 d Hd).
Defined.

(** ** A configuration that loads *)

Definition demo_raw : val :=
  VDict [("schema_version", VStr "p131.monitor_config.v1"); ("runtime_id", VStr " runtime-a ");
         ("interval_seconds", VInt 60); ("heartbeat_timeout_seconds", VInt 180);
         ("data_stale_after_seconds", VInt 300); ("daily_report_interval_seconds", VInt 86400);
         ("canary_every_cycles", VInt 5); ("max_consecutive_failures", VInt 3);
         ("allowed_data_roots", VList [VStr "data"]);
         ("sources", VList [VDict [("source_id", VStr "api"); ("kind", VStr "local_jsonl"); ("path", VStr "data/api.jsonl")]]);
         ("state_path", VStr "run/state.json"); ("report_dir", VStr "run/reports"); ("lease_path", VStr "run/lease")].

(** Names below /srv, split at the first slash. *)
Definition demo_resolve (s : string) : list string :=
  if s =s "/srv" then ["srv"] else
  match String.index 0 "/" s with
  | Some n => ["srv"; String.substring 0 n s; String.substring (S n) (String.length s - S n) s]
  | None => ["srv"; s]
  end.

Definition demo_load : res loaded_config := load_monitor_config demo_resolve ["srv"] (Some demo_raw).

Definition no_config : loaded_config := {|
  lc_config := demo_monitor; lc_sources := []; lc_state_path := []; lc_report_dir := []; lc_lease_path := [];
  lc_receipt_path := []; lc_data_roots := []; lc_artifact_roots := [] |}.

Lemma loaded_config_is_confined_witness :
  let lc := from_ok no_config demo_load in
  map ld_relative_path (lc_sources lc) = [["api.jsonl"]] /\
  config_ok (lc_config lc) /\ numbers_ok (lc_config lc) /\
  (exists v, Some demo_raw = Some v /\ has_forbidden_field v = false) /\
  mc_sources (lc_config lc) = map ld_source (lc_sources lc) /\
  Forall (source_confined (lc_data_roots lc)) (lc_sources lc) /\
  Forall (fun p => exists root rest, In root (lc_artifact_roots lc) /\ p = root ++ rest)
    [lc_state_path lc; lc_report_dir lc; lc_lease_path lc; lc_receipt_path lc].
Proof.
  cbv zeta. split; [vm_compute; reflexivity|].
  apply (loaded_config_is_confined demo_resolve ["srv"] (Some demo_raw)).
  apply from_ok_eq. vm_compute. reflexivity.
Defined.
