(* ===== verification/P137Checks.v ===== *)
(** * The checks the P137 services share

    Each of app/services/p137_classification.py, p137_ledger.py and
    p137_requests.py has its own copy of these helpers, which differ in the
    class of the exception; [err] makes it from the message. *)

From stdpp Require Import sorting.
From S2P Require Import Prelude PyValue PyChecks Sha Json.

(** [sorted({…})] *)
Definition sorted_set (l : list string) : list string := sorted_strings (remove_dups l).

(** ** Sorting by a string *)

Lemma string_leb_total a b : String.leb a b = true \/ String.leb b a = true.
Proof. destruct (String.leb a b) eqn:E; [by left | right]. by apply (key_leb_false (a, tt) (b, tt)). Qed.

Lemma string_leb_antisym a b : String.leb a b = true -> String.leb b a = true -> a = b.
Proof.
  unfold String.leb. intros H H'. rewrite (String.compare_antisym b a) in H'.
  destruct (String.compare a b) eqn:E; try done. by apply String.compare_eq_iff.
Qed.

Section ByKey.
Context {A : Type} (f : A -> string).
Notation leb := (fun a b => String.leb (f a) (f b)).

Lemma by_key_sorted l : StronglySorted (fun a b => leb a b = true) (isort leb l).
Proof.
  apply Sorted_StronglySorted.
  - intros x y z Hx Hy. by apply (key_leb_trans (f x, tt) (f y, tt) (f z, tt)).
  - apply isort_sorted. intros. apply string_leb_total.
Qed.

Lemma by_key_unique l l' : NoDup (map f l) -> Permutation l l' -> isort leb l = isort leb l'.
Proof.
  intros Hn Hp. apply (StronglySorted_unique_strong (fun a b => leb a b = true)); try apply by_key_sorted.
  - intros x y Hx Hy Hxy Hyx. rewrite isort_perm, <- Hp in Hy. rewrite isort_perm in Hx.
    apply list_elem_of_In in Hx, Hy. apply (NoDup_map_eq f l); try done. by apply string_leb_antisym.
  - by rewrite !isort_perm.
Qed.
Lemma by_key_id l : StronglySorted (fun a b => leb a b = true) l -> isort leb l = l.
Proof.
  induction 1 as [|x l Hl IH Hx]; [done|]. cbn [isort]. rewrite IH.
  destruct Hx as [|y l Hy]; [done|]. cbn [insert]. by rewrite Hy.
Qed.

Lemma by_key_idem l : isort leb (isort leb l) = isort leb l.
Proof. apply by_key_id, by_key_sorted. Qed.
End ByKey.

(** ** Tuples of integers, ended by a hash *)

(** [a <= b] on tuples of integers. *)
Fixpoint tuple_leb (a b : list Z) : bool :=
  match a, b with
  | x :: a, y :: b => (x <? y) || (x =? y) && tuple_leb a b
  | [], _ => true
  | _ :: _, [] => false
  end.

Definition tuple_eqb (a b : list Z) : bool := tuple_leb a b && tuple_leb b a.

(** The same on tuples of integers followed by a hash. *)
Definition order_leb (a b : list Z * string) : bool :=
  negb (tuple_leb b.1 a.1) || tuple_eqb a.1 b.1 && String.leb a.2 b.2.

(** [sorted(l, key=key, reverse=True)] *)
Definition sort_descending {A} (key : A -> list Z * string) : list A -> list A :=
  isort (fun a b => order_leb (key b) (key a)).

Lemma tuple_leb_total a b : tuple_leb a b = true \/ tuple_leb b a = true.
Proof.
  revert b. induction a as [|x a IH]; intros [|y b]; cbn [tuple_leb]; [by left | by left | by right|].
  destruct (Z.lt_trichotomy x y) as [H|[->|H]].
  - left. apply orb_true_iff. left. by apply Z.ltb_lt.
  - rewrite Z.ltb_irrefl, Z.eqb_refl. apply IH.
  - right. apply orb_true_iff. left. by apply Z.ltb_lt.
Qed.

Lemma tuple_leb_cons x y a b : tuple_leb (x :: a) (y :: b) = true <-> x < y \/ x = y /\ tuple_leb a b = true.
Proof. cbn [tuple_leb]. rewrite orb_true_iff, andb_true_iff, Z.ltb_lt, Z.eqb_eq. done. Qed.

Lemma tuple_leb_trans a b c : tuple_leb a b = true -> tuple_leb b c = true -> tuple_leb a c = true.
Proof.
  revert b c. induction a as [|x a IH]; intros [|y b] [|z c]; try done.
  rewrite !tuple_leb_cons. intros [H1|[-> H1]] [H2|[-> H2]]; [left; lia | left; lia | left; lia | right; eauto].
Qed.

Lemma tuple_eqb_eq a b : List.length a = List.length b -> tuple_eqb a b = true <-> a = b.
Proof.
  unfold tuple_eqb. rewrite andb_true_iff. revert b. induction a as [|x a IH]; intros [|y b] Hl; try done.
  rewrite !tuple_leb_cons. injection Hl as Hl. specialize (IH b Hl). split.
  - intros [[?|[? ?]] [?|[? ?]]]; try lia. subst. f_equal. by apply IH.
  - intros [= -> ->]. destruct IH as [_ IH]. destruct IH as [? ?]; [done|]. auto.
Qed.

Lemma order_leb_total a b : order_leb a b = true \/ order_leb b a = true.
Proof.
  unfold order_leb, tuple_eqb. destruct (tuple_leb_total a.1 b.1) as [H|H]; rewrite H; cbn [negb orb andb].
  - destruct (tuple_leb b.1 a.1); [|by left]. cbn. destruct (String.leb a.2 b.2) eqn:E; [by left|].
    right. by apply (Json.key_leb_false (_, tt) (_, tt)).
  - destruct (tuple_leb a.1 b.1); [|by right]. cbn. destruct (String.leb a.2 b.2) eqn:E; [by left|].
    right. by apply (Json.key_leb_false (_, tt) (_, tt)).
Qed.

Lemma order_leb_tuple a b : order_leb a b = true -> tuple_leb a.1 b.1 = true.
Proof.
  unfold order_leb, tuple_eqb. intros H. apply orb_true_iff in H as [H|H]; bools; [|done].
  destruct (tuple_leb_total a.1 b.1); congruence.
Qed.

Lemma sort_descending_sorted {A} (key : A -> list Z * string) l :
  Sorted (fun a b => order_leb (key b) (key a) = true) (sort_descending key l).
Proof. apply isort_sorted. intros a b. destruct (order_leb_total (key b) (key a)); auto. Qed.

(** ** Checks *)

Section Checks.
Context (err : string -> exn).

Definition ck_ensure (b : bool) (msg : string) : res unit := ensure b (err msg).

Definition _mapping (v : val) (field : string) : res dict :=
  match v with VDict d => Ok d | _ => Raise (err ("invalid_" +:+ field)) end.

Definition _sequence (v : val) (field : string) : res (list val) :=
  match as_seq v with Some l => Ok l | None => Raise (err ("invalid_" +:+ field)) end.

Definition _text (v : val) (field : string) : res string :=
  match v with
  | VStr s => if is_empty s || (256 <? Z.of_nat (List.length (utf8 s))) then Raise (err ("invalid_" +:+ field)) else Ok s
  | _ => Raise (err ("invalid_" +:+ field))
  end.

Definition _hash (v : val) (field : string) : res string :=
  match v with
  | VStr s => if sha256_ref s then Ok s else Raise (err ("invalid_" +:+ field))
  | _ => Raise (err ("invalid_" +:+ field))
  end.

(** [_hashes] of the ledger; the other two return the list sorted. *)
Definition _hashes (values : list val) (field : string) : res (list string) :=
  let! result := mapM (fun item => _hash item field) values in
  let! _ := ck_ensure (bool_decide (NoDup result)) ("duplicate_" +:+ field) in
  Ok result.

Definition sorted_hashes (values : list val) (field : string) : res (list string) :=
  let! hashes := _hashes values field in Ok (sorted_strings hashes).

Definition _positive_int (v : val) (field : string) : res Z :=
  match v with
  | VInt z => if 0 <? z then Ok z else Raise (err ("invalid_" +:+ field))
  | _ => Raise (err ("invalid_" +:+ field))
  end.

(** The loop of [_integer_map]. *)
Definition check_count (field : string) (item : string * val) : res unit :=
  ck_ensure (negb (is_empty item.1) && nonneg item.2) ("invalid_" +:+ field).

Definition _integer_map (value : dict) (field : string) : res dict :=
  let! _ := iterM (check_count field) value in
  Ok (sort_items value).

Definition _zero_map (value : dict) (field : string) : res dict :=
  let! result := _integer_map value field in
  let! _ := ck_ensure (forallb (fun item => negb (truthy item.2)) result) ("nonzero_" +:+ field) in
  Ok result.

Lemma hash_ok v field h : _hash v field = Ok h -> v = VStr h /\ sha256_ref h = true.
Proof. unfold _hash. destruct v; try done. destruct (sha256_ref s) eqn:E; [|done]. by intros [= <-]. Qed.

Lemma hashes_ok items field l : _hashes items field = Ok l ->
  items = map VStr l /\ NoDup l /\ Forall (fun h => sha256_ref h = true) l.
Proof.
  unfold _hashes, ck_ensure. intros H. apply bind_ok in H as (r & Hr & H). apply bind_ok in H as (u & Hu & H).
  apply (inj Ok) in H as <-. apply ensure_ok, bool_decide_eq_true in Hu. apply mapM_ok in Hr.
  assert (Hs : items = map VStr r /\ Forall (fun h => sha256_ref h = true) r); [|tauto].
  clear Hu u. induction Hr as [|v s items r Hv _ [IH1 IH2]]; [done|]. apply hash_ok in Hv as [-> Hv].
  cbn [map]. rewrite <- IH1. auto.
Qed.
End Checks.

Lemma mapM_mapping_ok err field items ds : mapM (fun item => _mapping err item field) items = Ok ds -> items = map VDict ds.
Proof.
  intros H. apply mapM_ok in H. induction H as [|v d items ds Hv _ IH]; [done|]. cbn [map]. rewrite <- IH. f_equal.
  unfold _mapping in Hv. destruct v; try done. by injection Hv as ->.
Qed.

Lemma mapM_mapping err field l : mapM (fun item => _mapping err item field) (map VDict l) = Ok l.
Proof. induction l as [|d l IH]; cbn; [done|]. by rewrite IH. Qed.

(** ** Values read back from a file *)

Lemma hash_image err v field : _hash err (json_image v) field = _hash err v field.
Proof. by destruct v. Qed.

Lemma positive_image err v field : _positive_int err (json_image v) field = _positive_int err v field.
Proof. by destruct v. Qed.

Lemma as_seq_image v : as_seq (json_image v) = option_map (map json_image) (as_seq v).
Proof. by destruct v. Qed.

Lemma mapM_hash_image err field l :
  mapM (fun item => _hash err item field) (map json_image l) = mapM (fun item => _hash err item field) l.
Proof. induction l as [|v l IH]; [done|]. cbn [map mapM]. by rewrite hash_image, IH. Qed.

Lemma image_items (P : string * val -> Prop) d : (forall k v, P (k, v) -> P (k, json_image v)) ->
  Forall P d -> Forall P (dict_image d).
Proof.
  intros HP H. unfold dict_image, sort_items. rewrite isort_perm. apply List.Forall_map.
  eapply Forall_impl; [exact H|]. intros [k v]. apply HP.
Qed.

Lemma py_eq_str_image v s : py_eq (json_image v) (VStr s) = py_eq v (VStr s).
Proof. by destruct v. Qed.

Lemma iterM_impl {A} (f g : A -> res unit) l : (forall x, f x = Ok tt -> g x = Ok tt) -> iterM f l = Ok tt -> iterM g l = Ok tt.
Proof. intros H Hf. apply iterM_ok in Hf. apply iterM_ok. eapply Forall_impl; [exact Hf | exact H]. Qed.
