(* ===== verification/P137Contracts.v ===== *)
(** * The contracts of the triage

    Models app/services/p137_contracts.py: the closed enumerations, the
    checks on single values, and the evidence atom, the classification policy
    and the configuration, each built from what a caller gives and validated
    by building it again.  A path is text; [PurePosixPath] is modelled. *)

From S2P Require Import Prelude PyValue PyChecks Sha PyRegex PyTime PyFloat.

Definition CONFIG_SCHEMA_VERSION : string := "p137.triage_agent_config.v1".
Definition EVIDENCE_ATOM_SCHEMA_VERSION : string := "p137.evidence_atom.v1".
Definition CORRELATION_POLICY_SCHEMA_VERSION : string := "p137.correlation_policy.v1".
Definition RANKING_POLICY_SCHEMA_VERSION : string := "p137.ranking_policy.v1".
Definition CLASSIFICATION_POLICY_SCHEMA_VERSION : string := "p137.classification_policy.v1".
Definition CLASSIFICATION_SCORE_FORMULA_ID : string := "p137_integer_semantic_score_v1".
Definition CLASSIFICATION_TIE_POLICY : string := "semantic_tuple_tie_yields_insufficient_evidence".
Definition DENOMINATOR_FAILURE_POLICY_ID : string := "p137_closed_request_need_mapping_v1".
Definition CANONICAL_STATEMENT_RULES : list string :=
  ["error_rate_regression"; "latency_regression"; "resource_saturation_signal"; "data_quality_drop";
   "security_signal_cluster"; "deployment_correlated_change"; "topology_correlated_change";
   "scheduled_or_known_benign_noise"; "metric_spike_with_correlated_logs"; "telemetry_gap_only";
   "unknown_insufficient_context"].
Definition CANONICAL_REASON_RULES : list string :=
  ["same_system_time_window"; "same_entity_time_window"; "provider_signal_overlap"; "label_hash_overlap";
   "content_hash_overlap"; "p136_rejection_nearby"; "numeric_threshold_exceeded"; "log_preview_cluster";
   "topology_change_detected"; "promoted_baseline_delta"; "fetch_record_match"; "known_benign_schedule";
   "decisive_counter_signal"; "weak_counter_signal"; "required_local_selection_missing";
   "external_authority_unavailable"].
Definition CANONICAL_RELATION_RULES : list string :=
  ["supports_secondary"; "missing_required_local"; "missing_external_unavailable"; "supports_primary";
   "supports_benign"; "contradicts_decisive"; "contradicts_soft"].
Definition CLASSIFICATION_POLICY_FIELDS : list string :=
  ["schema_version"; "statement_rules"; "reason_rules"; "relation_rules"; "metric_thresholds";
   "baseline_delta_warning_bps"; "baseline_delta_critical_bps"; "score_formula_id"; "tie_policy";
   "denominator_failure_policy"; "policy_hash"].
Definition CONTINUOUS_MODE_FIELDS : list string :=
  ["enabled"; "max_cycles"; "poll_interval_ms"; "fixed_handoff_path"; "expected_bundle_version";
   "handoff_version_polling"; "heartbeat_interval_ms"; "readiness_path"; "readiness_stale_after_ms";
   "handoff_version_stale_after_ms"].
Definition _METRIC_THRESHOLD_FIELDS : list string :=
  ["warning_lower"; "critical_lower"; "warning_upper"; "critical_upper"].
Definition FIXED_P136_HANDOFF_PATH : string := "handoff/p137/p136_handoff_bundle.v1.json".
Definition P136_QUALIFIED_RELEASE_STATUS : string := "p136_incremental_local_observation_qualified".
Definition ALLOWED_REQUEST_CATALOG : list string :=
  ["compare_current_window_to_promoted_baseline"; "fetch_record_by_evidence_id"; "join_records_by_entity_and_window";
   "select_records_by_content_hash"; "select_records_by_entity_ref"; "select_records_by_label_hash";
   "select_records_by_provider"; "select_records_by_risk_flag"; "select_records_by_signal_family";
   "select_records_by_system_id"; "select_records_by_time_window"; "select_rejections_by_reason";
   "summarize_log_preview_hashes"; "summarize_numeric_samples"; "summarize_topology_refs"].
Definition GUARD_PROBE_SURFACES : list string :=
  ["provider"; "live_connector"; "network"; "dns"; "socket"; "credential"; "environment"; "subprocess"; "shell";
   "signal"; "delivery"; "remediation"; "staging_mutation"; "production_mutation"; "operator_replacement"].
Definition FORBIDDEN_AUTHORITY_KEYS : list string :=
  ["provider_call_count"; "live_connector_call_count"; "network_call_count"; "dns_lookup_count";
   "socket_call_count"; "credential_read_count"; "environment_read_count"; "subprocess_launch_count";
   "shell_execution_count"; "signal_count"; "delivery_count"; "remediation_count"; "staging_mutation_count";
   "production_mutation_count"; "operator_replacement_count"].
Definition RUNTIME_ACTIVITY_KEYS : list string :=
  ["lease_acquire_count"; "state_read_count"; "handoff_bundle_open_count"; "handoff_bundle_read_count";
   "handoff_bundle_bytes_read"; "p136_validator_invocation_count"; "promotion_record_read_count";
   "promotion_bytes_validated"; "evidence_atom_count"; "ingest_intent_write_count"; "evidence_atom_write_count";
   "incident_write_count"; "hypothesis_write_count"; "evidence_request_write_count";
   "attempted_request_hash_write_count"; "classification_write_count"; "ledger_write_count";
   "heartbeat_write_count"; "readiness_write_count"; "termination_receipt_write_count"; "directory_fsync_count";
   "recovery_replay_count"; "cas_retry_count"; "duplicate_atom_count"; "duplicate_request_count";
   "rejection_record_count"].
Definition EVALUATOR_ACTIVITY_KEYS : list string :=
  ["runner_invocation_count"; "profile_read_count"; "handoff_fixture_write_count"; "artifact_write_count";
   "fake_guard_callable_count"; "child_process_count"; "signal_delivery_count"].
Definition LIMIT_KEYS : list string :=
  ["max_promotions_per_cycle"; "max_records_per_cycle"; "max_incidents_open"; "max_correlation_window_ms";
   "max_incident_duration_ms"; "max_hypotheses_per_incident"; "max_support_edges_per_hypothesis";
   "max_contradiction_edges_per_hypothesis"; "max_missing_evidence_items_per_hypothesis";
   "max_evidence_requests_per_incident"; "max_request_input_records"; "max_request_output_records";
   "max_request_output_bytes"; "max_journal_bytes"; "max_ledger_records"; "max_consecutive_failures";
   "max_cycle_wall_ms"; "max_agent_wall_ms"; "max_cpu_ms"; "max_peak_memory_bytes"; "max_cycles";
   "poll_interval_ms"; "heartbeat_interval_ms"; "readiness_stale_after_ms"; "handoff_version_stale_after_ms"].
Definition _CONFIG_INPUT_FIELDS : list string :=
  ["agent_id"; "config_version"; "created_at"; "base_dir_ref_hash"; "state_root_ref_hash"; "handoff_root_ref_hash";
   "p136_handoff_bundle_path"; "p136_handoff_chain_root_hash"; "checkpoint_path"; "lease_path"; "journal_dir";
   "incident_dir"; "hypothesis_dir"; "request_dir"; "classification_dir"; "heartbeat_path"; "readiness_path";
   "termination_dir"; "ledger_path"; "validated_p136_release_status"; "allowed_request_catalog";
   "correlation_policy"; "ranking_policy"; "classification_policy"; "continuous_mode"; "limits";
   "forbidden_authority"].
Definition CONFIG_FIELDS : list string := "schema_version" :: _CONFIG_INPUT_FIELDS ++ ["config_hash"].
Definition EVIDENCE_ATOM_INPUT_FIELDS : list string :=
  ["atom_id"; "promotion_record_hash"; "promotion_key"; "p136_entry_hash"; "p135_bundle_hash"; "source_id";
   "provider"; "format"; "signal_family"; "system_id"; "entity_ref_hash"; "window"; "signal_name"; "numeric_value";
   "numeric_unit"; "evidence_state"; "severity_code"; "metric_breach_code"; "marker_code"; "counter_signal_code";
   "state_reason_codes"; "denominator_visible"; "content_hash"; "label_hashes"; "topology_ref_hashes";
   "deploy_config_ref_hashes"; "risk_flags"; "redacted_preview_hash"; "ordinal"].
Definition EVIDENCE_ATOM_FIELDS : list string := "schema_version" :: EVIDENCE_ATOM_INPUT_FIELDS ++ ["atom_hash"].

Definition P137ContractError (msg : string) : exn := Exn "P137ContractError" msg.
Notation KE := P137ContractError.
Definition kt_ensure (b : bool) (msg : string) : res unit := ensure b (KE msg).

(** ** Single values *)

Definition _mapping (v : val) (label : string) : res dict :=
  match v with VDict d => Ok d | _ => Raise (KE ("invalid_" +:+ label +:+ "_shape")) end.

Definition _hash (v : val) (label : string) : res string :=
  match v with
  | VStr s => if sha256_ref s then Ok s else Raise (KE ("invalid_hash:" +:+ label))
  | _ => Raise (KE ("invalid_hash:" +:+ label))
  end.

Definition PROMPT_OR_SECRET_RE : rx :=
  alts [Seq (ilit "ignore") (Seq (Chr (one_of "-_ ")) (ilit "previous")); Seq (ilit "api") (Seq (opt (Chr (one_of "_-"))) (ilit "key"));
        ilit "authorization"; ilit "bearer"; ilit "credential"; ilit "password"; ilit "secret";
        Seq (ilit "run") (Seq (Chr (one_of "-_ ")) (ilit "command")); Seq (ilit "http") (Seq (opt (ilit "s")) (ilit "://"));
        ilit "socket"; ilit "dns"].

Definition _required_text (v : val) (label : string) : res string :=
  match v with
  | VStr s =>
      if is_empty s then Raise (KE ("invalid_text:" +:+ label))
      else if search PROMPT_OR_SECRET_RE s then Raise (KE "prompt_or_credential_text_forbidden")
      else Ok s
  | _ => Raise (KE ("invalid_text:" +:+ label))
  end.

(** [LABEL_RE.fullmatch(s)] *)
Definition label_start (c : ascii) : bool := is_lower c || is_digit c.
Definition LABEL_RE (s : string) : bool :=
  match s with
  | EmptyString => false
  | String c s => label_start c && (String.length s <=? 127)%nat && all_chars (fun c => label_start c || one_of "._-" c) s
  end.

Definition _label (v : val) (label : string) : res string :=
  let! text := _required_text v label in
  let! _ := kt_ensure (LABEL_RE text) ("invalid_label:" +:+ label) in
  Ok text.

Definition _enum (v : val) (allowed : list string) (label : string) : res string :=
  let! text := _required_text v label in
  let! _ := kt_ensure (mem text allowed) ("invalid_" +:+ label) in
  Ok text.

Definition ends_with_z (s : string) : bool := String.substring (String.length s - 1) 1 s =s "Z".

(** [text[:-1] + "+00:00" if text.endswith("Z") else text] *)
Definition utc_candidate (text : string) : string :=
  if ends_with_z text then String.substring 0 (String.length text - 1) text +:+ "+00:00" else text.

Definition _timestamp (v : val) (label : string) : res string :=
  let! text := _required_text v label in
  match fromisoformat_offset (utc_candidate text) with
  | Some (local, Some offset) =>
      if datetime_range (local - offset) then Ok (utc_timestamp (local - offset))
      else Raise (Exn "OverflowError" "date value out of range")
  | _ => Raise (KE ("invalid_timestamp:" +:+ label))
  end.

Definition _bool (v : val) (label : string) : res bool :=
  match v with VBool b => Ok b | _ => Raise (KE ("invalid_bool:" +:+ label)) end.

Definition _positive_int (v : val) (label : string) : res Z :=
  match v with
  | VInt z => if 0 <? z then Ok z else Raise (KE ("invalid_positive_int:" +:+ label))
  | _ => Raise (KE ("invalid_positive_int:" +:+ label))
  end.

Definition _nonnegative_int (v : val) (label : string) : res Z :=
  match v with
  | VInt z => if 0 <=? z then Ok z else Raise (KE ("invalid_nonnegative_int:" +:+ label))
  | _ => Raise (KE ("invalid_nonnegative_int:" +:+ label))
  end.

(** The value itself when it is [None] or a finite number. *)
Definition _numeric_or_none (v : val) : res val :=
  match v with
  | VNone => Ok VNone
  | _ =>
      let! number := finite_number v in
      match number with Some _ => Ok v | None => Raise (KE "invalid_numeric_value") end
  end.

Definition _optional_hash (v : val) (label : string) : res val :=
  match v with VNone => Ok VNone | _ => let! h := _hash v label in Ok (VStr h) end.

(** ** Lists *)

Definition items_of (v : val) (label : string) : res (list val) :=
  match as_seq v with Some l => Ok l | None => Raise (KE ("invalid_" +:+ label)) end.

(** The sorted list of the items, each checked, none twice. *)
Definition sorted_items (check : val -> string -> res string) (v : val) (label : string) : res (list string) :=
  let! items := items_of v label in
  let! result := mapM (fun item => check item (label +:+ "_item")) items in
  let! _ := kt_ensure (bool_decide (NoDup result)) ("duplicate_" +:+ label) in
  Ok (sorted_strings result).

Definition _text_list : val -> string -> res (list string) := sorted_items _required_text.
Definition _hash_list : val -> string -> res (list string) := sorted_items _hash.

Definition _closed_text_list (v : val) (label : string) (allowed : list string) : res (list string) :=
  let! result := _text_list v label in
  let! _ := kt_ensure (forallb (fun item => mem item allowed) result) ("invalid_" +:+ label) in
  Ok result.

Definition _request_catalog (v : val) : res (list string) :=
  match as_seq v with
  | Some items =>
      let catalog := map py_str items in
      let! _ := kt_ensure (bool_decide (catalog = ALLOWED_REQUEST_CATALOG)) "invalid_allowed_request_catalog" in
      Ok catalog
  | None => Raise (KE "invalid_allowed_request_catalog")
  end.

(** Does [_reject_forbidden_text] raise, and what? *)
Fixpoint _reject_forbidden_text (v : val) : res unit :=
  match v with
  | VStr _ => let! _ := _required_text v "text" in Ok tt
  | VDict d => iterM (fun item => item) (map (fun kv => _reject_forbidden_text kv.2) d)
  | VList l | VTuple l => iterM (fun item => item) (map _reject_forbidden_text l)
  | _ => Ok tt
  end.

(** ** Mappings *)

Definition _reject_unknown_missing (value : dict) (fields : list string) (label : string) : res unit :=
  let! _ := kt_ensure (forallb (fun k => mem k fields) (dkeys value)) ("unexpected_" +:+ label +:+ "_field") in
  kt_ensure (forallb (fun k => dmem k value) fields) ("missing_" +:+ label +:+ "_field").

Definition _positive_int_map (v : val) (keys : list string) (label : string) : res dict :=
  let! raw := _mapping v (label +:+ "s") in
  let! _ := kt_ensure (same_keys raw keys) ("invalid_" +:+ label +:+ "s_schema") in
  mapM (fun key => if positive (vget raw key) then Ok (key, vget raw key) else Raise (KE ("invalid_" +:+ label +:+ ":" +:+ key))) keys.

Definition _exact_counter_map (v : val) (keys : list string) (error : string) (require_zero : bool) : res dict :=
  let! raw := _mapping v "counters" in
  let! _ := kt_ensure (same_keys raw keys) error in
  mapM (fun key =>
    let! _ := kt_ensure (nonneg (vget raw key)) error in
    let! _ := kt_ensure (negb require_zero || is_zero (vget raw key)) "forbidden_authority_nonzero" in
    Ok (key, vget raw key)) keys.

Definition _fixed_policy (v : val) (label schema_version : string) : res dict :=
  let! raw := _mapping v label in
  let! _ := kt_ensure (same_keys raw ["schema_version"] && py_eq (vget raw "schema_version") (VStr schema_version))
              ("invalid_" +:+ label) in
  Ok [("schema_version", VStr schema_version)].

(** [observed_window]: the two ends are compared as text. *)
Definition _window (v : val) : res dict :=
  let! raw := _mapping v "observed_window" in
  let! _ := kt_ensure (same_keys raw ["start"; "end"]) "invalid_observed_window" in
  let! start := _timestamp (vget raw "start") "window_start" in
  let! end_ := _timestamp (vget raw "end") "window_end" in
  let! _ := kt_ensure (String.leb start end_) "invalid_observed_window" in
  Ok [("start", VStr start); ("end", VStr end_)].

Definition validate_exact_self_hash (v : val) (fields : list string) (schema_version hash_field label : string) : res unit :=
  let! item := _mapping v label in
  let! _ := kt_ensure (same_keys item fields && py_eq (vget item "schema_version") (VStr schema_version))
              ("invalid_" +:+ label +:+ "_fields") in
  kt_ensure (py_eq (vget item hash_field) (VStr (stable_hash (VDict (dwithout [hash_field] item))))) (hash_field +:+ "_invalid").

(** ** Counters *)

Definition zeros (keys : list string) : dict := map (fun key => (key, VInt 0)) keys.

(** [values.update(overrides)] *)
Definition update (values overrides : dict) : dict := fold_left (fun d kv => dset d kv.1 kv.2) overrides values.

Definition zero_forbidden_authority : dict := zeros FORBIDDEN_AUTHORITY_KEYS.
Definition zero_runtime_activity (overrides : dict) : dict := update (zeros RUNTIME_ACTIVITY_KEYS) overrides.
Definition zero_evaluator_activity (overrides : dict) : dict := update (zeros EVALUATOR_ACTIVITY_KEYS) overrides.

Definition bounded_resource_usage (overrides : dict) : dict :=
  update [("wall_time_ms", VInt 0); ("cpu_time_ms", VInt 0); ("child_cpu_time_ms", VInt 0); ("peak_memory_bytes", VInt 0);
          ("wall_limit_ms", VInt 1); ("cpu_limit_ms", VInt 1); ("peak_memory_limit_bytes", VInt 1)] overrides.

(** The callables an evaluator hands over, as whether each is callable; none
    is called. *)
Definition reject_evaluator_guard_callables (guard_callables : list (string * bool)) : res unit :=
  let! _ := kt_ensure (same_keys guard_callables GUARD_PROBE_SURFACES) "invalid_guard_probe_surfaces" in
  let! _ := kt_ensure (forallb (fun surface => default false (dget guard_callables surface)) GUARD_PROBE_SURFACES)
              "invalid_guard_probe_callable" in
  Raise (KE "guard_probe_blocked_before_boundary").

(** ** Canonical bytes *)

Definition hex_digit_value (c : ascii) : Z :=
  let n := Z.of_N (code c) in if n <? 97 then n - 48 else n - 87.

(** [bytes.fromhex(s)] of an even number of lower-case hex digits. *)
Fixpoint fromhex (s : list ascii) : list Z :=
  match s with
  | a :: b :: s => (16 * hex_digit_value a + hex_digit_value b) :: fromhex s
  | _ => []
  end.

(** [data.hex()] *)
Definition hex (data : list Z) : string := fold_right (fun b acc => hex2 (Z.to_N b) +:+ acc) "" data.

Definition content_hash (data : list Z) : string := "sha256:" +:+ hexdigest (Sha256.digest data).

Definition decode_canonical_lower_hex (encoded : val) (field : string) (expected_hash : option string)
    (expected_length : option Z) : res (list Z) :=
  match encoded with
  | VStr s =>
      let! _ := kt_ensure (negb (is_empty s) && Nat.even (String.length s) && all_chars is_hex s) ("invalid_canonical_hex:" +:+ field) in
      let decoded := fromhex (chars s) in
      let! _ := kt_ensure (hex decoded =s s) ("invalid_canonical_hex:" +:+ field) in
      let! _ := match expected_hash with
                | None => Ok tt
                | Some h =>
                    let! h := _hash (VStr h) (field +:+ "_hash") in
                    kt_ensure (content_hash decoded =s h) ("canonical_byte_hash_mismatch:" +:+ field)
                end in
      let! _ := match expected_length with
                | None => Ok tt
                | Some n =>
                    let! n := _nonnegative_int (VInt n) (field +:+ "_length") in
                    kt_ensure (Z.of_nat (List.length decoded) =? n) ("canonical_byte_length_mismatch:" +:+ field)
                end in
      Ok decoded
  | _ => Raise (KE ("invalid_canonical_hex:" +:+ field))
  end.

(** ** The evidence atom *)

Definition EVIDENCE_STATES : list string := ["promoted_success"; "denominator_visible_failure"; "context_only"].
Definition SEVERITY_CODES : list string := ["sev0"; "sev1"; "sev2"; "sev3"; "sev4"; "unknown"].
Definition METRIC_BREACH_CODES : list string :=
  ["none"; "above_warning"; "above_critical"; "below_warning"; "below_critical"; "baseline_delta_warning";
   "baseline_delta_critical"].
Definition MARKER_CODES : list string :=
  ["none"; "known_benign_schedule"; "topology_noise"; "deployment_marker"; "topology_marker"; "security_marker";
   "data_quality_marker"].
Definition COUNTER_SIGNAL_CODES : list string := ["none"; "weak_counter_signal"; "decisive_counter_signal"].
Definition STATE_REASON_CODES : list string :=
  ["parser_failure"; "redaction_failure"; "provenance_failure"; "local_catalog_selectable"; "p135_adapter_failure";
   "provider_authority_required"; "network_authority_required"; "credential_authority_required";
   "operator_authority_required"; "action_authority_required"].

(** How each field but the number and its unit is made, in the order of the
    code. *)
Definition str_field (check : val -> string -> res string) (v : val) (label : string) : res val :=
  let! s := check v label in Ok (VStr s).

Definition strings_field (check : val -> string -> res (list string)) (v : val) (label : string) : res val :=
  let! l := check v label in Ok (vlist_of_strings l).

Definition enum_field (allowed : list string) : val -> string -> res val :=
  str_field (fun v label => _enum v allowed label).

Definition atom_fields_before : list (string * (val -> string -> res val)) :=
  [("atom_id", str_field _label); ("promotion_record_hash", str_field _hash); ("promotion_key", str_field _hash);
   ("p136_entry_hash", str_field _hash); ("p135_bundle_hash", str_field _hash); ("source_id", str_field _required_text);
   ("provider", str_field _required_text); ("format", str_field _required_text); ("signal_family", str_field _required_text);
   ("system_id", str_field _required_text); ("entity_ref_hash", str_field _hash);
   ("window", fun v _ => let! w := _window v in Ok (VDict w)); ("signal_name", str_field _required_text)].

Definition atom_fields_after : list (string * (val -> string -> res val)) :=
  [("evidence_state", enum_field EVIDENCE_STATES); ("severity_code", enum_field SEVERITY_CODES);
   ("metric_breach_code", enum_field METRIC_BREACH_CODES); ("marker_code", enum_field MARKER_CODES);
   ("counter_signal_code", enum_field COUNTER_SIGNAL_CODES);
   ("state_reason_codes", strings_field (fun v label => _closed_text_list v label STATE_REASON_CODES));
   ("denominator_visible", fun v label => let! b := _bool v label in Ok (VBool b));
   ("content_hash", _optional_hash); ("label_hashes", strings_field _hash_list);
   ("topology_ref_hashes", strings_field _hash_list); ("deploy_config_ref_hashes", strings_field _hash_list);
   ("risk_flags", strings_field _text_list); ("redacted_preview_hash", _optional_hash);
   ("ordinal", fun v label => let! z := _positive_int v label in Ok (VInt z))].

(** [{name: check(raw.get(name), name), …}] *)
Definition make_fields (fields : list (string * (val -> string -> res val))) (raw : dict) : res dict :=
  mapM (fun field => let! v := field.2 (vget raw field.1) field.1 in Ok (field.1, v)) fields.

Definition build_evidence_atom (data : val) : res dict :=
  let! raw := _mapping data "evidence_atom" in
  let! _ := _reject_unknown_missing raw EVIDENCE_ATOM_INPUT_FIELDS "evidence_atom" in
  let! number := _numeric_or_none (vget raw "numeric_value") in
  let! unit_ := match number with VNone => Ok VNone | _ => str_field _required_text (vget raw "numeric_unit") "numeric_unit" end in
  let! before := make_fields atom_fields_before raw in
  let! after := make_fields atom_fields_after raw in
  let atom := ("schema_version", VStr EVIDENCE_ATOM_SCHEMA_VERSION) :: before ++
              [("numeric_value", number); ("numeric_unit", unit_)] ++ after in
  let! _ := _reject_forbidden_text (VDict atom) in
  Ok (atom ++ [("atom_hash", VStr (stable_hash (VDict atom)))]).

(** [{key: value[key] for key in fields}] *)
Definition restrict (value : dict) (fields : list string) : dict := map (fun key => (key, vget value key)) fields.

Definition validate_evidence_atom (atom : val) : res unit :=
  let! value := _mapping atom "evidence_atom" in
  let! _ := kt_ensure (same_keys value EVIDENCE_ATOM_FIELDS &&
                       py_eq (vget value "schema_version") (VStr EVIDENCE_ATOM_SCHEMA_VERSION)) "invalid_evidence_atom_fields" in
  let! rebuilt := build_evidence_atom (VDict (restrict value EVIDENCE_ATOM_INPUT_FIELDS)) in
  let! _ := kt_ensure (py_eq (vget value "atom_hash") (VStr (stable_hash (VDict (dwithout ["atom_hash"] value))))) "atom_hash_invalid" in
  kt_ensure (py_eq (VDict rebuilt) (VDict value)) "evidence_atom_semantics_invalid".

(** ** The policies *)

Definition build_correlation_policy : dict := [("schema_version", VStr CORRELATION_POLICY_SCHEMA_VERSION)].
Definition build_ranking_policy : dict := [("schema_version", VStr RANKING_POLICY_SCHEMA_VERSION)].

(** [low is not None and high is not None and low > high] *)
Definition above (low high : val) : bool :=
  match as_number low, as_number high with
  | Some l, Some h => negb (Qle_bool l h)
  | _, _ => false
  end.

Definition threshold_bounds (v : val) : res dict :=
  let! bounds := _mapping v "metric_threshold_bounds" in
  let! _ := kt_ensure (same_keys bounds _METRIC_THRESHOLD_FIELDS) "invalid_metric_threshold_fields" in
  let! normalized := mapM (fun key => let! n := _numeric_or_none (vget bounds key) in Ok (key, n))
                       (sorted_strings _METRIC_THRESHOLD_FIELDS) in
  let! _ := kt_ensure (negb (above (vget normalized "critical_lower") (vget normalized "warning_lower")))
              "metric_lower_threshold_order_invalid" in
  let! _ := kt_ensure (negb (above (vget normalized "warning_upper") (vget normalized "critical_upper")))
              "metric_upper_threshold_order_invalid" in
  Ok normalized.

Definition _metric_threshold_map (v : val) : res dict :=
  let! raw := _mapping v "metric_thresholds" in
  mapM (fun signal =>
    let! _ := _label (VStr signal.1) "metric_threshold_signal" in
    let! units := _mapping signal.2 "metric_threshold_units" in
    let! normalized := mapM (fun unit_ =>
      let! _ := _required_text (VStr unit_.1) "metric_threshold_unit" in
      let! bounds := threshold_bounds unit_.2 in
      Ok (unit_.1, VDict bounds)) (sort_items units) in
    Ok (signal.1, VDict normalized)) (sort_items raw).

Definition build_classification_policy (metric_thresholds : dict) (warning_bps critical_bps : val) : res dict :=
  let! warning := _positive_int warning_bps "baseline_delta_warning_bps" in
  let! critical := _positive_int critical_bps "baseline_delta_critical_bps" in
  let! _ := kt_ensure (warning <=? critical) "baseline_delta_threshold_order_invalid" in
  let! thresholds := _metric_threshold_map (VDict metric_thresholds) in
  let value : dict :=
    [("schema_version", VStr CLASSIFICATION_POLICY_SCHEMA_VERSION);
     ("statement_rules", vlist_of_strings CANONICAL_STATEMENT_RULES); ("reason_rules", vlist_of_strings CANONICAL_REASON_RULES);
     ("relation_rules", vlist_of_strings CANONICAL_RELATION_RULES); ("metric_thresholds", VDict thresholds);
     ("baseline_delta_warning_bps", VInt warning); ("baseline_delta_critical_bps", VInt critical);
     ("score_formula_id", VStr CLASSIFICATION_SCORE_FORMULA_ID); ("tie_policy", VStr CLASSIFICATION_TIE_POLICY);
     ("denominator_failure_policy", VStr DENOMINATOR_FAILURE_POLICY_ID)] in
  Ok (value ++ [("policy_hash", VStr (stable_hash (VDict value)))]).

Definition validate_classification_policy (policy : val) : res unit :=
  let! value := _mapping policy "classification_policy" in
  let! _ := kt_ensure (same_keys value CLASSIFICATION_POLICY_FIELDS) "invalid_classification_policy_fields" in
  let! warning := _positive_int (vget value "baseline_delta_warning_bps") "baseline_delta_warning_bps" in
  let! critical := _positive_int (vget value "baseline_delta_critical_bps") "baseline_delta_critical_bps" in
  let! thresholds := _mapping (vget value "metric_thresholds") "metric_thresholds" in
  let! rebuilt := build_classification_policy thresholds (VInt warning) (VInt critical) in
  kt_ensure (py_eq (VDict value) (VDict rebuilt)) "classification_policy_semantics_invalid".

(** ** Paths *)

(** [text.split("/")] *)
Fixpoint split_slash (s : string) : list string :=
  match s with
  | EmptyString => [""]
  | String c s =>
      if (code c =? 47)%N then "" :: split_slash s
      else match split_slash s with
           | [] => [String c ""]
           | part :: parts => String c part :: parts
           end
  end.

(** [PurePosixPath(text)]: its root, and its other parts. *)
Definition path_root (text : string) : string :=
  if startswith "//" text && negb (startswith "///" text) then "//" else if startswith "/" text then "/" else "".

Definition path_names (text : string) : list string :=
  List.filter (fun part => negb (is_empty part) && negb (part =s ".")) (split_slash text).

Definition path_parts (text : string) : list string :=
  (if is_empty (path_root text) then [] else [path_root text]) ++ path_names text.

Definition as_posix (text : string) : string :=
  if is_empty (path_root text) && match path_names text with [] => true | _ => false end then "."
  else path_root text +:+ str_join "/" (path_names text).

Definition _relative_path (v : val) (label : string) : res string :=
  let! text := _required_text v label in
  let! _ := kt_ensure (is_empty (path_root text) && forallb (fun part => negb (mem part [""; "."; ".."])) (path_parts text))
              ("unsafe_path:" +:+ label) in
  let! _ := kt_ensure (as_posix text =s text) ("unsafe_path:" +:+ label) in
  Ok (as_posix text).

Fixpoint starts_with_parts (l prefix : list string) : bool :=
  match prefix, l with
  | [], _ => true
  | p :: prefix, x :: l => (x =s p) && starts_with_parts l prefix
  | _ :: _, [] => false
  end.

Definition _paths_overlap (left right : string) : bool :=
  starts_with_parts (path_parts left) (path_parts right) || starts_with_parts (path_parts right) (path_parts left).

Definition HANDOFF_KEY : string := "p136_handoff_bundle_path".

Definition _validate_state_paths (paths : list (string * string)) : res unit :=
  let handoff := default "" (dget paths HANDOFF_KEY) in
  let state_paths := List.filter (fun kv => negb (kv.1 =s HANDOFF_KEY)) paths in
  iterM (fun kv =>
    let! _ := kt_ensure (negb (_paths_overlap kv.2 handoff)) "state_path_overlaps_handoff_path" in
    iterM (fun other =>
      kt_ensure (String.leb other.1 kv.1 || negb (_paths_overlap kv.2 other.2)) "state_paths_overlap") state_paths) state_paths.

(** ** Continuous mode *)

Definition int_value (v : val) (label : string) : res val := let! z := _positive_int v label in Ok (VInt z).
Definition bool_value (v : val) (label : string) : res val := let! b := _bool v label in Ok (VBool b).

Definition build_continuous_mode (enabled max_cycles poll heartbeat readiness stale version_stale expected polling : val)
  : res dict :=
  let! enabled := bool_value enabled "continuous_mode_enabled" in
  let! max_cycles := int_value max_cycles "continuous_mode_max_cycles" in
  let! poll := int_value poll "continuous_mode_poll_interval_ms" in
  let! expected := int_value expected "expected_bundle_version" in
  let! polling := bool_value polling "handoff_version_polling" in
  let! heartbeat := int_value heartbeat "continuous_mode_heartbeat_interval_ms" in
  let! readiness := str_field _relative_path readiness "continuous_mode_readiness_path" in
  let! stale := int_value stale "continuous_mode_readiness_stale_after_ms" in
  let! version_stale := int_value version_stale "continuous_mode_handoff_version_stale_after_ms" in
  Ok [("enabled", enabled); ("max_cycles", max_cycles); ("poll_interval_ms", poll);
      ("fixed_handoff_path", VStr FIXED_P136_HANDOFF_PATH); ("expected_bundle_version", expected);
      ("handoff_version_polling", polling); ("heartbeat_interval_ms", heartbeat); ("readiness_path", readiness);
      ("readiness_stale_after_ms", stale); ("handoff_version_stale_after_ms", version_stale)].

Definition MODE_LIMITS : list string :=
  ["max_cycles"; "poll_interval_ms"; "heartbeat_interval_ms"; "readiness_stale_after_ms"; "handoff_version_stale_after_ms"].

Definition validate_continuous_mode (mode : val) (paths : list (string * string)) (limits : dict) : res unit :=
  let! value := _mapping mode "continuous_mode" in
  let! _ := kt_ensure (same_keys value CONTINUOUS_MODE_FIELDS) "invalid_continuous_mode_fields" in
  let! enabled := bool_value (vget value "enabled") "continuous_mode_enabled" in
  let! max_cycles := int_value (vget value "max_cycles") "continuous_mode_max_cycles" in
  let! poll := int_value (vget value "poll_interval_ms") "continuous_mode_poll_interval_ms" in
  let! heartbeat := int_value (vget value "heartbeat_interval_ms") "continuous_mode_heartbeat_interval_ms" in
  let! readiness := str_field _relative_path (vget value "readiness_path") "continuous_mode_readiness_path" in
  let! stale := int_value (vget value "readiness_stale_after_ms") "continuous_mode_readiness_stale_after_ms" in
  let! version_stale := int_value (vget value "handoff_version_stale_after_ms")
                          "continuous_mode_handoff_version_stale_after_ms" in
  let! expected := int_value (vget value "expected_bundle_version") "expected_bundle_version" in
  let! polling := bool_value (vget value "handoff_version_polling") "handoff_version_polling" in
  let! rebuilt := build_continuous_mode enabled max_cycles poll heartbeat readiness stale version_stale expected polling in
  let! _ := kt_ensure (py_eq (VDict value) (VDict rebuilt)) "continuous_mode_semantics_invalid" in
  let! _ := kt_ensure (py_eq (vget rebuilt "readiness_path") (VStr (default "" (dget paths "readiness_path"))))
              "continuous_mode_readiness_path_mismatch" in
  iterM (fun key => kt_ensure (py_eq (vget rebuilt key) (vget limits key)) ("continuous_mode_limit_mismatch:" +:+ key)) MODE_LIMITS.

(** ** The configuration *)

Definition PATH_KEYS : list string :=
  ["p136_handoff_bundle_path"; "checkpoint_path"; "lease_path"; "journal_dir"; "incident_dir"; "hypothesis_dir";
   "request_dir"; "classification_dir"; "heartbeat_path"; "readiness_path"; "termination_dir"; "ledger_path"].

(** The configuration without its hash. *)
Definition config_body (agent_id : string) (version : Z) (created_at base_dir state_root handoff_root : string)
    (paths : list (string * string)) (chain_root status : string) (catalog : list string)
    (correlation ranking classification mode limits authority : dict) : dict :=
  [("schema_version", VStr CONFIG_SCHEMA_VERSION); ("agent_id", VStr agent_id); ("config_version", VInt version);
   ("created_at", VStr created_at); ("base_dir_ref_hash", VStr base_dir); ("state_root_ref_hash", VStr state_root);
   ("handoff_root_ref_hash", VStr handoff_root)] ++
  map (fun kv => (kv.1, VStr kv.2)) paths ++
  [("p136_handoff_chain_root_hash", VStr chain_root); ("validated_p136_release_status", VStr status);
   ("allowed_request_catalog", vlist_of_strings catalog); ("correlation_policy", VDict correlation);
   ("ranking_policy", VDict ranking); ("classification_policy", VDict classification); ("continuous_mode", VDict mode);
   ("limits", VDict limits); ("forbidden_authority", VDict authority)].

Definition build_triage_agent_config (data : val) : res dict :=
  let! raw := _mapping data "config" in
  let! _ := _reject_unknown_missing raw _CONFIG_INPUT_FIELDS "config" in
  let! limits := _positive_int_map (vget raw "limits") LIMIT_KEYS "limit" in
  let! paths := mapM (fun key => let! p := _relative_path (vget raw key) key in Ok (key, p)) PATH_KEYS in
  let! _ := kt_ensure (default "" (dget paths HANDOFF_KEY) =s FIXED_P136_HANDOFF_PATH) "invalid_fixed_handoff_path" in
  let! _ := _validate_state_paths paths in
  let! correlation := _fixed_policy (vget raw "correlation_policy") "correlation_policy" CORRELATION_POLICY_SCHEMA_VERSION in
  let! ranking := _fixed_policy (vget raw "ranking_policy") "ranking_policy" RANKING_POLICY_SCHEMA_VERSION in
  let! classification := _mapping (vget raw "classification_policy") "classification_policy" in
  let! _ := validate_classification_policy (VDict classification) in
  let! mode := _mapping (vget raw "continuous_mode") "continuous_mode" in
  let! _ := validate_continuous_mode (VDict mode) paths limits in
  let! agent_id := _label (vget raw "agent_id") "agent_id" in
  let! version := _positive_int (vget raw "config_version") "config_version" in
  let! created_at := _timestamp (vget raw "created_at") "created_at" in
  let! base_dir := _hash (vget raw "base_dir_ref_hash") "base_dir_ref_hash" in
  let! state_root := _hash (vget raw "state_root_ref_hash") "state_root_ref_hash" in
  let! handoff_root := _hash (vget raw "handoff_root_ref_hash") "handoff_root_ref_hash" in
  let! chain_root := _hash (vget raw "p136_handoff_chain_root_hash") "p136_handoff_chain_root_hash" in
  let! status := _required_text (vget raw "validated_p136_release_status") "validated_p136_release_status" in
  let! catalog := _request_catalog (vget raw "allowed_request_catalog") in
  let! authority := _exact_counter_map (vget raw "forbidden_authority") FORBIDDEN_AUTHORITY_KEYS
                      "invalid_forbidden_authority_schema" true in
  let config := config_body agent_id version created_at base_dir state_root handoff_root paths chain_root status catalog
                  correlation ranking classification mode limits authority in
  let! _ := kt_ensure (status =s P136_QUALIFIED_RELEASE_STATUS) "invalid_p136_release_status" in
  let! _ := _reject_forbidden_text (VDict config) in
  Ok (config ++ [("config_hash", VStr (stable_hash (VDict config)))]).

Definition validate_triage_agent_config (config : val) : res unit :=
  let! value := _mapping config "config" in
  let! _ := kt_ensure (same_keys value CONFIG_FIELDS && py_eq (vget value "schema_version") (VStr CONFIG_SCHEMA_VERSION))
              "invalid_config_fields" in
  let! _ := kt_ensure (py_eq (vget value "config_hash") (VStr (stable_hash (VDict (dwithout ["config_hash"] value)))))
              "config_hash_invalid" in
  let! rebuilt := build_triage_agent_config (VDict (restrict value _CONFIG_INPUT_FIELDS)) in
  kt_ensure (py_eq (VDict rebuilt) (VDict value)) "config_semantics_invalid".
