(* ===== verification/P137ContractsProps.v ===== *)
(** * What the contracts of the triage guarantee

    What is built is accepted by validation, also after it was written and
    read back; which windows and reasons an evidence atom can have; and what
    an accepted configuration confines. *)

From stdpp Require Import sorting.
From S2P Require Import Prelude PyValue PyChecks Sha Json PyRegex PyTime TimeOrder PyFloat P137Checks P137Contracts.

#[local] Opaque stable_hash.

(** ** Timestamps *)

Definition time_char (c : ascii) : bool := is_digit c || one_of "-T:.Z" c.

Lemma time_char_safe c : time_char c = true -> starts PROMPT_OR_SECRET_RE c = false.
Proof. destruct c as [[] [] [] [] [] [] [] []]; vm_compute; done. Qed.

Lemma show2_time n : 0 <= n < 100 -> all_chars time_char (show2 n) = true.
Proof.
  intros Hn. assert (H : forallb (fun k => all_chars time_char (show2 (Z.of_nat k))) (seq 0 100) = true) by (vm_compute; reflexivity).
  rewrite forallb_forall in H. rewrite <- (Z2Nat.id n) by lia. apply H, in_seq. lia.
Qed.

Lemma utc_timestamp_time us : datetime_range us = true -> all_chars time_char (utc_timestamp us) = true.
Proof.
  unfold datetime_range. intros H. bools. unfold utc_timestamp, isoformat_us.
  destruct (isoformat_fields us) as (y & m & d & hh & mm & ss & -> & (Hy & Hm & Hd & Hd31 & Hh & Hmm & Hss) & _); [lia..|].
  assert (Hf := Z.mod_pos_bound us second ltac:(done)). unfold second in Hf.
  assert (Hy1 : 0 <= y / 100 < 100 /\ 0 <= y mod 100 < 100) by (Z.div_mod_to_equations; lia).
  unfold show4. destruct (us mod second =? 0); [|destruct (show6_parts (us mod second)) as (H6a & H6b & H6c & _); [done|]; unfold show6];
    repeat (rewrite all_chars_app; apply andb_true_iff; split); try done; apply show2_time; lia.
Qed.

Lemma time_text s label : s <> "" -> all_chars time_char s = true -> _required_text (VStr s) label = Ok s.
Proof.
  intros Hs H. unfold _required_text. replace (is_empty s) with false by (by destruct s).
  rewrite search_no_start; [done | reflexivity |]. revert H. clear Hs. induction s as [|c s IH]; [done|]. cbn [all_chars].
  intros H. apply andb_true_iff in H as [Hc H]. by rewrite time_char_safe, IH.
Qed.

Lemma utc_timestamp_not_empty us : utc_timestamp us <> "".
Proof. unfold utc_timestamp, isoformat_us, isoformat. by destruct (date_of_days _) as [[y m] d]. Qed.

Lemma ends_with_z_app s : ends_with_z (s +:+ "Z") = true.
Proof.
  unfold ends_with_z. rewrite length_string_app. cbn [String.length]. replace (String.length s + 1 - 1)%nat with (String.length s) by lia.
  by rewrite substring_drop.
Qed.

Lemma substring_app s t : String.substring 0 (String.length s) (s +:+ t) = s.
Proof. induction s as [|c s IH]; [by destruct t|]. exact (f_equal (String c) IH). Qed.

Lemma utc_candidate_z s : utc_candidate (s +:+ "Z") = s +:+ "+00:00".
Proof.
  unfold utc_candidate. rewrite ends_with_z_app, length_string_app. cbn [String.length].
  replace (String.length s + 1 - 1)%nat with (String.length s) by lia. by rewrite substring_app.
Qed.

(** A normalised timestamp stays as it is. *)
Lemma timestamp_again us label : datetime_range us = true -> _timestamp (VStr (utc_timestamp us)) label = Ok (utc_timestamp us).
Proof.
  intros H. unfold _timestamp. rewrite time_text by (apply utc_timestamp_not_empty || by apply utc_timestamp_time). cbn [bind].
  unfold utc_timestamp at 1. rewrite utc_candidate_z, read_isoformat_us by done. by rewrite Z.sub_0_r, H.
Qed.

Lemma timestamp_ok v label t : _timestamp v label = Ok t -> exists us, datetime_range us = true /\ t = utc_timestamp us.
Proof.
  unfold _timestamp. intros H. apply bind_ok in H as (s & _ & H).
  destruct (fromisoformat_offset _) as [[local [offset|]]|]; try done.
  destruct (datetime_range (local - offset)) eqn:E; [|done]. injection H as <-. eauto.
Qed.

(** The ends of a window are compared as text.  Given two times in UTC, a
    window from [s] to [e] is accepted exactly when the second of [s] is
    before that of [e], or it is the same and [e] has no fraction, or both
    have one and that of [s] is not larger.  So a window that starts on a
    whole second and ends within it is refused, and one that starts within a
    second and ends at its beginning is accepted. *)
Theorem window_order_is_textual s e : datetime_range s = true -> datetime_range e = true ->
  let window := VDict [("start", VStr (utc_timestamp s)); ("end", VStr (utc_timestamp e))] in
  (is_ok (_window window) = true <->
   s / second < e / second \/
   s / second = e / second /\ (e mod second = 0 \/ s mod second <> 0 /\ s mod second <= e mod second)) /\
  (s mod second = 0 -> e mod second = 0 -> is_ok (_window window) = true <-> s <= e) /\
  (s mod second = 0 -> s < e -> e / second = s / second -> _window window = Raise (P137ContractError "invalid_observed_window")) /\
  (s mod second <> 0 -> e = s - s mod second -> e < s /\ is_ok (_window window) = true).
Proof.
  intros Hs He window.
  assert (W : _window window = if String.leb (utc_timestamp s) (utc_timestamp e)
    then Ok [("start", VStr (utc_timestamp s)); ("end", VStr (utc_timestamp e))]
    else Raise (P137ContractError "invalid_observed_window")).
  { unfold _window, window. cbn [_mapping bind]. change (same_keys _ _) with true. cbn [kt_ensure ensure bind].
    change (vget _ "start") with (VStr (utc_timestamp s)). change (vget _ "end") with (VStr (utc_timestamp e)).
    rewrite !timestamp_again by done. cbn [bind]. by destruct (String.leb _ _). }
  pose proof (utc_timestamp_leb s e Hs He) as L. rewrite W. clear W.
  pose proof (Z.div_mod s second ltac:(done)) as Ds. pose proof (Z.div_mod e second ltac:(done)) as De.
  pose proof (Z.mod_pos_bound s second ltac:(done)). pose proof (Z.mod_pos_bound e second ltac:(done)).
  assert (Hl : forall (P : Prop), (String.leb (utc_timestamp s) (utc_timestamp e) = true <-> P) ->
    (is_ok (if String.leb (utc_timestamp s) (utc_timestamp e)
     then Ok [("start", VStr (utc_timestamp s)); ("end", VStr (utc_timestamp e))]
     else Raise (P137ContractError "invalid_observed_window")) = true <-> P)).
  { intros P HP. rewrite <- HP. by destruct (String.leb _ _). }
  split; [by apply Hl|]. split; [|split].
  - intros Zs Ze. apply Hl. rewrite L. unfold second in *. nia.
  - intros Zs Hlt Heq. destruct (String.leb _ _); [|done]. pose proof (proj1 L eq_refl). unfold second in *. nia.
  - intros Zs ->. split; [unfold second in *; lia|]. apply Hl with (P := True); [|done]. rewrite L. split; [done|]. intros _. right.
    assert (E : s - s mod second = (s / second) * second) by lia. rewrite E, Z_div_mult, Z_mod_mult by done. auto.
Qed.

(** ** Values that are checked again *)

#[local] Opaque PROMPT_OR_SECRET_RE.

(** A check that, given what it returned, or its JSON image, returns it
    again; and what it returns is a JSON value. *)
Definition settled (check : val -> string -> res val) : Prop :=
  forall v label w, check v label = Ok w -> _reject_forbidden_text w = Ok tt ->
    json_value w /\ forall label, check w label = Ok w /\ check (json_image w) label = Ok w.

Lemma contract_text_ok v label s : _required_text v label = Ok s -> v = VStr s.
Proof. unfold _required_text. destruct v; try done. destruct (is_empty s0); [done|]. destruct (search PROMPT_OR_SECRET_RE s0); [done|]. by intros [= ->]. Qed.

(** The label only names the value in a message. *)
Lemma required_text_again s label : _required_text (VStr s) label = Ok s -> forall label', _required_text (VStr s) label' = Ok s.
Proof. unfold _required_text. by destruct (is_empty s), (search PROMPT_OR_SECRET_RE s). Qed.

Lemma str_settled (check : val -> string -> res string) :
  (forall v label s, check v label = Ok s -> forall label', _required_text (VStr s) "text" = Ok s -> check (VStr s) label' = Ok s) ->
  settled (str_field check).
Proof.
  intros Hc v label w H Hr. unfold str_field in H. apply bind_ok in H as (s & H & E). injection E as <-.
  cbn [_reject_forbidden_text] in Hr. apply bind_ok in Hr as (s' & Hs & _).
  pose proof (contract_text_ok _ _ _ Hs) as E. injection E as <-.
  split; [done|]. intros label'. unfold str_field. cbn [json_image]. by rewrite (Hc _ _ _ H label' Hs).
Qed.

Lemma text_settled : settled (str_field _required_text).
Proof. apply str_settled. intros v label s H label' _. pose proof (contract_text_ok _ _ _ H) as ->. by eapply required_text_again. Qed.

Lemma label_settled : settled (str_field _label).
Proof.
  apply str_settled. intros v label s H label' Hs. unfold _label in *. apply bind_ok in H as (t & _ & H).
  apply bind_ok in H as (u & Hu & H). injection H as <-. apply ensure_ok in Hu.
  rewrite (required_text_again _ _ Hs). cbn [bind]. by rewrite Hu.
Qed.

Lemma enum_settled allowed : settled (enum_field allowed).
Proof.
  apply str_settled. intros v label s H label' Hs. unfold _enum in *. apply bind_ok in H as (t & _ & H).
  apply bind_ok in H as (u & Hu & H). injection H as <-. apply ensure_ok in Hu.
  rewrite (required_text_again _ _ Hs). cbn [bind]. by rewrite Hu.
Qed.

Lemma contract_hash_ok v label s : _hash v label = Ok s -> v = VStr s /\ sha256_ref s = true.
Proof. unfold _hash. destruct v; try done. destruct (sha256_ref s0) eqn:E; [|done]. by intros [= <-]. Qed.

Lemma contract_hash_run s label : sha256_ref s = true -> _hash (VStr s) label = Ok s.
Proof. unfold _hash. by intros ->. Qed.

Lemma hash_settled : settled (str_field _hash).
Proof. apply str_settled. intros v label s H label' _. apply contract_hash_ok in H as [_ H]. by apply contract_hash_run. Qed.

Lemma optional_hash_settled : settled _optional_hash.
Proof.
  intros v label w H Hr. unfold _optional_hash in H.
  assert (E : w = VNone \/ exists s, w = VStr s /\ sha256_ref s = true).
  { destruct v; try (injection H as <-; by left); apply bind_ok in H as (s' & Hs & H); injection H as <-;
      apply contract_hash_ok in Hs as [_ Hs]; eauto. }
  destruct E as [->|(s & -> & Hs)]; (split; [done|]); intros label'; [done|].
  unfold _optional_hash. cbn [json_image]. by rewrite contract_hash_run.
Qed.

Lemma timestamp_settled : settled (str_field _timestamp).
Proof.
  apply str_settled. intros v label s H label' _. apply timestamp_ok in H as (us & Hu & ->). by apply timestamp_again.
Qed.

Lemma bool_settled : settled (fun v label => let! b := _bool v label in Ok (VBool b)).
Proof. intros v label w H _. apply bind_ok in H as (b & _ & H). by injection H as <-. Qed.

Lemma positive_settled : settled (fun v label => let! z := _positive_int v label in Ok (VInt z)).
Proof.
  intros v label w H _. apply bind_ok in H as (z & Hz & H). injection H as <-. split; [done|]. intros label'.
  unfold _positive_int in Hz. destruct v; try done. destruct (0 <? z0) eqn:E; [|done]. injection Hz as <-. cbn. by rewrite E.
Qed.

Lemma window_settled : settled (fun v _ => let! w := _window v in Ok (VDict w)).
Proof.
  intros v label w H _. apply bind_ok in H as (d & H & E). injection E as <-.
  unfold _window in H. do 2 (apply bind_ok in H as (? & _ & H)). apply bind_ok in H as (s & Hs & H).
  apply bind_ok in H as (e & He & H). apply bind_ok in H as (u & Hu & H). injection H as <-. apply ensure_ok in Hu.
  apply timestamp_ok in Hs as (a & Ha & ->), He as (b & Hb & ->).
  split; [apply json_value_dict; split; [apply (bool_decide_unpack _); reflexivity | by repeat constructor]|].
  assert (R : forall d, same_keys d ["start"; "end"] = true -> vget d "start" = VStr (utc_timestamp a) ->
    vget d "end" = VStr (utc_timestamp b) ->
    _window (VDict d) = Ok [("start", VStr (utc_timestamp a)); ("end", VStr (utc_timestamp b))]).
  { intros d Hd Es Ee. unfold _window. cbn [_mapping bind]. rewrite Hd, Es, Ee. unfold kt_ensure. cbn [ensure bind].
    rewrite !timestamp_again by done. cbn [bind]. by rewrite Hu. }
  intros label'. split; [by rewrite R|]. rewrite json_image_dict, R; [done | | |].
  - by rewrite same_keys_image.
  - by rewrite vget_image.
  - by rewrite vget_image.
Qed.

Section SortedItems.
Context (check : val -> string -> res string).
Context (Hcheck : forall v label s, check v label = Ok s -> v = VStr s /\ forall label', check (VStr s) label' = Ok s).

Lemma mapM_checked label items l : mapM (fun item => check item label) items = Ok l ->
  Forall (fun s => forall label', check (VStr s) label' = Ok s) l.
Proof.
  intros H. apply mapM_ok in H. induction H as [|v s items l Hv _ IH]; constructor; [|exact IH]. by apply Hcheck in Hv as [_ ?].
Qed.

Lemma mapM_again label l : Forall (fun s => forall label', check (VStr s) label' = Ok s) l ->
  mapM (fun item => check item label) (map VStr l) = Ok l.
Proof. induction 1 as [|s l Hs _ IH]; [done|]. cbn [map mapM]. by rewrite Hs, IH. Qed.

Lemma sorted_items_ok v label l : sorted_items check v label = Ok l ->
  NoDup l /\ Forall (fun s => forall label', check (VStr s) label' = Ok s) l /\ sorted_strings l = l.
Proof.
  unfold sorted_items. intros H. apply bind_ok in H as (items & _ & H). apply bind_ok in H as (r & Hr & H).
  apply bind_ok in H as (u & Hu & H). apply (inj Ok) in H as <-. apply ensure_ok, bool_decide_eq_true in Hu.
  apply mapM_checked in Hr. unfold sorted_strings. split; [by rewrite isort_perm|].
  split; [by rewrite isort_perm|]. apply (by_key_idem (fun s => s)).
Qed.

Lemma sorted_items_again v label l : sorted_items check v label = Ok l ->
  forall label', sorted_items check (vlist_of_strings l) label' = Ok l.
Proof.
  intros H label'. apply sorted_items_ok in H as (Hn & Hl & Hs). unfold sorted_items, items_of, vlist_of_strings.
  cbn [as_seq bind]. rewrite mapM_again by done. cbn [bind]. rewrite bool_decide_true by done. cbn. by rewrite Hs.
Qed.
End SortedItems.

Lemma strings_settled (check : val -> string -> res (list string)) :
  (forall v label l, check v label = Ok l -> forall label', check (vlist_of_strings l) label' = Ok l) ->
  settled (strings_field check).
Proof.
  intros Hc v label w H _. unfold strings_field in *. apply bind_ok in H as (l & H & E). injection E as <-.
  split; [apply strings_json_value|]. intros label'. by rewrite strings_image, (Hc _ _ _ H).
Qed.

Lemma hash_checked v label s : _hash v label = Ok s -> v = VStr s /\ forall label', _hash (VStr s) label' = Ok s.
Proof. intros H. apply contract_hash_ok in H as [-> H]. split; [done|]. intros. by apply contract_hash_run. Qed.

Lemma text_checked v label s : _required_text v label = Ok s -> v = VStr s /\ forall label', _required_text (VStr s) label' = Ok s.
Proof. intros H. pose proof (contract_text_ok _ _ _ H) as ->. split; [done|]. by eapply required_text_again. Qed.

Lemma hash_list_settled : settled (strings_field _hash_list).
Proof. apply strings_settled. intros v label l H. apply (sorted_items_again _ hash_checked _ _ _ H). Qed.

Lemma text_list_settled : settled (strings_field _text_list).
Proof. apply strings_settled. intros v label l H. apply (sorted_items_again _ text_checked _ _ _ H). Qed.

Lemma closed_list_settled allowed : settled (strings_field (fun v label => _closed_text_list v label allowed)).
Proof.
  apply strings_settled. intros v label l H label'. unfold _closed_text_list in *. apply bind_ok in H as (r & Hr & H).
  apply bind_ok in H as (u & Hu & H). apply (inj Ok) in H as <-. apply ensure_ok in Hu.
  rewrite (sorted_items_again _ text_checked _ _ _ Hr). cbn [bind]. by rewrite Hu.
Qed.

Create HintDb settled.
#[export] Hint Resolve text_settled label_settled enum_settled hash_settled optional_hash_settled bool_settled
  positive_settled window_settled hash_list_settled text_list_settled closed_list_settled : settled.

Lemma atom_fields_settled : Forall (fun field => settled field.2) (atom_fields_before ++ atom_fields_after).
Proof. repeat (apply List.Forall_cons; [cbn [snd]; auto with settled|]). constructor. Qed.

(** ** The evidence atom *)

Definition safe (kv : string * val) : Prop := _reject_forbidden_text kv.2 = Ok tt.

Lemma reject_dict d : _reject_forbidden_text (VDict d) = Ok tt <-> Forall safe d.
Proof.
  change (iterM (fun item => item) (map (fun kv : string * val => _reject_forbidden_text kv.2) d) = Ok tt <-> Forall safe d).
  rewrite iterM_ok. apply List.Forall_map.
Qed.

(** The value of a key is that of the entry, or its JSON image. *)
Definition agrees (raw : dict) (kv : string * val) : Prop := vget raw kv.1 = kv.2 \/ vget raw kv.1 = json_image kv.2.

Lemma make_fields_keys fields raw d : make_fields fields raw = Ok d -> dkeys d = map fst fields.
Proof.
  unfold make_fields. intros H. apply mapM_ok in H. induction H as [|[k c] kv fields d Hk _ IH]; [done|].
  apply bind_ok in Hk as (v & _ & Hk). injection Hk as <-. unfold dkeys in *. cbn. by rewrite IH.
Qed.

Lemma make_fields_again fields raw d : Forall (fun field => settled field.2) fields -> make_fields fields raw = Ok d ->
  Forall safe d -> Forall (fun kv => json_value kv.2) d /\
  forall raw', Forall (agrees raw') d -> make_fields fields raw' = Ok d.
Proof.
  unfold make_fields. intros Hs H. apply mapM_ok in H. induction H as [|[k c] [k' w] fields d Hk _ IH]; [done|].
  apply Forall_cons in Hs as [Hc Hs]. apply bind_ok in Hk as (v & Hv & Hk). injection Hk as -> ->.
  intros Hd. apply Forall_cons in Hd as [Hw Hd]. destruct (IH Hs Hd) as [Hj Hr]. clear IH.
  destruct (Hc _ _ _ Hv Hw) as [Hjw Hcw]. split; [by constructor|]. intros raw' Ha. apply Forall_cons in Ha as [Hk Ha].
  cbn [mapM fst snd]. unfold agrees in Hk. cbn [fst snd] in Hk, Hcw. destruct (Hcw k') as [E1 E2]. destruct Hk as [->| ->]; [rewrite E1 | rewrite E2]; cbn [bind];
    by rewrite (Hr _ Ha).
Qed.

Lemma numeric_ok v n : _numeric_or_none v = Ok n -> n = v /\ json_value n /\ json_image n = n.
Proof.
  unfold _numeric_or_none. intros H. destruct v; try (cbn in H; done); [injection H as <-; done|..];
    apply bind_ok in H as ([?|] & _ & H); try done; by injection H as <-.
Qed.

Lemma vget_restrict value fields k : In k fields -> vget (restrict value fields) k = vget value k.
Proof.
  unfold restrict, vget at 1. intros Hk. induction fields as [|f fields IH]; [done|]. cbn [map dget].
  destruct (String.eqb_spec k f) as [->|Hn]; [done|]. apply IH. destruct Hk as [->|Hk]; done.
Qed.

Lemma restrict_keys value fields label : _reject_unknown_missing (restrict value fields) fields label = Ok tt.
Proof.
  assert (E : dkeys (restrict value fields) = fields).
  { unfold restrict, dkeys. rewrite map_map. cbn. by rewrite map_id. }
  unfold _reject_unknown_missing, kt_ensure, dmem. rewrite E.
  assert (F : forallb (fun k => mem k fields) fields = true) by (apply forallb_forall; intros k Hk; by apply mem_In).
  by rewrite F.
Qed.

Definition number_fields (number unit_ : val) : dict := [("numeric_value", number); ("numeric_unit", unit_)].

Definition atom_body (before after : dict) (number unit_ : val) : dict :=
  ("schema_version", VStr EVIDENCE_ATOM_SCHEMA_VERSION) :: before ++ number_fields number unit_ ++ after.

Definition unit_of (number v : val) : res val :=
  match number with VNone => Ok VNone | _ => str_field _required_text v "numeric_unit" end.

Lemma build_atom_ok data a : build_evidence_atom data = Ok a -> exists raw number unit_ before after,
  data = VDict raw /\ _numeric_or_none (vget raw "numeric_value") = Ok number /\
  unit_of number (vget raw "numeric_unit") = Ok unit_ /\ make_fields atom_fields_before raw = Ok before /\
  make_fields atom_fields_after raw = Ok after /\ Forall safe (atom_body before after number unit_) /\
  a = atom_body before after number unit_ ++ [("atom_hash", VStr (stable_hash (VDict (atom_body before after number unit_))))].
Proof.
  unfold build_evidence_atom. intros H. apply bind_ok in H as (raw & Hraw & H). apply bind_ok in H as (u & _ & H).
  apply bind_ok in H as (number & Hn & H). apply bind_ok in H as (unit_ & Hu & H).
  apply bind_ok in H as (before & Hb & H). apply bind_ok in H as (after & Ha & H).
  apply bind_ok in H as ([] & Hr & H). apply (inj Ok) in H as <-.
  exists raw, number, unit_, before, after. apply reject_dict in Hr.
  split; [by destruct data; try done; injection Hraw as ->|]. by split_and!.
Qed.

(** Building from the fields of a built atom builds the same atom. *)
Lemma build_atom_run raw before after number unit_ :
  _reject_unknown_missing raw EVIDENCE_ATOM_INPUT_FIELDS "evidence_atom" = Ok tt ->
  _numeric_or_none (vget raw "numeric_value") = Ok number -> unit_of number (vget raw "numeric_unit") = Ok unit_ ->
  make_fields atom_fields_before raw = Ok before -> make_fields atom_fields_after raw = Ok after ->
  Forall safe (atom_body before after number unit_) ->
  build_evidence_atom (VDict raw) =
    Ok (atom_body before after number unit_ ++ [("atom_hash", VStr (stable_hash (VDict (atom_body before after number unit_))))]).
Proof.
  intros Hk Hn Hu Hb Ha Hs. unfold build_evidence_atom. cbn [_mapping bind]. rewrite Hk, Hn. cbn [bind].
  unfold unit_of in Hu. rewrite Hu. cbn [bind]. rewrite Hb, Ha. cbn [bind].
  apply reject_dict in Hs. unfold atom_body, number_fields in Hs |- *. by rewrite Hs.
Qed.

Lemma dwithout_last (body : dict) k v : mem k (dkeys body) = false -> dwithout [k] (body ++ [(k, v)]) = body.
Proof.
  unfold dwithout. intros H. rewrite List.filter_app. cbn. rewrite eqs_refl. cbn. rewrite app_nil_r.
  induction body as [|[k' v'] body IH]; [done|]. cbn in H |- *. apply orb_false_iff in H as [H1 H2].
  rewrite String.eqb_sym in H1. rewrite H1. cbn. by rewrite IH.
Qed.

Lemma atom_body_keys before after raw raw' number unit_ :
  make_fields atom_fields_before raw = Ok before -> make_fields atom_fields_after raw' = Ok after ->
  dkeys (atom_body before after number unit_) =
    "schema_version" :: map fst atom_fields_before ++ ["numeric_value"; "numeric_unit"] ++ map fst atom_fields_after.
Proof.
  intros Hb Ha. apply make_fields_keys in Hb, Ha. unfold atom_body, dkeys in *. cbn [map fst].
  by rewrite !map_app, Hb, Ha.
Qed.

Lemma unit_ok number v unit_ : unit_of number v = Ok unit_ -> Forall safe (number_fields number unit_) ->
  json_value unit_ /\ json_image unit_ = unit_ /\ unit_of number unit_ = Ok unit_.
Proof.
  intros H Hs. unfold number_fields in Hs. apply Forall_cons in Hs as [_ Hs]. apply Forall_cons in Hs as [Hs _].
  assert (E : unit_ = VNone /\ number = VNone \/ str_field _required_text v "numeric_unit" = Ok unit_ /\ unit_of number unit_ =
    str_field _required_text unit_ "numeric_unit").
  { unfold unit_of in *. destruct number; try (by right). injection H as <-. by left. }
  destruct E as [[-> ->]|[E ->]]; [done|]. destruct (text_settled _ _ _ E Hs) as [Hj Hr]. split; [exact Hj|].
  destruct (Hr "numeric_unit") as [-> _]. unfold str_field in E. apply bind_ok in E as (t & _ & E). by injection E as <-.
Qed.

(** The fields of an atom, or of its JSON image. *)
Definition image_of (a a' : dict) : Prop := forall k, vget a' k = vget a k \/ vget a' k = json_image (vget a k).

Lemma agrees_restrict a a' d : image_of a a' -> Forall (fun kv => In kv.1 EVIDENCE_ATOM_INPUT_FIELDS) d ->
  (forall kv, In kv d -> vget a kv.1 = kv.2) -> Forall (agrees (restrict a' EVIDENCE_ATOM_INPUT_FIELDS)) d.
Proof.
  intros Hi Hk Hv. rewrite List.Forall_forall in *. intros kv Hkv. unfold agrees. rewrite vget_restrict by auto.
  rewrite <- (Hv _ Hkv). apply Hi.
Qed.

Lemma field_keys fields raw d l : make_fields fields raw = Ok d -> forallb (fun k => mem k l) (map fst fields) = true ->
  Forall (fun kv => In kv.1 l) d.
Proof.
  intros H Hl. apply make_fields_keys in H. rewrite <- H in Hl. unfold dkeys in Hl. rewrite forallb_forall in Hl.
  apply List.Forall_forall. intros kv Hkv. apply mem_In, Hl, in_map, Hkv.
Qed.

(** What validation looks at. *)
Record built (a : dict) : Prop := {
  bt_again : forall a', image_of a a' -> build_evidence_atom (VDict (restrict a' EVIDENCE_ATOM_INPUT_FIELDS)) = Ok a;
  bt_value : json_value (VDict a);
  bt_hash : vget a "atom_hash" = VStr (stable_hash (VDict (dwithout ["atom_hash"] a)));
  bt_keys : same_keys a EVIDENCE_ATOM_FIELDS = true;
  bt_schema : vget a "schema_version" = VStr EVIDENCE_ATOM_SCHEMA_VERSION
}.

Lemma atom_built data a : build_evidence_atom data = Ok a -> built a.
Proof.
  intros H. apply build_atom_ok in H as (raw & number & unit_ & before & after & _ & Hn & Hu & Hb & Ha & Hs & Ea).
  pose proof (atom_body_keys _ _ _ _ number unit_ Hb Ha) as Hk. set (body := atom_body before after number unit_) in *.
  assert (Hka : dkeys a = dkeys body ++ ["atom_hash"]) by (rewrite Ea; unfold dkeys; by rewrite map_app).
  rewrite Hk in Hka.
  assert (Hw : dict_wf a) by (unfold dict_wf; rewrite Hka; apply (bool_decide_unpack _); vm_compute; reflexivity).
  assert (Hin : forall kv, In kv body -> vget a kv.1 = kv.2).
  { intros [k v] Hkv. apply vget_some, In_dget; [exact Hw|]. rewrite Ea. apply in_app_iff. by left. }
  pose proof atom_fields_settled as Hset. apply Forall_app in Hset as [Hsb Hsa].
  unfold body, atom_body in Hs. apply Forall_cons in Hs as [Hs0 Hs]. apply Forall_app in Hs as [Hs1 Hs].
  apply Forall_app in Hs as [Hs2 Hs3].
  destruct (make_fields_again _ _ _ Hsb Hb Hs1) as [Jb Rb]. destruct (make_fields_again _ _ _ Hsa Ha Hs3) as [Ja Ra].
  destruct (numeric_ok _ _ Hn) as (En & Jn & In_). destruct (unit_ok _ _ _ Hu Hs2) as (Ju & Iu & Ru).
  constructor.
  - intros a' Hi. assert (Hnum : Forall (agrees (restrict a' EVIDENCE_ATOM_INPUT_FIELDS)) (number_fields number unit_)).
    { apply (agrees_restrict a); [exact Hi | repeat constructor; apply mem_In; reflexivity|].
      intros kv Hkv. apply Hin. right. apply in_app_iff. right. apply in_app_iff. by left. }
    apply Forall_cons in Hnum as [Hnum Hunit]. apply Forall_cons in Hunit as [Hunit _]. unfold agrees in Hnum, Hunit.
    cbn [fst snd] in Hnum, Hunit. rewrite In_ in Hnum. rewrite Iu in Hunit. rewrite Ea. apply build_atom_run.
    + apply restrict_keys.
    + rewrite <- En in Hn. by destruct Hnum as [->| ->].
    + by destruct Hunit as [->| ->].
    + apply Rb, (agrees_restrict a); [exact Hi | by eapply field_keys; [exact Hb|] |].
      intros kv Hkv. apply Hin. right. apply in_app_iff. by left.
    + apply Ra, (agrees_restrict a); [exact Hi | by eapply field_keys; [exact Ha|] |].
      intros kv Hkv. apply Hin. right. apply in_app_iff. right. apply in_app_iff. by right.
    + constructor; [exact Hs0|]. apply Forall_app. split; [exact Hs1|]. apply Forall_app. by split.
  - apply json_value_dict. split; [exact Hw|]. rewrite Ea. apply Forall_app. split; [|by repeat constructor].
    unfold body, atom_body, number_fields. constructor; [done|]. apply Forall_app. split; [exact Jb|].
    apply Forall_app. split; [by repeat constructor | exact Ja].
  - assert (Hnb : mem "atom_hash" (dkeys body) = false) by (rewrite Hk; vm_compute; reflexivity).
    rewrite Ea, dwithout_last by exact Hnb. apply vget_some, In_dget; [by rewrite <- Ea|]. apply in_app_iff. right. by left.
  - unfold same_keys. rewrite Hka. vm_compute. reflexivity.
  - apply (Hin ("schema_version", _)). by left.
Qed.

(** Validation sees the fields, the keys and the hash. *)
Lemma built_accepted a a' : built a -> image_of a a' -> same_keys a' EVIDENCE_ATOM_FIELDS = true ->
  stable_hash (VDict (dwithout ["atom_hash"] a')) = stable_hash (VDict (dwithout ["atom_hash"] a)) ->
  py_eq (VDict a) (VDict a') = true -> validate_evidence_atom (VDict a') = Ok tt.
Proof.
  intros B Hi Hk' Hs' He. unfold validate_evidence_atom. cbn [_mapping bind].
  assert (E1 : vget a' "schema_version" = VStr EVIDENCE_ATOM_SCHEMA_VERSION) by (destruct (Hi "schema_version") as [->| ->]; by rewrite (bt_schema _ B)).
  assert (E2 : vget a' "atom_hash" = vget a "atom_hash") by (destruct (Hi "atom_hash") as [->| ->]; [done | by rewrite (bt_hash _ B)]).
  rewrite Hk', E1, (proj2 (py_eq_str _ _) eq_refl). unfold kt_ensure. cbn [andb ensure bind]. rewrite (bt_again _ B a' Hi). cbn [bind].
  rewrite E2, (bt_hash _ B), Hs', (proj2 (py_eq_str _ _) eq_refl), He. reflexivity.
Qed.

Lemma built_reads_back a : built a -> validate_evidence_atom (VDict (dict_image a)) = Ok tt.
Proof.
  intros B. apply (built_accepted a); [exact B | right; apply vget_image | rewrite same_keys_image; exact (bt_keys _ B) |
    by rewrite stable_hash_without_image | by apply (py_eq_image_r (VDict a)), bt_value].
Qed.

(** An evidence atom that was built is accepted.  Validation accepts
    every atom [build_evidence_atom] returns, and accepts it again after it
    was written to a file and read back; building it once more from its own
    fields changes nothing: times, lists and codes are in their normal form. *)
Theorem built_atom_is_accepted data a : build_evidence_atom data = Ok a ->
  validate_evidence_atom (VDict a) = Ok tt /\ validate_evidence_atom (VDict (dict_image a)) = Ok tt /\
  build_evidence_atom (VDict (restrict a EVIDENCE_ATOM_INPUT_FIELDS)) = Ok a.
Proof.
  intros H. apply atom_built in H as B. split; [|split].
  - apply (built_accepted a); [exact B | by left | exact (bt_keys _ B) | done | by apply py_eq_refl, json_value_wf, bt_value].
  - by apply built_reads_back.
  - apply (bt_again _ B). by left.
Qed.

Definition CREDENTIAL_REASON : string := "credential_authority_required".

(** One reason code of the closed list can never be used.  Every code of
    the list is accepted alone as the reasons of an atom except
    [credential_authority_required], whose own name is refused as credential
    text; and no atom is ever built from data that list it. *)
Theorem credential_reason_is_refused :
  In CREDENTIAL_REASON STATE_REASON_CODES /\
  (forall c, In c STATE_REASON_CODES ->
     (is_ok (_closed_text_list (VList [VStr c]) "state_reason_codes" STATE_REASON_CODES) = true <-> c <> CREDENTIAL_REASON)) /\
  forall raw items a, as_seq (vget raw "state_reason_codes") = Some items -> In (VStr CREDENTIAL_REASON) items ->
    build_evidence_atom (VDict raw) <> Ok a.
Proof.
  split; [vm_compute; tauto|]. split.
  - assert (H : Forall (fun c => is_ok (_closed_text_list (VList [VStr c]) "state_reason_codes" STATE_REASON_CODES) =
                          negb (c =s CREDENTIAL_REASON)) STATE_REASON_CODES).
    { repeat (apply List.Forall_cons; [vm_compute; reflexivity|]). constructor. }
    intros c Hc. rewrite List.Forall_forall in H. rewrite (H c Hc), negb_true_iff. apply String.eqb_neq.
  - intros raw items a Hs Hin H. apply build_atom_ok in H as (raw' & number & unit_ & before & after & E & _ & _ & _ & Ha & _).
    injection E as <-. unfold make_fields in Ha. apply mapM_ok in Ha.
    apply (Forall2_lookup_l _ _ _ 5) with (x := nth 5 atom_fields_after ("", _optional_hash)) in Ha as (y & _ & Ha); [|reflexivity].
    cbn [nth atom_fields_after fst snd] in Ha. apply bind_ok in Ha as (w & Hw & _). unfold strings_field in Hw.
    apply bind_ok in Hw as (l & Hl & _). unfold _closed_text_list, _text_list, sorted_items, items_of in Hl.
    rewrite Hs in Hl. apply bind_ok in Hl as (l' & Hl & _). cbn [bind] in Hl. apply bind_ok in Hl as (r & Hr & _).
    apply mapM_ok in Hr. clear - Hr Hin. induction Hr as [|v s items r Hv _ IH]; [done|].
    destruct Hin as [->|Hin]; [|auto]. revert Hv. vm_compute. discriminate.
Qed.

(** ** Canonical bytes *)

Lemma hex_pair b : 0 <= b < 256 -> exists x y, hex2 (Z.to_N b) = String x (String y "") /\ is_hex x = true /\ is_hex y = true /\
  16 * hex_digit_value x + hex_digit_value y = b.
Proof.
  intros Hb.
  assert (H : forallb (fun n => match hex2 (Z.to_N (Z.of_nat n)) with
    | String x (String y EmptyString) => is_hex x && is_hex y && (16 * hex_digit_value x + hex_digit_value y =? Z.of_nat n)
    | _ => false end) (seq 0 256) = true) by (vm_compute; reflexivity).
  rewrite forallb_forall in H. specialize (H (Z.to_nat b)). rewrite Z2Nat.id in H by lia.
  assert (Hin : In (Z.to_nat b) (seq 0 256)) by (apply in_seq; lia). apply H in Hin.
  destruct (hex2 (Z.to_N b)) as [|x [|y [|]]]; try done. bools. exists x, y. by split_and!.
Qed.

Lemma fromhex_hex data : Forall (fun b => 0 <= b < 256) data -> fromhex (chars (hex data)) = data.
Proof.
  induction 1 as [|b data Hb _ IH]; [done|]. unfold hex in *. cbn [fold_right].
  destruct (hex_pair b Hb) as (x & y & -> & _ & _ & E). rewrite chars_app.
  change (chars (String x (String y ""))) with [x; y]. cbn [app fromhex]. by rewrite E, IH.
Qed.

Lemma hex_shape data : Forall (fun b => 0 <= b < 256) data ->
  all_chars is_hex (hex data) = true /\ String.length (hex data) = (2 * List.length data)%nat.
Proof.
  induction 1 as [|b data Hb _ [IH1 IH2]]; [done|]. unfold hex in *. cbn [fold_right].
  destruct (hex_pair b Hb) as (x & y & -> & Hx & Hy & _). rewrite all_chars_app, length_string_app, IH1, IH2.
  cbn [all_chars String.length List.length]. rewrite Hx, Hy. split; [done | lia].
Qed.

(** Canonical bytes survive their hexadecimal form.  The text of any
    bytes but none decodes to them, with their own hash and length; and a
    text that decodes is the text of the bytes it decodes to, which have the
    hash and the length that were expected. *)
Theorem canonical_hex_round_trip field :
  (forall data, data <> [] -> Forall (fun b => 0 <= b < 256) data ->
     decode_canonical_lower_hex (VStr (hex data)) field (Some (content_hash data)) (Some (Z.of_nat (List.length data))) = Ok data) /\
  forall v h n data, decode_canonical_lower_hex v field h n = Ok data ->
    v = VStr (hex data) /\ (forall h', h = Some h' -> h' = content_hash data) /\
    forall n', n = Some n' -> n' = Z.of_nat (List.length data).
Proof.
  split.
  - intros data Hne Hb. destruct (hex_shape data Hb) as [Hx Hl]. unfold decode_canonical_lower_hex.
    rewrite Hx, Hl, fromhex_hex, eqs_refl by done.
    replace (is_empty (hex data)) with false by (destruct data as [|z data]; [done|]; clear - Hl; destruct (hex (z :: data)); [cbn in Hl; lia | reflexivity]).
    rewrite Nat.even_mul. unfold kt_ensure. cbn [Nat.even negb orb andb ensure bind].
    rewrite contract_hash_run by (unfold content_hash; rewrite sha256_ref_prefix; unfold hex64;
      destruct (hexdigest_ok (Sha256.digest data)) as [-> ->]; by rewrite sha256_digest_length).
    cbn [bind]. rewrite eqs_refl. cbn [ensure bind]. unfold _nonnegative_int.
    replace (0 <=? Z.of_nat (List.length data)) with true by lia. cbn [bind]. by rewrite Z.eqb_refl.
  - intros v h n data H. unfold decode_canonical_lower_hex in H. destruct v; try done.
    apply bind_ok in H as (u & _ & H). apply bind_ok in H as (u' & Hh & H). apply ensure_ok, String.eqb_eq in Hh.
    apply bind_ok in H as ([] & Hhash & H). apply bind_ok in H as ([] & Hlen & H). injection H as <-.
    split; [by rewrite Hh|]. split.
    + intros h' ->. apply bind_ok in Hhash as (h2 & E & Hhash). apply contract_hash_ok in E as [E _]. injection E as ->.
      apply ensure_ok, String.eqb_eq in Hhash. done.
    + intros n' ->. apply bind_ok in Hlen as (n2 & E & Hlen). unfold _nonnegative_int in E.
      destruct (0 <=? n'); [|done]. injection E as <-. apply ensure_ok, Z.eqb_eq in Hlen. done.
Qed.

(** ** The configuration *)

Lemma relative_path_ok v label p : _relative_path v label = Ok p ->
  v = VStr p /\ (forall label', _relative_path (VStr p) label' = Ok p) /\
  path_root p = "" /\ Forall (fun part => part <> "." /\ part <> "..") (path_parts p).
Proof.
  unfold _relative_path. intros H. apply bind_ok in H as (t & Ht & H). destruct (text_checked _ _ _ Ht) as [-> Hr].
  apply bind_ok in H as (u & Hu & H). apply bind_ok in H as (u' & Hp & H). apply (inj Ok) in H as <-.
  apply ensure_ok, String.eqb_eq in Hp. rewrite Hp. apply ensure_ok in Hu. split; [done|]. split.
  - intros label'. rewrite Hr. cbn [bind]. rewrite Hu, Hp, eqs_refl. done.
  - apply andb_true_iff in Hu as [H1 H2]. split; [by destruct (path_root t)|].
    apply List.Forall_forall. intros part Hin. rewrite forallb_forall in H2. apply H2, negb_true_iff in Hin. cbn in Hin.
    split; intros ->; done.
Qed.

Definition read_paths (raw : dict) : res (list (string * string)) :=
  mapM (fun key => let! p := _relative_path (vget raw key) key in Ok (key, p)) PATH_KEYS.

Lemma read_paths_ok raw paths : read_paths raw = Ok paths ->
  dkeys paths = PATH_KEYS /\ Forall (fun kv => forall label, _relative_path (VStr kv.2) label = Ok kv.2) paths /\
  Forall (fun kv => path_root kv.2 = "" /\ Forall (fun part => part <> "." /\ part <> "..") (path_parts kv.2)) paths.
Proof.
  unfold read_paths. generalize PATH_KEYS. intros keys H. apply mapM_ok in H.
  induction H as [|k [k' p] keys paths Hk _ (IH1 & IH2 & IH3)]; [done|]. apply bind_ok in Hk as (p' & Hp & Hk). injection Hk as <- <-.
  apply relative_path_ok in Hp as (_ & Hr & Hroot & Hparts). cbn [dkeys map fst]. unfold dkeys in IH1. rewrite IH1. auto.
Qed.

Lemma read_paths_again raw paths : dkeys paths = PATH_KEYS ->
  Forall (fun kv => forall label, _relative_path (VStr kv.2) label = Ok kv.2) paths ->
  Forall (fun kv => vget raw kv.1 = VStr kv.2) paths -> read_paths raw = Ok paths.
Proof.
  unfold read_paths. intros <- H. induction H as [|[k p] paths Hp _ IH]; [done|]. intros Hv. apply Forall_cons in Hv as [Hk Hv].
  cbn in Hk, Hp. cbn [dkeys map mapM fst]. rewrite Hk, Hp. cbn [bind]. unfold dkeys in IH. by rewrite IH.
Qed.

Lemma starts_with_prefix l prefix : starts_with_parts l prefix = true <-> prefix `prefix_of` l.
Proof.
  revert l. induction prefix as [|p prefix IH]; intros l; [split; [intros _; apply prefix_nil | by destruct l]|].
  destruct l as [|x l]; cbn [starts_with_parts].
  - split; [done | intros H; by apply prefix_nil_not in H || by inversion H].
  - rewrite andb_true_iff, String.eqb_eq, IH. split.
    + intros [-> H]. by apply prefix_cons.
    + intros H. split; [symmetry; by eapply prefix_cons_inv_1 | by eapply prefix_cons_inv_2].
Qed.

(** Neither path is the other or inside it. *)
Definition separate (p q : string) : Prop :=
  ~ path_parts p `prefix_of` path_parts q /\ ~ path_parts q `prefix_of` path_parts p.

Lemma overlap_separate p q : _paths_overlap p q = false <-> separate p q.
Proof.
  unfold _paths_overlap, separate. rewrite orb_false_iff, <- !starts_with_prefix, !not_true_iff_false. tauto.
Qed.

Lemma state_paths_ok paths : dict_wf paths -> _validate_state_paths paths = Ok tt ->
  forall k p k' p', In (k, p) paths -> In (k', p') paths -> k <> k' -> k <> HANDOFF_KEY -> separate p p'.
Proof.
  intros Hw H k p k' p' Hin Hin' Hne Hk. unfold _validate_state_paths in H. apply iterM_ok in H.
  rewrite List.Forall_forall in H.
  assert (Hs : forall k p, In (k, p) paths -> k <> HANDOFF_KEY ->
    In (k, p) (List.filter (fun kv => negb (kv.1 =s HANDOFF_KEY)) paths)).
  { intros k0 p0 H0 Hn. apply filter_In. split; [done|]. cbn. by apply negb_true_iff, String.eqb_neq. }
  destruct (String.eqb_spec k' HANDOFF_KEY) as [->|Hk'].
  - specialize (H _ (Hs _ _ Hin Hk)). apply bind_ok in H as (u & Hu & _). apply ensure_ok, negb_true_iff in Hu.
    rewrite (In_dget paths _ _ Hw Hin') in Hu. by apply overlap_separate.
  - assert (Hlt : forall k p k' p', In (k, p) paths -> In (k', p') paths -> k <> HANDOFF_KEY -> k' <> HANDOFF_KEY ->
      String.leb k' k = false -> separate p p').
    { intros a pa b pb Ha Hb Na Nb Hab. specialize (H _ (Hs _ _ Ha Na)). apply bind_ok in H as (u & _ & H).
      apply iterM_ok in H. rewrite List.Forall_forall in H. specialize (H _ (Hs _ _ Hb Nb)). apply ensure_ok in H.
      cbn in H. rewrite Hab in H. by apply overlap_separate, negb_true_iff. }
    destruct (String.leb k' k) eqn:E1; [|by eapply Hlt; [exact Hin | exact Hin' | | |]].
    destruct (String.leb k k') eqn:E2; [by destruct Hne; apply string_leb_antisym|].
    apply Logic.and_comm. by eapply (Hlt k' p' k p).
Qed.

Lemma int_value_ok v label w : int_value v label = Ok w -> w = v /\ (exists z, v = VInt z /\ 0 < z) /\
  forall label', int_value v label' = Ok v.
Proof.
  unfold int_value, _positive_int. intros H. apply bind_ok in H as (z & Hz & H). injection H as <-.
  destruct v; try done. destruct (0 <? z0) eqn:E; [|done]. injection Hz as <-. split; [done|].
  split; [exists z0; split; [done | lia] | done].
Qed.

Lemma bool_value_ok v label w : bool_value v label = Ok w -> w = v /\ forall label', bool_value v label' = Ok v.
Proof. unfold bool_value, _bool. intros H. apply bind_ok in H as (b & Hb & H). injection H as <-. destruct v; try done. by injection Hb as <-. Qed.

Lemma relative_value_ok v label w : str_field _relative_path v label = Ok w -> w = v /\ exists p, v = VStr p.
Proof. unfold str_field. intros H. apply bind_ok in H as (p & Hp & H). injection H as <-. apply relative_path_ok in Hp as (-> & _). eauto. Qed.

Lemma py_eq_int_inv_r z v : py_eq (VInt z) v = true -> positive v = true -> v = VInt z.
Proof. destruct v; try done. rewrite py_eq_int. intros H _. f_equal. lia. Qed.

(** A validated mode agrees with the paths and the limits. *)
Lemma mode_ok mode paths limits : validate_continuous_mode (VDict mode) paths limits = Ok tt ->
  Forall (fun key => positive (vget limits key) = true) MODE_LIMITS ->
  vget mode "readiness_path" = VStr (default "" (dget paths "readiness_path")) /\
  Forall (fun key => vget mode key = vget limits key) MODE_LIMITS.
Proof.
  unfold validate_continuous_mode. cbn [_mapping bind]. intros H Hl. apply bind_ok in H as (? & _ & H).
  apply bind_ok in H as (w1 & H1 & H). apply bind_ok in H as (w2 & H2 & H). apply bind_ok in H as (w3 & H3 & H).
  apply bind_ok in H as (w4 & H4 & H). apply bind_ok in H as (w5 & H5 & H). apply bind_ok in H as (w6 & H6 & H).
  apply bind_ok in H as (w7 & H7 & H). apply bind_ok in H as (w8 & H8 & H). apply bind_ok in H as (w9 & H9 & H).
  apply int_value_ok in H2 as (-> & (z2 & E2 & _) & _), H3 as (-> & (z3 & E3 & _) & _), H4 as (-> & (z4 & E4 & _) & _),
    H6 as (-> & (z6 & E6 & _) & _), H7 as (-> & (z7 & E7 & _) & _).
  apply relative_value_ok in H5 as (-> & p & E5). apply bind_ok in H as (rebuilt & Hb & H).
  unfold build_continuous_mode in Hb. apply bind_ok in Hb as (b1 & _ & Hb). apply bind_ok in Hb as (b2 & B2 & Hb).
  apply bind_ok in Hb as (b3 & B3 & Hb). apply bind_ok in Hb as (b8 & _ & Hb). apply bind_ok in Hb as (b9 & _ & Hb).
  apply bind_ok in Hb as (b4 & B4 & Hb). apply bind_ok in Hb as (b5 & B5 & Hb). apply bind_ok in Hb as (b6 & B6 & Hb).
  apply bind_ok in Hb as (b7 & B7 & Hb). apply (inj Ok) in Hb as <-.
  apply int_value_ok in B2 as (-> & _), B3 as (-> & _), B4 as (-> & _), B6 as (-> & _), B7 as (-> & _).
  apply relative_value_ok in B5 as (-> & _).
  apply bind_ok in H as (? & _ & H). apply bind_ok in H as (u & Hr & H). apply ensure_ok in Hr.
  change (py_eq (vget mode "readiness_path") (VStr (default "" (dget paths "readiness_path"))) = true) in Hr.
  split; [by apply py_eq_str in Hr|]. apply iterM_ok in H.
  rewrite E2, E3, E4, E6, E7 in *. unfold MODE_LIMITS in *. repeat (apply Forall_cons in H as [?K H]; apply Forall_cons in Hl as [?L Hl]).
  apply ensure_ok in K, K0, K1, K2, K3.
  repeat (apply List.Forall_cons; [rewrite ?E2, ?E3, ?E4, ?E6, ?E7; symmetry; by apply py_eq_int_inv_r|]). constructor.
Qed.

Lemma limits_ok raw limits : _positive_int_map raw LIMIT_KEYS "limit" = Ok limits ->
  dkeys limits = LIMIT_KEYS /\ Forall (fun key => positive (vget limits key) = true) LIMIT_KEYS /\
  _positive_int_map (VDict limits) LIMIT_KEYS "limit" = Ok limits.
Proof.
  unfold _positive_int_map. intros H. apply bind_ok in H as (d & _ & H). apply bind_ok in H as (? & _ & H).
  cbn [_mapping bind].
  assert (K : dkeys limits = LIMIT_KEYS /\ Forall (fun kv => positive kv.2 = true) limits).
  { revert H. generalize LIMIT_KEYS. intros keys H. apply mapM_ok in H. induction H as [|k [k' v] keys l Hk _ [IH1 IH2]]; [done|].
    destruct (positive (vget d k)) eqn:E; [|done]. injection Hk as <- <-. unfold dkeys in *. cbn. by rewrite IH1; auto. }
  destruct K as [K1 K2]. assert (Hw : dict_wf limits) by (unfold dict_wf; rewrite K1; apply (bool_decide_unpack _); vm_compute; reflexivity).
  assert (Hv : forall kv, In kv limits -> vget limits kv.1 = kv.2) by (intros [k v] Hkv; by apply vget_some, In_dget).
  assert (Hp : Forall (fun key => positive (vget limits key) = true) LIMIT_KEYS).
  { rewrite <- K1. apply List.Forall_map, List.Forall_forall. intros kv Hkv. rewrite Hv by done. rewrite List.Forall_forall in K2. auto. }
  split; [done|]. split; [exact Hp|].
  assert (Hk : same_keys limits LIMIT_KEYS = true) by (unfold same_keys; rewrite K1; vm_compute; reflexivity).
  rewrite Hk. cbn [kt_ensure ensure bind]. rewrite <- K1. apply mapM_ok. unfold dkeys. clear - Hv K2.
  assert (G : forall l, incl l limits -> Forall2 (fun key y => (if positive (vget limits key) then Ok (key, vget limits key)
    else Raise (KE ("invalid_" +:+ "limit" +:+ ":" +:+ key))) = Ok y) (map fst l) l); [|apply G, incl_refl].
  induction l as [|kv l IH]; intros Hi; constructor; [|apply IH; intros x Hx; apply Hi; by right].
  rewrite Hv by (apply Hi; by left). rewrite List.Forall_forall in K2. rewrite K2 by (apply Hi; by left). by destruct kv.
Qed.

Lemma zero_authority_ok raw authority :
  _exact_counter_map raw FORBIDDEN_AUTHORITY_KEYS "invalid_forbidden_authority_schema" true = Ok authority ->
  authority = zero_forbidden_authority.
Proof.
  unfold _exact_counter_map, zero_forbidden_authority, zeros. intros H. apply bind_ok in H as (d & _ & H). apply bind_ok in H as (? & _ & H).
  revert H. generalize FORBIDDEN_AUTHORITY_KEYS. intros keys H. apply mapM_ok in H.
  induction H as [|k [k' v] keys l Hk _ IH]; [done|]. apply bind_ok in Hk as (? & _ & Hk). apply bind_ok in Hk as (u & Hz & Hk).
  apply ensure_ok in Hz. injection Hk as <- <-. cbn [map]. rewrite IH. do 2 f_equal. cbn [negb orb] in Hz.
  unfold is_zero, is_int in Hz. destruct (vget d k); try done. apply Z.eqb_eq in Hz. by subst.
Qed.

Lemma authority_again :
  _exact_counter_map (VDict zero_forbidden_authority) FORBIDDEN_AUTHORITY_KEYS "invalid_forbidden_authority_schema" true =
  Ok zero_forbidden_authority.
Proof. vm_compute. reflexivity. Qed.

Lemma catalog_ok v catalog : _request_catalog v = Ok catalog -> catalog = ALLOWED_REQUEST_CATALOG.
Proof.
  unfold _request_catalog. intros H. destruct (as_seq v); [|done]. apply bind_ok in H as (u & Hu & H).
  apply (inj Ok) in H as <-. by apply ensure_ok, bool_decide_eq_true in Hu.
Qed.

Lemma catalog_again : _request_catalog (vlist_of_strings ALLOWED_REQUEST_CATALOG) = Ok ALLOWED_REQUEST_CATALOG.
Proof. vm_compute. reflexivity. Qed.

Lemma fixed_policy_ok v label schema policy : _fixed_policy v label schema = Ok policy ->
  policy = [("schema_version", VStr schema)] /\ forall label', _fixed_policy (VDict policy) label' schema = Ok policy.
Proof.
  unfold _fixed_policy. intros H. apply bind_ok in H as (d & _ & H). apply bind_ok in H as (u & _ & H).
  apply (inj Ok) in H as <-. split; [done|]. intros label'. cbn [_mapping bind]. change (same_keys _ _) with true.
  change (vget _ "schema_version") with (VStr schema). by rewrite (proj2 (py_eq_str _ _) eq_refl).
Qed.

(** What building a configuration establishes of its parts. *)
Record parts := {
  pt_agent_id : string; pt_version : Z; pt_created_at : string; pt_base_dir : string; pt_state_root : string;
  pt_handoff_root : string; pt_paths : list (string * string); pt_chain_root : string; pt_status : string;
  pt_catalog : list string; pt_correlation : dict; pt_ranking : dict; pt_classification : dict; pt_mode : dict;
  pt_limits : dict; pt_authority : dict
}.

Definition body_of (p : parts) : dict :=
  config_body (pt_agent_id p) (pt_version p) (pt_created_at p) (pt_base_dir p) (pt_state_root p) (pt_handoff_root p)
    (pt_paths p) (pt_chain_root p) (pt_status p) (pt_catalog p) (pt_correlation p) (pt_ranking p) (pt_classification p)
    (pt_mode p) (pt_limits p) (pt_authority p).

Definition config_of (p : parts) : dict := body_of p ++ [("config_hash", VStr (stable_hash (VDict (body_of p))))].

Record sound (p : parts) : Prop := {
  so_agent_id : _label (VStr (pt_agent_id p)) "agent_id" = Ok (pt_agent_id p);
  so_version : _positive_int (VInt (pt_version p)) "config_version" = Ok (pt_version p);
  so_created_at : _timestamp (VStr (pt_created_at p)) "created_at" = Ok (pt_created_at p);
  so_base_dir : sha256_ref (pt_base_dir p) = true;
  so_state_root : sha256_ref (pt_state_root p) = true;
  so_handoff_root : sha256_ref (pt_handoff_root p) = true;
  so_chain_root : sha256_ref (pt_chain_root p) = true;
  so_status : pt_status p = P136_QUALIFIED_RELEASE_STATUS;
  so_path_keys : dkeys (pt_paths p) = PATH_KEYS;
  so_paths : Forall (fun kv => forall label, _relative_path (VStr kv.2) label = Ok kv.2) (pt_paths p);
  so_parts : Forall (fun kv => path_root kv.2 = "" /\ Forall (fun part => part <> "." /\ part <> "..") (path_parts kv.2)) (pt_paths p);
  so_handoff : default "" (dget (pt_paths p) HANDOFF_KEY) = FIXED_P136_HANDOFF_PATH;
  so_separate : _validate_state_paths (pt_paths p) = Ok tt;
  so_catalog : pt_catalog p = ALLOWED_REQUEST_CATALOG;
  so_correlation : _fixed_policy (VDict (pt_correlation p)) "correlation_policy" CORRELATION_POLICY_SCHEMA_VERSION = Ok (pt_correlation p);
  so_ranking : _fixed_policy (VDict (pt_ranking p)) "ranking_policy" RANKING_POLICY_SCHEMA_VERSION = Ok (pt_ranking p);
  so_classification : validate_classification_policy (VDict (pt_classification p)) = Ok tt;
  so_mode : validate_continuous_mode (VDict (pt_mode p)) (pt_paths p) (pt_limits p) = Ok tt;
  so_limits : _positive_int_map (VDict (pt_limits p)) LIMIT_KEYS "limit" = Ok (pt_limits p);
  so_positive : Forall (fun key => positive (vget (pt_limits p) key) = true) LIMIT_KEYS;
  so_authority : pt_authority p = zero_forbidden_authority;
  so_safe : Forall safe (body_of p)
}.

Lemma mapping_wf v label d : _mapping v label = Ok d -> val_wf v -> val_wf (VDict d).
Proof. destruct v; try done. by intros [= ->]. Qed.

Lemma build_config_ok data c : build_triage_agent_config data = Ok c ->
  exists p, sound p /\ c = config_of p /\
    (val_wf data -> val_wf (VDict (pt_mode p)) /\ val_wf (VDict (pt_classification p))).
Proof.
  unfold build_triage_agent_config. intros H. apply bind_ok in H as (raw & Hraw & H). apply bind_ok in H as ([] & _ & H).
  apply bind_ok in H as (limits & Hl & H). apply bind_ok in H as (paths & Hp & H). apply bind_ok in H as (u1 & Hh & H).
  apply ensure_ok, String.eqb_eq in Hh. apply bind_ok in H as ([] & Hs & H).
  apply bind_ok in H as (correlation & Hco & H). apply bind_ok in H as (ranking & Hra & H).
  apply bind_ok in H as (classification & Hclm & H). apply bind_ok in H as ([] & Hcl & H).
  apply bind_ok in H as (mode & Hmm & H). apply bind_ok in H as ([] & Hm & H).
  apply bind_ok in H as (agent_id & Ha & H). apply bind_ok in H as (version & Hv & H). apply bind_ok in H as (created & Hc & H).
  apply bind_ok in H as (base & Hb & H). apply bind_ok in H as (state & Hst & H). apply bind_ok in H as (handoff & Hho & H).
  apply bind_ok in H as (chain & Hch & H). apply bind_ok in H as (status & _ & H). apply bind_ok in H as (catalog & Hca & H).
  apply bind_ok in H as (authority & Hau & H). apply bind_ok in H as (u2 & Hstat & H). apply ensure_ok, String.eqb_eq in Hstat.
  apply bind_ok in H as ([] & Hr & H). apply (inj Ok) in H as <-. apply reject_dict in Hr.
  apply limits_ok in Hl as (_ & Hlp & Hl). apply read_paths_ok in Hp as (Hp1 & Hp2 & Hp3).
  apply fixed_policy_ok in Hco as [_ Hco], Hra as [_ Hra]. apply zero_authority_ok in Hau. apply catalog_ok in Hca.
  apply contract_hash_ok in Hb as [_ Hb], Hst as [_ Hst], Hho as [_ Hho], Hch as [_ Hch].
  exists (Build_parts agent_id version created base state handoff paths chain status catalog correlation ranking classification
            mode limits authority).
  split; [|split; [done|]].
  2: { intros Hw. pose proof (mapping_wf _ _ _ Hraw Hw) as Hr'. split; (eapply mapping_wf; [eassumption|]); by apply vget_wf. }
  constructor; cbn [pt_agent_id pt_version pt_created_at pt_base_dir pt_state_root pt_handoff_root pt_paths pt_chain_root pt_status
    pt_catalog pt_correlation pt_ranking pt_classification pt_mode pt_limits pt_authority]; try done.
  - unfold _label in Ha. apply bind_ok in Ha as (t & Ht & Ha). apply bind_ok in Ha as (u & Hu & Ha). apply (inj Ok) in Ha as <-.
    apply text_checked in Ht as [_ Ht]. unfold _label. rewrite Ht. cbn [bind]. by rewrite (proj1 (ensure_ok _ _ _) Hu).
  - unfold _positive_int in Hv |- *. destruct (vget raw "config_version"); try done. destruct (0 <? z) eqn:E; [|done].
    injection Hv as <-. by rewrite E.
  - apply timestamp_ok in Hc as (us & Hus & ->). by apply timestamp_again.
Qed.

Definition CONFIG_BODY_KEYS : list string :=
  ["schema_version"; "agent_id"; "config_version"; "created_at"; "base_dir_ref_hash"; "state_root_ref_hash";
   "handoff_root_ref_hash"] ++ PATH_KEYS ++
  ["p136_handoff_chain_root_hash"; "validated_p136_release_status"; "allowed_request_catalog"; "correlation_policy";
   "ranking_policy"; "classification_policy"; "continuous_mode"; "limits"; "forbidden_authority"].

Lemma body_keys p : dkeys (pt_paths p) = PATH_KEYS -> dkeys (body_of p) = CONFIG_BODY_KEYS.
Proof.
  intros H. unfold body_of, config_body, dkeys, CONFIG_BODY_KEYS in *. rewrite !map_app, map_map. cbn [map fst].
  change (map (fun kv : string * string => kv.1) (pt_paths p)) with (map fst (pt_paths p)). by rewrite H.
Qed.

Lemma config_keys p : dkeys (pt_paths p) = PATH_KEYS -> dkeys (config_of p) = CONFIG_BODY_KEYS ++ ["config_hash"].
Proof. intros H. unfold config_of. rewrite <- (body_keys p H). unfold dkeys. by rewrite map_app. Qed.

Lemma config_wf p : dkeys (pt_paths p) = PATH_KEYS -> dict_wf (config_of p).
Proof. intros H. unfold dict_wf. rewrite config_keys by done. apply (bool_decide_unpack _). vm_compute. reflexivity. Qed.

(** The value of an entry of the configuration. *)
Lemma config_get p k v : sound p -> In (k, v) (config_of p) -> vget (config_of p) k = v.
Proof. intros Hs Hin. apply vget_some, In_dget; [by apply config_wf, so_path_keys | done]. Qed.

Lemma status_again label : _required_text (VStr P136_QUALIFIED_RELEASE_STATUS) label = Ok P136_QUALIFIED_RELEASE_STATUS.
Proof. vm_compute. reflexivity. Qed.

(** Building from the parts gives the configuration they make. *)
Lemma build_config_run p raw : sound p -> _reject_unknown_missing raw _CONFIG_INPUT_FIELDS "config" = Ok tt ->
  Forall (fun kv => vget raw kv.1 = kv.2) (tl (body_of p)) -> build_triage_agent_config (VDict raw) = Ok (config_of p).
Proof.
  intros Hs Hk Hv. unfold body_of, config_body in Hv. cbn [tl app] in Hv.
  repeat (apply Forall_cons in Hv as [? Hv]; cbn [fst snd] in *). apply Forall_app in Hv as [Hp Hv].
  apply List.Forall_map in Hp. cbn [fst snd] in Hp.
  repeat (apply Forall_cons in Hv as [? Hv]; cbn [fst snd] in *).
  pose proof (read_paths_again _ _ (so_path_keys p Hs) (so_paths p Hs) Hp) as Hr. unfold read_paths in Hr.
  unfold build_triage_agent_config. eapply bind_run; [reflexivity|]. eapply bind_run; [exact Hk|].
  repeat match goal with E : vget raw _ = _ |- _ => rewrite E; clear E end.
  eapply bind_run; [exact (so_limits p Hs)|]. eapply bind_run; [exact Hr|].
  eapply bind_run; [by apply ensure_run, String.eqb_eq, so_handoff|]. eapply bind_run; [exact (so_separate p Hs)|].
  eapply bind_run; [exact (so_correlation p Hs)|]. eapply bind_run; [exact (so_ranking p Hs)|].
  eapply bind_run; [reflexivity|]. eapply bind_run; [exact (so_classification p Hs)|].
  eapply bind_run; [reflexivity|]. eapply bind_run; [exact (so_mode p Hs)|]. eapply bind_run; [exact (so_agent_id p Hs)|].
  eapply bind_run; [exact (so_version p Hs)|]. eapply bind_run; [exact (so_created_at p Hs)|].
  eapply bind_run; [exact (contract_hash_run _ _ (so_base_dir p Hs))|].
  eapply bind_run; [exact (contract_hash_run _ _ (so_state_root p Hs))|].
  eapply bind_run; [exact (contract_hash_run _ _ (so_handoff_root p Hs))|].
  eapply bind_run; [exact (contract_hash_run _ _ (so_chain_root p Hs))|].
  eapply bind_run; [rewrite (so_status p Hs); exact (status_again _)|].
  eapply bind_run; [rewrite (so_catalog p Hs); exact catalog_again|].
  eapply bind_run; [rewrite (so_authority p Hs); exact authority_again|].
  pose proof (so_safe p Hs) as Hsafe. apply reject_dict in Hsafe. unfold config_of. revert Hsafe. unfold body_of.
  rewrite (so_status p Hs), (so_catalog p Hs), (so_authority p Hs). intros Hsafe.
  eapply bind_run; [by apply ensure_run, String.eqb_eq|]. eapply bind_run; [exact Hsafe|]. reflexivity.
Qed.

(** C27: an accepted configuration confines the agent.  Whatever data it was
    built from, each of its twelve paths is relative and has no ["."] or
    [".."] part, the one of the handoff is the fixed one, and no two of them
    are equal or one inside the other; every forbidden authority is zero; the
    catalog of requests is the closed one; every limit is a positive integer,
    and the continuous mode has the limits and the readiness path that the
    rest of the configuration gives. *)
Theorem accepted_config_is_confined data c : build_triage_agent_config data = Ok c ->
  (forall k, In k PATH_KEYS -> exists p, vget c k = VStr p /\ path_root p = "" /\
     Forall (fun part => part <> "." /\ part <> "..") (path_parts p)) /\
  vget c HANDOFF_KEY = VStr FIXED_P136_HANDOFF_PATH /\
  (forall k k' p p', In k PATH_KEYS -> In k' PATH_KEYS -> k <> k' -> vget c k = VStr p -> vget c k' = VStr p' -> separate p p') /\
  vget c "forbidden_authority" = VDict zero_forbidden_authority /\
  vget c "allowed_request_catalog" = vlist_of_strings ALLOWED_REQUEST_CATALOG /\
  exists limits mode, vget c "limits" = VDict limits /\ vget c "continuous_mode" = VDict mode /\
    Forall (fun key => positive (vget limits key) = true) LIMIT_KEYS /\
    vget mode "readiness_path" = vget c "readiness_path" /\
    Forall (fun key => vget mode key = vget limits key) MODE_LIMITS.
Proof.
  intros H. apply build_config_ok in H as (p & Hs & -> & _).
  pose proof (so_path_keys p Hs) as Hk.
  assert (Hw : dict_wf (pt_paths p)) by (unfold dict_wf; rewrite Hk; apply (bool_decide_unpack _); vm_compute; reflexivity).
  assert (Hget : forall k v, In (k, v) (pt_paths p) -> vget (config_of p) k = VStr v).
  { intros k v Hin. apply config_get; [done|]. unfold config_of, body_of, config_body. rewrite !in_app_iff. left. right. left.
    apply in_map_iff. by exists (k, v). }
  assert (Hpath : forall k, In k PATH_KEYS -> exists v, In (k, v) (pt_paths p)).
  { intros k Hin. rewrite <- Hk in Hin. apply in_map_iff in Hin as ([k' v] & <- & Hin). eauto. }
  assert (Hrest : forall k v, In (k, v) (body_of p) -> vget (config_of p) k = v).
  { intros k v Hin. apply config_get; [done|]. apply in_app_iff. by left. }
  split; [|split; [|split; [|split; [|split]]]].
  - intros k Hin. destruct (Hpath k Hin) as (v & Hv). exists v. split; [by apply Hget|].
    pose proof (so_parts p Hs) as Hp. rewrite List.Forall_forall in Hp. exact (Hp _ Hv).
  - destruct (Hpath HANDOFF_KEY) as (v & Hv); [by left|]. rewrite (Hget _ _ Hv), <- (so_handoff p Hs).
    by rewrite (In_dget _ _ _ Hw Hv).
  - intros k k' a b Ha Hb Hne Ea Eb. destruct (Hpath k Ha) as (v & Hv), (Hpath k' Hb) as (v' & Hv').
    rewrite (Hget _ _ Hv) in Ea. rewrite (Hget _ _ Hv') in Eb. injection Ea as <-. injection Eb as <-.
    pose proof (state_paths_ok _ Hw (so_separate p Hs)) as Hsep.
    destruct (String.eqb_spec k HANDOFF_KEY) as [->|Hn]; [|exact (Hsep _ _ _ _ Hv Hv' Hne Hn)].
    apply Logic.and_comm, (Hsep _ _ _ _ Hv' Hv); congruence.
  - rewrite (Hrest _ (VDict (pt_authority p))); [by rewrite (so_authority p Hs)|]. unfold body_of, config_body.
    rewrite !in_app_iff. do 2 right. simpl. tauto.
  - rewrite (Hrest _ (vlist_of_strings (pt_catalog p))); [by rewrite (so_catalog p Hs)|]. unfold body_of, config_body.
    rewrite !in_app_iff. do 2 right. simpl. tauto.
  - exists (pt_limits p), (pt_mode p).
    pose proof (so_positive p Hs) as Hpos.
    destruct (mode_ok _ _ _ (so_mode p Hs)) as [Hr Hm].
    { apply List.Forall_forall. intros key Hin. rewrite List.Forall_forall in Hpos. apply Hpos. revert Hin. vm_compute. tauto. }
    split; [|split; [|split; [done|split; [|done]]]]; try (apply Hrest; unfold body_of, config_body; rewrite !in_app_iff; do 2 right; simpl; tauto).
    destruct (Hpath "readiness_path") as (v & Hv); [by apply mem_In|]. by rewrite Hr, (Hget _ _ Hv), (In_dget _ _ _ Hw Hv).
Qed.

(** A dictionary whose values are all integers. *)
Lemma positive_dict_wf limits : dkeys limits = LIMIT_KEYS -> Forall (fun key => positive (vget limits key) = true) LIMIT_KEYS ->
  val_wf (VDict limits).
Proof.
  intros Hk Hp.
  assert (Hw : dict_wf limits) by (unfold dict_wf; rewrite Hk; apply (bool_decide_unpack _); vm_compute; reflexivity).
  apply val_wf_dict. split; [done|]. rewrite <- Hk in Hp. apply List.Forall_map in Hp.
  rewrite List.Forall_forall in *. intros [k v] Hin. specialize (Hp _ Hin). cbn in Hp.
  rewrite (vget_some limits k v (In_dget _ _ _ Hw Hin)) in Hp. by destruct v.
Qed.

Lemma policy_wf v label schema policy : _fixed_policy v label schema = Ok policy -> val_wf (VDict policy).
Proof.
  intros H. apply fixed_policy_ok in H as [-> _]. apply val_wf_dict.
  split; [apply (bool_decide_unpack _); reflexivity | by repeat constructor].
Qed.

Lemma authority_wf : val_wf (VDict zero_forbidden_authority).
Proof.
  apply val_wf_dict. split; [apply (bool_decide_unpack _); vm_compute; reflexivity|].
  unfold zero_forbidden_authority, zeros. by apply List.Forall_map, List.Forall_forall.
Qed.

Lemma config_value_wf p : sound p -> val_wf (VDict (pt_mode p)) -> val_wf (VDict (pt_classification p)) ->
  val_wf (VDict (config_of p)).
Proof.
  intros Hs Hm Hc. apply val_wf_dict. split; [by apply config_wf, so_path_keys|].
  pose proof (limits_ok _ _ (so_limits p Hs)) as (Hl & Hp & _). pose proof (positive_dict_wf _ Hl Hp) as Hlw.
  pose proof (policy_wf _ _ _ _ (so_correlation p Hs)) as Hco. pose proof (policy_wf _ _ _ _ (so_ranking p Hs)) as Hra.
  pose proof authority_wf as Hau. rewrite <- (so_authority p Hs) in Hau. pose proof (strings_wf (pt_catalog p)) as Hca.
  unfold config_of. apply Forall_app. split; [|apply List.Forall_cons; [exact I | apply List.Forall_nil]].
  unfold body_of, config_body. apply Forall_app. split; [|apply Forall_app; split].
  - repeat (apply List.Forall_cons; [exact I|]). apply List.Forall_nil.
  - by apply List.Forall_map, List.Forall_forall.
  - repeat (apply List.Forall_cons; [first [exact I | assumption]|]). apply List.Forall_nil.
Qed.

Lemma restrict_config p : sound p ->
  Forall (fun kv => vget (restrict (config_of p) _CONFIG_INPUT_FIELDS) kv.1 = kv.2) (tl (body_of p)).
Proof.
  intros Hs. apply List.Forall_forall. intros [k v] Hin. cbn [fst snd]. rewrite vget_restrict.
  - apply config_get; [done|]. unfold config_of. apply in_app_iff. left. by right.
  - assert (Hk : In k (tl (dkeys (body_of p)))) by (apply (in_map fst) in Hin; exact Hin).
    rewrite (body_keys p (so_path_keys p Hs)) in Hk. revert Hk. vm_compute. tauto.
Qed.

(** What is built from the fields of a built configuration. *)
Lemma built_config_validates data c : val_wf data -> build_triage_agent_config data = Ok c ->
  build_triage_agent_config (VDict (restrict c _CONFIG_INPUT_FIELDS)) = Ok c /\
  validate_triage_agent_config (VDict c) = Ok tt /\
  validate_exact_self_hash (VDict c) CONFIG_FIELDS CONFIG_SCHEMA_VERSION "config_hash" "config" = Ok tt.
Proof.
  intros Hw H. apply build_config_ok in H as (p & Hs & -> & Hparts). destruct (Hparts Hw) as [Hm Hc].
  assert (Hb : build_triage_agent_config (VDict (restrict (config_of p) _CONFIG_INPUT_FIELDS)) = Ok (config_of p)).
  { apply build_config_run; [done | apply restrict_keys | by apply restrict_config]. }
  assert (Hk : same_keys (config_of p) CONFIG_FIELDS = true).
  { unfold same_keys. rewrite (config_keys p (so_path_keys p Hs)). vm_compute. reflexivity. }
  assert (Hv : vget (config_of p) "schema_version" = VStr CONFIG_SCHEMA_VERSION).
  { apply config_get; [done|]. by left. }
  assert (Hh : vget (config_of p) "config_hash" = VStr (stable_hash (VDict (dwithout ["config_hash"] (config_of p))))).
  { apply config_get; [done|]. unfold config_of at 2. apply in_app_iff. right. left. do 2 f_equal.
    unfold config_of. rewrite dwithout_last; [done|]. rewrite (body_keys p (so_path_keys p Hs)). vm_compute. reflexivity. }
  split; [exact Hb|]. split.
  - unfold validate_triage_agent_config. eapply bind_run; [reflexivity|].
    eapply bind_run; [apply ensure_run; by rewrite Hk, Hv, (proj2 (py_eq_str _ _) eq_refl)|].
    eapply bind_run; [apply ensure_run; by rewrite Hh, (proj2 (py_eq_str _ _) eq_refl)|].
    eapply bind_run; [exact Hb|]. by apply ensure_run, py_eq_refl, config_value_wf.
  - unfold validate_exact_self_hash. eapply bind_run; [reflexivity|].
    eapply bind_run; [apply ensure_run; by rewrite Hk, Hv, (proj2 (py_eq_str _ _) eq_refl)|].
    apply ensure_run. by rewrite Hh, (proj2 (py_eq_str _ _) eq_refl).
Qed.

(** C34: a configuration that was built is accepted.  Building a second time
    from the fields of a built configuration gives the same one, with the
    same hash, and validation accepts it: the paths, the times, the limits,
    the policies and the continuous mode are in a form their own checks keep,
    whatever form they were given in. *)
Theorem built_config_is_accepted data c : val_wf data -> build_triage_agent_config data = Ok c ->
  build_triage_agent_config (VDict (restrict c _CONFIG_INPUT_FIELDS)) = Ok c /\
  validate_triage_agent_config (VDict c) = Ok tt /\
  validate_exact_self_hash (VDict c) CONFIG_FIELDS CONFIG_SCHEMA_VERSION "config_hash" "config" = Ok tt.
Proof. intros Hw H. by apply (built_config_validates data). Qed.

(** ** What acceptance says of the parts *)

Lemma accepted_parts config : validate_triage_agent_config (VDict config) = Ok tt -> exists mode paths limits,
  _positive_int_map (vget config "limits") LIMIT_KEYS "limit" = Ok limits /\ vget config "continuous_mode" = VDict mode /\
  validate_continuous_mode (VDict mode) paths limits = Ok tt.
Proof.
  unfold validate_triage_agent_config. intros H. cbn [_mapping bind] in H.
  do 2 (apply bind_ok in H as (? & _ & H)). apply bind_ok in H as (rebuilt & H & _).
  unfold build_triage_agent_config in H. cbn [_mapping bind] in H. apply bind_ok in H as (? & _ & H).
  apply bind_ok in H as (limits & Hl & H). apply bind_ok in H as (paths & _ & H). do 6 (apply bind_ok in H as (? & _ & H)).
  apply bind_ok in H as (mode & Hm & H). apply bind_ok in H as ([] & Hv & _).
  rewrite vget_restrict in Hm, Hl by (apply mem_In; reflexivity). exists mode, paths, limits. split; [exact Hl|].
  split; [|exact Hv]. unfold _mapping in Hm. destruct (vget config "continuous_mode"); try discriminate. by injection Hm as ->.
Qed.

(** An accepted configuration has its limits and the numbers of its mode. *)
Lemma accepted_limit config key : validate_triage_agent_config (VDict config) = Ok tt -> In key LIMIT_KEYS ->
  exists limits z, vget config "limits" = VDict limits /\ vget limits key = VInt z /\ 0 < z.
Proof.
  intros H Hk. destruct (accepted_parts _ H) as (mode & paths & limits & Hl & _). clear H. unfold _positive_int_map in Hl.
  apply bind_ok in Hl as (raw & Hr & Hl). unfold _mapping in Hr. destruct (vget config "limits") as [| | | | | | |d]; try discriminate.
  injection Hr as ->. apply bind_ok in Hl as (? & _ & Hl). apply mapM_ok in Hl. exists raw.
  induction Hl as [|key' kv keys limits Hkv _ IH]; [done|]. destruct Hk as [->|Hk]; [|by apply IH].
  destruct (positive (vget raw key)) eqn:E; [|discriminate]. unfold positive, is_int in E.
  destruct (vget raw key) as [| |z| | | | |]; try discriminate. exists z. split; [done|]. split; [done | lia].
Qed.

Lemma accepted_mode_int config key : validate_triage_agent_config (VDict config) = Ok tt ->
  In key ["max_cycles"; "poll_interval_ms"; "heartbeat_interval_ms"; "expected_bundle_version"] ->
  exists mode z, vget config "continuous_mode" = VDict mode /\ vget mode key = VInt z /\ 0 < z.
Proof.
  intros H Hk. destruct (accepted_parts _ H) as (mode & paths & limits & _ & -> & Hv). clear H.
  unfold validate_continuous_mode in Hv. cbn [_mapping bind] in Hv. do 2 (apply bind_ok in Hv as (? & _ & Hv)).
  apply bind_ok in Hv as (c & Hc & Hv). apply bind_ok in Hv as (p & Hp & Hv). apply bind_ok in Hv as (h & Hh & Hv).
  do 3 (apply bind_ok in Hv as (? & _ & Hv)). apply bind_ok in Hv as (e & He & _).
  assert (Int : forall v label w, int_value v label = Ok w -> exists z, v = VInt z /\ 0 < z).
  { intros v label w Hw. apply int_value_ok in Hw as (_ & Hw & _). exact Hw. }
  exists mode. destruct Hk as [<-|[<-|[<-|[<-|[]]]]]; [apply Int in Hc as (z & ?) | apply Int in Hp as (z & ?) |
    apply Int in Hh as (z & ?) | apply Int in He as (z & ?)]; exists z; tauto.
Qed.
