(* ===== verification/P137ContractsWitness.v ===== *)
(** * Concrete contracts of the triage

    A window within one second, an evidence atom and a configuration are
    built, and the theorems on the contracts applied to them. *)

From S2P Require Import Prelude PyValue PyChecks Sha Json PyTime P137Contracts P137ContractsProps.

(** ** A window *)

(** A tenth of a second, and a whole one. *)
Lemma window_order_is_textual_witness :
  _window (VDict [("start", VStr (utc_timestamp 0)); ("end", VStr (utc_timestamp 100000))]) =
    Raise (P137ContractError "invalid_observed_window") /\
  is_ok (_window (VDict [("start", VStr (utc_timestamp 100000)); ("end", VStr (utc_timestamp 0))])) = true.
Proof.
  split.
  - apply (window_order_is_textual 0 100000); [reflexivity | reflexivity | reflexivity | reflexivity | reflexivity].
  - apply (window_order_is_textual 100000 0); [reflexivity | reflexivity | discriminate | reflexivity].
Defined.

(** ** An atom *)

Definition demo_hash (c : string) : val := VStr ("sha256:" +:+ str_join "" (repeat c 64)).

(** Times and lists are not in their normal form. *)
Definition demo_atom_data : dict :=
  [("atom_id", VStr "atom-1"); ("promotion_record_hash", demo_hash "1"); ("promotion_key", demo_hash "2");
   ("p136_entry_hash", demo_hash "3"); ("p135_bundle_hash", demo_hash "4"); ("source_id", VStr "metrics");
   ("provider", VStr "prometheus"); ("format", VStr "json"); ("signal_family", VStr "metric"); ("system_id", VStr "billing");
   ("entity_ref_hash", demo_hash "5");
   ("window", VDict [("start", VStr "2026-07-01T12:00:00+02:00"); ("end", VStr "2026-07-01T10:05:00Z")]);
   ("signal_name", VStr "error_rate"); ("numeric_value", VInt 7); ("numeric_unit", VStr "percent");
   ("evidence_state", VStr "promoted_success"); ("severity_code", VStr "sev1"); ("metric_breach_code", VStr "above_critical");
   ("marker_code", VStr "none"); ("counter_signal_code", VStr "none");
   ("state_reason_codes", VTuple [VStr "redaction_failure"; VStr "parser_failure"]); ("denominator_visible", VBool true);
   ("content_hash", VNone); ("label_hashes", VList [demo_hash "b"; demo_hash "a"]); ("topology_ref_hashes", VList []);
   ("deploy_config_ref_hashes", VList []); ("risk_flags", VList []); ("redacted_preview_hash", demo_hash "c");
   ("ordinal", VInt 1)].

Definition demo_built_atom : dict := from_ok [] (build_evidence_atom (VDict demo_atom_data)).

Lemma demo_built_atom_ok : build_evidence_atom (VDict demo_atom_data) = Ok demo_built_atom.
Proof. apply from_ok_eq. vm_compute. reflexivity. Qed.

Example demo_built_atom_window :
  vget demo_built_atom "window" = VDict [("start", VStr "2026-07-01T10:00:00Z"); ("end", VStr "2026-07-01T10:05:00Z")].
Proof. vm_compute. reflexivity. Qed.

Lemma built_atom_is_accepted_witness :
  validate_evidence_atom (VDict demo_built_atom) = Ok tt /\ validate_evidence_atom (VDict (dict_image demo_built_atom)) = Ok tt /\
  build_evidence_atom (VDict (restrict demo_built_atom EVIDENCE_ATOM_INPUT_FIELDS)) = Ok demo_built_atom.
Proof. exact (built_atom_is_accepted (VDict demo_atom_data) demo_built_atom demo_built_atom_ok). Defined.

(** ** A configuration *)

Definition demo_thresholds : dict :=
  [("error_rate", VDict [("percent", VDict [("warning_lower", VNone); ("critical_lower", VNone); ("warning_upper", VInt 5);
                                            ("critical_upper", VInt 10)])])].

Definition demo_policy : dict := from_ok [] (build_classification_policy demo_thresholds (VInt 500) (VInt 2000)).

Definition demo_limits : dict := map (fun key => (key, VInt 100)) LIMIT_KEYS.

Definition demo_mode : dict :=
  from_ok [] (build_continuous_mode (VBool true) (VInt 100) (VInt 100) (VInt 100) (VStr "state/readiness.json") (VInt 100) (VInt 100)
                (VInt 1) (VBool false)).

Definition demo_config_data : dict :=
  [("agent_id", VStr "triage-1"); ("config_version", VInt 1); ("created_at", VStr "2026-07-01T12:00:00+02:00");
   ("base_dir_ref_hash", demo_hash "1"); ("state_root_ref_hash", demo_hash "2"); ("handoff_root_ref_hash", demo_hash "3");
   ("p136_handoff_bundle_path", VStr FIXED_P136_HANDOFF_PATH); ("p136_handoff_chain_root_hash", demo_hash "4");
   ("checkpoint_path", VStr "state/checkpoint.json"); ("lease_path", VStr "state/lease.json"); ("journal_dir", VStr "state/journal");
   ("incident_dir", VStr "state/incidents"); ("hypothesis_dir", VStr "state/hypotheses"); ("request_dir", VStr "state/requests");
   ("classification_dir", VStr "state/classifications"); ("heartbeat_path", VStr "state/heartbeat.json");
   ("readiness_path", VStr "state/readiness.json"); ("termination_dir", VStr "state/termination");
   ("ledger_path", VStr "state/ledger.json"); ("validated_p136_release_status", VStr P136_QUALIFIED_RELEASE_STATUS);
   ("allowed_request_catalog", vlist_of_strings ALLOWED_REQUEST_CATALOG);
   ("correlation_policy", VDict build_correlation_policy);
   ("ranking_policy", VDict build_ranking_policy);
   ("classification_policy", VDict demo_policy); ("continuous_mode", VDict demo_mode); ("limits", VDict demo_limits);
   ("forbidden_authority", VDict zero_forbidden_authority)].

Definition demo_triage_config : dict := from_ok [] (build_triage_agent_config (VDict demo_config_data)).

Lemma demo_triage_config_ok : build_triage_agent_config (VDict demo_config_data) = Ok demo_triage_config.
Proof. apply from_ok_eq. vm_compute. reflexivity. Qed.

(** The same configuration whose ledger is inside the directory of the
    journal is refused. *)
Example ledger_inside_journal_is_refused :
  build_triage_agent_config (VDict (dset demo_config_data "ledger_path" (VStr "state/journal/ledger.json"))) =
    Raise (P137ContractError "state_paths_overlap").
Proof. vm_compute. reflexivity. Qed.

Lemma accepted_config_is_confined_witness :
  build_triage_agent_config (VDict demo_config_data) = Ok demo_triage_config /\
  vget demo_triage_config HANDOFF_KEY = VStr FIXED_P136_HANDOFF_PATH /\
  vget demo_triage_config "forbidden_authority" = VDict zero_forbidden_authority.
Proof.
  destruct (accepted_config_is_confined (VDict demo_config_data) demo_triage_config demo_triage_config_ok) as (_ & H1 & _ & H2 & _).
  exact (conj demo_triage_config_ok (conj H1 H2)).
Defined.

(** A closed value is well formed: its keys are compared by evaluation. *)
Ltac value_wf :=
  vm_compute; repeat match goal with
  | |- _ /\ _ => split
  | |- True => exact I
  | |- _ => apply (bool_decide_unpack _); vm_compute; reflexivity
  end.

Lemma demo_policy_wf : val_wf (VDict demo_policy).
Proof. value_wf. Qed.

Lemma demo_mode_wf : val_wf (VDict demo_mode).
Proof. value_wf. Qed.

Lemma demo_limits_wf : val_wf (VDict demo_limits).
Proof. value_wf. Qed.

Lemma demo_config_data_wf : val_wf (VDict demo_config_data).
Proof.
  apply val_wf_dict. split; [apply (bool_decide_unpack _); vm_compute; reflexivity|].
  repeat (apply List.Forall_cons; [|]); try exact I; try apply List.Forall_nil; cbn [snd].
  - apply strings_wf.
  - value_wf.
  - value_wf.
  - exact demo_policy_wf.
  - exact demo_mode_wf.
  - exact demo_limits_wf.
  - exact authority_wf.
Qed.

Lemma built_config_is_accepted_witness :
  build_triage_agent_config (VDict (restrict demo_triage_config _CONFIG_INPUT_FIELDS)) = Ok demo_triage_config /\
  validate_triage_agent_config (VDict demo_triage_config) = Ok tt /\
  validate_exact_self_hash (VDict demo_triage_config) CONFIG_FIELDS CONFIG_SCHEMA_VERSION "config_hash" "config" = Ok tt.
Proof. exact (built_config_is_accepted (VDict demo_config_data) demo_triage_config demo_config_data_wf demo_triage_config_ok). Defined.
