(* ===== verification/P137Handoff.v ===== *)
(** * The handoff from the observer

    Models the validation half of app/services/p137_p136_handoff.py: the
    envelope of a bundle, the bytes it carries, and the evidence atoms its
    promotions become.  [json_loads] and the four validators of the
    observer's own modules are parameters.  P137Publisher models the other
    half. *)

From S2P Require Import Prelude PyValue PyChecks Sha P137Checks P137Contracts.

Definition BUNDLE_SCHEMA_VERSION : string := "p137.p136_handoff_bundle.v1".
Definition BUNDLE_FIELDS : list string :=
  ["schema_version"; "bundle_version"; "bundle_sequence"; "previous_bundle_hash"; "handoff_chain_root_hash"; "created_at";
   "p136_config"; "p136_config_hash"; "p136_runtime_authority"; "now"; "p136_checkpoint"; "p136_checkpoint_hash";
   "canonical_entry_map"; "promotion_map"; "p136_independent_review"; "p136_independent_review_hash";
   "p136_release_evidence"; "p136_release_evidence_hash"; "descriptors"; "canonical_byte_hashes"; "fixed_handoff_path";
   "write_durability"; "bundle_hash"].
Definition P136_AUTHORITY_FIELDS : list string :=
  ["contract"; "review_receipt"; "receipt_ledger"; "index_receipts"; "segment_receipts"; "contract_bytes";
   "review_receipt_bytes"; "receipt_ledger_bytes"; "index_receipt_bytes"; "segment_receipt_bytes"].

Definition P137HandoffError (msg : string) : exn := Exn "P137HandoffError" msg.
Notation HE := P137HandoffError.
Definition ho_ensure (b : bool) (msg : string) : res unit := ensure b (HE msg).

(** ** Single values *)

Definition _mapping (v : val) (label : string) : res dict :=
  match v with VDict d => Ok d | _ => Raise (HE ("invalid_" +:+ label +:+ "_shape")) end.

Definition _sequence (v : val) (label : string) : res (list val) :=
  match as_seq v with Some l => Ok l | None => Raise (HE ("invalid_" +:+ label +:+ "_shape")) end.

Definition _hash (v : val) (label : string) : res string :=
  match v with
  | VStr s => if startswith "sha256:" s && (String.length s =? 71)%nat then Ok s else Raise (HE ("invalid_hash:" +:+ label))
  | _ => Raise (HE ("invalid_hash:" +:+ label))
  end.

Definition _positive_int (v : val) (label : string) : res Z :=
  match v with
  | VInt z => if 0 <? z then Ok z else Raise (HE ("invalid_positive_int:" +:+ label))
  | _ => Raise (HE ("invalid_positive_int:" +:+ label))
  end.

Definition canonical_json_bytes (value : dict) : string := json_dumps (VDict value).

(** ** Atoms of a promotion *)

Definition _validate_denominator_failure_conversion (bundle : dict) : res unit :=
  let! reason := match vget bundle "failure_reason" with
                 | VStr s => if is_empty s then Raise (HE "invalid_p135_failure_reason") else Ok s
                 | _ => Raise (HE "invalid_p135_failure_reason")
                 end in
  let! records := _sequence (vget bundle "records") "records" in
  let! record := match records with [r] => _mapping r "record" | _ => Raise (HE "invalid_p135_failure_records") end in
  let! p120 := _mapping (vget record "p120_record") "p120_record" in
  let! reasons := _sequence (vget p120 "state_reasons") "state_reasons" in
  let! _ := ho_ensure (py_eq (vget p120 "evidence_state") (VStr "fail_closed") &&
                       match reasons with [r] => py_eq r (VStr reason) | _ => false end) "p135_failure_reason_mismatch" in
  let! labels := _mapping (vget p120 "labels") "labels" in
  ho_ensure (match dget labels "failure_reason" with Some v => py_eq v (VStr reason) | None => true end)
    "p135_failure_label_mismatch".

Definition CONTEXT_STATES : list string :=
  ["missing_evidence"; "contradiction"; "ood"; "investigate_more"; "abstain"; "escalate"; "context"; "fail_closed"].

Definition _atom_state (status evidence_state : string) : res string :=
  if status =s "denominator_failure"
  then let! _ := ho_ensure (evidence_state =s "fail_closed") "denominator_failure_not_fail_closed" in
       Ok "denominator_visible_failure"
  else if (status =s "success") && (evidence_state =s "valid") then Ok "promoted_success"
  else if (status =s "success") && mem evidence_state CONTEXT_STATES then Ok "context_only"
  else Raise (HE "invalid_promotion_atom_state").

Definition PARSER_REASONS : list string :=
  ["unsupported_modality"; "unsupported_modality_hidden"; "missing_telemetry_record_id"; "missing_source_id";
   "missing_system_id"; "missing_service_id"; "missing_entity_ref"; "missing_modality"; "missing_observed_at";
   "missing_window"; "missing_signal_name"; "missing_unit"; "nullable_metric_preserved"; "missing_redaction_receipt";
   "invalid_normalization_version"; "telemetry_dropped_from_denominator"; "invalid_evidence_state"].
Definition PROVENANCE_REASONS : list string :=
  ["authority_drift_visible"; "p120_raw_ref_source_hash_mismatch"; "p120_raw_ref_record_id_mismatch";
   "record_source_hash_mismatch"; "record_source_id_mismatch"; "record_source_schema_mismatch"].
Definition SELECTABLE_REASONS : list string :=
  ["timestamp_uncertainty_visible"; "timestamp_skew_visible"; "delayed_record_visible"; "duplicate_record_visible";
   "reorder_visible"; "contradictory_telemetry_visible"; "stale_record"].
Definition OWN_REASONS : list string :=
  ["redaction_failure"; "provider_authority_required"; "network_authority_required"; "credential_authority_required";
   "operator_authority_required"; "action_authority_required"].

(** The code a reason of the telemetry record stands for. *)
Definition reason_code (reason : string) : res string :=
  if mem reason PARSER_REASONS then Ok "parser_failure"
  else if mem reason PROVENANCE_REASONS then Ok "provenance_failure"
  else if mem reason SELECTABLE_REASONS then Ok "local_catalog_selectable"
  else if mem reason OWN_REASONS then Ok reason
  else Raise (HE "p120_state_reason_unmapped").

Definition _state_reason_codes (status : string) (p120 : dict) : res (list string) :=
  if status =s "denominator_failure" then Ok ["local_catalog_selectable"; "p135_adapter_failure"] else
  let! reasons := _sequence (vget p120 "state_reasons") "state_reasons" in
  let! codes := mapM (fun reason => reason_code (py_str reason)) reasons in
  Ok (sorted_set codes).

Definition _entity_ref_hash (v : val) : string :=
  match v with
  | VStr s => if startswith "sha256:" s && (String.length s =? 71)%nat then s else stable_hash v
  | _ => stable_hash v
  end.

Definition _severity_code (v : val) : string :=
  let normalized := lower (py_str v) in
  if mem normalized ["sev0"; "sev1"; "sev2"; "sev3"; "sev4"] then normalized else "unknown".

Definition not_empty {A} (l : list A) : bool := match l with [] => false | _ => true end.

Definition _marker_code (p120 : dict) (risk_flags : list string) (topology_refs deploy_config_refs : list val) : string :=
  if mem "known_benign_schedule" risk_flags then "known_benign_schedule"
  else if mem "topology_noise" risk_flags then "topology_noise"
  else if not_empty deploy_config_refs then "deployment_marker"
  else if not_empty topology_refs then "topology_marker"
  else if existsb (fun flag => mem flag risk_flags) ["prompt_like_text"; "credential_like_text"; "unsafe_action_request"]
  then "security_marker"
  else if py_eq (vget p120 "signal_name") (VStr "data_quality") then "data_quality_marker"
  else if py_eq (vget p120 "modality") (VStr "topology") then "topology_noise"
  else "none".

Definition _counter_signal_code (risk_flags : list string) : string :=
  if mem "decisive_counter_signal" risk_flags then "decisive_counter_signal"
  else if mem "weak_counter_signal" risk_flags then "weak_counter_signal"
  else "none".

(** [isinstance(v, (int, float)) and not isinstance(v, bool)] *)
Definition plain_number (v : val) : option Q :=
  match v with VInt z => Some (inject_Z z) | VFloat q => Some q | _ => None end.

(** Does the value cross the bound [key], and which code does that give? *)
Definition crossed (bounds : dict) (value : Q) (key : string) (below : bool) : bool :=
  match plain_number (vget bounds key) with
  | Some bound => if below then Qle_bool value bound else Qle_bool bound value
  | None => false
  end.

Definition _metric_breach_code (signal_name : string) (numeric_value numeric_unit : val) (policy : dict) : string :=
  match plain_number numeric_value, numeric_unit with
  | Some value, VStr unit_ =>
      match vget policy "metric_thresholds" with
      | VDict thresholds =>
          match vget thresholds signal_name with
          | VDict by_signal =>
              match vget by_signal unit_ with
              | VDict bounds =>
                  if negb (same_keys bounds ["warning_lower"; "critical_lower"; "warning_upper"; "critical_upper"]) then "none"
                  else if crossed bounds value "critical_lower" true then "below_critical"
                  else if crossed bounds value "critical_upper" false then "above_critical"
                  else if crossed bounds value "warning_lower" true then "below_warning"
                  else if crossed bounds value "warning_upper" false then "above_warning"
                  else "none"
              | _ => "none"
              end
          | _ => "none"
          end
      | _ => "none"
      end
  | _, _ => "none"
  end.

(** [str(evidence_id).removeprefix("sha256:")[:32]] *)
Definition short_id (v : val) : string :=
  let s := py_str v in
  String.substring 0 32 (if startswith "sha256:" s then String.substring 7 (String.length s) s else s).

Definition hashes_of (l : list val) : val := vlist_of_strings (sorted_strings (map stable_hash l)).

(** The data of the atom of one normalised record. *)
Definition atom_data (promotion bundle record : dict) (status : string) (policy : dict) : res dict :=
  let! p120 := vindex record "p120_record" in
  let! p120 := _mapping p120 "p120_record" in
  let! source_state := vindex p120 "evidence_state" in
  let! evidence_state := _atom_state status (py_str source_state) in
  let numeric := vget p120 "value" in
  let! _ := ho_ensure (negb (is_bool numeric)) "p120_numeric_value_bool" in
  let numeric_value := match plain_number numeric with Some _ => numeric | None => VNone end in
  let numeric_unit := match plain_number numeric with Some _ => vget p120 "unit" | None => VNone end in
  let! codes := _state_reason_codes status p120 in
  let! flags := _sequence (vget record "risk_flags") "risk_flags" in
  let risk_flags := sorted_strings (map py_str flags) in
  let! topology_refs := _sequence (vget p120 "topology_refs") "topology_refs" in
  let! deploy_config_refs := _sequence (vget p120 "deploy_config_refs") "deploy_config_refs" in
  let! labels := _mapping (vget p120 "labels") "labels" in
  let preview := vget record "redacted_preview" in
  let! evidence_id := vindex record "evidence_id" in
  let! promotion_hash := vindex promotion "promotion_hash" in
  let! promotion_key := vindex promotion "promotion_key" in
  let! entry_hash := vindex promotion "entry_hash" in
  let! bundle_hash := vindex promotion "p135_normalized_bundle_hash" in
  let! source_id := vindex p120 "source_id" in
  let! provider := vindex record "provider" in
  let! format := vindex record "format" in
  let! signal_family := vindex bundle "signal_family" in
  let! system_id := vindex p120 "system_id" in
  let! entity_ref := vindex p120 "entity_ref" in
  let! window := _mapping (vget p120 "window") "window" in
  let! signal_name := vindex p120 "signal_name" in
  let! visible := vindex p120 "denominator_visible" in
  let! content_hash := vindex record "content_hash" in
  let! ordinal := vindex record "ordinal" in
  Ok [("atom_id", VStr ("atom-" +:+ short_id evidence_id)); ("promotion_record_hash", promotion_hash);
      ("promotion_key", promotion_key); ("p136_entry_hash", entry_hash); ("p135_bundle_hash", bundle_hash);
      ("source_id", source_id); ("provider", provider); ("format", format); ("signal_family", signal_family);
      ("system_id", system_id); ("entity_ref_hash", VStr (_entity_ref_hash entity_ref)); ("window", VDict window);
      ("signal_name", signal_name); ("numeric_value", numeric_value); ("numeric_unit", numeric_unit);
      ("evidence_state", VStr evidence_state); ("severity_code", VStr (_severity_code (vget p120 "severity")));
      ("metric_breach_code", VStr (_metric_breach_code (py_str signal_name) numeric_value numeric_unit policy));
      ("marker_code", VStr (_marker_code p120 risk_flags topology_refs deploy_config_refs));
      ("counter_signal_code", VStr (_counter_signal_code risk_flags)); ("state_reason_codes", vlist_of_strings codes);
      ("denominator_visible", VBool (truthy visible)); ("content_hash", content_hash);
      ("label_hashes", hashes_of (map (fun kv => VDict [("key", VStr kv.1); ("value", kv.2)]) labels));
      ("topology_ref_hashes", hashes_of topology_refs); ("deploy_config_ref_hashes", hashes_of deploy_config_refs);
      ("risk_flags", vlist_of_strings risk_flags);
      ("redacted_preview_hash", if truthy preview then VStr (stable_hash preview) else VNone); ("ordinal", ordinal)].

Definition _atoms_from_promotion (promotion policy : dict) : res (list dict) :=
  let! status := vindex promotion "status" in
  let status := py_str status in
  let! bundle := vindex promotion "p135_normalized_bundle" in
  let! bundle := _mapping bundle "p135_normalized_bundle" in
  let! _ := if status =s "denominator_failure" then _validate_denominator_failure_conversion bundle else Ok tt in
  let! records := _sequence (vget bundle "records") "records" in
  mapM (fun record =>
    let! record := _mapping record "p135_record" in
    let! data := atom_data promotion bundle record status policy in
    build_evidence_atom (VDict data)) records.

(** ** The envelope of a bundle *)

(** [_mapping(bundle[key], key).get(field)] *)
Definition member_of (bundle : dict) (key field : string) : res val :=
  let! v := vindex bundle key in
  let! d := _mapping v key in
  Ok (vget d field).

Definition bound_hash (bundle : dict) (hash_key key field : string) : res unit :=
  let! v := member_of bundle key field in
  ho_ensure (py_eq (vget bundle hash_key) v) (hash_key +:+ "_mismatch").

(** A bundle after the first names its predecessor; one the checkpoint knows
    of continues it. *)
Definition check_sequence (bundle : dict) (checkpoint : option dict) : res unit :=
  let! sequence := _positive_int (vget bundle "bundle_sequence") "bundle_sequence" in
  let previous := vget bundle "previous_bundle_hash" in
  let! _ := if sequence =? 1 then ho_ensure (is_none previous) "genesis_previous_bundle_hash_not_null"
            else let! _ := _hash previous "previous_bundle_hash" in Ok tt in
  match checkpoint with
  | None => Ok tt
  | Some c =>
      let! last_sequence := _positive_int (vget c "last_accepted_bundle_sequence") "last_accepted_bundle_sequence" in
      let! last_hash := _hash (vget c "last_accepted_bundle_hash") "last_accepted_bundle_hash" in
      let! _ := ho_ensure (last_sequence <=? sequence) "p136_handoff_sequence_rollback" in
      if sequence =? last_sequence
      then ho_ensure (py_eq (vget bundle "bundle_hash") (VStr last_hash)) "p136_handoff_same_sequence_fork"
      else
        let! _ := ho_ensure (sequence =? last_sequence + 1) "handoff_sequence_gap" in
        ho_ensure (py_eq previous (VStr last_hash)) "p136_handoff_previous_hash_discontinuity"
  end.

(** What the modules of the observer check of their own documents. *)
Record observer := {
  validate_incremental_observer_config : dict -> res unit;
  validate_observer_runtime_authority : dict -> dict -> list (string * list Z) -> string -> res unit;
  validate_promotion_record : dict -> dict -> dict -> list (string * list Z) -> dict -> res unit;
  validate_p136_release_evidence : dict -> dict -> res unit
}.

Section Validate.
Context (json_loads : string -> option val) (obs : observer).

Definition _load_canonical_bundle_bytes (bundle_bytes : string) : res dict :=
  match json_loads bundle_bytes with
  | None => Raise (HE "invalid_handoff_json")
  | Some (VDict bundle) =>
      let! _ := ho_ensure (canonical_json_bytes bundle =s bundle_bytes) "noncanonical_handoff_bytes" in
      Ok bundle
  | Some _ => Raise (HE "invalid_handoff_shape")
  end.

Definition _validate_p136_release_boundary (independent_review release_evidence : dict) : res unit :=
  match validate_p136_release_evidence obs release_evidence independent_review with
  | Raise e => Raise (if exn_class e =s "P136ReleaseEvidenceError" then HE (exn_msg e) else e)
  | ok => ok
  end.

Definition DURABLE_WRITE : dict :=
  [("atomic_replace", VBool true); ("file_fsync", VBool true); ("parent_directory_fsync", VBool true)].

Definition _validate_bundle_envelope (bundle config : dict) (checkpoint : option dict) : res unit :=
  let! _ := ho_ensure (same_keys bundle BUNDLE_FIELDS && py_eq (vget bundle "schema_version") (VStr BUNDLE_SCHEMA_VERSION))
              "invalid_handoff_bundle_fields" in
  let! _ := ho_ensure (py_eq (vget bundle "bundle_hash") (VStr (stable_hash (VDict (dwithout ["bundle_hash"] bundle)))))
              "bundle_hash_invalid" in
  let! _ := ho_ensure (py_eq (vget bundle "fixed_handoff_path") (vget config "p136_handoff_bundle_path"))
              "fixed_handoff_path_mismatch" in
  let! _ := ho_ensure (py_eq (vget bundle "handoff_chain_root_hash") (vget config "p136_handoff_chain_root_hash"))
              "handoff_chain_root_hash_mismatch" in
  let! _ := bound_hash bundle "p136_config_hash" "p136_config" "config_hash" in
  let! _ := bound_hash bundle "p136_checkpoint_hash" "p136_checkpoint" "checkpoint_hash" in
  let! _ := bound_hash bundle "p136_independent_review_hash" "p136_independent_review" "independent_review_hash" in
  let! _ := bound_hash bundle "p136_release_evidence_hash" "p136_release_evidence" "evidence_hash" in
  let! release_evidence := _mapping (vget bundle "p136_release_evidence") "p136_release_evidence" in
  let! _ := ho_ensure (py_eq (vget release_evidence "status") (VStr P136_QUALIFIED_RELEASE_STATUS)) "invalid_p136_release_status" in
  let! review := _mapping (vget bundle "p136_independent_review") "p136_independent_review" in
  let! _ := _validate_p136_release_boundary review release_evidence in
  let! durability := _mapping (vget bundle "write_durability") "write_durability" in
  let! _ := ho_ensure (py_eq (VDict durability) (VDict DURABLE_WRITE)) "handoff_not_durable" in
  check_sequence bundle checkpoint.

(** ** The bytes a bundle carries *)

(** [decode_canonical_lower_hex(v, field=…, expected_hash=str(hashes[field]),
    expected_length=int(descriptors[field]["byte_length"]))] *)
Definition decode_field (descriptors hashes : dict) (v : val) (field : string) : res (list Z) :=
  let! d := vindex descriptors field in
  let! descriptor := _mapping d ("descriptor:" +:+ field) in
  let! h := vindex hashes field in
  let! n := vindex descriptor "byte_length" in
  let! n := py_int n in
  decode_canonical_lower_hex v field (Some (py_str h)) (Some n).

(** The items of [auth[key]], each decoded under its own name; [check] sees
    the position and the bytes. *)
Fixpoint decode_items (descriptors hashes : dict) (key : string) (check : Z -> list Z -> res unit) (index : Z) (items : list val)
  : res (list (string * list Z)) :=
  match items with
  | [] => Ok []
  | item :: items =>
      let field := key +:+ ":" +:+ Z_to_string index in
      let! decoded := decode_field descriptors hashes item field in
      let! _ := check index decoded in
      let! rest := decode_items descriptors hashes key check (index + 1) items in
      Ok ((field, decoded) :: rest)
  end.

Definition string_of_bytes (data : list Z) : string := string_of_list_ascii (map (fun b => ascii_of_N (Z.to_N b)) data).

(** [json.loads(decoded) == auth["segment_receipts"][index]] *)
Definition check_segment (auth : dict) (index : Z) (decoded : list Z) : res unit :=
  let! parsed := match json_loads (string_of_bytes decoded) with
                 | Some v => Ok v
                 | None => Raise (Exn "ValueError" "json")
                 end in
  let! receipts := vindex auth "segment_receipts" in
  let! receipts := _sequence receipts "segment_receipts" in
  let! expected := match receipts !! Z.to_nat index with
                   | Some v => Ok v
                   | None => Raise (Exn "IndexError" "list index out of range")
                   end in
  ho_ensure (py_eq parsed expected) "segment_receipt_bytes_mismatch".

Definition mapping_field (auth : dict) (key : string) : res (string * val) :=
  let! v := vindex auth key in
  let! d := _mapping v key in
  Ok (key, VDict d).

Definition mappings_field (auth : dict) (key label : string) : res (string * val) :=
  let! v := vindex auth key in
  let! items := _sequence v key in
  let! ds := mapM (fun item => _mapping item label) items in
  Ok (key, VList (map VDict ds)).

(** The documents of the authority and the bytes of each. *)
Definition _decoded_p136_authority (bundle : dict) : res (dict * list (string * list Z)) :=
  let! v := vindex bundle "p136_runtime_authority" in
  let! auth := _mapping v "p136_runtime_authority" in
  let! _ := ho_ensure (same_keys auth P136_AUTHORITY_FIELDS) "invalid_p136_authority_fields" in
  let! v := vindex bundle "descriptors" in
  let! descriptors := _mapping v "descriptors" in
  let! v := vindex bundle "canonical_byte_hashes" in
  let! hashes := _mapping v "canonical_byte_hashes" in
  let! single := mapM (fun field => let! decoded := decode_field descriptors hashes (vget auth field) field in Ok (field, decoded))
                   ["contract_bytes"; "review_receipt_bytes"; "receipt_ledger_bytes"] in
  let! index_items := _sequence (vget auth "index_receipt_bytes") "index_receipt_bytes" in
  let! index_bytes := decode_items descriptors hashes "index_receipt_bytes" (fun _ _ => Ok tt) 0 index_items in
  let! segment_items := _sequence (vget auth "segment_receipt_bytes") "segment_receipt_bytes" in
  let! segment_bytes := decode_items descriptors hashes "segment_receipt_bytes" (check_segment auth) 0 segment_items in
  let! documents := mapM (mapping_field auth) ["contract"; "review_receipt"; "receipt_ledger"] in
  let! index_receipts := mappings_field auth "index_receipts" "index_receipt" in
  let! segment_receipts := mappings_field auth "segment_receipts" "segment_receipt" in
  Ok (documents ++ [index_receipts; segment_receipts], single ++ index_bytes ++ segment_bytes).

(** [bytes_field.replace("bytes", "byte_length")] *)
Definition _validate_wrapper_bytes (wrapper : dict) (object_field bytes_field : string) : res unit :=
  let! v := vindex wrapper object_field in
  let! object := _mapping v object_field in
  let! encoded := vindex wrapper bytes_field in
  let! h := vindex wrapper (bytes_field +:+ "_hash") in
  let! n := vindex wrapper (replace "bytes" "byte_length" bytes_field) in
  let! n := py_int n in
  let! decoded := decode_canonical_lower_hex encoded bytes_field (Some (py_str h)) (Some n) in
  ho_ensure (bool_decide (decoded = utf8 (canonical_json_bytes object))) (bytes_field +:+ "_mismatch").

Definition _differs_only_promotion_key (left right : dict) : bool :=
  same_keys left (dkeys right) &&
  forallb (fun key => Bool.eqb (negb (py_eq (vget left key) (vget right key))) (key =s "promotion_key")) (dkeys left) &&
  dmem "promotion_key" left.

(** ** The bundle *)

(** One promotion of the map and its atoms. *)
Definition validate_promotion (bundle policy authority : dict) (authority_bytes : list (string * list Z))
    (checkpoint_promotions : dict) (item : string * val) : res (list dict) :=
  let entry_hash := item.1 in
  let! wrapper := _mapping item.2 "promotion_wrapper" in
  let! promotion := _mapping (vget wrapper "promotion") "promotion" in
  let! entries := vindex bundle "canonical_entry_map" in
  let! entries := _mapping entries "canonical_entry_map" in
  let! entry_wrapper := vindex entries entry_hash in
  let! entry_wrapper := _mapping entry_wrapper "entry_wrapper" in
  let! expected_entry := _mapping (vget entry_wrapper "entry") "expected_entry" in
  let! _ := ho_ensure (negb (is_none (vget checkpoint_promotions entry_hash))) "checkpoint_promotion_entry_missing" in
  let! known := _mapping (vget checkpoint_promotions entry_hash) "checkpoint_promotion" in
  let! _ := if py_eq (VDict known) (VDict promotion) then Ok tt
            else if _differs_only_promotion_key known promotion then Raise (HE "promotion_key_invalid")
            else Raise (HE "checkpoint_promotion_value_mismatch") in
  let! _ := ho_ensure (py_eq (vget promotion "entry_hash") (VStr entry_hash)) "promotion_entry_hash_mismatch" in
  let! _ := ho_ensure (py_eq (vget promotion "promotion_key") (vget wrapper "promotion_key")) "promotion_key_invalid" in
  let! _ := _validate_wrapper_bytes wrapper "promotion" "promotion_bytes" in
  let! _ := _validate_wrapper_bytes entry_wrapper "entry" "entry_bytes" in
  let! _ := match validate_promotion_record obs promotion expected_entry authority authority_bytes bundle with
            | Raise e => Raise (if exn_class e =s "P136ObservationError" then HE (exn_msg e) else e)
            | ok => ok
            end in
  _atoms_from_promotion promotion policy.

(** What the handoff gives the runtime. *)
Definition handoff_of (bundle promotions : dict) (atoms : list dict) (bytes : Z) : dict :=
  let n := Z.of_nat (List.length promotions) in
  [("bundle_hash", vget bundle "bundle_hash"); ("bundle_sequence", vget bundle "bundle_sequence");
   ("previous_bundle_hash", vget bundle "previous_bundle_hash");
   ("handoff_chain_root_hash", vget bundle "handoff_chain_root_hash");
   ("fixed_handoff_path", vget bundle "fixed_handoff_path"); ("evidence_atoms", VList (map VDict atoms));
   ("promotion_record_count", VInt n); ("promotion_bytes_validated", VInt bytes);
   ("p136_validator_calls", VDict [("validate_incremental_observer_config", VInt 1);
                                   ("validate_observer_runtime_authority", VInt 1); ("validate_promotion_record", VInt n)])].

Definition validate_bundle (bundle_bytes : string) (config : dict) (checkpoint : option dict) : res dict :=
  let! _ := validate_triage_agent_config (VDict config) in
  let! bundle := _load_canonical_bundle_bytes bundle_bytes in
  let! _ := _validate_bundle_envelope bundle config checkpoint in
  let! (authority, authority_bytes) := _decoded_p136_authority bundle in
  let! p136_config := _mapping (vget bundle "p136_config") "p136_config" in
  let! _ := validate_incremental_observer_config obs p136_config in
  let! _ := validate_observer_runtime_authority obs p136_config authority authority_bytes (py_str (vget bundle "now")) in
  let! checkpoint_promotions := member_of bundle "p136_checkpoint" "promotion_keys" in
  let! checkpoint_promotions := _mapping checkpoint_promotions "promotion_keys" in
  let! promotions := _mapping (vget bundle "promotion_map") "promotion_map" in
  let! policy := _mapping (vget config "classification_policy") "classification_policy" in
  let! atoms := mapM (validate_promotion bundle policy authority authority_bytes checkpoint_promotions) (sort_items promotions) in
  let! sizes := mapM (fun item =>
                  let! wrapper := _mapping item.2 "promotion_wrapper" in
                  let! encoded := vindex wrapper "promotion_bytes" in
                  let! decoded := decode_canonical_lower_hex encoded "promotion_bytes" None None in
                  Ok (Z.of_nat (List.length decoded))) promotions in
  Ok (handoff_of bundle promotions (concat atoms) (fold_right Z.add 0 sizes)).

(** The exceptions that are raised again as those of this module. *)
Definition RAISED_AGAIN : list string :=
  ["P137ContractError"; "P136ObservationError"; "KeyError"; "TypeError"; "ValueError"; "P136ReleaseEvidenceError"].

Definition validate_p136_handoff_bundle (bundle_bytes : string) (config : dict) (checkpoint : option dict) : res dict :=
  match validate_bundle bundle_bytes config checkpoint with
  | Raise e => Raise (if mem (exn_class e) RAISED_AGAIN then HE (exn_msg e) else e)
  | ok => ok
  end.
End Validate.
