(* ===== verification/P137Correlation.v ===== *)
(** * Incident correlation

    Models app/services/p137_correlation.py: the lifecycle of an incident and
    the grouping of evidence atoms into incidents.  An atom is a dictionary;
    a window end is read as a UTC instant in microseconds, and a duration in
    seconds is the exact quotient, truncated. *)

From S2P Require Import Prelude PyValue PyChecks Sha PyTime Components P137Checks.

Definition INCIDENT_SCHEMA_VERSION : string := "p137.incident_state.v1".
Definition ATOM_SCHEMA_VERSION : string := "p137.evidence_atom.v1".

Definition P137CorrelationError (msg : string) : exn := Exn "P137CorrelationError" msg.
Definition co_ensure (b : bool) (msg : string) : res unit := ensure b (P137CorrelationError msg).

(** ** The lifecycle of an incident *)

Definition NONTERMINAL_STATUSES : list string :=
  ["open"; "correlating"; "investigating"; "ready_to_classify"; "classification_pending"].
Definition TERMINAL_STATUSES : list string :=
  ["confirmed_incident"; "insufficient_evidence"; "benign_anomaly"; "aborted_fail_closed"].

Definition _TRANSITIONS : list (string * list string) :=
  [("open", ["correlating"; "aborted_fail_closed"]);
   ("correlating", ["investigating"; "aborted_fail_closed"]);
   ("investigating", ["ready_to_classify"; "aborted_fail_closed"]);
   ("ready_to_classify", ["classification_pending"; "aborted_fail_closed"]);
   ("classification_pending", ["confirmed_incident"; "insufficient_evidence"; "benign_anomaly"; "aborted_fail_closed"])].

Definition transition_incident_status (current target : string) : res string :=
  let! _ := co_ensure (negb (mem current TERMINAL_STATUSES)) "terminal_incident_transition_forbidden" in
  let! _ := co_ensure (mem current NONTERMINAL_STATUSES && mem target (NONTERMINAL_STATUSES ++ TERMINAL_STATUSES))
              "unknown_incident_status" in
  let! _ := co_ensure (mem target (default [] (dget _TRANSITIONS current))) "illegal_incident_transition" in
  Ok target.

(** ** Budgets *)

Definition _DEFAULT_LIMITS : list (string * Z) :=
  [("max_open_incidents", 64); ("max_atoms_per_incident", 128); ("max_correlation_window_seconds", 900);
   ("max_incident_duration_seconds", 86400); ("max_journal_entries", 1024); ("max_ledger_edges", 4096)].

Fixpoint override (values : list (string * Z)) (overrides : dict) : res (list (string * Z)) :=
  match overrides with
  | [] => Ok values
  | (key, value) :: overrides =>
      let! _ := co_ensure (dmem key values) "unknown_budget_key" in
      match value with
      | VInt z =>
          let! _ := co_ensure (0 <=? z) "invalid_budget_value" in
          override (dset values key z) overrides
      | _ => Raise (P137CorrelationError "invalid_budget_value")
      end
  end.

Definition _limits (overrides : option dict) : res (list (string * Z)) :=
  override _DEFAULT_LIMITS (default [] overrides).

(** [effective_limits[key]] *)
Definition limit (limits : list (string * Z)) (key : string) : Z := default 0 (dget limits key).

(** ** Atoms and rejections *)

Definition _ATOM_FIELDS : list string :=
  ["schema_version"; "atom_id"; "promotion_record_hash"; "promotion_key"; "p136_entry_hash"; "p135_bundle_hash";
   "source_id"; "provider"; "format"; "signal_family"; "system_id"; "entity_ref_hash"; "window"; "signal_name";
   "numeric_value"; "numeric_unit"; "evidence_state"; "severity_code"; "metric_breach_code"; "marker_code";
   "counter_signal_code"; "state_reason_codes"; "denominator_visible"; "content_hash"; "label_hashes";
   "topology_ref_hashes"; "deploy_config_ref_hashes"; "risk_flags"; "redacted_preview_hash"; "ordinal"; "atom_hash"].

Definition _REJECTION_FIELDS : list string :=
  ["rejection_hash"; "system_id"; "entity_ref_hash"; "window"; "reason_code"].

Definition is_window (v : val) : bool :=
  match v with VDict w => same_keys w ["start"; "end"] | _ => false end.

Definition _validate_atom (atom : dict) : res dict :=
  let! _ := co_ensure (same_keys atom _ATOM_FIELDS) "unexpected_atom_keys" in
  let! _ := co_ensure (py_eq (vget atom "schema_version") (VStr ATOM_SCHEMA_VERSION)) "invalid_atom_schema" in
  let! _ := co_ensure (is_window (vget atom "window")) "invalid_atom_window" in
  let! _ := co_ensure (match vget atom "label_hashes" with VList l => forallb is_string l | _ => false end)
              "invalid_label_hashes" in
  Ok atom.

Definition _validate_rejection (rejection : dict) : res dict :=
  let! _ := co_ensure (forallb (fun k => dmem k rejection) _REJECTION_FIELDS &&
                       forallb (fun k => mem k (_REJECTION_FIELDS ++ ["free_form_detail"])) (dkeys rejection))
              "unexpected_rejection_keys" in
  let! _ := co_ensure (is_window (vget rejection "window")) "invalid_rejection_window" in
  Ok (map (fun key => (key, vget rejection key)) _REJECTION_FIELDS).

(** ** Windows *)

Definition ends_with_z (s : string) : bool :=
  String.substring (String.length s - 1) 1 s =s "Z".

(** [value.removesuffix("Z")] of a value that ends with it. *)
Definition without_z (s : string) : string := String.substring 0 (String.length s - 1) s.

Definition _parse_time (value : string) : res Z :=
  let! _ := co_ensure (ends_with_z value) "timestamp_must_be_utc_z" in
  match fromisoformat_offset (without_z value +:+ "+00:00") with
  | Some (local, Some offset) =>
      if datetime_range (local - offset) then Ok (local - offset)
      else Raise (Exn "OverflowError" "date value out of range")
  | _ => Raise (Exn "ValueError" "Invalid isoformat string")
  end.

(** [_parse_time(str(window[key]))] *)
Definition instant (window : dict) (key : string) : res Z := _parse_time (py_str (vget window key)).

Definition window_of (atom : dict) : dict := dict_or_empty (vget atom "window").

Definition _windows_overlap (left right : dict) : res bool :=
  let! left_start := instant left "start" in
  let! right_end := instant right "end" in
  if left_start <=? right_end then
    let! right_start := instant right "start" in
    let! left_end := instant left "end" in
    Ok (right_start <=? left_end)
  else Ok false.

(** [int((b - a).total_seconds())] *)
Definition seconds_from (a b : Z) : Z := Z.quot (b - a) second.

Definition _window_distance_seconds (left right : dict) : res Z :=
  let! overlap := _windows_overlap left right in
  if overlap then Ok 0 else
  let! left_end := instant left "end" in
  let! right_start := instant right "start" in
  let! right_end := instant right "end" in
  let! left_start := instant left "start" in
  Ok (if left_end <? right_start then seconds_from left_end right_start else seconds_from right_end left_start).

(** [max_window_seconds] bounds the distance of two windows that overlap. *)
Definition within_window (overlapping : bool) (left right : dict) (max_window_seconds : Z) : res bool :=
  if overlapping then
    let! distance := _window_distance_seconds left right in Ok (distance <=? max_window_seconds)
  else Ok false.

(** ** Relations between atoms *)

Definition same (left right : dict) (key : string) : bool := py_eq (vget left key) (vget right key).

Definition labels (atom : dict) : list string := map py_str (match vget atom "label_hashes" with VList l => l | _ => [] end).

Definition _relations (max_window_seconds : Z) (left right : dict) : res (list string) :=
  let! overlapping := _windows_overlap (window_of left) (window_of right) in
  let! system :=
    if same left right "system_id" then within_window overlapping (window_of left) (window_of right) max_window_seconds
    else Ok false in
  Ok ((if system then ["system_id_time_window"] else []) ++
      (if same left right "entity_ref_hash" && overlapping then ["entity_ref_hash"] else []) ++
      (if same left right "provider" && same left right "signal_family" then ["provider_signal_family"] else []) ++
      (if existsb (fun l => mem l (labels right)) (labels left) then ["label_hash"] else []) ++
      (if truthy (vget left "content_hash") && same left right "content_hash" then ["content_hash"] else [])).

(** [any(_relations(atom, existing, …) for existing in group)] *)
Fixpoint related_to_group (max_window_seconds : Z) (atom : dict) (group : list dict) : res bool :=
  match group with
  | [] => Ok false
  | existing :: group =>
      let! relations := _relations max_window_seconds atom existing in
      match relations with
      | [] => related_to_group max_window_seconds atom group
      | _ => Ok true
      end
  end.

Definition hash_of (atom : dict) : string := py_str (vget atom "atom_hash").
Definition by_hash : list dict -> list dict := isort (fun a b => String.leb (hash_of a) (hash_of b)).

Fixpoint correlate_sorted (max_window_seconds : Z) (atoms : list dict) (groups : list (list dict))
  : res (list (list dict)) :=
  match atoms with
  | [] => Ok groups
  | atom :: atoms =>
      let! matches := mapM (related_to_group max_window_seconds atom) groups in
      correlate_sorted max_window_seconds atoms (place atom matches groups)
  end.

Definition _correlate_groups (atoms : list dict) (max_window_seconds : Z) : res (list (list dict)) :=
  let! groups := correlate_sorted max_window_seconds (by_hash atoms) [] in
  Ok (map by_hash groups).

(** ** Rejections *)

Definition rejection_matches (max_window_seconds : Z) (atom rejection : dict) : res bool :=
  if same atom rejection "system_id" || same atom rejection "entity_ref_hash" then
    let! overlap := _windows_overlap (window_of atom) (window_of rejection) in
    within_window overlap (window_of atom) (window_of rejection) max_window_seconds
  else Ok false.

(** The loop over the atoms of the group, left at the first match. *)
Fixpoint matches_group (max_window_seconds : Z) (rejection : dict) (group : list dict) : res bool :=
  match group with
  | [] => Ok false
  | atom :: group =>
      let! m := rejection_matches max_window_seconds atom rejection in
      if m then Ok true else matches_group max_window_seconds rejection group
  end.

Fixpoint matched_rejections (max_window_seconds : Z) (group rejections : list dict) : res (list dict) :=
  match rejections with
  | [] => Ok []
  | rejection :: rejections =>
      let! m := matches_group max_window_seconds rejection group in
      let! matched := matched_rejections max_window_seconds group rejections in
      Ok (if m then rejection :: matched else matched)
  end.

Definition rejection_hash_of (rejection : dict) : string := py_str (vget rejection "rejection_hash").

Definition _matching_rejections (group rejections : list dict) (max_window_seconds : Z) : res (list dict) :=
  let! matched := matched_rejections max_window_seconds group rejections in
  Ok (isort (fun a b => String.leb (rejection_hash_of a) (rejection_hash_of b)) matched).

(** ** Incidents *)

(** [min] and [max] of a sequence that is not empty. *)
Definition min_string (l : list string) : string := List.hd "" (sorted_strings l).
Definition max_string (l : list string) : string := List.last (sorted_strings l) "".

(** Every two atoms of the group, at different positions. *)
Definition ordered_pairs (group : list dict) : list (dict * dict) :=
  concat (imap (fun i left => map (pair left) (take i group ++ drop (S i) group)) group).

(** [sorted(group, key=lambda atom: (int(atom["ordinal"]), str(atom["atom_hash"])))] *)
Definition by_ordinal (group : list dict) : res (list dict) :=
  let! keyed := mapM (fun atom => let! ordinal := py_int (vget atom "ordinal") in Ok (ordinal, atom)) group in
  Ok (map snd (isort (fun a b => (a.1 <? b.1) || (a.1 =? b.1) && String.leb (hash_of a.2) (hash_of b.2)) keyed)).

Definition field_set (group : list dict) (key : string) : val :=
  vlist_of_strings (sorted_set (map (fun atom => py_str (vget atom key)) group)).

Definition correlation_key (group rejections : list dict) (relations : list string) : dict :=
  [("primary_system_id", VStr (min_string (map (fun atom => py_str (vget atom "system_id")) group)));
   ("entity_ref_hashes", field_set group "entity_ref_hash");
   ("provider_signal_families", vlist_of_strings (sorted_set
      (map (fun atom => py_str (vget atom "provider") +:+ ":" +:+ py_str (vget atom "signal_family")) group)));
   ("label_hashes", vlist_of_strings (sorted_set (concat (map labels group))));
   ("content_hashes", field_set (List.filter (fun atom => truthy (vget atom "content_hash")) group) "content_hash");
   ("p136_rejection_reasons", field_set rejections "reason_code");
   ("relations", vlist_of_strings (sorted_set relations))].

Definition _incident_id (key : dict) : string :=
  "p137-" +:+ String.substring 7 40
    (stable_hash (VDict [("schema_version", VStr "p137.incident_id.v1"); ("correlation_key", VDict key)])).

Definition incident_payload (sequence : Z) (key : dict) (start_ end_ now : string)
    (group ordered rejections : list dict) : dict :=
  [("schema_version", VStr INCIDENT_SCHEMA_VERSION); ("incident_id", VStr (_incident_id key));
   ("incident_sequence", VInt sequence); ("status", VStr "open"); ("created_at", VStr start_);
   ("updated_at", VStr now); ("correlation_key", VDict key);
   ("primary_system_id", vget key "primary_system_id"); ("entity_ref_hashes", vget key "entity_ref_hashes");
   ("time_window", VDict [("start", VStr start_); ("end", VStr end_)]);
   ("source_promotion_record_hashes", field_set group "promotion_record_hash");
   ("evidence_atom_hashes", vlist_of_strings (map hash_of ordered));
   ("rejection_hashes", vlist_of_strings (sorted_strings (map rejection_hash_of rejections)));
   ("hypothesis_hashes", VList []); ("request_hashes", VList []); ("attempted_request_hashes", VList []);
   ("classification_hash", VNone); ("previous_incident_hash", VNone)].

Definition _build_incident (sequence : Z) (group rejections : list dict) (now : string) : res dict :=
  let start_ := min_string (map (fun atom => py_str (vget (window_of atom) "start")) group) in
  let end_ := max_string (map (fun atom => py_str (vget (window_of atom) "end")) group) in
  let! ordered := by_ordinal group in
  let! relations := mapM (fun p => _relations (limit _DEFAULT_LIMITS "max_correlation_window_seconds") p.1 p.2)
                      (ordered_pairs group) in
  let key := correlation_key group rejections (concat relations) in
  let payload := incident_payload sequence key start_ end_ now group ordered rejections in
  Ok (payload ++ [("incident_hash", VStr (stable_hash (VDict payload)))]).

(** [_seconds_between] *)
Definition _seconds_between (start_ end_ : string) : res Z :=
  let! e := _parse_time end_ in
  let! s := _parse_time start_ in
  Ok (seconds_from s e).

Definition duration (incident : dict) : res Z :=
  let window := dict_or_empty (vget incident "time_window") in
  _seconds_between (py_str (vget window "start")) (py_str (vget window "end")).

(** ** Correlation *)

(** What [correlate_incident_state] returns, or the exception and the
    incident it carries. *)
Definition outcome (A : Type) : Type := res A * option dict.

Definition no_incident {A} (r : res A) : outcome A := (r, None).

Notation "'let?' x := m 'in' k" :=
  (match m with
   | (Ok x, _) => k
   | (Raise e, i) => (Raise e, i)
   end) (at level 10, x pattern, m at level 100, k at level 200) : py_scope.

Definition _enforce_duration (incident : dict) (max_seconds : Z) : outcome unit :=
  match duration incident with
  | Raise e => (Raise e, None)
  | Ok seconds =>
      if max_seconds <? seconds
      then (Raise (P137CorrelationError "incident_duration_budget_exceeded"), Some incident)
      else (Ok tt, None)
  end.

Record tally := { t_incidents : list dict; t_journal_entries : Z; t_ledger_edges : Z }.

(** One turn of the loop over the groups. *)
Definition add_group (limits : list (string * Z)) (rejections : list dict) (now : string) (sequence : Z)
    (group : list dict) (t : tally) : outcome tally :=
  let? _ := no_incident (co_ensure (Z.of_nat (List.length group) <=? limit limits "max_atoms_per_incident")
                           "incident_atom_budget_exceeded") in
  let? matched := no_incident (_matching_rejections group rejections (limit limits "max_correlation_window_seconds")) in
  let? incident := no_incident (_build_incident sequence group matched now) in
  let? _ := _enforce_duration incident (limit limits "max_incident_duration_seconds") in
  no_incident (Ok
    {| t_incidents := t_incidents t ++ [incident];
       t_journal_entries := t_journal_entries t + Z.of_nat (List.length group) + Z.of_nat (List.length matched);
       t_ledger_edges := t_ledger_edges t + Z.max 0 (Z.of_nat (List.length group) - 1) + Z.of_nat (List.length matched) |}).

Fixpoint add_groups (limits : list (string * Z)) (rejections : list dict) (now : string) (sequence : Z)
    (groups : list (list dict)) (t : tally) : outcome tally :=
  match groups with
  | [] => no_incident (Ok t)
  | group :: groups =>
      let? t := add_group limits rejections now sequence group t in
      add_groups limits rejections now (sequence + 1) groups t
  end.

Definition by_system (incidents : list dict) : list dict :=
  isort (fun a b =>
    let sa := py_str (vget a "primary_system_id") in
    let sb := py_str (vget b "primary_system_id") in
    negb (String.leb sb sa) || (sa =s sb) && String.leb (py_str (vget a "incident_id")) (py_str (vget b "incident_id")))
    incidents.

Definition correlate_incident_state (atoms : list dict) (rejections : list dict) (now : string) (overrides : option dict)
  : outcome dict :=
  let? limits := no_incident (_limits overrides) in
  let? atoms := no_incident (mapM _validate_atom atoms) in
  let? rejections := no_incident (mapM _validate_rejection rejections) in
  let? groups := no_incident (_correlate_groups atoms (limit limits "max_correlation_window_seconds")) in
  let? _ := no_incident (co_ensure (Z.of_nat (List.length groups) <=? limit limits "max_open_incidents")
                           "open_incident_budget_exceeded") in
  let? t := add_groups limits rejections now 1 groups {| t_incidents := []; t_journal_entries := 0; t_ledger_edges := 0 |} in
  let? _ := no_incident (co_ensure (t_journal_entries t <=? limit limits "max_journal_entries") "journal_budget_exceeded") in
  let? _ := no_incident (co_ensure (t_ledger_edges t <=? limit limits "max_ledger_edges") "ledger_budget_exceeded") in
  let incidents := by_system (t_incidents t) in
  no_incident (Ok [("schema_version", VStr "p137.correlation_result.v1"); ("incidents", VList (map VDict incidents));
                   ("incident_count", VInt (Z.of_nat (List.length incidents)))]).
