(* ===== verification/P137CorrelationProps.v ===== *)
(** * What incident correlation guarantees

    The groups are the connected components of the relation between atoms,
    whatever the order they come in; every atom ends in one incident; and the
    correlation window has no effect. *)

From stdpp Require Import relations sorting.
From S2P Require Import Prelude PyValue PyChecks Sha PyTime Json Components P137Checks P137Correlation.

(** ** The correlation window *)

Lemma within_overlap left right overlapping max_window_seconds :
  0 <= max_window_seconds -> _windows_overlap left right = Ok overlapping ->
  within_window overlapping left right max_window_seconds = Ok overlapping.
Proof.
  intros Hw H. unfold within_window. destruct overlapping; [|done].
  unfold _window_distance_seconds. rewrite H. cbn [bind]. f_equal. by apply Z.leb_le.
Qed.

(** What [_relations] computes once the windows are compared. *)
Definition relation_names (overlapping : bool) (left right : dict) : list string :=
  (if same left right "system_id" && overlapping then ["system_id_time_window"] else []) ++
  (if same left right "entity_ref_hash" && overlapping then ["entity_ref_hash"] else []) ++
  (if same left right "provider" && same left right "signal_family" then ["provider_signal_family"] else []) ++
  (if existsb (fun l => mem l (labels right)) (labels left) then ["label_hash"] else []) ++
  (if truthy (vget left "content_hash") && same left right "content_hash" then ["content_hash"] else []).

Lemma relations_eq w left right : 0 <= w ->
  _relations w left right =
  let! overlapping := _windows_overlap (window_of left) (window_of right) in Ok (relation_names overlapping left right).
Proof.
  intros Hw. unfold _relations. destruct (_windows_overlap (window_of left) (window_of right)) as [o|e] eqn:E; [|done].
  cbn [bind]. unfold relation_names. destruct (same left right "system_id"); [|done].
  rewrite (within_overlap _ _ o w Hw E). done.
Qed.

Lemma relations_window w w' left right : 0 <= w -> 0 <= w' -> _relations w left right = _relations w' left right.
Proof. intros. by rewrite !relations_eq. Qed.

Lemma related_window w w' atom group : 0 <= w -> 0 <= w' ->
  related_to_group w atom group = related_to_group w' atom group.
Proof.
  intros Hw Hw'. induction group as [|e group IH]; [done|]. cbn [related_to_group].
  by rewrite (relations_window w w'), IH.
Qed.

Lemma mapM_ext {A B} (f g : A -> res B) l : (forall x, f x = g x) -> mapM f l = mapM g l.
Proof. intros H. induction l as [|x l IH]; [done|]. cbn [mapM]. by rewrite H, IH. Qed.

Lemma correlate_sorted_window w w' atoms groups : 0 <= w -> 0 <= w' ->
  correlate_sorted w atoms groups = correlate_sorted w' atoms groups.
Proof.
  intros Hw Hw'. revert groups. induction atoms as [|a atoms IH]; intros groups; [done|]. cbn [correlate_sorted].
  rewrite (mapM_ext _ (related_to_group w' a)) by (intros; by apply related_window).
  destruct (mapM _ _); [apply IH | done].
Qed.

Lemma rejection_window w w' atom rejection : 0 <= w -> 0 <= w' ->
  rejection_matches w atom rejection = rejection_matches w' atom rejection.
Proof.
  intros Hw Hw'. unfold rejection_matches. destruct (_ || _); [|done].
  destruct (_windows_overlap _ _) as [o|e] eqn:E; [|done]. cbn [bind]. by rewrite !(within_overlap _ _ o).
Qed.

Lemma matching_window w w' group rejections : 0 <= w -> 0 <= w' ->
  _matching_rejections group rejections w = _matching_rejections group rejections w'.
Proof.
  intros Hw Hw'.
  assert (Hm : forall r, matches_group w r group = matches_group w' r group).
  { intros r. induction group as [|a group IH]; [done|]. cbn [matches_group]. by rewrite (rejection_window w w'), IH. }
  unfold _matching_rejections. f_equal. induction rejections as [|r rs IH]; [done|].
  cbn [matched_rejections]. by rewrite Hm, IH.
Qed.

(** ** Budgets *)

Lemma override_nonneg values overrides l k :
  (forall k, 0 <= limit values k) -> override values overrides = Ok l -> 0 <= limit l k.
Proof.
  revert values. induction overrides as [|[key v] overrides IH]; intros values Hv H; cbn [override] in H; [by inv_res|]. inv_res.
  destruct v as [| |z| | | | |]; try discriminate. unfold co_ensure in *. inv_res. bools. apply (IH (dset values key z)); [|done].
  intros k'. unfold limit. rewrite dget_dset. destruct (k' =s key); [simpl; lia | apply Hv].
Qed.

Lemma limits_nonneg overrides l k : _limits overrides = Ok l -> 0 <= limit l k.
Proof.
  apply override_nonneg. intros k'. unfold limit, _DEFAULT_LIMITS. cbn [dget].
  repeat match goal with |- context [ ?a =s ?b ] => destruct (a =s b) end; vm_compute; discriminate.
Qed.

Section Window.
Context (l l' : list (string * Z)).
Hypothesis Hl : forall k, 0 <= limit l k.
Hypothesis Hl' : forall k, 0 <= limit l' k.
Hypothesis Hsame : forall k, k <> "max_correlation_window_seconds" -> limit l k = limit l' k.

Lemma add_groups_window rejections now sequence groups t :
  add_groups l rejections now sequence groups t = add_groups l' rejections now sequence groups t.
Proof.
  revert sequence t. induction groups as [|g groups IH]; intros sequence t; [done|]. cbn [add_groups].
  assert (Hg : add_group l rejections now sequence g t = add_group l' rejections now sequence g t).
  { unfold add_group. rewrite !(Hsame "max_atoms_per_incident"), !(Hsame "max_incident_duration_seconds") by discriminate.
    by rewrite (matching_window (limit l _) (limit l' "max_correlation_window_seconds")). }
  rewrite Hg. destruct (add_group l' rejections now sequence g t) as [[t'|e] i]; [apply IH | done].
Qed.

Lemma groups_window atoms :
  _correlate_groups atoms (limit l "max_correlation_window_seconds") =
  _correlate_groups atoms (limit l' "max_correlation_window_seconds").
Proof. unfold _correlate_groups. by rewrite (correlate_sorted_window _ (limit l' "max_correlation_window_seconds")). Qed.
End Window.

(** The correlation window has no effect.  Two calls whose budgets agree
    on everything but [max_correlation_window_seconds] return the same
    incidents or raise the same error, whatever the two windows are: atoms of
    one system are correlated only when their time windows overlap, and then
    their distance is zero. *)
Theorem correlation_window_has_no_effect atoms rejections now o o' l l' :
  _limits o = Ok l -> _limits o' = Ok l' ->
  (forall k, k <> "max_correlation_window_seconds" -> limit l k = limit l' k) ->
  correlate_incident_state atoms rejections now o = correlate_incident_state atoms rejections now o'.
Proof.
  intros Ho Ho' Hsame. pose proof (fun k => limits_nonneg _ _ k Ho) as Hl.
  pose proof (fun k => limits_nonneg _ _ k Ho') as Hl'.
  unfold correlate_incident_state. rewrite Ho, Ho'. cbn [no_incident]. unfold no_incident.
  rewrite (Hsame "max_open_incidents"), (Hsame "max_journal_entries"), (Hsame "max_ledger_edges") by discriminate.
  destruct (mapM _validate_atom atoms) as [as_|]; [|done]. destruct (mapM _validate_rejection rejections) as [rs|]; [|done].
  rewrite (groups_window l l' Hl Hl'). destruct (_correlate_groups _ _) as [gs|]; [|done].
  destruct (co_ensure _ _); [|done]. by rewrite (add_groups_window l l' Hl Hl' Hsame).
Qed.

(** ** The groups are the connected components *)

(** Two atoms the code relates. *)
Definition related (w : Z) (left right : dict) : Prop := exists r, _relations w left right = Ok r /\ r <> [].

Definition atoms_wf (l : list dict) : Prop := Forall (fun a => val_wf (VDict a)) l.

Lemma same_sym a b k : val_wf (VDict a) -> val_wf (VDict b) -> same a b k = same b a k.
Proof.
  intros Ha Hb. apply eq_true_iff_eq. split; apply py_eq_sym; by apply vget_wf.
Qed.

Lemma truthy_eq v w : py_eq v w = true -> truthy v = truthy w.
Proof.
  assert (Hq : forall p q : Q, Qeq_bool p q = true -> Qeq_bool p 0 = Qeq_bool q 0).
  { intros p q H. apply Qeq_bool_iff in H. apply eq_true_iff_eq. rewrite !Qeq_bool_iff, H. done. }
  assert (Hz : forall z, truthy (VInt z) = negb (Qeq_bool (inject_Z z) 0)).
  { intros z. cbn. unfold Qeq_bool. cbn. by rewrite Z.mul_1_r. }
  assert (Hb : forall b, truthy (VBool b) = negb (Qeq_bool (if b then 1 else 0) 0)) by by intros [].
  destruct v, w; try done; intros H; rewrite ?Hz, ?Hb; cbn [py_eq as_number] in H; try (cbn [truthy]; by rewrite (Hq _ _ H)).
  - apply String.eqb_eq in H. by subst.
  - by destruct l, l0.
  - by destruct l, l0.
  - by destruct d, d0.
Qed.

Lemma shared_label_sym (l l' : list string) :
  existsb (fun x => mem x l') l = existsb (fun x => mem x l) l'.
Proof.
  apply eq_true_iff_eq. rewrite !existsb_exists.
  split; intros (x & Hx & Hm); exists x; rewrite mem_In in *; by split.
Qed.

Lemma overlap_sym left right o o' :
  _windows_overlap left right = Ok o -> _windows_overlap right left = Ok o' -> o = o'.
Proof.
  unfold _windows_overlap. intros H H'. inv_res.
  repeat match goal with H : (if ?b then _ else _) = Ok _ |- _ => destruct b eqn:? end; inv_res; congruence.
Qed.

Lemma relation_names_sym o left right : val_wf (VDict left) -> val_wf (VDict right) ->
  relation_names o left right = [] -> relation_names o right left = [].
Proof.
  intros Hl Hr. unfold relation_names. rewrite (same_sym right left "system_id"), (same_sym right left "entity_ref_hash"),
    (same_sym right left "provider"), (same_sym right left "signal_family") by done.
  rewrite (shared_label_sym (labels right)).
  assert (Hc : truthy (vget right "content_hash") && same right left "content_hash" =
               truthy (vget left "content_hash") && same left right "content_hash").
  { rewrite (same_sym right left) by done. destruct (same left right "content_hash") eqn:E; [|by rewrite !andb_false_r].
    by rewrite (truthy_eq _ _ E). }
  by rewrite Hc.
Qed.

(** An atom the code found unrelated to another is unrelated both ways. *)
Lemma unrelated_apart w a b : 0 <= w -> val_wf (VDict a) -> val_wf (VDict b) ->
  _relations w a b = Ok [] -> ~ related w a b /\ ~ related w b a.
Proof.
  intros Hw Ha Hb H. split; intros (r & Hr & Hne); [by rewrite H in Hr; injection Hr as <-|].
  rewrite relations_eq in H, Hr by done. apply bind_ok in H as (o & Ho & H). apply bind_ok in Hr as (o' & Ho' & Hr).
  pose proof (overlap_sym _ _ _ _ Ho Ho') as <-. injection H as H. injection Hr as <-.
  apply Hne. by apply relation_names_sym.
Qed.

Lemma related_to_group_ok w a group f : 0 <= w -> val_wf (VDict a) -> atoms_wf group ->
  related_to_group w a group = Ok f ->
  if f then exists y, In y group /\ related w a y else apart (related w) [a] group.
Proof.
  intros Hw Ha Hg. revert f. induction Hg as [|e group He Hg IH]; intros f H; cbn [related_to_group] in H.
  - injection H as <-. by intros ? ? ? [].
  - apply bind_ok in H as (r & Hr & H). destruct r as [|n r].
    + specialize (IH f H). destruct f; [destruct IH as (y & ? & ?); exists y; split; [by right | done]|].
      intros x y [<-|[]] [<-|Hy]; [by apply unrelated_apart | apply IH; [by left | done]].
    + injection H as <-. exists e. split; [by left|]. by exists (n :: r).
Qed.

Lemma matches_ok w a groups flags : 0 <= w -> val_wf (VDict a) -> Forall atoms_wf groups ->
  mapM (related_to_group w a) groups = Ok flags ->
  Forall2 (fun (f : bool) g => if f then exists y, In y g /\ related w a y else apart (related w) [a] g) flags groups.
Proof.
  intros Hw Ha Hg H. apply mapM_ok in H. induction H as [|g f groups flags H _ IH]; [constructor|].
  apply Forall_cons in Hg as [? ?]. constructor; [by apply related_to_group_ok | auto].
Qed.

Lemma correlate_sorted_components w atoms groups done groups' : 0 <= w ->
  components (related w) done groups -> atoms_wf (done ++ atoms) ->
  correlate_sorted w atoms groups = Ok groups' -> components (related w) (done ++ atoms) groups'.
Proof.
  intros Hw. revert done groups. induction atoms as [|a atoms IH]; intros done groups Hc Hwf H; cbn [correlate_sorted] in H.
  - injection H as <-. by rewrite app_nil_r.
  - apply bind_ok in H as (flags & Hf & H). replace (done ++ a :: atoms) with ((done ++ [a]) ++ atoms) in *
      by by rewrite <- app_assoc.
    apply (IH (done ++ [a]) (place a flags groups)); [|done|done].
    apply Forall_app in Hwf as [Hwf _]. apply Forall_app in Hwf as [Hd Ha]. apply Forall_cons in Ha as [Ha _].
    apply place_components; [exact Hc|]. apply matches_ok; [done | done | | done].
    destruct Hc as (Hp & _ & _). rewrite List.Forall_forall. intros g Hg. unfold atoms_wf in *.
    rewrite List.Forall_forall in Hd |- *. intros x Hx. apply Hd. rewrite <- Hp. by apply (in_concat_group g).
Qed.

Lemma by_hash_perm g : Permutation (by_hash g) g.
Proof. apply isort_perm. Qed.

Lemma correlate_groups_components atoms w groups : 0 <= w -> atoms_wf atoms ->
  _correlate_groups atoms w = Ok groups -> components (related w) atoms groups.
Proof.
  intros Hw Hwf H. unfold _correlate_groups in H. apply bind_ok in H as (gs & H & [= <-]).
  apply components_map; [apply by_hash_perm|]. apply (components_of_perm _ (by_hash atoms)); [apply by_hash_perm|].
  apply (correlate_sorted_components w (by_hash atoms) [] [] gs Hw); [|cbn; unfold atoms_wf; by rewrite by_hash_perm | done].
  split; [done|]. split; constructor.
Qed.

(** C11: correlation computes connected components.  Every atom is in exactly
    one group, no group is empty, and two atoms are in the same group exactly
    when a chain of related atoms leads from one to the other, however the
    groups were merged on the way. *)
Theorem correlation_groups_are_components atoms w groups :
  0 <= w -> atoms_wf atoms -> _correlate_groups atoms w = Ok groups ->
  Permutation (concat groups) atoms /\ Forall (fun g => g <> []) groups /\
  forall x y, In x atoms ->
    (exists g, In g groups /\ In x g /\ In y g) <-> linked (related w) atoms x y.
Proof.
  intros Hw Hwf H. pose proof (correlate_groups_components atoms w groups Hw Hwf H) as Hc. split_and!.
  - apply Hc.
  - destruct Hc as (_ & Hg & _). eapply Forall_impl; [exact Hg|]. by intros g [].
  - intros x y Hx. by apply components_iff.
Qed.

(** ** Every atom ends in one incident *)

Definition strings_of (v : val) : list string := map py_str (match v with VList l => l | _ => [] end).

Definition evidence (incident : dict) : list string := strings_of (vget incident "evidence_atom_hashes").

Lemma strings_of_strings l : strings_of (vlist_of_strings l) = l.
Proof. unfold strings_of, vlist_of_strings. induction l as [|x l IH]; [done|]. cbn in *. by rewrite IH. Qed.

Lemma validate_atom_id a b : _validate_atom a = Ok b -> b = a.
Proof. unfold _validate_atom. intros H. by inv_res. Qed.

Lemma validate_atoms atoms as_ : mapM _validate_atom atoms = Ok as_ -> as_ = atoms.
Proof.
  intros H. apply mapM_ok in H. induction H as [|a b atoms as_ H _ IH]; [done|]. by rewrite IH, (validate_atom_id _ _ H).
Qed.

Lemma by_ordinal_perm group ordered : by_ordinal group = Ok ordered -> Permutation ordered group.
Proof.
  intros H. apply bind_ok in H as (keyed & Hk & [= <-]). rewrite isort_perm. apply mapM_ok in Hk.
  induction Hk as [|a k group keyed H _ IH]; [done|]. cbn [map]. rewrite IH. by apply bind_ok in H as (z & _ & [= <-]).
Qed.

#[local] Opaque stable_hash _incident_id correlation_key.

Lemma build_incident_evidence sequence group rejections now incident :
  _build_incident sequence group rejections now = Ok incident ->
  exists ordered, Permutation ordered group /\ evidence incident = map hash_of ordered.
Proof.
  intros H. unfold _build_incident in H. apply bind_ok in H as (ordered & Ho & H). apply bind_ok in H as (rs & _ & [= <-]).
  exists ordered. split; [by apply by_ordinal_perm|]. exact (strings_of_strings (map hash_of ordered)).
Qed.

(** An incident within the budgets of [limits] and made of [group]. *)
Record incident_of (limits : list (string * Z)) (group : list dict) (incident : dict) : Prop := {
  io_evidence : Permutation (evidence incident) (map hash_of group);
  io_size : Z.of_nat (List.length (evidence incident)) <= limit limits "max_atoms_per_incident";
  io_duration : exists s, duration incident = Ok s /\ s <= limit limits "max_incident_duration_seconds"
}.

Lemma add_group_ok limits rejections now sequence group t t' i :
  add_group limits rejections now sequence group t = (Ok t', i) ->
  exists incident, t_incidents t' = t_incidents t ++ [incident] /\ incident_of limits group incident /\
    t_journal_entries t + Z.of_nat (List.length group) <= t_journal_entries t'.
Proof.
  unfold add_group, no_incident, co_ensure.
  destruct (ensure _ _) as [u|] eqn:Hsize; [|done]. apply ensure_ok in Hsize. bools.
  destruct (_matching_rejections _ _ _) as [matched|]; [|done].
  destruct (_build_incident _ _ _ _) as [incident|] eqn:Hb; [|done]. unfold _enforce_duration.
  destruct (duration incident) as [s|] eqn:Hd; [|done]. destruct (_ <? _) eqn:Hs; [done|]. bools.
  intros [= <- _]. exists incident. cbn [t_incidents t_journal_entries]. split; [done|]. split; [|lia].
  apply build_incident_evidence in Hb as (ordered & Hp & He). constructor.
  - rewrite He. by apply Permutation_map.
  - rewrite He, length_map, (Permutation_length Hp). assumption.
  - by exists s.
Qed.

Lemma add_groups_ok limits rejections now sequence groups t t' i :
  add_groups limits rejections now sequence groups t = (Ok t', i) ->
  exists incidents, t_incidents t' = t_incidents t ++ incidents /\ Forall2 (incident_of limits) groups incidents /\
    t_journal_entries t + Z.of_nat (List.length (concat groups)) <= t_journal_entries t'.
Proof.
  revert sequence t. induction groups as [|g groups IH]; intros sequence t; cbn [add_groups].
  - intros [= <- _]. exists []. rewrite app_nil_r. split; [done|]. split; [constructor|]. cbn. lia.
  - destruct (add_group limits rejections now sequence g t) as [[t1|e] j] eqn:E; [|done]. intros H.
    apply add_group_ok in E as (inc & Hi & Hg & Hj). apply IH in H as (incs & Hi' & Hgs & Hj').
    exists (inc :: incs). rewrite Hi', Hi, <- app_assoc. split; [done|]. split; [by constructor|].
    cbn [concat]. rewrite length_app. lia.
Qed.

(** What a call that returns went through. *)
Lemma correlate_ok atoms rejections now o d i :
  correlate_incident_state atoms rejections now o = (Ok d, i) ->
  exists limits groups rs t j,
    _limits o = Ok limits /\ mapM _validate_atom atoms = Ok atoms /\ mapM _validate_rejection rejections = Ok rs /\
    _correlate_groups atoms (limit limits "max_correlation_window_seconds") = Ok groups /\
    Z.of_nat (List.length groups) <= limit limits "max_open_incidents" /\
    add_groups limits rs now 1 groups {| t_incidents := []; t_journal_entries := 0; t_ledger_edges := 0 |} = (Ok t, j) /\
    t_journal_entries t <= limit limits "max_journal_entries" /\
    d = [("schema_version", VStr "p137.correlation_result.v1"); ("incidents", VList (map VDict (by_system (t_incidents t))));
         ("incident_count", VInt (Z.of_nat (List.length (by_system (t_incidents t)))))].
Proof.
  unfold correlate_incident_state, no_incident, co_ensure.
  destruct (_limits o) as [limits|] eqn:Hl; [|done]. destruct (mapM _validate_atom atoms) as [as_|] eqn:Ha; [|done].
  destruct (mapM _validate_rejection rejections) as [rs|] eqn:Hr; [|done]. pose proof (validate_atoms _ _ Ha) as ->.
  destruct (_correlate_groups _ _) as [groups|] eqn:Hg; [|done].
  destruct (ensure _ _) as [u|] eqn:Ho; [|done]. apply ensure_ok in Ho. bools.
  destruct (add_groups _ _ _ _ _ _) as [[t|e] j] eqn:Ht; [|done].
  destruct (ensure (t_journal_entries t <=? _) _) as [u'|] eqn:Hj; [|done]. apply ensure_ok in Hj. bools.
  destruct (ensure _ _) as [u''|]; [|done]. intros [= <- _]. exists limits, groups, rs, t, j. by split_and!.
Qed.

(** C31: no evidence is lost or duplicated.  When correlation returns, the
    evidence of its incidents taken together is the atoms given, each once;
    there are at most [max_open_incidents] incidents, each with at most
    [max_atoms_per_incident] atoms and at most
    [max_incident_duration_seconds] long, and at most [max_journal_entries]
    atoms in all. *)
Theorem correlation_keeps_every_atom atoms rejections now o d i :
  atoms_wf atoms -> correlate_incident_state atoms rejections now o = (Ok d, i) ->
  exists limits incidents, _limits o = Ok limits /\ vget d "incidents" = VList (map VDict incidents) /\
    vget d "incident_count" = VInt (Z.of_nat (List.length incidents)) /\
    Permutation (concat (map evidence incidents)) (map hash_of atoms) /\
    Z.of_nat (List.length incidents) <= limit limits "max_open_incidents" /\
    Z.of_nat (List.length atoms) <= limit limits "max_journal_entries" /\
    Forall (fun incident =>
      Z.of_nat (List.length (evidence incident)) <= limit limits "max_atoms_per_incident" /\
      exists s, duration incident = Ok s /\ s <= limit limits "max_incident_duration_seconds") incidents.
Proof.
  intros Hwf H. apply correlate_ok in H as (limits & groups & rs & t & j & Hl & _ & _ & Hg & Ho & Ht & Hj & ->).
  apply correlate_groups_components in Hg as (Hp & _); [|by apply (limits_nonneg o) | done].
  apply add_groups_ok in Ht as (incidents & Hi & Hf & Hn). cbn [t_incidents t_journal_entries app] in Hi, Hn. subst incidents.
  exists limits, (by_system (t_incidents t)).
  assert (Hb : Permutation (by_system (t_incidents t)) (t_incidents t)) by apply isort_perm.
  split_and!; try reflexivity; try done.
  - rewrite Hb, <- Hp. clear -Hf. induction Hf as [|g inc groups incs H _ IH]; [done|].
    cbn [map concat]. rewrite map_app, IH. by rewrite (io_evidence _ _ _ H).
  - rewrite (Permutation_length Hb). by rewrite <- (Forall2_length _ _ _ Hf).
  - rewrite <- (Permutation_length Hp). lia.
  - rewrite Hb. clear -Hf. induction Hf as [|g inc groups incs H _ IH]; constructor; [|done].
    split; [exact (io_size _ _ _ H) | exact (io_duration _ _ _ H)].
Qed.

(** ** The order of the atoms does not matter *)

Lemma mapM_valid atoms as_ : mapM _validate_atom atoms = Ok as_ -> Forall (fun a => _validate_atom a = Ok a) atoms.
Proof.
  intros H. apply mapM_ok in H. induction H as [|x y l l' Hx _ IH]; constructor; [|done].
  by rewrite (validate_atom_id _ _ Hx) in Hx.
Qed.

Lemma mapM_valid_perm atoms atoms' : Permutation atoms atoms' ->
  mapM _validate_atom atoms = Ok atoms -> mapM _validate_atom atoms' = Ok atoms'.
Proof.
  intros Hp H. apply mapM_valid in H. rewrite Hp in H. apply mapM_ok.
  clear Hp. induction H as [|a l Ha _ IH]; [constructor|]. constructor; [exact Ha | exact IH].
Qed.

(** Correlation is deterministic in its evidence.  Atoms with distinct
    hashes handed over in any other order give the same incidents, with the
    same ids, sequence numbers and hashes. *)
Theorem correlation_ignores_order atoms atoms' rejections now o d i :
  Permutation atoms atoms' -> NoDup (map hash_of atoms) ->
  correlate_incident_state atoms rejections now o = (Ok d, i) ->
  correlate_incident_state atoms' rejections now o = (Ok d, i).
Proof.
  intros Hp Hn H. rewrite <- H. apply correlate_ok in H as (limits & groups & rs & t & j & Hl & Ha & _).
  unfold correlate_incident_state. rewrite Hl, Ha, (mapM_valid_perm _ _ Hp Ha). unfold no_incident, _correlate_groups.
  cbv beta iota.
  replace (by_hash atoms') with (by_hash atoms) by (apply (by_key_unique hash_of); done). reflexivity.
Qed.

(** ** The lifecycle of an incident *)

(** The statuses an incident takes one after the other. *)
Fixpoint walk (current : string) (targets : list string) : res string :=
  match targets with
  | [] => Ok current
  | target :: targets => let! next := transition_incident_status current target in walk next targets
  end.

Lemma transition_inv current target next : transition_incident_status current target = Ok next ->
  next = target /\ In (current, target)
    (concat (map (fun '(s, ts) => map (pair s) ts) _TRANSITIONS)).
Proof.
  unfold transition_incident_status, co_ensure. intros H.
  apply bind_ok in H as (u & _ & H). apply bind_ok in H as (u' & _ & H). apply bind_ok in H as (u'' & Ht & H).
  apply ensure_ok, mem_In in Ht. injection H as <-. split; [done|].
  destruct (dget _TRANSITIONS current) as [ts|] eqn:E; [|done]. apply dget_In in E. apply in_concat.
  exists (map (pair current) ts). split; [|by apply in_map].
  apply in_map_iff. by exists (current, ts).
Qed.

Lemma walk_cons current target targets s : walk current (target :: targets) = Ok s ->
  In (current, target) (concat (map (fun '(s, ts) => map (pair s) ts) _TRANSITIONS)) /\ walk target targets = Ok s.
Proof. cbn [walk]. intros H. apply bind_ok in H as (n & Hn & H). by apply transition_inv in Hn as [-> ?]. Qed.

Lemma walk_terminal current targets s : In current TERMINAL_STATUSES -> walk current targets = Ok s ->
  targets = [] /\ s = current.
Proof.
  intros Ht H. destruct targets as [|t ts]; [by injection H as ->|]. exfalso. apply walk_cons in H as [H _].
  repeat (destruct Ht as [<-|Ht]; [cbn in H; intuition discriminate|]). done.
Qed.

(** A conclusion is only reached through the whole investigation.  An
    incident that was opened and is now confirmed, benign or inconclusive
    went through correlating, investigating, ready and pending, in that order
    and each once, and stays as it is; every other way out is
    [aborted_fail_closed]; and no incident moves more than five times. *)
Theorem concluded_incident_was_investigated targets s :
  walk "open" targets = Ok s ->
  (List.length targets <= 5)%nat /\
  (In s TERMINAL_STATUSES ->
   (forall t, transition_incident_status s t = Raise (P137CorrelationError "terminal_incident_transition_forbidden")) /\
   (s <> "aborted_fail_closed" ->
    targets = ["correlating"; "investigating"; "ready_to_classify"; "classification_pending"; s])).
Proof.
  intros H.
  assert (Hfin : In s TERMINAL_STATUSES ->
    forall t, transition_incident_status s t = Raise (P137CorrelationError "terminal_incident_transition_forbidden")).
  { intros Hs t. apply mem_In in Hs. unfold transition_incident_status. by rewrite Hs. }
  assert (Hall : (List.length targets <= 5)%nat /\ (In s TERMINAL_STATUSES -> s <> "aborted_fail_closed" ->
    targets = ["correlating"; "investigating"; "ready_to_classify"; "classification_pending"; s])); [|naive_solver].
  clear Hfin.
  do 6 (destruct targets as [|? targets];
    [injection H as <-; split; [cbn; lia | cbn; intuition discriminate]|];
    apply walk_cons in H as [Hin H];
    cbn in Hin; repeat (destruct Hin as [Hin|Hin]; [simplify_eq|]); try done;
    try (apply walk_terminal in H as [-> ->]; [split; [cbn; lia | done] | cbn; tauto])).
Qed.
