(* ===== verification/P137Hypotheses.v ===== *)
(** * Hypotheses and their ranking

    Models app/services/p137_hypotheses.py: the hypothesis an evidence atom
    gives rise to, its support, contradictions and missing evidence, its
    integer score, and the ranking of an incident's hypotheses.  The age of
    evidence is an exact quotient. *)

From S2P Require Import Prelude PyValue PyChecks Sha PyTime P137Checks.

Definition HYPOTHESIS_SCHEMA_VERSION : string := "p137.hypothesis.v1".
Definition SCORE_FORMULA_ID : string := "p137_integer_semantic_score_v1".
Definition TIE_POLICY : string := "semantic_tuple_tie_yields_insufficient_evidence".

Definition P137HypothesisError (msg : string) : exn := Exn "P137HypothesisError" msg.
Definition hy_ensure (b : bool) (msg : string) : res unit := ensure b (P137HypothesisError msg).

(** ** Atoms *)

Definition _ATOM_FIELDS : list string :=
  ["schema_version"; "atom_id"; "promotion_record_hash"; "promotion_key"; "p136_entry_hash"; "p135_bundle_hash";
   "source_id"; "provider"; "format"; "signal_family"; "system_id"; "entity_ref_hash"; "window"; "signal_name";
   "numeric_value"; "numeric_unit"; "evidence_state"; "severity_code"; "metric_breach_code"; "marker_code";
   "counter_signal_code"; "state_reason_codes"; "denominator_visible"; "content_hash"; "label_hashes";
   "topology_ref_hashes"; "deploy_config_ref_hashes"; "risk_flags"; "redacted_preview_hash"; "ordinal"; "atom_hash"].

Definition _EVIDENCE_STATES : list string := ["promoted_success"; "denominator_visible_failure"; "context_only"].
Definition _SEVERITIES : list string := ["sev0"; "sev1"; "sev2"; "sev3"; "sev4"; "unknown"].
Definition _BREACH_CODES : list string :=
  ["none"; "above_warning"; "above_critical"; "below_warning"; "below_critical"; "baseline_delta_warning";
   "baseline_delta_critical"].
Definition _MARKER_CODES : list string :=
  ["none"; "known_benign_schedule"; "topology_noise"; "deployment_marker"; "topology_marker"; "security_marker";
   "data_quality_marker"].
Definition _COUNTER_CODES : list string := ["none"; "weak_counter_signal"; "decisive_counter_signal"].
Definition _EXTERNAL_REASONS : list string :=
  ["provider_authority_required"; "network_authority_required"; "credential_authority_required";
   "operator_authority_required"; "action_authority_required"].
Definition _STATE_REASONS : list string :=
  ["parser_failure"; "redaction_failure"; "provenance_failure"; "local_catalog_selectable"; "p135_adapter_failure"] ++
  _EXTERNAL_REASONS.

Definition _DEFAULT_LIMITS : list (string * Z) :=
  [("max_hypotheses", 64); ("max_support_edges_per_hypothesis", 64); ("max_contradiction_edges_per_hypothesis", 64);
   ("max_missing_evidence_items_per_hypothesis", 64); ("correlation_window_seconds", 900)].

Fixpoint override (values : list (string * Z)) (overrides : dict) : res (list (string * Z)) :=
  match overrides with
  | [] => Ok values
  | (key, value) :: overrides =>
      let! _ := hy_ensure (dmem key values) "unknown_budget_key" in
      match value with
      | VInt z =>
          let! _ := hy_ensure (0 <=? z) "invalid_budget_value" in
          let! _ := hy_ensure (negb ((key =s "correlation_window_seconds") && (z =? 0))) "invalid_budget_value" in
          override (dset values key z) overrides
      | _ => Raise (P137HypothesisError "invalid_budget_value")
      end
  end.

Definition _limits (overrides : option dict) : res (list (string * Z)) :=
  override _DEFAULT_LIMITS (default [] overrides).

Definition limit (limits : list (string * Z)) (key : string) : Z := default 0 (dget limits key).

(** [any(reason not in _STATE_REASONS for reason in reasons)] *)
Fixpoint unknown_reason (reasons : list val) : res bool :=
  match reasons with
  | [] => Ok false
  | reason :: reasons =>
      let! known := in_set reason _STATE_REASONS in
      if known then unknown_reason reasons else Ok true
  end.

(** [a in xs and b in ys]: the second test is only made when the first holds. *)
Definition both_in (atom : dict) (k1 : string) (l1 : list string) (k2 : string) (l2 : list string) : res bool :=
  let! a := in_set (vget atom k1) l1 in
  if a then in_set (vget atom k2) l2 else Ok false.

Definition is_window (v : val) : bool :=
  match v with VDict w => same_keys w ["start"; "end"] | _ => false end.

Definition _validate_atom (atom : dict) : res dict :=
  let! _ := hy_ensure (same_keys atom _ATOM_FIELDS) "unexpected_atom_keys" in
  let! _ := hy_ensure (py_eq (vget atom "schema_version") (VStr "p137.evidence_atom.v1")) "invalid_atom_schema" in
  let! state := in_set (vget atom "evidence_state") _EVIDENCE_STATES in
  let! _ := hy_ensure state "invalid_evidence_state" in
  let! codes := both_in atom "severity_code" _SEVERITIES "metric_breach_code" _BREACH_CODES in
  let! _ := hy_ensure codes "invalid_atom_classifier_enum" in
  let! codes := both_in atom "marker_code" _MARKER_CODES "counter_signal_code" _COUNTER_CODES in
  let! _ := hy_ensure codes "invalid_atom_classifier_enum" in
  let! _ := hy_ensure (negb (is_bool (vget atom "numeric_value"))) "bool_numeric_value_forbidden" in
  let! unknown := match vget atom "state_reason_codes" with VList reasons => unknown_reason reasons | _ => Ok true end in
  let! _ := hy_ensure (negb unknown) "invalid_state_reason_code" in
  let! _ := hy_ensure (is_window (vget atom "window")) "invalid_atom_window" in
  Ok atom.

(** ** Statement *)

(** [atom[key] == code] and [atom[key] in {…}] of a field that was validated
    to be a string. *)
Definition code_is (atom : dict) (key code : string) : bool := py_eq (vget atom key) (VStr code).
Definition code_in (atom : dict) (key : string) (codes : list string) : bool := existsb (code_is atom key) codes.

Definition promoted (atom : dict) : bool := code_is atom "evidence_state" "promoted_success".
Definition above (atom : dict) : bool := code_in atom "metric_breach_code" ["above_warning"; "above_critical"].
Definition breached (atom : dict) : bool := negb (code_is atom "metric_breach_code" "none").
Definition delta (atom : dict) : bool :=
  code_in atom "metric_breach_code" ["baseline_delta_warning"; "baseline_delta_critical"].

Definition reasons_of (atom : dict) : list string :=
  map py_str (match vget atom "state_reason_codes" with VList l => l | _ => [] end).

Definition _request_need_class (atom : dict) : res string :=
  if existsb (fun r => mem r _EXTERNAL_REASONS) (reasons_of atom) then Ok "EXTERNAL_UNAVAILABLE"
  else if mem "local_catalog_selectable" (reasons_of atom) then Ok "LOCAL_SELECTION"
  else Raise (P137HypothesisError "denominator_failure_reason_unmapped").

Definition _statement (atom : dict) : res (string * string) :=
  if promoted atom && code_is atom "signal_name" "error_rate" && above atom then
    Ok ("error_rate_regression", "error_rate")
  else if promoted atom && code_is atom "signal_name" "latency" && above atom then
    Ok ("latency_regression", "latency")
  else
    let! saturation :=
      if promoted atom then in_set (vget atom "signal_name") ["cpu"; "memory"; "disk"; "queue_depth"] else Ok false in
    if saturation && breached atom then Ok ("resource_saturation_signal", "resource_saturation")
    else if promoted atom && code_is atom "signal_name" "data_quality" && breached atom then
      Ok ("data_quality_drop", "data_quality")
    else if promoted atom && code_is atom "marker_code" "security_marker" then
      Ok ("security_signal_cluster", "security_signal")
    else if promoted atom && code_is atom "marker_code" "deployment_marker" then
      Ok ("deployment_correlated_change", "deployment_change")
    else if promoted atom && code_is atom "marker_code" "topology_marker" then
      Ok ("topology_correlated_change", "topology_change")
    else if promoted atom && code_in atom "marker_code" ["known_benign_schedule"; "topology_noise"] then
      Ok ("scheduled_or_known_benign_noise", "benign_pattern")
    else if promoted atom && delta atom &&
            (truthy (vget atom "label_hashes") || truthy (vget atom "content_hash") ||
             truthy (vget atom "redacted_preview_hash")) then
      Ok ("metric_spike_with_correlated_logs", "availability")
    else if code_is atom "evidence_state" "denominator_visible_failure" then
      let! _ := _request_need_class atom in Ok ("telemetry_gap_only", "telemetry_gap")
    else Ok ("unknown_insufficient_context", "unknown").

(** ** Edges *)

Definition hash_of (atom : dict) : string := py_str (vget atom "atom_hash").
Definition window_of (atom : dict) : dict := dict_or_empty (vget atom "window").

(** [stable_hash(…).removeprefix("sha256:")[:40]] *)
Definition short_hash (v : val) : string := String.substring 7 40 (stable_hash v).

Definition _edge_id (atom_hash relation reason_code : string) : string :=
  "p137-edge-" +:+ short_hash (VDict [("atom_hash", VStr atom_hash); ("relation", VStr relation);
                                     ("reason_code", VStr reason_code)]).

Definition _edge (atom : dict) (relation : string) (weight : Z) (reason_code : string) : dict :=
  let edge : dict :=
    [("edge_id", VStr (_edge_id (hash_of atom) relation reason_code)); ("evidence_atom_hash", VStr (hash_of atom));
     ("relation", VStr relation); ("weight", VInt weight); ("window", VDict (window_of atom));
     ("reason_code", VStr reason_code)] in
  edge ++ [("edge_hash", VStr (stable_hash (VDict edge)))].

Definition _missing (atom : dict) (request_need_class why_needed_code relation : string) : dict :=
  let item : dict :=
    [("missing_id", VStr (_edge_id (hash_of atom) relation why_needed_code));
     ("request_kind", VStr (if request_need_class =s "LOCAL_SELECTION" then "closed_catalog_selection"
                            else "unavailable_external_authority"));
     ("request_need_class", VStr request_need_class); ("expected_value_code", VStr "validated_follow_up_evidence");
     ("why_needed_code", VStr why_needed_code); ("blocking", VBool true);
     ("unavailable_need_hash", VStr (stable_hash (VDict
        [("atom_hash", vget atom "atom_hash"); ("request_need_class", VStr request_need_class)])))] in
  item ++ [("item_hash", VStr (stable_hash (VDict item)))].

(** The support, contradictions and missing evidence of an atom. *)
Record edges := { e_support : list dict; e_contradictions : list dict; e_missing : list dict }.

Definition when {A} (b : bool) (l : list A) : list A := if b then l else [].

Definition support_edges (atom : dict) : list dict :=
  when (promoted atom)
    (when (code_in atom "metric_breach_code" ["above_warning"; "above_critical"; "below_warning"; "below_critical"])
       [_edge atom "supports_primary" 4 "numeric_threshold_exceeded"] ++
     when (delta atom) [_edge atom "supports_primary" 4 "promoted_baseline_delta"] ++
     when (code_is atom "marker_code" "known_benign_schedule") [_edge atom "supports_benign" 3 "known_benign_schedule"] ++
     when (code_is atom "marker_code" "topology_marker") [_edge atom "supports_secondary" 2 "topology_change_detected"]).

Definition contradiction_edges (atom : dict) : list dict :=
  when (promoted atom)
    (when (code_is atom "counter_signal_code" "decisive_counter_signal")
       [_edge atom "contradicts_decisive" (-5) "decisive_counter_signal"] ++
     when (code_is atom "counter_signal_code" "weak_counter_signal")
       [_edge atom "contradicts_soft" (-2) "weak_counter_signal"]).

Definition _edges (atom : dict) : res edges :=
  let! missing :=
    if code_is atom "evidence_state" "denominator_visible_failure" then
      let! need := _request_need_class atom in
      let external := need =s "EXTERNAL_UNAVAILABLE" in
      Ok [_missing atom need
            (if external then "external_authority_unavailable" else "required_local_selection_missing")
            (if external then "missing_external_unavailable" else "missing_required_local")]
    else Ok [] in
  Ok {| e_support :=
          match support_edges atom, contradiction_edges atom with
          | [], [] => when (code_is atom "evidence_state" "context_only")
                        [_edge atom "neutral_context" 0 "provider_signal_overlap"]
          | _, _ => support_edges atom
          end;
        e_contradictions := contradiction_edges atom; e_missing := missing |}.

(** ** Score *)

Definition _int (v : val) : res Z :=
  match v with VInt z => Ok z | _ => Raise (P137HypothesisError "score_integer_required") end.

(** [sum(f(_int(edge["weight"])) for edge in edges)] *)
Fixpoint weights (f : Z -> Z) (edges : list dict) : res Z :=
  match edges with
  | [] => Ok 0
  | edge :: edges =>
      let! w := _int (vget edge "weight") in
      let! rest := weights f edges in
      Ok (f w + rest)
  end.

Definition ends_with_z (s : string) : bool := String.substring (String.length s - 1) 1 s =s "Z".

Definition _parse_time (value : string) : res Z :=
  let! _ := hy_ensure (ends_with_z value) "timestamp_must_be_utc_z" in
  match fromisoformat_offset (String.substring 0 (String.length value - 1) value +:+ "+00:00") with
  | Some (local, Some offset) =>
      if datetime_range (local - offset) then Ok (local - offset)
      else Raise (Exn "OverflowError" "date value out of range")
  | _ => Raise (Exn "ValueError" "Invalid isoformat string")
  end.

Definition _freshness_weight (support : list dict) (now : string) (correlation_window_seconds : Z) : res Z :=
  let! ends := mapM (fun edge => _parse_time (py_str (vget (window_of edge) "end"))) support in
  match ends with
  | [] => Ok 0
  | e :: ends =>
      let newest := fold_left Z.max ends e in
      let! now := _parse_time now in
      let age_bucket := (now - newest) / (second * correlation_window_seconds) in
      Ok (Z.max 0 (3 - age_bucket))
  end.

Record score := {
  support_weight : Z; contradiction_weight : Z; missing_required_count : Z; freshness_weight : Z;
  source_diversity_weight : Z; rank_score : Z
}.

Definition _score (e : edges) (now : string) (correlation_window_seconds : Z) : res score :=
  let! support_weight := weights id (e_support e) in
  let! contradiction_weight := weights Z.abs (e_contradictions e) in
  let missing_required_count := Z.of_nat (List.length (List.filter (fun item => truthy (vget item "blocking")) (e_missing e))) in
  let! freshness_weight := _freshness_weight (e_support e) now correlation_window_seconds in
  let source_diversity_weight := match e_support e with [] => 0 | _ => 1 end in
  Ok {| support_weight := support_weight; contradiction_weight := contradiction_weight;
        missing_required_count := missing_required_count; freshness_weight := freshness_weight;
        source_diversity_weight := source_diversity_weight;
        rank_score := support_weight - contradiction_weight - 4 * missing_required_count + freshness_weight +
                      source_diversity_weight |}.

Definition score_to_dict (s : score) : dict :=
  [("support_weight", VInt (support_weight s)); ("contradiction_weight", VInt (contradiction_weight s));
   ("missing_required_count", VInt (missing_required_count s)); ("freshness_weight", VInt (freshness_weight s));
   ("source_diversity_weight", VInt (source_diversity_weight s)); ("rank_score", VInt (rank_score s))].

Definition has_relation (relation : string) (edges : list dict) : bool :=
  existsb (fun edge => code_is edge "relation" relation) edges.

Definition _vote (category : string) (e : edges) : string :=
  let blocking_missing := existsb (fun item => truthy (vget item "blocking")) (e_missing e) in
  let decisive_counter := has_relation "contradicts_decisive" (e_contradictions e) in
  let primary_support := has_relation "supports_primary" (e_support e) in
  let benign_support := has_relation "supports_benign" (e_support e) in
  if (category =s "benign_pattern") && benign_support && negb blocking_missing then "benign_anomaly"
  else if negb (category =s "benign_pattern") && primary_support && negb decisive_counter && negb blocking_missing
  then "confirmed_incident"
  else "insufficient_evidence".

(** ** Hypotheses *)

Definition _hypothesis_id (incident_id statement_code atom_hash : string) : string :=
  "p137-hyp-" +:+ short_hash (VDict [("incident_id", VStr incident_id); ("statement_code", VStr statement_code);
                                    ("atom_hash", VStr atom_hash)]).

Definition _hash_hypothesis (hypothesis : dict) : string :=
  stable_hash (VDict (dwithout ["hypothesis_hash"] hypothesis)).

Definition vdicts (l : list dict) : val := VList (map VDict l).

(** The hypothesis without its hash. *)
Definition hypothesis_body (incident_id : string) (atom : dict) (sequence : Z) (statement : string * string)
    (e : edges) (s : score) : dict :=
  [("schema_version", VStr HYPOTHESIS_SCHEMA_VERSION);
   ("hypothesis_id", VStr (_hypothesis_id incident_id statement.1 (hash_of atom)));
   ("incident_id", VStr incident_id); ("hypothesis_sequence", VInt sequence); ("category", VStr statement.2);
   ("statement_code", VStr statement.1);
   ("scope", VDict
     [("system_id", VStr (py_str (vget atom "system_id"))); ("entity_ref_hash", VStr (py_str (vget atom "entity_ref_hash")));
      ("window", VDict (window_of atom)); ("evidence_atom_hashes", VList [VStr (hash_of atom)])]);
   ("support", vdicts (e_support e)); ("contradictions", vdicts (e_contradictions e));
   ("missing_evidence", vdicts (e_missing e)); ("score", VDict (score_to_dict s)); ("rank", VInt 0);
   ("classification_vote", VStr (_vote statement.2 e)); ("previous_hypothesis_hash", VNone)].

(** [hypothesis["hypothesis_hash"] = _hash_hypothesis(hypothesis)] *)
Definition rehash (hypothesis : dict) : dict :=
  dset hypothesis "hypothesis_hash" (VStr (_hash_hypothesis hypothesis)).

Definition _build_hypothesis (incident atom : dict) (sequence : Z) (now : string) (correlation_window_seconds : Z)
  : res dict :=
  let! statement := _statement atom in
  let! e := _edges atom in
  let! s := _score e now correlation_window_seconds in
  let! incident_id := vindex incident "incident_id" in
  Ok (rehash (hypothesis_body (py_str incident_id) atom sequence statement e s)).

(** ** Ranking *)

Definition edges_of (hypothesis : dict) (key : string) : list val :=
  match vget hypothesis key with VList l => l | _ => [] end.

Definition edge_count (hypothesis : dict) (key : string) : Z := Z.of_nat (List.length (edges_of hypothesis key)).

Definition check_edges (limits : list (string * Z)) (hypothesis : dict) : res unit :=
  let! _ := hy_ensure (edge_count hypothesis "support" <=? limit limits "max_support_edges_per_hypothesis")
              "support_edge_budget_exceeded" in
  let! _ := hy_ensure (edge_count hypothesis "contradictions" <=? limit limits "max_contradiction_edges_per_hypothesis")
              "contradiction_edge_budget_exceeded" in
  hy_ensure (edge_count hypothesis "missing_evidence" <=? limit limits "max_missing_evidence_items_per_hypothesis")
    "missing_evidence_budget_exceeded".

Definition score_field (hypothesis : dict) (key : string) : Z :=
  default 0 (as_int (vget (dict_or_empty (vget hypothesis "score")) key)).

(** The score is made of integers: [_int] returns them. *)
Definition _semantic_tuple (hypothesis : dict) : list Z :=
  [score_field hypothesis "rank_score"; score_field hypothesis "support_weight";
   - score_field hypothesis "contradiction_weight"; - score_field hypothesis "missing_required_count";
   score_field hypothesis "freshness_weight"; score_field hypothesis "source_diversity_weight"].

Definition hypothesis_hash_of (hypothesis : dict) : string := py_str (vget hypothesis "hypothesis_hash").

(** [hypotheses.sort(key=lambda item: (_semantic_tuple(item), str(item["hypothesis_hash"])), reverse=True)] *)
Definition sort_key (hypothesis : dict) : list Z * string := (_semantic_tuple hypothesis, hypothesis_hash_of hypothesis).
Definition best_first : list dict -> list dict := sort_descending sort_key.

Definition set_rank (rank : Z) (hypothesis : dict) : dict := rehash (dset hypothesis "rank" (VInt rank)).

Fixpoint number_ranks (rank : Z) (hypotheses : list dict) : list dict :=
  match hypotheses with
  | [] => []
  | h :: hypotheses => set_rank rank h :: number_ranks (rank + 1) hypotheses
  end.

Definition _top_semantic_ties (hypotheses : list dict) : list dict :=
  match hypotheses with
  | [] => []
  | top :: _ => List.filter (fun h => tuple_eqb (_semantic_tuple h) (_semantic_tuple top)) hypotheses
  end.

Definition statement_code (hypothesis : dict) : string := py_str (vget hypothesis "statement_code").
Definition vote (hypothesis : dict) : string := py_str (vget hypothesis "classification_vote").

Definition _classification (hypotheses top_ties : list dict) : string :=
  match hypotheses with
  | [] => "insufficient_evidence"
  | top :: _ =>
      if (1 <? Z.of_nat (List.length top_ties)) &&
         (1 <? Z.of_nat (List.length (remove_dups (map statement_code top_ties))))
      then "insufficient_evidence" else vote top
  end.

Definition by_hash : list dict -> list dict := isort (fun a b => String.leb (hash_of a) (hash_of b)).

Fixpoint build_hypotheses (incident : dict) (atoms : list dict) (sequence : Z) (now : string) (window : Z)
  : res (list dict) :=
  match atoms with
  | [] => Ok []
  | atom :: atoms =>
      let! h := _build_hypothesis incident atom sequence now window in
      let! hs := build_hypotheses incident atoms (sequence + 1) now window in
      Ok (h :: hs)
  end.

Definition ranked_hypotheses (incident : dict) (atoms : list dict) (now : string) (overrides : option dict)
  : res (list dict) :=
  let! limits := _limits overrides in
  let! atoms := mapM _validate_atom atoms in
  let! _ := hy_ensure (Z.of_nat (List.length atoms) <=? limit limits "max_hypotheses") "hypothesis_budget_exceeded" in
  let! hypotheses := build_hypotheses incident (by_hash atoms) 1 now (limit limits "correlation_window_seconds") in
  let! _ := iterM (check_edges limits) hypotheses in
  Ok (number_ranks 1 (best_first hypotheses)).

Definition rank_incident_hypotheses (incident : dict) (atoms : list dict) (now : string) (overrides : option dict)
  : res dict :=
  let! hypotheses := ranked_hypotheses incident atoms now overrides in
  let top_ties := _top_semantic_ties hypotheses in
  Ok [("schema_version", VStr "p137.hypothesis_ranking.v1"); ("score_formula_id", VStr SCORE_FORMULA_ID);
      ("tie_policy", VStr TIE_POLICY); ("hypotheses", vdicts hypotheses);
      ("classification", VStr (_classification hypotheses top_ties));
      ("top_tie_hypothesis_hashes", vlist_of_strings (sorted_strings (map hypothesis_hash_of top_ties)));
      ("planned_requests", VList [])].
