(* ===== verification/P137HypothesesProps.v ===== *)
(** * What hypothesis ranking guarantees

    The vote of a hypothesis in terms of its atom, the bounds of its score,
    and the order of the ranking. *)

From stdpp Require Import sorting.
From S2P Require Import Prelude PyValue PyChecks Sha PyTime Json P137Checks P137Hypotheses.

(** ** Validated atoms *)

Lemma in_set_ok v l : in_set v l = Ok true <-> exists s, v = VStr s /\ In s l.
Proof.
  unfold in_set. destruct v as [| | | |s|l'|l'|d]; cbn [hashable]; try (split; [by intros | by intros (? & ? & ?)]).
  - split; [intros [= H]; exists s; by rewrite <- mem_In | intros (? & [= <-] & H); by apply mem_In in H as ->].
  - destruct (forallb hashable l'); split; [by intros | by intros (? & ? & ?) | by intros | by intros (? & ? & ?)].
Qed.

(** The fields of a validated atom that the classifier reads. *)
Record classified (atom : dict) : Prop := {
  cl_state : exists s, vget atom "evidence_state" = VStr s /\ In s _EVIDENCE_STATES;
  cl_breach : exists s, vget atom "metric_breach_code" = VStr s /\ In s _BREACH_CODES;
  cl_marker : exists s, vget atom "marker_code" = VStr s /\ In s _MARKER_CODES;
  cl_counter : exists s, vget atom "counter_signal_code" = VStr s /\ In s _COUNTER_CODES
}.

Lemma both_in_ok atom k1 l1 k2 l2 : both_in atom k1 l1 k2 l2 = Ok true ->
  in_set (vget atom k1) l1 = Ok true /\ in_set (vget atom k2) l2 = Ok true.
Proof. unfold both_in. intros H. apply bind_ok in H as ([] & H1 & H2); done. Qed.

Lemma validate_atom_ok atom a : _validate_atom atom = Ok a -> a = atom /\ classified atom.
Proof.
  unfold _validate_atom, hy_ensure. intros H.
  repeat (let u := fresh "u" in let Hu := fresh "Hu" in apply bind_ok in H as (u & Hu & H)).
  injection H as <-. repeat match goal with H : ensure _ _ = Ok _ |- _ => apply ensure_ok in H; subst end.
  repeat match goal with H : both_in _ _ _ _ _ = Ok true |- _ => apply both_in_ok in H as [? ?] end.
  split; [done|]. split; by apply in_set_ok.
Qed.

(** ** Edges *)

Definition state_of (atom : dict) : string := py_str (vget atom "evidence_state").

Lemma code_is_str atom key s code : vget atom key = VStr s -> code_is atom key code = (s =s code).
Proof. unfold code_is. by intros ->. Qed.

Ltac split_codes H :=
  repeat match type of H with
  | In _ [] => destruct H
  | In _ (_ :: _) => destruct H as [<-|H]
  end.

Definition decisive (atom : dict) : bool := code_is atom "counter_signal_code" "decisive_counter_signal".

(** The edges of an atom, by the fields they come from. *)
Lemma has_relation_edge relation atom r w c : has_relation relation [_edge atom r w c] = (r =s relation).
Proof. unfold has_relation, code_is, _edge. cbn. by rewrite orb_false_r. Qed.

Lemma has_relation_app r l l' : has_relation r (l ++ l') = has_relation r l || has_relation r l'.
Proof. apply existsb_app. Qed.

Lemma has_relation_when r b l : has_relation r (when b l) = b && has_relation r l.
Proof. by destruct b. Qed.

Definition failed (atom : dict) : bool := code_is atom "evidence_state" "denominator_visible_failure".

Lemma blocking_missing atom need why relation : truthy (vget (_missing atom need why relation) "blocking") = true.
Proof. reflexivity. Qed.

Lemma promoted_not_failed atom : promoted atom = true -> failed atom = false.
Proof. unfold promoted, failed, code_is. intros H. apply py_eq_str in H. by rewrite H. Qed.

Lemma breached_primary atom : classified atom ->
  breached atom = code_in atom "metric_breach_code" ["above_warning"; "above_critical"; "below_warning"; "below_critical"] || delta atom.
Proof.
  intros [_ (s & Hs & Hin) _ _]. unfold breached, delta, code_in. cbn [existsb]. rewrite !(code_is_str _ _ s) by done.
  clear Hs. unfold _BREACH_CODES in Hin. split_codes Hin; reflexivity.
Qed.

Lemma edge_weight atom r w c : vget (_edge atom r w c) "weight" = VInt w.
Proof. reflexivity. Qed.

Lemma edge_window atom r w c : window_of (_edge atom r w c) = window_of atom.
Proof. reflexivity. Qed.

#[local] Opaque _edge _missing stable_hash short_hash when.

(** What an atom's edges say. *)
Record edges_say (atom : dict) (e : edges) : Prop := {
  es_primary : has_relation "supports_primary" (e_support e) = promoted atom && breached atom;
  es_benign : has_relation "supports_benign" (e_support e) = promoted atom && code_is atom "marker_code" "known_benign_schedule";
  es_decisive : has_relation "contradicts_decisive" (e_contradictions e) = promoted atom && decisive atom;
  es_blocking : existsb (fun item => truthy (vget item "blocking")) (e_missing e) = failed atom
}.

Lemma has_relation_context r (s c context : list dict) : has_relation r context = false ->
  has_relation r (match s, c with [], [] => context | _, _ => s end) = has_relation r s.
Proof. intros H. by destruct s, c. Qed.

Lemma edges_ok atom e : classified atom -> _edges atom = Ok e -> edges_say atom e.
Proof.
  intros Hc H. unfold _edges in H. apply bind_ok in H as (missing & Hm & H). apply (inj Ok) in H as <-.
  assert (Hb : existsb (fun item => truthy (vget item "blocking")) missing = failed atom).
  { unfold failed. destruct (code_is atom "evidence_state" "denominator_visible_failure"); [|by injection Hm as <-].
    by apply bind_ok in Hm as (need & _ & [= <-]). }
  assert (Hctx : forall r, r <> "neutral_context" ->
    has_relation r (when (code_is atom "evidence_state" "context_only") [_edge atom "neutral_context" 0 "provider_signal_overlap"]) = false).
  { intros r Hr. rewrite has_relation_when, has_relation_edge. apply String.eqb_neq in Hr.
    rewrite String.eqb_sym, Hr. apply andb_false_r. }
  split; cbn [e_support e_contradictions e_missing]; [| | |done]; clear Hb Hm.
  1, 2: rewrite has_relation_context by (apply Hctx; discriminate).
  all: unfold support_edges, contradiction_edges; rewrite has_relation_when, !has_relation_app, !has_relation_when, !has_relation_edge.
  - cbn [String.eqb Ascii.eqb Bool.eqb]. rewrite !andb_true_r, !andb_false_r, !orb_false_r. rewrite (breached_primary _ Hc).
    unfold code_in. cbn [existsb]. by rewrite !orb_false_r.
  - cbn [String.eqb Ascii.eqb Bool.eqb]. by rewrite !andb_true_r, !andb_false_r, !orb_false_r.
  - cbn [String.eqb Ascii.eqb Bool.eqb]. by rewrite !andb_true_r, !andb_false_r, !orb_false_r.
Qed.

(** ** Hypotheses *)

Definition category (hypothesis : dict) : string := py_str (vget hypothesis "category").

(** What [_build_hypothesis] makes of an atom. *)
Inductive built (atom : dict) (now : string) (window : Z) : string * string -> edges -> score -> dict -> Prop :=
  | Built id sequence st e s :
      _statement atom = Ok st -> _edges atom = Ok e -> _score e now window = Ok s ->
      built atom now window st e s (rehash (hypothesis_body id atom sequence st e s)).

Lemma build_hypothesis_ok incident atom sequence now window h :
  _build_hypothesis incident atom sequence now window = Ok h -> exists st e s, built atom now window st e s h.
Proof.
  unfold _build_hypothesis. intros H. apply bind_ok in H as (st & Hst & H). apply bind_ok in H as (e & He & H).
  apply bind_ok in H as (s & Hs & H). apply bind_ok in H as (id & _ & [= <-]). exists st, e, s. by constructor.
Qed.

Lemma vget_dset_other d k k' v : k <> k' -> vget (dset d k' v) k = vget d k.
Proof. intros H. unfold vget. rewrite dget_dset. by apply String.eqb_neq in H as ->. Qed.

Lemma vget_rehash d k : k <> "hypothesis_hash" -> vget (rehash d) k = vget d k.
Proof. apply vget_dset_other. Qed.

#[local] Opaque _hypothesis_id _vote.

Lemma built_fields atom now window st e s h : built atom now window st e s h ->
  vote h = _vote st.2 e /\ category h = st.2 /\ statement_code h = st.1 /\
  vget h "score" = VDict (score_to_dict s) /\ vget h "support" = vdicts (e_support e) /\
  vget h "contradictions" = vdicts (e_contradictions e) /\ vget h "missing_evidence" = vdicts (e_missing e).
Proof.
  intros []. unfold vote, category, statement_code. rewrite !vget_rehash by discriminate. split_and!; reflexivity.
Qed.

#[local] Transparent _vote.

(** The benign category is only given to promoted atoms with a benign marker. *)
Lemma benign_statement atom st : _statement atom = Ok st -> st.2 = "benign_pattern" ->
  promoted atom = true /\ code_in atom "marker_code" ["known_benign_schedule"; "topology_noise"] = true.
Proof.
  unfold _statement. intros H Hb.
  destruct (promoted atom) eqn:Hp; cbn [andb] in H.
  - split; [done|].
    repeat match goal with
    | H : (if ?b then _ else _) = Ok _ |- _ => destruct b eqn:?
    | H : bind _ _ = Ok _ |- _ => apply bind_ok in H as (? & ? & H)
    | H : Ok _ = Ok _ |- _ => injection H as <-; discriminate Hb || done
    end.
  - cbn [bind andb] in H.
    repeat match goal with
    | H : (if ?b then _ else _) = Ok _ |- _ => destruct b eqn:?
    | H : bind _ _ = Ok _ |- _ => apply bind_ok in H as (? & ? & H)
    | H : Ok _ = Ok _ |- _ => injection H as <-; discriminate Hb
    end.
Qed.

(** The vote of a hypothesis, read off its atom.  A hypothesis votes
    [confirmed_incident] exactly when its atom is promoted, breaches a
    threshold or the baseline, carries no decisive counter signal and is not
    a benign pattern; [benign_anomaly] exactly when it is a benign pattern
    with a known benign schedule, even against a decisive counter signal; and
    [insufficient_evidence] in every other case. *)
Theorem vote_follows_the_atom incident atom sequence now window h :
  _validate_atom atom = Ok atom -> _build_hypothesis incident atom sequence now window = Ok h ->
  (vote h = "confirmed_incident" <->
     promoted atom = true /\ breached atom = true /\ decisive atom = false /\ category h <> "benign_pattern") /\
  (vote h = "benign_anomaly" <->
     category h = "benign_pattern" /\ code_is atom "marker_code" "known_benign_schedule" = true) /\
  In (vote h) ["confirmed_incident"; "benign_anomaly"; "insufficient_evidence"].
Proof.
  intros Hv H. apply validate_atom_ok in Hv as [_ Hc]. apply build_hypothesis_ok in H as (st & e & s & H).
  destruct (built_fields _ _ _ _ _ _ _ H) as (-> & -> & _). destruct H as [_ _ st e s Hst He _].
  pose proof (edges_ok _ _ Hc He) as [Hp Hb Hd Hm]. pose proof (benign_statement _ _ Hst) as Hben.
  unfold _vote. rewrite Hp, Hb, Hd, Hm. destruct (st.2 =s "benign_pattern") eqn:Ec; bools.
  - destruct (Hben Ec) as [Hpr _]. rewrite Hpr, (promoted_not_failed _ Hpr).
    destruct (code_is atom "marker_code" "known_benign_schedule"); cbn; naive_solver.
  - destruct (promoted atom) eqn:Hpr; [rewrite (promoted_not_failed _ Hpr)|];
      destruct (breached atom), (decisive atom); cbn; naive_solver.
Qed.

(** ** Scores *)

Lemma weights_app f l l' : weights f (l ++ l') = let! a := weights f l in let! b := weights f l' in Ok (a + b).
Proof.
  induction l as [|e l IH]; cbn [weights app bind].
  - destruct (weights f l') as [b|]; [|done]. cbn [bind]. f_equal.
  - destruct (_int (vget e "weight")) as [w|]; [|done]. cbn [bind]. rewrite IH.
    destruct (weights f l) as [a|]; [|done]. destruct (weights f l') as [b|]; [|done]. cbn [bind]. f_equal. lia.
Qed.

Lemma weights_when f b atom r w c : f 0 = 0 -> weights f (when b [_edge atom r w c]) = Ok (if b then f w else 0).
Proof.
  intros _. destruct b; [|reflexivity]. change (when true [_edge atom r w c]) with [_edge atom r w c].
  cbn [weights]. rewrite edge_weight. cbn [_int bind]. f_equal. lia.
Qed.

(** The marker and the breach code take one value each. *)
Lemma one_code atom key l a b : (exists s, vget atom key = VStr s /\ In s l) -> a <> b ->
  code_is atom key a && code_is atom key b = false.
Proof.
  intros (s & Hs & _) Hab. rewrite !(code_is_str _ _ s) by done.
  destruct (s =s a) eqn:E; [|done]. apply String.eqb_eq in E. subst. cbn. by apply String.eqb_neq.
Qed.

Lemma threshold_not_delta atom : classified atom ->
  code_in atom "metric_breach_code" ["above_warning"; "above_critical"; "below_warning"; "below_critical"] && delta atom = false.
Proof.
  intros [_ (s & Hs & Hin) _ _]. unfold delta, code_in. cbn [existsb]. rewrite !(code_is_str _ _ s) by done.
  clear Hs. unfold _BREACH_CODES in Hin. split_codes Hin; reflexivity.
Qed.

Lemma weights_when_list f b l : weights f (when b l) = if b then weights f l else Ok 0.
Proof. by destruct b. Qed.

Lemma support_weights atom : classified atom -> exists s, weights id (support_edges atom) = Ok s /\ 0 <= s <= 7 /\
  (promoted atom = false -> s = 0).
Proof.
  intros Hc. unfold support_edges. rewrite weights_when_list, !weights_app, !weights_when by done. cbn [bind id].
  pose proof (threshold_not_delta _ Hc) as Ht.
  pose proof (one_code atom "marker_code" _ "known_benign_schedule" "topology_marker" (cl_marker _ Hc)) as Hm.
  specialize (Hm ltac:(discriminate)). destruct (promoted atom); eexists; (split; [reflexivity|]); [|cbn; lia].
  destruct (code_in _ _ _), (delta atom); try discriminate Ht;
    destruct (code_is _ _ _), (code_is _ _ _); try discriminate Hm; cbn; lia.
Qed.

Lemma contradiction_weights atom : classified atom ->
  exists c, weights Z.abs (contradiction_edges atom) = Ok c /\ 0 <= c <= 5 /\ (promoted atom = false -> c = 0).
Proof.
  intros Hc. unfold contradiction_edges. rewrite weights_when_list, !weights_app, !weights_when by done. cbn [bind].
  pose proof (one_code atom "counter_signal_code" _ "decisive_counter_signal" "weak_counter_signal" (cl_counter _ Hc)) as Hm.
  specialize (Hm ltac:(discriminate)). destruct (promoted atom); eexists; (split; [reflexivity|]); [|cbn; lia].
  destruct (code_is _ _ _), (code_is _ _ _); try discriminate Hm; cbn; lia.
Qed.

Lemma Forall_when {A} (P : A -> Prop) b l : Forall P l -> Forall P (when b l).
Proof. destruct b; [done | constructor]. Qed.

Lemma edge_window_list atom r w c : Forall (fun edge => window_of edge = window_of atom) [_edge atom r w c].
Proof. constructor; [apply edge_window | constructor]. Qed.

Lemma support_windows atom : Forall (fun edge => window_of edge = window_of atom) (support_edges atom).
Proof.
  unfold support_edges. apply Forall_when. rewrite !Forall_app. split_and!; apply Forall_when, edge_window_list.
Qed.

(** The edges of an atom: a context edge stands in for no edges at all. *)
Lemma edges_eq atom e : _edges atom = Ok e ->
  (e_support e = support_edges atom \/
   support_edges atom = [] /\ e_support e =
     when (code_is atom "evidence_state" "context_only") [_edge atom "neutral_context" 0 "provider_signal_overlap"]) /\
  e_contradictions e = contradiction_edges atom /\
  ((e_missing e = [] /\ failed atom = false) \/
   failed atom = true /\ exists need why relation, e_missing e = [_missing atom need why relation]).
Proof.
  unfold _edges. intros H. apply bind_ok in H as (missing & Hm & H). apply (inj Ok) in H as <-.
  cbn [e_support e_contradictions e_missing]. split; [|split; [done|]].
  - destruct (support_edges atom); [|by left]. destruct (contradiction_edges atom); [by right | by left].
  - fold (failed atom) in Hm. destruct (failed atom); [|injection Hm as <-; by left].
    apply bind_ok in Hm as (need & _ & [= <-]). right. eauto.
Qed.

(** Future evidence apart, the weight of freshness is between 0 and 3. *)
Lemma freshness_bounds atom support now window f :
  0 < window -> Forall (fun edge => window_of edge = window_of atom) support ->
  _freshness_weight support now window = Ok f ->
  0 <= f /\ (support = [] -> f = 0) /\
  forall e n, _parse_time (py_str (vget (window_of atom) "end")) = Ok e -> _parse_time now = Ok n -> e <= n -> f <= 3.
Proof.
  intros Hw Hs H. unfold _freshness_weight in H. apply bind_ok in H as (ends & He & H).
  destruct ends as [|x ends]; [injection H as <-; split_and!; try done; lia|].
  apply bind_ok in H as (n & Hn & H). injection H as <-. split; [lia|]. split.
  { intros ->. cbn in He. discriminate. }
  intros e n' Hend Hn' Hle. rewrite Hn in Hn'. injection Hn' as <-.
  assert (Hx : x = e /\ Forall (fun y => y = e) ends).
  { apply mapM_ok in He. assert (Hall : Forall (fun y => y = e) (x :: ends)); [|by apply Forall_cons in Hall].
    revert He. generalize (x :: ends). intros l He. induction He as [|edge y support l Hy _ IH]; [constructor|].
    apply Forall_cons in Hs as [Hs1 Hs2]. constructor; [|auto]. rewrite Hs1, Hend in Hy. by injection Hy. }
  destruct Hx as [-> Hx].
  assert (Hm : fold_left Z.max ends e = e).
  { clear -Hx. induction Hx as [|y l -> _ IH]; [done|]. cbn [fold_left]. by rewrite Z.max_id. }
  rewrite Hm. assert (0 <= (n - e) / (second * window)); [|lia]. apply Z.div_pos; [lia|]. unfold second. lia.
Qed.

(** The score [_score] gives to the edges of an atom. *)
Lemma score_bounds atom e now window s :
  classified atom -> 0 < window -> _edges atom = Ok e -> _score e now window = Ok s ->
  0 <= support_weight s <= 7 /\ 0 <= contradiction_weight s <= 5 /\ 0 <= missing_required_count s <= 1 /\
  0 <= freshness_weight s /\ 0 <= source_diversity_weight s <= 1 /\ -5 <= rank_score s /\
  forall en n, _parse_time (py_str (vget (window_of atom) "end")) = Ok en -> _parse_time now = Ok n -> en <= n ->
    freshness_weight s <= 3 /\ rank_score s <= 11.
Proof.
  intros Hc Hw He Hs. unfold _score in Hs. apply bind_ok in Hs as (sw & Hsw & Hs). apply bind_ok in Hs as (cw & Hcw & Hs).
  apply bind_ok in Hs as (f & Hf & Hs). apply (inj Ok) in Hs as <-. cbn.
  destruct (edges_eq _ _ He) as (Hsup & Hcon & Hmis). rewrite Hcon in Hcw.
  destruct (contradiction_weights _ Hc) as (c & Hc1 & Hc2 & Hc3). rewrite Hcw in Hc1. injection Hc1 as ->.
  assert (Hsb : 0 <= sw <= 7 /\ (promoted atom = false -> sw = 0)).
  { destruct (support_weights _ Hc) as (s & Hs1 & Hs2 & Hs3). destruct Hsup as [Hsup|[_ Hsup]]; rewrite Hsup in Hsw.
    - rewrite Hsw in Hs1. injection Hs1 as ->. done.
    - rewrite weights_when in Hsw by done. injection Hsw as <-. destruct (code_is _ _ _); cbn; lia. }
  assert (Hwin : Forall (fun edge => window_of edge = window_of atom) (e_support e)).
  { destruct Hsup as [-> | [_ ->]]; [apply support_windows | apply Forall_when, edge_window_list]. }
  destruct (freshness_bounds atom _ now window f Hw Hwin Hf) as (Hf0 & Hfn & Hf3).
  assert (Hmb : exists m, Z.of_nat (List.length (List.filter (fun item => truthy (vget item "blocking")) (e_missing e))) = m /\
    0 <= m <= 1 /\ (m = 1 -> promoted atom = false)).
  { eexists. split; [reflexivity|]. destruct Hmis as [[-> _]|[Hfl (n & w & r & ->)]]; [cbn; lia|].
    cbn [List.filter]. rewrite blocking_missing. cbn. split; [lia|]. intros _.
    destruct (promoted atom) eqn:E; [|done]. apply promoted_not_failed in E. congruence. }
  destruct Hmb as (m & -> & Hm & Hmp). set (d := match e_support e with [] => 0 | _ => 1 end).
  assert (Hd : 0 <= d <= 1) by (unfold d; destruct (e_support e); lia).
  destruct Hsb as [Hsb Hsp].
  assert (Hx : m = 1 -> sw = 0 /\ c = 0) by (intros H1; specialize (Hmp H1); auto). clear Hmp Hsp Hc3.
  split_and!; try lia. intros en t Hen Ht Hle. specialize (Hf3 en t Hen Ht Hle). lia.
Qed.

Lemma score_fields h s : vget h "score" = VDict (score_to_dict s) ->
  score_field h "rank_score" = rank_score s /\ score_field h "support_weight" = support_weight s /\
  score_field h "contradiction_weight" = contradiction_weight s /\
  score_field h "missing_required_count" = missing_required_count s /\
  score_field h "freshness_weight" = freshness_weight s /\
  score_field h "source_diversity_weight" = source_diversity_weight s.
Proof. unfold score_field. intros ->. split_and!; reflexivity. Qed.

(** C38: the score of a hypothesis is bounded.  Support weighs at most 7,
    contradictions at most 5, at most one piece of evidence is missing, and
    the rank is at least -5.  Evidence that does not end after [now] has a
    freshness of at most 3 and a rank of at most 11: only evidence from the
    future can outrank every other by its date. *)
Theorem hypothesis_score_is_bounded incident atom sequence now window h :
  _validate_atom atom = Ok atom -> 0 < window -> _build_hypothesis incident atom sequence now window = Ok h ->
  0 <= score_field h "support_weight" <= 7 /\ 0 <= score_field h "contradiction_weight" <= 5 /\
  0 <= score_field h "missing_required_count" <= 1 /\ 0 <= score_field h "freshness_weight" /\
  0 <= score_field h "source_diversity_weight" <= 1 /\ -5 <= score_field h "rank_score" /\
  forall e n, _parse_time (py_str (vget (window_of atom) "end")) = Ok e -> _parse_time now = Ok n -> e <= n ->
    score_field h "freshness_weight" <= 3 /\ score_field h "rank_score" <= 11.
Proof.
  intros Hv Hw H. apply validate_atom_ok in Hv as [_ Hc]. apply build_hypothesis_ok in H as (st & e & s & B).
  destruct (built_fields _ _ _ _ _ _ _ B) as (_ & _ & _ & Hs & _).
  apply score_fields in Hs as (-> & -> & -> & -> & -> & ->).
  destruct B as [_ _ st e s _ He Hsc]. exact (score_bounds _ _ _ _ _ Hc Hw He Hsc).
Qed.

(** ** The ranking *)

(** [a] is ranked before [b] or is its equal. *)
Definition ranked_above (a b : list Z) : Prop := tuple_leb b a = true.

Lemma best_first_sorted l : StronglySorted ranked_above (map _semantic_tuple (best_first l)).
Proof.
  apply Sorted_StronglySorted; [intros a b c H1 H2; exact (tuple_leb_trans _ _ _ H2 H1)|].
  pose proof (sort_descending_sorted sort_key l) as Hs. fold (best_first l) in Hs.
  induction Hs as [|x m Hs IH Hx]; cbn [map]; constructor; [done|].
  destruct Hx as [|y m Hx]; constructor. by apply order_leb_tuple in Hx.
Qed.

Lemma vget_set_rank r h k : k <> "rank" -> k <> "hypothesis_hash" -> vget (set_rank r h) k = vget h k.
Proof. intros. unfold set_rank. by rewrite vget_rehash, vget_dset_other. Qed.

Lemma rank_of_set_rank r h : vget (set_rank r h) "rank" = VInt r.
Proof. unfold set_rank. rewrite vget_rehash by discriminate. unfold vget. by rewrite dget_dset. Qed.

Lemma dwithout_dset_same (d : dict) k v : dwithout [k] (dset d k v) = dwithout [k] d.
Proof.
  unfold dwithout in *. induction d as [|[k' v'] d IH]; cbn.
  - by rewrite eqs_refl.
  - destruct (k =s k') eqn:E; cbn.
    + apply String.eqb_eq in E. subst. by rewrite eqs_refl.
    + rewrite String.eqb_sym in E. rewrite E. cbn in *. by rewrite IH.
Qed.

Lemma rehash_hash d : hypothesis_hash_of (rehash d) = _hash_hypothesis (rehash d).
Proof.
  unfold hypothesis_hash_of, rehash, vget. rewrite dget_dset, eqs_refl. unfold _hash_hypothesis.
  by rewrite dwithout_dset_same.
Qed.

Lemma semantic_set_rank r h : _semantic_tuple (set_rank r h) = _semantic_tuple h.
Proof. unfold _semantic_tuple, score_field. by rewrite vget_set_rank by discriminate. Qed.

Lemma number_ranks_map {A} (f : dict -> A) r l : (forall r h, f (set_rank r h) = f h) ->
  map f (number_ranks r l) = map f l.
Proof. intros Hf. revert r. induction l as [|h l IH]; intros r; cbn; [done|]. by rewrite Hf, IH. Qed.

Lemma number_ranks_ranks r l : map (fun h => vget h "rank") (number_ranks r l) = map VInt (seqZ r (Z.of_nat (List.length l))).
Proof.
  revert r. induction l as [|h l IH]; intros r; [done|]. cbn [number_ranks map List.length].
  rewrite seqZ_cons by lia. cbn [map]. rewrite rank_of_set_rank, IH. do 3 f_equal; lia.
Qed.

Lemma number_ranks_hashes r l : Forall (fun h => hypothesis_hash_of h = _hash_hypothesis h) (number_ranks r l).
Proof. revert r. induction l as [|h l IH]; intros r; constructor; [apply rehash_hash | apply IH]. Qed.

Lemma build_hypotheses_ok incident atoms sequence now window hs :
  build_hypotheses incident atoms sequence now window = Ok hs ->
  Forall2 (fun atom h => exists st e s, built atom now window st e s h) atoms hs.
Proof.
  revert sequence hs. induction atoms as [|a atoms IH]; intros sequence hs H; cbn [build_hypotheses] in H.
  - injection H as <-. constructor.
  - apply bind_ok in H as (h & Hh & H). apply bind_ok in H as (t & Ht & H). injection H as <-.
    constructor; [exact (build_hypothesis_ok _ _ _ _ _ _ Hh) | exact (IH _ _ Ht)].
Qed.

(** The hash of the atom a hypothesis was made from. *)
Definition evidence_of (h : dict) : string :=
  match vget (dict_or_empty (vget h "scope")) "evidence_atom_hashes" with VList (VStr s :: _) => s | _ => "" end.

Lemma evidence_set_rank r h : evidence_of (set_rank r h) = evidence_of h.
Proof. unfold evidence_of. by rewrite vget_set_rank by discriminate. Qed.

Lemma built_evidence atom now window st e s h : built atom now window st e s h -> evidence_of h = hash_of atom.
Proof. intros []. unfold evidence_of. rewrite vget_rehash by discriminate. reflexivity. Qed.

(** What a ranking that returns is made of. *)
Lemma ranked_ok incident atoms now o hs : ranked_hypotheses incident atoms now o = Ok hs ->
  exists limits raw, _limits o = Ok limits /\ mapM _validate_atom atoms = Ok atoms /\
    build_hypotheses incident (by_hash atoms) 1 now (limit limits "correlation_window_seconds") = Ok raw /\
    hs = number_ranks 1 (best_first raw).
Proof.
  unfold ranked_hypotheses, hy_ensure. intros H. apply bind_ok in H as (limits & Hl & H).
  apply bind_ok in H as (as_ & Ha & H). apply bind_ok in H as (u & _ & H). apply bind_ok in H as (raw & Hr & H).
  apply bind_ok in H as (u' & _ & H). apply (inj Ok) in H as <-.
  assert (as_ = atoms) as ->.
  { apply mapM_ok in Ha. clear -Ha. induction Ha as [|a b l l' H _ IH]; [done|].
    apply validate_atom_ok in H as [-> _]. by rewrite IH. }
  exists limits, raw. done.
Qed.

(** The ranking puts every hypothesis in its place.  There is one
    hypothesis for each atom; they are ordered by their semantic score, the
    best first, numbered from one; and each carries the hash of its final
    content. *)
Theorem ranking_orders_every_hypothesis incident atoms now o hs :
  ranked_hypotheses incident atoms now o = Ok hs ->
  Permutation (map evidence_of hs) (map hash_of atoms) /\
  StronglySorted ranked_above (map _semantic_tuple hs) /\
  map (fun h => vget h "rank") hs = map VInt (seqZ 1 (Z.of_nat (List.length atoms))) /\
  Forall (fun h => hypothesis_hash_of h = _hash_hypothesis h) hs.
Proof.
  intros H. apply ranked_ok in H as (limits & raw & _ & _ & Hb & ->). apply build_hypotheses_ok in Hb.
  assert (Hp : Permutation (best_first raw) raw) by apply isort_perm.
  assert (Hn : List.length raw = List.length atoms).
  { rewrite <- (Forall2_length _ _ _ Hb). apply Permutation_length, isort_perm. }
  split_and!.
  - rewrite (number_ranks_map evidence_of) by apply evidence_set_rank. rewrite Hp.
    transitivity (map hash_of (by_hash atoms)); [|apply Permutation_map, isort_perm].
    clear -Hb. induction Hb as [|a h l raw (st & e & s & B) _ IH]; [done|]. cbn [map].
    by rewrite (built_evidence _ _ _ _ _ _ _ B), IH.
  - rewrite (number_ranks_map _semantic_tuple) by apply semantic_set_rank. apply best_first_sorted.
  - rewrite number_ranks_ranks. by rewrite (Permutation_length Hp), Hn.
  - apply number_ranks_hashes.
Qed.
