(* ===== verification/P137Requests.v ===== *)
(** * Evidence requests

    Models app/services/p137_requests.py: the bounded selections an
    investigation makes among the evidence atoms it was given, their records
    and the validation of a record. *)

From S2P Require Import Prelude PyValue PyChecks Sha PyRegex PyFloat P137Checks.

Definition REQUEST_SCHEMA_VERSION : string := "p137.evidence_request.v1".

Definition P137RequestError (msg : string) : exn := Exn "P137RequestError" msg.
Notation RE := P137RequestError.
Definition rq_ensure (b : bool) (msg : string) : res unit := ensure b (RE msg).

(** ALLOWED_REQUEST_CATALOG (p137_contracts.py) and the fields of each
    selection. *)
Definition _PARAMETER_FIELDS : list (string * list string) :=
  [("compare_current_window_to_promoted_baseline",
      ["signal_name"; "current_window_start"; "current_window_end"; "baseline_window_start"; "baseline_window_end"; "limit"]);
   ("fetch_record_by_evidence_id", ["evidence_id"; "limit"]);
   ("join_records_by_entity_and_window", ["entity_ref_hash"; "window_start"; "window_end"; "limit"]);
   ("select_records_by_content_hash", ["content_hash"; "limit"]);
   ("select_records_by_entity_ref", ["entity_ref_hash"; "limit"]);
   ("select_records_by_label_hash", ["label_hash"; "limit"]);
   ("select_records_by_provider", ["provider"; "limit"]);
   ("select_records_by_risk_flag", ["risk_flag"; "limit"]);
   ("select_records_by_signal_family", ["signal_family"; "limit"]);
   ("select_records_by_system_id", ["system_id"; "limit"]);
   ("select_records_by_time_window", ["window_start"; "window_end"; "limit"]);
   ("select_rejections_by_reason", ["reason_code"; "limit"]);
   ("summarize_log_preview_hashes", ["limit"]);
   ("summarize_numeric_samples", ["signal_name"; "limit"]);
   ("summarize_topology_refs", ["limit"])].

Definition ALLOWED_REQUEST_CATALOG : list string := dkeys _PARAMETER_FIELDS.

Definition _BUDGET_FIELDS : list string :=
  ["max_input_records"; "max_output_records"; "max_output_bytes"; "max_requests_per_incident"; "wall_limit_ms";
   "cpu_limit_ms"; "peak_memory_limit_bytes"].

Definition _REQUEST_FIELDS : list string :=
  ["schema_version"; "request_id"; "incident_id"; "request_sequence"; "catalog_name"; "parameters"; "input_atom_hashes";
   "budget"; "attempted_request_hash"; "result_summary"; "runtime_activity"; "previous_request_hash"; "request_hash"].

(** ** Forbidden text *)

Definition slash : rx := Chr (one_of "/\").
Definition dots : rx := Seq (lit ".") (Seq (opt (lit ".")) slash).

(** [_FORBIDDEN_TEXT_RE] but for its alternative [(?:^|[\\/])\.\.?[\\/]]
    at the start of the text. *)
Definition _FORBIDDEN_TEXT_RE : rx :=
  alts [Seq (ilit "http") (Seq (opt (ilit "s")) (ilit "://")); ilit "file://"; Seq slash dots; ilit "/etc/"; ilit "/var/";
        Seq (ilit "api") (Seq (opt (Chr (one_of "_-"))) (ilit "key")); ilit "authorization"; ilit "password";
        ilit "credential"; ilit "secret"; Seq (ilit "curl") (Chr is_space); Seq (ilit "wget") (Chr is_space);
        Seq (ilit "bash") (Chr is_space); Seq (ilit "sh") (Seq (many1 is_space) (ilit "-c")); ilit "delete";
        ilit "restart"; ilit "rollback"; ilit "deploy"; ilit "execute";
        Seq (ilit "provider") (Seq (opt (Chr (one_of "_-"))) (ilit "query"))].

Definition forbidden_text (s : string) : bool :=
  search _FORBIDDEN_TEXT_RE s || match match_here dots None s with Some _ => true | None => false end.

(** Does [_scan_safe] raise? *)
Fixpoint unsafe (v : val) : bool :=
  match v with
  | VDict d => existsb (fun kv => forbidden_text kv.1 || unsafe kv.2) d
  | VList l | VTuple l => existsb unsafe l
  | VStr s => forbidden_text s
  | _ => false
  end.

Definition _scan_safe (v : val) : res unit := rq_ensure (negb (unsafe v)) "request_authority_forbidden".

(** [_text] of this module also scans the text. *)
Definition safe_text (v : val) (field : string) : res string :=
  let! s := _text RE v field in
  let! _ := _scan_safe v in
  Ok s.

(** ** Budgets and parameters *)

Definition DEFAULT_BUDGET : dict :=
  [("max_input_records", VInt 256); ("max_output_records", VInt 64); ("max_output_bytes", VInt 65536);
   ("max_requests_per_incident", VInt 8); ("wall_limit_ms", VInt 1000); ("cpu_limit_ms", VInt 500);
   ("peak_memory_limit_bytes", VInt 16777216)].

Definition check_budget (item : string * val) : res unit :=
  rq_ensure (positive item.2) ("invalid_request_budget:" +:+ item.1).

Definition build_request_budget (data : dict) : res dict :=
  let value := match data with [] => DEFAULT_BUDGET | _ => data end in
  let! _ := rq_ensure (same_keys value _BUDGET_FIELDS) "invalid_request_budget_fields" in
  let! _ := iterM check_budget value in
  Ok (sort_items value).

(** [_hash(value[field], field)] or [_text(…)] of the fields that are there. *)
Definition check_present {A} (check : val -> string -> res A) (value : dict) (field : string) : res unit :=
  match dget value field with
  | Some v => let! _ := check v field in Ok tt
  | None => Ok tt
  end.

Definition validate_request_parameters (catalog_name : string) (parameters : val) : res dict :=
  let! _ := rq_ensure (mem catalog_name ALLOWED_REQUEST_CATALOG) "request_catalog_not_allowlisted" in
  let! value := _mapping RE parameters "parameters" in
  let expected := default [] (dget _PARAMETER_FIELDS catalog_name) in
  let! _ := rq_ensure (same_keys value expected) "invalid_request_parameter_fields" in
  let! _ := _scan_safe (VDict value) in
  let! limit := _positive_int RE (vget value "limit") "limit" in
  let! _ := rq_ensure (limit <=? 1000) "request_limit_exceeded" in
  let! _ := iterM (check_present (_hash RE) value) ["content_hash"; "entity_ref_hash"; "label_hash"] in
  let! _ := iterM (check_present safe_text value)
              ["window_start"; "window_end"; "current_window_start"; "current_window_end"; "baseline_window_start";
               "baseline_window_end"] in
  let! _ := iterM (check_present safe_text value)
              ["signal_name"; "evidence_id"; "provider"; "risk_flag"; "signal_family"; "system_id"; "reason_code"] in
  Ok value.

Definition compute_attempted_request_hash (incident_hash catalog_name : string) (parameters : dict)
    (input_atom_hashes : list string) (budget : dict) (request_sequence : Z) : res string :=
  let! _ := _hash RE (VStr incident_hash) "incident_hash" in
  let! _ := _positive_int RE (VInt request_sequence) "request_sequence" in
  let! parameters := validate_request_parameters catalog_name (VDict parameters) in
  let! budget := build_request_budget budget in
  let! hashes := sorted_hashes RE (map VStr input_atom_hashes) "input_atom_hashes" in
  Ok (stable_hash (VDict
    [("incident_hash", VStr incident_hash); ("catalog_name", VStr catalog_name); ("parameters", VDict parameters);
     ("input_atom_hashes", vlist_of_strings hashes); ("budget", VDict budget); ("request_sequence", VInt request_sequence)])).

(** ** Selections *)

Definition field_is (key : string) (wanted : val) (atom : dict) : bool := py_eq (vget atom key) wanted.

(** [p[parameter] in _sequence(a.get(key), key)] *)
Definition field_has (key : string) (wanted : val) (atom : dict) : res bool :=
  let! items := _sequence RE (vget atom key) key in
  Ok (existsb (fun item => py_eq item wanted) items).

(** [[a for a in atoms if test(a)]] *)
Fixpoint select (test : dict -> res bool) (atoms : list dict) : res (list dict) :=
  match atoms with
  | [] => Ok []
  | atom :: atoms =>
      let! b := test atom in
      let! selected := select test atoms in
      Ok (if b then atom :: selected else selected)
  end.

(** [_overlaps]: the two texts are compared as strings. *)
Definition _overlaps (window : dict) (start_ end_ : string) : bool :=
  String.leb (py_str (vget_or window "start" (VStr ""))) end_ &&
  String.leb start_ (py_str (vget_or window "end" (VStr ""))).

Definition in_window (start_ end_ : val) (atom : dict) : res bool :=
  let! window := _mapping RE (vget atom "window") "window" in
  Ok (_overlaps window (py_str start_) (py_str end_)).

(** A sample of the signal, in the window when there is one: the last test
    is the number's. *)
Definition sample (signal_name : val) (inside : dict -> res bool) (atom : dict) : res bool :=
  if field_is "signal_name" signal_name atom then
    let! b := inside atom in
    if b then
      let! number := finite_number (vget atom "numeric_value") in
      Ok (match number with Some _ => true | None => false end)
    else Ok false
  else Ok false.

Definition numbers (atoms : list dict) : res (list Q) :=
  let! values := mapM (fun atom => finite_number (vget atom "numeric_value")) atoms in
  Ok (concat (map (fun o => match o with Some q => [q] | None => [] end) values)).

Definition mean (l : list Q) : option Q :=
  match l with [] => None | _ => Some (fdiv (float_sum l) (inject_Z (Z.of_nat (List.length l)))) end.

Definition opt_float (o : option Q) : val := match o with Some q => VFloat q | None => VNone end.

Definition distinct (l : list string) : Z := Z.of_nat (List.length (remove_dups l)).

Definition topology_refs (atom : dict) : res (list val) :=
  _sequence RE (vget atom "topology_ref_hashes") "topology_ref_hashes".

(** The selections that take the atoms one field or one list admits. *)
Definition selection (name : string) (p : dict) : option (dict -> res bool) :=
  let field key parameter := Some (fun atom => Ok (field_is key (vget p parameter) atom)) in
  let list key parameter := Some (field_has key (vget p parameter)) in
  if name =s "fetch_record_by_evidence_id" then field "atom_id" "evidence_id"
  else if name =s "select_records_by_content_hash" then field "content_hash" "content_hash"
  else if name =s "select_records_by_entity_ref" then field "entity_ref_hash" "entity_ref_hash"
  else if name =s "select_records_by_label_hash" then list "label_hashes" "label_hash"
  else if name =s "select_records_by_provider" then field "provider" "provider"
  else if name =s "select_records_by_risk_flag" then list "risk_flags" "risk_flag"
  else if name =s "select_records_by_signal_family" then field "signal_family" "signal_family"
  else if name =s "select_records_by_system_id" then field "system_id" "system_id"
  else if name =s "select_rejections_by_reason" then list "state_reason_codes" "reason_code"
  else if name =s "select_records_by_time_window" then Some (in_window (vget p "window_start") (vget p "window_end"))
  else None.

Definition _execute_catalog (name : string) (p : dict) (atoms : list dict) : res (list dict * dict) :=
  match selection name p with
  | Some test => let! selected := select test atoms in Ok (selected, [])
  | None =>
      if name =s "join_records_by_entity_and_window" then
        let! selected := select (in_window (vget p "window_start") (vget p "window_end")) atoms in
        Ok (List.filter (field_is "entity_ref_hash" (vget p "entity_ref_hash")) selected, [])
      else if name =s "summarize_log_preview_hashes" then
        let selected := List.filter (fun atom => truthy (vget atom "redacted_preview_hash")) atoms in
        Ok (selected, [("distinct_preview_hashes",
                        VInt (distinct (map (fun atom => py_str (vget atom "redacted_preview_hash")) selected)))])
      else if name =s "summarize_topology_refs" then
        let! selected := select (fun atom => let! refs := topology_refs atom in
                                             Ok (match refs with [] => false | _ => true end)) atoms in
        let! refs := mapM topology_refs selected in
        Ok (selected, [("distinct_topology_refs", VInt (distinct (map py_str (concat refs))))])
      else if name =s "summarize_numeric_samples" then
        let! selected := select (sample (vget p "signal_name") (fun _ => Ok true)) atoms in
        let! values := numbers selected in
        Ok (selected,
            [("count", VInt (Z.of_nat (List.length values)));
             ("min", match values with x :: l => VFloat (float_min x l) | [] => VNone end);
             ("max", match values with x :: l => VFloat (float_max_of x l) | [] => VNone end)])
      else if name =s "compare_current_window_to_promoted_baseline" then
        let during start_ end_ := in_window (vget p start_) (vget p end_) in
        let! current := select (sample (vget p "signal_name") (during "current_window_start" "current_window_end")) atoms in
        let! baseline := select (sample (vget p "signal_name") (during "baseline_window_start" "baseline_window_end")) atoms in
        let! current_values := numbers current in
        let! baseline_values := numbers baseline in
        Ok (current ++ baseline,
            [("current_mean", opt_float (mean current_values)); ("baseline_mean", opt_float (mean baseline_values));
             ("delta", match mean current_values, mean baseline_values with
                       | Some c, Some b => VFloat (fsub c b)
                       | _, _ => VNone
                       end)])
      else Raise (RE "request_catalog_not_allowlisted")
  end.

Definition atom_hash_of (atom : dict) : string := py_str (vget_or atom "atom_hash" (VStr "")).

Definition int_field (d : dict) (key : string) : Z := default 0 (as_int (vget d key)).

Definition _request_input_atoms (atoms : list val) (limits : dict) : res (list dict) :=
  let! atom_values := mapM (fun atom => _mapping RE atom "atom") atoms in
  let! _ := rq_ensure (Z.of_nat (List.length atom_values) <=? int_field limits "max_input_records")
              "request_input_record_budget_exceeded" in
  Ok (isort (fun a b => String.leb (atom_hash_of a) (atom_hash_of b)) atom_values).

(** ** Canonical bytes *)

(** A character of [json.dumps(…, ensure_ascii=False)]. *)
Definition plain_char (c : ascii) : string :=
  if between 127 255 (code c) then String c EmptyString else json_char c.

Definition plain_string (s : string) : string := dquote +:+ concat_map_string plain_char s +:+ dquote.

Fixpoint plain_dumps (v : val) : string :=
  match v with
  | VStr s => plain_string s
  | VList l | VTuple l => "[" +:+ str_join "," (map plain_dumps l) +:+ "]"
  | VDict d =>
      "{" +:+ str_join "," (map (fun kv => plain_string kv.1 +:+ ":" +:+ kv.2)
                            (sort_items (map (fun kv => (kv.1, plain_dumps kv.2)) d))) +:+ "}"
  | _ => json_dumps v
  end.

(** [len(_canonical_bytes(value))] *)
Definition canonical_size (v : val) : Z := Z.of_nat (List.length (utf8 (plain_dumps v))).

(** ** Validation *)

Definition SUMMARY_FIELDS : list string := ["operation"; "matched_atom_hashes"; "output_count"; "aggregate"].
Definition ACTIVITY_FIELDS : list string :=
  ["input_records_scanned"; "output_records_selected"; "output_bytes"; "local_selection_count"; "external_call_count"].

Definition validate_evidence_request (record : val) : res unit :=
  let! value := _mapping RE record "request" in
  let! _ := rq_ensure (same_keys value _REQUEST_FIELDS && py_eq (vget value "schema_version") (VStr REQUEST_SCHEMA_VERSION))
              "invalid_request_fields" in
  let! _ := safe_text (vget value "request_id") "request_id" in
  let! _ := safe_text (vget value "incident_id") "incident_id" in
  let! _ := _positive_int RE (vget value "request_sequence") "request_sequence" in
  let! parameters := _mapping RE (vget value "parameters") "parameters" in
  let! _ := validate_request_parameters (py_str (vget value "catalog_name")) (VDict parameters) in
  let! budget := _mapping RE (vget value "budget") "budget" in
  let! _ := build_request_budget budget in
  let! inputs := _sequence RE (vget value "input_atom_hashes") "input_atom_hashes" in
  let! _ := sorted_hashes RE inputs "input_atom_hashes" in
  let! _ := _hash RE (vget value "attempted_request_hash") "attempted_request_hash" in
  let! _ := match vget value "previous_request_hash" with
            | VNone => Ok ""
            | previous => _hash RE previous "previous_request_hash"
            end in
  let! summary := _mapping RE (vget value "result_summary") "result_summary" in
  let! _ := rq_ensure (same_keys summary SUMMARY_FIELDS) "invalid_request_summary_fields" in
  let! _ := _scan_safe (VDict summary) in
  let! activity := _mapping RE (vget value "runtime_activity") "runtime_activity" in
  let! _ := rq_ensure (same_keys activity ACTIVITY_FIELDS) "invalid_request_activity_fields" in
  let! _ := rq_ensure (forallb (fun kv => nonneg kv.2) activity) "invalid_request_activity" in
  let! _ := rq_ensure (is_zero (vget activity "external_call_count")) "request_external_authority_forbidden" in
  rq_ensure (py_eq (vget value "request_hash") (VStr (stable_hash (VDict (dwithout ["request_hash"] value)))))
    "request_hash_invalid".

(** ** Records *)

Definition opt_str (o : option string) : val := match o with Some s => VStr s | None => VNone end.

(** [result_summary] of the selection. *)
Definition summary_of (catalog_name : string) (selected : list dict) (aggregate : dict) : dict :=
  [("operation", VStr catalog_name); ("matched_atom_hashes", vlist_of_strings (map (fun a => py_str (vget a "atom_hash")) selected));
   ("output_count", VInt (Z.of_nat (List.length selected))); ("aggregate", VDict aggregate)].

Definition request_body (incident_id : string) (sequence : Z) (catalog_name : string) (params limits summary : dict)
    (input_hashes : list string) (attempt : string) (inputs outputs bytes : Z) (previous : option string) : dict :=
  [("schema_version", VStr REQUEST_SCHEMA_VERSION);
   ("request_id", VStr (stable_hash (VDict
      [("incident_id", VStr incident_id); ("request_sequence", VInt sequence); ("attempt", VStr attempt)])));
   ("incident_id", VStr incident_id); ("request_sequence", VInt sequence); ("catalog_name", VStr catalog_name);
   ("parameters", VDict params); ("input_atom_hashes", vlist_of_strings input_hashes); ("budget", VDict limits);
   ("attempted_request_hash", VStr attempt); ("result_summary", VDict summary);
   ("runtime_activity", VDict
      [("input_records_scanned", VInt inputs); ("output_records_selected", VInt outputs); ("output_bytes", VInt bytes);
       ("local_selection_count", VInt 1); ("external_call_count", VInt 0)]);
   ("previous_request_hash", opt_str previous)].

Section Request.
Context (incident_id incident_hash : string) (request_sequence : Z) (catalog_name : string) (parameters : dict).
Context (previous_request_hash : option string).

(** What both calls compute first: parameters, budget, atoms, their hashes
    and the hash of the attempt. *)
Definition prepare_request (atoms : list val) (budget : dict)
  : res (dict * dict * list dict * list string * string) :=
  let! _ := safe_text (VStr incident_id) "incident_id" in
  let! _ := _hash RE (VStr incident_hash) "incident_hash" in
  let! _ := match previous_request_hash with
            | Some h => _hash RE (VStr h) "previous_request_hash"
            | None => Ok ""
            end in
  let! params := validate_request_parameters catalog_name (VDict parameters) in
  let! limits := build_request_budget budget in
  let! atom_values := _request_input_atoms atoms limits in
  let! input_hashes := sorted_hashes RE (map (fun a => VStr (atom_hash_of a)) atom_values) "input_atom_hashes" in
  let! attempt := compute_attempted_request_hash incident_hash catalog_name params input_hashes limits request_sequence in
  Ok (params, limits, atom_values, input_hashes, attempt).

Definition derive_evidence_request_record (atoms : list val) (budget : dict) : res dict :=
  let! (params, limits, atom_values, input_hashes, attempt) := prepare_request atoms budget in
  let! r := _execute_catalog catalog_name params atom_values in
  let selected := take (Z.to_nat (Z.min (int_field params "limit") (int_field limits "max_output_records"))) r.1 in
  let summary := summary_of catalog_name selected r.2 in
  let bytes := canonical_size (VDict summary) in
  let! _ := rq_ensure (bytes <=? int_field limits "max_output_bytes") "request_output_byte_budget_exceeded" in
  let body := request_body incident_id request_sequence catalog_name params limits summary input_hashes attempt
                (Z.of_nat (List.length atom_values)) (Z.of_nat (List.length selected)) bytes previous_request_hash in
  let record := body ++ [("request_hash", VStr (stable_hash (VDict body)))] in
  let! _ := validate_evidence_request (VDict record) in
  Ok record.

(** The record and whether it was there already. *)
Definition execute_evidence_request (atoms : list val) (budget : dict) (existing_by_attempt : list (string * dict))
  : res (dict * bool) :=
  let! (params, limits, atom_values, input_hashes, attempt) := prepare_request atoms budget in
  match dget existing_by_attempt attempt with
  | Some existing =>
      let! _ := validate_evidence_request (VDict existing) in
      let! _ := rq_ensure (py_eq (vget existing "attempted_request_hash") (VStr attempt)) "attempted_request_hash_conflict" in
      let! expected := derive_evidence_request_record (map VDict atom_values) limits in
      let! _ := rq_ensure (py_eq (VDict existing) (VDict expected)) "durable_request_semantic_mismatch" in
      Ok (existing, true)
  | None =>
      let! record := derive_evidence_request_record (map VDict atom_values) limits in
      Ok (record, false)
  end.
End Request.
