(* ===== verification/P137RequestsProps.v ===== *)
(** * What a request for evidence guarantees

    A request only selects among the atoms it was given, within its limits,
    and asking again returns the record that is there. *)

From stdpp Require Import sorting.
From S2P Require Import Prelude PyValue PyChecks Sha Json P137Checks P137Requests.

#[local] Opaque stable_hash.

(** ** Selections *)

Lemma select_sublist test atoms selected : select test atoms = Ok selected -> sublist selected atoms.
Proof.
  revert selected. induction atoms as [|a atoms IH]; intros selected H; cbn [select] in H; [by injection H as <-|].
  apply bind_ok in H as (b & _ & H). apply bind_ok in H as (s & Hs & H). injection H as <-.
  destruct b; constructor; by apply IH.
Qed.

Definition COMPARE : string := "compare_current_window_to_promoted_baseline".

Lemma aggregate_value aggregate : dict_wf aggregate ->
  Forall (fun kv => match kv.2 with VInt _ | VFloat _ | VNone => True | _ => False end) aggregate -> json_value (VDict aggregate).
Proof.
  intros Hw H. apply json_value_dict. split; [exact Hw|]. eapply Forall_impl; [exact H|]. by intros [k []].
Qed.

Ltac aggregate := apply aggregate_value; [apply (bool_decide_unpack _); vm_compute; reflexivity | repeat constructor].

Lemma execute_catalog_ok name p atoms selected aggregate : _execute_catalog name p atoms = Ok (selected, aggregate) ->
  incl selected atoms /\ (name <> COMPARE -> sublist selected atoms) /\ json_value (VDict aggregate).
Proof.
  assert (Hs : forall s, sublist s atoms -> incl s atoms).
  { intros s Hs x Hx. apply list_elem_of_In in Hx. apply list_elem_of_In. by eapply elem_of_sublist. }
  unfold _execute_catalog. intros H. destruct (selection name p) as [test|].
  { apply bind_ok in H as (s & E & H). injection H as <- <-. apply select_sublist in E. split_and!; auto. by aggregate. }
  destruct (name =s "join_records_by_entity_and_window").
  { apply bind_ok in H as (s & E & H). injection H as <- <-. apply select_sublist in E.
    assert (sublist (List.filter (field_is "entity_ref_hash" (vget p "entity_ref_hash")) s) atoms)
      by (etrans; [apply filter_sublist | exact E]). split_and!; auto. by aggregate. }
  destruct (name =s "summarize_log_preview_hashes").
  { injection H as <- <-. split_and!; auto using filter_sublist. by aggregate. }
  destruct (name =s "summarize_topology_refs").
  { apply bind_ok in H as (s & E & H). apply bind_ok in H as (refs & _ & H). injection H as <- <-.
    apply select_sublist in E. split_and!; auto. by aggregate. }
  destruct (name =s "summarize_numeric_samples").
  { apply bind_ok in H as (s & E & H). apply bind_ok in H as (values & _ & H). injection H as <- <-.
    apply select_sublist in E. split_and!; auto. destruct values; by aggregate. }
  destruct (String.eqb_spec name COMPARE) as [->|Hn]; [|by apply String.eqb_neq in Hn; unfold COMPARE in Hn; rewrite Hn in H].
  cbn [String.eqb Ascii.eqb Bool.eqb COMPARE] in H. apply bind_ok in H as (c & Ec & H). apply bind_ok in H as (b & Eb & H).
  apply bind_ok in H as (cv & _ & H). apply bind_ok in H as (bv & _ & H). injection H as <- <-.
  apply select_sublist in Ec, Eb.
  split; [|split; [done|]].
  - apply incl_app; auto.
  - destruct (mean cv), (mean bv); by aggregate.
Qed.

(** ** Budgets, parameters and atoms *)

Lemma same_keys_sort {A} (d : list (string * A)) l : same_keys (sort_items d) l = same_keys d l.
Proof.
  pose proof (dkeys_sort_items d) as P. unfold same_keys. apply eq_true_iff_eq.
  rewrite !andb_true_iff, !forallb_forall. setoid_rewrite mem_In.
  split; intros [H1 H2]; split; intros k Hk; (apply H1 || apply H2 in Hk as Hk'); (eapply Permutation_in; [|eassumption]);
    rewrite P; done.
Qed.

Lemma budget_ok data limits : build_request_budget data = Ok limits ->
  build_request_budget limits = Ok limits /\ (dict_wf data -> json_value (VDict limits)) /\
  (forall k, In k _BUDGET_FIELDS -> exists z, vget limits k = VInt z /\ 0 < z).
Proof.
  unfold build_request_budget at 1, rq_ensure. set (value := match data with [] => _ | _ => _ end).
  intros H. apply bind_ok in H as (u & Hk & H). apply ensure_ok in Hk.
  apply bind_ok in H as ([] & Hp & H). injection H as <-. apply iterM_ok in Hp. split_and!.
  - unfold build_request_budget.
    replace (match sort_items value with [] => DEFAULT_BUDGET | _ => sort_items value end) with (sort_items value)
      by (pose proof (same_keys_sort value _BUDGET_FIELDS) as E; rewrite Hk in E; by destruct (sort_items value)).
    rewrite same_keys_sort, Hk. unfold rq_ensure. cbn [ensure bind]. rewrite sort_items_idem.
    apply (bind_run _ _ tt); [|done]. apply iterM_ok. unfold sort_items. by rewrite isort_perm.
  - intros Hd. apply json_value_dict. unfold dict_wf, sort_items. split.
    + change (NoDup (dkeys (sort_items value))). rewrite dkeys_sort_items. unfold value. destruct data; [|exact Hd].
      apply (bool_decide_unpack _). vm_compute. reflexivity.
    + rewrite isort_perm. eapply Forall_impl; [exact Hp|]. intros [k v] Hv. apply ensure_ok in Hv. by destruct v.
  - intros k Hin. unfold vget. rewrite dget_sort_items. unfold same_keys in Hk. apply andb_true_iff in Hk as [_ Hk].
    rewrite forallb_forall in Hk. apply Hk in Hin. apply dget_dmem in Hin as (v & E). rewrite E. cbn [default from_option id].
    apply dget_In in E. rewrite List.Forall_forall in Hp. specialize (Hp _ E). apply ensure_ok in Hp. cbn in Hp.
    destruct v; try done. eexists. split; [reflexivity|]. cbn in Hp. lia.
Qed.

(** A value every check on a parameter admits. *)
Definition scalar (v : val) : Prop := match v with VStr _ | VInt _ => True | _ => False end.

Lemma scalar_value d : dict_wf d -> Forall (fun kv => scalar kv.2) d -> json_value (VDict d).
Proof.
  intros Hw H. apply json_value_dict. split; [exact Hw|]. eapply Forall_impl; [exact H|]. by intros [k []].
Qed.

Lemma check_present_scalar {A} (check : val -> string -> res A) value fields k v :
  (forall w field a, check w field = Ok a -> scalar w) ->
  iterM (check_present check value) fields = Ok tt -> In k fields -> dget value k = Some v -> scalar v.
Proof.
  intros Hc H Hk E. apply iterM_ok in H. rewrite List.Forall_forall in H. specialize (H _ Hk).
  unfold check_present in H. rewrite E in H. apply bind_ok in H as (a & Ha & _). eauto.
Qed.

Lemma hash_scalar w field h : _hash RE w field = Ok h -> scalar w.
Proof. by destruct w. Qed.

Lemma text_scalar w field h : safe_text w field = Ok h -> scalar w.
Proof. unfold safe_text. intros H. apply bind_ok in H as (s & H & _). by destruct w. Qed.

Definition PARAMETERS : list string :=
  ["limit"; "content_hash"; "entity_ref_hash"; "label_hash"; "window_start"; "window_end"; "current_window_start";
   "current_window_end"; "baseline_window_start"; "baseline_window_end"; "signal_name"; "evidence_id"; "provider";
   "risk_flag"; "signal_family"; "system_id"; "reason_code"].

Lemma expected_parameters c : incl (default [] (dget _PARAMETER_FIELDS c)) PARAMETERS.
Proof.
  assert (H : forallb (fun kv => forallb (fun k => mem k PARAMETERS) kv.2) _PARAMETER_FIELDS = true) by (vm_compute; reflexivity).
  destruct (dget _PARAMETER_FIELDS c) as [l|] eqn:E; [|intros ? []]. apply dget_In in E.
  rewrite forallb_forall in H. specialize (H _ E). cbn in H. rewrite forallb_forall in H. intros k Hk. by apply mem_In, H.
Qed.

Lemma parameters_ok c p q : validate_request_parameters c (VDict p) = Ok q ->
  q = p /\ (exists z, vget p "limit" = VInt z /\ 0 < z <= 1000) /\ (dict_wf p -> json_value (VDict p)).
Proof.
  unfold validate_request_parameters. cbn [_mapping bind]. intros H. apply bind_ok in H as (? & _ & H).
  apply bind_ok in H as (u & Hk & H). apply ensure_ok in Hk. apply bind_ok in H as (? & _ & H).
  apply bind_ok in H as (z & Hz & H). apply bind_ok in H as (u' & Hl & H). apply ensure_ok in Hl.
  apply bind_ok in H as ([] & H1 & H). apply bind_ok in H as ([] & H2 & H). apply bind_ok in H as ([] & H3 & H).
  injection H as <-. unfold _positive_int in Hz. destruct (vget p "limit") eqn:El; try done.
  destruct (0 <? z0) eqn:E0; [|done]. injection Hz as <-. split; [done|]. split; [exists z0; split; [done | lia]|].
  intros Hw. apply scalar_value; [exact Hw|]. apply List.Forall_forall. intros [k v] Hin. cbn.
  assert (E : dget p k = Some v) by (by apply In_dget).
  unfold same_keys in Hk. apply andb_true_iff in Hk as [Hk _]. rewrite forallb_forall in Hk.
  assert (Hp : In k PARAMETERS).
  { apply (expected_parameters c), mem_In, Hk, in_map_iff. by exists (k, v). }
  change PARAMETERS with (["limit"] ++ take 3 (drop 1 PARAMETERS) ++ take 6 (drop 4 PARAMETERS) ++ drop 10 PARAMETERS) in Hp.
  rewrite !in_app_iff in Hp. destruct Hp as [[<-|[]]|[Hp|[Hp|Hp]]].
  - apply vget_some in E. rewrite E in El. by subst v.
  - eapply (check_present_scalar (_hash RE)); [exact hash_scalar | exact H1 | exact Hp | exact E].
  - eapply (check_present_scalar safe_text); [exact text_scalar | exact H2 | exact Hp | exact E].
  - eapply (check_present_scalar safe_text); [exact text_scalar | exact H3 | exact Hp | exact E].
Qed.

(** The atoms in the order of their hashes. *)
Definition by_atom_hash : list dict -> list dict := isort (fun a b => String.leb (atom_hash_of a) (atom_hash_of b)).

Lemma input_atoms_ok atoms limits av : _request_input_atoms atoms limits = Ok av ->
  exists ds, atoms = map VDict ds /\ av = by_atom_hash ds /\ Z.of_nat (List.length ds) <= int_field limits "max_input_records".
Proof.
  unfold _request_input_atoms. intros H. apply bind_ok in H as (ds & Hd & H). apply bind_ok in H as (u & Hu & H).
  apply mapM_mapping_ok in Hd. apply ensure_ok in Hu. apply (inj Ok) in H as <-. exists ds. split_and!; [done | done | lia].
Qed.

Lemma input_atoms_again atoms limits av : _request_input_atoms atoms limits = Ok av ->
  _request_input_atoms (map VDict av) limits = Ok av.
Proof.
  intros H. apply input_atoms_ok in H as (ds & _ & -> & Hl). unfold _request_input_atoms. rewrite mapM_mapping. cbn [bind].
  unfold by_atom_hash. rewrite length_isort. apply Z.leb_le in Hl. rewrite Hl. unfold rq_ensure. cbn [ensure bind].
  f_equal. apply (by_key_idem atom_hash_of).
Qed.

(** ** A record read back from its file *)

Lemma unsafe_image v : unsafe (json_image v) = unsafe v.
Proof.
  induction v as [|b|z|q|s|l IH|l IH|d IH] using val_deep_ind; try done.
  - cbn [json_image unsafe]. induction IH as [|x l Hx _ IH]; [done|]. cbn [map existsb]. by rewrite Hx, IH.
  - cbn [json_image unsafe]. induction IH as [|x l Hx _ IH]; [done|]. cbn [map existsb]. by rewrite Hx, IH.
  - change (existsb (fun kv => forbidden_text kv.1 || unsafe kv.2) (dict_image d) =
            existsb (fun kv => forbidden_text kv.1 || unsafe kv.2) d).
    apply eq_true_iff_eq. rewrite !existsb_exists. unfold dict_image, sort_items. setoid_rewrite in_isort.
    setoid_rewrite in_map_iff. rewrite List.Forall_forall in IH. split.
    + intros (kv & ([k v] & <- & Hin) & Hp). cbn in Hp. specialize (IH _ Hin). cbn in IH. rewrite IH in Hp. eauto.
    + intros ([k v] & Hin & Hp). exists (k, json_image v). specialize (IH _ Hin). cbn in IH, Hp |- *. rewrite IH.
      split; [by exists (k, v) | exact Hp].
Qed.

Lemma safe_text_image v field : safe_text (json_image v) field = safe_text v field.
Proof. unfold safe_text, _scan_safe. rewrite unsafe_image. by destruct v. Qed.

Lemma check_present_image {A} (check : val -> string -> res A) value field :
  (forall v, check (json_image v) field = check v field) ->
  check_present check (dict_image value) field = check_present check value field.
Proof. unfold check_present. intros H. rewrite dget_image. destruct (dget value field); cbn; by rewrite ?H. Qed.

Lemma parameters_image c p q : validate_request_parameters c (VDict p) = Ok q ->
  validate_request_parameters c (VDict (dict_image p)) = Ok (dict_image p).
Proof.
  unfold validate_request_parameters. cbn [_mapping bind].
  rewrite same_keys_image, vget_image, positive_image, <- json_image_dict. unfold _scan_safe. rewrite unsafe_image.
  intros H. apply bind_ok in H as (u1 & -> & H). cbn [bind].
  do 2 (apply bind_ok in H as (? & -> & H); cbn [bind]). apply bind_ok in H as (z & -> & H). cbn [bind].
  apply bind_ok in H as (? & -> & H). cbn [bind].
  apply bind_ok in H as ([] & H1 & H). apply bind_ok in H as ([] & H2 & H). apply bind_ok in H as ([] & H3 & _).
  eapply (iterM_impl _ (check_present (_hash RE) (dict_image p))) in H1 as ->;
    [|intros f Hf; rewrite check_present_image; [exact Hf | intros; apply hash_image]].
  eapply (iterM_impl _ (check_present safe_text (dict_image p))) in H2 as ->;
    [|intros f Hf; rewrite check_present_image; [exact Hf | intros; apply safe_text_image]].
  eapply (iterM_impl _ (check_present safe_text (dict_image p))) in H3 as ->;
    [reflexivity | intros f Hf; rewrite check_present_image; [exact Hf | intros; apply safe_text_image]].
Qed.

(** [data or DEFAULT_BUDGET] *)
Definition budget_value (data : dict) : dict := match data with [] => DEFAULT_BUDGET | _ => data end.

Lemma budget_value_image kv d : budget_value (dict_image (kv :: d)) = dict_image (kv :: d).
Proof.
  unfold budget_value. destruct (dict_image (kv :: d)) eqn:E; [|done]. apply (f_equal (@List.length _)) in E.
  unfold dict_image, sort_items in E. by rewrite length_isort, length_map in E.
Qed.

Lemma budget_image d limits : build_request_budget d = Ok limits -> exists limits', build_request_budget (dict_image d) = Ok limits'.
Proof.
  destruct d as [|kv d]; [by exists limits|]. unfold build_request_budget.
  fold (budget_value (dict_image (kv :: d))). rewrite budget_value_image.
  rewrite same_keys_image. intros H. apply bind_ok in H as (u & -> & H). cbn [bind].
  apply bind_ok in H as ([] & Hp & _). apply iterM_ok in Hp. exists (sort_items (dict_image (kv :: d))).
  apply (bind_run _ _ tt); [|done]. apply iterM_ok. apply image_items; [|exact Hp].
  intros k v. unfold check_budget. cbn. by destruct v.
Qed.

Lemma mapping_image err v field d : _mapping err v field = Ok d -> _mapping err (json_image v) field = Ok (dict_image d).
Proof. destruct v; try done. intros [= ->]. by rewrite json_image_dict. Qed.

Lemma activity_image d : forallb (fun kv : string * val => nonneg kv.2) d = true ->
  forallb (fun kv : string * val => nonneg kv.2) (dict_image d) = true.
Proof.
  rewrite !forallb_forall, <- !List.Forall_forall. apply (image_items (fun kv => nonneg kv.2 = true)).
  intros k v. by destruct v.
Qed.

Lemma sequence_image err v field l : _sequence err v field = Ok l -> _sequence err (json_image v) field = Ok (map json_image l).
Proof. unfold _sequence. rewrite as_seq_image. destruct (as_seq v); [|done]. by intros [= ->]. Qed.

Lemma sorted_hashes_image err l field : sorted_hashes err (map json_image l) field = sorted_hashes err l field.
Proof. unfold sorted_hashes, _hashes. by rewrite mapM_hash_image. Qed.

(** A record that validates also does when it was written and read back. *)
Lemma validate_request_image r c : vget r "catalog_name" = VStr c ->
  validate_evidence_request (VDict r) = Ok tt -> validate_evidence_request (VDict (dict_image r)) = Ok tt.
Proof.
  intros Hc. unfold validate_evidence_request. cbn [_mapping bind].
  rewrite same_keys_image, !vget_image, !py_eq_str_image, !safe_text_image, positive_image, hash_image, Hc,
    stable_hash_without_image. intros H.
  apply bind_ok in H as (? & -> & H). cbn [bind]. apply bind_ok in H as (? & -> & H). cbn [bind].
  apply bind_ok in H as (? & -> & H). cbn [bind]. apply bind_ok in H as (? & -> & H). cbn [bind].
  apply bind_ok in H as (p & Hp & H). rewrite (mapping_image _ _ _ _ Hp). cbn [bind].
  apply bind_ok in H as (q & Hq & H). cbn [json_image]. rewrite (parameters_image _ _ _ Hq). cbn [bind].
  apply bind_ok in H as (b & Hb & H). rewrite (mapping_image _ _ _ _ Hb). cbn [bind].
  apply bind_ok in H as (l & Hl & H). destruct (budget_image _ _ Hl) as (l' & ->). cbn [bind].
  apply bind_ok in H as (hs & Hhs & H). rewrite (sequence_image _ _ _ _ Hhs). cbn [bind].
  rewrite sorted_hashes_image. apply bind_ok in H as (? & -> & H). cbn [bind].
  apply bind_ok in H as (? & -> & H). cbn [bind].
  apply bind_ok in H as (h & Hprev & H). apply (bind_run _ _ h).
  { destruct (vget r "previous_request_hash"); exact Hprev. }
  apply bind_ok in H as (s & Hs & H). rewrite (mapping_image _ _ _ _ Hs). cbn [bind].
  rewrite same_keys_image. apply bind_ok in H as (? & -> & H). cbn [bind].
  unfold _scan_safe in *. rewrite <- json_image_dict, unsafe_image. apply bind_ok in H as (? & -> & H). cbn [bind].
  apply bind_ok in H as (a & Ha & H). rewrite (mapping_image _ _ _ _ Ha). cbn [bind].
  rewrite same_keys_image, vget_image.
  replace (is_zero (json_image _)) with (is_zero (vget a "external_call_count")) by (symmetry; apply is_int_image).
  apply bind_ok in H as (? & -> & H). cbn [bind].
  apply bind_ok in H as (u & Hn & H). apply ensure_ok, activity_image in Hn. rewrite Hn.
  apply bind_ok in H as (? & -> & H). exact H.
Qed.

(** ** Records *)

Section Record.
Context (incident_id incident_hash : string) (sequence : Z) (catalog_name : string) (parameters : dict).
Context (previous : option string).
Notation prepare := (prepare_request incident_id incident_hash sequence catalog_name parameters previous).
Notation derive := (derive_evidence_request_record incident_id incident_hash sequence catalog_name parameters previous).
Notation execute := (execute_evidence_request incident_id incident_hash sequence catalog_name parameters previous).

Lemma prepare_request_ok atoms budget params limits av ih attempt : prepare atoms budget = Ok (params, limits, av, ih, attempt) ->
  params = parameters /\ validate_request_parameters catalog_name (VDict parameters) = Ok parameters /\
  build_request_budget budget = Ok limits /\ _request_input_atoms atoms limits = Ok av /\
  sorted_hashes RE (map (fun a => VStr (atom_hash_of a)) av) "input_atom_hashes" = Ok ih.
Proof.
  unfold prepare_request. intros H. do 3 (apply bind_ok in H as (? & _ & H)).
  apply bind_ok in H as (p & Hp & H). apply bind_ok in H as (l & Hl & H). apply bind_ok in H as (a & Ha & H).
  apply bind_ok in H as (i & Hi & H). apply bind_ok in H as (t & _ & H). injection H as <- <- <- <- <-.
  pose proof (proj1 (parameters_ok _ _ _ Hp)) as ->. by split_and!.
Qed.

(** Both calls normalise their arguments; doing it twice changes nothing. *)
Lemma prepare_again atoms budget params limits av ih attempt : prepare atoms budget = Ok (params, limits, av, ih, attempt) ->
  prepare (map VDict av) limits = prepare atoms budget.
Proof.
  intros H. destruct (prepare_request_ok _ _ _ _ _ _ _ H) as (-> & _ & Hl & Ha & _). unfold prepare_request.
  by rewrite (proj1 (budget_ok _ _ Hl)), Hl; cbn [bind]; rewrite (input_atoms_again _ _ _ Ha), Ha.
Qed.

Lemma derive_again atoms budget params limits av ih attempt : prepare atoms budget = Ok (params, limits, av, ih, attempt) ->
  derive (map VDict av) limits = derive atoms budget.
Proof. intros H. unfold derive_evidence_request_record. by rewrite (prepare_again _ _ _ _ _ _ _ H). Qed.

Definition cut (limits : dict) (l : list dict) : list dict :=
  take (Z.to_nat (Z.min (int_field parameters "limit") (int_field limits "max_output_records"))) l.

Definition record_of (limits : dict) (ih : list string) (attempt : string) (av selected : list dict) (aggregate : dict) : dict :=
  let summary := summary_of catalog_name selected aggregate in
  let body := request_body incident_id sequence catalog_name parameters limits summary ih attempt
                (Z.of_nat (List.length av)) (Z.of_nat (List.length selected)) (canonical_size (VDict summary)) previous in
  body ++ [("request_hash", VStr (stable_hash (VDict body)))].

Lemma derive_ok atoms budget r : derive atoms budget = Ok r ->
  exists limits av ih attempt all aggregate, let selected := cut limits all in
    prepare atoms budget = Ok (parameters, limits, av, ih, attempt) /\
    _execute_catalog catalog_name parameters av = Ok (all, aggregate) /\
    canonical_size (VDict (summary_of catalog_name selected aggregate)) <= int_field limits "max_output_bytes" /\
    validate_evidence_request (VDict r) = Ok tt /\ r = record_of limits ih attempt av selected aggregate.
Proof.
  unfold derive_evidence_request_record. intros H. apply bind_ok in H as ([[[[params limits] av] ih] attempt] & Hp & H).
  pose proof (proj1 (prepare_request_ok _ _ _ _ _ _ _ Hp)) as ->.
  apply bind_ok in H as ([all aggregate] & He & H). apply bind_ok in H as (u & Hb & H).
  apply ensure_ok, Z.leb_le in Hb. apply bind_ok in H as ([] & Hv & H). apply (inj Ok) in H.
  exists limits, av, ih, attempt, all, aggregate. cbv zeta. split_and!; [exact Hp | exact He | exact Hb | | by symmetry].
  by rewrite <- H.
Qed.

(** The record is a JSON document. *)
Lemma record_value limits ih attempt av selected aggregate :
  json_value (VDict parameters) -> json_value (VDict limits) -> json_value (VDict aggregate) ->
  json_value (VDict (record_of limits ih attempt av selected aggregate)).
Proof.
  intros Hp Hl Ha. pose proof strings_json_value as Hs. apply json_value_dict. split; [apply (bool_decide_unpack _); reflexivity|].
  assert (Hsum : json_value (VDict (summary_of catalog_name selected aggregate))).
  { apply json_value_dict. split; [apply (bool_decide_unpack _); reflexivity|]. unfold summary_of.
    repeat (apply List.Forall_cons; [first [exact Ha | apply Hs | exact I]|]). constructor. }
  unfold record_of, request_body. cbn [app].
  repeat (apply List.Forall_cons; [first [exact Hp | exact Hl | exact Hsum | apply Hs | exact I | idtac]|]); [| |constructor].
  - apply json_value_dict. split; [apply (bool_decide_unpack _); reflexivity|]. by repeat constructor.
  - by destruct previous.
Qed.

(** The hash of an atom whose hash was checked. *)
Lemma checked_hash a : sha256_ref (atom_hash_of a) = true -> py_str (vget a "atom_hash") = atom_hash_of a.
Proof. unfold atom_hash_of, vget_or, vget. by destruct (dget a "atom_hash"). Qed.

Lemma cut_length limits l z m : vget parameters "limit" = VInt z -> vget limits "max_output_records" = VInt m ->
  0 < z -> 0 < m -> Z.of_nat (List.length (cut limits l)) <= Z.min z m.
Proof. unfold cut, int_field. intros -> -> Hz Hm. cbn [as_int default from_option id]. rewrite length_take. lia. Qed.

Lemma input_hashes_ok av ih : sorted_hashes RE (map (fun a => VStr (atom_hash_of a)) av) "input_atom_hashes" = Ok ih ->
  ih = sorted_strings (map atom_hash_of av) /\ NoDup (map atom_hash_of av) /\
  Forall (fun a => py_str (vget a "atom_hash") = atom_hash_of a) av.
Proof.
  unfold sorted_hashes. intros H. apply bind_ok in H as (l & H & E). apply (inj Ok) in E as <-.
  apply hashes_ok in H as (E & Hn & Hs). apply (f_equal (map py_str)) in E.
  rewrite !map_map in E. cbn in E. rewrite map_id in E. subst l. split; [done|]. split; [done|]. apply List.Forall_map in Hs.
  eapply Forall_impl; [exact Hs|]. apply checked_hash.
Qed.

Definition summary_field (r : dict) (key : string) : val := vget (dict_or_empty (vget r "result_summary")) key.
Definition activity_field (r : dict) (key : string) : val := vget (dict_or_empty (vget r "runtime_activity")) key.

(** C39: a request selects only what it was given, within its limits.  The
    record of a request names the hashes of the atoms it was given, each
    once; the atoms it selects are among them, and none is selected twice
    except by the comparison of two windows, which may overlap; there are at
    most as many as the limit of the request, which is at most 1000, and as
    its budget allow, and the summary is within the byte budget; and no
    external call is recorded. *)
Theorem request_selects_within_its_limits atoms budget r :
  derive_evidence_request_record incident_id incident_hash sequence catalog_name parameters previous atoms budget = Ok r ->
  exists ds limits matched z,
    atoms = map VDict ds /\ build_request_budget budget = Ok limits /\ vget parameters "limit" = VInt z /\ z <= 1000 /\
    NoDup (map atom_hash_of ds) /\
    vget r "input_atom_hashes" = vlist_of_strings (sorted_strings (map atom_hash_of ds)) /\
    summary_field r "matched_atom_hashes" = vlist_of_strings matched /\
    incl matched (map atom_hash_of ds) /\ (catalog_name <> COMPARE -> NoDup matched) /\
    Z.of_nat (List.length ds) <= int_field limits "max_input_records" /\
    Z.of_nat (List.length matched) <= Z.min z (int_field limits "max_output_records") /\
    canonical_size (vget r "result_summary") <= int_field limits "max_output_bytes" /\
    activity_field r "output_records_selected" = VInt (Z.of_nat (List.length matched)) /\
    activity_field r "external_call_count" = VInt 0.
Proof.
  intros H. apply derive_ok in H as (limits & av & ih & attempt & all & aggregate & Hp & He & Hb & _ & ->).
  destruct (prepare_request_ok _ _ _ _ _ _ _ Hp) as (_ & Hv & Hl & Ha & Hi).
  apply input_atoms_ok in Ha as (ds & -> & -> & Hn). apply input_hashes_ok in Hi as (-> & Hnd & Hh).
  apply execute_catalog_ok in He as (Hin & Hsub & _).
  destruct (parameters_ok _ _ _ Hv) as (_ & (z & Hz & Hz0) & _).
  destruct (budget_ok _ _ Hl) as (_ & _ & Hpos). destruct (Hpos "max_output_records") as (m & Hm & Hm0); [cbn; tauto|].
  set (selected := cut limits all).
  assert (Hsel : incl selected (by_atom_hash ds)).
  { intros a Ha. apply Hin. apply list_elem_of_In. eapply elem_of_sublist; [by apply list_elem_of_In | apply sublist_take]. }
  assert (Hmap : map (fun a => py_str (vget a "atom_hash")) selected = map atom_hash_of selected).
  { apply map_ext_in. intros a Ha. rewrite List.Forall_forall in Hh. apply Hh, Hsel, Ha. }
  exists ds, limits, (map atom_hash_of selected), z.
  assert (Hperm : Permutation (map atom_hash_of (by_atom_hash ds)) (map atom_hash_of ds)).
  { apply Permutation_map, isort_perm. }
  split_and!; try done.
  - lia.
  - by rewrite <- Hperm.
  - transitivity (vlist_of_strings (sorted_strings (map atom_hash_of (by_atom_hash ds)))); [reflexivity|]. f_equal.
    apply (by_key_unique (fun s => s)); [by rewrite map_id | exact Hperm].
  - transitivity (vlist_of_strings (map (fun a => py_str (vget a "atom_hash")) selected)); [reflexivity | by rewrite Hmap].
  - intros h Hin'. eapply Permutation_in; [exact Hperm|]. exact (incl_map atom_hash_of Hsel h Hin').
  - intros Hc. eapply sublist_NoDup; [exact Hnd|]. change (fmap atom_hash_of selected `sublist_of` fmap atom_hash_of (by_atom_hash ds)).
    apply fmap_sublist. etrans; [apply sublist_take | by apply Hsub].
  - rewrite length_map. unfold int_field at 1. rewrite Hm. cbn [as_int default from_option id]. apply cut_length; [done | done | lia | lia].
  - by rewrite length_map.
Qed.

(** C36: a request is executed once.  When the record of a request can be
    derived, executing it returns that record the first time; and executing
    it again, with a table that holds the record under the hash of the
    attempt, as it was returned or as it was read back from a file, returns
    the recorded one and says so.  Whatever a table holds, what execution
    returns is equal to the record that is derived: a forged record is never
    handed out. *)
Theorem execution_returns_the_derived_record atoms budget r : dict_wf parameters -> dict_wf budget ->
  derive_evidence_request_record incident_id incident_hash sequence catalog_name parameters previous atoms budget = Ok r ->
  exists attempt, vget r "attempted_request_hash" = VStr attempt /\
    (forall table, dget table attempt = None -> execute atoms budget table = Ok (r, false)) /\
    (forall table, dget table attempt = Some r -> execute atoms budget table = Ok (r, true)) /\
    (forall table, dget table attempt = Some (dict_image r) -> execute atoms budget table = Ok (dict_image r, true)) /\
    forall table r' dup, execute atoms budget table = Ok (r', dup) -> py_eq (VDict r') (VDict r) = true.
Proof.
  intros Hwp Hwb H. pose proof H as Hd.
  apply derive_ok in H as (limits & av & ih & attempt & all & aggregate & Hp & He & _ & Hv & Hr).
  destruct (prepare_request_ok _ _ _ _ _ _ _ Hp) as (_ & Hpar & Hl & _ & _).
  assert (Hj : json_value (VDict r)).
  { rewrite Hr. apply record_value; [by apply parameters_ok in Hpar as (_ & _ & Hpar); apply Hpar
      | by apply budget_ok in Hl as (_ & Hl & _); apply Hl | by apply execute_catalog_ok in He as (_ & _ & He)]. }
  assert (Ht : vget r "attempted_request_hash" = VStr attempt) by (by rewrite Hr).
  exists attempt. split; [exact Ht|].
  assert (Hx : forall table, execute atoms budget table =
    match dget table attempt with
    | Some existing =>
        let! _ := validate_evidence_request (VDict existing) in
        let! _ := rq_ensure (py_eq (vget existing "attempted_request_hash") (VStr attempt)) "attempted_request_hash_conflict" in
        let! _ := rq_ensure (py_eq (VDict existing) (VDict r)) "durable_request_semantic_mismatch" in
        Ok (existing, true)
    | None => Ok (r, false)
    end).
  { intros table. unfold execute_evidence_request. rewrite Hp. cbn [bind].
    by rewrite (derive_again _ _ _ _ _ _ _ Hp), Hd. }
  split_and!.
  - intros table E. by rewrite Hx, E.
  - intros table E. rewrite Hx, E, Hv, Ht. cbn [bind].
    rewrite (proj2 (py_eq_str _ _) eq_refl), py_eq_refl by (by apply json_value_wf). reflexivity.
  - intros table E. rewrite Hx, E, (validate_request_image r catalog_name), vget_image, Ht, <- json_image_dict;
      [|by rewrite Hr | exact Hv]. cbn [bind]. change (json_image (VStr attempt)) with (VStr attempt).
    rewrite (proj2 (py_eq_str _ _) eq_refl), (py_eq_image _ Hj). reflexivity.
  - intros table r' dup. rewrite Hx. destruct (dget table attempt) as [existing|].
    + intros E. do 2 (apply bind_ok in E as (? & _ & E)). apply bind_ok in E as (u & Hu & E). apply ensure_ok in Hu.
      by injection E as <- <-.
    + intros [= <- <-]. by apply py_eq_refl, json_value_wf.
Qed.
End Record.
