(* ===== verification/P137Classification.v ===== *)
(** * Terminal classifications

    Models app/services/p137_classification.py: the label derived from an
    incident's hypotheses, the classification record and its validation. *)

From S2P Require Import Prelude PyValue PyChecks Sha P137Checks.

Definition CLASSIFICATION_SCHEMA_VERSION : string := "p137.classification_record.v1".
Definition CLASSIFICATIONS : list string :=
  ["confirmed_incident"; "insufficient_evidence"; "benign_anomaly"; "aborted_fail_closed"].
Definition CONFIDENCE_CODES : list string :=
  ["evidence_sufficient"; "evidence_insufficient"; "benign_supported"; "fail_closed"].

Definition _FIELDS : list string :=
  ["schema_version"; "classification_id"; "incident_id"; "classification_sequence"; "classification"; "decided_at";
   "top_hypothesis_hash"; "support_summary_hashes"; "contradiction_summary_hashes"; "missing_evidence_hashes";
   "confidence_code"; "decision_reasons"; "authority_counters"; "runtime_activity"; "resource_usage";
   "previous_classification_hash"; "classification_hash"].

Definition P137ClassificationError (msg : string) : exn := Exn "P137ClassificationError" msg.

Notation CE := P137ClassificationError.
Definition cl_ensure (b : bool) (msg : string) : res unit := ensure b (CE msg).

(** ** The order of hypotheses *)

(** [int(score.get(key, 0))] *)
Definition score_int (score : dict) (key : string) : res Z := py_int (vget_or score key (VInt 0)).

Definition _hypothesis_order (value : dict) : res (list Z * string) :=
  let! score := _mapping CE (vget value "score") "score" in
  let! rank := score_int score "rank_score" in
  let! support := score_int score "support_weight" in
  let! contradiction := score_int score "contradiction_weight" in
  let! missing := score_int score "missing_required_count" in
  let! freshness := score_int score "freshness_weight" in
  let! diversity := score_int score "source_diversity_weight" in
  Ok ([rank; support; - contradiction; - missing; freshness; diversity],
      py_str (vget_or value "hypothesis_hash" (VStr ""))).

(** [sorted(hypotheses, key=_hypothesis_order, reverse=True)] *)
Definition strongest_first (hypotheses : list dict) : res (list dict) :=
  let! keyed := mapM (fun h => let! key := _hypothesis_order h in Ok (key, h)) hypotheses in
  Ok (map snd (sort_descending fst keyed)).

(** ** Deriving the label *)

(** [any(_mapping(item, "missing_item").get("blocking") is True for item in missing)] *)
Fixpoint any_blocking (missing : list val) : res bool :=
  match missing with
  | [] => Ok false
  | item :: missing =>
      let! item := _mapping CE item "missing_item" in
      if is_literal true (vget item "blocking") then Ok true else any_blocking missing
  end.

Definition edges_of (hypothesis : dict) (key field : string) : res (list dict) :=
  let! items := _sequence CE (vget hypothesis key) key in
  mapM (fun item => _mapping CE item field) items.

Definition relates (relation : string) (edges : list dict) : bool :=
  existsb (fun edge => py_eq (vget edge "relation") (VStr relation)) edges.

(** The label of the strongest hypothesis. *)
Definition label_of (top : dict) : res string :=
  let! missing := _sequence CE (vget top "missing_evidence") "missing_evidence" in
  let! blocked := any_blocking missing in
  if blocked then Ok "insufficient_evidence" else
  let! support := edges_of top "support" "support_edge" in
  let! contradictions := edges_of top "contradictions" "contradiction_edge" in
  if relates "contradicts_decisive" contradictions then Ok "insufficient_evidence" else
  let benign := py_eq (vget top "category") (VStr "benign_pattern") in
  if benign && relates "supports_benign" support then Ok "benign_anomaly"
  else if negb benign && relates "supports_primary" support then Ok "confirmed_incident"
  else Ok "insufficient_evidence".

Definition derive_classification (hypotheses : list dict) (accepted_incident semantic_tie : bool)
    (failure_code : option string) (classification_write_succeeded ledger_cas_succeeded : bool) : res (option string) :=
  if negb accepted_incident then Ok None else
  match failure_code with
  | Some _ => Ok (if classification_write_succeeded && ledger_cas_succeeded then Some "aborted_fail_closed" else None)
  | None =>
      match hypotheses with
      | [] => Ok (Some "insufficient_evidence")
      | _ =>
          if semantic_tie then Ok (Some "insufficient_evidence") else
          let! ordered := strongest_first hypotheses in
          match ordered with
          | [] => Ok (Some "insufficient_evidence")
          | top :: _ => let! label := label_of top in Ok (Some label)
          end
      end
  end.

(** ** Records *)

(** [_edge_hashes] and [_missing_hashes] of a hypothesis that may be [None]. *)
Definition member_hashes (hypothesis : option dict) (key item_field hash_key : string) : res (list string) :=
  match hypothesis with
  | None => Ok []
  | Some hypothesis =>
      let! items := _sequence CE (vget hypothesis key) key in
      let! items := mapM (fun item => _mapping CE item item_field) items in
      sorted_hashes CE (map (fun item => vget item hash_key) items) key
  end.

Definition _edge_hashes (hypothesis : option dict) (field : string) : res (list string) :=
  member_hashes hypothesis field field "edge_hash".

Definition _missing_hashes (hypothesis : option dict) : res (list string) :=
  member_hashes hypothesis "missing_evidence" "missing_item" "item_hash".

Definition optional_hash (v : val) (field : string) : res unit :=
  match v with VNone => Ok tt | _ => let! _ := _hash CE v field in Ok tt end.

(** [_mapping(value.get(field), field)], then [check]. *)
Definition counts_field (check : dict -> string -> res dict) (value : dict) (field : string) : res unit :=
  let! counts := _mapping CE (vget value field) field in
  let! _ := check counts field in
  Ok tt.

Definition hash_list_field (value : dict) (field : string) : res unit :=
  let! items := _sequence CE (vget value field) field in
  let! _ := sorted_hashes CE items field in
  Ok tt.

Definition seq_items (v : val) : list val := default [] (as_seq v).

(** The part of the validation that compares the record with its hypothesis. *)
Definition matches_hypothesis (value hypothesis : dict) : res unit :=
  let! _ := cl_ensure (py_eq (vget value "top_hypothesis_hash") (vget hypothesis "hypothesis_hash"))
              "detached_top_hypothesis" in
  let same_list key hashes := py_eq (VList (seq_items (vget value key))) (vlist_of_strings hashes) in
  let! support := _edge_hashes (Some hypothesis) "support" in
  let! _ := cl_ensure (same_list "support_summary_hashes" support) "forged_support_summary" in
  let! contradictions := _edge_hashes (Some hypothesis) "contradictions" in
  let! _ := cl_ensure (same_list "contradiction_summary_hashes" contradictions) "forged_contradiction_summary" in
  let! missing := _missing_hashes (Some hypothesis) in
  cl_ensure (same_list "missing_evidence_hashes" missing) "forged_missing_evidence_summary".

Definition validate_classification_record (record : val) (top_hypothesis : option dict) : res unit :=
  let! value := _mapping CE record "classification" in
  let! _ := cl_ensure (same_keys value _FIELDS && py_eq (vget value "schema_version") (VStr CLASSIFICATION_SCHEMA_VERSION))
              "invalid_classification_fields" in
  let! _ := _text CE (vget value "classification_id") "classification_id" in
  let! _ := _text CE (vget value "incident_id") "incident_id" in
  let! _ := _positive_int CE (vget value "classification_sequence") "classification_sequence" in
  let! known := in_set (vget value "classification") CLASSIFICATIONS in
  let! _ := cl_ensure known "invalid_classification" in
  let! known := in_set (vget value "confidence_code") CONFIDENCE_CODES in
  let! _ := cl_ensure known "invalid_confidence_code" in
  let! _ := _text CE (vget value "decided_at") "decided_at" in
  let! _ := optional_hash (vget value "previous_classification_hash") "previous_classification_hash" in
  let! _ := optional_hash (vget value "top_hypothesis_hash") "top_hypothesis_hash" in
  let! _ := iterM (hash_list_field value)
              ["support_summary_hashes"; "contradiction_summary_hashes"; "missing_evidence_hashes"] in
  let! reasons := _sequence CE (vget value "decision_reasons") "decision_reasons" in
  let! _ := cl_ensure (py_eq (VList reasons) (vlist_of_strings (sorted_set (map py_str reasons))))
              "decision_reasons_not_canonical" in
  let! _ := counts_field (_zero_map CE) value "authority_counters" in
  let! _ := counts_field (_integer_map CE) value "runtime_activity" in
  let! _ := counts_field (_integer_map CE) value "resource_usage" in
  let! _ := match top_hypothesis with Some hypothesis => matches_hypothesis value hypothesis | None => Ok tt end in
  cl_ensure (py_eq (vget value "classification_hash")
               (VStr (stable_hash (VDict (dwithout ["classification_hash"] value))))) "classification_hash_invalid".

Definition confidence (classification : string) : string :=
  if classification =s "confirmed_incident" then "evidence_sufficient"
  else if classification =s "insufficient_evidence" then "evidence_insufficient"
  else if classification =s "benign_anomaly" then "benign_supported"
  else "fail_closed".

Definition opt_str (o : option string) : val := match o with Some s => VStr s | None => VNone end.

Definition record_body (incident_id : string) (sequence : Z) (classification decided_at : string)
    (top_hash : option string) (support contradictions missing reasons : list string)
    (counters activity resources : dict) (previous : option string) : dict :=
  [("schema_version", VStr CLASSIFICATION_SCHEMA_VERSION);
   ("classification_id", VStr (stable_hash (VDict
      [("incident_id", VStr incident_id); ("classification_sequence", VInt sequence); ("classification", VStr classification)])));
   ("incident_id", VStr incident_id); ("classification_sequence", VInt sequence); ("classification", VStr classification);
   ("decided_at", VStr decided_at); ("top_hypothesis_hash", opt_str top_hash);
   ("support_summary_hashes", vlist_of_strings support); ("contradiction_summary_hashes", vlist_of_strings contradictions);
   ("missing_evidence_hashes", vlist_of_strings missing); ("confidence_code", VStr (confidence classification));
   ("decision_reasons", vlist_of_strings reasons); ("authority_counters", VDict counters);
   ("runtime_activity", VDict activity); ("resource_usage", VDict resources);
   ("previous_classification_hash", opt_str previous)].

(** [str(hypothesis.get("hypothesis_hash")) if hypothesis else None] *)
Definition top_hash_of (hypothesis : option dict) : option string :=
  match hypothesis with
  | Some ((_ :: _) as h) => Some (py_str (vget h "hypothesis_hash"))
  | _ => None
  end.

Definition build_classification_record (incident_id : string) (sequence : Z) (classification decided_at : string)
    (top_hypothesis : option dict) (authority_counters runtime_activity resource_usage : dict)
    (previous : option string) (decision_reasons : list string) : res dict :=
  let! _ := _text CE (VStr incident_id) "incident_id" in
  let! _ := _positive_int CE (VInt sequence) "classification_sequence" in
  let! _ := cl_ensure (mem classification CLASSIFICATIONS) "invalid_classification" in
  let! _ := _text CE (VStr decided_at) "decided_at" in
  let! _ := optional_hash (opt_str previous) "previous_classification_hash" in
  let! _ := cl_ensure ((classification =s "aborted_fail_closed") ||
                       match top_hypothesis with Some _ => true | None => false end) "top_hypothesis_required" in
  let top_hash := top_hash_of top_hypothesis in
  let! _ := optional_hash (opt_str top_hash) "top_hypothesis_hash" in
  let! support := _edge_hashes top_hypothesis "support" in
  let! contradictions := _edge_hashes top_hypothesis "contradictions" in
  let! missing := _missing_hashes top_hypothesis in
  let! reasons := mapM (fun r => _text CE (VStr r) "decision_reason") decision_reasons in
  let! counters := _zero_map CE authority_counters "authority_counters" in
  let! activity := _integer_map CE runtime_activity "runtime_activity" in
  let! resources := _integer_map CE resource_usage "resource_usage" in
  let body := record_body incident_id sequence classification decided_at top_hash support contradictions missing
                (sorted_set reasons) counters activity resources previous in
  let record := body ++ [("classification_hash", VStr (stable_hash (VDict body)))] in
  let! _ := validate_classification_record (VDict record) top_hypothesis in
  Ok record.
