(* ===== verification/P137Ledger.v ===== *)
(** * The investigation ledger

    Models app/services/p137_ledger.py: a ledger is a document that names its
    predecessor's hash and lists every incident, request attempt and
    classification so far.  A call takes the prior ledger, as it was read,
    and returns the next. *)

From S2P Require Import Prelude PyValue PyChecks Sha P137Checks P137Requests P137Classification.

Definition LEDGER_SCHEMA_VERSION : string := "p137.investigation_ledger.v1".

Definition _FIELDS : list string :=
  ["schema_version"; "config_hash"; "next_incident_sequence"; "next_request_sequence"; "next_classification_sequence";
   "incident_hashes"; "classification_hashes"; "attempted_request_hashes"; "counters"; "authority_counters";
   "runtime_activity"; "evaluator_activity"; "resource_usage"; "previous_ledger_hash"; "ledger_hash"].

Definition P137LedgerError (msg : string) : exn := Exn "P137LedgerError" msg.
Notation LE := P137LedgerError.
Definition le_ensure (b : bool) (msg : string) : res unit := ensure b (LE msg).

(** ** Validation *)

Definition ledger_hash_of (ledger : dict) : string := stable_hash (VDict (dwithout ["ledger_hash"] ledger)).

Definition hash_list (value : dict) (field : string) : res (list string) :=
  let! items := _sequence LE (vget value field) field in
  _hashes LE items field.

Definition count_map (check : dict -> string -> res dict) (value : dict) (field : string) : res unit :=
  let! counts := _mapping LE (vget value field) field in
  let! _ := check counts field in
  Ok tt.

Definition int_is (v : val) (z : Z) : bool := py_eq v (VInt z).

(** The checks on the fields; the three lists of hashes. *)
Definition validate_fields (value : dict) : res (list string * list string * list string) :=
  let! _ := le_ensure (same_keys value _FIELDS && py_eq (vget value "schema_version") (VStr LEDGER_SCHEMA_VERSION))
              "invalid_ledger_fields" in
  let! _ := _hash LE (vget value "config_hash") "config_hash" in
  let! _ := iterM (fun field => let! _ := _positive_int LE (vget value field) field in Ok tt)
              ["next_incident_sequence"; "next_request_sequence"; "next_classification_sequence"] in
  let! incidents := hash_list value "incident_hashes" in
  let! classifications := hash_list value "classification_hashes" in
  let! attempts := hash_list value "attempted_request_hashes" in
  let! _ := iterM (count_map (_integer_map LE) value)
              ["counters"; "runtime_activity"; "evaluator_activity"; "resource_usage"] in
  let! _ := count_map (_zero_map LE) value "authority_counters" in
  let! _ := match vget value "previous_ledger_hash" with
            | VNone => Ok ""
            | previous => _hash LE previous "previous_ledger_hash"
            end in
  Ok (incidents, classifications, attempts).

Definition check_self_hash (value : dict) : res unit :=
  le_ensure (py_eq (vget value "ledger_hash") (VStr (ledger_hash_of value))) "ledger_hash_invalid".

Definition length_is (v : val) (l : list string) : bool := int_is v (Z.of_nat (List.length l) + 1).

(** [validate_investigation_ledger(ledger)] *)
Definition validate_standalone (ledger : val) : res unit :=
  let! value := _mapping LE ledger "ledger" in
  let! (incidents, classifications, attempts) := validate_fields value in
  let! _ := le_ensure (length_is (vget value "next_incident_sequence") incidents &&
                       length_is (vget value "next_request_sequence") attempts &&
                       length_is (vget value "next_classification_sequence") classifications)
              "standalone_ledger_sequence_mismatch" in
  let has_members := match incidents, classifications, attempts with [], [], [] => false | _, _, _ => true end in
  let! _ := le_ensure (Bool.eqb has_members (negb (is_none (vget value "previous_ledger_hash"))))
              "standalone_ledger_predecessor_mismatch" in
  check_self_hash value.

Definition seq_items (v : val) : list val := default [] (as_seq v).

(** [value[field] == prior[field] + n] *)
Definition advanced (value prior : dict) (field : string) (n : nat) : bool :=
  match as_int (vget prior field) with
  | Some z => int_is (vget value field) (z + Z.of_nat n)
  | None => false
  end.

(** [list(value[field]) == [*prior[field], *(item.get(key) for item in items)]] *)
Definition members_are (value prior : dict) (field key : string) (items : list dict) : bool :=
  py_eq (VList (seq_items (vget value field))) (VList (seq_items (vget prior field) ++ map (fun item => vget item key) items)).

(** [validate_investigation_ledger(ledger, prior=…)]; the items are mappings. *)
Definition validate_successor (ledger : val) (prior : dict) (incidents requests classifications : list dict) : res unit :=
  let! value := _mapping LE ledger "ledger" in
  let! _ := validate_fields value in
  let! _ := validate_standalone (VDict prior) in
  let! _ := le_ensure (py_eq (vget value "previous_ledger_hash") (vget prior "ledger_hash") &&
                       py_eq (vget value "config_hash") (vget prior "config_hash")) "ledger_predecessor_mismatch" in
  let! _ := le_ensure (members_are value prior "incident_hashes" "incident_hash" incidents) "incident_membership_mismatch" in
  let! _ := le_ensure (members_are value prior "classification_hashes" "classification_hash" classifications)
              "classification_membership_mismatch" in
  let! _ := le_ensure (members_are value prior "attempted_request_hashes" "attempted_request_hash" requests)
              "attempted_request_membership_mismatch" in
  let! _ := le_ensure (advanced value prior "next_incident_sequence" (List.length incidents))
              "incident_sequence_advance_mismatch" in
  let! _ := le_ensure (advanced value prior "next_request_sequence" (List.length requests))
              "request_sequence_advance_mismatch" in
  let! _ := le_ensure (advanced value prior "next_classification_sequence" (List.length classifications))
              "classification_sequence_advance_mismatch" in
  check_self_hash value.

(** ** Ledgers *)

Definition ledger_body (config_hash : val) (incident request classification : Z) (incidents classifications attempts : list val)
    (counters authority runtime evaluator resources : dict) (previous : val) : dict :=
  [("schema_version", VStr LEDGER_SCHEMA_VERSION); ("config_hash", config_hash);
   ("next_incident_sequence", VInt incident); ("next_request_sequence", VInt request);
   ("next_classification_sequence", VInt classification); ("incident_hashes", VList incidents);
   ("classification_hashes", VList classifications); ("attempted_request_hashes", VList attempts);
   ("counters", VDict counters); ("authority_counters", VDict authority); ("runtime_activity", VDict runtime);
   ("evaluator_activity", VDict evaluator); ("resource_usage", VDict resources); ("previous_ledger_hash", previous)].

Definition hashed (body : dict) : dict := body ++ [("ledger_hash", VStr (stable_hash (VDict body)))].

Definition new_investigation_ledger (config_hash : string) (counters authority runtime evaluator resources : dict)
  : res dict :=
  let! _ := _hash LE (VStr config_hash) "config_hash" in
  let! counters := _integer_map LE counters "counters" in
  let! authority := _zero_map LE authority "authority_counters" in
  let! runtime := _integer_map LE runtime "runtime_activity" in
  let! evaluator := _integer_map LE evaluator "evaluator_activity" in
  let! resources := _integer_map LE resources "resource_usage" in
  let ledger := hashed (ledger_body (VStr config_hash) 1 1 1 [] [] [] counters authority runtime evaluator resources VNone) in
  let! _ := validate_standalone (VDict ledger) in
  Ok ledger.

(** The loop that checks the sequence numbers of [items]; the next number. *)
Fixpoint check_sequence (key error : string) (expected : Z) (items : list dict) : res Z :=
  match items with
  | [] => Ok expected
  | item :: items =>
      let! _ := le_ensure (int_is (vget item key) expected) error in
      check_sequence key error (expected + 1) items
  end.

(** The same for incidents, which also collects their hashes. *)
Fixpoint check_incidents (expected : Z) (items : list dict) : res (Z * list string) :=
  match items with
  | [] => Ok (expected, [])
  | item :: items =>
      let! _ := le_ensure (int_is (vget item "incident_sequence") expected) "incident_sequence_mismatch" in
      let! h := _hash LE (vget item "incident_hash") "incident_hash" in
      let! (next, hashes) := check_incidents (expected + 1) items in
      Ok (next, h :: hashes)
  end.

(** [overrides or prior[field]], as an integer map. *)
Definition carried (overrides : option dict) (prior : dict) (field : string) : res dict :=
  let value := match overrides with
               | Some ((_ :: _) as d) => d
               | _ => dict_or_empty (vget prior field)
               end in
  _integer_map LE value field.

Definition strings_of (l : list val) : list string := map py_str l.

(** [item[key]] of validated items. *)
Definition fields_of (key : string) (items : list dict) : list val := map (fun item => vget item key) items.

Definition next_of (prior : dict) (field : string) : Z := default 0 (as_int (vget prior field)).

Definition advance_investigation_ledger (prior : dict) (expected_previous_hash : string)
    (incidents requests classifications : list val) (counters runtime evaluator resources : option dict) : res dict :=
  let! _ := validate_standalone (VDict prior) in
  let! _ := le_ensure (py_eq (vget prior "ledger_hash") (VStr expected_previous_hash)) "ledger_cas_predecessor_mismatch" in
  let! incidents := mapM (fun item => _mapping LE item "incident") incidents in
  let! requests := mapM (fun item => _mapping LE item "request") requests in
  let! classifications := mapM (fun item => _mapping LE item "classification") classifications in
  let! _ := iterM (fun request => validate_evidence_request (VDict request)) requests in
  let! _ := iterM (fun c => validate_classification_record (VDict c) None) classifications in
  let! next_request := check_sequence "request_sequence" "request_sequence_mismatch"
                         (next_of prior "next_request_sequence") requests in
  let! next_classification := check_sequence "classification_sequence" "classification_sequence_mismatch"
                                (next_of prior "next_classification_sequence") classifications in
  let! (next_incident, incident_hashes) := check_incidents (next_of prior "next_incident_sequence") incidents in
  let next_attempts := seq_items (vget prior "attempted_request_hashes") ++ fields_of "attempted_request_hash" requests in
  let! _ := le_ensure (bool_decide (NoDup (strings_of next_attempts))) "attempted_request_hash_reuse" in
  let next_incidents := seq_items (vget prior "incident_hashes") ++ map VStr incident_hashes in
  let next_classifications := seq_items (vget prior "classification_hashes") ++ fields_of "classification_hash" classifications in
  let! _ := le_ensure (bool_decide (NoDup (strings_of next_incidents)) &&
                       bool_decide (NoDup (strings_of next_classifications))) "duplicate_ledger_member" in
  let! counters := carried counters prior "counters" in
  let! runtime := carried runtime prior "runtime_activity" in
  let! evaluator := carried evaluator prior "evaluator_activity" in
  let! resources := carried resources prior "resource_usage" in
  let ledger := hashed (ledger_body (vget prior "config_hash") next_incident next_request next_classification
                          next_incidents next_classifications next_attempts counters
                          (dict_or_empty (vget prior "authority_counters")) runtime evaluator resources
                          (vget prior "ledger_hash")) in
  let! _ := validate_successor (VDict ledger) prior incidents requests classifications in
  Ok ledger.
