(* ===== verification/P137LedgerProps.v ===== *)
(** * What the investigation ledger guarantees

    A ledger only grows, by what the call was given, on top of the ledger the
    caller expected; and which ledgers the next call accepts. *)

From S2P Require Import Prelude PyValue PyChecks Sha Json P137Checks P137Requests P137Classification P137Ledger.

#[local] Opaque stable_hash.

(** ** Lists of hashes *)

Definition hashes_of (ledger : dict) (field : string) : list string := strings_of (seq_items (vget ledger field)).

Lemma strings_of_map l : strings_of (map VStr l) = l.
Proof. unfold strings_of. rewrite map_map. induction l as [|x l IH]; [done|]. cbn in *. by rewrite IH. Qed.

Lemma strings_of_app l l' : strings_of (l ++ l') = strings_of l ++ strings_of l'.
Proof. apply map_app. Qed.

Lemma hash_list_ok value field l : hash_list value field = Ok l ->
  seq_items (vget value field) = map VStr l /\ hashes_of value field = l /\ NoDup l.
Proof.
  unfold hash_list, _sequence. intros H. apply bind_ok in H as (items & Hi & H).
  destruct (as_seq (vget value field)) as [items'|] eqn:E; [|done]. injection Hi as ->.
  apply hashes_ok in H as (-> & Hn & _). unfold hashes_of, seq_items. rewrite E. cbn [default from_option id].
  by rewrite strings_of_map.
Qed.

(** ** What validation checks *)

Lemma validate_fields_ok value i c a : validate_fields value = Ok (i, c, a) ->
  hashes_of value "incident_hashes" = i /\ hashes_of value "classification_hashes" = c /\
  hashes_of value "attempted_request_hashes" = a /\ NoDup i /\ NoDup c /\ NoDup a /\
  seq_items (vget value "incident_hashes") = map VStr i /\ seq_items (vget value "classification_hashes") = map VStr c /\
  seq_items (vget value "attempted_request_hashes") = map VStr a.
Proof.
  unfold validate_fields. intros H. do 3 (apply bind_ok in H as (? & _ & H)).
  apply bind_ok in H as (i' & Hi & H). apply bind_ok in H as (c' & Hc & H). apply bind_ok in H as (a' & Ha & H).
  do 3 (apply bind_ok in H as (? & _ & H)). injection H as <- <- <-.
  apply hash_list_ok in Hi as (? & ? & ?), Hc as (? & ? & ?), Ha as (? & ? & ?). by split_and!.
Qed.

(** A ledger the next call accepts as its prior. *)
Record standalone (ledger : dict) : Prop := {
  sa_incidents : vget ledger "next_incident_sequence" = VInt (Z.of_nat (List.length (hashes_of ledger "incident_hashes")) + 1);
  sa_requests : vget ledger "next_request_sequence" = VInt (Z.of_nat (List.length (hashes_of ledger "attempted_request_hashes")) + 1);
  sa_classifications :
    vget ledger "next_classification_sequence" = VInt (Z.of_nat (List.length (hashes_of ledger "classification_hashes")) + 1);
  sa_lists : exists i c a, seq_items (vget ledger "incident_hashes") = map VStr i /\
    seq_items (vget ledger "classification_hashes") = map VStr c /\
    seq_items (vget ledger "attempted_request_hashes") = map VStr a;
  sa_hash : vget ledger "ledger_hash" = VStr (ledger_hash_of ledger)
}.

Lemma positive_ok err v field z : _positive_int err v field = Ok z -> v = VInt z.
Proof. unfold _positive_int. destruct v; try done. destruct (0 <? z0); [|done]. by intros [= ->]. Qed.

Lemma sequence_ints value fs : validate_fields value = Ok fs ->
  exists x y z, vget value "next_incident_sequence" = VInt x /\ vget value "next_request_sequence" = VInt y /\
    vget value "next_classification_sequence" = VInt z.
Proof.
  unfold validate_fields. intros H. apply bind_ok in H as (v & _ & H). apply bind_ok in H as (w & _ & H).
  apply bind_ok in H as (u & Hu & _). cbn [iterM] in Hu. apply bind_ok in Hu as (u1 & H1 & Hu). apply bind_ok in Hu as (u2 & H2 & Hu).
  apply bind_ok in Hu as (u3 & H3 & _). apply bind_ok in H1 as (x & H1 & _). apply bind_ok in H2 as (y & H2 & _).
  apply bind_ok in H3 as (z & H3 & _). apply positive_ok in H1, H2, H3. eauto 6.
Qed.

Lemma length_is_ok v z l : v = VInt z -> length_is v l = true <-> z = Z.of_nat (List.length l) + 1.
Proof. intros ->. unfold length_is, int_is. rewrite py_eq_int. apply Z.eqb_eq. Qed.

Lemma standalone_ok ledger : validate_standalone (VDict ledger) = Ok tt -> standalone ledger.
Proof.
  unfold validate_standalone. cbn [_mapping bind]. intros H. apply bind_ok in H as ([[i c] a] & Hf & H).
  apply bind_ok in H as (u & Hs & H). apply bind_ok in H as (u' & _ & H).
  apply ensure_ok in Hs. apply andb_true_iff in Hs as [Hs Hs3]. apply andb_true_iff in Hs as [Hs1 Hs2].
  destruct (sequence_ints _ _ Hf) as (x & y & z & Hx & Hy & Hz).
  apply (length_is_ok _ x) in Hs1; [|done]. apply (length_is_ok _ y) in Hs2; [|done]. apply (length_is_ok _ z) in Hs3; [|done].
  apply validate_fields_ok in Hf as (<- & <- & <- & _ & _ & _ & Hi & Hc & Ha).
  apply ensure_ok, py_eq_str in H. split; [congruence | congruence | congruence | eauto 6 | done].
Qed.

(** ** Sequence numbers *)

Lemma check_sequence_ok key error expected items next :
  check_sequence key error expected items = Ok next -> next = expected + Z.of_nat (List.length items).
Proof.
  revert expected. induction items as [|item items IH]; intros expected H; cbn [check_sequence] in H.
  - injection H as <-. cbn. lia.
  - apply bind_ok in H as (u & _ & H). apply IH in H. cbn [List.length]. lia.
Qed.

Lemma check_incidents_ok expected items next hashes :
  check_incidents expected items = Ok (next, hashes) ->
  next = expected + Z.of_nat (List.length items) /\ map (fun item => vget item "incident_hash") items = map VStr hashes.
Proof.
  revert expected next hashes. induction items as [|item items IH]; intros expected next hashes H; cbn [check_incidents] in H.
  - injection H as <- <-. cbn. split; [lia | done].
  - apply bind_ok in H as (u & _ & H). apply bind_ok in H as (h & Hh & H). apply bind_ok in H as ([n hs] & Hr & H).
    injection H as <- <-. apply IH in Hr as [-> Hr]. cbn [map List.length]. split; [lia|]. rewrite Hr. f_equal.
    unfold _hash in Hh. destruct (vget item "incident_hash"); try done. destruct (sha256_ref s); [|done]. by injection Hh as ->.
Qed.

(** ** One advance *)

(** The next ledger, of the prior and the members added. *)
Definition next_ledger (prior : dict) (incidents requests classifications : list dict)
    (counters runtime evaluator resources : dict) : dict :=
  hashed (ledger_body (vget prior "config_hash")
    (next_of prior "next_incident_sequence" + Z.of_nat (List.length incidents))
    (next_of prior "next_request_sequence" + Z.of_nat (List.length requests))
    (next_of prior "next_classification_sequence" + Z.of_nat (List.length classifications))
    (seq_items (vget prior "incident_hashes") ++ fields_of "incident_hash" incidents)
    (seq_items (vget prior "classification_hashes") ++ fields_of "classification_hash" classifications)
    (seq_items (vget prior "attempted_request_hashes") ++ fields_of "attempted_request_hash" requests)
    counters (dict_or_empty (vget prior "authority_counters")) runtime evaluator resources (vget prior "ledger_hash")).

Record advance_facts (prior : dict) (expected : string) (incidents requests classifications : list dict) (l : dict) : Prop := {
  af_prior : validate_standalone (VDict prior) = Ok tt;
  af_cas : vget prior "ledger_hash" = VStr expected;
  af_requests : Forall (fun r => validate_evidence_request (VDict r) = Ok tt) requests;
  af_classifications : Forall (fun c => validate_classification_record (VDict c) None = Ok tt) classifications;
  af_ledger : exists counters runtime evaluator resources,
    l = next_ledger prior incidents requests classifications counters runtime evaluator resources;
  af_fields : exists fs, validate_fields l = Ok fs
}.

Lemma ledger_advance_ok prior expected incidents requests classifications c r e s l :
  advance_investigation_ledger prior expected incidents requests classifications c r e s = Ok l ->
  exists ins rs cs, incidents = map VDict ins /\ requests = map VDict rs /\ classifications = map VDict cs /\
    advance_facts prior expected ins rs cs l.
Proof.
  unfold advance_investigation_ledger, le_ensure. intros H.
  apply bind_ok in H as ([] & Hprior & H). apply bind_ok in H as (u & Hcas & H).
  apply bind_ok in H as (ins & Hi & H). apply bind_ok in H as (rs & Hr & H). apply bind_ok in H as (cs & Hc & H).
  apply bind_ok in H as ([] & Hvr & H). apply bind_ok in H as ([] & Hvc & H).
  apply bind_ok in H as (nr & Hnr & H). apply bind_ok in H as (nc & Hnc & H). apply bind_ok in H as ([ni hi] & Hni & H).
  do 2 (apply bind_ok in H as (? & _ & H)).
  apply bind_ok in H as (counters & _ & H). apply bind_ok in H as (runtime & _ & H).
  apply bind_ok in H as (evaluator & _ & H). apply bind_ok in H as (resources & _ & H).
  apply bind_ok in H as ([] & Hv & H). apply (inj Ok) in H.
  apply ensure_ok, py_eq_str in Hcas. apply mapM_mapping_ok in Hi, Hr, Hc.
  apply check_sequence_ok in Hnr, Hnc. apply check_incidents_ok in Hni as [-> Hhi]. rewrite Hnr, Hnc, <- Hhi in *.
  exists ins, rs, cs. split; [done|]. split; [done|]. split; [done|]. split; [done | done | | | |].
  - by apply iterM_ok.
  - by apply iterM_ok.
  - exists counters, runtime, evaluator, resources. by symmetry.
  - rewrite <- H. unfold validate_successor in Hv. cbn [_mapping bind] in Hv. apply bind_ok in Hv as (fs & Hf & _). eauto.
Qed.

Section NextLedger.
Context (prior : dict) (incidents requests classifications : list dict) (counters runtime evaluator resources : dict).
Notation l := (next_ledger prior incidents requests classifications counters runtime evaluator resources).

Lemma next_previous : vget l "previous_ledger_hash" = vget prior "ledger_hash".
Proof. reflexivity. Qed.

Lemma next_config : vget l "config_hash" = vget prior "config_hash".
Proof. reflexivity. Qed.

Lemma next_incidents : hashes_of l "incident_hashes" =
  hashes_of prior "incident_hashes" ++ strings_of (fields_of "incident_hash" incidents).
Proof. unfold hashes_of. rewrite <- strings_of_app. reflexivity. Qed.

Lemma next_classifications : hashes_of l "classification_hashes" =
  hashes_of prior "classification_hashes" ++ strings_of (fields_of "classification_hash" classifications).
Proof. unfold hashes_of. rewrite <- strings_of_app. reflexivity. Qed.

Lemma next_attempts : hashes_of l "attempted_request_hashes" =
  hashes_of prior "attempted_request_hashes" ++ strings_of (fields_of "attempted_request_hash" requests).
Proof. unfold hashes_of. rewrite <- strings_of_app. reflexivity. Qed.

Lemma next_self_hash : vget l "ledger_hash" = VStr (ledger_hash_of l).
Proof. reflexivity. Qed.

Lemma next_sequences : standalone prior ->
  vget l "next_incident_sequence" = VInt (Z.of_nat (List.length (hashes_of l "incident_hashes")) + 1) /\
  vget l "next_request_sequence" = VInt (Z.of_nat (List.length (hashes_of l "attempted_request_hashes")) + 1) /\
  vget l "next_classification_sequence" = VInt (Z.of_nat (List.length (hashes_of l "classification_hashes")) + 1).
Proof.
  intros [Hi Hr Hc _ _]. rewrite next_incidents, next_attempts, next_classifications.
  unfold strings_of, fields_of. rewrite !length_app, !length_map.
  assert (Hn : forall f n, vget prior f = VInt n -> next_of prior f = n) by (unfold next_of; by intros f n ->).
  split_and!.
  - transitivity (VInt (next_of prior "next_incident_sequence" + Z.of_nat (List.length incidents))); [reflexivity|].
    rewrite (Hn _ _ Hi). f_equal. lia.
  - transitivity (VInt (next_of prior "next_request_sequence" + Z.of_nat (List.length requests))); [reflexivity|].
    rewrite (Hn _ _ Hr). f_equal. lia.
  - transitivity (VInt (next_of prior "next_classification_sequence" + Z.of_nat (List.length classifications))); [reflexivity|].
    rewrite (Hn _ _ Hc). f_equal. lia.
Qed.
End NextLedger.

(** Everything a ledger lists. *)
Definition members (ledger : dict) : list string :=
  hashes_of ledger "incident_hashes" ++ hashes_of ledger "classification_hashes" ++
  hashes_of ledger "attempted_request_hashes".

(** C19: the ledger is append-only and its update is compare-and-set.  An
    advance that returns was made on a ledger with the hash the caller
    expected, which is intact; the new ledger names that hash as its
    predecessor, keeps the configuration, and lists what the prior one listed
    followed by the incidents, request attempts and classifications given;
    none is listed twice, each sequence number is one more than the number of
    members, and the requests and classifications are valid records. *)
Theorem advance_appends_to_the_expected_ledger prior expected incidents requests classifications c r e s l :
  advance_investigation_ledger prior expected incidents requests classifications c r e s = Ok l ->
  expected = ledger_hash_of prior /\ vget l "previous_ledger_hash" = VStr expected /\
  vget l "config_hash" = vget prior "config_hash" /\ vget l "ledger_hash" = VStr (ledger_hash_of l) /\
  (exists ins rs cs, incidents = map VDict ins /\ requests = map VDict rs /\ classifications = map VDict cs /\
    hashes_of l "incident_hashes" = hashes_of prior "incident_hashes" ++ strings_of (fields_of "incident_hash" ins) /\
    hashes_of l "attempted_request_hashes" =
      hashes_of prior "attempted_request_hashes" ++ strings_of (fields_of "attempted_request_hash" rs) /\
    hashes_of l "classification_hashes" =
      hashes_of prior "classification_hashes" ++ strings_of (fields_of "classification_hash" cs) /\
    Forall (fun r => validate_evidence_request (VDict r) = Ok tt) rs /\
    Forall (fun c => validate_classification_record (VDict c) None = Ok tt) cs) /\
  Forall (fun p => NoDup (hashes_of l p.1) /\ vget l p.2 = VInt (Z.of_nat (List.length (hashes_of l p.1)) + 1))
    [("incident_hashes", "next_incident_sequence"); ("attempted_request_hashes", "next_request_sequence");
     ("classification_hashes", "next_classification_sequence")].
Proof.
  intros H. apply ledger_advance_ok in H as (ins & rs & cs & -> & -> & -> & [Hp Hcas Hr Hc (co & ru & ev & re & Hl) ([[i cc] a] & Hf)]).
  apply standalone_ok in Hp. pose proof (sa_hash _ Hp) as Hh. rewrite Hcas in Hh. injection Hh as Hh.
  apply validate_fields_ok in Hf as (<- & <- & <- & Hni & Hnc & Hna & _). rewrite Hl in *.
  destruct (next_sequences prior ins rs cs co ru ev re Hp) as (Hs1 & Hs2 & Hs3). split_and!; [done | | done | done | |].
  - rewrite next_previous. done.
  - exists ins, rs, cs. by rewrite next_incidents, next_attempts, next_classifications.
  - repeat constructor; done.
Qed.

Lemma previous_of_next prior ins rs cs co ru ev re h : vget prior "ledger_hash" = VStr h ->
  is_none (vget (next_ledger prior ins rs cs co ru ev re) "previous_ledger_hash") = false.
Proof. intros H. by rewrite next_previous, H. Qed.

(** ** A ledger read back from its file *)

Lemma image_str s : json_image (VStr s) = VStr s.
Proof. reflexivity. Qed.

Lemma hash_list_image value field : hash_list (dict_image value) field = hash_list value field.
Proof.
  unfold hash_list, _sequence. rewrite vget_image, as_seq_image. destruct (as_seq (vget value field)) as [l|]; [|done].
  cbn [option_map bind]. unfold _hashes. by rewrite mapM_hash_image.
Qed.

Lemma integer_map_ok err value field : (exists m, _integer_map err value field = Ok m) <->
  Forall (fun item => negb (is_empty item.1) && nonneg item.2 = true) value.
Proof.
  unfold _integer_map, check_count, ck_ensure. split.
  - intros (m & H). apply bind_ok in H as ([] & H & _). apply iterM_ok in H. eapply Forall_impl; [exact H|].
    intros item Hi. by apply ensure_ok in Hi.
  - intros H. exists (sort_items value). apply (bind_run _ _ tt); [|done]. apply iterM_ok.
    eapply Forall_impl; [exact H|]. intros item Hi. by apply ensure_run.
Qed.

Lemma zero_map_ok err value field : (exists m, _zero_map err value field = Ok m) <->
  Forall (fun item => negb (is_empty item.1) && nonneg item.2 = true) value /\
  Forall (fun item => truthy item.2 = false) value.
Proof.
  unfold _zero_map, ck_ensure. rewrite <- (integer_map_ok err value field).
  assert (Hs : forall m, _integer_map err value field = Ok m -> m = sort_items value).
  { unfold _integer_map. intros m H. by apply bind_ok in H as (u & _ & [= <-]). }
  assert (Hf : forallb (fun item : string * val => negb (truthy item.2)) (sort_items value) = true <->
    Forall (fun item => truthy item.2 = false) value).
  { rewrite forallb_forall, List.Forall_forall. unfold sort_items. split; intros H item Hi.
    - by apply negb_true_iff, H, in_isort.
    - apply negb_true_iff, H. by apply in_isort in Hi. }
  split.
  - intros (m & H). apply bind_ok in H as (m' & Hm & H). apply bind_ok in H as (u & Hu & _). apply ensure_ok in Hu.
    pose proof (Hs _ Hm) as ->. split; [eauto | by apply Hf].
  - intros [(m & Hm) H]. pose proof (Hs _ Hm) as ->. exists (sort_items value). rewrite Hm. cbn [bind].
    by rewrite (proj2 Hf H).
Qed.

Lemma int_is_image v z : int_is (json_image v) z = int_is v z.
Proof. by destruct v. Qed.

Lemma count_map_image check value field :
  (forall d, (exists m, check d field = Ok m) -> exists m, check (dict_image d) field = Ok m) ->
  count_map check value field = Ok tt -> count_map check (dict_image value) field = Ok tt.
Proof.
  unfold count_map. intros Hc H. apply bind_ok in H as (d & Hd & H). apply bind_ok in H as (m & Hm & _).
  rewrite vget_image. unfold _mapping in *. destruct (vget value field) as [| | | | | | |d']; try done. injection Hd as ->.
  rewrite json_image_dict. cbn [bind]. destruct (Hc d) as (m' & ->); [by exists m | done].
Qed.

Lemma integer_map_image err d field : (exists m, _integer_map err d field = Ok m) ->
  exists m, _integer_map err (dict_image d) field = Ok m.
Proof.
  rewrite !integer_map_ok. apply (image_items (fun item => negb (is_empty item.1) && nonneg item.2 = true)).
  by intros k [].
Qed.

Lemma zero_map_image err d field : (exists m, _zero_map err d field = Ok m) ->
  exists m, _zero_map err (dict_image d) field = Ok m.
Proof.
  rewrite !zero_map_ok. intros [H1 H2].
  assert (Hb : Forall (fun item => (negb (is_empty item.1) && nonneg item.2 = true) /\ truthy item.2 = false) d).
  { by apply Forall_and. }
  apply (image_items (fun item => (negb (is_empty item.1) && nonneg item.2 = true) /\ truthy item.2 = false)) in Hb;
    [|intros k v [H3 H4]; destruct v; try (by split); cbn in H3; by rewrite andb_false_r in H3]. by apply Forall_and in Hb.
Qed.

Lemma validate_fields_image value fs : validate_fields value = Ok fs -> validate_fields (dict_image value) = Ok fs.
Proof.
  unfold validate_fields, le_ensure. rewrite same_keys_image, !vget_image, py_eq_str_image, hash_image, !hash_list_image.
  intros H. apply bind_ok in H as (u1 & -> & H). cbn [bind]. apply bind_ok in H as (u2 & -> & H). cbn [bind].
  apply bind_ok in H as ([] & Hp & H).
  eapply (iterM_impl _ (fun field => let! _ := _positive_int LE (vget (dict_image value) field) field in Ok tt)) in Hp
    as ->; [cbn [bind] | intros field Hf; by rewrite vget_image, positive_image].
  apply bind_ok in H as (i & -> & H). cbn [bind]. apply bind_ok in H as (c & -> & H). cbn [bind].
  apply bind_ok in H as (a & -> & H). cbn [bind]. apply bind_ok in H as ([] & Hm & H).
  rewrite (iterM_impl _ (count_map (_integer_map LE) (dict_image value)) _
             (fun field => count_map_image _ _ _ (fun d => integer_map_image LE d field)) Hm). cbn [bind].
  apply bind_ok in H as ([] & Hz & H).
  rewrite (count_map_image _ _ _ (fun d => zero_map_image LE d "authority_counters") Hz). cbn [bind].
  destruct (vget value "previous_ledger_hash"); exact H.
Qed.

(** Validation does not see whether a ledger was written and read back. *)
Lemma standalone_image l fs : validate_fields l = Ok fs ->
  validate_standalone (VDict (dict_image l)) = validate_standalone (VDict l).
Proof.
  unfold validate_standalone. cbn [_mapping bind]. destruct fs as [[i c] a]. intros Hf.
  rewrite (validate_fields_image _ _ Hf), Hf. cbn [bind]. unfold length_is in *.
  rewrite !vget_image, !int_is_image, is_none_image.
  unfold check_self_hash, ledger_hash_of. by rewrite vget_image, py_eq_str_image, stable_hash_without_image.
Qed.

(** A ledger just advanced is a valid one when it lists something. *)
Lemma advanced_validation prior expected incidents requests classifications c r e s l :
  advance_investigation_ledger prior expected incidents requests classifications c r e s = Ok l ->
  validate_standalone (VDict (dict_image l)) = validate_standalone (VDict l) /\
  validate_standalone (VDict l) =
    match members l with [] => Raise (P137LedgerError "standalone_ledger_predecessor_mismatch") | _ => Ok tt end.
Proof.
  intros H. apply ledger_advance_ok in H as (ins & rs & cs & _ & _ & _ & [Hp Hcas _ _ (co & ru & ev & re & Hl) ([[i cc] a] & Hf)]).
  apply standalone_ok in Hp. split; [by eapply standalone_image|].
  unfold validate_standalone. cbn [_mapping bind]. rewrite Hf. cbn [bind].
  apply validate_fields_ok in Hf as (Hi & Hc & Ha & _).
  destruct (next_sequences prior ins rs cs co ru ev re Hp) as (Hs1 & Hs2 & Hs3). rewrite <- Hl in Hs1, Hs2, Hs3.
  unfold members. rewrite Hi, Hc, Ha in *. rewrite !(proj2 (length_is_ok _ _ _ Hs1)), !(proj2 (length_is_ok _ _ _ Hs2)),
    !(proj2 (length_is_ok _ _ _ Hs3)) by done. cbn [andb]. unfold le_ensure at 1. cbn [ensure bind].
  replace (is_none (vget l "previous_ledger_hash")) with false
    by (rewrite Hl; symmetry; by apply (previous_of_next prior ins rs cs co ru ev re expected)).
  cbn [negb].
  assert (Hh : check_self_hash l = Ok tt) by (unfold check_self_hash, le_ensure; apply ensure_ok, py_eq_str; by rewrite Hl).
  destruct i, cc, a; exact Hh || reflexivity.
Qed.

(** Which ledgers can be advanced again.  The ledger an advance returns
    is accepted by the next call, also when it was written and read back,
    exactly when it lists something.  A ledger
    that lists nothing, which an advance of a new ledger by no members
    returns, is refused by validation and by every further advance. *)
Theorem advanced_ledger_is_accepted_iff prior expected incidents requests classifications c r e s l :
  advance_investigation_ledger prior expected incidents requests classifications c r e s = Ok l ->
  (members l <> [] ->
     validate_standalone (VDict l) = Ok tt /\ validate_standalone (VDict (dict_image l)) = Ok tt) /\
  (members l = [] ->
     validate_standalone (VDict l) = Raise (P137LedgerError "standalone_ledger_predecessor_mismatch") /\
     forall expected incidents requests classifications c r e s,
       advance_investigation_ledger l expected incidents requests classifications c r e s =
       Raise (P137LedgerError "standalone_ledger_predecessor_mismatch")).
Proof.
  intros H. apply advanced_validation in H as [Hi Hv]. rewrite Hi. destruct (members l) as [|x m]; split; try done; intros _.
  split; [exact Hv|]. intros. unfold advance_investigation_ledger. by rewrite Hv.
Qed.
