(* ===== verification/P137LabelProps.v ===== *)
(** * From the ranking to the label

    How the label the classification module derives relates to the votes of
    the ranking it is given. *)

From stdpp Require Import sorting.
From S2P Require Import Prelude PyValue PyChecks Sha PyTime Json P137Checks P137Classification P137Hypotheses P137HypothesesProps.

#[local] Opaque stable_hash short_hash _edge _missing.

(** ** Sorting *)

Lemma insert_map {A B} (f : A -> B) (leb : B -> B -> bool) x l :
  map f (insert (fun a b => leb (f a) (f b)) x l) = insert leb (f x) (map f l).
Proof. induction l as [|y l IH]; cbn; [done|]. destruct (leb (f x) (f y)); cbn; [done | by rewrite IH]. Qed.

Lemma isort_map {A B} (f : A -> B) (leb : B -> B -> bool) l :
  map f (isort (fun a b => leb (f a) (f b)) l) = isort leb (map f l).
Proof. induction l as [|x l IH]; cbn; [done|]. by rewrite insert_map, IH. Qed.

(** The strongest of a list, when it is first and stronger than the others. *)
Lemma sort_descending_head {A} (key : A -> list Z * string) x l :
  Forall (fun y => tuple_leb (key x).1 (key y).1 = false) l ->
  exists l', sort_descending key (x :: l) = x :: l'.
Proof.
  intros H. unfold sort_descending. cbn [isort]. set (s := isort _ l).
  assert (Hs : Forall (fun y => tuple_leb (key x).1 (key y).1 = false) s).
  { rewrite List.Forall_forall in H |- *. intros y Hy. apply H. by apply in_isort in Hy. }
  destruct s as [|y s]; [by exists []|]. cbn [insert]. apply Forall_cons in Hs as [Hy _].
  assert (Hle : order_leb (key y) (key x) = true) by (unfold order_leb; by rewrite Hy). rewrite Hle. by exists (y :: s).
Qed.

(** ** The hypotheses of a ranking *)

(** A hypothesis of a ranking: built from an atom and given its rank. *)
Definition ranked (h : dict) : Prop :=
  exists atom now window st e s h0 r, classified atom /\ built atom now window st e s h0 /\ h = set_rank r h0.

Lemma number_ranks_Forall (P Q : dict -> Prop) r l : (forall r h, P h -> Q (set_rank r h)) ->
  Forall P l -> Forall Q (number_ranks r l).
Proof. intros H Hl. revert r. induction Hl; intros r; constructor; auto. Qed.

Lemma ranked_hypotheses_ranked incident atoms now o hs :
  ranked_hypotheses incident atoms now o = Ok hs -> Forall ranked hs.
Proof.
  intros H. apply ranked_ok in H as (limits & raw & _ & Ha & Hb & ->). apply build_hypotheses_ok in Hb.
  apply (number_ranks_Forall (fun h => exists atom st e s, classified atom /\
           built atom now (limit limits "correlation_window_seconds") st e s h)).
  { intros r h (atom & st & e & s & Hc & B). exists atom, now, (limit limits "correlation_window_seconds"), st, e, s, h, r. done. }
  assert (Hc : Forall classified (by_hash atoms)).
  { rewrite List.Forall_forall. intros a Hin. apply in_isort in Hin. apply mapM_ok in Ha.
    assert (Hall : forall l l', Forall2 (fun x y => _validate_atom x = Ok y) l l' -> Forall classified l).
    { induction 1 as [|x y l l' Hx _ IH]; constructor; [|done]. by apply validate_atom_ok in Hx as [_ ?]. }
    apply Hall in Ha. rewrite List.Forall_forall in Ha. auto. }
  assert (Hr : Forall (fun h => exists atom st e s, classified atom /\
           built atom now (limit limits "correlation_window_seconds") st e s h) raw).
  { revert Hc. induction Hb as [|a h l raw (st & e & s & B) _ IH]; intros Hc; constructor;
      apply Forall_cons in Hc as [? ?]; [|auto]. by exists a, st, e, s. }
  unfold best_first, sort_descending. by rewrite isort_perm.
Qed.

Section Ranked.
Context (h : dict) (Hh : ranked h).

Lemma ranked_order : _hypothesis_order h = Ok (sort_key h).
Proof.
  destruct Hh as (atom & now & window & st & e & s & h0 & r & _ & B & Heq).
  destruct (built_fields _ _ _ _ _ _ _ B) as (_ & _ & _ & Hs & _).
  assert (Hs' : vget h "score" = VDict (score_to_dict s)) by (rewrite Heq, vget_set_rank by discriminate; exact Hs).
  unfold _hypothesis_order, sort_key, _semantic_tuple. rewrite Hs'. cbn [_mapping bind].
  destruct (score_fields _ _ Hs') as (-> & -> & -> & -> & -> & ->).
  change (score_int (score_to_dict s) "rank_score") with (Ok (rank_score s)).
  change (score_int (score_to_dict s) "support_weight") with (Ok (support_weight s)).
  change (score_int (score_to_dict s) "contradiction_weight") with (Ok (contradiction_weight s)).
  change (score_int (score_to_dict s) "missing_required_count") with (Ok (missing_required_count s)).
  change (score_int (score_to_dict s) "freshness_weight") with (Ok (freshness_weight s)).
  change (score_int (score_to_dict s) "source_diversity_weight") with (Ok (source_diversity_weight s)).
  cbn [bind]. do 3 f_equal. rewrite Heq. unfold hypothesis_hash_of, vget_or, vget, set_rank, rehash.
  by rewrite dget_dset.
Qed.
End Ranked.

(** Does a decisive edge contradict the hypothesis? *)
Definition contradicted (h : dict) : bool :=
  existsb (fun edge => py_eq (vget (dict_or_empty edge) "relation") (VStr "contradicts_decisive"))
    (P137Hypotheses.edges_of h "contradictions").

Lemma any_blocking_missing missing :
  (missing = [] \/ exists atom need why relation, missing = [_missing atom need why relation]) ->
  any_blocking (map VDict missing) = Ok (existsb (fun item => truthy (vget item "blocking")) missing).
Proof.
  intros [->|(atom & need & why & relation & ->)]; [done|]. cbn [map existsb any_blocking _mapping bind].
  rewrite blocking_missing. assert (Hb : vget (_missing atom need why relation) "blocking" = VBool true) by reflexivity.
  by rewrite Hb.
Qed.

Lemma dicts_relation relation l :
  existsb (fun edge => py_eq (vget (dict_or_empty edge) "relation") (VStr relation)) (map VDict l) = relates relation l.
Proof. unfold relates. induction l as [|d l IH]; cbn; [done|]. by rewrite IH. Qed.

(** The label of a ranked hypothesis is its vote, unless it is contradicted. *)
Lemma ranked_label h : ranked h -> label_of h = Ok (if contradicted h then "insufficient_evidence" else vote h).
Proof.
  intros (atom & now & window & st & e & s & h0 & r & Hc & B & Heq).
  destruct (built_fields _ _ _ _ _ _ _ B) as (Hv & Hcat & _ & _ & Hsup & Hcon & Hmis).
  assert (Hf : forall k, k <> "rank" -> k <> "hypothesis_hash" -> vget h k = vget h0 k)
    by (intros; rewrite Heq; by apply vget_set_rank).
  assert (Hcat' : vget h0 "category" = VStr st.2).
  { destruct B. by rewrite vget_rehash by discriminate. }
  assert (He : _edges atom = Ok e) by by destruct B.
  destruct (edges_eq _ _ He) as (_ & _ & Hm).
  unfold label_of, P137Classification.edges_of, contradicted, P137Hypotheses.edges_of, vote.
  rewrite !Hf by discriminate. rewrite Hsup, Hcon, Hmis, Hcat'. cbn [vdicts _sequence as_seq bind].
  rewrite any_blocking_missing by (destruct Hm as [[-> _]|[_ (n & w & rl & ->)]]; [by left | right; eauto]).
  cbn [bind]. rewrite !mapM_mapping. cbn [bind]. rewrite dicts_relation.
  fold (vote h0). rewrite Hv. unfold _vote. change (py_eq (VStr st.2) (VStr "benign_pattern")) with (st.2 =s "benign_pattern").
  change (has_relation "contradicts_decisive" (e_contradictions e)) with (relates "contradicts_decisive" (e_contradictions e)).
  change (has_relation "supports_primary" (e_support e)) with (relates "supports_primary" (e_support e)).
  change (has_relation "supports_benign" (e_support e)) with (relates "supports_benign" (e_support e)).
  destruct (existsb (fun item => truthy (vget item "blocking")) (e_missing e)), (relates "contradicts_decisive" (e_contradictions e)),
    (st.2 =s "benign_pattern"), (relates "supports_primary" (e_support e)), (relates "supports_benign" (e_support e)); reflexivity.
Qed.

(** A contradicted hypothesis votes [benign_anomaly] or for nothing. *)
Lemma contradicted_vote h : ranked h -> contradicted h = true ->
  vote h = "benign_anomaly" \/ vote h = "insufficient_evidence".
Proof.
  intros (atom & now & window & st & e & s & h0 & r & _ & B & ->) Hct.
  destruct (built_fields _ _ _ _ _ _ _ B) as (Hv & _ & _ & _ & _ & Hcon & _).
  unfold contradicted, P137Hypotheses.edges_of in Hct. rewrite vget_set_rank, Hcon in Hct by discriminate.
  cbn [vdicts] in Hct. rewrite dicts_relation in Hct.
  unfold vote. rewrite vget_set_rank by discriminate. fold (vote h0). rewrite Hv. unfold _vote.
  change (has_relation "contradicts_decisive" (e_contradictions e)) with (relates "contradicts_decisive" (e_contradictions e)).
  rewrite Hct. destruct ((st.2 =s "benign_pattern") && _ && _); [by left|]. cbn [negb]. rewrite andb_false_r. by right.
Qed.

Lemma ties_alone top rest : Forall ranked (top :: rest) ->
  StronglySorted ranked_above (map _semantic_tuple (top :: rest)) ->
  Z.of_nat (List.length (_top_semantic_ties (top :: rest))) <= 1 ->
  Forall (fun y => tuple_leb (_semantic_tuple top) (_semantic_tuple y) = false) rest.
Proof.
  intros _ Hs Hlen. cbn [map] in Hs. inversion Hs as [|? ? _ Hall]; subst.
  rewrite List.Forall_forall in Hall |- *. intros y Hy.
  assert (Hle : tuple_leb (_semantic_tuple y) (_semantic_tuple top) = true) by (apply Hall, in_map_iff; eauto).
  destruct (tuple_leb (_semantic_tuple top) (_semantic_tuple y)) eqn:E; [|done]. exfalso.
  unfold _top_semantic_ties in Hlen. cbn [List.filter] in Hlen.
  assert (Hr : tuple_eqb (_semantic_tuple top) (_semantic_tuple top) = true) by (by apply tuple_eqb_eq).
  rewrite Hr in Hlen. cbn [List.length] in Hlen.
  assert (Hin : In y (List.filter (fun h => tuple_eqb (_semantic_tuple h) (_semantic_tuple top)) rest)).
  { apply filter_In. split; [done|]. unfold tuple_eqb. by rewrite Hle, E. }
  destruct (List.filter _ rest); [done | cbn [List.length] in Hlen; lia].
Qed.

Lemma strongest_is_top top rest : Forall ranked (top :: rest) ->
  Forall (fun y => tuple_leb (_semantic_tuple top) (_semantic_tuple y) = false) rest ->
  exists others, strongest_first (top :: rest) = Ok (top :: others).
Proof.
  intros Hr Hs. unfold strongest_first.
  assert (Hk : mapM (fun h => let! key := _hypothesis_order h in Ok (key, h)) (top :: rest) =
               Ok (map (fun h => (sort_key h, h)) (top :: rest))).
  { clear Hs. induction Hr as [|h l Hh _ IH]; [done|]. cbn [mapM map]. rewrite (ranked_order h Hh). cbn [bind]. by rewrite IH. }
  rewrite Hk. cbn [bind map].
  destruct (sort_descending_head fst (sort_key top, top) (map (fun h => (sort_key h, h)) rest)) as (l' & Hl).
  { apply List.Forall_map. exact Hs. }
  rewrite Hl. by exists (map snd l').
Qed.

(** Are there several hypotheses with the best score? *)
Definition tied (hs : list dict) : bool := 1 <? Z.of_nat (List.length (_top_semantic_ties hs)).

(** C26: the label never goes beyond the ranking.  The label derived from a
    ranking exists; it is [insufficient_evidence] when several hypotheses
    share the best score or a decisive edge contradicts the best one, and its
    vote otherwise; and it is the ranking's own classification, except that
    it is [insufficient_evidence] for a benign pattern that is contradicted
    and for tied hypotheses that make the same statement. *)
Theorem derived_label_refines_the_ranking incident atoms now o hs w c :
  ranked_hypotheses incident atoms now o = Ok hs ->
  exists label, derive_classification hs true (tied hs) None w c = Ok (Some label) /\
    label = match hs with
            | [] => "insufficient_evidence"
            | top :: _ => if tied hs || contradicted top then "insufficient_evidence" else vote top
            end /\
    (label = _classification hs (_top_semantic_ties hs) \/
     label = "insufficient_evidence" /\
     (tied hs = true \/ exists top rest, hs = top :: rest /\ contradicted top = true /\ vote top = "benign_anomaly")).
Proof.
  intros H. pose proof (ranked_hypotheses_ranked _ _ _ _ _ H) as Hr.
  assert (Hs : StronglySorted ranked_above (map _semantic_tuple hs)).
  { apply ranked_ok in H as (limits & raw & _ & _ & _ & ->).
    rewrite (number_ranks_map _semantic_tuple) by apply semantic_set_rank. apply best_first_sorted. }
  destruct hs as [|top rest]; [exists "insufficient_evidence"; split_and!; [done | done | by left]|].
  unfold derive_classification. cbn [negb]. destruct (tied (top :: rest)) eqn:Ht.
  { exists "insufficient_evidence". split_and!; [done | done | right; split; [done | by left]]. }
  assert (Hlen : Z.of_nat (List.length (_top_semantic_ties (top :: rest))) <= 1) by (unfold tied in Ht; bools; lia).
  destruct (strongest_is_top top rest Hr (ties_alone top rest Hr Hs Hlen)) as (others & ->). cbn [bind].
  apply Forall_cons in Hr as [Htop _]. rewrite (ranked_label top Htop). cbn [bind orb].
  eexists. split; [reflexivity|]. split; [reflexivity|].
  assert (Hcls : _classification (top :: rest) (_top_semantic_ties (top :: rest)) = vote top).
  { unfold _classification. unfold tied in Ht. by rewrite Ht. }
  rewrite Hcls. destruct (contradicted top) eqn:Hct; [|by left].
  destruct (contradicted_vote top Htop Hct) as [Hv|Hv]; [|by left].
  right. split; [done|]. right. by exists top, rest.
Qed.
