(* ===== verification/P137Durable.v ===== *)
(** * The durable state of the triage

    Models the checks app/services/p137_runtime.py makes on what it finds on
    disk: the lineage of checkpoint and ledger, the sequence of the handoff,
    and the records of the journal, each against the others.  A record read
    from a file is a dictionary; a map from hashes to records is an
    association list. *)

From S2P Require Import Prelude PyValue PyChecks Sha P137Checks.
From S2P Require P137Contracts P137Requests P137Classification.

Definition EVIDENCE_ATOM_SCHEMA_VERSION : string := P137Contracts.EVIDENCE_ATOM_SCHEMA_VERSION.
Definition INTENT_SCHEMA_VERSION : string := "p137.ingest_intent.v1".
Definition CHECKPOINT_SCHEMA_VERSION : string := "p137.checkpoint.v1".

Definition P137RuntimeError (msg : string) : exn := Exn "P137RuntimeError" msg.
Notation UE := P137RuntimeError.
Definition rt_ensure (b : bool) (msg : string) : res unit := ensure b (UE msg).

(** The classes of the triage's services are subclasses of [ValueError]. *)
Definition is_value_error (e : exn) : bool :=
  mem (exn_class e)
    ["ValueError"; "P137RuntimeError"; "P137ContractError"; "P137CorrelationError"; "P137HypothesisError";
     "P137RequestError"; "P137ClassificationError"; "P137LedgerError"; "P137HandoffError"; "P136ObservationError"].

(** ** Single values *)

Notation mapping := (P137Checks._mapping UE).
Notation positive_int := (P137Checks._positive_int UE).

Definition _sequence (v : val) (label : string) : res (list val) :=
  match v with
  | VNone => Ok []
  | _ => match as_seq v with Some l => Ok l | None => Raise (UE ("invalid_" +:+ label)) end
  end.

Definition hash_text (s : string) : bool := startswith "sha256:" s && (String.length s =? 71)%nat.

Definition _hash (v : val) (label : string) : res string :=
  match v with
  | VStr s => if hash_text s then Ok s else Raise (UE ("invalid_" +:+ label))
  | _ => Raise (UE ("invalid_" +:+ label))
  end.

(** [{_hash(item, label) for item in _sequence(value, field)}] *)
Definition hash_set (v : val) (field label : string) : res (list string) :=
  let! items := _sequence v field in
  let! hashes := mapM (fun item => _hash item label) items in
  Ok (remove_dups hashes).

Definition subset (a b : list string) : bool := forallb (fun x => mem x b) a.

(** [value in items], of a list *)
Definition in_list (v : val) (items : list val) : bool := existsb (py_eq v) items.

Definition _self_hash (value : dict) (hash_field : string) : string := stable_hash (VDict (dwithout [hash_field] value)).

(** [records.get(key)] *)
Definition find_by (records : list (string * dict)) (key : val) : res (option dict) :=
  if hashable key then Ok (match key with VStr s => dget records s | _ => None end)
  else Raise (Exn "TypeError" "unhashable type").

Definition _insert_unique (target : list (string * dict)) (key : string) (value : dict) (error : string)
  : res (list (string * dict)) :=
  let! _ := rt_ensure (match dget target key with
                       | Some existing => py_eq (VDict existing) (VDict value)
                       | None => true
                       end) error in
  Ok (dset target key value).

(** ** Checkpoint, ledger and handoff *)

Definition CHECKPOINT_FIELDS : list string :=
  ["schema_version"; "config_hash"; "last_accepted_bundle_sequence"; "last_accepted_bundle_hash";
   "last_accepted_ledger_hash"; "last_accepted_checkpoint_hash"; "checkpoint_hash"].

(** A JSON value that is not an object: [set(value)] may raise, or the value
    has no [get]. *)
Definition not_a_mapping (v : val) (fields : list string) (error : string) : exn :=
  match v with
  | VList l =>
      if negb (forallb hashable l) then Exn "TypeError" "unhashable type"
      else if forallb (fun x => match x with VStr s => mem s fields | _ => false end) l &&
              forallb (fun f => in_list (VStr f) l) fields
      then Exn "AttributeError" "'list' object has no attribute 'get'"
      else UE error
  | VStr _ => UE error
  | _ => Exn "TypeError" "object is not iterable"
  end.

Definition _validate_checkpoint (checkpoint : val) (config : dict) : res unit :=
  match checkpoint with
  | VDict checkpoint =>
      let! _ := rt_ensure (same_keys checkpoint CHECKPOINT_FIELDS &&
                           py_eq (vget checkpoint "schema_version") (VStr CHECKPOINT_SCHEMA_VERSION))
                  "invalid_checkpoint_fields" in
      let! _ := rt_ensure (py_eq (vget checkpoint "config_hash") (vget config "config_hash")) "checkpoint_config_mismatch" in
      let! _ := positive_int (vget checkpoint "last_accepted_bundle_sequence") "last_accepted_bundle_sequence" in
      let! _ := _hash (vget checkpoint "last_accepted_bundle_hash") "last_accepted_bundle_hash" in
      let! _ := _hash (vget checkpoint "last_accepted_ledger_hash") "last_accepted_ledger_hash" in
      let! _ := match vget checkpoint "last_accepted_checkpoint_hash" with
                | VNone => Ok ""
                | previous => _hash previous "last_accepted_checkpoint_hash"
                end in
      rt_ensure (py_eq (vget checkpoint "checkpoint_hash") (VStr (_self_hash checkpoint "checkpoint_hash"))) "checkpoint_hash_invalid"
  | other => Raise (not_a_mapping other CHECKPOINT_FIELDS "invalid_checkpoint_fields")
  end.

Definition _checkpoint (config handoff ledger : dict) (prior : option dict) : res dict :=
  let! sequence := vindex handoff "bundle_sequence" in
  let! bundle_hash := vindex handoff "bundle_hash" in
  let value : dict :=
    [("schema_version", VStr CHECKPOINT_SCHEMA_VERSION); ("config_hash", vget config "config_hash");
     ("last_accepted_bundle_sequence", sequence); ("last_accepted_bundle_hash", bundle_hash);
     ("last_accepted_ledger_hash", vget ledger "ledger_hash");
     ("last_accepted_checkpoint_hash", match prior with Some p => vget p "checkpoint_hash" | None => VNone end)] in
  Ok (value ++ [("checkpoint_hash", VStr (stable_hash (VDict value)))]).

(** Is the ledger one commit ahead of the checkpoint? *)
Definition _split_commit_pending (checkpoint ledger : option dict) : res bool :=
  match checkpoint, ledger with
  | None, None => Ok false
  | None, Some ledger =>
      let! counters := mapping (vget ledger "counters") "ledger_counters" in
      if py_eq (vget counters "cycles_completed") (VInt 1) && negb (is_none (vget ledger "previous_ledger_hash")) then Ok true
      else Raise (UE "ledger_checkpoint_lineage_mismatch")
  | Some _, None => Raise (UE "checkpoint_without_ledger")
  | Some checkpoint, Some ledger =>
      let accepted := vget checkpoint "last_accepted_ledger_hash" in
      if py_eq accepted (vget ledger "ledger_hash") then Ok false
      else if py_eq accepted (vget ledger "previous_ledger_hash") then Ok true
      else Raise (UE "ledger_checkpoint_lineage_mismatch")
  end.

(** ["accept"], ["reuse"], or why the handoff is refused. *)
Definition _check_handoff_sequence (handoff : dict) (checkpoint : option dict) (config : dict) : res string :=
  let! sequence := positive_int (vget handoff "bundle_sequence") "bundle_sequence" in
  let! bundle_hash := _hash (vget handoff "bundle_hash") "bundle_hash" in
  let! previous_hash := match vget handoff "previous_bundle_hash" with
                        | VNone => Ok None
                        | previous => let! h := _hash previous "previous_bundle_hash" in Ok (Some h)
                        end in
  if negb (py_eq (vget handoff "fixed_handoff_path") (vget config "p136_handoff_bundle_path"))
  then Ok "fixed_handoff_path_mismatch"
  else if negb (py_eq (vget handoff "handoff_chain_root_hash") (vget config "p136_handoff_chain_root_hash"))
  then Ok "handoff_chain_root_mismatch"
  else match checkpoint with
  | None =>
      Ok (if negb (sequence =? 1) || bool_decide (previous_hash <> None) then "handoff_genesis_sequence_invalid" else "accept")
  | Some checkpoint =>
      let! last_sequence := positive_int (vget checkpoint "last_accepted_bundle_sequence") "last_accepted_bundle_sequence" in
      let! last_hash := _hash (vget checkpoint "last_accepted_bundle_hash") "last_accepted_bundle_hash" in
      Ok (if sequence <? last_sequence then "p136_handoff_sequence_rollback"
          else if sequence =? last_sequence
          then (if bundle_hash =s last_hash then "reuse" else "p136_handoff_same_sequence_fork")
          else if negb (sequence =? last_sequence + 1) then "handoff_sequence_gap"
          else if negb (bool_decide (previous_hash = Some last_hash)) then "p136_handoff_previous_hash_discontinuity"
          else "accept")
  end.

(** ** Intents *)

Definition INTENT_FIELDS : list string :=
  ["schema_version"; "config_hash"; "created_at"; "bundle_sequence"; "bundle_hash"; "handoff_bytes_hash"; "intent_hash"].

(** [hashlib.sha256(handoff_bytes)]: a byte is a character. *)
Definition bytes_of (s : string) : list Z := map (fun c => Z.of_N (code c)) (list_ascii_of_string s).

Definition _intent (config : dict) (now : string) (handoff : dict) (handoff_bytes : string) : res dict :=
  let! sequence := vindex handoff "bundle_sequence" in
  let! bundle_hash := vindex handoff "bundle_hash" in
  let value : dict :=
    [("schema_version", VStr INTENT_SCHEMA_VERSION); ("config_hash", vget config "config_hash"); ("created_at", VStr now);
     ("bundle_sequence", sequence); ("bundle_hash", bundle_hash);
     ("handoff_bytes_hash", VStr ("sha256:" +:+ hexdigest (Sha256.digest (bytes_of handoff_bytes))))] in
  Ok (value ++ [("intent_hash", VStr (stable_hash (VDict value)))]).

Definition check_intent (config intent : dict) : res unit :=
  let! _ := rt_ensure (same_keys intent INTENT_FIELDS) "invalid_durable_intent_fields" in
  let! _ := rt_ensure (py_eq (vget intent "schema_version") (VStr INTENT_SCHEMA_VERSION) &&
                       py_eq (vget intent "config_hash") (vget config "config_hash")) "invalid_durable_intent" in
  rt_ensure (py_eq (vget intent "intent_hash") (VStr (_self_hash intent "intent_hash"))) "durable_intent_hash_invalid".

(** The intents of the bundle that is handed off. *)
Definition matching_intents (intents : list dict) (handoff : dict) : list dict :=
  List.filter (fun intent => py_eq (vget intent "bundle_sequence") (vget handoff "bundle_sequence") &&
                             py_eq (vget intent "bundle_hash") (vget handoff "bundle_hash")) intents.

Definition _validate_split_commit_intent (intents : list dict) (handoff : dict) (ledger : option dict) : res unit :=
  let! _ := rt_ensure (match ledger with Some _ => true | None => false end) "split_commit_ledger_missing" in
  rt_ensure (List.length (matching_intents intents handoff) =? 1)%nat "split_commit_intent_mismatch".

(** ** Atoms *)

Definition _DURABLE_ATOM_FIELDS : list string :=
  ["schema_version"; "atom_id"; "promotion_record_hash"; "promotion_key"; "p136_entry_hash"; "p135_bundle_hash";
   "source_id"; "provider"; "format"; "signal_family"; "system_id"; "entity_ref_hash"; "window"; "signal_name";
   "numeric_value"; "numeric_unit"; "evidence_state"; "severity_code"; "metric_breach_code"; "marker_code";
   "counter_signal_code"; "state_reason_codes"; "denominator_visible"; "content_hash"; "label_hashes";
   "topology_ref_hashes"; "deploy_config_ref_hashes"; "risk_flags"; "redacted_preview_hash"; "ordinal"; "atom_hash"].

Definition DURABLE_HASH_FIELDS : list string :=
  ["promotion_record_hash"; "promotion_key"; "p136_entry_hash"; "p135_bundle_hash"; "entity_ref_hash"; "content_hash";
   "redacted_preview_hash"].

Definition _validate_durable_atom (atom : dict) : res unit :=
  let! _ := rt_ensure (same_keys atom _DURABLE_ATOM_FIELDS &&
                       py_eq (vget atom "schema_version") (VStr EVIDENCE_ATOM_SCHEMA_VERSION)) "invalid_durable_atom_fields" in
  let! _ := match P137Contracts.validate_evidence_atom (VDict atom) with
            | Ok _ => Ok tt
            | Raise e => Raise (if is_value_error e then UE "invalid_durable_atom" else e)
            end in
  let! _ := _hash (vget atom "atom_hash") "atom_hash" in
  let! _ := iterM (fun field => let! _ := _hash (vget atom field) field in Ok tt) DURABLE_HASH_FIELDS in
  let! _ := iterM (fun field =>
              let! items := _sequence (vget atom field) field in
              iterM (fun item => let! _ := _hash item field in Ok tt) items)
              ["label_hashes"; "topology_ref_hashes"; "deploy_config_ref_hashes"] in
  let! window := mapping (vget atom "window") "atom_window" in
  let! _ := rt_ensure (same_keys window ["start"; "end"] && is_string (vget window "start") && is_string (vget window "end"))
              "invalid_durable_atom_window" in
  rt_ensure (positive (vget atom "ordinal")) "invalid_durable_atom_ordinal".

(** ** The order of hypotheses *)

(** [int(score.get(key, 0))] *)
Definition score_int (score : dict) (key : string) : res Z := py_int (vget_or score key (VInt 0)).

Definition _classification_semantic_tuple (value : dict) : res (list Z) :=
  let! score := mapping (vget value "score") "hypothesis_score" in
  let! rank := score_int score "rank_score" in
  let! support := score_int score "support_weight" in
  let! contradiction := score_int score "contradiction_weight" in
  let! missing := score_int score "missing_required_count" in
  let! freshness := score_int score "freshness_weight" in
  let! diversity := score_int score "source_diversity_weight" in
  Ok [rank; support; - contradiction; - missing; freshness; diversity].

(** The hash before the hypothesis was ranked breaks ties. *)
Definition _classification_hypothesis_order (value : dict) : res (list Z * string) :=
  let pre_rank_hash := _self_hash (dset value "rank" (VInt 0)) "hypothesis_hash" in
  let! tuple := _classification_semantic_tuple value in
  Ok (tuple, pre_rank_hash).

(** [sorted(hypotheses, key=_classification_hypothesis_order, reverse=True)] *)
Definition by_semantic_order (hypotheses : list dict) : res (list dict) :=
  let! keyed := mapM (fun h => let! key := _classification_hypothesis_order h in Ok (key, h)) hypotheses in
  Ok (map snd (sort_descending fst keyed)).

Definition _top_semantic_tie (hypotheses : list dict) : res bool :=
  if (List.length hypotheses <? 2)%nat then Ok false else
  let! ordered := by_semantic_order hypotheses in
  match ordered with
  | first :: second :: _ =>
      let! a := _classification_semantic_tuple first in
      let! b := _classification_semantic_tuple second in
      Ok (tuple_eqb a b)
  | _ => Ok false
  end.

(** [enumerate(ordered, start=1)] *)
Fixpoint ranks_from (rank : Z) (ordered : list dict) : bool :=
  match ordered with
  | [] => true
  | h :: ordered => py_eq (vget h "rank") (VInt rank) && ranks_from (rank + 1) ordered
  end.

Definition _validate_classification_semantics (record : dict) (hypotheses : list dict) : res unit :=
  if py_eq (vget record "classification") (VStr "aborted_fail_closed") then Ok tt else
  let! semantic_tie := _top_semantic_tie hypotheses in
  let! expected := P137Classification.derive_classification hypotheses true semantic_tie None false false in
  let! _ := rt_ensure (py_eq (vget record "classification") (match expected with Some s => VStr s | None => VNone end))
              "classification_semantic_mismatch" in
  let! ordered := by_semantic_order hypotheses in
  let! _ := rt_ensure (ranks_from 1 ordered) "durable_hypothesis_rank_semantic_mismatch" in
  rt_ensure (match ordered with
             | top :: _ => py_eq (vget record "top_hypothesis_hash") (vget top "hypothesis_hash")
             | [] => true
             end) "classification_top_hypothesis_semantic_mismatch".

(** ** What an incident refers to *)

Definition _incident_atom_hashes (incident : dict) (atoms : list (string * dict)) : res (list string) :=
  let! hashes := hash_set (vget incident "evidence_atom_hashes") "incident_evidence_atom_hashes" "incident_evidence_atom_hash" in
  let! _ := rt_ensure (match hashes with [] => false | _ => forallb (fun h => dmem h atoms) hashes end)
              "incident_evidence_atom_missing_from_durable_state" in
  Ok hashes.

Definition check_edge (field : string) (incident_atom_hashes : list string) (edge : val) : res unit :=
  let! edge := mapping edge field in
  let! atom_hash := _hash (vget edge "evidence_atom_hash") (field +:+ "_atom_hash") in
  let! _ := rt_ensure (mem atom_hash incident_atom_hashes) "hypothesis_edge_atom_detached_from_incident" in
  rt_ensure (py_eq (vget edge "edge_hash") (VStr (_self_hash edge "edge_hash"))) "durable_hypothesis_edge_hash_invalid".

Definition check_missing (incident_atom_hashes : list string) (item : val) : res unit :=
  let! missing := mapping item "missing_evidence" in
  let! _ := rt_ensure (py_eq (vget missing "item_hash") (VStr (_self_hash missing "item_hash")))
              "durable_hypothesis_missing_hash_invalid" in
  let! unavailable_hash := _hash (vget missing "unavailable_need_hash") "unavailable_need_hash" in
  rt_ensure (existsb (fun atom_hash =>
               unavailable_hash =s stable_hash (VDict [("atom_hash", VStr atom_hash);
                                                       ("request_need_class", vget missing "request_need_class")]))
               incident_atom_hashes) "hypothesis_missing_atom_detached_from_incident".

Definition _validate_hypothesis_semantics (hypothesis : dict) (incident_atom_hashes : list string) : res unit :=
  let! scope := mapping (vget hypothesis "scope") "hypothesis_scope" in
  let! scoped := hash_set (vget scope "evidence_atom_hashes") "hypothesis_scope_atom_hashes" "hypothesis_scope_atom_hash" in
  let! _ := rt_ensure (match scoped with [] => false | _ => subset scoped incident_atom_hashes end)
              "hypothesis_scope_atom_detached_from_incident" in
  let! _ := iterM (fun field =>
              let! edges := _sequence (vget hypothesis field) field in
              iterM (check_edge field incident_atom_hashes) edges) ["support"; "contradictions"] in
  let! missing := _sequence (vget hypothesis "missing_evidence") "missing_evidence" in
  iterM (check_missing incident_atom_hashes) missing.

(** The request is derived again for each version of its incident, until one
    gives its attempt. *)
Fixpoint rederive (request : dict) (input_hashes : list string) (input_atoms : list dict)
    (atoms_by_hash : list (string * dict)) (incidents : list dict) : res unit :=
  match incidents with
  | [] => Raise (UE "request_attempt_semantic_mismatch")
  | incident :: incidents =>
      let next := rederive request input_hashes input_atoms atoms_by_hash incidents in
      if negb (py_eq (vget incident "incident_id") (vget request "incident_id")) then next else
      let! incident_hashes := _incident_atom_hashes incident atoms_by_hash in
      if negb (subset input_hashes incident_hashes) then next else
      let! sequence := positive_int (vget request "request_sequence") "request_sequence" in
      let! parameters := mapping (vget request "parameters") "request_parameters" in
      let! budget := mapping (vget request "budget") "request_budget" in
      let! expected := P137Requests.derive_evidence_request_record (py_str (vget request "incident_id"))
                         (py_str (vget incident "incident_hash")) sequence (py_str (vget request "catalog_name")) parameters
                         (as_str (vget request "previous_request_hash")) (map VDict input_atoms) budget in
      if negb (py_eq (vget request "attempted_request_hash") (vget expected "attempted_request_hash")) then next else
      rt_ensure (py_eq (vget request "result_summary") (vget expected "result_summary") &&
                 py_eq (vget request "runtime_activity") (vget expected "runtime_activity")) "request_semantic_mismatch"
  end.

Definition _validate_request_semantics (request terminal_incident : dict) (incidents atoms_by_hash : list (string * dict))
  : res unit :=
  let! incident_atom_hashes := _incident_atom_hashes terminal_incident atoms_by_hash in
  let! input_hashes := hash_set (vget request "input_atom_hashes") "request_input_atom_hashes" "request_input_atom_hash" in
  let! _ := rt_ensure (subset input_hashes incident_atom_hashes) "request_input_atom_detached_from_incident" in
  let! summary := mapping (vget request "result_summary") "request_result_summary" in
  let! matched := hash_set (vget summary "matched_atom_hashes") "request_matched_atom_hashes" "request_matched_atom_hash" in
  let! _ := rt_ensure (subset matched input_hashes) "request_matched_atom_detached_from_input" in
  let! _ := rt_ensure (py_eq (vget summary "output_count") (VInt (Z.of_nat (List.length matched))))
              "request_output_count_mismatch" in
  let! input_atoms := mapM (fun h => match dget atoms_by_hash h with
                                     | Some atom => Ok atom
                                     | None => Raise (UE "invalid_request_input_atom")
                                     end) input_hashes in
  rederive request input_hashes input_atoms atoms_by_hash (map snd incidents).

(** ** The records on disk *)

Record durable := {
  du_intents : list dict;
  du_atoms : list (string * dict);
  du_incidents : list (string * dict);
  du_hypotheses : list (string * dict);
  du_requests_by_attempt : list (string * dict);
  du_requests_by_hash : list (string * dict);
  du_classifications : list (string * dict)
}.

(** A loop that enters each record under its own hash, which must be that of
    its content. *)
Fixpoint index_by_hash (hash_field hash_error conflict : string) (records : list dict) (target : list (string * dict))
  : res (list (string * dict)) :=
  match records with
  | [] => Ok target
  | record :: records =>
      let! h := _hash (vget record hash_field) hash_field in
      let! _ := rt_ensure (h =s _self_hash record hash_field) hash_error in
      let! target := _insert_unique target h record conflict in
      index_by_hash hash_field hash_error conflict records target
  end.

Fixpoint index_atoms (atoms : list dict) (target : list (string * dict)) : res (list (string * dict)) :=
  match atoms with
  | [] => Ok target
  | atom :: atoms =>
      let! _ := _validate_durable_atom atom in
      let! target := index_by_hash "atom_hash" "durable_atom_hash_invalid" "durable_atom_hash_conflict" [atom] target in
      index_atoms atoms target
  end.

Fixpoint index_requests (requests : list dict) (by_attempt by_hash : list (string * dict))
  : res (list (string * dict) * list (string * dict)) :=
  match requests with
  | [] => Ok (by_attempt, by_hash)
  | request :: requests =>
      let! _ := P137Requests.validate_evidence_request (VDict request) in
      let! attempt_hash := _hash (vget request "attempted_request_hash") "attempted_request_hash" in
      let! request_hash := _hash (vget request "request_hash") "request_hash" in
      let! by_attempt := _insert_unique by_attempt attempt_hash request "durable_request_attempt_conflict" in
      let! by_hash := _insert_unique by_hash request_hash request "durable_request_hash_conflict" in
      index_requests requests by_attempt by_hash
  end.

Fixpoint index_classifications (hypotheses : list (string * dict)) (records : list dict) (target : list (string * dict))
  : res (list (string * dict)) :=
  match records with
  | [] => Ok target
  | record :: records =>
      let! h := _hash (vget record "classification_hash") "classification_hash" in
      let top_hash := vget record "top_hypothesis_hash" in
      let top := if is_none top_hash then None else dget hypotheses (py_str top_hash) in
      let! _ := rt_ensure (is_none top_hash || match top with Some _ => true | None => false end)
                  "durable_classification_hypothesis_missing" in
      let! _ := P137Classification.validate_classification_record (VDict record) top in
      let! target := _insert_unique target h record "durable_classification_hash_conflict" in
      index_classifications hypotheses records target
  end.

(** [_load_durable_state] after its six directories were read. *)
Definition check_durable (config : dict) (intents atoms incidents hypotheses requests classifications : list dict) : res durable :=
  let! _ := iterM (check_intent config) intents in
  let! atoms_by_hash := index_atoms atoms [] in
  let! incidents_by_hash := index_by_hash "incident_hash" "durable_incident_hash_invalid" "durable_incident_hash_conflict"
                              incidents [] in
  let! hypotheses_by_hash := index_by_hash "hypothesis_hash" "durable_hypothesis_hash_invalid"
                               "durable_hypothesis_hash_conflict" hypotheses [] in
  let! (by_attempt, by_hash) := index_requests requests [] [] in
  let! classifications_by_hash := index_classifications hypotheses_by_hash classifications [] in
  Ok {| du_intents := intents; du_atoms := atoms_by_hash; du_incidents := incidents_by_hash;
        du_hypotheses := hypotheses_by_hash; du_requests_by_attempt := by_attempt; du_requests_by_hash := by_hash;
        du_classifications := classifications_by_hash |}.

(** ** What the ledger lists is on disk *)

Definition required (found : option dict) (error : string) : res dict :=
  match found with Some d => Ok d | None => Raise (UE error) end.

Section Membership.
Context (du : durable).

Definition check_incident_hypothesis (incident : dict) (incident_atom_hashes : list string) (hypothesis_hash : val) : res unit :=
  let! found := find_by (du_hypotheses du) hypothesis_hash in
  let! hypothesis := required found "incident_hypothesis_detached_from_durable_state" in
  let! _ := rt_ensure (py_eq (vget hypothesis "incident_id") (vget incident "incident_id"))
              "incident_hypothesis_detached_from_durable_state" in
  _validate_hypothesis_semantics hypothesis incident_atom_hashes.

(** The attempt of a request the incident lists. *)
Definition check_incident_request (incident : dict) (request_hash : val) : res string :=
  let! found := find_by (du_requests_by_hash du) request_hash in
  let! request := required found "incident_request_detached_from_durable_state" in
  let! _ := rt_ensure (py_eq (vget request "incident_id") (vget incident "incident_id"))
              "incident_request_detached_from_durable_state" in
  let! attempt_hash := _hash (vget request "attempted_request_hash") "attempted_request_hash" in
  let! _ := rt_ensure (match dget (du_requests_by_attempt du) attempt_hash with
                       | Some other => py_eq (VDict other) (VDict request)
                       | None => false
                       end) "durable_request_index_mismatch" in
  let! _ := _validate_request_semantics request incident (du_incidents du) (du_atoms du) in
  Ok attempt_hash.

Definition check_ledger_incident (incident_hash : val) : res dict :=
  let! found := find_by (du_incidents du) incident_hash in
  let! incident := required found "ledger_incident_missing_from_durable_state" in
  let! incident_atom_hashes := _incident_atom_hashes incident (du_atoms du) in
  let! hypothesis_hashes := _sequence (vget incident "hypothesis_hashes") "incident_hypothesis_hashes" in
  let! _ := iterM (check_incident_hypothesis incident incident_atom_hashes) hypothesis_hashes in
  let! incident_attempts := hash_set (vget incident "attempted_request_hashes") "incident_attempted_request_hashes"
                              "incident_attempted_request_hash" in
  let! request_hashes := _sequence (vget incident "request_hashes") "incident_request_hashes" in
  let! attached_attempts := mapM (check_incident_request incident) request_hashes in
  let! _ := rt_ensure (subset attached_attempts incident_attempts && subset incident_attempts attached_attempts)
              "incident_request_attempt_membership_mismatch" in
  Ok incident.

(** The incidents that list the request of an attempt. *)
Fixpoint requesters (request : dict) (attempt_hash : val) (incidents : list dict) : res (list dict) :=
  match incidents with
  | [] => Ok []
  | incident :: incidents =>
      let! here :=
        if negb (py_eq (vget incident "incident_id") (vget request "incident_id")) then Ok false else
        let! request_hashes := _sequence (vget incident "request_hashes") "incident_request_hashes" in
        if negb (in_list (vget request "request_hash") request_hashes) then Ok false else
        let! attempts := _sequence (vget incident "attempted_request_hashes") "incident_attempted_request_hashes" in
        Ok (in_list attempt_hash attempts) in
      let! others := requesters request attempt_hash incidents in
      Ok (if here : bool then incident :: others else others)
  end.

Definition check_ledger_attempt (terminal_incidents : list dict) (attempt_hash : val) : res unit :=
  let! found := find_by (du_requests_by_attempt du) attempt_hash in
  let! request := required found "ledger_request_missing_from_durable_state" in
  let! matching := requesters request attempt_hash terminal_incidents in
  rt_ensure (List.length matching =? 1)%nat "request_detached_from_durable_incident".

(** The incidents whose conclusion is the record. *)
Fixpoint concluded_by (record : dict) (classification_hash : val) (incident_hashes : list val) : res (list dict) :=
  match incident_hashes with
  | [] => Ok []
  | incident_hash :: incident_hashes =>
      let! found := find_by (du_incidents du) incident_hash in
      let! others := concluded_by record classification_hash incident_hashes in
      Ok (match found with
          | Some incident =>
              if py_eq (vget incident "incident_id") (vget record "incident_id") &&
                 py_eq (vget incident "classification_hash") classification_hash &&
                 py_eq (vget incident "status") (vget record "classification")
              then incident :: others else others
          | None => others
          end)
  end.

Definition check_ledger_classification (incident_hashes : list val) (classification_hash : val) : res unit :=
  let! found := find_by (du_classifications du) classification_hash in
  let! record := required found "ledger_classification_missing_from_durable_state" in
  let! matching := concluded_by record classification_hash incident_hashes in
  match matching with
  | [incident] =>
      let! hypothesis_hashes := _sequence (vget incident "hypothesis_hashes") "incident_hypothesis_hashes" in
      let top := vget record "top_hypothesis_hash" in
      let! _ := rt_ensure (is_none top || in_list top hypothesis_hashes) "classification_hypothesis_detached_from_incident" in
      let! hypotheses := mapM (fun h => let! found := find_by (du_hypotheses du) h in
                                        required found "invalid_durable_hypothesis") hypothesis_hashes in
      _validate_classification_semantics record hypotheses
  | _ => Raise (UE "classification_detached_from_durable_incident")
  end.

Definition _validate_durable_ledger_membership (ledger : option dict) : res unit :=
  match ledger with
  | None => Ok tt
  | Some ledger =>
      let! incident_hashes := _sequence (vget ledger "incident_hashes") "ledger_incident_hashes" in
      let! terminal_incidents := mapM check_ledger_incident incident_hashes in
      let! attempts := _sequence (vget ledger "attempted_request_hashes") "ledger_attempted_request_hashes" in
      let! _ := iterM (check_ledger_attempt terminal_incidents) attempts in
      let! classification_hashes := _sequence (vget ledger "classification_hashes") "ledger_classification_hashes" in
      iterM (check_ledger_classification incident_hashes) classification_hashes
  end.
End Membership.

Definition _last_durable_classification (ledger : dict) (classifications : list (string * dict)) : res string :=
  let! hashes := _sequence (vget ledger "classification_hashes") "ledger_classification_hashes" in
  match last hashes with
  | None => Ok "none"
  | Some h =>
      let! found := find_by classifications h in
      let! record := required found "invalid_durable_classification" in
      match vget record "classification" with
      | VStr s => Ok s
      | _ => Raise (UE "durable_classification_value_invalid")
      end
  end.
