(* ===== verification/P137Triage.v ===== *)
(** * One cycle of the triage

    Models the part of app/services/p137_runtime.py that turns a handoff into
    records: atoms are correlated, each incident is taken through its
    lifecycle, ranked, given a request where a local selection may help, and
    classified; the ledger is advanced by what results. *)

From S2P Require Import Prelude PyValue PyChecks Sha P137Checks P137Durable.
From S2P Require P137Contracts P137Correlation P137Hypotheses P137Requests P137Classification P137Ledger.
Import P137Correlation(P137CorrelationError, transition_incident_status, correlate_incident_state).
Import P137Hypotheses(P137HypothesisError, rank_incident_hypotheses).

(** ** Incidents *)

(** A document under its own hash. *)
Definition rehash (value : dict) (hash_field : string) : dict :=
  dset value hash_field (VStr (_self_hash value hash_field)).

Definition _advance_incident (incident : dict) (target now : string) (updates : dict) : res dict :=
  let! current := vindex incident "status" in
  let! status := transition_incident_status (py_str current) target in
  let value := dset (dset incident "status" (VStr status)) "updated_at" (VStr now) in
  let! previous := vindex value "incident_hash" in
  let value := P137Contracts.update (dset value "previous_incident_hash" previous) updates in
  Ok (rehash value "incident_hash").

Fixpoint any_local_selection (missing : list val) : res bool :=
  match missing with
  | [] => Ok false
  | item :: missing =>
      let! item := mapping item "missing_item" in
      if py_eq (vget item "request_need_class") (VStr "LOCAL_SELECTION") then Ok true else any_local_selection missing
  end.

Fixpoint _has_local_selection_need (hypotheses : list dict) : res bool :=
  match hypotheses with
  | [] => Ok false
  | hypothesis :: hypotheses =>
      let! missing := _sequence (vget hypothesis "missing_evidence") "missing_evidence" in
      let! found := any_local_selection missing in
      if found : bool then Ok true else _has_local_selection_need hypotheses
  end.

Definition _decision_reasons (classification : string) (semantic_tie : bool) : res (list string) :=
  if semantic_tie then Ok ["semantic_top_hypothesis_tie"] else
  match dget [("confirmed_incident", ["supported_non_benign_hypothesis"]);
              ("insufficient_evidence", ["evidence_requirements_not_satisfied"]);
              ("benign_anomaly", ["supported_benign_pattern"]);
              ("aborted_fail_closed", ["runtime_failure_closed"])] classification with
  | Some reasons => Ok reasons
  | None => Raise (Exn "KeyError" classification)
  end.

(** ** Configuration and handoff *)

(** [int(limits[key])]: an accepted configuration has every limit. *)
Definition setting (config : dict) (key : string) : Z :=
  match vget config "limits" with
  | VDict limits => default 0 (as_int (vget limits key))
  | _ => 0
  end.

Definition _resource_usage (config : dict) : dict :=
  [("wall_time_ms", VInt 0); ("cpu_time_ms", VInt 0); ("child_cpu_time_ms", VInt 0); ("peak_memory_bytes", VInt 0);
   ("wall_limit_ms", VInt (setting config "max_agent_wall_ms")); ("cpu_limit_ms", VInt (setting config "max_cpu_ms"));
   ("peak_memory_limit_bytes", VInt (setting config "max_peak_memory_bytes"))].

Definition _canonical_json_bytes (value : dict) : string := json_dumps (VDict value) +:+ nl.

Definition evidence_atoms (handoff : dict) : res (list val) := _sequence (vget handoff "evidence_atoms") "evidence_atoms".

Definition _promotion_bytes_validated (handoff : dict) : res Z :=
  let! atoms := evidence_atoms handoff in
  let! sizes := mapM (fun atom => let! atom := mapping atom "atom" in
                                  Ok (Z.of_nat (String.length (_canonical_json_bytes atom)))) atoms in
  Ok (fold_right Z.add 0 sizes).

(** [sum(...) or 1], of the counts of calls. *)
Definition validator_invocations (handoff : dict) : res Z :=
  let! calls := mapping (vget_or handoff "p136_validator_calls" (VDict [])) "p136_validator_calls" in
  let total := fold_right Z.add 0 (map (fun kv => default 0 (as_int kv.2)) calls) in
  Ok (if total =? 0 then 1 else total).

Definition promotion_record_count (handoff : dict) : res Z := py_int (vget_or handoff "promotion_record_count" (VInt 0)).

Definition promotion_bytes (handoff : dict) : res Z :=
  let! counted := _promotion_bytes_validated handoff in
  py_int (vget_or handoff "promotion_bytes_validated" (VInt counted)).

Definition _classification_activity (handoff : dict) : res dict :=
  let! invocations := validator_invocations handoff in
  let! records := promotion_record_count handoff in
  let! bytes := promotion_bytes handoff in
  let! atoms := evidence_atoms handoff in
  Ok (P137Contracts.zero_runtime_activity
        [("p136_validator_invocation_count", VInt invocations); ("promotion_record_read_count", VInt records);
         ("promotion_bytes_validated", VInt bytes); ("evidence_atom_count", VInt (Z.of_nat (List.length atoms)))]).

(** ** The loop over incidents *)

(** The local variables of [_triage_handoff]. *)
Record triage := {
  tr_next_incident : Z;
  tr_next_request : Z;
  tr_next_classification : Z;
  tr_previous_classification : option string;
  tr_incident_records : list dict;
  tr_incidents : list dict;
  tr_hypotheses : list dict;
  tr_requests : list dict;
  tr_classifications : list dict
}.

Definition start_triage (ledger : option dict) : res triage :=
  let next key := match ledger with Some l => default 0 (as_int (vget l key)) | None => 1 end in
  let! hashes := match ledger with
                 | Some l => _sequence (vget l "classification_hashes") "classification_hashes"
                 | None => Ok []
                 end in
  Ok {| tr_next_incident := next "next_incident_sequence"; tr_next_request := next "next_request_sequence";
        tr_next_classification := next "next_classification_sequence";
        tr_previous_classification := option_map py_str (last hashes);
        tr_incident_records := []; tr_incidents := []; tr_hypotheses := []; tr_requests := []; tr_classifications := [] |}.

Definition record_incident (incident : dict) (t : triage) : triage :=
  {| tr_next_incident := tr_next_incident t; tr_next_request := tr_next_request t;
     tr_next_classification := tr_next_classification t; tr_previous_classification := tr_previous_classification t;
     tr_incident_records := tr_incident_records t ++ [incident]; tr_incidents := tr_incidents t;
     tr_hypotheses := tr_hypotheses t; tr_requests := tr_requests t; tr_classifications := tr_classifications t |}.

Definition take_incident_number (t : triage) : triage :=
  {| tr_next_incident := tr_next_incident t + 1; tr_next_request := tr_next_request t;
     tr_next_classification := tr_next_classification t; tr_previous_classification := tr_previous_classification t;
     tr_incident_records := tr_incident_records t; tr_incidents := tr_incidents t;
     tr_hypotheses := tr_hypotheses t; tr_requests := tr_requests t; tr_classifications := tr_classifications t |}.

Definition add_hypotheses (hypotheses : list dict) (t : triage) : triage :=
  {| tr_next_incident := tr_next_incident t; tr_next_request := tr_next_request t;
     tr_next_classification := tr_next_classification t; tr_previous_classification := tr_previous_classification t;
     tr_incident_records := tr_incident_records t; tr_incidents := tr_incidents t;
     tr_hypotheses := tr_hypotheses t ++ hypotheses; tr_requests := tr_requests t;
     tr_classifications := tr_classifications t |}.

Definition add_request (request : dict) (t : triage) : triage :=
  {| tr_next_incident := tr_next_incident t; tr_next_request := tr_next_request t + 1;
     tr_next_classification := tr_next_classification t; tr_previous_classification := tr_previous_classification t;
     tr_incident_records := tr_incident_records t; tr_incidents := tr_incidents t;
     tr_hypotheses := tr_hypotheses t; tr_requests := tr_requests t ++ [request];
     tr_classifications := tr_classifications t |}.

Definition add_classification (record : dict) (t : triage) : triage :=
  {| tr_next_incident := tr_next_incident t; tr_next_request := tr_next_request t;
     tr_next_classification := tr_next_classification t + 1;
     tr_previous_classification := Some (py_str (vget record "classification_hash"));
     tr_incident_records := tr_incident_records t; tr_incidents := tr_incidents t;
     tr_hypotheses := tr_hypotheses t; tr_requests := tr_requests t;
     tr_classifications := tr_classifications t ++ [record] |}.

(** The incident reached its end. *)
Definition conclude (incident : dict) (t : triage) : triage :=
  {| tr_next_incident := tr_next_incident t; tr_next_request := tr_next_request t;
     tr_next_classification := tr_next_classification t; tr_previous_classification := tr_previous_classification t;
     tr_incident_records := tr_incident_records t; tr_incidents := tr_incidents t ++ [incident];
     tr_hypotheses := tr_hypotheses t; tr_requests := tr_requests t; tr_classifications := tr_classifications t |}.

Section Triage.
Context (config handoff : dict) (now : string) (authority resource_usage : dict) (existing_requests : list (string * dict)).

Definition per_cycle_seconds (key : string) : Z := Z.max 1 (setting config key / 1000).

Definition correlation_limits : dict :=
  [("max_open_incidents", VInt (setting config "max_incidents_open"));
   ("max_atoms_per_incident", VInt (setting config "max_records_per_cycle"));
   ("max_correlation_window_seconds", VInt (per_cycle_seconds "max_correlation_window_ms"));
   ("max_incident_duration_seconds", VInt (per_cycle_seconds "max_incident_duration_ms"));
   ("max_journal_entries", VInt (setting config "max_records_per_cycle"));
   ("max_ledger_edges", VInt (setting config "max_ledger_records"))].

Definition hypothesis_limits : dict :=
  [("max_hypotheses", VInt (setting config "max_hypotheses_per_incident"));
   ("max_support_edges_per_hypothesis", VInt (setting config "max_support_edges_per_hypothesis"));
   ("max_contradiction_edges_per_hypothesis", VInt (setting config "max_contradiction_edges_per_hypothesis"));
   ("max_missing_evidence_items_per_hypothesis", VInt (setting config "max_missing_evidence_items_per_hypothesis"));
   ("correlation_window_seconds", VInt (per_cycle_seconds "max_correlation_window_ms"))].

Definition request_limits : dict :=
  [("max_input_records", VInt (setting config "max_request_input_records"));
   ("max_output_records", VInt (setting config "max_request_output_records"));
   ("max_output_bytes", VInt (setting config "max_request_output_bytes"));
   ("max_requests_per_incident", VInt (setting config "max_evidence_requests_per_incident"));
   ("wall_limit_ms", VInt (setting config "max_cycle_wall_ms")); ("cpu_limit_ms", VInt (setting config "max_cpu_ms"));
   ("peak_memory_limit_bytes", VInt (setting config "max_peak_memory_bytes"))].

(** The conclusion of an incident: its record, then the incident itself. *)
Definition classify (incident : dict) (classification : string) (top : option dict) (reasons : list string) (t : triage)
  : res triage :=
  let! incident_id := vindex incident "incident_id" in
  let! activity := _classification_activity handoff in
  let! record := P137Classification.build_classification_record (py_str incident_id) (tr_next_classification t) classification
                   now top authority activity resource_usage (tr_previous_classification t) reasons in
  let! incident := _advance_incident incident classification now [("classification_hash", vget record "classification_hash")] in
  Ok (conclude incident (record_incident incident (add_classification record t))).

(** The request made when a hypothesis lacks evidence that is held locally. *)
Definition request_evidence (incident : dict) (incident_atoms hypotheses : list dict) (t : triage)
  : res (list dict * triage) :=
  let! needed := _has_local_selection_need hypotheses in
  if negb needed then Ok ([], t) else
  let! incident_id := vindex incident "incident_id" in
  let! incident_hash := vindex incident "incident_hash" in
  let! system_id := vindex incident "primary_system_id" in
  let! budget := P137Requests.build_request_budget request_limits in
  let previous := option_map (fun r => py_str (vget r "request_hash")) (last (tr_requests t)) in
  let! (request, _) := P137Requests.execute_evidence_request (py_str incident_id) (py_str incident_hash) (tr_next_request t)
                         "select_records_by_system_id"
                         [("system_id", VStr (py_str system_id));
                          ("limit", VInt (Z.min 1000 (setting config "max_request_output_records")))]
                         previous (map VDict incident_atoms) budget existing_requests in
  Ok ([request], add_request request t).

Definition strings_field (items : list dict) (key : string) : val :=
  vlist_of_strings (map (fun item => py_str (vget item key)) items).

(** An incident whose hypotheses were ranked. *)
Definition investigate (incident : dict) (incident_atoms : list dict) (ranking : dict) (t : triage) : res triage :=
  let! items := _sequence (vget ranking "hypotheses") "hypotheses" in
  let! hypotheses := mapM (fun item => mapping item "hypothesis") items in
  let t := add_hypotheses hypotheses t in
  let! (requests, t) := request_evidence incident incident_atoms hypotheses t in
  let! incident := _advance_incident incident "ready_to_classify" now
                     [("hypothesis_hashes", strings_field hypotheses "hypothesis_hash");
                      ("request_hashes", strings_field requests "request_hash");
                      ("attempted_request_hashes", strings_field requests "attempted_request_hash")] in
  let t := record_incident incident t in
  let! incident := _advance_incident incident "classification_pending" now [] in
  let t := record_incident incident t in
  let! ties := _sequence (vget ranking "top_tie_hypothesis_hashes") "top_tie_hypothesis_hashes" in
  let semantic_tie := (1 <? List.length ties)%nat in
  let! classification := P137Classification.derive_classification hypotheses true semantic_tie None false false in
  match classification with
  | None => Raise (UE "classification_not_derived")
  | Some classification =>
      let! reasons := _decision_reasons classification semantic_tie in
      classify incident classification (head hypotheses) reasons t
  end.

Definition ends_with (suffix s : string) : bool :=
  String.substring (String.length s - String.length suffix) (String.length suffix) s =s suffix.

(** One incident of the correlation; [failure] is the code of a correlation
    that failed with it. *)
Definition triage_incident (atoms : list dict) (failure : option string) (correlated : val) (t : triage) : res triage :=
  let! incident := mapping correlated "incident" in
  let incident := rehash (dset incident "incident_sequence" (VInt (tr_next_incident t))) "incident_hash" in
  let t := record_incident incident (take_incident_number t) in
  match failure with
  | Some code => classify incident "aborted_fail_closed" None ["runtime_failure_closed"; code] t
  | None =>
      let! incident := _advance_incident incident "correlating" now [] in
      let t := record_incident incident t in
      let! incident := _advance_incident incident "investigating" now [] in
      let t := record_incident incident t in
      let members := P137Ledger.seq_items (vget incident "evidence_atom_hashes") in
      let incident_atoms := List.filter (fun atom => in_list (vget atom "atom_hash") members) atoms in
      match rank_incident_hypotheses incident incident_atoms now (Some hypothesis_limits) with
      | Ok ranking => investigate incident incident_atoms ranking t
      | Raise e =>
          if (exn_class e =s "P137HypothesisError") && ends_with "_budget_exceeded" (exn_msg e)
          then classify incident "aborted_fail_closed" None ["runtime_failure_closed"; exn_msg e] t
          else Raise e
      end
  end.

Fixpoint triage_incidents (atoms : list dict) (failure : option string) (correlated : list val) (t : triage) : res triage :=
  match correlated with
  | [] => Ok t
  | incident :: correlated =>
      let! t := triage_incident atoms failure incident t in
      triage_incidents atoms failure correlated t
  end.

(** The incidents, and the failure code when the correlation gave only the
    incident that exceeds its duration. *)
Definition correlate (atoms : list dict) : res (list val * option string) :=
  match correlate_incident_state atoms [] now (Some correlation_limits) with
  | (Ok correlation, _) => let! incidents := _sequence (vget correlation "incidents") "incidents" in Ok (incidents, None)
  | (Raise e, partial) =>
      if (exn_class e =s "P137CorrelationError") && (exn_msg e =s "incident_duration_budget_exceeded")
      then match partial with
           | Some incident => Ok ([VDict incident], Some (exn_msg e))
           | None => Raise (UE "incident_duration_failure_missing_partial_incident")
           end
      else Raise e
  end.

Definition _triage_handoff (ledger : option dict) : res triage :=
  let! items := evidence_atoms handoff in
  let! atoms := mapM (fun item => mapping item "atom") items in
  let count := Z.of_nat (List.length atoms) in
  let! _ := rt_ensure (count <=? setting config "max_promotions_per_cycle") "promotion_cycle_budget_exceeded" in
  let! _ := rt_ensure (count <=? setting config "max_records_per_cycle") "record_cycle_budget_exceeded" in
  let! (incidents, failure) := correlate atoms in
  let! t := start_triage ledger in
  triage_incidents atoms failure incidents t.
End Triage.

(** ** The next ledger *)

Definition cycles_completed (ledger : dict) : res Z :=
  let! counters := mapping (vget ledger "counters") "counters" in
  py_int (vget_or counters "cycles_completed" (VInt 0)).

Definition _new_or_reused_ledger (config : dict) (ledger : option dict) (activity authority evaluator : dict) (t : triage)
  : res dict :=
  let! prior :=
    match ledger with
    | Some ((_ :: _) as prior) => Ok prior
    | _ => P137Ledger.new_investigation_ledger (py_str (vget config "config_hash")) [("cycles_completed", VInt 0)] authority
             (P137Contracts.zero_runtime_activity []) (P137Contracts.zero_evaluator_activity []) (_resource_usage config)
    end in
  let! completed := cycles_completed prior in
  P137Ledger.advance_investigation_ledger prior (py_str (vget prior "ledger_hash"))
    (map VDict (tr_incidents t)) (map VDict (tr_requests t)) (map VDict (tr_classifications t))
    (Some [("cycles_completed", VInt (completed + 1))]) (Some activity) (Some evaluator) (Some (_resource_usage config)).
