(* ===== verification/P137Runtime.v ===== *)
(** * The runtime of the triage

    Models app/services/p137_runtime.py over the files it keeps.  The paths
    of an accepted configuration are apart from each other
    (accepted_config_is_confined), so the files are a record with one field
    per path; a name in a folder is a hash.  Every store that was on disk
    during a run is kept: a process that dies leaves one of them. *)

From S2P Require Import Prelude PyValue PyChecks Sha PyTime PyFloat P137Checks P137Durable P137Triage Json.
From S2P Require P137Contracts P137Ledger P137Requests.

Definition HEARTBEAT_SCHEMA_VERSION : string := "p137.heartbeat.v1".
Definition READINESS_SCHEMA_VERSION : string := "p137.readiness.v1".
Definition TERMINATION_SCHEMA_VERSION : string := "p137.termination_receipt.v1".
Definition _CRASH_POINTS : list string :=
  ["ingest_intent"; "incident_write"; "request_write"; "classification_write"; "ledger_write"].
Definition _HASH_NONE : string := "sha256:" +:+ P137Contracts.hex (repeat 0 32).

(** ** Files *)

(** A file: its text, and what it parses to, [None] when it is not JSON. *)
Record file := { text : string; parsed : option val }.

Definition written (value : dict) : file :=
  {| text := _canonical_json_bytes value; parsed := Some (json_image (VDict value)) |}.

Inductive slot := Checkpoint | Ledger | Heartbeat | Readiness.
Inductive folder := Intents | Atoms | Incidents | Hypotheses | Requests | Classifications | Terminations.

#[global] Instance slot_eq_dec : EqDecision slot.
Proof. solve_decision. Defined.
#[global] Instance folder_eq_dec : EqDecision folder.
Proof. solve_decision. Defined.

Record store := {
  slots : slot -> option file;
  folders : folder -> list (string * file);
  handoff_file : option string
}.

Definition set_slot (s : slot) (f : file) (st : store) : store :=
  {| slots := fun s' => if decide (s' = s) then Some f else slots st s'; folders := folders st; handoff_file := handoff_file st |}.

Definition add_file (d : folder) (name : string) (f : file) (st : store) : store :=
  {| slots := slots st; folders := fun d' => if decide (d' = d) then dset (folders st d) name f else folders st d';
     handoff_file := handoff_file st |}.

(** ** A run *)

(** What a run works on: the files, the stores it has left behind, the
    counters, and what it has read of the checkpoint and the ledger. *)
Record run := {
  disk : store;
  before : list store;
  activity : dict;
  checkpoint_read : val;
  ledger_read : val
}.

(** A call that reads and writes files may raise; the files stay as they
    are. *)
Definition M (A : Type) : Type := run -> res A * run.

Definition ret {A} (a : A) : M A := fun r => (Ok a, r).
Definition lift {A} (m : res A) : M A := fun r => (m, r).
Definition mbind {A B} (m : M A) (k : A -> M B) : M B :=
  fun r => match m r with
           | (Ok a, r') => k a r'
           | (Raise e, r') => (Raise e, r')
           end.

Notation "'do!' x := m 'in' k" := (mbind m (fun x => k))
  (at level 10, x pattern, m at level 100, k at level 200) : py_scope.

Definition reading {A} (f : run -> A) : M A := fun r => (Ok (f r), r).

Definition with_activity (f : dict -> dict) : M unit :=
  fun r => (Ok tt, {| disk := disk r; before := before r; activity := f (activity r); checkpoint_read := checkpoint_read r;
                      ledger_read := ledger_read r |}).

(** [activity[key] += n]: every key is there from the start. *)
Definition count (key : string) (n : Z) : M unit :=
  with_activity (fun a => dset a key (VInt (default 0 (as_int (vget a key)) + n))).

(** The files are replaced by [f] of them, in one step. *)
Definition write (f : store -> store) : M unit :=
  fun r => (Ok tt, {| disk := f (disk r); before := before r ++ [disk r]; activity := activity r;
                      checkpoint_read := checkpoint_read r; ledger_read := ledger_read r |}).

Definition keep_checkpoint (v : val) : M unit :=
  fun r => (Ok tt, {| disk := disk r; before := before r; activity := activity r; checkpoint_read := v; ledger_read := ledger_read r |}).
Definition keep_ledger (v : val) : M unit :=
  fun r => (Ok tt, {| disk := disk r; before := before r; activity := activity r; checkpoint_read := checkpoint_read r; ledger_read := v |}).

Fixpoint each {A} (f : A -> M unit) (l : list A) : M unit :=
  match l with
  | [] => ret tt
  | x :: l => do! _ := f x in each f l
  end.

(** ** Reading *)

Definition parse (f : file) : res val :=
  match parsed f with Some v => Ok v | None => Raise (UE "corrupt_state") end.

(** A file that holds [null] reads like a file that is not there. *)
Definition _read_optional_json (f : option file) : M val :=
  match f with
  | None => ret VNone
  | Some f => do! _ := count "state_read_count" 1 in lift (parse f)
  end.

(** The files in the order of their names; each must hold an object. *)
Fixpoint read_files (files : list (string * file)) : M (list dict) :=
  match files with
  | [] => ret []
  | (_, f) :: files =>
      do! v := _read_optional_json (Some f) in
      do! d := lift (match v with VDict d => Ok d | _ => Raise (UE "corrupt_state") end) in
      do! rest := read_files files in
      ret (d :: rest)
  end.

Definition _read_json_directory (d : folder) : M (list dict) :=
  do! files := reading (fun r => folders (disk r) d) in
  read_files (sort_items files).

Definition ends_with_newline (s : string) : bool := ends_with nl s.

Definition _read_required_bytes : M string :=
  do! _ := count "handoff_bundle_open_count" 1 in
  do! found := reading (fun r => handoff_file (disk r)) in
  match found with
  | None => lift (Raise (UE "handoff_read_failed"))
  | Some raw =>
      do! _ := count "handoff_bundle_read_count" 1 in
      do! _ := count "handoff_bundle_bytes_read" (Z.of_nat (String.length raw)) in
      do! _ := lift (rt_ensure (ends_with_newline raw) "p136_handoff_torn_fixed_path_replacement") in
      ret raw
  end.

Definition carriage_return : string := String (ascii_of_N 13) EmptyString.

Definition _canonical_payload_from_framed_file (raw : string) : res string :=
  let! _ := rt_ensure (ends_with nl raw && negb (ends_with (nl +:+ nl) raw)) "p136_handoff_torn_fixed_path_replacement" in
  let payload := String.substring 0 (String.length raw - 1) raw in
  let! _ := rt_ensure (negb (is_empty payload) && negb (contains nl payload) && negb (contains carriage_return payload))
              "p136_handoff_torn_fixed_path_replacement" in
  Ok payload.

(** ** Writing *)

Definition _replace_json (s : slot) (value : dict) (counter : option string) : M unit :=
  do! _ := write (set_slot s (written value)) in
  do! _ := count "directory_fsync_count" 1 in
  match counter with Some c => count c 1 | None => ret tt end.

(** Was the file there already?  A file is never replaced by another. *)
Definition _write_named_json (d : folder) (name : string) (value : dict) (counter : string) : M bool :=
  do! found := reading (fun r => dget (folders (disk r) d) name) in
  match found with
  | Some existing =>
      do! _ := lift (rt_ensure (text existing =s _canonical_json_bytes value) "conflicting_existing_bytes") in
      ret true
  | None =>
      do! _ := write (add_file d name (written value)) in
      do! _ := count "directory_fsync_count" 1 in
      do! _ := count counter 1 in
      ret false
  end.

Definition json_name (hash : string) : string := hash +:+ ".json".

Definition first_hash (payload : dict) (keys : list string) : option string :=
  head (omap (fun key => match vget payload key with
                         | VStr s => if startswith "sha256:" s then Some s else None
                         | _ => None
                         end) keys).

Definition _payload_hash (kind : string) (payload : dict) : string :=
  match first_hash payload [kind +:+ "_hash"; "atom_hash"; "request_hash"; "classification_hash"; "hypothesis_hash"; "incident_hash"] with
  | Some h => h
  | None => stable_hash (VDict [("kind", VStr kind); ("payload", VDict payload)])
  end.

Definition _write_stage_collection (d : folder) (kind counter : string) (items : list dict) : M unit :=
  each (fun item => do! _ := _write_named_json d (json_name (_payload_hash kind item)) item counter in ret tt) items.

(** [_maybe_crash]: the point at which an evaluation lets the run end. *)
Definition _maybe_crash (requested : option string) (current : string) : M unit :=
  lift (rt_ensure (negb (bool_decide (requested = Some current))) ("crash_after_" +:+ current)).

(** ** Records of the run *)

Definition ledger_hash_of (ledger : val) : val :=
  match ledger with VDict l => vget_or l "ledger_hash" (VStr _HASH_NONE) | _ => VStr _HASH_NONE end.
Definition _last_ledger_hash : val -> val := ledger_hash_of.

Definition _last_bundle_hash (checkpoint : val) : val :=
  match checkpoint with VDict c => vget_or c "last_accepted_bundle_hash" (VStr _HASH_NONE) | _ => VStr _HASH_NONE end.

Definition under_hash (hash_field : string) (value : dict) : dict :=
  value ++ [(hash_field, VStr (stable_hash (VDict value)))].

Definition _heartbeat (config : dict) (cycle : Z) (ledger : val) (elapsed_ms : Z) (readiness_state : string) : dict :=
  under_hash "heartbeat_hash"
    [("schema_version", VStr HEARTBEAT_SCHEMA_VERSION); ("agent_id", vget config "agent_id");
     ("config_hash", vget config "config_hash"); ("cycle_sequence", VInt cycle); ("monotonic_elapsed_ms", VInt elapsed_ms);
     ("last_valid_ledger_hash", _last_ledger_hash ledger); ("readiness_state", VStr readiness_state)].

Definition opt_text (s : option string) : val := match s with Some s => VStr s | None => VNone end.

Definition _readiness (config : dict) (now status : string) (checkpoint : val) (reason : option string) : dict :=
  under_hash "readiness_hash"
    [("schema_version", VStr READINESS_SCHEMA_VERSION); ("config_hash", vget config "config_hash"); ("written_at", VStr now);
     ("status", VStr status); ("reason", opt_text reason); ("last_accepted_bundle_hash", _last_bundle_hash checkpoint)].

Definition _termination (config : dict) (stop_reason safe_boundary : string) (ledger : val) (open_incidents : list string)
    (runtime evaluator resources authority : dict) : dict :=
  under_hash "termination_hash"
    [("schema_version", VStr TERMINATION_SCHEMA_VERSION); ("agent_id", vget config "agent_id");
     ("config_hash", vget config "config_hash"); ("stop_reason", VStr stop_reason); ("safe_boundary", VStr safe_boundary);
     ("last_valid_ledger_hash", _last_ledger_hash ledger); ("open_incident_hashes", vlist_of_strings (sorted_set open_incidents));
     ("terminal_classification_hashes", VList []); ("runtime_activity", VDict runtime); ("evaluator_activity", VDict evaluator);
     ("resource_usage", VDict resources); ("authority_counters", VDict authority)].

Definition AUTHORITY : dict := P137Contracts.zero_forbidden_authority.
Definition EVALUATOR : dict := P137Contracts.zero_evaluator_activity [].

(** The authority and evaluator counters of a run stay at zero. *)
Definition _result (status : string) (expected_error : option string) (termination_reason classification : string)
    (runtime : dict) (extra : dict) : dict :=
  [("schema_version", VStr "p137.runtime_result.v1"); ("status", VStr status); ("expected_error", opt_text expected_error);
   ("termination_reason", VStr termination_reason); ("classification", VStr classification);
   ("runtime_activity", VDict runtime); ("authority_counters", VDict AUTHORITY); ("evaluator_activity", VDict EVALUATOR)] ++ extra.

Definition stopping_signals : list string := ["sigint"; "sigterm"].

Definition _stop_result (config : dict) (expected_error stop_reason safe_boundary : string) (ledger : val)
    (termination_reason : option string) (resource_usage : option dict) (open_incidents : list string) : M dict :=
  do! current := reading activity in
  let resources := match resource_usage with Some ((_ :: _) as r) => r | _ => _resource_usage config end in
  let bump key a := dset a key (VInt (default 0 (as_int (vget a key)) + 1)) in
  let predicted := bump "directory_fsync_count" (bump "termination_receipt_write_count" current) in
  let termination := _termination config stop_reason safe_boundary ledger open_incidents predicted EVALUATOR resources AUTHORITY in
  do! duplicate := _write_named_json Terminations (json_name (py_str (vget termination "termination_hash"))) termination
                     "termination_receipt_write_count" in
  do! current := reading activity in
  do! _ := lift (rt_ensure (duplicate || py_eq (VDict current) (VDict predicted)) "termination_activity_mismatch") in
  ret (_result (if mem stop_reason stopping_signals then "stopped" else "failed_closed") (Some expected_error)
         (default stop_reason termination_reason) "none" current
         [("resource_usage", VDict resources); ("termination", VDict termination); ("duplicate_termination", VBool duplicate)]).

(** ** Errors and resources *)

Definition CORRUPT_ERRORS : list string :=
  ["corrupt_state"; "checkpoint_without_ledger"; "classification_detached_from_durable_incident";
   "classification_hypothesis_detached_from_incident"; "conflicting_existing_bytes"; "durable_request_index_mismatch";
   "incident_hypothesis_detached_from_durable_state"; "incident_request_attempt_membership_mismatch";
   "incident_request_detached_from_durable_state"; "invalid_checkpoint_fields"; "checkpoint_config_mismatch";
   "checkpoint_hash_invalid"; "invalid_ledger_fields"; "ledger_hash_invalid"; "ledger_config_hash_invalid"; "invalid_ledger";
   "ledger_incident_missing_from_durable_state"; "ledger_request_missing_from_durable_state";
   "ledger_classification_missing_from_durable_state"; "request_detached_from_durable_incident"; "request_hash_invalid"].

Definition _is_corrupt_state_error (error : string) : bool :=
  mem error CORRUPT_ERRORS ||
  existsb (fun p => startswith p error) ["durable_"; "invalid_durable_"; "split_commit_"] ||
  existsb (fun p => startswith p error) ["hypothesis_"; "request_"; "classification_"] ||
  (contains "ledger" error && (contains "invalid" error || contains "mismatch" error)).

Definition RESOURCE_KEYS : list string :=
  ["wall_time_ms"; "cpu_time_ms"; "child_cpu_time_ms"; "peak_memory_bytes"; "wall_limit_ms"; "cpu_limit_ms";
   "peak_memory_limit_bytes"].

Definition _validated_resource_probe (value : dict) : res dict :=
  let! _ := rt_ensure (same_keys value RESOURCE_KEYS) "invalid_resource_probe_schema" in
  mapM (fun key => let! _ := rt_ensure (nonneg (vget value key)) "invalid_resource_probe_value" in
                   Ok (key, vget value key)) RESOURCE_KEYS.

(** What the process reads of its clocks: milliseconds since the start,
    truncated, and the peaks as the platform reports them. *)
Record measurement := { wall_ms : Z; cpu_ms : Z; child_cpu_ms : Z; peak_start : Z; peak_now : Z }.

Definition _normalized_peak_rss_bytes (value : Z) : Z := if 10000000 <? value then value else value * 1024.

Definition _measured_resource_usage (config : dict) (m : measurement) : dict :=
  [("wall_time_ms", VInt (Z.max 0 (wall_ms m))); ("cpu_time_ms", VInt (Z.max 0 (cpu_ms m)));
   ("child_cpu_time_ms", VInt (Z.max 0 (child_cpu_ms m)));
   ("peak_memory_bytes", VInt (Z.max 0 (_normalized_peak_rss_bytes (peak_now m) - _normalized_peak_rss_bytes (peak_start m))));
   ("wall_limit_ms", VInt (setting config "max_cycle_wall_ms")); ("cpu_limit_ms", VInt (setting config "max_cpu_ms"));
   ("peak_memory_limit_bytes", VInt (setting config "max_peak_memory_bytes"))].

Definition amount (resources : dict) (key : string) : Z := default 0 (as_int (vget resources key)).

Definition _resource_limit_exceeded (resources : dict) : bool :=
  (amount resources "wall_limit_ms" <? amount resources "wall_time_ms") ||
  (amount resources "cpu_limit_ms" <? amount resources "cpu_time_ms" + amount resources "child_cpu_time_ms") ||
  (amount resources "peak_memory_limit_bytes" <? amount resources "peak_memory_bytes").

(** ** One run *)

(** What a run is given: whether the lease is free, the validator of the
    handoff, the crash an evaluation asks for, the signal that was received,
    the boundary at which it is looked at, and the resources. *)
Record request := {
  rq_lease_free : bool;
  rq_validator : string -> dict -> option dict -> res dict;
  rq_crash_after : option string;
  rq_signal : option string;
  rq_stop_before : string;
  rq_probe : option dict;
  rq_measured : measurement;
  rq_now : string
}.

Section Run.
Context (config : dict) (rq : request).
Notation now := (rq_now rq).

(** The signal, when it was received and this is the boundary. *)
Definition stop_at (boundary : string) : option string := if rq_stop_before rq =s boundary then rq_signal rq else None.

Definition dict_val (d : option dict) : val := match d with Some d => VDict d | None => VNone end.

Definition _load_durable_state : M durable :=
  do! intents := _read_json_directory Intents in
  do! atoms := _read_json_directory Atoms in
  do! incidents := _read_json_directory Incidents in
  do! hypotheses := _read_json_directory Hypotheses in
  do! requests := _read_json_directory Requests in
  do! classifications := _read_json_directory Classifications in
  lift (check_durable config intents atoms incidents hypotheses requests classifications).

(** Everything that is read before the handoff. *)
Definition load_state : M (option dict * option dict * bool * durable) :=
  do! checkpoint_slot := reading (fun r => slots (disk r) Checkpoint) in
  do! checkpoint := _read_optional_json checkpoint_slot in
  do! _ := keep_checkpoint checkpoint in
  do! _ := lift (if is_none checkpoint then Ok tt else _validate_checkpoint checkpoint config) in
  do! ledger_slot := reading (fun r => slots (disk r) Ledger) in
  do! ledger := _read_optional_json ledger_slot in
  do! _ := keep_ledger ledger in
  do! _ := lift (if is_none ledger then Ok tt else
                   let! _ := P137Ledger.validate_standalone ledger in
                   rt_ensure (py_eq (match ledger with VDict l => vget l "config_hash" | _ => VNone end) (vget config "config_hash"))
                     "ledger_config_mismatch") in
  do! pending := lift (_split_commit_pending (as_dict checkpoint) (as_dict ledger)) in
  do! durable := _load_durable_state in
  do! _ := lift (_validate_durable_ledger_membership durable (as_dict ledger)) in
  ret (as_dict checkpoint, as_dict ledger, pending, durable).

Definition read_handoff (checkpoint : option dict) : M (string * dict) :=
  do! handoff_bytes := _read_required_bytes in
  do! canonical := lift (_canonical_payload_from_framed_file handoff_bytes) in
  do! handoff := lift (rq_validator rq canonical config checkpoint) in
  ret (handoff_bytes, handoff).

(** [continuous.get(key) is True] *)
Definition continuous_is (key : string) : bool := is_literal true (vget (dict_or_empty (vget config "continuous_mode")) key).

Definition version_stale (handoff : dict) : bool :=
  continuous_is "enabled" && continuous_is "handoff_version_polling" &&
  negb (py_eq (vget handoff "bundle_version") (vget (dict_or_empty (vget config "continuous_mode")) "expected_bundle_version")).

Definition count_handoff (handoff : dict) : M unit :=
  do! invocations := lift (validator_invocations handoff) in
  do! _ := count "p136_validator_invocation_count" invocations in
  do! records := lift (promotion_record_count handoff) in
  do! _ := count "promotion_record_read_count" records in
  do! bytes := lift (promotion_bytes handoff) in
  count "promotion_bytes_validated" bytes.

Definition reusing (reused : bool) (checkpoint ledger : option dict) : dict :=
  [("checkpoint", dict_val checkpoint); ("ledger", dict_val ledger); ("reused_bundle", VBool reused)].

(** The ledger was written and the checkpoint was not: only the checkpoint
    is. *)
Definition recover_split_commit (checkpoint : option dict) (ledger : option dict) (durable : durable) (handoff : dict) : M dict :=
  do! _ := lift (_validate_split_commit_intent (du_intents durable) handoff ledger) in
  do! ledger := lift (required ledger "split_commit_ledger_missing") in
  do! checkpoint_next := lift (_checkpoint config handoff ledger checkpoint) in
  do! _ := _replace_json Checkpoint checkpoint_next None in
  do! _ := _replace_json Readiness (_readiness config now "ready" (VDict checkpoint_next) None) (Some "readiness_write_count") in
  do! _ := count "recovery_replay_count" 1 in
  do! classification := lift (_last_durable_classification ledger (du_classifications durable)) in
  do! runtime := reading activity in
  ret (_result "ok" None "recovered_split_commit" classification runtime (reusing true (Some checkpoint_next) (Some ledger))).

Definition atom_name (atom : dict) : res string :=
  let! h := _hash (vget atom "atom_hash") "atom_hash" in Ok (json_name h).

Definition reuse_bundle (checkpoint ledger : option dict) (handoff : dict) : M dict :=
  do! atoms := lift (evidence_atoms handoff) in
  do! _ := each (fun atom =>
             do! name := lift (match atom with VDict a => atom_name a | _ => Raise (Exn "AttributeError" "get") end) in
             do! found := reading (fun r => dget (folders (disk r) Atoms) name) in
             match found with Some _ => count "duplicate_atom_count" 1 | None => ret tt end) atoms in
  do! _ := count "recovery_replay_count" 1 in
  do! runtime := reading activity in
  ret (_result "ok" None "reused_bundle" "none" runtime (reusing true checkpoint ledger)).

Definition ingest_atom (atom : val) : M unit :=
  do! _ := count "evidence_atom_count" 1 in
  do! atom := lift (match atom with VDict a => Ok a | _ => Raise (Exn "AttributeError" "get") end) in
  do! name := lift (atom_name atom) in
  do! duplicate := _write_named_json Atoms name atom "evidence_atom_write_count" in
  if duplicate then count "duplicate_atom_count" 1 else ret tt.

Definition resources : res dict :=
  match rq_probe rq with
  | Some value => _validated_resource_probe value
  | None => Ok (_measured_resource_usage config (rq_measured rq))
  end.

(** The intent and the atoms of the handoff. *)
Definition ingest (handoff_bytes : string) (handoff : dict) : M unit :=
  do! intent := lift (_intent config now handoff handoff_bytes) in
  do! _ := _write_named_json Intents (json_name (py_str (vget intent "intent_hash"))) intent "ingest_intent_write_count" in
  do! _ := _maybe_crash (rq_crash_after rq) "ingest_intent" in
  do! atoms := lift (evidence_atoms handoff) in
  each ingest_atom atoms.

(** Incidents, hypotheses and requests are written before anything is
    classified. *)
Definition write_findings (t : triage) : M unit :=
  do! _ := _write_stage_collection Incidents "incident" "incident_write_count" (tr_incident_records t) in
  do! _ := _maybe_crash (rq_crash_after rq) "incident_write" in
  do! _ := _write_stage_collection Hypotheses "hypothesis" "hypothesis_write_count" (tr_hypotheses t) in
  do! earlier := reading (fun r => amount (activity r) "evidence_request_write_count") in
  do! _ := _write_stage_collection Requests "request" "evidence_request_write_count" (tr_requests t) in
  do! later := reading (fun r => amount (activity r) "evidence_request_write_count") in
  do! _ := count "attempted_request_hash_write_count" (later - earlier) in
  _maybe_crash (rq_crash_after rq) "request_write".

Definition cycle_classification (t : triage) : string :=
  match map (fun record => py_str (vget record "classification")) (tr_classifications t) with
  | [] => "none"
  | [c] => c
  | _ => "insufficient_evidence"
  end.

(** The ledger, then the checkpoint. *)
Definition commit (checkpoint ledger : option dict) (handoff : dict) (t : triage) : M dict :=
  do! _ := _write_stage_collection Classifications "classification" "classification_write_count" (tr_classifications t) in
  do! _ := _maybe_crash (rq_crash_after rq) "classification_write" in
  do! runtime := reading activity in
  do! next_ledger := lift (_new_or_reused_ledger config ledger runtime AUTHORITY EVALUATOR t) in
  do! _ := _replace_json Ledger next_ledger (Some "ledger_write_count") in
  do! _ := _maybe_crash (rq_crash_after rq) "ledger_write" in
  do! checkpoint_next := lift (_checkpoint config handoff next_ledger checkpoint) in
  do! _ := _replace_json Checkpoint checkpoint_next None in
  do! _ := _replace_json Readiness (_readiness config now "ready" (VDict checkpoint_next) None) (Some "readiness_write_count") in
  do! runtime := reading activity in
  let classification := cycle_classification t in
  ret (_result "ok" None (if classification =s "aborted_fail_closed" then "aborted_fail_closed" else "cycle_complete")
         classification runtime
         ([("checkpoint", VDict checkpoint_next); ("ledger", VDict next_ledger); ("incidents", VList (map VDict (tr_incidents t)));
           ("hypotheses", VList (map VDict (tr_hypotheses t))); ("requests", VList (map VDict (tr_requests t)));
           ("classifications", VList (map VDict (tr_classifications t))); ("reused_bundle", VBool false)])).

Definition open_incident_hashes (t : triage) : list string := map (fun i => py_str (vget i "incident_hash")) (tr_incidents t).

Definition run_cycle (checkpoint ledger : option dict) (durable : durable) (handoff_bytes : string) (handoff : dict) : M dict :=
  do! _ := ingest handoff_bytes handoff in
  do! measured := lift resources in
  do! t := lift (_triage_handoff config handoff now AUTHORITY (_resource_usage config) (du_requests_by_attempt durable) ledger) in
  do! _ := write_findings t in
  match stop_at "classification" with
  | Some signal_name =>
      _stop_result config "signal_before_classification_unsafe" signal_name "before_classification_write" (dict_val ledger)
        None None (open_incident_hashes t)
  | None =>
      if _resource_limit_exceeded measured
      then _stop_result config "resource_limit_exceeded" "budget_exhausted" "before_classification_write" (dict_val ledger)
             (Some "resource_exhausted") (Some measured) (open_incident_hashes t)
      else commit checkpoint ledger handoff t
  end.

(** The body of the [try]. *)
Definition run_body : M dict :=
  do! _ := count "lease_acquire_count" 1 in
  do! (checkpoint, ledger, pending, durable) := load_state in
  match stop_at "handoff" with
  | Some signal_name =>
      _stop_result config "signal_before_handoff_safe_boundary" signal_name "before_handoff_read" (dict_val ledger) None None []
  | None =>
      do! (handoff_bytes, handoff) := read_handoff checkpoint in
      if version_stale handoff
      then _stop_result config "handoff_version_stale" "handoff_version_stale" "after_handoff_validation_before_ingest"
             (dict_val ledger) None None []
      else
        do! _ := count_handoff handoff in
        if pending : bool then recover_split_commit checkpoint ledger durable handoff else
        do! status := lift (_check_handoff_sequence handoff checkpoint config) in
        if status =s "accept" then run_cycle checkpoint ledger durable handoff_bytes handoff
        else if status =s "reuse" then reuse_bundle checkpoint ledger handoff
        else
          do! runtime := reading activity in
          ret (_result "failed_closed" (Some status) status "none" runtime
                 [("checkpoint", dict_val checkpoint); ("ledger", dict_val ledger)])
  end.

(** The [except]: a corrupt state leaves a receipt. *)
Definition handle (e : exn) : M dict :=
  let error := exn_msg e in
  do! runtime := reading activity in
  let failed := _result "failed_closed" (Some error) error "none" runtime [] in
  if negb (is_value_error e) then lift (Raise e)
  else if startswith "crash_after_" error then ret failed
  else if _is_corrupt_state_error error then
    do! ledger := reading ledger_read in
    _stop_result config "p137_state_corrupt_hash_mismatch" "aborted_fail_closed" "state_validation" ledger
      (Some "corrupt_state") None []
  else ret failed.

Definition start_run (st : store) : run :=
  {| disk := st; before := []; activity := P137Contracts.zero_runtime_activity []; checkpoint_read := VNone; ledger_read := VNone |}.

(** The result, and the run with the stores it went through. *)
Definition run_p137_runtime_once (st : store) : res dict * run :=
  let r := start_run st in
  match P137Contracts.validate_triage_agent_config (VDict config) with
  | Raise e => (Raise e, r)
  | Ok _ =>
      if match rq_crash_after rq with Some p => negb (mem p _CRASH_POINTS) | None => false end
      then (Raise (UE "unknown_crash_point"), r)
      else if negb (mem (rq_stop_before rq) ["handoff"; "classification"])
      then (Raise (UE "unknown_stop_boundary"), r)
      else if negb (rq_lease_free rq)
      then (Ok (_result "failed_closed" (Some "lease_conflict") "lease_conflict" "none" (activity r) []), r)
      else match run_body r with
           | (Ok result, r) => (Ok result, r)
           | (Raise e, r) => handle e r
           end
  end.
End Run.

(** The stores a process that ran may leave: those before each write, and
    the last. *)
Definition possible (r : run) : list store := before r ++ [disk r].

(** ** Continuous mode *)

Definition _parse_timestamp (value : string) : res Z :=
  match fromisoformat_offset (P137Contracts.utc_candidate value) with
  | Some (local, Some offset) =>
      if datetime_range (local - offset) then Ok (local - offset) else Raise (Exn "OverflowError" "date value out of range")
  | _ => Raise (UE "invalid_runtime_timestamp")
  end.

(** [int(delta.total_seconds() * 1_000)], of a difference in microseconds *)
Definition elapsed_ms (us : Z) : Z :=
  let seconds := round_double (inject_Z us / inject_Z 1000000) in
  let ms := round_double (seconds * inject_Z 1000) in
  if Qle_bool 0 ms then Qround.Qfloor ms else Qround.Qceiling ms.

Definition _existing_readiness_is_stale (f : option file) (now : string) (stale_after_ms : Z) : res bool :=
  match f with
  | None => Ok false
  | Some f =>
      let! v := parse f in
      match v with
      | VDict value =>
          let! stale := in_set (vget value "status") ["stale"; "stale_handoff"] in
          if stale : bool then Ok true else
          match vget value "written_at" with
          | VStr written_at =>
              let! now := _parse_timestamp now in
              let! written := _parse_timestamp written_at in
              Ok (stale_after_ms <? Z.max 0 (elapsed_ms (now - written)))
          | _ => Ok false
          end
      | _ => Raise (UE "corrupt_state")
      end
  end.

(** What one cycle of the loop is given: the signal received before it, the
    lease and the resources of its run, and the milliseconds since the loop
    began when it has ended. *)
Record tick := { tk_signal : option string; tk_lease_free : bool; tk_measured : measurement; tk_elapsed_ms : Z }.

Definition DEFAULT_NOW : string := "2026-07-14T00:00:00Z".

(** The variables of the loop. *)
Record loop := {
  lo_run : run;
  lo_last : option dict;
  lo_cycles : Z;
  lo_failures : Z;
  lo_heartbeat : Z;
  lo_stop_reason : string
}.

Definition with_run (r : run) (l : loop) : loop :=
  {| lo_run := r; lo_last := lo_last l; lo_cycles := lo_cycles l; lo_failures := lo_failures l;
     lo_heartbeat := lo_heartbeat l; lo_stop_reason := lo_stop_reason l |}.

Section Loop.
Context (config : dict) (validator : string -> dict -> option dict -> res dict) (now_values : list string) (env : nat -> tick).

Definition mode_field (key : string) : Z := default 0 (as_int (vget (dict_or_empty (vget config "continuous_mode")) key)).

Definition field_of (result : option dict) (key : string) : val := match result with Some d => vget d key | None => VNone end.

(** [last.get("ledger") if last else None] *)
Definition stop_between_cycles (signal_name : string) (l : loop) : res loop * run :=
  match _stop_result config "signal_before_handoff_safe_boundary" signal_name "between_cycles" (field_of (lo_last l) "ledger")
          None None [] (lo_run l) with
  | (Ok result, r) =>
      (Ok {| lo_run := r; lo_last := Some result; lo_cycles := lo_cycles l; lo_failures := lo_failures l;
             lo_heartbeat := lo_heartbeat l; lo_stop_reason := signal_name |}, r)
  | (Raise e, r) => (Raise e, r)
  end.

(** The files of [r] after a run that began with them; the counters of the
    loop are its own. *)
Definition after_run (r : run) (inner : run) : run :=
  {| disk := disk inner; before := before r ++ before inner; activity := activity r;
     checkpoint_read := checkpoint_read r; ledger_read := ledger_read r |}.

Definition request_of (now : string) (t : tick) : request :=
  {| rq_lease_free := tk_lease_free t; rq_validator := validator; rq_crash_after := None; rq_signal := None;
     rq_stop_before := "handoff"; rq_probe := None; rq_measured := tk_measured t; rq_now := now |}.

Definition is_text_of (v : val) (s : string) : bool := py_eq v (VStr s).

(** The failures in a row and the reason to stop, after a result. *)
Definition judge (result : dict) (failures : Z) (reason : string) : Z * string :=
  if is_text_of (vget result "expected_error") "handoff_version_stale" then (failures, "handoff_version_stale")
  else if is_text_of (vget result "status") "failed_closed" then
    (failures + 1, if setting config "max_consecutive_failures" <=? failures + 1 then "failure_threshold_reached" else reason)
  else (0, reason).

Definition readiness_state (result : dict) : string :=
  if truthy (vget result "reused_bundle") then "stale"
  else if is_text_of (vget result "status") "ok" then "ready" else "degraded".

Definition RUNNING : string := "max_cycles_reached".

(** What a cycle writes after its run; the time of the last heartbeat. *)
Definition publish (index : nat) (now : string) (result : dict) (reason : string) (elapsed last_heartbeat : Z) : M Z :=
  let state := readiness_state result in
  do! heartbeat_at :=
    if mode_field "heartbeat_interval_ms" <=? elapsed - last_heartbeat then
      do! _ := _replace_json Heartbeat (_heartbeat config (Z.of_nat index + 1) (vget result "ledger") elapsed state)
                 (Some "heartbeat_write_count") in
      ret elapsed
    else ret last_heartbeat in
  do! _ := _replace_json Readiness
             (_readiness config now state (vget result "checkpoint") (if reason =s RUNNING then None else Some reason))
             (Some "readiness_write_count") in
  ret heartbeat_at.

Definition now_at (index : nat) : string := default DEFAULT_NOW (now_values !! index).

Definition cycle (index : nat) (l : loop) : res loop * run :=
  let t := env index in
  let now := now_at index in
  match run_p137_runtime_once config (request_of now t) (disk (lo_run l)) with
  | (Raise e, inner) => (Raise e, after_run (lo_run l) inner)
  | (Ok result, inner) =>
      let r := after_run (lo_run l) inner in
      let (failures, reason) := judge result (lo_failures l) (lo_stop_reason l) in
      match publish index now result reason (Z.max 0 (tk_elapsed_ms t)) (lo_heartbeat l) r with
      | (Raise e, r) => (Raise e, r)
      | (Ok heartbeat_at, r) =>
          (Ok {| lo_run := r; lo_last := Some result; lo_cycles := lo_cycles l + 1; lo_failures := failures;
                 lo_heartbeat := heartbeat_at; lo_stop_reason := reason |}, r)
      end
  end.

(** [for index in range(cycles_requested)]: [remaining] cycles from [index]. *)
Fixpoint cycles (remaining index : nat) (l : loop) : res loop * run :=
  match remaining with
  | O => (Ok l, lo_run l)
  | S remaining =>
      match tk_signal (env index) with
      | Some signal_name => stop_between_cycles signal_name l
      | None =>
          match cycle index l with
          | (Raise e, r) => (Raise e, r)
          | (Ok l, r) => if lo_stop_reason l =s RUNNING then cycles remaining (S index) l else (Ok l, r)
          end
      end
  end.

Definition _loop_result (cycles_completed max_cycles : Z) (last : option dict) (stale_handoff : bool) (stop_reason : string) : dict :=
  [("schema_version", VStr "p137.runtime_loop_result.v1"); ("cycles_completed", VInt cycles_completed);
   ("bounded", VBool (cycles_completed <=? max_cycles)); ("status", vget_or (default [] last) "status" (VStr "stopped"));
   ("stale_handoff", VBool stale_handoff); ("termination_reason", VStr stop_reason);
   ("last_result", match last with Some d => VDict d | None => VNone end)].

Definition cycles_requested : nat :=
  let max_cycles := Z.to_nat (mode_field "max_cycles") in
  match now_values with [] => max_cycles | _ => Nat.min max_cycles (List.length now_values) end.

Definition run_p137_runtime_loop (st : store) : res dict * run :=
  let r := start_run st in
  let max_cycles := mode_field "max_cycles" in
  match
    (let! _ := P137Contracts.validate_triage_agent_config (VDict config) in
     let! _ := rt_ensure (continuous_is config "enabled") "continuous_mode_not_enabled" in
     _existing_readiness_is_stale (slots st Readiness) (now_at 0) (mode_field "readiness_stale_after_ms"))
  with
  | Raise e => (Raise e, r)
  | Ok true =>
      match _stop_result config "readiness_stale" "readiness_stale" "before_handoff_read" VNone None None [] r with
      | (Raise e, r) => (Raise e, r)
      | (Ok result, r) => (Ok (_loop_result 0 max_cycles (Some result) false "readiness_stale"), r)
      end
  | Ok false =>
      match cycles cycles_requested 0
              {| lo_run := r; lo_last := None; lo_cycles := 0; lo_failures := 0;
                 lo_heartbeat := - mode_field "heartbeat_interval_ms"; lo_stop_reason := RUNNING |} with
      | (Raise e, r) => (Raise e, r)
      | (Ok l, r) =>
          let stale := truthy (field_of (lo_last l) "reused_bundle") in
          (Ok (_loop_result (lo_cycles l) max_cycles (lo_last l) stale (lo_stop_reason l) ++
               [("control_runtime_activity", VDict (activity r))]), r)
      end
  end.
End Loop.
