(* ===== verification/P137Publisher.v ===== *)
(** * The publisher of bundles

    Models the publishing half of app/services/p137_p136_handoff.py: a bundle
    is put together from the documents of the observer, and replaces the one
    at the fixed path in three writes, of an intent, of the bundle and of the
    state, which a recovery finishes when they are cut.  The lease is an
    input; a write is one step, and so is the removal of the intent.
    Directories, symbolic links and descriptors are not modelled. *)

From S2P Require Import Prelude PyValue PyChecks Sha PyTime P137Checks P137Handoff.
From S2P Require P137Contracts P137Triage P137Runtime.

Definition PUBLISHER_STATE_SCHEMA_VERSION : string := "p136.p137_handoff_publisher_state.v1".
Definition PUBLISHER_INTENT_SCHEMA_VERSION : string := "p136.p137_handoff_publish_intent.v1".
Definition PUBLISHER_GENESIS_SCHEMA_VERSION : string := "p136.p137_handoff_publisher.v1".
Definition PUBLISHER_STATE_FIELDS : list string :=
  ["schema_version"; "handoff_chain_root_hash"; "last_bundle_sequence"; "last_bundle_hash"; "last_p136_checkpoint_hash";
   "fixed_handoff_path"; "state_hash"].
Definition PUBLISHER_INTENT_FIELDS : list string :=
  ["schema_version"; "state_hash"; "fixed_handoff_path"; "bundle_sequence"; "previous_bundle_hash"; "bundle_hash"; "bundle";
   "fsync"; "intent_hash"].
Definition _MAX_PUBLISHER_JSON_BYTES : Z := 16 * 1024 * 1024.

(** ** Files *)

Inductive place := StateFile | IntentFile | FixedFile.

#[global] Instance place_eq_dec : EqDecision place.
Proof. solve_decision. Defined.

Definition files : Type := place -> option P137Runtime.file.

Definition put (p : place) (f : option P137Runtime.file) (fs : files) : files := fun p' => if decide (p' = p) then f else fs p'.

(** The files, and those a call has left behind. *)
Record work := { held : files; passed : list files }.

Definition M (A : Type) : Type := work -> res A * work.

Definition ret {A} (a : A) : M A := fun w => (Ok a, w).
Definition lift {A} (m : res A) : M A := fun w => (m, w).
Definition mbind {A B} (m : M A) (k : A -> M B) : M B :=
  fun w => match m w with
           | (Ok a, w') => k a w'
           | (Raise e, w') => (Raise e, w')
           end.

Notation "'do!' x := m 'in' k" := (mbind m (fun x => k))
  (at level 10, x pattern, m at level 100, k at level 200) : py_scope.

Definition reading {A} (f : files -> A) : M A := fun w => (Ok (f (held w)), w).
Definition change (f : files -> files) : M unit := fun w => (Ok tt, {| held := f (held w); passed := passed w ++ [held w] |}).

Definition _atomic_write_json (p : place) (value : dict) : M unit := change (put p (Some (P137Runtime.written value))).

Definition _unlink_optional (p : place) : M unit :=
  do! found := reading (fun fs => fs p) in
  match found with Some _ => change (put p None) | None => ret tt end.

(** [raw[:-1]] when [raw] ends with a newline *)
Definition without_newline (raw : string) : string :=
  if P137Triage.ends_with nl raw then String.substring 0 (String.length raw - 1) raw else raw.

Definition _read_json_optional (p : place) (label : string) : M (option dict) :=
  do! found := reading (fun fs => fs p) in
  match found with
  | None => ret None
  | Some f =>
      let raw := P137Runtime.text f in
      do! _ := lift (ho_ensure (Z.of_nat (String.length raw) <=? _MAX_PUBLISHER_JSON_BYTES) "publisher_json_byte_budget_exceeded") in
      match P137Runtime.parsed f with
      | None => lift (Raise (HE ("invalid_" +:+ label +:+ "_json")))
      | Some (VDict value) =>
          do! _ := lift (ho_ensure (without_newline raw =s canonical_json_bytes value) "noncanonical_publisher_json_bytes") in
          ret (Some value)
      | Some _ => lift (Raise (HE ("invalid_" +:+ label)))
      end
  end.

(** ** Paths *)

Definition _relative_path (v : val) (label : string) : res string :=
  match v with
  | VStr value =>
      let! _ := ho_ensure (negb (is_empty value)) ("invalid_path:" +:+ label) in
      let! _ := ho_ensure (is_empty (P137Contracts.path_root value) &&
                           forallb (fun part => negb (mem part [""; "."; ".."])) (P137Contracts.path_parts value))
                  ("unsafe_path:" +:+ label) in
      Ok (P137Contracts.as_posix value)
  | _ => Raise (HE ("invalid_path:" +:+ label))
  end.

(** The name next to the state. *)
Definition _default_publisher_lease_path (state_path : val) : res string :=
  let! state := _relative_path state_path "state_path" in
  Ok (str_join "/" (removelast (P137Contracts.path_names state) ++ ["p137-publisher.lock"])).

Fixpoint disjoint_paths (paths : list string) : bool :=
  match paths with
  | [] => true
  | left_path :: rest => forallb (fun right_path => negb (P137Contracts._paths_overlap left_path right_path)) rest && disjoint_paths rest
  end.

Definition _validate_publisher_paths (state_path intent_path : val) (fixed_handoff_path lease_path : string) : res unit :=
  let! state := _relative_path state_path "state_path" in
  let! intent := _relative_path intent_path "intent_path" in
  let! fixed := _relative_path (VStr fixed_handoff_path) "fixed_handoff_path" in
  let! lease := _relative_path (VStr lease_path) "lease_path" in
  let paths := [state; intent; fixed; lease] in
  let! _ := ho_ensure (List.length (sorted_set paths) =? List.length paths)%nat "publisher_paths_overlap" in
  ho_ensure (disjoint_paths paths) "publisher_paths_overlap".

(** ** The authority *)

(** A value of the authority: a document, bytes, or a list of both. *)
Inductive item := Document (v : val) | Raw (data : list Z).
Inductive field := One (i : item) | Many (l : list item).

Abbreviation authority := (list (string * field)).

Definition item_mapping (i : item) (label : string) : res dict :=
  match i with Document v => _mapping v label | Raw _ => Raise (HE ("invalid_" +:+ label +:+ "_shape")) end.

Definition _bytes (i : item) (label : string) : res (list Z) :=
  match i with Raw data => Ok data | Document _ => Raise (HE ("invalid_" +:+ label +:+ "_shape")) end.

Definition field_item (f : field) (label : string) : res item :=
  match f with One i => Ok i | Many _ => Raise (HE ("invalid_" +:+ label +:+ "_shape")) end.

Definition field_items (f : field) (label : string) : res (list item) :=
  match f with
  | Many l => Ok l
  | One (Document v) => let! l := _sequence v label in Ok (map Document l)
  | One (Raw _) => Raise (HE ("invalid_" +:+ label +:+ "_shape"))
  end.

Definition authority_field (auth : authority) (key : string) : field := default (One (Document VNone)) (dget auth key).

Definition encoded_document (auth : authority) (key : string) : res (string * val) :=
  let! i := field_item (authority_field auth key) key in
  let! d := item_mapping i key in
  Ok (key, VDict d).

Definition encoded_documents (auth : authority) (key label : string) : res (string * val) :=
  let! l := field_items (authority_field auth key) key in
  let! ds := mapM (fun i => item_mapping i label) l in
  Ok (key, VList (map VDict ds)).

Definition encoded_bytes (auth : authority) (key : string) : res (string * val) :=
  let! i := field_item (authority_field auth key) key in
  let! data := _bytes i key in
  Ok (key, VStr (P137Contracts.hex data)).

Definition encoded_byte_list (auth : authority) (key : string) : res (string * val) :=
  let! l := field_items (authority_field auth key) key in
  let! datas := mapM (fun i => _bytes i key) l in
  Ok (key, vlist_of_strings (map P137Contracts.hex datas)).

Definition _encoded_authority (auth : authority) : res dict :=
  let! _ := ho_ensure (forallb (fun key => dmem key auth) P136_AUTHORITY_FIELDS) "missing_p136_authority_field" in
  let! documents := mapM (encoded_document auth) ["contract"; "review_receipt"; "receipt_ledger"] in
  let! index_receipts := encoded_documents auth "index_receipts" "index_receipt" in
  let! segment_receipts := encoded_documents auth "segment_receipts" "segment_receipt" in
  let! single := mapM (encoded_bytes auth) ["contract_bytes"; "review_receipt_bytes"; "receipt_ledger_bytes"] in
  let! index_bytes := encoded_byte_list auth "index_receipt_bytes" in
  let! segment_bytes := encoded_byte_list auth "segment_receipt_bytes" in
  Ok (documents ++ [index_receipts; segment_receipts] ++ single ++ [index_bytes; segment_bytes]).

(** ** Wrappers *)

Definition bytes_of (value : dict) : list Z := utf8 (canonical_json_bytes value).

Definition entry_wrapper (item : string * val) : res (string * val) :=
  let! entry := _mapping item.2 "entry" in
  let! _ := ho_ensure (py_eq (vget entry "entry_hash") (VStr item.1)) "entry_hash_mismatch" in
  let raw := bytes_of entry in
  Ok (item.1, VDict [("entry", VDict entry); ("entry_bytes", VStr (P137Contracts.hex raw));
                     ("entry_bytes_hash", VStr (P137Contracts.content_hash raw));
                     ("entry_byte_length", VInt (Z.of_nat (List.length raw)))]).

Definition _entry_wrappers (entries : dict) : res dict := mapM entry_wrapper (sort_items entries).

Definition BINDINGS : list string :=
  ["p135_manifest_hash"; "p135_artifact_spec_hash"; "p134_segment_receipt_hash"; "p135_execution_receipt_hash";
   "p135_receipt_ledger_hash"; "p135_normalized_bundle_hash"].

Definition promotion_wrapper (v : val) : res (string * val) :=
  let! promotion := _mapping v "promotion" in
  let! entry_hash := _hash (vget promotion "entry_hash") "promotion_entry_hash" in
  let raw := bytes_of promotion in
  let! promotion_key := _hash (vget promotion "promotion_key") "promotion_key" in
  let! bundle := _mapping (vget promotion "p135_normalized_bundle") "p135_normalized_bundle" in
  let! bindings := mapM (fun key => let! v := vindex promotion key in Ok (key, v)) BINDINGS in
  Ok (entry_hash,
      VDict [("promotion", VDict promotion); ("promotion_bytes", VStr (P137Contracts.hex raw));
             ("promotion_bytes_hash", VStr (P137Contracts.content_hash raw));
             ("promotion_byte_length", VInt (Z.of_nat (List.length raw))); ("promotion_key", VStr promotion_key);
             ("p135_normalized_bundle", VDict bundle); ("p134_p135_bindings", VDict bindings)]).

(** A later promotion of an entry replaces an earlier one. *)
Definition _promotion_wrappers (promotions : list val) : res dict :=
  let! wrappers := mapM promotion_wrapper promotions in
  Ok (fold_left (fun acc kv => dset acc kv.1 kv.2) wrappers []).

(** [bytes.fromhex(str(v))] of text that was made by [hex] *)
Definition from_hex (v : val) : list Z := P137Contracts.fromhex (chars (py_str v)).

(** The parts of a bundle that are bytes, by name. *)
Definition indexed (name : string) (v : val) : list (string * list Z) :=
  imap (fun index encoded => (name +:+ ":" +:+ Z_to_string (Z.of_nat index), from_hex encoded)) (default [] (as_seq v)).

Definition wrapped (name bytes_field : string) (wrappers : dict) : list (string * list Z) :=
  map (fun kv => (name +:+ ":" +:+ kv.1, from_hex (vget (dict_or_empty kv.2) bytes_field))) wrappers.

Definition parts (encoded entries promotions : dict) : list (string * list Z) :=
  map (fun key => (key, from_hex (vget encoded key))) ["contract_bytes"; "review_receipt_bytes"; "receipt_ledger_bytes"] ++
  indexed "index_receipt_bytes" (vget encoded "index_receipt_bytes") ++
  indexed "segment_receipt_bytes" (vget encoded "segment_receipt_bytes") ++
  wrapped "entry_bytes" "entry_bytes" entries ++ wrapped "promotion_bytes" "promotion_bytes" promotions.

Definition descriptor (name : string) (raw : list Z) : val :=
  VDict [("relative_path", VStr ("embedded/" +:+ name +:+ ".json")); ("object_type", VStr name);
         ("byte_length", VInt (Z.of_nat (List.length raw))); ("fsync", VBool true)].

Definition add_parts (f : string -> list Z -> val) (l : list (string * list Z)) : dict :=
  fold_left (fun acc part => dset acc part.1 (f part.1 part.2)) l [].

Definition _descriptors_and_hashes (auth : authority) (entries promotions : dict) : res (dict * dict) :=
  let! encoded := _encoded_authority auth in
  let all := parts encoded entries promotions in
  Ok (add_parts descriptor all, add_parts (fun _ raw => VStr (P137Contracts.content_hash raw)) all).

(** ** The bundle *)

(** What a bundle is made of. *)
Record inputs := {
  in_config : dict;
  in_authority : authority;
  in_now : string;
  in_checkpoint : dict;
  in_entries : dict;
  in_promotions : list val;
  in_review : dict;
  in_release : dict;
  in_created_at : string
}.

Definition under_hash (hash_field : string) (value : dict) : dict := value ++ [(hash_field, VStr (stable_hash (VDict value)))].

Definition _chain_root_for_candidate (state : option dict) (sequence : Z) (previous_bundle_hash : val)
    (fixed_handoff_path created_at p136_checkpoint_hash : string) (promotion_entry_hashes : list string) : res string :=
  match state with
  | Some state => _hash (vget state "handoff_chain_root_hash") "handoff_chain_root_hash"
  | None =>
      Ok (stable_hash (VDict [("schema_version", VStr PUBLISHER_GENESIS_SCHEMA_VERSION); ("bundle_sequence", VInt sequence);
                              ("previous_bundle_hash", previous_bundle_hash); ("fixed_handoff_path", VStr fixed_handoff_path);
                              ("created_at", VStr created_at); ("p136_checkpoint_hash", VStr p136_checkpoint_hash);
                              ("promotion_entry_hashes", vlist_of_strings promotion_entry_hashes)]))
  end.

(** The state that names a bundle. *)
Definition _state_from_bundle (bundle : dict) : res dict :=
  let! chain_root := vindex bundle "handoff_chain_root_hash" in
  let! sequence := vindex bundle "bundle_sequence" in
  let! bundle_hash := vindex bundle "bundle_hash" in
  let! checkpoint_hash := vindex bundle "p136_checkpoint_hash" in
  let! fixed_path := vindex bundle "fixed_handoff_path" in
  Ok (under_hash "state_hash"
        [("schema_version", VStr PUBLISHER_STATE_SCHEMA_VERSION); ("handoff_chain_root_hash", chain_root);
         ("last_bundle_sequence", sequence); ("last_bundle_hash", bundle_hash); ("last_p136_checkpoint_hash", checkpoint_hash);
         ("fixed_handoff_path", fixed_path)]).

Definition FSYNC : dict := [("file", VBool true); ("parent_directory", VBool true)].

Definition intent_of (state : option dict) (fixed_handoff_path : string) (bundle : dict) : dict :=
  under_hash "intent_hash"
    [("schema_version", VStr PUBLISHER_INTENT_SCHEMA_VERSION);
     ("state_hash", match state with Some s => vget s "state_hash" | None => VNone end);
     ("fixed_handoff_path", VStr fixed_handoff_path); ("bundle_sequence", vget bundle "bundle_sequence");
     ("previous_bundle_hash", vget bundle "previous_bundle_hash"); ("bundle_hash", vget bundle "bundle_hash");
     ("bundle", VDict bundle); ("fsync", VDict FSYNC)].

Section Publisher.
Context (obs : observer) (fixed_handoff_path : string).

Definition _candidate_bundle (state : option dict) (i : inputs) : res dict :=
  let! sequence := match state with
                   | None => Ok 1
                   | Some s => let! n := _positive_int (vget s "last_bundle_sequence") "last_bundle_sequence" in Ok (n + 1)
                   end in
  let! previous_hash := match state with
                        | None => Ok VNone
                        | Some s => let! h := _hash (vget s "last_bundle_hash") "last_bundle_hash" in Ok (VStr h)
                        end in
  let! entries := _entry_wrappers (in_entries i) in
  let! promotions := _promotion_wrappers (in_promotions i) in
  let! (descriptors, byte_hashes) := _descriptors_and_hashes (in_authority i) entries promotions in
  let! checkpoint_hash := _hash (vget (in_checkpoint i) "checkpoint_hash") "p136_checkpoint_hash" in
  let! config_hash := _hash (vget (in_config i) "config_hash") "p136_config_hash" in
  let! review_hash := _hash (vget (in_review i) "independent_review_hash") "p136_independent_review_hash" in
  let! release_hash := _hash (vget (in_release i) "evidence_hash") "p136_release_evidence_hash" in
  let! _ := _validate_p136_release_boundary obs (in_review i) (in_release i) in
  let! _ := ho_ensure (py_eq (vget (in_release i) "status") (VStr P137Contracts.P136_QUALIFIED_RELEASE_STATUS)) "invalid_p136_release_status" in
  let! chain_root := _chain_root_for_candidate state sequence previous_hash fixed_handoff_path (in_created_at i) checkpoint_hash
                       (sorted_strings (dkeys promotions)) in
  let! encoded := _encoded_authority (in_authority i) in
  Ok (under_hash "bundle_hash"
        [("schema_version", VStr BUNDLE_SCHEMA_VERSION); ("bundle_version", VInt 1); ("bundle_sequence", VInt sequence);
         ("previous_bundle_hash", previous_hash); ("handoff_chain_root_hash", VStr chain_root);
         ("created_at", VStr (in_created_at i)); ("p136_config", VDict (in_config i)); ("p136_config_hash", VStr config_hash);
         ("p136_runtime_authority", VDict encoded); ("now", VStr (in_now i)); ("p136_checkpoint", VDict (in_checkpoint i));
         ("p136_checkpoint_hash", VStr checkpoint_hash); ("canonical_entry_map", VDict entries);
         ("promotion_map", VDict promotions); ("p136_independent_review", VDict (in_review i));
         ("p136_independent_review_hash", VStr review_hash); ("p136_release_evidence", VDict (in_release i));
         ("p136_release_evidence_hash", VStr release_hash); ("descriptors", VDict descriptors);
         ("canonical_byte_hashes", VDict byte_hashes); ("fixed_handoff_path", VStr fixed_handoff_path);
         ("write_durability", VDict DURABLE_WRITE)]).

(** ** What is on disk *)

Definition self_hashed (value : dict) (hash_field error : string) : res unit :=
  ho_ensure (py_eq (vget value hash_field) (VStr (stable_hash (VDict (dwithout [hash_field] value))))) error.

Definition hash_field_ok (value : dict) (key label : string) : res unit := let! _ := _hash (vget value key) label in Ok tt.

Definition _validate_publisher_state (state : dict) : res unit :=
  let! _ := ho_ensure (same_keys state PUBLISHER_STATE_FIELDS &&
                       py_eq (vget state "schema_version") (VStr PUBLISHER_STATE_SCHEMA_VERSION)) "invalid_publisher_state_fields" in
  let! _ := hash_field_ok state "handoff_chain_root_hash" "publisher_state_handoff_chain_root_hash" in
  let! _ := _positive_int (vget state "last_bundle_sequence") "publisher_state_last_bundle_sequence" in
  let! _ := hash_field_ok state "last_bundle_hash" "publisher_state_last_bundle_hash" in
  let! _ := hash_field_ok state "last_p136_checkpoint_hash" "publisher_state_last_p136_checkpoint_hash" in
  let! _ := ho_ensure (py_eq (vget state "fixed_handoff_path") (VStr fixed_handoff_path)) "publisher_state_fixed_handoff_path_mismatch" in
  self_hashed state "state_hash" "publisher_state_hash_invalid".

Definition _validate_publisher_state_matches_bundle (state bundle : dict) : res unit :=
  let! _ := ho_ensure (py_eq (vget state "last_bundle_sequence") (vget bundle "bundle_sequence"))
              "publisher_state_current_sequence_mismatch" in
  let! _ := ho_ensure (py_eq (vget state "last_bundle_hash") (vget bundle "bundle_hash")) "publisher_state_current_hash_mismatch" in
  let! _ := ho_ensure (py_eq (vget state "last_p136_checkpoint_hash") (vget bundle "p136_checkpoint_hash"))
              "publisher_state_current_checkpoint_hash_mismatch" in
  ho_ensure (py_eq (vget state "handoff_chain_root_hash") (vget bundle "handoff_chain_root_hash"))
    "publisher_state_current_chain_root_mismatch".

(** [_mapping(bundle.get(key), key).get(field)] compared with a field of the
    bundle *)
Definition names_hash_of (bundle : dict) (hash_key key field : string) : res unit :=
  let! d := _mapping (vget bundle key) key in
  ho_ensure (py_eq (vget bundle hash_key) (vget d field)) ("publisher_bundle_" +:+ hash_key +:+ "_mismatch").

Definition _validate_publisher_bundle (bundle : dict) : res unit :=
  let! _ := ho_ensure (same_keys bundle BUNDLE_FIELDS && py_eq (vget bundle "schema_version") (VStr BUNDLE_SCHEMA_VERSION))
              "publisher_bundle_fields_invalid" in
  let! _ := self_hashed bundle "bundle_hash" "publisher_bundle_hash_invalid" in
  let! _ := ho_ensure (py_eq (vget bundle "fixed_handoff_path") (VStr fixed_handoff_path))
              "publisher_bundle_fixed_handoff_path_mismatch" in
  let! sequence := _positive_int (vget bundle "bundle_sequence") "publisher_bundle_sequence" in
  let previous := vget bundle "previous_bundle_hash" in
  let! _ := if sequence =? 1 then ho_ensure (is_none previous) "publisher_bundle_genesis_previous_hash_not_null"
            else let! _ := _hash previous "publisher_bundle_previous_bundle_hash" in Ok tt in
  let! _ := hash_field_ok bundle "handoff_chain_root_hash" "publisher_bundle_handoff_chain_root_hash" in
  let! _ := names_hash_of bundle "p136_config_hash" "p136_config" "config_hash" in
  let! _ := names_hash_of bundle "p136_checkpoint_hash" "p136_checkpoint" "checkpoint_hash" in
  let! _ := names_hash_of bundle "p136_independent_review_hash" "p136_independent_review" "independent_review_hash" in
  let! _ := names_hash_of bundle "p136_release_evidence_hash" "p136_release_evidence" "evidence_hash" in
  let! release_evidence := _mapping (vget bundle "p136_release_evidence") "p136_release_evidence" in
  let! _ := ho_ensure (py_eq (vget release_evidence "status") (VStr P137Contracts.P136_QUALIFIED_RELEASE_STATUS))
              "publisher_bundle_invalid_p136_release_status" in
  let! review := _mapping (vget bundle "p136_independent_review") "p136_independent_review" in
  let! _ := _validate_p136_release_boundary obs review release_evidence in
  let! durability := _mapping (vget bundle "write_durability") "write_durability" in
  ho_ensure (py_eq (VDict durability) (VDict DURABLE_WRITE)) "publisher_bundle_not_durable".

Definition _validate_publisher_intent_envelope (intent : dict) : res unit :=
  let! _ := ho_ensure (same_keys intent PUBLISHER_INTENT_FIELDS &&
                       py_eq (vget intent "schema_version") (VStr PUBLISHER_INTENT_SCHEMA_VERSION)) "invalid_publisher_intent_fields" in
  let! _ := self_hashed intent "intent_hash" "publisher_intent_hash_invalid" in
  let! _ := ho_ensure (py_eq (vget intent "fixed_handoff_path") (VStr fixed_handoff_path))
              "publisher_intent_fixed_handoff_path_mismatch" in
  let! _ := ho_ensure (py_eq (vget intent "fsync") (VDict FSYNC)) "publisher_intent_fsync_invalid" in
  let state_hash := vget intent "state_hash" in
  let! _ := if is_none state_hash then Ok tt else let! _ := _hash state_hash "publisher_intent_state_hash" in Ok tt in
  let! sequence := _positive_int (vget intent "bundle_sequence") "publisher_intent_bundle_sequence" in
  let previous_hash := vget intent "previous_bundle_hash" in
  let! _ := if sequence =? 1
            then ho_ensure (is_none state_hash && is_none previous_hash) "publisher_intent_genesis_binding_invalid"
            else
              let! _ := _hash previous_hash "publisher_intent_previous_bundle_hash" in
              ho_ensure (negb (is_none state_hash)) "publisher_intent_state_missing" in
  let! bundle_hash := _hash (vget intent "bundle_hash") "publisher_intent_bundle_hash" in
  let! bundle := _mapping (vget intent "bundle") "pending_bundle" in
  let! _ := _validate_publisher_bundle bundle in
  let! _ := ho_ensure (py_eq (vget bundle "bundle_hash") (VStr bundle_hash)) "publisher_intent_bundle_hash_mismatch" in
  let! _ := ho_ensure (py_eq (vget bundle "bundle_sequence") (VInt sequence)) "publisher_intent_bundle_sequence_mismatch" in
  ho_ensure (py_eq (vget bundle "previous_bundle_hash") previous_hash) "publisher_intent_previous_bundle_hash_mismatch".

(** [a and b], of which [b] may raise *)
Definition and_then (a : bool) (b : res bool) : res bool := if a then b else Ok false.

Definition _pending_bundle_matches_inputs (pending : dict) (i : inputs) : res bool :=
  let! bundle := _mapping (vget pending "bundle") "pending_bundle" in
  and_then (py_eq (vget bundle "p136_config") (VDict (in_config i))) (
  let! encoded := _encoded_authority (in_authority i) in
  and_then (py_eq (vget bundle "p136_runtime_authority") (VDict encoded) && py_eq (vget bundle "now") (VStr (in_now i)) &&
            py_eq (vget bundle "p136_checkpoint") (VDict (in_checkpoint i))) (
  let! entries := _entry_wrappers (in_entries i) in
  and_then (py_eq (vget bundle "canonical_entry_map") (VDict entries)) (
  let! promotions := _promotion_wrappers (in_promotions i) in
  Ok (py_eq (vget bundle "promotion_map") (VDict promotions) &&
      py_eq (vget bundle "p136_independent_review") (VDict (in_review i)) &&
      py_eq (vget bundle "p136_release_evidence") (VDict (in_release i)) &&
      py_eq (vget bundle "created_at") (VStr (in_created_at i)))))).

(** ** Publishing and recovering *)

Definition _bundle_matches_publisher_state (bundle state : dict) : bool :=
  py_eq (vget bundle "bundle_sequence") (vget state "last_bundle_sequence") &&
  py_eq (vget bundle "bundle_hash") (vget state "last_bundle_hash") &&
  py_eq (vget bundle "p136_checkpoint_hash") (vget state "last_p136_checkpoint_hash") &&
  py_eq (vget bundle "handoff_chain_root_hash") (vget state "handoff_chain_root_hash").

(** The pending bundle continues the state. *)
Definition state_precedes (state : option dict) (pending bundle : dict) : res bool :=
  match state with
  | None =>
      Ok (is_none (vget pending "state_hash") && py_eq (vget bundle "bundle_sequence") (VInt 1) &&
          is_none (vget bundle "previous_bundle_hash"))
  | Some s =>
      and_then (py_eq (vget pending "state_hash") (vget s "state_hash")) (
      let! n := _positive_int (vget s "last_bundle_sequence") "publisher_state_last_bundle_sequence" in
      Ok (py_eq (vget bundle "bundle_sequence") (VInt (n + 1)) &&
          py_eq (vget bundle "previous_bundle_hash") (vget s "last_bundle_hash") &&
          py_eq (vget bundle "handoff_chain_root_hash") (vget s "handoff_chain_root_hash")))
  end.

Definition is_dict (d : option dict) (value : dict) : bool := match d with Some d => py_eq (VDict d) (VDict value) | None => false end.

(** What the evaluator's injector does at a phase: nothing, or it raises. *)
Definition injector : Type := string -> res unit.

Definition _recover_pending_publication (inject : injector) (state : option dict) (pending : dict) (current : option dict) : M dict :=
  do! bundle := lift (_mapping (vget pending "bundle") "pending_bundle") in
  do! new_state := lift (_state_from_bundle bundle) in
  let state_is_committed := is_dict state new_state in
  do! state_is_predecessor := lift (state_precedes state pending bundle) in
  do! _ := lift (ho_ensure (state_is_committed || state_is_predecessor) "publisher_recovery_state_mismatch") in
  let current_is_pending := is_dict current bundle in
  let current_is_predecessor :=
    state_is_predecessor && match state, current with Some s, Some c => _bundle_matches_publisher_state c s | _, _ => false end in
  if state_is_committed then
    do! _ := lift (ho_ensure current_is_pending "publisher_recovery_fixed_bundle_mismatch") in
    do! _ := _unlink_optional IntentFile in
    ret bundle
  else
    do! _ := if current_is_pending : bool then ret tt
             else
               do! _ := lift (ho_ensure (match state, current with None, None => true | _, _ => current_is_predecessor end)
                                "publisher_recovery_fixed_bundle_mismatch") in
               do! _ := _atomic_write_json FixedFile bundle in
               lift (inject "publisher_fixed_replaced") in
    do! _ := _atomic_write_json StateFile new_state in
    do! _ := lift (inject "publisher_state_replaced") in
    do! _ := _unlink_optional IntentFile in
    ret bundle.

Definition check_optional (check : dict -> res unit) (d : option dict) : res unit := match d with Some d => check d | None => Ok tt end.

Definition _publish_p136_handoff_bundle_locked (inject : injector) (crash_after_intent : bool) (i : inputs) : M dict :=
  do! state := _read_json_optional StateFile "publisher_state" in
  do! pending := _read_json_optional IntentFile "publisher_intent" in
  do! current := _read_json_optional FixedFile "current_handoff_bundle" in
  do! _ := lift (check_optional _validate_publisher_state state) in
  do! _ := lift (check_optional _validate_publisher_bundle current) in
  do! _ := lift (check_optional _validate_publisher_intent_envelope pending) in
  match pending with
  | Some pending =>
      do! matches := lift (_pending_bundle_matches_inputs pending i) in
      do! _ := lift (ho_ensure matches "conflicting_pending_handoff_intent") in
      _recover_pending_publication inject state pending current
  | None =>
      do! _ := lift (match state, current with
                     | None, None => Ok tt
                     | None, Some _ => Raise (HE "publisher_current_bundle_without_state")
                     | Some _, None => Raise (HE "publisher_state_current_bundle_missing")
                     | Some s, Some c => _validate_publisher_state_matches_bundle s c
                     end) in
      do! bundle := lift (_candidate_bundle state i) in
      do! _ := _atomic_write_json IntentFile (intent_of state fixed_handoff_path bundle) in
      do! _ := lift (ho_ensure (negb crash_after_intent) "publisher_crash_after_intent") in
      do! _ := lift (inject "publisher_intent_durable") in
      do! _ := _atomic_write_json FixedFile bundle in
      do! _ := lift (inject "publisher_fixed_replaced") in
      do! new_state := lift (_state_from_bundle bundle) in
      do! _ := _atomic_write_json StateFile new_state in
      do! _ := lift (inject "publisher_state_replaced") in
      do! _ := _unlink_optional IntentFile in
      ret bundle
  end.

Definition recover_locked : M dict :=
  do! state := _read_json_optional StateFile "publisher_state" in
  do! pending := _read_json_optional IntentFile "publisher_intent" in
  do! current := _read_json_optional FixedFile "current_handoff_bundle" in
  do! _ := lift (check_optional _validate_publisher_state state) in
  do! _ := lift (check_optional _validate_publisher_bundle current) in
  match pending with
  | None => lift (Raise (HE "publisher_recovery_intent_missing"))
  | Some pending =>
      do! _ := lift (_validate_publisher_intent_envelope pending) in
      _recover_pending_publication (fun _ => Ok tt) state pending current
  end.

(** The state, the intent and the bundle, and the bytes of the bundle. *)
Definition snapshot_locked : M (option dict * option dict * option dict * option string) :=
  do! state := _read_json_optional StateFile "publisher_state" in
  do! intent := _read_json_optional IntentFile "publisher_intent" in
  do! bundle := _read_json_optional FixedFile "current_handoff_bundle" in
  ret (state, intent, bundle, option_map canonical_json_bytes bundle).
End Publisher.

(** ** The calls *)

(** Where the files are, the lease that is asked for, and whether it is free. *)
Record site := {
  st_state_path : val;
  st_intent_path : val;
  st_fixed_handoff_path : string;
  st_lease_path : option val;
  st_lease_free : bool
}.

(** What every call does before it holds the lease. *)
Definition enter (s : site) : res unit :=
  let! _ := ho_ensure (st_fixed_handoff_path s =s P137Contracts.FIXED_P136_HANDOFF_PATH) "invalid_fixed_handoff_path" in
  let! lease := match st_lease_path s with
                | None => _default_publisher_lease_path (st_state_path s)
                | Some path => _relative_path path "lease_path"
                end in
  let! _ := _validate_publisher_paths (st_state_path s) (st_intent_path s) (st_fixed_handoff_path s) lease in
  ho_ensure (st_lease_free s) "publisher_lease_unavailable".

Definition locked {A} (s : site) (body : M A) : M A := do! _ := lift (enter s) in body.

Definition publish_p136_handoff_bundle (obs : observer) (s : site) (inject : injector) (crash_after_intent : bool) (i : inputs) : M dict :=
  locked s (_publish_p136_handoff_bundle_locked obs (st_fixed_handoff_path s) inject crash_after_intent i).

Definition recover_p136_handoff_publication (obs : observer) (s : site) : M dict :=
  locked s (recover_locked obs (st_fixed_handoff_path s)).

Definition read_p136_handoff_publication_snapshot (s : site) : M (option dict * option dict * option dict * option string) :=
  locked s snapshot_locked.
