(* ===== verification/P137DurableProps.v ===== *)
(** * Which atoms can be read back

    The journal holds the atoms the contract of the evidence atom allows; the
    runtime asks more of the atoms it reads. *)

From S2P Require Import Prelude PyValue PyChecks Sha Json P137Checks P137Durable.
From S2P Require P137Contracts P137ContractsProps.

#[local] Opaque stable_hash.

(** ** Hashes *)

Lemma hash_text_ref s : sha256_ref s = true -> hash_text s = true.
Proof.
  unfold sha256_ref, hash_text. intros H. apply andb_true_iff in H as [Hp H]. rewrite Hp. cbn [andb].
  apply andb_true_iff in H as [H _]. apply Nat.eqb_eq in H. apply Nat.eqb_eq.
  assert (E : exists t, s = "sha256:" +:+ t).
  { clear H. unfold startswith in Hp. revert Hp. generalize "sha256:" as p. intros p. revert s.
    induction p as [|c p IH]; intros s Hs; [by exists s|]. destruct s as [|c' s]; [done|]. cbn in Hs.
    destruct (ascii_dec c c') as [->|]; [|done]. apply IH in Hs as [t ->]. by exists t. }
  destruct E as [t ->]. rewrite (substring_drop "sha256:"), substring_all in H by (rewrite length_string_app; lia).
  rewrite length_string_app, H. reflexivity.
Qed.

Lemma hash_text_stable v : hash_text (stable_hash v) = true.
Proof. apply hash_text_ref. auto with py. Qed.

Lemma hash_run s label : hash_text s = true -> _hash (VStr s) label = Ok s.
Proof. unfold _hash. by intros ->. Qed.

Lemma hash_read v label s : _hash v label = Ok s -> v = VStr s /\ hash_text s = true.
Proof. unfold _hash. destruct v; try done. destruct (hash_text s0) eqn:E; [|done]. by intros [= <-]. Qed.

(** ** The fields of an atom that was built *)

Section Built.
Import P137Contracts P137ContractsProps.

Lemma make_fields_get fields raw d k c : make_fields fields raw = Ok d -> In (k, c) fields ->
  exists w, In (k, w) d /\ c (vget raw k) k = Ok w.
Proof.
  unfold make_fields. intros H. apply mapM_ok in H. induction H as [|[k' c'] kv fields d Hk _ IH]; [done|].
  apply bind_ok in Hk as (w & Hw & Hk). injection Hk as <-. intros [E|Hin].
  - injection E as -> ->. exists w. split; [by left | exact Hw].
  - destruct (IH Hin) as (w' & ? & ?). exists w'. split; [by right | done].
Qed.

(** A field is what its check makes of the value given. *)
Lemma built_value raw a k c : build_evidence_atom (VDict raw) = Ok a -> In (k, c) (atom_fields_before ++ atom_fields_after) ->
  c (vget raw k) k = Ok (vget a k).
Proof.
  intros H Hk. apply atom_built in H as B. pose proof (bt_value _ B) as Hv. apply json_value_dict in Hv as [Hw _].
  apply build_atom_ok in H as (raw' & number & unit_ & before & after & E & _ & _ & Hb & Ha & _ & Ea). injection E as <-.
  assert (G : exists w, In (k, w) (before ++ after) /\ c (vget raw k) k = Ok w).
  { apply in_app_iff in Hk as [Hk|Hk]; [destruct (make_fields_get _ _ _ _ _ Hb Hk) as (w & Hi & E) |
      destruct (make_fields_get _ _ _ _ _ Ha Hk) as (w & Hi & E)]; exists w; (split; [apply in_app_iff; auto | exact E]). }
  destruct G as (w & Hi & E). rewrite E. f_equal. symmetry.
  apply vget_some, In_dget; [exact Hw|]. rewrite Ea. apply in_app_iff. left. right. apply in_app_iff in Hi. rewrite !in_app_iff. tauto.
Qed.

Lemma built_field a k c : built a -> In (k, c) (atom_fields_before ++ atom_fields_after) -> c (vget a k) k = Ok (vget a k).
Proof.
  intros B Hk. pose proof (bt_again _ B a (fun k => or_introl eq_refl)) as H. apply (built_value _ _ _ _ H) in Hk as E.
  rewrite vget_restrict in E; [exact E|]. apply mem_In. apply (in_map fst) in Hk. revert Hk. generalize k.
  apply List.Forall_forall. repeat (apply List.Forall_cons; [reflexivity|]). constructor.
Qed.

Lemma built_optional raw a k : build_evidence_atom (VDict raw) = Ok a -> In (k, _optional_hash) (atom_fields_before ++ atom_fields_after) ->
  vget a k = vget raw k.
Proof.
  intros H Hk. apply (built_value _ _ _ _ H) in Hk. unfold _optional_hash in Hk.
  destruct (vget raw k); [by injection Hk|..]; apply bind_ok in Hk as (h & Hh & Hk); apply contract_hash_ok in Hh as [-> _];
    by injection Hk.
Qed.
End Built.

Section Reload.
Import P137Contracts P137ContractsProps.
Context (a : dict) (B : built a).

Lemma hash_field k : In (k, str_field P137Contracts._hash) (atom_fields_before ++ atom_fields_after) ->
  exists h, vget a k = VStr h /\ hash_text h = true.
Proof.
  intros H. apply (built_field a _ _ B) in H. unfold str_field in H. apply bind_ok in H as (h & H & E). injection E as E.
  apply contract_hash_ok in H as [_ H]. exists h. split; [by symmetry | by apply hash_text_ref].
Qed.

(** A hash that may be left out. *)
Lemma optional_field k : In (k, _optional_hash) (atom_fields_before ++ atom_fields_after) ->
  vget a k = VNone \/ exists h, vget a k = VStr h /\ hash_text h = true.
Proof.
  intros H. apply (built_field a _ _ B) in H. unfold _optional_hash in H. destruct (vget a k) eqn:E; [by left|..];
    apply bind_ok in H as (h & H & _); apply contract_hash_ok in H as [-> H]; right; exists h; (split; [done | by apply hash_text_ref]).
Qed.

Lemma optional_hash_iff k label : In (k, _optional_hash) (atom_fields_before ++ atom_fields_after) ->
  (exists h, P137Durable._hash (vget a k) label = Ok h) <-> vget a k <> VNone.
Proof.
  intros H. apply optional_field in H as [->|(h & -> & H)]; (split; [intros [? E]|]); try done.
  intros _. exists h. by apply hash_run.
Qed.

Lemma mapM_hash_all label items l : mapM (fun item => P137Contracts._hash item label) items = Ok l ->
  Forall (fun h => hash_text h = true) l.
Proof.
  intros H. apply mapM_ok in H. induction H as [|v h items l Hv _ IH]; constructor; [|exact IH].
  apply contract_hash_ok in Hv as [_ Hv]. by apply hash_text_ref.
Qed.

Lemma list_field k : In (k, strings_field _hash_list) (atom_fields_before ++ atom_fields_after) ->
  exists l, vget a k = vlist_of_strings l /\ Forall (fun h => hash_text h = true) l.
Proof.
  intros H. apply (built_field a _ _ B) in H. unfold strings_field in H. apply bind_ok in H as (l & H & E). injection E as E.
  exists l. split; [by symmetry|]. unfold _hash_list, sorted_items in H. apply bind_ok in H as (items & _ & H).
  apply bind_ok in H as (r & Hr & H). apply bind_ok in H as (u & _ & H). apply (inj Ok) in H as <-.
  apply mapM_hash_all in Hr. unfold sorted_strings. by rewrite isort_perm.
Qed.

Lemma iterM_hashes label l : Forall (fun h => hash_text h = true) l ->
  iterM (fun item => let! _ := P137Durable._hash item label in Ok tt) (map VStr l) = Ok tt.
Proof. induction 1 as [|h l Hh _ IH]; [reflexivity|]. cbn [map iterM]. rewrite (hash_run _ _ Hh). exact IH. Qed.

Lemma window_field : exists d, vget a "window" = VDict d /\ same_keys d ["start"; "end"] = true /\
  is_string (vget d "start") = true /\ is_string (vget d "end") = true.
Proof.
  pose proof (built_field a "window" (fun v _ => let! w := _window v in Ok (VDict w)) B) as H.
  specialize (H ltac:(do 11 right; left; reflexivity)). apply bind_ok in H as (d & H & E). injection E as E.
  exists d. split; [by symmetry|]. unfold _window in H. do 2 (apply bind_ok in H as (? & _ & H)).
  apply bind_ok in H as (s & _ & H). apply bind_ok in H as (e & _ & H). apply bind_ok in H as (? & _ & H).
  apply (inj Ok) in H as <-. by split_and!.
Qed.

Lemma ordinal_field : positive (vget a "ordinal") = true.
Proof.
  pose proof (built_field a "ordinal" (fun v label => let! z := P137Contracts._positive_int v label in Ok (VInt z)) B) as H.
  specialize (H ltac:(apply in_app_iff; right; do 13 right; left; reflexivity)). apply bind_ok in H as (z & H & E). injection E as <-.
  unfold P137Contracts._positive_int in H. destruct (vget a "ordinal") as [| |w| | | | |]; try discriminate.
  destruct (0 <? w) eqn:E; [by injection H as <- | discriminate].
Qed.

Lemma same_keys_order (d : dict) l l' : (forall k, In k l <-> In k l') -> same_keys d l = same_keys d l'.
Proof.
  intros H. unfold same_keys. apply eq_true_iff_eq. rewrite !andb_true_iff, !forallb_forall. setoid_rewrite mem_In.
  split; intros [H1 H2]; (split; intros k Hk; [by apply H, H1 | apply H2; by apply H]).
Qed.

Lemma durable_atom_fields k : In k _DURABLE_ATOM_FIELDS <-> In k EVIDENCE_ATOM_FIELDS.
Proof.
  split; revert k; apply List.Forall_forall; repeat (apply List.Forall_cons; [apply mem_In; reflexivity|]); constructor.
Qed.

(** The two hashes that may be left out decide. *)
Lemma reloads_iff : _validate_durable_atom (dict_image a) = Ok tt <->
  vget a "content_hash" <> VNone /\ vget a "redacted_preview_hash" <> VNone.
Proof.
  unfold _validate_durable_atom. rewrite same_keys_image, (built_reads_back _ B). split.
  - intros H. apply bind_ok in H as (? & _ & H). apply bind_ok in H as (? & _ & H). apply bind_ok in H as (? & _ & H).
    apply bind_ok in H as ([] & H & _). rewrite iterM_ok, List.Forall_forall in H.
    assert (G : forall k, In k DURABLE_HASH_FIELDS -> vget a k <> VNone).
    { intros k Hk E. specialize (H k Hk). cbn in H. by rewrite vget_image, E in H. }
    split; apply G; apply mem_In; reflexivity.
  - intros [Hc Hp].
    assert (Hs : forall k, In k DURABLE_HASH_FIELDS -> exists h, vget a k = VStr h /\ hash_text h = true).
    { assert (Ho : forall k, In (k, _optional_hash) (atom_fields_before ++ atom_fields_after) -> vget a k <> VNone ->
        exists h, vget a k = VStr h /\ hash_text h = true) by (intros k Hk Hn; by destruct (optional_field k Hk)).
      intros k Hk. repeat (destruct Hk as [<-|Hk]; [try (apply hash_field; cbn; tauto)|]); [| |done];
        apply Ho; try assumption; cbn; tauto. }
    apply (bind_run _ _ tt); [apply ensure_run; rewrite (same_keys_order _ _ _ durable_atom_fields), (bt_keys _ B); by rewrite vget_image, py_eq_str_image, (bt_schema _ B)|].
    apply (bind_run _ _ tt); [reflexivity|].
    apply (bind_run _ _ (stable_hash (VDict (dwithout ["atom_hash"] a)))).
    { rewrite vget_image, (bt_hash _ B). apply hash_run, hash_text_stable. }
    apply (bind_run _ _ tt).
    { apply iterM_ok, List.Forall_forall. intros k Hk. destruct (Hs k Hk) as (h & E & Hh).
      by rewrite vget_image, E, (hash_run h). }
    apply (bind_run _ _ tt).
    { apply iterM_ok, List.Forall_forall. intros k Hk.
      assert (L : exists l, vget a k = vlist_of_strings l /\ Forall (fun h => hash_text h = true) l).
      { repeat (destruct Hk as [<-|Hk]; [apply list_field; cbn; tauto|]). done. }
      destruct L as (l & E & Hl). rewrite vget_image, E. unfold vlist_of_strings. cbn [json_image _sequence as_seq bind].
      rewrite map_map. cbn [json_image]. by apply iterM_hashes. }
    destruct window_field as (d & Hd & Hk & Hs1 & Hs2). apply (bind_run _ _ (dict_image d)); [by rewrite vget_image, Hd|].
    apply (bind_run _ _ tt).
    { apply ensure_run. rewrite same_keys_image, Hk, !vget_image. by destruct (vget d "start"), (vget d "end"). }
    apply ensure_run. rewrite vget_image. pose proof ordinal_field. by destruct (vget a "ordinal").
Qed.
End Reload.

(** Which atoms come back from the journal.  An atom that was built, and
    so is accepted by the contract of the evidence atom, passes the check
    on the atoms the journal holds exactly when it has both hashes the
    contract allows to be null: the one of its content and the one of its
    preview. *)
Theorem built_atom_reloads_iff data a : P137Contracts.build_evidence_atom data = Ok a ->
  _validate_durable_atom (dict_image a) = Ok tt <-> vget a "content_hash" <> VNone /\ vget a "redacted_preview_hash" <> VNone.
Proof. intros H. apply reloads_iff. by eapply P137ContractsProps.atom_built. Qed.
