(* ===== verification/P137RuntimeProps.v ===== *)
(** * What the runtime of the triage guarantees

    Every store a run goes through, also one that a crash leaves, keeps the
    records of the journal and the lineage of ledger and checkpoint; what a
    run changes; and what a split commit, a reused bundle and a stale
    readiness lead to. *)

From S2P Require Import Prelude PyValue PyChecks Sha Json P137Checks P137Durable P137Triage P137Runtime.
From S2P Require P137Contracts P137Ledger P137LedgerProps.

#[local] Opaque stable_hash.

(** ** Stores along a run *)

(** [m] goes through stores in [I] only, when it begins in one. *)
Definition within {A} (I : store -> Prop) (m : M A) : Prop :=
  forall r, I (disk r) -> exists added, possible (m r).2 = possible r ++ added /\ Forall I added.

Lemma possible_disk r r' added (I : store -> Prop) : possible r' = possible r ++ added -> I (disk r) -> Forall I added -> I (disk r').
Proof.
  unfold possible. intros H Hr Ha. destruct added as [|s added _] using rev_ind.
  - rewrite app_nil_r in H. apply app_inj_tail in H as [_ ->]. exact Hr.
  - rewrite app_assoc in H. apply app_inj_tail in H as [_ ->]. apply Forall_app in Ha as [_ Ha]. by apply Forall_cons in Ha as [Ha _].
Qed.

Section Within.
Context (I : store -> Prop).

Lemma within_same {A} (m : M A) : (forall r, disk (m r).2 = disk r /\ before (m r).2 = before r) -> within I m.
Proof. intros H r Hr. exists []. unfold possible. destruct (H r) as [-> ->]. rewrite app_nil_r. auto. Qed.

Lemma within_ret {A} (a : A) : within I (ret a).
Proof. by apply within_same. Qed.

Lemma within_lift {A} (m : res A) : within I (lift m).
Proof. by apply within_same. Qed.

Lemma within_reading {A} (f : run -> A) : within I (reading f).
Proof. by apply within_same. Qed.

Lemma within_count key n : within I (count key n).
Proof. by apply within_same. Qed.

Lemma within_keep_checkpoint v : within I (keep_checkpoint v).
Proof. by apply within_same. Qed.

Lemma within_keep_ledger v : within I (keep_ledger v).
Proof. by apply within_same. Qed.

Lemma within_bind {A B} (m : M A) (k : A -> M B) : within I m -> (forall a, within I (k a)) -> within I (mbind m k).
Proof.
  intros Hm Hk r Hr. unfold mbind. destruct (Hm r Hr) as (added & E & Ha). destruct (m r) as [[a|e] r']; [|eauto].
  cbn [snd] in E. destruct (Hk a r') as (added' & E' & Ha'); [by eapply possible_disk|].
  exists (added ++ added'). rewrite E', E, app_assoc. split; [done | by apply Forall_app].
Qed.

Lemma within_each {A} (f : A -> M unit) l : (forall x, within I (f x)) -> within I (each f l).
Proof. intros H. induction l as [|x l IH]; [apply within_ret | apply within_bind; auto]. Qed.

Lemma within_write f : (forall s, I s -> I (f s)) -> within I (write f).
Proof. intros H r Hr. exists [f (disk r)]. split; [reflexivity | by repeat constructor; apply H]. Qed.

Lemma within_if {A} (b : bool) (m m' : M A) : within I m -> within I m' -> within I (if b then m else m').
Proof. by destruct b. Qed.
End Within.

(** Programs made of the above. *)
Create HintDb within.
#[export] Hint Resolve within_ret within_lift within_reading within_count within_keep_checkpoint within_keep_ledger : within.
Ltac within_step :=
  match goal with
  | |- within _ (mbind _ _) => apply within_bind
  | |- within _ (each _ _) => apply within_each
  | |- within _ (if _ then _ else _) => apply within_if
  | |- forall _, _ => intros ?
  | |- within _ (match ?x with _ => _ end) => destruct x
  | |- within _ (let _ := _ in _) => cbv zeta
  end.
Ltac within_solve := repeat (within_step || (solve [auto with within])).

(** ** What a run reads it does not change *)

Section Reads.
Context (I : store -> Prop).

Lemma within_read f : within I (_read_optional_json f).
Proof. unfold _read_optional_json. within_solve. Qed.
#[local] Hint Resolve within_read : within.

Lemma within_read_files l : within I (read_files l).
Proof. induction l as [|[n f] l IH]; cbn [read_files]; within_solve. Qed.
#[local] Hint Resolve within_read_files : within.

Lemma within_directory d : within I (_read_json_directory d).
Proof. unfold _read_json_directory. within_solve. Qed.
#[local] Hint Resolve within_directory : within.

Lemma within_bytes : within I _read_required_bytes.
Proof. unfold _read_required_bytes. within_solve. Qed.
#[local] Hint Resolve within_bytes : within.

Lemma within_load_state config : within I (load_state config).
Proof. unfold load_state, _load_durable_state. within_solve. Qed.

Lemma within_read_handoff config rq checkpoint : within I (read_handoff config rq checkpoint).
Proof. unfold read_handoff. within_solve. Qed.

Lemma within_count_handoff handoff : within I (count_handoff handoff).
Proof. unfold count_handoff. within_solve. Qed.

Lemma within_crash requested current : within I (_maybe_crash requested current).
Proof. apply within_lift. Qed.
End Reads.
#[export] Hint Resolve within_read within_directory within_load_state within_read_handoff within_count_handoff within_crash : within.

(** ** Properties every write keeps *)

(** [I] is kept by a record added under a name that is free, and by writing
    the slots in [allowed]. *)
Record kept_by (I : store -> Prop) (allowed : slot -> bool) : Prop := {
  kept_add : forall d name f s, I s -> dget (folders s d) name = None -> I (add_file d name f s);
  kept_slot : forall c f s, allowed c = true -> I s -> I (set_slot c f s)
}.

Section Writes.
Context (I : store -> Prop) (allowed : slot -> bool) (K : kept_by I allowed).

Lemma within_named d name value counter : within I (_write_named_json d name value counter).
Proof.
  unfold _write_named_json. intros r Hr. unfold mbind at 1, reading. cbn [fst snd].
  destruct (dget (folders (disk r) d) name) as [existing|] eqn:E.
  - assert (W : within I (do! _ := lift (rt_ensure (text existing =s _canonical_json_bytes value) "conflicting_existing_bytes") in ret true))
      by within_solve. exact (W r Hr).
  - exists [add_file d name (written value) (disk r)]. split; [reflexivity|]. repeat constructor. by apply (kept_add _ _ K).
Qed.
#[local] Hint Resolve within_named : within.

Lemma within_stage d kind counter items : within I (_write_stage_collection d kind counter items).
Proof. unfold _write_stage_collection. within_solve. Qed.
#[local] Hint Resolve within_stage : within.

Lemma within_replace c value counter : allowed c = true -> within I (_replace_json c value counter).
Proof.
  intros Hc. unfold _replace_json. apply within_bind; [|within_solve]. apply within_write. intros s Hs.
  by apply (kept_slot _ _ K).
Qed.

Lemma within_stop config e reason boundary ledger termination resources opened :
  within I (_stop_result config e reason boundary ledger termination resources opened).
Proof. unfold _stop_result. within_solve. Qed.
#[local] Hint Resolve within_stop : within.

Lemma within_ingest config rq bytes handoff : within I (ingest config rq bytes handoff).
Proof. unfold ingest, ingest_atom. within_solve. Qed.

Lemma within_findings rq t : within I (write_findings rq t).
Proof. unfold write_findings. within_solve. Qed.

Lemma within_reuse checkpoint ledger handoff : within I (reuse_bundle checkpoint ledger handoff).
Proof. unfold reuse_bundle. within_solve. Qed.

Lemma within_handle config e : within I (handle config e).
Proof. unfold handle. within_solve. Qed.
End Writes.
#[export] Hint Resolve within_named within_stage within_stop within_ingest within_findings within_reuse within_handle : within.

(** ** The journal *)

Definition keeps_records (st s : store) : Prop :=
  forall d name f, dget (folders st d) name = Some f -> dget (folders s d) name = Some f.

Lemma keeps_records_kept st : kept_by (keeps_records st) (fun _ => true).
Proof.
  constructor.
  - intros d name f s Hs Hfree d' name' f' Hf. apply Hs in Hf. cbn. destruct (decide (d' = d)) as [->|]; [|exact Hf].
    rewrite dget_dset. destruct (String.eqb_spec name' name) as [->|]; [congruence | exact Hf].
  - intros c f s _ Hs d' name' f' Hf. by apply Hs.
Qed.

Section AllSlots.
Context (I : store -> Prop) (K : kept_by I (fun _ => true)).

Lemma within_replace_any c value counter : within I (_replace_json c value counter).
Proof. by eapply within_replace. Qed.
#[local] Hint Resolve within_replace_any : within.

Lemma within_run_body config rq : within I (run_body config rq).
Proof.
  unfold run_body, recover_split_commit, run_cycle, commit. within_solve; eauto with within.
Qed.

End AllSlots.

(** ** Runs and loops *)

(** The slots a stop, a handler or the loop itself may write. *)
Definition not_the_chain (c : slot) : bool := match c with Checkpoint | Ledger => false | _ => true end.

Lemma kept_fewer I : kept_by I (fun _ => true) -> kept_by I not_the_chain.
Proof. intros [Ha Hs]. constructor; [exact Ha|]. intros c f s _. by apply Hs. Qed.

(** A run from [st]: the stores after it. *)
Definition from_store (I : store -> Prop) (st : store) (r : run) : Prop := exists added, possible r = st :: added /\ Forall I added.

(** A run, whose body goes through stores in [I]. *)
Lemma run_once_from I config rq st : kept_by I not_the_chain -> I st ->
  from_store I st (run_body config rq (start_run st)).2 -> from_store I st (run_p137_runtime_once config rq st).2.
Proof.
  intros K Hst Hbody. assert (H0 : from_store I st (start_run st)) by (exists []; by split).
  unfold run_p137_runtime_once. destruct (P137Contracts.validate_triage_agent_config _); [|exact H0].
  destruct (match rq_crash_after rq with Some _ => _ | None => _ end); [exact H0|].
  destruct (negb (mem (rq_stop_before rq) _)); [exact H0|]. destruct (negb (rq_lease_free rq)); [exact H0|].
  destruct Hbody as (added & E & Ha).
  destruct (run_body config rq (start_run st)) as [[result|e] r]; cbn [snd] in E; [by exists added|].
  destruct (within_handle I _ K config e r) as (more & E' & Ha').
  { eapply (possible_disk (start_run st)); [exact E | exact Hst | exact Ha]. }
  exists (added ++ more). rewrite E', E. split; [reflexivity | by apply Forall_app].
Qed.

Lemma run_once_within I config rq st : kept_by I (fun _ => true) -> I st -> from_store I st (run_p137_runtime_once config rq st).2.
Proof.
  intros K Hst. apply run_once_from; [by apply kept_fewer | done|]. exact (within_run_body I K config rq (start_run st) Hst).
Qed.

Lemma from_store_forall I st r : from_store I st r -> I st -> Forall I (possible r).
Proof. intros (added & -> & Ha) Hst. by apply Forall_cons. Qed.

Lemma after_run_possible r inner added : possible inner = disk r :: added -> possible (after_run r inner) = possible r ++ added.
Proof. unfold possible, after_run. cbn. intros E. by rewrite <- !app_assoc, E. Qed.

Section Loops.
Context (I : store -> Prop) (K : kept_by I not_the_chain) (config : dict) (validator : string -> dict -> option dict -> res dict).
Context (Hrun : forall now t st, I st -> from_store I st (run_p137_runtime_once config (request_of validator now t) st).2).

Lemma within_replace_other c value counter : not_the_chain c = true -> within I (_replace_json c value counter).
Proof. intros H. by eapply within_replace. Qed.
#[local] Hint Resolve within_replace_other : within.

Lemma within_publish index now result reason elapsed at_ : within I (publish config index now result reason elapsed at_).
Proof. unfold publish. within_solve. Qed.

Lemma cycle_within nows env index l : I (disk (lo_run l)) ->
  exists added, possible (cycle config validator nows env index l).2 = possible (lo_run l) ++ added /\ Forall I added /\
    forall l', (cycle config validator nows env index l).1 = Ok l' -> lo_run l' = (cycle config validator nows env index l).2.
Proof.
  intros H. unfold cycle.
  destruct (Hrun (now_at nows index) (env index) _ H) as (added & E & Ha).
  destruct (run_p137_runtime_once _ _ _) as [[result|e] inner]; cbn [snd fst] in *; apply after_run_possible in E.
  2: { exists added. split; [exact E | split; [exact Ha | done]]. }
  destruct (judge _ _ _ _) as [failures reason]. destruct (within_publish index (now_at nows index) result reason
    (Z.max 0 (tk_elapsed_ms (env index))) (lo_heartbeat l) (after_run (lo_run l) inner)) as (more & E' & Hm); [by eapply possible_disk|].
  exists (added ++ more). destruct (publish _ _ _ _ _ _ _ _) as [[at_|e] r]; cbn [snd fst] in *;
    (split; [by rewrite E', E, app_assoc | split; [by apply Forall_app|]]); [by intros l' [= <-] | done].
Qed.

Lemma cycles_within nows env n index l : I (disk (lo_run l)) ->
  exists added, possible (cycles config validator nows env n index l).2 = possible (lo_run l) ++ added /\ Forall I added.
Proof.
  revert index l. induction n as [|n IH]; intros index l H; [exists []; by rewrite app_nil_r|]. cbn [cycles].
  destruct (tk_signal (env index)) as [s|].
  - unfold stop_between_cycles. destruct (within_stop I _ K config "signal_before_handoff_safe_boundary" s "between_cycles"
      (field_of (lo_last l) "ledger") None None [] _ H) as (added & E & Ha). exists added.
    by destruct (_stop_result _ _ _ _ _ _ _ _ _) as [[result|e] r].
  - destruct (cycle_within nows env index l H) as (added & E & Ha & Hl).
    destruct (cycle config validator nows env index l) as [[l'|e] r]; cbn [fst snd] in *; [|eauto].
    destruct (lo_stop_reason l' =s RUNNING); [|eauto]. specialize (Hl l' eq_refl).
    destruct (IH (S index) l') as (more & E' & Hm); [rewrite Hl; by eapply possible_disk|].
    exists (added ++ more). rewrite E', Hl, E, app_assoc. split; [done | by apply Forall_app].
Qed.

Lemma run_loop_within nows env st : I st ->
  from_store I st (run_p137_runtime_loop config validator nows env st).2.
Proof.
  intros Hst. assert (H0 : from_store I st (start_run st)) by (exists []; by split).
  unfold run_p137_runtime_loop. destruct (bind _ _) as [[|]|e]; [| |exact H0].
  - destruct (within_stop I _ K config "readiness_stale" "readiness_stale" "before_handoff_read" VNone None None []
      (start_run st) Hst) as (added & E & Ha). exists added. by destruct (_stop_result _ _ _ _ _ _ _ _ _) as [[result|e] r].
  - match goal with |- context [cycles ?a ?b ?c ?d ?n ?i ?l] => destruct (cycles_within c d n i l Hst) as (added & E & Ha) end.
    exists added. destruct (cycles _ _ _ _ _ _ _) as [[l|e] r]; exact (conj E Ha).
Qed.

End Loops.

(** C6: the journal is append-only.  Whatever the files, the handoffs, the
    signals and the crashes, in every store a run or a whole loop goes
    through, and so in every store that a process leaves which dies at any
    moment, each record that was in a folder is still there, unchanged. *)
Theorem journal_is_append_only config rq validator nows env st :
  Forall (keeps_records st) (possible (run_p137_runtime_once config rq st).2) /\
  Forall (keeps_records st) (possible (run_p137_runtime_loop config validator nows env st).2).
Proof.
  pose proof (keeps_records_kept st) as K. assert (H : keeps_records st st) by (intros d name f; auto).
  split; apply (from_store_forall _ st); try exact H; [by apply run_once_within|].
  apply run_loop_within; [by apply kept_fewer | | exact H]. intros. by apply run_once_within.
Qed.

(** ** What a run has loaded *)

Lemma mbind_ok {A B} (m : M A) (k : A -> M B) r b r'' :
  mbind m k r = (Ok b, r'') <-> exists a r', m r = (Ok a, r') /\ k a r' = (Ok b, r'').
Proof.
  unfold mbind. split.
  - destruct (m r) as [[a|e] r'] eqn:E; [eauto | done].
  - intros (a & r' & -> & H). exact H.
Qed.

(** The value of a slot: [None] also when there is no file. *)
Definition slot_value (st : store) (c : slot) : option val :=
  match slots st c with None => Some VNone | Some f => parsed f end.

(** The state a run starts from, when it loads. *)
Record loaded (config : dict) (st : store) (cp l : option dict) (pending : bool) : Prop := {
  ld_checkpoint : slot_value st Checkpoint = Some (dict_val cp);
  ld_ledger : slot_value st Ledger = Some (dict_val l);
  ld_valid : forall c, cp = Some c -> _validate_checkpoint (VDict c) config = Ok tt;
  ld_standalone : forall d, l = Some d -> P137Ledger.validate_standalone (VDict d) = Ok tt;
  ld_config : forall d, l = Some d -> py_eq (vget d "config_hash") (vget config "config_hash") = true;
  ld_pending : _split_commit_pending cp l = Ok pending
}.

Lemma read_optional_ok f r v r' : _read_optional_json f r = (Ok v, r') ->
  (match f with None => Some VNone | Some f => parsed f end) = Some v /\ disk r' = disk r.
Proof.
  unfold _read_optional_json. destruct f as [f|].
  - intros H. apply mbind_ok in H as ([] & r1 & H1 & H). injection H1 as <-. unfold lift, parse in H.
    destruct (parsed f) as [w|]; [|done]. injection H as <- <-. done.
  - intros H. injection H as <- <-. done.
Qed.

Lemma checkpoint_is_dict v config : (if is_none v then Ok tt else _validate_checkpoint v config) = Ok tt -> v = dict_val (as_dict v).
Proof. by destruct v. Qed.

Lemma load_state_ok config r cp l pending du r' : load_state config r = (Ok (cp, l, pending, du), r') ->
  loaded config (disk r) cp l pending /\ disk r' = disk r /\ _validate_durable_ledger_membership du l = Ok tt.
Proof.
  intros H. assert (Hd : disk r' = disk r).
  { destruct (within_load_state (eq (disk r)) config r eq_refl) as (added & E & Ha). rewrite H in E. cbn [snd] in E.
    symmetry. by eapply (possible_disk r r' added (eq (disk r))). }
  unfold load_state in H. apply mbind_ok in H as (f & r1 & H1 & H). injection H1 as <- <-.
  apply mbind_ok in H as (v & r1 & H1 & H). apply read_optional_ok in H1 as [Hv Hr1].
  apply mbind_ok in H as ([] & r2 & H2 & H). injection H2 as <-.
  apply mbind_ok in H as ([] & r3 & H3 & H). injection H3 as Hval <-.
  apply mbind_ok in H as (f & r3 & H3 & H). injection H3 as <- <-. cbn [disk] in H. rewrite Hr1 in H.
  apply mbind_ok in H as (w & r4 & H4 & H). apply read_optional_ok in H4 as [Hw Hr4].
  apply mbind_ok in H as ([] & r5 & H5 & H). injection H5 as <-.
  apply mbind_ok in H as ([] & r6 & H6 & H). injection H6 as Hstand <-.
  apply mbind_ok in H as (pend & r7 & H7 & H). injection H7 as Hpend <-.
  apply mbind_ok in H as (dur & r8 & H8 & H). apply mbind_ok in H as ([] & r9 & H9 & H). injection H9 as Hm <-.
  injection H as <- <- -> -> <-. split; [|split; [exact Hd | exact Hm]].
  assert (Ew : w = dict_val (as_dict w)).
  { destruct (is_none w) eqn:E; [by destruct w|]. apply bind_ok in Hstand as (u & Hs & _). by destruct w. }
  constructor.
  - unfold slot_value. by rewrite Hv, <- (checkpoint_is_dict _ _ Hval).
  - unfold slot_value. by rewrite Hw, <- Ew.
  - intros c Hc. destruct v; try done. injection Hc as <-. exact Hval.
  - intros d Hc. destruct w; try done. injection Hc as <-. apply bind_ok in Hstand as ([] & Hs & _). exact Hs.
  - intros d Hc. destruct w; try done. injection Hc as <-. apply bind_ok in Hstand as ([] & _ & Hs). by apply ensure_ok in Hs.
  - exact Hpend.
Qed.

(** ** The chain of ledgers and checkpoints *)

(** [nl] is a next ledger after [l]. *)
Definition follows (config : dict) (l : option dict) (nl : dict) : Prop :=
  exists runtime t, _new_or_reused_ledger config l runtime AUTHORITY EVALUATOR t = Ok nl.

(** What a store is, compared with the one the run began with. *)
Inductive progress (v : string -> dict -> option dict -> res dict) (config : dict) (st s : store) : Prop :=
  | unchanged : slots s Checkpoint = slots st Checkpoint -> slots s Ledger = slots st Ledger -> progress v config st s
  | ledger_ahead cp l nl h : loaded config st cp l false -> _check_handoff_sequence h cp config = Ok "accept" ->
      follows config l nl -> slots s Checkpoint = slots st Checkpoint -> slots s Ledger = Some (written nl) ->
      progress v config st s
  | committed cp l nl h c : loaded config st cp l false -> _check_handoff_sequence h cp config = Ok "accept" ->
      follows config l nl -> _checkpoint config h nl cp = Ok c ->
      slots s Checkpoint = Some (written c) -> slots s Ledger = Some (written nl) -> progress v config st s
  | caught_up cp l h c b : loaded config st cp (Some l) true -> v b config cp = Ok h ->
      _checkpoint config h l cp = Ok c -> slots s Checkpoint = Some (written c) -> slots s Ledger = slots st Ledger ->
      progress v config st s.

Definition at_slots (a b : option file) (s : store) : Prop := slots s Checkpoint = a /\ slots s Ledger = b.

Lemma at_slots_kept a b : kept_by (at_slots a b) not_the_chain.
Proof. constructor; [by intros d name f s Hs _|]. intros c f s Hc [H1 H2]. by destruct c. Qed.

(** The stores [m] adds to a run are in [I]. *)
Definition goes {A} (I : store -> Prop) (m : M A) (r : run) : Prop :=
  exists added, possible (m r).2 = possible r ++ added /\ Forall I added.

Lemma goes_impl {A} (I J : store -> Prop) (m : M A) r : (forall s, J s -> I s) -> goes J m r -> goes I m r.
Proof. intros H (added & E & Ha). exists added. split; [done|]. by eapply Forall_impl. Qed.

Lemma goes_bind {A B} (I : store -> Prop) (m : M A) (k : A -> M B) r :
  goes I m r -> (forall a r', m r = (Ok a, r') -> goes I (k a) r') -> goes I (mbind m k) r.
Proof.
  intros (added & E & Ha) Hk. unfold mbind, goes in *. destruct (m r) as [[a|e] r'] eqn:Em; cbn [snd] in E; [|by exists added].
  destruct (Hk a r' eq_refl) as (more & E' & Hm). exists (added ++ more).
  rewrite E', E, app_assoc. split; [done | by apply Forall_app].
Qed.

(** As long as [J] holds nothing is lost of [I]. *)
Lemma goes_bind_at {A B} (J I : store -> Prop) (m : M A) (k : A -> M B) r :
  (forall s, J s -> I s) -> within J m -> J (disk r) ->
  (forall a r', m r = (Ok a, r') -> J (disk r') -> goes I (k a) r') -> goes I (mbind m k) r.
Proof.
  intros Hi Hw Hj Hk. apply goes_bind; [eapply goes_impl; [exact Hi | exact (Hw r Hj)]|].
  intros a r' E. apply Hk; [exact E|]. destruct (Hw r Hj) as (added & Ep & Ha). rewrite E in Ep. cbn [snd] in Ep.
  by eapply (possible_disk r).
Qed.

Lemma goes_replace {B} (I : store -> Prop) c value counter (k : unit -> M B) r :
  I (set_slot c (written value) (disk r)) ->
  (forall r', disk r' = set_slot c (written value) (disk r) -> goes I (k tt) r') ->
  goes I (mbind (_replace_json c value counter) k) r.
Proof.
  intros Hi Hk. apply goes_bind.
  - unfold goes, _replace_json. exists [set_slot c (written value) (disk r)].
    split; [by destruct counter | by repeat constructor].
  - intros [] r' E. apply Hk. unfold _replace_json in E. destruct counter; by injection E as <-.
Qed.

Section Body.
Context (config : dict) (rq : request) (st : store).
Notation I := (progress (rq_validator rq) config st).
Notation J := (at_slots (slots st Checkpoint) (slots st Ledger)).

Lemma unchanged_here s : J s -> I s.
Proof. intros [H1 H2]. by apply unchanged. Qed.

Lemma start_slots_kept : kept_by J not_the_chain.
Proof. apply at_slots_kept. Qed.
#[local] Hint Resolve start_slots_kept : within.

(** A part that leaves the slots of the chain as they are. *)
Lemma goes_within {A} (J' : store -> Prop) (m : M A) r : (forall s, J' s -> I s) -> within J' m -> J' (disk r) -> goes I m r.
Proof. intros Hi Hw Hj. eapply goes_impl; [exact Hi | exact (Hw r Hj)]. Qed.

Lemma goes_pure {A B} (m : res A) (k : A -> M B) r : (forall a, m = Ok a -> goes I (k a) r) -> goes I (mbind (lift m) k) r.
Proof.
  intros H. apply goes_bind; [by exists []; rewrite app_nil_r|]. intros a r' [= Ha <-]. auto.
Qed.

Lemma commit_goes cp l handoff t r : loaded config st cp l false -> _check_handoff_sequence handoff cp config = Ok "accept" ->
  J (disk r) -> goes I (commit config rq cp l handoff t) r.
Proof.
  intros Hl Hs Hr. unfold commit.
  apply (goes_bind_at J); [exact unchanged_here | eauto with within | done |]; clear Hr; intros ? r' _ Hr; clear r.
  apply (goes_bind_at J); [exact unchanged_here | eauto with within | done |]; clear Hr; intros ? r _ Hr; clear r'.
  apply (goes_bind_at J); [exact unchanged_here | eauto with within | done |]; clear Hr; intros ? r' _ Hr; clear r.
  apply goes_pure. intros nl Hn. assert (Hf : follows config l nl) by (eexists; eexists; exact Hn).
  apply goes_replace; [eapply ledger_ahead; eauto; apply Hr|]. intros r1 E1.
  set (A := at_slots (slots st Checkpoint) (Some (written nl))).
  assert (HA : forall s, A s -> I s) by (intros s [H1 H2]; by eapply ledger_ahead).
  apply (goes_bind_at A); [exact HA | eauto with within | rewrite E1; split; [apply Hr | reflexivity] |]. intros ? r2 _ H2.
  apply goes_pure. intros c Hc.
  apply goes_replace; [eapply committed; eauto; apply H2|]. intros r3 E3.
  set (C := at_slots (Some (written c)) (Some (written nl))).
  apply (goes_within C); [intros s [H3 H4]; by eapply committed | | rewrite E3; split; [reflexivity | apply H2]].
  apply within_bind; [by eapply within_replace; [apply at_slots_kept|] | within_solve].
Qed.

Lemma recover_goes cp l durable b handoff r : loaded config st cp l true -> rq_validator rq b config cp = Ok handoff ->
  J (disk r) -> goes I (recover_split_commit config rq cp l durable handoff) r.
Proof.
  intros Hl Hv Hr. unfold recover_split_commit. apply goes_pure. intros [] _. apply goes_pure. intros l' Hl'.
  assert (l = Some l') as -> by (destruct l; [by injection Hl' as -> | done]).
  apply goes_pure. intros c Hc. apply goes_replace; [eapply caught_up; eauto; apply Hr|]. intros r1 E1.
  set (C := at_slots (Some (written c)) (slots st Ledger)).
  apply (goes_within C); [intros s [H3 H4]; by eapply caught_up | | rewrite E1; split; [reflexivity | apply Hr]].
  apply within_bind; [by eapply within_replace; [apply at_slots_kept|] | within_solve].
Qed.

Lemma run_cycle_goes cp l du bytes handoff r : loaded config st cp l false -> _check_handoff_sequence handoff cp config = Ok "accept" ->
  J (disk r) -> goes I (run_cycle config rq cp l du bytes handoff) r.
Proof.
  intros Hl Hs Hr. unfold run_cycle.
  apply (goes_bind_at J); [exact unchanged_here | eauto with within | done |]. intros ? r1 _ H1.
  apply goes_pure. intros m _. apply goes_pure. intros t _.
  apply (goes_bind_at J); [exact unchanged_here | eauto with within | done |]. intros ? r2 _ H2.
  destruct (stop_at rq "classification"); [eapply goes_within; [exact unchanged_here | eauto with within | done]|].
  destruct (_resource_limit_exceeded m); [eapply goes_within; [exact unchanged_here | eauto with within | done]|].
  by apply commit_goes.
Qed.

Lemma read_handoff_ok cp r bytes handoff r' : read_handoff config rq cp r = (Ok (bytes, handoff), r') ->
  exists canonical, rq_validator rq canonical config cp = Ok handoff.
Proof.
  intros H. unfold read_handoff in H. apply mbind_ok in H as (raw & r1 & _ & H). apply mbind_ok in H as (c & r2 & _ & H).
  apply mbind_ok in H as (h & r3 & H3 & H). injection H3 as Hv <-. injection H as <- <- <-. eauto.
Qed.

Lemma run_body_goes : goes I (run_body config rq) (start_run st).
Proof.
  assert (H0 : J (disk (start_run st))) by done.
  unfold run_body. apply (goes_bind_at J); [exact unchanged_here | eauto with within | done |].
  intros [] r1 E1 H1. injection E1 as <-.
  apply (goes_bind_at J); [exact unchanged_here | eauto with within | done |].
  intros [[[cp l] pending] du] r2 E2 H2. apply load_state_ok in E2 as (Hl & _ & _). cbn [disk] in Hl.
  destruct (stop_at rq "handoff"); [eapply goes_within; [exact unchanged_here | eauto with within | done]|].
  apply (goes_bind_at J); [exact unchanged_here | eauto with within | done |].
  intros [bytes handoff] r3 E3 H3. apply read_handoff_ok in E3 as (b & Hv).
  destruct (version_stale config handoff); [eapply goes_within; [exact unchanged_here | eauto with within | done]|].
  apply (goes_bind_at J); [exact unchanged_here | eauto with within | done |]. intros ? r4 _ H4.
  destruct pending; [by eapply recover_goes|].
  apply goes_pure. intros status Hs. destruct (String.eqb_spec status "accept") as [->|]; [by apply run_cycle_goes|].
  eapply goes_within; [exact unchanged_here | within_solve | exact H4].
Qed.
End Body.

Lemma progress_kept v config st : kept_by (progress v config st) not_the_chain.
Proof.
  assert (H : forall s s', slots s' Checkpoint = slots s Checkpoint -> slots s' Ledger = slots s Ledger ->
    progress v config st s -> progress v config st s').
  { intros s s' E1 E2 [H1 H2 | cp l nl h L Hs F H1 H2 | cp l nl h c L Hs F Hck H1 H2 | cp l h c b L Hb Hck H1 H2].
    - apply unchanged; congruence.
    - eapply ledger_ahead; eauto; congruence.
    - eapply committed; eauto; congruence.
    - eapply caught_up; eauto; congruence. }
  constructor; [intros d name f s Hs _; by apply (H s)|]. intros c f s Hc Hs. by destruct c; try discriminate; apply (H s).
Qed.

Lemma run_once_progress config rq st :
  from_store (progress (rq_validator rq) config st) st (run_p137_runtime_once config rq st).2.
Proof.
  apply run_once_from; [apply progress_kept | by apply unchanged|].
  destruct (run_body_goes config rq st) as (added & E & Ha). by exists added.
Qed.

(** C2: a run moves the chain by at most one commit.  In every store a run
    goes through, checkpoint and ledger are the ones it began with; or the
    ledger is the next one of the ledger it began with, for a handoff that
    continues the checkpoint, and the checkpoint is still the old one; or
    both are of that commit; or, when the run found a ledger one commit
    ahead, the checkpoint has caught up with it. *)
Theorem run_moves_the_chain_once config rq st :
  Forall (progress (rq_validator rq) config st) (possible (run_p137_runtime_once config rq st).2).
Proof. eapply from_store_forall; [apply run_once_progress | by apply unchanged]. Qed.

(** ** What a result says *)

(** The checkpoint and the ledger of a result are those on disk. *)
Definition reported (s : store) (result : dict) : Prop :=
  option_map json_image (slot_value s Checkpoint) = Some (json_image (vget result "checkpoint")) /\
  option_map json_image (slot_value s Ledger) = Some (json_image (vget result "ledger")).

Definition says_ok (result : dict) : Prop := vget result "status" = VStr "ok".

Lemma within_disk {A} (J : store -> Prop) (m : M A) r out r' : within J m -> J (disk r) -> m r = (out, r') -> J (disk r').
Proof. intros Hw Hj E. destruct (Hw r Hj) as (added & Ep & Ha). rewrite E in Ep. by eapply (possible_disk r). Qed.

Lemma stop_not_ok config e reason boundary ledger termination resources opened r result r' :
  _stop_result config e reason boundary ledger termination resources opened r = (Ok result, r') -> ~ says_ok result.
Proof.
  unfold _stop_result. intros H. do 4 (apply mbind_ok in H as (? & ? & _ & H)). injection H as <- _. unfold says_ok. cbn.
  by destruct (_ || _).
Qed.

Lemma written_value s c d : slots s c = Some (written d) -> option_map json_image (slot_value s c) = Some (json_image (VDict d)).
Proof. intros H. unfold slot_value. rewrite H. cbn [written parsed option_map]. by rewrite json_image_idem. Qed.

Lemma loaded_value s s' c v : slots s' c = slots s c -> slot_value s c = Some v -> option_map json_image (slot_value s' c) = Some (json_image v).
Proof. unfold slot_value. intros -> ->. reflexivity. Qed.

Lemma replace_ok c value counter r r' : _replace_json c value counter r = (Ok tt, r') -> disk r' = set_slot c (written value) (disk r).
Proof. unfold _replace_json. destruct counter; by intros [= <-]. Qed.

Section Ok.
Context (config : dict) (rq : request).

Lemma commit_reported cp l handoff t r result r' : commit config rq cp l handoff t r = (Ok result, r') -> reported (disk r') result.
Proof.
  unfold commit. intros H. do 3 (apply mbind_ok in H as (? & ? & _ & H)). apply mbind_ok in H as (nl & r1 & _ & H).
  apply mbind_ok in H as ([] & r2 & H2 & H). apply replace_ok in H2. apply mbind_ok in H as ([] & r3 & H3 & H).
  injection H3 as _ <-. apply mbind_ok in H as (c & r4 & H4 & H). injection H4 as _ <-.
  apply mbind_ok in H as ([] & r5 & H5 & H). apply replace_ok in H5. apply mbind_ok in H as ([] & r6 & H6 & H). apply replace_ok in H6.
  apply mbind_ok in H as (? & ? & H7 & H). injection H7 as _ <-. injection H as <- <-.
  split; [apply (written_value _ _ c) | apply (written_value _ _ nl)]; rewrite H6, H5, H2; reflexivity.
Qed.

Lemma recover_reported cp l du handoff r result r' pending : loaded config (disk r) cp l pending ->
  recover_split_commit config rq cp l du handoff r = (Ok result, r') -> reported (disk r') result.
Proof.
  unfold recover_split_commit. intros L H. apply mbind_ok in H as ([] & r1 & H1 & H). injection H1 as _ <-.
  apply mbind_ok in H as (l' & r1 & H1 & H). injection H1 as Hl <-. apply mbind_ok in H as (c & r1 & H1 & H). injection H1 as _ <-.
  apply mbind_ok in H as ([] & r2 & H2 & H). apply replace_ok in H2. apply mbind_ok in H as ([] & r3 & H3 & H). apply replace_ok in H3.
  apply mbind_ok in H as ([] & r4 & H4 & H). injection H4 as <-. apply mbind_ok in H as (? & r5 & H5 & H). injection H5 as _ <-.
  apply mbind_ok in H as (? & r6 & H6 & H). injection H6 as _ <-. injection H as <- <-. cbn [disk].
  split; [apply (written_value _ _ c); rewrite H3, H2; reflexivity|].
  apply (loaded_value (disk r) _ _ (VDict l')); [rewrite H3, H2; reflexivity|].
  destruct l as [d|]; [|discriminate]. injection Hl as ->. exact (ld_ledger _ _ _ _ _ L).
Qed.

Lemma reuse_reported cp l handoff r result r' pending : loaded config (disk r) cp l pending ->
  reuse_bundle cp l handoff r = (Ok result, r') -> reported (disk r') result.
Proof.
  intros L H. assert (E : at_slots (slots (disk r) Checkpoint) (slots (disk r) Ledger) (disk r')).
  { eapply (within_disk _ _ r); [|by split | exact H]. apply within_reuse. }
  destruct E as [E1 E2]. unfold reuse_bundle in H. apply mbind_ok in H as (? & ? & _ & H). do 2 (apply mbind_ok in H as (? & ? & _ & H)).
  apply mbind_ok in H as (? & ? & _ & H). injection H as <- <-.
  split; [exact (loaded_value _ _ _ _ E1 (ld_checkpoint _ _ _ _ _ L)) | exact (loaded_value _ _ _ _ E2 (ld_ledger _ _ _ _ _ L))].
Qed.

Lemma run_body_reported r result r' : run_body config rq r = (Ok result, r') -> says_ok result -> reported (disk r') result.
Proof.
  unfold run_body. intros H Hok. apply mbind_ok in H as ([] & r1 & H1 & H). injection H1 as <-.
  apply mbind_ok in H as ([[[cp l] pending] du] & r2 & H2 & H). apply load_state_ok in H2 as (L & E2 & _). cbn [disk] in *.
  rewrite <- E2 in L. destruct (stop_at rq "handoff"); [by apply stop_not_ok in H|].
  apply mbind_ok in H as ([bytes handoff] & r3 & H3 & H).
  assert (E3 : eq (disk r2) (disk r3)) by (eapply (within_disk (eq (disk r2))); [|reflexivity | exact H3]; eauto with within).
  rewrite E3 in L. destruct (version_stale config handoff); [by apply stop_not_ok in H|].
  apply mbind_ok in H as ([] & r4 & H4 & H).
  assert (E4 : eq (disk r3) (disk r4)) by (eapply (within_disk (eq (disk r3))); [|reflexivity | exact H4]; eauto with within).
  rewrite E4 in L. destruct pending; [by eapply recover_reported|].
  apply mbind_ok in H as (status & r5 & H5 & H). injection H5 as _ <-.
  destruct (status =s "accept").
  - unfold run_cycle in H. do 4 (apply mbind_ok in H as (? & ? & _ & H)). destruct (stop_at rq "classification"); [by apply stop_not_ok in H|].
    destruct (_resource_limit_exceeded _); [by apply stop_not_ok in H|]. by apply commit_reported in H.
  - destruct (status =s "reuse"); [by eapply reuse_reported|].
    apply mbind_ok in H as (? & ? & _ & H). by injection H as <- _.
Qed.
End Ok.

(** C12: a result that is ok tells what is on disk.  When a run returns a
    result with the status [ok], the checkpoint and the ledger in the result
    are those in their files when the run has ended. *)
Theorem ok_result_is_on_disk config rq st result r : run_p137_runtime_once config rq st = (Ok result, r) -> says_ok result ->
  reported (disk r) result.
Proof.
  unfold run_p137_runtime_once. intros H Hok. destruct (P137Contracts.validate_triage_agent_config _); [|discriminate].
  destruct (match rq_crash_after rq with Some _ => _ | None => _ end); [discriminate|].
  destruct (negb (mem (rq_stop_before rq) _)); [discriminate|]. destruct (negb (rq_lease_free rq)); [by injection H as <- _|].
  destruct (run_body config rq (start_run st)) as [[result'|e] r1] eqn:E.
  - injection H as <- <-. by eapply run_body_reported.
  - unfold handle in H. apply mbind_ok in H as (? & ? & _ & H). destruct (negb (is_value_error e)); [discriminate|].
    destruct (startswith "crash_after_" _); [by injection H as <- _|]. destruct (_is_corrupt_state_error _); [|by injection H as <- _].
    apply mbind_ok in H as (? & ? & _ & H). by apply stop_not_ok in H.
Qed.
