(* ===== verification/P137RuntimeLoopProps.v ===== *)
(** * Continuous mode

    The loop makes a bounded number of cycles, stops when too many of them
    fail in a row, and does nothing when it finds a stale readiness. *)

From S2P Require Import Prelude PyValue PyChecks Sha Json P137Checks P137Durable P137Triage P137Runtime P137RuntimeProps.
From S2P Require P137Contracts P137ContractsProps.

#[local] Opaque stable_hash.

Section Loop.
Context (config : dict) (validator : string -> dict -> option dict -> res dict) (nows : list string) (env : nat -> tick).

(** ** Failures in a row *)

Definition threshold : Z := setting config "max_consecutive_failures".

(** What holds of the loop between two cycles: as long as it goes on, it has
    seen less failures in a row than it may. *)
Definition patient (l : loop) : Prop := lo_stop_reason l = RUNNING -> 0 <= lo_failures l < threshold.

Lemma judge_patient result failures reason failures' reason' : judge config result failures reason = (failures', reason') ->
  0 <= failures < threshold -> reason' = RUNNING -> 0 <= failures' < threshold.
Proof.
  unfold judge. intros H Hf Hr. destruct (is_text_of _ "handoff_version_stale"); [by injection H as <- <-|].
  destruct (is_text_of _ "failed_closed").
  - injection H as <- E. destruct (Z.leb_spec (setting config "max_consecutive_failures") (failures + 1)); [by subst|].
    unfold threshold. lia.
  - injection H as <- <-. lia.
Qed.

Lemma cycle_ok index l l' r : cycle config validator nows env index l = (Ok l', r) -> lo_stop_reason l = RUNNING -> patient l ->
  lo_cycles l' = lo_cycles l + 1 /\ patient l' /\ lo_run l' = r.
Proof.
  unfold cycle. destruct (run_p137_runtime_once _ _ _) as [[result|e] inner]; [|discriminate].
  destruct (judge config result (lo_failures l) (lo_stop_reason l)) as [failures reason] eqn:Ej.
  destruct (publish _ _ _ _ _ _ _ _) as [[at_|e] r2]; [|discriminate]. intros [= <- <-] Hr Hp.
  split; [reflexivity|]. split; [|reflexivity]. intros H. by eapply judge_patient; [exact Ej | apply Hp|].
Qed.

(** ** The number of cycles *)

Lemma stop_between_cycles_ok s l l' r : stop_between_cycles config s l = (Ok l', r) ->
  lo_cycles l' = lo_cycles l /\ lo_stop_reason l' = s /\ lo_run l' = r.
Proof. unfold stop_between_cycles. destruct (_stop_result _ _ _ _ _ _ _ _ _) as [[result|e] r2]; [|discriminate]. by intros [= <- <-]. Qed.

Context (Hs : forall i, tk_signal (env i) <> Some RUNNING).

Lemma cycles_ok n index l l' r : cycles config validator nows env n index l = (Ok l', r) ->
  lo_stop_reason l = RUNNING -> patient l ->
  lo_cycles l <= lo_cycles l' <= lo_cycles l + Z.of_nat n /\ lo_run l' = r /\
  (lo_stop_reason l' = RUNNING -> lo_cycles l' = lo_cycles l + Z.of_nat n /\ 0 <= lo_failures l' < threshold).
Proof.
  revert index l. induction n as [|n IH]; intros index l H Hr Hp; cbn [cycles] in H.
  - injection H as <- <-. split; [lia|]. split; [done|]. intros _. split; [lia | by apply Hp].
  - destruct (tk_signal (env index)) as [s|] eqn:Es.
    + apply stop_between_cycles_ok in H as (E & E' & ->). split; [lia|]. split; [done|].
      intros H. by destruct (Hs index); rewrite Es, <- E', H.
    + destruct (cycle config validator nows env index l) as [[l1|e] r1] eqn:Ec; [|discriminate].
      destruct (cycle_ok _ _ _ _ Ec Hr Hp) as (E1 & Hp1 & Er).
      destruct (String.eqb_spec (lo_stop_reason l1) RUNNING) as [Hr1|Hr1].
      * destruct (IH _ _ H Hr1 Hp1) as (Hb & Hl & Hf). split; [lia|]. split; [exact Hl|]. intros Hr'.
        destruct (Hf Hr') as [Hc Ht]. split; [lia | exact Ht].
      * injection H as <- <-. split; [lia|]. split; [exact Er | by intros ?].
Qed.

(** ** The result of the loop *)

Lemma max_cycles_positive : P137Contracts.validate_triage_agent_config (VDict config) = Ok tt -> 0 < mode_field config "max_cycles".
Proof.
  intros H. destruct (P137ContractsProps.accepted_mode_int config "max_cycles" H) as (mode & z & Hm & Hz & Hp); [cbn; tauto|].
  unfold mode_field. rewrite Hm. cbn [dict_or_empty]. by rewrite Hz.
Qed.

Lemma threshold_positive : P137Contracts.validate_triage_agent_config (VDict config) = Ok tt -> 0 < threshold.
Proof.
  intros H. destruct (P137ContractsProps.accepted_limit config "max_consecutive_failures" H) as (limits & z & Hm & Hz & Hp).
  - apply mem_In. reflexivity.
  - unfold threshold, setting. by rewrite Hm, Hz.
Qed.

Lemma requested_at_most : 0 < mode_field config "max_cycles" -> Z.of_nat (cycles_requested config nows) <= mode_field config "max_cycles".
Proof. unfold cycles_requested. destruct nows; cbn [List.length]; lia. Qed.

(** C23: the loop is bounded.  A loop that returns made at most as many cycles
    as its configuration and its list of times allow, and its result says
    so; it ends for want of further cycles only after all of them. *)
Theorem loop_is_bounded st result r :
  run_p137_runtime_loop config validator nows env st = (Ok result, r) ->
  exists n, vget result "cycles_completed" = VInt n /\ 0 <= n <= Z.of_nat (cycles_requested config nows) /\
    vget result "bounded" = VBool true /\
    (vget result "termination_reason" = VStr RUNNING -> n = Z.of_nat (cycles_requested config nows)).
Proof.
  unfold run_p137_runtime_loop. intros H.
  destruct (P137Contracts.validate_triage_agent_config (VDict config)) as [[]|e] eqn:Ev; [|discriminate]. cbn [bind] in H.
  pose proof (max_cycles_positive Ev) as Hm. pose proof (threshold_positive Ev) as Ht. pose proof (requested_at_most Hm) as Hq.
  destruct (bind (rt_ensure _ _) _) as [[|]|e]; [| |discriminate].
  - destruct (_stop_result _ _ _ _ _ _ _ _ _) as [[last|e] r2]; [|discriminate]. injection H as <- <-. exists 0.
    split; [reflexivity|]. split; [lia|]. split; [|discriminate]. cbn. f_equal. lia.
  - destruct (cycles _ _ _ _ _ _ _) as [[l|e] r2] eqn:Ec; [|discriminate]. injection H as <- <-.
    destruct (cycles_ok _ _ _ _ _ Ec eq_refl) as (Hb & _ & Hr); [intros _; cbn; lia|]. cbn [lo_cycles] in Hb, Hr.
    exists (lo_cycles l). split; [reflexivity|]. split; [lia|]. split; [cbn; f_equal; lia|].
    intros E. injection E as E. destruct (Hr E) as [-> _]. lia.
Qed.
End Loop.

(** ** A stale readiness *)

(** The counters after the receipt of a run that did nothing else. *)
Definition receipt_activity : dict :=
  let bump key a := dset a key (VInt (default 0 (as_int (vget a key)) + 1)) in
  bump "directory_fsync_count" (bump "termination_receipt_write_count" (P137Contracts.zero_runtime_activity [])).

Definition bumped (key : string) (a : dict) : dict := dset a key (VInt (default 0 (as_int (vget a key)) + 1)).

Lemma write_named_cases d name value counter r :
  let out := _write_named_json d name value counter r in
  out = (Ok true, r) \/ out = (Raise (UE "conflicting_existing_bytes"), r) \/
  exists r', out = (Ok false, r') /\ activity r' = bumped counter (bumped "directory_fsync_count" (activity r)).
Proof.
  cbv zeta. unfold _write_named_json, mbind, lift, reading, rt_ensure, ensure. cbn [fst snd]. destruct (dget (folders (disk r) d) name) as [g|].
  - destruct (text g =s _canonical_json_bytes value); [by left | right; left; reflexivity].
  - right. right. eexists. split; reflexivity.
Qed.

Lemma receipt_activity_balanced : py_eq
  (VDict (bumped "termination_receipt_write_count" (bumped "directory_fsync_count" (P137Contracts.zero_runtime_activity []))))
  (VDict receipt_activity) = true.
Proof. vm_compute. reflexivity. Qed.

Lemma mbind_eq {A B} (m : M A) (k : A -> M B) r out r' : m r = (out, r') ->
  mbind m k r = match out with Ok a => k a r' | Raise e => (Raise e, r') end.
Proof. unfold mbind. by intros ->. Qed.

Lemma stop_on_fresh_run config e reason boundary st :
  (exists result, (_stop_result config e reason boundary VNone None None [] (start_run st)).1 = Ok result) \/
  (_stop_result config e reason boundary VNone None None [] (start_run st)).1 = Raise (UE "conflicting_existing_bytes").
Proof.
  unfold _stop_result. rewrite (mbind_eq _ _ _ _ _ (eq_refl : reading activity (start_run st) = (Ok (activity (start_run st)), start_run st))).
  cbv zeta beta. fold receipt_activity. change (dset (dset _ _ _) _ _) with receipt_activity.
  set (termination := _termination _ _ _ _ _ _ _ _ _).
  destruct (write_named_cases Terminations (json_name (py_str (vget termination "termination_hash"))) termination
              "termination_receipt_write_count" (start_run st)) as [E | [E | (r' & E & Ha)]]; rewrite (mbind_eq _ _ _ _ _ E).
  - left. eexists. reflexivity.
  - by right.
  - left. unfold mbind, reading, lift. rewrite Ha. cbn [activity start_run orb]. rewrite receipt_activity_balanced. eexists. reflexivity.
Qed.

(** A stale readiness stops the loop before it reads a handoff, and for
    good.  A loop that finds its readiness marked as stale returns a result
    without a cycle, or fails on a receipt that is in its way; it leaves
    checkpoint, ledger, heartbeat, handoff and the stale readiness as they
    are, so that the next loop does the same. *)
Theorem stale_readiness_stops_every_loop config validator nows env st f d :
  P137Contracts.validate_triage_agent_config (VDict config) = Ok tt -> continuous_is config "enabled" = true ->
  slots st Readiness = Some f -> parsed f = Some (VDict d) -> vget d "status" = VStr "stale" ->
  let (out, r) := run_p137_runtime_loop config validator nows env st in
  Forall (fun s => slots s = slots st /\ handoff_file s = handoff_file st) (possible r) /\
  ((exists result, out = Ok result /\ vget result "cycles_completed" = VInt 0 /\
      vget result "termination_reason" = VStr "readiness_stale") \/
   out = Raise (UE "conflicting_existing_bytes")).
Proof.
  intros Hv He Hf Hp Hd. unfold run_p137_runtime_loop. rewrite Hv, He. cbn [bind rt_ensure ensure].
  unfold _existing_readiness_is_stale, parse. rewrite Hf, Hp. cbn [bind]. rewrite Hd. cbn [in_set hashable bind].
  change (mem "stale" _) with true. cbv iota.
  set (I := fun s : store => slots s = slots st /\ handoff_file s = handoff_file st).
  assert (K : kept_by I (fun _ => false)) by (split; [by intros ? ? ? s [H1 H2] _; split | discriminate]).
  destruct (within_stop I _ K config "readiness_stale" "readiness_stale" "before_handoff_read" VNone None None []
              (start_run st) (conj eq_refl eq_refl)) as (added & E & Ha).
  pose proof (stop_on_fresh_run config "readiness_stale" "readiness_stale" "before_handoff_read" st) as Hs.
  destruct (_stop_result _ _ _ _ _ _ _ _ _) as [out r]. cbn [fst snd] in *.
  assert (F : Forall I (possible r)) by (rewrite E; by constructor).
  destruct Hs as [(result & ->) | ->]; (split; [exact F|]); [left | by right].
  eexists. split; [reflexivity|]. split; reflexivity.
Qed.
