(* ===== verification/P137RuntimeLineage.v ===== *)
(** * A crash keeps the lineage

    The ledger and the checkpoint are written one after the other; a process
    that dies between the two leaves a ledger that is one commit ahead, and
    the next run can tell. *)

From S2P Require Import Prelude PyValue PyChecks Sha Json P137Checks P137Durable P137DurableProps P137Triage P137Runtime P137RuntimeProps.
From S2P Require P137Contracts P137Ledger P137LedgerProps.

#[local] Opaque stable_hash.

(** What the runtime relies on in the validator of its handoff: the sequence
    number and the hash of a bundle it accepts are such. *)
Class HonestValidator (v : string -> dict -> option dict -> res dict) : Prop :=
  validated_bundle : forall b config cp h, v b config cp = Ok h ->
    exists n s, vget h "bundle_sequence" = VInt n /\ 0 < n /\ vget h "bundle_hash" = VStr s /\ hash_text s = true.

(** The state of the chain can be read: the checkpoint and the ledger are
    valid, and one follows from the other. *)
Definition lineage (config : dict) (st : store) : Prop := exists cp l pending, loaded config st cp l pending.

(** The ledger lists nothing, though it has a predecessor: no run accepts
    it. *)
Definition stuck (st : store) : Prop :=
  exists d, slot_value st Ledger = Some (VDict d) /\
    P137Ledger.validate_standalone (VDict d) = Raise (P137Ledger.P137LedgerError "standalone_ledger_predecessor_mismatch").

(** ** The checkpoint that is written *)

Definition checkpoint_body (config : dict) (sequence bundle_hash ledger_hash previous : val) : dict :=
  [("schema_version", VStr CHECKPOINT_SCHEMA_VERSION); ("config_hash", vget config "config_hash");
   ("last_accepted_bundle_sequence", sequence); ("last_accepted_bundle_hash", bundle_hash);
   ("last_accepted_ledger_hash", ledger_hash); ("last_accepted_checkpoint_hash", previous)].

Definition previous_checkpoint (prior : option dict) : val :=
  match prior with Some p => vget p "checkpoint_hash" | None => VNone end.

Lemma vindex_value d k v : vindex d k = Ok v -> vget d k = v.
Proof. unfold vindex, vget. destruct (dget d k); [by intros [= ->] | discriminate]. Qed.

Lemma checkpoint_ok config h l prior c : _checkpoint config h l prior = Ok c ->
  c = under_hash "checkpoint_hash" (checkpoint_body config (vget h "bundle_sequence") (vget h "bundle_hash")
                                      (vget l "ledger_hash") (previous_checkpoint prior)).
Proof.
  unfold _checkpoint. intros H. apply bind_ok in H as (n & Hn & H). apply bind_ok in H as (s & Hs & H).
  apply (inj Ok) in H as <-. apply vindex_value in Hn as ->, Hs as ->. reflexivity.
Qed.

Section Checkpoint.
Context (config : dict) (n : Z) (bundle_hash ledger_hash config_hash : string) (prior : option dict).
Context (Hn : 0 < n) (Hb : hash_text bundle_hash = true) (Hl : hash_text ledger_hash = true).
Context (Hc : vget config "config_hash" = VStr config_hash).
Context (Hp : forall p, prior = Some p -> _validate_checkpoint (VDict p) config = Ok tt).

Lemma previous_is_hash : match previous_checkpoint prior with
                         | VNone => Ok ""
                         | previous => _hash previous "last_accepted_checkpoint_hash"
                         end = Ok "" \/ exists s, previous_checkpoint prior = VStr s /\ hash_text s = true.
Proof.
  destruct prior as [p|]; [|by left]. right. specialize (Hp p eq_refl). unfold _validate_checkpoint in Hp.
  do 6 (apply bind_ok in Hp as (? & _ & Hp)). apply ensure_ok, py_eq_str in Hp. cbn [previous_checkpoint].
  rewrite Hp. eexists. split; [reflexivity | apply hash_text_stable].
Qed.

Lemma checkpoint_reads_back :
  _validate_checkpoint (VDict (dict_image (under_hash "checkpoint_hash"
    (checkpoint_body config (VInt n) (VStr bundle_hash) (VStr ledger_hash) (previous_checkpoint prior))))) config = Ok tt.
Proof.
  unfold _validate_checkpoint. rewrite same_keys_image, !vget_image, py_eq_str_image.
  apply (bind_run _ _ tt); [reflexivity|]. apply (bind_run _ _ tt).
  { apply ensure_run. cbn. rewrite Hc. by apply py_eq_str. }
  apply (bind_run _ _ n). { cbn. by apply Z.ltb_lt in Hn as ->. }
  apply (bind_run _ _ bundle_hash); [by apply hash_run|].
  apply (bind_run _ _ ledger_hash); [by apply hash_run|].
  assert (H : json_image (previous_checkpoint prior) = previous_checkpoint prior /\
    exists s, match previous_checkpoint prior with
              | VNone => Ok ""
              | previous => _hash previous "last_accepted_checkpoint_hash"
              end = Ok s).
  { destruct previous_is_hash as [H | (s & -> & H)]; [|split; [done | exists s; by apply hash_run]].
    split; [|by eexists]. by destruct (previous_checkpoint prior). }
  destruct H as [Hi (s & Hs)].
  apply (bind_run _ _ s). { change (vget _ "last_accepted_checkpoint_hash") with (previous_checkpoint prior). by rewrite Hi. }
  apply ensure_run. unfold _self_hash. rewrite py_eq_str_image, stable_hash_without_image. by apply py_eq_str.
Qed.
End Checkpoint.
(** ** The ledger that is written *)

(** The ledger before the next one: the one on disk, or a new one. *)
Definition prior_of (config : dict) (l : option dict) (prior : dict) : Prop :=
  l = Some prior \/
  l = None /\ vget prior "config_hash" = VStr (py_str (vget config "config_hash")) /\ cycles_completed prior = Ok 0 /\
  P137LedgerProps.members prior = [].

Lemma new_ledger_is_prior config prior :
  P137Ledger.new_investigation_ledger (py_str (vget config "config_hash")) [("cycles_completed", VInt 0)] AUTHORITY
    (P137Contracts.zero_runtime_activity []) (P137Contracts.zero_evaluator_activity []) (_resource_usage config) = Ok prior ->
  prior_of config None prior.
Proof.
  unfold P137Ledger.new_investigation_ledger. intros H. apply bind_ok in H as (? & _ & H).
  apply bind_ok in H as (c & Hc & H). do 5 (apply bind_ok in H as (? & _ & H)). apply (inj Ok) in H as <-.
  apply bind_ok in Hc as ([] & _ & Hc). apply (inj Ok) in Hc as <-. right. split; [reflexivity|]. split; [reflexivity|]. split; reflexivity.
Qed.

Lemma advance_counters prior expected incidents requests classifications c r e s l :
  P137Ledger.advance_investigation_ledger prior expected incidents requests classifications (Some c) r e s = Ok l -> c <> [] ->
  vget l "counters" = VDict (sort_items c).
Proof.
  unfold P137Ledger.advance_investigation_ledger. intros H Hc. do 9 (apply bind_ok in H as (? & _ & H)).
  apply bind_ok in H as ([ni hi] & _ & H). do 2 (apply bind_ok in H as (? & _ & H)).
  apply bind_ok in H as (co & Hco & H). do 4 (apply bind_ok in H as (? & _ & H)). apply (inj Ok) in H as <-.
  destruct c as [|item c]; [done|]. apply bind_ok in Hco as ([] & _ & Hco). apply (inj Ok) in Hco as <-. reflexivity.
Qed.

(** What the next ledger is. *)
Record next_of (config : dict) (l : option dict) (nl : dict) : Prop := {
  nx_previous : exists prior h, prior_of config l prior /\ vget prior "ledger_hash" = VStr h /\
    vget nl "previous_ledger_hash" = VStr h /\ vget nl "config_hash" = vget prior "config_hash";
  nx_hash : exists h, vget nl "ledger_hash" = VStr h /\ hash_text h = true;
  nx_genesis : l = None -> vget nl "counters" = VDict [("cycles_completed", VInt 1)];
  nx_valid : P137Ledger.validate_standalone (VDict (dict_image nl)) =
    match P137LedgerProps.members nl with
    | [] => Raise (P137Ledger.P137LedgerError "standalone_ledger_predecessor_mismatch")
    | _ => Ok tt
    end
}.

Lemma follows_next config l nl : (forall d, l = Some d -> d <> []) -> follows config l nl -> next_of config l nl.
Proof.
  intros Hl (runtime & t & H). unfold _new_or_reused_ledger in H. apply bind_ok in H as (prior & Hp & H).
  assert (P : prior_of config l prior).
  { destruct l as [[|x d]|]; [by destruct (Hl [] eq_refl) | injection Hp as <-; by left | by apply new_ledger_is_prior]. }
  apply bind_ok in H as (completed & Hc & H). pose proof H as Hv. pose proof H as Hn.
  apply P137LedgerProps.advanced_validation in Hv as [Hi Hv]. apply advance_counters in Hn; [|done].
  apply P137LedgerProps.ledger_advance_ok in H as (ins & rs & cs & _ & _ & _ & F).
  destruct (P137LedgerProps.af_ledger _ _ _ _ _ _ F) as (co & ru & ev & re & E).
  pose proof (P137LedgerProps.af_cas _ _ _ _ _ _ F) as Hh.
  split; [| | |by rewrite Hi, Hv].
  - exists prior, (py_str (vget prior "ledger_hash")). split; [exact P|]. split; [exact Hh|]. rewrite E.
    rewrite P137LedgerProps.next_previous, P137LedgerProps.next_config. split; [exact Hh | reflexivity].
  - exists (P137Ledger.ledger_hash_of nl). split; [rewrite E at 1; rewrite P137LedgerProps.next_self_hash; by rewrite <- E|].
    apply hash_text_stable.
  - intros ->. rewrite Hn. destruct P as [P | (_ & _ & P & _)]; [discriminate|]. rewrite P in Hc. injection Hc as <-. reflexivity.
Qed.

Lemma map_dict_inj (a b : list dict) : map VDict a = map VDict b -> a = b.
Proof.
  revert b. induction a as [|x a IH]; intros [|y b] H; try discriminate; [reflexivity|]. injection H as -> H. f_equal. by apply IH.
Qed.

(** A first ledger lists what the cycle gave it. *)
Lemma first_ledger_members config runtime t nl :
  _new_or_reused_ledger config None runtime AUTHORITY EVALUATOR t = Ok nl ->
  exists ins rs cs, tr_incidents t = ins /\ tr_requests t = rs /\ tr_classifications t = cs /\
    P137LedgerProps.members nl = P137Ledger.strings_of (P137Ledger.fields_of "incident_hash" ins) ++
      P137Ledger.strings_of (P137Ledger.fields_of "classification_hash" cs) ++
      P137Ledger.strings_of (P137Ledger.fields_of "attempted_request_hash" rs).
Proof.
  unfold _new_or_reused_ledger. intros H. apply bind_ok in H as (prior & Hp & H). apply new_ledger_is_prior in Hp.
  destruct Hp as [Hp | (_ & _ & _ & Hm)]; [discriminate|]. apply bind_ok in H as (completed & _ & H).
  apply P137LedgerProps.ledger_advance_ok in H as (ins & rs & cs & Ei & Er & Ec & F). exists ins, rs, cs.
  split; [by apply map_dict_inj|]. split; [by apply map_dict_inj|]. split; [by apply map_dict_inj|].
  destruct (P137LedgerProps.af_ledger _ _ _ _ _ _ F) as (co & ru & ev & re & ->). unfold P137LedgerProps.members in *.
  rewrite P137LedgerProps.next_incidents, P137LedgerProps.next_classifications, P137LedgerProps.next_attempts.
  apply app_eq_nil in Hm as [-> Hm]. by apply app_eq_nil in Hm as [-> ->].
Qed.

(** ** From store to store *)

Lemma slot_written s c d : slots s c = Some (written d) -> slot_value s c = Some (dict_val (Some (dict_image d))).
Proof. unfold slot_value. intros ->. cbn [written parsed]. by rewrite json_image_dict. Qed.

Lemma slot_kept st s c v : slots s c = slots st c -> slot_value st c = v -> slot_value s c = v.
Proof. unfold slot_value. by intros ->. Qed.

Lemma split_commit_kinds cp l : _split_commit_pending cp l = Ok false ->
  (cp = None /\ l = None) \/
  exists c d, cp = Some c /\ l = Some d /\ py_eq (vget c "last_accepted_ledger_hash") (vget d "ledger_hash") = true.
Proof.
  unfold _split_commit_pending. destruct cp as [c|], l as [d|]; [| done | | by left].
  - destruct (py_eq _ (vget d "ledger_hash")) eqn:E; [intros _; right; by exists c, d|].
    destruct (py_eq (vget c "last_accepted_ledger_hash") (vget d "previous_ledger_hash")); discriminate.
  - intros H. apply bind_ok in H as (counters & _ & H). by destruct (_ && _).
Qed.

Section Step.
Context (config : dict) (config_hash : string) (Hc : vget config "config_hash" = VStr config_hash).

Lemma prior_config st cp l pending prior : loaded config st cp l pending -> prior_of config l prior ->
  vget prior "config_hash" = VStr config_hash.
Proof.
  intros L [-> | (-> & H & _)].
  - apply py_eq_str. rewrite <- Hc. by apply (ld_config _ _ _ _ _ L).
  - by rewrite H, Hc.
Qed.

Lemma loaded_not_empty st cp l pending d : loaded config st cp l pending -> l = Some d -> d <> [].
Proof. intros L -> ->. pose proof (ld_standalone _ _ _ _ _ L [] eq_refl). discriminate. Qed.

Lemma next_ledger_of st cp l nl : loaded config st cp l false -> follows config l nl ->
  next_of config l nl /\ vget nl "config_hash" = VStr config_hash.
Proof.
  intros L F. apply follows_next in F as N; [|by intros d; apply (loaded_not_empty st cp l false)]. split; [exact N|].
  destruct (nx_previous _ _ _ N) as (prior & h & P & _ & _ & E). rewrite E. by eapply prior_config.
Qed.

(** A first ledger that lists something is one commit ahead. *)
Lemma first_ledger_ahead st nl : slots st Checkpoint = None -> slots st Ledger = Some (written nl) -> follows config None nl ->
  P137LedgerProps.members nl <> [] -> loaded config st None (Some (dict_image nl)) true.
Proof.
  intros Hck Hl F Hm. assert (L : loaded config {| slots := fun _ => None; folders := folders st; handoff_file := None |} None None false).
  { split; [reflexivity | reflexivity | discriminate.. | reflexivity]. }
  destruct (next_ledger_of _ _ _ _ L F) as [N Hnc]. pose proof (nx_valid _ _ _ N) as V.
  destruct (nx_previous _ _ _ N) as (prior & h & _ & _ & E & _).
  split; [by unfold slot_value; rewrite Hck | by apply slot_written | discriminate | | |].
  - intros ? [= <-]. rewrite V. by destruct (P137LedgerProps.members nl).
  - intros ? [= <-]. rewrite vget_image, Hnc, Hc. by apply py_eq_str.
  - unfold _split_commit_pending. rewrite !vget_image, (nx_genesis _ _ _ N eq_refl), E. reflexivity.
Qed.

Lemma ahead_of_checkpoint st cp l nl : loaded config st cp l false -> next_of config l nl ->
  exists pending, _split_commit_pending cp (Some (dict_image nl)) = Ok pending.
Proof.
  intros L N. destruct (nx_previous _ _ _ N) as (prior & h & P & Hh & E & _).
  destruct (split_commit_kinds _ _ (ld_pending _ _ _ _ _ L)) as [[-> ->] | (c & d & -> & -> & Hcd)].
  - exists true. unfold _split_commit_pending. rewrite !vget_image, (nx_genesis _ _ _ N eq_refl), E. reflexivity.
  - destruct P as [[= ->] | (? & _)]; [|done]. rewrite Hh in Hcd. apply py_eq_str in Hcd.
    unfold _split_commit_pending. rewrite !vget_image, E, Hcd. cbn [json_image].
    destruct (py_eq (VStr h) (json_image (vget nl "ledger_hash"))); [by exists false|]. exists true.
    by rewrite (proj2 (py_eq_str (VStr h) h) eq_refl).
Qed.

(** Checkpoint and ledger of one commit, written and read back. *)
Lemma commit_reads_back s h n bundle_hash prior l d c ledger_hash :
  vget h "bundle_sequence" = VInt n -> 0 < n -> vget h "bundle_hash" = VStr bundle_hash -> hash_text bundle_hash = true ->
  (forall p, prior = Some p -> _validate_checkpoint (VDict p) config = Ok tt) ->
  _checkpoint config h l prior = Ok c -> vget l "ledger_hash" = VStr ledger_hash -> hash_text ledger_hash = true ->
  slots s Checkpoint = Some (written c) -> slot_value s Ledger = Some (dict_val (Some d)) ->
  vget d "ledger_hash" = VStr ledger_hash -> vget d "config_hash" = VStr config_hash ->
  P137Ledger.validate_standalone (VDict d) = Ok tt -> lineage config s.
Proof.
  intros Hn Hpos Hb Hbt Hp Hck Hl Hlt Hs Hd Hdl Hdc Hv. apply checkpoint_ok in Hck. rewrite Hn, Hb, Hl in Hck.
  exists (Some (dict_image c)), (Some d), false. split.
  - by apply slot_written.
  - exact Hd.
  - intros ? [= <-]. rewrite Hck. by apply (checkpoint_reads_back config n bundle_hash ledger_hash config_hash prior).
  - by intros ? [= <-].
  - intros ? [= <-]. rewrite Hdc, Hc. by apply py_eq_str.
  - unfold _split_commit_pending. rewrite vget_image, Hck, Hdl.
    change (vget (under_hash _ _) "last_accepted_ledger_hash") with (VStr ledger_hash). cbn [json_image].
    by rewrite (proj2 (py_eq_str (VStr ledger_hash) ledger_hash) eq_refl).
Qed.

Lemma accepted_bundle h cp status : _check_handoff_sequence h cp config = Ok status ->
  exists n s, vget h "bundle_sequence" = VInt n /\ 0 < n /\ vget h "bundle_hash" = VStr s /\ hash_text s = true.
Proof.
  unfold _check_handoff_sequence. intros H. apply bind_ok in H as (n & Hn & H). apply bind_ok in H as (s & Hs & _).
  exists n, s. apply hash_read in Hs as [-> Hs]. unfold P137Checks._positive_int in Hn.
  destruct (vget h "bundle_sequence") as [| |z| | | | |]; try discriminate.
  destruct (0 <? z) eqn:E; [|discriminate]. injection Hn as ->. apply Z.ltb_lt in E. auto.
Qed.

Context (v : string -> dict -> option dict -> res dict) (Hv : HonestValidator v).

(** A next ledger on disk lists nothing, or can be followed. *)
Lemma next_on_disk s l nl : next_of config l nl -> slots s Ledger = Some (written nl) ->
  stuck s \/ P137Ledger.validate_standalone (VDict (dict_image nl)) = Ok tt.
Proof.
  intros N E. apply slot_written in E. pose proof (nx_valid _ _ _ N) as V.
  destruct (P137LedgerProps.members nl); [left; by exists (dict_image nl) | by right].
Qed.

Lemma progress_lineage st s : lineage config st -> progress v config st s -> lineage config s \/ stuck s.
Proof.
  intros (cp0 & l0 & pending0 & L0) [E1 E2 | cp l nl h L Hs F E1 E2 | cp l nl h c L Hs F Hck E1 E2 | cp l h c b L Hb Hck E1 E2].
  - left. destruct L0 as [H1 H2 H3 H4 H5 H6]. exists cp0, l0, pending0.
    split; [exact (slot_kept _ _ _ _ E1 H1) | exact (slot_kept _ _ _ _ E2 H2) | exact H3 | exact H4 | exact H5 | exact H6].
  - destruct (next_ledger_of _ _ _ _ L F) as [N Hnc]. destruct (next_on_disk _ _ _ N E2) as [|V]; [by right|]. left.
    destruct (ahead_of_checkpoint _ _ _ _ L N) as (pending & P). exists cp, (Some (dict_image nl)), pending.
    split; [exact (slot_kept _ _ _ _ E1 (ld_checkpoint _ _ _ _ _ L)) | by apply slot_written | exact (ld_valid _ _ _ _ _ L) | | | exact P].
    + by intros ? [= <-].
    + intros ? [= <-]. rewrite vget_image, Hnc, Hc. by apply py_eq_str.
  - destruct (next_ledger_of _ _ _ _ L F) as [N Hnc]. destruct (next_on_disk _ _ _ N E2) as [|V]; [by right|]. left.
    destruct (accepted_bundle _ _ _ Hs) as (n & bh & Hn & Hpos & Hbh & Ht). destruct (nx_hash _ _ _ N) as (lh & Hlh & Hlt).
    eapply (commit_reads_back s h n bh cp nl (dict_image nl) c lh); try eassumption.
    + exact (ld_valid _ _ _ _ _ L).
    + by apply slot_written.
    + by rewrite vget_image, Hlh.
    + by rewrite vget_image, Hnc.
  - left. destruct (validated_bundle _ _ _ _ Hb) as (n & bh & Hn & Hpos & Hbh & Ht).
    pose proof (ld_standalone _ _ _ _ _ L l eq_refl) as V. pose proof (P137LedgerProps.standalone_ok _ V) as S.
    eapply (commit_reads_back s h n bh cp l l c (P137Ledger.ledger_hash_of l)); try eassumption.
    + exact (ld_valid _ _ _ _ _ L).
    + exact (P137LedgerProps.sa_hash _ S).
    + apply hash_text_stable.
    + exact (slot_kept _ _ _ _ E2 (ld_ledger _ _ _ _ _ L)).
    + exact (P137LedgerProps.sa_hash _ S).
    + apply py_eq_str. rewrite <- Hc. by apply (ld_config _ _ _ _ _ L).
Qed.

Lemma progress_stuck st s : stuck st -> progress v config st s -> stuck s.
Proof.
  intros (d & Hd & Hr). assert (X : forall cp l pending, loaded config st cp l pending -> False).
  { intros cp l pending L. pose proof (ld_ledger _ _ _ _ _ L) as H. rewrite Hd in H. destruct l as [d'|]; [|discriminate].
    injection H as <-. rewrite (ld_standalone _ _ _ _ _ L d eq_refl) in Hr. discriminate. }
  intros [E1 E2 | cp l nl h L | cp l nl h c L | cp l h c b L]; [|by destruct (X _ _ _ L)..].
  exists d. split; [exact (slot_kept _ _ _ _ E2 Hd) | exact Hr].
Qed.
End Step.

(** ** Histories *)

(** What can have happened to the files of an agent: a run or a loop of it
    ended or died, at any moment; a bundle was handed over. *)
Inductive history (config : dict) (v : string -> dict -> option dict -> res dict) : store -> Prop :=
  | installed st : slots st Checkpoint = None -> slots st Ledger = None -> history config v st
  | handed_over st raw : history config v st ->
      history config v {| slots := slots st; folders := folders st; handoff_file := raw |}
  | ran st rq s : history config v st -> rq_validator rq = v -> In s (possible (run_p137_runtime_once config rq st).2) ->
      history config v s
  | looped st nows env s : history config v st -> In s (possible (run_p137_runtime_loop config v nows env st).2) ->
      history config v s.

Lemma fresh_lineage config st : slots st Checkpoint = None -> slots st Ledger = None -> lineage config st.
Proof.
  intros H1 H2. exists None, None, false. unfold slot_value.
  split; [by unfold slot_value; rewrite H1 | by unfold slot_value; rewrite H2 | discriminate.. | reflexivity].
Qed.

Lemma accepted_config_hash config u : P137Contracts.validate_triage_agent_config (VDict config) = Ok u ->
  exists h, vget config "config_hash" = VStr h.
Proof.
  unfold P137Contracts.validate_triage_agent_config. intros H. cbn [P137Contracts._mapping bind] in H.
  apply bind_ok in H as (? & _ & H). apply bind_ok in H as (? & Hh & _). apply ensure_ok, py_eq_str in Hh. eauto.
Qed.

Definition sound_chain (config : dict) (s : store) : Prop := lineage config s \/ stuck s.

Lemma same_slots_sound config s s' : slots s' Checkpoint = slots s Checkpoint -> slots s' Ledger = slots s Ledger ->
  sound_chain config s -> sound_chain config s'.
Proof.
  intros E1 E2 [(cp & l & pending & [H1 H2 H3 H4 H5 H6]) | (d & Hd & Hr)].
  - left. exists cp, l, pending.
    split; [exact (slot_kept _ _ _ _ E1 H1) | exact (slot_kept _ _ _ _ E2 H2) | exact H3 | exact H4 | exact H5 | exact H6].
  - right. exists d. split; [exact (slot_kept _ _ _ _ E2 Hd) | exact Hr].
Qed.

Lemma sound_chain_kept config : kept_by (sound_chain config) not_the_chain.
Proof.
  constructor; [intros d name f s Hs _; by apply (same_slots_sound _ s)|]. intros c f s Hc Hs.
  by destruct c; try discriminate; apply (same_slots_sound _ s).
Qed.

Lemma run_keeps_chain config rq st : HonestValidator (rq_validator rq) -> sound_chain config st ->
  from_store (sound_chain config) st (run_p137_runtime_once config rq st).2.
Proof.
  intros Hv Hst. destruct (P137Contracts.validate_triage_agent_config (VDict config)) as [u|e] eqn:E.
  - destruct (accepted_config_hash _ _ E) as (h & Hh).
    destruct (run_once_progress config rq st) as (added & Ep & Ha). exists added. split; [exact Ep|].
    eapply Forall_impl; [exact Ha|]. intros s Hs. destruct Hst as [Hst|Hst].
    + by eapply progress_lineage.
    + right. by eapply progress_stuck.
  - exists []. split; [|apply Forall_nil_2]. unfold run_p137_runtime_once. by rewrite E.
Qed.

(** C1: whatever happens to an agent, its chain can be read again.  Under
    any sequence of runs, loops, bundles handed over and deaths of the
    process at any moment, from an installation without checkpoint and
    ledger on: the checkpoint and the ledger that are on disk are valid, of
    this configuration, and the ledger is the one the checkpoint names or
    its successor; or the ledger is one that lists nothing. *)
Theorem every_history_has_a_lineage config v st : HonestValidator v -> history config v st -> sound_chain config st.
Proof.
  intros Hv. induction 1 as [st H1 H2 | st raw _ IH | st rq s _ IH <- Hs | st nows env s _ IH Hs].
  - left. by apply fresh_lineage.
  - by apply (same_slots_sound _ st).
  - eapply List.Forall_forall; [|exact Hs]. eapply from_store_forall; [|exact IH]. by apply run_keeps_chain.
  - eapply List.Forall_forall; [|exact Hs]. eapply from_store_forall; [|exact IH].
    apply run_loop_within; [apply sound_chain_kept | | exact IH]. intros. by apply run_keeps_chain.
Qed.
