(* ===== verification/P137RuntimeBlocked.v ===== *)
(** * States the runtime does not get out of

    The journal is only added to, and a run that refuses what it reads
    leaves ledger and checkpoint alone; what it refuses once for the sake of
    a record it refuses for good. *)

From S2P Require Import Prelude PyValue PyChecks Sha Json P137Checks P137Durable P137Triage P137Runtime P137RuntimeProps P137RuntimeLineage.
From S2P Require P137Contracts P137Ledger P137LedgerProps.

#[local] Opaque stable_hash.

(** ** Runs that cannot commit *)

(** No run with this validator gets from this store to a commit. *)
Definition blocked (config : dict) (v : string -> dict -> option dict -> res dict) (st : store) : Prop :=
  forall r cp l pending du r' b h, disk r = st -> load_state config r = (Ok (cp, l, pending, du), r') -> v b config cp = Ok h ->
    version_stale config h = true \/ pending = true /\ exists e, _validate_split_commit_intent (du_intents du) h l = Raise e.

Section Blocked.
Context (I : store -> Prop) (K : kept_by I not_the_chain).
Context (config : dict) (v : string -> dict -> option dict -> res dict) (Hb : forall s, I s -> blocked config v s).

Lemma blocked_body rq st : rq_validator rq = v -> I st -> goes I (run_body config rq) (start_run st).
Proof.
  intros Hv H0. unfold run_body.
  apply (goes_bind_at I I); [done | auto with within | exact H0 |]. intros [] r1 _ H1.
  apply (goes_bind_at I I); [done | auto with within | exact H1 |]. intros [[[cp l] pending] du] r2 E2 H2.
  destruct (stop_at rq "handoff"); [exact (within_stop I _ K _ _ _ _ _ _ _ _ _ H2)|].
  apply (goes_bind_at I I); [done | auto with within | exact H2 |]. intros [bytes handoff] r3 E3 H3.
  apply read_handoff_ok in E3 as (b & E3). rewrite Hv in E3.
  destruct (Hb _ H1 r1 _ _ _ _ _ _ _ eq_refl E2 E3) as [-> | (-> & e & He)].
  - exact (within_stop I _ K _ _ _ _ _ _ _ _ _ H3).
  - destruct (version_stale config handoff); [exact (within_stop I _ K _ _ _ _ _ _ _ _ _ H3)|].
    apply (goes_bind_at I I); [done | auto with within | exact H3 |]. intros [] r4 _ H4.
    unfold recover_split_commit. rewrite He. exists []. unfold mbind, lift. cbn [snd]. by rewrite app_nil_r.
Qed.

Lemma blocked_run rq st : rq_validator rq = v -> I st -> from_store I st (run_p137_runtime_once config rq st).2.
Proof.
  intros Hv H0. apply run_once_from; [exact K | exact H0|].
  destruct (blocked_body rq st Hv H0) as (added & E & Ha). by exists added.
Qed.

(** Neither runs nor loops leave [I]. *)
Lemma blocked_for_good rq nows env st : rq_validator rq = v -> I st ->
  Forall I (possible (run_p137_runtime_once config rq st).2) /\
  Forall I (possible (run_p137_runtime_loop config v nows env st).2).
Proof.
  intros Hv H0. split; apply (from_store_forall _ st); try exact H0; [by apply blocked_run|].
  apply run_loop_within; [exact K | | exact H0]. intros now t s. by apply blocked_run.
Qed.
End Blocked.

(** The chain is as it was, and so are the records. *)
Definition as_it_was (st s : store) : Prop := at_slots (slots st Checkpoint) (slots st Ledger) s /\ keeps_records st s.

Lemma as_it_was_kept st : kept_by (as_it_was st) not_the_chain.
Proof.
  pose proof (at_slots_kept (slots st Checkpoint) (slots st Ledger)) as [Ha Hs].
  pose proof (kept_fewer _ (keeps_records_kept st)) as [Ra Rs].
  constructor; [intros d name f s [] ?; split; auto | intros c f s ? []; split; auto].
Qed.

Lemma as_it_was_refl st : as_it_was st st.
Proof. split; [done | by intros d name f]. Qed.

Lemma loaded_again config st s cp l pending : as_it_was st s -> loaded config s cp l pending -> loaded config st cp l pending.
Proof.
  intros [[E1 E2] _] [H1 H2 H3 H4 H5 H6]. symmetry in E1, E2.
  split; [exact (slot_kept _ _ _ _ E1 H1) | exact (slot_kept _ _ _ _ E2 H2) | exact H3 | exact H4 | exact H5 | exact H6].
Qed.

(** Nothing of it changes, whatever is run. *)
Lemma blocked_as_it_was config v st : (forall s, as_it_was st s -> blocked config v s) ->
  forall rq nows env, rq_validator rq = v ->
  Forall (as_it_was st) (possible (run_p137_runtime_once config rq st).2) /\
  Forall (as_it_was st) (possible (run_p137_runtime_loop config v nows env st).2).
Proof.
  intros Hb rq nows env Hv. apply (blocked_for_good _ (as_it_was_kept st) config v Hb); [exact Hv | apply as_it_was_refl].
Qed.

(** ** A ledger that lists nothing *)

Lemma stuck_is_blocked config v st s : stuck st -> as_it_was st s -> blocked config v s.
Proof.
  intros (d & Hd & Hr) Hs r cp l pending du r' b h <- E _. exfalso. apply load_state_ok in E as (L & _ & _).
  apply (loaded_again config st) in L; [|exact Hs].
  pose proof (ld_ledger _ _ _ _ _ L) as H. rewrite Hd in H. destruct l as [d'|]; [|discriminate].
  injection H as <-. rewrite (ld_standalone _ _ _ _ _ L d eq_refl) in Hr. discriminate.
Qed.

(** C22: a first bundle from which no incident results is the last.  The
    ledger of a first cycle without incidents, requests and classifications
    is written, and then no run and no loop, with whatever handoff, changes
    the checkpoint or the ledger again. *)
Theorem empty_first_cycle_is_the_last config runtime t nl st v :
  _new_or_reused_ledger config None runtime AUTHORITY EVALUATOR t = Ok nl ->
  tr_incidents t = [] -> tr_requests t = [] -> tr_classifications t = [] -> slots st Ledger = Some (written nl) ->
  forall rq nows env, rq_validator rq = v ->
  Forall (as_it_was st) (possible (run_p137_runtime_once config rq st).2) /\
  Forall (as_it_was st) (possible (run_p137_runtime_loop config v nows env st).2).
Proof.
  intros Hn Hi Hr Hc Hs. apply blocked_as_it_was. intros s. apply stuck_is_blocked.
  assert (F : follows config None nl) by by exists runtime, t.
  apply follows_next in F; [|discriminate]. pose proof (nx_valid _ _ _ F) as V.
  destruct (first_ledger_members _ _ _ _ Hn) as (ins & rs & cs & Ei & Er & Ec & M). rewrite Hi in Ei. rewrite Hr in Er.
  rewrite Hc in Ec. rewrite M, <- Ei, <- Er, <- Ec in V. exists (dict_image nl).
  split; [by apply slot_written | exact V].
Qed.

(** ** What a load has read *)

Definition holds (f : string * file) (d : dict) : Prop := parsed f.2 = Some (VDict d).

Lemma read_files_ok files r ds r' : read_files files r = (Ok ds, r') -> Forall2 holds files ds.
Proof.
  revert r ds r'. induction files as [|[n f] files IH]; intros r ds r' H; cbn [read_files] in H.
  - injection H as <- <-. constructor.
  - apply mbind_ok in H as (w & r1 & H1 & H). apply read_optional_ok in H1 as [Hw _].
    apply mbind_ok in H as (d & r2 & H2 & H). unfold lift in H2. destruct w as [| | | | | | |d']; try discriminate.
    injection H2 as -> <-. apply mbind_ok in H as (rest & r3 & H3 & H). injection H as <- <-.
    constructor; [exact Hw | by eapply IH].
Qed.

Definition read_from (s : store) (d : folder) (ds : list dict) : Prop :=
  exists files, Permutation files (folders s d) /\ Forall2 holds files ds.

Lemma directory_ok d r ds r' : _read_json_directory d r = (Ok ds, r') -> read_from (disk r) d ds /\ disk r' = disk r.
Proof.
  intros H. assert (Hd : disk r' = disk r).
  { destruct (within_directory (eq (disk r)) d r eq_refl) as (added & E & Ha). rewrite H in E. cbn [snd] in E.
    symmetry. by eapply (possible_disk r r' added (eq (disk r))). }
  split; [|exact Hd]. unfold _read_json_directory in H. apply mbind_ok in H as (files & r1 & H1 & H).
  injection H1 as <- <-. exists (sort_items (folders (disk r) d)). split; [apply isort_perm | by eapply read_files_ok].
Qed.

(** The folders a successful load has read. *)
Record has_read (config : dict) (s : store) (du : durable) : Prop := {
  hr_intents : read_from s Intents (du_intents du);
  hr_atoms : exists atoms, read_from s Atoms atoms /\ Forall (fun a => _validate_durable_atom a = Ok tt) atoms
}.

Lemma index_atoms_ok atoms target out : index_atoms atoms target = Ok out -> Forall (fun a => _validate_durable_atom a = Ok tt) atoms.
Proof.
  revert target. induction atoms as [|a atoms IH]; intros target H; [constructor|]. cbn [index_atoms] in H.
  apply bind_ok in H as ([] & Ha & H). apply bind_ok in H as (t & _ & H). constructor; [exact Ha | by eapply IH].
Qed.

Lemma load_state_read config r x r' du : load_state config r = (Ok (x, du), r') -> has_read config (disk r) du.
Proof.
  intros H. unfold load_state in H. apply mbind_ok in H as (f & r1 & H1 & H). injection H1 as <- <-.
  apply mbind_ok in H as (w & r1 & H1 & H). apply read_optional_ok in H1 as [_ E1].
  apply mbind_ok in H as ([] & r2 & H2 & H). injection H2 as <-.
  apply mbind_ok in H as ([] & r3 & H3 & H). injection H3 as _ <-.
  apply mbind_ok in H as (f & r3 & H3 & H). injection H3 as <- <-.
  apply mbind_ok in H as (w' & r4 & H4 & H). apply read_optional_ok in H4 as [_ E4].
  apply mbind_ok in H as ([] & r5 & H5 & H). injection H5 as <-.
  apply mbind_ok in H as ([] & r6 & H6 & H). injection H6 as _ <-.
  apply mbind_ok in H as (pend & r7 & H7 & H). injection H7 as _ <-.
  apply mbind_ok in H as (du' & r8 & H8 & H). apply mbind_ok in H as ([] & r9 & _ & H). injection H as _ -> _.
  cbn [disk] in E4. rewrite <- E1, <- E4. clear E1 E4. unfold _load_durable_state in H8. cbn [disk] in H8.
  apply mbind_ok in H8 as (intents & s1 & H1 & H). apply directory_ok in H1 as [Hi E1]. cbn [disk] in Hi, E1.
  apply mbind_ok in H as (atoms & s2 & H2 & H). apply directory_ok in H2 as [Ha E2]. rewrite E1 in Ha.
  do 4 (apply mbind_ok in H as (? & ? & _ & H)). injection H as H _.
  unfold check_durable in H. apply bind_ok in H as ([] & _ & H). apply bind_ok in H as (ah & Hx & H). apply index_atoms_ok in Hx.
  apply bind_ok in H as (? & _ & H). apply bind_ok in H as (? & _ & H). apply bind_ok in H as ([? ?] & _ & H).
  apply bind_ok in H as (? & _ & H). injection H as <-. split; [exact Hi | by exists atoms].
Qed.

(** A record of a folder is among those read. *)
Lemma Forall2_held files ds name f a : Forall2 holds files ds -> In (name, f) files -> parsed f = Some (VDict a) -> In a ds.
Proof.
  intros F Hf Hp. induction F as [|x d' files ds Hx _ IH]; [done|]. destruct Hf as [->|Hf]; [left | right; by apply IH].
  unfold holds in Hx. cbn [snd] in Hx. rewrite Hp in Hx. by injection Hx.
Qed.

Lemma read_from_In s d ds name f a : read_from s d ds -> dget (folders s d) name = Some f -> parsed f = Some (VDict a) -> In a ds.
Proof.
  intros (files & P & F) Hf Hp. eapply Forall2_held; [exact F | | exact Hp].
  apply (Permutation_in _ (symmetry P)). by apply dget_In.
Qed.

(** ** An atom that does not come back *)

(** C21: one atom without both of its hashes stops the agent for good.  When
    the journal holds an atom whose content hash or preview hash is null,
    which the contract of the atom allows and which a run writes before it
    looks at it, no run and no loop, with whatever handoff, changes the
    checkpoint or the ledger again. *)
Theorem unhashed_atom_is_fatal config v st name f a : dget (folders st Atoms) name = Some f -> parsed f = Some (VDict a) ->
  vget a "content_hash" = VNone \/ vget a "redacted_preview_hash" = VNone ->
  forall rq nows env, rq_validator rq = v ->
  Forall (as_it_was st) (possible (run_p137_runtime_once config rq st).2) /\
  Forall (as_it_was st) (possible (run_p137_runtime_loop config v nows env st).2).
Proof.
  intros Hf Hp Hn. apply blocked_as_it_was. intros s [_ Hs] r cp l pending du r' b h <- E _. exfalso.
  apply load_state_read in E as [_ (atoms & Ha & Hv)].
  pose proof (read_from_In _ _ _ _ _ _ Ha (Hs _ _ _ Hf) Hp) as Hin. rewrite List.Forall_forall in Hv. specialize (Hv _ Hin).
  unfold _validate_durable_atom in Hv. apply bind_ok in Hv as (? & _ & Hv). apply bind_ok in Hv as (? & _ & Hv).
  apply bind_ok in Hv as (? & _ & Hv). apply bind_ok in Hv as ([] & Hv & _). rewrite iterM_ok, List.Forall_forall in Hv.
  destruct Hn as [Hn|Hn]; [specialize (Hv "content_hash") | specialize (Hv "redacted_preview_hash")]; cbn beta in Hv;
    rewrite Hn in Hv;
    specialize (Hv ltac:(apply mem_In; reflexivity)); discriminate.
Qed.

(** ** Two intents for one bundle *)

Lemma two_held (p : dict -> bool) files ds x y a b : Forall2 holds files ds -> In x files -> In y files -> x <> y ->
  holds x a -> holds y b -> p a = true -> p b = true -> (2 <= List.length (List.filter p ds))%nat.
Proof.
  intros F Hx Hy Hn Ha Hb Pa Pb. assert (One : forall files ds z c, Forall2 holds files ds -> In z files -> holds z c -> p c = true ->
    (1 <= List.length (List.filter p ds))%nat).
  { clear. intros files ds [n f] c F Hz Hc Hp. pose proof (Forall2_held _ _ _ _ _ F Hz Hc) as Hin.
    assert (H : In c (List.filter p ds)) by by apply filter_In. destruct (List.filter p ds); [done | cbn; lia]. }
  assert (Same : forall z c d, holds z c -> holds z d -> c = d) by (unfold holds; intros z c d H1 H2; congruence).
  revert Hx Hy. induction F as [|z d files ds Hz F IH]; [done|]. intros [->|Hx] [E|Hy].
  - by subst.
  - rewrite <- (Same _ _ _ Ha Hz). cbn. rewrite Pa. cbn. pose proof (One _ _ _ _ F Hy Hb Pb). lia.
  - subst z. rewrite <- (Same _ _ _ Hb Hz). cbn. rewrite Pb. cbn. pose proof (One _ _ _ _ F Hx Ha Pa). lia.
  - specialize (IH Hx Hy). cbn. destruct (p d); cbn; lia.
Qed.

(** The bundle of the handoff is the one the intent was written for. *)
Definition names_bundle (handoff intent : dict) : bool :=
  py_eq (vget intent "bundle_sequence") (vget handoff "bundle_sequence") &&
  py_eq (vget intent "bundle_hash") (vget handoff "bundle_hash").

Lemma loaded_unique config st cp l pending cp' l' pending' : loaded config st cp l pending -> loaded config st cp' l' pending' ->
  cp' = cp /\ l' = l /\ pending' = pending.
Proof.
  assert (Inj : forall d d' : option dict, Some (dict_val d) = Some (dict_val d') -> d = d').
  { intros [d|] [d'|] H; try discriminate; [by injection H as -> | reflexivity]. }
  intros [H1 H2 _ _ _ H6] [H1' H2' _ _ _ H6']. rewrite H1 in H1'. rewrite H2 in H2'.
  apply Inj in H1' as <-, H2' as <-. rewrite H6 in H6'. by injection H6' as ->.
Qed.

(** C29: two intents for one bundle make a crash permanent.  When the ledger
    is one commit ahead of the checkpoint and the journal holds two
    different intents for the bundle that is handed off, which an attempt at
    it that failed and another one leave since an intent holds the time, no
    run and no loop lets the checkpoint catch up. *)
Theorem two_intents_block_recovery config v st cp l n1 n2 f1 f2 i1 i2 :
  loaded config st cp (Some l) true -> n1 <> n2 ->
  dget (folders st Intents) n1 = Some f1 -> dget (folders st Intents) n2 = Some f2 ->
  parsed f1 = Some (VDict i1) -> parsed f2 = Some (VDict i2) ->
  (forall b h, v b config cp = Ok h -> names_bundle h i1 = true /\ names_bundle h i2 = true) ->
  forall rq nows env, rq_validator rq = v ->
  Forall (as_it_was st) (possible (run_p137_runtime_once config rq st).2) /\
  Forall (as_it_was st) (possible (run_p137_runtime_loop config v nows env st).2).
Proof.
  intros L Hn Hf1 Hf2 Hp1 Hp2 Hv. apply blocked_as_it_was. intros s Hs r cp' l' pending du r' b h <- E Hh.
  pose proof E as Hl. apply load_state_ok in Hl as (Ls & _). apply (loaded_again config st) in Ls; [|exact Hs].
  destruct (loaded_unique _ _ _ _ _ _ _ _ L Ls) as (-> & -> & ->). right. split; [reflexivity|].
  apply load_state_read in E as [(files & P & F) _]. destruct Hs as [_ Hs]. destruct (Hv _ _ Hh) as [M1 M2].
  assert (Hin : forall n f, dget (folders st Intents) n = Some f -> In (n, f) files).
  { intros n f Hf. apply (Permutation_in _ (symmetry P)), dget_In. by apply Hs. }
  pose proof (two_held (names_bundle h) files (du_intents du) (n1, f1) (n2, f2) i1 i2 F (Hin _ _ Hf1) (Hin _ _ Hf2)
                ltac:(congruence) Hp1 Hp2 M1 M2) as Hlen.
  exists (UE "split_commit_intent_mismatch"). unfold _validate_split_commit_intent. cbn [rt_ensure ensure bind].
  apply ensure_raise. split; [|reflexivity]. apply Nat.eqb_neq. unfold matching_intents.
  change (fun intent : dict => _) with (names_bundle h). lia.
Qed.

(** ** Recovery *)

(** C16: recovery finishes the commit that was cut.  When a run wrote the next
    ledger and died, [recover_split_commit], the step of a later run that is
    handed the same bundle once the run has got there, writes the checkpoint
    the dead run was about to write, and nothing else but the readiness, if
    there is exactly one intent for the bundle; otherwise it writes nothing. *)
Theorem recovery_finishes_the_commit config rq st cp l nl h c du h' r :
  loaded config st cp l false -> follows config l nl -> _checkpoint config h nl cp = Ok c ->
  dget h' "bundle_sequence" = dget h "bundle_sequence" -> dget h' "bundle_hash" = dget h "bundle_hash" ->
  let (_, r') := recover_split_commit config rq cp (Some (dict_image nl)) du h' r in
  if (List.length (matching_intents (du_intents du) h') =? 1)%nat
  then slots (disk r') Checkpoint = Some (written c) /\ slots (disk r') Ledger = slots (disk r) Ledger /\
       slots (disk r') Heartbeat = slots (disk r) Heartbeat /\ folders (disk r') = folders (disk r)
  else recover_split_commit config rq cp (Some (dict_image nl)) du h' r = (Raise (UE "split_commit_intent_mismatch"), r).
Proof.
  intros L F Hc Es Eh.
  assert (N : next_of config l nl) by (apply follows_next; [intros d; by eapply loaded_not_empty | exact F]).
  destruct (nx_hash _ _ _ N) as (lh & Hlh & _).
  assert (Hc' : _checkpoint config h' (dict_image nl) cp = Ok c).
  { rewrite <- Hc. unfold _checkpoint, vindex. rewrite vget_image, Hlh, Es, Eh. reflexivity. }
  destruct (recover_split_commit config rq cp (Some (dict_image nl)) du h' r) as [out r'] eqn:E.
  unfold recover_split_commit, mbind, lift, _validate_split_commit_intent, rt_ensure in E. cbn [ensure bind required] in E.
  destruct (_ =? 1)%nat; [|exact (eq_sym E)]. cbn [ensure] in E. rewrite Hc' in E.
  destruct (_last_durable_classification _ _) as [cl|e]; apply (f_equal snd) in E; cbn [snd] in E; rewrite <- E;
    split_and!; reflexivity.
Qed.
