(* ===== verification/P137HandoffProps.v ===== *)
(** * What a validated handoff gives the runtime

    The sequence number and the hash of the bundle are checked, every atom is
    one its contract accepts, and there is no version among the fields. *)

From S2P Require Import Prelude PyValue PyChecks Sha Json P137Checks P137Durable P137DurableProps P137Triage P137Runtime P137RuntimeProps P137RuntimeLineage P137RuntimeBlocked.
From S2P Require P137Contracts P137ContractsProps P137Handoff.

#[local] Opaque stable_hash.

Section Validated.
Context (json_loads : string -> option val) (obs : P137Handoff.observer).
Notation validate := (P137Handoff.validate_p136_handoff_bundle json_loads obs).

(** What an accepted bundle is. *)
Record accepted_bundle (config h : dict) : Prop := {
  ab_handoff : exists bundle promotions atoms bytes, h = P137Handoff.handoff_of bundle promotions (concat atoms) bytes /\
    exists policy authority authority_bytes known,
      Forall2 (fun item a => P137Handoff.validate_promotion obs bundle policy authority authority_bytes known item = Ok a)
        (sort_items promotions) atoms;
  ab_sequence : exists n, vget h "bundle_sequence" = VInt n /\ 0 < n;
  ab_hash : exists s, vget h "bundle_hash" = VStr s /\ hash_text s = true
}.

Lemma validated_ok b config cp h : validate b config cp = Ok h -> accepted_bundle config h.
Proof.
  unfold P137Handoff.validate_p136_handoff_bundle. destruct (P137Handoff.validate_bundle json_loads obs b config cp) as [h'|e] eqn:E; [|discriminate].
  intros [= <-]. unfold P137Handoff.validate_bundle in E. apply bind_ok in E as (? & _ & E). apply bind_ok in E as (bundle & _ & E).
  apply bind_ok in E as ([] & He & E). apply bind_ok in E as ([auth ab] & _ & E). do 3 (apply bind_ok in E as (? & _ & E)).
  apply bind_ok in E as (? & _ & E). apply bind_ok in E as (known & _ & E). apply bind_ok in E as (promotions & _ & E).
  apply bind_ok in E as (policy & _ & E). apply bind_ok in E as (atoms & Ha & E). apply bind_ok in E as (sizes & _ & E).
  apply (inj Ok) in E as <-. apply mapM_ok in Ha.
  unfold P137Handoff._validate_bundle_envelope in He. apply bind_ok in He as (? & _ & He). apply bind_ok in He as (? & Hh & He).
  apply ensure_ok, py_eq_str in Hh. do 12 (apply bind_ok in He as (? & _ & He)).
  unfold P137Handoff.check_sequence in He. apply bind_ok in He as (n & Hn & _).
  split.
  - exists bundle, promotions, atoms, (fold_right Z.add 0 sizes). split; [reflexivity|]. by exists policy, auth, ab, known.
  - exists n. cbn. unfold P137Handoff._positive_int in Hn. destruct (vget bundle "bundle_sequence") as [| |z| | | | |]; try discriminate.
    destruct (0 <? z) eqn:Ez; [|discriminate]. injection Hn as ->. apply Z.ltb_lt in Ez. auto.
  - exists (stable_hash (VDict (dwithout ["bundle_hash"] bundle))). split; [exact Hh | apply hash_text_stable].
Qed.

#[export] Instance handoff_validator_is_honest : HonestValidator validate.
Proof.
  intros b config cp h H. apply validated_ok in H as [_ (n & Hn & Hp) (s & Hs & Ht)]. by exists n, s.
Qed.

(** ** There is no version *)

Lemma no_version b config cp h : validate b config cp = Ok h -> vget h "bundle_version" = VNone.
Proof. intros H. apply validated_ok in H as [(bundle & promotions & atoms & bytes & -> & _) _ _]. reflexivity. Qed.

(** C30: with version polling the agent accepts no bundle.  Under a
    configuration that polls the version of the handoff, no run and no loop
    with the validator of the triage changes the checkpoint or the ledger,
    whatever is handed off: what that validator returns holds no version. *)
Theorem version_polling_accepts_nothing config st :
  P137Contracts.validate_triage_agent_config (VDict config) = Ok tt ->
  continuous_is config "enabled" = true -> continuous_is config "handoff_version_polling" = true ->
  forall rq nows env, rq_validator rq = validate ->
  Forall (as_it_was st) (possible (run_p137_runtime_once config rq st).2) /\
  Forall (as_it_was st) (possible (run_p137_runtime_loop config validate nows env st).2).
Proof.
  intros Hc He Hp. apply blocked_as_it_was. intros s _ r cp l pending du r' b h _ _ Hh. left.
  destruct (P137ContractsProps.accepted_mode_int config "expected_bundle_version" Hc) as (mode & z & Hm & Hz & _); [cbn; tauto|].
  unfold version_stale. rewrite He, Hp, Hm, (no_version _ _ _ _ Hh).
  cbn [dict_or_empty]. by rewrite Hz.
Qed.
End Validated.

(** ** Atoms *)

(** The record has a preview and a content hash. *)
Definition comes_back (record : dict) : Prop := truthy (vget record "redacted_preview") = true /\ vget record "content_hash" <> VNone.

Lemma atom_data_hashes promotion bundle record status policy data :
  P137Handoff.atom_data promotion bundle record status policy = Ok data ->
  vget data "content_hash" = vget record "content_hash" /\
  vget data "redacted_preview_hash" = (if truthy (vget record "redacted_preview")
                                       then VStr (stable_hash (vget record "redacted_preview")) else VNone).
Proof.
  unfold P137Handoff.atom_data. intros H. do 24 (apply bind_ok in H as (? & _ & H)).
  apply bind_ok in H as (content & Hc & H). apply bind_ok in H as (ordinal & _ & H). apply (inj Ok) in H as <-.
  apply vindex_value in Hc as ->. split; reflexivity.
Qed.

Lemma atom_data_flags promotion bundle record status policy data :
  P137Handoff.atom_data promotion bundle record status policy = Ok data ->
  exists flags, P137Handoff._sequence (vget record "risk_flags") "risk_flags" = Ok flags /\
    vget data "risk_flags" = vlist_of_strings (sorted_strings (map py_str flags)).
Proof.
  unfold P137Handoff.atom_data. intros H. do 6 (apply bind_ok in H as (? & _ & H)).
  apply bind_ok in H as (flags & Hf & H). do 19 (apply bind_ok in H as (? & _ & H)). apply (inj Ok) in H as <-.
  exists flags. split; [exact Hf | reflexivity].
Qed.

(** What a promotion that is converted gives. *)
Lemma converted_ok promotion policy atoms : P137Handoff._atoms_from_promotion promotion policy = Ok atoms ->
  exists bundle items, vget promotion "p135_normalized_bundle" = VDict bundle /\
    P137Handoff._sequence (vget bundle "records") "records" = Ok items /\
    Forall2 (fun item a => exists record data status, item = VDict record /\
      P137Handoff.atom_data promotion bundle record status policy = Ok data /\
      P137Contracts.build_evidence_atom (VDict data) = Ok a) items atoms.
Proof.
  unfold P137Handoff._atoms_from_promotion. intros H. apply bind_ok in H as (status & _ & H). apply bind_ok in H as (v & Hv & H).
  apply vindex_value in Hv. apply bind_ok in H as (bundle & Hb & H). apply bind_ok in H as (? & _ & H).
  apply bind_ok in H as (items & Hi & H). unfold P137Handoff._mapping in Hb. destruct v; try discriminate. injection Hb as ->.
  exists bundle, items. split; [exact Hv|]. split; [exact Hi|]. apply mapM_ok in H. eapply Forall2_impl; [exact H|].
  intros item a Ha. apply bind_ok in Ha as (record & Hr & Ha). apply bind_ok in Ha as (data & Hd & Ha).
  exists record, data, (py_str status). split; [by destruct item; try discriminate; injection Hr as ->|]. by split.
Qed.

(** C13: a record without a preview becomes an atom the agent cannot read
    back.  Each record of a promotion that is converted gives one atom; the
    atom is accepted by its contract, and passes the check on the atoms of
    the journal exactly when the record has a preview and a content hash. *)
Theorem converted_atom_comes_back_iff promotion policy atoms : P137Handoff._atoms_from_promotion promotion policy = Ok atoms ->
  exists bundle items, vget promotion "p135_normalized_bundle" = VDict bundle /\
    P137Handoff._sequence (vget bundle "records") "records" = Ok items /\
    Forall2 (fun item a => exists record, item = VDict record /\
      P137Contracts.validate_evidence_atom (VDict (dict_image a)) = Ok tt /\
      (_validate_durable_atom (dict_image a) = Ok tt <-> comes_back record)) items atoms.
Proof.
  intros H. destruct (converted_ok _ _ _ H) as (bundle & items & Hb & Hi & F). exists bundle, items.
  split; [exact Hb|]. split; [exact Hi|]. eapply Forall2_impl; [exact F|].
  intros item a (record & data & status & -> & Hd & Ha). exists record. split; [reflexivity|].
  pose proof Ha as B. apply P137ContractsProps.atom_built in B. split; [by apply P137ContractsProps.built_reads_back|].
  rewrite (reloads_iff _ B). apply atom_data_hashes in Hd as [Ec Ep].
  rewrite (built_optional _ _ "content_hash" Ha), (built_optional _ _ "redacted_preview_hash" Ha), Ec, Ep by (cbn; tauto).
  unfold comes_back. destruct (truthy (vget record "redacted_preview")); intuition discriminate.
Qed.

(** C35: a record whose text looks like credentials stops its bundle.  When a
    promotion is converted none of its records has the flag
    [credential_like_text], though the marker of an atom is meant to report
    it: the flag itself is refused as text that holds a secret. *)
Theorem credential_flag_is_never_converted promotion policy atoms : P137Handoff._atoms_from_promotion promotion policy = Ok atoms ->
  exists bundle items, vget promotion "p135_normalized_bundle" = VDict bundle /\
    P137Handoff._sequence (vget bundle "records") "records" = Ok items /\
    Forall (fun item => exists record flags, item = VDict record /\
      P137Handoff._sequence (vget record "risk_flags") "risk_flags" = Ok flags /\
      ~ In (VStr "credential_like_text") flags) items.
Proof.
  intros H. destruct (converted_ok _ _ _ H) as (bundle & items & Hb & Hi & F). exists bundle, items.
  split; [exact Hb|]. split; [exact Hi|]. clear Hb Hi H. induction F as [|item a items atoms Ha _ IH]; constructor; [|exact IH].
  destruct Ha as (record & data & status & -> & Hd & Ha). destruct (atom_data_flags _ _ _ _ _ _ Hd) as (flags & Hf & Er).
  exists record, flags. split; [reflexivity|]. split; [exact Hf|]. intros Hin.
  pose proof (built_value _ _ "risk_flags" _ Ha ltac:(apply in_app_iff; right; do 11 right; left; reflexivity)) as Hv.
  rewrite Er in Hv. unfold P137Contracts.strings_field in Hv. apply bind_ok in Hv as (l & Hl & _).
  unfold P137Contracts._text_list, P137Contracts.sorted_items in Hl. apply bind_ok in Hl as (flagged & Hx & Hl).
  injection Hx as <-. apply bind_ok in Hl as (texts & Ht & _). apply mapM_ok in Ht.
  assert (Hs : In (VStr "credential_like_text") (map VStr (sorted_strings (map py_str flags)))).
  { apply in_map. unfold sorted_strings. apply in_isort. by apply (in_map py_str) in Hin. }
  clear - Ht Hs. induction Ht as [|v t vs ts Hv _ IH]; [done|]. destruct Hs as [->|Hs]; [|by apply IH].
  vm_compute in Hv. discriminate.
Qed.
