(* ===== verification/P137PublisherProps.v ===== *)
(** * The documents of a publication

    A bundle that is put together is valid when it is read back, and so are
    the state and the intent that go with it; it continues the chain of the
    bundle before it. *)

From S2P Require Import Prelude PyValue PyChecks Sha Json PyTime P137Checks P137Durable P137Handoff P137Publisher.
From S2P Require P137Contracts P137ContractsProps P137DurableProps P137Triage P137Runtime.

#[local] Opaque stable_hash.

(** ** Documents on disk *)

Lemma image_wf v : val_wf v -> json_value (json_image v).
Proof.
  induction v as [|b|z|q|s|l IH|l IH|d IH] using val_deep_ind; intros H; try done.
  1, 2: cbn [json_image]; rewrite ?val_wf_list, ?val_wf_tuple in H; apply json_value_list, List.Forall_map;
    rewrite List.Forall_forall in *; auto.
  rewrite val_wf_dict in H. destruct H as [Hd H]. rewrite json_image_dict. apply json_value_dict. split.
  - unfold dict_wf. by rewrite dkeys_image.
  - unfold dict_image, sort_items. rewrite isort_perm. apply List.Forall_map. rewrite List.Forall_forall in *.
    intros kv Hkv. cbn. auto.
Qed.

Lemma image_eq_refl d : val_wf (VDict d) -> py_eq (VDict (dict_image d)) (VDict (dict_image d)) = true.
Proof. intros H. apply py_eq_refl, json_value_wf. rewrite <- json_image_dict. by apply image_wf. Qed.

Lemma dict_image_idem d : dict_image (dict_image d) = dict_image d.
Proof. pose proof (json_image_idem (VDict d)) as H. rewrite !json_image_dict in H. by injection H. Qed.

Lemma canonical_image d : canonical_json_bytes (dict_image d) = canonical_json_bytes d.
Proof. exact (json_dumps_image (VDict d)). Qed.

Lemma written_image d : P137Runtime.written (dict_image d) = P137Runtime.written d.
Proof.
  unfold P137Runtime.written, P137Triage._canonical_json_bytes. rewrite !json_image_dict, dict_image_idem.
  by rewrite <- json_image_dict, json_dumps_image.
Qed.

Lemma without_newline_app s : without_newline (s +:+ nl) = s.
Proof.
  unfold without_newline, P137Triage.ends_with. rewrite length_string_app. change (String.length nl) with 1%nat.
  rewrite Nat.add_sub, substring_drop, (substring_all nl 1) by (cbn; lia). rewrite eqs_refl.
  apply P137ContractsProps.substring_app.
Qed.

Definition fits (f : P137Runtime.file) : Prop := Z.of_nat (String.length (P137Runtime.text f)) <= _MAX_PUBLISHER_JSON_BYTES.

Lemma read_written p label fs l d : fs p = Some (P137Runtime.written d) -> fits (P137Runtime.written d) ->
  _read_json_optional p label {| held := fs; passed := l |} = (Ok (Some (dict_image d)), {| held := fs; passed := l |}).
Proof.
  intros E Hf. unfold _read_json_optional, mbind, reading. cbn [held]. rewrite E. unfold lift, fits in *.
  apply Z.leb_le in Hf. rewrite Hf. cbn [ho_ensure ensure P137Runtime.written P137Runtime.parsed P137Runtime.text] in *.
  rewrite json_image_dict. unfold P137Triage._canonical_json_bytes. rewrite without_newline_app, canonical_image.
  unfold canonical_json_bytes. by rewrite eqs_refl.
Qed.

(** What a file that was written holds. *)
Definition document (o : option dict) : option P137Runtime.file := option_map P137Runtime.written o.

Lemma same_text s : py_eq (VStr s) (VStr s) = true.
Proof. exact (eqs_refl s). Qed.

(** ** Bundles *)

(** The release validator of the observer accepts a document again that it
    accepted and that was written and read back. *)
Class StableObserver (obs : observer) : Prop :=
  release_read_back : forall release review, validate_p136_release_evidence obs release review = Ok tt ->
    validate_p136_release_evidence obs (dict_image release) (dict_image review) = Ok tt.

Lemma handoff_hash v label s : _hash v label = Ok s <-> v = VStr s /\ hash_text s = true.
Proof.
  unfold _hash, hash_text. destruct v as [| | | |t| | |]; try (split; [discriminate | by intros [? _]]).
  destruct (_ && _) eqn:E; split; [by intros [= ->] | by intros [[= ->] _] | discriminate | intros [[= ->] H]; congruence].
Qed.

Lemma handoff_positive v label n : _positive_int v label = Ok n <-> v = VInt n /\ 0 < n.
Proof.
  unfold _positive_int. destruct v as [| |z| | | | |]; try (split; [discriminate | by intros [? _]]).
  destruct (Z.ltb_spec 0 z); split; [by intros [= ->] | by intros [[= ->] _] | discriminate | intros [[= ->] H']; lia].
Qed.

(** ** A candidate has distinct keys throughout *)

Definition entry_wf (kv : string * val) : Prop := val_wf kv.2.
Definition item_wf (i : item) : Prop := match i with Document v => val_wf v | Raw _ => True end.
Definition field_wf (f : field) : Prop := match f with One i => item_wf i | Many l => Forall item_wf l end.

(** Inputs are Python values: the keys of each dictionary are distinct. *)
Record proper (i : inputs) : Prop := {
  pr_config : val_wf (VDict (in_config i));
  pr_authority : Forall (fun kv => field_wf kv.2) (in_authority i);
  pr_checkpoint : val_wf (VDict (in_checkpoint i));
  pr_entries : val_wf (VDict (in_entries i));
  pr_promotions : Forall val_wf (in_promotions i);
  pr_review : val_wf (VDict (in_review i));
  pr_release : val_wf (VDict (in_release i))
}.

Lemma dict_wf_of d : NoDup (dkeys d) -> Forall entry_wf d -> val_wf (VDict d).
Proof. intros H1 H2. apply val_wf_dict. auto. Qed.

Lemma dset_wf d k v : val_wf (VDict d) -> val_wf v -> val_wf (VDict (dset d k v)).
Proof.
  rewrite !val_wf_dict. intros [H1 H2] Hv. split.
  - clear H2. unfold dict_wf in *. induction d as [|[k' x] d IH]; cbn in *; [repeat constructor; by apply not_elem_of_nil|].
    apply NoDup_cons in H1 as [Hn H1]. destruct (k =s k') eqn:E; [by constructor|]. constructor; [|by apply IH].
    intros Hin. apply Hn. revert Hin. clear - E. induction d as [|[k2 x2] d IH]; cbn.
    + intros [->|[]%elem_of_nil]%elem_of_cons. by rewrite eqs_refl in E.
    + destruct (k =s k2); [exact id|]. cbn. rewrite !elem_of_cons. intros [->|Hin]; [by left | right; by apply IH].
  - clear H1. induction H2 as [|[k' x] d Hx Hd IH]; cbn; [by repeat constructor|]. destruct (k =s k'); by constructor.
Qed.

Lemma fold_dset_wf {A} (key : A -> string) (f : A -> val) l : Forall (fun x => val_wf (f x)) l ->
  forall d, val_wf (VDict d) -> val_wf (VDict (fold_left (fun acc x => dset acc (key x) (f x)) l d)).
Proof. induction 1; intros d Hd; cbn; [exact Hd|]. apply IHForall. by apply dset_wf. Qed.

Lemma mapM_keys {A} (key : A -> string) (f : A -> res (string * val)) l d :
  (forall x kv, f x = Ok kv -> kv.1 = key x) -> mapM f l = Ok d -> dkeys d = map key l.
Proof. intros Hf H. apply mapM_ok in H. induction H as [|x kv l d Hx _ IH]; [done|]. cbn. f_equal; auto. Qed.

Lemma mapM_wf {A} (P : A -> Prop) (f : A -> res (string * val)) l d :
  (forall x kv, P x -> f x = Ok kv -> entry_wf kv) -> Forall P l -> mapM f l = Ok d -> Forall entry_wf d.
Proof.
  intros Hf Hp H. apply mapM_ok in H. induction H as [|x kv l d Hx _ IH]; [constructor|]. apply Forall_cons in Hp as [? ?].
  constructor; eauto.
Qed.

Lemma mapping_is v label d : _mapping v label = Ok d -> v = VDict d.
Proof. destruct v; try discriminate. by intros [= ->]. Qed.

Lemma sort_items_wf (d : dict) : val_wf (VDict d) -> NoDup (dkeys (sort_items d)) /\ Forall entry_wf (sort_items d).
Proof.
  rewrite val_wf_dict. intros [H1 H2]. split; [by rewrite dkeys_sort_items|]. unfold sort_items. by rewrite isort_perm.
Qed.

Ltac wf_fields :=
  apply dict_wf_of;
  [ apply (bool_decide_unpack _); vm_compute; exact I
  | repeat first [apply List.Forall_nil | apply List.Forall_cons]; unfold entry_wf; cbn [snd]; first [assumption | exact I | idtac] ].

Lemma entry_wrappers_wf entries d : val_wf (VDict entries) -> _entry_wrappers entries = Ok d -> val_wf (VDict d).
Proof.
  intros Hw H. apply sort_items_wf in Hw as [Hk Hw]. apply dict_wf_of.
  - erewrite (mapM_keys fst); [exact Hk | | exact H]. intros x kv E. unfold entry_wrapper in E.
    apply bind_ok in E as (? & _ & E). apply bind_ok in E as (? & _ & [= <-]). reflexivity.
  - eapply mapM_wf; [|exact Hw|exact H]. intros x kv Hx E. unfold entry_wrapper in E.
    apply bind_ok in E as (entry & Em & E). apply bind_ok in E as (? & _ & [= <-]). apply mapping_is in Em.
    unfold entry_wf in *. rewrite Em in Hx. wf_fields.
Qed.

Lemma vindex_wf d k v : val_wf (VDict d) -> vindex d k = Ok v -> val_wf v.
Proof. intros H E. apply vindex_ok, vget_some in E. rewrite <- E. by apply vget_wf. Qed.

Lemma promotion_wrapper_wf v kv : val_wf v -> promotion_wrapper v = Ok kv -> entry_wf kv.
Proof.
  intros Hv E. unfold promotion_wrapper in E. apply bind_ok in E as (promotion & Em & E). apply mapping_is in Em as ->.
  do 2 (apply bind_ok in E as (? & _ & E)). apply bind_ok in E as (bundle & Eb & E). apply bind_ok in E as (bindings & Ei & E).
  apply (inj Ok) in E as <-. apply mapping_is in Eb. pose proof (vget_wf _ "p135_normalized_bundle" Hv) as Hb. rewrite Eb in Hb.
  assert (Hi : val_wf (VDict bindings)).
  { apply dict_wf_of.
    - erewrite (mapM_keys id); [|  | exact Ei].
      + apply (bool_decide_unpack _). vm_compute. exact I.
      + intros y yv E. by apply bind_ok in E as (? & _ & [= <-]).
    - eapply (mapM_wf (fun _ => True)); [| by apply List.Forall_forall | exact Ei]. intros y yv _ E.
      apply bind_ok in E as (w & Ew & [= <-]). by apply vindex_wf in Ew. }
  unfold entry_wf. cbn [snd]. wf_fields.
Qed.

Lemma promotion_wrappers_wf promotions d : Forall val_wf promotions -> _promotion_wrappers promotions = Ok d -> val_wf (VDict d).
Proof.
  intros Hp H. apply bind_ok in H as (wrappers & E & [= <-]). apply (fold_dset_wf fst snd); [|by apply val_wf_dict; repeat constructor].
  eapply (mapM_wf val_wf); [exact promotion_wrapper_wf | exact Hp | exact E].
Qed.

Lemma add_parts_wf f l : (forall name raw, val_wf (f name raw)) -> val_wf (VDict (add_parts f l)).
Proof.
  intros H. apply (fold_dset_wf fst (fun part => f part.1 part.2)); [|by apply val_wf_dict; repeat constructor].
  apply List.Forall_forall. auto.
Qed.
Lemma authority_field_wf auth key : Forall (fun kv => field_wf kv.2) auth -> field_wf (authority_field auth key).
Proof.
  intros H. unfold authority_field. destruct (dget auth key) eqn:E; [|done]. apply dget_In in E.
  rewrite List.Forall_forall in H. exact (H _ E).
Qed.

Lemma field_item_wf f label i : field_wf f -> field_item f label = Ok i -> item_wf i.
Proof. destruct f; [|discriminate]. by intros H [= <-]. Qed.

Lemma field_items_wf f label l : field_wf f -> field_items f label = Ok l -> Forall item_wf l.
Proof.
  destruct f as [[v|data]|items]; [|discriminate|by intros H [= <-]]. cbn. intros H E. apply bind_ok in E as (vs & E & [= <-]).
  unfold _sequence in E. destruct v as [| | | | |w|w|]; try discriminate; injection E as <-;
    rewrite ?val_wf_list, ?val_wf_tuple in H; by apply List.Forall_map.
Qed.

Lemma item_mapping_wf i label d : item_wf i -> item_mapping i label = Ok d -> val_wf (VDict d).
Proof. destruct i; [|discriminate]. intros H E. apply mapping_is in E as ->. exact H. Qed.

Lemma encoded_document_ok auth key kv : encoded_document auth key = Ok kv -> kv.1 = key.
Proof. intros E. apply bind_ok in E as (? & _ & E). by apply bind_ok in E as (? & _ & [= <-]). Qed.
Lemma encoded_bytes_ok auth key kv : encoded_bytes auth key = Ok kv -> kv.1 = key.
Proof. intros E. apply bind_ok in E as (? & _ & E). by apply bind_ok in E as (? & _ & [= <-]). Qed.

Lemma encoded_documents_wf auth key label kv : Forall (fun kv => field_wf kv.2) auth -> encoded_documents auth key label = Ok kv ->
  kv.1 = key /\ entry_wf kv.
Proof.
  intros H E. apply bind_ok in E as (l & Hl & E). apply bind_ok in E as (ds & Hd & [= <-]). split; [reflexivity|].
  apply field_items_wf in Hl; [|by apply authority_field_wf]. unfold entry_wf. cbn [snd]. apply val_wf_list, List.Forall_map.
  apply mapM_ok in Hd. induction Hd as [|i d l ds Hi _ IH]; [constructor|]. apply Forall_cons in Hl as [Hw Hl].
  constructor; [by eapply item_mapping_wf | auto].
Qed.

Lemma encoded_byte_list_wf auth key kv : encoded_byte_list auth key = Ok kv -> kv.1 = key /\ entry_wf kv.
Proof.
  intros E. apply bind_ok in E as (l & _ & E). apply bind_ok in E as (ds & _ & [= <-]). split; [reflexivity|]. apply strings_wf.
Qed.

Lemma encoded_authority_wf auth d : Forall (fun kv => field_wf kv.2) auth -> _encoded_authority auth = Ok d -> val_wf (VDict d).
Proof.
  intros Hw E. unfold _encoded_authority in E. apply bind_ok in E as (? & _ & E). apply bind_ok in E as (documents & Hd & E).
  apply bind_ok in E as (index & Hi & E). apply bind_ok in E as (segments & Hs & E). apply bind_ok in E as (single & H1 & E).
  apply bind_ok in E as (ib & Hib & E). apply bind_ok in E as (sb & Hsb & E). apply (inj Ok) in E as <-.
  apply encoded_documents_wf in Hi as [Ki Wi]; [|exact Hw]. apply encoded_documents_wf in Hs as [Ks Ws]; [|exact Hw].
  apply encoded_byte_list_wf in Hib as [Kib Wib]. apply encoded_byte_list_wf in Hsb as [Ksb Wsb].
  pose proof (mapM_keys id _ _ _ (encoded_document_ok auth) Hd) as Kd. pose proof (mapM_keys id _ _ _ (encoded_bytes_ok auth) H1) as K1.
  apply dict_wf_of.
  - unfold dkeys in *. rewrite !map_app, Kd, K1. cbn [map]. rewrite Ki, Ks, Kib, Ksb.
    apply (bool_decide_unpack _). vm_compute. exact I.
  - assert (Wd : Forall entry_wf documents).
    { eapply (mapM_wf (fun _ => True)); [| by apply List.Forall_forall | exact Hd]. intros key kv _ E.
      apply bind_ok in E as (i & Ei & E). apply bind_ok in E as (d & Em & [= <-]). apply field_item_wf in Ei; [|by apply authority_field_wf].
      by eapply item_mapping_wf. }
    assert (W1 : Forall entry_wf single).
    { eapply (mapM_wf (fun _ => True)); [| by apply List.Forall_forall | exact H1]. intros key kv _ E.
      apply bind_ok in E as (i & _ & E). by apply bind_ok in E as (data & _ & [= <-]). }
    apply Forall_app. split; [exact Wd|]. apply List.Forall_cons; [exact Wi|]. apply List.Forall_cons; [exact Ws|].
    apply Forall_app. split; [exact W1|]. by repeat constructor.
Qed.

Section Publications.
Context (obs : observer) (path : string).
Notation valid_bundle := (_validate_publisher_bundle obs path).

(** The parts of a bundle by which it is chained. *)
Record chained (b : dict) (n : Z) (h root checkpoint : string) (previous : val) : Prop := {
  ch_sequence : vget b "bundle_sequence" = VInt n;
  ch_positive : 0 < n;
  ch_hash : vget b "bundle_hash" = VStr h;
  ch_hash_text : hash_text h = true;
  ch_root : vget b "handoff_chain_root_hash" = VStr root;
  ch_root_text : hash_text root = true;
  ch_checkpoint : vget b "p136_checkpoint_hash" = VStr checkpoint;
  ch_checkpoint_text : hash_text checkpoint = true;
  ch_path : vget b "fixed_handoff_path" = VStr path;
  ch_previous : vget b "previous_bundle_hash" = previous;
  ch_genesis : n = 1 /\ previous = VNone \/ n <> 1 /\ exists p, previous = VStr p /\ hash_text p = true
}.

(** A bundle the publisher has written. *)
Record good (b : dict) : Prop := {
  go_wf : val_wf (VDict b);
  go_valid : valid_bundle (dict_image b) = Ok tt;
  go_chained : exists n h root checkpoint previous, chained b n h root checkpoint previous
}.

(** [b] comes after [prior]. *)
Definition extends (prior : option dict) (b : dict) : Prop :=
  match prior with
  | None => vget b "bundle_sequence" = VInt 1 /\ vget b "previous_bundle_hash" = VNone
  | Some p => exists n h root, vget p "bundle_sequence" = VInt n /\ vget b "bundle_sequence" = VInt (n + 1) /\
      vget p "bundle_hash" = VStr h /\ vget b "previous_bundle_hash" = VStr h /\
      vget p "handoff_chain_root_hash" = VStr root /\ vget b "handoff_chain_root_hash" = VStr root
  end.

Definition state_of (b : dict) : dict :=
  under_hash "state_hash"
    [("schema_version", VStr PUBLISHER_STATE_SCHEMA_VERSION); ("handoff_chain_root_hash", vget b "handoff_chain_root_hash");
     ("last_bundle_sequence", vget b "bundle_sequence"); ("last_bundle_hash", vget b "bundle_hash");
     ("last_p136_checkpoint_hash", vget b "p136_checkpoint_hash"); ("fixed_handoff_path", vget b "fixed_handoff_path")].

Lemma chained_image b n h root checkpoint previous : chained b n h root checkpoint previous ->
  chained (dict_image b) n h root checkpoint previous.
Proof.
  intros [H1 H2 H3 H4 H5 H6 H7 H8 H9 H10 H11]. split; rewrite ?vget_image, ?H1, ?H3, ?H5, ?H7, ?H9, ?H10; auto.
  destruct H11 as [[_ ->]|(_ & p & -> & _)]; reflexivity.
Qed.

Lemma state_fields b : let s := state_of b in
  vget s "handoff_chain_root_hash" = vget b "handoff_chain_root_hash" /\ vget s "last_bundle_sequence" = vget b "bundle_sequence" /\
  vget s "last_bundle_hash" = vget b "bundle_hash" /\ vget s "last_p136_checkpoint_hash" = vget b "p136_checkpoint_hash" /\
  vget s "fixed_handoff_path" = vget b "fixed_handoff_path".
Proof. by split_and!. Qed.

Lemma state_from_chained b n h root checkpoint previous : chained b n h root checkpoint previous ->
  _state_from_bundle b = Ok (state_of b).
Proof.
  intros [H1 _ H3 _ H5 _ H7 _ H9 _ _]. unfold _state_from_bundle, state_of.
  rewrite (vindex_vget _ _ _ H5), (vindex_vget _ _ _ H1), (vindex_vget _ _ _ H3), (vindex_vget _ _ _ H7), (vindex_vget _ _ _ H9) by discriminate.
  cbn [bind]. by rewrite H1, H3, H5, H7, H9.
Qed.

Lemma state_of_image b n h root checkpoint previous : chained b n h root checkpoint previous -> state_of (dict_image b) = state_of b.
Proof.
  intros H. pose proof (chained_image _ _ _ _ _ _ H) as [I1 _ I3 _ I5 _ I7 _ I9 _ _]. destruct H as [H1 _ H3 _ H5 _ H7 _ H9 _ _].
  unfold state_of. by rewrite I1, I3, I5, I7, I9, H1, H3, H5, H7, H9.
Qed.

(** ** The documents of a publication are valid *)

Lemma self_hashed_image key value error : dmem key value = false ->
  self_hashed (dict_image (under_hash key value)) key error = Ok tt.
Proof.
  intros H. unfold self_hashed, under_hash. rewrite vget_image, stable_hash_without_image.
  assert (E : vget (value ++ [(key, VStr (stable_hash (VDict value)))]) key = VStr (stable_hash (VDict value)) /\
              dwithout [key] (value ++ [(key, VStr (stable_hash (VDict value)))]) = value).
  { generalize (VStr (stable_hash (VDict value))). intros v. revert H. unfold vget. induction value as [|[k x] d IH]; intros H.
    - cbn. by rewrite eqs_refl.
    - unfold dmem, dkeys in *. cbn in H |- *. apply orb_false_iff in H as [Hk Hd]. rewrite Hk. destruct (IH Hd) as [E1 E2].
      split; [exact E1|]. replace (k =s key) with false by (symmetry; rewrite String.eqb_sym; exact Hk). cbn. f_equal. exact E2. }
  destruct E as [-> ->]. cbn [json_image py_eq]. by rewrite eqs_refl.
Qed.

Lemma hash_field_string value key label s : vget value key = VStr s -> hash_text s = true ->
  hash_field_ok (dict_image value) key label = Ok tt.
Proof. intros E H. unfold hash_field_ok. rewrite vget_image, E. cbn [json_image]. by rewrite (proj2 (handoff_hash _ _ _) (conj eq_refl H)). Qed.

Lemma state_is_valid b n h root checkpoint previous : chained b n h root checkpoint previous ->
  _validate_publisher_state path (dict_image (state_of b)) = Ok tt.
Proof.
  intros [H1 Hn H3 Hh H5 Hr H7 Hc H9 _ _]. unfold _validate_publisher_state. rewrite same_keys_image.
  rewrite (vget_image _ "schema_version"). change (same_keys _ _ && _) with true. cbn [ho_ensure ensure bind].
  rewrite (hash_field_string _ _ _ root), (hash_field_string _ _ _ h), (hash_field_string _ _ _ checkpoint) by (assumption || exact H5 || exact H3 || exact H7).
  cbn [bind]. rewrite !vget_image. change (vget (state_of b) "last_bundle_sequence") with (vget b "bundle_sequence").
  change (vget (state_of b) "fixed_handoff_path") with (vget b "fixed_handoff_path"). rewrite H1, H9. cbn [json_image].
  rewrite (proj2 (handoff_positive _ _ _) (conj eq_refl Hn)). cbn [bind py_eq]. rewrite eqs_refl. cbn [ho_ensure ensure bind].
  by apply self_hashed_image.
Qed.

Lemma state_matches b n h root checkpoint previous : chained b n h root checkpoint previous ->
  _validate_publisher_state_matches_bundle (dict_image (state_of b)) (dict_image b) = Ok tt.
Proof.
  intros [H1 Hn H3 Hh H5 Hr H7 Hc _ _ _]. unfold _validate_publisher_state_matches_bundle. rewrite !vget_image.
  destruct (state_fields b) as (-> & -> & -> & -> & _). rewrite H1, H3, H5, H7. cbn [json_image].
  by rewrite py_eq_int, Z.eqb_refl, !same_text.
Qed.

Lemma intent_fields state b : let intent := intent_of state path b in
  vget intent "fixed_handoff_path" = VStr path /\ vget intent "fsync" = VDict FSYNC /\
  vget intent "state_hash" = match state with Some s => vget s "state_hash" | None => VNone end /\
  vget intent "bundle_sequence" = vget b "bundle_sequence" /\ vget intent "previous_bundle_hash" = vget b "previous_bundle_hash" /\
  vget intent "bundle_hash" = vget b "bundle_hash" /\ vget intent "bundle" = VDict b.
Proof. by split_and!. Qed.

Lemma state_hash_of p : exists v, vget (state_of p) "state_hash" = VStr (stable_hash v).
Proof. eexists. reflexivity. Qed.

Lemma intent_is_valid prior b : good b -> extends prior b ->
  _validate_publisher_intent_envelope obs path (dict_image (intent_of (option_map state_of prior) path b)) = Ok tt.
Proof.
  intros [Hwf Hv (n & h & root & checkpoint & previous & C)] Hx. pose proof C as [H1 Hn H3 Hh H5 Hr H7 Hc H9 H10 Hg].
  apply chained_image in C as [I1 _ I3 _ _ _ _ _ _ I10 _].
  destruct (intent_fields (option_map state_of prior) b) as (E1 & E2 & E3 & E4 & E5 & E6 & E7).
  assert (Hs : exists sh, json_image (vget (intent_of (option_map state_of prior) path b) "state_hash") = sh /\
                 ((n = 1 /\ previous = VNone /\ sh = VNone) \/ (n <> 1 /\ (exists q, previous = VStr q /\ hash_text q = true) /\ exists v, sh = VStr (stable_hash v)))).
  { eexists. split; [reflexivity|]. rewrite E3. destruct prior as [p|]; cbn [option_map].
    - right. destruct Hx as (m & hp & rp & Em & Eb & _ & Eq & _). destruct (state_hash_of p) as [v ->]. destruct Hg as [[_ Hq]|[Hne Hq]]; [congruence|].
      eauto.
    - left. destruct Hx as [Eb Eq]. split; [congruence|]. split; [congruence | reflexivity]. }
  destruct Hs as (sh & Es & Hs). unfold _validate_publisher_intent_envelope. rewrite same_keys_image, (vget_image _ "schema_version").
  change (same_keys _ _ && _) with true. cbn [ho_ensure ensure bind]. unfold intent_of at 1. rewrite self_hashed_image by reflexivity. cbn [bind].
  rewrite !vget_image, Es, E1, E2, E4, E5, E6, E7, !json_image_dict, H1, H3, H10. cbn [json_image py_eq]. rewrite eqs_refl.
  change (py_eq (VDict (dict_image FSYNC)) (VDict FSYNC)) with true. cbn [ho_ensure ensure bind].
  rewrite (proj2 (handoff_positive _ _ _) (conj eq_refl Hn)), (proj2 (handoff_hash _ _ _) (conj eq_refl Hh)).
  assert (Hb : (let! _ := ho_ensure (py_eq (vget (dict_image b) "bundle_hash") (VStr h)) "publisher_intent_bundle_hash_mismatch" in
             let! _ := ho_ensure (py_eq (vget (dict_image b) "bundle_sequence") (VInt n)) "publisher_intent_bundle_sequence_mismatch" in
             ho_ensure (py_eq (vget (dict_image b) "previous_bundle_hash") (json_image previous)) "publisher_intent_previous_bundle_hash_mismatch") = Ok tt).
  { rewrite I1, I3, I10, py_eq_int, Z.eqb_refl. cbn [py_eq]. rewrite eqs_refl. cbn [ho_ensure ensure bind].
    destruct Hs as [(_ & -> & _)|(_ & (q & -> & _) & _)]; cbn [json_image py_eq]; rewrite ?eqs_refl; reflexivity. }
  destruct Hs as [(-> & -> & ->)|(Hne & (q & -> & Hq) & v & ->)]; cbn [is_none bind json_image _mapping].
  - rewrite Hv. cbn [bind]. exact Hb.
  - apply Z.eqb_neq in Hne. rewrite Hne. unfold is_none. rewrite (proj2 (handoff_hash _ _ _) (conj eq_refl (P137DurableProps.hash_text_stable v))).
    rewrite (proj2 (handoff_hash _ _ _) (conj eq_refl Hq)). cbn [bind ensure ho_ensure negb]. rewrite Hv. cbn [bind]. exact Hb.
Qed.

(** ** A candidate is good, and continues the chain *)

Lemma names_hash_image b hash_key key field d v : vget b key = VDict d -> vget b hash_key = VStr v -> vget d field = VStr v ->
  names_hash_of (dict_image b) hash_key key field = Ok tt.
Proof.
  intros H1 H2 H3. unfold names_hash_of. rewrite !vget_image, H1, H2, json_image_dict. cbn [_mapping bind]. rewrite vget_image, H3.
  cbn [json_image py_eq]. by rewrite eqs_refl.
Qed.

Lemma boundary_image {H : StableObserver obs} review release : _validate_p136_release_boundary obs review release = Ok tt ->
  _validate_p136_release_boundary obs (dict_image review) (dict_image release) = Ok tt.
Proof.
  unfold _validate_p136_release_boundary. destruct (validate_p136_release_evidence obs release review) as [[]|e] eqn:E; [|discriminate].
  intros _. by rewrite (release_read_back _ _ E).
Qed.

(** The state the prior bundle left, as it is read. *)
Definition state_read (prior : option dict) : option dict := option_map (fun p => dict_image (state_of p)) prior.

Lemma sequence_of_state prior (n : Z) pv : (forall p, prior = Some p -> good p) ->
  match state_read prior with
  | None => Ok 1
  | Some s => let! n := _positive_int (vget s "last_bundle_sequence") "last_bundle_sequence" in Ok (n + 1)
  end = Ok n ->
  match state_read prior with
  | None => Ok VNone
  | Some s => let! h := _hash (vget s "last_bundle_hash") "last_bundle_hash" in Ok (VStr h)
  end = Ok pv ->
  0 < n /\ (n = 1 /\ pv = VNone \/ n <> 1 /\ exists q, pv = VStr q /\ hash_text q = true) /\
  (forall b root, vget b "bundle_sequence" = VInt n -> vget b "previous_bundle_hash" = pv ->
     vget b "handoff_chain_root_hash" = VStr root ->
     (forall p, prior = Some p -> vget p "handoff_chain_root_hash" = VStr root) -> extends prior b).
Proof.
  intros Hp E1 E2. destruct prior as [p|]; cbn [state_read option_map] in *.
  - destruct (Hp p eq_refl) as [_ _ (m & h & root & checkpoint & previous & [H1 Hm H3 Hh H5 _ _ _ _ _ _])].
    rewrite vget_image in E1, E2. destruct (state_fields p) as (_ & F1 & F2 & _). rewrite F1, H1 in E1. rewrite F2, H3 in E2.
    cbn [json_image] in E1, E2. rewrite (proj2 (handoff_positive _ _ _) (conj eq_refl Hm)) in E1.
    rewrite (proj2 (handoff_hash _ _ _) (conj eq_refl Hh)) in E2. injection E1 as <-. injection E2 as <-.
    split; [lia|]. split; [right; split; [lia | eauto]|]. intros b r Eb Ep Er Hr. exists m, h, r. pose proof (Hr p eq_refl). auto 10.
  - injection E1 as <-. injection E2 as <-. split; [done|]. split; [by left|]. intros b r Eb Ep _ _. by split.
Qed.

Lemma chain_root_of prior n pv created checkpoint keys root : (forall p, prior = Some p -> good p) ->
  _chain_root_for_candidate (state_read prior) n pv path created checkpoint keys = Ok root ->
  hash_text root = true /\ forall p, prior = Some p -> vget p "handoff_chain_root_hash" = VStr root.
Proof.
  intros Hp E. destruct prior as [p|]; cbn [state_read option_map _chain_root_for_candidate] in E.
  - destruct (Hp p eq_refl) as [_ _ (m & h & r & c & previous & [_ _ _ _ H5 Hr _ _ _ _ _])].
    rewrite vget_image in E. change (vget (state_of p) "handoff_chain_root_hash") with (vget p "handoff_chain_root_hash") in E.
    rewrite H5 in E. cbn [json_image] in E. rewrite (proj2 (handoff_hash _ _ _) (conj eq_refl Hr)) in E. injection E as <-.
    split; [exact Hr|]. intros q [= <-]. exact H5.
  - injection E as <-. split; [apply P137DurableProps.hash_text_stable | discriminate].
Qed.

Lemma candidate_valid b n h root checkpoint previous config cp review release cfg rev rel :
  chained b n h root checkpoint previous ->
  same_keys b BUNDLE_FIELDS && py_eq (json_image (vget b "schema_version")) (VStr BUNDLE_SCHEMA_VERSION) = true ->
  self_hashed (dict_image b) "bundle_hash" "publisher_bundle_hash_invalid" = Ok tt ->
  vget b "p136_config" = VDict config -> vget b "p136_config_hash" = VStr cfg -> vget config "config_hash" = VStr cfg ->
  vget b "p136_checkpoint" = VDict cp -> vget cp "checkpoint_hash" = VStr checkpoint ->
  vget b "p136_independent_review" = VDict review -> vget b "p136_independent_review_hash" = VStr rev ->
  vget review "independent_review_hash" = VStr rev ->
  vget b "p136_release_evidence" = VDict release -> vget b "p136_release_evidence_hash" = VStr rel ->
  vget release "evidence_hash" = VStr rel -> vget release "status" = VStr P137Contracts.P136_QUALIFIED_RELEASE_STATUS ->
  vget b "write_durability" = VDict DURABLE_WRITE ->
  _validate_p136_release_boundary obs (dict_image review) (dict_image release) = Ok tt ->
  valid_bundle (dict_image b) = Ok tt.
Proof.
  intros C Hk Hh F1 F2 F3 F4 F5 F6 F7 F8 F9 F10 F11 F12 F13 Hb. pose proof (chained_image _ _ _ _ _ _ C) as [I1 Hn _ _ I5 Hr _ _ I9 I10 Hg].
  unfold _validate_publisher_bundle. rewrite same_keys_image, (vget_image _ "schema_version"), Hk. cbn [ho_ensure ensure bind].
  rewrite Hh. cbn [bind]. rewrite I9, I1, I10. cbn [py_eq]. rewrite eqs_refl, (proj2 (handoff_positive _ _ _) (conj eq_refl Hn)).
  cbn [ho_ensure ensure bind].
  assert (Hq : (if n =? 1 then ho_ensure (is_none previous) "publisher_bundle_genesis_previous_hash_not_null"
                else let! _ := _hash previous "publisher_bundle_previous_bundle_hash" in Ok tt) = Ok tt).
  { destruct Hg as [[-> ->]|(Hne & q & -> & Hq)]; [reflexivity|]. apply Z.eqb_neq in Hne. rewrite Hne.
    by rewrite (proj2 (handoff_hash _ _ _) (conj eq_refl Hq)). }
  rewrite Hq. cbn [bind]. destruct C as [_ _ _ _ C5 Hrt C7 _ _ _ _]. rewrite (hash_field_string _ _ _ root C5 Hrt). cbn [bind].
  rewrite (names_hash_image _ _ _ _ _ _ F1 F2 F3), (names_hash_image _ _ _ _ _ _ F4 C7 F5), (names_hash_image _ _ _ _ _ _ F6 F7 F8),
    (names_hash_image _ _ _ _ _ _ F9 F10 F11). cbn [bind].
  rewrite !vget_image, F9, F6, F13, !json_image_dict. cbn [_mapping bind]. rewrite vget_image, F12. cbn [json_image py_eq].
  rewrite eqs_refl. cbn [ho_ensure ensure bind]. rewrite Hb. cbn [bind]. reflexivity.
Qed.

Lemma candidate_good {H : StableObserver obs} prior i b : (forall p, prior = Some p -> good p) -> proper i ->
  _candidate_bundle obs path (state_read prior) i = Ok b -> good b /\ extends prior b.
Proof.
  intros Hp [W1 W2 W3 W4 W5 W6 W7] E. unfold _candidate_bundle in E. apply bind_ok in E as (n & En & E). apply bind_ok in E as (pv & Epv & E).
  apply bind_ok in E as (entries & Ee & E). apply bind_ok in E as (promotions & Ep & E). apply bind_ok in E as ([descriptors hashes] & Ed & E).
  apply bind_ok in E as (checkpoint & Hc & E). apply bind_ok in E as (cfg & Hcfg & E). apply bind_ok in E as (review & Hrev & E).
  apply bind_ok in E as (release & Hrel & E). apply bind_ok in E as ([] & Hb & E). apply bind_ok in E as ([] & Hs & E).
  apply bind_ok in E as (root & Hr & E). apply bind_ok in E as (encoded & Hen & E). apply (inj Ok) in E.
  destruct (sequence_of_state _ _ _ Hp En Epv) as (Hn & Hg & Hx). apply chain_root_of in Hr as [Hrt Hr]; [|exact Hp].
  apply handoff_hash in Hc as [Ec Hc]. apply handoff_hash in Hcfg as [Ecfg _]. apply handoff_hash in Hrev as [Erev _].
  apply handoff_hash in Hrel as [Erel _]. apply ensure_ok, py_eq_str in Hs.
  assert (C : chained b n (stable_hash (VDict (removelast b))) root checkpoint pv).
  { subst b. split; try reflexivity; try assumption. apply P137DurableProps.hash_text_stable. }
  split; [split|].
  - unfold _descriptors_and_hashes in Ed. apply bind_ok in Ed as (? & _ & [= <- <-]).
    apply entry_wrappers_wf in Ee; [|exact W4]. apply promotion_wrappers_wf in Ep; [|exact W5]. apply encoded_authority_wf in Hen; [|exact W2].
    assert (Wd : val_wf (VDict (add_parts descriptor (parts x entries promotions)))) by (apply add_parts_wf; intros; wf_fields).
    assert (Wh : val_wf (VDict (add_parts (fun _ raw => VStr (P137Contracts.content_hash raw)) (parts x entries promotions)))) by by apply add_parts_wf.
    assert (Wp : val_wf pv) by (destruct Hg as [[_ ->]|(_ & q & -> & _)]; exact I).
    subst b. unfold under_hash. cbn [app]. revert Wd Wh. generalize (add_parts descriptor (parts x entries promotions)).
    generalize (add_parts (fun _ raw => VStr (P137Contracts.content_hash raw)) (parts x entries promotions)). intros hs ds Wd Wh.
    generalize (stable_hash (VDict [("schema_version", VStr BUNDLE_SCHEMA_VERSION)])). intros _.
    wf_fields. wf_fields.
  - eapply candidate_valid; [exact C | by rewrite <- E | by rewrite <- E; apply self_hashed_image | ..];
      try (rewrite <- E; reflexivity); try eassumption. by apply boundary_image.
  - by do 5 eexists; exact C.
  - destruct C as [C1 _ _ _ C5 _ _ _ _ C10 _]. by eapply Hx.
Qed.
End Publications.
