(* ===== verification/P137PublisherPhases.v ===== *)
(** * What the publisher of bundles guarantees

    The files are always those of a publication that is over or of one that
    a recovery finishes, and the fixed bundle moves along one chain. *)

From S2P Require Import Prelude PyValue PyChecks Sha Json P137Checks P137Durable P137Handoff P137Publisher P137PublisherProps.
From S2P Require P137Contracts P137DurableProps P137Runtime.

#[local] Opaque stable_hash.

(** ** Calls that leave files behind *)

(** Every file system the call goes through satisfies [J]; its outcome and
    the files it ends with satisfy [Q]. *)
Definition leads {A} (J : files -> Prop) (m : M A) (Q : res A -> files -> Prop) (fs : files) : Prop :=
  forall l, let (out, w) := m {| held := fs; passed := l |} in
    exists l', passed w = l ++ l' /\ Forall J l' /\ J (held w) /\ Q out (held w).

Section Leads.
Context (J : files -> Prop).

Lemma leads_lift {A} (r : res A) (Q : res A -> files -> Prop) fs : J fs -> Q r fs -> leads J (lift r) Q fs.
Proof. intros Hj Hq l. exists []. by rewrite app_nil_r. Qed.

Lemma leads_ret {A} (a : A) (Q : res A -> files -> Prop) fs : J fs -> Q (Ok a) fs -> leads J (ret a) Q fs.
Proof. exact (leads_lift (Ok a) Q fs). Qed.

Lemma leads_bind {A B} (m : M A) (k : A -> M B) Q fs :
  leads J m (fun out fs' => match out with Ok a => leads J (k a) Q fs' | Raise e => Q (Raise e) fs' end) fs ->
  leads J (mbind m k) Q fs.
Proof.
  intros H l. specialize (H l). unfold mbind. destruct (m _) as [[a|e] [fs1 l1]].
  - destruct H as (l' & Hl & Hf & _ & Hk). cbn [held passed] in *. subst l1. specialize (Hk (l ++ l')).
    destruct (k a _) as [out [fs2 l2]]. destruct Hk as (l'' & Hl' & Hf' & Hj & Hq). exists (l' ++ l'').
    rewrite app_assoc. split; [exact Hl'|]. split; [|auto]. apply Forall_app. auto.
  - exact H.
Qed.

Lemma leads_let {A B} (r : res A) (k : A -> M B) Q fs : J fs ->
  (forall a, r = Ok a -> leads J (k a) Q fs) -> (forall e, r = Raise e -> Q (Raise e) fs) -> leads J (mbind (lift r) k) Q fs.
Proof. intros Hj Ho Hr. apply leads_bind, leads_lift; [exact Hj|]. destruct r; auto. Qed.

Lemma leads_ok {A B} (r : res A) a (k : A -> M B) Q fs : r = Ok a -> J fs -> leads J (k a) Q fs -> leads J (mbind (lift r) k) Q fs.
Proof. intros -> Hj Hk. apply leads_let; [exact Hj | by intros ? [= <-] | discriminate]. Qed.

Lemma leads_assoc {A B C} (m : M A) (f : A -> M B) (k : B -> M C) Q fs :
  leads J (mbind m (fun a => mbind (f a) k)) Q fs -> leads J (mbind (mbind m f) k) Q fs.
Proof. intros H l. specialize (H l). unfold mbind in *. by destruct (m _) as [[a|e] w]. Qed.

Lemma leads_change {B} (f : files -> files) (k : unit -> M B) Q fs : J fs -> J (f fs) ->
  leads J (k tt) Q (f fs) -> leads J (mbind (change f) k) Q fs.
Proof. intros Hj Hj' Hk. apply leads_bind. intros l. exists [fs]. cbn. auto. Qed.

Lemma leads_unlink {B} p (k : unit -> M B) Q fs : J fs -> J (put p None fs) ->
  (forall fs', fs' = fs /\ fs p = None \/ fs' = put p None fs -> leads J (k tt) Q fs') -> leads J (mbind (_unlink_optional p) k) Q fs.
Proof.
  intros Hj Hj' Hk. unfold _unlink_optional. apply leads_bind. apply leads_bind. intros l. exists [].
  rewrite app_nil_r. split; [reflexivity|]. split; [constructor|]. split; [exact Hj|]. cbn [reading held].
  destruct (fs p) eqn:E.
  - intros l'. exists [fs]. cbn. split; [reflexivity|]. split; [auto|]. split; [exact Hj'|]. apply Hk. auto.
  - apply leads_ret; auto.
Qed.

Lemma leads_run {A} (m : M A) Q fs out w : leads J m Q fs -> m {| held := fs; passed := [] |} = (out, w) ->
  Forall J (passed w ++ [held w]) /\ Q out (held w).
Proof.
  intros H E. specialize (H []). rewrite E in H. destruct H as (l' & -> & Hf & Hj & Hq). split; [|exact Hq].
  apply Forall_app. auto.
Qed.
End Leads.

Lemma leads_read {B} J p label (k : option dict -> M B) Q fs o : J fs -> fs p = document o ->
  leads J (k (option_map dict_image o)) Q fs ->
  (forall e, (exists f, fs p = Some f /\ ~ fits f) -> Q (Raise e) fs) -> leads J (mbind (_read_json_optional p label) k) Q fs.
Proof.
  intros Hj E Hk Hr. apply leads_bind. intros l. destruct o as [d|]; cbn [document option_map] in *.
  - destruct (Z.leb_spec (Z.of_nat (String.length (P137Runtime.text (P137Runtime.written d)))) _MAX_PUBLISHER_JSON_BYTES) as [Hf|Hf].
    + rewrite (read_written p label fs l d E Hf). exists []. rewrite app_nil_r. auto.
    + unfold _read_json_optional, mbind, reading. cbn [held]. rewrite E.
      apply Z.leb_gt in Hf as Hf'. unfold lift. rewrite Hf'. exists []. rewrite app_nil_r. cbn [ho_ensure ensure held passed].
      repeat split; auto. apply Hr. exists (P137Runtime.written d). split; [exact E|]. unfold fits. lia.
  - unfold _read_json_optional, mbind, reading. cbn [held]. rewrite E. exists []. rewrite app_nil_r. auto.
Qed.

Section Publications.
Context (obs : observer) (path : string).
Notation valid_bundle := (_validate_publisher_bundle obs path).
Notation good := (good obs path).

(** ** The phases of a publication *)

Notation states := (option_map state_of).

Definition layout (state fixed intent : option dict) (fs : files) : Prop :=
  fs StateFile = document (states state) /\ fs FixedFile = document fixed /\ fs IntentFile = document intent.

Definition all_good (prior : option dict) : Prop := forall p, prior = Some p -> good p.

(** What the files hold: a publication that is over, or one that was begun
    and went on to replace the bundle, and then the state. *)
Inductive publication (fs : files) : Prop :=
  | Over prior : all_good prior -> layout prior prior None fs -> publication fs
  | Begun prior b : all_good prior -> good b -> extends prior b ->
      layout prior prior (Some (intent_of (states prior) path b)) fs -> publication fs
  | Replaced prior b : all_good prior -> good b -> extends prior b ->
      layout prior (Some b) (Some (intent_of (states prior) path b)) fs -> publication fs
  | Committed prior b : all_good prior -> good b -> extends prior b ->
      layout (Some b) (Some b) (Some (intent_of (states prior) path b)) fs -> publication fs.

Lemma py_eq_entry a b k : py_eq (VDict a) (VDict b) = true -> dmem k a = true -> py_eq (vget a k) (vget b k) = true.
Proof.
  rewrite py_eq_dict. intros H Hk. apply andb_true_iff in H as [_ H]. rewrite forallb_forall in H.
  apply dget_dmem in Hk as [v E]. rewrite (vget_some _ _ _ E). specialize (H _ (dget_In _ _ _ E)). cbn in H. unfold vget.
  destruct (dget b k); [exact H | discriminate].
Qed.

Lemma sequence_present b : good b -> dmem "bundle_sequence" (dict_image b) = true.
Proof.
  intros [_ _ (n & h & r & c & q & C)]. apply chained_image, ch_sequence in C. apply dget_dmem. unfold vget in C.
  destruct (dget _ _); [eauto | discriminate].
Qed.

(** A bundle and its predecessor are told apart by their numbers. *)
Lemma prior_is_not prior b : all_good prior -> good b -> extends prior b ->
  is_dict (state_read prior) (state_of b) = false /\ is_dict (option_map dict_image prior) (dict_image b) = false.
Proof.
  intros Hp Hb Hx. destruct prior as [p|]; [|done]. cbn [state_read option_map is_dict].
  destruct Hx as (n & h & root & Ep & Eb & _). split; apply not_true_is_false; intros E.
  - apply (py_eq_entry _ _ "last_bundle_sequence") in E.
    + rewrite vget_image in E. change (vget (state_of p) "last_bundle_sequence") with (vget p "bundle_sequence") in E.
      change (vget (state_of b) "last_bundle_sequence") with (vget b "bundle_sequence") in E. rewrite Ep, Eb in E. cbn [json_image] in E.
      rewrite py_eq_int in E. apply Z.eqb_eq in E. lia.
    + apply dget_dmem. rewrite dget_image. eexists. reflexivity.
  - apply (py_eq_entry _ _ "bundle_sequence") in E; [|by apply sequence_present, Hp].
    rewrite !vget_image, Ep, Eb in E. cbn [json_image] in E. rewrite py_eq_int in E. apply Z.eqb_eq in E. lia.
Qed.

Lemma state_is_itself b : good b -> is_dict (state_read (Some b)) (state_of b) = true.
Proof.
  intros [_ _ (n & h & r & c & q & [C1 _ C3 _ C5 _ C7 _ C9 _ _])]. cbn [state_read option_map is_dict].
  rewrite <- json_image_dict. apply py_eq_image, json_value_dict. unfold state_of. rewrite C1, C3, C5, C7, C9. split.
  - apply (bool_decide_unpack _). vm_compute. exact I.
  - repeat first [apply List.Forall_nil | apply List.Forall_cons]; exact I.
Qed.

Lemma prior_precedes prior b : all_good prior -> extends prior b ->
  state_precedes (state_read prior) (dict_image (intent_of (states prior) path b)) (dict_image b) = Ok true.
Proof.
  intros Hp Hx. unfold state_precedes. destruct (intent_fields path (states prior) b) as (_ & _ & E & _).
  destruct prior as [p|]; cbn [state_read option_map] in *; rewrite !vget_image, E.
  - destruct (Hp p eq_refl) as [_ _ (m & h' & r' & c & q & [C1 Hm C3 _ C5 _ _ _ _ _ _])].
    destruct Hx as (n & h & root & Ep & Eb & Eh & Eq & Er & Es). destruct (state_fields p) as (-> & -> & -> & _).
    rewrite Ep, Eb, Eh, Eq, Er, Es. destruct (state_hash_of p) as [v ->]. cbn [json_image]. rewrite same_text. unfold and_then.
    assert (Hn : 0 < n) by congruence. rewrite (proj2 (handoff_positive _ _ _) (conj eq_refl Hn)). cbn [bind].
    by rewrite py_eq_int, Z.eqb_refl, !same_text.
  - destruct Hx as [-> ->]. reflexivity.
Qed.

Lemma prior_matches p : good p -> _bundle_matches_publisher_state (dict_image p) (dict_image (state_of p)) = true.
Proof.
  intros [_ _ (n & h & r & c & q & [C1 _ C3 _ C5 _ C7 _ _ _ _])]. unfold _bundle_matches_publisher_state. rewrite !vget_image.
  destruct (state_fields p) as (-> & -> & -> & -> & _). rewrite C1, C3, C5, C7. cbn [json_image].
  by rewrite py_eq_int, Z.eqb_refl, !same_text.
Qed.

(** ** A call goes through phases *)

Lemma put_at p f fs p' : put p f fs p' = if decide (p' = p) then f else fs p'.
Proof. reflexivity. Qed.

Lemma layout_fixed b state fixed intent fs : layout state fixed intent fs ->
  layout state (Some b) intent (put FixedFile (Some (P137Runtime.written b)) fs).
Proof. intros (H1 & H2 & H3). by split_and!. Qed.

Lemma layout_state b state fixed intent fs : layout state fixed intent fs ->
  layout (Some b) fixed intent (put StateFile (Some (P137Runtime.written (state_of b))) fs).
Proof. intros (H1 & H2 & H3). by split_and!. Qed.

Lemma layout_intent i state fixed intent fs : layout state fixed intent fs ->
  layout state fixed (Some i) (put IntentFile (Some (P137Runtime.written i)) fs).
Proof. intros (H1 & H2 & H3). by split_and!. Qed.

Lemma layout_over state fixed intent fs fs' : layout state fixed intent fs ->
  fs' = fs /\ fs IntentFile = None \/ fs' = put IntentFile None fs -> layout state fixed None fs'.
Proof. intros (H1 & H2 & H3) [[-> H]| ->]; by split_and!. Qed.

(** The fixed bundle stays, or the next one of its chain replaces it. *)
Definition chain_step (fs fs' : files) : Prop :=
  fs' FixedFile = fs FixedFile \/
  exists prior b, fs FixedFile = document prior /\ fs' FixedFile = document (Some b) /\ all_good prior /\ good b /\ extends prior b.

Definition moved (fs0 fs : files) : Prop := publication fs /\ chain_step fs0 fs.

(** A publication of [b] that ends well is over, and returned [d]. *)
Definition published (b d : dict) (inject : injector) (out : res dict) (fs : files) : Prop :=
  (forall d', out = Ok d' -> d' = d /\ layout (Some b) (Some b) None fs) /\
  ((forall phase, inject phase = Ok tt) -> exists d, out = Ok d).

Lemma published_raise b d inject phase e fs : inject phase = Raise e -> published b d inject (Raise e) fs.
Proof. intros H. split; [discriminate|]. intros A. specialize (A phase). congruence. Qed.

Section Phases.
Context (fs0 : files) (prior : option dict) (b : dict) (inject : injector).
Context (Hp : all_good prior) (Hb : good b) (Hx : extends prior b).
Notation intent := (intent_of (states prior) path b).

Lemma committed_leads fs : chain_step fs0 fs -> layout (Some b) (Some b) (Some intent) fs ->
  forall d, d = b \/ d = dict_image b -> leads (moved fs0) (do! _ := _unlink_optional IntentFile in ret d) (published b d inject) fs.
Proof.
  intros Hs Hl d Hd. assert (Hj : moved fs0 fs) by (split; [by eapply Committed | exact Hs]).
  assert (Ho : forall fs', fs' = fs /\ fs IntentFile = None \/ fs' = put IntentFile None fs -> layout (Some b) (Some b) None fs' /\ moved fs0 fs').
  { intros fs' H. pose proof (layout_over _ _ _ _ _ Hl H) as L. split; [exact L|]. split.
    - eapply (Over _ (Some b)); [|exact L]. by intros ? [= <-].
    - destruct Hs as [E|(p & c & E1 & E2 & Hr)]; destruct L as (_ & L & _), Hl as (_ & L' & _); [left | right; exists p, c]; rewrite L; congruence || auto.
      split; [exact E1|]. split; [congruence | exact Hr]. }
  apply leads_unlink; [exact Hj | by apply Ho; right |]. intros fs' H. destruct (Ho _ H) as [L Hj'].
  apply leads_ret; [exact Hj'|]. split; [by intros ? [= <-]|eauto].
Qed.

Lemma replaced_leads fs : chain_step fs0 fs -> layout prior (Some b) (Some intent) fs ->
  forall d, d = b \/ d = dict_image b -> leads (moved fs0)
    (do! _ := _atomic_write_json StateFile (state_of b) in
     do! _ := lift (inject "publisher_state_replaced") in
     do! _ := _unlink_optional IntentFile in ret d) (published b d inject) fs.
Proof.
  intros Hs Hl d Hd. assert (Hj : moved fs0 fs) by (split; [by eapply Replaced | exact Hs]).
  pose proof (layout_state b _ _ _ _ Hl) as L. assert (Hs' : chain_step fs0 (put StateFile (Some (P137Runtime.written (state_of b))) fs)) by exact Hs.
  assert (Hj' : moved fs0 (put StateFile (Some (P137Runtime.written (state_of b))) fs)) by (split; [by eapply Committed | exact Hs']).
  apply leads_change; [exact Hj | exact Hj' |]. apply leads_let; [exact Hj' | | intros; by eapply published_raise].
  intros _ _. by apply committed_leads.
Qed.

Lemma begun_leads fs : fs FixedFile = fs0 FixedFile -> layout prior prior (Some intent) fs ->
  forall d, d = b \/ d = dict_image b -> leads (moved fs0)
    (do! _ := _atomic_write_json FixedFile d in
     do! _ := lift (inject "publisher_fixed_replaced") in
     do! _ := _atomic_write_json StateFile (state_of b) in
     do! _ := lift (inject "publisher_state_replaced") in
     do! _ := _unlink_optional IntentFile in ret d) (published b d inject) fs.
Proof.
  intros Hs Hl d Hd. assert (Hj : moved fs0 fs) by (split; [by eapply Begun | by left]).
  unfold _atomic_write_json at 1. replace (P137Runtime.written d) with (P137Runtime.written b) by (destruct Hd as [->| ->]; [done | by rewrite written_image]).
  pose proof (layout_fixed b _ _ _ _ Hl) as L.
  assert (Hs' : chain_step fs0 (put FixedFile (Some (P137Runtime.written b)) fs)).
  { right. exists prior, b. destruct Hl as (_ & E & _). split; [congruence|]. split; [reflexivity | auto]. }
  assert (Hj' : moved fs0 (put FixedFile (Some (P137Runtime.written b)) fs)) by (split; [by eapply Replaced | exact Hs']).
  apply leads_change; [exact Hj | exact Hj' |]. apply leads_let; [exact Hj' | | intros; by eapply published_raise].
  intros _ _. by apply replaced_leads.
Qed.

(** The three phases at which a publication can have been cut. *)
Definition cut (state fixed : option dict) : Prop :=
  state = prior /\ fixed = prior \/ state = prior /\ fixed = Some b \/ state = Some b /\ fixed = Some b.

Lemma cut_publication state fixed fs : cut state fixed -> layout state fixed (Some intent) fs -> publication fs.
Proof. intros [[-> ->]|[[-> ->]|[-> ->]]] H; [by eapply Begun | by eapply Replaced | by eapply Committed]. Qed.

Lemma precedes_returns : exists pre, state_precedes (state_read (Some b)) (dict_image intent) (dict_image b) = Ok pre.
Proof.
  destruct Hb as [_ _ (n & h & root & checkpoint & q & [C1 Hn _ _ _ _ _ _ _ _ _])]. cbn [state_read option_map state_precedes].
  rewrite (vget_image _ "last_bundle_sequence"). destruct (state_fields b) as (_ & -> & _). rewrite C1. cbn [json_image].
  rewrite (proj2 (handoff_positive _ _ _) (conj eq_refl Hn)). unfold and_then. destruct (py_eq _ _); cbn [bind]; eauto.
Qed.

Lemma recover_leads state fixed : layout state fixed (Some intent) fs0 -> cut state fixed ->
  leads (moved fs0) (_recover_pending_publication inject (state_read state) (dict_image intent) (option_map dict_image fixed))
    (published b (dict_image b) inject) fs0.
Proof.
  intros Hl Hc. assert (Hj : moved fs0 fs0) by (split; [by eapply cut_publication | by left]).
  destruct (intent_fields path (states prior) b) as (_ & _ & _ & _ & _ & _ & E). pose proof Hb as [Hw _ (n & h & root & checkpoint & q & C)].
  unfold _recover_pending_publication. eapply leads_ok; [by rewrite vget_image, E, json_image_dict | exact Hj |].
  eapply leads_ok; [by eapply state_from_chained, chained_image | exact Hj |]. rewrite (state_of_image _ _ _ _ _ _ _ C).
  destruct (prior_is_not prior b Hp Hb Hx) as [N1 N2]. pose proof (prior_precedes prior b Hp Hx) as Hpre.
  assert (Hsame : is_dict (option_map dict_image (Some b)) (dict_image b) = true) by by apply image_eq_refl.
  destruct Hc as [[-> ->]|[[-> ->]|[-> ->]]].
  - rewrite N1, N2. eapply leads_ok; [exact Hpre | exact Hj |]. eapply leads_ok; [reflexivity | exact Hj |].
    apply leads_assoc. eapply leads_ok; [|exact Hj|].
    + assert (Hm : match state_read prior, option_map dict_image prior with
                   | None, None => true
                   | _, _ => true && match state_read prior, option_map dict_image prior with
                                     | Some s, Some c => _bundle_matches_publisher_state c s
                                     | _, _ => false
                                     end
                   end = true).
      { destruct prior as [p|]; [|reflexivity]. cbn [state_read option_map andb]. by apply prior_matches, Hp. }
      rewrite Hm. reflexivity.
    + apply leads_assoc. apply begun_leads; auto.
  - rewrite N1, Hsame. eapply leads_ok; [exact Hpre | exact Hj |]. eapply leads_ok; [reflexivity | exact Hj |].
    apply leads_bind, leads_ret; [exact Hj|]. apply replaced_leads; [by left | exact Hl | by right].
  - rewrite (state_is_itself b Hb), Hsame. destruct precedes_returns as [pre Hpre']. eapply leads_ok; [exact Hpre' | exact Hj |].
    eapply leads_ok; [reflexivity | exact Hj |]. eapply leads_ok; [reflexivity | exact Hj |].
    apply committed_leads; [by left | exact Hl | by right].
Qed.
End Phases.

(** Some file is too large to be read. *)
Definition oversized (fs : files) : Prop := exists p f, fs p = Some f /\ ~ fits f.

Lemma states_valid state : all_good state -> check_optional (_validate_publisher_state path) (state_read state) = Ok tt.
Proof.
  intros H. destruct state as [p|]; [|reflexivity]. destruct (H p eq_refl) as [_ _ (n & h & r & c & q & C)].
  cbn [state_read option_map check_optional]. by eapply state_is_valid.
Qed.

Lemma bundles_valid fixed : all_good fixed -> check_optional valid_bundle (option_map dict_image fixed) = Ok tt.
Proof. intros H. destruct fixed as [p|]; [|reflexivity]. by destruct (H p eq_refl). Qed.

Lemma load_leads {B} (J : files -> Prop) (k : option dict -> option dict -> option dict -> M B) Q fs state fixed intent :
  J fs -> layout state fixed intent fs -> all_good state -> all_good fixed ->
  leads J (k (state_read state) (option_map dict_image intent) (option_map dict_image fixed)) Q fs ->
  (forall e, oversized fs -> Q (Raise e) fs) ->
  leads J (do! state := _read_json_optional StateFile "publisher_state" in
           do! pending := _read_json_optional IntentFile "publisher_intent" in
           do! current := _read_json_optional FixedFile "current_handoff_bundle" in
           do! _ := lift (check_optional (_validate_publisher_state path) state) in
           do! _ := lift (check_optional valid_bundle current) in
           k state pending current) Q fs.
Proof.
  intros Hj (L1 & L2 & L3) Hs Hf Hk Hr.
  apply (leads_read _ _ _ _ _ _ _ Hj L1); [|intros e (f & ? & ?); apply Hr; by exists StateFile, f].
  apply (leads_read _ _ _ _ _ _ _ Hj L3); [|intros e (f & ? & ?); apply Hr; by exists IntentFile, f].
  apply (leads_read _ _ _ _ _ _ _ Hj L2); [|intros e (f & ? & ?); apply Hr; by exists FixedFile, f].
  replace (option_map dict_image (states state)) with (state_read state) by by destruct state.
  eapply leads_ok; [by apply states_valid | exact Hj |]. eapply leads_ok; [by apply bundles_valid | exact Hj | exact Hk].
Qed.

(** What a call that returns has published. *)
Definition finished (out : res dict) (fs : files) : Prop :=
  forall d, out = Ok d -> exists b, (d = b \/ d = dict_image b) /\ good b /\ layout (Some b) (Some b) None fs.

Lemma published_finished b d inject out fs : d = b \/ d = dict_image b -> good b -> published b d inject out fs -> finished out fs.
Proof. intros Hd Hb [H _] d' E. destruct (H d' E) as [-> L]. eauto. Qed.

Lemma leads_weaken {A} J (m : M A) (Q Q' : res A -> files -> Prop) fs : (forall out fs', Q out fs' -> Q' out fs') -> leads J m Q fs -> leads J m Q' fs.
Proof. intros H Hl l. specialize (Hl l). destruct (m _) as [out w]. destruct Hl as (l' & H1 & H2 & H3 & H4). exists l'. auto. Qed.

Lemma intent_of_read prior b : intent_of (state_read prior) path b = intent_of (states prior) path b.
Proof.
  destruct prior as [p|]; [|reflexivity]. cbn [state_read option_map]. unfold intent_of. rewrite vget_image.
  by destruct (state_hash_of p) as [v ->].
Qed.

Lemma good_some b : good b -> all_good (Some b).
Proof. by intros H ? [= <-]. Qed.

(** A publication that was cut is valid as it is read. *)
Lemma publication_cases fs : publication fs ->
  (exists prior, all_good prior /\ layout prior prior None fs) \/
  exists prior b state fixed, all_good prior /\ good b /\ extends prior b /\ cut prior b state fixed /\ all_good state /\ all_good fixed /\
    layout state fixed (Some (intent_of (states prior) path b)) fs.
Proof.
  intros [prior Hp L|prior b Hp Hb Hx L|prior b Hp Hb Hx L|prior b Hp Hb Hx L]; [left; eauto|right|right|right]; pose proof (good_some _ Hb).
  - exists prior, b, prior, prior. split_and!; auto. by left.
  - exists prior, b, prior, (Some b). split_and!; auto. right; by left.
  - exists prior, b, (Some b), (Some b). split_and!; auto. right; by right.
Qed.

Lemma publish_leads {H : StableObserver obs} inject crash i fs : proper i -> publication fs ->
  leads (moved fs) (_publish_p136_handoff_bundle_locked obs path inject crash i) finished fs.
Proof.
  intros Hi Hpub. assert (Hj : moved fs fs) by (split; [exact Hpub | by left]). unfold _publish_p136_handoff_bundle_locked.
  destruct (publication_cases _ Hpub) as [(prior & Hp & L)|(prior & b & state & fixed & Hp & Hb & Hx & Hc & Hs & Hf & L)].
  - eapply (load_leads _ (fun state pending current => mbind (lift (check_optional (_validate_publisher_intent_envelope obs path) pending)) (fun _ => _)) _ _ _ _ _ Hj L Hp Hp);
      [|intros e _ d; discriminate]. eapply leads_ok; [reflexivity | exact Hj |]. cbv beta iota. cbn [option_map].
    apply leads_let; [exact Hj | intros _ _ | intros e _ d; discriminate].
    apply leads_let; [exact Hj | intros b Eb | intros e _ d; discriminate].
    destruct (candidate_good obs path prior i b Hp Hi Eb) as [Hb Hx]. rewrite intent_of_read.
    pose proof (layout_intent (intent_of (states prior) path b) _ _ _ _ L) as L'.
    assert (Hj' : moved fs (put IntentFile (Some (P137Runtime.written (intent_of (states prior) path b))) fs)) by (split; [by eapply Begun | by left]).
    apply leads_change; [exact Hj | exact Hj' |]. apply leads_let; [exact Hj' | intros _ _ | intros e _ d; discriminate].
    apply leads_let; [exact Hj' | intros _ _ | intros e _ d; discriminate].
    pose proof (layout_fixed b _ _ _ _ L') as L2. set (fs2 := put FixedFile _ _) in L2.
    assert (Hs2 : chain_step fs fs2) by (right; exists prior, b; destruct L as (_ & E & _); split_and!; auto).
    assert (Hj2 : moved fs fs2) by (split; [by eapply Replaced | exact Hs2]).
    apply leads_change; [exact Hj' | exact Hj2 |]. apply leads_let; [exact Hj2 | intros _ _ | intros e _ d; discriminate].
    destruct Hb as [Hw Hv (n & h & root & checkpoint & q & C)] eqn:Eg. eapply leads_ok; [by eapply state_from_chained | exact Hj2 |].
    eapply leads_weaken; [intros out fs'; by apply (published_finished b b inject); auto|].
    eapply replaced_leads; [exact Hp | exact Hb | exact Hx | exact Hs2 | exact L2 | by left].
  - eapply (load_leads _ (fun state pending current => mbind (lift (check_optional (_validate_publisher_intent_envelope obs path) pending)) (fun _ => _)) _ _ _ _ _ Hj L Hs Hf);
      [|intros e _ d; discriminate]. eapply leads_ok; [by apply intent_is_valid | exact Hj |]. cbv beta iota. cbn [option_map].
    apply leads_let; [exact Hj | intros matches _ | intros e _ d; discriminate].
    apply leads_let; [exact Hj | intros _ _ | intros e _ d; discriminate].
    eapply leads_weaken; [intros out fs'; by apply (published_finished b (dict_image b) inject); auto|].
    by apply recover_leads.
Qed.

(** The intent file holds the intent to publish [b]. *)
Definition pending (b : dict) (fs : files) : Prop :=
  exists intent, fs IntentFile = Some (P137Runtime.written intent) /\ vget intent "bundle" = VDict b.

(** A recovery of files that can be read ends the publication they hold:
    that of the bundle in the intent. *)
Definition recovered (fs0 : files) (out : res dict) (fs : files) : Prop :=
  finished out fs /\
  (~ oversized fs0 ->
   (exists prior, all_good prior /\ layout prior prior None fs0) \/
   exists b, good b /\ pending b fs0 /\ out = Ok (dict_image b) /\ layout (Some b) (Some b) None fs).

Lemma intent_pending prior b state fixed fs : layout state fixed (Some (intent_of (states prior) path b)) fs -> pending b fs.
Proof.
  intros (_ & _ & L). eexists. split; [exact L|]. by destruct (intent_fields path (states prior) b) as (_ & _ & _ & _ & _ & _ & E).
Qed.

Lemma recover_locked_leads fs : publication fs -> leads (moved fs) (recover_locked obs path) (recovered fs) fs.
Proof.
  intros Hpub. assert (Hj : moved fs fs) by (split; [exact Hpub | by left]). unfold recover_locked.
  destruct (publication_cases _ Hpub) as [(prior & Hp & L)|(prior & b & state & fixed & Hp & Hb & Hx & Hc & Hs & Hf & L)].
  - eapply (load_leads _ (fun state pending current => match pending with None => _ | Some _ => _ end) _ _ _ _ _ Hj L Hp Hp);
      [|intros e Ho; split; [intros d; discriminate | by intros []]].
    cbv beta iota. cbn [option_map]. apply leads_lift; [exact Hj|]. split; [intros d; discriminate | left; eauto].
  - eapply (load_leads _ (fun state pending current => match pending with None => _ | Some _ => _ end) _ _ _ _ _ Hj L Hs Hf);
      [|intros e Ho; split; [intros d; discriminate | by intros []]].
    cbv beta iota. cbn [option_map]. eapply leads_ok; [by apply intent_is_valid | exact Hj |].
    eapply leads_weaken; [|by eapply recover_leads]. intros out fs' Hr. split; [eapply published_finished; [by right | exact Hb | exact Hr]|].
    intros _. right. exists b. split; [exact Hb|]. split; [by apply (intent_pending prior b state fixed)|].
    destruct Hr as [Hr1 Hr2]. destruct Hr2 as [d ->]; [reflexivity|]. by destruct (Hr1 d eq_refl) as [-> L'].
Qed.
End Publications.

(** ** Histories of calls *)

Section Histories.
Context (obs : observer).
Notation path := P137Contracts.FIXED_P136_HANDOFF_PATH.

Definition possible (w : work) : list files := passed w ++ [held w].
Definition on (fs : files) : work := {| held := fs; passed := [] |}.

(** What the publisher's files can hold: none at first; then any number of
    publications and recoveries, each of which may die at any moment. *)
Inductive history : files -> Prop :=
  | nothing_yet fs : (forall p, fs p = None) -> history fs
  | after_publish fs s inject crash i fs' : history fs -> proper i ->
      In fs' (possible (publish_p136_handoff_bundle obs s inject crash i (on fs)).2) -> history fs'
  | after_recover fs s fs' : history fs -> In fs' (possible (recover_p136_handoff_publication obs s (on fs)).2) -> history fs'.

(** The last publication is over, and left its bundle and its state. *)
Definition settled (last : option dict) (fs : files) : Prop := all_good obs path last /\ layout last last None fs.

Lemma enter_path s : enter s = Ok tt -> st_fixed_handoff_path s = path.
Proof. unfold enter. intros H. apply bind_ok in H as (? & H & _). apply ensure_ok in H. by apply String.eqb_eq in H. Qed.

Lemma locked_leads {A} J (body : string -> M A) (Q : res A -> files -> Prop) fs s : J fs ->
  leads J (body path) Q fs -> (forall e, enter s = Raise e -> Q (Raise e) fs) -> leads J (locked s (body (st_fixed_handoff_path s))) Q fs.
Proof.
  intros Hj Hb Hr. unfold locked. destruct (enter s) as [[]|e] eqn:E.
  - rewrite (enter_path _ E). eapply leads_ok; [reflexivity | exact Hj | exact Hb].
  - apply leads_let; [exact Hj | discriminate | intros e' [= <-]; auto].
Qed.

Lemma publish_call {H : StableObserver obs} s inject crash i fs : proper i -> publication obs path fs ->
  leads (moved obs path fs) (publish_p136_handoff_bundle obs s inject crash i) (finished obs path) fs.
Proof.
  intros Hi Hp. apply (locked_leads _ (fun path => _publish_p136_handoff_bundle_locked obs path inject crash i)).
  - split; [exact Hp | by left].
  - by apply publish_leads.
  - intros e _ d. discriminate.
Qed.

Lemma recover_call s fs : publication obs path fs ->
  leads (moved obs path fs) (recover_p136_handoff_publication obs s)
    (fun out fs' => finished obs path out fs' /\ (enter s = Ok tt -> recovered obs path fs out fs')) fs.
Proof.
  intros Hp. apply (locked_leads _ (fun path => recover_locked obs path)).
  - split; [exact Hp | by left].
  - eapply leads_weaken; [|by apply recover_locked_leads]. intros out fs' Hr. split; [by destruct Hr | auto].
  - intros e E. split; [intros d; discriminate | congruence].
Qed.

Lemma history_publication {H : StableObserver obs} fs : history fs -> publication obs path fs.
Proof.
  induction 1 as [fs Hn|fs s inject crash i fs' _ IH Hi Hin|fs s fs' _ IH Hin].
  - apply (Over _ _ _ None); [discriminate|]. by split_and!; apply Hn.
  - destruct (publish_p136_handoff_bundle obs s inject crash i (on fs)) as [out w] eqn:E. cbn [snd] in Hin.
    destruct (leads_run _ _ _ _ _ _ (publish_call s inject crash i fs Hi IH) E) as [F _].
    rewrite List.Forall_forall in F. by destruct (F _ Hin).
  - destruct (recover_p136_handoff_publication obs s (on fs)) as [out w] eqn:E. cbn [snd] in Hin.
    destruct (leads_run _ _ _ _ _ _ (recover_call s fs IH) E) as [F _].
    rewrite List.Forall_forall in F. by destruct (F _ Hin).
Qed.

(** C7: the handoff moves along one chain.  Whatever publications and
    recoveries went before and whenever they died, in every file system a
    publication or a recovery goes through, the bundle at the fixed path is
    the one that was there, or a valid bundle that comes next: its number is
    one higher, it names the hash of its predecessor, and it has the same
    chain root; the first has number one and no predecessor. *)
Theorem handoff_moves_along_the_chain {H : StableObserver obs} fs s inject crash i : history fs -> proper i ->
  Forall (chain_step obs path fs) (possible (publish_p136_handoff_bundle obs s inject crash i (on fs)).2) /\
  Forall (chain_step obs path fs) (possible (recover_p136_handoff_publication obs s (on fs)).2).
Proof.
  intros Hh Hi. apply history_publication in Hh. split.
  - destruct (publish_p136_handoff_bundle obs s inject crash i (on fs)) as [out w] eqn:E.
    destruct (leads_run _ _ _ _ _ _ (publish_call s inject crash i fs Hi Hh) E) as [F _].
    eapply Forall_impl; [exact F|]. by intros fs' [_ ?].
  - destruct (recover_p136_handoff_publication obs s (on fs)) as [out w] eqn:E.
    destruct (leads_run _ _ _ _ _ _ (recover_call s fs Hh) E) as [F _].
    eapply Forall_impl; [exact F|]. by intros fs' [_ ?].
Qed.

(** C3: a publication that was cut is recovered.  Whatever publications and
    recoveries went before and whenever they died, when no file is too large
    to be read and the lease is free: without an intent file the last
    publication is over; with one, the file holds an intent and a recovery
    returns the very bundle of that intent, as it is read back, and leaves
    that bundle at the fixed path, the state that names it, and no intent. *)
Theorem cut_publication_is_recovered {H : StableObserver obs} fs s : history fs -> ~ oversized fs -> enter s = Ok tt ->
  match fs IntentFile with
  | None => exists last, settled last fs
  | Some f => exists intent b w, f = P137Runtime.written intent /\ vget intent "bundle" = VDict b /\
      recover_p136_handoff_publication obs s (on fs) = (Ok (dict_image b), w) /\ settled (Some b) (held w)
  end.
Proof.
  intros Hh Ho He. apply history_publication in Hh.
  destruct (recover_p136_handoff_publication obs s (on fs)) as [out w] eqn:E.
  destruct (leads_run _ _ _ _ _ _ (recover_call s fs Hh) E) as [_ [_ Hr]]. destruct (Hr He) as [_ Hok].
  destruct (Hok Ho) as [(prior & Hp & L)|(b & Hb & (intent & Hi & Eb) & -> & L)].
  - pose proof L as (_ & _ & ->). by exists prior.
  - rewrite Hi. exists intent, b, w. split; [reflexivity|]. split; [exact Eb|]. split; [reflexivity|].
    split; [by apply good_some | exact L].
Qed.

(** What is returned is published.  After any history, a publication that
    returns a bundle leaves it at the fixed path, with the state that names
    it and without an intent, also when it finished one that had been cut. *)
Theorem returned_bundle_is_published {H : StableObserver obs} fs s inject crash i d w : history fs -> proper i ->
  publish_p136_handoff_bundle obs s inject crash i (on fs) = (Ok d, w) ->
  exists b, (d = b \/ d = dict_image b) /\ settled (Some b) (held w).
Proof.
  intros Hh Hi E. apply history_publication in Hh.
  destruct (leads_run _ _ _ _ _ _ (publish_call s inject crash i fs Hi Hh) E) as [_ Hf].
  destruct (Hf d eq_refl) as (b & Hd & Hb & L). exists b. split; [exact Hd|]. split; [by apply good_some | exact L].
Qed.

(** ** Files that are too large *)

Lemma read_oversized p label fs l f : fs p = Some f -> ~ fits f ->
  _read_json_optional p label {| held := fs; passed := l |} = (Raise (HE "publisher_json_byte_budget_exceeded"), {| held := fs; passed := l |}).
Proof.
  intros E Hf. unfold _read_json_optional, mbind, reading. cbn [held]. rewrite E. unfold lift, fits in *.
  apply Znot_le_gt, Z.gt_lt, Z.leb_gt in Hf. by rewrite Hf.
Qed.

(** C24: a bundle that is too large is the last.  The publisher writes files
    of any size but reads none above sixteen megabytes: when the bundle at
    the fixed path is larger, every publication and every recovery raises an
    error, and none changes a file. *)
Theorem oversized_bundle_is_the_last fs f s inject crash i : fs FixedFile = Some f -> ~ fits f ->
  (exists e, publish_p136_handoff_bundle obs s inject crash i (on fs) = (Raise e, on fs)) /\
  exists e, recover_p136_handoff_publication obs s (on fs) = (Raise e, on fs).
Proof.
  intros E Hf.
  assert (R : forall {A} (k : option dict -> option dict -> option dict -> M A), exists e,
    locked s (do! state := _read_json_optional StateFile "publisher_state" in
              do! pending := _read_json_optional IntentFile "publisher_intent" in
              do! current := _read_json_optional FixedFile "current_handoff_bundle" in k state pending current) (on fs) = (Raise e, on fs)).
  { intros A k. unfold locked, mbind at 1, lift. destruct (enter s) as [[]|e]; [|eauto]. unfold mbind, on.
    assert (Rd : forall p label, exists out, _read_json_optional p label {| held := fs; passed := [] |} = (out, {| held := fs; passed := [] |})).
    { intros p label. unfold _read_json_optional, mbind, reading, lift, ret. cbn [held]. destruct (fs p) as [f'|]; [|eauto].
      destruct (ho_ensure _ _); [|eauto]. destruct (P137Runtime.parsed f') as [[]|]; eauto. destruct (ho_ensure _ _); eauto. }
    destruct (Rd StateFile "publisher_state") as [[st|e] ->]; [|eauto]. destruct (Rd IntentFile "publisher_intent") as [[pe|e] ->]; [|eauto].
    rewrite (read_oversized _ _ _ _ _ E Hf). eauto. }
  split; apply R.
Qed.
End Histories.
