(* ===== verification/P137PublisherHandover.v ===== *)
(** * From the publisher to the triage

    What the publisher leaves at the fixed path is framed and canonical, is
    a bundle whose envelope the triage accepts, and carries the bytes that
    were put in. *)

From Stdlib Require Import DecimalString DecimalZ DecimalFacts.
From S2P Require Import Prelude PyValue PyChecks Sha Json PyTime P137Checks P137Durable P137Handoff P137Publisher P137PublisherProps P137PublisherPhases.
From S2P Require P137Contracts P137ContractsProps P137DurableProps P137Triage P137Runtime.

#[local] Opaque stable_hash.

(** ** The text of a document is one printable line *)

Definition plain (c : ascii) : bool := between 32 126 (code c).

Notation plain_text := (all_chars plain).

Lemma plain_join sep l : plain_text sep = true -> Forall (fun s => plain_text s = true) l -> plain_text (str_join sep l) = true.
Proof.
  intros Hs. induction 1 as [|s l H Hl IH]; [done|]. destruct l as [|t l]; [exact H|].
  change (plain_text (s +:+ sep +:+ str_join sep (t :: l)) = true). rewrite !all_chars_app, H, Hs. exact IH.
Qed.

Lemma plain_uint d : plain_text (NilEmpty.string_of_uint d) = true.
Proof. by induction d. Qed.

Lemma plain_Z z : plain_text (Z_to_string z) = true.
Proof.
  assert (H : forall d, plain_text (NilZero.string_of_uint d) = true) by (intros []; try done; apply (plain_uint (_ _))).
  unfold Z_to_string. destruct (Z.to_int z); cbn [NilZero.string_of_int]; [apply H|]. cbn. apply H.
Qed.

Lemma plain_substring s : forall n m, plain_text s = true -> plain_text (String.substring n m s) = true.
Proof.
  induction s as [|c s IH]; intros [|n] [|m] H; try done; cbn in *; apply andb_true_iff in H as [Hc H]; rewrite ?Hc; by apply IH.
Qed.

Lemma plain_zeros n : plain_text (FloatRepr.zeros n) = true.
Proof. by induction n. Qed.

Lemma plain_layout d k : plain_text (FloatRepr.layout d k) = true.
Proof.
  unfold FloatRepr.layout. cbv zeta. pose proof (plain_Z d) as H.
  repeat match goal with |- context[if ?b then _ else _] => destruct b end;
    rewrite ?all_chars_app, ?plain_Z, ?plain_zeros, ?plain_substring by exact H; reflexivity.
Qed.

Lemma plain_float q : plain_text (FloatRepr.float_repr q) = true.
Proof.
  unfold FloatRepr.float_repr. destruct (Qeq_bool _ _); [done|]. destruct (FloatRepr.shortest _ _ _) as [d k].
  destruct (FloatRepr.strip_zeros _ _ _) as [d' k']. rewrite all_chars_app, plain_layout. by destruct (_ <? 0).
Qed.

Lemma plain_char c : plain_text (json_char c) = true.
Proof. destruct c as [[] [] [] [] [] [] [] []]; vm_compute; reflexivity. Qed.

Lemma plain_string s : plain_text (json_string s) = true.
Proof.
  unfold json_string. rewrite !all_chars_app. assert (H : plain_text (concat_map_string json_char s) = true).
  { induction s as [|c s IH]; [done|]. cbn [concat_map_string]. by rewrite all_chars_app, plain_char. }
  by rewrite H.
Qed.

Lemma plain_dumps v : plain_text (json_dumps v) = true.
Proof.
  induction v as [|b|z|q|s|l IH|l IH|d IH] using val_deep_ind; [done | by destruct b | apply plain_Z | apply plain_float | apply plain_string | ..];
    cbn [json_dumps]; rewrite !all_chars_app, plain_join; try done.
  1, 2: by apply List.Forall_map.
  apply List.Forall_map. unfold sort_items. rewrite isort_perm. apply List.Forall_map. eapply List.Forall_impl; [|exact IH].
  intros kv H. cbn [fst snd]. by rewrite !all_chars_app, plain_string, H.
Qed.

Lemma plain_contains c s : plain c = false -> plain_text s = true -> contains (String c EmptyString) s = false.
Proof.
  intros Hc. induction s as [|x s IH]; intros H; [done|]. cbn [all_chars] in H. apply andb_true_iff in H as [Hx H].
  cbn [contains String.prefix]. destruct (ascii_dec c x) as [->|]; [congruence|]. by apply IH.
Qed.

(** The bytes at the fixed path are one framed line. *)
Lemma published_is_framed b : P137Runtime._canonical_payload_from_framed_file (P137Runtime.text (P137Runtime.written b)) = Ok (canonical_json_bytes b).
Proof.
  cbn [P137Runtime.written P137Runtime.text]. unfold P137Triage._canonical_json_bytes, canonical_json_bytes.
  pose proof (plain_dumps (VDict b)) as Hp. unfold P137Runtime._canonical_payload_from_framed_file, P137Triage.ends_with.
  set (d := json_dumps (VDict b)) in *. rewrite !length_string_app. change (String.length nl) with 1%nat. change (1 + 1)%nat with 2%nat.
  rewrite Nat.add_sub, substring_drop, (substring_all nl 1), eqs_refl by (cbn; lia).
  assert (Hd : exists x, d = x +:+ "}" /\ x <> "").
  { unfold d. cbn [json_dumps]. eexists. rewrite <- string_app_assoc. split; [reflexivity | discriminate]. }
  destruct Hd as (x & Ex & Hx). assert (E2 : String.substring (String.length d + 1 - 2) 2 (d +:+ nl) = "}" +:+ nl).
  { rewrite Ex, string_app_assoc, length_string_app. cbn [String.length]. replace (String.length x + 1 + 1 - 2)%nat with (String.length x) by lia.
    by rewrite substring_drop. }
  rewrite E2. change ("}" +:+ nl =s nl +:+ nl) with false. cbn [andb negb P137Durable.rt_ensure ensure bind].
  rewrite P137ContractsProps.substring_app. unfold P137Runtime.carriage_return.
  assert (Hn : contains nl d = false) by by apply (plain_contains (ascii_of_N 10)).
  rewrite Hn, (plain_contains (ascii_of_N 13) d eq_refl Hp). replace (is_empty d) with false; [reflexivity|].
  rewrite Ex. destruct x; [done | reflexivity].
Qed.

(** ** The envelope *)

Section Envelope.
Context (json_loads : string -> option val) (obs : observer) (path : string).

(** What the triage knows of the chain: nothing, the bundle before [b], or
    [b] itself. *)
Definition continues (cp : option dict) (b : dict) : Prop :=
  forall c, cp = Some c -> exists n h, vget c "last_accepted_bundle_sequence" = VInt n /\ 0 < n /\
    vget c "last_accepted_bundle_hash" = VStr h /\ hash_text h = true /\
    (vget b "bundle_sequence" = VInt (n + 1) /\ vget b "previous_bundle_hash" = VStr h \/
     vget b "bundle_sequence" = VInt n /\ vget b "bundle_hash" = VStr h).

Lemma bound_hash_of b hash_key key field : names_hash_of b hash_key key field = Ok tt -> bound_hash b hash_key key field = Ok tt.
Proof.
  unfold names_hash_of, bound_hash, member_of. intros H. apply bind_ok in H as (d & Hd & H). apply mapping_is in Hd as Hv.
  rewrite (vindex_vget _ _ _ Hv) by discriminate. cbn [bind _mapping]. apply ensure_ok in H. by rewrite H.
Qed.

Lemma sequence_accepted b cp n h root checkpoint previous : chained path b n h root checkpoint previous -> continues cp b ->
  check_sequence b cp = Ok tt.
Proof.
  intros [C1 Hn C3 Hh _ _ _ _ _ C10 Hg] Hc. unfold check_sequence. rewrite C1, C10, (proj2 (handoff_positive _ _ _) (conj eq_refl Hn)). cbn [bind].
  assert (E : (if n =? 1 then ho_ensure (is_none previous) "genesis_previous_bundle_hash_not_null"
               else let! _ := _hash previous "previous_bundle_hash" in Ok tt) = Ok tt).
  { destruct Hg as [[-> ->]|(Hne & q & -> & Hq)]; [reflexivity|]. apply Z.eqb_neq in Hne. rewrite Hne.
    by rewrite (proj2 (handoff_hash _ _ _) (conj eq_refl Hq)). }
  rewrite E. cbn [bind]. destruct cp as [c|]; [|reflexivity]. destruct (Hc c eq_refl) as (m & k & -> & Hm & -> & Hk & Hr).
  rewrite (proj2 (handoff_positive _ _ _) (conj eq_refl Hm)), (proj2 (handoff_hash _ _ _) (conj eq_refl Hk)). cbn [bind].
  rewrite C1, C10, C3 in Hr. rewrite C3. destruct Hr as [[[= ->] ->]|[[= ->] [= ->]]].
  - replace (m <=? m + 1) with true by (symmetry; apply Z.leb_le; lia). replace (m + 1 =? m) with false by (symmetry; apply Z.eqb_neq; lia).
    rewrite Z.eqb_refl, same_text. reflexivity.
  - rewrite Z.leb_refl, Z.eqb_refl, same_text. reflexivity.
Qed.

Lemma envelope_accepted b config cp n h root checkpoint previous : chained path b n h root checkpoint previous ->
  _validate_publisher_bundle obs path b = Ok tt -> vget config "p136_handoff_bundle_path" = VStr path ->
  vget config "p136_handoff_chain_root_hash" = VStr root -> continues cp b -> _validate_bundle_envelope obs b config cp = Ok tt.
Proof.
  intros C H Hpath Hroot Hc. unfold _validate_publisher_bundle in H. apply bind_ok in H as ([] & Hf & H). apply bind_ok in H as ([] & Hh & H).
  apply bind_ok in H as ([] & Hp & H). apply bind_ok in H as (? & _ & H). apply bind_ok in H as (? & _ & H). apply bind_ok in H as (? & _ & H).
  apply bind_ok in H as ([] & H1 & H). apply bind_ok in H as ([] & H2 & H). apply bind_ok in H as ([] & H3 & H). apply bind_ok in H as ([] & H4 & H).
  apply bind_ok in H as (release & Hrel & H). apply bind_ok in H as ([] & Hs & H). apply bind_ok in H as (review & Hrev & H).
  apply bind_ok in H as ([] & Hb & H). apply bind_ok in H as (durability & Hd & H).
  unfold _validate_bundle_envelope. apply ensure_ok in Hf. rewrite Hf. unfold self_hashed in Hh. apply ensure_ok in Hh. rewrite Hh.
  rewrite (ch_path _ _ _ _ _ _ _ C), Hpath, (ch_root _ _ _ _ _ _ _ C), Hroot, !same_text. cbn [ho_ensure ensure bind].
  rewrite (bound_hash_of _ _ _ _ H1), (bound_hash_of _ _ _ _ H2), (bound_hash_of _ _ _ _ H3), (bound_hash_of _ _ _ _ H4). cbn [bind].
  rewrite Hrel. cbn [bind]. apply ensure_ok in Hs. rewrite Hs. cbn [ho_ensure ensure bind]. rewrite Hrev. cbn [bind]. rewrite Hb. cbn [bind].
  rewrite Hd. cbn [bind]. apply ensure_ok in H. rewrite H. cbn [ho_ensure ensure bind]. by eapply sequence_accepted.
Qed.
End Envelope.

(** C14: what is published can be handed over.  After any history of the
    publisher, also while a publication is cut, the file at the fixed path,
    if there is one, holds a bundle the agent reads as the payload of one
    framed line, that is in canonical form, and whose envelope is accepted
    under a configuration for this path and chain root, when the checkpoint
    of the agent is missing, or names the predecessor of the bundle, or the
    bundle. *)
Theorem published_bundle_is_handed_over {obs} {H : StableObserver obs} fs f : history obs fs -> fs FixedFile = Some f ->
  exists b root, good obs P137Contracts.FIXED_P136_HANDOFF_PATH b /\ vget b "handoff_chain_root_hash" = VStr root /\
  P137Runtime._canonical_payload_from_framed_file (P137Runtime.text f) = Ok (canonical_json_bytes b) /\
  forall json_loads config cp,
    json_loads (canonical_json_bytes b) = Some (VDict (dict_image b)) ->
    vget config "p136_handoff_bundle_path" = VStr P137Contracts.FIXED_P136_HANDOFF_PATH ->
    vget config "p136_handoff_chain_root_hash" = VStr root -> continues cp b ->
    _load_canonical_bundle_bytes json_loads (canonical_json_bytes b) = Ok (dict_image b) /\
    _validate_bundle_envelope obs (dict_image b) config cp = Ok tt.
Proof.
  intros Hh Hf. apply (history_publication obs (H := H)) in Hh. assert (Hx : exists fixed, all_good obs P137Contracts.FIXED_P136_HANDOFF_PATH fixed /\ fs FixedFile = document fixed).
  { apply publication_cases in Hh as [(p & Hp & _ & L & _)|(p & b & st & fx & _ & _ & _ & _ & _ & Hp & _ & L & _)]; eauto. }
  destruct Hx as ([b|] & Hg & E); [|cbn in E; congruence]. rewrite Hf in E. injection E as ->.
  pose proof (Hg b eq_refl) as G. destruct (go_chained _ _ _ G) as (n & h & root & checkpoint & previous & C). exists b, root.
  split; [exact G|]. split; [exact (ch_root _ _ _ _ _ _ _ C)|]. split; [apply published_is_framed|].
  intros json_loads config cp Hj Hp Hr Hc. split.
  - unfold _load_canonical_bundle_bytes. rewrite Hj, canonical_image, eqs_refl. reflexivity.
  - eapply envelope_accepted; [by eapply chained_image | exact (go_valid _ _ _ G) | exact Hp | exact Hr |].
    intros c Ec. destruct (Hc c Ec) as (m & k & E1 & Hm & E2 & Hk & Hx). exists m, k. rewrite !vget_image.
    split_and!; try assumption. destruct Hx as [[-> ->]|[-> ->]]; [left | right]; by split.
Qed.

(** ** The bytes *)

Lemma Z_to_string_inj a b : Z_to_string a = Z_to_string b -> a = b.
Proof.
  intros H. rewrite <- (DecimalZ.of_to a), <- (DecimalZ.of_to b). f_equal.
  assert (I : forall z, NilZero.int_of_string (NilZero.string_of_int (Z.to_int z)) = Some (Z.to_int z)).
  { intros z. apply NilZero.isi; pose proof (DecimalZ.to_of (Z.to_int z)) as E; rewrite DecimalZ.of_to in E; intros C; rewrite C in E; discriminate. }
  pose proof (I a) as Ia. unfold Z_to_string in H. rewrite H, I in Ia. congruence.
Qed.

(** The items of a list, each under its own name. *)
Fixpoint numbered (key : string) (index : Z) (raws : list (list Z)) : list (string * list Z) :=
  match raws with [] => [] | raw :: raws => (key +:+ ":" +:+ Z_to_string index, raw) :: numbered key (index + 1) raws end.

Definition raw_of (i : item) : option (list Z) := match i with Raw data => Some data | Document _ => None end.
Definition raw_field (auth : authority) (key : string) : list Z :=
  match authority_field auth key with One (Raw data) => data | _ => [] end.
Definition raw_fields (auth : authority) (key : string) : list (list Z) :=
  match authority_field auth key with Many l => omap raw_of l | One _ => [] end.

Definition SINGLE : list string := ["contract_bytes"; "review_receipt_bytes"; "receipt_ledger_bytes"].

(** The bytes of an authority, by name. *)
Definition carried (auth : authority) : list (string * list Z) :=
  map (fun key => (key, raw_field auth key)) SINGLE ++
  numbered "index_receipt_bytes" 0 (raw_fields auth "index_receipt_bytes") ++
  numbered "segment_receipt_bytes" 0 (raw_fields auth "segment_receipt_bytes").

Definition some_bytes (data : list Z) : Prop := data <> [] /\ Forall (fun b => 0 <= b < 256) data.

Lemma from_hex_hex data : Forall (fun b => 0 <= b < 256) data -> from_hex (VStr (P137Contracts.hex data)) = data.
Proof. exact (P137ContractsProps.fromhex_hex data). Qed.

Lemma indexed_numbered name raws : Forall some_bytes raws ->
  indexed name (vlist_of_strings (map P137Contracts.hex raws)) = numbered name 0 raws.
Proof.
  unfold indexed, vlist_of_strings. cbn [as_seq default]. intros H.
  assert (G : forall n, imap (fun index encoded => (name +:+ ":" +:+ Z_to_string (Z.of_nat (n + index)), from_hex encoded))
                          (map VStr (map P137Contracts.hex raws)) = numbered name (Z.of_nat n) raws).
  { induction H as [|raw raws [_ Hr] _ IH]; intros n; [done|]. cbn [map imap numbered]. rewrite Nat.add_0_r, (from_hex_hex _ Hr). f_equal.
    replace (Z.of_nat n + 1) with (Z.of_nat (S n)) by lia. rewrite <- IH. apply imap_ext. intros i x _. cbn. by rewrite Nat.add_succ_r. }
  exact (G 0%nat).
Qed.

Lemma encoded_bytes_raw auth key kv : encoded_bytes auth key = Ok kv -> kv = (key, VStr (P137Contracts.hex (raw_field auth key))).
Proof.
  unfold encoded_bytes, raw_field. intros E. apply bind_ok in E as (i & Ei & E). apply bind_ok in E as (data & Ed & [= <-]).
  destruct (authority_field auth key) as [[v|raw]|l]; cbn in Ei; try discriminate; injection Ei as <-; [discriminate|].
  by injection Ed as <-.
Qed.

Lemma mapM_bytes key l datas : mapM (fun i => _bytes i key) l = Ok datas -> omap raw_of l = datas.
Proof.
  intros H. apply mapM_ok in H. induction H as [|i data l datas Hi _ IH]; [done|]. destruct i as [v|raw]; [discriminate|].
  injection Hi as <-. cbn. by rewrite <- IH.
Qed.

Lemma encoded_byte_list_raw auth key kv : encoded_byte_list auth key = Ok kv ->
  kv = (key, vlist_of_strings (map P137Contracts.hex (raw_fields auth key))).
Proof.
  unfold encoded_byte_list, raw_fields. intros E. apply bind_ok in E as (l & El & E). apply bind_ok in E as (datas & Ed & [= <-]).
  apply mapM_bytes in Ed as <-. destruct (authority_field auth key) as [[v|raw]|items]; cbn in El; [|discriminate|by injection El as <-].
  apply bind_ok in El as (vs & _ & [= <-]). by induction vs as [|w vs IH].
Qed.

Lemma encoded_shape auth d : _encoded_authority auth = Ok d -> exists c r l ix sg,
  encoded_document auth "contract" = Ok ("contract", VDict c) /\ encoded_document auth "review_receipt" = Ok ("review_receipt", VDict r) /\
  encoded_document auth "receipt_ledger" = Ok ("receipt_ledger", VDict l) /\
  encoded_documents auth "index_receipts" "index_receipt" = Ok ("index_receipts", VList (map VDict ix)) /\
  encoded_documents auth "segment_receipts" "segment_receipt" = Ok ("segment_receipts", VList (map VDict sg)) /\
  d = [("contract", VDict c); ("review_receipt", VDict r); ("receipt_ledger", VDict l); ("index_receipts", VList (map VDict ix));
       ("segment_receipts", VList (map VDict sg))] ++
      map (fun key => (key, VStr (P137Contracts.hex (raw_field auth key)))) SINGLE ++
      map (fun key => (key, vlist_of_strings (map P137Contracts.hex (raw_fields auth key)))) ["index_receipt_bytes"; "segment_receipt_bytes"].
Proof.
  intros E. unfold _encoded_authority in E. apply bind_ok in E as (? & _ & E). apply bind_ok in E as (documents & Hd & E).
  apply bind_ok in E as (index & Hi & E). apply bind_ok in E as (segments & Hs & E). apply bind_ok in E as (single & H1 & E).
  apply bind_ok in E as (ib & Hib & E). apply bind_ok in E as (sb & Hsb & E). apply (inj Ok) in E as <-.
  apply encoded_byte_list_raw in Hib as ->. apply encoded_byte_list_raw in Hsb as ->.
  assert (D : forall key kv, encoded_document auth key = Ok kv -> exists x, kv = (key, VDict x)).
  { intros key kv E. apply bind_ok in E as (? & _ & E). apply bind_ok in E as (y & _ & [= <-]). eauto. }
  assert (Ds : forall key label kv, encoded_documents auth key label = Ok kv -> exists x, kv = (key, VList (map VDict x))).
  { intros key label kv E. apply bind_ok in E as (? & _ & E). apply bind_ok in E as (y & _ & [= <-]). eauto. }
  cbn [mapM] in Hd, H1. apply bind_ok in Hd as (kc & Hc & Hd). apply bind_ok in Hd as (ds & Hd & [= <-]). apply bind_ok in Hd as (kr & Hr & Hd).
  apply bind_ok in Hd as (ds' & Hd & [= <-]). apply bind_ok in Hd as (kl & Hl & [= <-]).
  destruct (D _ _ Hc) as [c ->], (D _ _ Hr) as [r ->], (D _ _ Hl) as [l ->], (Ds _ _ _ Hi) as [ix ->], (Ds _ _ _ Hs) as [sg ->].
  apply bind_ok in H1 as (k1 & E1 & H1). apply bind_ok in H1 as (es & H1 & [= <-]). apply bind_ok in H1 as (k2 & E2 & H1).
  apply bind_ok in H1 as (es' & H1 & [= <-]). apply bind_ok in H1 as (k3 & E3 & [= <-]).
  apply encoded_bytes_raw in E1 as ->. apply encoded_bytes_raw in E2 as ->. apply encoded_bytes_raw in E3 as ->.
  exists c, r, l, ix, sg. by split_and!.
Qed.

Lemma parts_of auth encoded entries promotions : _encoded_authority auth = Ok encoded ->
  Forall (fun part => some_bytes part.2) (carried auth) ->
  parts encoded entries promotions =
  carried auth ++ wrapped "entry_bytes" "entry_bytes" entries ++ wrapped "promotion_bytes" "promotion_bytes" promotions.
Proof.
  intros E Hb. apply encoded_shape in E as (c & r & l & ix & sg & _ & _ & _ & _ & _ & ->). unfold parts, carried, SINGLE in *.
  apply Forall_app in Hb as [H1 Hb]. apply Forall_app in Hb as [Hi Hs]. cbn [map] in H1.
  apply Forall_cons in H1 as [[_ B1] H1]. apply Forall_cons in H1 as [[_ B2] H1]. apply Forall_cons in H1 as [[_ B3] _].
  assert (N : forall key n raws, Forall (fun part => some_bytes part.2) (numbered key n raws) -> Forall some_bytes raws).
  { intros key n raws. revert n. induction raws as [|raw raws IH]; intros n H; [constructor|]. cbn in H. apply Forall_cons in H as [? H]. constructor; eauto. }
  cbn [map app]. rewrite <- !app_assoc. cbn [app]. f_equal; [|f_equal; [|f_equal; [|f_equal; [|f_equal]]]].
  - f_equal. exact (from_hex_hex _ B1).
  - f_equal. exact (from_hex_hex _ B2).
  - f_equal. exact (from_hex_hex _ B3).
  - exact (indexed_numbered _ _ (N _ _ _ Hi)).
  - exact (indexed_numbered _ _ (N _ _ _ Hs)).
Qed.

(** What is added under a name that has one value is found. *)
Lemma add_parts_get f l name raw : In (name, raw) l -> (forall raw', In (name, raw') l -> raw' = raw) ->
  dget (add_parts f l) name = Some (f name raw).
Proof.
  unfold add_parts. intros Hin Hone.
  assert (G : forall d, In (name, raw) l \/ dget d name = Some (f name raw) ->
            dget (fold_left (fun acc part => dset acc part.1 (f part.1 part.2)) l d) name = Some (f name raw)).
  { clear Hin. revert Hone. induction l as [|[k x] l IH]; intros Hone d H; [by destruct H as [[]|H]|]. cbn [fold_left].
    apply IH; [intros raw' Hr; apply Hone; by right|]. destruct (eqs_spec k name) as [<-|Hne].
    - right. rewrite (Hone x (or_introl eq_refl)). cbn [fst snd]. by rewrite dget_dset, eqs_refl.
    - destruct H as [[[= -> ->]|H]|H]; [done | by left |]. right. cbn [fst snd]. rewrite dget_dset.
      destruct (eqs_spec name k) as [->|]; [done | exact H]. }
  apply G. by left.
Qed.

Lemma label_inj key a b : key +:+ ":" +:+ a = key +:+ ":" +:+ b -> a = b.
Proof. induction key as [|c key IH]; cbn; intros [= E]; auto. Qed.

Lemma numbered_in key raws : forall n name raw, In (name, raw) (numbered key n raws) ->
  exists k, n <= k /\ name = key +:+ ":" +:+ Z_to_string k /\ forall raw', In (name, raw') (numbered key n raws) -> raw' = raw.
Proof.
  induction raws as [|x raws IH]; intros n name raw; cbn; [tauto|]. intros [[= <- <-]|H].
  - exists n. split; [lia|]. split; [reflexivity|]. intros raw' [[= <-]|H]; [done|]. apply IH in H as (k & Hk & E & _).
    exfalso. assert (E' : Z_to_string n = Z_to_string k).
    { exact (label_inj _ _ _ E). }
    apply Z_to_string_inj in E'. lia.
  - apply IH in H as (k & Hk & -> & Hone). exists k. split; [lia|]. split; [reflexivity|].
    intros raw' [[= E _]|H]; [|by apply Hone]. exfalso.
    assert (E' : Z_to_string n = Z_to_string k).
    { exact (label_inj _ _ _ E). }
    apply Z_to_string_inj in E'. lia.
Qed.

Lemma wrapped_in name bytes_field d part : In part (wrapped name bytes_field d) -> exists k, part.1 = name +:+ ":" +:+ k.
Proof. unfold wrapped. rewrite in_map_iff. intros (kv & <- & _). eauto. Qed.

(** A part of the authority has a name of its own. *)
Lemma carried_once auth entries promotions name raw raw' : In (name, raw) (carried auth) ->
  In (name, raw') (carried auth ++ wrapped "entry_bytes" "entry_bytes" entries ++ wrapped "promotion_bytes" "promotion_bytes" promotions) ->
  raw' = raw.
Proof.
  assert (C : forall name raw, In (name, raw) (carried auth) ->
    (In name SINGLE /\ raw = raw_field auth name) \/
    (exists k, name = "index_receipt_bytes:" +:+ Z_to_string k /\ forall raw', In (name, raw') (numbered "index_receipt_bytes" 0 (raw_fields auth "index_receipt_bytes")) -> raw' = raw) \/
    (exists k, name = "segment_receipt_bytes:" +:+ Z_to_string k /\ forall raw', In (name, raw') (numbered "segment_receipt_bytes" 0 (raw_fields auth "segment_receipt_bytes")) -> raw' = raw)).
  { clear. intros name raw H. unfold carried in H. apply in_app_iff in H as [H|H]; [|apply in_app_iff in H as [H|H]].
    - left. apply in_map_iff in H as (key & [= <- <-] & H). auto.
    - right. left. apply numbered_in in H as (k & _ & -> & H). exists k. auto.
    - right. right. apply numbered_in in H as (k & _ & -> & H). exists k. auto. }
  intros H H'. rewrite !in_app_iff in H'. pose proof (C _ _ H) as Hc. destruct H' as [H'|[H'|H']].
  - unfold carried in H'. rewrite !in_app_iff in H'. destruct Hc as [[Hn ->]|[(k & -> & Hone)|(k & -> & Hone)]].
    + destruct H' as [H'|[H'|H']]; [by apply in_map_iff in H' as (? & [= <- <-] & _) | |];
        apply numbered_in in H' as (k & _ & -> & _); destruct Hn as [Hn|[Hn|[Hn|[]]]]; discriminate.
    + destruct H' as [H'|[H'|H']]; [apply in_map_iff in H' as (? & [= -> _] & Hn); destruct Hn as [Hn|[Hn|[Hn|[]]]]; discriminate | auto |].
      apply numbered_in in H' as (j & _ & E & _). discriminate.
    + destruct H' as [H'|[H'|H']]; [apply in_map_iff in H' as (? & [= -> _] & Hn); destruct Hn as [Hn|[Hn|[Hn|[]]]]; discriminate | | auto].
      apply numbered_in in H' as (j & _ & E & _). discriminate.
  - apply wrapped_in in H' as [k Ek]. cbn [fst] in Ek. destruct Hc as [[Hn _]|[(j & -> & _)|(j & -> & _)]]; [|discriminate..].
    destruct Hn as [Hn|[Hn|[Hn|[]]]]; rewrite <- Hn in Ek; discriminate.
  - apply wrapped_in in H' as [k Ek]. cbn [fst] in Ek. destruct Hc as [[Hn _]|[(j & -> & _)|(j & -> & _)]]; [|discriminate..].
    destruct Hn as [Hn|[Hn|[Hn|[]]]]; rewrite <- Hn in Ek; discriminate.
Qed.

Section Bytes.
Context (auth : authority) (encoded entries promotions : dict).
Context (He : _encoded_authority auth = Ok encoded) (Hbytes : Forall (fun part => some_bytes part.2) (carried auth)).
Notation all := (parts encoded entries promotions).
Notation descriptors := (dict_image (add_parts descriptor all)).
Notation hashes := (dict_image (add_parts (fun _ raw => VStr (P137Contracts.content_hash raw)) all)).

Lemma decode_carried name raw : In (name, raw) (carried auth) ->
  decode_field descriptors hashes (VStr (P137Contracts.hex raw)) name = Ok raw.
Proof.
  intros H. unfold decode_field, vindex. rewrite !dget_image.
  assert (G : forall f, dget (add_parts f all) name = Some (f name raw)).
  { intros f. rewrite (parts_of _ _ _ _ He Hbytes). apply add_parts_get; [apply in_app_iff; by left|]. intros raw'. by apply carried_once. }
  rewrite !G. cbn [option_map bind]. unfold descriptor. rewrite json_image_dict. cbn [_mapping bind]. rewrite dget_image.
  change (dget _ "byte_length") with (Some (VInt (Z.of_nat (List.length raw)))). cbn [option_map json_image bind py_int].
  change (py_str (VStr (P137Contracts.content_hash raw))) with (P137Contracts.content_hash raw).
  rewrite List.Forall_forall in Hbytes. destruct (Hbytes _ H) as [Hne Hr]. by apply P137ContractsProps.canonical_hex_round_trip.
Qed.

Lemma decode_numbered check key raws : forall n,
  (forall part, In part (numbered key n raws) -> In part (carried auth)) ->
  (forall k raw, raws !! k = Some raw -> check (n + Z.of_nat k) raw = Ok tt) ->
  decode_items descriptors hashes key check n (map VStr (map P137Contracts.hex raws)) = Ok (numbered key n raws).
Proof.
  induction raws as [|raw raws IH]; intros n Hin Hc; [done|]. cbn [map decode_items numbered].
  rewrite decode_carried by (apply Hin; by left). cbn [bind]. replace n with (n + Z.of_nat 0) at 1 by lia. rewrite (Hc 0%nat raw eq_refl). cbn [bind].
  rewrite IH; [reflexivity | intros part H; apply Hin; by right |]. intros k r Hk. replace (n + 1 + Z.of_nat k) with (n + Z.of_nat (S k)) by lia.
  by apply Hc.
Qed.
End Bytes.

(** The receipts of the segments, and that the bytes of each parse to one. *)
Definition receipts (auth : authority) : list val :=
  match encoded_documents auth "segment_receipts" "segment_receipt" with Ok (_, VList l) => l | _ => [] end.

Definition segments_agree (json_loads : string -> option val) (auth : authority) : Prop :=
  forall k raw, raw_fields auth "segment_receipt_bytes" !! k = Some raw ->
    exists v w, json_loads (string_of_bytes raw) = Some v /\ receipts auth !! k = Some w /\ py_eq v (json_image w) = true.

Lemma candidate_fields obs path state i b : _candidate_bundle obs path state i = Ok b -> exists encoded entries promotions,
  _encoded_authority (in_authority i) = Ok encoded /\ vget b "p136_runtime_authority" = VDict encoded /\
  vget b "descriptors" = VDict (add_parts descriptor (parts encoded entries promotions)) /\
  vget b "canonical_byte_hashes" = VDict (add_parts (fun _ raw => VStr (P137Contracts.content_hash raw)) (parts encoded entries promotions)).
Proof.
  intros E. unfold _candidate_bundle in E. apply bind_ok in E as (n & _ & E). apply bind_ok in E as (pv & _ & E).
  apply bind_ok in E as (entries & _ & E). apply bind_ok in E as (promotions & _ & E). apply bind_ok in E as ([ds hs] & Ed & E).
  do 7 (apply bind_ok in E as (? & _ & E)). apply bind_ok in E as (encoded & He & E). apply (inj Ok) in E as <-.
  unfold _descriptors_and_hashes in Ed. rewrite He in Ed. injection Ed as <- <-. exists encoded, entries, promotions. by split_and!.
Qed.

Lemma mapping_field_image d key x : vget d key = VDict x -> mapping_field (dict_image d) key = Ok (key, VDict (dict_image x)).
Proof.
  intros E. unfold mapping_field. rewrite (vindex_vget (dict_image d) key (VDict (dict_image x))) by (rewrite ?vget_image, ?E; done).
  reflexivity.
Qed.

Lemma mappings_field_image d key label l : vget d key = VList (map VDict l) ->
  mappings_field (dict_image d) key label = Ok (key, VList (map VDict (map dict_image l))).
Proof.
  intros E. unfold mappings_field. rewrite (vindex_vget (dict_image d) key (VList (map VDict (map dict_image l)))).
  - cbn [bind _sequence as_seq]. assert (G : mapM (fun item => _mapping item label) (map VDict (map dict_image l)) = Ok (map dict_image l)).
    { generalize (map dict_image l). intros ds. induction ds as [|x ds IH]; [done|]. cbn [map mapM _mapping bind]. by rewrite IH. }
    by rewrite G.
  - rewrite vget_image, E. cbn [json_image]. f_equal. rewrite !map_map. by apply map_ext.
  - discriminate.
Qed.

(** C15: the bytes of the authority come back.  When a bundle was put
    together from an authority whose parts are not empty, and whose segments
    parse to their receipts, the bundle that is read back decodes to exactly
    the bytes that were put in, each under its name. *)
Theorem published_bytes_come_back obs path state i b json_loads : _candidate_bundle obs path state i = Ok b ->
  Forall (fun part => some_bytes part.2) (carried (in_authority i)) -> segments_agree json_loads (in_authority i) ->
  exists documents, _decoded_p136_authority json_loads (dict_image b) = Ok (documents, carried (in_authority i)).
Proof.
  intros E Hb Hs. apply candidate_fields in E as (encoded & entries & promotions & He & F1 & F2 & F3).
  pose proof (decode_carried _ _ entries promotions He Hb) as D. pose proof (decode_numbered _ _ entries promotions He Hb) as N.
  set (all := parts encoded entries promotions) in *. set (auth := in_authority i) in *.
  destruct (encoded_shape _ _ He) as (c & r & l & ix & sg & _ & _ & _ & _ & Hsg & Hd).
  unfold _decoded_p136_authority.
  assert (V : forall key x, vget b key = VDict x -> vindex (dict_image b) key = Ok (VDict (dict_image x))).
  { intros key x Ek. apply vindex_vget; [|discriminate]. by rewrite vget_image, Ek. }
  rewrite (V _ _ F1), (V _ _ F2), (V _ _ F3). cbn [bind _mapping].
  replace (same_keys (dict_image encoded) P136_AUTHORITY_FIELDS) with true by (rewrite same_keys_image, Hd; reflexivity).
  cbn [ho_ensure ensure bind]. set (ds := dict_image (add_parts descriptor all)) in *. set (hs := dict_image (add_parts (fun _ raw => VStr (P137Contracts.content_hash raw)) all)) in *.
  assert (S1 : mapM (fun field => let! decoded := decode_field ds hs (vget (dict_image encoded) field) field in Ok (field, decoded)) SINGLE =
               Ok (map (fun key => (key, raw_field auth key)) SINGLE)).
  { assert (G : forall key, In key SINGLE -> decode_field ds hs (vget (dict_image encoded) key) key = Ok (raw_field auth key)).
    { intros key Hk. rewrite vget_image. replace (vget encoded key) with (VStr (P137Contracts.hex (raw_field auth key)));
        [|rewrite Hd; by destruct Hk as [<-|[<-|[<-|[]]]]].
      apply D. unfold carried. apply in_app_iff. left. by apply (in_map (fun key => (key, raw_field auth key))). }
    revert G. generalize SINGLE. intros keys G. induction keys as [|key keys IH]; [done|]. cbn [mapM map].
    rewrite G by (by left). cbn [bind]. rewrite IH; [reflexivity|]. intros k Hk. apply G. by right. }
  change ["contract_bytes"; "review_receipt_bytes"; "receipt_ledger_bytes"] with SINGLE. rewrite S1. cbn [bind].
  assert (L : forall key, key = "index_receipt_bytes" \/ key = "segment_receipt_bytes" ->
            vget (dict_image encoded) key = VList (map VStr (map P137Contracts.hex (raw_fields auth key)))).
  { intros key Hk. rewrite vget_image. replace (vget encoded key) with (vlist_of_strings (map P137Contracts.hex (raw_fields auth key)));
      [apply strings_image | rewrite Hd; by destruct Hk as [->| ->]]. }
  rewrite !L by auto. cbn [_sequence as_seq bind].
  rewrite N; [|intros part Hp; unfold carried; rewrite !in_app_iff; auto | reflexivity]. cbn [bind].
  rewrite N; [|intros part Hp; unfold carried; rewrite !in_app_iff; auto |].
  - cbn [bind mapM]. rewrite (mapping_field_image _ _ c), (mapping_field_image _ _ r), (mapping_field_image _ _ l) by (rewrite Hd; reflexivity).
    cbn [bind]. rewrite (mappings_field_image _ _ _ ix), (mappings_field_image _ _ _ sg) by (rewrite Hd; reflexivity).
    cbn [bind]. eexists. reflexivity.
  - intros k raw Hk. destruct (Hs k raw Hk) as (v & w & Hv & Hw & Heq). unfold check_segment. rewrite Hv. cbn [bind].
    rewrite (vindex_vget _ _ (VList (map json_image (receipts auth)))).
    + cbn [bind _sequence as_seq]. rewrite Z.add_0_l, Nat2Z.id, list_lookup_fmap, Hw. cbn [fmap option_fmap option_map bind].
      by rewrite Heq.
    + rewrite vget_image, Hd. unfold receipts. rewrite Hsg. reflexivity.
    + discriminate.
Qed.
