(* ===== verification/P137Witness.v ===== *)
(** * Concrete runs of the triage

    Three atoms, two of them of one system with overlapping windows, are
    correlated, ranked and labelled, and a ledger is advanced; the theorems on
    the triage applied to them. *)

From S2P Require Import Prelude PyValue PyChecks Sha Json Components P137Checks P137Correlation P137CorrelationProps.
From S2P Require Import P137Hypotheses P137HypothesesProps P137Requests P137RequestsProps P137Classification P137LabelProps P137Ledger P137LedgerProps.

(** An atom of [system] in the minutes [start] to [end] of an hour. *)
Definition demo_atom (n system start stop breach : string) : dict :=
  [("schema_version", VStr "p137.evidence_atom.v1"); ("atom_id", VStr ("atom-" +:+ n)); ("promotion_record_hash", VStr "sha256:p");
   ("promotion_key", VStr "key"); ("p136_entry_hash", VStr "sha256:e"); ("p135_bundle_hash", VStr "sha256:b");
   ("source_id", VStr "metrics"); ("provider", VStr ("provider-" +:+ n)); ("format", VStr "json");
   ("signal_family", VStr "metric"); ("system_id", VStr system); ("entity_ref_hash", VStr ("sha256:entity-" +:+ system));
   ("window", VDict [("start", VStr ("2026-07-01T10:" +:+ start +:+ ":00Z")); ("end", VStr ("2026-07-01T10:" +:+ stop +:+ ":00Z"))]);
   ("signal_name", VStr "error_rate"); ("numeric_value", VInt 7); ("numeric_unit", VStr "percent");
   ("evidence_state", VStr "promoted_success"); ("severity_code", VStr "sev1"); ("metric_breach_code", VStr breach);
   ("marker_code", VStr "none"); ("counter_signal_code", VStr "none"); ("state_reason_codes", VList []);
   ("denominator_visible", VBool true); ("content_hash", VNone); ("label_hashes", VList []);
   ("topology_ref_hashes", VList []); ("deploy_config_ref_hashes", VList []); ("risk_flags", VList []);
   ("redacted_preview_hash", VNone); ("ordinal", VInt 0); ("atom_hash", VStr ("sha256:" +:+ n))].

Definition demo_atoms : list dict :=
  [demo_atom "1" "billing" "00" "10" "above_critical"; demo_atom "2" "search" "00" "05" "none";
   demo_atom "3" "billing" "05" "15" "above_warning"].

Definition demo_now : string := "2026-07-01T10:30:00Z".

(** ** Correlation *)

Definition demo_groups : list (list dict) := from_ok [] (_correlate_groups demo_atoms 900).

Lemma demo_atom_wf n system start stop breach : val_wf (VDict (demo_atom n system start stop breach)).
Proof.
  apply val_wf_dict. split.
  - apply (bool_decide_unpack _). vm_compute. reflexivity.
  - repeat constructor; cbn; try (apply (bool_decide_unpack _); vm_compute; reflexivity).
Qed.

Lemma demo_atoms_wf : atoms_wf demo_atoms.
Proof. repeat (apply List.Forall_cons; [apply demo_atom_wf|]). constructor. Qed.

Lemma correlation_window_has_no_effect_witness : exists l l',
  P137Correlation._limits (Some [("max_correlation_window_seconds", VInt 0)]) = Ok l /\
  P137Correlation._limits None = Ok l' /\
  P137Correlation.limit l "max_correlation_window_seconds" <> P137Correlation.limit l' "max_correlation_window_seconds" /\
  correlate_incident_state demo_atoms [] demo_now (Some [("max_correlation_window_seconds", VInt 0)]) =
  correlate_incident_state demo_atoms [] demo_now None.
Proof.
  exists (dset P137Correlation._DEFAULT_LIMITS "max_correlation_window_seconds" 0), P137Correlation._DEFAULT_LIMITS.
  split; [reflexivity|]. split; [reflexivity|]. split; [discriminate|].
  eapply correlation_window_has_no_effect; [reflexivity | reflexivity |].
  intros k Hk. unfold P137Correlation.limit. rewrite dget_dset. apply String.eqb_neq in Hk. by rewrite Hk.
Defined.

Lemma demo_groups_ok : _correlate_groups demo_atoms 900 = Ok demo_groups.
Proof. apply from_ok_eq. vm_compute. reflexivity. Qed.

(** The two atoms of one system share a group, the third has its own. *)
Example demo_groups_are : map (map P137Correlation.hash_of) demo_groups = [["sha256:1"; "sha256:3"]; ["sha256:2"]].
Proof. vm_compute. reflexivity. Qed.

Lemma correlation_groups_are_components_witness :
  Permutation (concat demo_groups) demo_atoms /\ Forall (fun g => g <> []) demo_groups /\
  forall x y, In x demo_atoms ->
    (exists g, In g demo_groups /\ In x g /\ In y g) <-> linked (related 900) demo_atoms x y.
Proof.
  apply (correlation_groups_are_components demo_atoms 900); [lia | exact demo_atoms_wf | exact demo_groups_ok].
Defined.

(** What correlation returns for the atoms: neither the incidents nor their
    hashes are evaluated. *)
Definition demo_result (atoms : list dict) : outcome dict := correlate_incident_state atoms [] demo_now None.
Definition demo_incidents : dict := from_ok [] (fst (demo_result demo_atoms)).

Lemma demo_result_ok : demo_result demo_atoms = (Ok demo_incidents, None).
Proof.
  assert (H : is_ok (fst (demo_result demo_atoms)) = true) by (vm_compute; reflexivity).
  assert (Hi : snd (demo_result demo_atoms) = None) by (vm_compute; reflexivity).
  apply (from_ok_eq []) in H. unfold demo_incidents. rewrite <- Hi. destruct (demo_result demo_atoms). by f_equal.
Qed.

Lemma correlation_keeps_every_atom_witness :
  exists limits incidents, P137Correlation._limits None = Ok limits /\ vget demo_incidents "incidents" = VList (map VDict incidents) /\
    vget demo_incidents "incident_count" = VInt (Z.of_nat (List.length incidents)) /\
    Permutation (concat (map evidence incidents)) (map P137Correlation.hash_of demo_atoms) /\
    Z.of_nat (List.length incidents) <= P137Correlation.limit limits "max_open_incidents" /\
    Z.of_nat (List.length demo_atoms) <= P137Correlation.limit limits "max_journal_entries" /\
    Forall (fun incident =>
      Z.of_nat (List.length (evidence incident)) <= P137Correlation.limit limits "max_atoms_per_incident" /\
      exists s, duration incident = Ok s /\ s <= P137Correlation.limit limits "max_incident_duration_seconds") incidents.
Proof.
  eapply (correlation_keeps_every_atom demo_atoms [] demo_now None); [exact demo_atoms_wf | exact demo_result_ok].
Defined.

Lemma correlation_ignores_order_witness : demo_result (rev demo_atoms) = demo_result demo_atoms.
Proof.
  rewrite demo_result_ok. apply (correlation_ignores_order demo_atoms).
  - apply Permutation_rev.
  - apply (bool_decide_unpack _). vm_compute. reflexivity.
  - exact demo_result_ok.
Defined.

Definition demo_walk : list string :=
  ["correlating"; "investigating"; "ready_to_classify"; "classification_pending"; "confirmed_incident"].

Lemma concluded_incident_was_investigated_witness :
  walk "open" demo_walk = Ok "confirmed_incident" /\
  (List.length demo_walk <= 5)%nat /\
  (In "confirmed_incident" TERMINAL_STATUSES ->
   (forall t, transition_incident_status "confirmed_incident" t = Raise (P137CorrelationError "terminal_incident_transition_forbidden")) /\
   ("confirmed_incident" <> "aborted_fail_closed" ->
    demo_walk = ["correlating"; "investigating"; "ready_to_classify"; "classification_pending"; "confirmed_incident"])).
Proof. split; [reflexivity|]. by apply concluded_incident_was_investigated. Defined.

(** ** Hypotheses *)

Definition demo_incident : dict := [("incident_id", VStr "p137-demo")].
Definition breaching : dict := demo_atom "1" "billing" "00" "10" "above_critical".
Definition demo_hypothesis : dict := from_ok [] (_build_hypothesis demo_incident breaching 1 demo_now 900).

Lemma breaching_valid : P137Hypotheses._validate_atom breaching = Ok breaching.
Proof. vm_compute. reflexivity. Qed.

Lemma demo_hypothesis_ok : _build_hypothesis demo_incident breaching 1 demo_now 900 = Ok demo_hypothesis.
Proof. apply from_ok_eq. vm_compute. reflexivity. Qed.

Lemma vote_follows_the_atom_witness :
  vote demo_hypothesis = "confirmed_incident" /\
  ((vote demo_hypothesis = "confirmed_incident" <->
      promoted breaching = true /\ breached breaching = true /\ decisive breaching = false /\
      category demo_hypothesis <> "benign_pattern") /\
   (vote demo_hypothesis = "benign_anomaly" <->
      category demo_hypothesis = "benign_pattern" /\ code_is breaching "marker_code" "known_benign_schedule" = true) /\
   In (vote demo_hypothesis) ["confirmed_incident"; "benign_anomaly"; "insufficient_evidence"]).
Proof.
  split; [vm_compute; reflexivity|].
  apply (vote_follows_the_atom demo_incident breaching 1 demo_now 900); [exact breaching_valid | exact demo_hypothesis_ok].
Defined.

Lemma hypothesis_score_is_bounded_witness :
  score_field demo_hypothesis "rank_score" = 7 /\
  0 <= score_field demo_hypothesis "support_weight" <= 7 /\ 0 <= score_field demo_hypothesis "contradiction_weight" <= 5 /\
  0 <= score_field demo_hypothesis "missing_required_count" <= 1 /\ 0 <= score_field demo_hypothesis "freshness_weight" /\
  0 <= score_field demo_hypothesis "source_diversity_weight" <= 1 /\ -5 <= score_field demo_hypothesis "rank_score" /\
  forall e n, P137Hypotheses._parse_time (py_str (vget (P137Hypotheses.window_of breaching) "end")) = Ok e ->
    P137Hypotheses._parse_time demo_now = Ok n -> e <= n ->
    score_field demo_hypothesis "freshness_weight" <= 3 /\ score_field demo_hypothesis "rank_score" <= 11.
Proof.
  split; [vm_compute; reflexivity|].
  apply (hypothesis_score_is_bounded demo_incident breaching 1 demo_now 900);
    [exact breaching_valid | lia | exact demo_hypothesis_ok].
Defined.

(** Three atoms with different scores: the order is decided without a hash. *)
Definition ranked_atoms : list dict :=
  [breaching; demo_atom "2" "billing" "00" "05" "none"; demo_atom "3" "billing" "00" "25" "above_warning"].
Definition demo_ranking : list dict := from_ok [] (ranked_hypotheses demo_incident ranked_atoms "2026-07-01T10:40:00Z" None).

Lemma demo_ranking_ok : ranked_hypotheses demo_incident ranked_atoms "2026-07-01T10:40:00Z" None = Ok demo_ranking.
Proof. apply from_ok_eq. vm_compute. reflexivity. Qed.

Lemma ranking_orders_every_hypothesis_witness :
  Permutation (map evidence_of demo_ranking) (map P137Hypotheses.hash_of ranked_atoms) /\
  StronglySorted ranked_above (map _semantic_tuple demo_ranking) /\
  map (fun h => vget h "rank") demo_ranking = map VInt (seqZ 1 (Z.of_nat (List.length ranked_atoms))) /\
  Forall (fun h => hypothesis_hash_of h = _hash_hypothesis h) demo_ranking.
Proof. apply (ranking_orders_every_hypothesis demo_incident ranked_atoms "2026-07-01T10:40:00Z" None _ demo_ranking_ok). Defined.

Lemma derived_label_refines_the_ranking_witness :
  exists label, derive_classification demo_ranking true (tied demo_ranking) None true true = Ok (Some label) /\
    label = match demo_ranking with
            | [] => "insufficient_evidence"
            | top :: _ => if tied demo_ranking || contradicted top then "insufficient_evidence" else vote top
            end /\
    (label = _classification demo_ranking (_top_semantic_ties demo_ranking) \/
     label = "insufficient_evidence" /\
     (tied demo_ranking = true \/
      exists top rest, demo_ranking = top :: rest /\ contradicted top = true /\ vote top = "benign_anomaly")).
Proof.
  apply (derived_label_refines_the_ranking demo_incident ranked_atoms "2026-07-01T10:40:00Z" None _ true true demo_ranking_ok).
Defined.

Example demo_label : _classification demo_ranking (_top_semantic_ties demo_ranking) = "confirmed_incident".
Proof. vm_compute. reflexivity. Qed.

(** ** The ledger *)

Definition demo_hash (digits : string) : string := "sha256:" +:+ String.concat "" (repeat digits 32).
Definition demo_config_hash : string := demo_hash "0f".
Definition demo_member (n : Z) (digits : string) : val :=
  VDict [("incident_sequence", VInt n); ("incident_hash", VStr (demo_hash digits))].

Definition demo_ledger : dict := from_ok [] (new_investigation_ledger demo_config_hash [] [] [] [] []).
Definition demo_ledger_hash : string := py_str (vget demo_ledger "ledger_hash").

#[local] Notation demo_advance incidents :=
  (advance_investigation_ledger demo_ledger demo_ledger_hash incidents [] [] None None None None).
Definition demo_next : dict := from_ok [] (demo_advance [demo_member 1 "a1"; demo_member 2 "b2"]).
Definition demo_idle : dict := from_ok [] (demo_advance []).

Lemma demo_next_ok : demo_advance [demo_member 1 "a1"; demo_member 2 "b2"] = Ok demo_next.
Proof. apply from_ok_eq. vm_compute. reflexivity. Qed.

Lemma demo_idle_ok : demo_advance [] = Ok demo_idle.
Proof. apply from_ok_eq. vm_compute. reflexivity. Qed.

Lemma demo_next_members : hashes_of demo_next "incident_hashes" =
  [demo_hash "a1"; demo_hash "b2"].
Proof. vm_compute. reflexivity. Qed.

Lemma demo_next_lists : members demo_next <> [].
Proof. unfold members. rewrite demo_next_members. discriminate. Qed.

Lemma demo_idle_members : members demo_idle = [].
Proof. vm_compute. reflexivity. Qed.

Lemma advance_appends_to_the_expected_ledger_witness :
  hashes_of demo_next "incident_hashes" =
    [demo_hash "a1"; demo_hash "b2"] /\
  demo_ledger_hash = ledger_hash_of demo_ledger /\ vget demo_next "previous_ledger_hash" = VStr demo_ledger_hash /\
  vget demo_next "config_hash" = vget demo_ledger "config_hash" /\
  vget demo_next "ledger_hash" = VStr (ledger_hash_of demo_next).
Proof.
  destruct (advance_appends_to_the_expected_ledger _ _ _ _ _ _ _ _ _ _ demo_next_ok) as (H1 & H2 & H3 & H4 & _).
  exact (conj demo_next_members (conj H1 (conj H2 (conj H3 H4)))).
Defined.

(** A ledger with two incidents is accepted again; one that was advanced by
    nothing is refused from then on. *)
Lemma advanced_ledger_is_accepted_iff_witness :
  validate_standalone (VDict demo_next) = Ok tt /\ validate_standalone (VDict (dict_image demo_next)) = Ok tt /\
  validate_standalone (VDict demo_idle) = Raise (P137LedgerError "standalone_ledger_predecessor_mismatch") /\
  forall expected incidents requests classifications c r e s,
    advance_investigation_ledger demo_idle expected incidents requests classifications c r e s =
    Raise (P137LedgerError "standalone_ledger_predecessor_mismatch").
Proof.
  destruct (advanced_ledger_is_accepted_iff _ _ _ _ _ _ _ _ _ _ demo_next_ok) as [H _].
  destruct (advanced_ledger_is_accepted_iff _ _ _ _ _ _ _ _ _ _ demo_idle_ok) as [_ H'].
  destruct (H demo_next_lists) as [Ha Hb]. exact (conj Ha (conj Hb (H' demo_idle_members))).
Defined.

(** ** Requests *)

Definition request_atom (digits provider : string) : val :=
  VDict [("atom_hash", VStr (demo_hash digits)); ("provider", VStr provider)].

Definition request_atoms : list val := [request_atom "c3" "metrics"; request_atom "a1" "logs"; request_atom "b2" "metrics"].
Definition request_parameters : dict := [("provider", VStr "metrics"); ("limit", VInt 1)].

#[local] Notation demo_derive :=
  (derive_evidence_request_record "p137-demo" (demo_hash "d4") 1 "select_records_by_provider" request_parameters None
     request_atoms []).
#[local] Notation demo_execute :=
  (execute_evidence_request "p137-demo" (demo_hash "d4") 1 "select_records_by_provider" request_parameters None
     request_atoms []).

Definition demo_request : dict := from_ok [] demo_derive.

Lemma demo_request_ok : demo_derive = Ok demo_request.
Proof. apply from_ok_eq. vm_compute. reflexivity. Qed.

Lemma demo_matched : summary_field demo_request "matched_atom_hashes" = vlist_of_strings [demo_hash "b2"].
Proof. vm_compute. reflexivity. Qed.

(** Two of the three atoms have the provider; the limit of one keeps the
    first by its hash. *)
Lemma request_selects_within_its_limits_witness :
  summary_field demo_request "matched_atom_hashes" = vlist_of_strings [demo_hash "b2"] /\
  activity_field demo_request "external_call_count" = VInt 0 /\
  exists ds limits matched z,
    request_atoms = map VDict ds /\ build_request_budget [] = Ok limits /\ vget request_parameters "limit" = VInt z /\
    summary_field demo_request "matched_atom_hashes" = vlist_of_strings matched /\
    Z.of_nat (List.length matched) <= Z.min z (int_field limits "max_output_records").
Proof.
  destruct (request_selects_within_its_limits _ _ _ _ _ _ _ _ _ demo_request_ok)
    as (ds & limits & matched & z & H1 & H2 & H3 & _ & _ & _ & H4 & _ & _ & _ & H5 & _ & _ & H6).
  split; [exact demo_matched|]. split; [exact H6|]. exists ds, limits, matched, z.
  exact (conj H1 (conj H2 (conj H3 (conj H4 H5)))).
Defined.

Lemma execution_returns_the_derived_record_witness :
  exists attempt, vget demo_request "attempted_request_hash" = VStr attempt /\
    (forall table, dget table attempt = None -> demo_execute table = Ok (demo_request, false)) /\
    (forall table, dget table attempt = Some demo_request -> demo_execute table = Ok (demo_request, true)) /\
    (forall table, dget table attempt = Some (dict_image demo_request) ->
       demo_execute table = Ok (dict_image demo_request, true)) /\
    forall table r' dup, demo_execute table = Ok (r', dup) -> py_eq (VDict r') (VDict demo_request) = true.
Proof.
  apply execution_returns_the_derived_record; [| | exact demo_request_ok];
    apply (bool_decide_unpack _); vm_compute; reflexivity.
Defined.
