(* ===== verification/P137RuntimeWitness.v ===== *)
(** * Concrete runs of the triage

    A first cycle is run, ledgers are advanced, and the theorems on the
    runtime and on the handoff applied to what results. *)

From S2P Require Import Prelude PyValue PyChecks Sha Json P137Checks P137Durable P137DurableProps P137Triage P137Runtime P137RuntimeProps P137RuntimeLoopProps P137RuntimeLineage P137RuntimeBlocked P137HandoffProps.
From S2P Require P137Contracts P137ContractsProps P137ContractsWitness P137Ledger P137LedgerProps P137Handoff.

#[local] Opaque stable_hash run_body P137Contracts.validate_triage_agent_config.

Definition config : dict := P137ContractsWitness.demo_triage_config.

Lemma config_accepted : P137Contracts.validate_triage_agent_config (VDict config) = Ok tt.
Proof.
  exact (proj1 (proj2 (P137ContractsProps.built_config_validates _ _ P137ContractsWitness.demo_config_data_wf
                         P137ContractsWitness.demo_triage_config_ok))).
Qed.

(** ** A first cycle *)

Definition bundle_hash : string := "sha256:" +:+ P137Contracts.hex (repeat 17 32).

(** What a validator returns for a first bundle without promotions. *)
Definition first_bundle : dict :=
  [("bundle_hash", VStr bundle_hash); ("bundle_sequence", VInt 1); ("previous_bundle_hash", VNone);
   ("handoff_chain_root_hash", vget config "p136_handoff_chain_root_hash");
   ("fixed_handoff_path", vget config "p136_handoff_bundle_path"); ("evidence_atoms", VList []);
   ("promotion_record_count", VInt 0); ("promotion_bytes_validated", VInt 0);
   ("p136_validator_calls", VDict [("validate_incremental_observer_config", VInt 1)])].

Definition demo_validator : string -> dict -> option dict -> res dict := fun _ _ _ => Ok first_bundle.

#[export] Instance demo_validator_honest : HonestValidator demo_validator.
Proof. intros b c cp h [= <-]. exists 1, bundle_hash. split_and!; [reflexivity | reflexivity | reflexivity | vm_compute; reflexivity]. Qed.

Definition idle : measurement := {| wall_ms := 0; cpu_ms := 0; child_cpu_ms := 0; peak_start := 0; peak_now := 0 |}.

Definition demo_request : request :=
  {| rq_lease_free := true; rq_validator := demo_validator; rq_crash_after := None; rq_signal := None; rq_stop_before := "handoff";
     rq_probe := None; rq_measured := idle; rq_now := "2026-07-01T10:30:00Z" |}.

Definition fresh : store := {| slots := fun _ => None; folders := fun _ => []; handoff_file := Some ("{}" +:+ nl) |}.

Definition demo_run : res dict * run := run_body config demo_request (start_run fresh).
Definition demo_outcome : dict := from_ok [] demo_run.1.

Definition is_ok_result (out : res dict) : bool := match out with Ok d => py_eq (vget d "status") (VStr "ok") | Raise _ => false end.

Lemma demo_run_checked : is_ok_result demo_run.1 = true.
Proof. vm_compute. reflexivity. Qed.

Lemma demo_run_ok : demo_run.1 = Ok demo_outcome /\ says_ok demo_outcome.
Proof.
  pose proof demo_run_checked as H. unfold demo_outcome, says_ok. destruct demo_run.1 as [d|e]; [|discriminate].
  split; [reflexivity | by apply py_eq_str].
Qed.

Lemma run_once_is_body rq st : rq_crash_after rq = None -> rq_stop_before rq = "handoff" -> rq_lease_free rq = true ->
  forall result, (run_body config rq (start_run st)).1 = Ok result ->
  run_p137_runtime_once config rq st = (Ok result, (run_body config rq (start_run st)).2).
Proof.
  intros Hc Hb Hl result H. unfold run_p137_runtime_once. rewrite config_accepted, Hc, Hb, Hl. cbn [negb mem existsb].
  destruct (run_body config rq (start_run st)) as [out r]. cbn [fst] in H. by rewrite H.
Qed.

Lemma demo_once : run_p137_runtime_once config demo_request fresh = (Ok demo_outcome, demo_run.2).
Proof. unfold demo_run. apply run_once_is_body; [reflexivity | reflexivity | reflexivity | exact (proj1 demo_run_ok)]. Qed.

Lemma ok_result_is_on_disk_witness : reported (disk demo_run.2) demo_outcome.
Proof. exact (ok_result_is_on_disk config demo_request fresh demo_outcome demo_run.2 demo_once (proj2 demo_run_ok)). Defined.

Lemma last_possible r : In (disk r) (possible r).
Proof. unfold possible. apply in_app_iff. right. by left. Qed.

Lemma every_history_has_a_lineage_witness : sound_chain config (disk (run_p137_runtime_once config demo_request fresh).2).
Proof.
  apply (every_history_has_a_lineage config demo_validator _ demo_validator_honest).
  apply (ran config demo_validator fresh demo_request).
  - exact (installed config demo_validator fresh eq_refl eq_refl).
  - reflexivity.
  - exact (last_possible (run_p137_runtime_once config demo_request fresh).2).
Defined.

(** ** A first ledger that lists nothing *)

Definition nothing_found : triage :=
  {| tr_next_incident := 1; tr_next_request := 1; tr_next_classification := 1; tr_previous_classification := None;
     tr_incident_records := []; tr_incidents := []; tr_hypotheses := []; tr_requests := []; tr_classifications := [] |}.

Definition first_ledger (t : triage) : res dict :=
  _new_or_reused_ledger config None (P137Contracts.zero_runtime_activity []) AUTHORITY EVALUATOR t.

Definition empty_ledger : dict := from_ok [] (first_ledger nothing_found).

Lemma empty_ledger_ok : first_ledger nothing_found = Ok empty_ledger.
Proof. apply from_ok_eq. vm_compute. reflexivity. Qed.

Definition with_files (intents atoms : list (string * file)) (l : option dict) : store :=
  {| slots := fun s => match s, l with Ledger, Some d => Some (written d) | _, _ => None end;
     folders := fun d => match d with Intents => intents | Atoms => atoms | _ => [] end; handoff_file := Some ("{}" +:+ nl) |}.

Definition quiet (i : nat) : tick := {| tk_signal := None; tk_lease_free := true; tk_measured := idle; tk_elapsed_ms := 1000 * Z.of_nat i |}.

Lemma empty_first_cycle_is_the_last_witness :
  Forall (as_it_was (with_files [] [] (Some empty_ledger)))
    (possible (run_p137_runtime_once config demo_request (with_files [] [] (Some empty_ledger))).2).
Proof.
  exact (proj1 (empty_first_cycle_is_the_last config (P137Contracts.zero_runtime_activity []) nothing_found empty_ledger
                  (with_files [] [] (Some empty_ledger)) demo_validator empty_ledger_ok eq_refl eq_refl eq_refl eq_refl
                  demo_request [] quiet eq_refl)).
Defined.

(** ** An atom without hashes *)

Definition unhashed_store : store :=
  with_files [] [("atom.json", written P137ContractsWitness.demo_built_atom)] None.

Lemma demo_atom_has_no_content_hash : vget (dict_image P137ContractsWitness.demo_built_atom) "content_hash" = VNone.
Proof. rewrite vget_image. vm_compute. reflexivity. Qed.

Lemma unhashed_atom_is_fatal_witness :
  Forall (as_it_was unhashed_store) (possible (run_p137_runtime_once config demo_request unhashed_store).2).
Proof.
  exact (proj1 (unhashed_atom_is_fatal config demo_validator unhashed_store "atom.json" (written P137ContractsWitness.demo_built_atom)
                  (dict_image P137ContractsWitness.demo_built_atom) eq_refl eq_refl (or_introl demo_atom_has_no_content_hash)
                  demo_request [] quiet eq_refl)).
Defined.

Lemma built_atom_reloads_iff_witness :
  ~ (_validate_durable_atom (dict_image P137ContractsWitness.demo_built_atom) = Ok tt).
Proof.
  intros H. apply (built_atom_reloads_iff _ _ P137ContractsWitness.demo_built_atom_ok) in H as [H _].
  apply H. vm_compute. reflexivity.
Defined.

(** ** Two intents *)

Definition one_found : triage :=
  {| tr_next_incident := 2; tr_next_request := 1; tr_next_classification := 1; tr_previous_classification := None;
     tr_incident_records := []; tr_incidents := [[("incident_sequence", VInt 1); ("incident_hash", VStr bundle_hash)]];
     tr_hypotheses := []; tr_requests := []; tr_classifications := [] |}.

Definition next_ledger : dict := from_ok [] (first_ledger one_found).

Lemma next_ledger_ok : first_ledger one_found = Ok next_ledger.
Proof. apply from_ok_eq. vm_compute. reflexivity. Qed.

Lemma next_ledger_lists : P137LedgerProps.members next_ledger <> [].
Proof.
  destruct (first_ledger_members _ _ _ _ next_ledger_ok) as (ins & rs & cs & <- & _ & _ & ->). discriminate.
Qed.

Lemma next_ledger_follows : follows config None next_ledger.
Proof. exists (P137Contracts.zero_runtime_activity []), one_found. exact next_ledger_ok. Qed.

Definition intent_at (now : string) : dict := from_ok [] (_intent config now first_bundle ("{}" +:+ nl)).

Definition two_intents : store :=
  with_files [("first.json", written (intent_at "2026-07-01T10:30:00Z")); ("second.json", written (intent_at "2026-07-01T10:31:00Z"))]
    [] (Some next_ledger).

Lemma config_hash_text : exists h, vget config "config_hash" = VStr h.
Proof. exact (accepted_config_hash config tt config_accepted). Qed.

Lemma two_intents_loaded : loaded config two_intents None (Some (dict_image next_ledger)) true.
Proof.
  destruct config_hash_text as (h & Hh).
  exact (first_ledger_ahead config h Hh two_intents next_ledger eq_refl eq_refl next_ledger_follows next_ledger_lists).
Qed.

Lemma intent_names_bundle now : names_bundle first_bundle (dict_image (intent_at now)) = true.
Proof.
  unfold names_bundle. rewrite !vget_image. change (vget (intent_at now) "bundle_sequence") with (VInt 1).
  change (vget (intent_at now) "bundle_hash") with (VStr bundle_hash). vm_compute. reflexivity.
Qed.

Lemma two_intents_block_recovery_witness :
  Forall (as_it_was two_intents) (possible (run_p137_runtime_once config demo_request two_intents).2).
Proof.
  refine (proj1 (two_intents_block_recovery config demo_validator two_intents None (dict_image next_ledger) "first.json" "second.json"
                  (written (intent_at "2026-07-01T10:30:00Z")) (written (intent_at "2026-07-01T10:31:00Z"))
                  (dict_image (intent_at "2026-07-01T10:30:00Z")) (dict_image (intent_at "2026-07-01T10:31:00Z"))
                  two_intents_loaded _ eq_refl eq_refl eq_refl eq_refl _ demo_request [] quiet eq_refl)).
  - discriminate.
  - intros b h [= <-]. exact (conj (intent_names_bundle _) (intent_names_bundle _)).
Defined.

(** ** Recovery *)

Definition read_with (intents : list dict) : durable :=
  {| du_intents := intents; du_atoms := []; du_incidents := []; du_hypotheses := []; du_requests_by_attempt := [];
     du_requests_by_hash := []; du_classifications := [] |}.

Definition one_intent : durable := read_with [dict_image (intent_at "2026-07-01T10:30:00Z")].

Definition next_checkpoint : dict := from_ok [] (_checkpoint config first_bundle next_ledger None).

Lemma next_checkpoint_ok : _checkpoint config first_bundle next_ledger None = Ok next_checkpoint.
Proof. reflexivity. Qed.

Lemma fresh_loaded : loaded config fresh None None false.
Proof. split; [reflexivity | reflexivity | discriminate.. | reflexivity]. Qed.

Lemma one_intent_matches : (List.length (matching_intents (du_intents one_intent) first_bundle) =? 1)%nat = true.
Proof.
  change (matching_intents (du_intents one_intent) first_bundle)
    with (List.filter (names_bundle first_bundle) [dict_image (intent_at "2026-07-01T10:30:00Z")]).
  cbn [List.filter]. rewrite (intent_names_bundle "2026-07-01T10:30:00Z"). reflexivity.
Qed.

Lemma recovery_finishes_the_commit_witness :
  let (_, r') := recover_split_commit config demo_request None (Some (dict_image next_ledger)) one_intent first_bundle (start_run two_intents) in
  slots (disk r') Checkpoint = Some (written next_checkpoint).
Proof.
  pose proof (recovery_finishes_the_commit config demo_request fresh None None next_ledger first_bundle next_checkpoint one_intent
                first_bundle (start_run two_intents) fresh_loaded next_ledger_follows next_checkpoint_ok eq_refl eq_refl) as H.
  rewrite one_intent_matches in H. destruct (recover_split_commit _ _ _ _ _ _ _) as [out r']. exact (proj1 H).
Defined.

(** ** Polling for a version *)

Definition polling_mode : dict :=
  from_ok [] (P137Contracts.build_continuous_mode (VBool true) (VInt 100) (VInt 100) (VInt 100) (VStr "state/readiness.json")
                (VInt 100) (VInt 100) (VInt 1) (VBool true)).

Definition polling_data : dict := dset P137ContractsWitness.demo_config_data "continuous_mode" (VDict polling_mode).
Definition polling_config : dict := from_ok [] (P137Contracts.build_triage_agent_config (VDict polling_data)).

Lemma polling_config_ok : P137Contracts.build_triage_agent_config (VDict polling_data) = Ok polling_config.
Proof. apply from_ok_eq. vm_compute. reflexivity. Qed.

Lemma In_dset {V} (d : list (string * V)) k v kv : In kv (dset d k v) -> kv = (k, v) \/ In kv d.
Proof.
  induction d as [|[k' v'] d IH]; [by intros [<-|[]]; left|]. cbn [dset]. destruct (String.eqb_spec k k') as [->|_].
  - intros [<-|H]; [by left | by right; right].
  - intros [<-|H]; [by right; left|]. destruct (IH H); [by left | by right; right].
Qed.

Lemma polling_data_wf : val_wf (VDict polling_data).
Proof.
  apply val_wf_dict. split; [apply (bool_decide_unpack _); vm_compute; reflexivity|].
  pose proof P137ContractsWitness.demo_config_data_wf as W. apply val_wf_dict in W as [_ W].
  rewrite List.Forall_forall in *. intros kv Hkv. apply In_dset in Hkv as [->|Hkv]; [|by apply W].
  cbn [snd]. P137ContractsWitness.value_wf.
Qed.

Lemma polling_accepted : P137Contracts.validate_triage_agent_config (VDict polling_config) = Ok tt.
Proof. exact (proj1 (proj2 (P137ContractsProps.built_config_validates _ _ polling_data_wf polling_config_ok))). Qed.

Lemma polling_enabled : continuous_is polling_config "enabled" && continuous_is polling_config "handoff_version_polling" = true.
Proof. vm_compute. reflexivity. Qed.

(** An observer that accepts everything, and a reader that reads nothing. *)
Definition lenient : P137Handoff.observer :=
  {| P137Handoff.validate_incremental_observer_config := fun _ => Ok tt;
     P137Handoff.validate_observer_runtime_authority := fun _ _ _ _ => Ok tt;
     P137Handoff.validate_promotion_record := fun _ _ _ _ _ => Ok tt;
     P137Handoff.validate_p136_release_evidence := fun _ _ => Ok tt |}.

Definition triage_validator : string -> dict -> option dict -> res dict :=
  P137Handoff.validate_p136_handoff_bundle (fun _ => None) lenient.

Definition polling_request : request :=
  {| rq_lease_free := true; rq_validator := triage_validator; rq_crash_after := None; rq_signal := None; rq_stop_before := "handoff";
     rq_probe := None; rq_measured := idle; rq_now := "2026-07-01T10:30:00Z" |}.

Lemma version_polling_accepts_nothing_witness :
  Forall (as_it_was fresh) (possible (run_p137_runtime_loop polling_config triage_validator [] quiet fresh).2).
Proof.
  destruct (andb_prop _ _ polling_enabled) as [He Hp].
  exact (proj2 (version_polling_accepts_nothing (fun _ => None) lenient polling_config fresh polling_accepted He Hp
                  polling_request [] quiet eq_refl)).
Defined.

(** ** The loop *)

(** The lease is taken, then a signal arrives. *)
Definition busy_then_stopped (i : nat) : tick :=
  {| tk_signal := match i with O => None | _ => Some "sigint" end; tk_lease_free := false; tk_measured := idle;
     tk_elapsed_ms := 1000 * Z.of_nat i |}.

Lemma signals_are_not_reasons i : tk_signal (busy_then_stopped i) <> Some RUNNING.
Proof. by destruct i. Qed.

Definition demo_loop : res dict * run := run_p137_runtime_loop config demo_validator [] busy_then_stopped fresh.
Definition demo_loop_result : dict := from_ok [] demo_loop.1.

Lemma triage_loop_ok : demo_loop.1 = Ok demo_loop_result.
Proof. apply from_ok_eq. vm_compute. reflexivity. Qed.

Lemma loop_is_bounded_witness : exists n, vget demo_loop_result "cycles_completed" = VInt n /\
  0 <= n <= Z.of_nat (cycles_requested config []).
Proof.
  assert (E : run_p137_runtime_loop config demo_validator [] busy_then_stopped fresh = (Ok demo_loop_result, demo_loop.2)).
  { rewrite <- triage_loop_ok. apply surjective_pairing. }
  destruct (loop_is_bounded config demo_validator [] busy_then_stopped signals_are_not_reasons fresh demo_loop_result demo_loop.2 E)
    as (n & H1 & H2 & _). exists n. exact (conj H1 H2).
Defined.

(** ** A stale readiness *)

Definition stale : dict := [("status", VStr "stale"); ("written_at", VStr "2026-07-01T10:30:00Z")].

Definition stale_store : store :=
  {| slots := fun s => match s with Readiness => Some (written stale) | _ => None end; folders := fun _ => []; handoff_file := None |}.

Lemma config_is_continuous : continuous_is config "enabled" = true.
Proof. vm_compute. reflexivity. Qed.

Lemma stale_readiness_stops_every_loop_witness :
  let (_, r) := run_p137_runtime_loop config demo_validator [] quiet stale_store in
  Forall (fun s => slots s = slots stale_store /\ handoff_file s = handoff_file stale_store) (possible r).
Proof.
  pose proof (stale_readiness_stops_every_loop config demo_validator [] quiet stale_store (written stale) (dict_image stale)
                config_accepted config_is_continuous eq_refl eq_refl eq_refl) as H.
  destruct (run_p137_runtime_loop config demo_validator [] quiet stale_store) as [out r]. exact (proj1 H).
Defined.
