(* ===== verification/P137HandoffWitness.v ===== *)
(** * A promotion that is converted

    Two records of one promotion: one with a preview, and one whose text
    holds a control character, so that its preview is empty. *)

From S2P Require Import Prelude PyValue PyChecks Sha Json P137Durable P137DurableProps P137HandoffProps.
From S2P Require P137Contracts P137ContractsWitness P137Handoff.

#[local] Opaque stable_hash.

Definition telemetry (signal : string) : dict :=
  [("source_id", VStr "metrics"); ("system_id", VStr "billing"); ("entity_ref", VStr "billing-api"); ("signal_name", VStr signal);
   ("window", VDict [("start", VStr "2026-07-01T10:00:00Z"); ("end", VStr "2026-07-01T10:05:00Z")]); ("value", VInt 7);
   ("unit", VStr "percent"); ("severity", VStr "SEV1"); ("labels", VDict [("service", VStr "billing")]);
   ("topology_refs", VList []); ("deploy_config_refs", VList []); ("evidence_state", VStr "valid"); ("state_reasons", VList []);
   ("denominator_visible", VBool true)].

Definition record_of (preview : string) (flags : list val) : dict :=
  [("evidence_id", P137ContractsWitness.demo_hash "a"); ("ordinal", VInt 1); ("provider", VStr "prometheus"); ("format", VStr "json");
   ("p120_record", VDict (telemetry "error_rate")); ("content_hash", P137ContractsWitness.demo_hash "b");
   ("redacted_preview", VStr preview); ("risk_flags", VList flags)].

Definition promotion_of (records : list dict) : dict :=
  [("status", VStr "success"); ("promotion_hash", P137ContractsWitness.demo_hash "1"); ("promotion_key", P137ContractsWitness.demo_hash "2");
   ("entry_hash", P137ContractsWitness.demo_hash "3"); ("p135_normalized_bundle_hash", P137ContractsWitness.demo_hash "4");
   ("p135_normalized_bundle", VDict [("signal_family", VStr "metric"); ("records", VList (map VDict records))])].

Definition previewed : dict := record_of "billing" [].
Definition flagged : dict := record_of "" [VStr "control_character_text"].

Definition demo_converted : list dict :=
  from_ok [] (P137Handoff._atoms_from_promotion (promotion_of [previewed; flagged]) P137ContractsWitness.demo_policy).

Lemma demo_converted_ok :
  P137Handoff._atoms_from_promotion (promotion_of [previewed; flagged]) P137ContractsWitness.demo_policy = Ok demo_converted.
Proof. apply from_ok_eq. vm_compute. reflexivity. Qed.

(** The first atom comes back, the second does not. *)
Lemma converted_atom_comes_back_iff_witness : exists a b, demo_converted = [a; b] /\
  _validate_durable_atom (dict_image a) = Ok tt /\ ~ (_validate_durable_atom (dict_image b) = Ok tt).
Proof.
  destruct (converted_atom_comes_back_iff _ _ _ demo_converted_ok) as (bundle & items & Hb & Hi & F).
  injection Hb as <-. injection Hi as <-. revert F. generalize demo_converted. intros atoms F.
  inversion F as [|x a xs atoms1 (r1 & E1 & _ & H1) F1]; subst. inversion F1 as [|y b ys atoms2 (r2 & E2 & _ & H2) F2]; subst.
  inversion F2; subst. injection E1 as <-. injection E2 as <-. exists a, b. split; [reflexivity|]. split.
  - apply H1. split; [reflexivity | discriminate].
  - intros H. apply H2 in H as [H _]. discriminate.
Defined.

Lemma credential_flag_is_never_converted_witness :
  Forall (fun item => exists record flags, item = VDict record /\
    P137Handoff._sequence (vget record "risk_flags") "risk_flags" = Ok flags /\ ~ In (VStr "credential_like_text") flags)
    [VDict previewed; VDict flagged].
Proof.
  destruct (credential_flag_is_never_converted _ _ _ demo_converted_ok) as (bundle & items & Hb & Hi & F).
  injection Hb as <-. injection Hi as <-. exact F.
Defined.

(** The same record with that flag is refused. *)
Example credential_record_is_refused :
  P137Handoff._atoms_from_promotion (promotion_of [record_of "" [VStr "credential_like_text"]]) P137ContractsWitness.demo_policy =
    Raise (P137Contracts.P137ContractError "prompt_or_credential_text_forbidden").
Proof. vm_compute. reflexivity. Qed.
