(* ===== verification/P137PublisherWitness.v ===== *)
(** * A publication that is cut and recovered

    A first bundle is published from small documents: once to the end, and
    once with a crash after the intent. *)

From S2P Require Import Prelude PyValue PyChecks Sha Json PyTime P137Checks P137Durable P137Handoff P137Publisher P137PublisherProps P137PublisherPhases P137PublisherHandover.
From S2P Require P137Contracts P137ContractsWitness P137Runtime.

#[local] Opaque stable_hash.

(** An observer that accepts every document. *)
Definition accepting : observer :=
  {| validate_incremental_observer_config := fun _ => Ok tt; validate_observer_runtime_authority := fun _ _ _ _ => Ok tt;
     validate_promotion_record := fun _ _ _ _ _ => Ok tt; validate_p136_release_evidence := fun _ _ => Ok tt |}.

#[export] Instance accepting_stable : StableObserver accepting.
Proof. by intros release review. Qed.

Definition demo_site : site :=
  {| st_state_path := VStr "var/p136/publisher-state.json"; st_intent_path := VStr "var/p136/publisher-intent.json";
     st_fixed_handoff_path := P137Contracts.FIXED_P136_HANDOFF_PATH; st_lease_path := None; st_lease_free := true |}.

Definition demo_entry : dict := [("entry_hash", P137ContractsWitness.demo_hash "3"); ("artifact", VStr "metrics.json")].

Definition demo_promotion : dict :=
  [("entry_hash", P137ContractsWitness.demo_hash "3"); ("promotion_key", P137ContractsWitness.demo_hash "2");
   ("p135_normalized_bundle", VDict [("records", VList [])])] ++
  map (fun key => (key, P137ContractsWitness.demo_hash "4")) BINDINGS.

Definition ascii_bytes (s : string) : list Z := map (fun c => Z.of_N (code c)) (chars s).

Definition demo_authority : authority :=
  [("contract", One (Document (VDict [("name", VStr "observer")]))); ("review_receipt", One (Document (VDict [])));
   ("receipt_ledger", One (Document (VDict []))); ("index_receipts", One (Document (VList [])));
   ("segment_receipts", One (Document (VList [VDict []]))); ("contract_bytes", One (Raw (ascii_bytes "contract")));
   ("review_receipt_bytes", One (Raw (ascii_bytes "review"))); ("receipt_ledger_bytes", One (Raw (ascii_bytes "ledger")));
   ("index_receipt_bytes", Many [Raw (ascii_bytes "index")]); ("segment_receipt_bytes", Many [Raw (ascii_bytes "{}")])].

Definition demo_inputs : inputs :=
  {| in_config := [("config_hash", P137ContractsWitness.demo_hash "a")]; in_authority := demo_authority; in_now := "2026-07-01T10:00:00Z";
     in_checkpoint := [("checkpoint_hash", P137ContractsWitness.demo_hash "b"); ("promotion_keys", VDict [])];
     in_entries := [(py_str (P137ContractsWitness.demo_hash "3"), VDict demo_entry)]; in_promotions := [VDict demo_promotion];
     in_review := [("independent_review_hash", P137ContractsWitness.demo_hash "c")];
     in_release := [("evidence_hash", P137ContractsWitness.demo_hash "d"); ("status", VStr P137Contracts.P136_QUALIFIED_RELEASE_STATUS)];
     in_created_at := "2026-07-01T10:00:00Z" |}.

Ltac wf_value :=
  repeat first [ exact I | apply List.Forall_nil | apply List.Forall_cons
               | apply val_wf_dict; split; [apply (bool_decide_unpack _); vm_compute; exact I|]
               | apply val_wf_list | progress cbn [snd field_wf item_wf] ].

Lemma demo_proper : proper demo_inputs.
Proof. split; cbn [in_config in_authority in_checkpoint in_entries in_promotions in_review in_release demo_inputs]; unfold demo_authority; wf_value. Qed.

Definition no_injector : injector := fun _ => Ok tt.
Definition empty_files : files := fun _ => None.

Definition complete_run : res dict * work := publish_p136_handoff_bundle accepting demo_site no_injector false demo_inputs (on empty_files).
Definition cut_run : res dict * work := publish_p136_handoff_bundle accepting demo_site no_injector true demo_inputs (on empty_files).

Lemma nothing_published : history accepting empty_files.
Proof. by apply nothing_yet. Qed.

Lemma held_possible w : In (held w) (possible w).
Proof. apply in_app_iff. right. by left. Qed.

Lemma complete_history : history accepting (held complete_run.2).
Proof. exact (after_publish _ _ _ _ _ _ _ nothing_published demo_proper (held_possible _)). Qed.

Lemma cut_history : history accepting (held cut_run.2).
Proof. exact (after_publish _ _ _ _ _ _ _ nothing_published demo_proper (held_possible _)). Qed.

Definition readable (fs : files) : bool :=
  forallb (fun p => match fs p with Some f => Z.of_nat (String.length (P137Runtime.text f)) <=? _MAX_PUBLISHER_JSON_BYTES | None => true end)
    [StateFile; IntentFile; FixedFile].

Lemma readable_not_oversized fs : readable fs = true -> ~ oversized fs.
Proof.
  intros H (p & f & E & Hf). apply Hf. unfold readable in H. rewrite forallb_forall in H. specialize (H p ltac:(destruct p; cbn; auto)).
  rewrite E in H. by apply Z.leb_le.
Qed.

Lemma cut_run_checked : readable (held cut_run.2) && match held cut_run.2 IntentFile with Some _ => true | None => false end = true.
Proof. vm_compute. reflexivity. Qed.

Lemma complete_run_checked : is_ok complete_run.1 && match held complete_run.2 FixedFile with Some _ => true | None => false end = true.
Proof. vm_compute. reflexivity. Qed.

Lemma demo_site_free : enter demo_site = Ok tt.
Proof. vm_compute. reflexivity. Qed.

(** ** The theorems on these runs *)

Lemma handoff_moves_along_the_chain_witness :
  history accepting (held cut_run.2) /\ proper demo_inputs /\
  Forall (chain_step accepting P137Contracts.FIXED_P136_HANDOFF_PATH (held cut_run.2))
    (possible (publish_p136_handoff_bundle accepting demo_site no_injector false demo_inputs (on (held cut_run.2))).2) /\
  Forall (chain_step accepting P137Contracts.FIXED_P136_HANDOFF_PATH (held cut_run.2))
    (possible (recover_p136_handoff_publication accepting demo_site (on (held cut_run.2))).2).
Proof.
  split; [exact cut_history|]. split; [exact demo_proper|].
  exact (handoff_moves_along_the_chain accepting (held cut_run.2) demo_site no_injector false demo_inputs cut_history demo_proper).
Defined.

(** The publication was cut after its intent; a recovery publishes the
    bundle of that intent. *)
Lemma cut_publication_is_recovered_witness : exists intent b w,
  held cut_run.2 IntentFile = Some (P137Runtime.written intent) /\ vget intent "bundle" = VDict b /\
  recover_p136_handoff_publication accepting demo_site (on (held cut_run.2)) = (Ok (dict_image b), w) /\
  settled accepting (Some b) (held w).
Proof.
  pose proof cut_run_checked as C. apply andb_true_iff in C as [Hr Hi].
  pose proof (cut_publication_is_recovered accepting (held cut_run.2) demo_site cut_history (readable_not_oversized _ Hr) demo_site_free) as H.
  destruct (held cut_run.2 IntentFile) as [f|]; [|discriminate Hi].
  destruct H as (intent & b & w & -> & H). exists intent, b, w. split; [reflexivity | exact H].
Defined.

Lemma complete_run_ok : exists d, complete_run = (Ok d, complete_run.2).
Proof.
  pose proof complete_run_checked as C. apply andb_true_iff in C as [H _]. destruct complete_run as [[d|e] w]; [eauto | discriminate].
Qed.

Lemma returned_bundle_is_published_witness : exists d b,
  publish_p136_handoff_bundle accepting demo_site no_injector false demo_inputs (on empty_files) = (Ok d, complete_run.2) /\
  (d = b \/ d = dict_image b) /\ settled accepting (Some b) (held complete_run.2).
Proof.
  destruct complete_run_ok as [d E]. exists d.
  destruct (returned_bundle_is_published accepting empty_files demo_site no_injector false demo_inputs d _ nothing_published demo_proper E) as (b & H).
  exists b. split; [exact E | exact H].
Defined.

(** A file that is too large. *)
Definition large_text : string := FloatRepr.zeros (Z.to_nat (_MAX_PUBLISHER_JSON_BYTES + 1)).
Definition large_files : files := put FixedFile (Some {| P137Runtime.text := large_text; P137Runtime.parsed := None |}) empty_files.

Lemma length_zeros n : String.length (FloatRepr.zeros n) = n.
Proof. induction n as [|n IH]; [done|]. exact (f_equal S IH). Qed.

Lemma large_does_not_fit : ~ fits {| P137Runtime.text := large_text; P137Runtime.parsed := None |}.
Proof.
  unfold fits, large_text. cbn [P137Runtime.text]. rewrite length_zeros, Z2Nat.id by discriminate. intros H. by apply H.
Qed.

Lemma oversized_bundle_is_the_last_witness :
  (exists e, publish_p136_handoff_bundle accepting demo_site no_injector false demo_inputs (on large_files) = (Raise e, on large_files)) /\
  exists e, recover_p136_handoff_publication accepting demo_site (on large_files) = (Raise e, on large_files).
Proof. exact (oversized_bundle_is_the_last accepting large_files _ demo_site no_injector false demo_inputs eq_refl large_does_not_fit). Defined.

(** The published bundle, as an agent that starts reads it. *)
Lemma published_bundle_is_handed_over_witness : exists f b json_loads config, held complete_run.2 FixedFile = Some f /\
  P137Runtime._canonical_payload_from_framed_file (P137Runtime.text f) = Ok (canonical_json_bytes b) /\
  _load_canonical_bundle_bytes json_loads (canonical_json_bytes b) = Ok (dict_image b) /\
  _validate_bundle_envelope accepting (dict_image b) config None = Ok tt.
Proof.
  pose proof complete_run_checked as C. apply andb_true_iff in C as [_ C]. destruct (held complete_run.2 FixedFile) as [f|] eqn:E; [|discriminate].
  destruct (published_bundle_is_handed_over (held complete_run.2) f complete_history E) as (b & root & _ & Hr & Hf & H).
  exists f, b, (fun _ => Some (VDict (dict_image b))),
    [("p136_handoff_bundle_path", VStr P137Contracts.FIXED_P136_HANDOFF_PATH); ("p136_handoff_chain_root_hash", VStr root)].
  split; [reflexivity|]. split; [exact Hf|]. apply (H _ _ None); [reflexivity..|]. intros c. discriminate.
Defined.

Definition demo_bundle : dict := from_ok [] (_candidate_bundle accepting P137Contracts.FIXED_P136_HANDOFF_PATH None demo_inputs).

Lemma demo_bundle_ok : _candidate_bundle accepting P137Contracts.FIXED_P136_HANDOFF_PATH None demo_inputs = Ok demo_bundle.
Proof. apply from_ok_eq. vm_compute. reflexivity. Qed.

Definition byte (b : Z) : bool := (0 <=? b) && (b <? 256).

Lemma demo_carried : Forall (fun part => some_bytes part.2) (carried demo_authority).
Proof.
  assert (H : forallb (fun part => negb (bool_decide (part.2 = [])) && forallb byte part.2) (carried demo_authority) = true) by (vm_compute; reflexivity).
  rewrite forallb_forall in H. apply List.Forall_forall. intros part Hp. specialize (H _ Hp). apply andb_true_iff in H as [H1 H2].
  split; [intros E; by rewrite (bool_decide_eq_true_2 _ E) in H1|]. rewrite forallb_forall in H2. apply List.Forall_forall.
  intros b Hb. specialize (H2 _ Hb). unfold byte in H2. lia.
Qed.

Definition empty_json : string -> option val := fun _ => Some (VDict []).

Lemma demo_segments : segments_agree empty_json demo_authority.
Proof. intros [|k] raw H; [|discriminate]. exists (VDict []), (VDict []). by split_and!. Qed.

Lemma published_bytes_come_back_witness : exists documents,
  _decoded_p136_authority empty_json (dict_image demo_bundle) = Ok (documents, carried demo_authority).
Proof. exact (published_bytes_come_back accepting _ None demo_inputs demo_bundle empty_json demo_bundle_ok demo_carried demo_segments). Defined.
